(* ===== verification/_CoqProject ===== *)
-Q . S2P
Prelude.v
GoRt.v
GoStd.v
Filepath.v
Json.v
Ip.v
Html.v
EmailTemplates.v
AuthTracker.v
Netutil.v
Store.v
Wire.v
Db.v
World.v
ThrottleSpec.v
Wf.v
Samples.v
Registry.v
Http.v
Middleware.v
Email.v
IpCheck.v
Sessions.v
Social.v
SocialSpec.v
Rewards.v
RewardsSpec.v
Dm.v
DmSpec.v
Convo.v
Calls.v
Spaces.v
SpacesSpec.v
Whiteboard.v
WhiteboardSpec.v
Rooms.v
Stories.v
CfTurn.v
Accounts.v
Retention.v
Supporters.v
Admin.v
Files.v
Status.v
Pages.v
Skype.v
Support.v
Bot.v
Raster.v
RasterSpec.v
Sheet.v
Tools.v
Sound.v
AuthCases.v
AuthHttp.v
Mux.v
Routes.v
Dispatch.v
DispatchSpec.v
StandingSpec.v
RoomsSpec.v
AccountSpec.v
LoginSpec.v
SignInSpec.v
CallSpec.v
ConvoSpec.v
AdminSpec.v
StoriesSpec.v
FilesSpec.v
SupportersSpec.v
BanSpec.v
MailSpec.v
IpSpec.v
BlobStore.v
Locks.v
Schema.v
SchemaSpec.v
Boot.v
BootSpec.v
Desktop.v
