(* ===== verification/Prelude.v ===== *)
(** * Phaze Nexus: a verification library for the chat server of [src/nexus_server]
    and the programs around it

    The program is a Go server: browsers and desktop clients hold a WebSocket,
    send JSON messages, and the server answers, relays and stores.  State lives
    in three places - a SQLite database, the fields of one [NexusServer] and a
    few package variables - and every message is handled by one case of the
    switch in [ws_handlers.go].  Beside the socket a route table serves some
    sixty HTTP endpoints (sign-in, uploads, stories, payments, the admin area),
    goroutines sweep expired rows and probe the server, and command-line tools
    and a chat bot work on the same database or over the same protocol.

    ** How the program is represented

    A Go function that reads or writes the server is a computation [M A] of
    the state monad below over [World] ([World.v]): the database, the server's
    memory, the clock, the sources of failure and randomness, the environment
    ([Env]: configuration, and every third-party library as a parameter), and
    the trace of what left the process (frames, mails, pushes, sleeps).

    - A table is a list of rows in insertion order with a row counter
      ([Store.v]); [SELECT]s without [ORDER BY] answer in that order.  Each SQL
      statement may fail, by an oracle [wFault] indexed by the statement's
      number; a transaction is all or nothing.  [CURRENT_TIMESTAMP] is the
      clock cut to the second; timestamps are nanoseconds as in Go's [time].
      Go writes a time in the host's zone and SQLite compares its text with the
      UTC [CURRENT_TIMESTAMP]; where the code does that, [asUTC] adds the
      offset of the zone ([zoneOffset], a parameter).
    - [crypto/rand] is an arbitrary stream of draws, any of which may fail.
    - One handler is one atomic step and the clock does not move inside it; the
      order of locking is looked at apart from that, in [Locks].  Requests
      that the code does not serialise are interleaved explicitly where that
      matters ([openSpend], [craftCommit]).
    - Connections are addresses in a heap, so that two registry entries can
      alias one connection, as with Go pointers.
    - Integers: row ids and counters are Z; the message metrics wrap at 2^64;
      [strconv] parses to the int64 range; Go strings are byte strings.
    - Logging is left out; goroutines that only send a mail or a push run in
      place, as events of the trace.

    ** Files and what they model

    - [Prelude]: the monad, frame reasoning ([respects R m]: whatever [m] does
      is [R]-related to where it started) with its tactics and hint database,
      list facts.  [GoRt]: Go's byte-string, [strconv], UTF-8 and hex functions
      and the name validators of [main.go].  [GoStd], [Filepath], [Html], [Json],
      [Ip]: further library functions, as documented: [path/filepath],
      [html.EscapeString], decoding of JSON into structs, [net.ParseIP] and
      [ParseCIDR].
    - [Store] (tables), [Db] (the schema of [main.go], [rewards.go],
      [stories.go]), [Wire] ([NexusMessage]), [World] (server state, effects),
      [Wf] (the database invariant: every key of the schema), [Samples] (a
      small state to evaluate on).  [Schema]: the statements of [initDB] and
      [initRewardsDB] over a catalog of tables, columns and indexes.
    - [AuthTracker] ([authtracker.go]), [Netutil] and [Http] ([netutil.go]),
      [EmailTemplates] ([email_templates.go], byte for byte), [Email] ([email.go],
      [emailcheck.go]: the request or SMTP text each transport makes and the
      error it returns), [IpCheck] ([ipcheck.go]).
    - [Registry] ([clients.go], [calls.go], [callsignal.go]), [Sessions]
      ([session.go], [devices.go]), [Accounts] ([main.go], [totp.go]),
      [Social] ([main.go], [presence.go]), [Rewards]
      ([rewards.go], [referrals.go]), [Dm], [Convo], [Calls], [Spaces],
      [Whiteboard] ([whiteboard.go]) and [Rooms]: the operations of each
      component and, in each, the [case_...] definitions that are the cases of
      [ws_handlers.go] about it.
    - [Stories] ([stories.go]), [CfTurn] ([cfturn.go]), [Retention]
      ([data_retention.go]), [Supporters] ([supporters.go]), [Admin] (the admin
      handlers of [main.go] and [supporters.go]), [Files] ([blobstore.go],
      [avatars.go], uploads and downloads, over one map of blobs), [BlobStore]
      ([blobstore.go]: the two stores behind that map, the disk system call by
      system call, the bucket with requests that fail before or after they
      took effect), [Status] ([status_page.go], health,
      metrics, versions), [Pages] (profile, export, reset form, static pages,
      [cmd/seed-admin]), [Skype] ([skype_import.go]), [Support] ([support.go]),
      [Middleware] ([middleware.go]).
    - [AuthCases]: the cases that sign in, register and manage an account.
      [AuthHttp]: [auth_http.go].
    - [Mux], [Routes]: [http.ServeMux], the file servers, and the route table of
      [main]; [serve] is one HTTP request.
    - [Dispatch]: admission, the switch, the loop of one connection and the
      [Machine] of all of them, with every HTTP request, the sweepers and the
      tools beside it as [task]s.  [Boot]: [resolveWorkingDir], the settings and
      the order of [main] up to the point where it serves or dies.
    - [Locks]: every critical section of the server as its lock operations, and
      goroutines interleaving them under the rules of [sync.RWMutex].
    - Programs of their own: [Bot] ([nova_bot/main.go]), [Raster] and [Sheet]
      ([cmd/emoticongen]), [Tools] ([cmd/fetch-seed], the encoder of
      [cmd/soundgen]), [Sound] (the synthesis of [cmd/soundgen] in binary64,
      with the specification floats of the Standard Library), [Desktop]
      ([src/desktop]).
    - [...Spec] files hold the properties and the proofs they need.

    ** What the theorems show

    - Who may act ([DispatchSpec], [StandingSpec], [LoginSpec], [Sessions]):
      an identity is earned by password and second factor, a live token or an
      approved QR code; without one only the public messages do anything;
      frames carry the authenticated sender, with the exceptions that
      [sender_authentic] lists, of which one is a forgery ([call_end_forged]);
      without standing in a space, group or board its messages change nothing;
      over HTTP a password alone signs no new device in (the message loop has
      no such gate, [ws_auth_not_held]); the six-digit device code cannot be
      guessed.
    - The owner gets in ([SignInSpec]): half an hour after the last failure
      counted against the address or the account, whatever others did since,
      the right credentials from an approved device open a session.
    - The admin area ([AdminSpec]): through the whole route table, nothing
      happens without a live staff session, and roles change only downwards
      from the actor's own.
    - A ban ([BanSpec]) takes effect at once on the account, its sessions and
      its connections, which are told and closed, and on nobody else; while it
      stands it keeps the account out of every sign-in but two
      ([qr_login_ignores_ban], [admin_login_ignores_ban]).
    - Every reachable state satisfies the schema's keys, the column types and
      the exact per-address connection cap ([reachable_invariant],
      [columns_typed]).
    - Accounts ([AccountSpec]): password resets, erasure (which rows of which
      tables, exactly), recovery codes, replay of time-based codes, each with
      the statements that may fail.
    - Messages ([DmSpec], [ConvoSpec], [CallSpec], [SocialSpec]): abstract
      machines for a direct message and for the friendship graph and their
      refinement; delivery live or queued and to nobody else; the rules of
      group membership; call signals stay within the call.
    - Rewards ([Rewards], [RewardsSpec]): published odds, pity ceiling, exact
      accounting of crates and shards, limits of referrals.
    - Files, stories, payments, relays ([FilesSpec], [StoriesSpec],
      [SupportersSpec], [CfTurn], [Status]): an upload is stored under a name
      drawn for it and comes back byte for byte, and nothing leaves its prefix;
      how long a story is visible; on a host that is not west of UTC the
      sweepers are invisible to the readers that check the expiry themselves
      ([swept_story_reply] and [west_sweeps_early] are what remains); what each
      webhook delivery does to badges, requests and payments; relay credentials are fresh and usable; the status page counts the
      last day.
    - Mail ([MailSpec]): whatever is filled in, the markup of a templated mail
      is fixed, and what a server reads off the wire of an SMTP message has the
      five headers the code writes and the lines of the body; a device code reported as sent was accepted by a transport.
    - Addresses ([IpSpec]): an allowlist entry is a prefix test; the private
      ranges are the listed ones.
    - Storage ([BlobStore], [SchemaSpec]): both blob stores implement one
      machine ([blobStore], a class) whatever fails, the bucket with writes in
      flight whose reply was lost; a start brings any older
      database, also after a start that was cut short, to the full schema and
      loses nothing.
    - Locking ([Locks]): with the exception of two read locks that are taken
      twice, the critical sections never deadlock.
    - Start-up ([BootSpec]): which roles a start gives, where the process
      works, how [main] can end.
    - The other programs: Nova answers only what others wrote ([Bot]); the seed
      import is all or nothing, WAV files decode to their samples ([Tools]);
      line drawing terminates and is a digital segment ([RasterSpec]); every
      frame is where the sheet's table says ([Sheet]); no tone of a sound is cut
      off ([Sound]); closing the window ends the desktop application on Linux
      and nowhere else ([Desktop]).
    - Bounds and quotas ([ThrottleSpec], [SpacesSpec], [WhiteboardSpec],
      [RoomsSpec]): the throttles count failures in fixed windows, exactly;
      tables stay within their caps; paging back through a channel shows
      everything once; the last registration of a user takes them out of every
      room and stream ([reauth_leaves_ghost] and [deleted_account_stays] are
      the two ways past it).
    - Where the code does something else than its documentation, the theorem
      states what it does: [craft_race_overspends], [call_end_forged],
      [login_hold_fails_open], [settings_quota], [deliverOffline_exact],
      [deleteAccount_erases], [story_visible], [public_serves_uploads],
      [unsigned_webhook_grants], [challenge_mail_injects], [vpn_verdict_sticks],
      [rotation_never_demotes], [close_behaviour], [reentrant_read_deadlocks],
      [five_failures_unthrottled] and those named above.

    ** Bounds and fuel

    [digits_fuel 20] covers every int64 (at most nineteen digits); the UTF-8,
    [ReplaceAll], [Fields], tag and entity loops use the byte length of their
    input, and every step consumes a byte.  [lineFuel] is the number of passes
    of the line loop, which [drawLine_terminates] proves to be enough.  [ipv6Loop 8] reads at most
    eight groups, which is all an address has.  The
    pity ceiling, the message loop and the cache of relay credentials are
    inductions on histories of any length.

    ** What is not modelled

    The admin portal's page and the built-in landing page, which are HTML
    constants (a handler's answer carries the page's name and arguments);
    directory listings of the file servers; [math.Sin] and [math.Cos], which
    are parameters of [Sound] and [Raster]; the types and defaults of columns
    beyond what the rows of [Db] say; the answers of mail services, address
    databases, buckets, Sentry and Firebase; what the GUI libraries do with the
    calls of the desktop shell; the web client; the directories that the disk
    store and the seed import make; data races, and the
    interleaving of what two handlers compute between their critical
    sections. *)

From Stdlib Require Import ZArith Lia.
From stdpp Require Import base strings list gmap.

#[global] Set Default Proof Using "Type".
Open Scope Z_scope.

(** ** A state monad for the handlers

    A Go function that reads and writes the server is a function from the
    world before the call to its results and the world after it. *)

Definition ST (S A : Type) : Type := S -> A * S.

Definition ret {S A} (a : A) : ST S A := fun s => (a, s).

Definition bind {S A B} (m : ST S A) (k : A -> ST S B) : ST S B :=
  fun s => let r := m s in k r.1 r.2.

Lemma bind_run {S A B} (m : ST S A) (k : A -> ST S B) s : bind m k s = k (m s).1 (m s).2.
Proof. reflexivity. Qed.
Lemma ret_run {S A} (a : A) (s : S) : ret a s = (a, s).
Proof. reflexivity. Qed.

Declare Scope go_scope.
Delimit Scope go_scope with go.

Notation "'let*' x ':=' m 'in' k" := (bind m (fun x => k))
  (at level 10, x binder, m at level 100, k at level 200) : go_scope.
Notation "m ';;;' k" := (bind m (fun _ => k))
  (at level 100, right associativity) : go_scope.
Open Scope go_scope.

(** [for _, x := range l { f(x) }] *)
Fixpoint forM {S A} (l : list A) (f : A -> ST S unit) : ST S unit :=
  match l with
  | [] => ret tt
  | x :: l' => f x ;;; forM l' f
  end.

Lemma forM_cons {S A} (f : A -> ST S unit) x l s : forM (x :: l) f s = forM l f (f x s).2.
Proof. reflexivity. Qed.

(** A loop that threads an accumulator. *)
Fixpoint foldM {S A B} (f : B -> A -> ST S B) (b : B) (l : list A) : ST S B :=
  match l with
  | [] => ret b
  | x :: l' => let* b' := f b x in foldM f b' l'
  end.

Definition when {S} (b : bool) (m : ST S unit) : ST S unit :=
  if b then m else ret tt.

(** Reading and updating the state through a function. *)
Definition gets {S A} (f : S -> A) : ST S A := fun s => (f s, s).
Definition modify {S} (f : S -> S) : ST S unit := fun s => (tt, f s).

Lemma gets_run {S A} (f : S -> A) s : gets f s = (f s, s).
Proof. reflexivity. Qed.
Lemma modify_run {S} (f : S -> S) s : modify f s = (tt, f s).
Proof. reflexivity. Qed.

(** ** Frame reasoning

    [respects R m]: whatever state [m] starts from, the state it ends in is
    [R]-related to it.  With [R] a preorder this composes through sequencing,
    branching and loops, so a frame or an invariant of a whole handler is
    derived from the primitives it calls. *)

Definition respects {S A} (R : S -> S -> Prop) (m : ST S A) : Prop :=
  forall s, R s (m s).2.

(** Preservation of a state predicate is the preorder of implication. *)
Definition keeps {S} (I : S -> Prop) : S -> S -> Prop := fun s s' => I s -> I s'.

#[export] Instance keeps_preorder {S} (I : S -> Prop) : PreOrder (keeps I).
Proof. split; unfold keeps; repeat intro; auto. Qed.

(** The preorder of "this projection is unchanged". *)
Definition same {S X} (f : S -> X) : S -> S -> Prop := fun s s' => f s' = f s.

#[export] Instance same_preorder {S X} (f : S -> X) : PreOrder (same f).
Proof. split; unfold same; repeat intro; congruence. Qed.

(** Two frames at once. *)
Definition both {S} (R1 R2 : S -> S -> Prop) : S -> S -> Prop :=
  fun s s' => R1 s s' /\ R2 s s'.

#[export] Instance both_preorder {S} (R1 R2 : S -> S -> Prop)
  `{!PreOrder R1, !PreOrder R2} : PreOrder (both R1 R2).
Proof.
  split; unfold both.
  - intros s. split; reflexivity.
  - intros s1 s2 s3 [A B] [C D]. split; etransitivity; eauto.
Qed.

Create HintDb frame discriminated.
#[export] Hint Constants Opaque : frame.

Section Respects.
Context {S : Type} (R : S -> S -> Prop) `{HR : !PreOrder R}.

Lemma respects_ret {A} (a : A) : respects R (ret a).
Proof using HR. intros s. simpl. reflexivity. Qed.

Lemma respects_gets {A} (f : S -> A) : respects R (gets f).
Proof using HR. intros s. simpl. reflexivity. Qed.

Lemma respects_bind {A B} (m : ST S A) (k : A -> ST S B) :
  respects R m -> (forall a, respects R (k a)) -> respects R (bind m k).
Proof using HR.
  intros Hm Hk s. unfold bind. etransitivity; [apply Hm | apply Hk].
Qed.

Lemma respects_when (b : bool) (m : ST S unit) :
  respects R m -> respects R (when b m).
Proof using HR. intros Hm. destruct b; [exact Hm | apply respects_ret]. Qed.

Lemma respects_forM {A} (l : list A) (f : A -> ST S unit) :
  (forall x, respects R (f x)) -> respects R (forM l f).
Proof using HR.
  intros Hf. induction l as [|x l IH]; simpl.
  - apply respects_ret.
  - apply respects_bind; auto.
Qed.

Lemma respects_forM_in {A} (l : list A) (f : A -> ST S unit) :
  (forall x, x ∈ l -> respects R (f x)) -> respects R (forM l f).
Proof using HR.
  intros Hf. induction l as [|x l IH]; simpl.
  - apply respects_ret.
  - apply respects_bind.
    + apply Hf. left.
    + intros _. apply IH. intros y Hy. apply Hf. by right.
Qed.

Lemma respects_foldM {A B} (f : B -> A -> ST S B) (b : B) (l : list A) :
  (forall b x, respects R (f b x)) -> respects R (foldM f b l).
Proof using HR.
  intros Hf. revert b. induction l as [|x l IH]; intros b; simpl.
  - apply respects_ret.
  - apply respects_bind; auto.
Qed.
End Respects.

#[export] Hint Resolve respects_ret respects_gets : frame.
#[export] Hint Extern 5 (PreOrder _) => typeclasses eauto : frame.

(** Structural steps of a frame proof; what is left are the primitives, which
    the [frame] database knows. *)
Ltac frame_step :=
  lazymatch goal with
  | |- respects _ (bind _ _) => apply respects_bind; [try typeclasses eauto | | intros ?]
  | |- respects _ (when _ _) => apply respects_when; [try typeclasses eauto | ]
  | |- respects _ (forM _ _) => apply respects_forM; [try typeclasses eauto | intros ?]
  | |- respects _ (foldM _ _ _) => apply respects_foldM; [try typeclasses eauto | intros ? ?]
  | |- respects _ (ret _) => apply respects_ret; typeclasses eauto
  | |- respects _ (gets _) => apply respects_gets; typeclasses eauto
  | |- respects _ (if ?b then _ else _) => destruct b eqn:?
  | |- respects _ (match ?x with _ => _ end) => destruct x eqn:?
  | |- respects _ (let _ := _ in _) => cbv zeta
  end.

Ltac frame := repeat (first [ frame_step | solve [eauto 4 with frame] ]).

(** When no hint knows an operation, look at its definition. *)
Ltac head_of t := match t with ?f _ => head_of f | _ => t end.

Ltac frame_deep :=
  repeat (first [ frame_step | solve [eauto 4 with frame]
                | progress (lazymatch goal with
                  | |- respects _ ?m => let h := head_of m in unfold h
                  end) ]).

(** ** Record update

    [upd r eta proj v] rebuilds the record [r] from its eta-expansion, with
    the field [proj] replaced by [v]. *)

Ltac upd r eta proj v :=
  let e := eval cbv beta delta [eta] in (eta r) in
  let p := eval pattern (proj r) in e in
  match p with
  | ?F _ => let t := eval cbv beta in (F v) in exact t
  end.

(** ** Lists *)

(** The first element satisfying a boolean predicate. *)
Fixpoint find_first {A} (p : A -> bool) (l : list A) : option A :=
  match l with
  | [] => None
  | x :: l' => if p x then Some x else find_first p l'
  end.

Definition boolfilter {A} (p : A -> bool) (l : list A) : list A :=
  filter (fun x => p x = true) l.

(** The cases of membership in a literal list. *)
Ltac elem_cases H :=
  lazymatch type of H with
  | _ ∈ [] => apply elem_of_nil in H; destruct H
  | _ ∈ _ :: _ => apply elem_of_cons in H as [H|H]; [rewrite H in *; clear H | elem_cases H]
  end.

(** A property of every element of a literal list. *)
Ltac forall_list tac := repeat first [apply Forall_nil_2 | apply Forall_cons_2; [tac|]].

Section ListFacts.
Context {A : Type}.
Implicit Types (p : A -> bool) (l : list A).

Lemma find_first_Some p l x : find_first p l = Some x -> x ∈ l /\ p x = true.
Proof.
  induction l as [|y l IH]; simpl; [done|].
  destruct (p y) eqn:E; intros H.
  - injection H as ->. split; [left | done].
  - destruct (IH H). split; [by right | done].
Qed.

Lemma find_first_None p l : find_first p l = None <-> forall x, x ∈ l -> p x = false.
Proof.
  induction l as [|y l IH]; simpl.
  - split; [intros _ x Hx; by apply elem_of_nil in Hx | done].
  - destruct (p y) eqn:E; split.
    + done.
    + intros H. rewrite (H y) in E; [done | left].
    + intros H x Hx. apply elem_of_cons in Hx as [-> | Hx]; [done|].
      by apply IH.
    + intros H. apply IH. intros x Hx. apply H. by right.
Qed.

Lemma elem_of_boolfilter p l x : x ∈ boolfilter p l <-> p x = true /\ x ∈ l.
Proof. unfold boolfilter. by rewrite list_elem_of_filter. Qed.

Lemma boolfilter_sublist p l : boolfilter p l `sublist_of` l.
Proof. apply sublist_filter. Qed.

Lemma boolfilter_cons p x l :
  boolfilter p (x :: l) = if p x then x :: boolfilter p l else boolfilter p l.
Proof.
  unfold boolfilter. rewrite filter_cons.
  destruct (p x); [by rewrite decide_True | by rewrite decide_False].
Qed.

Lemma boolfilter_app p l k : boolfilter p (l ++ k) = boolfilter p l ++ boolfilter p k.
Proof. apply filter_app. Qed.

Lemma boolfilter_and p q l :
  boolfilter (fun x => p x && q x) l = boolfilter q (boolfilter p l).
Proof.
  induction l as [|x l IH]; [done|]. rewrite !boolfilter_cons.
  destruct (p x); simpl; [|done]. rewrite boolfilter_cons. by rewrite IH.
Qed.

Lemma boolfilter_ext p q l : (forall x, x ∈ l -> p x = q x) -> boolfilter p l = boolfilter q l.
Proof.
  induction l as [|x l IH]; intros H; [done|]. rewrite !boolfilter_cons, IH.
  - by rewrite (H x) by left.
  - intros y Hy. apply H. by right.
Qed.

Lemma boolfilter_true p l : Forall (fun x => p x = true) l -> boolfilter p l = l.
Proof. induction 1 as [|x l Hx _ IH]; [done|]. by rewrite boolfilter_cons, Hx, IH. Qed.

Lemma boolfilter_false p l : Forall (fun x => p x = false) l -> boolfilter p l = [].
Proof. induction 1 as [|x l Hx _ IH]; [done|]. by rewrite boolfilter_cons, Hx, IH. Qed.

Lemma length_boolfilter_le p l : (length (boolfilter p l) <= length l)%nat.
Proof. apply sublist_length, boolfilter_sublist. Qed.
End ListFacts.

Lemma NoDup_fmap_sublist {A B} (f : A -> B) (l k : list A) :
  l `sublist_of` k -> NoDup (f <$> k) -> NoDup (f <$> l).
Proof. intros Hs Hn. eapply sublist_NoDup; [exact Hn|]. by apply fmap_sublist. Qed.

(** ** Strings as Go byte strings *)

Definition len (s : string) : Z := Z.of_nat (String.length s).

Definition is_empty (s : string) : bool := bool_decide (s = "").

Notation "s '==?' t" := (bool_decide (s = t)) (at level 70) : go_scope.

Lemma eqb_refl_dec `{EqDecision A} (x : A) : (x ==? x) = true.
Proof. by apply bool_decide_eq_true. Qed.

Lemma eqb_neq_dec `{EqDecision A} (x y : A) : x <> y -> (x ==? y) = false.
Proof. intros. by apply bool_decide_eq_false. Qed.

Create Rewrite HintDb bools.
#[export] Hint Rewrite @bool_decide_eq_true @bool_decide_eq_false : bools.

(** Turn the booleans of the code's conditions into propositions. *)
Ltac bools :=
  repeat match goal with
  | H : _ && _ = true |- _ => apply andb_true_iff in H as [? ?]
  | H : _ || _ = false |- _ => apply orb_false_iff in H as [? ?]
  | H : negb _ = true |- _ => apply negb_true_iff in H
  | H : negb _ = false |- _ => apply negb_false_iff in H
  | H : bool_decide _ = true |- _ => apply bool_decide_eq_true in H
  | H : bool_decide _ = false |- _ => apply bool_decide_eq_false in H
  | H : (_ <? _) = true |- _ => apply Z.ltb_lt in H
  | H : (_ <? _) = false |- _ => apply Z.ltb_ge in H
  | H : (_ <=? _) = true |- _ => apply Z.leb_le in H
  | H : (_ <=? _) = false |- _ => apply Z.leb_gt in H
  | H : (_ =? _) = true |- _ => apply Z.eqb_eq in H
  | H : (_ =? _) = false |- _ => apply Z.eqb_neq in H
  end.

(** ** Durations, in nanoseconds as in Go's [time] package *)

Definition Millisecond : Z := 1000000.
Definition Second : Z := 1000000000.
Definition Minute : Z := 60 * Second.
Definition Hour : Z := 60 * Minute.
