(* ===== verification/GoRt.v ===== *)
(** * The part of Go's standard library the server's logic depends on

    Byte-string functions of [strings] and [strconv], UTF-8 decoding for the
    regular expressions that range over runes, and the three validators built
    on them ([validUsername], [validChannelName], [validServerName] of
    [main.go]).  A Go string is a byte string, so [string] is a list of bytes
    and [len] counts bytes. *)

From Stdlib Require Import ZArith Lia Ascii.
From stdpp Require Import base strings list gmap.
From S2P Require Import Prelude.

Open Scope string_scope.
Open Scope list_scope.
Open Scope Z_scope.

(** ** Bytes *)

Definition byte_of (a : ascii) : Z := Z.of_nat (nat_of_ascii a).
Definition of_byte (z : Z) : ascii := ascii_of_nat (Z.to_nat z).

Fixpoint bytes (s : string) : list Z :=
  match s with
  | EmptyString => []
  | String a s' => byte_of a :: bytes s'
  end.

Fixpoint of_bytes (l : list Z) : string :=
  match l with
  | [] => EmptyString
  | z :: l' => String (of_byte z) (of_bytes l')
  end.

Definition in_range (lo hi z : Z) : bool := (lo <=? z) && (z <=? hi).

Definition is_digit (z : Z) : bool := in_range 48 57 z.
Definition is_lower (z : Z) : bool := in_range 97 122 z.
Definition is_upper (z : Z) : bool := in_range 65 90 z.

(** ** [strings] *)

Definition HasPrefix (s pre : string) : bool := String.prefix pre s.

Definition Contains (s sub : string) : bool :=
  match String.index 0 sub s with Some _ => true | None => false end.

Fixpoint drop_bytes (n : nat) (s : string) : string :=
  match n, s with
  | S n', String _ s' => drop_bytes n' s'
  | _, _ => s
  end.

Fixpoint take_bytes (n : nat) (s : string) : string :=
  match n, s with
  | S n', String a s' => String a (take_bytes n' s')
  | _, _ => EmptyString
  end.

Definition TrimPrefix (s pre : string) : string :=
  if HasPrefix s pre then drop_bytes (String.length pre) s else s.

Definition HasSuffix (s suf : string) : bool :=
  (len suf <=? len s) && (drop_bytes (String.length s - String.length suf) s ==? suf).

(** [strings.Index] for a one-byte separator; -1 when absent. *)
Fixpoint IndexByte (s : string) (c : ascii) : Z :=
  match s with
  | EmptyString => -1
  | String a s' =>
      if bool_decide (a = c) then 0
      else let i := IndexByte s' c in if i <? 0 then -1 else i + 1
  end.

Fixpoint LastIndexByte (s : string) (c : ascii) : Z :=
  match s with
  | EmptyString => -1
  | String a s' =>
      let i := LastIndexByte s' c in
      if 0 <=? i then i + 1 else if bool_decide (a = c) then 0 else -1
  end.

(** [strings.Split] for a one-byte separator: never empty. *)
Fixpoint Split (s : string) (c : ascii) : list string :=
  match s with
  | EmptyString => [""]
  | String a s' =>
      if bool_decide (a = c) then "" :: Split s' c
      else match Split s' c with
           | [] => [String a ""]
           | w :: ws => String a w :: ws
           end
  end.

(** The byte sequences of [unicode.IsSpace], leading at the head of a string:
    ASCII space and \t..\r, then the UTF-8 encodings of U+0085, U+00A0,
    U+1680, U+2000..U+200A, U+2028, U+2029, U+202F, U+205F and U+3000. *)
Definition ascii_space (z : Z) : bool := (z =? 32) || in_range 9 13 z.

Definition space3 (a b c : Z) : bool :=
  ((a =? 225) && (b =? 154) && (c =? 128))
  || ((a =? 226) && (b =? 128) && (in_range 128 138 c || (c =? 168) || (c =? 169) || (c =? 175)))
  || ((a =? 226) && (b =? 129) && (c =? 159))
  || ((a =? 227) && (b =? 128) && (c =? 128)).

Definition space2 (a b : Z) : bool := (a =? 194) && ((b =? 133) || (b =? 160)).

Fixpoint trim_left (l : list Z) : list Z :=
  match l with
  | a :: l1 =>
      if ascii_space a then trim_left l1 else
      match l1 with
      | b :: l2 =>
          if space2 a b then trim_left l2 else
          match l2 with
          | c :: l3 => if space3 a b c then trim_left l3 else l
          | [] => l
          end
      | [] => l
      end
  | [] => []
  end.

(** The same on the reversed string, where the encodings read backwards. *)
Fixpoint trim_right_rev (l : list Z) : list Z :=
  match l with
  | a :: l1 =>
      if ascii_space a then trim_right_rev l1 else
      match l1 with
      | b :: l2 =>
          if space2 b a then trim_right_rev l2 else
          match l2 with
          | c :: l3 => if space3 c b a then trim_right_rev l3 else l
          | [] => l
          end
      | [] => l
      end
  | [] => []
  end.

Definition TrimSpace (s : string) : string :=
  of_bytes (rev (trim_right_rev (rev (trim_left (bytes s))))).

(** [strings.ToLower].  ASCII letters are folded, and so are the two
    non-ASCII runes that fold into ASCII (U+0130 and U+212A); the remaining
    Unicode case pairs are left alone. *)
Fixpoint lower_bytes (l : list Z) : list Z :=
  match l with
  | 196 :: 176 :: l' => 105 :: lower_bytes l'
  | 226 :: 132 :: 170 :: l' => 107 :: lower_bytes l'
  | a :: l' => (if is_upper a then a + 32 else a) :: lower_bytes l'
  | [] => []
  end.

Definition ToLower (s : string) : string := of_bytes (lower_bytes (bytes s)).

(** ** [unicode/utf8]: the runes of a string; an invalid byte is U+FFFD *)

Definition cont (z : Z) : bool := in_range 128 191 z.

Fixpoint runes_fuel (fuel : nat) (l : list Z) : list Z :=
  match fuel, l with
  | S f, a :: l1 =>
      if a <? 128 then a :: runes_fuel f l1 else
      match l1 with
      | b :: l2 =>
          if in_range 194 223 a && cont b
          then ((a - 192) * 64 + (b - 128)) :: runes_fuel f l2 else
          match l2 with
          | c :: l3 =>
              let r := (a - 224) * 4096 + (b - 128) * 64 + (c - 128) in
              if in_range 224 239 a && cont b && cont c
                 && (2048 <=? r) && negb (in_range 55296 57343 r)
              then r :: runes_fuel f l3 else
              match l3 with
              | d :: l4 =>
                  let q := (a - 240) * 262144 + (b - 128) * 4096
                           + (c - 128) * 64 + (d - 128) in
                  if in_range 240 244 a && cont b && cont c && cont d
                     && in_range 65536 1114111 q
                  then q :: runes_fuel f l4
                  else 65533 :: runes_fuel f l1
              | [] => 65533 :: runes_fuel f l1
              end
          | [] => 65533 :: runes_fuel f l1
          end
      | [] => 65533 :: runes_fuel f l1
      end
  | _, _ => []
  end.

(** Every step consumes a byte, so the length is enough fuel. *)
Definition runes (s : string) : list Z := runes_fuel (String.length s) (bytes s).

(** The UTF-8 encoding of a rune ([strings.Builder.WriteRune]). *)
Definition encode_rune (r : Z) : list Z :=
  if r <? 128 then [r]
  else if r <? 2048 then [192 + r / 64; 128 + r mod 64]
  else if r <? 65536 then [224 + r / 4096; 128 + r / 64 mod 64; 128 + r mod 64]
  else [240 + r / 262144; 128 + r / 4096 mod 64; 128 + r / 64 mod 64; 128 + r mod 64].

(** ** The name validators of [main.go] *)

(** [^[a-zA-Z0-9_.-]{3,32}$] *)
Definition username_char (z : Z) : bool :=
  is_lower z || is_upper z || is_digit z || (z =? 95) || (z =? 46) || (z =? 45).

Definition validUsername (u : string) : bool :=
  in_range 3 32 (len u) && forallb username_char (bytes u).

(** [^[a-z0-9][a-z0-9\-_]{1,31}$] *)
Definition validChannelName (n : string) : bool :=
  match bytes n with
  | a :: l =>
      (is_lower a || is_digit a) && in_range 1 31 (Z.of_nat (length l))
      && forallb (fun z => is_lower z || is_digit z || (z =? 45) || (z =? 95)) l
  | [] => false
  end.

(** [^[\p{L}\p{N}][\p{L}\p{N} _\-\.']{1,63}$]; [unicodeLN] is the table of
    letters and numbers outside ASCII. *)
Definition rune_LN (unicodeLN : Z -> bool) (r : Z) : bool :=
  if r <? 128 then is_lower r || is_upper r || is_digit r else unicodeLN r.

Definition validServerName (unicodeLN : Z -> bool) (n : string) : bool :=
  match runes n with
  | a :: l =>
      rune_LN unicodeLN a && in_range 1 63 (Z.of_nat (length l))
      && forallb (fun r => rune_LN unicodeLN r || (r =? 32) || (r =? 95)
                           || (r =? 45) || (r =? 46) || (r =? 39)) l
  | [] => false
  end.

(** ** [strconv] *)

Definition int64_max : Z := 9223372036854775807.
Definition int64_min : Z := -9223372036854775808.

Fixpoint digits_fuel (fuel : nat) (n : Z) (acc : list Z) : list Z :=
  match fuel with
  | O => acc
  | S f => let acc' := (48 + n mod 10) :: acc in
           if n <? 10 then acc' else digits_fuel f (n / 10) acc'
  end.

(** Twenty digits hold every 64-bit magnitude. *)
Definition Itoa (n : Z) : string :=
  of_bytes (if n <? 0 then 45 :: digits_fuel 20 (- n) [] else digits_fuel 20 n []).

(** [fmt.Sprintf("%0kd", n)] for a non-negative [n]. *)
Definition pad0 (k : nat) (n : Z) : string :=
  of_bytes (replicate (k - String.length (Itoa n)) 48) +:+ Itoa n.

(** The proleptic Gregorian date of a day number (day 0 is 1970-01-01):
    days are counted from 1 March of year 0 in eras of 400 years. *)
Definition civil (day : Z) : Z * Z * Z :=
  let z := day + 719468 in
  let era := z / 146097 in
  let doe := z mod 146097 in
  let yoe := (doe - doe / 1460 + doe / 36524 - doe / 146096) / 365 in
  let doy := doe - (365 * yoe + yoe / 4 - yoe / 100) in
  let mp := (5 * doy + 2) / 153 in
  let d := doy - (153 * mp + 2) / 5 + 1 in
  let m := if mp <? 10 then mp + 3 else mp - 9 in
  (yoe + era * 400 + (if m <=? 2 then 1 else 0), m, d).

(** [t.UTC().Format("2006-01-02 15:04:05 UTC")]; [t] in nanoseconds. *)
Definition FormatUTC (t : Z) : string :=
  let sec := t / Second in
  let '(y, m, d) := civil (sec / 86400) in
  let s := sec mod 86400 in
  pad0 4 y +:+ "-" +:+ pad0 2 m +:+ "-" +:+ pad0 2 d +:+ " "
  +:+ pad0 2 (s / 3600) +:+ ":" +:+ pad0 2 (s / 60 mod 60) +:+ ":" +:+ pad0 2 (s mod 60) +:+ " UTC".

(** A [DATETIME] column scanned into a string: [t.Format(time.RFC3339Nano)];
    the stored times are whole seconds. *)
Definition FormatRFC3339 (t : Z) : string :=
  let sec := t / Second in
  let '(y, m, d) := civil (sec / 86400) in
  let s := sec mod 86400 in
  pad0 4 y +:+ "-" +:+ pad0 2 m +:+ "-" +:+ pad0 2 d +:+ "T"
  +:+ pad0 2 (s / 3600) +:+ ":" +:+ pad0 2 (s / 60 mod 60) +:+ ":" +:+ pad0 2 (s mod 60) +:+ "Z".

Fixpoint parse_digits (l : list Z) (acc : Z) : option Z :=
  match l with
  | [] => Some acc
  | d :: l' => if is_digit d then parse_digits l' (acc * 10 + (d - 48)) else None
  end.

(** [strconv.ParseInt(s, 10, 64)]: [None] for a syntax or range error. *)
Definition ParseInt (s : string) : option Z :=
  let '(neg, ds) := match bytes s with
                    | 45 :: l => (true, l)
                    | 43 :: l => (false, l)
                    | l => (false, l)
                    end in
  match ds with
  | [] => None
  | _ => match parse_digits ds 0 with
         | None => None
         | Some v => let n := if neg : bool then - v else v in
                     if in_range int64_min int64_max n then Some n else None
         end
  end.

(** ** [encoding/hex] *)

Definition hex_digit (z : Z) : Z := if z <? 10 then 48 + z else 87 + z.

Fixpoint hex_bytes (l : list Z) : list Z :=
  match l with
  | [] => []
  | b :: l' => hex_digit (b / 16) :: hex_digit (b mod 16) :: hex_bytes l'
  end.

Definition EncodeToString (l : list Z) : string := of_bytes (hex_bytes l).

(** ** [url.QueryEscape] *)

Definition hex_upper (z : Z) : Z := if z <? 10 then 48 + z else 55 + z.

Definition query_unreserved (z : Z) : bool :=
  is_lower z || is_upper z || is_digit z || (z =? 45) || (z =? 95) || (z =? 46) || (z =? 126).

Fixpoint query_bytes (l : list Z) : list Z :=
  match l with
  | [] => []
  | b :: l' =>
      (if query_unreserved b then [b] else if b =? 32 then [43]
       else [37; hex_upper (b / 16); hex_upper (b mod 16)]) ++ query_bytes l'
  end.

Definition QueryEscape (s : string) : string := of_bytes (query_bytes (bytes s)).

(** ** Facts *)

Lemma length_bytes s : length (bytes s) = String.length s.
Proof. induction s as [|a s IH]; simpl; congruence. Qed.

Lemma bytes_app s t : bytes (s +:+ t) = bytes s ++ bytes t.
Proof.
  induction s as [|a s IH]; [done|].
  change (byte_of a :: bytes (s +:+ t) = byte_of a :: (bytes s ++ bytes t)). by rewrite IH.
Qed.

Lemma bytes_of_bytes l : Forall (fun z => 0 <= z < 256) l -> bytes (of_bytes l) = l.
Proof.
  induction 1 as [|z l Hz _ IH]; simpl; [done|]. f_equal; [|done].
  unfold byte_of, of_byte. rewrite nat_ascii_embedding; lia.
Qed.

Lemma length_of_bytes l : String.length (of_bytes l) = length l.
Proof. induction l as [|z l IH]; simpl; congruence. Qed.

Lemma bytes_range s : Forall (fun z => 0 <= z < 256) (bytes s).
Proof.
  induction s as [|a s IH]; simpl; constructor; [|done].
  unfold byte_of. pose proof (nat_ascii_bounded a). lia.
Qed.

Lemma of_bytes_bytes s : of_bytes (bytes s) = s.
Proof.
  induction s as [|a s IH]; simpl; [done|]. f_equal; [|done].
  unfold of_byte, byte_of. by rewrite Nat2Z.id, ascii_nat_embedding.
Qed.

Section Decimal.
Let ok (l : list Z) : Prop := Forall (fun d => is_digit d = true) l.

Lemma digits_fuel_app fuel n acc :
  digits_fuel fuel n acc = digits_fuel fuel n [] ++ acc.
Proof.
  revert n acc. induction fuel as [|f IH]; intros n acc; simpl; [done|].
  destruct (n <? 10); [done|].
  rewrite (IH _ (_ :: acc)), (IH _ [_]), <- app_assoc. done.
Qed.

Lemma digit_ok d : 0 <= d < 10 -> is_digit (48 + d) = true.
Proof. intros ?. unfold is_digit, in_range. apply andb_true_iff. split; apply Z.leb_le; lia. Qed.

Lemma digits_fuel_ok fuel n : 0 <= n -> ok (digits_fuel fuel n []).
Proof.
  revert n. induction fuel as [|f IH]; intros n Hn; simpl; [constructor|].
  pose proof (Z.mod_pos_bound n 10 eq_refl) as Hd.
  destruct (n <? 10).
  - constructor; [by apply digit_ok | constructor].
  - rewrite digits_fuel_app. apply Forall_app. split.
    + apply IH. apply Z.div_pos; lia.
    + constructor; [by apply digit_ok | constructor].
Qed.

Lemma parse_digits_app l k acc :
  parse_digits (l ++ k) acc =
    match parse_digits l acc with Some v => parse_digits k v | None => None end.
Proof.
  revert acc. induction l as [|d l IH]; intros acc; simpl; [done|].
  destruct (is_digit d); [apply IH | done].
Qed.

(** With enough digits of fuel, parsing the digits gives the number back. *)
Lemma parse_digits_fuel fuel n :
  0 <= n < 10 ^ Z.of_nat fuel -> parse_digits (digits_fuel fuel n []) 0 = Some n.
Proof.
  revert n. induction fuel as [|f IH]; intros n Hn.
  - simpl in *. f_equal. lia.
  - rewrite Nat2Z.inj_succ, Z.pow_succ_r in Hn by lia. simpl.
    pose proof (Z.mod_pos_bound n 10 eq_refl) as Hd.
    pose proof (Z.div_mod n 10 ltac:(lia)) as Hdm.
    destruct (n <? 10) eqn:E; bools.
    + simpl. rewrite digit_ok by lia. f_equal. rewrite Z.mod_small; lia.
    + rewrite digits_fuel_app, parse_digits_app, IH.
      * simpl. rewrite digit_ok by lia. f_equal. lia.
      * split; [apply Z.div_pos; lia | apply Z.div_lt_upper_bound; lia].
Qed.

Lemma digits_fuel_nonnil f n : digits_fuel (S f) n [] <> [].
Proof.
  simpl. destruct (n <? 10); [done|]. rewrite digits_fuel_app.
  by destruct (digits_fuel f (n / 10) []).
Qed.

Lemma is_digit_range d : is_digit d = true -> 48 <= d <= 57.
Proof. unfold is_digit, in_range. intros H. bools. lia. Qed.

Lemma ok_bytes l : ok l -> Forall (fun z => 0 <= z < 256) l.
Proof. intros H. eapply Forall_impl; [exact H|]. intros d Hd. apply is_digit_range in Hd. lia. Qed.
End Decimal.

(** [strconv]: printing an [int64] and parsing it back is the identity. *)
Lemma ParseInt_Itoa_aux n :
  int64_min <= n <= int64_max -> ParseInt (Itoa n) = Some n.
Proof.
  unfold int64_min, int64_max. intros Hn. unfold ParseInt, Itoa.
  set (m := Z.abs n).
  assert (Hm : 0 <= m < 10 ^ Z.of_nat 20) by (change (10 ^ Z.of_nat 20) with 100000000000000000000; lia).
  pose proof (digits_fuel_ok 20 m ltac:(lia)) as Hok.
  pose proof (digits_fuel_nonnil 19 m) as Hne.
  pose proof (parse_digits_fuel 20 m Hm) as Hp.
  destruct (n <? 0) eqn:En; bools.
  - replace (- n) with m by lia.
    rewrite bytes_of_bytes by (constructor; [lia | by apply ok_bytes]). cbn [app].
    destruct (digits_fuel 20 m []) as [|d l]; [done|]. rewrite Hp.
    replace (- m) with n by lia.
    unfold in_range, int64_min, int64_max.
    rewrite (proj2 (Z.leb_le _ _)), (proj2 (Z.leb_le _ _)) by lia. done.
  - replace n with m by lia.
    rewrite bytes_of_bytes by (by apply ok_bytes).
    destruct (digits_fuel 20 m []) as [|d l]; [done|].
    inversion Hok as [|? ? Hd _]; subst. apply is_digit_range in Hd.
    assert (Hsel : (match d :: l with 45 :: l0 => (true, l0) | 43 :: l0 => (false, l0) | l0 => (false, l0) end)
            = (false, d :: l)).
    { assert (d <> 45 /\ d <> 43) as [? ?] by lia.
      assert (Hc : d = 48 \/ d = 49 \/ d = 50 \/ d = 51 \/ d = 52 \/ d = 53 \/ d = 54 \/ d = 55 \/ d = 56 \/ d = 57) by lia.
      by destruct Hc as [->|[->|[->|[->|[->|[->|[->|[->|[->| ->]]]]]]]]]. }
    rewrite Hsel, Hp. unfold in_range, int64_min, int64_max.
    rewrite (proj2 (Z.leb_le _ _)), (proj2 (Z.leb_le _ _)) by lia. done.
Qed.

Example trim_ex : TrimSpace "  a b	 " = "a b".
Proof. reflexivity. Qed.
Example lower_ex : ToLower "AbC-9" = "abc-9".
Proof. reflexivity. Qed.
Example parse_ex : ParseInt "9223372036854775808" = None.
Proof. reflexivity. Qed.
Example user_ex : (validUsername "al", validUsername "ali.ce_9", validUsername "a/b..")
                  = (false, true, false).
Proof. reflexivity. Qed.
Example split_ex : Split "a,b,,c" "," = ["a"; "b"; ""; "c"].
Proof. reflexivity. Qed.

Example FormatUTC_ex : FormatUTC (1700000000 * Second) = "2023-11-14 22:13:20 UTC".
Proof. reflexivity. Qed.
Example FormatUTC_leap : FormatUTC (951782400 * Second) = "2000-02-29 00:00:00 UTC".
Proof. reflexivity. Qed.

Example QueryEscape_ex : QueryEscape "a b/~" = "a+b%2F~".
Proof. reflexivity. Qed.
