(* ===== verification/GoStd.v ===== *)
(** * More of Go's standard library

    What the HTTP handlers use of [strings], [strconv], [encoding/hex] and
    [path/filepath], as functions on byte strings, and SQLite's text form of a
    timestamp. *)

From Stdlib Require Import ZArith Lia Ascii String.
From stdpp Require Import base strings list gmap.
From S2P Require Import Prelude GoRt.

Open Scope string_scope.
Open Scope list_scope.
Open Scope Z_scope.

(** [strconv.Atoi]: [int] is 64 bits wide. *)
Definition Atoi (s : string) : option Z := ParseInt s.

(** [s[:n]] guarded by [len(s) > n]. *)
Definition clip (n : Z) (s : string) : string :=
  if n <? len s then take_bytes (Z.to_nat n) s else s.

(** [l[len(l)-n:]] guarded by [len(l) > n]. *)
Definition lastN {A} (n : nat) (l : list A) : list A := drop (length l - n) l.

(** [strings.Join] *)
Fixpoint Join (l : list string) (sep : string) : string :=
  match l with
  | [] => ""
  | [x] => x
  | x :: l' => x +:+ sep +:+ Join l' sep
  end.

(** [strings.ReplaceAll] for a non-empty old string. *)
Fixpoint replace_fuel (fuel : nat) (s old new : string) : string :=
  match fuel with
  | O => s
  | S f =>
      match s with
      | EmptyString => ""
      | String a s' =>
          if HasPrefix s old then new +:+ replace_fuel f (drop_bytes (String.length old) s) old new
          else String a (replace_fuel f s' old new)
      end
  end.

Definition ReplaceAll (s old new : string) : string := replace_fuel (S (String.length s)) s old new.

(** [strings.Fields]: split around runs of white space. *)
Definition flush (acc : list Z) : list string :=
  match acc with [] => [] | _ => [of_bytes acc] end.

Fixpoint fields_fuel (fuel : nat) (l acc : list Z) : list string :=
  match fuel with
  | O => []
  | S f =>
      match l with
      | [] => flush acc
      | b :: l' =>
          let t := trim_left l in
          if (length t <? length l)%nat then flush acc ++ fields_fuel f t []
          else fields_fuel f l' (acc ++ [b])
      end
  end.

Definition Fields (s : string) : list string :=
  fields_fuel (S (String.length s)) (bytes s) [].

(** [strings.EqualFold(s, t)] for an ASCII [t]: besides letter case, Unicode
    folds the Kelvin sign to k and the long s to s. *)
Definition foldRune (r : Z) : Z :=
  if is_upper r then r + 32 else if r =? 8490 then 107 else if r =? 383 then 115 else r.

Definition EqualFold (s t : string) : bool :=
  (foldRune <$> runes s) ==? (foldRune <$> runes t).

(** [strings.Cut] for a one-byte separator. *)
Definition Cut (s : string) (c : ascii) : option (string * string) :=
  let i := IndexByte s c in
  if i <? 0 then None
  else Some (take_bytes (Z.to_nat i) s, drop_bytes (Z.to_nat (i + 1)) s).

(** ** [path/filepath], on a system whose separator is a slash *)

Definition slash : ascii := "/"%char.

Fixpoint strip_slashes (rl : list ascii) : list ascii :=
  match rl with
  | c :: l => if bool_decide (c = slash) then strip_slashes l else rl
  | [] => []
  end.

Fixpoint until_slash (rl : list ascii) : list ascii :=
  match rl with
  | c :: l => if bool_decide (c = slash) then [] else c :: until_slash l
  | [] => []
  end.

(** [filepath.Base]: the last element, without trailing slashes. *)
Definition Base (path : string) : string :=
  if is_empty path then "."
  else
    match strip_slashes (rev (list_ascii_of_string path)) with
    | [] => "/"
    | rl => string_of_list_ascii (rev (until_slash rl))
    end.

(** [filepath.Ext]: from the last dot of the last element. *)
Definition Ext (path : string) : string :=
  let last := string_of_list_ascii (rev (until_slash (rev (list_ascii_of_string path)))) in
  let i := LastIndexByte last "."%char in
  if i <? 0 then "" else drop_bytes (Z.to_nat i) last.

(** ** [encoding/hex] *)

Definition unhex (z : Z) : option Z :=
  if is_digit z then Some (z - 48)
  else if in_range 97 102 z then Some (z - 87)
  else if in_range 65 70 z then Some (z - 55)
  else None.

Fixpoint unhex_bytes (l : list Z) : option (list Z) :=
  match l with
  | [] => Some []
  | a :: b :: l' =>
      match unhex a, unhex b, unhex_bytes l' with
      | Some x, Some y, Some r => Some (x * 16 + y :: r)
      | _, _, _ => None
      end
  | _ => None
  end.

(** [hex.DecodeString]; [None] is an error. *)
Definition DecodeString (s : string) : option string := of_bytes <$> unhex_bytes (bytes s).

(** ** Timestamps as SQLite keeps them *)

(** The date and the time of day of an instant, as [YYYY-MM-DD] and
    [hh:mm:ss]. *)
Definition dateText (day : Z) : string :=
  let '(y, m, d) := civil day in pad0 4 y +:+ "-" +:+ pad0 2 m +:+ "-" +:+ pad0 2 d.

Definition clockText (s : Z) : string :=
  pad0 2 (s / 3600) +:+ ":" +:+ pad0 2 (s / 60 mod 60) +:+ ":" +:+ pad0 2 (s mod 60).

(** [CURRENT_TIMESTAMP], and [CAST(created_at AS TEXT)] of a column it filled. *)
Definition FormatSQL (t : Z) : string :=
  dateText (t / Second / 86400) +:+ " " +:+ clockText (t / Second mod 86400).

(** [t.UTC().Format(time.RFC3339)] *)
Definition RFC3339 (t : Z) : string :=
  dateText (t / Second / 86400) +:+ "T" +:+ clockText (t / Second mod 86400) +:+ "Z".

(** ** Facts *)

Lemma unhex_digit z : 0 <= z < 16 -> unhex (hex_digit z) = Some z.
Proof.
  intros H. unfold hex_digit, unhex, is_digit, in_range. destruct (z <? 10) eqn:E; bools.
  - rewrite (proj2 (Z.leb_le 48 (48 + z))), (proj2 (Z.leb_le (48 + z) 57)) by lia. simpl. f_equal. lia.
  - rewrite (proj2 (Z.leb_le 48 (87 + z))), (proj2 (Z.leb_gt (87 + z) 57)) by lia. simpl.
    rewrite (proj2 (Z.leb_le 97 (87 + z))), (proj2 (Z.leb_le (87 + z) 102)) by lia. simpl. f_equal. lia.
Qed.

Lemma unhex_hex l : Forall (fun z => 0 <= z < 256) l -> unhex_bytes (hex_bytes l) = Some l.
Proof.
  induction 1 as [|b l Hb _ IH]; [done|]. simpl.
  rewrite !unhex_digit, IH by (first [apply Z.mod_pos_bound; lia | split; [apply Z.div_pos; lia | apply Z.div_lt_upper_bound; lia]]).
  do 2 f_equal. rewrite Z.mul_comm, <- Z.div_mod by lia. done.
Qed.

Lemma hex_digit_range z : 0 <= z < 16 -> 0 <= hex_digit z < 256.
Proof. unfold hex_digit. destruct (z <? 10); lia. Qed.

Lemma hex_bytes_range l :
  Forall (fun z => 0 <= z < 256) l -> Forall (fun z => 0 <= z < 256) (hex_bytes l).
Proof.
  induction 1 as [|b l Hb _ IH]; [constructor|]. simpl.
  repeat constructor; try done; apply hex_digit_range;
    first [apply Z.mod_pos_bound; lia | split; [apply Z.div_pos; lia | apply Z.div_lt_upper_bound; lia]].
Qed.

(** [hex.DecodeString(hex.EncodeToString(b))] gives [b] back. *)
Lemma DecodeString_EncodeToString s : DecodeString (EncodeToString (bytes s)) = Some s.
Proof.
  unfold DecodeString, EncodeToString.
  rewrite bytes_of_bytes by apply hex_bytes_range, bytes_range.
  rewrite unhex_hex by apply bytes_range. simpl. by rewrite of_bytes_bytes.
Qed.

(** Whatever [Base] returns has no separator, unless it is the root itself. *)
Lemma until_slash_no rl : slash ∉ until_slash rl.
Proof.
  induction rl as [|c rl IH]; simpl; [apply not_elem_of_nil|].
  destruct (bool_decide _) eqn:E; [apply not_elem_of_nil|]. bools.
  rewrite not_elem_of_cons. by split.
Qed.

Lemma Base_no_slash path : Base path = "/" \/ (slash ∉ list_ascii_of_string (Base path)).
Proof.
  unfold Base. destruct (is_empty path); [right; apply not_elem_of_cons; split; [done | apply not_elem_of_nil]|].
  destruct (strip_slashes _) as [|c rl]; [by left|]. right.
  rewrite list_ascii_of_string_of_list_ascii. intros H%list_elem_of_In%in_rev%list_elem_of_In.
  by apply (until_slash_no (c :: rl)).
Qed.

Example Base_traversal : Base "../../etc/passwd" = "passwd". Proof. reflexivity. Qed.
Example Base_slash : Base "a/" = "a". Proof. reflexivity. Qed.
Example Ext_ok : Ext "photo.tar.PNG" = ".PNG". Proof. reflexivity. Qed.
Example Ext_dir : Ext "a.b/c" = "". Proof. reflexivity. Qed.
Example Fields_ok : Fields "  ab  c " = ["ab"; "c"]. Proof. reflexivity. Qed.
Example Replace_ok : ReplaceAll "a**b**" "**" "" = "ab". Proof. reflexivity. Qed.
Example FormatSQL_ok : FormatSQL (1700000000 * Second) = "2023-11-14 22:13:20". Proof. reflexivity. Qed.

(** ** [strings.Cut] *)

Lemma IndexByte_split s c :
  0 <= IndexByte s c ->
  s = take_bytes (Z.to_nat (IndexByte s c)) s +:+ String c (drop_bytes (Z.to_nat (IndexByte s c + 1)) s).
Proof.
  induction s as [|a s IH]; intros H; [cbn in H; lia|].
  change (IndexByte (String a s) c)
    with (if bool_decide (a = c) then 0 else let i := IndexByte s c in if i <? 0 then -1 else i + 1) in *.
  destruct (bool_decide_reflect (a = c)) as [->|Hne]; [done|]. cbv zeta in *.
  destruct (Z.ltb_spec (IndexByte s c) 0); [lia|].
  replace (Z.to_nat (IndexByte s c + 1)) with (S (Z.to_nat (IndexByte s c))) in * by lia.
  replace (Z.to_nat (IndexByte s c + 1 + 1)) with (S (S (Z.to_nat (IndexByte s c)))) by lia.
  specialize (IH H0).
  change (String a s = String a (take_bytes (Z.to_nat (IndexByte s c)) s
            +:+ String c (drop_bytes (S (Z.to_nat (IndexByte s c))) s))).
  by rewrite <- IH.
Qed.

Lemma Cut_Some s c a b : Cut s c = Some (a, b) -> s = a +:+ String c b.
Proof.
  unfold Cut. cbv zeta. destruct (Z.ltb_spec (IndexByte s c) 0); [done|]. intros [= <- <-].
  by apply IndexByte_split.
Qed.
