(* ===== verification/Filepath.v ===== *)
(** * Paths ([path/filepath] on Unix)

    [filepath.Clean], [Join], [Dir] and [Abs] as documented: by the elements of
    a path.  Cleaning is idempotent and never leaves [.] or an empty element. *)

From Stdlib Require Import ZArith Lia Ascii String.
From stdpp Require Import base strings list.
From S2P Require Import Prelude GoRt GoStd.

Open Scope string_scope.
Open Scope list_scope.
Open Scope Z_scope.

Definition rooted (path : string) : bool := HasPrefix path "/".

(** One element: the elements kept so far are in reverse order. *)
Definition cleanElem (root : bool) (kept : list string) (e : string) : list string :=
  if is_empty e || (e ==? ".") then kept
  else if e ==? ".." then
    match kept with
    | [] => if root then [] else [".."]
    | k :: rest => if k ==? ".." then ".." :: kept else rest
    end
  else e :: kept.

Definition cleanElems (root : bool) (l : list string) : list string :=
  rev (foldl (cleanElem root) [] l).

(** The path of a list of elements. *)
Definition pathOf (root : bool) (l : list string) : string :=
  if root then "/" +:+ Join l "/"
  else match l with [] => "." | _ => Join l "/" end.

(** [filepath.Clean] *)
Definition Clean (path : string) : string :=
  pathOf (rooted path) (cleanElems (rooted path) (Split path slash)).

(** [filepath.Join]: empty elements before the first other one are ignored. *)
Fixpoint JoinPath (elem : list string) : string :=
  match elem with
  | [] => ""
  | e :: rest => if is_empty e then JoinPath rest else Clean (Join (e :: rest) "/")
  end.

(** [filepath.Dir]: all but the last element. *)
Definition Dir (path : string) : string :=
  Clean (take_bytes (Z.to_nat (LastIndexByte path slash + 1)) path).

(** [filepath.Abs], in the working directory [wd]; [None] when it is unknown. *)
Definition Abs (wd : option string) (path : string) : option string :=
  if rooted path then Some (Clean path)
  else (fun d => JoinPath [d; path]) <$> wd.

Example Clean_1 : Clean "/app/bin/../../srv//./web/" = "/srv/web". Proof. reflexivity. Qed.
Example Clean_2 : Clean "a/../../b" = "../b" /\ Clean "" = "." /\ Clean "/.." = "/".
Proof. repeat split. Qed.
Example Dir_1 : Dir "/app/bin/phaze-nexus" = "/app/bin" /\ Dir "phaze" = ".". Proof. split; reflexivity. Qed.

(** ** Elements *)

(** An element as [Split] gives it has no slash. *)
Definition noSlash (e : string) : Prop := slash ∉ list_ascii_of_string e.

(** What cleaning keeps: names, and [..] only in front of a relative path. *)
Definition name (e : string) : Prop := e <> "" /\ e <> "." /\ e <> "..".

(** Kept elements, in reverse order. *)
Fixpoint keptOk (root : bool) (kept : list string) : Prop :=
  match kept with
  | [] => True
  | e :: rest => noSlash e /\ (name e /\ keptOk root rest
                               \/ e = ".." /\ root = false /\ Forall (eq "..") rest)
  end.

Lemma dots_ok rest : Forall (eq "..") rest -> keptOk false rest.
Proof.
  induction 1 as [|e l <- H IH]; cbn; [done|]. split; [|by right].
  unfold noSlash. cbn. rewrite !not_elem_of_cons. split_and!; try discriminate. apply not_elem_of_nil.
Qed.

Lemma keptOk_tail root e rest : keptOk root (e :: rest) -> keptOk root rest.
Proof. intros (_ & [[_ H]|(_ & -> & H)]); [done | by apply dots_ok]. Qed.

Lemma cleanElem_ok root kept e : noSlash e -> keptOk root kept -> keptOk root (cleanElem root kept e).
Proof.
  intros He Hk. unfold cleanElem, is_empty. destruct (e ==? "") eqn:E0; [done|].
  destruct (e ==? ".") eqn:E1; [done|]. cbn [orb]. bools. destruct (e ==? "..") eqn:E2; bools.
  - subst e. destruct kept as [|k rest].
    + destruct root; [done|]. split; [done|]. right. split_and!; done.
    + destruct (k ==? "..") eqn:Ek; bools; [|by apply keptOk_tail in Hk].
      subst k. destruct Hk as (Hs & [[(_ & _ & H) _]|(_ & Hr & Hd)]); [done|].
      split; [done|]. right. split_and!; [done|done|by constructor].
  - split; [done|]. left. by split_and!.
Qed.

Lemma foldl_kept root l : Forall noSlash l -> forall kept,
  keptOk root kept -> keptOk root (foldl (cleanElem root) kept l).
Proof. induction 1 as [|e l He _ IH]; intros kept Hk; cbn; [done|]. by apply IH, cleanElem_ok. Qed.

(** Kept elements are kept again. *)
Lemma kept_again root kept : keptOk root kept -> foldl (cleanElem root) [] (rev kept) = kept.
Proof.
  induction kept as [|e rest IH]; [done|]. intros H. cbn [rev]. rewrite foldl_app.
  rewrite IH by (by eapply keptOk_tail). cbn [foldl]. destruct H as (_ & [[(H0 & H1 & H2) _]|(-> & -> & Hd)]).
  - unfold cleanElem, is_empty. by rewrite !eqb_neq_dec.
  - destruct Hd as [|? ? <-]; reflexivity.
Qed.

Lemma Split_noSlash path : Forall noSlash (Split path slash).
Proof.
  induction path as [|a s IH]; cbn [Split].
  - constructor; [|done]. apply not_elem_of_nil.
  - case_bool_decide as E; [by constructor; [apply not_elem_of_nil|]|].
    destruct IH as [|w ws Hw Hws]; constructor; try done;
      unfold noSlash; cbn [list_ascii_of_string]; rewrite not_elem_of_cons; split; try done.
    apply not_elem_of_nil.
Qed.

Lemma Split_noSlash_one e : noSlash e -> Split e slash = [e].
Proof.
  induction e as [|a s IH]; [done|]. unfold noSlash. cbn [list_ascii_of_string Split].
  rewrite not_elem_of_cons. intros [Ha Hs]. rewrite bool_decide_eq_false_2 by (intros ->; done).
  by rewrite IH.
Qed.

Lemma Split_app_slash e s : noSlash e -> Split (e +:+ "/" +:+ s) slash = e :: Split s slash.
Proof.
  induction e as [|a e IH]; intros H; [done|]. unfold noSlash in H. cbn [list_ascii_of_string] in H.
  rewrite not_elem_of_cons in H. destruct H as [Ha Hs]. cbn [append String.append Split].
  change (String a e +:+ "/" +:+ s) with (String a (e +:+ "/" +:+ s)). cbn [Split].
  rewrite bool_decide_eq_false_2 by (intros ->; done). by rewrite IH.
Qed.

(** Joining and splitting again. *)
Lemma Split_Join l : l <> [] -> Forall noSlash l -> Split (Join l "/") slash = l.
Proof.
  induction l as [|e l IH]; [done|]. intros _ [He Hl]%Forall_cons. destruct l as [|f l].
  - cbn. by apply Split_noSlash_one.
  - change (Join (e :: f :: l) "/") with (e +:+ "/" +:+ Join (f :: l) "/").
    rewrite Split_app_slash by done. by rewrite IH.
Qed.

Lemma keptOk_noSlash root kept : keptOk root kept -> Forall noSlash (rev kept).
Proof.
  intros H. apply Forall_rev. induction kept as [|e rest IH]; constructor; [apply H|].
  apply IH. by eapply keptOk_tail.
Qed.

Lemma keptOk_nonempty root kept e : keptOk root kept -> e ∈ kept -> e <> "".
Proof.
  induction kept as [|k rest IH]; [by intros _ ?%elem_of_nil|].
  intros H [->|Hin]%elem_of_cons; [|by apply IH; [eapply keptOk_tail|]].
  destruct H as (_ & [[(H & _) _]|(-> & _)]); done.
Qed.

Lemma rooted_Join e l : e <> "" -> noSlash e -> rooted (Join (e :: l) "/") = false.
Proof.
  intros He Hs. destruct e as [|a s]; [done|]. unfold noSlash in Hs. cbn [list_ascii_of_string] in Hs.
  rewrite not_elem_of_cons in Hs. destruct Hs as [Ha _].
  assert (H : forall t, rooted (String a t) = false).
  { intros t. unfold rooted, HasPrefix.
    change (String.prefix "/" (String a t))
      with (if ascii_dec slash a then String.prefix "" t else false).
    by destruct (ascii_dec slash a). }
  destruct l as [|f l]; apply H.
Qed.

Lemma rooted_slash s : rooted ("/" +:+ s) = true.
Proof. unfold rooted, HasPrefix. by destruct s. Qed.

Lemma Split_slash s : Split ("/" +:+ s) slash = "" :: Split s slash.
Proof. reflexivity. Qed.

(** [filepath.Clean] of a clean path is that path. *)
Lemma Clean_idem path : Clean (Clean path) = Clean path.
Proof.
  unfold Clean at 2 3. unfold cleanElems.
  pose proof (foldl_kept (rooted path) _ (Split_noSlash path) [] I) as Hk.
  set (kept := foldl _ [] _) in *. clearbody kept. set (root := rooted path) in *. clearbody root.
  pose proof (keptOk_noSlash root kept Hk) as Hn. pose proof (kept_again root kept Hk) as Ha.
  unfold pathOf at 1. destruct root.
  - unfold Clean. rewrite rooted_slash, Split_slash.
    unfold cleanElems. cbn [foldl]. change (cleanElem true [] "") with (@nil string).
    destruct (rev kept) as [|e l] eqn:El; [reflexivity|].
    rewrite Split_Join, Ha by done. unfold pathOf. by rewrite El.
  - destruct (rev kept) as [|e l] eqn:El; [reflexivity|].
    assert (He : e <> "").
    { apply (keptOk_nonempty false kept); [done|]. apply list_elem_of_In, in_rev. rewrite El. by left. }
    unfold Clean. rewrite rooted_Join by (try done; by apply Forall_cons in Hn as [? _]).
    unfold cleanElems. rewrite Split_Join, Ha by done. by rewrite El.
Qed.
