(* ===== verification/Json.v ===== *)
(** * JSON values and their decoding ([encoding/json])

    What the handlers write and read as JSON, as values rather than text, and
    the part of [json.Unmarshal] the code relies on: a value decoded into a
    string, a boolean, a map of raw values or a struct field. *)

From Stdlib Require Import ZArith Lia Ascii.
From stdpp Require Import base strings list gmap.
From S2P Require Import Prelude GoRt GoStd.

Open Scope string_scope.
Open Scope list_scope.
Open Scope Z_scope.

#[warnings="-register-all"]
Inductive jval :=
| JStr (s : string)
| JNum (z : Z)
| JFrac (num den : Z)          (* the float64 nearest to a quotient *)
| JBool (b : bool)
| JNull
| JArr (l : list jval)
| JObj (l : list (string * jval)).

(** ** Decoding

    [None] is an error.  [null] leaves the target as it was. *)

Definition intoString (cur : string) (j : jval) : option string :=
  match j with JStr s => Some s | JNull => Some cur | _ => None end.

Definition intoBool (cur : bool) (j : jval) : option bool :=
  match j with JBool b => Some b | JNull => Some cur | _ => None end.

(** Into [map[string]json.RawMessage]; the last of two equal keys wins. *)
Definition intoMap (j : jval) : option (gmap string jval) :=
  match j with
  | JObj l => Some (foldl (fun m kv => <[kv.1 := kv.2]> m) ∅ l)
  | JNull => Some ∅
  | _ => None
  end.

(** Into a struct: every member whose name is a field's, up to letter case, is
    decoded into it in order; a member of the wrong type is an error of the
    whole. *)
Fixpoint intoField {A} (into : A -> jval -> option A) (name : string) (cur : A)
    (l : list (string * jval)) : option A :=
  match l with
  | [] => Some cur
  | (k, v) :: l =>
      if EqualFold k name then
        match into cur v with Some a => intoField into name a l | None => None end
      else intoField into name cur l
  end.

(** The members of what is decoded into a struct. *)
Definition intoStruct (j : jval) : option (list (string * jval)) :=
  match j with JObj l => Some l | JNull => Some [] | _ => None end.
