(* ===== verification/Ip.v ===== *)
(** * Addresses and networks (the part of [net] the gates use)

    [net.ParseIP], [net.ParseCIDR] and [IPNet.Contains]: an address is the list
    of its bytes, sixteen as [ParseIP] returns it and four in the form [To4]
    gives an IPv4 address. *)

From Stdlib Require Import ZArith Lia Ascii.
From stdpp Require Import base strings list gmap.
From S2P Require Import Prelude GoRt GoStd.

Open Scope string_scope.
Open Scope list_scope.
Open Scope Z_scope.

Definition dot : Z := 46.
Definition colon : Z := 58.
Definition percent : Z := 37.

(** ** Dotted quads *)

(** [parseIPv4Fields]: [val] and [digits] are those of the current octet, [fields]
    the octets before it; [prev] tells whether the byte before is a dot or
    there is none. *)
Fixpoint ipv4Loop (l : list Z) (prev : bool) (val digits : Z) (fields : list Z) : option (list Z) :=
  match l with
  | [] => if (length fields <? 3)%nat then None else Some (fields ++ [val])
  | c :: l =>
      if is_digit c then
        if (digits =? 1) && (val =? 0) then None
        else
          let val := val * 10 + (c - 48) in
          if 255 <? val then None else ipv4Loop l false val (digits + 1) fields
      else if c =? dot then
        if prev || (length l =? 0)%nat then None
        else if (length fields =? 3)%nat then None
        else ipv4Loop l true 0 0 (fields ++ [val])
      else None
  end.

Definition parseIPv4 (l : list Z) : option (list Z) := ipv4Loop l true 0 0 [].

(** The prefix of an IPv4 address in its sixteen-byte form. *)
Definition v4InV6 : list Z := repeat 0 10 ++ [255; 255].
Definition mapped (v4 : list Z) : list Z := v4InV6 ++ v4.

(** ** IPv6 *)

(** A hexadecimal group of at most four digits: its value, how many digits it
    has and what follows. *)
Fixpoint hexGroup (l : list Z) (off acc : Z) : option (Z * Z * list Z) :=
  match l with
  | c :: l' =>
      match unhex c with
      | Some d => if 3 <? off then None else hexGroup l' (off + 1) (acc * 16 + d)
      | None => Some (acc, off, l)
      end
  | [] => Some (acc, off, [])
  end.

(** The loop over the groups: [ip] holds the bytes so far, [ell] where the
    ellipsis stands, if there was one.  A round that does not stop has at least
    one group less to read, so eight rounds are enough. *)
Fixpoint ipv6Loop (fuel : nat) (s : list Z) (ip : list Z) (ell : option nat)
    : option (list Z * option nat * list Z) :=
  match fuel with
  | O => Some (ip, ell, s)
  | S f =>
      match hexGroup s 0 0 with
      | None => None
      | Some (acc, off, rest) =>
          if off =? 0 then None
          else
            match rest with
            | 46 :: _ =>
                if (bool_decide (ell = None) && negb (length ip =? 12)%nat) || (16 <? length ip + 4)%nat
                then None
                else match parseIPv4 s with Some q => Some (ip ++ q, ell, []) | None => None end
            | _ =>
                let ip := ip ++ [acc / 256; acc mod 256] in
                match rest with
                | [] => Some (ip, ell, [])
                | 58 :: s =>
                    match s with
                    | [] => None
                    | 58 :: s' =>
                        if bool_decide (ell = None) then
                          if (length s' =? 0)%nat then Some (ip, Some (length ip), [])
                          else ipv6Loop f s' ip (Some (length ip))
                        else None
                    | _ => ipv6Loop f s ip ell
                    end
                | _ => None
                end
            end
      end
  end.

(** Expand the ellipsis to the zeros it stands for. *)
Definition expand (ip : list Z) (ell : option nat) : option (list Z) :=
  if (length ip <? 16)%nat then
    match ell with
    | None => None
    | Some e => Some (take e ip ++ repeat 0 (16 - length ip) ++ drop e ip)
    end
  else match ell with Some _ => None | None => Some ip end.

Definition parseIPv6 (l : list Z) : option (list Z) :=
  let start := match l with 58 :: 58 :: s => (s, Some 0%nat) | _ => (l, None) end in
  if bool_decide (start.2 = Some 0%nat) && (length start.1 =? 0)%nat then Some (repeat 0 16)
  else
    match ipv6Loop 8 start.1 [] start.2 with
    | Some (ip, ell, []) => expand ip ell
    | _ => None
    end.

(** ** [netip.ParseAddr] *)

(** The first byte that decides the family. *)
Fixpoint family (l : list Z) : Z :=
  match l with
  | [] => 0
  | c :: l => if (c =? dot) || (c =? colon) || (c =? percent) then c else family l
  end.

(** An address without a zone, and whether it was written as IPv4.  An address
    with a zone is one that [ParseIP] and [ParseCIDR] refuse. *)
Definition parseAddr (s : string) : option (bool * list Z) :=
  let l := bytes s in
  if family l =? dot then (fun q => (true, q)) <$> parseIPv4 l
  else if family l =? colon then
    if existsb (fun c => c =? percent) l then None else (fun a => (false, a)) <$> parseIPv6 l
  else None.

(** [net.ParseIP]; [None] is nil. *)
Definition ParseIP (s : string) : option (list Z) :=
  match parseAddr s with
  | Some (true, q) => Some (mapped q)
  | Some (false, a) => Some a
  | None => None
  end.

(** [IP.To4] *)
Definition To4 (ip : list Z) : option (list Z) :=
  if (length ip =? 4)%nat then Some ip
  else if (length ip =? 16)%nat && bool_decide (take 12 ip = v4InV6) then Some (drop 12 ip)
  else None.

(** ** Networks *)

(** [CIDRMask(n, 8 * k)]: [k] bytes with the first [n] bits set. *)
Definition maskByte (n : Z) : Z := if 8 <=? n then 255 else if n <=? 0 then 0 else 256 - 2 ^ (8 - n).
Definition CIDRMask (n : Z) (k : nat) : list Z := (fun i => maskByte (n - 8 * Z.of_nat i)) <$> seq 0 k.

Definition andBytes (a m : list Z) : list Z := zip_with Z.land a m.

Record IPNet := mkIPNet { netIP : list Z; netMask : list Z }.

(** [dtoi]: all of the text is digits and the number is below [0xFFFFFF]. *)
Fixpoint dtoiLoop (l : list Z) (n : Z) : option Z :=
  match l with
  | [] => Some n
  | c :: l =>
      if is_digit c then
        let n := n * 10 + (c - 48) in
        if 16777215 <=? n then None else dtoiLoop l n
      else None
  end.
Definition dtoi (s : string) : option Z := if is_empty s then None else dtoiLoop (bytes s) 0.

(** [net.ParseCIDR]; the network, [None] for an error. *)
Definition ParseCIDR (s : string) : option IPNet :=
  match Cut s slash with
  | None => None
  | Some (addr, mask) =>
      match parseAddr addr, dtoi mask with
      | Some (is4, a), Some n =>
          let k := if is4 then 4%nat else 16%nat in
          if 8 * Z.of_nat k <? n then None
          else Some (mkIPNet (andBytes a (CIDRMask n k)) (CIDRMask n k))
      | _, _ => None
      end
  end.

(** [networkNumberAndMask] *)
Definition numberAndMask (n : IPNet) : option (list Z * list Z) :=
  let '(ip, four) := match To4 (netIP n) with Some q => (q, true) | None => (netIP n, false) end in
  if negb four && negb (length ip =? 16)%nat then None
  else if (length (netMask n) =? 4)%nat then if four then Some (ip, netMask n) else None
  else if (length (netMask n) =? 16)%nat then
    Some (ip, if four then drop 12 (netMask n) else netMask n)
  else None.

(** [(n *IPNet) Contains(ip)]; the nil address is the empty list. *)
Definition netContains (n : IPNet) (ip : list Z) : bool :=
  match numberAndMask n with
  | None => (length ip =? 0)%nat
  | Some (nn, m) =>
      let ip := default ip (To4 ip) in
      (length ip =? length nn)%nat && bool_decide (andBytes nn m = andBytes ip m)
  end.
