(* ===== verification/Html.v ===== *)
(** * HTML text (the part of [html] the mails use)

    [html.EscapeString], its inverse on what it writes, and a reading of a
    document that separates its markup from its text. *)

From Stdlib Require Import ZArith Lia Ascii.
From stdpp Require Import base strings list.
From S2P Require Import Prelude GoRt.

Open Scope string_scope.
Open Scope list_scope.
Open Scope Z_scope.

(** ** [html.EscapeString] *)

Definition escapeByte (b : Z) : list Z :=
  if b =? 38 then bytes "&amp;"
  else if b =? 39 then bytes "&#39;"
  else if b =? 60 then bytes "&lt;"
  else if b =? 62 then bytes "&gt;"
  else if b =? 34 then bytes "&#34;"
  else [b].

Definition escape_bytes (l : list Z) : list Z := concat (escapeByte <$> l).

Definition EscapeString (s : string) : string := of_bytes (escape_bytes (bytes s)).

(** The five references by what follows their ampersand. *)
Definition references : list (list Z * Z) :=
  [(bytes "amp;", 38); (bytes "#39;", 39); (bytes "lt;", 60); (bytes "gt;", 62); (bytes "#34;", 34)].

Fixpoint startsWith (p l : list Z) : bool :=
  match p, l with
  | [], _ => true
  | a :: p, b :: l => (a =? b) && startsWith p l
  | _, [] => false
  end.

(** The characters the references stand for; [skip] counts the bytes of a
    reference still to be passed over. *)
Fixpoint unescape_bytes (skip : nat) (l : list Z) : list Z :=
  match l with
  | [] => []
  | b :: l =>
      match skip with
      | S k => unescape_bytes k l
      | O =>
          match (if b =? 38 then find_first (fun r => startsWith r.1 l) references else None) with
          | Some r => r.2 :: unescape_bytes (length r.1) l
          | None => b :: unescape_bytes 0 l
          end
      end
  end.

Definition UnescapeString (s : string) : string := of_bytes (unescape_bytes 0 (bytes s)).

(** ** Markup

    Where a reader of the document is: in text, in a tag, or in a quoted
    attribute value. *)
Inductive place := InText | InTag | InDouble | InSingle.

#[export] Instance place_eq : EqDecision place.
Proof. solve_decision. Defined.

Definition after (p : place) (b : Z) : place :=
  match p with
  | InText => if b =? 60 then InTag else InText
  | InTag => if b =? 62 then InText else if b =? 34 then InDouble else if b =? 39 then InSingle else InTag
  | InDouble => if b =? 34 then InTag else InDouble
  | InSingle => if b =? 39 then InTag else InSingle
  end.

(** Every byte belongs to the markup, except text and the inside of a quoted
    value. *)
Definition content (p : place) (b : Z) : bool :=
  match p with
  | InText => negb (b =? 60)
  | InTag => false
  | InDouble => negb (b =? 34)
  | InSingle => negb (b =? 39)
  end.

(** The markup of a document and its contents: the text runs and attribute
    values in order, each with its place. *)
Fixpoint markup (p : place) (l : list Z) : list Z :=
  match l with
  | [] => []
  | b :: l => (if content p b then [] else [b]) ++ markup (after p b) l
  end.

Fixpoint placeAfter (p : place) (l : list Z) : place :=
  match l with [] => p | b :: l => placeAfter (after p b) l end.

Definition markupOf (s : string) : list Z := markup InText (bytes s).

(** ** Facts *)

Lemma placeAfter_app p l1 l2 : placeAfter p (l1 ++ l2) = placeAfter (placeAfter p l1) l2.
Proof. revert p. induction l1 as [|b l IH]; intros p; simpl; [done | apply IH]. Qed.

Lemma markup_app p l1 l2 : markup p (l1 ++ l2) = markup p l1 ++ markup (placeAfter p l1) l2.
Proof.
  revert p. induction l1 as [|b l IH]; intros p; simpl; [done|]. by rewrite IH, app_assoc.
Qed.

(** What [EscapeString] writes has no delimiter of markup in it. *)
Definition inert (b : Z) : Prop := b <> 34 /\ b <> 39 /\ b <> 60 /\ b <> 62.

Lemma escape_bytes_inert l : Forall inert (escape_bytes l).
Proof.
  induction l as [|b l IH]; [done|]. unfold escape_bytes in *. simpl. apply Forall_app. split; [|exact IH].
  unfold escapeByte. repeat case_match; bools; cbn; unfold inert;
    repeat (apply Forall_cons_2; [first [lia | by vm_compute]|]); apply Forall_nil_2.
Qed.

(** Inert bytes stay where they are: text is text, a value is a value. *)
Lemma inert_stays p l :
  p <> InTag -> Forall inert l -> placeAfter p l = p /\ markup p l = [].
Proof.
  intros Hp. induction 1 as [|b l (H1 & H2 & H3 & H4) _ IH]; [done|]. simpl.
  assert (Hb : after p b = p /\ content p b = true).
  { destruct p; simpl; [|done| |]; repeat (rewrite (proj2 (Z.eqb_neq _ _)) by done); done. }
  destruct Hb as [-> ->]. exact IH.
Qed.

Lemma bytes_EscapeString s : bytes (EscapeString s) = escape_bytes (bytes s).
Proof.
  unfold EscapeString. apply bytes_of_bytes. pose proof (bytes_range s) as H.
  induction H as [|b l Hb _ IH]; [constructor|]. unfold escape_bytes in *. cbn [fmap list_fmap concat].
  apply Forall_app. split; [|exact IH]. unfold escapeByte.
  repeat (case_match; [apply bytes_range|]). by constructor.
Qed.

(** A hole of a template: escaped text where markup is not open changes
    neither the markup nor the place. *)
Lemma escaped_hole p s l :
  p <> InTag ->
  markup p (bytes (EscapeString s) ++ l) = markup p l
  /\ placeAfter p (bytes (EscapeString s) ++ l) = placeAfter p l.
Proof.
  intros Hp. destruct (inert_stays p (escape_bytes (bytes s)) Hp (escape_bytes_inert _)) as [E1 E2].
  by rewrite bytes_EscapeString, markup_app, placeAfter_app, E1, E2.
Qed.

(** A reader of the escaped text reads the text. *)
Lemma unescape_escape l : unescape_bytes 0 (escape_bytes l) = l.
Proof.
  induction l as [|b l IH]; [done|].
  change (escape_bytes (b :: l)) with (escapeByte b ++ escape_bytes l). unfold escapeByte.
  destruct (Z.eqb_spec b 38) as [->|H1]; [simpl; by rewrite IH|].
  destruct (Z.eqb_spec b 39) as [->|_]; [simpl; by rewrite IH|].
  destruct (Z.eqb_spec b 60) as [->|_]; [simpl; by rewrite IH|].
  destruct (Z.eqb_spec b 62) as [->|_]; [simpl; by rewrite IH|].
  destruct (Z.eqb_spec b 34) as [->|_]; [simpl; by rewrite IH|].
  simpl. rewrite (proj2 (Z.eqb_neq b 38) H1). by rewrite IH.
Qed.

Lemma UnescapeString_EscapeString s : UnescapeString (EscapeString s) = s.
Proof.
  unfold UnescapeString. rewrite bytes_EscapeString, unescape_escape. apply of_bytes_bytes.
Qed.
