(* ===== verification/AuthTracker.v ===== *)
(** * Failed-attempt tracking ([authtracker.go])

    The four counters of [authFailTracker] (per IP, per user, TOTP codes per
    user, sign-ups per IP), their windows and thresholds, and the periodic
    sweep.  [now] is the instant [time.Now()] returns. *)

From Stdlib Require Import ZArith Lia.
From stdpp Require Import base strings list gmap.
From S2P Require Import Prelude.

Open Scope Z_scope.

Record authFail := mkFail { fcount : Z; firstAt : Z; lastAt : Z }.

Record authFailTracker := mkTracker {
  ipFails : gmap string authFail;
  userFails : gmap string authFail;
  totpFails : gmap string authFail;
  signupCounts : gmap string authFail }.

Definition authTracker0 : authFailTracker := mkTracker ∅ ∅ ∅ ∅.

Definition authIPFailThreshold : Z := 5.
Definition authIPBlockThreshold : Z := 50.
Definition authIPWindow : Z := 15 * Minute.
Definition authUserLockThreshold : Z := 10.
Definition authUserWindow : Z := 30 * Minute.
Definition totpMaxAttempts : Z := 5.
Definition totpWindow : Z := 10 * Minute.
Definition signupIPMax : Z := 3.
Definition signupIPWindow : Z := 24 * Hour.

Definition set_ipFails (m : gmap string authFail) (t : authFailTracker) : authFailTracker :=
  mkTracker m (userFails t) (totpFails t) (signupCounts t).
Definition set_userFails (m : gmap string authFail) (t : authFailTracker) : authFailTracker :=
  mkTracker (ipFails t) m (totpFails t) (signupCounts t).
Definition set_totpFails (m : gmap string authFail) (t : authFailTracker) : authFailTracker :=
  mkTracker (ipFails t) (userFails t) m (signupCounts t).
Definition set_signupCounts (m : gmap string authFail) (t : authFailTracker) : authFailTracker :=
  mkTracker (ipFails t) (userFails t) (totpFails t) m.

(** The shape every counter shares: restart the count when the window that
    began at [firstAt] is over, otherwise add one. *)
Definition bump (window now : Z) (k : string) (m : gmap string authFail) : gmap string authFail :=
  match m !! k with
  | Some f =>
      if window <? now - firstAt f then <[k := mkFail 1 now now]> m
      else <[k := mkFail (fcount f + 1) (firstAt f) now]> m
  | None => <[k := mkFail 1 now now]> m
  end.

(** The other shared shape: forget an entry whose window is over, otherwise
    compare its count with the threshold. *)
Definition check (window threshold now : Z) (k : string) (m : gmap string authFail)
  : bool * gmap string authFail :=
  match m !! k with
  | None => (false, m)
  | Some f =>
      if window <? now - firstAt f then (false, delete k m)
      else (threshold <=? fcount f, m)
  end.

Definition recordFail (now : Z) (ip username : string) (t : authFailTracker) : authFailTracker :=
  let t1 := set_ipFails (bump authIPWindow now ip (ipFails t)) t in
  if is_empty username then t1
  else set_userFails (bump authUserWindow now username (userFails t1)) t1.

Definition recordSuccess (ip username : string) (t : authFailTracker) : authFailTracker :=
  let t1 := set_ipFails (delete ip (ipFails t)) t in
  if is_empty username then t1
  else set_userFails (delete username (userFails t1)) t1.

Definition isIPThrottled (now : Z) (ip : string) (t : authFailTracker) : bool * authFailTracker :=
  let r := check authIPWindow authIPFailThreshold now ip (ipFails t) in
  (r.1, set_ipFails r.2 t).

Definition shouldAutoBlock (now : Z) (ip : string) (t : authFailTracker) : bool :=
  match ipFails t !! ip with
  | None => false
  | Some f => (authIPBlockThreshold <=? fcount f) && (now - firstAt f <=? authIPWindow)
  end.

Definition isUserLocked (now : Z) (username : string) (t : authFailTracker) : bool * authFailTracker :=
  let r := check authUserWindow authUserLockThreshold now username (userFails t) in
  (r.1, set_userFails r.2 t).

Definition isTOTPThrottled (now : Z) (username : string) (t : authFailTracker) : bool * authFailTracker :=
  let r := check totpWindow totpMaxAttempts now username (totpFails t) in
  (r.1, set_totpFails r.2 t).

Definition recordTOTPFail (now : Z) (username : string) (t : authFailTracker) : authFailTracker :=
  if is_empty username then t
  else
    let m := totpFails t in
    match m !! username with
    | Some f =>
        if now - firstAt f <=? totpWindow
        then set_totpFails (<[username := mkFail (fcount f + 1) (firstAt f) now]> m) t
        else set_totpFails (<[username := mkFail 1 now now]> m) t
    | None => set_totpFails (<[username := mkFail 1 now now]> m) t
    end.

Definition recordTOTPSuccess (username : string) (t : authFailTracker) : authFailTracker :=
  set_totpFails (delete username (totpFails t)) t.

Definition recordSignup (now : Z) (ip : string) (t : authFailTracker) : authFailTracker :=
  set_signupCounts (bump signupIPWindow now ip (signupCounts t)) t.

Definition isSignupThrottled (now : Z) (ip : string) (t : authFailTracker) : bool * authFailTracker :=
  let r := check signupIPWindow signupIPMax now ip (signupCounts t) in
  (r.1, set_signupCounts r.2 t).

(** One tick of [sweepAuthTracker]. *)
Definition sweep_map (window now : Z) (m : gmap string authFail) : gmap string authFail :=
  filter (fun kf => now - lastAt kf.2 <= window) m.

Definition sweepAuthTracker (now : Z) (t : authFailTracker) : authFailTracker :=
  mkTracker (sweep_map authIPWindow now (ipFails t))
            (sweep_map authUserWindow now (userFails t))
            (sweep_map totpWindow now (totpFails t))
            (sweep_map signupIPWindow now (signupCounts t)).

(** The progressive delay of the login handlers: half a second per failure,
    five at most. *)
Definition failDelay (ip : string) (t : authFailTracker) : Z :=
  match ipFails t !! ip with
  | Some f => let d := fcount f * (500 * Millisecond) in
              if 5 * Second <? d then 5 * Second else d
  | None => 0
  end.

(** ** Properties *)

(** Well-formedness: counts are positive and a window starts before the last
    attempt in it. *)
Definition fail_ok (f : authFail) : Prop := 1 <= fcount f /\ firstAt f <= lastAt f.

Definition counters_ok (m : gmap string authFail) : Prop :=
  map_Forall (fun _ f => fail_ok f) m.

Definition tracker_ok (t : authFailTracker) : Prop :=
  counters_ok (ipFails t) /\ counters_ok (userFails t)
  /\ counters_ok (totpFails t) /\ counters_ok (signupCounts t).

(** No recorded attempt lies in the future of [now]. *)
Definition counters_before (now : Z) (m : gmap string authFail) : Prop :=
  map_Forall (fun _ f => lastAt f <= now) m.

Lemma bump_ok window now k m :
  counters_ok m -> counters_before now m -> counters_ok (bump window now k m).
Proof.
  unfold bump. intros Hok Hb. destruct (m !! k) as [f|] eqn:E.
  - pose proof (Hok k f E) as [? ?]. pose proof (Hb k f E) as Hl. simpl in *.
    destruct (window <? now - firstAt f); apply map_Forall_insert_2; auto; split; simpl; lia.
  - apply map_Forall_insert_2; auto; split; simpl; lia.
Qed.

Lemma bump_ne window now k k' m : k <> k' -> bump window now k m !! k' = m !! k'.
Proof.
  intros Hne. unfold bump. destruct (m !! k) as [f|]; [destruct (_ <? _)|];
    by rewrite lookup_insert_ne.
Qed.

(** Within one window, each attempt adds exactly one. *)
Lemma bump_in_window window now k m f :
  m !! k = Some f -> now - firstAt f <= window ->
  bump window now k m !! k = Some (mkFail (fcount f + 1) (firstAt f) now).
Proof.
  intros Hk Hw. unfold bump. rewrite Hk.
  rewrite (proj2 (Z.ltb_ge _ _)) by lia. apply lookup_insert_eq.
Qed.

Lemma bump_fresh window now k m :
  m !! k = None -> bump window now k m !! k = Some (mkFail 1 now now).
Proof. intros Hk. unfold bump. rewrite Hk. apply lookup_insert_eq. Qed.

(** The attempts at times [ts], in order. *)
Definition bumps (window : Z) (ts : list Z) (k : string) (m : gmap string authFail) :=
  foldl (fun m t => bump window t k m) m ts.

Lemma bumps_in_window window k ts t0 n tl m :
  m !! k = Some (mkFail n t0 tl) -> Forall (fun t => t - t0 <= window) ts ->
  exists tl', bumps window ts k m !! k = Some (mkFail (n + Z.of_nat (length ts)) t0 tl').
Proof.
  revert n tl m. induction ts as [|t ts IH]; intros n tl m Hk Hw; simpl.
  - exists tl. rewrite Z.add_0_r. done.
  - apply Forall_cons in Hw as [Ht Hw].
    destruct (IH (n + 1) t (bump window t k m)) as [tl' Hl]; [|done|].
    + by rewrite (bump_in_window _ _ _ _ _ Hk).
    + exists tl'. rewrite Hl. do 2 f_equal. lia.
Qed.

(** A run of attempts starting from a clean slate, all within one window of
    the first, counts exactly its length. *)
Lemma bumps_fresh window k t0 ts m :
  m !! k = None -> Forall (fun t => t - t0 <= window) ts ->
  exists tl, bumps window (t0 :: ts) k m !! k
             = Some (mkFail (1 + Z.of_nat (length ts)) t0 tl).
Proof.
  intros Hk Hw. simpl. eapply bumps_in_window; [|done]. by apply bump_fresh.
Qed.

Lemma check_other window th now k k' m :
  k <> k' -> (check window th now k m).2 !! k' = m !! k'.
Proof.
  intros Hne. unfold check. destruct (m !! k) as [f|]; [|done].
  destruct (_ <? _); [|done]. simpl. by rewrite lookup_delete_ne.
Qed.

(** What [check] answers, without the deletion. *)
Definition over (window th now : Z) (k : string) (m : gmap string authFail) : bool :=
  match m !! k with
  | None => false
  | Some f => (now - firstAt f <=? window) && (th <=? fcount f)
  end.

Lemma check_over window th now k m : (check window th now k m).1 = over window th now k m.
Proof.
  unfold check, over. destruct (m !! k) as [f|]; [|done].
  destruct (window <? now - firstAt f) eqn:E; bools; simpl.
  - by rewrite (proj2 (Z.leb_gt (now - firstAt f) window)) by lia.
  - by rewrite (proj2 (Z.leb_le (now - firstAt f) window)) by lia.
Qed.

(** Asking never changes a later answer: the entry [check] forgets would have
    answered [false] anyway. *)
Lemma over_check window th now now' k k' m :
  now <= now' -> over window th now' k' (check window th now k m).2 = over window th now' k' m.
Proof.
  intros Hle. unfold over. destruct (decide (k = k')) as [->|Hne]; [|by rewrite check_other].
  unfold check. destruct (m !! k') as [f|] eqn:E; simpl; [|by rewrite E].
  destruct (window <? now - firstAt f) eqn:W; simpl; [|by rewrite E].
  rewrite lookup_delete_eq. apply Z.ltb_lt in W.
  rewrite (proj2 (Z.leb_gt (now' - firstAt f) window)) by lia. done.
Qed.

Lemma lookup_sweep window now k m :
  sweep_map window now m !! k =
    match m !! k with
    | Some f => if decide (now - lastAt f <= window) then Some f else None
    | None => None
    end.
Proof.
  unfold sweep_map. rewrite map_lookup_filter. destruct (m !! k) as [f|]; simpl; [|done].
  repeat case_decide; simpl; done.
Qed.

(** Sweeping is invisible to every later question. *)
Lemma over_sweep window th now now' k m :
  counters_ok m -> now <= now' ->
  over window th now' k (sweep_map window now m) = over window th now' k m.
Proof.
  intros Hok Hle. unfold over. rewrite lookup_sweep.
  destruct (m !! k) as [f|] eqn:E; [|done].
  case_decide as Hw; [done|]. pose proof (Hok k f E) as [_ Hf]. simpl in Hf.
  rewrite (proj2 (Z.leb_gt (now' - firstAt f) window)) by lia. done.
Qed.

Lemma sweep_ok window now m : counters_ok m -> counters_ok (sweep_map window now m).
Proof.
  intros Hok k f Hk. rewrite lookup_sweep in Hk. destruct (m !! k) as [g|] eqn:E; [|done].
  case_decide; [|done]. injection Hk as <-. by apply (Hok k).
Qed.
