(* ===== verification/Netutil.v ===== *)
(** * Per-key rate limiters and client addresses ([netutil.go])

    [ipLimiter] keeps one token bucket per key and evicts idle ones.  The
    bucket itself is [golang.org/x/time/rate]: here it is the list of the
    instants at which it was asked, and [rateAllow] decides from that history,
    so any deterministic limiter fits. *)

From Stdlib Require Import ZArith Lia Ascii.
From stdpp Require Import base strings list gmap.
From S2P Require Import Prelude GoRt.

Open Scope Z_scope.

(** [rate.NewLimiter(rate.Limit(num/den), burst)] *)
Record rateParams := mkRate { rnum : Z; rden : Z; rburst : Z }.

Record Limiter := mkLimiter { lparams : rateParams; lhistory : list Z }.

Definition NewLimiter (p : rateParams) : Limiter := mkLimiter p [].

Record limiterEntry := mkEntry { lim : Limiter; elast : Z }.

Record ipLimiter := mkIPLimiter {
  entries : gmap string limiterEntry;
  lrate : rateParams;
  idleTTL : Z;
  maxSize : Z;
  lastGC : Z;
  gcEvery : Z }.

Definition newIPLimiter (p : rateParams) : ipLimiter :=
  mkIPLimiter ∅ p (10 * Minute) 50000 0 (1 * Minute).

Definition set_entries (m : gmap string limiterEntry) (l : ipLimiter) : ipLimiter :=
  mkIPLimiter m (lrate l) (idleTTL l) (maxSize l) (lastGC l) (gcEvery l).

(** The loop of [gcLocked] that sheds entries in map order until the table is
    at nine tenths of its cap. *)
Fixpoint shed (cap : Z) (ks : list string) (m : gmap string limiterEntry) : gmap string limiterEntry :=
  match ks with
  | [] => m
  | k :: ks' =>
      let m' := delete k m in
      if Z.of_nat (size m') <=? (cap * 9) `div` 10 then m' else shed cap ks' m'
  end.

Definition gcLocked (now : Z) (l : ipLimiter) : ipLimiter :=
  if (now - lastGC l <? gcEvery l) && (Z.of_nat (size (entries l)) <? maxSize l) then l
  else
    let cutoff := now - idleTTL l in
    let m1 := filter (fun ke => ~ elast ke.2 < cutoff) (entries l) in
    let m2 := if maxSize l <? Z.of_nat (size m1)
              then shed (maxSize l) (map_to_list m1).*1 m1 else m1 in
    mkIPLimiter m2 (lrate l) (idleTTL l) (maxSize l) now (gcEvery l).

Section WithRate.
Context (rateAllow : rateParams -> list Z -> Z -> bool).

Definition Allow (now : Z) (b : Limiter) : bool * Limiter :=
  (rateAllow (lparams b) (lhistory b) now, mkLimiter (lparams b) (lhistory b ++ [now])).

Definition allow (now : Z) (ip : string) (l : ipLimiter) : bool * ipLimiter :=
  let l1 := gcLocked now l in
  let e := match entries l1 !! ip with
           | Some e => e
           | None => mkEntry (NewLimiter (lrate l1)) now
           end in
  let r := Allow now (lim e) in
  (r.1, set_entries (<[ip := mkEntry r.2 now]> (entries l1)) l1).
End WithRate.

(** The server's limiters. *)
Definition globalLimiter0 : ipLimiter := newIPLimiter (mkRate 10 1 30).
Definition adminLimiter0 : ipLimiter := newIPLimiter (mkRate 5 100 3).
Definition resendLimiter0 : ipLimiter := newIPLimiter (mkRate 1 300 1).
Definition forgotPasswordLimiter0 : ipLimiter := newIPLimiter (mkRate 1 300 1).
Definition remoteLookupLimiter0 : ipLimiter := newIPLimiter (mkRate 10 60 10).
Definition uploadLimiter0 : ipLimiter := newIPLimiter (mkRate 20 3600 20).

(** ** Properties *)

Lemma size_delete_le (k : string) (m : gmap string limiterEntry) :
  (size (delete k m) <= size m)%nat.
Proof. rewrite map_size_delete. destruct (m !! k); simpl; lia. Qed.

Lemma shed_bound cap ks m :
  0 <= cap -> (forall k, is_Some (m !! k) -> k ∈ ks) -> Z.of_nat (size (shed cap ks m)) <= cap.
Proof.
  intros Hc. revert m. induction ks as [|k ks IH]; intros m Hks; simpl.
  - assert (m = ∅) as ->.
    { apply map_empty. intros k. destruct (m !! k) eqn:E; [|done].
      assert (k ∈ @nil string) as Hin by (apply Hks; eauto). by apply elem_of_nil in Hin. }
    rewrite map_size_empty. lia.
  - destruct (Z.leb_spec (Z.of_nat (size (delete k m))) ((cap * 9) `div` 10)) as [Hle|Hgt].
    + pose proof (Z.mul_div_le (cap * 9) 10 ltac:(lia)).
      pose proof (Z.div_le_upper_bound (cap * 9) 10 cap ltac:(lia) ltac:(lia)). lia.
    + apply IH. intros k' [e He]. destruct (decide (k = k')) as [->|Hne].
      * by rewrite lookup_delete_eq in He.
      * rewrite lookup_delete_ne in He by done.
        specialize (Hks k' ltac:(eauto)). apply elem_of_cons in Hks as [->|]; done.
Qed.

Lemma gcLocked_size now l :
  0 <= maxSize l -> Z.of_nat (size (entries (gcLocked now l))) <= maxSize l.
Proof.
  intros Hm. unfold gcLocked. destruct (_ && _) eqn:E; bools; [lia|]. simpl.
  set (m1 := filter _ (entries l)).
  destruct (Z.ltb_spec (maxSize l) (Z.of_nat (size m1))) as [Hlt|]; [|lia].
  apply shed_bound; [done|]. intros k [e He].
  apply list_elem_of_fmap. exists (k, e). split; [done|]. by apply elem_of_map_to_list.
Qed.

Lemma gcLocked_maxSize now l : maxSize (gcLocked now l) = maxSize l.
Proof. unfold gcLocked. by destruct (_ && _). Qed.

Lemma size_insert_le (k : string) (e : limiterEntry) (m : gmap string limiterEntry) :
  (size (<[k := e]> m) <= S (size m))%nat.
Proof. rewrite map_size_insert. destruct (m !! k); simpl; lia. Qed.

(** Asking for one key leaves every bucket that survives the eviction alone. *)
Lemma allow_other ra now ip ip' l e :
  ip <> ip' -> entries (allow ra now ip l).2 !! ip' = Some e -> entries l !! ip' = Some e.
Proof.
  intros Hne. unfold allow. simpl. rewrite lookup_insert_ne by done.
  assert (Hshed : forall cap ks m, shed cap ks m !! ip' = Some e -> m !! ip' = Some e).
  { intros cap ks. induction ks as [|k ks IH]; intros m Hm; simpl in *; [done|].
    assert (delete k m !! ip' = Some e) as Hd.
    { destruct (_ <=? _); [done|]. by apply IH. }
    apply lookup_delete_Some in Hd as [_ ?]. done. }
  unfold gcLocked. destruct (_ && _); simpl; [done|].
  assert (Hf : filter (fun ke : string * limiterEntry => ~ elast ke.2 < now - idleTTL l)
                 (entries l) !! ip' = Some e -> entries l !! ip' = Some e).
  { intros Hl. by apply map_lookup_filter_Some in Hl as [? _]. }
  destruct (_ <? _); [|exact Hf]. intros H. apply Hf. by eapply Hshed.
Qed.
