(* ===== verification/Store.v ===== *)
(** * Tables

    What the server's SQL statements do to one table, as functions on the
    list of its rows in insertion order: [INSERT], [INSERT OR IGNORE],
    [ON CONFLICT DO UPDATE], [UPDATE ... WHERE], [DELETE ... WHERE],
    [SELECT ... WHERE ... ORDER BY ... LIMIT].  [seqno] is the AUTOINCREMENT
    counter.  A [SELECT] without [ORDER BY] returns rows in insertion order;
    no theorem depends on that choice beyond membership. *)

From Stdlib Require Import ZArith Lia Sorted.
From stdpp Require Import base strings list gmap.
From S2P Require Import Prelude.

Open Scope Z_scope.

Record Table (R : Type) := mkTable { rows : list R; seqno : Z }.
Arguments mkTable {R} _ _.
Arguments rows {R} _.
Arguments seqno {R} _.

Definition empty_table {R} : Table R := mkTable [] 0.

Section Ops.
Context {R : Type}.
Implicit Types (t : Table R) (p : R -> bool).

Definition tselect p t : list R := boolfilter p (rows t).
Definition tfirst p t : option R := find_first p (rows t).
Definition tcount p t : Z := Z.of_nat (length (tselect p t)).
Definition texists p t : bool := existsb p (rows t).

(** [INSERT]: the new row may use the id it is given. *)
Definition tinsert (mk : Z -> R) t : Table R :=
  mkTable (rows t ++ [mk (seqno t + 1)]) (seqno t + 1).
Definition tnext t : Z := seqno t + 1.

(** [INSERT] under a uniqueness constraint; [conflict] recognises the rows
    that have the new row's key. *)
Definition tinsert_unique (conflict : R -> bool) (mk : Z -> R) t : option (Table R) :=
  if texists conflict t then None else Some (tinsert mk t).

(** [INSERT OR IGNORE] *)
Definition tinsert_ignore (conflict : R -> bool) (mk : Z -> R) t : Table R :=
  if texists conflict t then t else tinsert mk t.

(** [UPDATE ... SET f WHERE p] *)
Definition tupdate p (f : R -> R) t : Table R :=
  mkTable ((fun r => if p r then f r else r) <$> rows t) (seqno t).

(** [INSERT ... ON CONFLICT DO UPDATE SET f] *)
Definition tupsert (conflict : R -> bool) (f : R -> R) (mk : Z -> R) t : Table R :=
  if texists conflict t then tupdate conflict f t else tinsert mk t.

Definition tdelete p t : Table R :=
  mkTable (boolfilter (fun r => negb (p r)) (rows t)) (seqno t).
End Ops.

(** [ORDER BY key ASC], stable. *)
Fixpoint insert_by {R} (key : R -> Z) (x : R) (l : list R) : list R :=
  match l with
  | [] => [x]
  | y :: l' => if key x <=? key y then x :: l else y :: insert_by key x l'
  end.

Fixpoint order_by {R} (key : R -> Z) (l : list R) : list R :=
  match l with
  | [] => []
  | x :: l' => insert_by key x (order_by key l')
  end.

Definition order_by_desc {R} (key : R -> Z) (l : list R) : list R :=
  order_by (fun r => - key r) l.

(** [ORDER BY key ASC] on text: bytes compared lexicographically. *)
Fixpoint insert_str {R} (key : R -> string) (x : R) (l : list R) : list R :=
  match l with
  | [] => [x]
  | y :: l' => if String.leb (key x) (key y) then x :: l else y :: insert_str key x l'
  end.

Fixpoint order_str {R} (key : R -> string) (l : list R) : list R :=
  match l with
  | [] => []
  | x :: l' => insert_str key x (order_str key l')
  end.

(** [SELECT SUM(f)] *)
Definition tsum {R} (f : R -> Z) (l : list R) : Z := foldr (fun r n => f r + n) 0 l.

(** ** Facts *)

Lemma insert_str_Permutation {R} (key : R -> string) x l : insert_str key x l ≡ₚ x :: l.
Proof.
  induction l as [|y l IH]; simpl; [done|].
  destruct (String.leb _ _); [done|]. rewrite IH. apply Permutation_swap.
Qed.

Lemma order_str_Permutation {R} (key : R -> string) l : order_str key l ≡ₚ l.
Proof. induction l as [|x l IH]; simpl; [done|]. by rewrite insert_str_Permutation, IH. Qed.

Lemma tsum_app {R} (f : R -> Z) l k : tsum f (l ++ k) = tsum f l + tsum f k.
Proof. unfold tsum. induction l as [|x l IH]; simpl; [done|]. rewrite IH. lia. Qed.

Lemma tsum_nonneg {R} (f : R -> Z) l : (forall r, r ∈ l -> 0 <= f r) -> 0 <= tsum f l.
Proof.
  unfold tsum. induction l as [|x l IH]; simpl; intros H; [lia|].
  assert (0 <= f x) by (apply H; left). assert (0 <= foldr (fun r n => f r + n) 0 l).
  { apply IH. intros r Hr. apply H. by right. } lia.
Qed.

Section Facts.
Context {R : Type}.
Implicit Types (t : Table R) (p : R -> bool).

Lemma elem_of_tselect p t r : r ∈ tselect p t <-> p r = true /\ r ∈ rows t.
Proof. apply elem_of_boolfilter. Qed.

Lemma texists_true p t : texists p t = true <-> exists r, r ∈ rows t /\ p r = true.
Proof.
  unfold texists. rewrite existsb_exists. split; intros (r & Hr & Hp); exists r;
    split; auto; by apply list_elem_of_In.
Qed.

Lemma texists_false p t : texists p t = false <-> forall r, r ∈ rows t -> p r = false.
Proof.
  split.
  - intros H r Hr. destruct (p r) eqn:E; [|done].
    assert (texists p t = true) by (apply texists_true; eauto). congruence.
  - intros H. destruct (texists p t) eqn:E; [|done].
    apply texists_true in E as (r & Hr & Hp). rewrite (H r Hr) in Hp. done.
Qed.

Lemma tfirst_Some p t r : tfirst p t = Some r -> r ∈ rows t /\ p r = true.
Proof. apply find_first_Some. Qed.

Lemma tfirst_None p t : tfirst p t = None <-> texists p t = false.
Proof. unfold tfirst. by rewrite find_first_None, texists_false. Qed.

Lemma tcount_pos p t : (0 <? tcount p t) = texists p t.
Proof.
  unfold tcount. destruct (texists p t) eqn:E.
  - apply texists_true in E as (r & Hr & Hp). apply Z.ltb_lt.
    assert (r ∈ tselect p t) as Hin by (by apply elem_of_tselect).
    destruct (tselect p t); [by apply elem_of_nil in Hin | simpl; lia].
  - apply Z.ltb_ge. destruct (tselect p t) as [|r l] eqn:Es; [simpl; lia|].
    assert (r ∈ tselect p t) as Hin by (rewrite Es; left).
    apply elem_of_tselect in Hin as [Hp Hr].
    rewrite (proj1 (texists_false p t) E r Hr) in Hp. done.
Qed.

Lemma tcount_zero p t : tcount p t = 0 <-> texists p t = false.
Proof.
  rewrite <- tcount_pos. unfold tcount. split; intros H.
  - rewrite H. done.
  - apply Z.ltb_ge in H. lia.
Qed.

Lemma elem_of_tupdate p f t r :
  r ∈ rows (tupdate p f t) <-> exists r0, r0 ∈ rows t /\ r = if p r0 then f r0 else r0.
Proof.
  unfold tupdate. simpl. rewrite list_elem_of_fmap.
  split; intros (r0 & H1 & H2); exists r0; auto.
Qed.

Lemma elem_of_tdelete p t r : r ∈ rows (tdelete p t) <-> r ∈ rows t /\ p r = false.
Proof.
  simpl. rewrite elem_of_boolfilter. rewrite negb_true_iff. tauto.
Qed.

Lemma elem_of_tinsert mk t r : r ∈ rows (tinsert mk t) <-> r ∈ rows t \/ r = mk (tnext t).
Proof. simpl. rewrite elem_of_app, list_elem_of_singleton. done. Qed.

Lemma texists_tdelete p t : texists p (tdelete p t) = false.
Proof.
  apply texists_false. intros r Hr. by apply elem_of_tdelete in Hr as [_ ?].
Qed.

Lemma tdelete_none p t : texists p t = false -> tdelete p t = t.
Proof.
  intros H. destruct t as [l n]. unfold tdelete. simpl. f_equal.
  rewrite texists_false in H. simpl in H. clear n.
  induction l as [|r l IH]; [done|].
  rewrite boolfilter_cons, (H r) by left. simpl. f_equal.
  apply IH. intros x Hx. apply H. by right.
Qed.

Lemma tupdate_none p f t : texists p t = false -> tupdate p f t = t.
Proof.
  intros H. destruct t as [l n]. unfold tupdate. simpl. f_equal.
  rewrite <- (list_fmap_id l) at 2. apply list_fmap_ext. intros i c Hc.
  rewrite (proj1 (texists_false p (mkTable l n)) H c); [done|].
  by apply list_elem_of_lookup_2 in Hc.
Qed.

Lemma tselect_tdelete q p t :
  (forall r, q r = true -> p r = false) -> tselect q (tdelete p t) = tselect q t.
Proof.
  intros H. unfold tselect, tdelete. simpl. induction (rows t) as [|r l IH]; [done|].
  rewrite !boolfilter_cons. destruct (p r) eqn:Ep; simpl.
  - destruct (q r) eqn:Eq; [|done]. rewrite (H r Eq) in Ep. done.
  - rewrite boolfilter_cons, IH. done.
Qed.

Lemma tselect_tinsert p mk t :
  tselect p (tinsert mk t) = tselect p t ++ (if p (mk (tnext t)) then [mk (tnext t)] else []).
Proof.
  unfold tselect, tinsert, tnext. simpl. rewrite boolfilter_app. f_equal.
  rewrite boolfilter_cons. by destruct (p _).
Qed.

Lemma tselect_tupdate_other q p f t :
  (forall r, p r = true -> q r = false /\ q (f r) = false) ->
  tselect q (tupdate p f t) = tselect q t.
Proof.
  intros H. unfold tselect, tupdate. simpl. induction (rows t) as [|r l IH]; [done|].
  rewrite fmap_cons, !boolfilter_cons. destruct (p r) eqn:Ep; [|by rewrite IH].
  destruct (H r Ep) as [-> ->]. apply IH.
Qed.

(** An update that [q] cannot see commutes with selecting by [q]. *)
Lemma tselect_tupdate q p f t :
  (forall r, q (f r) = q r) ->
  tselect q (tupdate p f t) = (fun r => if p r then f r else r) <$> tselect q t.
Proof.
  intros H. unfold tselect, tupdate. simpl. induction (rows t) as [|r l IH]; [done|].
  rewrite fmap_cons, !boolfilter_cons, IH.
  replace (q (if p r then f r else r)) with (q r) by (destruct (p r); auto).
  by destruct (q r).
Qed.

Lemma tfirst_tupdate q p f t :
  (forall r, q (f r) = q r) ->
  tfirst q (tupdate p f t) = (fun r => if p r then f r else r) <$> tfirst q t.
Proof.
  intros H. unfold tfirst, tupdate. simpl. induction (rows t) as [|r l IH]; [done|]. simpl.
  replace (q (if p r then f r else r)) with (q r) by (destruct (p r); auto).
  by destruct (q r).
Qed.

Lemma texists_tupdate q p f t :
  (forall r, q (f r) = q r) -> texists q (tupdate p f t) = texists q t.
Proof.
  intros H. unfold texists, tupdate. simpl. induction (rows t) as [|r l IH]; [done|].
  rewrite fmap_cons. simpl. rewrite IH. f_equal. destruct (p r); auto.
Qed.

(** After an upsert a row with the key is there. *)
Lemma texists_tupsert p f mk t :
  (forall r, p (f r) = p r) -> (forall n, p (mk n) = true) -> texists p (tupsert p f mk t) = true.
Proof.
  intros Hf Hm. unfold tupsert. destruct (texists p t) eqn:E.
  - by rewrite texists_tupdate.
  - apply texists_true. exists (mk (tnext t)). split; [|apply Hm].
    apply elem_of_tinsert. by right.
Qed.

Lemma texists_ext p q t :
  (forall r, r ∈ rows t -> p r = q r) -> texists p t = texists q t.
Proof.
  intros H. destruct (texists q t) eqn:E.
  - apply texists_true in E as (r & Hr & Hq). apply texists_true. exists r.
    by rewrite H.
  - apply texists_false. intros r Hr. rewrite H by done. by apply (proj1 (texists_false q t) E).
Qed.
End Facts.

(** An update that keeps a projection of the rows keeps its list of values. *)
Lemma fmap_tupdate {R K} (key : R -> K) (p : R -> bool) (f : R -> R) (t : Table R) :
  (forall r, key (f r) = key r) -> key <$> rows (tupdate p f t) = key <$> rows t.
Proof.
  intros Hf. unfold tupdate. simpl. induction (rows t) as [|r l IH]; [done|].
  rewrite !fmap_cons, IH. f_equal. destruct (p r); auto.
Qed.

(** ** Uniqueness of keys *)

Definition unique {R K} (key : R -> K) (t : Table R) : Prop := NoDup (key <$> rows t).

Section Unique.
Context {R K : Type} (key : R -> K).
Implicit Types (t : Table R) (p : R -> bool).

Lemma unique_empty : unique key empty_table.
Proof. apply NoDup_nil_2. Qed.

Lemma unique_tdelete p t : unique key t -> unique key (tdelete p t).
Proof. apply NoDup_fmap_sublist, boolfilter_sublist. Qed.

Lemma unique_tupdate p f t :
  (forall r, key (f r) = key r) -> unique key t -> unique key (tupdate p f t).
Proof.
  intros Hf. unfold unique. by rewrite fmap_tupdate.
Qed.

Lemma unique_tinsert mk t :
  (forall r, r ∈ rows t -> key r <> key (mk (tnext t))) ->
  unique key t -> unique key (tinsert mk t).
Proof.
  unfold unique, tinsert. simpl. intros Hne Hu. rewrite fmap_app.
  apply NoDup_app. split; [done|]. split; [|apply NoDup_singleton].
  intros k Hk Hk'. simpl in Hk'. apply list_elem_of_singleton in Hk' as ->.
  apply list_elem_of_fmap in Hk as (r & He & Hr). by apply (Hne r).
Qed.

(** The constraint recognises exactly the rows with the new row's key. *)
Definition guards (conflict : R -> bool) (mk : Z -> R) : Prop :=
  forall n r, conflict r = false -> key r <> key (mk n).

Lemma unique_tinsert_guarded conflict mk t :
  guards conflict mk -> texists conflict t = false ->
  unique key t -> unique key (tinsert mk t).
Proof.
  intros Hg Hc. apply unique_tinsert. intros r Hr. apply Hg.
  by apply (proj1 (texists_false conflict t) Hc).
Qed.

Lemma unique_tinsert_unique conflict mk t t' :
  guards conflict mk -> tinsert_unique conflict mk t = Some t' ->
  unique key t -> unique key t'.
Proof.
  unfold tinsert_unique. intros Hg. destruct (texists conflict t) eqn:E; [done|].
  intros [= <-]. by eapply unique_tinsert_guarded.
Qed.

Lemma unique_tinsert_ignore conflict mk t :
  guards conflict mk -> unique key t -> unique key (tinsert_ignore conflict mk t).
Proof.
  unfold tinsert_ignore. intros Hg Hu. destruct (texists conflict t) eqn:E; [done|].
  by eapply unique_tinsert_guarded.
Qed.

Lemma unique_tupsert conflict f mk t :
  guards conflict mk -> (forall r, key (f r) = key r) ->
  unique key t -> unique key (tupsert conflict f mk t).
Proof.
  unfold tupsert. intros Hg Hf Hu. destruct (texists conflict t) eqn:E.
  - by apply unique_tupdate.
  - by eapply unique_tinsert_guarded.
Qed.

(** At most one row has a given key. *)
Lemma unique_eq t r1 r2 :
  unique key t -> r1 ∈ rows t -> r2 ∈ rows t -> key r1 = key r2 -> r1 = r2.
Proof.
  unfold unique. intros Hu H1 H2 Hk.
  induction (rows t) as [|r l IH]; [by apply elem_of_nil in H1|].
  rewrite fmap_cons in Hu. apply NoDup_cons in Hu as [Hr Hu].
  apply elem_of_cons in H1 as [-> | H1]; apply elem_of_cons in H2 as [-> | H2]; auto.
  - destruct Hr. rewrite Hk. by apply list_elem_of_fmap_2.
  - destruct Hr. rewrite <- Hk. by apply list_elem_of_fmap_2.
Qed.
End Unique.

(** A predicate that pins the key of a row of the table counts it once. *)
Lemma tcount_unique {R K} (key : R -> K) (p : R -> bool) (t : Table R) r :
  unique key t -> r ∈ rows t -> p r = true -> (forall x, p x = true -> key x = key r) ->
  tcount p t = 1.
Proof.
  intros Hu Hr Hp Hk. unfold tcount, tselect. unfold unique in Hu.
  induction (rows t) as [|x l IH]; [by apply elem_of_nil in Hr|].
  rewrite fmap_cons in Hu. apply NoDup_cons in Hu as [Hx Hu]. rewrite boolfilter_cons.
  destruct (p x) eqn:E.
  - rewrite (boolfilter_false p l); [done|]. apply Forall_forall. intros y Hy.
    destruct (p y) eqn:Ey; [|done]. destruct Hx. rewrite (Hk x E), <- (Hk y Ey).
    by apply list_elem_of_fmap_2.
  - apply elem_of_cons in Hr as [-> | Hr]; [congruence|]. by apply IH.
Qed.

Lemma tcount_le_1 {R K} (key : R -> K) (p : R -> bool) (t : Table R) :
  unique key t -> (forall x y, p x = true -> p y = true -> key x = key y) ->
  0 <= tcount p t <= 1.
Proof.
  intros Hu Hk. destruct (texists p t) eqn:E.
  - apply texists_true in E as (r & Hr & Hp). rewrite (tcount_unique key p t r); auto. lia.
  - apply tcount_zero in E as ->. lia.
Qed.

(** ** AUTOINCREMENT: ids increase along the table and never exceed the counter *)

Definition ids_ok {R} (id : R -> Z) (t : Table R) : Prop :=
  StronglySorted Z.lt (id <$> rows t) /\ Forall (fun r => id r <= seqno t) (rows t).

Section Ids.
Context {R : Type} (id : R -> Z).
Implicit Types (t : Table R) (p : R -> bool).

Lemma ids_ok_empty : ids_ok id empty_table.
Proof. split; constructor. Qed.

Lemma StronglySorted_sublist (l k : list Z) :
  l `sublist_of` k -> StronglySorted Z.lt k -> StronglySorted Z.lt l.
Proof.
  induction 1 as [|x l k Hs IH|x l k Hs IH]; intros Hk; [done| |]; inversion Hk; subst.
  - constructor; [auto|]. eapply Forall_forall. intros y Hy.
    match goal with H : Forall _ k |- _ => rewrite Forall_forall in H; apply H end.
    by eapply elem_of_sublist.
  - auto.
Qed.

Lemma ids_ok_tdelete p t : ids_ok id t -> ids_ok id (tdelete p t).
Proof.
  intros [Hs Hb]. split; simpl.
  - eapply StronglySorted_sublist; [|exact Hs]. apply fmap_sublist, boolfilter_sublist.
  - apply Forall_forall. intros r Hr. apply elem_of_boolfilter in Hr as [_ Hr].
    rewrite Forall_forall in Hb. by apply Hb.
Qed.

Lemma ids_ok_tupdate p f t :
  (forall r, id (f r) = id r) -> ids_ok id t -> ids_ok id (tupdate p f t).
Proof.
  intros Hf [Hs Hb]. split; simpl.
  - change (StronglySorted Z.lt (id <$> rows (tupdate p f t))). by rewrite fmap_tupdate.
  - apply Forall_fmap. eapply Forall_impl; [exact Hb|]. intros r Hr. simpl.
    destruct (p r); [by rewrite Hf | done].
Qed.

Lemma ids_ok_tinsert mk t :
  (forall n, id (mk n) = n) -> ids_ok id t -> ids_ok id (tinsert mk t).
Proof.
  intros Hid [Hs Hb]. split; simpl.
  - rewrite fmap_app. simpl. rewrite Hid. clear Hid.
    induction (rows t) as [|r l IH]; simpl; [by repeat constructor|].
    rewrite fmap_cons in Hs. inversion Hs; subst. apply Forall_cons in Hb as [Hr Hb].
    constructor; [auto|]. apply Forall_app. split; [done|].
    constructor; [lia | constructor].
  - apply Forall_app. split.
    + eapply Forall_impl; [exact Hb|]. intros r Hr. simpl in Hr. lia.
    + constructor; [by rewrite Hid | constructor].
Qed.

Lemma ids_ok_unique t : ids_ok id t -> unique id t.
Proof.
  intros [Hs _]. unfold unique. induction Hs as [|x l Hs IH Hx]; constructor; [|done].
  intros Hin. rewrite Forall_forall in Hx. specialize (Hx x Hin). lia.
Qed.
End Ids.

(** ** Sorting *)

Section Sorting.
Context {R : Type} (key : R -> Z).

Lemma insert_by_Permutation x l : insert_by key x l ≡ₚ x :: l.
Proof.
  induction l as [|y l IH]; simpl; [done|].
  destruct (_ <=? _); [done|]. rewrite IH. apply Permutation_swap.
Qed.

Lemma order_by_Permutation l : order_by key l ≡ₚ l.
Proof. induction l as [|x l IH]; simpl; [done|]. by rewrite insert_by_Permutation, IH. Qed.

Lemma elem_of_order_by l x : x ∈ order_by key l <-> x ∈ l.
Proof. by rewrite order_by_Permutation. Qed.

(** A list already in order is left alone. *)
Lemma order_by_sorted l :
  StronglySorted Z.le (key <$> l) -> order_by key l = l.
Proof.
  induction l as [|x l IH]; simpl; [done|].
  intros Hs. inversion Hs as [|? ? Hs' Hx]; subst.
  rewrite IH by done. destruct l as [|y l]; simpl; [done|].
  apply Forall_cons in Hx as [Hxy _].
  by rewrite (proj2 (Z.leb_le (key x) (key y)) Hxy).
Qed.

Lemma insert_by_Sorted x l :
  StronglySorted Z.le (key <$> l) -> StronglySorted Z.le (key <$> insert_by key x l).
Proof.
  induction l as [|y l IH]; simpl; [by repeat constructor|].
  intros Hs. inversion Hs as [|? ? Hs' Hy]; subst. destruct (key x <=? key y) eqn:E; bools.
  - rewrite fmap_cons. constructor; [done|]. constructor; [done|].
    eapply Forall_impl; [exact Hy|]. simpl. lia.
  - rewrite fmap_cons. constructor; [auto|]. rewrite Forall_fmap, insert_by_Permutation.
    constructor; simpl; [lia|]. by rewrite Forall_fmap in Hy.
Qed.

Lemma order_by_Sorted l : StronglySorted Z.le (key <$> order_by key l).
Proof. induction l as [|x l IH]; simpl; [constructor | by apply insert_by_Sorted]. Qed.

Lemma order_by_fmap (g : R -> R) l :
  (forall r, key (g r) = key r) -> order_by key (g <$> l) = g <$> order_by key l.
Proof.
  intros Hg. induction l as [|x l IH]; [done|]. rewrite fmap_cons. simpl. rewrite IH.
  generalize (order_by key l). intros k. induction k as [|y k IHk]; [done|].
  rewrite fmap_cons. simpl. rewrite !Hg. destruct (_ <=? _); [done|]. by rewrite IHk.
Qed.

Lemma insert_by_last x l :
  Forall (fun y => key y < key x) l -> insert_by key x l = l ++ [x].
Proof.
  induction 1 as [|y l Hy _ IH]; simpl; [done|].
  rewrite (proj2 (Z.leb_gt (key x) (key y)) Hy). by rewrite IH.
Qed.
End Sorting.

(** The rows of a table with ascending ids are already in the order of ids. *)
Lemma order_by_ids {R} (id : R -> Z) (t : Table R) (p : R -> bool) :
  ids_ok id t -> order_by id (tselect p t) = tselect p t.
Proof.
  intros [Hs _]. apply order_by_sorted.
  assert (H : StronglySorted Z.lt (id <$> tselect p t)).
  { eapply StronglySorted_sublist; [|exact Hs]. apply fmap_sublist, boolfilter_sublist. }
  clear Hs. induction H as [|x l Hl IH Hx]; constructor; [done|].
  eapply Forall_impl; [exact Hx|]. simpl. lia.
Qed.

(** Sorting a strictly ascending list in descending order reverses it. *)
Lemma order_by_desc_rev {R} (key : R -> Z) (l : list R) :
  StronglySorted Z.lt (key <$> l) -> order_by_desc key l = rev l.
Proof.
  unfold order_by_desc. induction l as [|x l IH]; simpl; [done|].
  intros Hs. inversion Hs as [|? ? Hs' Hx]; subst.
  rewrite IH by done. apply insert_by_last. apply Forall_forall. intros y Hy.
  rewrite Forall_fmap, Forall_forall in Hx. apply list_elem_of_In, in_rev, list_elem_of_In in Hy.
  specialize (Hx y Hy). simpl in Hx. lia.
Qed.

(** The first [n] of the reversed list, put back in order, are the last [n]. *)
Lemma rev_take_rev {A} (n : nat) (l : list A) : rev (take n (rev l)) = drop (length l - n) l.
Proof.
  rewrite <- (take_drop (length l - n) l) at 1. rewrite rev_app_distr.
  destruct (decide (n <= length l)%nat) as [Hn|Hn].
  - rewrite <- (rev_involutive (drop _ l)) at 2. f_equal.
    rewrite <- (take_app_length (rev (drop (length l - n) l)) (rev (take (length l - n) l))) at 2.
    f_equal. rewrite length_rev, length_drop. lia.
  - replace (length l - n)%nat with 0%nat by lia. simpl. rewrite app_nil_r, drop_0.
    rewrite take_ge by (rewrite length_rev; lia). apply rev_involutive.
Qed.

(** From here on the operations are reasoned about through these lemmas. *)
#[global] Arguments tselect {R} p t : simpl never.
#[global] Arguments tfirst {R} p t : simpl never.
#[global] Arguments tcount {R} p t : simpl never.
#[global] Arguments texists {R} p t : simpl never.
#[global] Arguments tinsert {R} mk t : simpl never.
#[global] Arguments tinsert_unique {R} conflict mk t : simpl never.
#[global] Arguments tinsert_ignore {R} conflict mk t : simpl never.
#[global] Arguments tupdate {R} p f t : simpl never.
#[global] Arguments tupsert {R} conflict f mk t : simpl never.
#[global] Arguments tdelete {R} p t : simpl never.
