(* ===== verification/Wire.v ===== *)
(** * The wire protocol ([NexusMessage] and its payloads in [main.go])

    Each struct is a record with the struct's fields; the [set_m*] functions
    are field assignments.  [nm t] is the composite literal
    [NexusMessage{Type: t}], the other fields zero. *)

From Stdlib Require Import ZArith.
From stdpp Require Import base strings list gmap.
From S2P Require Import Prelude.

Open Scope string_scope.
Open Scope list_scope.
Open Scope Z_scope.

(** [TurnConfig] *)
Record TurnConfig := mkTurn {
  tURL : string;
  tURLs : list string;
  tUsername : string;
  tPassword : string }.

(** [ServerSummary]: the slim view of a server in a list. *)
Record ServerSummary := mkServerSummary {
  sID : string;
  sName : string;
  sDescription : string;
  sIcon : string;
  sOwner : string;
  sVisibility : string;
  sRole : string;
  sInviteCode : string;
  sMemberCount : Z;
  sIsMember : bool }.

(** [ChannelInfo] *)
Record ChannelInfo := mkChannelInfo {
  ciID : string;
  ciServerID : string;
  ciName : string;
  ciTopic : string;
  ciKind : string;
  ciPosition : Z }.

(** [ChannelMsg]: one row of channel history on the wire. *)
Record ChannelMsg := mkChannelMsg {
  cmID : Z;
  cmChannelID : string;
  cmSender : string;
  cmBody : string;
  cmCreatedAt : Z;
  cmEdited : bool;
  cmDeleted : bool;
  cmPinned : bool;
  cmReactions : gmap string (list string) }.

Definition ChannelMsg_eta (r : ChannelMsg) : ChannelMsg :=
  mkChannelMsg (cmID r) (cmChannelID r) (cmSender r) (cmBody r) (cmCreatedAt r) (cmEdited r)
    (cmDeleted r) (cmPinned r) (cmReactions r).

Definition set_cmID (v : Z) (r : ChannelMsg) : ChannelMsg := ltac:(upd r ChannelMsg_eta cmID v).
Definition set_cmChannelID (v : string) (r : ChannelMsg) : ChannelMsg :=
  ltac:(upd r ChannelMsg_eta cmChannelID v).
Definition set_cmSender (v : string) (r : ChannelMsg) : ChannelMsg :=
  ltac:(upd r ChannelMsg_eta cmSender v).
Definition set_cmBody (v : string) (r : ChannelMsg) : ChannelMsg :=
  ltac:(upd r ChannelMsg_eta cmBody v).
Definition set_cmCreatedAt (v : Z) (r : ChannelMsg) : ChannelMsg :=
  ltac:(upd r ChannelMsg_eta cmCreatedAt v).
Definition set_cmEdited (v : bool) (r : ChannelMsg) : ChannelMsg :=
  ltac:(upd r ChannelMsg_eta cmEdited v).
Definition set_cmDeleted (v : bool) (r : ChannelMsg) : ChannelMsg :=
  ltac:(upd r ChannelMsg_eta cmDeleted v).
Definition set_cmPinned (v : bool) (r : ChannelMsg) : ChannelMsg :=
  ltac:(upd r ChannelMsg_eta cmPinned v).
Definition set_cmReactions (v : gmap string (list string)) (r : ChannelMsg) : ChannelMsg :=
  ltac:(upd r ChannelMsg_eta cmReactions v).

(** [KeyBackupPayload] *)
Record KeyBackupPayload := mkBackupPayload {
  kbCiphertext : string;
  kbSalt : string;
  kbIterations : Z;
  kbCreatedAt : Z }.

(** [DMMessage]: one row of direct or group history on the wire. *)
Record DMMessage := mkDM {
  dmMsgID : string;
  dmSender : string;
  dmRecipient : string;
  dmBody : string;
  dmEdited : bool;
  dmDeleted : bool;
  dmCreatedAt : Z;
  dmReactions : gmap string (list string) }.

Definition DMMessage_eta (r : DMMessage) : DMMessage :=
  mkDM (dmMsgID r) (dmSender r) (dmRecipient r) (dmBody r) (dmEdited r) (dmDeleted r)
    (dmCreatedAt r) (dmReactions r).

Definition set_dmMsgID (v : string) (r : DMMessage) : DMMessage :=
  ltac:(upd r DMMessage_eta dmMsgID v).
Definition set_dmSender (v : string) (r : DMMessage) : DMMessage :=
  ltac:(upd r DMMessage_eta dmSender v).
Definition set_dmRecipient (v : string) (r : DMMessage) : DMMessage :=
  ltac:(upd r DMMessage_eta dmRecipient v).
Definition set_dmBody (v : string) (r : DMMessage) : DMMessage :=
  ltac:(upd r DMMessage_eta dmBody v).
Definition set_dmEdited (v : bool) (r : DMMessage) : DMMessage :=
  ltac:(upd r DMMessage_eta dmEdited v).
Definition set_dmDeleted (v : bool) (r : DMMessage) : DMMessage :=
  ltac:(upd r DMMessage_eta dmDeleted v).
Definition set_dmCreatedAt (v : Z) (r : DMMessage) : DMMessage :=
  ltac:(upd r DMMessage_eta dmCreatedAt v).
Definition set_dmReactions (v : gmap string (list string)) (r : DMMessage) : DMMessage :=
  ltac:(upd r DMMessage_eta dmReactions v).

(** [NexusMessage]: the wire protocol. *)
Record NexusMessage := mkMsg {
  mType : string;
  mSender : string;
  mRecipient : string;
  mBody : string;
  mStatus : string;
  mResults : list string;
  mSDP : string;
  mCandidate : string;
  mRoomID : string;
  mToken : string;
  mError : string;
  mEmail : string;
  mMood : string;
  mDisplayName : string;
  mSupporter : bool;
  mPerks : gmap string (list string);
  mItems : list string;
  mItem : string;
  mCrates : Z;
  mShards : Z;
  mShardsGained : Z;
  mDupe : bool;
  mCosts : list (string * Z);
  mConvoID : string;
  mConvoName : string;
  mMembers : list string;
  mCreator : string;
  mContactGroups : gmap string string;
  mTurnConfig : option TurnConfig;
  mTOTPCode : string;
  mTOTPURI : string;
  mQRToken : string;
  mQRData : string;
  mDeviceInfo : string;
  mRefBy : string;
  mMsgID : string;
  mReaction : string;
  mEnvelopes : gmap string string;
  mPublicKey : list Z;
  mKeyFingerprint : string;
  mServerID : string;
  mChannelID : string;
  mServerName : string;
  mChannelName : string;
  mTopic : string;
  mKind : string;
  mRole : string;
  mVisibility : string;
  mInviteCode : string;
  mServers : list ServerSummary;
  mChannels : list ChannelInfo;
  mMessages : list ChannelMsg;
  mHistoryFrom : Z;
  mDMHistory : list DMMessage;
  mKeyBackup : option KeyBackupPayload;
  mBackupCodes : list string;
  mTs : Z;
  mDuration : Z;
  mChallengeID : Z;
  mDeviceID : string;
  mStroke : string;
  mStrokes : list string;
  mStrokeID : Z;
  mStrokeUID : string }.

Definition NexusMessage_eta (r : NexusMessage) : NexusMessage :=
  mkMsg (mType r) (mSender r) (mRecipient r) (mBody r) (mStatus r) (mResults r) (mSDP r)
    (mCandidate r) (mRoomID r) (mToken r) (mError r) (mEmail r) (mMood r) (mDisplayName r)
    (mSupporter r) (mPerks r) (mItems r) (mItem r) (mCrates r) (mShards r) (mShardsGained r)
    (mDupe r) (mCosts r) (mConvoID r) (mConvoName r) (mMembers r) (mCreator r)
    (mContactGroups r) (mTurnConfig r) (mTOTPCode r) (mTOTPURI r) (mQRToken r) (mQRData r)
    (mDeviceInfo r) (mRefBy r) (mMsgID r) (mReaction r) (mEnvelopes r) (mPublicKey r)
    (mKeyFingerprint r) (mServerID r) (mChannelID r) (mServerName r) (mChannelName r) (mTopic r)
    (mKind r) (mRole r) (mVisibility r) (mInviteCode r) (mServers r) (mChannels r) (mMessages r)
    (mHistoryFrom r) (mDMHistory r) (mKeyBackup r) (mBackupCodes r) (mTs r) (mDuration r)
    (mChallengeID r) (mDeviceID r) (mStroke r) (mStrokes r) (mStrokeID r) (mStrokeUID r).

Definition set_mType (v : string) (r : NexusMessage) : NexusMessage :=
  ltac:(upd r NexusMessage_eta mType v).
Definition set_mSender (v : string) (r : NexusMessage) : NexusMessage :=
  ltac:(upd r NexusMessage_eta mSender v).
Definition set_mRecipient (v : string) (r : NexusMessage) : NexusMessage :=
  ltac:(upd r NexusMessage_eta mRecipient v).
Definition set_mBody (v : string) (r : NexusMessage) : NexusMessage :=
  ltac:(upd r NexusMessage_eta mBody v).
Definition set_mStatus (v : string) (r : NexusMessage) : NexusMessage :=
  ltac:(upd r NexusMessage_eta mStatus v).
Definition set_mResults (v : list string) (r : NexusMessage) : NexusMessage :=
  ltac:(upd r NexusMessage_eta mResults v).
Definition set_mSDP (v : string) (r : NexusMessage) : NexusMessage :=
  ltac:(upd r NexusMessage_eta mSDP v).
Definition set_mCandidate (v : string) (r : NexusMessage) : NexusMessage :=
  ltac:(upd r NexusMessage_eta mCandidate v).
Definition set_mRoomID (v : string) (r : NexusMessage) : NexusMessage :=
  ltac:(upd r NexusMessage_eta mRoomID v).
Definition set_mToken (v : string) (r : NexusMessage) : NexusMessage :=
  ltac:(upd r NexusMessage_eta mToken v).
Definition set_mError (v : string) (r : NexusMessage) : NexusMessage :=
  ltac:(upd r NexusMessage_eta mError v).
Definition set_mEmail (v : string) (r : NexusMessage) : NexusMessage :=
  ltac:(upd r NexusMessage_eta mEmail v).
Definition set_mMood (v : string) (r : NexusMessage) : NexusMessage :=
  ltac:(upd r NexusMessage_eta mMood v).
Definition set_mDisplayName (v : string) (r : NexusMessage) : NexusMessage :=
  ltac:(upd r NexusMessage_eta mDisplayName v).
Definition set_mSupporter (v : bool) (r : NexusMessage) : NexusMessage :=
  ltac:(upd r NexusMessage_eta mSupporter v).
Definition set_mPerks (v : gmap string (list string)) (r : NexusMessage) : NexusMessage :=
  ltac:(upd r NexusMessage_eta mPerks v).
Definition set_mItems (v : list string) (r : NexusMessage) : NexusMessage :=
  ltac:(upd r NexusMessage_eta mItems v).
Definition set_mItem (v : string) (r : NexusMessage) : NexusMessage :=
  ltac:(upd r NexusMessage_eta mItem v).
Definition set_mCrates (v : Z) (r : NexusMessage) : NexusMessage :=
  ltac:(upd r NexusMessage_eta mCrates v).
Definition set_mShards (v : Z) (r : NexusMessage) : NexusMessage :=
  ltac:(upd r NexusMessage_eta mShards v).
Definition set_mShardsGained (v : Z) (r : NexusMessage) : NexusMessage :=
  ltac:(upd r NexusMessage_eta mShardsGained v).
Definition set_mDupe (v : bool) (r : NexusMessage) : NexusMessage :=
  ltac:(upd r NexusMessage_eta mDupe v).
Definition set_mCosts (v : list (string * Z)) (r : NexusMessage) : NexusMessage :=
  ltac:(upd r NexusMessage_eta mCosts v).
Definition set_mConvoID (v : string) (r : NexusMessage) : NexusMessage :=
  ltac:(upd r NexusMessage_eta mConvoID v).
Definition set_mConvoName (v : string) (r : NexusMessage) : NexusMessage :=
  ltac:(upd r NexusMessage_eta mConvoName v).
Definition set_mMembers (v : list string) (r : NexusMessage) : NexusMessage :=
  ltac:(upd r NexusMessage_eta mMembers v).
Definition set_mCreator (v : string) (r : NexusMessage) : NexusMessage :=
  ltac:(upd r NexusMessage_eta mCreator v).
Definition set_mContactGroups (v : gmap string string) (r : NexusMessage) : NexusMessage :=
  ltac:(upd r NexusMessage_eta mContactGroups v).
Definition set_mTurnConfig (v : option TurnConfig) (r : NexusMessage) : NexusMessage :=
  ltac:(upd r NexusMessage_eta mTurnConfig v).
Definition set_mTOTPCode (v : string) (r : NexusMessage) : NexusMessage :=
  ltac:(upd r NexusMessage_eta mTOTPCode v).
Definition set_mTOTPURI (v : string) (r : NexusMessage) : NexusMessage :=
  ltac:(upd r NexusMessage_eta mTOTPURI v).
Definition set_mQRToken (v : string) (r : NexusMessage) : NexusMessage :=
  ltac:(upd r NexusMessage_eta mQRToken v).
Definition set_mQRData (v : string) (r : NexusMessage) : NexusMessage :=
  ltac:(upd r NexusMessage_eta mQRData v).
Definition set_mDeviceInfo (v : string) (r : NexusMessage) : NexusMessage :=
  ltac:(upd r NexusMessage_eta mDeviceInfo v).
Definition set_mRefBy (v : string) (r : NexusMessage) : NexusMessage :=
  ltac:(upd r NexusMessage_eta mRefBy v).
Definition set_mMsgID (v : string) (r : NexusMessage) : NexusMessage :=
  ltac:(upd r NexusMessage_eta mMsgID v).
Definition set_mReaction (v : string) (r : NexusMessage) : NexusMessage :=
  ltac:(upd r NexusMessage_eta mReaction v).
Definition set_mEnvelopes (v : gmap string string) (r : NexusMessage) : NexusMessage :=
  ltac:(upd r NexusMessage_eta mEnvelopes v).
Definition set_mPublicKey (v : list Z) (r : NexusMessage) : NexusMessage :=
  ltac:(upd r NexusMessage_eta mPublicKey v).
Definition set_mKeyFingerprint (v : string) (r : NexusMessage) : NexusMessage :=
  ltac:(upd r NexusMessage_eta mKeyFingerprint v).
Definition set_mServerID (v : string) (r : NexusMessage) : NexusMessage :=
  ltac:(upd r NexusMessage_eta mServerID v).
Definition set_mChannelID (v : string) (r : NexusMessage) : NexusMessage :=
  ltac:(upd r NexusMessage_eta mChannelID v).
Definition set_mServerName (v : string) (r : NexusMessage) : NexusMessage :=
  ltac:(upd r NexusMessage_eta mServerName v).
Definition set_mChannelName (v : string) (r : NexusMessage) : NexusMessage :=
  ltac:(upd r NexusMessage_eta mChannelName v).
Definition set_mTopic (v : string) (r : NexusMessage) : NexusMessage :=
  ltac:(upd r NexusMessage_eta mTopic v).
Definition set_mKind (v : string) (r : NexusMessage) : NexusMessage :=
  ltac:(upd r NexusMessage_eta mKind v).
Definition set_mRole (v : string) (r : NexusMessage) : NexusMessage :=
  ltac:(upd r NexusMessage_eta mRole v).
Definition set_mVisibility (v : string) (r : NexusMessage) : NexusMessage :=
  ltac:(upd r NexusMessage_eta mVisibility v).
Definition set_mInviteCode (v : string) (r : NexusMessage) : NexusMessage :=
  ltac:(upd r NexusMessage_eta mInviteCode v).
Definition set_mServers (v : list ServerSummary) (r : NexusMessage) : NexusMessage :=
  ltac:(upd r NexusMessage_eta mServers v).
Definition set_mChannels (v : list ChannelInfo) (r : NexusMessage) : NexusMessage :=
  ltac:(upd r NexusMessage_eta mChannels v).
Definition set_mMessages (v : list ChannelMsg) (r : NexusMessage) : NexusMessage :=
  ltac:(upd r NexusMessage_eta mMessages v).
Definition set_mHistoryFrom (v : Z) (r : NexusMessage) : NexusMessage :=
  ltac:(upd r NexusMessage_eta mHistoryFrom v).
Definition set_mDMHistory (v : list DMMessage) (r : NexusMessage) : NexusMessage :=
  ltac:(upd r NexusMessage_eta mDMHistory v).
Definition set_mKeyBackup (v : option KeyBackupPayload) (r : NexusMessage) : NexusMessage :=
  ltac:(upd r NexusMessage_eta mKeyBackup v).
Definition set_mBackupCodes (v : list string) (r : NexusMessage) : NexusMessage :=
  ltac:(upd r NexusMessage_eta mBackupCodes v).
Definition set_mTs (v : Z) (r : NexusMessage) : NexusMessage := ltac:(upd r NexusMessage_eta mTs v).
Definition set_mDuration (v : Z) (r : NexusMessage) : NexusMessage :=
  ltac:(upd r NexusMessage_eta mDuration v).
Definition set_mChallengeID (v : Z) (r : NexusMessage) : NexusMessage :=
  ltac:(upd r NexusMessage_eta mChallengeID v).
Definition set_mDeviceID (v : string) (r : NexusMessage) : NexusMessage :=
  ltac:(upd r NexusMessage_eta mDeviceID v).
Definition set_mStroke (v : string) (r : NexusMessage) : NexusMessage :=
  ltac:(upd r NexusMessage_eta mStroke v).
Definition set_mStrokes (v : list string) (r : NexusMessage) : NexusMessage :=
  ltac:(upd r NexusMessage_eta mStrokes v).
Definition set_mStrokeID (v : Z) (r : NexusMessage) : NexusMessage :=
  ltac:(upd r NexusMessage_eta mStrokeID v).
Definition set_mStrokeUID (v : string) (r : NexusMessage) : NexusMessage :=
  ltac:(upd r NexusMessage_eta mStrokeUID v).

(** The zero value with its [Type] field set: [NexusMessage{Type: t}]. *)
Definition nm (t : string) : NexusMessage :=
  mkMsg t "" "" "" "" [] "" "" "" "" "" "" "" "" false ∅ [] "" 0 0 0 false [] "" "" [] "" ∅ None "" "" "" "" "" "" "" "" ∅ [] "" "" "" "" "" "" "" "" "" "" [] [] [] 0 [] None [] 0 0 0 "" "" [] 0 "".
(** Field-by-field literals read left to right. *)
Notation "x |> f" := (f x) (at level 61, left associativity, only parsing) : go_scope.
