(* ===== verification/Db.v ===== *)
(** * The database schema ([initDB] in [main.go], [initRewardsDB] in [rewards.go], and
    the tables the other files create)

    One record per table with the columns the modelled code reads or writes.
    Integers are [Z], timestamps are instants in nanoseconds, and a column
    that the code can leave NULL is an [option]. *)

From Stdlib Require Import ZArith.
From stdpp Require Import base strings list gmap.
From S2P Require Import Prelude Store.

Open Scope Z_scope.

(** A row of [users]. *)
Record User := mkUser {
  u_username : string;
  u_email : string;
  u_mood : string;
  u_display_name : option string;
  u_password_hash : string;
  u_is_verified : Z;
  u_verification_code : option string;
  u_phone_number : option string;
  u_phone_verified : Z;
  u_created_at : Z;
  u_totp_secret : string;
  u_totp_enabled : Z;
  u_is_admin : Z;
  u_role : string;
  u_is_banned : Z;
  u_ban_reason : string;
  u_banned_at : option Z;
  u_fcm_token : string;
  u_last_ip : string;
  u_last_login_at : option Z;
  u_signup_ip : string;
  u_phone_verification_code : option string;
  u_status : string;
  u_supporter : Z;
  u_supporter_since : option Z;
  u_referred_by : string }.

Definition User_eta (r : User) : User :=
  mkUser (u_username r) (u_email r) (u_mood r) (u_display_name r) (u_password_hash r)
    (u_is_verified r) (u_verification_code r) (u_phone_number r) (u_phone_verified r)
    (u_created_at r) (u_totp_secret r) (u_totp_enabled r) (u_is_admin r) (u_role r)
    (u_is_banned r) (u_ban_reason r) (u_banned_at r) (u_fcm_token r) (u_last_ip r)
    (u_last_login_at r) (u_signup_ip r) (u_phone_verification_code r) (u_status r)
    (u_supporter r) (u_supporter_since r) (u_referred_by r).

Definition set_u_username (v : string) (r : User) : User := ltac:(upd r User_eta u_username v).
Definition set_u_email (v : string) (r : User) : User := ltac:(upd r User_eta u_email v).
Definition set_u_mood (v : string) (r : User) : User := ltac:(upd r User_eta u_mood v).
Definition set_u_display_name (v : option string) (r : User) : User :=
  ltac:(upd r User_eta u_display_name v).
Definition set_u_password_hash (v : string) (r : User) : User :=
  ltac:(upd r User_eta u_password_hash v).
Definition set_u_is_verified (v : Z) (r : User) : User := ltac:(upd r User_eta u_is_verified v).
Definition set_u_verification_code (v : option string) (r : User) : User :=
  ltac:(upd r User_eta u_verification_code v).
Definition set_u_phone_number (v : option string) (r : User) : User :=
  ltac:(upd r User_eta u_phone_number v).
Definition set_u_phone_verified (v : Z) (r : User) : User :=
  ltac:(upd r User_eta u_phone_verified v).
Definition set_u_created_at (v : Z) (r : User) : User := ltac:(upd r User_eta u_created_at v).
Definition set_u_totp_secret (v : string) (r : User) : User :=
  ltac:(upd r User_eta u_totp_secret v).
Definition set_u_totp_enabled (v : Z) (r : User) : User := ltac:(upd r User_eta u_totp_enabled v).
Definition set_u_is_admin (v : Z) (r : User) : User := ltac:(upd r User_eta u_is_admin v).
Definition set_u_role (v : string) (r : User) : User := ltac:(upd r User_eta u_role v).
Definition set_u_is_banned (v : Z) (r : User) : User := ltac:(upd r User_eta u_is_banned v).
Definition set_u_ban_reason (v : string) (r : User) : User := ltac:(upd r User_eta u_ban_reason v).
Definition set_u_banned_at (v : option Z) (r : User) : User := ltac:(upd r User_eta u_banned_at v).
Definition set_u_fcm_token (v : string) (r : User) : User := ltac:(upd r User_eta u_fcm_token v).
Definition set_u_last_ip (v : string) (r : User) : User := ltac:(upd r User_eta u_last_ip v).
Definition set_u_last_login_at (v : option Z) (r : User) : User :=
  ltac:(upd r User_eta u_last_login_at v).
Definition set_u_signup_ip (v : string) (r : User) : User := ltac:(upd r User_eta u_signup_ip v).
Definition set_u_phone_verification_code (v : option string) (r : User) : User :=
  ltac:(upd r User_eta u_phone_verification_code v).
Definition set_u_status (v : string) (r : User) : User := ltac:(upd r User_eta u_status v).
Definition set_u_supporter (v : Z) (r : User) : User := ltac:(upd r User_eta u_supporter v).
Definition set_u_supporter_since (v : option Z) (r : User) : User :=
  ltac:(upd r User_eta u_supporter_since v).
Definition set_u_referred_by (v : string) (r : User) : User :=
  ltac:(upd r User_eta u_referred_by v).

(** A row of [friends]. *)
Record Friend := mkFriend {
  f_user_a : string;
  f_user_b : string;
  f_status : string }.

Definition Friend_eta (r : Friend) : Friend :=
  mkFriend (f_user_a r) (f_user_b r) (f_status r).

Definition set_f_user_a (v : string) (r : Friend) : Friend := ltac:(upd r Friend_eta f_user_a v).
Definition set_f_user_b (v : string) (r : Friend) : Friend := ltac:(upd r Friend_eta f_user_b v).
Definition set_f_status (v : string) (r : Friend) : Friend := ltac:(upd r Friend_eta f_status v).

(** A row of [contact_groups]. *)
Record ContactGroup := mkContactGroup {
  cg_owner : string;
  cg_contact : string;
  cg_group_name : string }.

Definition ContactGroup_eta (r : ContactGroup) : ContactGroup :=
  mkContactGroup (cg_owner r) (cg_contact r) (cg_group_name r).

Definition set_cg_owner (v : string) (r : ContactGroup) : ContactGroup :=
  ltac:(upd r ContactGroup_eta cg_owner v).
Definition set_cg_contact (v : string) (r : ContactGroup) : ContactGroup :=
  ltac:(upd r ContactGroup_eta cg_contact v).
Definition set_cg_group_name (v : string) (r : ContactGroup) : ContactGroup :=
  ltac:(upd r ContactGroup_eta cg_group_name v).

(** A row of [offline_messages]. *)
Record OfflineMessage := mkOfflineMessage {
  om_id : Z;
  om_sender : string;
  om_recipient : string;
  om_body : string;
  om_msg_type : string;
  om_convo : string;
  om_created_at : Z;
  om_msg_id : string }.

(** A row of [conversations]. *)
Record Conversation := mkConversation {
  cv_id : string;
  cv_name : string;
  cv_created_by : string }.

Definition Conversation_eta (r : Conversation) : Conversation :=
  mkConversation (cv_id r) (cv_name r) (cv_created_by r).

Definition set_cv_id (v : string) (r : Conversation) : Conversation :=
  ltac:(upd r Conversation_eta cv_id v).
Definition set_cv_name (v : string) (r : Conversation) : Conversation :=
  ltac:(upd r Conversation_eta cv_name v).
Definition set_cv_created_by (v : string) (r : Conversation) : Conversation :=
  ltac:(upd r Conversation_eta cv_created_by v).

(** A row of [conversation_members]. *)
Record ConvoMember := mkConvoMember {
  cvm_convo_id : string;
  cvm_username : string }.

(** A row of [convo_messages]. *)
Record ConvoMessage := mkConvoMessage {
  cvs_id : Z;
  cvs_convo_id : string;
  cvs_sender : string;
  cvs_body : string;
  cvs_sent_at : Z }.

(** A row of [blocks]. *)
Record Block := mkBlock {
  b_blocker : string;
  b_blocked : string;
  b_created_at : Z }.

(** A row of [abuse_reports]. *)
Record AbuseReport := mkAbuseReport {
  ar_id : Z;
  ar_reporter : string;
  ar_subject : string;
  ar_reason : string;
  ar_body : string;
  ar_status : string;
  ar_resolved_by : string;
  ar_resolved_at : option Z;
  ar_created_at : Z }.

Definition AbuseReport_eta (r : AbuseReport) : AbuseReport :=
  mkAbuseReport (ar_id r) (ar_reporter r) (ar_subject r) (ar_reason r) (ar_body r) (ar_status r)
    (ar_resolved_by r) (ar_resolved_at r) (ar_created_at r).

Definition set_ar_id (v : Z) (r : AbuseReport) : AbuseReport :=
  ltac:(upd r AbuseReport_eta ar_id v).
Definition set_ar_reporter (v : string) (r : AbuseReport) : AbuseReport :=
  ltac:(upd r AbuseReport_eta ar_reporter v).
Definition set_ar_subject (v : string) (r : AbuseReport) : AbuseReport :=
  ltac:(upd r AbuseReport_eta ar_subject v).
Definition set_ar_reason (v : string) (r : AbuseReport) : AbuseReport :=
  ltac:(upd r AbuseReport_eta ar_reason v).
Definition set_ar_body (v : string) (r : AbuseReport) : AbuseReport :=
  ltac:(upd r AbuseReport_eta ar_body v).
Definition set_ar_status (v : string) (r : AbuseReport) : AbuseReport :=
  ltac:(upd r AbuseReport_eta ar_status v).
Definition set_ar_resolved_by (v : string) (r : AbuseReport) : AbuseReport :=
  ltac:(upd r AbuseReport_eta ar_resolved_by v).

Definition set_ar_resolved_at (v : option Z) (r : AbuseReport) : AbuseReport :=
  ltac:(upd r AbuseReport_eta ar_resolved_at v).

(** A row of [session_tokens]. *)
Record SessionToken := mkSessionToken {
  st_token : string;
  st_username : string;
  st_device_info : string;
  st_created_at : Z;
  st_expires_at : Z;
  st_revoked : Z;
  st_pending_device : Z }.

Definition SessionToken_eta (r : SessionToken) : SessionToken :=
  mkSessionToken (st_token r) (st_username r) (st_device_info r) (st_created_at r)
    (st_expires_at r) (st_revoked r) (st_pending_device r).

Definition set_st_token (v : string) (r : SessionToken) : SessionToken :=
  ltac:(upd r SessionToken_eta st_token v).
Definition set_st_username (v : string) (r : SessionToken) : SessionToken :=
  ltac:(upd r SessionToken_eta st_username v).
Definition set_st_device_info (v : string) (r : SessionToken) : SessionToken :=
  ltac:(upd r SessionToken_eta st_device_info v).
Definition set_st_created_at (v : Z) (r : SessionToken) : SessionToken :=
  ltac:(upd r SessionToken_eta st_created_at v).
Definition set_st_expires_at (v : Z) (r : SessionToken) : SessionToken :=
  ltac:(upd r SessionToken_eta st_expires_at v).
Definition set_st_revoked (v : Z) (r : SessionToken) : SessionToken :=
  ltac:(upd r SessionToken_eta st_revoked v).
Definition set_st_pending_device (v : Z) (r : SessionToken) : SessionToken :=
  ltac:(upd r SessionToken_eta st_pending_device v).

(** A row of [password_resets]. *)
Record PasswordReset := mkPasswordReset {
  pr_token : string;
  pr_username : string;
  pr_expires_at : Z;
  pr_used : Z }.

Definition PasswordReset_eta (r : PasswordReset) : PasswordReset :=
  mkPasswordReset (pr_token r) (pr_username r) (pr_expires_at r) (pr_used r).

Definition set_pr_token (v : string) (r : PasswordReset) : PasswordReset :=
  ltac:(upd r PasswordReset_eta pr_token v).
Definition set_pr_username (v : string) (r : PasswordReset) : PasswordReset :=
  ltac:(upd r PasswordReset_eta pr_username v).
Definition set_pr_expires_at (v : Z) (r : PasswordReset) : PasswordReset :=
  ltac:(upd r PasswordReset_eta pr_expires_at v).
Definition set_pr_used (v : Z) (r : PasswordReset) : PasswordReset :=
  ltac:(upd r PasswordReset_eta pr_used v).

(** A row of [qr_login_tokens]. *)
Record QRLogin := mkQRLogin {
  qr_token : string;
  qr_username : string;
  qr_session_token : string;
  qr_device_info : string;
  qr_expires_at : Z;
  qr_approved : Z }.

Definition QRLogin_eta (r : QRLogin) : QRLogin :=
  mkQRLogin (qr_token r) (qr_username r) (qr_session_token r) (qr_device_info r)
    (qr_expires_at r) (qr_approved r).

Definition set_qr_token (v : string) (r : QRLogin) : QRLogin := ltac:(upd r QRLogin_eta qr_token v).
Definition set_qr_username (v : string) (r : QRLogin) : QRLogin :=
  ltac:(upd r QRLogin_eta qr_username v).
Definition set_qr_session_token (v : string) (r : QRLogin) : QRLogin :=
  ltac:(upd r QRLogin_eta qr_session_token v).
Definition set_qr_device_info (v : string) (r : QRLogin) : QRLogin :=
  ltac:(upd r QRLogin_eta qr_device_info v).
Definition set_qr_expires_at (v : Z) (r : QRLogin) : QRLogin :=
  ltac:(upd r QRLogin_eta qr_expires_at v).
Definition set_qr_approved (v : Z) (r : QRLogin) : QRLogin :=
  ltac:(upd r QRLogin_eta qr_approved v).

(** A row of [servers]. *)
Record ServerRow := mkServerRow {
  sv_id : string;
  sv_name : string;
  sv_description : string;
  sv_icon : string;
  sv_owner : string;
  sv_visibility : string;
  sv_invite_code : string;
  sv_created_at : Z }.

(** A row of [channels]. *)
Record Channel := mkChannel {
  ch_id : string;
  ch_server_id : string;
  ch_name : string;
  ch_topic : string;
  ch_kind : string;
  ch_position : Z }.

(** A row of [server_members]. *)
Record ServerMember := mkServerMember {
  sm_server_id : string;
  sm_username : string;
  sm_role : string;
  sm_joined_at : Z }.

Definition ServerMember_eta (r : ServerMember) : ServerMember :=
  mkServerMember (sm_server_id r) (sm_username r) (sm_role r) (sm_joined_at r).

Definition set_sm_server_id (v : string) (r : ServerMember) : ServerMember :=
  ltac:(upd r ServerMember_eta sm_server_id v).
Definition set_sm_username (v : string) (r : ServerMember) : ServerMember :=
  ltac:(upd r ServerMember_eta sm_username v).
Definition set_sm_role (v : string) (r : ServerMember) : ServerMember :=
  ltac:(upd r ServerMember_eta sm_role v).
Definition set_sm_joined_at (v : Z) (r : ServerMember) : ServerMember :=
  ltac:(upd r ServerMember_eta sm_joined_at v).

(** A row of [channel_messages]. *)
Record ChannelMessage := mkChannelMessage {
  cms_id : Z;
  cms_channel_id : string;
  cms_sender : string;
  cms_body : string;
  cms_created_at : Z;
  cms_edited : Z;
  cms_deleted : Z;
  cms_pinned : Z }.

Definition ChannelMessage_eta (r : ChannelMessage) : ChannelMessage :=
  mkChannelMessage (cms_id r) (cms_channel_id r) (cms_sender r) (cms_body r) (cms_created_at r)
    (cms_edited r) (cms_deleted r) (cms_pinned r).

Definition set_cms_id (v : Z) (r : ChannelMessage) : ChannelMessage :=
  ltac:(upd r ChannelMessage_eta cms_id v).
Definition set_cms_channel_id (v : string) (r : ChannelMessage) : ChannelMessage :=
  ltac:(upd r ChannelMessage_eta cms_channel_id v).
Definition set_cms_sender (v : string) (r : ChannelMessage) : ChannelMessage :=
  ltac:(upd r ChannelMessage_eta cms_sender v).
Definition set_cms_body (v : string) (r : ChannelMessage) : ChannelMessage :=
  ltac:(upd r ChannelMessage_eta cms_body v).
Definition set_cms_created_at (v : Z) (r : ChannelMessage) : ChannelMessage :=
  ltac:(upd r ChannelMessage_eta cms_created_at v).
Definition set_cms_edited (v : Z) (r : ChannelMessage) : ChannelMessage :=
  ltac:(upd r ChannelMessage_eta cms_edited v).
Definition set_cms_deleted (v : Z) (r : ChannelMessage) : ChannelMessage :=
  ltac:(upd r ChannelMessage_eta cms_deleted v).
Definition set_cms_pinned (v : Z) (r : ChannelMessage) : ChannelMessage :=
  ltac:(upd r ChannelMessage_eta cms_pinned v).

(** A row of [channel_reactions]. *)
Record ChannelReaction := mkChannelReaction {
  cr_msg_id : Z;
  cr_emoji : string;
  cr_username : string }.

(** A row of [stories]. *)
Record Story := mkStory {
  sto_id : Z;
  sto_author : string;
  sto_media_url : string;
  sto_media_kind : string;
  sto_caption : string;
  sto_created_at : Z;
  sto_expires_at : Z }.

(** A row of [story_views]. *)
Record StoryView := mkStoryView {
  stv_story_id : Z;
  stv_viewer : string }.

(** A row of [user_settings]. *)
Record UserSetting := mkUserSetting {
  us_username : string;
  us_key : string;
  us_value : string }.

Definition UserSetting_eta (r : UserSetting) : UserSetting :=
  mkUserSetting (us_username r) (us_key r) (us_value r).

Definition set_us_username (v : string) (r : UserSetting) : UserSetting :=
  ltac:(upd r UserSetting_eta us_username v).
Definition set_us_key (v : string) (r : UserSetting) : UserSetting :=
  ltac:(upd r UserSetting_eta us_key v).
Definition set_us_value (v : string) (r : UserSetting) : UserSetting :=
  ltac:(upd r UserSetting_eta us_value v).

(** A row of [push_subscriptions]. *)
Record PushSub := mkPushSub {
  ps_username : string;
  ps_endpoint : string;
  ps_p256dh : string;
  ps_auth : string }.

Definition PushSub_eta (r : PushSub) : PushSub :=
  mkPushSub (ps_username r) (ps_endpoint r) (ps_p256dh r) (ps_auth r).

Definition set_ps_username (v : string) (r : PushSub) : PushSub :=
  ltac:(upd r PushSub_eta ps_username v).
Definition set_ps_endpoint (v : string) (r : PushSub) : PushSub :=
  ltac:(upd r PushSub_eta ps_endpoint v).
Definition set_ps_p256dh (v : string) (r : PushSub) : PushSub :=
  ltac:(upd r PushSub_eta ps_p256dh v).
Definition set_ps_auth (v : string) (r : PushSub) : PushSub := ltac:(upd r PushSub_eta ps_auth v).

(** A row of [invite_codes]. *)
Record InviteCode := mkInviteCode {
  ic_code : string;
  ic_inviter : string;
  ic_email : string }.

(** A row of [dm_messages]. *)
Record DMRow := mkDMRow {
  dr_id : Z;
  dr_msg_id : string;
  dr_sender : string;
  dr_recipient : string;
  dr_body : string;
  dr_edited : Z;
  dr_deleted : Z;
  dr_created_at : Z }.

Definition DMRow_eta (r : DMRow) : DMRow :=
  mkDMRow (dr_id r) (dr_msg_id r) (dr_sender r) (dr_recipient r) (dr_body r) (dr_edited r)
    (dr_deleted r) (dr_created_at r).

Definition set_dr_id (v : Z) (r : DMRow) : DMRow := ltac:(upd r DMRow_eta dr_id v).
Definition set_dr_msg_id (v : string) (r : DMRow) : DMRow := ltac:(upd r DMRow_eta dr_msg_id v).
Definition set_dr_sender (v : string) (r : DMRow) : DMRow := ltac:(upd r DMRow_eta dr_sender v).
Definition set_dr_recipient (v : string) (r : DMRow) : DMRow :=
  ltac:(upd r DMRow_eta dr_recipient v).
Definition set_dr_body (v : string) (r : DMRow) : DMRow := ltac:(upd r DMRow_eta dr_body v).
Definition set_dr_edited (v : Z) (r : DMRow) : DMRow := ltac:(upd r DMRow_eta dr_edited v).
Definition set_dr_deleted (v : Z) (r : DMRow) : DMRow := ltac:(upd r DMRow_eta dr_deleted v).
Definition set_dr_created_at (v : Z) (r : DMRow) : DMRow := ltac:(upd r DMRow_eta dr_created_at v).

(** A row of [dm_reactions]. *)
Record DMReaction := mkDMReaction {
  dx_msg_id : string;
  dx_username : string;
  dx_emoji : string }.

(** A row of [key_backups]. *)
Record KeyBackup := mkKeyBackup {
  kb_username : string;
  kb_ciphertext : string;
  kb_salt : string;
  kb_iterations : Z;
  kb_created_at : Z }.

Definition KeyBackup_eta (r : KeyBackup) : KeyBackup :=
  mkKeyBackup (kb_username r) (kb_ciphertext r) (kb_salt r) (kb_iterations r) (kb_created_at r).

Definition set_kb_username (v : string) (r : KeyBackup) : KeyBackup :=
  ltac:(upd r KeyBackup_eta kb_username v).
Definition set_kb_ciphertext (v : string) (r : KeyBackup) : KeyBackup :=
  ltac:(upd r KeyBackup_eta kb_ciphertext v).
Definition set_kb_salt (v : string) (r : KeyBackup) : KeyBackup :=
  ltac:(upd r KeyBackup_eta kb_salt v).
Definition set_kb_iterations (v : Z) (r : KeyBackup) : KeyBackup :=
  ltac:(upd r KeyBackup_eta kb_iterations v).
Definition set_kb_created_at (v : Z) (r : KeyBackup) : KeyBackup :=
  ltac:(upd r KeyBackup_eta kb_created_at v).

(** A row of [totp_backup_codes]. *)
Record BackupCode := mkBackupCode {
  bc_username : string;
  bc_code_hash : string;
  bc_used : Z }.

Definition BackupCode_eta (r : BackupCode) : BackupCode :=
  mkBackupCode (bc_username r) (bc_code_hash r) (bc_used r).

Definition set_bc_username (v : string) (r : BackupCode) : BackupCode :=
  ltac:(upd r BackupCode_eta bc_username v).
Definition set_bc_code_hash (v : string) (r : BackupCode) : BackupCode :=
  ltac:(upd r BackupCode_eta bc_code_hash v).
Definition set_bc_used (v : Z) (r : BackupCode) : BackupCode :=
  ltac:(upd r BackupCode_eta bc_used v).

(** A row of [blocked_ips]. *)
Record BlockedIP := mkBlockedIP {
  bi_ip : string }.

(** A row of [known_devices]. *)
Record KnownDevice := mkKnownDevice {
  kd_username : string;
  kd_device_id : string;
  kd_label : string;
  kd_last_seen : Z;
  kd_last_ip : string }.

Definition KnownDevice_eta (r : KnownDevice) : KnownDevice :=
  mkKnownDevice (kd_username r) (kd_device_id r) (kd_label r) (kd_last_seen r) (kd_last_ip r).

Definition set_kd_username (v : string) (r : KnownDevice) : KnownDevice :=
  ltac:(upd r KnownDevice_eta kd_username v).
Definition set_kd_device_id (v : string) (r : KnownDevice) : KnownDevice :=
  ltac:(upd r KnownDevice_eta kd_device_id v).
Definition set_kd_label (v : string) (r : KnownDevice) : KnownDevice :=
  ltac:(upd r KnownDevice_eta kd_label v).
Definition set_kd_last_seen (v : Z) (r : KnownDevice) : KnownDevice :=
  ltac:(upd r KnownDevice_eta kd_last_seen v).
Definition set_kd_last_ip (v : string) (r : KnownDevice) : KnownDevice :=
  ltac:(upd r KnownDevice_eta kd_last_ip v).

(** A row of [device_challenges]. *)
Record DeviceChallenge := mkDeviceChallenge {
  dc_id : Z;
  dc_username : string;
  dc_device_id : string;
  dc_session_token : string;
  dc_code : string;
  dc_label : string;
  dc_ip : string;
  dc_attempts : Z;
  dc_approved : Z;
  dc_consumed : Z;
  dc_expires_at : Z }.

Definition DeviceChallenge_eta (r : DeviceChallenge) : DeviceChallenge :=
  mkDeviceChallenge (dc_id r) (dc_username r) (dc_device_id r) (dc_session_token r) (dc_code r)
    (dc_label r) (dc_ip r) (dc_attempts r) (dc_approved r) (dc_consumed r) (dc_expires_at r).

Definition set_dc_id (v : Z) (r : DeviceChallenge) : DeviceChallenge :=
  ltac:(upd r DeviceChallenge_eta dc_id v).
Definition set_dc_username (v : string) (r : DeviceChallenge) : DeviceChallenge :=
  ltac:(upd r DeviceChallenge_eta dc_username v).
Definition set_dc_device_id (v : string) (r : DeviceChallenge) : DeviceChallenge :=
  ltac:(upd r DeviceChallenge_eta dc_device_id v).
Definition set_dc_session_token (v : string) (r : DeviceChallenge) : DeviceChallenge :=
  ltac:(upd r DeviceChallenge_eta dc_session_token v).
Definition set_dc_code (v : string) (r : DeviceChallenge) : DeviceChallenge :=
  ltac:(upd r DeviceChallenge_eta dc_code v).
Definition set_dc_label (v : string) (r : DeviceChallenge) : DeviceChallenge :=
  ltac:(upd r DeviceChallenge_eta dc_label v).
Definition set_dc_ip (v : string) (r : DeviceChallenge) : DeviceChallenge :=
  ltac:(upd r DeviceChallenge_eta dc_ip v).
Definition set_dc_attempts (v : Z) (r : DeviceChallenge) : DeviceChallenge :=
  ltac:(upd r DeviceChallenge_eta dc_attempts v).
Definition set_dc_approved (v : Z) (r : DeviceChallenge) : DeviceChallenge :=
  ltac:(upd r DeviceChallenge_eta dc_approved v).
Definition set_dc_consumed (v : Z) (r : DeviceChallenge) : DeviceChallenge :=
  ltac:(upd r DeviceChallenge_eta dc_consumed v).
Definition set_dc_expires_at (v : Z) (r : DeviceChallenge) : DeviceChallenge :=
  ltac:(upd r DeviceChallenge_eta dc_expires_at v).

(** A row of [whiteboard_strokes]. *)
Record StrokeRow := mkStrokeRow {
  ws_id : Z;
  ws_channel_id : string;
  ws_author : string;
  ws_stroke_uid : string;
  ws_stroke : string }.

(** A row of [calls]. *)
Record CallRow := mkCallRow {
  ca_id : Z;
  ca_caller : string;
  ca_callee : string;
  ca_kind : string;
  ca_started_at : Z;
  ca_answered : Z;
  ca_duration_s : Z }.

Definition CallRow_eta (r : CallRow) : CallRow :=
  mkCallRow (ca_id r) (ca_caller r) (ca_callee r) (ca_kind r) (ca_started_at r) (ca_answered r)
    (ca_duration_s r).

Definition set_ca_id (v : Z) (r : CallRow) : CallRow := ltac:(upd r CallRow_eta ca_id v).
Definition set_ca_caller (v : string) (r : CallRow) : CallRow :=
  ltac:(upd r CallRow_eta ca_caller v).
Definition set_ca_callee (v : string) (r : CallRow) : CallRow :=
  ltac:(upd r CallRow_eta ca_callee v).
Definition set_ca_kind (v : string) (r : CallRow) : CallRow := ltac:(upd r CallRow_eta ca_kind v).
Definition set_ca_started_at (v : Z) (r : CallRow) : CallRow :=
  ltac:(upd r CallRow_eta ca_started_at v).
Definition set_ca_answered (v : Z) (r : CallRow) : CallRow :=
  ltac:(upd r CallRow_eta ca_answered v).
Definition set_ca_duration_s (v : Z) (r : CallRow) : CallRow :=
  ltac:(upd r CallRow_eta ca_duration_s v).

(** A row of [reward_crates]. *)
Record RewardCrate := mkRewardCrate {
  rc_id : Z;
  rc_owner : string;
  rc_source : string;
  rc_item : option string;
  rc_shards : Z;
  rc_created_at : Z;
  rc_opened_at : option Z }.

Definition RewardCrate_eta (r : RewardCrate) : RewardCrate :=
  mkRewardCrate (rc_id r) (rc_owner r) (rc_source r) (rc_item r) (rc_shards r) (rc_created_at r)
    (rc_opened_at r).

Definition set_rc_id (v : Z) (r : RewardCrate) : RewardCrate :=
  ltac:(upd r RewardCrate_eta rc_id v).
Definition set_rc_owner (v : string) (r : RewardCrate) : RewardCrate :=
  ltac:(upd r RewardCrate_eta rc_owner v).
Definition set_rc_source (v : string) (r : RewardCrate) : RewardCrate :=
  ltac:(upd r RewardCrate_eta rc_source v).
Definition set_rc_item (v : option string) (r : RewardCrate) : RewardCrate :=
  ltac:(upd r RewardCrate_eta rc_item v).
Definition set_rc_shards (v : Z) (r : RewardCrate) : RewardCrate :=
  ltac:(upd r RewardCrate_eta rc_shards v).
Definition set_rc_created_at (v : Z) (r : RewardCrate) : RewardCrate :=
  ltac:(upd r RewardCrate_eta rc_created_at v).
Definition set_rc_opened_at (v : option Z) (r : RewardCrate) : RewardCrate :=
  ltac:(upd r RewardCrate_eta rc_opened_at v).

(** A row of [reward_crafts]. *)
Record RewardCraft := mkRewardCraft {
  rf_owner : string;
  rf_item : string;
  rf_cost : Z }.

(** A row of [supporter_requests]. *)
Record SupporterRow := mkSupporterRow {
  sq_id : Z;
  sq_username : string;
  sq_name : string;
  sq_email : string;
  sq_status : string;
  sq_created_at : Z }.

Definition SupporterRow_eta (r : SupporterRow) : SupporterRow :=
  mkSupporterRow (sq_id r) (sq_username r) (sq_name r) (sq_email r) (sq_status r) (sq_created_at r).

Definition set_sq_id (v : Z) (r : SupporterRow) : SupporterRow :=
  ltac:(upd r SupporterRow_eta sq_id v).
Definition set_sq_username (v : string) (r : SupporterRow) : SupporterRow :=
  ltac:(upd r SupporterRow_eta sq_username v).
Definition set_sq_name (v : string) (r : SupporterRow) : SupporterRow :=
  ltac:(upd r SupporterRow_eta sq_name v).
Definition set_sq_email (v : string) (r : SupporterRow) : SupporterRow :=
  ltac:(upd r SupporterRow_eta sq_email v).
Definition set_sq_status (v : string) (r : SupporterRow) : SupporterRow :=
  ltac:(upd r SupporterRow_eta sq_status v).
Definition set_sq_created_at (v : Z) (r : SupporterRow) : SupporterRow :=
  ltac:(upd r SupporterRow_eta sq_created_at v).

(** A row of [bmc_payments]. *)
Record BmcPayment := mkBmcPayment {
  bp_id : Z;
  bp_supporter_name : string;
  bp_supporter_email : string;
  bp_amount : string;
  bp_message : string;
  bp_matched_username : string;
  bp_created_at : Z }.

(** A row of [skype_import_messages]. *)
Record SkypeMessageRow := mkSkypeMessageRow {
  skm_username : string;
  skm_conversation_id : string;
  skm_conversation_display : string;
  skm_sender_display : string;
  skm_body : string;
  skm_sent_at : string }.

(** A row of [skype_import_contacts]. *)
Record SkypeContactRow := mkSkypeContactRow {
  skc_username : string;
  skc_skype_id : string;
  skc_display_name : string;
  skc_phaze_username : option string;
  skc_invite_sent : Z }.

(** The tables of [initDB] and [initRewardsDB] that the modelled code uses. *)
Record Database := mkDatabase {
  users : Table User;
  friends : Table Friend;
  contact_groups : Table ContactGroup;
  offline_messages : Table OfflineMessage;
  conversations : Table Conversation;
  conversation_members : Table ConvoMember;
  convo_messages : Table ConvoMessage;
  blocks : Table Block;
  abuse_reports : Table AbuseReport;
  session_tokens : Table SessionToken;
  password_resets : Table PasswordReset;
  qr_login_tokens : Table QRLogin;
  servers : Table ServerRow;
  channels : Table Channel;
  server_members : Table ServerMember;
  channel_messages : Table ChannelMessage;
  channel_reactions : Table ChannelReaction;
  stories : Table Story;
  story_views : Table StoryView;
  user_settings : Table UserSetting;
  push_subscriptions : Table PushSub;
  invite_codes : Table InviteCode;
  dm_messages : Table DMRow;
  dm_reactions : Table DMReaction;
  key_backups : Table KeyBackup;
  totp_backup_codes : Table BackupCode;
  blocked_ips : Table BlockedIP;
  known_devices : Table KnownDevice;
  device_challenges : Table DeviceChallenge;
  whiteboard_strokes : Table StrokeRow;
  calls : Table CallRow;
  reward_crates : Table RewardCrate;
  reward_crafts : Table RewardCraft;
  supporter_requests : Table SupporterRow;
  bmc_payments : Table BmcPayment;
  skype_import_messages : Table SkypeMessageRow;
  skype_import_contacts : Table SkypeContactRow }.

Definition Database_eta (r : Database) : Database :=
  mkDatabase (users r) (friends r) (contact_groups r) (offline_messages r) (conversations r)
    (conversation_members r) (convo_messages r) (blocks r) (abuse_reports r) (session_tokens r)
    (password_resets r) (qr_login_tokens r) (servers r) (channels r) (server_members r)
    (channel_messages r) (channel_reactions r) (stories r) (story_views r) (user_settings r)
    (push_subscriptions r) (invite_codes r) (dm_messages r) (dm_reactions r) (key_backups r)
    (totp_backup_codes r) (blocked_ips r) (known_devices r) (device_challenges r)
    (whiteboard_strokes r) (calls r) (reward_crates r) (reward_crafts r)
    (supporter_requests r) (bmc_payments r) (skype_import_messages r) (skype_import_contacts r).

Definition set_users (v : Table User) (r : Database) : Database :=
  ltac:(upd r Database_eta users v).
Definition set_friends (v : Table Friend) (r : Database) : Database :=
  ltac:(upd r Database_eta friends v).
Definition set_contact_groups (v : Table ContactGroup) (r : Database) : Database :=
  ltac:(upd r Database_eta contact_groups v).
Definition set_offline_messages (v : Table OfflineMessage) (r : Database) : Database :=
  ltac:(upd r Database_eta offline_messages v).
Definition set_conversations (v : Table Conversation) (r : Database) : Database :=
  ltac:(upd r Database_eta conversations v).
Definition set_conversation_members (v : Table ConvoMember) (r : Database) : Database :=
  ltac:(upd r Database_eta conversation_members v).
Definition set_convo_messages (v : Table ConvoMessage) (r : Database) : Database :=
  ltac:(upd r Database_eta convo_messages v).
Definition set_blocks (v : Table Block) (r : Database) : Database :=
  ltac:(upd r Database_eta blocks v).
Definition set_abuse_reports (v : Table AbuseReport) (r : Database) : Database :=
  ltac:(upd r Database_eta abuse_reports v).
Definition set_session_tokens (v : Table SessionToken) (r : Database) : Database :=
  ltac:(upd r Database_eta session_tokens v).
Definition set_password_resets (v : Table PasswordReset) (r : Database) : Database :=
  ltac:(upd r Database_eta password_resets v).
Definition set_qr_login_tokens (v : Table QRLogin) (r : Database) : Database :=
  ltac:(upd r Database_eta qr_login_tokens v).
Definition set_servers (v : Table ServerRow) (r : Database) : Database :=
  ltac:(upd r Database_eta servers v).
Definition set_channels (v : Table Channel) (r : Database) : Database :=
  ltac:(upd r Database_eta channels v).
Definition set_server_members (v : Table ServerMember) (r : Database) : Database :=
  ltac:(upd r Database_eta server_members v).
Definition set_channel_messages (v : Table ChannelMessage) (r : Database) : Database :=
  ltac:(upd r Database_eta channel_messages v).
Definition set_channel_reactions (v : Table ChannelReaction) (r : Database) : Database :=
  ltac:(upd r Database_eta channel_reactions v).
Definition set_stories (v : Table Story) (r : Database) : Database :=
  ltac:(upd r Database_eta stories v).
Definition set_story_views (v : Table StoryView) (r : Database) : Database :=
  ltac:(upd r Database_eta story_views v).
Definition set_user_settings (v : Table UserSetting) (r : Database) : Database :=
  ltac:(upd r Database_eta user_settings v).
Definition set_push_subscriptions (v : Table PushSub) (r : Database) : Database :=
  ltac:(upd r Database_eta push_subscriptions v).
Definition set_invite_codes (v : Table InviteCode) (r : Database) : Database :=
  ltac:(upd r Database_eta invite_codes v).
Definition set_dm_messages (v : Table DMRow) (r : Database) : Database :=
  ltac:(upd r Database_eta dm_messages v).
Definition set_dm_reactions (v : Table DMReaction) (r : Database) : Database :=
  ltac:(upd r Database_eta dm_reactions v).
Definition set_key_backups (v : Table KeyBackup) (r : Database) : Database :=
  ltac:(upd r Database_eta key_backups v).
Definition set_totp_backup_codes (v : Table BackupCode) (r : Database) : Database :=
  ltac:(upd r Database_eta totp_backup_codes v).
Definition set_blocked_ips (v : Table BlockedIP) (r : Database) : Database :=
  ltac:(upd r Database_eta blocked_ips v).
Definition set_known_devices (v : Table KnownDevice) (r : Database) : Database :=
  ltac:(upd r Database_eta known_devices v).
Definition set_device_challenges (v : Table DeviceChallenge) (r : Database) : Database :=
  ltac:(upd r Database_eta device_challenges v).
Definition set_whiteboard_strokes (v : Table StrokeRow) (r : Database) : Database :=
  ltac:(upd r Database_eta whiteboard_strokes v).
Definition set_calls (v : Table CallRow) (r : Database) : Database :=
  ltac:(upd r Database_eta calls v).
Definition set_reward_crates (v : Table RewardCrate) (r : Database) : Database :=
  ltac:(upd r Database_eta reward_crates v).
Definition set_reward_crafts (v : Table RewardCraft) (r : Database) : Database :=
  ltac:(upd r Database_eta reward_crafts v).
Definition set_supporter_requests (v : Table SupporterRow) (r : Database) : Database :=
  ltac:(upd r Database_eta supporter_requests v).
Definition set_bmc_payments (v : Table BmcPayment) (r : Database) : Database :=
  ltac:(upd r Database_eta bmc_payments v).
Definition set_skype_import_messages (v : Table SkypeMessageRow) (r : Database) : Database :=
  ltac:(upd r Database_eta skype_import_messages v).
Definition set_skype_import_contacts (v : Table SkypeContactRow) (r : Database) : Database :=
  ltac:(upd r Database_eta skype_import_contacts v).

Definition Database0 : Database :=
  mkDatabase empty_table empty_table empty_table empty_table empty_table empty_table empty_table empty_table empty_table empty_table empty_table empty_table empty_table empty_table empty_table empty_table empty_table empty_table empty_table empty_table empty_table empty_table empty_table empty_table empty_table empty_table empty_table empty_table empty_table empty_table empty_table empty_table empty_table
    empty_table empty_table empty_table empty_table.
