(* ===== verification/World.v ===== *)
(** * The server's state and the primitive effects of its handlers

    [World] holds everything a handler can read or change: the database, the
    in-memory state of [NexusServer] (with the connections in a heap, since
    the code shares [*Client] pointers between the registry and handlers),
    the package-level variables, the clock, the random source, and the trace
    of what has been sent.  Each primitive ([Send], [Exec], [QueryRow], ...)
    is a [ST World] computation.

    Any SQL statement can fail: [wFault n] tells whether the [n]-th statement
    errors.  Any draw from [crypto/rand] can fail: [wRandErr n].  A write to a
    connection whose peer is gone fails: [cConnUp]. *)

From Stdlib Require Import ZArith Lia.
From stdpp Require Import base strings list gmap.
From S2P Require Import Prelude GoRt Json AuthTracker Netutil Store Wire Db.

Open Scope string_scope.
Open Scope list_scope.
Open Scope Z_scope.

(** [Client]: one live connection.  [cConnUp] stands for the state of [Conn]. *)
Record Client := mkClient {
  cConnUp : bool;
  cUsername : string;
  cStatus : string;
  cIP : string;
  cmsgLimiter : Limiter;
  cInCall : bool;
  cCallPartner : string;
  cPendingCallRoom : string;
  cPendingCallID : Z;
  cPendingCallStarted : Z;
  cPendingCallRTC : bool;
  cPendingCallAnswered : bool }.

Definition Client_eta (r : Client) : Client :=
  mkClient (cConnUp r) (cUsername r) (cStatus r) (cIP r) (cmsgLimiter r) (cInCall r)
    (cCallPartner r) (cPendingCallRoom r) (cPendingCallID r) (cPendingCallStarted r)
    (cPendingCallRTC r) (cPendingCallAnswered r).

Definition set_cConnUp (v : bool) (r : Client) : Client := ltac:(upd r Client_eta cConnUp v).
Definition set_cUsername (v : string) (r : Client) : Client := ltac:(upd r Client_eta cUsername v).
Definition set_cStatus (v : string) (r : Client) : Client := ltac:(upd r Client_eta cStatus v).
Definition set_cIP (v : string) (r : Client) : Client := ltac:(upd r Client_eta cIP v).
Definition set_cmsgLimiter (v : Limiter) (r : Client) : Client :=
  ltac:(upd r Client_eta cmsgLimiter v).
Definition set_cInCall (v : bool) (r : Client) : Client := ltac:(upd r Client_eta cInCall v).
Definition set_cCallPartner (v : string) (r : Client) : Client :=
  ltac:(upd r Client_eta cCallPartner v).
Definition set_cPendingCallRoom (v : string) (r : Client) : Client :=
  ltac:(upd r Client_eta cPendingCallRoom v).
Definition set_cPendingCallID (v : Z) (r : Client) : Client :=
  ltac:(upd r Client_eta cPendingCallID v).
Definition set_cPendingCallStarted (v : Z) (r : Client) : Client :=
  ltac:(upd r Client_eta cPendingCallStarted v).
Definition set_cPendingCallRTC (v : bool) (r : Client) : Client :=
  ltac:(upd r Client_eta cPendingCallRTC v).
Definition set_cPendingCallAnswered (v : bool) (r : Client) : Client :=
  ltac:(upd r Client_eta cPendingCallAnswered v).

(** [&Client{Conn: ws, IP: ip, msgLimiter: rate.NewLimiter(20, 40)}] *)
Definition newClient (ip : string) : Client :=
  mkClient true "" "" ip (NewLimiter (mkRate 20 1 40)) false "" "" 0 0 false false.


(** [liveStream] *)
Record liveStream := mkStream {
  lsTitle : string;
  lsViewers : gset string }.

(** [remoteCodeEntry] *)
Record remoteCodeEntry := mkRemote {
  rcUsername : string;
  rcCreatedAt : Z }.

(** [nexusMetrics]: the counters the message loop bumps. *)
Record nexusMetrics := mkMetrics {
  wsMessagesIn : Z;
  authSuccess : Z;
  authFailure : Z;
  keyRequests : Z;
  convoMessages : Z;
  pstnAttempts : Z;
  pstnRejected : Z }.

Definition nexusMetrics_eta (r : nexusMetrics) : nexusMetrics :=
  mkMetrics (wsMessagesIn r) (authSuccess r) (authFailure r) (keyRequests r) (convoMessages r)
    (pstnAttempts r) (pstnRejected r).

Definition set_wsMessagesIn (v : Z) (r : nexusMetrics) : nexusMetrics :=
  ltac:(upd r nexusMetrics_eta wsMessagesIn v).
Definition set_authSuccess (v : Z) (r : nexusMetrics) : nexusMetrics :=
  ltac:(upd r nexusMetrics_eta authSuccess v).
Definition set_authFailure (v : Z) (r : nexusMetrics) : nexusMetrics :=
  ltac:(upd r nexusMetrics_eta authFailure v).
Definition set_keyRequests (v : Z) (r : nexusMetrics) : nexusMetrics :=
  ltac:(upd r nexusMetrics_eta keyRequests v).
Definition set_convoMessages (v : Z) (r : nexusMetrics) : nexusMetrics :=
  ltac:(upd r nexusMetrics_eta convoMessages v).
Definition set_pstnAttempts (v : Z) (r : nexusMetrics) : nexusMetrics :=
  ltac:(upd r nexusMetrics_eta pstnAttempts v).
Definition set_pstnRejected (v : Z) (r : nexusMetrics) : nexusMetrics :=
  ltac:(upd r nexusMetrics_eta pstnRejected v).

(** What the modelled code decodes from Cloudflare's answer ([cfICEServer]). *)
Record cfICEServer := mkICE {
  iceURLs : list string;
  iceUsername : string;
  iceCredential : string }.

(** [time.Time{}]: the first of January of the year one. *)
Definition zeroTime : Z := -62135596800 * Second.

(** The mutable fields of [cfTURN]. *)
Record cfTURN := mkCfTURN {
  cfCached : option TurnConfig;
  cfExpires : Z;
  cfLastFail : Z;
  cfRefreshing : bool }.

Definition cfTURN0 : cfTURN := mkCfTURN None zeroTime zeroTime false.

(** One of the assets of a release, and [ghRelease]. *)
Record ghAsset := mkAsset {
  gaName : string;
  gaURL : string;
  gaSize : Z }.

Record ghRelease := mkRelease {
  grTag : string;
  grBody : string;
  grHTMLURL : string;
  grPublishedAt : string;
  grAssets : list ghAsset }.

Record PlatformAsset := mkPlatformAsset {
  paURL : string;
  paSHA256 : string;
  paSize : Z;
  paName : string }.

Record UpdateManifest := mkManifest {
  umVersion : string;
  umReleaseURL : string;
  umReleaseNotes : string;
  umPublishedAt : string;
  umPlatforms : gmap string PlatformAsset;
  umRefreshedAt : Z;
  umSource : string }.

(** [updateCache], without its lock. *)
Record updateCache := mkUpdateCache {
  ucManifest : UpdateManifest;
  ucExpires : Z }.

Definition updateCache0 : updateCache := mkUpdateCache (mkManifest "" "" "" "" ∅ 0 "") zeroTime.

(** [NexusServer] and the package-level variables, without the database. *)
Record NexusServer := mkServer {
  Clients : gmap string (list nat);
  Heap : gmap nat Client;
  VoiceRooms : gmap string (gset string);
  Streams : gmap string liveStream;
  RemoteCodes : gmap string remoteCodeEntry;
  wsConnCount : gmap string Z;
  blockedIPs : gset string;
  authTracker : authFailTracker;
  totpUsedCodes : gmap string Z;
  resendLimiter : ipLimiter;
  forgotPasswordLimiter : ipLimiter;
  remoteLookupLimiter : ipLimiter;
  uploadLimiter : ipLimiter;
  ipCheckCache : gmap string bool;
  metrics : nexusMetrics;
  globalLimiter : ipLimiter;
  adminLimiter : ipLimiter;
  cloudflareTURN : cfTURN;
  healthHist : list (Z * bool);
  updates : updateCache }.

Definition NexusServer_eta (r : NexusServer) : NexusServer :=
  mkServer (Clients r) (Heap r) (VoiceRooms r) (Streams r) (RemoteCodes r) (wsConnCount r)
    (blockedIPs r) (authTracker r) (totpUsedCodes r) (resendLimiter r) (forgotPasswordLimiter r)
    (remoteLookupLimiter r) (uploadLimiter r) (ipCheckCache r) (metrics r) (globalLimiter r)
    (adminLimiter r) (cloudflareTURN r) (healthHist r) (updates r).

Definition set_Clients (v : gmap string (list nat)) (r : NexusServer) : NexusServer :=
  ltac:(upd r NexusServer_eta Clients v).
Definition set_Heap (v : gmap nat Client) (r : NexusServer) : NexusServer :=
  ltac:(upd r NexusServer_eta Heap v).
Definition set_VoiceRooms (v : gmap string (gset string)) (r : NexusServer) : NexusServer :=
  ltac:(upd r NexusServer_eta VoiceRooms v).
Definition set_Streams (v : gmap string liveStream) (r : NexusServer) : NexusServer :=
  ltac:(upd r NexusServer_eta Streams v).
Definition set_RemoteCodes (v : gmap string remoteCodeEntry) (r : NexusServer) : NexusServer :=
  ltac:(upd r NexusServer_eta RemoteCodes v).
Definition set_wsConnCount (v : gmap string Z) (r : NexusServer) : NexusServer :=
  ltac:(upd r NexusServer_eta wsConnCount v).
Definition set_blockedIPs (v : gset string) (r : NexusServer) : NexusServer :=
  ltac:(upd r NexusServer_eta blockedIPs v).
Definition set_authTracker (v : authFailTracker) (r : NexusServer) : NexusServer :=
  ltac:(upd r NexusServer_eta authTracker v).
Definition set_totpUsedCodes (v : gmap string Z) (r : NexusServer) : NexusServer :=
  ltac:(upd r NexusServer_eta totpUsedCodes v).
Definition set_resendLimiter (v : ipLimiter) (r : NexusServer) : NexusServer :=
  ltac:(upd r NexusServer_eta resendLimiter v).
Definition set_forgotPasswordLimiter (v : ipLimiter) (r : NexusServer) : NexusServer :=
  ltac:(upd r NexusServer_eta forgotPasswordLimiter v).
Definition set_remoteLookupLimiter (v : ipLimiter) (r : NexusServer) : NexusServer :=
  ltac:(upd r NexusServer_eta remoteLookupLimiter v).
Definition set_uploadLimiter (v : ipLimiter) (r : NexusServer) : NexusServer :=
  ltac:(upd r NexusServer_eta uploadLimiter v).
Definition set_ipCheckCache (v : gmap string bool) (r : NexusServer) : NexusServer :=
  ltac:(upd r NexusServer_eta ipCheckCache v).
Definition set_metrics (v : nexusMetrics) (r : NexusServer) : NexusServer :=
  ltac:(upd r NexusServer_eta metrics v).
Definition set_globalLimiter (v : ipLimiter) (r : NexusServer) : NexusServer :=
  ltac:(upd r NexusServer_eta globalLimiter v).
Definition set_adminLimiter (v : ipLimiter) (r : NexusServer) : NexusServer :=
  ltac:(upd r NexusServer_eta adminLimiter v).
Definition set_cloudflareTURN (v : cfTURN) (r : NexusServer) : NexusServer :=
  ltac:(upd r NexusServer_eta cloudflareTURN v).
Definition set_healthHist (v : list (Z * bool)) (r : NexusServer) : NexusServer :=
  ltac:(upd r NexusServer_eta healthHist v).
Definition set_updates (v : updateCache) (r : NexusServer) : NexusServer :=
  ltac:(upd r NexusServer_eta updates v).

Definition server0 : NexusServer :=
  mkServer ∅ ∅ ∅ ∅ ∅ ∅ ∅ authTracker0 ∅ resendLimiter0 forgotPasswordLimiter0
           remoteLookupLimiter0 uploadLimiter0 ∅ (mkMetrics 0 0 0 0 0 0 0) globalLimiter0
           adminLimiter0 cfTURN0 [] updateCache0.

(** [wbStroke], as [encoding/json] decodes it.  Every finite [float64] is a
    multiple of 2^-1074: [wbWidth] and the points count such units. *)
Record wbStroke := mkStroke {
  wbID : string;
  wbTool : string;
  wbColor : string;
  wbWidth : Z;
  wbPoints : list (Z * Z) }.

(** The fields of the Buy Me a Coffee webhook the code reads, nested under
    [data] and flat; an absent field decodes to the empty string. *)
Record bmcPayload := mkBmcPayload {
  dSupporterName : string;
  dSupporterEmail : string;
  dAmount : string;
  dMessage : string;
  dSupportNote : string;
  pSupporterName : string;
  pSupporterEmail : string;
  pAmount : string;
  pMessage : string }.

(** What an HTTP request came back with: no answer, or a status and a body
    that did or did not decode. *)
Inductive httpAnswer (A : Type) := HTTPFailed | HTTPStatus (code : Z) (body : option A).
Arguments HTTPFailed {A}.
Arguments HTTPStatus {A} _ _.

(** The answer of [net.LookupMX]. *)
Inductive MXAnswer := MXRecords (n : Z) | MXNotFound | MXFailed.

(** The arguments of [smtp.SendMail], with those of the [smtp.PlainAuth]. *)
Record smtpSubmission := mkSubmission {
  smAddr : string;
  smUser : string;
  smPass : string;
  smHost : string;
  smFrom : string;
  smRcpt : list string;
  smMsg : string }.

(** What the handlers call outside the repository: the process environment,
    cryptography, DNS, HTTP services and JSON codecs, each a function of its
    arguments. *)
Record Env := mkEnv {
  getenv : string -> string;
  sha256sum : string -> string;
  bcryptGenerate : string -> option string;
  bcryptCompare : string -> string -> bool;
  totpValidate : string -> string -> Z -> bool;
  totpGenerate : string -> option (string * string);
  parseAddress : string -> bool;
  lookupMX : string -> MXAnswer;
  ipLookup : string -> option jval;   (* the JSON answer at a URL *)
  unicodeLN : Z -> bool;
  rateAllow : rateParams -> list Z -> Z -> bool;
  twilioCall : string -> option string;
  mailPost : string -> list (string * string) -> jval -> httpAnswer string;
    (* POST of a JSON body with headers to a URL: the start of the answer's body *)
  smtpSend : smtpSubmission -> option string;   (* the error of smtp.SendMail *)
  cfAnswer : Z -> httpAnswer (list cfICEServer);   (* Cloudflare's API, at an instant *)
  hmacSha1Base64 : string -> string -> string;
  libErr : string -> string;   (* the text of an error of the named library *)
  jsonStroke : string -> option wbStroke;
  jsonStrokeEnc : wbStroke -> string;
  jsonSub : string -> option (string * string * string);
  jsonKV : string -> option (string * string);
  jsonBackup : string -> KeyBackupPayload + string;
  jsonBackupEnc : KeyBackupPayload -> string;
  jsonSessions : list (string * string * Z) -> string;
  fcmClient : bool;
  fcmUnregistered : string -> bool;
  hmacSha256 : string -> string -> string;   (* key, message *)
  jsonBmc : string -> option bmcPayload;
  detectContentType : string -> string;      (* http.DetectContentType *)
  imageDecode : string -> option string;     (* image.Decode *)
  pngEncode : string -> option string;       (* png.Encode of what it returned *)
  blobFault : Z -> string -> bool;           (* the blob store failed on a key, at an instant *)
  blobTook : Z -> string -> bool;            (* a write that failed took effect nevertheless *)
  ghLatest : Z -> httpAnswer ghRelease;      (* GitHub's API, at an instant *)
  checksumsTxt : Z -> string -> httpAnswer string;
  askModel : string -> string -> list (string * string) -> string + string;
    (* provider, system prompt, turns: an error or the reply *)
  geoLookup : string -> option string;
  selfProbe : Z -> option Z;                 (* the status of GET /health *)
  sqlNumeric : string -> option Z;           (* the integer a bound text equals, by SQLite's affinity *)
  dbBytes : Database -> Z;                   (* page_count * page_size *)
  dbPing : Z -> bool;
  memAlloc : Z;
  numGoroutine : Z;
  metricsStart : Z;
  diskFile : string -> option string;        (* a regular file beside the binary *)
  zoneOffset : Z -> Z }.                     (* the host's time zone: local time less UTC, at an instant *)

(** A mail body: plain text, or a template of [email_templates.go] with its
    arguments ([Email.render] gives the text that is sent). *)
Inductive mailBody :=
| MText (s : string)
| MVerification (username link code : string)
| MResendCode (code : string)
| MPasswordReset (username link : string)
| MInvite (inviter link : string)
| MThankYou (name : string).

(** What a handler does to the outside, in order. *)
Inductive Event :=
| EvSend (c : nat) (m : NexusMessage)       (* a JSON frame written to a connection *)
| EvClose (c : nat)                         (* Conn.Close() *)
| EvSleep (d : Z)                           (* time.Sleep *)
| EvEmail (via to subject : string) (body : mailBody)   (* handed to a mail transport *)
| EvSMS (to body : string)                  (* go sendSMS(...) *)
| EvPush (dest title body : string).        (* a push to an endpoint or device token *)

(** The world. *)
Record World := mkWorld {
  wDB : Database;
  wSrv : NexusServer;
  wNow : Z;
  wFault : nat -> bool;
  wSqlTick : nat;
  wRand : nat -> Z;
  wRandErr : nat -> bool;
  wRandTick : nat;
  wEnv : Env;
  wOut : list Event;
  wBlobs : gmap string string }.             (* the blob store: key to content *)

Definition World_eta (r : World) : World :=
  mkWorld (wDB r) (wSrv r) (wNow r) (wFault r) (wSqlTick r) (wRand r) (wRandErr r) (wRandTick r)
    (wEnv r) (wOut r) (wBlobs r).

Definition set_wDB (v : Database) (r : World) : World := ltac:(upd r World_eta wDB v).
Definition set_wSrv (v : NexusServer) (r : World) : World := ltac:(upd r World_eta wSrv v).
Definition set_wNow (v : Z) (r : World) : World := ltac:(upd r World_eta wNow v).
Definition set_wFault (v : nat -> bool) (r : World) : World := ltac:(upd r World_eta wFault v).
Definition set_wSqlTick (v : nat) (r : World) : World := ltac:(upd r World_eta wSqlTick v).
Definition set_wRand (v : nat -> Z) (r : World) : World := ltac:(upd r World_eta wRand v).
Definition set_wRandErr (v : nat -> bool) (r : World) : World := ltac:(upd r World_eta wRandErr v).
Definition set_wRandTick (v : nat) (r : World) : World := ltac:(upd r World_eta wRandTick v).
Definition set_wEnv (v : Env) (r : World) : World := ltac:(upd r World_eta wEnv v).
Definition set_wOut (v : list Event) (r : World) : World := ltac:(upd r World_eta wOut v).
Definition set_wBlobs (v : gmap string string) (r : World) : World := ltac:(upd r World_eta wBlobs v).

Abbreviation M := (ST World).

(** ** Reading *)

Definition getNow : M Z := gets wNow.
Definition getEnv : M Env := gets wEnv.
Definition getSrv : M NexusServer := gets wSrv.

(** [s.Clients[u]]: a missing key reads as the nil slice. *)
Definition connsOf (s : NexusServer) (u : string) : list nat :=
  default [] (Clients s !! u).

(** [*c]: reading a connection through its pointer. *)
Definition getClient (c : nat) : M Client :=
  gets (fun w => default (newClient "") (Heap (wSrv w) !! c)).

(** ** Writing the in-memory state *)

Definition modSrv (f : NexusServer -> NexusServer) : M unit :=
  modify (fun w => set_wSrv (f (wSrv w)) w).

(** [c.Field = ...]: writing a connection through its pointer. *)
Definition modClient (c : nat) (f : Client -> Client) : M unit :=
  modSrv (fun s => set_Heap (alter f c (Heap s)) s).

Definition modTracker (f : authFailTracker -> authFailTracker) : M unit :=
  modSrv (fun s => set_authTracker (f (authTracker s)) s).

Definition askTracker {A} (f : authFailTracker -> A * authFailTracker) : M A :=
  fun w => let r := f (authTracker (wSrv w)) in
           (r.1, set_wSrv (set_authTracker r.2 (wSrv w)) w).

Definition addMetric (f : nexusMetrics -> nexusMetrics) : M unit :=
  modSrv (fun s => set_metrics (f (metrics s)) s).

(** The counters are [atomic.Uint64]: they wrap at 2^64. *)
Definition u64_succ (z : Z) : Z := (z + 1) mod 2 ^ 64.
Definition authFailure_Add : M unit := addMetric (fun m => set_authFailure (u64_succ (authFailure m)) m).
Definition authSuccess_Add : M unit := addMetric (fun m => set_authSuccess (u64_succ (authSuccess m)) m).

(** ** Output *)

Definition emit (e : Event) : M unit := modify (fun w => set_wOut (wOut w ++ [e]) w).

(** [c.Send(m)]: whether the write succeeded ([err == nil]). *)
Definition Send (c : nat) (m : NexusMessage) : M bool := fun w =>
  match Heap (wSrv w) !! c with
  | Some k => if cConnUp k then (true, set_wOut (wOut w ++ [EvSend c m]) w) else (false, w)
  | None => (false, w)
  end.

(** [c.Send(m)] with the error dropped. *)
Definition Send_ (c : nat) (m : NexusMessage) : M unit := Send c m ;;; ret tt.

(** [c.Conn.Close()] *)
Definition CloseConn (c : nat) : M unit :=
  modClient c (set_cConnUp false) ;;; emit (EvClose c).

Definition Sleep (d : Z) : M unit := emit (EvSleep d).

(** ** The blob store ([blobs()] of [blobstore.go])

    [Put] and [Open] go to the disk or to a bucket; either may fail, and a
    write to a bucket whose reply is lost may have been done all the same. *)

(** Whether the error is nil. *)
Definition blobPut (key content : string) : M bool := fun w =>
  if blobFault (wEnv w) (wNow w) key then
    (false, if blobTook (wEnv w) (wNow w) key then set_wBlobs (<[key := content]> (wBlobs w)) w else w)
  else (true, set_wBlobs (<[key := content]> (wBlobs w)) w).

Inductive blobres := BlobErr | BlobNotFound | BlobFound (content : string).

Definition blobOpen (key : string) : M blobres :=
  gets (fun w => if blobFault (wEnv w) (wNow w) key then BlobErr
                 else match wBlobs w !! key with Some c => BlobFound c | None => BlobNotFound end).

(** ** The database *)

(** Why a statement failed: the engine, or a uniqueness constraint on the
    named columns, reported with SQLite's text. *)
Inductive sqlerr := EEngine | EUnique (cols : string).

Definition err_text (e : sqlerr) : string :=
  match e with
  | EEngine => "disk I/O error"
  | EUnique cols => "constraint failed: UNIQUE constraint failed: " +:+ cols +:+ " (2067)"
  end.

Definition tickSql (w : World) : World := set_wSqlTick (S (wSqlTick w)) w.
Definition faulty (w : World) : bool := wFault w (wSqlTick w).

(** [s.DB.Exec]: an error, or the number of rows affected. *)
Definition Exec (op : Database -> sqlerr + (Database * Z)) : M (sqlerr + Z) := fun w =>
  if faulty w then (inl EEngine, tickSql w)
  else match op (wDB w) with
       | inl e => (inl e, tickSql w)
       | inr (d, n) => (inr n, set_wDB d (tickSql w))
       end.

(** A statement that cannot violate a constraint: whether [err == nil]. *)
Definition ExecOk (f : Database -> Database) : M bool := fun w =>
  if faulty w then (false, tickSql w) else (true, set_wDB (f (wDB w)) (tickSql w)).

(** [s.DB.Exec(...)] with its results dropped. *)
Definition Exec_ (f : Database -> Database) : M unit := ExecOk f ;;; ret tt.

(** [CURRENT_TIMESTAMP] has a resolution of one second. *)
Definition sqlNow (now : Z) : Z := now / Second * Second.

(** The driver stores a [time.Time] as the text of its local time, and SQLite
    compares that text with the UTC text of [CURRENT_TIMESTAMP].  Both begin
    with four digits of the year and go down to the second, so they compare as
    [asUTC e t] - the instant whose UTC text reads like the local text of [t] -
    compares with [sqlNow now]: the stored text is longer, and greater when the
    second is the same. *)
Definition asUTC (e : Env) (t : Z) : Z := t + zoneOffset e t.

(** [time.Now().UnixMilli()] *)
Definition UnixMilli (t : Z) : Z := t / Millisecond.

(** [UPDATE]/[DELETE] whose [RowsAffected] is read; [None] is an error. *)
Definition ExecN (n : Database -> Z) (f : Database -> Database) : M (option Z) := fun w =>
  if faulty w then (None, tickSql w)
  else (Some (n (wDB w)), set_wDB (f (wDB w)) (tickSql w)).

(** [QueryRow(...).Scan]: an engine error, [sql.ErrNoRows], or the row. *)
Inductive rowres (A : Type) := RowErr | NoRows | Row (a : A).
Arguments RowErr {A}.
Arguments NoRows {A}.
Arguments Row {A} _.

Definition QueryRowE {A} (q : Database -> option A) : M (rowres A) := fun w =>
  if faulty w then (RowErr, tickSql w)
  else match q (wDB w) with
       | Some a => (Row a, tickSql w)
       | None => (NoRows, tickSql w)
       end.

(** The same when the code only tests [err != nil]. *)
Definition QueryRow {A} (q : Database -> option A) : M (option A) :=
  let* r := QueryRowE q in
  ret (match r with Row a => Some a | _ => None end).

(** A scan whose error is dropped: the variable keeps its initial value. *)
Definition ScanOr {A} (d : A) (q : Database -> option A) : M A :=
  let* r := QueryRow q in ret (default d r).

(** [SELECT COUNT]-like queries always have a row. *)
Definition CountOr0 (q : Database -> Z) : M Z := ScanOr 0 (fun d => Some (q d)).

(** [s.DB.Query] and the loop over its rows; [None] is an error. *)
Definition Query {A} (q : Database -> list A) : M (option (list A)) := fun w =>
  if faulty w then (None, tickSql w) else (Some (q (wDB w)), tickSql w).

(** A transaction: the statements run in order on a private copy; an error in
    [Begin], in a statement or in [Commit] rolls everything back. *)
Fixpoint tx_body (ss : list (Database -> sqlerr + Database)) (d : Database)
  : M (sqlerr + Database) :=
  match ss with
  | [] => fun w => if faulty w then (inl EEngine, tickSql w) else (inr d, tickSql w)
  | f :: ss' => fun w =>
      if faulty w then (inl EEngine, tickSql w)
      else match f d with
           | inl e => (inl e, tickSql w)
           | inr d' => tx_body ss' d' (tickSql w)
           end
  end.

Definition Tx (ss : list (Database -> sqlerr + Database)) : M (option sqlerr) := fun w =>
  if faulty w then (Some EEngine, tickSql w)
  else let r := tx_body ss (wDB w) (tickSql w) in
       match r.1 with
       | inl e => (Some e, r.2)
       | inr d => (None, set_wDB d r.2)
       end.

(** A transaction whose body does other things between its statements: the
    body works on a private copy and may give up with an error of its own. *)
Definition txExec (f : Database -> sqlerr + Database) (d : Database) : M (sqlerr + Database) := fun w =>
  if faulty w then (inl EEngine, tickSql w) else (f d, tickSql w).

Definition TxBody {E} (beginErr commitErr : E) (body : Database -> M (E + Database)) : M (option E) :=
  fun w =>
  if faulty w then (Some beginErr, tickSql w)
  else
    let r := body (wDB w) (tickSql w) in
    match r.1 with
    | inl e => (Some e, r.2)
    | inr d => if faulty r.2 then (Some commitErr, tickSql r.2)
               else (None, set_wDB d (tickSql r.2))
    end.

(** ** Randomness ([crypto/rand]) *)

(** One draw below [n]; [None] is an error of the system source. *)
Definition randBelow (n : Z) : M (option Z) := fun w =>
  let w' := set_wRandTick (S (wRandTick w)) w in
  if wRandErr w (wRandTick w) then (None, w')
  else (Some (wRand w (wRandTick w) mod n), w').

Fixpoint randList (n : Z) (k : nat) : M (option (list Z)) :=
  match k with
  | O => ret (Some [])
  | S k' =>
      let* v := randBelow n in
      match v with
      | None => ret None
      | Some z => let* r := randList n k' in ret ((fun l => z :: l) <$> r)
      end
  end.

(** [randHex(n)]: [n] random bytes in hexadecimal. *)
Definition randHex (n : nat) : M (option string) :=
  let* r := randList 256 n in ret (EncodeToString <$> r).

(** [randDigits(n)] *)
Definition randDigits (n : nat) : M (option string) :=
  let* r := randList 10 n in ret ((fun l => of_bytes (Z.add 48 <$> l)) <$> r).

(** ** Frames of the primitives

    What a relation on worlds must allow for each kind of primitive to respect
    it: any in-memory write, any output, any statement counted, any draw. *)

Class FreesSrv (R : World -> World -> Prop) := frees_srv : forall w s, R w (set_wSrv s w).
Class FreesOut (R : World -> World -> Prop) := frees_out : forall w e, R w (set_wOut (wOut w ++ [e]) w).
Class FreesSql (R : World -> World -> Prop) := frees_sql : forall w, R w (tickSql w).
Class FreesRand (R : World -> World -> Prop) := frees_rand : forall w n, R w (set_wRandTick n w).
Class FreesDB (R : World -> World -> Prop) := frees_db : forall w d, R w (set_wDB d w).
Class FreesBlob (R : World -> World -> Prop) := frees_blob : forall w b, R w (set_wBlobs b w).

(** [db_keeps P]: the database keeps property [P]. *)
Definition db_keeps (P : Database -> Prop) : World -> World -> Prop := keeps (fun w => P (wDB w)).

#[export] Instance db_keeps_preorder P : PreOrder (db_keeps P).
Proof. unfold db_keeps. typeclasses eauto. Qed.

(** What is never changed by a handler: clock, environment, oracles. *)
Definition ctx (w : World) := (wNow w, wEnv w, wFault w, wRand w, wRandErr w).

Section Instances.
#[local] Ltac go := intros ?; intros; unfold same, db_keeps, keeps; simpl; auto.
#[export] Instance fs_db : FreesSrv (same wDB). Proof. go. Qed.
#[export] Instance fo_db : FreesOut (same wDB). Proof. go. Qed.
#[export] Instance fq_db : FreesSql (same wDB). Proof. go. Qed.
#[export] Instance fr_db : FreesRand (same wDB). Proof. go. Qed.
#[export] Instance fs_keeps P : FreesSrv (db_keeps P). Proof. go. Qed.
#[export] Instance fo_keeps P : FreesOut (db_keeps P). Proof. go. Qed.
#[export] Instance fq_keeps P : FreesSql (db_keeps P). Proof. go. Qed.
#[export] Instance fr_keeps P : FreesRand (db_keeps P). Proof. go. Qed.
#[export] Instance fo_srv : FreesOut (same wSrv). Proof. go. Qed.
#[export] Instance fq_srv : FreesSql (same wSrv). Proof. go. Qed.
#[export] Instance fr_srv : FreesRand (same wSrv). Proof. go. Qed.
#[export] Instance fd_srv : FreesDB (same wSrv). Proof. go. Qed.
#[export] Instance fs_ctx : FreesSrv (same ctx). Proof. go. Qed.
#[export] Instance fo_ctx : FreesOut (same ctx). Proof. go. Qed.
#[export] Instance fq_ctx : FreesSql (same ctx). Proof. go. Qed.
#[export] Instance fr_ctx : FreesRand (same ctx). Proof. go. Qed.
#[export] Instance fd_ctx : FreesDB (same ctx). Proof. go. Qed.
#[export] Instance fs_out : FreesSrv (same wOut). Proof. go. Qed.
#[export] Instance fq_out : FreesSql (same wOut). Proof. go. Qed.
#[export] Instance fr_out : FreesRand (same wOut). Proof. go. Qed.
#[export] Instance fd_out : FreesDB (same wOut). Proof. go. Qed.
#[export] Instance fb_db : FreesBlob (same wDB). Proof. go. Qed.
#[export] Instance fb_keeps P : FreesBlob (db_keeps P). Proof. go. Qed.
#[export] Instance fb_srv : FreesBlob (same wSrv). Proof. go. Qed.
#[export] Instance fb_ctx : FreesBlob (same ctx). Proof. go. Qed.
#[export] Instance fb_out : FreesBlob (same wOut). Proof. go. Qed.
#[export] Instance fs_blobs : FreesSrv (same wBlobs). Proof. go. Qed.
#[export] Instance fo_blobs : FreesOut (same wBlobs). Proof. go. Qed.
#[export] Instance fq_blobs : FreesSql (same wBlobs). Proof. go. Qed.
#[export] Instance fr_blobs : FreesRand (same wBlobs). Proof. go. Qed.
#[export] Instance fd_blobs : FreesDB (same wBlobs). Proof. go. Qed.
End Instances.

Section PrimFrames.
Context (R : World -> World -> Prop) `{HR : !PreOrder R}.

Lemma respects_getNow : respects R getNow. Proof using HR. by apply respects_gets. Qed.
Lemma respects_getEnv : respects R getEnv. Proof using HR. by apply respects_gets. Qed.
Lemma respects_getSrv : respects R getSrv. Proof using HR. by apply respects_gets. Qed.
Lemma respects_getClient c : respects R (getClient c). Proof using HR. by apply respects_gets. Qed.

Lemma respects_modSrv `{!FreesSrv R} f : respects R (modSrv f).
Proof using Type. intros w. apply frees_srv. Qed.
Lemma respects_modClient `{!FreesSrv R} c f : respects R (modClient c f).
Proof using Type. apply respects_modSrv. Qed.
Lemma respects_modTracker `{!FreesSrv R} f : respects R (modTracker f).
Proof using Type. apply respects_modSrv. Qed.
Lemma respects_askTracker `{!FreesSrv R} {A} (f : _ -> A * _) : respects R (askTracker f).
Proof using Type. intros w. apply frees_srv. Qed.
Lemma respects_addMetric `{!FreesSrv R} f : respects R (addMetric f).
Proof using Type. apply respects_modSrv. Qed.
Lemma respects_authFailure_Add `{!FreesSrv R} : respects R authFailure_Add.
Proof using Type. apply respects_modSrv. Qed.
Lemma respects_authSuccess_Add `{!FreesSrv R} : respects R authSuccess_Add.
Proof using Type. apply respects_modSrv. Qed.

Lemma respects_blobPut `{!FreesBlob R} k c : respects R (blobPut k c).
Proof using HR.
  intros w. unfold blobPut. destruct (blobFault _ _ _); [|apply frees_blob].
  destruct (blobTook _ _ _); [apply frees_blob | reflexivity].
Qed.
Lemma respects_blobOpen k : respects R (blobOpen k).
Proof using HR. by apply respects_gets. Qed.

Lemma respects_emit `{!FreesOut R} e : respects R (emit e).
Proof using Type. intros w. apply frees_out. Qed.
Lemma respects_Sleep `{!FreesOut R} d : respects R (Sleep d).
Proof using Type. by apply respects_emit. Qed.
Lemma respects_Send `{!FreesOut R} c m : respects R (Send c m).
Proof using HR.
  intros w. unfold Send. destruct (_ !! c) as [k|]; [destruct (cConnUp k)|]; simpl;
    [apply frees_out | reflexivity | reflexivity].
Qed.
Lemma respects_Send_ `{!FreesOut R} c m : respects R (Send_ c m).
Proof using HR. apply respects_bind; [done | by apply respects_Send | intros ?; by apply respects_ret]. Qed.
Lemma respects_CloseConn `{!FreesSrv R, !FreesOut R} c : respects R (CloseConn c).
Proof using HR.
  apply respects_bind; [done | by apply respects_modClient | intros ?; by apply respects_emit].
Qed.

Lemma respects_QueryRowE `{!FreesSql R} {A} (q : Database -> option A) : respects R (QueryRowE q).
Proof using Type.
  intros w. unfold QueryRowE. destruct (faulty w); [apply frees_sql|].
  destruct (q (wDB w)); apply frees_sql.
Qed.
Lemma respects_QueryRow `{!FreesSql R} {A} (q : Database -> option A) : respects R (QueryRow q).
Proof using HR. apply respects_bind; [done | by apply respects_QueryRowE | intros ?; by apply respects_ret]. Qed.
Lemma respects_ScanOr `{!FreesSql R} {A} (a : A) q : respects R (ScanOr a q).
Proof using HR. apply respects_bind; [done | by apply respects_QueryRow | intros ?; by apply respects_ret]. Qed.
Lemma respects_CountOr0 `{!FreesSql R} q : respects R (CountOr0 q).
Proof using HR. by apply respects_ScanOr. Qed.
Lemma respects_Query `{!FreesSql R} {A} (q : Database -> list A) : respects R (Query q).
Proof using Type. intros w. unfold Query. destruct (faulty w); apply frees_sql. Qed.

(** A write respects [R] when the step from the old to the new database does. *)
Lemma respects_ExecOk `{!FreesSql R} f :
  (forall w, R w (set_wDB (f (wDB w)) w)) -> respects R (ExecOk f).
Proof using HR.
  intros Hf w. unfold ExecOk. destruct (faulty w); simpl; [apply frees_sql|].
  etransitivity; [apply frees_sql|]. apply (Hf (tickSql w)).
Qed.
Lemma respects_Exec_ `{!FreesSql R} f :
  (forall w, R w (set_wDB (f (wDB w)) w)) -> respects R (Exec_ f).
Proof using HR.
  intros Hf. apply respects_bind; [done | by apply respects_ExecOk | intros ?; by apply respects_ret].
Qed.
Lemma respects_ExecN `{!FreesSql R} n f :
  (forall w, R w (set_wDB (f (wDB w)) w)) -> respects R (ExecN n f).
Proof using HR.
  intros Hf w. unfold ExecN. destruct (faulty w); simpl; [apply frees_sql|].
  etransitivity; [apply frees_sql|]. apply (Hf (tickSql w)).
Qed.
Lemma respects_Exec `{!FreesSql R} op :
  (forall w d n, op (wDB w) = inr (d, n) -> R w (set_wDB d w)) -> respects R (Exec op).
Proof using HR.
  intros Hf w. unfold Exec. destruct (faulty w); simpl; [apply frees_sql|].
  destruct (op (wDB w)) as [e|[d n]] eqn:E; simpl; [apply frees_sql|].
  etransitivity; [apply frees_sql|]. by apply (Hf (tickSql w) d n).
Qed.

Lemma respects_tx_body `{!FreesSql R} ss d : respects R (tx_body ss d).
Proof using HR.
  revert d. induction ss as [|f ss IH]; intros d w; simpl.
  - destruct (faulty w); apply frees_sql.
  - destruct (faulty w); simpl; [apply frees_sql|].
    destruct (f d) as [e|d']; simpl; [apply frees_sql|].
    etransitivity; [apply frees_sql | apply IH].
Qed.

Lemma respects_randBelow `{!FreesRand R} n : respects R (randBelow n).
Proof using Type. intros w. unfold randBelow. destruct (wRandErr w _); apply frees_rand. Qed.
Lemma respects_randList `{!FreesRand R} n k : respects R (randList n k).
Proof using HR.
  induction k as [|k IH]; simpl; [by apply respects_ret|].
  apply respects_bind; [done | by apply respects_randBelow | intros [z|]; [|by apply respects_ret]].
  apply respects_bind; [done | done | intros ?; by apply respects_ret].
Qed.
Lemma respects_randHex `{!FreesRand R} n : respects R (randHex n).
Proof using HR. apply respects_bind; [done | by apply respects_randList | intros ?; by apply respects_ret]. Qed.
Lemma respects_randDigits `{!FreesRand R} n : respects R (randDigits n).
Proof using HR. apply respects_bind; [done | by apply respects_randList | intros ?; by apply respects_ret]. Qed.
End PrimFrames.

(** ** Transactions *)

(** What a transaction computes when nothing faults. *)
Fixpoint tx_pure (ss : list (Database -> sqlerr + Database)) (d : Database) : sqlerr + Database :=
  match ss with
  | [] => inr d
  | f :: ss' => match f d with inl e => inl e | inr d' => tx_pure ss' d' end
  end.

Lemma tx_body_pure ss d w d' : (tx_body ss d w).1 = inr d' -> tx_pure ss d = inr d'.
Proof.
  revert d w. induction ss as [|f ss IH]; intros d w; simpl.
  - destruct (faulty w); [done|]. simpl. congruence.
  - destruct (faulty w); [done|]. destruct (f d) as [e|d1]; [done|]. apply IH.
Qed.

(** All or nothing: either the database is as before, or it is the result of
    every statement. *)
Lemma Tx_atomic ss w :
  wDB (Tx ss w).2 = wDB w
  \/ ((Tx ss w).1 = None /\ tx_pure ss (wDB w) = inr (wDB (Tx ss w).2)).
Proof.
  unfold Tx. destruct (faulty w); [by left|].
  destruct (tx_body ss (wDB w) (tickSql w)).1 as [e|d] eqn:E; simpl.
  - left. exact (respects_tx_body (same wDB) ss (wDB w) (tickSql w)).
  - right. split; [done|]. by eapply tx_body_pure.
Qed.

Section TxFrames.
Context (R : World -> World -> Prop) `{HR : !PreOrder R}.

Lemma respects_Tx `{!FreesSql R, !FreesDB R} ss : respects R (Tx ss).
Proof using HR.
  intros w. unfold Tx. destruct (faulty w); simpl; [apply frees_sql|].
  pose proof (respects_tx_body R ss (wDB w) (tickSql w)) as Hb.
  destruct (_.1); simpl; (etransitivity; [apply frees_sql|]); [done|].
  etransitivity; [exact Hb | apply frees_db].
Qed.
End TxFrames.

Lemma respects_Tx_keeps P ss :
  (forall d d', P d -> tx_pure ss d = inr d' -> P d') -> respects (db_keeps P) (Tx ss).
Proof.
  intros H w. unfold db_keeps, keeps. intros HP.
  destruct (Tx_atomic ss w) as [-> | [_ E]]; [done|]. by eapply H.
Qed.

(** Writes and [db_keeps]: only the function on databases matters. *)
Lemma keeps_ExecOk P f : (forall d, P d -> P (f d)) -> respects (db_keeps P) (ExecOk f).
Proof. intros H. apply respects_ExecOk; try typeclasses eauto. intros w HP. by apply H. Qed.
Lemma keeps_Exec_ P f : (forall d, P d -> P (f d)) -> respects (db_keeps P) (Exec_ f).
Proof. intros H. apply respects_Exec_; try typeclasses eauto. intros w HP. by apply H. Qed.
Lemma keeps_ExecN P n f : (forall d, P d -> P (f d)) -> respects (db_keeps P) (ExecN n f).
Proof. intros H. apply respects_ExecN; try typeclasses eauto. intros w HP. by apply H. Qed.
Lemma keeps_Exec P op :
  (forall d d' n, P d -> op d = inr (d', n) -> P d') -> respects (db_keeps P) (Exec op).
Proof.
  intros H. apply respects_Exec; try typeclasses eauto. intros w d n E HP. by eapply H.
Qed.

Lemma respects_txExec R `{!PreOrder R, !FreesSql R} f d : respects R (txExec f d).
Proof. intros w. unfold txExec. destruct (faulty w); apply frees_sql. Qed.

Lemma respects_TxBody R `{!PreOrder R, !FreesSql R, !FreesDB R} {E} (b c : E) body :
  (forall d, respects R (body d)) -> respects R (TxBody b c body).
Proof.
  intros Hb w. unfold TxBody. destruct (faulty w); simpl; [apply frees_sql|].
  pose proof (Hb (wDB w) (tickSql w)) as H.
  destruct (body _ _).1; simpl; [etransitivity; [apply frees_sql | exact H]|].
  destruct (faulty _); simpl; (etransitivity; [apply frees_sql|]; etransitivity; [exact H|]).
  - apply frees_sql.
  - etransitivity; [apply frees_sql | apply frees_db].
Qed.

(** Nothing of an abandoned transaction reaches the database. *)
Lemma TxBody_atomic {E} (b c : E) body w :
  (forall d, respects (same wDB) (body d)) ->
  wDB (TxBody b c body w).2 = wDB w
  \/ ((TxBody b c body w).1 = None
      /\ (body (wDB w) (tickSql w)).1 = inr (wDB (TxBody b c body w).2)).
Proof.
  intros Hb. unfold TxBody. destruct (faulty w); [by left|].
  pose proof (Hb (wDB w) (tickSql w)) as H. unfold same in H.
  destruct (body (wDB w) (tickSql w)).1 as [e|d] eqn:E1; simpl; [by left; rewrite H|].
  destruct (faulty _); simpl; [by left; rewrite H | by right].
Qed.

Lemma keeps_TxBody P {E} (b c : E) body :
  (forall d, respects (same wDB) (body d)) ->
  (forall d w d', P d -> (body d w).1 = inr d' -> P d') ->
  respects (db_keeps P) (TxBody b c body).
Proof.
  intros Hf Hp w HP. destruct (TxBody_atomic b c body w Hf) as [-> | [_ H]]; [done|].
  by eapply Hp.
Qed.

#[export] Hint Resolve respects_txExec : frame.

#[export] Hint Resolve
  respects_getNow respects_getEnv respects_getSrv respects_getClient
  respects_modSrv respects_modClient respects_modTracker respects_askTracker
  respects_addMetric respects_authFailure_Add respects_authSuccess_Add
  respects_emit respects_Sleep respects_Send respects_Send_ respects_CloseConn
  respects_blobPut respects_blobOpen
  respects_QueryRowE respects_QueryRow respects_ScanOr respects_CountOr0 respects_Query
  respects_randBelow respects_randList respects_randHex respects_randDigits
  respects_Tx : frame.
#[export] Hint Extern 2 (respects _ (Exec_ _)) => apply respects_Exec_; [typeclasses eauto.. | intros; apply frees_db] : frame.
#[export] Hint Extern 2 (respects _ (ExecOk _)) => apply respects_ExecOk; [typeclasses eauto.. | intros; apply frees_db] : frame.
#[export] Hint Extern 2 (respects _ (ExecN _ _)) => apply respects_ExecN; [typeclasses eauto.. | intros; apply frees_db] : frame.
#[export] Hint Extern 2 (respects _ (Exec _)) => apply respects_Exec; [typeclasses eauto.. | intros; apply frees_db] : frame.
#[export] Hint Extern 3 (FreesSrv _) => typeclasses eauto : frame.
#[export] Hint Extern 3 (FreesOut _) => typeclasses eauto : frame.
#[export] Hint Extern 3 (FreesSql _) => typeclasses eauto : frame.
#[export] Hint Extern 3 (FreesRand _) => typeclasses eauto : frame.
#[export] Hint Extern 3 (FreesDB _) => typeclasses eauto : frame.
#[export] Hint Extern 3 (FreesBlob _) => typeclasses eauto : frame.

(** ** The trace

    [emits P]: the trace only grows, by events that satisfy [P]. *)
Definition emits (P : Event -> Prop) (w w' : World) : Prop :=
  exists l, wOut w' = wOut w ++ l /\ Forall P l.

#[export] Instance emits_preorder P : PreOrder (emits P).
Proof.
  split.
  - intros w. exists []. rewrite app_nil_r. by split.
  - intros w1 w2 w3 (l1 & E1 & H1) (l2 & E2 & H2). exists (l1 ++ l2).
    rewrite E2, E1, app_assoc. split; [done|]. by apply Forall_app.
Qed.

Section EmitsInstances.
Context (P : Event -> Prop).
#[local] Ltac go := intros ?; intros; exists []; rewrite app_nil_r; by split.
#[export] Instance fs_emits : FreesSrv (emits P). Proof. go. Qed.
#[export] Instance fq_emits : FreesSql (emits P). Proof. go. Qed.
#[export] Instance fr_emits : FreesRand (emits P). Proof. go. Qed.
#[export] Instance fd_emits : FreesDB (emits P). Proof. go. Qed.
#[export] Instance fb_emits : FreesBlob (emits P). Proof. go. Qed.

Lemma emits_emit e : P e -> respects (emits P) (emit e).
Proof using Type. intros He w. exists [e]. by split; [|constructor]. Qed.

Lemma emits_Send c m : P (EvSend c m) -> respects (emits P) (Send c m).
Proof using Type.
  intros He w. unfold Send. destruct (_ !! c) as [k|]; [destruct (cConnUp k)|]; simpl.
  - exists [EvSend c m]. by split; [|constructor].
  - reflexivity.
  - reflexivity.
Qed.

Lemma emits_Send_ c m : P (EvSend c m) -> respects (emits P) (Send_ c m).
Proof using Type.
  intros He. apply respects_bind; [typeclasses eauto | by apply emits_Send | intros ?].
  apply respects_ret. typeclasses eauto.
Qed.

Lemma emits_CloseConn c : P (EvClose c) -> respects (emits P) (CloseConn c).
Proof using Type.
  intros He. apply respects_bind; [typeclasses eauto | | intros ?; by apply emits_emit].
  apply respects_modClient. typeclasses eauto.
Qed.
End EmitsInstances.

(** What a draw returns. *)
Lemma randList_range n k w l :
  0 < n -> (randList n k w).1 = Some l -> length l = k /\ Forall (fun z => 0 <= z < n) l.
Proof.
  intros Hn. revert w l. induction k as [|k IH]; intros w l; simpl.
  - intros [= <-]. by split.
  - unfold bind, randBelow. destruct (wRandErr w _); [done|]. cbn [fst snd].
    destruct (randList n k _).1 as [l'|] eqn:E; [|done]. intros [= <-].
    apply IH in E as [<- E]. split; [done|]. constructor; [|done].
    by apply Z.mod_pos_bound.
Qed.

(** What a draw depends on. *)
Definition rndView (w : World) := (wRand w, wRandErr w, wRandTick w).

#[export] Instance fq_rndView : FreesSql (same rndView). Proof. by intros ?. Qed.
#[export] Instance fs_rndView : FreesSrv (same rndView). Proof. by intros ??. Qed.
#[export] Instance fd_rndView : FreesDB (same rndView). Proof. by intros ??. Qed.

Lemma randList_view n k w w' : rndView w' = rndView w -> (randList n k w').1 = (randList n k w).1.
Proof.
  revert w w'. induction k as [|k IH]; intros w w' E; [done|].
  cbn [randList]. rewrite !bind_run. unfold randBelow.
  unfold rndView in E. injection E as E1 E2 E3. rewrite E1, E2, E3.
  destruct (wRandErr w (wRandTick w)); [done|]. cbn [fst snd]. rewrite !bind_run. cbn [fst snd ret].
  cbv [ret]. cbn [fst]. f_equal. apply IH. unfold rndView. cbn. by rewrite E1, E2.
Qed.

Lemma randHex_view n w w' : rndView w' = rndView w -> (randHex n w').1 = (randHex n w).1.
Proof.
  intros E. unfold randHex. rewrite !bind_run. cbv [ret]. cbn [fst]. f_equal. by apply randList_view.
Qed.

Lemma randHex_nonempty n w tok : (0 < n)%nat -> (randHex n w).1 = Some tok -> tok <> "".
Proof.
  intros Hn. unfold randHex. rewrite bind_run. cbv [ret]. cbn [fst].
  destruct (randList 256 n w).1 as [l|] eqn:E; [|done]. intros [= <-].
  apply randList_range in E as [El _]; [|lia]. destruct l as [|z l]; [cbn in El; lia | done].
Qed.

(** ** Worlds to run examples in: nothing fails, draws count up *)

Definition env0 : Env := mkEnv
  (fun _ => "") (fun s => "sha:" +:+ s) (fun s => Some ("bc:" +:+ s)) (fun h s => h ==? "bc:" +:+ s)
  (fun code secret _ => (code ==? "123456") && negb (is_empty secret))
  (fun u => Some ("otpauth://" +:+ u, "SECRET")) (fun s => Contains s "@")
  (fun _ => MXRecords 1) (fun _ => None) (fun _ => false)
  (fun _ _ _ => true) (fun _ => None) (fun _ _ _ => HTTPStatus 200 (Some "")) (fun _ => None) (fun _ => HTTPFailed) (fun k m => k +:+ m) (fun s => s)
  (fun s => Some (mkStroke s "pen" "#000" (2 ^ 1074) [(0, 0)])) (fun st => wbID st)
  (fun s => Some (s, "", "")) (fun s => Some (s, s))
  (fun s => inr "bad json") (fun _ => "") (fun _ => "") false (fun _ => false)
  (fun k m => k +:+ m) (fun _ => None) (fun _ => "application/octet-stream")
  (fun s => Some s) (fun s => Some s) (fun _ _ => false) (fun _ _ => false) (fun _ => HTTPFailed) (fun _ _ => HTTPFailed)
  (fun _ _ _ => inl "no model") (fun _ => None) (fun _ => Some 200)
  (fun _ => None) (fun _ => 0) (fun _ => true) 0 1 0 (fun _ => None) (fun _ => 0).

Definition mkW (d : Database) (s : NexusServer) (now : Z) : World :=
  mkWorld d s now (fun _ => false) 0 (fun n => Z.of_nat n) (fun _ => false) 0 env0 [] ∅.

(** A world whose statements never fail. *)
Definition sql_ok (w : World) : Prop := forall n, wFault w n = false.

Lemma sql_ok_faulty w : sql_ok w -> faulty w = false.
Proof. intros H. apply H. Qed.

Lemma sql_ok_tick w : sql_ok w -> sql_ok (tickSql w).
Proof. intros H n. apply H. Qed.
Lemma sql_ok_DB d w : sql_ok w -> sql_ok (set_wDB d w).
Proof. intros H n. apply H. Qed.
Lemma sql_ok_Srv s w : sql_ok w -> sql_ok (set_wSrv s w).
Proof. intros H n. apply H. Qed.
Lemma sql_ok_Out l w : sql_ok w -> sql_ok (set_wOut l w).
Proof. intros H n. apply H. Qed.
Lemma sql_ok_Rand n w : sql_ok w -> sql_ok (set_wRandTick n w).
Proof. intros H k. apply H. Qed.
Lemma sql_ok_Blobs b w : sql_ok w -> sql_ok (set_wBlobs b w).
Proof. intros H k. apply H. Qed.

Create HintDb sqlok discriminated.
#[export] Hint Resolve sql_ok_tick sql_ok_DB sql_ok_Srv sql_ok_Out sql_ok_Rand sql_ok_Blobs : sqlok.

(** A computation that never changes the oracles runs on to fault-free worlds. *)
Lemma respects_sql_ok {A} (m : M A) w : respects (same ctx) m -> sql_ok w -> sql_ok (m w).2.
Proof.
  intros Hm Hw n. pose proof (Hm w) as E. unfold same, ctx in E.
  injection E as _ _ Ef _ _. rewrite Ef. apply Hw.
Qed.

#[export] Hint Extern 2 (sql_ok (_ _).2) => apply respects_sql_ok; [solve [frame]|] : sqlok.

(** What statements do when none faults. *)
Section SqlOk.
Context (w : World) (Hok : sql_ok w).

Lemma ok_QueryRowE {A} (q : Database -> option A) :
  QueryRowE q w = (match q (wDB w) with Some a => Row a | None => NoRows end, tickSql w).
Proof using Hok. unfold QueryRowE. rewrite sql_ok_faulty by done. by destruct (q (wDB w)). Qed.
Lemma ok_QueryRow {A} (q : Database -> option A) : QueryRow q w = (q (wDB w), tickSql w).
Proof using Hok. unfold QueryRow, bind. rewrite ok_QueryRowE. simpl. by destruct (q (wDB w)). Qed.
Lemma ok_ScanOr {A} (a : A) q : ScanOr a q w = (default a (q (wDB w)), tickSql w).
Proof using Hok. unfold ScanOr, bind. by rewrite ok_QueryRow. Qed.
Lemma ok_CountOr0 q : CountOr0 q w = (q (wDB w), tickSql w).
Proof using Hok. unfold CountOr0. by rewrite ok_ScanOr. Qed.
Lemma ok_Query {A} (q : Database -> list A) : Query q w = (Some (q (wDB w)), tickSql w).
Proof using Hok. unfold Query. by rewrite sql_ok_faulty. Qed.
Lemma ok_ExecOk f : ExecOk f w = (true, set_wDB (f (wDB w)) (tickSql w)).
Proof using Hok. unfold ExecOk. by rewrite sql_ok_faulty. Qed.
Lemma ok_Exec_ f : Exec_ f w = (tt, set_wDB (f (wDB w)) (tickSql w)).
Proof using Hok. unfold Exec_, bind. by rewrite ok_ExecOk. Qed.
Lemma ok_ExecN n f : ExecN n f w = (Some (n (wDB w)), set_wDB (f (wDB w)) (tickSql w)).
Proof using Hok. unfold ExecN. by rewrite sql_ok_faulty. Qed.
Lemma ok_Exec op :
  Exec op w = match op (wDB w) with
              | inl e => (inl e, tickSql w)
              | inr (d, n) => (inr n, set_wDB d (tickSql w))
              end.
Proof using Hok. unfold Exec. by rewrite sql_ok_faulty. Qed.
End SqlOk.

Lemma tx_body_ok ss d w : sql_ok w -> exists n, tx_body ss d w = (tx_pure ss d, set_wSqlTick n w).
Proof.
  revert d w. induction ss as [|f ss IH]; intros d w Hw; simpl; rewrite (sql_ok_faulty _ Hw).
  - by exists (S (wSqlTick w)).
  - destruct (f d) as [e|d']; [by exists (S (wSqlTick w))|].
    destruct (IH d' (tickSql w) (sql_ok_tick _ Hw)) as [n E]. exists n. by rewrite E.
Qed.

(** A transaction when no statement faults: all of it, or its error. *)
Lemma ok_Tx ss w : sql_ok w ->
  exists n, Tx ss w = match tx_pure ss (wDB w) with
                      | inl e => (Some e, set_wSqlTick n w)
                      | inr d => (None, set_wDB d (set_wSqlTick n w))
                      end.
Proof.
  intros Hw. unfold Tx. rewrite (sql_ok_faulty _ Hw).
  destruct (tx_body_ok ss (wDB w) (tickSql w) (sql_ok_tick _ Hw)) as [n E].
  exists n. rewrite E. simpl. by destruct (tx_pure ss (wDB w)).
Qed.

Lemma getNow_run w : getNow w = (wNow w, w). Proof. reflexivity. Qed.
Lemma getEnv_run w : getEnv w = (wEnv w, w). Proof. reflexivity. Qed.
Lemma getSrv_run w : getSrv w = (wSrv w, w). Proof. reflexivity. Qed.
Lemma modSrv_run f w : modSrv f w = (tt, set_wSrv (f (wSrv w)) w). Proof. reflexivity. Qed.

Ltac sqlside := solve [assumption | eauto 20 with sqlok].

(** Projections of updated worlds, and nothing else. *)
Ltac world_cbn :=
  cbn [fst snd wDB wSrv wNow wFault wSqlTick wRand wRandErr wRandTick wEnv wOut wBlobs
       set_wDB set_wSrv set_wNow set_wSqlTick set_wRandTick set_wOut set_wBlobs tickSql].

(** Run a handler symbolically on a fault-free world. *)
Ltac sqlrun :=
  repeat first
    [ rewrite bind_run | rewrite ret_run | rewrite gets_run | rewrite modify_run
    | rewrite getNow_run | rewrite getEnv_run | rewrite getSrv_run | rewrite modSrv_run
    | progress world_cbn
    | rewrite ok_QueryRow by sqlside | rewrite ok_QueryRowE by sqlside
    | rewrite ok_ScanOr by sqlside
    | rewrite ok_CountOr0 by sqlside | rewrite ok_Query by sqlside
    | rewrite ok_ExecOk by sqlside | rewrite ok_Exec_ by sqlside
    | rewrite ok_ExecN by sqlside | rewrite ok_Exec by sqlside ].

Lemma sql_ok_mkW d s now : sql_ok (mkW d s now).
Proof. intros n. done. Qed.
