(* ===== verification/ThrottleSpec.v ===== *)
(** * Throttling: what the counters count

    [authFailTracker] keeps, per key, a count and two instants, forgets them
    when asked or swept, and restarts them when a window is over.  Against the
    history of attempts it is exact: the answer depends only on the failures
    of the key in its current window.  The rate limiter's table stays bounded. *)

From Stdlib Require Import ZArith Lia.
From stdpp Require Import base strings list gmap.
From S2P Require Import Prelude AuthTracker Netutil World.

Open Scope string_scope.
Open Scope list_scope.
Open Scope Z_scope.

(** ** One counter *)

(** The failures of the current window: a failure after its end starts anew. *)
Definition addFailure (window now : Z) (l : list Z) : list Z :=
  match l with
  | [] => [now]
  | t0 :: _ => if window <? now - t0 then [now] else l ++ [now]
  end.

Definition overWindow (window th now : Z) (l : list Z) : bool :=
  match l with
  | [] => false
  | t0 :: _ => (now - t0 <=? window) && (th <=? Z.of_nat (length l))
  end.

(** The entry of key [k] summarises [l], or was dropped once irrelevant. *)
Definition counts (window now : Z) (k : string) (m : gmap string authFail) (l : list Z) : Prop :=
  match m !! k with
  | Some f => exists t0 l', l = t0 :: l' /\ fcount f = Z.of_nat (length l) /\ firstAt f = t0
                /\ t0 <= lastAt f <= now
  | None => match l with [] => True | t0 :: _ => window < now - t0 end
  end.

Lemma counts_later window now now' k m l :
  now <= now' -> counts window now k m l -> counts window now' k m l.
Proof.
  unfold counts. intros Hle. destruct (m !! k) as [f|].
  - intros (t0 & l' & H). exists t0, l'. destruct H as (-> & H1 & H2 & H3). split_and!; try done; lia.
  - destruct l; [done | lia].
Qed.

Lemma counts_other window now k m m' l :
  m' !! k = m !! k -> counts window now k m l -> counts window now k m' l.
Proof. unfold counts. by intros ->. Qed.

Lemma counts_bump window now k m l :
  counts window now k m l -> counts window now k (bump window now k m) (addFailure window now l).
Proof.
  unfold counts, bump, addFailure. destruct (m !! k) as [f|].
  - intros (t0 & l' & -> & H1 & H2 & H3). rewrite H2.
    destruct (window <? now - t0); rewrite lookup_insert_eq.
    + exists now, []. simpl. split_and!; try done; lia.
    + exists t0, (l' ++ [now]). simpl in *. split_and!; try done; rewrite ?length_app; simpl; lia.
  - intros H. rewrite lookup_insert_eq. destruct l as [|t0 l].
    + exists now, []. simpl. split_and!; try done; lia.
    + rewrite (proj2 (Z.ltb_lt window (now - t0)) H). exists now, []. simpl. split_and!; try done; lia.
Qed.

Lemma counts_delete window now k m : counts window now k (delete k m) [].
Proof. unfold counts. by rewrite lookup_delete_eq. Qed.

Lemma counts_check window th now k m l :
  counts window now k m l -> counts window now k (check window th now k m).2 l.
Proof.
  unfold check. destruct (m !! k) as [f|] eqn:E; [|done].
  destruct (window <? now - firstAt f) eqn:W; [|done]. unfold counts. rewrite E. simpl.
  rewrite lookup_delete_eq. intros (t0 & l' & -> & _ & <- & _). by bools.
Qed.

Lemma counts_sweep window now k m l :
  counts window now k m l -> counts window now k (sweep_map window now m) l.
Proof.
  unfold counts. rewrite lookup_sweep. destruct (m !! k) as [f|]; [|done].
  intros (t0 & l' & -> & H1 & H2 & H3). case_decide; [by exists t0, l' | lia].
Qed.

Lemma counts_over window th now k m l :
  counts window now k m l -> over window th now k m = overWindow window th now l.
Proof.
  unfold counts, over, overWindow. destruct (m !! k) as [f|].
  - intros (t0 & l' & -> & -> & -> & _). done.
  - destruct l as [|t0 l]; [done|]. intros H. by rewrite (proj2 (Z.leb_gt (now - t0) window)).
Qed.

(** What an operation of the tracker does to one of its four maps. *)
Inductive cop := CBump (k : string) | CClear (k : string) | CAsk (k : string) | CSweep | CSkip.

Definition cstep (window th now : Z) (o : cop) (m : gmap string authFail) : gmap string authFail :=
  match o with
  | CBump k => bump window now k m
  | CClear k => delete k m
  | CAsk k => (check window th now k m).2
  | CSweep => sweep_map window now m
  | CSkip => m
  end.

(** The failures of key [k] that count, after an operation at [now]. *)
Definition chist (window : Z) (k : string) (now : Z) (o : cop) (l : list Z) : list Z :=
  match o with
  | CBump k' => if k' ==? k then addFailure window now l else l
  | CClear k' => if k' ==? k then [] else l
  | _ => l
  end.

Lemma cstep_counts window th now o k m l :
  counts window now k m l -> counts window now k (cstep window th now o m) (chist window k now o l).
Proof.
  intros H. destruct o as [k'|k'|k'| |]; cbn [cstep chist].
  - case_bool_decide as E; [subst; by apply counts_bump|].
    by apply (counts_other _ _ _ m); [apply bump_ne|].
  - case_bool_decide as E; [subst; by apply counts_delete|].
    by apply (counts_other _ _ _ m); [rewrite lookup_delete_ne|].
  - destruct (decide (k' = k)) as [->|Hne]; [by apply counts_check|].
    by apply (counts_other _ _ _ m); [apply check_other|].
  - by apply counts_sweep.
  - done.
Qed.

(** ** The tracker *)

(** Every operation of [authFailTracker]. *)
Inductive tev :=
| TFail (ip user : string)
| TSuccess (ip user : string)
| TAskIP (ip : string)
| TAskUser (user : string)
| TTotpFail (user : string)
| TTotpSuccess (user : string)
| TAskTotp (user : string)
| TSignup (ip : string)
| TAskSignup (ip : string)
| TSweep.

Definition tstep (now : Z) (e : tev) (t : authFailTracker) : authFailTracker :=
  match e with
  | TFail ip u => recordFail now ip u t
  | TSuccess ip u => recordSuccess ip u t
  | TAskIP ip => (isIPThrottled now ip t).2
  | TAskUser u => (isUserLocked now u t).2
  | TTotpFail u => recordTOTPFail now u t
  | TTotpSuccess u => recordTOTPSuccess u t
  | TAskTotp u => (isTOTPThrottled now u t).2
  | TSignup ip => recordSignup now ip t
  | TAskSignup ip => (isSignupThrottled now ip t).2
  | TSweep => sweepAuthTracker now t
  end.

(** What each operation means for each map. *)
Definition ipOp (e : tev) : cop :=
  match e with
  | TFail ip _ => CBump ip | TSuccess ip _ => CClear ip | TAskIP ip => CAsk ip
  | TSweep => CSweep | _ => CSkip
  end.
Definition userOp (e : tev) : cop :=
  match e with
  | TFail _ u => if is_empty u then CSkip else CBump u
  | TSuccess _ u => if is_empty u then CSkip else CClear u
  | TAskUser u => CAsk u | TSweep => CSweep | _ => CSkip
  end.
Definition totpOp (e : tev) : cop :=
  match e with
  | TTotpFail u => if is_empty u then CSkip else CBump u
  | TTotpSuccess u => CClear u | TAskTotp u => CAsk u | TSweep => CSweep | _ => CSkip
  end.
Definition signupOp (e : tev) : cop :=
  match e with
  | TSignup ip => CBump ip | TAskSignup ip => CAsk ip | TSweep => CSweep | _ => CSkip
  end.

Lemma bump_totp now u t : u <> "" -> totpFails (recordTOTPFail now u t) = bump totpWindow now u (totpFails t).
Proof.
  intros Hu. unfold recordTOTPFail, is_empty, bump. rewrite (eqb_neq_dec u "" Hu).
  destruct (totpFails t !! u) as [f|]; [|done].
  destruct (Z.leb_spec (now - firstAt f) totpWindow), (Z.ltb_spec totpWindow (now - firstAt f)); done || lia.
Qed.

Lemma tstep_maps now e t :
  ipFails (tstep now e t) = cstep authIPWindow authIPFailThreshold now (ipOp e) (ipFails t)
  /\ userFails (tstep now e t) = cstep authUserWindow authUserLockThreshold now (userOp e) (userFails t)
  /\ totpFails (tstep now e t) = cstep totpWindow totpMaxAttempts now (totpOp e) (totpFails t)
  /\ signupCounts (tstep now e t) = cstep signupIPWindow signupIPMax now (signupOp e) (signupCounts t).
Proof.
  destruct e as [ip u|ip u|ip|u|u|u|u|ip|ip|]; cbn [tstep ipOp userOp totpOp signupOp]; try by split_and!.
  - unfold recordFail. cbv zeta. by destruct (is_empty u).
  - unfold recordSuccess. cbv zeta. by destruct (is_empty u).
  - unfold is_empty. destruct (decide (u = "")) as [->|Hu]; [by split_and!|].
    rewrite (eqb_neq_dec u "" Hu). split_and!; [..|by apply bump_totp|]; unfold recordTOTPFail, is_empty;
      rewrite (eqb_neq_dec u "" Hu); cbv zeta; repeat case_match; done.
Qed.

(** Instants never go back. *)
Fixpoint in_order (now : Z) (evs : list (Z * tev)) : Prop :=
  match evs with
  | [] => True
  | ne :: evs' => now <= ne.1 /\ in_order ne.1 evs'
  end.

Definition lastInstant (now : Z) (evs : list (Z * tev)) : Z := foldl (fun _ ne => ne.1) now evs.

Definition trun (evs : list (Z * tev)) (t : authFailTracker) : authFailTracker :=
  foldl (fun t ne => tstep ne.1 ne.2 t) t evs.

(** The failures of a key that count after a history, for the reading [op]. *)
Definition history (op : tev -> cop) (window : Z) (k : string) (evs : list (Z * tev)) : list Z :=
  foldl (fun l ne => chist window k ne.1 (op ne.2) l) [] evs.

Lemma run_counts (field : authFailTracker -> gmap string authFail) op window th k evs now t l :
  (forall now e t, field (tstep now e t) = cstep window th now (op e) (field t)) ->
  counts window now k (field t) l -> in_order now evs ->
  counts window (lastInstant now evs) k (field (trun evs t))
    (foldl (fun l ne => chist window k ne.1 (op ne.2) l) l evs).
Proof.
  intros Hf. revert now t l. induction evs as [|[n e] evs IH]; intros now t l Hc Ho; [done|].
  destruct Ho as [Hle Ho]. cbn [fst] in *. simpl foldl. apply (IH n (tstep n e t)); [|done].
  rewrite Hf. apply cstep_counts. by eapply counts_later.
Qed.

(** C20: throttling is exact.  After any interleaving of the operations of the
    tracker - failed and successful sign-ins, wrong codes, sign-ups, questions
    and sweeps, of any addresses and users, at non-decreasing instants - the
    four answers depend on the history of their key only.  The counted
    failures of a key are those since its last success that fall in the
    current window; a window is opened by the first failure after the previous
    one has run out and is not moved by later failures.  An address is
    throttled exactly while five of its failures are counted and their window
    of fifteen minutes is open; a user is locked with ten in thirty minutes,
    kept from the second factor with five wrong codes in ten minutes, and an
    address may not register with three sign-ups in a day.  Expiry, the
    deletions of the questions and the sweeper never show. *)
Theorem throttle_exact evs now k :
  in_order 0 evs -> lastInstant 0 evs <= now ->
  let t := trun evs authTracker0 in
  (isIPThrottled now k t).1 = overWindow (15 * Minute) 5 now (history ipOp (15 * Minute) k evs)
  /\ (isUserLocked now k t).1 = overWindow (30 * Minute) 10 now (history userOp (30 * Minute) k evs)
  /\ (isTOTPThrottled now k t).1 = overWindow (10 * Minute) 5 now (history totpOp (10 * Minute) k evs)
  /\ (isSignupThrottled now k t).1 = overWindow (24 * Hour) 3 now (history signupOp (24 * Hour) k evs).
Proof.
  intros Ho Hle t. unfold isIPThrottled, isUserLocked, isTOTPThrottled, isSignupThrottled. cbn [fst].
  rewrite !check_over.
  split_and!; apply counts_over; (eapply counts_later; [exact Hle|]);
    eapply run_counts; try done; intros n e t0; apply (tstep_maps n e t0).
Qed.

(** Five failures at one-second intervals throttle the address; a sixth
    question after a quarter of an hour does not. *)
Lemma throttle_exact_witness :
  let evs := (fun i => (i * Second, TFail "10.0.0.1" "bob")) <$> [1; 2; 3; 4; 5] in
  (isIPThrottled (6 * Second) "10.0.0.1" (trun evs authTracker0)).1 = true
  /\ (isIPThrottled (16 * Minute) "10.0.0.1" (trun evs authTracker0)).1 = false.
Proof.
  intros evs. split.
  - destruct (throttle_exact evs (6 * Second) "10.0.0.1") as [H _];
      [by vm_compute | by vm_compute | rewrite H; reflexivity].
  - destruct (throttle_exact evs (16 * Minute) "10.0.0.1") as [H _];
      [by vm_compute | by vm_compute | rewrite H; reflexivity].
Defined.

(** The windows do not slide.  A failure, three more after fourteen minutes and
    two after fifteen and a half are five failures within the last two
    minutes, and the address is not throttled: the first failure's window was
    over, and the count began anew. *)
Theorem five_failures_unthrottled :
  exists evs, in_order 0 evs
    /\ Forall (fun ne => ne.2 = TFail "10.0.0.1" "bob") evs
    /\ length (boolfilter (fun ne => 13 * Minute <? ne.1) evs) = 5%nat
    /\ (isIPThrottled (16 * Minute) "10.0.0.1" (trun evs authTracker0)).1 = false.
Proof.
  exists ((fun i => (i, TFail "10.0.0.1" "bob")) <$>
    [1; 14 * Minute; 14 * Minute + 1; 14 * Minute + 2; 15 * Minute + 30 * Second; 15 * Minute + 36 * Second]).
  split; [by vm_compute|]. split; [repeat constructor|]. split; vm_compute; reflexivity.
Qed.

(** ** The rate limiter's table *)

Section Limiter.
Context (ra : rateParams -> list Z -> Z -> bool).

Definition requests (reqs : list (Z * string)) (l : ipLimiter) : ipLimiter :=
  foldl (fun l r => (allow ra r.1 r.2 l).2) l reqs.

Lemma allow_maxSize now ip l : maxSize (allow ra now ip l).2 = maxSize l.
Proof. unfold allow. simpl. apply gcLocked_maxSize. Qed.

Lemma allow_size now ip l :
  0 <= maxSize l -> Z.of_nat (size (entries (allow ra now ip l).2)) <= maxSize l + 1.
Proof.
  intros Hm. unfold allow. simpl. pose proof (gcLocked_size now l Hm).
  match goal with |- context [<[ip := ?e]> ?m] => pose proof (size_insert_le ip e m) end. lia.
Qed.

(** The bucket of a key an active client uses survives the collection, and
    records every request: its history is the list of its requests. *)
Lemma allow_history now ip l e :
  entries l !! ip = Some e -> now - elast e <= idleTTL l -> Z.of_nat (size (entries l)) <= maxSize l ->
  exists e', entries (allow ra now ip l).2 !! ip = Some e'
    /\ lhistory (lim e') = lhistory (lim e) ++ [now] /\ elast e' = now
    /\ (allow ra now ip l).1 = ra (lparams (lim e)) (lhistory (lim e)) now.
Proof.
  intros He Hi Hs.
  assert (Hg : entries (gcLocked now l) !! ip = Some e).
  { unfold gcLocked. destruct (_ && _); [done|]. simpl.
    set (m1 := filter _ (entries l)). 
    assert (Hm1 : m1 !! ip = Some e) by (apply map_lookup_filter_Some; split; [done | simpl; lia]).
    assert (Hsz : (size m1 <= size (entries l))%nat).
    { apply map_subseteq_size, map_filter_subseteq. }
    by rewrite (proj2 (Z.ltb_ge (maxSize l) (Z.of_nat (size m1)))) by lia. }
  unfold allow. simpl. rewrite Hg. eexists. rewrite lookup_insert_eq. by split_and!.
Qed.
End Limiter.

(** The limiter is bounded and remembers who is active.  However many
    addresses ask, the table never holds more than one entry over its cap of
    fifty thousand; and while the table is within the cap, a bucket used
    within the last ten minutes is never collected, so its next request is
    judged on its whole history. *)
Theorem limiter_bounded ra reqs p :
  let l := requests ra reqs (newIPLimiter p) in
  Z.of_nat (size (entries l)) <= 50001
  /\ forall now ip e, entries l !! ip = Some e -> now - elast e <= 10 * Minute ->
       Z.of_nat (size (entries l)) <= 50000 ->
       exists e', entries (allow ra now ip l).2 !! ip = Some e'
         /\ lhistory (lim e') = lhistory (lim e) ++ [now]
         /\ (allow ra now ip l).1 = ra (lparams (lim e)) (lhistory (lim e)) now.
Proof.
  intros l.
  assert (H : maxSize l = 50000 /\ idleTTL l = 10 * Minute
              /\ Z.of_nat (size (entries l)) <= 50001).
  { subst l. unfold requests. induction reqs as [|[now ip] reqs IH] using rev_ind.
    - split_and!; [done..|]. simpl. rewrite map_size_empty. lia.
    - rewrite foldl_app. cbn [foldl fst snd]. destruct IH as (H1 & H2 & H3).
      set (l := foldl _ _ reqs) in *. split_and!.
      + by rewrite allow_maxSize.
      + unfold allow. simpl. unfold gcLocked. by destruct (_ && _).
      + pose proof (allow_size ra now ip l). lia. }
  destruct H as (H1 & H2 & H3). split; [done|]. intros now ip e He Hi Hs.
  destruct (allow_history ra now ip l e He) as (e' & A & B & _ & C); [lia | lia |].
  by exists e'.
Qed.
