(* ===== verification/Wf.v ===== *)
(** * The database invariant

    [db_wf] states the constraints of the schema of [initDB] that the code
    relies on: one row per key in every keyed table, and row ids that grow
    with insertion in the tables whose order is read, and the values that flag
    and status columns can hold.  The tactic [wf] proves
    that a statement preserves it, so that a handler's preservation proof is
    the [frame] tactic. *)

From Stdlib Require Import ZArith Lia Sorted.
From stdpp Require Import base strings list gmap.
From S2P Require Import Prelude Store Wire Db World.

Open Scope string_scope.
Open Scope list_scope.
Open Scope Z_scope.

(** ** Column types

    SQLite does not check what an INTEGER or TEXT column holds; the code keeps
    flags to 0 and 1 and the status columns to their words. *)
Definition flag (z : Z) : bool := (z =? 0) || (z =? 1).

Definition oneOf (l : list string) (s : string) : bool := existsb (fun x => s ==? x) l.

Definition roleLadder : list string := ["user"; "helper"; "moderator"; "admin"; "super_admin"].

Definition user_typed (u : User) : bool :=
  flag (u_is_verified u) && flag (u_phone_verified u) && flag (u_totp_enabled u)
  && flag (u_is_admin u) && flag (u_is_banned u) && flag (u_supporter u)
  && oneOf roleLadder (u_role u).

Definition friend_typed (r : Friend) : bool := oneOf ["pending"; "accepted"] (f_status r).
Definition session_typed (r : SessionToken) : bool := flag (st_revoked r) && flag (st_pending_device r).
Definition reset_typed (r : PasswordReset) : bool := flag (pr_used r).
Definition qr_typed (r : QRLogin) : bool := flag (qr_approved r).
Definition challenge_typed (r : DeviceChallenge) : bool := flag (dc_approved r) && flag (dc_consumed r).
Definition backup_typed (r : BackupCode) : bool := flag (bc_used r).
Definition message_typed (r : ChannelMessage) : bool :=
  flag (cms_edited r) && flag (cms_deleted r).
Definition story_typed (r : Story) : bool := oneOf ["image"; "video"] (sto_media_kind r).
Definition report_typed (r : AbuseReport) : bool := oneOf ["pending"; "resolved"] (ar_status r).
Definition supporter_typed (r : SupporterRow) : bool :=
  oneOf ["pending"; "granted"; "dismissed"] (sq_status r).

Definition typed {R} (p : R -> bool) (t : Table R) : Prop := Forall (fun r => p r = true) (rows t).

Record db_wf (d : Database) : Prop := mkWf {
  ty_users : typed user_typed (users d);
  ty_friends : typed friend_typed (friends d);
  ty_sessions : typed session_typed (session_tokens d);
  ty_resets : typed reset_typed (password_resets d);
  ty_qr : typed qr_typed (qr_login_tokens d);
  ty_challenges : typed challenge_typed (device_challenges d);
  ty_backups : typed backup_typed (totp_backup_codes d);
  ty_messages : typed message_typed (channel_messages d);
  ty_stories : typed story_typed (stories d);
  ty_reports : typed report_typed (abuse_reports d);
  ty_supporters : typed supporter_typed (supporter_requests d);
  wf_users : unique u_username (users d);
  wf_friends : unique (fun r => (f_user_a r, f_user_b r)) (friends d);
  wf_contact_groups : unique (fun r => (cg_owner r, cg_contact r)) (contact_groups d);
  wf_conversations : unique cv_id (conversations d);
  wf_conversation_members :
    unique (fun r => (cvm_convo_id r, cvm_username r)) (conversation_members d);
  wf_blocks : unique (fun r => (b_blocker r, b_blocked r)) (blocks d);
  wf_session_tokens : unique st_token (session_tokens d);
  wf_password_resets : unique pr_token (password_resets d);
  wf_qr_login_tokens : unique qr_token (qr_login_tokens d);
  wf_servers : unique sv_id (servers d);
  wf_server_invites : unique sv_invite_code (servers d);
  wf_channels : unique ch_id (channels d);
  wf_server_members : unique (fun r => (sm_server_id r, sm_username r)) (server_members d);
  wf_channel_reactions :
    unique (fun r => (cr_msg_id r, cr_emoji r, cr_username r)) (channel_reactions d);
  wf_story_views : unique (fun r => (stv_story_id r, stv_viewer r)) (story_views d);
  wf_user_settings : unique (fun r => (us_username r, us_key r)) (user_settings d);
  wf_push_subscriptions : unique ps_endpoint (push_subscriptions d);
  wf_invite_codes : unique ic_code (invite_codes d);
  wf_dm_messages : unique dr_msg_id (dm_messages d);
  wf_dm_reactions : unique (fun r => (dx_msg_id r, dx_username r, dx_emoji r)) (dm_reactions d);
  wf_key_backups : unique kb_username (key_backups d);
  wf_blocked_ips : unique bi_ip (blocked_ips d);
  wf_known_devices : unique (fun r => (kd_username r, kd_device_id r)) (known_devices d);
  wf_reward_crates : unique rc_source (reward_crates d);
  wf_reward_crafts : unique (fun r => (rf_owner r, rf_item r)) (reward_crafts d);
  wf_skype_messages :
    unique (fun r => (skm_username r, skm_conversation_id r, skm_sent_at r, skm_body r))
      (skype_import_messages d);
  wf_skype_contacts : unique (fun r => (skc_username r, skc_skype_id r)) (skype_import_contacts d);
  wf_dm_ids : ids_ok dr_id (dm_messages d);
  wf_channel_message_ids : ids_ok cms_id (channel_messages d);
  wf_device_challenge_ids : ids_ok dc_id (device_challenges d);
  wf_stroke_ids : ids_ok ws_id (whiteboard_strokes d);
  wf_call_ids : ids_ok ca_id (calls d);
  wf_crate_ids : ids_ok rc_id (reward_crates d);
  wf_offline_ids : ids_ok om_id (offline_messages d);
  wf_story_ids : ids_ok sto_id (stories d);
  wf_report_ids : ids_ok ar_id (abuse_reports d);
  wf_supporter_ids : ids_ok sq_id (supporter_requests d);
  wf_payment_ids : ids_ok bp_id (bmc_payments d) }.

Lemma db_wf_0 : db_wf Database0.
Proof. constructor; first [apply unique_empty | apply ids_ok_empty | constructor]. Qed.

(** A decision procedure, for concrete databases. *)
Definition uniqueb {R K} `{EqDecision K} (key : R -> K) (t : Table R) : bool :=
  bool_decide (NoDup (key <$> rows t)).

Fixpoint ascending (l : list Z) : bool :=
  match l with
  | [] => true
  | x :: l' => forallb (fun y => x <? y) l' && ascending l'
  end.

Definition ids_okb {R} (id : R -> Z) (t : Table R) : bool :=
  ascending (id <$> rows t) && forallb (fun r => id r <=? seqno t) (rows t).

Lemma uniqueb_sound {R K} `{EqDecision K} (key : R -> K) t : uniqueb key t = true -> unique key t.
Proof. apply bool_decide_eq_true. Qed.

Lemma ascending_sound l : ascending l = true -> StronglySorted Z.lt l.
Proof.
  induction l as [|x l IH]; simpl; intros H; [constructor|]. bools.
  constructor; [auto|]. apply Forall_forall. intros y Hy.
  apply Z.ltb_lt. match goal with H : forallb _ _ = true |- _ => rewrite forallb_forall in H; apply H end.
  by apply list_elem_of_In.
Qed.

Lemma ids_okb_sound {R} (id : R -> Z) t : ids_okb id t = true -> ids_ok id t.
Proof.
  unfold ids_okb. intros H. bools. split; [by apply ascending_sound|].
  apply Forall_forall. intros r Hr.
  match goal with H : forallb _ _ = true |- _ => rewrite forallb_forall in H; apply Z.leb_le, H end.
  by apply list_elem_of_In.
Qed.

Definition typedb {R} (p : R -> bool) (t : Table R) : bool := forallb p (rows t).

Lemma typedb_sound {R} (p : R -> bool) t : typedb p t = true -> typed p t.
Proof.
  unfold typedb. rewrite forallb_forall. intros H. apply Forall_forall. intros r Hr.
  apply H. by apply list_elem_of_In.
Qed.

Definition wf_check (d : Database) : bool :=
  typedb user_typed (users d) && typedb friend_typed (friends d)
  && typedb session_typed (session_tokens d) && typedb reset_typed (password_resets d)
  && typedb qr_typed (qr_login_tokens d) && typedb challenge_typed (device_challenges d)
  && typedb backup_typed (totp_backup_codes d) && typedb message_typed (channel_messages d)
  && typedb story_typed (stories d) && typedb report_typed (abuse_reports d)
  && typedb supporter_typed (supporter_requests d)
  && uniqueb u_username (users d)
  && uniqueb (fun r => (f_user_a r, f_user_b r)) (friends d)
  && uniqueb (fun r => (cg_owner r, cg_contact r)) (contact_groups d)
  && uniqueb cv_id (conversations d)
  && uniqueb (fun r => (cvm_convo_id r, cvm_username r)) (conversation_members d)
  && uniqueb (fun r => (b_blocker r, b_blocked r)) (blocks d)
  && uniqueb st_token (session_tokens d)
  && uniqueb pr_token (password_resets d)
  && uniqueb qr_token (qr_login_tokens d)
  && uniqueb sv_id (servers d)
  && uniqueb sv_invite_code (servers d)
  && uniqueb ch_id (channels d)
  && uniqueb (fun r => (sm_server_id r, sm_username r)) (server_members d)
  && uniqueb (fun r => (cr_msg_id r, cr_emoji r, cr_username r)) (channel_reactions d)
  && uniqueb (fun r => (stv_story_id r, stv_viewer r)) (story_views d)
  && uniqueb (fun r => (us_username r, us_key r)) (user_settings d)
  && uniqueb ps_endpoint (push_subscriptions d)
  && uniqueb ic_code (invite_codes d)
  && uniqueb dr_msg_id (dm_messages d)
  && uniqueb (fun r => (dx_msg_id r, dx_username r, dx_emoji r)) (dm_reactions d)
  && uniqueb kb_username (key_backups d)
  && uniqueb bi_ip (blocked_ips d)
  && uniqueb (fun r => (kd_username r, kd_device_id r)) (known_devices d)
  && uniqueb rc_source (reward_crates d)
  && uniqueb (fun r => (rf_owner r, rf_item r)) (reward_crafts d)
  && uniqueb (fun r => (skm_username r, skm_conversation_id r, skm_sent_at r, skm_body r))
       (skype_import_messages d)
  && uniqueb (fun r => (skc_username r, skc_skype_id r)) (skype_import_contacts d)
  && ids_okb dr_id (dm_messages d)
  && ids_okb cms_id (channel_messages d)
  && ids_okb dc_id (device_challenges d)
  && ids_okb ws_id (whiteboard_strokes d)
  && ids_okb ca_id (calls d)
  && ids_okb rc_id (reward_crates d)
  && ids_okb om_id (offline_messages d)
  && ids_okb sto_id (stories d)
  && ids_okb ar_id (abuse_reports d)
  && ids_okb sq_id (supporter_requests d)
  && ids_okb bp_id (bmc_payments d).

Lemma wf_check_sound d : wf_check d = true -> db_wf d.
Proof.
  unfold wf_check. rewrite !andb_true_iff. intros H.
  repeat match goal with H : _ /\ _ |- _ => destruct H end.
  constructor; first [by apply uniqueb_sound | by apply ids_okb_sound | by apply typedb_sound].
Qed.

(** ** Statements and column types *)

Section Typed.
Context {R : Type} (p : R -> bool).
Implicit Types (t : Table R).

Lemma typed_tdelete q t : typed p t -> typed p (tdelete q t).
Proof.
  unfold typed. rewrite !Forall_forall. intros H r Hr. apply H.
  simpl in Hr. by apply elem_of_boolfilter in Hr as [_ Hr].
Qed.
Lemma typed_tupdate q f t : (forall r, p r = true -> p (f r) = true) -> typed p t -> typed p (tupdate q f t).
Proof.
  unfold typed. rewrite !Forall_forall. intros Hf H r Hr. simpl in Hr.
  apply list_elem_of_fmap in Hr as (r0 & -> & Hr). destruct (q r0); auto.
Qed.
Lemma typed_tinsert mk t : (forall n, p (mk n) = true) -> typed p t -> typed p (tinsert mk t).
Proof. intros Hm H. unfold typed, tinsert. simpl. apply Forall_app_2; [done|]. by constructor. Qed.
Lemma typed_tinsert_ignore c mk t :
  (forall n, p (mk n) = true) -> typed p t -> typed p (tinsert_ignore c mk t).
Proof. intros Hm H. unfold tinsert_ignore. destruct (texists c t); [done | by apply typed_tinsert]. Qed.
Lemma typed_tinsert_unique c mk t t' :
  tinsert_unique c mk t = Some t' -> (forall n, p (mk n) = true) -> typed p t -> typed p t'.
Proof.
  unfold tinsert_unique. destruct (texists c t); [done|]. intros [= <-]. apply typed_tinsert.
Qed.
Lemma typed_tupsert c f mk t :
  (forall r, p r = true -> p (f r) = true) -> (forall n, p (mk n) = true) -> typed p t ->
  typed p (tupsert c f mk t).
Proof.
  intros Hf Hm H. unfold tupsert.
  destruct (texists c t); [by apply typed_tupdate | by apply typed_tinsert].
Qed.
End Typed.

(** A row the statement writes has the types, from those of the old one. *)
Create HintDb coltypes discriminated.
#[export] Hint Unfold user_typed friend_typed session_typed reset_typed qr_typed challenge_typed
  backup_typed message_typed story_typed report_typed supporter_typed : coltypes.

Ltac row_typed :=
  let r := fresh "r" in intros r;
  first
    [ exact id
    | reflexivity
    | autounfold with coltypes; cbn; intros;
      repeat case_match; simplify_eq;
      repeat match goal with
      | H : _ && _ = true |- _ => apply andb_prop in H as [? ?]
      end;
      rewrite ?andb_true_iff; split_and?; cbn;
      solve [ assumption | reflexivity | congruence
            | unfold oneOf, roleLadder in *; cbn in *;
              repeat match goal with
              | H : context [bool_decide ?P] |- context [bool_decide ?P] => destruct (bool_decide P)
              end; first [reflexivity | discriminate] ] ].

(** ** Automation *)

(** The constraint a statement checks is the key of the row it adds. *)
Create HintDb sqlkeys discriminated.

Ltac guards_tac :=
  let n := fresh in let r := fresh in let Hc := fresh in let He := fresh in
  intros n r Hc He; autounfold with sqlkeys in Hc; simpl in Hc, He;
  simplify_eq;
  repeat match goal with
  | E : ?x = ?y |- _ =>
      match type of Hc with
      | context [bool_decide (x = y)] => rewrite E in Hc
      | context [x =? y] => rewrite E in Hc
      end
  end;
  repeat match type of Hc with
  | context [bool_decide (?x = ?x)] => rewrite (bool_decide_eq_true_2 (x = x) eq_refl) in Hc
  | context [?x =? ?x] => rewrite (Z.eqb_refl x) in Hc
  end;
  rewrite ?orb_true_r in Hc; simpl in Hc; congruence.

Ltac wf_same := intros; simpl; reflexivity.

(** One field of [db_wf] after a statement. *)
Ltac wf_field :=
  simpl;
  first
    [ assumption
    | apply typed_tdelete; wf_field
    | apply typed_tupdate; [ row_typed | wf_field ]
    | apply typed_tinsert; [ row_typed | wf_field ]
    | apply typed_tinsert_ignore; [ row_typed | wf_field ]
    | apply typed_tupsert; [ row_typed | row_typed | wf_field ]
    | match goal with |- typed _ (if ?b then _ else _) => destruct b; wf_field end
    | match goal with H : tinsert_unique _ _ _ = Some ?t' |- typed _ ?t' =>
        refine (typed_tinsert_unique _ _ _ _ _ H _ _); [ row_typed | wf_field ] end
    | apply unique_tdelete; wf_field
    | apply unique_tupdate; [ wf_same | wf_field ]
    | apply unique_tinsert_ignore; [ guards_tac | wf_field ]
    | apply unique_tupsert; [ guards_tac | wf_same | wf_field ]
    | match goal with H : tinsert_unique _ _ _ = Some _ |- _ =>
        refine (unique_tinsert_unique _ _ _ _ _ _ H _); [ guards_tac | wf_field ] end
    | match goal with H : texists _ _ = false |- _ =>
        refine (unique_tinsert_guarded _ _ _ _ _ H _); [ guards_tac | wf_field ] end
    | apply ids_ok_tdelete; wf_field
    | apply ids_ok_tupdate; [ wf_same | wf_field ]
    | apply ids_ok_tinsert; [ wf_same | wf_field ]
    | match goal with |- ids_ok _ (tinsert_ignore _ _ _) =>
        unfold tinsert_ignore; case_match; wf_field end
    | match goal with |- ids_ok _ (if ?b then _ else _) => destruct b; wf_field end
    | match goal with |- unique _ (if ?b then _ else _) => destruct b; wf_field end
    | match goal with H : tinsert_unique _ _ ?t = Some ?t' |- ids_ok _ ?t' =>
        unfold tinsert_unique in H; destruct (texists _ t); [discriminate H|];
        injection H as <-; wf_field end
    | match goal with H : db_wf ?d |- _ => destruct H; assumption end ].

(** A statement without constraint error. *)
Ltac wf_step :=
  let d := fresh "d" in let H := fresh "Hwf" in
  intros d H; simpl;
  repeat match goal with |- db_wf (if ?b then _ else _) => destruct b eqn:? end;
  destruct H; constructor; wf_field.

(** The result of a statement that may report one, from its equation. *)
Ltac wf_from E :=
  try (lazymatch type of E with ?t = _ => let h := head_of t in unfold h in E end);
  simpl in E;
  repeat match type of E with
  | (if ?b then _ else _) = _ => destruct b eqn:?; [try discriminate E | try discriminate E]
  | match ?x with _ => _ end = _ => destruct x eqn:?; try discriminate E
  end;
  simplify_eq; try assumption;
  match goal with H : db_wf _ |- _ => destruct H end; constructor; wf_field.

Ltac wf_exec :=
  let d := fresh "d" in let d' := fresh "d'" in let n := fresh in
  let H := fresh "Hwf" in let E := fresh "E" in
  intros d d' n H E; wf_from E.

(** The same for a statement of a transaction. *)
Ltac wf_stmt :=
  let d := fresh "d" in let d' := fresh "d'" in
  let H := fresh "Hwf" in let E := fresh "E" in
  intros d d' H E; wf_from E.

(** ** The frame every operation of the server respects

    [core] is what no operation changes: the clock, the environment, the
    oracles, the table of open sockets, and the addresses of the connections,
    which only the accept and the return of a connection touch. *)
Definition core (w : World) := (ctx w, wsConnCount (wSrv w), cIP <$> Heap (wSrv w)).

Definition safe : World -> World -> Prop := both (same core) (db_keeps db_wf).

#[export] Instance safe_preorder : PreOrder safe.
Proof. unfold safe. typeclasses eauto. Qed.

Section SafeInstances.
#[local] Ltac go := intros ?; intros; split; [reflexivity | by intros ?].
#[export] Instance fo_safe : FreesOut safe. Proof. go. Qed.
#[export] Instance fq_safe : FreesSql safe. Proof. go. Qed.
#[export] Instance fr_safe : FreesRand safe. Proof. go. Qed.
#[export] Instance fb_safe : FreesBlob safe. Proof. go. Qed.

Lemma safe_modSrv f :
  (forall s, (wsConnCount (f s), cIP <$> Heap (f s)) = (wsConnCount s, cIP <$> Heap s)) ->
  respects safe (modSrv f).
Proof.
  intros Hf w. split; [|by intros ?]. unfold same, core. specialize (Hf (wSrv w)).
  simpl. injection Hf as -> ->. done.
Qed.
Lemma safe_modClient c f : (forall k, cIP (f k) = cIP k) -> respects safe (modClient c f).
Proof.
  intros Hf. apply safe_modSrv. intros s. simpl. f_equal. apply map_eq. intros i.
  rewrite !lookup_fmap. destruct (decide (c = i)) as [->|Hne].
  - rewrite lookup_alter_eq. destruct (_ !! i); simpl; [|done]. by rewrite Hf.
  - by rewrite lookup_alter_ne.
Qed.
Lemma safe_modTracker f : respects safe (modTracker f).
Proof. by apply safe_modSrv. Qed.
Lemma safe_askTracker {A} (f : _ -> A * _) : respects safe (askTracker f).
Proof. go. Qed.
Lemma safe_addMetric f : respects safe (addMetric f).
Proof. by apply safe_modSrv. Qed.
Lemma safe_CloseConn c : respects safe (CloseConn c).
Proof.
  apply respects_bind; [typeclasses eauto | by apply safe_modClient | intros _].
  apply respects_emit. typeclasses eauto.
Qed.

(** A write: its effect on the database is all that matters. *)
Lemma safe_write {A} (m : M A) :
  respects (same core) m -> respects (db_keeps db_wf) m -> respects safe m.
Proof. intros H1 H2 w. by split. Qed.
End SafeInstances.

#[export] Instance fd_core : FreesDB (same core).
Proof. intros ?; intros; reflexivity. Qed.
#[export] Instance fq_core : FreesSql (same core).
Proof. intros ?; intros; reflexivity. Qed.
#[export] Instance fo_core : FreesOut (same core).
Proof. intros ?; intros; reflexivity. Qed.
#[export] Instance fr_core : FreesRand (same core).
Proof. intros ?; intros; reflexivity. Qed.
#[export] Instance fb_core : FreesBlob (same core).
Proof. intros ?; intros; reflexivity. Qed.

Lemma safe_Exec_ f : (forall d, db_wf d -> db_wf (f d)) -> respects safe (Exec_ f).
Proof. intros H. apply safe_write; [frame | by apply keeps_Exec_]. Qed.
Lemma safe_ExecOk f : (forall d, db_wf d -> db_wf (f d)) -> respects safe (ExecOk f).
Proof. intros H. apply safe_write; [frame | by apply keeps_ExecOk]. Qed.
Lemma safe_ExecN n f : (forall d, db_wf d -> db_wf (f d)) -> respects safe (ExecN n f).
Proof. intros H. apply safe_write; [frame | by apply keeps_ExecN]. Qed.
Lemma safe_Exec op :
  (forall d d' n, db_wf d -> op d = inr (d', n) -> db_wf d') -> respects safe (Exec op).
Proof. intros H. apply safe_write; [frame | by apply keeps_Exec]. Qed.
Lemma safe_Tx ss :
  (forall d d', db_wf d -> tx_pure ss d = inr d' -> db_wf d') -> respects safe (Tx ss).
Proof. intros H. apply safe_write; [frame | by apply respects_Tx_keeps]. Qed.

(** A transaction each of whose statements keeps the invariant. *)
Lemma tx_pure_keeps (P : Database -> Prop) ss :
  Forall (fun f => forall d d', P d -> f d = inr d' -> P d') ss ->
  forall d d', P d -> tx_pure ss d = inr d' -> P d'.
Proof.
  induction 1 as [|f ss Hf _ IH]; intros d d' HP; simpl; [congruence|].
  destruct (f d) as [e|d1] eqn:E; [done|]. apply IH. by eapply Hf.
Qed.

Lemma safe_Tx_stmts ss :
  Forall (fun f => forall d d', db_wf d -> f d = inr d' -> db_wf d') ss -> respects safe (Tx ss).
Proof. intros H. apply safe_Tx. by apply tx_pure_keeps. Qed.

Lemma safe_TxBody {E} (b c : E) body :
  (forall d, respects (both (same core) (same wDB)) (body d)) ->
  (forall d w d', db_wf d -> (body d w).1 = inr d' -> db_wf d') ->
  respects safe (TxBody b c body).
Proof.
  intros Hf Hp. apply safe_write.
  - apply respects_TxBody; try typeclasses eauto. intros d w. apply (Hf d w).
  - apply keeps_TxBody; [|done]. intros d w. apply (Hf d w).
Qed.

Lemma safe_core {A} (m : M A) w : respects safe m -> core (m w).2 = core w.
Proof. intros H. apply (H w). Qed.
Lemma safe_wf {A} (m : M A) w : respects safe m -> db_wf (wDB w) -> db_wf (wDB (m w).2).
Proof. intros H. apply (H w). Qed.

#[export] Instance fq_core_db : FreesSql (both (same core) (same wDB)).
Proof. intros ?; split; reflexivity. Qed.
#[export] Instance fr_core_db : FreesRand (both (same core) (same wDB)).
Proof. intros ? ?; split; reflexivity. Qed.

#[export] Hint Resolve safe_modTracker safe_askTracker safe_addMetric
  safe_CloseConn : frame.
#[export] Hint Extern 2 (respects safe (modClient _ _)) => apply safe_modClient; intros; reflexivity : frame.
#[export] Hint Extern 2 (respects safe (modSrv _)) => apply safe_modSrv; intros; reflexivity : frame.
#[export] Hint Extern 2 (respects safe (Exec_ _)) => apply safe_Exec_; wf_step : frame.
#[export] Hint Extern 2 (respects safe (ExecOk _)) => apply safe_ExecOk; wf_step : frame.
#[export] Hint Extern 2 (respects safe (ExecN _ _)) => apply safe_ExecN; wf_step : frame.
#[export] Hint Extern 2 (respects safe (Exec _)) => apply safe_Exec; wf_exec : frame.
