(* ===== verification/Samples.v ===== *)
(** * A small server to evaluate examples on

    Three verified users: alice and bob are friends and connected, carol has
    asked alice; a few rows in the tables the examples look at. *)

From Stdlib Require Import ZArith Lia.
From stdpp Require Import base strings list gmap.
From S2P Require Import Prelude Store Wire Db World Wf.

Open Scope string_scope.
Open Scope list_scope.
Open Scope Z_scope.

Definition T0 : Z := 1700000000 * Second.

Definition tableOf {R} (l : list R) : Table R := mkTable l (Z.of_nat (length l)).

(** A verified user whose password is [password1] under [env0]. *)
Definition sampleUser (name : string) : User :=
  mkUser name (name +:+ "@example.org") "" None "bc:sha:password1" 1 None None 0 T0 "" 0 0 "user" 0 ""
    None "" "10.0.0.1" None "10.0.0.1" None "Online" 0 None "".

Definition sampleDB : Database :=
  Database0
    |> set_users (tableOf [sampleUser "alice"; sampleUser "bob"; sampleUser "carol"])
    |> set_friends (tableOf [mkFriend "alice" "bob" "accepted"; mkFriend "carol" "alice" "pending"])
    |> set_session_tokens (tableOf
         [mkSessionToken "tok" "alice" "web" T0 (T0 + 30 * 24 * Hour) 0 0;
          mkSessionToken "held" "alice" "web" T0 (T0 + 30 * 24 * Hour) 0 1])
    |> set_device_challenges (tableOf
         [mkDeviceChallenge 1 "alice" "dev1" "held" "123456" "Firefox on Linux" "10.0.0.9" 0 0 0
            (T0 + 15 * Minute)]).

Lemma sampleDB_wf : db_wf sampleDB.
Proof. apply wf_check_sound. vm_compute. reflexivity. Qed.

Definition sampleServer : NexusServer :=
  server0
    |> set_Clients {[ "alice" := [1%nat]; "bob" := [2%nat] ]}
    |> set_Heap {[ 1%nat := set_cUsername "alice" (newClient "10.0.0.1");
                   2%nat := set_cUsername "bob" (newClient "10.0.0.2") ]}.

Definition sampleW : World := mkW sampleDB sampleServer T0.

Lemma sampleW_ok : sql_ok sampleW.
Proof. apply sql_ok_mkW. Qed.

(** ** Environments that differ from [env0] in one answer *)

Definition Env_eta (r : Env) : Env :=
  mkEnv (getenv r) (sha256sum r) (bcryptGenerate r) (bcryptCompare r) (totpValidate r)
    (totpGenerate r) (parseAddress r) (lookupMX r) (ipLookup r) (unicodeLN r) (rateAllow r)
    (twilioCall r) (mailPost r) (smtpSend r) (cfAnswer r) (hmacSha1Base64 r) (libErr r) (jsonStroke r)
    (jsonStrokeEnc r) (jsonSub r) (jsonKV r) (jsonBackup r) (jsonBackupEnc r) (jsonSessions r)
    (fcmClient r) (fcmUnregistered r) (hmacSha256 r) (jsonBmc r) (detectContentType r)
    (imageDecode r) (pngEncode r) (blobFault r) (blobTook r) (ghLatest r) (checksumsTxt r) (askModel r)
    (geoLookup r) (selfProbe r) (sqlNumeric r) (dbBytes r) (dbPing r) (memAlloc r)
    (numGoroutine r) (metricsStart r) (diskFile r) (zoneOffset r).

Definition set_getenv (v : string -> string) (r : Env) : Env := ltac:(upd r Env_eta getenv v).
Definition set_zoneOffset (v : Z -> Z) (r : Env) : Env := ltac:(upd r Env_eta zoneOffset v).
Definition set_jsonBmc (v : string -> option bmcPayload) (r : Env) : Env := ltac:(upd r Env_eta jsonBmc v).
Definition set_selfProbe (v : Z -> option Z) (r : Env) : Env := ltac:(upd r Env_eta selfProbe v).
Definition set_cfAnswer (v : Z -> httpAnswer (list cfICEServer)) (r : Env) : Env := ltac:(upd r Env_eta cfAnswer v).
