(* ===== verification/Registry.v ===== *)
(** * The connection registry ([clients.go], [calls.go], [callsignal.go])

    [s.Clients] maps a user to every live connection they hold; the helpers
    here are the only code that walks it.  A call belongs to one connection,
    so the lookups that route call signalling live here too. *)

From Stdlib Require Import ZArith Lia.
From stdpp Require Import base strings list gmap.
From S2P Require Import Prelude GoRt Wire Db World.

Open Scope string_scope.
Open Scope list_scope.
Open Scope Z_scope.

(** ** Operations *)

Definition clientsOf (username : string) : M (list nat) :=
  gets (fun w => connsOf (wSrv w) username).

Definition sendTo (username : string) (m : NexusMessage) : M bool :=
  let* cs := clientsOf username in
  foldM (fun delivered c => let* ok := Send c m in ret (delivered || ok)) false cs.

(** [s.sendTo(u, m)] with the result dropped. *)
Definition sendTo_ (username : string) (m : NexusMessage) : M unit := sendTo username m ;;; ret tt.

Definition sendToOthers (username : string) (except : nat) (m : NexusMessage) : M unit :=
  let* cs := clientsOf username in
  forM cs (fun c => if c ==? except then ret tt else Send_ c m).

Definition isOnline (username : string) : M bool :=
  let* cs := clientsOf username in
  ret (negb (bool_decide (length cs = 0%nat))).

Definition addClientLocked (username : string) (c : nat) : M unit :=
  modSrv (fun s => set_Clients (<[username := connsOf s username ++ [c]]> (Clients s)) s).

(** Same update, taking the lock itself. *)
Definition addClient (username : string) (c : nat) : M unit := addClientLocked username c.

(** The loop of [removeClientLocked]: cut the first occurrence. *)
Fixpoint remove_first (c : nat) (cs : list nat) : list nat :=
  match cs with
  | [] => []
  | existing :: cs' => if existing ==? c then cs' else existing :: remove_first c cs'
  end.

Definition removeClientLocked (username : string) (c : nat) : M Z :=
  let* s := getSrv in
  let cs := remove_first c (connsOf s username) in
  if bool_decide (length cs = 0%nat) then
    modSrv (fun s => set_Clients (delete username (Clients s)) s) ;;; ret 0
  else
    modSrv (fun s => set_Clients (<[username := cs]> (Clients s)) s) ;;;
    ret (Z.of_nat (length cs)).

Definition removeClient (username : string) (c : nat) : M Z := removeClientLocked username c.

Definition dropAllClients (username : string) (reason : NexusMessage) : M unit :=
  let* cs := clientsOf username in
  modSrv (fun s => set_Clients (delete username (Clients s)) s) ;;;
  forM cs (fun c => Send_ c reason ;;; CloseConn c).

Definition onlineUsernames : M (list string) :=
  gets (fun w => (map_to_list (Clients (wSrv w))).*1).

Definition onlineUserCount : M Z :=
  gets (fun w => Z.of_nat (size (Clients (wSrv w)))).

Definition connectionCount : M Z :=
  gets (fun w => foldr (fun uc n => Z.of_nat (length uc.2) + n) 0 (map_to_list (Clients (wSrv w)))).

Definition allConns (s : NexusServer) : list nat := concat (map_to_list (Clients s)).*2.

Definition broadcastAll (m : NexusMessage) : M unit :=
  let* s := getSrv in forM (allConns s) (fun c => Send_ c m).

(** The first connection of a user whose state satisfies [p]. *)
Definition findConn (p : Client -> bool) (username : string) (s : NexusServer) : option nat :=
  find_first (fun c => match Heap s !! c with Some k => p k | None => false end)
             (connsOf s username).

Definition anyClientInCall (username : string) : M (option nat) :=
  gets (fun w => findConn cInCall username (wSrv w)).

Definition callPeerLocked (peer with_ : string) : M (option nat) :=
  gets (fun w => findConn (fun k => cInCall k && (cCallPartner k ==? with_)) peer (wSrv w)).

Definition callPeer (peer with_ : string) : M (option nat) := callPeerLocked peer with_.

Definition ringingClients (username : string) : M (list nat) := clientsOf username.

Definition pendingCallerLocked (caller : string) : M (option nat) :=
  gets (fun w => findConn (fun k => negb (is_empty (cPendingCallRoom k))
                                    || negb (cPendingCallID k =? 0)) caller (wSrv w)).

(** ** [calls.go] and [callsignal.go] *)

Definition callRTC : string := "rtc".
Definition maxCallSDP : Z := 64 * 1024.
Definition maxCallCandidate : Z := 4 * 1024.

Definition validCallSignal (m : NexusMessage) : bool :=
  if (maxCallSDP <? len (mSDP m)) || (maxCallCandidate <? len (mCandidate m)) then false
  else if (mBody m ==? "offer") || (mBody m ==? "answer") then negb (is_empty (mSDP m))
  else if mBody m ==? "ice" then negb (is_empty (mCandidate m))
  else false.

(** [int(d.Seconds())] truncates toward zero. *)
Definition callOutcome (answered : bool) (startedAt endedAt : Z) : bool * Z :=
  if answered then (true, Z.max (Z.quot (endedAt - startedAt) Second) 0) else (false, 0).

Definition boolToInt (b : bool) : Z := if b then 1 else 0.

(** ** Facts *)

(** Whether a write to the connection succeeds. *)
Definition writable (w : World) (c : nat) : bool :=
  match Heap (wSrv w) !! c with Some k => cConnUp k | None => false end.

Lemma Send_writable c m w :
  Send c m w = (writable w c,
                if writable w c then set_wOut (wOut w ++ [EvSend c m]) w else w).
Proof.
  unfold Send, writable. destruct (_ !! c) as [k|]; [destruct (cConnUp k)|]; done.
Qed.

(** The frames a list of writes produces. *)
Definition frames (w : World) (cs : list nat) (m : NexusMessage) : list Event :=
  (fun c => EvSend c m) <$> boolfilter (writable w) cs.

Lemma set_wOut_nil w : set_wOut (wOut w ++ []) w = w.
Proof. rewrite app_nil_r. by destruct w. Qed.

Lemma foldM_Send m cs b w :
  foldM (fun delivered c => let* ok := Send c m in ret (delivered || ok)) b cs w
  = (b || existsb (writable w) cs, set_wOut (wOut w ++ frames w cs m) w).
Proof.
  revert b w. induction cs as [|c cs IH]; intros b w; simpl.
  - rewrite orb_false_r. unfold frames, boolfilter. simpl. by rewrite set_wOut_nil.
  - unfold bind. rewrite Send_writable. simpl. unfold ret. simpl.
    rewrite IH. unfold frames. rewrite boolfilter_cons.
    destruct (writable w c) eqn:E; simpl.
    + rewrite orb_true_r, orb_true_l. f_equal.
      unfold set_wOut. simpl. f_equal. rewrite <- app_assoc. done.
    + by rewrite orb_false_r.
Qed.

(** [sendTo] writes one frame to each connection that accepts it, in registry
    order, and reports whether there was one; nothing else changes. *)
Lemma sendTo_spec u m w :
  sendTo u m w =
    (existsb (writable w) (connsOf (wSrv w) u),
     set_wOut (wOut w ++ frames w (connsOf (wSrv w) u) m) w).
Proof.
  exact (foldM_Send m (connsOf (wSrv w) u) false w).
Qed.

Lemma respects_sendTo R `{!PreOrder R, !FreesOut R} u m : respects R (sendTo u m).
Proof. unfold sendTo, clientsOf. frame. Qed.

Lemma respects_sendTo_ R `{!PreOrder R, !FreesOut R} u m : respects R (sendTo_ u m).
Proof. unfold sendTo_. apply respects_bind; [done | by apply respects_sendTo | intros ?; frame]. Qed.

Lemma emits_sendTo (P : Event -> Prop) u m : (forall c, P (EvSend c m)) -> respects (emits P) (sendTo u m).
Proof.
  intros H. unfold sendTo, clientsOf. frame; apply emits_Send; auto.
Qed.

Lemma emits_sendTo_ (P : Event -> Prop) u m :
  (forall c, P (EvSend c m)) -> respects (emits P) (sendTo_ u m).
Proof.
  intros H. unfold sendTo_. apply respects_bind; [typeclasses eauto | by apply emits_sendTo |].
  intros ?. frame.
Qed.

Section RegistryFrames.
Context (R : World -> World -> Prop) `{HR : !PreOrder R}.

Lemma respects_clientsOf u : respects R (clientsOf u). Proof using HR. by apply respects_gets. Qed.
Lemma respects_findGets {A} (f : World -> A) : respects R (gets f). Proof using HR. by apply respects_gets. Qed.
Lemma respects_isOnline u : respects R (isOnline u). Proof using HR. unfold isOnline, clientsOf. frame. Qed.
Lemma respects_addClientLocked `{!FreesSrv R} u c : respects R (addClientLocked u c).
Proof using HR. unfold addClientLocked. frame. Qed.
Lemma respects_removeClientLocked `{!FreesSrv R} u c : respects R (removeClientLocked u c).
Proof using HR. unfold removeClientLocked. frame. Qed.
Lemma respects_dropAllClients `{!FreesSrv R, !FreesOut R} u m : respects R (dropAllClients u m).
Proof using HR. unfold dropAllClients, clientsOf. frame. Qed.
Lemma respects_broadcastAll `{!FreesOut R} m : respects R (broadcastAll m).
Proof using HR. unfold broadcastAll. frame. Qed.
Lemma respects_sendToOthers `{!FreesOut R} u c m : respects R (sendToOthers u c m).
Proof using HR. unfold sendToOthers, clientsOf. frame. Qed.
Lemma respects_anyClientInCall u : respects R (anyClientInCall u). Proof using HR. by apply respects_gets. Qed.
Lemma respects_callPeerLocked u v : respects R (callPeerLocked u v). Proof using HR. by apply respects_gets. Qed.
Lemma respects_pendingCallerLocked u : respects R (pendingCallerLocked u). Proof using HR. by apply respects_gets. Qed.
End RegistryFrames.

#[export] Hint Resolve respects_sendTo respects_sendTo_ respects_clientsOf respects_isOnline
  respects_addClientLocked respects_removeClientLocked respects_dropAllClients
  respects_broadcastAll respects_sendToOthers respects_anyClientInCall
  respects_callPeerLocked respects_pendingCallerLocked : frame.

(** ** The registry invariant

    No user is registered with an empty list of connections, so "has a key"
    and "has a live connection" are the same thing. *)
Definition registry_ok (s : NexusServer) : Prop := map_Forall (fun _ cs => cs <> []) (Clients s).

Lemma connsOf_nil s u : registry_ok s -> connsOf s u = [] <-> Clients s !! u = None.
Proof.
  intros Hok. unfold connsOf. destruct (Clients s !! u) as [cs|] eqn:E; simpl; [|done].
  split; [|done]. intros ->. by destruct (Hok u [] E).
Qed.

Lemma registry_ok_set_Heap h s : registry_ok s -> registry_ok (set_Heap h s).
Proof. done. Qed.

Lemma remove_first_notin c cs : c ∉ cs -> remove_first c cs = cs.
Proof.
  induction cs as [|d cs IH]; simpl; [done|]. intros [Hd Hc]%not_elem_of_cons.
  rewrite (eqb_neq_dec d c) by done. by rewrite IH.
Qed.

Lemma length_remove_first c cs : c ∈ cs -> length cs = S (length (remove_first c cs)).
Proof.
  induction cs as [|d cs IH]; [by intros ?%elem_of_nil|]. simpl. case_bool_decide; [done|].
  intros [->|Hin]%elem_of_cons; [done|]. simpl. by rewrite <- IH.
Qed.

Lemma remove_first_app_last c cs : c ∉ cs -> remove_first c (cs ++ [c]) = cs.
Proof.
  intros Hc. induction cs as [|d cs IH]; simpl.
  - by rewrite bool_decide_eq_true_2.
  - apply not_elem_of_cons in Hc as [Hd Hc]. rewrite bool_decide_eq_false_2 by done.
    by rewrite IH.
Qed.

Lemma elem_of_remove_first c d cs : d ∈ remove_first c cs -> d ∈ cs.
Proof.
  induction cs as [|e cs IH]; simpl; [done|]. case_bool_decide.
  - intros ?. by right.
  - intros [->|Hd]%elem_of_cons; [left | right; auto].
Qed.

Lemma connsOf_set_Clients_insert u v cs s :
  connsOf (set_Clients (<[u := cs]> (Clients s)) s) v = if decide (u = v) then cs else connsOf s v.
Proof. unfold connsOf. simpl. rewrite lookup_insert. by case_decide. Qed.

Lemma connsOf_set_Clients_delete u v s :
  connsOf (set_Clients (delete u (Clients s)) s) v = if decide (u = v) then [] else connsOf s v.
Proof. unfold connsOf. simpl. rewrite lookup_delete. by case_decide. Qed.

(** What [removeClientLocked] leaves behind and returns. *)
Lemma removeClientLocked_spec u c w :
  let cs := remove_first c (connsOf (wSrv w) u) in
  (removeClientLocked u c w).1 = Z.of_nat (length cs)
  /\ (forall v, connsOf (wSrv (removeClientLocked u c w).2) v
                = if decide (u = v) then cs else connsOf (wSrv w) v).
Proof.
  simpl. unfold removeClientLocked, bind, getSrv, gets, modSrv, modify. simpl.
  case_bool_decide as Hl; simpl.
  - split; [by rewrite Hl|]. intros v. rewrite connsOf_set_Clients_delete.
    case_decide; [|done]. by destruct (remove_first _ _).
  - split; [done|]. intros v. by rewrite connsOf_set_Clients_insert.
Qed.

Lemma removeClientLocked_ok u c w :
  registry_ok (wSrv w) -> registry_ok (wSrv (removeClientLocked u c w).2).
Proof.
  intros Hok. unfold removeClientLocked, bind, getSrv, gets, modSrv, modify. simpl.
  case_bool_decide as Hl; simpl; unfold registry_ok in *; simpl.
  - by apply map_Forall_delete.
  - apply map_Forall_insert_2; [|done]. by destruct (remove_first _ _).
Qed.

Lemma addClientLocked_ok u c w :
  registry_ok (wSrv w) -> registry_ok (wSrv (addClientLocked u c w).2).
Proof.
  intros Hok. unfold addClientLocked, modSrv, modify, registry_ok. simpl.
  apply map_Forall_insert_2; [|done]. by destruct (connsOf _ _).
Qed.
