(* ===== verification/Http.v ===== *)
(** * HTTP requests and responses

    What the HTTP handlers read of a request and write of a response.  A
    handler is a computation that returns the response; the [json] bodies are
    kept as values, not as text. *)

From Stdlib Require Import ZArith Lia Ascii.
From stdpp Require Import base strings list gmap.
From S2P Require Import Prelude GoRt GoStd Json Wire Db World.

Open Scope string_scope.
Open Scope list_scope.
Open Scope Z_scope.

(** The parts of [*http.Request] the handlers read.  [rqHeader h] is
    [r.Header.Get(h)], [rqCookie n] the value of a cookie, the empty string
    when it is absent. *)
Record Request := mkRequest {
  rqMethod : string;
  rqPath : string;
  rqRemoteAddr : string;
  rqHeader : string -> string;
  rqCookie : string -> string;
  rqQuery : string -> string }.

Inductive respbody :=
| BText (s : string)
| BJson (j : jval)
| BFile (content : string)       (* http.ServeContent of a blob *)
| BPage (name : string) (args : list string)   (* an HTML page with its arguments *)
| BNone.

Record Response := mkResponse {
  rsCode : Z;
  rsCookies : list (string * string);
  rsBody : respbody;
  rsHeaders : list (string * string) }.   (* those the code sets by name, content types aside *)

Definition StatusOK : Z := 200.
Definition StatusMovedPermanently : Z := 301.
Definition StatusFound : Z := 302.
Definition StatusTemporaryRedirect : Z := 307.
Definition StatusNoContent : Z := 204.
Definition StatusBadRequest : Z := 400.
Definition StatusUnauthorized : Z := 401.
Definition StatusForbidden : Z := 403.
Definition StatusNotFound : Z := 404.
Definition StatusMethodNotAllowed : Z := 405.
Definition StatusRequestEntityTooLarge : Z := 413.
Definition StatusUnsupportedMediaType : Z := 415.
Definition StatusBadGateway : Z := 502.
Definition StatusServiceUnavailable : Z := 503.
Definition StatusTooManyRequests : Z := 429.
Definition StatusInternalServerError : Z := 500.

(** [http.Error(w, msg, code)] *)
Definition http_Error (msg : string) (code : Z) : Response := mkResponse code [] (BText msg) [].

(** [json.NewEncoder(w).Encode(v)] *)
Definition respJSON (code : Z) (v : list (string * jval)) : Response :=
  mkResponse code [] (BJson (JObj v)) [].

Definition withCookies (cs : list (string * string)) (r : Response) : Response :=
  mkResponse (rsCode r) (cs ++ rsCookies r) (rsBody r) (rsHeaders r).

Definition withHeaders (hs : list (string * string)) (r : Response) : Response :=
  mkResponse (rsCode r) (rsCookies r) (rsBody r) (hs ++ rsHeaders r).

(** The same for a slice. *)
Definition respArr (v : list jval) : Response := mkResponse StatusOK [] (BJson (JArr v)) [].

(** [http.NotFound] *)
Definition http_NotFound : Response := http_Error "404 page not found" StatusNotFound.

(** [http.Redirect] *)
Definition http_Redirect (url : string) (code : Z) : Response :=
  mkResponse code [] BNone [("Location", url)].

(** A file of the disk beside the binary, as [http.ServeContent] answers. *)
Definition serveDisk (e : Env) (path : string) : Response :=
  match diskFile e path with
  | Some c => mkResponse StatusOK [] (BFile c) []
  | None => http_NotFound
  end.

(** [containsDotDot] of [net/http]. *)
Definition containsDotDot (p : string) : bool :=
  existsb (fun s => s ==? "..") (Split (ReplaceAll p (of_bytes [92]) "/") "/"%char).

(** [http.ServeFile(w, r, path)] *)
Definition ServeFile (e : Env) (r : Request) (path : string) : Response :=
  if containsDotDot (rqPath r) then http_Error "invalid URL path" StatusBadRequest
  else if HasSuffix (rqPath r) "/index.html" then http_Redirect "./" StatusMovedPermanently
  else serveDisk e path.

(** ** [clientIP] ([netutil.go]) *)

(** The host of [net.SplitHostPort]; [None] is an error. *)
Definition SplitHost (hp : string) : option string :=
  let i := LastIndexByte hp ":"%char in
  if i <? 0 then None
  else if HasPrefix hp "[" then
    let e := IndexByte hp "]"%char in
    if (e <? 0) || negb (e + 1 =? i) then None
    else if (0 <=? IndexByte (drop_bytes 1 hp) "["%char)
            || (0 <=? IndexByte (drop_bytes (Z.to_nat (e + 1)) hp) "]"%char) then None
    else Some (take_bytes (Z.to_nat (e - 1)) (drop_bytes 1 hp))
  else
    let host := take_bytes (Z.to_nat i) hp in
    if (0 <=? IndexByte host ":"%char) || (0 <=? IndexByte hp "["%char) || (0 <=? IndexByte hp "]"%char) then None
    else Some host.

Definition remoteIP (r : Request) : string :=
  match SplitHost (rqRemoteAddr r) with Some host => host | None => rqRemoteAddr r end.

(** [trustedProxyHeader] is read from the environment once, at start-up. *)
Definition trustedProxyHeader (e : Env) : string := TrimSpace (getenv e "PHAZE_TRUST_PROXY_HEADER").

Definition clientIP (e : Env) (r : Request) : string :=
  if is_empty (trustedProxyHeader e) then remoteIP r
  else
    let v := TrimSpace (rqHeader r (trustedProxyHeader e)) in
    if is_empty v then remoteIP r
    else
      let i := IndexByte v ","%char in
      let v := if 0 <=? i then TrimSpace (take_bytes (Z.to_nat i) v) else v in
      if is_empty v then remoteIP r else v.

(** ** Facts *)

(** With no proxy header configured nothing a client sends can change the
    address the limiters see. *)
Lemma clientIP_untrusted e r r' :
  trustedProxyHeader e = "" -> rqRemoteAddr r = rqRemoteAddr r' -> clientIP e r = clientIP e r'.
Proof. intros H1 H2. unfold clientIP, remoteIP. by rewrite H1, H2. Qed.

Example SplitHost_v4 : SplitHost "10.0.0.1:443" = Some "10.0.0.1".
Proof. reflexivity. Qed.
Example SplitHost_v6 : SplitHost "[::1]:443" = Some "::1".
Proof. reflexivity. Qed.
Example SplitHost_bare : SplitHost "::1" = None.
Proof. reflexivity. Qed.
