(* ===== verification/Middleware.v ===== *)
(** * HTTP middleware ([middleware.go], [netutil.go])

    The wrappers every route is registered with: the per-address limiter with
    its security headers, the stricter one of the admin sign-in, and the
    address gate in front of the admin endpoints. *)

From Stdlib Require Import ZArith Lia Ascii.
From stdpp Require Import base strings list gmap.
From S2P Require Import Prelude GoRt GoStd Ip Netutil Store Wire Db World Wf Http.

Open Scope string_scope.
Open Scope list_scope.
Open Scope Z_scope.

(** ** Origins ([originAllowed]) *)

(** [allowedOrigins]: [None] is nil, every origin is allowed. *)
Definition allowedOrigins (e : Env) : option (list string) :=
  let raw := getenv e "Phaze_ALLOWED_ORIGINS" in
  if is_empty raw then None else Some (TrimSpace <$> Split raw ","%char).

Definition originAllowed (e : Env) (r : Request) : bool :=
  match allowedOrigins e with
  | None => true
  | Some os =>
      let origin := rqHeader r "Origin" in
      is_empty origin || existsb (fun o => o ==? origin) os
  end.

(** ** Headers and limiters *)

Definition securityHeaders : list (string * string) := [
  ("X-Content-Type-Options", "nosniff");
  ("X-Frame-Options", "DENY");
  ("Referrer-Policy", "strict-origin-when-cross-origin");
  ("Strict-Transport-Security", "max-age=31536000; includeSubDomains; preload");
  ("X-XSS-Protection", "0");
  ("Cross-Origin-Opener-Policy", "same-origin")].

Definition writeSecurityHeaders (r : Response) : Response := withHeaders securityHeaders r.

Definition cspNone : string * string := ("Content-Security-Policy", "default-src 'none'").

(** [globalLimiter.allow(key)] and its siblings. *)
Definition allowGlobal (key : string) : M bool := fun w =>
  let a := allow (rateAllow (wEnv w)) (wNow w) key (globalLimiter (wSrv w)) in
  (a.1, set_wSrv (set_globalLimiter a.2 (wSrv w)) w).

Definition allowAdmin (key : string) : M bool := fun w =>
  let a := allow (rateAllow (wEnv w)) (wNow w) key (adminLimiter (wSrv w)) in
  (a.1, set_wSrv (set_adminLimiter a.2 (wSrv w)) w).

Definition allowUpload (key : string) : M bool := fun w =>
  let a := allow (rateAllow (wEnv w)) (wNow w) key (uploadLimiter (wSrv w)) in
  (a.1, set_wSrv (set_uploadLimiter a.2 (wSrv w)) w).

Definition rateLimit (r : Request) (next : M Response) : M Response :=
  let* e := getEnv in
  let* ok := allowGlobal (clientIP e r) in
  let* rs := if ok then next
             else ret (http_Error "rate limit exceeded" StatusTooManyRequests) in
  ret (writeSecurityHeaders (withHeaders [cspNone] rs)).

Definition emDash : string := of_bytes [226; 128; 148].

Definition adminLoginLimit (r : Request) (next : M Response) : M Response :=
  let* e := getEnv in
  let* ok := allowAdmin (clientIP e r) in
  let* rs := if ok then next
             else ret (http_Error ("too many login attempts " +:+ emDash +:+ " try again in a minute")
                         StatusTooManyRequests) in
  ret (writeSecurityHeaders rs).

(** ** The admin gate *)

(** Whether an entry of [PHAZE_ADMIN_IPS] lets [ip] through. *)
Definition adminEntryAllows (ip a : string) : bool :=
  (a ==? ip) || (a ==? "0.0.0.0") || (Contains a "/" && match ParseCIDR a with
                         | Some cidr => netContains cidr (default [] (ParseIP ip))
                         | None => false
                         end).

Definition adminIPAllowed (e : Env) (r : Request) : bool :=
  let raw := TrimSpace (getenv e "PHAZE_ADMIN_IPS") in
  is_empty raw || existsb (adminEntryAllows (clientIP e r)) (TrimSpace <$> Split raw ","%char).

Definition adminIPGate (r : Request) (next : M Response) : M Response :=
  let* e := getEnv in
  if adminIPAllowed e r then next else ret (http_Error "not found" StatusNotFound).

(** ** Frames *)

Section MwFrames.
Context (R : World -> World -> Prop) `{HR : !PreOrder R}.

Lemma respects_allowGlobal `{!FreesSrv R} k : respects R (allowGlobal k).
Proof using Type. intros w. apply frees_srv. Qed.
Lemma respects_allowAdmin `{!FreesSrv R} k : respects R (allowAdmin k).
Proof using Type. intros w. apply frees_srv. Qed.
Lemma respects_allowUpload `{!FreesSrv R} k : respects R (allowUpload k).
Proof using Type. intros w. apply frees_srv. Qed.

Lemma respects_rateLimit `{!FreesSrv R} r m : respects R m -> respects R (rateLimit r m).
Proof using HR. intros H. unfold rateLimit. frame; by apply respects_allowGlobal. Qed.
Lemma respects_adminLoginLimit `{!FreesSrv R} r m : respects R m -> respects R (adminLoginLimit r m).
Proof using HR. intros H. unfold adminLoginLimit. frame; by apply respects_allowAdmin. Qed.
Lemma respects_adminIPGate r m : respects R m -> respects R (adminIPGate r m).
Proof using HR. intros H. unfold adminIPGate. frame. Qed.
End MwFrames.
#[export] Hint Resolve respects_allowGlobal respects_allowAdmin respects_allowUpload : frame.

Lemma safe_allowGlobal k : respects safe (allowGlobal k).
Proof. intros w. split; [reflexivity | by intros ?]. Qed.
Lemma safe_allowAdmin k : respects safe (allowAdmin k).
Proof. intros w. split; [reflexivity | by intros ?]. Qed.
Lemma safe_allowUpload k : respects safe (allowUpload k).
Proof. intros w. split; [reflexivity | by intros ?]. Qed.
#[export] Hint Resolve safe_allowGlobal safe_allowAdmin safe_allowUpload : frame.

Lemma safe_rateLimit r m : respects safe m -> respects safe (rateLimit r m).
Proof. intros H. unfold rateLimit. frame. Qed.
Lemma safe_adminLoginLimit r m : respects safe m -> respects safe (adminLoginLimit r m).
Proof. intros H. unfold adminLoginLimit. frame. Qed.
Lemma safe_adminIPGate r m : respects safe m -> respects safe (adminIPGate r m).
Proof. intros H. unfold adminIPGate. frame. Qed.

(** ** What they promise *)

(** A request the limiter turns away never reaches its handler, and every
    answer carries the headers. *)
Lemma rateLimit_run r m w :
  let ok := (allowGlobal (clientIP (wEnv w) r) w).1 in
  let w1 := (allowGlobal (clientIP (wEnv w) r) w).2 in
  (rateLimit r m w).2 = (if ok then (m w1).2 else w1)
  /\ (ok = false -> rsCode (rateLimit r m w).1 = StatusTooManyRequests)
  /\ forall h, h ∈ cspNone :: securityHeaders -> h ∈ rsHeaders (rateLimit r m w).1.
Proof.
  cbv zeta. unfold rateLimit. rewrite !bind_run, getEnv_run. cbn [fst snd].
  destruct (allowGlobal _ w) as [ok w1]. cbn [fst snd]. split_and!.
  - by destruct ok.
  - by intros ->.
  - intros h Hh. rewrite ret_run. unfold writeSecurityHeaders. cbn [rsHeaders withHeaders].
    apply elem_of_cons in Hh as [->|Hh]; apply elem_of_app; [right; left | by left].
Qed.

(** From an address outside the list an admin route is a 404, and nothing
    behind it runs. *)
Lemma adminIPGate_closed r m w :
  adminIPAllowed (wEnv w) r = false ->
  adminIPGate r m w = (http_Error "not found" StatusNotFound, w).
Proof. intros H. unfold adminIPGate. rewrite bind_run, getEnv_run. cbn [fst snd]. by rewrite H. Qed.
