(* ===== verification/Email.v ===== *)
(** * Outgoing mail ([email.go]) and the address screen ([emailcheck.go])

    Which transport a message is handed to and with what request, when a
    delivery counts as one, and which addresses may register.  What the HTTP
    APIs and the SMTP server answer is [mailPost] and [smtpSend]. *)

From Stdlib Require Import ZArith Lia Ascii.
From stdpp Require Import base strings list gmap.
From S2P Require Import Prelude GoRt GoStd Json EmailTemplates Wire Db World.

Open Scope string_scope.
Open Scope list_scope.
Open Scope Z_scope.

(** ** Transports *)

Definition mailRelayURL (e : Env) : string := TrimSpace (getenv e "PHAZE_MAIL_RELAY").

Definition set_ (e : Env) (k : string) : bool := negb (is_empty (getenv e k)).

Definition smtpConfigured (e : Env) : bool :=
  set_ e "SMTP_HOST" && set_ e "SMTP_USER" && set_ e "SMTP_PASS".

Definition mailConfigured (e : Env) : bool :=
  if negb (is_empty (mailRelayURL e)) || set_ e "RESEND_API_KEY" || set_ e "BREVO_API_KEY"
  then true else smtpConfigured e.

(** The HTML of a mail. *)
Definition render (b : mailBody) : string :=
  match b with
  | MText s => s
  | MVerification u link code => emailVerification u link code
  | MResendCode code => emailResendCode code
  | MPasswordReset u link => emailPasswordReset u link
  | MInvite inviter link => emailInvite inviter link
  | MThankYou name => emailSupporterThankYou name
  end.

(** ** HTTP transports

    Each returns the error, [None] for nil. *)

(** The end of the three: an answer of the 2xx range is a delivery. *)
Definition apiResult (label : string) (a : httpAnswer string) : M (option string) :=
  let* e := getEnv in
  ret (match a with
       | HTTPFailed => Some (libErr e "net/http")
       | HTTPStatus code body =>
           if (200 <=? code) && (code <? 300) then None
           else Some (label +:+ " " +:+ Itoa code +:+ ": " +:+ TrimSpace (clip 2048 (default "" body)))
       end).

Definition sendEmailRelay (relay to subject : string) (body : mailBody) : M (option string) :=
  let* e := getEnv in
  let buf := JObj [("html", JStr (render body)); ("subject", JStr subject); ("to", JStr to)] in
  emit (EvEmail "relay" to subject body) ;;;
  apiResult "mail relay" (mailPost e relay [("Content-Type", "application/json")] buf).

Definition sendEmailResend (apiKey to subject : string) (body : mailBody) : M (option string) :=
  let* e := getEnv in
  let from := getenv e "RESEND_SENDER" in
  let from := if is_empty from then "Phaze <onboarding@resend.dev>" else from in
  let payload := JObj [("from", JStr from); ("html", JStr (render body)); ("subject", JStr subject);
                       ("to", JArr [JStr to])] in
  emit (EvEmail "resend" to subject body) ;;;
  apiResult "resend api"
    (mailPost e "https://api.resend.com/emails"
       [("Authorization", "Bearer " +:+ apiKey); ("Content-Type", "application/json")] payload).

Definition sendEmailBrevo (apiKey to subject : string) (body : mailBody) : M (option string) :=
  let* e := getEnv in
  let fromEmail := getenv e "BREVO_SENDER_EMAIL" in
  let fromEmail := if is_empty fromEmail then getenv e "SMTP_FROM" else fromEmail in
  let fromEmail := if is_empty fromEmail then "noreply@phazechat.world" else fromEmail in
  let fromName := getenv e "BREVO_SENDER_NAME" in
  let fromName := if is_empty fromName then "Phaze" else fromName in
  let payload := JObj [("htmlContent", JStr (render body));
                       ("sender", JObj [("email", JStr fromEmail); ("name", JStr fromName)]);
                       ("subject", JStr subject); ("to", JArr [JObj [("email", JStr to)]])] in
  emit (EvEmail "brevo" to subject body) ;;;
  apiResult "brevo api"
    (mailPost e "https://api.brevo.com/v3/smtp/email"
       [("api-key", apiKey); ("content-type", "application/json"); ("accept", "application/json")]
       payload).

(** ** SMTP *)

(** [sanitizeHeader] of [sendEmailSMTP]: CR and LF are dropped. *)
Definition sanitizeHeader (s : string) : string :=
  of_bytes (boolfilter (fun b => negb ((b =? 13) || (b =? 10))) (bytes s)).

Definition crlf : string := of_bytes [13; 10].

(** The message as it goes over the wire. *)
Definition smtpMessage (from to subject body : string) : string :=
  "From: Phaze <" +:+ sanitizeHeader from +:+ ">" +:+ crlf +:+
  "To: " +:+ sanitizeHeader to +:+ crlf +:+
  "Subject: " +:+ sanitizeHeader subject +:+ crlf +:+
  "MIME-version: 1.0" +:+ crlf +:+ raw "Content-Type: text/html; charset=`UTF-8`" +:+ crlf +:+
  crlf +:+
  body +:+ crlf.

(** With no SMTP account the message only reaches the log, and the call
    still succeeds. *)
Definition sendEmailSMTP (to subject : string) (body : mailBody) : M (option string) :=
  let* e := getEnv in
  let host := getenv e "SMTP_HOST" in
  let port := getenv e "SMTP_PORT" in
  let user := getenv e "SMTP_USER" in
  let pass := getenv e "SMTP_PASS" in
  if is_empty host || is_empty user || is_empty pass then ret None
  else
    let from := getenv e "SMTP_FROM" in
    let from := if is_empty from then user else from in
    let msg := smtpMessage from to subject (render body) in
    let addr := if is_empty port then host +:+ ":587" else host +:+ ":" +:+ port in
    emit (EvEmail "smtp" to subject body) ;;;
    ret (smtpSend e (mkSubmission addr user pass host user [to] msg)).

Definition sendEmail (to subject : string) (body : mailBody) : M (option string) :=
  let* e := getEnv in
  let relay := mailRelayURL e in
  if negb (is_empty relay) then sendEmailRelay relay to subject body
  else if set_ e "RESEND_API_KEY" then sendEmailResend (getenv e "RESEND_API_KEY") to subject body
  else if set_ e "BREVO_API_KEY" then sendEmailBrevo (getenv e "BREVO_API_KEY") to subject body
  else sendEmailSMTP to subject body.

(** [go s.sendEmailLogged(...)] *)
Definition sendEmailLogged (to subject : string) (body : mailBody) : M unit :=
  sendEmail to subject body ;;; ret tt.

(** ** The registration screen *)

Definition disposableDomains : list string := [
    "afterdo.com"; "synsky.com"; "mailinator.com"; "mailinator2.com"; "suremail.info";
    "tradermail.info"; "mailinater.com"; "mailinator.net"; "guerrillamail.com";
    "guerrillamail.net"; "guerrillamail.org"; "guerrillamail.de"; "guerrillamail.biz";
    "guerrillamail.info"; "guerrillamailblock.com"; "grr.la"; "spam4.me"; "sharklasers.com";
    "guerrillamailblock.com"; "10minutemail.com"; "10minutemail.net"; "10minutemail.org";
    "10minutemail.de"; "10minutesmail.com"; "10minutemail.co.uk"; "tempmail.com"; "tempmail.net";
    "temp-mail.org"; "temp-mail.io"; "tempinbox.com"; "throwam.com"; "throwam.net";
    "trashmail.com"; "trashmail.me"; "trashmail.at"; "trashmail.io"; "trashmail.net";
    "trashmail.org"; "trashmailer.com"; "dispostable.com"; "mailnesia.com"; "maildrop.cc";
    "fakeinbox.com"; "fake-box.com"; "yopmail.com"; "yopmail.fr"; "cool.fr.nf"; "jetable.fr.nf";
    "nospam.ze.tc"; "nomail.xl.cx"; "mega.zik.dj"; "speed.1s.fr"; "courriel.fr.nf";
    "moncourrier.fr.nf"; "monemail.fr.nf"; "monmail.fr.nf"; "spamgourmet.com"; "spamgourmet.net";
    "spamgourmet.org"; "spamfree24.org"; "spamgob.com"; "spamcon.org"; "spam.la"; "discard.email";
    "mailnull.com"; "devnullmail.com"; "nowaste.info"; "nwldx.com"; "getairmail.com";
    "mailexpire.com"; "filzmail.com"; "gowaymail.com"; "kasmail.com"; "klzlk.com"; "uroid.com";
    "mailnew.com"; "protonmail.ch.tc"; "jetable.com"; "jetable.net"; "jetable.org"; "jetable.fr";
    "spamex.com"; "spamhole.com"; "spamoff.de"; "spamspot.com"; "spamstack.net"; "spamthis.co.uk";
    "spamthisplease.com"; "spamtroll.net"; "spamwc.de"; "spamy.info"; "throwaway.email";
    "throwam.com"; "noclickemail.com"; "binkmail.com"; "bobmail.info"; "dayrep.com";
    "dingbone.com"; "dontreg.com"; "dontsendmespam.de"; "dump-email.info"; "dumpandforfeit.com";
    "dumpmail.de"; "dumpyemail.com"; "e4ward.com"; "email60.com"; "emailias.com";
    "emailinfive.com"; "emailmiser.com"; "emailsensei.com"; "emailtemporanea.com";
    "emailtemporanea.net"; "emailtemporar.ro"; "emailthe.net"; "emailtmp.com"; "emailwarden.com";
    "emailxfer.com"; "emz.net"; "fakedemail.com"; "fastacura.com"; "fastchevy.com";
    "fastchrysler.com"; "fastkawasaki.com"; "fastmazda.com"; "fastnissan.com"; "fastsubaru.com";
    "fastsuzuki.com"; "fasttoyota.com"; "fastyamaha.com"; "filzmail.com"; "fizmail.com";
    "fortunize.com"; "frapmail.com"; "garliclife.com"; "get2mail.fr"; "getonemail.com";
    "gishpuppy.com"; "gowikibooks.com"; "gowikicampus.com"; "gowikicars.com"; "gowikifilms.com";
    "gowikigames.com"; "gowikimusic.com"; "gowikinetwork.com"; "gowikitravel.com"; "gowikitv.com";
    "great-host.in"; "greensloth.com"; "gsrv.co.uk"; "guerillamail.com"; "haltospam.com";
    "herp.in"; "hide.biz.st"; "hidemail.de"; "hidzz.com"; "hochsitze.com"; "hopemail.biz";
    "ieatspam.eu"; "ieatspam.info"; "ieh-mail.de"; "ihateyoualot.info"; "iheartspam.org";
    "imails.info"; "inboxclean.com"; "inboxclean.org"; "inoutmail.de"; "inoutmail.eu";
    "inoutmail.info"; "inoutmail.net"; "iodizc.com"; "ipoo.org"; "irish2me.com"; "iwi.net";
    "jetable.pp.ua"; "jnxjn.com"; "joliecode.com"; "joomlacity.us"; "junk.to"; "junkmail.com";
    "junkmail.ga"; "junkmail.gq"; "kademen.com"; "kamsg.com"; "keepmymail.com"; "killmail.com";
    "killmail.net"; "kir.ch.tc"; "klassmaster.com"; "klassmaster.net"; "klassmaster.org";
    "kurzepost.de"; "letthemeatspam.com"; "lhsdv.com"; "lifebyfood.com"; "link2mail.net";
    "litedrop.com"; "lol.ovpn.to"; "lookugly.com"; "lopl.co.cc"; "lortemail.dk"; "lr78.com";
    "lroid.com"; "lukop.dk"; "m21.cc"; "mail-filter.com"; "mail-temporaire.fr"; "mail.by";
    "mail.mezimages.net"; "mail4trash.com"; "mailbidon.com"; "mailbiz.biz"; "mailblocks.com";
    "mailcatch.com"; "maildrop.cf"; "maileater.com"; "mailexpire.com"; "mailforspam.com";
    "mailfreeonline.com"; "mailguard.me"; "mailin8r.com"; "mailinater.com"; "mailme.lv";
    "mailme24.com"; "mailmetrash.com"; "mailmoat.com"; "mailnew.com"; "mailnull.com";
    "mailquack.com"; "mailseal.de"; "mailshell.com"; "mailsiphon.com"; "mailslite.com";
    "mailtemp.info"; "mailtemporario.com.br"; "mailtome.de"; "mailtothis.com"; "mailzilla.org";
    "makemetheking.com"; "manybrain.com"; "mbx.cc"; "mega.zik.dj"; "meltmail.com";
    "messagebeamer.de"; "mierdamail.com"; "mintemail.com"; "misterpinball.de";
    "moncourrier.fr.nf"; "monemail.fr.nf"; "monmail.fr.nf"; "moot.es"; "mozej.com";
    "msa.minsmail.com"; "mt2009.com"; "mt2014.com"; "mx0.wwwnew.eu"; "my10minutemail.com";
    "mypartyclip.de"; "myphantomemail.com"; "myspamless.com"; "mytempemail.com";
    "mytrashmail.com"; "nabuma.com"; "neomailbox.com"; "netmails.com"; "netmails.net";
    "neverbox.com"; "noclickemail.com"; "nogmailspam.info"; "nomail.pw"; "nomail.xl.cx";
    "nospamfor.us"; "nospamthanks.info"; "notmailinator.com"; "nowmymail.com"; "nwldx.com";
    "objectmail.com"; "obobbo.com"; "odnorazovoe.ru"; "oneoffemail.com"; "onewaymail.com";
    "oopi.org"; "ovpn.to"; "owlpic.com"; "pancakemail.com"; "pimpedupmyspace.com"; "pjjkp.com";
    "plexolan.de"; "pookmail.com"; "privacy.net"; "proxymail.eu"; "prtnx.com"; "prtz.eu";
    "punkass.com"; "putthisinyourspamdatabase.com"; "qisdo.com"; "qisoa.com"; "qoika.com";
    "quickinbox.com"; "rcpt.at"; "re-gister.com"; "recode.me"; "recursor.net"; "recyclemail.dk";
    "regbypass.com"; "regbypass.comsafe-mail.net"; "rejectmail.com"; "rklips.com"; "rmqkr.net";
    "rn.com"; "royal.net"; "rppkn.com"; "rtrtr.com"; "s0ny.net"; "safe-mail.net";
    "safetymail.info"; "safetypost.de"; "sandelf.de"; "saynotospams.com"; "s-mail.ga";
    "schafmail.de"; "schrott-email.de"; "secretemail.de"; "secure-mail.biz";
    "selfdestructingmail.com"; "sendspamhere.com"; "sharklasers.com"; "shiftmail.com";
    "shitmail.me"; "shitware.nl"; "shortmail.net"; "sibmail.com"; "skeefmail.com";
    "slapsfromlastnight.com"; "slaskpost.se"; "slave-auctions.net"; "slippery.email";
    "smellfear.com"; "snkmail.com"; "sofimail.com"; "sofort-mail.de"; "sogetthis.com";
    "solvemail.info"; "spamail.de"; "spam.la"; "spam.su"; "spamavert.com"; "spambog.com";
    "spambog.de"; "spambog.ru"; "spambooger.com"; "spamcannon.com"; "spamcannon.net";
    "spamcero.com"; "spamcon.org"; "spamcorptastic.com"; "spamcowboy.com"; "spamcowboy.net";
    "spamcowboy.org"; "spamday.com"; "spamdecoy.net"; "spameater.com"; "spameater.org";
    "spamex.com"; "spamfree.eu"; "spamfree24.de"; "spamfree24.eu"; "spamfree24.info";
    "spamfree24.net"; "spamfree24.org"; "spamgoes.in"; "spamgourmet.com"; "spamgourmet.net";
    "spamgourmet.org"; "spamherelots.com"; "spamhereplease.com"; "spamhole.com"; "spamify.com";
    "spaminator.de"; "spamkill.info"; "spaml.com"; "spaml.de"; "spammotel.com"; "spammy.host";
    "spamnot.net"; "spamoff.de"; "spamslicer.com"; "spamspot.com"; "spamstack.net";
    "spamthis.co.uk"; "spamthisplease.com"; "spamtroll.net"; "spamwc.de"; "spamy.info";
    "speed.1s.fr"; "spoofmail.de"; "squizzy.de"; "squizzy.eu"; "squizzy.net"; "startkeys.com";
    "stexsy.com"; "stinkefinger.net"; "stop-my-spam.com"; "stuffmail.de"; "super-auswahl.de";
    "supergreatmail.com"; "supermailer.jp"; "superrito.com"; "superstachel.de"; "suremail.info";
    "sweetxxx.de"; "tafmail.com"; "tagyourself.com"; "tank.efxs.ca"; "tapchicoupon.com";
    "taptoy.com"; "teewars.org"; "telecomix.pl"; "teleworm.com"; "teleworm.us";
    "temp.emeraldwebmail.com"; "temp.headstrong.de"; "temp15.com"; "tempail.com"; "tempalias.com";
    "tempe-mail.com"; "tempemail.biz"; "tempemail.com"; "tempemail.net"; "tempimbox.com";
    "tempmail.de"; "tempmail.eu"; "tempmail.it"; "tempmail.org"; "tempmail.pp.ua"; "tempmail.us";
    "tempomail.fr"; "temporaryemail.net"; "temporaryemail.us"; "temporaryforwarding.com";
    "temporaryinbox.com"; "temporarymailaddress.com"; "tempthe.net"; "thankyou2010.com";
    "thisisnotmyrealemail.com"; "throwam.com"; "throwaway.email"; "tilien.com"; "tmail.com";
    "tmail.ws"; "tmailinator.com"; "toiea.com"; "toomail.biz"; "topranklist.de";
    "tradermail.info"; "trash-amil.com"; "trash-mail.at"; "trash-mail.com"; "trash-mail.de";
    "trash-mail.ga"; "trash-mail.gq"; "trash-mail.io"; "trash-mail.ml"; "trash-mail.tk";
    "trash2009.com"; "trash2010.com"; "trashdevil.com"; "trashdevil.de"; "trashemail.de";
    "trashimail.de"; "trashmail.at"; "trashmail.com"; "trashmail.de"; "trashmail.io";
    "trashmail.me"; "trashmail.net"; "trashmail.org"; "trashmail.xyz"; "trashmailer.com";
    "trashpanda.de"; "trashymail.com"; "trbvm.com"; "trialmail.de"; "trickmail.net";
    "trillianpro.com"; "tryalert.com"; "turual.com"; "twinmail.de"; "tyldd.com"; "uggsrock.com";
    "umail.net"; "uroid.com"; "utemail.net"; "veryrealemail.com"; "viditag.com";
    "viewcastmedia.com"; "viewcastmedia.net"; "viewcastmedia.org"; "vipmail.pw"; "vomoto.com";
    "vpn.st"; "vsimcard.com"; "vubby.com"; "wasteland.raptors.dk"; "watch-harry-potter.com";
    "webemail.me"; "weg-werf-email.de"; "wegwerf-email.at"; "wegwerf-email.de";
    "wegwerf-email.net"; "wegwerf-email.org"; "wegwerfadresse.de"; "wegwerfemail.com";
    "wegwerfemail.de"; "wegwerfmail.de"; "wegwerfmail.info"; "wegwerfmail.net"; "wegwerfmail.org";
    "wetrainbostonterriers.com"; "whyspam.me"; "willhackforfood.biz"; "willselfdestruct.com";
    "wilemail.com"; "wimsg.com"; "wonobo.com"; "xagloo.com"; "xemaps.com"; "xents.com";
    "xmaily.com"; "xoxy.net"; "xyzfree.net"; "yapped.net"; "yep.it"; "yodx.ro"; "yopmail.com";
    "yopmail.fr"; "yourdomain.com"; "yuurok.com"; "zehnminutenmail.de"; "zetmail.com";
    "zippymail.info"; "zoemail.net"; "zoemail.org"; "zomg.info"; "zxcv.com"; "zxcvbnm.com";
    "zzz.com"].

Definition disposable (domain : string) : bool := existsb (fun d => d ==? domain) disposableDomains.

(** The reason and whether the address is refused. *)
Definition isDisposableEmail (e : Env) (email : string) : string * bool :=
  let at_ := LastIndexByte email "@"%char in
  if at_ <? 0 then ("invalid email", true)
  else
    let domain := ToLower (TrimSpace (drop_bytes (Z.to_nat (at_ + 1)) email)) in
    if is_empty domain then ("invalid email domain", true)
    else if disposable domain then
      ("disposable or temporary email addresses are not allowed", true)
    else
      let extra := TrimSpace (getenv e "PHAZE_BLOCKED_EMAIL_DOMAINS") in
      if negb (is_empty extra)
         && existsb (fun d => ToLower (TrimSpace d) ==? domain) (Split extra ","%char) then
        ("disposable or temporary email addresses are not allowed", true)
      else
        match lookupMX e domain with
        | MXNotFound => ("email domain has no mail servers", true)
        | MXFailed => ("", false)
        | MXRecords n => if n =? 0 then ("email domain has no mail servers", true) else ("", false)
        end.

(** ** Facts *)

Section MailFrames.
Context (R : World -> World -> Prop) `{HR : !PreOrder R, HO : !FreesOut R}.

Lemma respects_sendEmail to sub b : respects R (sendEmail to sub b).
Proof using HR HO.
  unfold sendEmail, sendEmailRelay, sendEmailResend, sendEmailBrevo, sendEmailSMTP, apiResult. frame.
Qed.

Lemma respects_sendEmailLogged to sub b : respects R (sendEmailLogged to sub b).
Proof using HR HO. unfold sendEmailLogged. frame. by apply respects_sendEmail. Qed.
End MailFrames.

#[export] Hint Resolve respects_sendEmail respects_sendEmailLogged : frame.
