(* ===== verification/IpCheck.v ===== *)
(** * The VPN and proxy screen ([ipcheck.go])

    Which addresses may not register: the two lookup services are [ipLookup],
    the JSON answer at a URL; what the code makes of an answer, the private
    ranges and the cache are here. *)

From Stdlib Require Import ZArith Lia Ascii.
From stdpp Require Import base strings list gmap.
From S2P Require Import Prelude GoRt GoStd Json Ip Wire Db World.

Open Scope string_scope.
Open Scope list_scope.
Open Scope Z_scope.

(** ** Private addresses *)

Definition privateRanges : list IPNet :=
  omap ParseCIDR
    ["127.0.0.0/8"; "10.0.0.0/8"; "172.16.0.0/12"; "192.168.0.0/16"; "::1/128"; "fc00::/7";
     "169.254.0.0/16"; "100.64.0.0/10"].

(** What is no address at all counts as private. *)
Definition isPrivateIP (ip : string) : bool :=
  match ParseIP ip with
  | None => true
  | Some parsed => existsb (fun cidr => netContains cidr parsed) privateRanges
  end.

(** ** proxycheck.io *)

Definition proxycheckURL (e : Env) (ip : string) : string :=
  let key := TrimSpace (getenv e "PROXYCHECK_KEY") in
  "https://proxycheck.io/v2/" +:+ ip +:+ "?vpn=1&asn=1"
  +:+ (if is_empty key then "" else "&key=" +:+ key).

(** The entry of the address: whether it says [proxy: yes]. *)
Definition proxyEntry (j : jval) : bool :=
  match intoStruct j with
  | None => false
  | Some l =>
      match intoField intoString "proxy" "" l, intoField intoString "type" "" l with
      | Some proxy, Some _ => proxy ==? "yes"
      | _, _ => false
      end
  end.

Definition checkProxycheck (e : Env) (ip : string) : bool :=
  match ipLookup e (proxycheckURL e ip) with
  | None => false
  | Some j =>
      match intoMap j with
      | None => false
      | Some raw =>
          match raw !! "status" with
          | None => false
          | Some statusRaw =>
              match intoString "" statusRaw with
              | None => false
              | Some status =>
                  if negb (status ==? "ok") && negb (status ==? "warning") then false
                  else match raw !! ip with None => false | Some ipRaw => proxyEntry ipRaw end
              end
          end
      end
  end.

(** ** ip-api.com *)

Record ipAPIResponse := mkIpAPI {
  ipaStatus : string;
  ipaProxy : bool;
  ipaHosting : bool;
  ipaISP : string;
  ipaOrg : string;
  ipaAS : string }.

Definition decodeIpAPI (j : jval) : option ipAPIResponse :=
  match intoStruct j with
  | None => None
  | Some l =>
      match intoField intoString "status" "" l, intoField intoBool "proxy" false l,
            intoField intoBool "hosting" false l, intoField intoString "isp" "" l,
            intoField intoString "org" "" l, intoField intoString "as" "" l with
      | Some s, Some p, Some h, Some i, Some o, Some a => Some (mkIpAPI s p h i o a)
      | _, _, _, _, _, _ => None
      end
  end.

Definition ipapiURL (e : Env) (ip : string) : string :=
  let key := TrimSpace (getenv e "IPAPI_KEY") in
  if negb (is_empty key) then
    "https://pro.ip-api.com/json/" +:+ ip +:+ "?fields=status,proxy,hosting,isp,org,as&key=" +:+ key
  else "http://ip-api.com/json/" +:+ ip +:+ "?fields=status,isp,org,as".

Definition datacenterKeywords : list string := [
  "amazon"; "aws"; "digitalocean"; "linode"; "akamai"; "vultr"; "hetzner";
  "ovh"; "scaleway"; "contabo"; "leaseweb"; "choopa"; "psychz";
  "cogent"; "zayo"; "hurricane electric";
  "microsoft azure"; "google cloud"; "google llc";
  "alibaba"; "tencent cloud"; "ibm cloud";
  "nordvpn"; "expressvpn"; "privateinternet"; "pia "; "mullvad";
  "protonvpn"; "cyberghost"; "surfshark"; "ipvanish"; "purevpn";
  "hidemyass"; "tunnelbear"; "windscribe"; "vpn unlimited";
  "perfect privacy"; "ivacy"; "torguard"; "anonine";
  "lightspeed networks";
  "vpn"; "proxy"; "tor exit"; "anonymizer"; "datacenter";
  "data center"; "hosting"; "colocation"; "colo "].

Definition checkIPAPI (e : Env) (ip : string) : bool :=
  match ipLookup e (ipapiURL e ip) with
  | None => false
  | Some j =>
      match decodeIpAPI j with
      | None => false
      | Some r =>
          if negb (ipaStatus r ==? "success") then false
          else if ipaProxy r || ipaHosting r then true
          else
            let combined := ToLower (ipaISP r +:+ " " +:+ ipaOrg r +:+ " " +:+ ipaAS r) in
            existsb (fun kw => Contains combined kw) datacenterKeywords
      end
  end.

(** ** The screen *)

Definition isVPNOrDatacenter (ip : string) : M bool :=
  let* e := getEnv in
  if negb (getenv e "PHAZE_BLOCK_VPN" ==? "1") then ret false
  else if isPrivateIP ip then ret false
  else
    let* s := getSrv in
    match ipCheckCache s !! ip with
    | Some v => ret v
    | None =>
        let result := checkProxycheck e ip in
        let result := if negb result then checkIPAPI e ip else result in
        modSrv (fun s => set_ipCheckCache (<[ip := result]> (ipCheckCache s)) s) ;;;
        ret result
    end.
