(* ===== verification/Sessions.v ===== *)
(** * Sessions and new-device approval ([session.go], [devices.go])

    A session token authenticates an account until it expires, is revoked, or
    while it waits for a new device to be approved.  The file holds the token
    operations, the challenges that lift or burn a hold, and what they
    promise: [sessionUsername] is the gate every caller relies on. *)

From Stdlib Require Import ZArith Lia.
From stdpp Require Import base strings list gmap.
From S2P Require Import Prelude GoRt Store Wire Db World Wf Samples Registry Http Email.

Open Scope string_scope.
Open Scope list_scope.
Open Scope Z_scope.

(** ** [session.go] *)

Definition sessionCookieName : string := "phaze_session".

Definition tokenFromRequest (r : Request) : string :=
  if negb (is_empty (rqCookie r sessionCookieName)) then rqCookie r sessionCookieName
  else
    let h := rqHeader r "Authorization" in
    if HasPrefix h "Bearer " then TrimPrefix h "Bearer " else "".

(** The cookie a response sets; an empty value clears it. *)
Definition setSessionCookie (token : string) : string * string := (sessionCookieName, token).
Definition clearSessionCookie : string * string := (sessionCookieName, "").

(** [INSERT INTO session_tokens (token, username, device_info, expires_at)] *)
Definition insertSession (tok username device : string) (now expires : Z) (d : Database)
  : sqlerr + (Database * Z) :=
  match tinsert_unique (fun r => st_token r ==? tok)
          (fun _ => mkSessionToken tok username device (sqlNow now) expires 0 0)
          (session_tokens d) with
  | None => inl (EUnique "session_tokens.token")
  | Some t => inr (set_session_tokens t d, 1)
  end.

Definition isInr {A B} (x : A + B) : bool := match x with inr _ => true | inl _ => false end.

(** The error text, or the token. *)
Definition issueToken (username device : string) (ttl : Z) : M (string + string) :=
  let* e := getEnv in
  let* tok := randHex 32 in
  match tok with
  | None => ret (inl (libErr e "crypto/rand"))
  | Some tok =>
      let* now := getNow in
      let* r := Exec (insertSession tok username device now (now + ttl)) in
      ret (match r with inl err => inl (err_text err) | inr _ => inr tok end)
  end.

Definition issueSessionToken (username device : string) : M (string + string) :=
  issueToken username device (30 * 24 * Hour).

Definition issueAdminSessionToken (username : string) : M (string + string) :=
  issueToken username "admin-portal" (4 * Hour).

(** The account a token belongs to, and whether it awaits device approval. *)
Definition sessionState (token : string) : M (string * bool) :=
  if is_empty token then ret ("", false)
  else
    let* row := QueryRow (fun d => tfirst (fun r => st_token r ==? token) (session_tokens d)) in
    let* now := getNow in
    match row with
    | None => ret ("", false)
    | Some r =>
        if negb (st_revoked r =? 0) || (st_expires_at r <? now) then ret ("", false)
        else ret (st_username r, negb (st_pending_device r =? 0))
    end.

Definition sessionUsername (token : string) : M string :=
  let* r := sessionState token in
  let '(u, pending) := r in
  ret (if pending then "" else u).

Definition onToken (tok : string) (f : SessionToken -> SessionToken) (d : Database) : Database :=
  set_session_tokens (tupdate (fun r => st_token r ==? tok) f (session_tokens d)) d.

(** Whether the error is nil. *)
Definition markSessionPendingDevice (token : string) : M bool :=
  ExecOk (onToken token (set_st_pending_device 1)).

Definition revokeSession (token : string) : M unit :=
  Exec_ (onToken token (set_st_revoked 1)).

(** ** [devices.go] *)

Definition deviceCookieName : string := "phaze_device".
Definition deviceChallengeTTL : Z := 15 * Minute.
Definition maxDeviceChallengeAttempts : Z := 5.

Definition deviceVerificationEnabled (e : Env) : bool :=
  negb (TrimSpace (getenv e "PHAZE_DEVICE_VERIFICATION") ==? "0").

Definition deviceIDFromRequest (r : Request) : string := rqCookie r deviceCookieName.
Definition setDeviceCookie (id : string) : string * string := (deviceCookieName, id).

Definition deviceLabel (userAgent fallback : string) : string :=
  let ua := ToLower userAgent in
  let browser :=
    if Contains ua "edg/" then "Edge"
    else if Contains ua "opr/" || Contains ua "opera" then "Opera"
    else if Contains ua "firefox" then "Firefox"
    else if Contains ua "chrome" || Contains ua "chromium" then "Chrome"
    else if Contains ua "safari" then "Safari"
    else "Unknown browser" in
  let os :=
    if Contains ua "android" then "Android"
    else if Contains ua "iphone" || Contains ua "ipad" then "iOS"
    else if Contains ua "windows" then "Windows"
    else if Contains ua "mac os" || Contains ua "macintosh" then "macOS"
    else if Contains ua "linux" then "Linux"
    else "unknown OS" in
  if is_empty ua then (if negb (is_empty fallback) then fallback else "Unknown device")
  else browser +:+ " on " +:+ os.

Definition deviceKey (username deviceID : string) (r : KnownDevice) : bool :=
  (kd_username r ==? username) && (kd_device_id r ==? deviceID).

Definition isKnownDevice (username deviceID : string) : M bool :=
  if is_empty deviceID then ret false
  else
    let* n := CountOr0 (fun d => tcount (deviceKey username deviceID) (known_devices d)) in
    ret (0 <? n).

#[export] Hint Unfold deviceKey : sqlkeys.

(** What the upsert of [rememberDevice] does to the table. *)
Definition upsertDevice (username deviceID label ip : string) (now : Z) (d : Database) : Database :=
  set_known_devices
    (tupsert (deviceKey username deviceID)
       (fun r => set_kd_last_ip ip (set_kd_last_seen (sqlNow now) r))
       (fun _ => mkKnownDevice username deviceID label (sqlNow now) ip)
       (known_devices d)) d.

Definition rememberDevice (username deviceID label ip : string) : M unit :=
  if is_empty deviceID then ret tt
  else let* now := getNow in Exec_ (upsertDevice username deviceID label ip now).

Definition touchDevice (username deviceID ip : string) : M unit :=
  let* now := getNow in
  Exec_ (fun d =>
    set_known_devices
      (tupdate (deviceKey username deviceID)
         (fun r => set_kd_last_ip ip (set_kd_last_seen (sqlNow now) r)) (known_devices d)) d).

(** [SELECT COALESCE(email,'') FROM users WHERE username = ?], error dropped. *)
Definition userEmail (username : string) : M string :=
  ScanOr "" (fun d => u_email <$> tfirst (fun u => u_username u ==? username) (users d)).

Definition canDeliverChallenge (username : string) : M bool :=
  let* online := isOnline username in
  if online then ret true
  else
    let* e := getEnv in
    if negb (mailConfigured e) then ret false
    else let* email := userEmail username in ret (negb (is_empty email)).

Definition challengeMail (label ip code : string) (now : Z) : string :=
  "Someone just signed in to your Phaze account from a device we haven't seen before."
  +:+ crlf +:+ crlf
  +:+ "Device: " +:+ label +:+ crlf
  +:+ "IP address: " +:+ ip +:+ crlf
  +:+ "Time: " +:+ FormatUTC now +:+ crlf +:+ crlf
  +:+ "If this was you, enter this code to finish signing in:" +:+ crlf +:+ crlf
  +:+ "    " +:+ code +:+ crlf +:+ crlf
  +:+ "The code expires in 15 minutes." +:+ crlf +:+ crlf
  +:+ "If this wasn't you, ignore this email "
  +:+ of_bytes [226; 128; 148] +:+ " the sign-in stays blocked " +:+ of_bytes [226; 128; 148]
  +:+ " and "
  +:+ "change your password. Your existing sessions have not been affected." +:+ crlf.

(** The challenge id and whether a code was delivered by mail. *)
Definition createDeviceChallenge (username deviceID sessionToken label ip : string) : M (Z * bool) :=
  let* code := randDigits 6 in
  match code with
  | None => ret (0, false)
  | Some code =>
      let* now := getNow in
      let* res := Exec (fun d =>
        inr (set_device_challenges
               (tinsert (fun id => mkDeviceChallenge id username deviceID sessionToken code label ip
                                     0 0 0 (now + deviceChallengeTTL)) (device_challenges d)) d,
             tnext (device_challenges d))) in
      match res with
      | inl _ => ret (0, false)
      | inr id =>
          sendTo_ username (nm "device_challenge" |> set_mSender username |> set_mBody label
                            |> set_mChallengeID id |> set_mDeviceID deviceID
                            |> set_mStatus ip |> set_mTs (UnixMilli now)) ;;;
          let* email := userEmail username in
          if is_empty email then ret (id, false)
          else
            let* e := getEnv in
            if negb (mailConfigured e) then ret (id, false)
            else
              let* err := sendEmail email "Approve the new sign-in to your Phaze account"
                           (MText (challengeMail label ip code now)) in
              ret (id, match err with None => true | Some _ => false end)
      end
  end.

Inductive deviceErr := errNoChallenge | errChallengeExpired | errTooManyAttempts | errBadCode.

Definition deviceErr_Error (e : deviceErr) : string :=
  match e with
  | errNoChallenge => "no pending verification for this session"
  | errChallengeExpired =>
      "that code has expired " +:+ of_bytes [226; 128; 148] +:+ " sign in again to get a new one"
  | errTooManyAttempts =>
      "too many incorrect codes " +:+ of_bytes [226; 128; 148] +:+ " sign in again to get a new one"
  | errBadCode => "incorrect code"
  end.

Definition onChallenge (id : Z) (f : DeviceChallenge -> DeviceChallenge) (d : Database) : Database :=
  set_device_challenges (tupdate (fun r => dc_id r =? id) f (device_challenges d)) d.

Definition approveDeviceChallenge (id : Z) (username deviceID sessionToken label ip : string) : M unit :=
  Exec_ (onChallenge id (fun r => set_dc_approved 1 (set_dc_consumed 1 r))) ;;;
  Exec_ (onToken sessionToken (set_st_pending_device 0)) ;;;
  rememberDevice username deviceID label ip.

Definition denyDeviceChallenge (id : Z) (username sessionToken : string) : M unit :=
  Exec_ (onChallenge id (fun r => set_dc_approved 0 (set_dc_consumed 1 r))) ;;;
  Exec_ (onToken sessionToken (set_st_revoked 1)).

(** [... WHERE session_token = ? ORDER BY id DESC LIMIT 1] *)
Definition latestChallenge (sessionToken : string) (d : Database) : option DeviceChallenge :=
  head (order_by_desc dc_id
          (tselect (fun r => dc_session_token r ==? sessionToken) (device_challenges d))).

Definition verifyDeviceChallenge (sessionToken code : string) : M (deviceErr + string) :=
  let* row := QueryRow (latestChallenge sessionToken) in
  let* now := getNow in
  match row with
  | None => ret (inl errNoChallenge)
  | Some c =>
      if negb (dc_consumed c =? 0) then ret (inl errNoChallenge)
      else if dc_expires_at c <? now then ret (inl errChallengeExpired)
      else if maxDeviceChallengeAttempts <=? dc_attempts c then ret (inl errTooManyAttempts)
      else if negb (TrimSpace code ==? dc_code c) then
        Exec_ (onChallenge (dc_id c) (fun r => set_dc_attempts (dc_attempts r + 1) r)) ;;;
        ret (inl errBadCode)
      else
        approveDeviceChallenge (dc_id c) (dc_username c) (dc_device_id c) sessionToken
          (dc_label c) (dc_ip c) ;;;
        ret (inr (dc_username c))
  end.

(** [None] is [ok == false]. *)
Definition lookupDeviceChallenge (id : Z) (username : string) : M (option DeviceChallenge) :=
  let* row := QueryRow (fun d => tfirst (fun r => (dc_id r =? id) && (dc_username r ==? username))
                                   (device_challenges d)) in
  ret (match row with
       | Some c => if negb (dc_consumed c =? 0) then None else Some c
       | None => None
       end).

Definition purgeExpiredDeviceChallenges : M unit :=
  let* e := getEnv in
  let* now := getNow in
  Exec_ (fun d => set_device_challenges
           (tdelete (fun r => (dc_consumed r =? 1) || (asUTC e (dc_expires_at r) <? sqlNow now))
              (device_challenges d)) d).

(** ** Frames *)

Section SessionFrames.
Context (R : World -> World -> Prop) `{HR : !PreOrder R, HQ : !FreesSql R}.

Lemma respects_sessionState t : respects R (sessionState t).
Proof using HR HQ. unfold sessionState. frame. Qed.
Lemma respects_sessionUsername t : respects R (sessionUsername t).
Proof using HR HQ. unfold sessionUsername. frame. apply respects_sessionState. Qed.
Lemma respects_isKnownDevice u i : respects R (isKnownDevice u i).
Proof using HR HQ. unfold isKnownDevice. frame. Qed.
Lemma respects_userEmail u : respects R (userEmail u).
Proof using HR HQ. by apply respects_ScanOr. Qed.
Lemma respects_canDeliverChallenge u : respects R (canDeliverChallenge u).
Proof using HR HQ. unfold canDeliverChallenge. frame; apply respects_userEmail. Qed.
Lemma respects_lookupDeviceChallenge i u : respects R (lookupDeviceChallenge i u).
Proof using HR HQ. unfold lookupDeviceChallenge. frame. Qed.
End SessionFrames.

#[export] Hint Resolve respects_sessionState respects_sessionUsername respects_isKnownDevice
  respects_userEmail respects_canDeliverChallenge respects_lookupDeviceChallenge : frame.

(** Every operation keeps the database invariant. *)
Lemma safe_issueToken u dv t : respects safe (issueToken u dv t).
Proof. unfold issueToken, insertSession. frame. Qed.
Lemma safe_markSessionPendingDevice t : respects safe (markSessionPendingDevice t).
Proof. unfold markSessionPendingDevice, onToken. frame. Qed.
Lemma safe_revokeSession t : respects safe (revokeSession t).
Proof. unfold revokeSession, onToken. frame. Qed.
Lemma safe_rememberDevice u i l p : respects safe (rememberDevice u i l p).
Proof. unfold rememberDevice, upsertDevice. frame. Qed.
Lemma safe_touchDevice u i p : respects safe (touchDevice u i p).
Proof. unfold touchDevice. frame. Qed.
Lemma safe_createDeviceChallenge u i t l p : respects safe (createDeviceChallenge u i t l p).
Proof. unfold createDeviceChallenge. frame. Qed.

#[export] Hint Resolve safe_issueToken safe_markSessionPendingDevice safe_revokeSession
  safe_rememberDevice safe_touchDevice safe_createDeviceChallenge : frame.

Lemma safe_approveDeviceChallenge c u i t l p :
  respects safe (approveDeviceChallenge c u i t l p).
Proof. unfold approveDeviceChallenge, onChallenge, onToken. frame. Qed.
Lemma safe_denyDeviceChallenge c u t : respects safe (denyDeviceChallenge c u t).
Proof. unfold denyDeviceChallenge, onChallenge, onToken. frame. Qed.
Lemma safe_purgeExpiredDeviceChallenges : respects safe purgeExpiredDeviceChallenges.
Proof. unfold purgeExpiredDeviceChallenges. frame. Qed.

#[export] Hint Resolve safe_approveDeviceChallenge safe_denyDeviceChallenge
  safe_purgeExpiredDeviceChallenges : frame.

Lemma safe_verifyDeviceChallenge t c : respects safe (verifyDeviceChallenge t c).
Proof. unfold verifyDeviceChallenge, onChallenge. frame. Qed.

#[export] Hint Resolve safe_verifyDeviceChallenge : frame.

(** ** What a token grants *)

(** The row a token stands for while it grants access. *)
Definition grants (tok : string) (now : Z) (r : SessionToken) : Prop :=
  st_token r = tok /\ st_revoked r = 0 /\ now <= st_expires_at r /\ st_pending_device r = 0.

Lemma sessionState_eq tok w :
  sessionState tok w =
    if is_empty tok then ("", false, w)
    else (if faulty w then ("", false)
          else match tfirst (fun r => st_token r ==? tok) (session_tokens (wDB w)) with
               | None => ("", false)
               | Some r => if negb (st_revoked r =? 0) || (st_expires_at r <? wNow w) then ("", false)
                           else (st_username r, negb (st_pending_device r =? 0))
               end, tickSql w).
Proof.
  unfold sessionState. destruct (is_empty tok); [done|].
  unfold bind, QueryRow, QueryRowE, getNow, gets, bind. destruct (faulty w); [done|].
  destruct (tfirst _ _) as [r|]; simpl; [|done]. by destruct (_ || _).
Qed.

Lemma sessionUsername_eq tok w :
  sessionUsername tok w =
    (if (sessionState tok w).1.2 then "" else (sessionState tok w).1.1, (sessionState tok w).2).
Proof. unfold sessionUsername, bind. by destruct (sessionState tok w) as [[u []] w']. Qed.

(** The gate in one direction, whatever fails: no name, or the name of a row
    the token stands for. *)
Lemma sessionUsername_grants tok w :
  (sessionUsername tok w).1 = ""
  \/ exists r, r ∈ rows (session_tokens (wDB w)) /\ grants tok (wNow w) r
       /\ sessionUsername tok w = (st_username r, tickSql w).
Proof.
  rewrite sessionUsername_eq, sessionState_eq. destruct (is_empty tok); [by left|].
  destruct (faulty w); [by left|]. destruct (tfirst _ _) as [r|] eqn:E; [|by left].
  apply tfirst_Some in E as [Hr E]. destruct (negb (st_revoked r =? 0)) eqn:E1; [by left|].
  destruct (_ <? _) eqn:E2; [by left|]. simpl.
  destruct (st_pending_device r =? 0) eqn:E3; simpl; [|by left]. bools.
  right. exists r. by split_and!.
Qed.

(** C9: the gate.  On a well-formed database whose statements succeed,
    [sessionUsername tok] is the non-empty name [u] exactly when [tok] is a
    non-empty token with a row for [u] that is not revoked, not expired and
    not waiting for device approval; when a statement fails it is empty. *)
Theorem sessionUsername_gate tok u w :
  db_wf (wDB w) -> u <> "" ->
  (sessionUsername tok w).1 = u
  <-> faulty w = false /\ tok <> ""
      /\ exists r, r ∈ rows (session_tokens (wDB w)) /\ grants tok (wNow w) r /\ st_username r = u.
Proof.
  intros Hwf Hu. rewrite sessionUsername_eq, sessionState_eq. unfold is_empty.
  destruct (decide (tok = "")) as [->|Ht].
  { rewrite eqb_refl_dec. simpl. split; [intros; by subst | by intros (_ & [] & _)]. }
  rewrite (eqb_neq_dec tok "") by done. simpl.
  destruct (faulty w); [simpl; split; [by intros <- | by intros (? & _)]|].
  destruct (tfirst _ _) as [r|] eqn:E; simpl.
  - apply tfirst_Some in E as [Hr E]. apply bool_decide_eq_true in E.
    split.
    + destruct (st_revoked r =? 0) eqn:E1; simpl; [|by intros <-].
      destruct (_ <? _) eqn:E2; simpl; [by intros <-|].
      destruct (st_pending_device r =? 0) eqn:E3; simpl; [|by intros <-].
      bools. intros Hn. split_and!; [done..|]. exists r. split; [done|]. by split.
    + intros (_ & _ & r' & Hr' & (H1 & H2 & H3 & H4) & H5).
      assert (r' = r) as -> by (eapply unique_eq; [apply (wf_session_tokens _ Hwf)|..]; congruence).
      rewrite H2, H4, Z.eqb_refl. simpl. rewrite (proj2 (Z.ltb_ge (st_expires_at r) (wNow w)) H3).
      done.
  - apply tfirst_None in E. split; [by intros <-|].
    intros (_ & _ & r & Hr & (H1 & _) & _).
    rewrite texists_false in E. specialize (E r Hr). rewrite H1, eqb_refl_dec in E. done.
Qed.

(** ** The life of a device challenge *)

Lemma latestChallenge_update tok id f d :
  (forall r, dc_session_token (f r) = dc_session_token r) -> (forall r, dc_id (f r) = dc_id r) ->
  latestChallenge tok (onChallenge id f d)
  = (fun r => if dc_id r =? id then f r else r) <$> latestChallenge tok d.
Proof.
  intros Ht Hi. unfold latestChallenge, onChallenge. simpl.
  rewrite tselect_tupdate by (intros r; by rewrite Ht). unfold order_by_desc.
  rewrite order_by_fmap.
  - by destruct (order_by _ _).
  - intros r. destruct (_ =? _); [by rewrite Hi | done].
Qed.

(** One wrong guess costs one attempt and nothing else. *)
Lemma verify_wrong tok code c w :
  sql_ok w -> latestChallenge tok (wDB w) = Some c ->
  dc_consumed c = 0 -> wNow w <= dc_expires_at c -> dc_attempts c < maxDeviceChallengeAttempts ->
  TrimSpace code <> dc_code c ->
  verifyDeviceChallenge tok code w
  = (inl errBadCode,
     set_wDB (onChallenge (dc_id c) (fun r => set_dc_attempts (dc_attempts r + 1) r) (wDB w))
       (tickSql (tickSql w))).
Proof.
  intros Hok Hc H1 H2 H3 H4. unfold verifyDeviceChallenge. sqlrun. rewrite Hc.
  rewrite H1. simpl. rewrite (proj2 (Z.ltb_ge (dc_expires_at c) (wNow w)) H2).
  rewrite (proj2 (Z.leb_gt maxDeviceChallengeAttempts (dc_attempts c)) H3).
  rewrite (eqb_neq_dec _ _ H4). simpl. by sqlrun.
Qed.

(** Once five guesses have failed no code is accepted. *)
Lemma verify_exhausted tok code c w :
  sql_ok w -> latestChallenge tok (wDB w) = Some c -> maxDeviceChallengeAttempts <= dc_attempts c ->
  exists e, verifyDeviceChallenge tok code w = (inl e, tickSql w).
Proof.
  intros Hok Hc H. unfold verifyDeviceChallenge. sqlrun. rewrite Hc.
  destruct (negb _); [by eexists|]. destruct (_ <? _); [by eexists|].
  rewrite (proj2 (Z.leb_le maxDeviceChallengeAttempts (dc_attempts c)) H). by eexists.
Qed.

(** A challenge that admits no more guesses. *)
Definition challengeBurned (tok : string) (d : Database) : Prop :=
  exists c, latestChallenge tok d = Some c /\ maxDeviceChallengeAttempts <= dc_attempts c.

Lemma burned_or_counting tok codes c w :
  sql_ok w -> latestChallenge tok (wDB w) = Some c -> dc_consumed c = 0 ->
  wNow w <= dc_expires_at c -> Forall (fun code => TrimSpace code <> dc_code c) codes ->
  let w' := (forM codes (fun code => verifyDeviceChallenge tok code ;;; ret tt) w).2 in
  sql_ok w' /\ session_tokens (wDB w') = session_tokens (wDB w)
  /\ exists c', latestChallenge tok (wDB w') = Some c'
     /\ Z.min maxDeviceChallengeAttempts (dc_attempts c + Z.of_nat (length codes)) <= dc_attempts c'.
Proof.
  intros Hok Hc H1 H2 Hall. revert c w Hok Hc H1 H2 Hall.
  induction codes as [|code codes IH]; intros c w Hok Hc H1 H2 Hall; cbn zeta.
  - simpl. split_and!; [done..|]. exists c. split; [done|]. lia.
  - apply Forall_cons in Hall as [Hw Hall].
    rewrite forM_cons, bind_run, ret_run.
    destruct (Z.lt_ge_cases (dc_attempts c) maxDeviceChallengeAttempts) as [H3|H3].
    + rewrite (verify_wrong tok code c w) by done. simpl.
      destruct (IH (set_dc_attempts (dc_attempts c + 1) c)
        (set_wDB (onChallenge (dc_id c) (fun r => set_dc_attempts (dc_attempts r + 1) r) (wDB w))
           (tickSql (tickSql w)))) as (A & B & c' & C & D); simpl; auto with sqlok.
      { rewrite latestChallenge_update by done. rewrite Hc. simpl. by rewrite Z.eqb_refl. }
      split_and!; [done|done|]. exists c'. split; [done|]. simpl in D. lia.
    + destruct (verify_exhausted tok code c w) as [e ->]; [done..|]. simpl.
      destruct (IH c (tickSql w)) as (A & B & c' & C & D); auto with sqlok.
      split_and!; [done|done|]. exists c'. split; [done|]. lia.
Qed.

(** C11: the six-digit code cannot be brute-forced.  After five wrong guesses
    at a pending sign-in, in any order and with anything in between them that
    is itself a wrong guess, no code is accepted any more - the right one
    included - and the session the challenge gates stays exactly as held as
    it was. *)
Theorem device_code_guesses_bounded tok codes code c w :
  sql_ok w -> latestChallenge tok (wDB w) = Some c -> dc_consumed c = 0 ->
  wNow w <= dc_expires_at c -> 0 <= dc_attempts c ->
  Forall (fun g => TrimSpace g <> dc_code c) codes -> 5 <= Z.of_nat (length codes) ->
  let w' := (forM codes (fun g => verifyDeviceChallenge tok g ;;; ret tt) w).2 in
  (exists e, (verifyDeviceChallenge tok code w').1 = inl e)
  /\ session_tokens (wDB (verifyDeviceChallenge tok code w').2) = session_tokens (wDB w).
Proof.
  intros Hok Hc H1 H2 H3 Hall Hlen w'.
  destruct (burned_or_counting tok codes c w Hok Hc H1 H2 Hall) as (A & B & c' & C & D).
  fold w' in A, B, C. unfold maxDeviceChallengeAttempts in D.
  destruct (verify_exhausted tok code c' w' A C) as [e E];
    [unfold maxDeviceChallengeAttempts; lia|].
  rewrite E. split; [by exists e | done].
Qed.

(** [onToken] seen through the lookup of a token. *)
Lemma tfirst_onToken tok f d :
  (forall r, st_token (f r) = st_token r) ->
  tfirst (fun r => st_token r ==? tok) (session_tokens (onToken tok f d))
  = f <$> tfirst (fun r => st_token r ==? tok) (session_tokens d).
Proof.
  intros Hf. unfold onToken. simpl. rewrite tfirst_tupdate by (intros r; by rewrite Hf).
  destruct (tfirst _ _) as [r|] eqn:E; simpl; [|done].
  apply tfirst_Some in E as [_ E]. by rewrite E.
Qed.

(** What an accepted code implies, and what is done then. *)
Lemma verify_accepted tok code u w :
  sql_ok w -> (verifyDeviceChallenge tok code w).1 = inr u ->
  exists c, latestChallenge tok (wDB w) = Some c /\ dc_username c = u /\ dc_consumed c = 0
     /\ wNow w <= dc_expires_at c /\ dc_attempts c < 5 /\ TrimSpace code = dc_code c
     /\ (verifyDeviceChallenge tok code w).2
        = (approveDeviceChallenge (dc_id c) u (dc_device_id c) tok (dc_label c) (dc_ip c)
             (tickSql w)).2.
Proof.
  intros Hok. unfold verifyDeviceChallenge, bind, getNow, gets. rewrite ok_QueryRow by done.
  cbn [fst snd]. destruct (latestChallenge tok (wDB w)) as [c|]; [|by intros ?].
  destruct (dc_consumed c =? 0) eqn:E1; simpl; [|by intros ?].
  destruct (dc_expires_at c <? wNow w) eqn:E2; simpl; [by intros ?|].
  destruct (maxDeviceChallengeAttempts <=? dc_attempts c) eqn:E3; simpl; [by intros ?|].
  destruct (TrimSpace code ==? dc_code c) eqn:E4; simpl; [|by intros ?].
  intros [= <-]. exists c. bools. unfold maxDeviceChallengeAttempts in E3. split_and!; done.
Qed.

Lemma rememberDevice_known u i l p w :
  sql_ok w -> i <> "" ->
  sql_ok (rememberDevice u i l p w).2 /\ (isKnownDevice u i (rememberDevice u i l p w).2).1 = true
  /\ session_tokens (wDB (rememberDevice u i l p w).2) = session_tokens (wDB w)
  /\ wNow (rememberDevice u i l p w).2 = wNow w.
Proof.
  intros Hok Hi. unfold rememberDevice, isKnownDevice, is_empty. rewrite (eqb_neq_dec i "" Hi).
  sqlrun. split_and!; [eauto with sqlok| |done..].
  rewrite tcount_pos. apply texists_tupsert; [done|].
  intros n. unfold deviceKey. simpl. by rewrite !eqb_refl_dec.
Qed.

(** Approval by either path: the hold is gone, the device is known. *)
Lemma approve_effect id u i tok l p w :
  sql_ok w ->
  let w' := (approveDeviceChallenge id u i tok l p w).2 in
  (sessionUsername tok w').1 = (sessionState tok w).1.1
  /\ (i <> "" -> (isKnownDevice u i w').1 = true).
Proof.
  intros Hok w'.
  assert (sql_ok w' /\ wNow w' = wNow w /\ (i <> "" -> (isKnownDevice u i w').1 = true)
    /\ session_tokens (wDB w') = session_tokens (onToken tok (set_st_pending_device 0) (wDB w)))
    as (A & B & C & D).
  { subst w'. unfold approveDeviceChallenge. sqlrun. destruct (decide (i = "")) as [->|Hi].
    - unfold rememberDevice, is_empty. rewrite eqb_refl_dec. sqlrun.
      split_and!; [eauto 20 with sqlok|done|by intros []|done].
    - edestruct (rememberDevice_known u i l p) as (A & B & C & D); [|exact Hi|].
      2: { split_and!; [exact A | by rewrite D | intros _; exact B | by rewrite C]. }
      eauto 20 with sqlok. }
  split; [|done]. rewrite sessionUsername_eq, !sessionState_eq.
  destruct (is_empty tok); [done|]. rewrite !sql_ok_faulty by done. cbn [fst snd].
  rewrite B, D, tfirst_onToken by done.
  destruct (tfirst _ _) as [r|]; simpl; [|done]. by destruct (_ || _).
Qed.

(** The emailed code lifts the hold.  When a code is accepted, the
    challenge was the newest of its session, open, unexpired and under the
    attempt limit, and the code matched; afterwards the session authenticates
    the account it was issued to (if it is neither revoked nor expired) and
    the device is known for the account the challenge names. *)
Theorem verifyDeviceChallenge_releases tok code u w :
  sql_ok w -> (verifyDeviceChallenge tok code w).1 = inr u ->
  let w' := (verifyDeviceChallenge tok code w).2 in
  (exists c, latestChallenge tok (wDB w) = Some c /\ dc_username c = u /\ dc_consumed c = 0
     /\ wNow w <= dc_expires_at c /\ dc_attempts c < 5 /\ TrimSpace code = dc_code c
     /\ (dc_device_id c <> "" -> (isKnownDevice u (dc_device_id c) w').1 = true))
  /\ (sessionUsername tok w').1 = (sessionState tok w).1.1.
Proof.
  intros Hok Hv w'.
  destruct (verify_accepted tok code u w Hok Hv) as (c & H1 & H2 & H3 & H4 & H5 & H6 & H7).
  subst w'. rewrite H7.
  destruct (approve_effect (dc_id c) u (dc_device_id c) tok (dc_label c) (dc_ip c) (tickSql w))
    as [A B]; [by apply sql_ok_tick|].
  split; [by exists c; split_and! | rewrite A, !sessionState_eq].
  rewrite !sql_ok_faulty by eauto with sqlok. by destruct (is_empty tok).
Qed.

(** A denied sign-in is dead.  After [denyDeviceChallenge] the token it
    gated authenticates nobody, a later approval of any challenge for that
    token does not revive it, and no code typed for the burned challenge is
    accepted. *)
Theorem denyDeviceChallenge_final c tok u w :
  sql_ok w -> latestChallenge tok (wDB w) = Some c ->
  let w' := (denyDeviceChallenge (dc_id c) u tok w).2 in
  (forall code, (verifyDeviceChallenge tok code w').1 = inl errNoChallenge)
  /\ (sessionState tok w').1 = ("", false)
  /\ (forall id u' i l p,
        (sessionUsername tok (approveDeviceChallenge id u' i tok l p w').2).1 = "").
Proof.
  intros Hok Hc w'.
  assert (Hok' : sql_ok w').
  { apply respects_sql_ok; [unfold denyDeviceChallenge; frame | done]. }
  assert (Hs : (sessionState tok w').1 = ("", false)).
  { rewrite sessionState_eq. destruct (is_empty tok); [done|].
    rewrite sql_ok_faulty by done. subst w'. unfold denyDeviceChallenge. sqlrun.
    rewrite tfirst_onToken by done. simpl. by destruct (tfirst _ _). }
  split_and!; [|done|].
  - intros code. assert (Hl : latestChallenge tok (wDB w')
      = Some (set_dc_approved 0 (set_dc_consumed 1 c))).
    { subst w'. unfold denyDeviceChallenge. sqlrun.
      change (latestChallenge tok (onToken ?a ?b ?d)) with (latestChallenge tok d).
      rewrite latestChallenge_update, Hc by done. simpl. by rewrite Z.eqb_refl. }
    unfold verifyDeviceChallenge, bind. by rewrite ok_QueryRow, Hl.
  - intros id u' i l p. destruct (approve_effect id u' i tok l p w' Hok') as [-> _].
    by rewrite Hs.
Qed.

(** ** At a concrete state *)

Lemma sessionUsername_gate_witness :
  (sessionUsername "tok" sampleW).1 = "alice"
  <-> faulty sampleW = false /\ "tok" <> ""
      /\ exists r, r ∈ rows (session_tokens (wDB sampleW)) /\ grants "tok" T0 r
                   /\ st_username r = "alice".
Proof. exact (sessionUsername_gate "tok" "alice" sampleW sampleDB_wf ltac:(discriminate)). Defined.

Lemma device_code_guesses_bounded_witness :
  let w' := (forM ["1"; "2"; "3"; "4"; "5"] (fun g => verifyDeviceChallenge "held" g ;;; ret tt) sampleW).2 in
  (exists e, (verifyDeviceChallenge "held" "123456" w').1 = inl e)
  /\ session_tokens (wDB (verifyDeviceChallenge "held" "123456" w').2)
     = session_tokens (wDB sampleW).
Proof.
  eapply (device_code_guesses_bounded "held" ["1"; "2"; "3"; "4"; "5"] "123456"); try reflexivity;
    try apply sampleW_ok; try (vm_compute; discriminate).
  repeat constructor; vm_compute; discriminate.
Defined.

Lemma verifyDeviceChallenge_releases_witness :
  (verifyDeviceChallenge "held" " 123456 " sampleW).1 = inr "alice"
  /\ (sessionUsername "held" (verifyDeviceChallenge "held" " 123456 " sampleW).2).1
     = (sessionState "held" sampleW).1.1.
Proof.
  assert (H : (verifyDeviceChallenge "held" " 123456 " sampleW).1 = inr "alice") by reflexivity.
  split; [exact H|].
  exact (proj2 (verifyDeviceChallenge_releases "held" " 123456 " "alice" sampleW sampleW_ok H)).
Defined.

Lemma denyDeviceChallenge_final_witness :
  (sessionState "held" (denyDeviceChallenge 1 "alice" "held" sampleW).2).1 = ("", false).
Proof.
  assert (H : exists c, latestChallenge "held" (wDB sampleW) = Some c /\ dc_id c = 1)
    by (eexists; split; reflexivity).
  destruct H as (c & H & E). rewrite <- E.
  exact (proj1 (proj2 (denyDeviceChallenge_final c "held" "alice" sampleW sampleW_ok H))).
Defined.
