(* ===== verification/Social.v ===== *)
(** * Friends, blocks, contact groups, presence and push ([main.go], [presence.go])

    The social graph: a friendship is one row [(user_a, user_b)] with a status,
    read in either direction; a block is one-way and silent; a contact group is
    the owner's own filing.  The file also holds the presence fan-out, the
    user search, the abuse reports, and the push notifications that stand in
    for a connection. *)

From Stdlib Require Import ZArith Lia Ascii.
From stdpp Require Import base strings list gmap.
From S2P Require Import Prelude GoRt Store Wire Db World Wf Registry.

Open Scope string_scope.
Open Scope list_scope.
Open Scope Z_scope.

(** An operation that returns a Go [error]: [None] is nil. *)
Abbreviation Err := (option string).

Definition execErr (ok : bool) : Err := if ok then None else Some (err_text EEngine).

(** ** Friends *)

Definition friendsOf (username : string) (d : Database) : list string :=
  (fun r => if f_user_a r ==? username then f_user_b r else f_user_a r) <$>
    tselect (fun r => ((f_user_a r ==? username) || (f_user_b r ==? username))
                      && (f_status r ==? "accepted")) (friends d).

Definition getFriends (username : string) : M (list string) :=
  let* r := Query (friendsOf username) in ret (default [] r).

(** The rows between two users, in either direction. *)
Definition between (a b : string) (r : Friend) : bool :=
  ((f_user_a r ==? a) && (f_user_b r ==? b)) || ((f_user_a r ==? b) && (f_user_b r ==? a)).

Definition areFriendsIn (a b : string) (d : Database) : bool :=
  texists (fun r => (f_status r ==? "accepted") && between a b r) (friends d).

Definition areFriends (a b : string) : M bool :=
  let* n := CountOr0 (fun d => tcount (fun r => (f_status r ==? "accepted") && between a b r)
                                 (friends d)) in
  ret (0 <? n).

Definition blocksIn (blocker blocked : string) (d : Database) : bool :=
  texists (fun r => (b_blocker r ==? blocker) && (b_blocked r ==? blocked)) (blocks d).

(** An error reads as "not blocked". *)
Definition isBlocked (blocker blocked : string) : M bool :=
  let* r := QueryRow (fun d => if blocksIn blocker blocked d then Some tt else None) in
  ret (match r with Some _ => true | None => false end).

Definition errFriendBlocked : string := "blocked".
Definition errFriendDuplicate : string := "already friends or request pending".

Definition insertFriend (from to : string) (d : Database) : sqlerr + (Database * Z) :=
  match tinsert_unique (fun r => (f_user_a r ==? from) && (f_user_b r ==? to))
          (fun _ => mkFriend from to "pending") (friends d) with
  | None => inl (EUnique "friends.user_a, friends.user_b")
  | Some t => inr (set_friends t d, 1)
  end.

(** [a() || b()]: the second query runs only when the first says no. *)
Definition orM (a b : M bool) : M bool := let* x := a in if x then ret true else b.

Definition sendFriendRequest (from to : string) : M Err :=
  let* blocked := orM (isBlocked to from) (isBlocked from to) in
  if blocked then ret (Some errFriendBlocked)
  else
    let* count := CountOr0 (fun d => tcount (between from to) (friends d)) in
    if 0 <? count then ret (Some errFriendDuplicate)
    else
      let* r := Exec (insertFriend from to) in
      ret (match r with inl e => Some (err_text e) | inr _ => None end).

Definition pendingFrom (from to : string) (r : Friend) : bool :=
  (f_user_a r ==? from) && (f_user_b r ==? to) && (f_status r ==? "pending").

Definition acceptFriendRequest (from to : string) : M Err :=
  let* n := ExecN (fun d => tcount (pendingFrom from to) (friends d))
              (fun d => set_friends (tupdate (pendingFrom from to) (set_f_status "accepted") (friends d)) d) in
  ret (match n with
       | None => Some (err_text EEngine)
       | Some n => if n =? 0 then Some ("no pending request from " +:+ from) else None
       end).

Definition rejectFriendRequest (from to : string) : M Err :=
  let* ok := ExecOk (fun d => set_friends (tdelete (pendingFrom from to) (friends d)) d) in
  ret (execErr ok).

Definition removeFriend (a b : string) : M Err :=
  let* ok := ExecOk (fun d => set_friends (tdelete (between a b) (friends d)) d) in
  ret (execErr ok).

Definition getPendingRequests (username : string) : M (list string) :=
  let* r := Query (fun d => f_user_a <$> tselect (fun r => (f_user_b r ==? username)
                                                      && (f_status r ==? "pending")) (friends d)) in
  ret (default [] r).

(** ** Contact groups *)

Definition groupsOf (owner : string) (d : Database) : gmap string string :=
  foldl (fun m r => <[cg_contact r := cg_group_name r]> m) ∅
    (tselect (fun r => cg_owner r ==? owner) (contact_groups d)).

(** The nil map of an error and the empty map look alike on the wire. *)
Definition getContactGroups (owner : string) : M (gmap string string) :=
  let* r := Query (fun d => [groupsOf owner d]) in
  ret (match r with Some [g] => g | _ => ∅ end).

Definition filed (owner contact : string) (r : ContactGroup) : bool :=
  (cg_owner r ==? owner) && (cg_contact r ==? contact).

#[export] Hint Unfold filed : sqlkeys.

Definition putGroup (owner contact groupName : string) (d : Database) : Database :=
  set_contact_groups
    (if is_empty groupName then tdelete (filed owner contact) (contact_groups d)
     else tupsert (filed owner contact) (set_cg_group_name groupName)
            (fun _ => mkContactGroup owner contact groupName) (contact_groups d)) d.

Definition setContactGroup (owner contact groupName : string) : M Err :=
  let* ok := ExecOk (putGroup owner contact groupName) in ret (execErr ok).

(** ** Blocks *)

Definition insertBlock (blocker blocked : string) (now : Z) (d : Database) : Database :=
  set_blocks (tinsert_ignore (fun r => (b_blocker r ==? blocker) && (b_blocked r ==? blocked))
                (fun _ => mkBlock blocker blocked (sqlNow now)) (blocks d)) d.

Definition blockUser (blocker blocked : string) : M Err :=
  if is_empty blocker || is_empty blocked || (blocker ==? blocked) then ret (Some "invalid block")
  else
    let* now := getNow in
    let* ok := ExecOk (insertBlock blocker blocked now) in ret (execErr ok).

Definition unblockUser (blocker blocked : string) : M Err :=
  let* ok := ExecOk (fun d => set_blocks
      (tdelete (fun r => (b_blocker r ==? blocker) && (b_blocked r ==? blocked)) (blocks d)) d) in
  ret (execErr ok).

Definition listBlocks (blocker : string) : M (list string) :=
  let* r := Query (fun d => b_blocked <$>
              order_by_desc b_created_at (tselect (fun r => b_blocker r ==? blocker) (blocks d))) in
  ret (default [] r).

Definition recordAbuseReport (reporter subject reason body : string) : M Err :=
  if is_empty reporter || is_empty subject || is_empty reason then ret (Some "missing fields")
  else
    let* now := getNow in
    let* ok := ExecOk (fun d => set_abuse_reports
        (tinsert (fun id => mkAbuseReport id reporter subject reason body "pending" "" None (sqlNow now))
           (abuse_reports d)) d) in
    ret (execErr ok).

(** ** Search *)

(** [LIKE '%' || q || '%']: [%] and [_] of the query are wildcards, and ASCII
    letters match either case (both sides are lower case already). *)
Fixpoint like_at (fuel : nat) (pat s : list Z) : bool :=
  match fuel with
  | O => false
  | S f =>
      match pat with
      | [] => match s with [] => true | _ => false end
      | 37 :: pat' => like_at f pat' s || match s with [] => false | _ :: s' => like_at f pat s' end
      | 95 :: pat' => match s with [] => false | _ :: s' => like_at f pat' s' end
      | c :: pat' => match s with [] => false | d :: s' => (c =? d) && like_at f pat' s' end
      end
  end.

(** Runes are compared, as SQLite compares UTF-8 text; every step drops a
    rune of the pattern or of the text. *)
Definition LIKE (s pat : string) : bool :=
  like_at (S (length (runes pat) + length (runes s))) (runes pat) (runes s).

(** SQLite's [LOWER] folds ASCII letters only. *)
Definition LOWER (s : string) : string :=
  of_bytes ((fun b => if is_upper b then b + 32 else b) <$> bytes s).

Definition searchUsers (query excludeUser : string) : M (list string) :=
  let query := ToLower (TrimSpace query) in
  if is_empty query then ret []
  else
    let* r := Query (fun d => take 20 (u_username <$>
        tselect (fun u => LIKE (LOWER (u_username u)) ("%" +:+ query +:+ "%")
                          && negb (u_username u ==? excludeUser)) (users d))) in
    ret (default [] r).

(** ** Presence *)

Definition settableStatuses : list string :=
  ["Online"; "Away"; "Do Not Disturb"; "Invisible"; "Skype Me"; "Not Available"].

Definition validStatus (s : string) : bool := existsb (fun t => t ==? s) settableStatuses.

Definition publicStatus (s : string) : string :=
  if s ==? "Invisible" then "Offline" else if is_empty s then "Online" else s.

Definition isSupporter (username : string) : M bool :=
  let* n := QueryRow (fun d => u_supporter <$> tfirst (fun u => u_username u ==? username) (users d)) in
  ret (match n with Some n => n =? 1 | None => false end).

Definition broadcastPresence (username status : string) : M unit :=
  let* friends := getFriends username in
  let* supporter := isSupporter username in
  forM friends (fun friend =>
    sendTo_ friend (nm "presence" |> set_mSender username
                    |> set_mStatus (publicStatus status) |> set_mSupporter supporter)).

(** [for _, c := range s.Clients[username] { c.Status = st }] *)
Definition setStatusAll (username st : string) : M unit :=
  let* cs := clientsOf username in
  forM cs (fun c => modClient c (set_cStatus st)).

Definition announcePresence (username : string) : M unit :=
  let* st := ScanOr "Online" (fun d => u_status <$>
                tfirst (fun u => u_username u ==? username) (users d)) in
  setStatusAll username st ;;;
  broadcastPresence username st.

(** ** Push notifications *)

(** [msg[:n] + "…"] beyond [n] bytes; encrypted bodies are not shown. *)
Definition pushBody (n : Z) (preview : string) : string :=
  if HasPrefix preview "E2EE:" || HasPrefix preview "phaze-file:" then "New encrypted message"
  else if n <? len preview then take_bytes (Z.to_nat n) preview +:+ of_bytes [226; 128; 166]
  else preview.

Definition sendWebPush (recipient sender preview : string) : M unit :=
  let* e := getEnv in
  if is_empty (getenv e "VAPID_PRIVATE_KEY") || is_empty (getenv e "VAPID_PUBLIC_KEY") then ret tt
  else
    let* r := Query (fun d => tselect (fun p => ps_username p ==? recipient) (push_subscriptions d)) in
    forM (default [] r) (fun p => emit (EvPush (ps_endpoint p) sender (pushBody 80 preview))).

Definition sendFCMPush (recipient sender preview : string) : M unit :=
  let* e := getEnv in
  if negb (fcmClient e) then ret tt
  else
    let* r := Query (fun d => tselect (fun u => (u_username u ==? recipient)
                                                && negb (is_empty (u_fcm_token u))) (users d)) in
    forM (default [] r) (fun u =>
      let token := u_fcm_token u in
      emit (EvPush token sender (pushBody 100 preview)) ;;;
      when (fcmUnregistered e token)
        (Exec_ (fun d => set_users (tupdate (fun u => (u_username u ==? recipient)
                                                && (u_fcm_token u ==? token))
                                      (set_u_fcm_token "") (users d)) d))).

(** [go s.sendWebPush(...)] and [go s.sendFCMPush(...)] *)
Definition push (recipient sender preview : string) : M unit :=
  sendWebPush recipient sender preview ;;; sendFCMPush recipient sender preview.

(** ** The messages ([ws_handlers.go]) *)

Section Cases.
Context (client : nat) (username : string) (msg : NexusMessage).

Definition case_status_update : M unit :=
  if negb (validStatus (mBody msg)) then
    Send_ client (nm "status_result" |> set_mError "Unknown status")
  else
    Exec_ (fun d => set_users (tupdate (fun u => u_username u ==? username)
                                 (set_u_status (mBody msg)) (users d)) d) ;;;
    setStatusAll username (mBody msg) ;;;
    Send_ client (nm "status_result" |> set_mStatus (mBody msg)) ;;;
    broadcastPresence username (mBody msg).

Definition case_block : M unit :=
  if is_empty username then ret tt
  else
    let* err := blockUser username (mRecipient msg) in
    match err with
    | Some e => Send_ client (nm "block_result" |> set_mError e)
    | None => Send_ client (nm "block_result" |> set_mStatus "blocked" |> set_mRecipient (mRecipient msg))
    end.

Definition case_unblock : M unit :=
  if is_empty username then ret tt
  else
    let* err := unblockUser username (mRecipient msg) in
    match err with
    | Some e => Send_ client (nm "block_result" |> set_mError e)
    | None => Send_ client (nm "block_result" |> set_mStatus "unblocked" |> set_mRecipient (mRecipient msg))
    end.

Definition case_list_blocks : M unit :=
  if is_empty username then ret tt
  else let* l := listBlocks username in Send_ client (nm "blocks" |> set_mResults l).

Definition case_register_fcm_token : M unit :=
  if is_empty username then ret tt
  else if is_empty (mBody msg) then ret tt
  else Exec_ (fun d => set_users (tupdate (fun u => u_username u ==? username)
                                    (set_u_fcm_token (mBody msg)) (users d)) d).

Definition case_subscribe_push : M unit :=
  if is_empty username then ret tt
  else
    let* e := getEnv in
    match jsonSub e (mBody msg) with
    | None => Send_ client (nm "push_result" |> set_mError "Invalid subscription")
    | Some (endpoint, p256dh, auth) =>
        if is_empty endpoint then Send_ client (nm "push_result" |> set_mError "Invalid subscription")
        else
          Exec_ (fun d => set_push_subscriptions
                   (tupsert (fun p => ps_endpoint p ==? endpoint) (set_ps_username username)
                      (fun _ => mkPushSub username endpoint p256dh auth) (push_subscriptions d)) d) ;;;
          Send_ client (nm "push_result" |> set_mStatus "subscribed")
    end.

Definition case_unsubscribe_push : M unit :=
  if is_empty username then ret tt
  else
    Exec_ (fun d => set_push_subscriptions
             (tdelete (fun p => (ps_username p ==? username) && (ps_endpoint p ==? mBody msg))
                (push_subscriptions d)) d) ;;;
    Send_ client (nm "push_result" |> set_mStatus "unsubscribed").

Definition case_report_abuse : M unit :=
  if is_empty username then ret tt
  else
    let* err := recordAbuseReport username (mRecipient msg) (mStatus msg) (mBody msg) in
    match err with
    | Some e => Send_ client (nm "report_result" |> set_mError e)
    | None => Send_ client (nm "report_result" |> set_mStatus "received")
    end.

Definition case_typing : M unit :=
  if is_empty username || is_empty (mRecipient msg) then ret tt
  else
    let* ok := areFriends username (mRecipient msg) in
    if negb ok then ret tt
    else sendTo_ (mRecipient msg) (nm "typing" |> set_mSender username).

Definition case_presence : M unit :=
  if is_empty username then ret tt
  else if negb (is_empty (mRecipient msg)) then
    if bool_decide (length (mPublicKey msg) = 32%nat) then
      let* ok := areFriends username (mRecipient msg) in
      when ok (sendTo_ (mRecipient msg) (set_mSender username msg))
    else ret tt
  else
    setStatusAll username (mStatus msg) ;;;
    broadcastPresence username (mStatus msg).

Definition case_search : M unit :=
  if is_empty username then ret tt
  else if 100 <? len (mBody msg) then ret tt
  else
    let* results := searchUsers (mBody msg) username in
    Send_ client (nm "search_results" |> set_mResults results).

Definition case_friend_request : M unit :=
  if is_empty username then ret tt
  else
    let* err := sendFriendRequest username (mRecipient msg) in
    match err with
    | None =>
        Send_ client (nm "friend_request_sent" |> set_mRecipient (mRecipient msg)) ;;;
        sendTo_ (mRecipient msg) (nm "friend_request" |> set_mSender username)
    | Some e =>
        if e ==? errFriendBlocked then
          Send_ client (nm "friend_request_sent" |> set_mRecipient (mRecipient msg))
        else if e ==? errFriendDuplicate then
          Send_ client (nm "friend_error" |> set_mError "Already friends or request already sent")
        else Send_ client (nm "friend_error" |> set_mError "Could not send friend request")
    end.

Definition case_friend_accept : M unit :=
  if is_empty username then ret tt
  else
    let requester := if is_empty (mRecipient msg) then mBody msg else mRecipient msg in
    let* err := acceptFriendRequest requester username in
    match err with
    | Some _ => Send_ client (nm "friend_error" |> set_mError "Could not accept friend request")
    | None =>
        Send_ client (nm "friend_accepted" |> set_mSender requester) ;;;
        sendTo_ requester (nm "friend_accepted" |> set_mSender username)
    end.

Definition case_friend_reject : M unit :=
  if is_empty username then ret tt
  else rejectFriendRequest (mSender msg) username ;;; ret tt.

Definition case_friend_remove : M unit :=
  if is_empty username then ret tt
  else
    removeFriend username (mRecipient msg) ;;;
    sendTo_ (mRecipient msg) (nm "friend_removed" |> set_mSender username).

Definition case_contact_group_set : M unit :=
  if is_empty username || is_empty (mRecipient msg) then ret tt
  else
    let* fs := getFriends username in
    if negb (existsb (fun f => f ==? mRecipient msg) fs) then
      Send_ client (nm "contact_group_error" |> set_mError "not a contact")
    else
      let groupName := TrimSpace (mBody msg) in
      if 60 <? len groupName then
        Send_ client (nm "contact_group_error"
                      |> set_mError "group name must be 60 characters or fewer")
      else
        let* err := setContactGroup username (mRecipient msg) groupName in
        match err with
        | Some _ => Send_ client (nm "contact_group_error" |> set_mError "server error")
        | None =>
            let* g := getContactGroups username in
            Send_ client (nm "contact_groups" |> set_mContactGroups g)
        end.
End Cases.

(** ** Frames: every operation keeps the database invariant *)

Lemma respects_orM R `{!PreOrder R} a b :
  respects R a -> respects R b -> respects R (orM a b).
Proof. intros Ha Hb. unfold orM. frame; auto. Qed.
#[export] Hint Resolve respects_orM : frame.

Lemma safe_getFriends username : respects safe (getFriends username). Proof. frame_deep. Qed.
Lemma safe_areFriends a b : respects safe (areFriends a b). Proof. frame_deep. Qed.
Lemma safe_isBlocked blocker blocked : respects safe (isBlocked blocker blocked).
Proof. frame_deep. Qed.
Lemma safe_sendFriendRequest from to : respects safe (sendFriendRequest from to).
Proof. frame_deep. Qed.
Lemma safe_acceptFriendRequest from to : respects safe (acceptFriendRequest from to).
Proof. frame_deep. Qed.
Lemma safe_rejectFriendRequest from to : respects safe (rejectFriendRequest from to).
Proof. frame_deep. Qed.
Lemma safe_removeFriend a b : respects safe (removeFriend a b). Proof. frame_deep. Qed.
Lemma safe_getPendingRequests username : respects safe (getPendingRequests username).
Proof. frame_deep. Qed.
Lemma safe_getContactGroups owner : respects safe (getContactGroups owner). Proof. frame_deep. Qed.
Lemma safe_setContactGroup owner contact groupName : respects safe (setContactGroup owner contact groupName).
Proof. frame_deep. Qed.
Lemma safe_blockUser blocker blocked : respects safe (blockUser blocker blocked).
Proof. frame_deep. Qed.
Lemma safe_unblockUser blocker blocked : respects safe (unblockUser blocker blocked).
Proof. frame_deep. Qed.
Lemma safe_listBlocks blocker : respects safe (listBlocks blocker). Proof. frame_deep. Qed.
Lemma safe_recordAbuseReport reporter subject reason body : respects safe (recordAbuseReport reporter subject reason body).
Proof. frame_deep. Qed.
Lemma safe_searchUsers query excludeUser : respects safe (searchUsers query excludeUser).
Proof. frame_deep. Qed.
Lemma safe_isSupporter username : respects safe (isSupporter username). Proof. frame_deep. Qed.
Lemma safe_broadcastPresence username status : respects safe (broadcastPresence username status).
Proof. frame_deep. Qed.
Lemma safe_setStatusAll username st : respects safe (setStatusAll username st).
Proof. frame_deep. Qed.
Lemma safe_announcePresence username : respects safe (announcePresence username).
Proof. frame_deep. Qed.
Lemma safe_sendWebPush recipient sender preview : respects safe (sendWebPush recipient sender preview).
Proof. frame_deep. Qed.
Lemma safe_sendFCMPush recipient sender preview : respects safe (sendFCMPush recipient sender preview).
Proof. frame_deep. Qed.
Lemma safe_push recipient sender preview : respects safe (push recipient sender preview).
Proof. frame_deep. Qed.

#[export] Hint Resolve safe_getFriends safe_areFriends safe_isBlocked safe_sendFriendRequest
  safe_acceptFriendRequest safe_rejectFriendRequest safe_removeFriend safe_getPendingRequests
  safe_getContactGroups safe_setContactGroup safe_blockUser safe_unblockUser safe_listBlocks
  safe_recordAbuseReport safe_searchUsers safe_isSupporter safe_broadcastPresence
  safe_setStatusAll safe_announcePresence safe_sendWebPush safe_sendFCMPush safe_push : frame.

Section SafeCases.
Context (client : nat) (username : string) (msg : NexusMessage).
Lemma safe_case_status_update : respects safe (case_status_update client username msg).
Proof. frame_deep. Qed.
Lemma safe_case_block : respects safe (case_block client username msg). Proof. frame_deep. Qed.
Lemma safe_case_unblock : respects safe (case_unblock client username msg).
Proof. frame_deep. Qed.
Lemma safe_case_list_blocks : respects safe (case_list_blocks client username).
Proof. frame_deep. Qed.
Lemma safe_case_register_fcm_token : respects safe (case_register_fcm_token username msg).
Proof. frame_deep. Qed.
Lemma safe_case_subscribe_push : respects safe (case_subscribe_push client username msg).
Proof. frame_deep. Qed.
Lemma safe_case_unsubscribe_push : respects safe (case_unsubscribe_push client username msg).
Proof. frame_deep. Qed.
Lemma safe_case_report_abuse : respects safe (case_report_abuse client username msg).
Proof. frame_deep. Qed.
Lemma safe_case_typing : respects safe (case_typing username msg). Proof. frame_deep. Qed.
Lemma safe_case_presence : respects safe (case_presence username msg). Proof. frame_deep. Qed.
Lemma safe_case_search : respects safe (case_search client username msg). Proof. frame_deep. Qed.
Lemma safe_case_friend_request : respects safe (case_friend_request client username msg).
Proof. frame_deep. Qed.
Lemma safe_case_friend_accept : respects safe (case_friend_accept client username msg).
Proof. frame_deep. Qed.
Lemma safe_case_friend_reject : respects safe (case_friend_reject username msg).
Proof. frame_deep. Qed.
Lemma safe_case_friend_remove : respects safe (case_friend_remove username msg).
Proof. frame_deep. Qed.
Lemma safe_case_contact_group_set : respects safe (case_contact_group_set client username msg).
Proof. frame_deep. Qed.
End SafeCases.

#[export] Hint Resolve safe_case_status_update safe_case_block safe_case_unblock
  safe_case_list_blocks safe_case_register_fcm_token safe_case_subscribe_push
  safe_case_unsubscribe_push safe_case_report_abuse safe_case_typing safe_case_presence
  safe_case_search safe_case_friend_request safe_case_friend_accept safe_case_friend_reject
  safe_case_friend_remove safe_case_contact_group_set : frame.
