(* ===== verification/SocialSpec.v ===== *)
(** * Friendship as a state machine

    The rows of [friends] implement an abstract relation: two users are
    strangers, one has asked the other, or they are linked.  The operations of
    [main.go] are the transitions of that machine, refusals included. *)

From Stdlib Require Import ZArith Lia.
From stdpp Require Import base strings list gmap.
From S2P Require Import Prelude GoRt Store Wire Db World Wf Samples Registry Social.

Open Scope string_scope.
Open Scope list_scope.
Open Scope Z_scope.

(** ** The abstract machine *)

Inductive link := Strangers | Asked (by_ : string) | Linked.

Inductive fop :=
| FSend (from to : string)
| FAccept (from to : string)      (* [to] accepts the request of [from] *)
| FReject (from to : string)      (* [to] rejects the request of [from] *)
| FRemove (a b : string).

#[export] Instance link_eq_dec : EqDecision link. Proof. solve_decision. Defined.

Definition asker (op : fop) : string := match op with FSend a _ | FAccept a _ | FReject a _ | FRemove a _ => a end.
Definition asked (op : fop) : string := match op with FSend _ b | FAccept _ b | FReject _ b | FRemove _ b => b end.

(** The new state and whether the operation reports success; [blocked] is
    whether either user blocks the other. *)
Definition link_step (blocked : bool) (op : fop) (l : link) : link * bool :=
  match op with
  | FSend from to =>
      if blocked then (l, false)
      else match l with Strangers => (Asked from, true) | _ => (l, false) end
  | FAccept from to => if bool_decide (l = Asked from) then (Linked, true) else (l, false)
  | FReject from to => if bool_decide (l = Asked from) then (Strangers, true) else (l, true)
  | FRemove _ _ => (Strangers, true)
  end.

(** ** The implementation *)

Definition run_fop (op : fop) : M Err :=
  match op with
  | FSend a b => sendFriendRequest a b
  | FAccept a b => acceptFriendRequest a b
  | FReject a b => rejectFriendRequest a b
  | FRemove a b => removeFriend a b
  end.

Definition linkOf (a b : string) (d : Database) : link :=
  match tfirst (between a b) (friends d) with
  | None => Strangers
  | Some r => if f_status r ==? "accepted" then Linked else Asked (f_user_a r)
  end.

(** One row per unordered pair, with one of the two statuses. *)
Record pairs_ok (d : Database) : Prop := mkPairs {
  po_one : forall r1 r2, r1 ∈ rows (friends d) -> r2 ∈ rows (friends d) ->
    between (f_user_a r1) (f_user_b r1) r2 = true -> r1 = r2;
  po_key : unique (fun r => (f_user_a r, f_user_b r)) (friends d);
  po_status : forall r, r ∈ rows (friends d) -> f_status r = "pending" \/ f_status r = "accepted" }.

(** Two names written in either order. *)
Definition same_pair (a b x y : string) : Prop := (a = x /\ b = y) \/ (a = y /\ b = x).

#[export] Instance same_pair_dec a b x y : Decision (same_pair a b x y).
Proof. unfold same_pair. apply _. Defined.

Lemma between_true a b r :
  between a b r = true <-> same_pair (f_user_a r) (f_user_b r) a b.
Proof.
  unfold between, same_pair. rewrite orb_true_iff, !andb_true_iff, !bool_decide_eq_true. tauto.
Qed.

Lemma between_pair a b x y r : same_pair a b x y -> between x y r = between a b r.
Proof.
  intros H. apply eq_true_iff_eq. rewrite !between_true. unfold same_pair in *.
  destruct H as [[-> ->]|[-> ->]]; tauto.
Qed.

Lemma linkOf_pair a b x y d : same_pair a b x y -> linkOf x y d = linkOf a b d.
Proof.
  intros H. unfold linkOf, tfirst. replace (find_first (between x y) (rows (friends d)))
    with (find_first (between a b) (rows (friends d))); [done|].
  induction (rows (friends d)) as [|r l IH]; [done|]. simpl.
  rewrite (between_pair a b x y r H). by rewrite IH.
Qed.

(** The row of a pair, when there is one. *)
Lemma pair_row d a b r :
  pairs_ok d -> r ∈ rows (friends d) -> between a b r = true -> tfirst (between a b) (friends d) = Some r.
Proof.
  intros Hp Hr Hb. destruct (tfirst (between a b) (friends d)) as [r'|] eqn:E.
  - apply tfirst_Some in E as [Hr' Hb']. f_equal. apply (po_one d Hp); [done..|].
    apply between_true. apply between_true in Hb, Hb'. unfold same_pair in *. 
    destruct Hb as [[-> ->]|[-> ->]], Hb' as [[-> ->]|[-> ->]]; tauto.
  - apply tfirst_None in E. rewrite texists_false in E. by rewrite (E r Hr) in Hb.
Qed.

Lemma linkOf_none a b d : texists (between a b) (friends d) = false -> linkOf a b d = Strangers.
Proof. intros H. unfold linkOf. by rewrite (proj2 (tfirst_None _ _) H). Qed.

Lemma linkOf_Asked a b d from :
  pairs_ok d -> linkOf a b d = Asked from <->
  exists r, r ∈ rows (friends d) /\ between a b r = true /\ f_status r = "pending" /\ f_user_a r = from.
Proof.
  intros Hp. unfold linkOf. split.
  - destruct (tfirst _ _) as [r|] eqn:E; [|done]. apply tfirst_Some in E as [Hr Hb].
    case_bool_decide as Hs; [done|]. intros [= <-]. exists r. split_and!; try done.
    by destruct (po_status d Hp r Hr).
  - intros (r & Hr & Hb & Hs & <-). rewrite (pair_row d a b r Hp Hr Hb), Hs. done.
Qed.

(** What the code looks for when a request is answered. *)
Lemma pendingFrom_true from to r :
  pendingFrom from to r = true <-> f_user_a r = from /\ f_user_b r = to /\ f_status r = "pending".
Proof. unfold pendingFrom. rewrite !andb_true_iff, !bool_decide_eq_true. tauto. Qed.

Lemma pending_exists from to d :
  pairs_ok d ->
  texists (pendingFrom from to) (friends d) = bool_decide (linkOf from to d = Asked from).
Proof.
  intros Hp. apply eq_true_iff_eq. rewrite texists_true, bool_decide_eq_true, linkOf_Asked by done.
  setoid_rewrite pendingFrom_true. setoid_rewrite between_true. unfold same_pair. split.
  - intros (r & Hr & H1 & H2 & H3). exists r. tauto.
  - intros (r & Hr & Hb & Hs & Ha). exists r. split_and!; try done.
    destruct Hb as [[_ ?]|[? ?]]; congruence.
Qed.

(** ** The transitions *)

Lemma pairs_ok_delete p d : pairs_ok d -> pairs_ok (set_friends (tdelete p (friends d)) d).
Proof.
  intros [H1 H2 H3]. constructor; cbn [friends set_friends].
  - intros r1 r2 [Hr1 _]%elem_of_tdelete [Hr2 _]%elem_of_tdelete. by apply H1.
  - by apply unique_tdelete.
  - intros r [Hr _]%elem_of_tdelete. by apply H3.
Qed.

Lemma pairs_ok_accept p d :
  pairs_ok d -> pairs_ok (set_friends (tupdate p (set_f_status "accepted") (friends d)) d).
Proof.
  intros [H1 H2 H3]. constructor; cbn [friends set_friends].
  - intros r1 r2 (s1 & Hs1 & ->)%elem_of_tupdate (s2 & Hs2 & ->)%elem_of_tupdate Hb.
    assert (s1 = s2) as ->; [|done]. apply H1; [done..|].
    apply between_true. apply between_true in Hb. by destruct (p s1), (p s2).
  - by apply unique_tupdate.
  - intros r (s & Hs & ->)%elem_of_tupdate. destruct (p s); [by right | by apply H3].
Qed.

Lemma pairs_ok_insert a b d :
  pairs_ok d -> texists (between a b) (friends d) = false ->
  pairs_ok (set_friends (tinsert (fun _ => mkFriend a b "pending") (friends d)) d).
Proof.
  intros [H1 H2 H3] Hx. rewrite texists_false in Hx. constructor; cbn [friends set_friends].
  - intros r1 r2 [Hr1| ->]%elem_of_tinsert [Hr2| ->]%elem_of_tinsert Hb; [by apply H1 | | |done].
    + apply between_true in Hb. simpl in Hb.
      assert (between a b r1 = true) by (apply between_true; unfold same_pair in *;
        destruct Hb as [[<- <-]|[<- <-]]; tauto). rewrite Hx in *; done.
    + simpl in Hb. by rewrite Hx in Hb.
  - apply unique_tinsert; [|done]. intros r Hr [= Ha Hb']. specialize (Hx r Hr).
    assert (between a b r = true); [|congruence]. apply between_true. by left.
  - intros r [Hr| ->]%elem_of_tinsert; [by apply H3 | by left].
Qed.

(** A link as seen through the row of the pair. *)
Lemma linkOf_row a b d r :
  pairs_ok d -> r ∈ rows (friends d) -> between a b r = true ->
  linkOf a b d = if f_status r ==? "accepted" then Linked else Asked (f_user_a r).
Proof. intros Hp Hr Hb. unfold linkOf. by rewrite (pair_row d a b r Hp Hr Hb). Qed.

(** Deleting some rows: a pair loses its link exactly when its row goes. *)
Lemma linkOf_delete p a b d :
  pairs_ok d ->
  linkOf a b (set_friends (tdelete p (friends d)) d)
  = match tfirst (between a b) (friends d) with
    | Some r => if p r then Strangers else linkOf a b d
    | None => Strangers
    end.
Proof.
  intros Hp. pose proof (pairs_ok_delete p d Hp) as Hp'.
  destruct (tfirst (between a b) (friends d)) as [r|] eqn:E.
  - apply tfirst_Some in E as [Hr Hb]. destruct (p r) eqn:Ep.
    + apply linkOf_none. cbn [friends set_friends]. apply texists_false. intros r' [Hr' Hn]%elem_of_tdelete.
      destruct (between a b r') eqn:Hb'; [|done].
      pose proof (pair_row d a b r Hp Hr Hb) as E1. rewrite (pair_row d a b r' Hp Hr' Hb') in E1.
      congruence.
    + rewrite (linkOf_row a b d r), (linkOf_row a b _ r); try done. cbn [friends set_friends].
      by apply elem_of_tdelete.
  - apply linkOf_none. cbn [friends set_friends]. apply texists_false. intros r [Hr _]%elem_of_tdelete.
    apply tfirst_None in E. rewrite texists_false in E. by apply E.
Qed.

Lemma linkOf_accept p a b d :
  linkOf a b (set_friends (tupdate p (set_f_status "accepted") (friends d)) d)
  = match tfirst (between a b) (friends d) with
    | Some r => if p r then Linked else linkOf a b d
    | None => Strangers
    end.
Proof.
  unfold linkOf. simpl. rewrite tfirst_tupdate by done.
  destruct (tfirst _ _) as [r|]; simpl; [|done]. by destruct (p r).
Qed.

Lemma linkOf_insert a b x y d :
  pairs_ok d -> texists (between a b) (friends d) = false ->
  linkOf x y (set_friends (tinsert (fun _ => mkFriend a b "pending") (friends d)) d)
  = if decide (same_pair a b x y) then Asked a else linkOf x y d.
Proof.
  intros Hp Hx. pose proof (pairs_ok_insert a b d Hp Hx) as Hp'. case_decide as Hs.
  - rewrite (linkOf_row x y _ (mkFriend a b "pending")); [done..| |by apply between_true].
    cbn [friends set_friends]. apply elem_of_tinsert. by right.
  - destruct (texists (between x y) (friends d)) eqn:E.
    + apply texists_true in E as (r & Hr & Hb). rewrite (linkOf_row x y d r), (linkOf_row x y _ r); try done.
      cbn [friends set_friends]. apply elem_of_tinsert. by left.
    + rewrite !linkOf_none; [done..|]. cbn [friends set_friends]. apply texists_false.
      intros r [Hr| ->]%elem_of_tinsert; [by apply (proj1 (texists_false _ _) E)|].
      destruct (between x y _) eqn:Hb; [|done]. by apply between_true in Hb.
Qed.

(** The effect of an operation on every pair: the abstract step on its own
    pair, nothing elsewhere. *)
Definition refines (op : fop) (blocked : bool) (d d' : Database) (ok : bool) : Prop :=
  let s := link_step blocked op (linkOf (asker op) (asked op) d) in
  ok = s.2 /\ pairs_ok d' /\
  forall x y, linkOf x y d' = if decide (same_pair (asker op) (asked op) x y) then s.1 else linkOf x y d.

Lemma tfirst_pair a b x y d :
  same_pair a b x y -> tfirst (between x y) (friends d) = tfirst (between a b) (friends d).
Proof.
  intros H. unfold tfirst. induction (rows (friends d)) as [|r l IH]; [done|]. simpl.
  by rewrite (between_pair a b x y r H), IH.
Qed.

(** A row of another pair is not the one an operation on [(a, b)] selects. *)
Lemma other_pair a b x y r :
  ~ same_pair a b x y -> between x y r = true -> between a b r = false.
Proof.
  intros Hn Hb. destruct (between a b r) eqn:E; [|done]. destruct Hn.
  apply between_true in Hb, E. unfold same_pair in *.
  destruct Hb as [[<- <-]|[<- <-]], E as [[<- <-]|[<- <-]]; tauto.
Qed.

Lemma pendingFrom_between from to r : pendingFrom from to r = true -> between from to r = true.
Proof. rewrite pendingFrom_true, between_true. unfold same_pair. tauto. Qed.

(** The row of a pair is pending from [from] exactly when [from] has asked. *)
Lemma row_pending from to d r :
  pairs_ok d -> tfirst (between from to) (friends d) = Some r ->
  pendingFrom from to r = bool_decide (linkOf from to d = Asked from).
Proof.
  intros Hp E. pose proof E as [Hr Hb]%tfirst_Some. apply eq_true_iff_eq.
  rewrite pendingFrom_true, bool_decide_eq_true. unfold linkOf. rewrite E.
  destruct (po_status d Hp r Hr) as [->| ->]; [|by split; [intros (_ & _ & [=])|]]. simpl.
  apply between_true in Hb. unfold same_pair in Hb. split; [by intros (-> & _)|].
  intros [= Ha]. split_and!; try done. destruct Hb as [[_ ?]|[? ?]]; congruence.
Qed.

Lemma send_refines from to d :
  pairs_ok d -> texists (between from to) (friends d) = false ->
  refines (FSend from to) false d
    (set_friends (tinsert (fun _ => mkFriend from to "pending") (friends d)) d) true.
Proof.
  intros Hp Hx. unfold refines. simpl. rewrite linkOf_none by done. simpl. split_and!; [done| |].
  - by apply pairs_ok_insert.
  - intros x y. by apply linkOf_insert.
Qed.

(** Nothing written, nothing changed. *)
Lemma refines_same op blocked d ok :
  pairs_ok d -> link_step blocked op (linkOf (asker op) (asked op) d)
                = (linkOf (asker op) (asked op) d, ok) ->
  refines op blocked d d ok.
Proof.
  intros Hp E. unfold refines. rewrite E. split_and!; [done..|]. intros x y.
  case_decide as H; [|done]. by apply linkOf_pair.
Qed.

Lemma delete_refines p op blocked d s :
  pairs_ok d -> link_step blocked op (linkOf (asker op) (asked op) d) = (s, true) ->
  (forall r, p r = true -> between (asker op) (asked op) r = true) ->
  s = match tfirst (between (asker op) (asked op)) (friends d) with
      | Some r => if p r then Strangers else linkOf (asker op) (asked op) d
      | None => Strangers
      end ->
  refines op blocked d (set_friends (tdelete p (friends d)) d) true.
Proof.
  intros Hp Es Hpb Hs. unfold refines. rewrite Es. split_and!; [done|by apply pairs_ok_delete|].
  intros x y. rewrite linkOf_delete by done. case_decide as Hd; simpl.
  - rewrite (tfirst_pair _ _ _ _ d Hd), Hs. by rewrite (linkOf_pair _ _ _ _ d Hd).
  - destruct (tfirst (between x y) _) as [r|] eqn:E.
    + destruct (p r) eqn:Ep; [|done]. apply tfirst_Some in E as [_ Hb].
      specialize (Hpb r Ep). by rewrite (other_pair _ _ _ _ _ Hd Hb) in Hpb.
    + apply tfirst_None in E. by rewrite linkOf_none.
Qed.

Lemma accept_refines from to blocked d :
  pairs_ok d -> linkOf from to d = Asked from ->
  refines (FAccept from to) blocked d
    (set_friends (tupdate (pendingFrom from to) (set_f_status "accepted") (friends d)) d) true.
Proof.
  intros Hp Hl. unfold refines. simpl. rewrite Hl, bool_decide_eq_true_2 by done. simpl.
  split_and!; [done | by apply pairs_ok_accept |]. intros x y. rewrite linkOf_accept.
  case_decide as Hd.
  - rewrite (tfirst_pair _ _ _ _ d Hd). destruct (tfirst _ _) as [r|] eqn:E.
    + by rewrite (row_pending from to d r Hp E), Hl, bool_decide_eq_true_2.
    + apply tfirst_None in E. rewrite linkOf_none in Hl by done. done.
  - destruct (tfirst (between x y) _) as [r|] eqn:E.
    + destruct (pendingFrom from to r) eqn:Ep; [|done]. apply tfirst_Some in E as [_ Hb].
      apply pendingFrom_between in Ep. by rewrite (other_pair _ _ _ _ _ Hd Hb) in Ep.
    + apply tfirst_None in E. by rewrite linkOf_none.
Qed.

(** Whether either of the two blocks the other. *)
Definition eitherBlocks (a b : string) (d : Database) : bool := blocksIn b a d || blocksIn a b d.

Lemma isBlocked_run a b w : sql_ok w -> isBlocked a b w = (blocksIn a b (wDB w), tickSql w).
Proof. intros Hok. unfold isBlocked. sqlrun. by destruct (blocksIn _ _ _). Qed.

Lemma orBlocked_run a b w :
  sql_ok w -> exists n, orM (isBlocked b a) (isBlocked a b) w
                        = (eitherBlocks a b (wDB w), set_wSqlTick n w).
Proof.
  intros Hok. unfold orM, eitherBlocks. rewrite bind_run, isBlocked_run by done. cbn [fst snd].
  destruct (blocksIn b a (wDB w)); cbn [orb].
  - eexists. rewrite ret_run. by destruct w.
  - rewrite isBlocked_run by sqlside. eexists. by destruct w.
Qed.

(** C19: friendship is the abstract state machine.  When statements succeed
    and each pair has at most one row, every operation of [main.go] on the
    friends table - request, accept, reject, remove - is exactly the abstract
    transition of its pair: a request needs strangers and no block either way;
    only the user who was asked can accept, and only while the request is
    pending; a link is the same seen from both sides.  The error it returns is
    the abstract refusal, the links of all other pairs are untouched, and
    there is still at most one row per pair. *)
Theorem friendship_refines op w :
  sql_ok w -> pairs_ok (wDB w) ->
  refines op (eitherBlocks (asker op) (asked op) (wDB w)) (wDB w) (wDB (run_fop op w).2)
    (bool_decide ((run_fop op w).1 = None)).
Proof.
  intros Hok Hp. destruct op as [a b|a b|a b|a b]; simpl.
  - unfold sendFriendRequest. rewrite bind_run.
    destruct (orBlocked_run a b w Hok) as [n ->]. cbn [fst snd].
    destruct (eitherBlocks a b (wDB w)) eqn:Eb; [by apply refines_same|].
    rewrite bind_run, ok_CountOr0 by (intros i; apply Hok). world_cbn. rewrite tcount_pos.
    destruct (texists (between a b) (friends (wDB w))) eqn:E.
    + apply refines_same; [done|]. simpl. unfold linkOf.
      destruct (tfirst _ _) as [r|] eqn:Er; [by destruct (f_status r ==? "accepted")|].
      apply tfirst_None in Er. congruence.
    + rewrite bind_run, ok_Exec by (intros i; apply Hok). world_cbn. unfold insertFriend.
      unfold tinsert_unique. rewrite (proj2 (texists_false _ _)); [by apply send_refines|].
      intros r Hr. rewrite texists_false in E. specialize (E r Hr). unfold between in E.
      by apply orb_false_iff in E as [? _].
  - unfold acceptFriendRequest. sqlrun.
    pose proof (pending_exists a b (wDB w) Hp) as Hx.
    destruct (tcount _ _ =? 0) eqn:E; bools.
    + apply tcount_zero in E. rewrite tupdate_none by done.
      replace (set_friends (friends (wDB w)) (wDB w)) with (wDB w) by (by destruct (wDB w)).
      apply refines_same; [done|]. rewrite E in Hx. simpl. by rewrite <- Hx.
    + apply accept_refines; [done|]. destruct (texists (pendingFrom a b) (friends (wDB w))) eqn:E2.
      * symmetry in Hx. by apply bool_decide_eq_true in Hx.
      * apply tcount_zero in E2. lia.
  - unfold rejectFriendRequest. sqlrun. simpl.
    apply (delete_refines (pendingFrom a b) (FReject a b) _ _
      (if bool_decide (linkOf a b (wDB w) = Asked a) then Strangers else linkOf a b (wDB w))); [done| | |].
    + simpl. destruct (bool_decide _); reflexivity.
    + apply pendingFrom_between.
    + simpl. destruct (tfirst _ _) as [r|] eqn:Er.
      * rewrite (row_pending a b (wDB w) r Hp Er). by destruct (bool_decide _).
      * apply tfirst_None in Er. rewrite linkOf_none by done. by case_bool_decide.
  - unfold removeFriend. sqlrun. simpl.
    eapply (delete_refines (between a b) (FRemove a b)); [done|reflexivity|done|]. simpl.
    destruct (tfirst _ _) as [r|] eqn:Er; [|done]. apply tfirst_Some in Er as [_ ->]. done.
Qed.

Lemma friendship_refines_witness :
  linkOf "carol" "alice" sampleDB = Asked "carol"
  /\ linkOf "alice" "carol" (wDB (run_fop (FAccept "carol" "alice") sampleW).2) = Linked
  /\ linkOf "alice" "bob" (wDB (run_fop (FAccept "carol" "alice") sampleW).2) = Linked.
Proof.
  assert (Hp : pairs_ok (wDB sampleW)).
  { constructor; [|apply sampleDB_wf|].
    - intros r1 r2 H1 H2. simpl in H1, H2. elem_cases H1; elem_cases H2; by vm_compute.
    - intros r Hr. simpl in Hr. elem_cases Hr; [by right | by left]. }
  destruct (friendship_refines (FAccept "carol" "alice") sampleW sampleW_ok Hp) as (_ & _ & H).
  split; [reflexivity|]. split; rewrite H; reflexivity.
Defined.

(** ** Blocks are silent *)

(** The frames a connection receives in a list of events. *)
Definition seenBy (c : nat) (l : list Event) : list Event :=
  boolfilter (fun e => match e with EvSend c' _ => c' ==? c | _ => false end) l.

Lemma seenBy_frames_other c w cs m : c ∉ cs -> seenBy c (frames w cs m) = [].
Proof.
  intros Hc. apply boolfilter_false, Forall_forall. intros e He.
  unfold frames in He. apply list_elem_of_fmap in He as (c' & -> & Hin).
  apply elem_of_boolfilter in Hin as [_ Hin]. apply bool_decide_eq_false. congruence.
Qed.

Lemma Send__frames c m w : Send_ c m w = (tt, set_wOut (wOut w ++ frames w [c] m) w).
Proof.
  unfold Send_. rewrite bind_run, ret_run, Send_writable. unfold frames. rewrite boolfilter_cons.
  destruct (writable w c); simpl; [done|]. by rewrite set_wOut_nil.
Qed.

Lemma sendTo__frames u m w :
  sendTo_ u m w = (tt, set_wOut (wOut w ++ frames w (connsOf (wSrv w) u) m) w).
Proof. unfold sendTo_. by rewrite bind_run, ret_run, sendTo_spec. Qed.

Definition requestSent (msg : NexusMessage) : NexusMessage :=
  nm "friend_request_sent" |> set_mRecipient (mRecipient msg).

Lemma blocked_request client u msg w :
  sql_ok w -> u <> "" -> eitherBlocks u (mRecipient msg) (wDB w) = true ->
  let w' := (case_friend_request client u msg w).2 in
  wDB w' = wDB w /\ wOut w' = wOut w ++ frames w [client] (requestSent msg).
Proof.
  intros Hok Hu Hb. cbv zeta. unfold case_friend_request, is_empty. rewrite (eqb_neq_dec u "" Hu).
  cbv iota. rewrite bind_run. unfold sendFriendRequest. rewrite bind_run.
  destruct (orBlocked_run u (mRecipient msg) w Hok) as [n ->]. rewrite Hb. cbn [fst snd].
  rewrite ret_run. cbn [fst snd]. rewrite eqb_refl_dec, Send__frames. done.
Qed.

(** A request between strangers: the row, the answer, the notice. *)
Lemma granted_request client u msg w :
  sql_ok w -> u <> "" -> eitherBlocks u (mRecipient msg) (wDB w) = false ->
  texists (between u (mRecipient msg)) (friends (wDB w)) = false ->
  wOut (case_friend_request client u msg w).2
  = (wOut w ++ frames w [client] (requestSent msg))
    ++ frames w (connsOf (wSrv w) (mRecipient msg)) (nm "friend_request" |> set_mSender u).
Proof.
  intros Hok Hu Hb Hx. unfold case_friend_request, is_empty. rewrite (eqb_neq_dec u "" Hu).
  cbv iota. rewrite bind_run. unfold sendFriendRequest. rewrite bind_run.
  destruct (orBlocked_run u (mRecipient msg) w Hok) as [n ->]. rewrite Hb. cbn [fst snd].
  rewrite bind_run, ok_CountOr0 by (intros i; apply Hok). world_cbn.
  rewrite (proj2 (tcount_zero _ _)) by done. change (0 <? 0) with false. cbv iota.
  rewrite bind_run, ok_Exec by (intros i; apply Hok). world_cbn. unfold insertFriend, tinsert_unique.
  rewrite (proj2 (texists_false _ _)).
  2: { intros r Hr. rewrite texists_false in Hx. specialize (Hx r Hr). unfold between in Hx.
       by apply orb_false_iff in Hx as [? _]. }
  cbn [fst snd ret]. rewrite bind_run, Send__frames, sendTo__frames. done.
Qed.

(** A block cannot be noticed.  When either user blocks the other, a
    friend request writes nothing and tells its target nothing, and the sender
    is answered exactly as if it had gone through: against any other database
    in which the two are unblocked strangers, the frames the sender's
    connection receives are the same. *)
Theorem blocked_request_silent client u msg w d :
  sql_ok w -> u <> "" -> client ∉ connsOf (wSrv w) (mRecipient msg) ->
  eitherBlocks u (mRecipient msg) (wDB w) = true ->
  eitherBlocks u (mRecipient msg) d = false -> linkOf u (mRecipient msg) d = Strangers ->
  let blocked := (case_friend_request client u msg w).2 in
  let granted := (case_friend_request client u msg (set_wDB d w)).2 in
  wDB blocked = wDB w
  /\ (forall c, c <> client -> seenBy c (wOut blocked) = seenBy c (wOut w))
  /\ seenBy client (wOut blocked) = seenBy client (wOut granted).
Proof.
  intros Hok Hu Hc Hb Hd Hl blocked granted.
  destruct (blocked_request client u msg w Hok Hu Hb) as [E1 E2]. fold blocked in E1, E2.
  assert (Hx : texists (between u (mRecipient msg)) (friends d) = false).
  { unfold linkOf in Hl. destruct (tfirst _ _) as [r|] eqn:E; [|by apply tfirst_None in E].
    by destruct (f_status r ==? "accepted"). }
  pose proof (granted_request client u msg (set_wDB d w) (sql_ok_DB d w Hok) Hu Hd Hx) as E3.
  fold granted in E3. split_and!; [done| |].
  - intros c Hne. rewrite E2. unfold seenBy at 1. rewrite boolfilter_app.
    fold (seenBy c (wOut w)). fold (seenBy c (frames w [client] (requestSent msg))).
    rewrite seenBy_frames_other, app_nil_r; [done|]. apply not_elem_of_cons. split; [done|]. apply not_elem_of_nil.
  - rewrite E2, E3. unfold seenBy at 2. rewrite boolfilter_app.
    change (connsOf (wSrv (set_wDB d w))) with (connsOf (wSrv w)).
    change (boolfilter _ (frames (set_wDB d w) (connsOf (wSrv w) (mRecipient msg)) ?m))
      with (seenBy client (frames (set_wDB d w) (connsOf (wSrv w) (mRecipient msg)) m)).
    rewrite (seenBy_frames_other client), app_nil_r by done. done.
Qed.

Definition blockDB : Database :=
  set_blocks (tableOf [mkBlock "dave" "alice" T0]) sampleDB.

Lemma blocked_request_silent_witness :
  let msg := nm "friend_request" |> set_mRecipient "dave" in
  let w := set_wDB blockDB sampleW in
  wDB (case_friend_request 1 "alice" msg w).2 = blockDB
  /\ seenBy 1 (wOut (case_friend_request 1 "alice" msg w).2)
     = seenBy 1 (wOut (case_friend_request 1 "alice" msg (set_wDB sampleDB w)).2).
Proof.
  intros msg w. destruct (blocked_request_silent 1 "alice" msg w sampleDB) as (A & _ & B);
    try reflexivity; [by intros n | discriminate | |by split].
  apply (bool_decide_eq_false_1 _). reflexivity.
Defined.
