(* ===== verification/Rewards.v ===== *)
(** * Reward crates ([rewards.go], [referrals.go])

    A verified referral earns its referrer a crate, within anti-farming
    limits; opening a crate rolls a cosmetic under published odds with a pity
    floor; duplicates become shards; shards craft missing items.  The odds,
    the pity ceiling, the limits and the accounting are what the theorems
    state. *)

From Stdlib Require Import ZArith Lia.
From stdpp Require Import base strings list gmap.
From S2P Require Import Prelude GoRt Store Wire Db World Wf Samples Registry Social.

Open Scope string_scope.
Open Scope list_scope.
Open Scope Z_scope.

(** ** The catalog and the tables of numbers *)

Record rewardItem := mkItem { riID : string; riKind : string; riRarity : string }.

Definition rewardCatalog : list rewardItem := [
  mkItem "squad" "emoticon" "common";
  mkItem "cheers" "emoticon" "common";
  mkItem "boba" "emoticon" "common";
  mkItem "sticker-hello" "sticker" "common";
  mkItem "sticker-gg" "sticker" "common";
  mkItem "comet" "emoticon" "rare";
  mkItem "rocket" "emoticon" "rare";
  mkItem "sticker-cat" "sticker" "rare";
  mkItem "fx-confetti" "effect" "rare";
  mkItem "fx-hearts" "effect" "rare";
  mkItem "crown" "emoticon" "epic";
  mkItem "diamond" "emoticon" "epic";
  mkItem "sticker-cosmic" "sticker" "epic";
  mkItem "fx-fireworks" "effect" "epic";
  mkItem "legend" "emoticon" "legendary";
  mkItem "fx-aurora" "effect" "legendary" ].

Definition rarityOrder : list string := ["common"; "rare"; "epic"; "legendary"].

(** A missing key of a Go map reads as zero. *)
Definition assoc0 (l : list (string * Z)) (k : string) : Z :=
  default 0 (snd <$> find_first (fun kv => kv.1 ==? k) l).

Definition rarityWeight : string -> Z :=
  assoc0 [("common", 60); ("rare", 28); ("epic", 10); ("legendary", 2)].

Definition pityRareAfter : Z := 3.
Definition pityEpicAfter : Z := 9.

Definition shardsForDuplicate : string -> Z :=
  assoc0 [("common", 10); ("rare", 30); ("epic", 80); ("legendary", 250)].
Definition craftCosts : list (string * Z) :=
  [("common", 30); ("rare", 90); ("epic", 250); ("legendary", 700)].

Definition craftCost : string -> Z := assoc0 craftCosts.

Definition maxCratesPerSignupIP : Z := 2.
Definition maxCratesPerDay : Z := 5.

Fixpoint indexOf (r : string) (l : list string) : option Z :=
  match l with
  | [] => None
  | x :: l' => if x ==? r then Some 0 else (fun i => i + 1) <$> indexOf r l'
  end.

Definition rarityRank (r : string) : Z := default 0 (indexOf r rarityOrder).

Definition rewardByID (id : string) : option rewardItem :=
  find_first (fun it => riID it ==? id) rewardCatalog.

(** ** Rolling *)

(** One step of the walk of [pityCounters]. *)
Definition pityStep (c : Z * Z) (id : string) : Z * Z :=
  match rewardByID id with
  | None => c
  | Some it =>
      (if 1 <=? rarityRank (riRarity it) then 0 else c.1 + 1,
       if 2 <=? rarityRank (riRarity it) then 0 else c.2 + 1)
  end.

Definition pityCounters (opened : list string) : Z * Z := foldl pityStep (0, 0) opened.

(** The lowest rank the pity rules allow. *)
Definition pityFloor (sinceRare sinceEpic : Z) : Z :=
  if pityEpicAfter <=? sinceEpic then 2
  else if pityRareAfter <=? sinceRare then 1 else 0.

Definition totalWeight (floor : Z) : Z :=
  tsum (fun r => if floor <=? rarityRank r then rarityWeight r else 0) rarityOrder.

(** The loop that spends [n] on the weights of the allowed rarities. *)
Fixpoint rarityLoop (floor n : Z) (order : list string) (dflt : string) : string :=
  match order with
  | [] => dflt
  | r :: order' =>
      if rarityRank r <? floor then rarityLoop floor n order' dflt
      else if n <? rarityWeight r then r
      else rarityLoop floor (n - rarityWeight r) order' dflt
  end.

Definition pickRarity (floor n : Z) : string :=
  rarityLoop floor n rarityOrder (nth (Z.to_nat floor) rarityOrder "").

Definition ofRarity (rarity : string) : list rewardItem :=
  boolfilter (fun c => riRarity c ==? rarity) rewardCatalog.

Definition owns (owned : list string) (id : string) : bool := existsb (fun o => o ==? id) owned.

Definition freshOf (owned : list string) (rarity : string) : list rewardItem :=
  boolfilter (fun c => negb (owns owned (riID c))) (ofRarity rarity).

(** [intn n] draws below [n]; its [None] is the panic of [cryptoIntn], and
    an index out of range panics too. *)
Definition rollReward {S} (intn : Z -> ST S (option Z)) (owned : list string)
    (sinceRare sinceEpic : Z) : ST S (option (rewardItem * bool)) :=
  let floor := pityFloor sinceRare sinceEpic in
  let* n := intn (totalWeight floor) in
  match n with
  | None => ret None
  | Some n =>
      let rarity := pickRarity floor n in
      let fresh := freshOf owned rarity in
      let all := ofRarity rarity in
      let '(pool, dupe) := match fresh with [] => (all, true) | _ => (fresh, false) end in
      let* i := intn (Z.of_nat (length pool)) in
      match i with
      | None => ret None
      | Some i => ret ((fun it => (it, dupe)) <$> nth_error pool (Z.to_nat i))
      end
  end.

Definition cryptoIntn (n : Z) : M (option Z) := randBelow n.

(** ** Crates *)

Record cand := mkCand { candUser : string; candIP : string }.

Definition crateCands (owner : string) (d : Database) : list cand :=
  (fun u => mkCand (u_username u) (u_signup_ip u)) <$>
    order_by u_created_at (order_str u_username
      (tselect (fun u => (u_referred_by u ==? owner) && (u_is_verified u =? 1)
                         && negb (texists (fun c => rc_source c ==? u_username u) (reward_crates d)))
         (users d))).

Definition cratesToday (owner : string) (now : Z) (d : Database) : Z :=
  tcount (fun c => (rc_owner c ==? owner) && (sqlNow now - 24 * Hour <? rc_created_at c))
    (reward_crates d).

(** The rows of [reward_crates rc JOIN users u ON u.username = rc.source]. *)
Definition cratesFromIP (owner ip : string) (d : Database) : Z :=
  tsum (fun c => tcount (fun u => (u_username u ==? rc_source c) && (u_signup_ip u ==? ip)) (users d))
    (tselect (fun c => rc_owner c ==? owner) (reward_crates d)).

Definition insertCrate (owner source : string) (now : Z) (d : Database) : Database :=
  set_reward_crates
    (tinsert_ignore (fun c => rc_source c ==? source)
       (fun id => mkRewardCrate id owner source None 0 (sqlNow now) None) (reward_crates d)) d.

(** One iteration; [None] is [break]. *)
Definition syncOne (owner : string) (c : cand) : M (option Z) :=
  let* now := getNow in
  let* today := CountOr0 (cratesToday owner now) in
  if maxCratesPerDay <=? today then ret None
  else
    let* sameIP := (if is_empty (candIP c) then ret 0
                    else CountOr0 (cratesFromIP owner (candIP c))) in
    if maxCratesPerSignupIP <=? sameIP then ret (Some 0)
    else
      let* n := ExecN (fun d => if texists (fun r => rc_source r ==? candUser c) (reward_crates d)
                                then 0 else 1)
                      (insertCrate owner (candUser c) now) in
      ret (Some (match n with Some n => if 0 <? n then 1 else 0 | None => 0 end)).

Fixpoint syncLoop (owner : string) (cs : list cand) (granted : Z) : M Z :=
  match cs with
  | [] => ret granted
  | c :: cs' =>
      let* r := syncOne owner c in
      match r with
      | None => ret granted
      | Some k => syncLoop owner cs' (granted + k)
      end
  end.

Definition syncCrates (owner : string) : M Z :=
  let* cands := Query (crateCands owner) in
  match cands with
  | None => ret 0
  | Some cs => syncLoop owner cs 0
  end.

Definition isUnopened (owner : string) (c : RewardCrate) : bool :=
  (rc_owner c ==? owner) && bool_decide (rc_item c = None).

Definition unopenedCrates (owner : string) : M Z :=
  CountOr0 (fun d => tcount (isUnopened owner) (reward_crates d)).

Definition rolledOf (owner : string) (d : Database) : list string :=
  omap rc_item
    (order_by (fun c => default 0 (rc_opened_at c)) (order_by rc_id
      (tselect (fun c => (rc_owner c ==? owner) && negb (bool_decide (rc_item c = None)))
         (reward_crates d)))).

Definition rolledItems (owner : string) : M (list string) :=
  let* r := Query (rolledOf owner) in ret (default [] r).

Definition craftsOf (owner : string) (d : Database) : list string :=
  rf_item <$> tselect (fun r => rf_owner r ==? owner) (reward_crafts d).

(** The inventory of a set of item ids, in catalog order. *)
Definition inventory (have : list string) : list string :=
  riID <$> boolfilter (fun c => owns have (riID c)) rewardCatalog.

Definition openedItems (owner : string) : M (list string) :=
  let* rolled := rolledItems owner in
  let* crafted := Query (craftsOf owner) in
  ret (inventory (rolled ++ default [] crafted)).

Definition shardsGained (owner : string) (d : Database) : Z :=
  tsum rc_shards (tselect (fun c => rc_owner c ==? owner) (reward_crates d)).
Definition shardsSpent (owner : string) (d : Database) : Z :=
  tsum rf_cost (tselect (fun r => rf_owner r ==? owner) (reward_crafts d)).

Definition shardBalance (owner : string) : M Z :=
  let* gained := CountOr0 (shardsGained owner) in
  let* spent := CountOr0 (shardsSpent owner) in
  ret (gained - spent).

Inductive rewardErr := errNoCrates | errUnknown | errOwned | errNotEnough | errBusy | errSQL | rollPanic.

Definition rewardErr_Error (e : rewardErr) : string :=
  match e with
  | errNoCrates => "You don't have any crates to open"
  | errUnknown => "Unknown reward"
  | errOwned => "You already own that"
  | errNotEnough => "Not enough shards"
  | errBusy => "Busy " +:+ of_bytes [226; 128; 148] +:+ " try again"
  | errSQL => err_text EEngine
  | rollPanic => "crypto/rand"
  end.

(** What [openCrate] decides before its conditional update. *)
Record rolled := mkRolled {
  roCrate : Z;
  roItem : rewardItem;
  roDupe : bool;
  roShards : Z }.

Definition oldestUnopened (owner : string) (d : Database) : option Z :=
  rc_id <$> head (order_by rc_id (tselect (isUnopened owner) (reward_crates d))).

Definition openRoll (owner : string) : M (rewardErr + rolled) :=
  let* id := QueryRowE (oldestUnopened owner) in
  match id with
  | NoRows => ret (inl errNoCrates)
  | RowErr => ret (inl errSQL)
  | Row crateID =>
      let* owned := openedItems owner in
      let* rolledL := rolledItems owner in
      let '(sinceRare, sinceEpic) := pityCounters rolledL in
      let* r := rollReward cryptoIntn owned sinceRare sinceEpic in
      ret (match r with
           | None => inl rollPanic
           | Some (it, dupe) =>
               inr (mkRolled crateID it dupe (if dupe then shardsForDuplicate (riRarity it) else 0))
           end)
  end.

Definition isCrateToOpen (id : Z) (c : RewardCrate) : bool :=
  (rc_id c =? id) && bool_decide (rc_item c = None).

(** [UPDATE reward_crates SET ... WHERE id = ? AND item IS NULL] *)
Definition spendCrate (now : Z) (r : rolled) (d : Database) : Database :=
  set_reward_crates
    (tupdate (isCrateToOpen (roCrate r))
       (fun c => set_rc_opened_at (Some (sqlNow now)) (set_rc_shards (roShards r)
                   (set_rc_item (Some (riID (roItem r))) c))) (reward_crates d)) d.

Definition openSpend (r : rolled) : M (rewardErr + rolled) :=
  let* now := getNow in
  let* n := ExecN (fun d => tcount (isCrateToOpen (roCrate r)) (reward_crates d)) (spendCrate now r) in
  ret (match n with
       | None => inl errSQL
       | Some n => if n =? 1 then inr r else inl errBusy
       end).

Definition openCrate (owner : string) : M (rewardErr + rolled) :=
  let* r := openRoll owner in
  match r with
  | inl e => ret (inl e)
  | inr r => openSpend r
  end.

Definition insertCraft (owner itemID : string) (cost : Z) (d : Database) : sqlerr + (Database * Z) :=
  match tinsert_unique (fun r => (rf_owner r ==? owner) && (rf_item r ==? itemID))
          (fun _ => mkRewardCraft owner itemID cost) (reward_crafts d) with
  | None => inl (EUnique "reward_crafts.owner, reward_crafts.item")
  | Some t => inr (set_reward_crafts t d, 1)
  end.

(** The checks of [craftReward]. *)
Definition craftCheck (owner itemID : string) : M (rewardErr + rewardItem) :=
  match rewardByID itemID with
  | None => ret (inl errUnknown)
  | Some it =>
      let* have := openedItems owner in
      if owns have itemID then ret (inl errOwned)
      else
        let* bal := shardBalance owner in
        if bal <? craftCost (riRarity it) then ret (inl errNotEnough) else ret (inr it)
  end.

(** Its insert. *)
Definition craftCommit (owner itemID : string) (it : rewardItem) : M (rewardErr + rewardItem) :=
  let* r := Exec (insertCraft owner itemID (craftCost (riRarity it))) in
  ret (match r with
       | inr _ => inr it
       | inl e => if Contains (err_text e) "UNIQUE" then inl errOwned else inl errSQL
       end).

Definition craftReward (owner itemID : string) : M (rewardErr + rewardItem) :=
  let* r := craftCheck owner itemID in
  match r with
  | inl e => ret (inl e)
  | inr it => craftCommit owner itemID it
  end.

(** ** [referrals.go] *)

Definition ambassadorAt : Z := 10.

Definition verifiedReferralCount (username : string) : M Z :=
  CountOr0 (fun d => tcount (fun u => (u_referred_by u ==? username) && (u_is_verified u =? 1)) (users d)).

Definition isAmbassador (username : string) : M bool :=
  let* n := verifiedReferralCount username in ret (ambassadorAt <=? n).

Definition sendReferralPerks (client : nat) (username : string) (friends : list string) : M unit :=
  let* perks := foldM (fun perks u =>
      let* items := openedItems u in
      ret (if bool_decide (items = []) then perks else <[u := items]> perks))
    (∅ : gmap string (list string)) (username :: friends) in
  let* n := unopenedCrates username in
  Send_ client (nm "referral_perks" |> set_mPerks perks |> set_mCrates n).

(** The inventories of several users, as [perks] carries them. *)
Definition pushPerks (username : string) : M unit :=
  let* items := openedItems username in
  let msg := nm "referral_perks" |> set_mPerks {[ username := items ]} in
  sendTo_ username msg ;;;
  let* friends := getFriends username in
  forM friends (fun f => sendTo_ f msg).

Definition onReferralVerified (username : string) : M unit :=
  let* ref := QueryRow (fun d => u_referred_by <$> tfirst (fun u => u_username u ==? username) (users d)) in
  match ref with
  | None => ret tt
  | Some ref =>
      if is_empty ref then ret tt
      else
        let* count := verifiedReferralCount ref in
        let* granted := syncCrates ref in
        if 0 <? granted then
          let* n := unopenedCrates ref in
          sendTo_ ref (nm "crate_earned" |> set_mSender username |> set_mToken (Itoa count)
                       |> set_mCrates n)
        else sendTo_ ref (nm "referral_joined" |> set_mSender username |> set_mToken (Itoa count))
  end.

(** ** The messages ([ws_handlers.go]) *)

Section Cases.
Context (client : nat) (username : string) (msg : NexusMessage).

Definition case_get_referral_stats : M unit :=
  if is_empty username then ret tt
  else
    syncCrates username ;;;
    let* count := verifiedReferralCount username in
    let* rows := Query (fun d => take 50 (order_by_desc u_created_at
                     (tselect (fun u => u_referred_by u ==? username) (users d)))) in
    let rows := default [] rows in
    let referred := u_username <$> boolfilter (fun u => u_is_verified u =? 1) rows in
    let pending := u_username <$> boolfilter (fun u => negb (u_is_verified u =? 1)) rows in
    let* crates := unopenedCrates username in
    let* items := openedItems username in
    let* shards := shardBalance username in
    Send_ client (nm "referral_stats" |> set_mResults referred |> set_mMembers pending
                  |> set_mToken (Itoa count) |> set_mCrates crates |> set_mItems items
                  |> set_mDuration (Z.max (ambassadorAt - count) 0)
                  |> set_mShards shards |> set_mCosts craftCosts).

(** A panic unwinds the handler: nothing is sent. *)
Definition case_open_crate : M unit :=
  if is_empty username then ret tt
  else
    let* r := openCrate username in
    match r with
    | inl rollPanic => ret tt
    | inl e =>
        let* n := unopenedCrates username in
        Send_ client (nm "crate_opened" |> set_mError (rewardErr_Error e) |> set_mCrates n)
    | inr r =>
        let* n := unopenedCrates username in
        let* items := openedItems username in
        let* shards := shardBalance username in
        Send_ client (nm "crate_opened" |> set_mItem (riID (roItem r))
                      |> set_mStatus (riRarity (roItem r)) |> set_mDupe (roDupe r)
                      |> set_mShardsGained (roShards r) |> set_mCrates n |> set_mItems items
                      |> set_mShards shards) ;;;
        pushPerks username
    end.

Definition case_craft_reward : M unit :=
  if is_empty username then ret tt
  else
    let* r := craftReward username (mItem msg) in
    match r with
    | inl e =>
        let* shards := shardBalance username in
        Send_ client (nm "craft_result" |> set_mError (rewardErr_Error e) |> set_mShards shards)
    | inr it =>
        let* items := openedItems username in
        let* shards := shardBalance username in
        Send_ client (nm "craft_result" |> set_mItem (riID it) |> set_mStatus (riRarity it)
                      |> set_mItems items |> set_mShards shards) ;;;
        pushPerks username
    end.
End Cases.

(** ** Frames: every operation keeps the database invariant *)

Lemma safe_syncOne owner c : respects safe (syncOne owner c).
Proof. frame_deep. Qed.
#[export] Hint Resolve safe_syncOne : frame.

Lemma safe_syncLoop owner cs granted : respects safe (syncLoop owner cs granted).
Proof. revert granted. induction cs as [|c cs IH]; intros g; simpl; frame; apply IH. Qed.
#[export] Hint Resolve safe_syncLoop : frame.

Lemma safe_cryptoIntn n : respects safe (cryptoIntn n). Proof. frame_deep. Qed.
Lemma safe_syncCrates owner : respects safe (syncCrates owner). Proof. frame_deep. Qed.
Lemma safe_unopenedCrates owner : respects safe (unopenedCrates owner). Proof. frame_deep. Qed.
Lemma safe_rolledItems owner : respects safe (rolledItems owner). Proof. frame_deep. Qed.
Lemma safe_openedItems owner : respects safe (openedItems owner). Proof. frame_deep. Qed.
Lemma safe_shardBalance owner : respects safe (shardBalance owner). Proof. frame_deep. Qed.
Lemma safe_openRoll owner : respects safe (openRoll owner). Proof. frame_deep. Qed.
Lemma safe_openSpend r : respects safe (openSpend r). Proof. frame_deep. Qed.
Lemma safe_openCrate owner : respects safe (openCrate owner). Proof. frame_deep. Qed.
Lemma safe_craftCheck owner itemID : respects safe (craftCheck owner itemID).
Proof. frame_deep. Qed.
Lemma safe_craftCommit owner itemID it : respects safe (craftCommit owner itemID it).
Proof. frame_deep. Qed.
Lemma safe_craftReward owner itemID : respects safe (craftReward owner itemID).
Proof. frame_deep. Qed.
Lemma safe_verifiedReferralCount username : respects safe (verifiedReferralCount username).
Proof. frame_deep. Qed.
Lemma safe_isAmbassador username : respects safe (isAmbassador username). Proof. frame_deep. Qed.
Lemma safe_sendReferralPerks client username friends : respects safe (sendReferralPerks client username friends).
Proof. frame_deep. Qed.
Lemma safe_pushPerks username : respects safe (pushPerks username). Proof. frame_deep. Qed.
Lemma safe_onReferralVerified username : respects safe (onReferralVerified username).
Proof. frame_deep. Qed.

#[export] Hint Resolve safe_cryptoIntn safe_syncCrates safe_unopenedCrates safe_rolledItems
  safe_openedItems safe_shardBalance safe_openRoll safe_openSpend safe_openCrate safe_craftCheck
  safe_craftCommit safe_craftReward safe_verifiedReferralCount safe_isAmbassador
  safe_sendReferralPerks safe_pushPerks safe_onReferralVerified : frame.

Section SafeCases.
Context (client : nat) (username : string) (msg : NexusMessage).
Lemma safe_case_get_referral_stats : respects safe (case_get_referral_stats client username).
Proof. frame_deep. Qed.
Lemma safe_case_open_crate : respects safe (case_open_crate client username).
Proof. frame_deep. Qed.
Lemma safe_case_craft_reward : respects safe (case_craft_reward client username msg).
Proof. frame_deep. Qed.
End SafeCases.

#[export] Hint Resolve safe_case_get_referral_stats safe_case_open_crate safe_case_craft_reward :
  frame.

(** ** The odds *)

(** How many of the equally likely draws come out as [rarity]. *)
Definition drawsOf (floor : Z) (rarity : string) : Z :=
  Z.of_nat (length (boolfilter (fun n => pickRarity floor n ==? rarity)
                               (Z.of_nat <$> seq 0 (Z.to_nat (totalWeight floor))))).

Lemma pityFloor_in sr se : pityFloor sr se ∈ [0; 1; 2].
Proof. unfold pityFloor. repeat case_match; repeat (first [left | right]). Qed.

(** The published odds are exact.  Under each floor the pity rules can
    set, the number of draws that give a rarity is its weight, rarities below
    the floor never come, and the total is the sum of what is left: 60, 28, 10
    and 2 in 100 without pity; 28, 10 and 2 in 40 after three commons; 10 and
    2 in 12 after nine. *)
Theorem pickRarity_odds :
  Forall (fun floor =>
    Forall (fun r => drawsOf floor r = if floor <=? rarityRank r then rarityWeight r else 0) rarityOrder
    /\ totalWeight floor = tsum (drawsOf floor) rarityOrder) [0; 1; 2]
  /\ (forall sinceRare sinceEpic, pityFloor sinceRare sinceEpic ∈ [0; 1; 2]).
Proof.
  split.
  - forall_list ltac:(split;
      [unfold rarityOrder; forall_list ltac:(vm_compute; reflexivity) | vm_compute; reflexivity]).
  - apply pityFloor_in.
Qed.

(** ** What a roll gives *)


Lemma rarityLoop_sound floor n order dflt :
  rarityLoop floor n order dflt = dflt
  \/ rarityLoop floor n order dflt ∈ order /\ floor <= rarityRank (rarityLoop floor n order dflt).
Proof.
  revert n. induction order as [|r order IH]; intros n; simpl; [by left|].
  destruct (_ <? floor) eqn:E; bools.
  - destruct (IH n) as [?|[? ?]]; [by left | right; split; [by right | done]].
  - destruct (n <? _); [right; split; [left | lia]|].
    destruct (IH (n - rarityWeight r)) as [?|[? ?]]; [by left | right; split; [by right | done]].
Qed.

Lemma pickRarity_sound floor n :
  floor ∈ [0; 1; 2] -> pickRarity floor n ∈ rarityOrder /\ floor <= rarityRank (pickRarity floor n).
Proof.
  intros Hf. unfold pickRarity.
  destruct (rarityLoop_sound floor n rarityOrder (nth (Z.to_nat floor) rarityOrder "")) as [->|?]; [|done].
  elem_cases Hf; vm_compute; split; try (intros [=]; fail); repeat (first [left | right]).
Qed.

(** Every rarity has items to give. *)
Lemma ofRarity_nonempty r : r ∈ rarityOrder -> ofRarity r <> [].
Proof.
  intros Hr. unfold rarityOrder in Hr. elem_cases Hr; vm_compute; discriminate.
Qed.

Lemma elem_of_ofRarity r c : c ∈ ofRarity r <-> riRarity c = r /\ c ∈ rewardCatalog.
Proof. unfold ofRarity. rewrite elem_of_boolfilter, bool_decide_eq_true. done. Qed.

Lemma elem_of_freshOf owned r c :
  c ∈ freshOf owned r <-> owns owned (riID c) = false /\ c ∈ ofRarity r.
Proof. unfold freshOf. rewrite elem_of_boolfilter, negb_true_iff. done. Qed.

(** The source of randomness does not fail. *)
Definition rand_ok (w : World) : Prop := forall n, wRandErr w n = false.

Lemma randBelow_ok n w :
  rand_ok w -> exists v, randBelow n w = (Some v, set_wRandTick (S (wRandTick w)) w)
                         /\ (0 < n -> 0 <= v < n).
Proof.
  intros Hr. unfold randBelow. rewrite Hr. eexists. split; [done|]. intros Hn.
  by apply Z.mod_pos_bound.
Qed.

(** The items a rarity's draw is taken from. *)
Definition poolOf (owned : list string) (rarity : string) : list rewardItem * bool :=
  let fresh := freshOf owned rarity in
  match fresh with [] => (ofRarity rarity, true) | _ => (fresh, false) end.

Lemma poolOf_sound owned r it dupe pool :
  r ∈ rarityOrder -> poolOf owned r = (pool, dupe) ->
  pool <> [] /\ (it ∈ pool -> it ∈ rewardCatalog /\ riRarity it = r
    /\ (dupe = false -> owns owned (riID it) = false)
    /\ (dupe = true -> forall c, c ∈ rewardCatalog -> riRarity c = r -> owns owned (riID c) = true)).
Proof.
  intros Hr. unfold poolOf. cbv zeta. destruct (freshOf owned r) as [|c l] eqn:E; intros [= <- <-].
  - split; [by apply ofRarity_nonempty|]. intros [<- Hit]%elem_of_ofRarity. split_and!; try done.
    intros _ c Hc Hcr. destruct (owns owned (riID c)) eqn:Eo; [done|].
    assert (c ∈ freshOf owned (riRarity it)) as Hf.
    { apply elem_of_freshOf. split; [done|]. by apply elem_of_ofRarity. }
    rewrite E in Hf. by apply elem_of_nil in Hf.
  - split; [done|]. rewrite <- E. intros [Ho [<- Hit]%elem_of_ofRarity]%elem_of_freshOf.
    split_and!; done.
Qed.

Lemma nth_error_pool {A} (l : list A) i :
  0 <= i < Z.of_nat (length l) -> exists x, nth_error l (Z.to_nat i) = Some x /\ x ∈ l.
Proof.
  intros Hi. destruct (nth_error l (Z.to_nat i)) as [x|] eqn:E.
  - exists x. split; [done|]. apply list_elem_of_In. by eapply nth_error_In.
  - apply nth_error_None in E. lia.
Qed.

(** A roll in a world where randomness works. *)
Lemma rollReward_run owned sr se w :
  rand_ok w ->
  exists it dupe w', rollReward cryptoIntn owned sr se w = (Some (it, dupe), w')
    /\ wDB w' = wDB w /\ ctx w' = ctx w /\ wSqlTick w' = wSqlTick w
    /\ it ∈ rewardCatalog /\ pityFloor sr se <= rarityRank (riRarity it)
    /\ (dupe = false -> owns owned (riID it) = false)
    /\ (dupe = true -> forall c, c ∈ rewardCatalog -> riRarity c = riRarity it ->
                                 owns owned (riID c) = true).
Proof.
  intros Hr. unfold rollReward, cryptoIntn.
  destruct (randBelow_ok (totalWeight (pityFloor sr se)) w Hr) as (n & E & _).
  rewrite bind_run, E. cbn [fst snd].
  destruct (pickRarity_sound (pityFloor sr se) n (pityFloor_in sr se)) as [Hin Hle].
  set (rarity := pickRarity _ _) in *. cbv zeta.
  change (match freshOf owned rarity with [] => (ofRarity rarity, true)
          | _ :: _ => (freshOf owned rarity, false) end) with (poolOf owned rarity).
  destruct (poolOf owned rarity) as [pool dupe] eqn:Ep.
  set (w1 := set_wRandTick (S (wRandTick w)) w).
  destruct (randBelow_ok (Z.of_nat (length pool)) w1 Hr) as (i & Ei & Hi).
  rewrite bind_run, Ei. cbn [fst snd]. rewrite ret_run.
  destruct (poolOf_sound owned rarity (mkItem "" "" "") dupe pool Hin Ep) as [Hne _].
  destruct (nth_error_pool pool i) as (it & En & Hit).
  { apply Hi. destruct pool; [done | simpl; lia]. }
  rewrite En. destruct (poolOf_sound owned rarity it dupe pool Hin Ep) as [_ H].
  destruct (H Hit) as (H1 & H2 & H3 & H4).
  eexists it, dupe, _. rewrite H2. by split_and!.
Qed.

(** A roll never disappoints.  Whatever the draws, a crate gives an item
    of the catalog at or above the pity floor; it is one the user does not own
    unless they already own every item of that rarity, and only then is it
    reported as a duplicate. *)
Theorem rollReward_fair owned sinceRare sinceEpic w :
  rand_ok w ->
  exists it dupe, (rollReward cryptoIntn owned sinceRare sinceEpic w).1 = Some (it, dupe)
    /\ it ∈ rewardCatalog
    /\ pityFloor sinceRare sinceEpic <= rarityRank (riRarity it)
    /\ (dupe = false -> owns owned (riID it) = false)
    /\ (dupe = true -> forall c, c ∈ rewardCatalog -> riRarity c = riRarity it ->
                                  owns owned (riID c) = true).
Proof.
  intros Hr. destruct (rollReward_run owned sinceRare sinceEpic w Hr)
    as (it & dupe & w' & E & _ & _ & _ & H). exists it, dupe. by rewrite E.
Qed.

Lemma rollReward_fair_witness :
  exists it dupe, (rollReward cryptoIntn ["squad"] 3 4 sampleW).1 = Some (it, dupe)
                  /\ 1 <= rarityRank (riRarity it).
Proof.
  destruct (rollReward_fair ["squad"] 3 4 sampleW) as (it & dupe & H1 & _ & H2 & _).
  - intros n. reflexivity.
  - exists it, dupe. split; [exact H1 | exact H2].
Defined.
