(* ===== verification/RewardsSpec.v ===== *)
(** * The history of a user's crates

    What [rewards.go] promises over time: crates are opened oldest first, each
    opening appends to the history exactly one catalog item, the pity rules
    bound every dry run, the daily limit holds, a crate is spent once, and
    shards are paid for. *)

From Stdlib Require Import ZArith Lia Sorted.
From stdpp Require Import base strings list gmap.
From S2P Require Import Prelude GoRt Store Wire Db World Wf Samples Registry Social Rewards.

Open Scope string_scope.
Open Scope list_scope.
Open Scope Z_scope.

(** ** The log *)

Definition ownerCrates (owner : string) (d : Database) : list RewardCrate :=
  tselect (fun c => rc_owner c ==? owner) (reward_crates d).

Definition opened (c : RewardCrate) : bool := negb (bool_decide (rc_item c = None)).
Definition openedAt (c : RewardCrate) : Z := default 0 (rc_opened_at c).

Definition catalogued (id : string) : Prop := exists it, rewardByID id = Some it.

(** At no point of the history had more than three rolls passed without a
    rare, nor more than nine without an epic. *)
Definition pity_ok (l : list string) : Prop :=
  forall k, (pityCounters (take k l)).1 <= pityRareAfter
            /\ (pityCounters (take k l)).2 <= pityEpicAfter.

(** [O] then [U]: the crates of [owner] in order of id, those opened (in that
    order, at non-decreasing times) before those still closed. *)
Definition log_split (now : Z) (owner : string) (d : Database) (O U : list RewardCrate) : Prop :=
  ownerCrates owner d = O ++ U
  /\ Forall (fun c => opened c = true) O
  /\ Forall (fun c => opened c = false) U
  /\ StronglySorted Z.le (openedAt <$> O)
  /\ Forall (fun c => openedAt c <= sqlNow now) O.

Definition crates_ok (now : Z) (owner : string) (d : Database) : Prop :=
  exists O U, log_split now owner d O U
    /\ Forall catalogued (omap rc_item O) /\ pity_ok (omap rc_item O)
    /\ Forall (fun c => rc_shards c = 0) U.

Lemma rolledOf_split now owner d O U :
  db_wf d -> log_split now owner d O U -> rolledOf owner d = omap rc_item O.
Proof.
  intros Hwf (Hl & HO & HU & Hs & _). unfold rolledOf.
  rewrite order_by_ids by apply Hwf. unfold tselect. rewrite boolfilter_and.
  change (boolfilter (fun c => rc_owner c ==? owner) (rows (reward_crates d)))
    with (ownerCrates owner d).
  rewrite Hl, boolfilter_app, (boolfilter_true _ O), (boolfilter_false _ U), app_nil_r by done.
  by rewrite order_by_sorted.
Qed.

Lemma oldestUnopened_split now owner d O U :
  db_wf d -> log_split now owner d O U -> oldestUnopened owner d = rc_id <$> head U.
Proof.
  intros Hwf (Hl & HO & HU & _ & _). unfold oldestUnopened, isUnopened.
  rewrite order_by_ids by apply Hwf. unfold tselect. rewrite boolfilter_and.
  change (boolfilter (fun c => rc_owner c ==? owner) (rows (reward_crates d)))
    with (ownerCrates owner d).
  rewrite Hl, boolfilter_app, (boolfilter_false _ O), (boolfilter_true _ U); [done|..].
  - eapply Forall_impl; [exact HU|]. intros c. unfold opened. simpl. by case_bool_decide.
  - eapply Forall_impl; [exact HO|]. intros c. unfold opened. simpl. by case_bool_decide.
Qed.

Lemma rewardByID_catalog it : it ∈ rewardCatalog -> rewardByID (riID it) = Some it.
Proof.
  intros H. unfold rewardCatalog in H. elem_cases H; reflexivity.
Qed.

(** ** Opening *)

(** The crate [r] is about to spend, after the update. *)
Definition spent (now : Z) (r : rolled) (c : RewardCrate) : RewardCrate :=
  set_rc_opened_at (Some (sqlNow now)) (set_rc_shards (roShards r)
    (set_rc_item (Some (riID (roItem r))) c)).

Lemma spendCrate_owner now r owner d :
  ownerCrates owner (spendCrate now r d)
  = (fun c => if isCrateToOpen (roCrate r) c then spent now r c else c) <$> ownerCrates owner d.
Proof. apply tselect_tupdate. done. Qed.

(** Only the crate that is spent changes. *)
Lemma spend_split now r owner d O c U :
  db_wf d -> log_split now owner d O (c :: U) -> roCrate r = rc_id c ->
  log_split now owner (spendCrate now r d) (O ++ [spent now r c]) U.
Proof.
  intros Hwf (Hl & HO & HU & Hs & Ht) Hr. unfold log_split. rewrite spendCrate_owner, Hl.
  apply Forall_cons in HU as [Hc HU]. rewrite fmap_app, fmap_cons, <- app_assoc.
  assert (Hn : NoDup (rc_id <$> O ++ c :: U)).
  { rewrite <- Hl. apply (NoDup_fmap_sublist rc_id _ (rows (reward_crates d))).
    - apply boolfilter_sublist.
    - apply (ids_ok_unique rc_id), Hwf. }
  rewrite fmap_app, fmap_cons in Hn. apply NoDup_app in Hn as (_ & _ & Hn).
  apply NoDup_cons in Hn as [Hn _].
  split_and!.
  - f_equal; [|simpl; f_equal].
    + rewrite <- (list_fmap_id O) at 2. apply list_fmap_ext. intros i x Hx.
      rewrite Forall_lookup in HO. specialize (HO i x Hx). unfold opened in HO.
      unfold isCrateToOpen. apply negb_true_iff in HO. by rewrite HO, andb_false_r.
    + unfold isCrateToOpen. unfold opened in Hc. apply negb_false_iff in Hc.
      by rewrite Hr, Z.eqb_refl, Hc.
    + rewrite <- (list_fmap_id U) at 2. apply list_fmap_ext. intros i x Hx.
      unfold isCrateToOpen. rewrite Hr. destruct (rc_id x =? rc_id c) eqn:E; [|done].
      apply Z.eqb_eq in E. destruct Hn. rewrite <- E. apply list_elem_of_fmap_2.
      by apply list_elem_of_lookup_2 in Hx.
  - apply Forall_app. split; [done|]. by constructor.
  - done.
  - rewrite fmap_app. simpl. revert Ht. clear -Hs. intros Ht.
    induction O as [|x O IH]; simpl; [by repeat constructor|].
    rewrite fmap_cons in Hs. inversion Hs; subst. apply Forall_cons in Ht as [Hx Ht].
    constructor; [auto|]. apply Forall_app. split; [done|]. by repeat constructor.
  - apply Forall_app. split; [done|]. constructor; [|constructor]. unfold openedAt. simpl. lia.
Qed.

Lemma spendCrate_wf now r d : db_wf d -> db_wf (spendCrate now r d).
Proof. revert d. unfold spendCrate. wf_step. Qed.

Lemma pityCounters_snoc l id : pityCounters (l ++ [id]) = pityStep (pityCounters l) id.
Proof. unfold pityCounters. by rewrite foldl_app. Qed.

(** A roll at or above the floor keeps the counters within their bounds. *)
Lemma pity_ok_snoc l it :
  pity_ok l -> it ∈ rewardCatalog ->
  pityFloor (pityCounters l).1 (pityCounters l).2 <= rarityRank (riRarity it) ->
  pity_ok (l ++ [riID it]).
Proof.
  intros Hp Hit Hf k. destruct (decide (k <= length l)%nat) as [Hk|Hk].
  - rewrite take_app_le by done. apply Hp.
  - rewrite take_ge by (rewrite length_app; simpl; lia). rewrite pityCounters_snoc.
    unfold pityStep. rewrite rewardByID_catalog by done.
    specialize (Hp (length l)). rewrite firstn_all in Hp. destruct Hp as [H1 H2].
    unfold pityFloor, pityRareAfter, pityEpicAfter in *. cbn [fst snd].
    destruct (pityCounters l) as [a b]. cbn [fst snd] in *.
    destruct (9 <=? b) eqn:E1, (3 <=? a) eqn:E2,
      (1 <=? rarityRank _) eqn:E3, (2 <=? rarityRank _) eqn:E4; bools; lia.
Qed.

(** Reading the inventory changes nothing. *)
Lemma openedItems_run owner w :
  sql_ok w ->
  openedItems owner w
  = (inventory (rolledOf owner (wDB w) ++ craftsOf owner (wDB w)), tickSql (tickSql w)).
Proof. intros Hok. unfold openedItems, rolledItems. by sqlrun. Qed.

Lemma rolledItems_run owner w :
  sql_ok w -> rolledItems owner w = (rolledOf owner (wDB w), tickSql w).
Proof. intros Hok. unfold rolledItems. by sqlrun. Qed.

Lemma respects_rollReward R `{!PreOrder R, !FreesRand R} owned sr se :
  respects R (rollReward cryptoIntn owned sr se).
Proof. unfold rollReward, cryptoIntn. frame. Qed.
#[export] Hint Resolve respects_rollReward : frame.

(** What [openRoll] decides when there is a crate to open. *)
Lemma openRoll_run owner w O c U :
  sql_ok w -> rand_ok w -> db_wf (wDB w) -> log_split (wNow w) owner (wDB w) O (c :: U) ->
  let l := omap rc_item O in
  exists r w', openRoll owner w = (inr r, w') /\ wDB w' = wDB w /\ ctx w' = ctx w
    /\ roCrate r = rc_id c /\ roItem r ∈ rewardCatalog
    /\ pityFloor (pityCounters l).1 (pityCounters l).2 <= rarityRank (riRarity (roItem r))
    /\ roDupe r = owns (inventory (l ++ craftsOf owner (wDB w))) (riID (roItem r))
    /\ roShards r = (if roDupe r then shardsForDuplicate (riRarity (roItem r)) else 0).
Proof.
  intros Hok Hr Hwf Hl l. unfold openRoll. rewrite bind_run, ok_QueryRowE by done.
  rewrite (oldestUnopened_split _ _ _ _ _ Hwf Hl). cbn [head fmap option_fmap option_map fst snd].
  rewrite bind_run, openedItems_run by sqlside. cbn [fst snd].
  rewrite bind_run, rolledItems_run by sqlside. world_cbn.
  rewrite (rolledOf_split _ _ _ _ _ Hwf Hl). fold l.
  destruct (pityCounters l) as [a b] eqn:Ep. cbn [fst snd].
  set (w1 := tickSql (tickSql (tickSql (tickSql w)))).
  destruct (rollReward_run (inventory (l ++ craftsOf owner (wDB w))) a b w1)
    as (it & dupe & w' & E & Ed & Ec & _ & H1 & H2 & H3 & H4); [done|].
  change (wDB w1) with (wDB w) in Ed. change (ctx w1) with (ctx w) in Ec.
  rewrite bind_run. fold w1. rewrite E. cbn [fst snd].
  eexists (mkRolled (rc_id c) it dupe _), w'. simpl. split_and!; try done.
  destruct dupe; [symmetry; by apply H4 | symmetry; by apply H3].
Qed.

(** The conditional update of an unspent crate succeeds and touches one row. *)
Lemma openSpend_run r c w :
  sql_ok w -> db_wf (wDB w) -> c ∈ rows (reward_crates (wDB w)) -> rc_id c = roCrate r ->
  opened c = false ->
  openSpend r w = (inr r, set_wDB (spendCrate (wNow w) r (wDB w)) (tickSql w)).
Proof.
  intros Hok Hwf Hc Hid Ho. unfold openSpend. sqlrun.
  rewrite (tcount_unique rc_id _ _ c); [done| | done | |].
  - apply (ids_ok_unique rc_id), Hwf.
  - unfold isCrateToOpen. rewrite Hid, Z.eqb_refl. unfold opened in Ho.
    by apply negb_false_iff in Ho as ->.
  - unfold isCrateToOpen. intros x Hx. bools. congruence.
Qed.

Lemma crates_ok_split_head now owner d O c U :
  log_split now owner d O (c :: U) -> c ∈ rows (reward_crates d) /\ opened c = false.
Proof.
  intros (Hl & _ & HU & _). apply Forall_cons in HU as [Hc _]. split; [|done].
  assert (c ∈ ownerCrates owner d) as H by (rewrite Hl; apply elem_of_app; right; left).
  unfold ownerCrates in H. by apply elem_of_tselect in H as [_ ?].
Qed.

(** [openCrate], on the split log. *)
Lemma openCrate_run owner w O c U :
  sql_ok w -> rand_ok w -> db_wf (wDB w) -> log_split (wNow w) owner (wDB w) O (c :: U) ->
  let l := omap rc_item O in
  exists r, (openCrate owner w).1 = inr r
    /\ wDB (openCrate owner w).2 = spendCrate (wNow w) r (wDB w)
    /\ roCrate r = rc_id c /\ roItem r ∈ rewardCatalog
    /\ pityFloor (pityCounters l).1 (pityCounters l).2 <= rarityRank (riRarity (roItem r))
    /\ roDupe r = owns (inventory (l ++ craftsOf owner (wDB w))) (riID (roItem r))
    /\ roShards r = (if roDupe r then shardsForDuplicate (riRarity (roItem r)) else 0).
Proof.
  intros Hok Hr Hwf Hl l.
  destruct (openRoll_run owner w O c U Hok Hr Hwf Hl) as (r & w' & E & Ed & Ec & H1 & H).
  destruct (crates_ok_split_head _ _ _ _ _ _ Hl) as [Hc Ho].
  exists r. unfold openCrate. rewrite bind_run, E. cbn [fst snd].
  unfold ctx in Ec. injection Ec as En _ Ef _ _.
  rewrite (openSpend_run r c w'); [| |by rewrite Ed| by rewrite Ed | done | done].
  - simpl. by rewrite En, Ed.
  - intros n. rewrite Ef. apply Hok.
Qed.

(** Nothing to open: the database is not touched. *)
Lemma openCrate_none owner w O :
  sql_ok w -> db_wf (wDB w) -> log_split (wNow w) owner (wDB w) O [] ->
  (openCrate owner w).1 = inl errNoCrates /\ wDB (openCrate owner w).2 = wDB w.
Proof.
  intros Hok Hwf Hl. unfold openCrate, openRoll. rewrite !bind_run, ok_QueryRowE by done.
  by rewrite (oldestUnopened_split _ _ _ _ _ Hwf Hl).
Qed.

Lemma omap_snoc_spent now r (O : list RewardCrate) c :
  omap rc_item (O ++ [spent now r c]) = omap rc_item O ++ [riID (roItem r)].
Proof. by rewrite omap_app. Qed.

Lemma open_crates_ok owner w :
  sql_ok w -> rand_ok w -> db_wf (wDB w) -> crates_ok (wNow w) owner (wDB w) ->
  crates_ok (wNow w) owner (wDB (openCrate owner w).2).
Proof.
  intros Hok Hr Hwf (O & [|c U] & Hl & Hcat & Hp & HU).
  - destruct (openCrate_none owner w O Hok Hwf Hl) as [_ ->]. by exists O, [].
  - destruct (openCrate_run owner w O c U Hok Hr Hwf Hl) as (r & _ & -> & H1 & H2 & H3 & _).
    exists (O ++ [spent (wNow w) r c]), U. split; [by apply spend_split|].
    rewrite omap_snoc_spent. split_and!.
    + apply Forall_app. split; [done|]. constructor; [|constructor].
      eexists. by apply rewardByID_catalog.
    + by apply pity_ok_snoc.
    + by apply Forall_cons in HU as [_ HU].
Qed.

Lemma unopened_split now owner d O U :
  log_split now owner d O U -> tcount (isUnopened owner) (reward_crates d) = Z.of_nat (length U).
Proof.
  intros (Hl & HO & HU & _). unfold tcount, tselect, isUnopened. rewrite boolfilter_and.
  change (boolfilter (fun c => rc_owner c ==? owner) (rows (reward_crates d)))
    with (ownerCrates owner d).
  rewrite Hl, boolfilter_app, (boolfilter_false _ O), (boolfilter_true _ U); [done|..].
  - eapply Forall_impl; [exact HU|]. intros c. unfold opened. simpl. by case_bool_decide.
  - eapply Forall_impl; [exact HO|]. intros c. unfold opened. simpl. by case_bool_decide.
Qed.

Lemma shardsGained_owner owner d : shardsGained owner d = tsum rc_shards (ownerCrates owner d).
Proof. reflexivity. Qed.

(** Crates of other owners keep their rows: ids are unique. *)
Lemma spendCrate_other now r owner other d c :
  db_wf d -> c ∈ ownerCrates owner d -> roCrate r = rc_id c -> other <> owner ->
  ownerCrates other (spendCrate now r d) = ownerCrates other d.
Proof.
  intros Hwf Hc Hr Hne. rewrite spendCrate_owner.
  rewrite <- (list_fmap_id (ownerCrates other d)) at 2. apply list_fmap_ext. intros i x Hx.
  unfold isCrateToOpen. rewrite Hr. destruct (rc_id x =? rc_id c) eqn:E; [|done].
  apply Z.eqb_eq in E. apply list_elem_of_lookup_2 in Hx.
  unfold ownerCrates in Hx, Hc. apply elem_of_tselect in Hx as [Ho Hx], Hc as [Ho' Hc]. bools.
  destruct Hne. rewrite <- Ho, <- Ho'. f_equal.
  apply (unique_eq rc_id (reward_crates d)); [apply (ids_ok_unique rc_id), Hwf | done..].
Qed.

(** C31: what opening a crate does.  With a consistent log, [openCrate] fails
    only when there is no crate left, touching nothing; otherwise it appends
    one item to the owner's history, leaves exactly one crate fewer to open,
    calls the item a duplicate exactly when the user already had it (rolled or
    crafted), credits the duplicate's published shards and nothing otherwise,
    and changes no one else's crates. *)
Theorem openCrate_exact owner w :
  sql_ok w -> rand_ok w -> db_wf (wDB w) -> crates_ok (wNow w) owner (wDB w) ->
  let d := wDB w in
  let d' := wDB (openCrate owner w).2 in
  match (openCrate owner w).1 with
  | inl e => e = errNoCrates /\ tcount (isUnopened owner) (reward_crates d) = 0 /\ d' = d
  | inr r =>
      rolledOf owner d' = rolledOf owner d ++ [riID (roItem r)]
      /\ tcount (isUnopened owner) (reward_crates d')
         = tcount (isUnopened owner) (reward_crates d) - 1
      /\ roDupe r = owns (inventory (rolledOf owner d ++ craftsOf owner d)) (riID (roItem r))
      /\ shardsGained owner d'
         = shardsGained owner d + (if roDupe r then shardsForDuplicate (riRarity (roItem r)) else 0)
      /\ shardsSpent owner d' = shardsSpent owner d
      /\ forall other, other <> owner -> ownerCrates other d' = ownerCrates other d
  end.
Proof.
  intros Hok Hr Hwf (O & [|c U] & Hl & Hcat & Hp & HU); cbv zeta.
  { destruct (openCrate_none owner w O Hok Hwf Hl) as [-> ->].
    by rewrite (unopened_split _ _ _ _ _ Hl). }
  destruct (openCrate_run owner w O c U Hok Hr Hwf Hl) as (r & -> & -> & H1 & H2 & H3 & H4 & H5).
  pose proof (spend_split _ r _ _ _ _ _ Hwf Hl H1) as Hl'.
  pose proof (spendCrate_wf (wNow w) r _ Hwf) as Hwf'.
  rewrite (rolledOf_split _ _ _ _ _ Hwf Hl), (rolledOf_split _ _ _ _ _ Hwf' Hl'), omap_snoc_spent.
  rewrite (unopened_split _ _ _ _ _ Hl), (unopened_split _ _ _ _ _ Hl'), !shardsGained_owner.
  split_and!; try done.
  - simpl. lia.
  - rewrite <- H5. destruct Hl as [-> _], Hl' as [-> _]. apply Forall_cons in HU as [HU _].
    rewrite !tsum_app. unfold tsum. simpl. lia.
  - intros other Hne. apply (spendCrate_other _ r owner _ _ c); try done.
    destruct Hl as [-> _]. apply elem_of_app. right. left.
Qed.

(** ** Any interleaving of users opening, earning and crafting *)

Inductive crate_step : World -> World -> Prop :=
| step_open owner w : crate_step w (openCrate owner w).2
| step_sync owner w : crate_step w (syncCrates owner w).2
| step_craft owner id w : crate_step w (craftReward owner id w).2
| step_clock t w : wNow w <= t -> crate_step w (set_wNow t w).

Definition all_crates_ok (now : Z) (d : Database) : Prop := forall o, crates_ok now o d.

Lemma crates_ok_ext now o d d' :
  ownerCrates o d' = ownerCrates o d -> crates_ok now o d -> crates_ok now o d'.
Proof. intros E. unfold crates_ok, log_split. by rewrite E. Qed.

Lemma crates_ok_later t now o d : now <= t -> crates_ok now o d -> crates_ok t o d.
Proof.
  intros Ht (O & U & (Hl & HO & HU & Hs & Hle) & H). exists O, U. split; [|done].
  split_and!; try done. eapply Forall_impl; [exact Hle|]. intros c Hc. simpl in Hc.
  assert (now / Second <= t / Second) by (apply Z.div_le_mono; unfold Second; lia).
  unfold sqlNow, Second in *. lia.
Qed.

Lemma insertCrate_crates_ok now o owner source t d :
  crates_ok now o d -> crates_ok now o (insertCrate owner source t d).
Proof.
  intros (O & U & (Hl & HO & HU & Hs & Hle) & Hc & Hp & HS).
  unfold insertCrate, tinsert_ignore. destruct (texists _ _) eqn:E.
  { exists O, U. by split_and!. }
  set (row := mkRewardCrate (tnext (reward_crates d)) owner source None 0 (sqlNow t) None).
  destruct (decide (owner = o)) as [->|Hne].
  - exists O, (U ++ [row]). split; [|split_and!; try done].
    + split_and!; try done.
      * unfold ownerCrates. simpl. rewrite tselect_tinsert. cbn [rc_owner]. rewrite eqb_refl_dec.
        fold row. unfold ownerCrates in Hl. by rewrite Hl, <- app_assoc.
      * apply Forall_app. split; [done|]. by constructor.
    + apply Forall_app. split; [done|]. by constructor.
  - exists O, U. split; [|done]. split_and!; try done.
    unfold ownerCrates. simpl. rewrite tselect_tinsert. cbn [rc_owner].
    rewrite eqb_neq_dec by done. by rewrite app_nil_r.
Qed.

Lemma sync_crates_ok now owner : respects (db_keeps (all_crates_ok now)) (syncCrates owner).
Proof.
  unfold syncCrates. frame. generalize 0. generalize l. clear.
  intros cs. induction cs as [|c cs IH]; intros g; simpl; [frame|].
  apply respects_bind; [typeclasses eauto| |intros [k|]; [apply IH | frame]].
  unfold syncOne. frame; apply keeps_ExecN; intros d Hd o; by apply insertCrate_crates_ok.
Qed.

Lemma craft_crates_ok now owner id : respects (db_keeps (all_crates_ok now)) (craftReward owner id).
Proof.
  unfold craftReward, craftCheck, craftCommit, shardBalance, openedItems, rolledItems. frame.
  all: apply keeps_Exec; unfold insertCraft; intros d d' n Hd; destruct (tinsert_unique _ _ _);
    intros [= <- _]; exact Hd.
Qed.

Lemma crate_step_ok w w' :
  crate_step w w' ->
  sql_ok w /\ rand_ok w /\ db_wf (wDB w) /\ all_crates_ok (wNow w) (wDB w) ->
  sql_ok w' /\ rand_ok w' /\ db_wf (wDB w') /\ all_crates_ok (wNow w') (wDB w').
Proof.
  intros Hs (H1 & H2 & H3 & H4).
  assert (Hctx : forall A (m : M A), respects safe m -> sql_ok (m w).2 /\ rand_ok (m w).2
    /\ wNow (m w).2 = wNow w /\ db_wf (wDB (m w).2)).
  { intros A m Hm. pose proof (safe_core m w Hm) as Hc. unfold core, ctx in Hc.
    injection Hc as En _ Ef _ Er _ _. split_and!; [| |done|by apply safe_wf].
    - intros n. rewrite Ef. apply H1.
    - intros n. rewrite Er. apply H2. }
  destruct Hs as [owner w|owner w|owner id w|t w Ht].
  - destruct (Hctx _ (openCrate owner)) as (A & B & C & D); [frame|]. split_and!; try done.
    rewrite C. intros o. destruct (decide (o = owner)) as [->|Hne].
    + by apply open_crates_ok.
    + apply (crates_ok_ext _ _ (wDB w)); [|done].
      destruct (H4 owner) as (O & [|c U] & Hl & _).
      * by destruct (openCrate_none owner w O H1 H3 Hl) as [_ ->].
      * destruct (openCrate_run owner w O c U H1 H2 H3 Hl) as (r & _ & -> & Hr & _).
        apply (spendCrate_other _ r owner _ _ c); try done.
        destruct Hl as [-> _]. apply elem_of_app. right. left.
  - destruct (Hctx _ (syncCrates owner)) as (A & B & C & D); [frame|]. split_and!; try done.
    rewrite C. by apply (sync_crates_ok (wNow w) owner w).
  - destruct (Hctx _ (craftReward owner id)) as (A & B & C & D); [frame|]. split_and!; try done.
    rewrite C. by apply (craft_crates_ok (wNow w) owner id w).
  - split_and!; try done. intros o. by eapply crates_ok_later.
Qed.

(** A run of low rolls shows in the counters. *)
Definition below (n : Z) (id : string) : Prop :=
  forall it, rewardByID id = Some it -> rarityRank (riRarity it) < n.

Lemma pity_nonneg l : 0 <= (pityCounters l).1 /\ 0 <= (pityCounters l).2.
Proof.
  induction l as [|id l IH] using rev_ind; [done|]. rewrite pityCounters_snoc. unfold pityStep.
  destruct (rewardByID id); [|done]. simpl. repeat case_match; lia.
Qed.

Lemma pity_run x c :
  Forall catalogued x ->
  (Forall (below 1) x -> (foldl pityStep c x).1 = c.1 + Z.of_nat (length x))
  /\ (Forall (below 2) x -> (foldl pityStep c x).2 = c.2 + Z.of_nat (length x)).
Proof.
  intros Hx. revert c. induction Hx as [|id x [it Hit] _ IH]; intros c; simpl foldl.
  { simpl. split; intros; lia. }
  destruct (IH (pityStep c id)) as [A B]. split; intros [Hb H]%Forall_cons.
  - rewrite A by done. unfold pityStep. rewrite Hit. simpl.
    rewrite (proj2 (Z.leb_gt 1 (rarityRank (riRarity it))) (Hb it Hit)). lia.
  - rewrite B by done. unfold pityStep. rewrite Hit. simpl.
    rewrite (proj2 (Z.leb_gt 2 (rarityRank (riRarity it))) (Hb it Hit)). lia.
Qed.

(** In a history within the pity bounds every window has a good roll. *)
Lemma pity_window l a x b :
  Forall catalogued l -> pity_ok l -> l = a ++ x ++ b ->
  (4 <= Z.of_nat (length x) -> ~ Forall (below 1) x)
  /\ (10 <= Z.of_nat (length x) -> ~ Forall (below 2) x).
Proof.
  intros Hc Hp ->. apply Forall_app in Hc as [_ [Hx _]%Forall_app].
  specialize (Hp (length a + length x)%nat).
  rewrite app_assoc, take_app_le in Hp by (rewrite length_app; lia).
  rewrite take_ge in Hp by (rewrite length_app; lia).
  unfold pityCounters in Hp. rewrite foldl_app in Hp. fold (pityCounters a) in Hp.
  destruct (pity_run x (pityCounters a) Hx) as [A B], (pity_nonneg a) as [Na Nb].
  unfold pityRareAfter, pityEpicAfter in Hp.
  split; intros Hlen Hall; [rewrite (A Hall) in Hp | rewrite (B Hall) in Hp]; lia.
Qed.

(** An item of the catalog of at least the given rank. *)
Definition good (n : Z) (id : string) : Prop :=
  exists it, rewardByID id = Some it /\ n <= rarityRank (riRarity it).

Lemma not_all_below n x : Forall catalogued x -> ~ Forall (below n) x -> Exists (good n) x.
Proof.
  intros Hx Hn. induction Hx as [|id x [it Hit] _ IH]; [by destruct Hn|].
  destruct (Z.lt_ge_cases (rarityRank (riRarity it)) n) as [Hlt|Hge].
  - right. apply IH. intros H. apply Hn. constructor; [|done]. intros it' Hit'. congruence.
  - left. by exists it.
Qed.

(** The pity ceiling.  Starting with no crates, however users interleave
    opening crates, earning them, crafting and waiting, in any user's history
    of rolled items every four consecutive ones include a rare or better and
    every ten an epic or better; and every item is of the catalog. *)
Theorem pity_ceiling owner w0 w :
  sql_ok w0 -> rand_ok w0 -> db_wf (wDB w0) -> rows (reward_crates (wDB w0)) = [] ->
  rtc crate_step w0 w ->
  let h := rolledOf owner (wDB w) in
  Forall catalogued h
  /\ forall a x b, h = a ++ x ++ b ->
       (4 <= Z.of_nat (length x) -> Exists (good 1) x)
       /\ (10 <= Z.of_nat (length x) -> Exists (good 2) x).
Proof.
  intros H1 H2 H3 H0 Hrtc h.
  assert (H : sql_ok w /\ rand_ok w /\ db_wf (wDB w) /\ all_crates_ok (wNow w) (wDB w)).
  { assert (Ha : all_crates_ok (wNow w0) (wDB w0)).
    { intros o. exists [], []. unfold log_split, ownerCrates, tselect.
      rewrite H0. split_and!; try done; try (apply Forall_nil_2; fail); try (by apply SSorted_nil).
      intros k. by destruct k. }
    clear H0 h. induction Hrtc as [w0|w0 w1 w Hs _ IH]; [done|].
    destruct (crate_step_ok _ _ Hs) as (A & B & C & D); [done|]. by apply IH. }
  destruct H as (_ & _ & Hwf & Hall). destruct (Hall owner) as (O & U & Hl & Hc & Hp & _).
  subst h. rewrite (rolledOf_split _ _ _ _ _ Hwf Hl). split; [done|].
  intros a x b E. destruct (pity_window _ _ _ _ Hc Hp E) as [A B].
  assert (Forall catalogued x) as Hx.
  { rewrite E in Hc. by apply Forall_app in Hc as [_ [? _]%Forall_app]. }
  split; intros Hlen; apply not_all_below; auto.
Qed.

(** Alice's referral has verified; she opens the crate. *)
Definition referred (name by_ : string) : User := set_u_referred_by by_ (sampleUser name).
Definition crateW : World :=
  mkW (set_users (tableOf [sampleUser "alice"; referred "dave" "alice"]) Database0) server0 T0.

Lemma pity_ceiling_witness :
  let w := (openCrate "alice" (syncCrates "alice" crateW).2).2 in
  rolledOf "alice" (wDB w) = ["cheers"] /\ Forall catalogued (rolledOf "alice" (wDB w)).
Proof.
  split; [vm_compute; reflexivity|].
  refine (proj1 (pity_ceiling "alice" crateW _ _ _ _ _ _)).
  - apply sql_ok_mkW.
  - intros n. reflexivity.
  - apply wf_check_sound. vm_compute. reflexivity.
  - reflexivity.
  - eapply rtc_l; [apply step_sync|]. eapply rtc_l; [apply step_open|]. apply rtc_refl.
Defined.

Definition crateW1 : World := (syncCrates "alice" crateW).2.

Lemma crateW1_ok : sql_ok crateW1 /\ rand_ok crateW1 /\ db_wf (wDB crateW1)
  /\ crates_ok (wNow crateW1) "alice" (wDB crateW1).
Proof.
  split_and!; [by intros n | by intros n | apply wf_check_sound; vm_compute; reflexivity |].
  exists [], (ownerCrates "alice" (wDB crateW1)). split; split_and!; try apply Forall_nil_2.
  - reflexivity.
  - vm_compute. by repeat constructor.
  - apply SSorted_nil.
  - intros k. by destruct k.
  - vm_compute. by repeat constructor.
Qed.

Lemma openCrate_exact_witness :
  exists r, (openCrate "alice" crateW1).1 = inr r /\ riID (roItem r) = "cheers"
    /\ rolledOf "alice" (wDB (openCrate "alice" crateW1).2) = ["cheers"].
Proof.
  destruct crateW1_ok as (A & B & C & D).
  pose proof (openCrate_exact "alice" crateW1 A B C D) as H.
  destruct (openCrate "alice" crateW1).1 as [e|r] eqn:E; [vm_compute in E; discriminate E|].
  exists r. vm_compute in E. injection E as <-. split_and!; [reflexivity..|].
  destruct H as [H _]. rewrite H. reflexivity.
Defined.

(** A crate is spent once.  The update that spends a crate is conditional,
    so when two requests picked the same crate and both try to spend it, the
    second one is refused as busy and leaves the database as it found it,
    whatever the two had rolled. *)
Theorem openSpend_once r1 r2 w :
  sql_ok w -> roCrate r1 = roCrate r2 ->
  let w1 := (openSpend r1 w).2 in
  openSpend r2 w1 = (inl errBusy, set_wDB (wDB w1) (tickSql w1)).
Proof.
  intros Hok Hr w1.
  assert (E1 : w1 = set_wDB (spendCrate (wNow w) r1 (wDB w)) (tickSql w)).
  { subst w1. unfold openSpend. by sqlrun. }
  assert (Hok1 : sql_ok w1) by (rewrite E1; eauto with sqlok).
  assert (Hz : texists (isCrateToOpen (roCrate r2)) (reward_crates (wDB w1)) = false).
  { rewrite E1, <- Hr. apply texists_false. intros c (c0 & _ & ->)%elem_of_tupdate.
    destruct (isCrateToOpen (roCrate r1) c0) eqn:E; [|done].
    unfold isCrateToOpen. simpl. by rewrite andb_false_r. }
  unfold openSpend. sqlrun. rewrite (proj2 (tcount_zero _ _) Hz). simpl. f_equal. f_equal.
  unfold spendCrate. rewrite tupdate_none by done. by destruct (wDB w1).
Qed.

Lemma openSpend_once_witness :
  let r1 := mkRolled 1 (mkItem "squad" "emoticon" "common") false 0 in
  let r2 := mkRolled 1 (mkItem "legend" "emoticon" "legendary") false 0 in
  (openSpend r2 (openSpend r1 crateW1).2).1 = inl errBusy.
Proof.
  intros r1 r2. destruct crateW1_ok as (A & _).
  by rewrite (openSpend_once r1 r2 crateW1 A eq_refl).
Defined.

(** ** Shards *)

Definition balance (owner : string) (d : Database) : Z := shardsGained owner d - shardsSpent owner d.

Lemma shardBalance_run owner w :
  sql_ok w -> shardBalance owner w = (balance owner (wDB w), tickSql (tickSql w)).
Proof. intros Hok. unfold shardBalance. by sqlrun. Qed.

(** The owner's items, as the code lists them. *)
Definition itemsOf (owner : string) (d : Database) : list string :=
  inventory (rolledOf owner d ++ craftsOf owner d).

Lemma owns_true l id : owns l id = true <-> id ∈ l.
Proof.
  unfold owns. rewrite existsb_exists. split.
  - intros (x & Hx & E). bools. subst. by apply list_elem_of_In.
  - intros H. exists id. split; [by apply list_elem_of_In | by rewrite eqb_refl_dec].
Qed.

Lemma owns_inventory have it :
  it ∈ rewardCatalog -> owns (inventory have) (riID it) = owns have (riID it).
Proof.
  intros Hit. apply eq_true_iff_eq. rewrite !owns_true. unfold inventory.
  rewrite list_elem_of_fmap. setoid_rewrite elem_of_boolfilter. setoid_rewrite owns_true.
  split; [intros (c & E & H & _); by rewrite E | intros H; by exists it].
Qed.

Lemma rewardByID_Some id it : rewardByID id = Some it -> it ∈ rewardCatalog /\ riID it = id.
Proof. intros [H E]%find_first_Some. by bools. Qed.

(** What the checks of [craftReward] let through. *)
Lemma craftCheck_run owner id w :
  sql_ok w ->
  exists w', craftCheck owner id w
    = (match rewardByID id with
       | None => inl errUnknown
       | Some it => if owns (itemsOf owner (wDB w)) id then inl errOwned
                    else if balance owner (wDB w) <? craftCost (riRarity it) then inl errNotEnough
                    else inr it
       end, w') /\ wDB w' = wDB w /\ sql_ok w'.
Proof.
  intros Hok. unfold craftCheck. destruct (rewardByID id) as [it|]; [|by exists w].
  rewrite bind_run, openedItems_run by done. cbn [fst snd]. fold (itemsOf owner (wDB w)).
  destruct (owns _ id); [eexists; split_and!; [reflexivity | done | eauto with sqlok]|].
  rewrite bind_run, shardBalance_run by sqlside. world_cbn.
  destruct (_ <? _); eexists; (split_and!; [reflexivity | done | eauto with sqlok]).
Qed.

Lemma insertCraft_fresh owner id cost d :
  texists (fun r => (rf_owner r ==? owner) && (rf_item r ==? id)) (reward_crafts d) = false ->
  insertCraft owner id cost d
  = inr (set_reward_crafts (tinsert (fun _ => mkRewardCraft owner id cost) (reward_crafts d)) d, 1).
Proof. intros H. unfold insertCraft, tinsert_unique. by rewrite H. Qed.

(** An item that is not in the inventory has no craft row in the way. *)
Lemma craft_fresh owner id it d :
  rewardByID id = Some it -> owns (itemsOf owner d) id = false ->
  texists (fun r => (rf_owner r ==? owner) && (rf_item r ==? id)) (reward_crafts d) = false.
Proof.
  intros [Hit <-]%rewardByID_Some Ho. unfold itemsOf in Ho. rewrite owns_inventory in Ho by done.
  destruct (texists _ _) eqn:E; [|done]. apply texists_true in E as (r & Hr & E). bools.
  assert (owns (rolledOf owner d ++ craftsOf owner d) (riID it) = true); [|congruence].
  apply owns_true, elem_of_app. right. unfold craftsOf. apply list_elem_of_fmap.
  exists r. split; [done|]. apply elem_of_tselect. split; [|done]. by apply bool_decide_eq_true.
Qed.

Lemma craft_effect owner it d other :
  it ∈ rewardCatalog ->
  let d' := set_reward_crafts (tinsert (fun _ => mkRewardCraft owner (riID it)
              (craftCost (riRarity it))) (reward_crafts d)) d in
  owns (itemsOf owner d') (riID it) = true
  /\ balance other d' = balance other d - (if owner ==? other then craftCost (riRarity it) else 0).
Proof.
  intros Hit d'. split.
  - unfold itemsOf. rewrite owns_inventory by done. apply owns_true, elem_of_app. right.
    unfold craftsOf, d'. simpl. rewrite tselect_tinsert. cbn [rf_owner]. rewrite eqb_refl_dec.
    rewrite fmap_app. apply elem_of_app. right. left.
  - unfold balance, d', shardsSpent. simpl. rewrite tselect_tinsert. cbn [rf_owner].
    change (shardsGained other (set_reward_crafts _ d)) with (shardsGained other d).
    destruct (owner ==? other); [rewrite tsum_app; unfold tsum at 2; simpl; lia|].
    rewrite app_nil_r. lia.
Qed.

Lemma craftCost_pos it : it ∈ rewardCatalog -> 0 < craftCost (riRarity it).
Proof. intros H. unfold rewardCatalog in H. elem_cases H; vm_compute; reflexivity. Qed.

(** C33: crafting pays its price.  A craft succeeds exactly for a catalog item
    the user does not own and can afford; it then adds the item to the
    inventory and takes exactly the published cost out of the user's shards,
    which stay non-negative, and out of nobody else's.  Each refusal names its
    cause and changes nothing. *)
Theorem craftReward_pays owner id w :
  sql_ok w ->
  let d := wDB w in
  let d' := wDB (craftReward owner id w).2 in
  match (craftReward owner id w).1 with
  | inr it =>
      rewardByID id = Some it /\ owns (itemsOf owner d) id = false
      /\ owns (itemsOf owner d') id = true
      /\ 0 < craftCost (riRarity it)
      /\ balance owner d' = balance owner d - craftCost (riRarity it) /\ 0 <= balance owner d'
      /\ forall other, other <> owner -> balance other d' = balance other d
  | inl e =>
      d' = d
      /\ (e = errUnknown /\ rewardByID id = None
          \/ e = errOwned /\ owns (itemsOf owner d) id = true
          \/ e = errNotEnough /\ exists it, rewardByID id = Some it
               /\ balance owner d < craftCost (riRarity it))
  end.
Proof.
  intros Hok d d'. subst d d'. destruct (craftCheck_run owner id w Hok) as (w' & E & Ed & Hok').
  unfold craftReward. rewrite bind_run, E. cbn [fst snd].
  destruct (rewardByID id) as [it|] eqn:Ei; [|simpl; by auto].
  destruct (owns (itemsOf owner (wDB w)) id) eqn:Eo; [simpl; by auto|].
  destruct (_ <? _) eqn:Eb; bools; [simpl; rewrite Ed; eauto 10|].
  pose proof (rewardByID_Some _ _ Ei) as [Hit Hid].
  unfold craftCommit. rewrite bind_run, ok_Exec by done. rewrite Ed.
  rewrite insertCraft_fresh by (by eapply craft_fresh). subst id. cbn [fst snd ret].
  world_cbn. pose proof (fun o => craft_effect owner it (wDB w) o Hit) as He.
  destruct (He owner) as [H1 H2]. rewrite eqb_refl_dec in H2.
  split_and!; try done; [by apply craftCost_pos | lia |].
  intros o Ho. destruct (He o) as [_ ->]. rewrite eqb_neq_dec by done. lia.
Qed.

(** Alice holds forty shards from duplicates. *)
Definition shardDB : Database :=
  set_reward_crates (tableOf [mkRewardCrate 1 "alice" "dave" (Some "squad") 40 T0 (Some T0)]) sampleDB.

Lemma craftReward_pays_witness :
  let w := mkW shardDB server0 T0 in
  (exists it, (craftReward "alice" "boba" w).1 = inr it)
  /\ balance "alice" (wDB (craftReward "alice" "boba" w).2) = 10
  /\ 0 <= balance "alice" (wDB (craftReward "alice" "boba" w).2).
Proof.
  intros w. pose proof (craftReward_pays "alice" "boba" w (sql_ok_mkW _ _ _)) as H.
  destruct (craftReward "alice" "boba" w).1 as [e|it] eqn:E; [vm_compute in E; discriminate E|].
  destruct H as (_ & _ & _ & _ & Hb & Hp & _). split; [by exists it|]. split; [|exact Hp].
  vm_compute. reflexivity.
Defined.

(** The check and the insert of a craft are two steps.  Two requests of
    the same user for different items that both run their checks before
    either inserts are both served, and the balance goes below zero: the
    conditional update that protects crates has no counterpart here. *)
Theorem craft_race_overspends :
  exists w i1 i2 w1 w2 w3 w4 it1 it2,
    sql_ok w /\ db_wf (wDB w) /\ i1 <> i2 /\ 0 <= balance "alice" (wDB w)
    /\ craftCheck "alice" i1 w = (inr it1, w1) /\ craftCheck "alice" i2 w1 = (inr it2, w2)
    /\ craftCommit "alice" i1 it1 w2 = (inr it1, w3)
    /\ craftCommit "alice" i2 it2 w3 = (inr it2, w4)
    /\ balance "alice" (wDB w4) < 0.
Proof.
  exists (mkW shardDB server0 T0), "boba", "cheers". do 6 eexists. 
  split; [apply sql_ok_mkW|]. split; [apply wf_check_sound; vm_compute; reflexivity|].
  split; [discriminate|]. split; [vm_compute; discriminate|].
  split; [vm_compute; reflexivity|]. split; [vm_compute; reflexivity|].
  split; [vm_compute; reflexivity|]. split; [vm_compute; reflexivity|].
  vm_compute. reflexivity.
Qed.

(** ** Earning *)

(** A candidate row stands for a verified account the owner referred. *)
Definition vouched (owner : string) (d : Database) (c : cand) : Prop :=
  exists u, u ∈ rows (users d) /\ u_username u = candUser c /\ u_signup_ip u = candIP c
            /\ u_referred_by u = owner /\ u_is_verified u = 1.

Lemma crateCands_vouched owner d : Forall (vouched owner d) (crateCands owner d).
Proof.
  apply Forall_forall. intros c. unfold crateCands. rewrite list_elem_of_fmap.
  intros (u & -> & Hu). rewrite elem_of_order_by, order_str_Permutation in Hu.
  apply elem_of_tselect in Hu as [Hp Hu]. bools. by exists u.
Qed.

(** What a run of [syncCrates] may have changed since [d0]. *)
Record synced (owner : string) (now : Z) (d0 d : Database) : Prop := mkSynced {
  sy_users : users d = users d0;
  sy_today : cratesToday owner now d <= Z.max (cratesToday owner now d0) maxCratesPerDay;
  sy_ip : forall ip, ip <> "" ->
    cratesFromIP owner ip d <= Z.max (cratesFromIP owner ip d0) maxCratesPerSignupIP;
  sy_rows : exists new, ownerCrates owner d = ownerCrates owner d0 ++ new
    /\ Forall (fun r => rc_item r = None /\ exists ip, vouched owner d0 (mkCand (rc_source r) ip)) new }.

Lemma insertCrate_new owner source now d :
  texists (fun c => rc_source c ==? source) (reward_crates d) = false ->
  insertCrate owner source now d
  = set_reward_crates (tinsert (fun id => mkRewardCrate id owner source None 0 (sqlNow now) None)
                         (reward_crates d)) d.
Proof. intros H. unfold insertCrate, tinsert_ignore. by rewrite H. Qed.

Lemma synced_insert owner now d0 d c :
  db_wf d0 -> vouched owner d0 c -> synced owner now d0 d ->
  cratesToday owner now d < maxCratesPerDay ->
  (candIP c <> "" -> cratesFromIP owner (candIP c) d < maxCratesPerSignupIP) ->
  texists (fun r => rc_source r ==? candUser c) (reward_crates d) = false ->
  synced owner now d0 (insertCrate owner (candUser c) now d).
Proof.
  intros Hwf Hv [Hu Ht Hip (new & Hl & Hnew)] H1 H2 Hx. rewrite insertCrate_new by done.
  set (row := mkRewardCrate (tnext (reward_crates d)) owner (candUser c) None 0 (sqlNow now) None).
  constructor; [done| | |].
  - enough (cratesToday owner now (set_reward_crates (tinsert (fun id => mkRewardCrate id owner
      (candUser c) None 0 (sqlNow now) None) (reward_crates d)) d) <= cratesToday owner now d + 1)
      by lia.
    unfold cratesToday, tcount. simpl. rewrite tselect_tinsert, length_app.
    destruct (_ && _); simpl; lia.
  - intros ip Hne. specialize (Hip ip Hne).
    assert (E : cratesFromIP owner ip (set_reward_crates (tinsert (fun id => mkRewardCrate id owner
        (candUser c) None 0 (sqlNow now) None) (reward_crates d)) d)
      = cratesFromIP owner ip d
        + tcount (fun u => (u_username u ==? candUser c) && (u_signup_ip u ==? ip)) (users d)).
    { unfold cratesFromIP. simpl. rewrite tselect_tinsert. cbn [rc_owner]. rewrite eqb_refl_dec.
      rewrite tsum_app. unfold tsum at 2. simpl. lia. }
    rewrite E, Hu. destruct Hv as (u & Hu1 & Hu2 & Hu3 & _).
    destruct (decide (ip = candIP c)) as [->|Hd].
    + specialize (H2 Hne). pose proof (tcount_le_1 u_username
        (fun u => (u_username u ==? candUser c) && (u_signup_ip u ==? candIP c)) (users d0)
        (wf_users _ Hwf)) as Hc.
      assert (Hk : forall x y : User, (u_username x ==? candUser c) && (u_signup_ip x ==? candIP c) = true ->
        (u_username y ==? candUser c) && (u_signup_ip y ==? candIP c) = true -> u_username x = u_username y).
      { intros x y Hx1 Hy1. bools. congruence. }
      specialize (Hc Hk). lia.
    + rewrite (proj2 (tcount_zero _ _)); [lia|]. apply texists_false. intros x Hxu.
      destruct (_ && _) eqn:Exy; [|done]. bools. destruct Hd.
      assert (x = u) as -> by (apply (unique_eq u_username (users d0)); [apply Hwf|..]; congruence).
      congruence.
  - exists (new ++ [row]). split.
    + unfold ownerCrates. simpl. rewrite tselect_tinsert. cbn [rc_owner]. rewrite eqb_refl_dec.
      fold row. unfold ownerCrates in Hl. by rewrite Hl, <- app_assoc.
    + apply Forall_app. split; [done|]. constructor; [|constructor]. split; [done|].
      exists (candIP c). by destruct c.
Qed.

Lemma texists_insertCrate_count owner (source : string) now d :
  (if texists (fun r => rc_source r ==? source) (reward_crates d) then 0 else 1)
  = Z.of_nat (length (ownerCrates owner (insertCrate owner source now d)))
    - Z.of_nat (length (ownerCrates owner d)).
Proof.
  destruct (texists _ _) eqn:E.
  - unfold insertCrate, tinsert_ignore. rewrite E. unfold ownerCrates. simpl. lia.
  - rewrite insertCrate_new by done. unfold ownerCrates. simpl. rewrite tselect_tinsert.
    cbn [rc_owner]. rewrite eqb_refl_dec, length_app. simpl. lia.
Qed.

(** One candidate. *)
Lemma syncOne_run owner c d0 w :
  sql_ok w -> db_wf d0 -> vouched owner d0 c -> synced owner (wNow w) d0 (wDB w) ->
  exists n, (syncOne owner c w).2 = set_wSqlTick n (set_wDB (wDB (syncOne owner c w).2) w)
    /\ synced owner (wNow w) d0 (wDB (syncOne owner c w).2)
    /\ Z.of_nat (length (ownerCrates owner (wDB (syncOne owner c w).2)))
       = Z.of_nat (length (ownerCrates owner (wDB w))) + default 0 (syncOne owner c w).1.
Proof.
  intros Hok Hwf Hv Hs. unfold syncOne. rewrite bind_run, getNow_run. cbn [fst snd].
  rewrite bind_run, ok_CountOr0 by done. cbn [fst snd].
  assert (Hsame : forall n, set_wSqlTick n w = set_wSqlTick n (set_wDB (wDB w) w)) by (by destruct w).
  destruct (maxCratesPerDay <=? _) eqn:E1.
  { exists (S (wSqlTick w)). rewrite ret_run. world_cbn. split_and!; [apply Hsame | done | simpl; lia]. }
  assert (Hip : exists n k, (if is_empty (candIP c) then ret 0
      else CountOr0 (cratesFromIP owner (candIP c))) (tickSql w) = (k, set_wSqlTick n w)
      /\ (candIP c <> "" -> k = cratesFromIP owner (candIP c) (wDB w))).
  { unfold is_empty. case_bool_decide as He.
    - exists (S (wSqlTick w)), 0. by split.
    - rewrite ok_CountOr0 by sqlside. by eexists _, _. }
  destruct Hip as (n & k & Ek & Hk). rewrite bind_run, Ek. cbn [fst snd].
  destruct (maxCratesPerSignupIP <=? k) eqn:E2.
  { exists n. rewrite ret_run. world_cbn. split_and!; [apply Hsame | done | simpl; lia]. }
  bools. rewrite bind_run, ok_ExecN by (intros i; apply Hok). world_cbn. rewrite ret_run. world_cbn.
  exists (S n). split_and!; [done| |].
  - destruct (texists (fun r => rc_source r ==? candUser c) (reward_crates (wDB w))) eqn:Ex.
    + unfold insertCrate, tinsert_ignore. rewrite Ex. by destruct (wDB w).
    + apply synced_insert; try done. intros Hne. rewrite <- Hk by done. done.
  - pose proof (texists_insertCrate_count owner (candUser c) (wNow w) (wDB w)) as Hc.
    destruct (texists _ _); simpl; lia.
Qed.

Lemma syncLoop_run owner cs g d0 w :
  sql_ok w -> db_wf d0 -> Forall (vouched owner d0) cs -> synced owner (wNow w) d0 (wDB w) ->
  let r := syncLoop owner cs g w in
  synced owner (wNow w) d0 (wDB r.2)
  /\ Z.of_nat (length (ownerCrates owner (wDB r.2)))
     = Z.of_nat (length (ownerCrates owner (wDB w))) + (r.1 - g).
Proof.
  intros Hok Hwf Hcs. revert g w Hok. induction Hcs as [|c cs Hc _ IH]; intros g w Hok Hs; cbv zeta.
  { simpl. split; [done | lia]. }
  destruct (syncOne_run owner c d0 w Hok Hwf Hc Hs) as (n & E & Hs' & Hl).
  simpl. rewrite bind_run. destruct (syncOne owner c w) as [[k|] w'] eqn:E1; simpl in *.
  - assert (Hok' : sql_ok w') by (rewrite E; intros i; apply Hok).
    assert (En : wNow w' = wNow w) by (by rewrite E).
    destruct (IH (g + k) w' Hok') as [A B]; [by rewrite En|]. rewrite En in A.
    split; [done | lia].
  - split; [done | lia].
Qed.

(** Crates are earned, and farming is capped.  [syncCrates] returns the
    number of crates it adds; each is closed and stands for a verified account
    that the owner referred; and however many referrals are waiting, the
    owner ends with at most five crates in a day and at most two from one
    non-empty signup address (or what they already had, if more). *)
Theorem syncCrates_limits owner w :
  sql_ok w -> db_wf (wDB w) ->
  let d := wDB w in
  let d' := wDB (syncCrates owner w).2 in
  (exists new, ownerCrates owner d' = ownerCrates owner d ++ new
     /\ (syncCrates owner w).1 = Z.of_nat (length new)
     /\ Forall (fun r => rc_item r = None
                /\ exists ip, vouched owner d (mkCand (rc_source r) ip)) new)
  /\ cratesToday owner (wNow w) d' <= Z.max (cratesToday owner (wNow w) d) 5
  /\ (forall ip, ip <> "" -> cratesFromIP owner ip d' <= Z.max (cratesFromIP owner ip d) 2)
  /\ unique rc_source (reward_crates d').
Proof.
  intros Hok Hwf d d'. subst d d'.
  pose proof (safe_wf _ w (safe_syncCrates owner) Hwf) as Hwf'.
  unfold syncCrates in *. rewrite bind_run, ok_Query in * by done. cbn [fst snd] in *.
  destruct (syncLoop_run owner (crateCands owner (wDB w)) 0 (wDB w) (tickSql w)) as [H1 H2]; world_cbn.
  - sqlside.
  - done.
  - apply crateCands_vouched.
  - constructor; [done | world_cbn; lia | intros; world_cbn; lia|]. exists [].
    by rewrite app_nil_r.
  - destruct H1 as [_ Ht Hip (new & Hl & Hnew)]. split_and!; [|done..|apply Hwf'].
    exists new. split_and!; [done| |done]. rewrite Hl, length_app in H2.
    change (wDB (tickSql w)) with (wDB w) in H2. lia.
Qed.

Lemma syncCrates_limits_witness :
  (syncCrates "alice" crateW).1 = 1
  /\ cratesToday "alice" T0 (wDB (syncCrates "alice" crateW).2) <= 5.
Proof.
  destruct (syncCrates_limits "alice" crateW) as (_ & H & _).
  - apply sql_ok_mkW.
  - apply wf_check_sound. vm_compute. reflexivity.
  - split; [vm_compute; reflexivity|]. etransitivity; [exact H|]. vm_compute. discriminate.
Defined.
