(* ===== verification/Dm.v ===== *)
(** * Direct messages ([main.go], [ws_handlers.go])

    The durable history of one-to-one messages, the queue for users who are
    offline, and the messages that act on a direct message: edit, delete,
    react.  Bodies are ciphertext the server never reads. *)

From Stdlib Require Import ZArith Lia.
From stdpp Require Import base strings list gmap.
From S2P Require Import Prelude GoRt Store Wire Db World Wf Registry Social.

Open Scope string_scope.
Open Scope list_scope.
Open Scope Z_scope.

(** ** The history table *)

Definition insertDM (msgID sender recipient body : string) (now : Z) (d : Database) : Database :=
  set_dm_messages
    (tinsert_ignore (fun r => dr_msg_id r ==? msgID)
       (fun id => mkDMRow id msgID sender recipient body 0 0 (sqlNow now)) (dm_messages d)) d.

Definition persistDM (msgID sender recipient body : string) : M unit :=
  if is_empty msgID || is_empty sender || is_empty recipient then ret tt
  else let* now := getNow in Exec_ (insertDM msgID sender recipient body now).

Definition editDMIn (msgID sender newBody : string) (d : Database) : Database :=
  set_dm_messages
    (tupdate (fun r => (dr_msg_id r ==? msgID) && (dr_sender r ==? sender) && (dr_deleted r =? 0))
       (fun r => set_dr_edited 1 (set_dr_body newBody r)) (dm_messages d)) d.

Definition editDM (msgID sender newBody : string) : M unit := Exec_ (editDMIn msgID sender newBody).

Definition deleteDMIn (msgID sender : string) (d : Database) : Database :=
  set_dm_messages
    (tupdate (fun r => (dr_msg_id r ==? msgID) && (dr_sender r ==? sender))
       (fun r => set_dr_deleted 1 (set_dr_body "" r)) (dm_messages d)) d.

Definition deleteDM (msgID sender : string) : M unit := Exec_ (deleteDMIn msgID sender).

(** ** Reactions *)

Definition isReaction (msgID user emoji : string) (r : DMReaction) : bool :=
  (dx_msg_id r ==? msgID) && (dx_username r ==? user) && (dx_emoji r ==? emoji).

#[export] Hint Unfold isReaction : sqlkeys.

Definition removeReaction (msgID user emoji : string) (d : Database) : Database :=
  set_dm_reactions (tdelete (isReaction msgID user emoji) (dm_reactions d)) d.

Definition addReaction (msgID user emoji : string) (d : Database) : Database :=
  set_dm_reactions (tinsert_ignore (isReaction msgID user emoji)
                      (fun _ => mkDMReaction msgID user emoji) (dm_reactions d)) d.

Definition toggleReaction (msgID user emoji : string) : M bool :=
  let* n := CountOr0 (fun d => tcount (isReaction msgID user emoji) (dm_reactions d)) in
  if 0 <? n then Exec_ (removeReaction msgID user emoji) ;;; ret false
  else Exec_ (addReaction msgID user emoji) ;;; ret true.

(** The reactions of one message, grouped by emoji in insertion order. *)
Definition addUser (m : gmap string (list string)) (emoji user : string) : gmap string (list string) :=
  <[emoji := default [] (m !! emoji) ++ [user]]> m.

Definition dmReactionMap (msgID : string) (rs : list DMReaction) : gmap string (list string) :=
  foldl (fun m r => if dx_msg_id r ==? msgID then addUser m (dx_emoji r) (dx_username r) else m) ∅ rs.

(** ** History *)

Definition dmBetween (a b : string) (r : DMRow) : bool :=
  ((dr_sender r ==? a) && (dr_recipient r ==? b)) || ((dr_sender r ==? b) && (dr_recipient r ==? a)).

Definition clampLimit (limit dflt : Z) : Z := if (limit <=? 0) || (200 <? limit) then dflt else limit.

(** The page the query selects, newest first. *)
Definition dmPage (a b : string) (beforeID limit : Z) (d : Database) : list DMRow :=
  take (Z.to_nat (clampLimit limit 100))
    (order_by_desc dr_id
       (tselect (fun r => dmBetween a b r && (if 0 <? beforeID then dr_id r <? beforeID else true))
          (dm_messages d))).

Definition rowToDM (r : DMRow) : DMMessage :=
  mkDM (dr_msg_id r) (dr_sender r) (dr_recipient r) (if dr_deleted r =? 1 then "" else dr_body r)
    (dr_edited r =? 1) (dr_deleted r =? 1) (dr_created_at r) ∅.

Definition withReactions (rs : list DMReaction) (m : DMMessage) : DMMessage :=
  set_dmReactions (dmReactionMap (dmMsgID m) rs) m.

Definition fetchDMHistory (a b : string) (beforeID limit : Z) : M (list DMMessage) :=
  let* rows := Query (dmPage a b beforeID limit) in
  match rows with
  | None => ret []
  | Some rows =>
      let out := rev (rowToDM <$> rows) in
      let ids := dr_msg_id <$> rows in
      match ids with
      | [] => ret out
      | _ =>
          let* rx := Query (fun d => tselect (fun r => existsb (fun i => i ==? dx_msg_id r) ids)
                                       (dm_reactions d)) in
          ret (match rx with None => out | Some rs => withReactions rs <$> out end)
      end
  end.

(** [SELECT COALESCE(MAX(strftime('%s', created_at)), 0)] over the pair. *)
Definition lastDMSecond (a b : string) (d : Database) : Z :=
  foldr (fun r n => Z.max (dr_created_at r / Second) n) 0 (tselect (dmBetween a b) (dm_messages d)).

(** ** The offline queue *)

Definition queueMessage (sender recipient body msgType convo msgID : string) (now : Z) (d : Database)
  : Database :=
  set_offline_messages
    (tinsert (fun id => mkOfflineMessage id sender recipient body msgType convo (sqlNow now) msgID)
       (offline_messages d)) d.

Definition storeOfflineMessage (sender recipient body msgType msgID : string) : M unit :=
  let* now := getNow in
  Exec_ (queueMessage sender recipient body msgType "" msgID now) ;;;
  push recipient sender body.

Definition offlineFrame (r : OfflineMessage) : NexusMessage :=
  nm (om_msg_type r) |> set_mSender (om_sender r) |> set_mBody (om_body r)
    |> set_mMsgID (om_msg_id r) |> set_mStatus ("offline:" +:+ FormatRFC3339 (om_created_at r)).

Definition queueOf (username : string) (d : Database) : list OfflineMessage :=
  order_by om_created_at (tselect (fun r => om_recipient r ==? username) (offline_messages d)).

Definition dropQueued (id : Z) (d : Database) : Database :=
  set_offline_messages (tdelete (fun r => om_id r =? id) (offline_messages d)) d.

Definition deliverOfflineMessages (username : string) (client : nat) : M unit :=
  let* rows := Query (queueOf username) in
  match rows with
  | None => ret tt
  | Some rows =>
      forM rows (fun r => Send_ client (offlineFrame r)) ;;;
      forM rows (fun r => Exec_ (dropQueued (om_id r)))
  end.

(** ** The messages *)

(** [strings.EqualFold(os.Getenv("PHAZE_ENABLE_PSTN"), "true")] *)
Definition pstnBridgeEnabled (e : Env) : bool := ToLower (getenv e "PHAZE_ENABLE_PSTN") ==? "true".

Section Cases.
Context (client : nat) (username : string) (msg : NexusMessage).

Definition botReply (e : Env) (count : Z) : string :=
  let cmd := ToLower (TrimSpace (mBody msg)) in
  if cmd ==? "/mesh" then "Phaze currently has " +:+ Itoa count +:+ " users connected."
  else if cmd ==? "/webrtc" then
    "Phaze voice/video uses WebRTC (Pion on desktop, browser APIs on web). Signaling goes over Nexus; media is peer-to-peer when possible, with TURN from your relay when NAT blocks direct paths."
  else if cmd ==? "/version" then "Nexus Server v1.0.0-Phaze"
  else if cmd ==? "/pstn" then
    if pstnBridgeEnabled e then
      "PSTN bridge is ON for this relay (Twilio). Link your phone in Settings for verified outbound. Otherwise use WebRTC calls in chat."
    else
      "PSTN bridge is OFF. Voice/video is WebRTC between Phaze users only "
      +:+ of_bytes [226; 128; 148] +:+ " no carrier charges."
  else "I am the Phaze Mesh Assistant. Try: /mesh, /version, /pstn (PSTN status), /webrtc".

Definition handleBotMessage (msg' : NexusMessage) : M unit :=
  let* e := getEnv in
  let* count := onlineUserCount in
  Send_ client (nm "msg" |> set_mSender "PhazeBot" |> set_mRecipient (mSender msg')
                |> set_mBody (botReply e count)).

Definition case_msg : M unit :=
  if is_empty username then ret tt
  else
    let msg' := set_mSender username msg in
    if mRecipient msg ==? "PhazeBot" then handleBotMessage msg'
    else
      let* blocked := orM (isBlocked (mRecipient msg) username) (isBlocked username (mRecipient msg)) in
      if blocked then
        Send_ client (nm "msg_status" |> set_mBody "delivered_offline" |> set_mSender (mRecipient msg))
      else if 65536 <? len (mBody msg) then
        Send_ client (nm "msg_status" |> set_mBody "error" |> set_mSender (mRecipient msg)
                      |> set_mError "message too long")
      else
        persistDM (mMsgID msg) username (mRecipient msg) (mBody msg) ;;;
        let* live := sendTo (mRecipient msg) msg' in
        if live then ret tt
        else
          storeOfflineMessage username (mRecipient msg) (mBody msg) "msg" (mMsgID msg) ;;;
          Send_ client (nm "msg_status" |> set_mBody "delivered_offline"
                        |> set_mSender (mRecipient msg)).

(** [msg_edit], [msg_delete] and [msg_react] *)
Definition case_msg_act : M unit :=
  if is_empty username || is_empty (mRecipient msg) || is_empty (mMsgID msg) then ret tt
  else
    let* blocked := orM (isBlocked (mRecipient msg) username) (isBlocked username (mRecipient msg)) in
    if blocked then ret tt
    else
      let relay := sendTo_ (mRecipient msg) (set_mSender username msg) in
      if mType msg ==? "msg_edit" then
        if 10000 <? len (mBody msg) then
          Send_ client (nm "msg_edit_result" |> set_mError "message too long")
        else editDM (mMsgID msg) username (mBody msg) ;;; relay
      else if mType msg ==? "msg_delete" then deleteDM (mMsgID msg) username ;;; relay
      else
        (if is_empty (mReaction msg) then ret tt
         else toggleReaction (mMsgID msg) username (mReaction msg) ;;; ret tt) ;;;
        relay.

Definition case_dm_history : M unit :=
  if is_empty username || is_empty (mRecipient msg) then ret tt
  else
    let* rows := fetchDMHistory username (mRecipient msg) (mHistoryFrom msg) 100 in
    Send_ client (nm "dm_history" |> set_mRecipient (mRecipient msg) |> set_mDMHistory rows).

Definition case_read_receipt : M unit :=
  if is_empty username then ret tt
  else
    let* ok := areFriends username (mRecipient msg) in
    if negb ok then ret tt
    else sendTo_ (mRecipient msg) (nm "read_receipt" |> set_mSender username |> set_mBody (mBody msg)).

Definition case_key_request : M unit :=
  if is_empty username || is_empty (mRecipient msg) then ret tt
  else
    let* ok := areFriends username (mRecipient msg) in
    if negb ok then ret tt
    else
      addMetric (fun m => set_keyRequests (u64_succ (keyRequests m)) m) ;;;
      sendTo_ (mRecipient msg) (set_mSender username msg).

(** *** Key backups *)

Definition putBackup (b : KeyBackupPayload) (now : Z) (d : Database) : Database :=
  set_key_backups
    (tupsert (fun r => kb_username r ==? username)
       (fun r => set_kb_created_at (sqlNow now) (set_kb_iterations (kbIterations b)
                   (set_kb_salt (kbSalt b) (set_kb_ciphertext (kbCiphertext b) r))))
       (fun _ => mkKeyBackup username (kbCiphertext b) (kbSalt b) (kbIterations b) (sqlNow now))
       (key_backups d)) d.

Definition storeBackup (b : KeyBackupPayload) : M unit :=
  if is_empty (kbCiphertext b) || is_empty (kbSalt b) || (kbIterations b <? 10000) then
    Send_ client (nm "key_backup_result" |> set_mError "invalid backup payload")
  else
    let* now := getNow in
    let* ok := ExecOk (putBackup b now) in
    if negb ok then Send_ client (nm "key_backup_result" |> set_mError (err_text EEngine))
    else Send_ client (nm "key_backup_result" |> set_mStatus "stored").

Definition case_key_backup_put : M unit :=
  if is_empty username then ret tt
  else
    match mKeyBackup msg with
    | Some b => storeBackup b
    | None =>
        if is_empty (mToken msg) then
          Send_ client (nm "key_backup_result" |> set_mError "invalid backup payload")
        else
          let* e := getEnv in
          match jsonBackup e (mToken msg) with
          | inr err => Send_ client (nm "key_backup_result"
                                     |> set_mError ("invalid backup token: " +:+ err))
          | inl b => storeBackup b
          end
    end.

Definition case_key_backup_get : M unit :=
  if is_empty username then ret tt
  else
    let* row := QueryRow (fun d => tfirst (fun r => kb_username r ==? username) (key_backups d)) in
    let* e := getEnv in
    match row with
    | None => Send_ client (nm "key_backup_result" |> set_mStatus "not_found"
                            |> set_mError "no backup found")
    | Some r =>
        let b := mkBackupPayload (kb_ciphertext r) (kb_salt r) (kb_iterations r) 0 in
        Send_ client (nm "key_backup_result" |> set_mStatus "ok"
                      |> set_mKeyBackup (Some (mkBackupPayload (kb_ciphertext r) (kb_salt r)
                                                (kb_iterations r) (kb_created_at r)))
                      |> set_mToken (jsonBackupEnc e b))
    end.

Definition case_key_backup_delete : M unit :=
  if is_empty username then ret tt
  else
    Exec_ (fun d => set_key_backups (tdelete (fun r => kb_username r ==? username) (key_backups d)) d) ;;;
    Send_ client (nm "key_backup_result" |> set_mStatus "deleted").
End Cases.

(** ** Frames: every operation keeps the database invariant *)

Lemma safe_persistDM msgID sender recipient body : respects safe (persistDM msgID sender recipient body).
Proof. frame_deep. Qed.
Lemma safe_editDM msgID sender newBody : respects safe (editDM msgID sender newBody).
Proof. frame_deep. Qed.
Lemma safe_deleteDM msgID sender : respects safe (deleteDM msgID sender). Proof. frame_deep. Qed.
Lemma safe_toggleReaction msgID user emoji : respects safe (toggleReaction msgID user emoji).
Proof. frame_deep. Qed.
Lemma safe_fetchDMHistory a b beforeID limit : respects safe (fetchDMHistory a b beforeID limit).
Proof. frame_deep. Qed.
Lemma safe_storeOfflineMessage sender recipient body msgType msgID : respects safe (storeOfflineMessage sender recipient body msgType msgID).
Proof. frame_deep. Qed.
Lemma safe_deliverOfflineMessages username client : respects safe (deliverOfflineMessages username client).
Proof. frame_deep. Qed.
Lemma safe_handleBotMessage client msg msg' : respects safe (handleBotMessage client msg msg').
Proof. frame_deep. Qed.
Lemma safe_storeBackup client username b : respects safe (storeBackup client username b).
Proof. frame_deep. Qed.

#[export] Hint Resolve safe_persistDM safe_editDM safe_deleteDM safe_toggleReaction
  safe_fetchDMHistory safe_storeOfflineMessage safe_deliverOfflineMessages safe_handleBotMessage
  safe_storeBackup : frame.

Section SafeCases.
Context (client : nat) (username : string) (msg : NexusMessage).
Lemma safe_case_msg : respects safe (case_msg client username msg). Proof. frame_deep. Qed.
Lemma safe_case_msg_act : respects safe (case_msg_act client username msg).
Proof. frame_deep. Qed.
Lemma safe_case_dm_history : respects safe (case_dm_history client username msg).
Proof. frame_deep. Qed.
Lemma safe_case_read_receipt : respects safe (case_read_receipt username msg).
Proof. frame_deep. Qed.
Lemma safe_case_key_request : respects safe (case_key_request username msg).
Proof. frame_deep. Qed.
Lemma safe_case_key_backup_put : respects safe (case_key_backup_put client username msg).
Proof. frame_deep. Qed.
Lemma safe_case_key_backup_get : respects safe (case_key_backup_get client username).
Proof. frame_deep. Qed.
Lemma safe_case_key_backup_delete : respects safe (case_key_backup_delete client username).
Proof. frame_deep. Qed.
End SafeCases.

#[export] Hint Resolve safe_case_msg safe_case_msg_act safe_case_dm_history safe_case_read_receipt
  safe_case_key_request safe_case_key_backup_put safe_case_key_backup_get
  safe_case_key_backup_delete : frame.
