(* ===== verification/DmSpec.v ===== *)
(** * What becomes of a direct message

    A row of the history evolves by an abstract machine that only its author
    drives; a message sent is delivered now or queued, never both and never
    neither; the queue is handed over in order; walking back through pages of
    ascending ids shows all of them. *)

From Stdlib Require Import ZArith Lia Sorted.
From stdpp Require Import base strings list gmap sorting.
From S2P Require Import Prelude GoRt Store Wire Db World Wf Samples Registry Social SocialSpec Dm.

Open Scope string_scope.
Open Scope list_scope.
Open Scope Z_scope.

(** ** The life of one message id *)

Record dmState := mkDMState {
  dsSender : string;
  dsRecipient : string;
  dsBody : string;
  dsEdited : bool;
  dsDeleted : bool }.

Inductive dmop :=
| OPersist (sender recipient body : string)
| OEdit (by_ body : string)
| ODelete (by_ : string).

(** First writer wins; only the author edits or deletes; a deletion empties
    the body and nothing fills it again. *)
Definition dm_step (op : dmop) (s : option dmState) : option dmState :=
  match s, op with
  | None, OPersist f t b =>
      if is_empty f || is_empty t then None else Some (mkDMState f t b false false)
  | None, _ => None
  | Some st, OPersist _ _ _ => Some st
  | Some st, OEdit u b =>
      if (dsSender st ==? u) && negb (dsDeleted st)
      then Some (mkDMState (dsSender st) (dsRecipient st) b true false) else Some st
  | Some st, ODelete u =>
      if dsSender st ==? u
      then Some (mkDMState (dsSender st) (dsRecipient st) "" (dsEdited st) true) else Some st
  end.

Definition run_dmop (id : string) (op : dmop) : M unit :=
  match op with
  | OPersist f t b => persistDM id f t b
  | OEdit u b => editDM id u b
  | ODelete u => deleteDM id u
  end.

Definition stateOfRow (r : DMRow) : dmState :=
  mkDMState (dr_sender r) (dr_recipient r) (dr_body r) (dr_edited r =? 1) (negb (dr_deleted r =? 0)).

Definition dmState_of (id : string) (d : Database) : option dmState :=
  stateOfRow <$> tfirst (fun r => dr_msg_id r ==? id) (dm_messages d).

Lemma dmState_of_update id p f d :
  (forall r, dr_msg_id (f r) = dr_msg_id r) ->
  dmState_of id (set_dm_messages (tupdate p f (dm_messages d)) d)
  = (fun r => stateOfRow (if p r then f r else r))
      <$> tfirst (fun r => dr_msg_id r ==? id) (dm_messages d).
Proof.
  intros Hf. unfold dmState_of. simpl. rewrite tfirst_tupdate by (intros r; by rewrite Hf).
  by destruct (tfirst _ _).
Qed.

Lemma find_first_app {A} (p : A -> bool) (l k : list A) :
  find_first p (l ++ k) = match find_first p l with Some x => Some x | None => find_first p k end.
Proof. induction l as [|x l IH]; simpl; [done|]. by destruct (p x). Qed.

Lemma tfirst_tinsert {R} (p : R -> bool) mk (t : Table R) :
  tfirst p (tinsert mk t) = match tfirst p t with
                            | Some x => Some x
                            | None => if p (mk (tnext t)) then Some (mk (tnext t)) else None
                            end.
Proof. unfold tfirst, tinsert. simpl. by rewrite find_first_app. Qed.

Lemma dmState_of_persist id id' f t b now d :
  dmState_of id (insertDM id' f t b now d)
  = match dmState_of id d with
    | Some s => Some s
    | None => if id' ==? id then Some (mkDMState f t b false false) else None
    end.
Proof.
  unfold dmState_of, insertDM, tinsert_ignore. simpl.
  destruct (texists (fun r => dr_msg_id r ==? id') (dm_messages d)) eqn:E.
  - destruct (tfirst (fun r => dr_msg_id r ==? id) _) as [r|] eqn:Ef; [done|]. simpl.
    case_bool_decide; [|done]. subst. apply tfirst_None in Ef. congruence.
  - rewrite tfirst_tinsert. destruct (tfirst _ _) as [r|]; simpl; [done|].
    by destruct (id' ==? id).
Qed.

(** C15: the history row of a message is the abstract message.  Storing,
    editing and deleting act on the id they name exactly as the abstract
    machine: the first copy of an id wins, only its author can edit it and
    only while it is not deleted, only its author can delete it, and deletion
    empties the body for good; every other id is untouched. *)
Theorem dm_refines id op w :
  sql_ok w -> id <> "" ->
  let d' := wDB (run_dmop id op w).2 in
  dmState_of id d' = dm_step op (dmState_of id (wDB w))
  /\ forall other, other <> id -> dmState_of other d' = dmState_of other (wDB w).
Proof.
  intros Hok Hid d'. subst d'. destruct op as [f t b|u b|u]; simpl.
  - unfold persistDM, is_empty. rewrite (eqb_neq_dec id "" Hid). cbn [orb].
    destruct ((f ==? "") || (t ==? "")) eqn:E; sqlrun.
    + split; [|done]. destruct (dmState_of id (wDB w)) as [s|]; simpl; [done|].
      unfold is_empty. by rewrite E.
    + split; [|intros o Ho]; rewrite dmState_of_persist.
      * rewrite eqb_refl_dec. destruct (dmState_of id (wDB w)); simpl; [done|].
        unfold is_empty. by rewrite E.
      * rewrite (eqb_neq_dec id o) by congruence. by destruct (dmState_of o (wDB w)).
  - unfold editDM. sqlrun. unfold editDMIn.
    split; [|intros o Ho]; rewrite dmState_of_update by done;
      unfold dmState_of; (destruct (tfirst _ _) as [r|] eqn:E; [|done]); simpl;
      apply find_first_Some in E as [_ E]; bools; subst.
    + rewrite eqb_refl_dec. simpl. destruct (dr_sender r ==? u); simpl; [|done].
      rewrite negb_involutive. by destruct (dr_deleted r =? 0) eqn:E; unfold stateOfRow; simpl; rewrite ?E.
    + by rewrite eqb_neq_dec.
  - unfold deleteDM. sqlrun. unfold deleteDMIn.
    split; [|intros o Ho]; rewrite dmState_of_update by done;
      unfold dmState_of; (destruct (tfirst _ _) as [r|] eqn:E; [|done]); simpl;
      apply find_first_Some in E as [_ E]; bools; subst.
    + rewrite eqb_refl_dec. simpl. by destruct (dr_sender r ==? u).
    + by rewrite eqb_neq_dec.
Qed.

Lemma dm_refines_witness :
  let w := (persistDM "m1" "alice" "bob" "hello" sampleW).2 in
  dmState_of "m1" (wDB (run_dmop "m1" (OEdit "bob" "forged") w).2)
  = Some (mkDMState "alice" "bob" "hello" false false).
Proof.
  intros w. assert (Hok : sql_ok w) by (intros n; reflexivity).
  destruct (dm_refines "m1" (OEdit "bob" "forged") w Hok ltac:(discriminate)) as [H _].
  rewrite H. reflexivity.
Defined.

(** ** Now or later *)

(** The two tables a message can end up in. *)
Definition mailbox (w : World) := (dm_messages (wDB w), offline_messages (wDB w)).

#[export] Instance fs_mailbox : FreesSrv (same mailbox). Proof. by intros ??. Qed.
#[export] Instance fo_mailbox : FreesOut (same mailbox). Proof. by intros ??. Qed.
#[export] Instance fq_mailbox : FreesSql (same mailbox). Proof. by intros ?. Qed.

Lemma mailbox_push u s b : respects (same mailbox) (push u s b).
Proof.
  unfold push, sendWebPush, sendFCMPush. frame.
  all: apply respects_Exec_; try typeclasses eauto; intros; reflexivity.
Qed.

(** A push tells no connection anything. *)
Definition no_frame (e : Event) : Prop := match e with EvSend _ _ => False | _ => True end.

Lemma push_no_frame u s b : respects (emits no_frame) (push u s b).
Proof.
  unfold push, sendWebPush, sendFCMPush. frame. all: apply emits_emit; exact I.
Qed.

Lemma seenBy_app c l k : seenBy c (l ++ k) = seenBy c l ++ seenBy c k.
Proof. apply boolfilter_app. Qed.

Lemma seenBy_no_frame c l : Forall no_frame l -> seenBy c l = [].
Proof.
  intros H. apply boolfilter_false. eapply Forall_impl; [exact H|]. by intros [].
Qed.

Lemma sql_ok_push u s b w : sql_ok w -> sql_ok (push u s b w).2.
Proof. apply respects_sql_ok. unfold push, sendWebPush, sendFCMPush. frame. Qed.

Lemma persistDM_run id f t b w :
  sql_ok w -> exists n d, persistDM id f t b w = (tt, set_wDB d (set_wSqlTick n w))
    /\ offline_messages d = offline_messages (wDB w)
    /\ (id <> "" -> f <> "" -> t <> "" -> exists s, dmState_of id d = Some s).
Proof.
  intros Hok. unfold persistDM, is_empty.
  destruct ((id ==? "") || (f ==? "") || (t ==? "")) eqn:E.
  - exists (wSqlTick w), (wDB w). split_and!; [by destruct w | done |]. intros H1 H2 H3.
    rewrite !eqb_neq_dec in E by done. done.
  - sqlrun. exists (S (wSqlTick w)), (insertDM id f t b (wNow w) (wDB w)).
    split_and!; [by destruct w | done |]. intros _ _ _. rewrite dmState_of_persist.
    destruct (dmState_of id (wDB w)); [eauto|]. rewrite eqb_refl_dec. eauto.
Qed.

(** C16: a message is delivered or queued, never both, never neither.  For an
    unblocked pair and a body within the limit, [msg] stores the history row;
    then, if some connection of the recipient accepts a write, every such
    connection gets exactly one frame, under the true sender's name, and the
    queue is untouched; otherwise no frame reaches the recipient and exactly
    one row carrying the message joins the queue.  No third party sees
    anything. *)
Theorem message_lossless client u msg w :
  sql_ok w -> u <> "" -> mRecipient msg <> "" -> mRecipient msg <> "PhazeBot" ->
  mMsgID msg <> "" -> len (mBody msg) <= 65536 ->
  eitherBlocks u (mRecipient msg) (wDB w) = false ->
  let w' := (case_msg client u msg w).2 in
  let conns := connsOf (wSrv w) (mRecipient msg) in
  (exists s, dmState_of (mMsgID msg) (wDB w') = Some s)
  /\ if existsb (writable w) conns
     then offline_messages (wDB w') = offline_messages (wDB w)
          /\ wOut w' = wOut w ++ frames w conns (set_mSender u msg)
     else (exists id, rows (offline_messages (wDB w'))
             = rows (offline_messages (wDB w))
               ++ [mkOfflineMessage id u (mRecipient msg) (mBody msg) "msg" "" (sqlNow (wNow w)) (mMsgID msg)])
          /\ forall c, c <> client -> seenBy c (wOut w') = seenBy c (wOut w).
Proof.
  intros Hok Hu Hr Hbot Hid Hlen Hb w' conns. subst w' conns. unfold case_msg, is_empty.
  rewrite (eqb_neq_dec u "" Hu), (eqb_neq_dec _ _ Hbot). cbv iota. rewrite bind_run.
  destruct (orBlocked_run u (mRecipient msg) w Hok) as [n ->]. rewrite Hb. cbn [fst snd].
  rewrite (proj2 (Z.ltb_ge 65536 (len (mBody msg)))) by done. cbv iota.
  rewrite bind_run. set (w1 := set_wSqlTick n w).
  destruct (persistDM_run (mMsgID msg) u (mRecipient msg) (mBody msg) w1 Hok) as (k & d & -> & Hoff & Hs).
  cbn [fst snd]. specialize (Hs Hid Hu Hr). set (w2 := set_wDB d (set_wSqlTick k w1)).
  rewrite bind_run, sendTo_spec. cbn [fst snd].
  change (connsOf (wSrv w2)) with (connsOf (wSrv w)). change (writable w2) with (writable w).
  change (frames w2) with (frames w). change (wOut w2) with (wOut w).
  destruct (existsb (writable w) (connsOf (wSrv w) (mRecipient msg))) eqn:Ew.
  - rewrite ret_run. by split_and!.
  - assert (Hf : frames w (connsOf (wSrv w) (mRecipient msg)) (set_mSender u msg) = []).
    { unfold frames. rewrite boolfilter_false; [done|]. apply Forall_forall. intros c Hc.
      destruct (writable w c) eqn:E; [|done]. rewrite <- Ew. symmetry. apply existsb_exists.
      exists c. split; [by apply list_elem_of_In | done]. }
    rewrite Hf, bind_run, Send__frames. cbn [snd]. unfold storeOfflineMessage.
    rewrite bind_run, getNow_run. cbn [fst snd]. rewrite bind_run, ok_Exec_ by (intros i; apply Hok).
    cbn [fst snd]. set (w3 := set_wDB _ _).
    pose proof (mailbox_push (mRecipient msg) u (mBody msg) w3) as Hm. unfold same, mailbox in Hm.
    injection Hm as Hm1 Hm2.
    destruct (push_no_frame (mRecipient msg) u (mBody msg) w3) as (l & El & Hl).
    set (w4 := (push _ _ _ w3).2) in *. split; [|split].
    + destruct Hs as [s Hs]. exists s. rewrite <- Hs. unfold dmState_of. simpl. by rewrite Hm1.
    + eexists. cbn [wDB set_wOut]. rewrite Hm2. subst w3. simpl. by rewrite Hoff.
    + intros c Hc. cbn [wOut set_wOut]. rewrite El, !seenBy_app, (seenBy_no_frame c l Hl).
      rewrite seenBy_frames_other by (apply not_elem_of_cons; split; [done | apply not_elem_of_nil]).
      rewrite !app_nil_r. subst w3 w2 w1. simpl. by rewrite app_nil_r.
Qed.

(** Carol is offline; Bob has one connection. *)
Lemma message_lossless_witness :
  let m to := nm "msg" |> set_mRecipient to |> set_mBody "hi" |> set_mMsgID "m1" in
  wOut (case_msg 1 "alice" (m "bob") sampleW).2 = [EvSend 2 (set_mSender "alice" (m "bob"))]
  /\ exists id, rows (offline_messages (wDB (case_msg 1 "alice" (m "carol") sampleW).2))
       = [mkOfflineMessage id "alice" "carol" "hi" "msg" "" T0 "m1"].
Proof.
  intros m. split.
  - destruct (message_lossless 1 "alice" (m "bob") sampleW) as [_ H];
      [exact sampleW_ok | discriminate | discriminate | discriminate | discriminate | discriminate
      | reflexivity |]. exact (proj2 H).
  - destruct (message_lossless 1 "alice" (m "carol") sampleW) as [_ H];
      [exact sampleW_ok | discriminate | discriminate | discriminate | discriminate | discriminate
      | reflexivity |]. exact (proj1 H).
Defined.

(** ** The queue *)

Lemma forM_Send (f : OfflineMessage -> NexusMessage) c l w :
  forM l (fun r => Send_ c (f r)) w
  = (tt, set_wOut (wOut w ++ (if writable w c then (fun r => EvSend c (f r)) <$> l else [])) w).
Proof.
  revert w. induction l as [|r l IH]; intros w.
  - simpl. by destruct (writable w c); rewrite set_wOut_nil.
  - simpl forM. rewrite bind_run, Send__frames. cbn [fst snd]. rewrite IH.
    change (writable (set_wOut _ w) c) with (writable w c). unfold frames. rewrite boolfilter_cons.
    destruct (writable w c); simpl; rewrite <- ?app_assoc; [done|]. by rewrite !app_nil_r.
Qed.

Lemma forM_drop ids w :
  sql_ok w ->
  exists n, forM ids (fun id => Exec_ (dropQueued id)) w
  = (tt, set_wSqlTick n (set_wDB (set_offline_messages
      (tdelete (fun r => existsb (fun i => om_id r =? i) ids) (offline_messages (wDB w))) (wDB w)) w)).
Proof.
  revert w. induction ids as [|i ids IH]; intros w Hok.
  - exists (wSqlTick w). rewrite tdelete_none by (apply texists_false; done).
    simpl. destruct w as [d]. by destruct d.
  - simpl forM. rewrite bind_run, ok_Exec_ by done. cbn [fst snd].
    destruct (IH (set_wDB (dropQueued i (wDB w)) (tickSql w))) as [n ->]; [sqlside|].
    exists n. f_equal. unfold dropQueued. simpl. unfold set_wDB, set_wSqlTick. simpl. f_equal.
    unfold set_offline_messages. simpl. f_equal. unfold tdelete. simpl. f_equal.
    induction (rows (offline_messages (wDB w))) as [|r l IHl]; [done|]. rewrite !boolfilter_cons.
    destruct (om_id r =? i); simpl; [done|]. rewrite boolfilter_cons, IHl. done.
Qed.

Lemma forM_fmap {S A B} (g : A -> B) (f : B -> ST S unit) l s :
  forM (g <$> l) f s = forM l (fun x => f (g x)) s.
Proof. revert s. induction l as [|x l IH]; intros s; [done|]. apply IH. Qed.

(** The queue is handed over whole, in order, once.  A connection that
    signs in is sent, oldest first, one frame per row queued for its user
    (provided its socket takes writes); then the user's queue is empty and
    everybody else's is as it was.  The rows go even when the socket takes
    nothing. *)
Theorem deliverOffline_exact u client w :
  sql_ok w -> db_wf (wDB w) ->
  let q := queueOf u (wDB w) in
  let w' := (deliverOfflineMessages u client w).2 in
  wOut w' = wOut w ++ (if writable w client then (fun r => EvSend client (offlineFrame r)) <$> q else [])
  /\ StronglySorted Z.le (om_created_at <$> q)
  /\ q ≡ₚ tselect (fun r => om_recipient r ==? u) (offline_messages (wDB w))
  /\ queueOf u (wDB w') = []
  /\ forall v, v <> u -> queueOf v (wDB w') = queueOf v (wDB w).
Proof.
  intros Hok Hwf q w'.
  assert (E : exists n, w' = set_wSqlTick n (set_wOut (wOut w ++ (if writable w client
      then (fun r => EvSend client (offlineFrame r)) <$> q else []))
      (set_wDB (set_offline_messages (tdelete (fun r => existsb (fun i => om_id r =? i) (om_id <$> q))
                 (offline_messages (wDB w))) (wDB w)) w))).
  { subst w'. unfold deliverOfflineMessages. rewrite bind_run, ok_Query by done. cbn [fst snd].
    fold q. rewrite bind_run, forM_Send. cbn [snd].
    rewrite <- (forM_fmap om_id (fun i => Exec_ (dropQueued i))).
    edestruct (forM_drop (om_id <$> q)) as [n ->]; [|by exists n]. sqlside. }
  destruct E as [n ->].
  assert (Hq : q ≡ₚ tselect (fun r => om_recipient r ==? u) (offline_messages (wDB w)))
    by apply order_by_Permutation.
  assert (Hdrop : forall r, r ∈ rows (offline_messages (wDB w)) ->
    existsb (fun i => om_id r =? i) (om_id <$> q) = (om_recipient r ==? u)).
  { intros r Hr. apply eq_true_iff_eq. rewrite existsb_exists, bool_decide_eq_true. split.
    - intros (i & Hi & E). bools. apply list_elem_of_In, list_elem_of_fmap in Hi as (r' & -> & Hr').
      rewrite Hq in Hr'. apply elem_of_tselect in Hr' as [Hu Hr']. bools. subst u. f_equal.
      apply (unique_eq om_id (offline_messages (wDB w))); [|done..].
      apply (ids_ok_unique om_id), Hwf.
    - intros Hu. exists (om_id r). split; [|apply Z.eqb_refl]. apply list_elem_of_In.
      apply list_elem_of_fmap_2. rewrite Hq. apply elem_of_tselect. split; [|done].
      by apply bool_decide_eq_true. }
  split_and!; [done | apply order_by_Sorted | done | |].
  - unfold queueOf. simpl. apply Permutation_nil. rewrite order_by_Permutation.
    unfold tselect, tdelete. simpl. rewrite boolfilter_false; [done|]. apply Forall_forall.
    intros r Hr. apply elem_of_boolfilter in Hr as [Hn Hr]. rewrite Hdrop in Hn by done.
    by apply negb_true_iff in Hn.
  - intros v Hv. unfold queueOf. simpl. f_equal. unfold tselect, tdelete. simpl.
    revert Hdrop. generalize (om_id <$> q). clear Hq. intros ids.
    induction (rows (offline_messages (wDB w))) as [|r l IH]; intros Hdrop; [done|].
    rewrite !boolfilter_cons. rewrite (Hdrop r) by left. specialize (IH (fun r' H => Hdrop r' (list_elem_of_further r' r l H))).
    destruct (om_recipient r ==? u) eqn:E; simpl.
    + bools. rewrite IH, bool_decide_eq_false_2 by congruence. done.
    + rewrite boolfilter_cons, IH. done.
Qed.

Lemma deliverOffline_exact_witness :
  let w := (case_msg 1 "alice" (nm "msg" |> set_mRecipient "bob" |> set_mBody "hi" |> set_mMsgID "m1")
              (mkW sampleDB server0 T0)).2 in
  length (queueOf "bob" (wDB w)) = 1%nat
  /\ queueOf "bob" (wDB (deliverOfflineMessages "bob" 2 w).2) = [].
Proof.
  intros w. split; [vm_compute; reflexivity|].
  assert (Hok : sql_ok w) by (intros n; reflexivity).
  assert (Hwf : db_wf (wDB w)) by (apply wf_check_sound; vm_compute; reflexivity).
  exact (proj1 (proj2 (proj2 (proj2 (deliverOffline_exact "bob" 2 w Hok Hwf))))).
Defined.

(** ** Paging *)

(** Every page of a client that asks, each time, for what lies before the
    oldest row it has, until a page is empty.  Newest first. *)
Fixpoint walk {R} (fuel : nat) (page : Z -> list R) (id : R -> Z) (before : Z) : list R :=
  match fuel with
  | O => []
  | S f =>
      match last (page before) with
      | None => []
      | Some r => page before ++ walk f page id (id r)
      end
  end.

Section Paging.
Context {R : Type} (id : R -> Z) (n : nat).
Implicit Types (l : list R).

Definition upto (before : Z) (l : list R) : list R :=
  boolfilter (fun r => if 0 <? before then id r <? before else true) l.

Definition pageOf (l : list R) (before : Z) : list R := take n (rev (upto before l)).

Lemma before_all l : upto 0 l = l.
Proof. apply boolfilter_true, Forall_true. done. Qed.

(** The rows before a row of an ascending list are the ones that precede it. *)
Lemma before_split l k r :
  StronglySorted Z.lt (id <$> l ++ r :: k) -> 0 < id r ->
  upto (id r) (l ++ r :: k) = l.
Proof.
  intros Hs Hr. unfold upto. rewrite (proj2 (Z.ltb_lt 0 (id r)) Hr). rewrite boolfilter_app, boolfilter_cons.
  rewrite Z.ltb_irrefl. rewrite (boolfilter_true _ l), (boolfilter_false _ k), app_nil_r; [done|..].
  - rewrite fmap_app, fmap_cons in Hs. apply StronglySorted_app_1_r in Hs.
    inversion Hs as [|? ? _ Hf]; subst. rewrite Forall_fmap in Hf.
    eapply Forall_impl; [exact Hf|]. intros x Hx. apply Z.ltb_ge. simpl in Hx. lia.
  - apply Forall_forall. intros x Hx. apply Z.ltb_lt.
    rewrite fmap_app, fmap_cons in Hs.
    eapply (StronglySorted_app_1_elem_of _ (id <$> l) (id r :: (id <$> k))); [exact Hs| |left].
    by apply list_elem_of_fmap_2.
Qed.

(** Walking back through an ascending list visits all of it. *)
Lemma walk_all l fuel (before : Z) :
  (0 < n)%nat -> StronglySorted Z.lt (id <$> l) -> Forall (fun r => 0 < id r) l ->
  (length (upto before l) < fuel)%nat ->
  (exists k, l = upto before l ++ k) ->
  walk fuel (pageOf l) id before
  = rev (upto before l).
Proof using Type.
  intros Hn Hs Hpos. revert before. induction fuel as [|fuel IH]; intros before Hlen [k Hk]; [lia|].
  simpl. set (m := upto before l) in *. unfold pageOf at 1 2. fold m.
  destruct (last (take n (rev m))) as [r|] eqn:El.
  - apply last_Some in El as [p Ep].
    assert (Hm : m = rev (drop n (rev m)) ++ r :: rev p).
    { rewrite <- (rev_involutive m) at 1. rewrite <- (take_drop n (rev m)) at 1.
      rewrite Ep, !rev_app_distr. simpl. done. }
    assert (Hl : l = rev (drop n (rev m)) ++ r :: (rev p ++ k)).
    { rewrite Hk, Hm at 1. by rewrite <- app_assoc. }
    assert (Hr : 0 < id r).
    { rewrite Hl, Forall_app, Forall_cons in Hpos. tauto. }
    pose proof (before_split (rev (drop n (rev m))) (rev p ++ k) r) as Hb.
    rewrite <- Hl in Hb. specialize (Hb Hs Hr).
    rewrite (IH (id r)); rewrite Hb.
    + rewrite rev_involutive. apply take_drop.
    + rewrite length_rev. apply (f_equal length) in Hm. rewrite length_app, length_rev in Hm.
      simpl in Hm. lia.
    + by exists (r :: rev p ++ k).
  - apply last_None in El. destruct n as [|n']; [lia|]. destruct (rev m); done.
Qed.
End Paging.

Lemma walk_ext {R} fuel (p q : Z -> list R) id before :
  (forall b, p b = q b) -> walk fuel p id before = walk fuel q id before.
Proof.
  intros H. revert before. induction fuel as [|fuel IH]; intros before; [done|]. simpl.
  rewrite <- H. destruct (last (p before)); [|done]. by rewrite IH.
Qed.

(** The pages of a table with ascending ids are [pageOf]. *)
Lemma page_of_table {R} (id : R -> Z) (t : Table R) p n before :
  ids_ok id t ->
  take n (order_by_desc id (tselect (fun r => p r && (if 0 <? before then id r <? before else true)) t))
  = pageOf id n (tselect p t) before.
Proof.
  intros [Hs _]. unfold pageOf, upto, tselect. rewrite boolfilter_and, order_by_desc_rev; [done|].
  eapply StronglySorted_sublist; [|exact Hs]. apply fmap_sublist.
  etrans; apply boolfilter_sublist.
Qed.

Lemma walk_table {R} (id : R -> Z) (t : Table R) p n fuel :
  ids_ok id t -> Forall (fun r => 0 < id r) (rows t) -> (0 < n)%nat ->
  (length (tselect p t) < fuel)%nat ->
  walk fuel (pageOf id n (tselect p t)) id 0 = rev (tselect p t).
Proof.
  intros [Hs _] Hpos Hn Hf.
  assert (E : upto id 0 (tselect p t) = tselect p t) by apply before_all.
  rewrite walk_all; rewrite ?E; [done|done| | |done|exists []; by rewrite app_nil_r].
  - eapply StronglySorted_sublist; [|exact Hs]. apply fmap_sublist, boolfilter_sublist.
  - apply Forall_forall. intros r [_ Hr]%elem_of_tselect. rewrite Forall_forall in Hpos. by apply Hpos.
Qed.
