(* ===== verification/Convo.v ===== *)
(** * Group conversations ([main.go], [ws_handlers.go])

    A conversation has members and one creator, the only administrator.
    Members come from the adder's friends; only a member can post, read or
    leave, only the creator can rename or remove. *)

From Stdlib Require Import ZArith Lia.
From stdpp Require Import base strings list gmap.
From S2P Require Import Prelude GoRt Store Wire Db World Wf Registry Social Dm.

Open Scope string_scope.
Open Scope list_scope.
Open Scope Z_scope.

(** ** Operations *)

Definition isMemberRow (id u : string) (r : ConvoMember) : bool :=
  (cvm_convo_id r ==? id) && (cvm_username r ==? u).

#[export] Hint Unfold isMemberRow : sqlkeys.

Definition memberIn (id u : string) (d : Database) : bool :=
  texists (isMemberRow id u) (conversation_members d).

Definition membersOf (id : string) (d : Database) : list string :=
  cvm_username <$> tselect (fun r => cvm_convo_id r ==? id) (conversation_members d).

Definition insertConversation (id name creator : string) (d : Database) : sqlerr + Database :=
  match tinsert_unique (fun r => cv_id r ==? id) (fun _ => mkConversation id name creator)
          (conversations d) with
  | None => inl (EUnique "conversations.id")
  | Some t => inr (set_conversations t d)
  end.

Definition insertMember (id u : string) (d : Database) : Database :=
  set_conversation_members
    (tinsert_ignore (isMemberRow id u) (fun _ => mkConvoMember id u) (conversation_members d)) d.

(** The loop's [seen] map: each name once, in order. *)
Fixpoint dedup (seen : list string) (l : list string) : list string :=
  match l with
  | [] => []
  | x :: l' => if existsb (fun y => y ==? x) seen then dedup seen l' else x :: dedup (x :: seen) l'
  end.

Definition createConversation (id name creator : string) (members : list string) : M Err :=
  let* r := Tx (insertConversation id name creator
                :: ((fun m d => inr (insertMember id m d)) <$> dedup [] (creator :: members))) in
  ret (err_text <$> r).

Definition conversationMembers (id : string) : M (list string) :=
  let* r := Query (membersOf id) in ret (default [] r).

(** The conversations a user is in, each with its member list. *)
Definition userConversations (username : string) : M (list NexusMessage) :=
  let* rows := Query (fun d =>
      concat ((fun c => (fun _ => c) <$> tselect (isMemberRow (cv_id c) username)
                                           (conversation_members d)) <$> rows (conversations d))) in
  foldM (fun out c =>
      let* members := conversationMembers (cv_id c) in
      ret (out ++ [nm "" |> set_mConvoID (cv_id c) |> set_mConvoName (cv_name c)
                     |> set_mCreator (cv_created_by c) |> set_mMembers members]))
    [] (default [] rows).

Definition creatorOf (id : string) (d : Database) : option string :=
  cv_created_by <$> tfirst (fun r => cv_id r ==? id) (conversations d).

Definition conversationCreator (id : string) : M (option string) := QueryRow (creatorOf id).

Definition addConversationMembers (id : string) (members : list string) : M Err :=
  let* r := Tx ((fun m d => inr (insertMember id m d)) <$> members) in ret (err_text <$> r).

Definition renameConversation (id name : string) : M Err :=
  let* ok := ExecOk (fun d => set_conversations
      (tupdate (fun r => cv_id r ==? id) (set_cv_name name) (conversations d)) d) in
  ret (execErr ok).

Definition leaveIn (id u : string) (d : Database) : Database :=
  set_conversation_members (tdelete (isMemberRow id u) (conversation_members d)) d.

Definition leaveConversation (id u : string) : M Err :=
  let* ok := ExecOk (leaveIn id u) in ret (execErr ok).

(** [SELECT 1 ...], error dropped: whether the row exists. *)
Definition isConvoMember (id u : string) : M bool :=
  let* r := QueryRow (fun d => if memberIn id u d then Some tt else None) in
  ret (match r with Some _ => true | None => false end).

Definition convoName (id : string) : M string :=
  ScanOr "" (fun d => cv_name <$> tfirst (fun r => cv_id r ==? id) (conversations d)).

(** ** The messages *)

Definition inb (x : string) (l : list string) : bool := existsb (fun y => y ==? x) l.

Section Cases.
Context (client : nat) (username : string) (msg : NexusMessage).

Definition convoError (id err : string) : M unit :=
  Send_ client (nm "convo_error" |> set_mConvoID id |> set_mError err).

(** Who of the requested members may be added at creation. *)
Definition eligible (friends : list string) : list string :=
  boolfilter (fun m => inb m (username :: friends)) (mMembers msg).

Definition case_convo_create : M unit :=
  if is_empty username then ret tt
  else
    let* friends := getFriends username in
    let el := eligible friends in
    match el with
    | [] => convoError "" ("No eligible members " +:+ of_bytes [226; 128; 148] +:+ " add friends first")
    | _ =>
        let* id := randHex 16 in
        match id with
        | None => convoError "" "server error"
        | Some convoID =>
            let* err := createConversation convoID (mConvoName msg) username el in
            match err with
            | Some _ => convoError "" "could not create conversation"
            | None =>
                let* members := conversationMembers convoID in
                let notice := nm "convo_created" |> set_mConvoID convoID
                    |> set_mConvoName (mConvoName msg) |> set_mMembers members
                    |> set_mSender username |> set_mCreator username in
                forM members (fun m => sendTo_ m notice)
            end
        end
    end.

Definition convoBody (m : string) : string := default (mBody msg) (mEnvelopes msg !! m).

Definition convoFrame (m : string) : NexusMessage :=
  nm "convo_msg" |> set_mSender username |> set_mBody (convoBody m) |> set_mConvoID (mConvoID msg).

(** One recipient of the fan-out. *)
Definition convoDeliver (title m : string) : M unit :=
  if m ==? username then ret tt
  else
    let* live := sendTo m (convoFrame m) in
    if live then ret tt
    else
      let* now := getNow in
      Exec_ (queueMessage username m (convoBody m) "convo_msg" (mConvoID msg) "" now) ;;;
      push m title "Sent a message".

Definition insertConvoMessage (now : Z) (d : Database) : Database :=
  set_convo_messages
    (tinsert (fun id => mkConvoMessage id (mConvoID msg) username (mBody msg) (sqlNow now))
       (convo_messages d)) d.

Definition case_convo_msg : M unit :=
  if is_empty username || is_empty (mConvoID msg) then ret tt
  else if 65536 <? len (mBody msg) then ret tt
  else
    addMetric (fun m => set_convoMessages (u64_succ (convoMessages m)) m) ;;;
    let* members := conversationMembers (mConvoID msg) in
    if negb (inb username members) then ret tt
    else
      let* now := getNow in
      Exec_ (insertConvoMessage now) ;;;
      let* name := convoName (mConvoID msg) in
      let title := if is_empty name then username else username +:+ " in " +:+ name in
      forM members (convoDeliver title).

Definition case_convo_leave : M unit :=
  if is_empty username || is_empty (mConvoID msg) then ret tt
  else
    let* was := isConvoMember (mConvoID msg) username in
    if negb was then ret tt
    else
      leaveConversation (mConvoID msg) username ;;;
      let* members := conversationMembers (mConvoID msg) in
      forM members (fun m => sendTo_ m (nm "convo_left" |> set_mSender username
                                        |> set_mConvoID (mConvoID msg))).

Definition convoUpdated (name creator : string) (members : list string) : NexusMessage :=
  nm "convo_updated" |> set_mConvoID (mConvoID msg) |> set_mConvoName name
    |> set_mMembers members |> set_mSender username |> set_mCreator creator.

Definition toAdd (existing friends : list string) : list string :=
  boolfilter (fun c => negb (inb c existing) && inb c friends) (mMembers msg).

Definition case_convo_add_member : M unit :=
  if is_empty username || is_empty (mConvoID msg) || bool_decide (mMembers msg = []) then ret tt
  else
    let* existing := conversationMembers (mConvoID msg) in
    if negb (inb username existing) then convoError (mConvoID msg) "not a member of this group"
    else
      let* friends := getFriends username in
      match toAdd existing friends with
      | [] => convoError (mConvoID msg)
                ("no eligible new members " +:+ of_bytes [226; 128; 148]
                 +:+ " they need to be your friend first")
      | add =>
          let* err := addConversationMembers (mConvoID msg) add in
          match err with
          | Some _ => convoError (mConvoID msg) "server error"
          | None =>
              let* name := convoName (mConvoID msg) in
              let* creator := conversationCreator (mConvoID msg) in
              let* updated := conversationMembers (mConvoID msg) in
              forM updated (fun m => sendTo_ m (convoUpdated name (default "" creator) updated))
          end
      end.

Definition case_convo_remove_member : M unit :=
  if is_empty username || is_empty (mConvoID msg) || is_empty (mRecipient msg) then ret tt
  else if mRecipient msg ==? username then
    convoError (mConvoID msg) "use convo_leave to remove yourself"
  else
    let* creator := conversationCreator (mConvoID msg) in
    if negb (bool_decide (creator = Some username)) then
      convoError (mConvoID msg) "only the group's creator can remove someone"
    else
      let* was := isConvoMember (mConvoID msg) (mRecipient msg) in
      if negb was then ret tt
      else
        leaveConversation (mConvoID msg) (mRecipient msg) ;;;
        sendTo_ (mRecipient msg) (nm "convo_removed" |> set_mConvoID (mConvoID msg)
                                  |> set_mSender username) ;;;
        let* remaining := conversationMembers (mConvoID msg) in
        let* name := convoName (mConvoID msg) in
        forM remaining (fun m => sendTo_ m (convoUpdated name username remaining)).

Definition case_convo_rename : M unit :=
  if is_empty username || is_empty (mConvoID msg) then ret tt
  else
    let newName := TrimSpace (mConvoName msg) in
    if is_empty newName || (100 <? len newName) then
      convoError (mConvoID msg) "group name must be 1-100 characters"
    else
      let* creator := conversationCreator (mConvoID msg) in
      if negb (bool_decide (creator = Some username)) then
        convoError (mConvoID msg) "only the group's creator can rename it"
      else
        let* err := renameConversation (mConvoID msg) newName in
        match err with
        | Some _ => convoError (mConvoID msg) "server error"
        | None =>
            let* members := conversationMembers (mConvoID msg) in
            forM members (fun m => sendTo_ m (convoUpdated newName username members))
        end.

Definition convoHistory (d : Database) : list DMMessage :=
  (fun r => mkDM "" (cvs_sender r) "" (cvs_body r) false false (cvs_sent_at r) ∅) <$>
    take 100 (order_by_desc cvs_id (tselect (fun r => cvs_convo_id r ==? mConvoID msg)
                                      (convo_messages d))).

Definition case_convo_history : M unit :=
  if is_empty username || is_empty (mConvoID msg) then ret tt
  else
    let* isMember := isConvoMember (mConvoID msg) username in
    if negb isMember then ret tt
    else
      let* rows := Query convoHistory in
      match rows with
      | None => ret tt
      | Some hist => Send_ client (nm "convo_history" |> set_mConvoID (mConvoID msg)
                                   |> set_mDMHistory (rev hist))
      end.
End Cases.

(** ** Frames: every operation keeps the database invariant *)

Lemma wf_insertMember id u d : db_wf d -> db_wf (insertMember id u d).
Proof. revert d. unfold insertMember. wf_step. Qed.

Lemma safe_createConversation id name creator members :
  respects safe (createConversation id name creator members).
Proof.
  unfold createConversation. apply respects_bind; [typeclasses eauto | | intros ?; frame].
  apply safe_Tx_stmts. constructor; [wf_stmt|].
  apply Forall_fmap, Forall_true. intros m d d' H [= <-]. by apply wf_insertMember.
Qed.
#[export] Hint Resolve safe_createConversation : frame.

Lemma safe_addConversationMembers id members : respects safe (addConversationMembers id members).
Proof.
  unfold addConversationMembers. apply respects_bind; [typeclasses eauto | | intros ?; frame].
  apply safe_Tx_stmts. apply Forall_fmap, Forall_true. intros m d d' H [= <-].
  by apply wf_insertMember.
Qed.
#[export] Hint Resolve safe_addConversationMembers : frame.

Lemma safe_conversationMembers id : respects safe (conversationMembers id). Proof. frame_deep. Qed.
Lemma safe_userConversations username : respects safe (userConversations username).
Proof. frame_deep. Qed.
Lemma safe_conversationCreator id : respects safe (conversationCreator id). Proof. frame_deep. Qed.
Lemma safe_renameConversation id name : respects safe (renameConversation id name).
Proof. frame_deep. Qed.
Lemma safe_leaveConversation id u : respects safe (leaveConversation id u). Proof. frame_deep. Qed.
Lemma safe_isConvoMember id u : respects safe (isConvoMember id u). Proof. frame_deep. Qed.
Lemma safe_convoName id : respects safe (convoName id). Proof. frame_deep. Qed.
Lemma safe_convoError client id err : respects safe (convoError client id err).
Proof. frame_deep. Qed.
Lemma safe_convoDeliver username msg title m : respects safe (convoDeliver username msg title m).
Proof. frame_deep. Qed.

#[export] Hint Resolve safe_conversationMembers safe_userConversations safe_conversationCreator
  safe_renameConversation safe_leaveConversation safe_isConvoMember safe_convoName safe_convoError
  safe_convoDeliver : frame.

Section SafeCases.
Context (client : nat) (username : string) (msg : NexusMessage).
Lemma safe_case_convo_create : respects safe (case_convo_create client username msg).
Proof. frame_deep. Qed.
Lemma safe_case_convo_msg : respects safe (case_convo_msg username msg). Proof. frame_deep. Qed.
Lemma safe_case_convo_leave : respects safe (case_convo_leave username msg).
Proof. frame_deep. Qed.
Lemma safe_case_convo_add_member : respects safe (case_convo_add_member client username msg).
Proof. frame_deep. Qed.
Lemma safe_case_convo_remove_member : respects safe (case_convo_remove_member client username msg).
Proof. frame_deep. Qed.
Lemma safe_case_convo_rename : respects safe (case_convo_rename client username msg).
Proof. frame_deep. Qed.
Lemma safe_case_convo_history : respects safe (case_convo_history client username msg).
Proof. frame_deep. Qed.
End SafeCases.

#[export] Hint Resolve safe_case_convo_create safe_case_convo_msg safe_case_convo_leave
  safe_case_convo_add_member safe_case_convo_remove_member safe_case_convo_rename
  safe_case_convo_history : frame.
