(* ===== verification/Calls.v ===== *)
(** * One-to-one calls ([calls.go], [callsignal.go], [ws_handlers.go])

    A call belongs to one connection on each side.  Dialling leaves a pending
    room and row on the caller's connection; answering moves both connections
    into the call; ending it closes the row.  Signalling is relayed only
    between the two connections that are in the call with each other. *)

From Stdlib Require Import ZArith Lia.
From stdpp Require Import base strings list gmap.
From S2P Require Import Prelude GoRt Store Wire Db World Wf Registry Social.

Open Scope string_scope.
Open Scope list_scope.
Open Scope Z_scope.

(** ** Call rows *)

(** The row id, 0 when it could not be written, and the start time. *)
Definition recordCallStart (caller callee kind : string) : M (Z * Z) :=
  let* now := getNow in
  let* r := Exec (fun d => inr (set_calls
      (tinsert (fun id => mkCallRow id caller callee kind now 0 0) (calls d)) d, tnext (calls d))) in
  ret (match r with inl _ => (0, now) | inr id => (id, now) end).

Definition closeRow (id : Z) (answered : bool) (duration : Z) (d : Database) : Database :=
  set_calls (tupdate (fun r => ca_id r =? id)
               (fun r => set_ca_duration_s duration (set_ca_answered (boolToInt answered) r))
               (calls d)) d.

(** The kind, whether it was answered, and the duration in seconds. *)
Definition finalizeCall (callID : Z) (answered : bool) (startedAt : Z) : M (string * bool * Z) :=
  let* now := getNow in
  let '(answeredOut, durationS) := callOutcome answered startedAt now in
  let* kind := ScanOr "" (fun d => ca_kind <$> tfirst (fun r => ca_id r =? callID) (calls d)) in
  Exec_ (closeRow callID answeredOut durationS) ;;;
  ret (kind, answeredOut, durationS).

(** Close the row held by connection [c] and report it as a [call_log]. *)
Definition closePending (c : nat) (logCaller logCallee : string) : M NexusMessage :=
  let* k := getClient c in
  let* r := finalizeCall (cPendingCallID k) (cPendingCallAnswered k) (cPendingCallStarted k) in
  let '(kind, answered, duration) := r in
  modClient c (fun k => set_cPendingCallAnswered false (set_cPendingCallID 0 k)) ;;;
  ret (nm "call_log" |> set_mSender logCaller |> set_mRecipient logCallee |> set_mBody kind
         |> set_mStatus (if answered then "answered" else "missed")
         |> set_mTs (UnixMilli (cPendingCallStarted k)) |> set_mDuration duration).

Definition leaveCall (c : nat) : M unit :=
  modClient c (fun k => set_cCallPartner "" (set_cInCall false k)).

(** Which connection holds the row of the call between [client] of [username]
    and a peer connection, and who called whom. *)
Definition rowHolder (client : nat) (username other : string) (peer : option nat)
  : M (option (nat * string * string)) :=
  let* k := getClient client in
  if negb (cPendingCallID k =? 0) then ret (Some (client, username, other))
  else
    match peer with
    | None => ret None
    | Some p =>
        let* kp := getClient p in
        ret (if negb (cPendingCallID kp =? 0) then Some (p, other, username) else None)
    end.

(** ** The messages *)

Section Cases.
Context (client : nat) (username : string) (msg : NexusMessage).

Definition callKind : string :=
  if (mBody msg ==? "audio") || (mBody msg ==? "video") then mBody msg else "audio".

Definition case_call_offer : M unit :=
  if is_empty username then ret tt
  else
    let msg' := set_mSender username msg in
    let* ok := areFriends username (mRecipient msg) in
    if negb ok then Send_ client (nm "call_error" |> set_mError "You can only call friends")
    else
      let* busy := anyClientInCall (mRecipient msg) in
      match busy with
      | Some _ => Send_ client (nm "call_busy" |> set_mSender (mRecipient msg))
      | None =>
          let* ring := ringingClients (mRecipient msg) in
          match ring with
          | [] => Send_ client (nm "call_error" |> set_mError (mRecipient msg +:+ " is not available"))
          | _ =>
              let* room := randHex 12 in
              match room with
              | None => Send_ client (nm "call_error" |> set_mError "server error")
              | Some room =>
                  let roomID := "phaze-" +:+ room in
                  let* r := recordCallStart username (mRecipient msg) callKind in
                  let '(callID, startedAt) := r in
                  modClient client (fun k =>
                    set_cPendingCallRTC (mStatus msg ==? callRTC)
                      (set_cPendingCallStarted startedAt
                         (set_cPendingCallID callID (set_cPendingCallRoom roomID k)))) ;;;
                  forM ring (fun c => Send_ c (set_mRoomID roomID msg'))
              end
          end
      end.

(** The caller's side of an answer: the room and whether it speaks WebRTC. *)
Definition takeCall (caller : option nat) : M (string * bool) :=
  match caller with
  | None => ret ("", false)
  | Some c =>
      let* k := getClient c in
      modClient c (fun k => set_cCallPartner username (set_cInCall true
                     (set_cPendingCallAnswered true (set_cPendingCallRoom ""
                        (set_cPendingCallRTC false k))))) ;;;
      ret (cPendingCallRoom k, cPendingCallRTC k)
  end.

Definition isSome {A} (o : option A) : bool := match o with Some _ => true | None => false end.

Definition case_call_answer : M unit :=
  if is_empty username then ret tt
  else
    let* caller := pendingCallerLocked (mRecipient msg) in
    let* t := takeCall caller in
    let '(roomID, callerRTC) := t in
    modClient client (fun k => set_cCallPartner (mRecipient msg) (set_cInCall true k)) ;;;
    let* mine := clientsOf username in
    let stillRinging := boolfilter (fun c => negb (c ==? client)) mine in
    (if isSome caller && callerRTC && (mStatus msg ==? callRTC) then
       let accepted s st := nm "call_accepted" |> set_mSender s |> set_mRoomID roomID
                              |> set_mBody (mBody msg) |> set_mStatus st in
       match caller with
       | Some c => Send_ c (accepted username "caller")
       | None => ret tt
       end ;;;
       Send_ client (accepted (mRecipient msg) "callee")
     else
       let jitsi := nm "call_jitsi" |> set_mRoomID roomID |> set_mBody (mBody msg) in
       match caller with Some c => Send_ c jitsi | None => ret tt end ;;;
       Send_ client jitsi) ;;;
    forM stillRinging (fun c => Send_ c (nm "call_end" |> set_mSender (mRecipient msg)
                                          |> set_mBody "answered_elsewhere")).

Definition case_call_signal : M unit :=
  if is_empty username || is_empty (mRecipient msg) then ret tt
  else if negb (validCallSignal msg) then ret tt
  else
    let* k := getClient client in
    let mine := cInCall k && (cCallPartner k ==? mRecipient msg) in
    let* peer := callPeerLocked (mRecipient msg) username in
    match peer with
    | None => ret tt
    | Some p =>
        if negb mine then ret tt
        else Send_ p (nm "call_signal" |> set_mSender username |> set_mRecipient (mRecipient msg)
                      |> set_mBody (mBody msg) |> set_mSDP (mSDP msg)
                      |> set_mCandidate (mCandidate msg))
    end.

(** [call_reject] and [call_end] *)
Definition case_call_end : M unit :=
  if is_empty username then ret tt
  else
    let* p1 := callPeerLocked (mRecipient msg) username in
    let* peer := (match p1 with
                  | Some p => ret (Some p)
                  | None => pendingCallerLocked (mRecipient msg)
                  end) in
    let* holder := rowHolder client username (mRecipient msg) peer in
    let* logMsg := (match holder with
                    | None => ret None
                    | Some (c, caller, callee) =>
                        let* m := closePending c caller callee in ret (Some m)
                    end) in
    leaveCall client ;;;
    match peer with Some p => leaveCall p | None => ret tt end ;;;
    match peer with Some p => Send_ p msg | None => ret tt end ;;;
    match logMsg with
    | None => ret tt
    | Some m => sendTo_ username m ;;; sendTo_ (mRecipient msg) m
    end.

Definition case_call_invite : M unit :=
  if is_empty username || is_empty (mRecipient msg) || is_empty (mChannelID msg) then ret tt
  else
    let* ok := areFriends username (mRecipient msg) in
    if negb ok then Send_ client (nm "call_error" |> set_mError "You can only invite friends")
    else sendTo_ (mRecipient msg) (set_mSender username msg).
End Cases.

(** The call part of a disconnect: the partner's connection leaves the call,
    is told, and gets the log line of the row the call had. *)
Definition dropCall (client : nat) (username : string) : M unit :=
  let* k := getClient client in
  let callPartner := cCallPartner k in
  if is_empty callPartner then ret tt
  else
    let* partner := callPeerLocked callPartner username in
    match partner with
    | None => ret tt
    | Some p =>
        leaveCall p ;;;
        Send_ p (nm "call_end" |> set_mSender username) ;;;
        let* holder := rowHolder client username callPartner (Some p) in
        match holder with
        | None => ret tt
        | Some (c, caller, callee) =>
            let* m := closePending c caller callee in
            Send_ p m
        end
    end.

(** ** Frames: every operation keeps the database invariant *)

Lemma safe_recordCallStart caller callee kind : respects safe (recordCallStart caller callee kind).
Proof. frame_deep. Qed.
Lemma safe_finalizeCall callID answered startedAt : respects safe (finalizeCall callID answered startedAt).
Proof. frame_deep. Qed.
Lemma safe_closePending c logCaller logCallee : respects safe (closePending c logCaller logCallee).
Proof. frame_deep. Qed.
Lemma safe_leaveCall c : respects safe (leaveCall c). Proof. frame_deep. Qed.
Lemma safe_rowHolder client username other peer : respects safe (rowHolder client username other peer).
Proof. frame_deep. Qed.
Lemma safe_takeCall username caller : respects safe (takeCall username caller).
Proof. frame_deep. Qed.
Lemma safe_dropCall client username : respects safe (dropCall client username).
Proof. frame_deep. Qed.

#[export] Hint Resolve safe_recordCallStart safe_finalizeCall safe_closePending safe_leaveCall
  safe_rowHolder safe_takeCall safe_dropCall : frame.

Section SafeCases.
Context (client : nat) (username : string) (msg : NexusMessage).
Lemma safe_case_call_offer : respects safe (case_call_offer client username msg).
Proof. frame_deep. Qed.
Lemma safe_case_call_answer : respects safe (case_call_answer client username msg).
Proof. frame_deep. Qed.
Lemma safe_case_call_signal : respects safe (case_call_signal client username msg).
Proof. frame_deep. Qed.
Lemma safe_case_call_end : respects safe (case_call_end client username msg).
Proof. frame_deep. Qed.
Lemma safe_case_call_invite : respects safe (case_call_invite client username msg).
Proof. frame_deep. Qed.
End SafeCases.

#[export] Hint Resolve safe_case_call_offer safe_case_call_answer safe_case_call_signal
  safe_case_call_end safe_case_call_invite : frame.
