(* ===== verification/Spaces.v ===== *)
(** * Spaces: servers, channels and their messages ([main.go], [ws_handlers.go])

    A server has members with a role, channels, and for each channel a stored
    message history with edits, deletions, pins and reactions.  Every message
    handler resolves the channel's server and checks the sender's membership
    or role before it acts. *)

From Stdlib Require Import ZArith Lia.
From stdpp Require Import base strings list gmap.
From S2P Require Import Prelude GoRt Store Wire Db World Wf Registry Social Dm.

Open Scope string_scope.
Open Scope list_scope.
Open Scope Z_scope.

(** ** Site roles *)

Definition roleRank (role : string) : Z :=
  if role ==? "helper" then 1
  else if role ==? "moderator" then 2
  else if role ==? "admin" then 3
  else if role ==? "super_admin" then 4 else 0.

Definition userRow (username : string) (d : Database) : option User :=
  tfirst (fun u => u_username u ==? username) (users d).

Definition userRole (username : string) : M string :=
  let* r := QueryRow (fun d => u_role <$> userRow username d) in
  ret (match r with
       | None => "user"
       | Some r => if is_empty r then "user" else r
       end).

Definition roleAtLeast (username minRole : string) : M bool :=
  let* r := userRole username in ret (roleRank minRole <=? roleRank r).

(** ** Membership *)

Definition isSM (server user : string) (r : ServerMember) : bool :=
  (sm_server_id r ==? server) && (sm_username r ==? user).

#[export] Hint Unfold isSM : sqlkeys.

Definition serverMemberIn (server user : string) (d : Database) : bool :=
  texists (isSM server user) (server_members d).

(** [userIsServerMember] and [isServerMember] run the same query; an error
    reads as "not a member". *)
Definition userIsServerMember (server user : string) : M bool :=
  let* r := QueryRow (fun d => if serverMemberIn server user d then Some tt else None) in
  ret (match r with Some _ => true | None => false end).

Definition isServerMember (serverID username : string) : M bool := userIsServerMember serverID username.

Definition serverRoleIn (server user : string) (d : Database) : option string :=
  sm_role <$> tfirst (isSM server user) (server_members d).

Definition userServerRole (server user : string) : M string := ScanOr "" (serverRoleIn server user).

Definition insertSM (server user role : string) (now : Z) (d : Database) : Database :=
  set_server_members (tinsert_ignore (isSM server user)
     (fun _ => mkServerMember server user role (sqlNow now)) (server_members d)) d.

(** ** Directory listings *)

Definition memberCount (server : string) (d : Database) : Z :=
  tcount (fun m => sm_server_id m ==? server) (server_members d).

Definition userServersIn (username : string) (d : Database) : list ServerSummary :=
  concat ((fun m => (fun s => mkServerSummary (sv_id s) (sv_name s) (sv_description s) (sv_icon s)
                       (sv_owner s) (sv_visibility s) (sm_role m) (sv_invite_code s) 0 false)
                    <$> tselect (fun s => sv_id s ==? sm_server_id m) (servers d))
          <$> order_by sm_joined_at (tselect (fun m => sm_username m ==? username) (server_members d))).

Definition listUserServers (username : string) : M (option (list ServerSummary)) :=
  Query (userServersIn username).

(** [ORDER BY members DESC, created_at ASC LIMIT 100] *)
Definition publicServersIn (forUser : string) (d : Database) : list ServerSummary :=
  (fun s => mkServerSummary (sv_id s) (sv_name s) (sv_description s) (sv_icon s) (sv_owner s)
              (sv_visibility s) "" "" (memberCount (sv_id s) d) (serverMemberIn (sv_id s) forUser d)) <$>
    take 100 (order_by_desc (fun s => memberCount (sv_id s) d)
                (order_by sv_created_at (tselect (fun s => sv_visibility s ==? "public") (servers d)))).

Definition listPublicServers (forUser : string) : M (option (list ServerSummary)) :=
  Query (publicServersIn forUser).

Definition serverChannelsIn (serverID : string) (d : Database) : list ChannelInfo :=
  (fun c => mkChannelInfo (ch_id c) (ch_server_id c) (ch_name c) (ch_topic c) (ch_kind c) (ch_position c)) <$>
    order_by ch_position (order_str ch_name
      (tselect (fun c => ch_server_id c ==? serverID) (channels d))).

(** The callers drop the error: a failed listing is the nil slice. *)
Definition listServerChannels (serverID : string) : M (list ChannelInfo) :=
  let* r := Query (serverChannelsIn serverID) in ret (default [] r).

(** ** Channel history *)

Definition channelPage (channelID : string) (beforeID limit : Z) (d : Database) : list ChannelMessage :=
  take (Z.to_nat (clampLimit limit 50))
    (order_by_desc cms_id
       (tselect (fun r => (cms_channel_id r ==? channelID)
                          && (if 0 <? beforeID then cms_id r <? beforeID else true))
          (channel_messages d))).

Definition rowToChannelMsg (r : ChannelMessage) : ChannelMsg :=
  mkChannelMsg (cms_id r) (cms_channel_id r) (cms_sender r)
    (if cms_deleted r =? 1 then "" else cms_body r) (cms_created_at r)
    (cms_edited r =? 1) (cms_deleted r =? 1) (cms_pinned r =? 1) ∅.

Definition channelReactionMap (id : Z) (rs : list ChannelReaction) : gmap string (list string) :=
  foldl (fun m r => if cr_msg_id r =? id then addUser m (cr_emoji r) (cr_username r) else m) ∅ rs.

(** The reaction rows of the given messages; an error reads as none. *)
Definition channelReactionsBulk (ids : list Z) : M (list ChannelReaction) :=
  match ids with
  | [] => ret []
  | _ =>
      let* r := Query (fun d => tselect (fun r => existsb (Z.eqb (cr_msg_id r)) ids)
                                  (channel_reactions d)) in
      ret (default [] r)
  end.

Definition channelHistory (channelID : string) (beforeID limit : Z) : M (option (list ChannelMsg)) :=
  let* rows := Query (channelPage channelID beforeID limit) in
  match rows with
  | None => ret None
  | Some rows =>
      let* rs := channelReactionsBulk (cms_id <$> rows) in
      ret (Some (rev ((fun r => set_cmReactions (channelReactionMap (cms_id r) rs) (rowToChannelMsg r))
                        <$> rows)))
  end.

(** ** Fan-out to a server *)

Definition serverMembersOf (serverID : string) (d : Database) : list string :=
  sm_username <$> tselect (fun m => sm_server_id m ==? serverID) (server_members d).

Definition broadcastChannelMsg (serverID : string) (payload : NexusMessage) : M unit :=
  let* recipients := Query (serverMembersOf serverID) in
  match recipients with
  | None => ret tt
  | Some recipients =>
      let* serverName := ScanOr "" (fun d => sv_name <$> tfirst (fun s => sv_id s ==? serverID) (servers d)) in
      let serverName := if is_empty serverName then "Group" else serverName in
      let* channelName := (if is_empty (mChannelID payload) then ret ""
                           else ScanOr "" (fun d => ch_name <$>
                                  tfirst (fun c => ch_id c ==? mChannelID payload) (channels d))) in
      let pushTitle :=
        if is_empty channelName then mSender payload +:+ " in " +:+ serverName
        else mSender payload +:+ " in " +:+ serverName +:+ " #" +:+ channelName in
      forM recipients (fun u =>
        let* live := sendTo u payload in
        if live then ret tt
        else if u ==? mSender payload then ret tt
        else push u pushTitle (mBody payload))
  end.

(** ** The hub *)

Definition globalSpaceID : string := "global".

Definition insertServerIgnore (s : ServerRow) (d : Database) : Database :=
  set_servers (tinsert_ignore (fun r => (sv_id r ==? sv_id s) || (sv_invite_code r ==? sv_invite_code s))
                 (fun _ => s) (servers d)) d.

Definition insertChannelIgnore (c : Channel) (d : Database) : Database :=
  set_channels (tinsert_ignore (fun r => ch_id r ==? ch_id c) (fun _ => c) (channels d)) d.

Definition ensureGlobalSpace : M unit :=
  let* now := getNow in
  let* ok := ExecOk (insertServerIgnore (mkServerRow globalSpaceID "Phaze Hub"
      "The Phaze-wide chat. Everyone is welcome." "" "phaze" "public" "phaze" (sqlNow now))) in
  if negb ok then ret tt
  else
    forM [("global-general", "general", "Say hi.", 0);
          ("global-lobby", "lobby", "Casual chat.", 1);
          ("global-announcements", "announcements", "Phaze news.", 2)]
      (fun c => let '(id, name, topic, pos) := c in
                Exec_ (insertChannelIgnore (mkChannel id globalSpaceID name topic "text" pos))) ;;;
    Exec_ (fun d => foldl (fun d u => insertSM globalSpaceID (u_username u) "member" now d) d
                      (tselect (fun u => u_is_verified u =? 1) (users d))).

Definition autoJoinGlobalSpace (username : string) : M unit :=
  if is_empty username then ret tt
  else let* now := getNow in Exec_ (insertSM globalSpaceID username "member" now).

Definition autoJoinPublicSpaces (bot : string) : M unit :=
  let* now := getNow in
  let* ids := Query (fun d => sv_id <$> tselect (fun s => sv_visibility s ==? "public") (servers d)) in
  forM (default [] ids) (fun id => Exec_ (insertSM id bot "member" now)).

(** ** The messages *)

Inductive createErr := ServerDB | ServerInsert | ServerRand.

Definition createErr_text (e : createErr) : string :=
  match e with
  | ServerDB => "db error"
  | ServerInsert => "could not create server"
  | ServerRand => "server error"
  end.

Definition insertServerRow (s : ServerRow) (d : Database) : sqlerr + Database :=
  match tinsert_unique (fun r => (sv_id r ==? sv_id s) || (sv_invite_code r ==? sv_invite_code s))
          (fun _ => s) (servers d) with
  | None => inl (EUnique "servers.id")
  | Some t => inr (set_servers t d)
  end.

Definition insertOwner (server user : string) (now : Z) (d : Database) : sqlerr + Database :=
  match tinsert_unique (isSM server user) (fun _ => mkServerMember server user "owner" (sqlNow now))
          (server_members d) with
  | None => inl (EUnique "server_members.server_id, server_members.username")
  | Some t => inr (set_server_members t d)
  end.

Definition insertChannelRow (c : Channel) (d : Database) : sqlerr + Database :=
  match tinsert_unique (fun r => ch_id r ==? ch_id c) (fun _ => c) (channels d) with
  | None => inl (EUnique "channels.id")
  | Some t => inr (set_channels t d)
  end.

(** A statement of the transaction, any error being [ServerInsert]. *)
Definition createStep (f : Database -> sqlerr + Database) (k : Database -> M (createErr + Database))
    (d : Database) : M (createErr + Database) :=
  let* r := txExec f d in
  match r with inl _ => ret (inl ServerInsert) | inr d => k d end.

Definition channelStep (server name : string) (pos : Z) (k : Database -> M (createErr + Database))
    (d : Database) : M (createErr + Database) :=
  let* cid := randHex 12 in
  match cid with
  | None => ret (inl ServerRand)
  | Some cid => createStep (insertChannelRow (mkChannel cid server name "" "text" pos)) k d
  end.

Definition createServer (s : ServerRow) (now : Z) : M (option createErr) :=
  TxBody ServerDB ServerInsert
    (createStep (insertServerRow s)
       (createStep (insertOwner (sv_id s) (sv_owner s) now)
          (channelStep (sv_id s) "general" 0
             (channelStep (sv_id s) "random" 1 (fun d => ret (inr d)))))).

Section Cases.
Context (client : nat) (username : string) (msg : NexusMessage).

Definition fail (type err : string) : M unit := Send_ client (nm type |> set_mError err).

Definition case_server_create : M unit :=
  if is_empty username then ret tt
  else
    let* e := getEnv in
    let name := TrimSpace (mServerName msg) in
    if negb (validServerName (unicodeLN e) name) then
      fail "server_result" "Server name: 2-64 chars, letters/digits/space/-_.'"
    else
      let v := ToLower (TrimSpace (mVisibility msg)) in
      let visibility := if (v ==? "public") || (v ==? "private") then v else "private" in
      let* id := randHex 16 in
      match id with
      | None => fail "server_result" "rand failure"
      | Some id =>
          let* invite := randHex 8 in
          match invite with
          | None => fail "server_result" "rand failure"
          | Some invite =>
              let* now := getNow in
              let* err := createServer (mkServerRow id name (TrimSpace (mTopic msg)) "" username
                                          visibility invite (sqlNow now)) now in
              match err with
              | Some e => fail "server_result" (createErr_text e)
              | None =>
                  let* channels := listServerChannels id in
                  Send_ client (nm "server_result" |> set_mStatus "ok" |> set_mServerID id
                      |> set_mServerName name |> set_mInviteCode invite |> set_mRole "owner"
                      |> set_mVisibility visibility |> set_mChannels channels) ;;;
                  let bot := getenv e "NOVA_USERNAME" in
                  if (visibility ==? "public") && negb (is_empty bot) then
                    Exec_ (insertSM id bot "member" now)
                  else ret tt
              end
          end
      end.

Definition case_server_list : M unit :=
  if is_empty username then ret tt
  else
    let* r := listUserServers username in
    match r with
    | None => fail "server_list_result" "could not load servers"
    | Some l => Send_ client (nm "server_list_result" |> set_mStatus "ok" |> set_mServers l)
    end.

Definition case_server_discover : M unit :=
  if is_empty username then ret tt
  else
    let* r := listPublicServers username in
    match r with
    | None => fail "server_discover_result" "could not load servers"
    | Some l => Send_ client (nm "server_discover_result" |> set_mStatus "ok" |> set_mServers l)
    end.

(** The server a join request names: by invite code, or by id if public. *)
Definition joinTarget (code : string) (d : Database) : option ServerRow :=
  if negb (is_empty code) then tfirst (fun s => sv_invite_code s ==? code) (servers d)
  else tfirst (fun s => (sv_id s ==? mServerID msg) && (sv_visibility s ==? "public")) (servers d).

Definition case_server_join : M unit :=
  if is_empty username then ret tt
  else
    let code := TrimSpace (mInviteCode msg) in
    if is_empty code && is_empty (mServerID msg) then
      fail "server_join_result" "invite_code or public server_id required"
    else
      let* target := QueryRow (joinTarget code) in
      match target with
      | None => fail "server_join_result"
                  (if negb (is_empty code) then "invite invalid" else "server not found or not public")
      | Some s =>
          let* now := getNow in
          let* ok := ExecOk (insertSM (sv_id s) username "member" now) in
          if negb ok then fail "server_join_result" "could not join server"
          else
            let* channels := listServerChannels (sv_id s) in
            Send_ client (nm "server_join_result" |> set_mStatus "ok" |> set_mServerID (sv_id s)
                          |> set_mServerName (sv_name s) |> set_mChannels channels)
      end.

Definition case_server_leave : M unit :=
  if is_empty username || is_empty (mServerID msg) then ret tt
  else if mServerID msg ==? globalSpaceID then
    fail "server_leave_result" ("the Phaze Hub is for everyone " +:+ of_bytes [226; 128; 148]
                                +:+ " can't leave")
  else
    let* role := userServerRole (mServerID msg) username in
    if role ==? "owner" then
      fail "server_leave_result" "owners can't leave; delete the server or transfer ownership first"
    else
      let* ok := ExecOk (fun d => set_server_members
                   (tdelete (isSM (mServerID msg) username) (server_members d)) d) in
      if negb ok then fail "server_leave_result" "could not leave server"
      else Send_ client (nm "server_leave_result" |> set_mStatus "ok" |> set_mServerID (mServerID msg)).

Definition case_server_info : M unit :=
  if is_empty username || is_empty (mServerID msg) then ret tt
  else
    let* ok := userIsServerMember (mServerID msg) username in
    if negb ok then fail "server_info_result" "not a member"
    else
      let* channels := listServerChannels (mServerID msg) in
      let* members := Query (serverMembersOf (mServerID msg)) in
      Send_ client (nm "server_info_result" |> set_mStatus "ok" |> set_mServerID (mServerID msg)
                    |> set_mChannels channels |> set_mMembers (default [] members)).

Definition isAdminRole (role : string) : bool := (role ==? "owner") || (role ==? "admin").

Definition insertChannel (c : Channel) (d : Database) : sqlerr + (Database * Z) :=
  match insertChannelRow c d with inl e => inl e | inr d' => inr (d', 1) end.

Definition case_channel_create : M unit :=
  if is_empty username || is_empty (mServerID msg) then ret tt
  else
    let* role := userServerRole (mServerID msg) username in
    if negb (isAdminRole role) then fail "channel_result" "admin only"
    else
      let name := ToLower (TrimSpace (mChannelName msg)) in
      if negb (validChannelName name) then
        fail "channel_result" "channel name: lowercase a-z 0-9 - _ , 2-32 chars"
      else
        let k := ToLower (TrimSpace (mKind msg)) in
        let kind := if (k ==? "text") || (k ==? "voice") || (k ==? "whiteboard") then k else "text" in
        let* cid := randHex 12 in
        match cid with
        | None => fail "channel_result" "rand failure"
        | Some cid =>
            let* maxPos := CountOr0 (fun d => foldr (fun c n => Z.max (ch_position c) n) 0
                     (tselect (fun c => ch_server_id c ==? mServerID msg) (channels d))) in
            let* r := Exec (insertChannel (mkChannel cid (mServerID msg) name (TrimSpace (mTopic msg))
                                             kind (maxPos + 1))) in
            match r with
            | inl e => fail "channel_result" ("db: " +:+ err_text e)
            | inr _ =>
                let* channels := listServerChannels (mServerID msg) in
                broadcastChannelMsg (mServerID msg) (nm "server_channels_updated"
                    |> set_mServerID (mServerID msg) |> set_mChannels channels) ;;;
                Send_ client (nm "channel_result" |> set_mStatus "ok"
                              |> set_mServerID (mServerID msg) |> set_mChannelID cid)
            end
        end.

Definition channelServer (channelID : string) (d : Database) : option string :=
  ch_server_id <$> tfirst (fun c => ch_id c ==? channelID) (channels d).

Definition case_channel_msg : M unit :=
  if is_empty username || is_empty (mChannelID msg) then ret tt
  else
    let* server := QueryRow (channelServer (mChannelID msg)) in
    match server with
    | None => fail "channel_msg_result" "no such channel"
    | Some serverID =>
        let* ok := userIsServerMember serverID username in
        if negb ok then fail "channel_msg_result" "not a member"
        else
          let body := TrimSpace (mBody msg) in
          if is_empty body || (8000 <? len body) then fail "channel_msg_result" "body 1-8000 chars"
          else
            let* now := getNow in
            let* r := Exec (fun d => inr (set_channel_messages
                (tinsert (fun id => mkChannelMessage id (mChannelID msg) username body (sqlNow now) 0 0 0)
                   (channel_messages d)) d, tnext (channel_messages d))) in
            match r with
            | inl _ => fail "channel_msg_result" "could not send message"
            | inr id =>
                broadcastChannelMsg serverID (nm "channel_msg_in" |> set_mServerID serverID
                  |> set_mChannelID (mChannelID msg) |> set_mSender username |> set_mBody body
                  |> set_mMessages [mkChannelMsg id (mChannelID msg) username body (sqlNow now)
                                      false false false ∅])
            end
    end.

Definition case_channel_history : M unit :=
  if is_empty username || is_empty (mChannelID msg) then ret tt
  else
    let* server := QueryRow (channelServer (mChannelID msg)) in
    match server with
    | None => fail "channel_history_result" "no such channel"
    | Some serverID =>
        let* ok := userIsServerMember serverID username in
        if negb ok then fail "channel_history_result" "not a member"
        else
          let* h := channelHistory (mChannelID msg) (mHistoryFrom msg) 50 in
          match h with
          | None => fail "channel_history_result" "could not load history"
          | Some h => Send_ client (nm "channel_history_result" |> set_mStatus "ok"
                        |> set_mServerID serverID |> set_mChannelID (mChannelID msg) |> set_mMessages h)
          end
    end.

Definition isCR (id : Z) (emoji user : string) (r : ChannelReaction) : bool :=
  (cr_msg_id r =? id) && (cr_emoji r ==? emoji) && (cr_username r ==? user).

(** A message row on the wire with only the fields an update sets. *)
Definition partialMsg (id : Z) (channelID sender body : string) (edited deleted pinned : bool)
    (rx : gmap string (list string)) : ChannelMsg :=
  mkChannelMsg id channelID sender body 0 edited deleted pinned rx.

Definition toggleCR (id : Z) (emoji : string) : M unit :=
  let* existed := QueryRow (fun d => tfirst (isCR id emoji username) (channel_reactions d)) in
  match existed with
  | Some _ => Exec_ (fun d => set_channel_reactions
                       (tdelete (isCR id emoji username) (channel_reactions d)) d)
  | None => Exec_ (fun d => set_channel_reactions
                     (tinsert_ignore (isCR id emoji username)
                        (fun _ => mkChannelReaction id emoji username) (channel_reactions d)) d)
  end.

Definition case_channel_react : M unit :=
  if is_empty username || is_empty (mChannelID msg) || is_empty (mMsgID msg)
     || is_empty (mReaction msg) then ret tt
  else
    let* server := QueryRow (channelServer (mChannelID msg)) in
    match server with
    | None => ret tt
    | Some serverID =>
        let* ok := userIsServerMember serverID username in
        if negb ok then ret tt
        else
          match ParseInt (mMsgID msg) with
          | None => ret tt
          | Some id64 =>
              toggleCR id64 (mReaction msg) ;;;
              let* rs := channelReactionsBulk [id64] in
              broadcastChannelMsg serverID (nm "channel_react_in" |> set_mServerID serverID
                |> set_mChannelID (mChannelID msg) |> set_mMsgID (mMsgID msg)
                |> set_mMessages [partialMsg id64 (mChannelID msg) "" "" false false false
                                    (channelReactionMap id64 rs)])
          end
    end.

Definition messageRow (id : Z) (d : Database) : option ChannelMessage :=
  tfirst (fun r => cms_id r =? id) (channel_messages d).

Definition onMessage (id : Z) (f : ChannelMessage -> ChannelMessage) (d : Database) : Database :=
  set_channel_messages (tupdate (fun r => cms_id r =? id) f (channel_messages d)) d.

Definition case_channel_edit : M unit :=
  if is_empty username || is_empty (mMsgID msg) || is_empty (mBody msg) then ret tt
  else if 8000 <? len (mBody msg) then ret tt
  else
    match ParseInt (mMsgID msg) with
    | None => ret tt
    | Some id64 =>
        let* row := QueryRow (messageRow id64) in
        match row with
        | None => ret tt
        | Some r =>
            if negb (cms_sender r ==? username) then ret tt
            else
              let* ok := ExecOk (onMessage id64 (fun r => set_cms_edited 1 (set_cms_body (mBody msg) r))) in
              if negb ok then ret tt
              else
                let* serverID := ScanOr "" (channelServer (cms_channel_id r)) in
                broadcastChannelMsg serverID (nm "channel_edit_in" |> set_mServerID serverID
                  |> set_mChannelID (cms_channel_id r) |> set_mMsgID (mMsgID msg)
                  |> set_mBody (mBody msg)
                  |> set_mMessages [partialMsg id64 (cms_channel_id r) username (mBody msg)
                                      true false false ∅])
        end
    end.

(** [a && b && ... && !roleAtLeast]: the role is asked only at the end. *)
Definition mayDelete (sender serverRole : string) : M bool :=
  if (sender ==? username) || isAdminRole serverRole then ret true
  else roleAtLeast username "helper".

Definition case_channel_delete : M unit :=
  if is_empty username || is_empty (mMsgID msg) then ret tt
  else
    match ParseInt (mMsgID msg) with
    | None => ret tt
    | Some id64 =>
        let* row := QueryRow (messageRow id64) in
        match row with
        | None => ret tt
        | Some r =>
            let* serverID := ScanOr "" (channelServer (cms_channel_id r)) in
            let* serverRole := userServerRole serverID username in
            let* may := mayDelete (cms_sender r) serverRole in
            if negb may then ret tt
            else
              let* ok := ExecOk (onMessage id64 (fun r => set_cms_body "" (set_cms_deleted 1 r))) in
              if negb ok then ret tt
              else
                broadcastChannelMsg serverID (nm "channel_delete_in" |> set_mServerID serverID
                  |> set_mChannelID (cms_channel_id r) |> set_mMsgID (mMsgID msg)
                  |> set_mMessages [partialMsg id64 (cms_channel_id r) (cms_sender r) ""
                                      false true false ∅])
        end
    end.

Definition case_channel_pin : M unit :=
  if is_empty username || is_empty (mMsgID msg) then ret tt
  else
    match ParseInt (mMsgID msg) with
    | None => ret tt
    | Some id64 =>
        let* row := QueryRow (messageRow id64) in
        match row with
        | None => ret tt
        | Some r =>
            let* serverID := ScanOr "" (channelServer (cms_channel_id r)) in
            let* member := userIsServerMember serverID username in
            if negb member then ret tt
            else
              let* role := userServerRole serverID username in
              if negb (isAdminRole role) then fail "channel_pin_result" "admin only"
              else
                let* cur := ScanOr 0 (fun d => cms_pinned <$> messageRow id64 d) in
                let next := 1 - cur in
                let* ok := ExecOk (onMessage id64 (set_cms_pinned next)) in
                if negb ok then ret tt
                else
                  broadcastChannelMsg serverID (nm "channel_pin_in" |> set_mServerID serverID
                    |> set_mChannelID (cms_channel_id r) |> set_mMsgID (mMsgID msg)
                    |> set_mMessages [partialMsg id64 (cms_channel_id r) "" "" false false
                                        (next =? 1) ∅])
        end
    end.

(** *** Settings *)

Definition settingsOf (d : Database) : gmap string string :=
  foldl (fun m r => <[us_key r := us_value r]> m) ∅
    (tselect (fun r => us_username r ==? username) (user_settings d)).

Definition case_settings_get : M unit :=
  if is_empty username then ret tt
  else
    let* r := Query (fun d => [settingsOf d]) in
    match r with
    | Some [s] => Send_ client (nm "settings_result" |> set_mStatus "ok" |> set_mEnvelopes s)
    | _ => fail "settings_result" "could not load settings"
    end.

Definition settingsCount (d : Database) : Z := tcount (fun r => us_username r ==? username) (user_settings d).

Definition putSetting (key value : string) (d : Database) : Database :=
  set_user_settings
    (tupsert (fun r => (us_username r ==? username) && (us_key r ==? key)) (set_us_value value)
       (fun _ => mkUserSetting username key value) (user_settings d)) d.

Definition case_settings_set : M unit :=
  if is_empty username || is_empty (mBody msg) then ret tt
  else
    let* e := getEnv in
    match jsonKV e (mBody msg) with
    | None => ret tt
    | Some (key, value) =>
        if is_empty key then ret tt
        else if (64 <? len key) || (64 * 1024 <? len value) then ret tt
        else
          let* n := CountOr0 settingsCount in
          if 100 <=? n then ret tt else Exec_ (putSetting key value)
    end.

Definition case_purge_email : M unit :=
  if is_empty username then ret tt
  else
    let* ok := ExecOk (fun d => set_users (tupdate (fun u => u_username u ==? username)
                                             (set_u_email "") (users d)) d) in
    if negb ok then fail "purge_email_result" "could not remove email"
    else Send_ client (nm "purge_email_result" |> set_mStatus "ok").
End Cases.

(** ** Frames: every operation keeps the database invariant *)

#[export] Hint Unfold isCR : sqlkeys.

Lemma wf_insertServerIgnore s d : db_wf d -> db_wf (insertServerIgnore s d).
Proof. revert d. unfold insertServerIgnore. wf_step. Qed.

Lemma wf_insertSM server user role now d : db_wf d -> db_wf (insertSM server user role now d).
Proof. revert d. unfold insertSM. wf_step. Qed.

Lemma wf_insertServerRow s d d' : db_wf d -> insertServerRow s d = inr d' -> db_wf d'.
Proof. revert d d'. wf_stmt. Qed.
Lemma wf_insertOwner server u now d d' : db_wf d -> insertOwner server u now d = inr d' -> db_wf d'.
Proof. revert d d'. wf_stmt. Qed.
Lemma wf_insertChannelRow c d d' : db_wf d -> insertChannelRow c d = inr d' -> db_wf d'.
Proof. revert d d'. wf_stmt. Qed.

Lemma safe_ensureGlobalSpace : respects safe ensureGlobalSpace.
Proof.
  unfold ensureGlobalSpace. frame; try (apply safe_ExecOk; intros; by apply wf_insertServerIgnore).
  apply safe_Exec_. intros d Hd. generalize (tselect (fun u => u_is_verified u =? 1) (users d)).
  intros l. revert d Hd. induction l as [|u l IH]; intros d Hd; simpl; [done|].
  by apply IH, wf_insertSM.
Qed.
#[export] Hint Resolve safe_ensureGlobalSpace : frame.

(** What a step of the transaction of [createServer] can end in. *)
Definition ends_wf (k : Database -> M (createErr + Database)) : Prop :=
  (forall d, respects (both (same core) (same wDB)) (k d))
  /\ (forall d w d', db_wf d -> (k d w).1 = inr d' -> db_wf d').

Lemma ends_createStep f k :
  (forall d d', db_wf d -> f d = inr d' -> db_wf d') -> ends_wf k -> ends_wf (createStep f k).
Proof.
  intros Hf [Hk1 Hk2]. unfold createStep. split.
  - intros d. frame.
  - intros d w d' Hd. unfold bind, txExec. destruct (faulty w); [done|]. simpl.
    destruct (f d) as [e|d1] eqn:E; [done|]. apply Hk2. by eapply Hf.
Qed.

Lemma ends_channelStep server name pos k : ends_wf k -> ends_wf (channelStep server name pos k).
Proof.
  intros Hk. assert (Hs : forall cid, ends_wf (createStep (insertChannelRow
      (mkChannel cid server name "" "text" pos)) k)).
  { intros cid. apply ends_createStep; [apply wf_insertChannelRow | done]. }
  unfold channelStep. split.
  - intros d. frame. apply (Hs _).
  - intros d w d' Hd. unfold bind. destruct (randHex 12 w).1 as [cid|]; [|done].
    by apply (Hs cid).
Qed.

Lemma safe_createServer s now : respects safe (createServer s now).
Proof.
  unfold createServer.
  assert (Hk : ends_wf (fun d => ret (inr d))).
  { split; [intros d; frame | intros d w d' Hd [= <-]; done]. }
  assert (Hb : ends_wf (createStep (insertServerRow s)
       (createStep (insertOwner (sv_id s) (sv_owner s) now)
          (channelStep (sv_id s) "general" 0
             (channelStep (sv_id s) "random" 1 (fun d => ret (inr d))))))).
  { repeat first [ apply ends_createStep; [first [apply wf_insertServerRow | apply wf_insertOwner] |]
                 | apply ends_channelStep ]. exact Hk. }
  apply safe_TxBody; apply Hb.
Qed.
#[export] Hint Resolve safe_createServer : frame.

Lemma safe_insertChannel c : respects safe (Exec (insertChannel c)).
Proof.
  apply safe_Exec. unfold insertChannel. intros d d' n Hd.
  destruct (insertChannelRow c d) as [e|d1] eqn:E; intros; simplify_eq.
  by eapply wf_insertChannelRow.
Qed.
#[export] Hint Resolve safe_insertChannel | 1 : frame.

Lemma safe_userRole username : respects safe (userRole username). Proof. frame_deep. Qed.
Lemma safe_roleAtLeast username minRole : respects safe (roleAtLeast username minRole).
Proof. frame_deep. Qed.
Lemma safe_userIsServerMember server user : respects safe (userIsServerMember server user).
Proof. frame_deep. Qed.
Lemma safe_isServerMember serverID username : respects safe (isServerMember serverID username).
Proof. frame_deep. Qed.
Lemma safe_userServerRole server user : respects safe (userServerRole server user).
Proof. frame_deep. Qed.
Lemma safe_listUserServers username : respects safe (listUserServers username).
Proof. frame_deep. Qed.
Lemma safe_listPublicServers forUser : respects safe (listPublicServers forUser).
Proof. frame_deep. Qed.
Lemma safe_listServerChannels serverID : respects safe (listServerChannels serverID).
Proof. frame_deep. Qed.
Lemma safe_channelReactionsBulk ids : respects safe (channelReactionsBulk ids).
Proof. frame_deep. Qed.
Lemma safe_channelHistory channelID beforeID limit : respects safe (channelHistory channelID beforeID limit).
Proof. frame_deep. Qed.
Lemma safe_broadcastChannelMsg serverID payload : respects safe (broadcastChannelMsg serverID payload).
Proof. frame_deep. Qed.
Lemma safe_autoJoinGlobalSpace username : respects safe (autoJoinGlobalSpace username).
Proof. frame_deep. Qed.
Lemma safe_autoJoinPublicSpaces bot : respects safe (autoJoinPublicSpaces bot).
Proof. frame_deep. Qed.
Lemma safe_fail client type err : respects safe (fail client type err). Proof. frame_deep. Qed.
Lemma safe_toggleCR username id emoji : respects safe (toggleCR username id emoji).
Proof. frame_deep. Qed.
Lemma safe_mayDelete username sender serverRole : respects safe (mayDelete username sender serverRole).
Proof. frame_deep. Qed.

#[export] Hint Resolve safe_userRole safe_roleAtLeast safe_userIsServerMember safe_isServerMember
  safe_userServerRole safe_listUserServers safe_listPublicServers safe_listServerChannels
  safe_channelReactionsBulk safe_channelHistory safe_broadcastChannelMsg safe_autoJoinGlobalSpace
  safe_autoJoinPublicSpaces safe_fail safe_toggleCR safe_mayDelete : frame.

Section SafeCases.
Context (client : nat) (username : string) (msg : NexusMessage).
Lemma safe_case_server_create : respects safe (case_server_create client username msg).
Proof. frame_deep. Qed.
Lemma safe_case_server_list : respects safe (case_server_list client username).
Proof. frame_deep. Qed.
Lemma safe_case_server_discover : respects safe (case_server_discover client username).
Proof. frame_deep. Qed.
Lemma safe_case_server_join : respects safe (case_server_join client username msg).
Proof. frame_deep. Qed.
Lemma safe_case_server_leave : respects safe (case_server_leave client username msg).
Proof. frame_deep. Qed.
Lemma safe_case_server_info : respects safe (case_server_info client username msg).
Proof. frame_deep. Qed.
Lemma safe_case_channel_create : respects safe (case_channel_create client username msg).
Proof. frame_deep. Qed.
Lemma safe_case_channel_msg : respects safe (case_channel_msg client username msg).
Proof. frame_deep. Qed.
Lemma safe_case_channel_history : respects safe (case_channel_history client username msg).
Proof. frame_deep. Qed.
Lemma safe_case_channel_react : respects safe (case_channel_react username msg).
Proof. frame_deep. Qed.
Lemma safe_case_channel_edit : respects safe (case_channel_edit username msg).
Proof. frame_deep. Qed.
Lemma safe_case_channel_delete : respects safe (case_channel_delete username msg).
Proof. frame_deep. Qed.
Lemma safe_case_channel_pin : respects safe (case_channel_pin client username msg).
Proof. frame_deep. Qed.
Lemma safe_case_settings_get : respects safe (case_settings_get client username).
Proof. frame_deep. Qed.
Lemma safe_case_settings_set : respects safe (case_settings_set username msg).
Proof. frame_deep. Qed.
Lemma safe_case_purge_email : respects safe (case_purge_email client username).
Proof. frame_deep. Qed.
End SafeCases.

#[export] Hint Resolve safe_case_server_create safe_case_server_list safe_case_server_discover
  safe_case_server_join safe_case_server_leave safe_case_server_info safe_case_channel_create
  safe_case_channel_msg safe_case_channel_history safe_case_channel_react safe_case_channel_edit
  safe_case_channel_delete safe_case_channel_pin safe_case_settings_get safe_case_settings_set
  safe_case_purge_email : frame.
