(* ===== verification/SpacesSpec.v ===== *)
(** * Spaces: creation, history, settings

    Creating a server is all or nothing; paging back through a channel shows
    every message exactly once; a user's settings stay within their quota. *)

From Stdlib Require Import ZArith Lia Sorted.
From stdpp Require Import base strings list gmap sorting.
From S2P Require Import Prelude GoRt Store Wire Db World Wf Samples Registry Social SocialSpec Dm DmSpec Spaces.

Open Scope string_scope.
Open Scope list_scope.
Open Scope Z_scope.

(** ** Creation *)

(** What a created server leaves behind, relative to the database before. *)
Record created (s : ServerRow) (now : Z) (d d' : Database) : Prop := mkCreated {
  cr_server : tfirst (fun r => sv_id r ==? sv_id s) (servers d') = Some s;
  cr_owner : serverRoleIn (sv_id s) (sv_owner s) d' = Some "owner";
  cr_channels : exists i j, rows (channels d')
    = rows (channels d) ++ [mkChannel i (sv_id s) "general" "" "text" 0;
                            mkChannel j (sv_id s) "random" "" "text" 1] /\ i <> j;
  cr_rest : exists sv sm ch, d' = set_channels ch (set_server_members sm (set_servers sv d)) }.

Lemma createStep_inr f k d w d' :
  (createStep f k d w).1 = inr d' ->
  exists d1 w1, f d = inr d1 /\ (k d1 w1).1 = inr d'.
Proof.
  unfold createStep, txExec. rewrite bind_run. destruct (faulty w); simpl; [done|].
  destruct (f d) as [e|d1] eqn:E; simpl; [done|]. intros H. by exists d1, (tickSql w).
Qed.

Lemma channelStep_inr server name pos k d w d' :
  (channelStep server name pos k d w).1 = inr d' ->
  exists cid d1 w1, insertChannelRow (mkChannel cid server name "" "text" pos) d = inr d1
    /\ (k d1 w1).1 = inr d'.
Proof.
  unfold channelStep. rewrite bind_run. destruct (randHex 12 w).1 as [cid|] eqn:E; simpl; [|done].
  intros (d1 & w1 & H1 & H2)%createStep_inr. by exists cid, d1, w1.
Qed.

Lemma insertChannelRow_inr c d d' :
  insertChannelRow c d = inr d' ->
  d' = set_channels (tinsert (fun _ => c) (channels d)) d
  /\ texists (fun r => ch_id r ==? ch_id c) (channels d) = false.
Proof.
  unfold insertChannelRow, tinsert_unique. destruct (texists _ _) eqn:E; [done|].
  by intros [= <-].
Qed.

(** Creating a server is all or nothing.  Whatever statements fail and
    whatever the random source does, [createServer] either reports an error
    and leaves the database as it was, or reports success and the database
    has gained the server, its owner's membership with the role of owner, and
    the two channels "general" and "random" with distinct ids - and nothing
    else. *)
Theorem createServer_atomic s now w :
  let r := createServer s now w in
  match r.1 with
  | Some _ => wDB r.2 = wDB w
  | None => created s now (wDB w) (wDB r.2)
  end.
Proof.
  cbv zeta. unfold createServer. set (body := createStep _ _).
  assert (Hb : forall d, respects (same wDB) (body d)).
  { intros d. subst body. unfold createStep, channelStep, createStep. frame. }
  unfold TxBody. destruct (faulty w); [done|].
  pose proof (Hb (wDB w) (tickSql w)) as Hs. unfold same in Hs.
  destruct (body (wDB w) (tickSql w)).1 as [e|d] eqn:E; simpl; [by rewrite Hs|].
  destruct (faulty _); simpl; [by rewrite Hs|].
  subst body. apply createStep_inr in E as (d1 & w1 & E1 & E).
  apply createStep_inr in E as (d2 & w2 & E2 & E).
  apply channelStep_inr in E as (i & d3 & w3 & E3 & E).
  apply channelStep_inr in E as (j & d4 & w4 & E4 & [= <-]).
  unfold insertServerRow, tinsert_unique in E1. destruct (texists _ (servers (wDB w))) eqn:X1; [done|].
  injection E1 as <-. unfold insertOwner, tinsert_unique in E2. simpl in E2.
  destruct (texists _ (server_members (wDB w))) eqn:X2; [done|]. injection E2 as <-.
  apply insertChannelRow_inr in E3 as [-> X3]. apply insertChannelRow_inr in E4 as [-> X4].
  cbn [channels set_channels set_server_members set_servers] in X3, X4. constructor; cbn [servers server_members channels set_servers
    set_server_members set_channels].
  - rewrite tfirst_tinsert, eqb_refl_dec. destruct (tfirst _ _) as [r|] eqn:Ef; [|done].
    apply tfirst_Some in Ef as [Hr Ef]. rewrite texists_false in X1. specialize (X1 r Hr).
    simpl in X1. by rewrite Ef in X1.
  - unfold serverRoleIn. cbn [server_members set_server_members set_channels set_servers].
    rewrite tfirst_tinsert. rewrite (proj2 (tfirst_None _ _) X2). unfold isSM. simpl.
    by rewrite !eqb_refl_dec.
  - exists i, j. split; [unfold tinsert; simpl; by rewrite <- app_assoc|]. intros ->.
    rewrite texists_false in X4. specialize (X4 (mkChannel j (sv_id s) "general" "" "text" 0)).
    cbn [ch_id] in X4. rewrite eqb_refl_dec in X4. discriminate X4.
    apply elem_of_tinsert. by right.
  - destruct (wDB w). eexists _, _, _. reflexivity.
Qed.

(** ** Paging back *)

(** A message as a member of the channel is shown it: its row, an empty body
    once it is deleted, and the reactions to it. *)
Definition shownMsg (d : Database) (r : ChannelMessage) : ChannelMsg :=
  set_cmReactions (channelReactionMap (cms_id r) (rows (channel_reactions d))) (rowToChannelMsg r).

(** The request for what precedes the message [before]; 0 asks for the newest. *)
Definition askHistory (channelID : string) (before : Z) : NexusMessage :=
  nm "channel_history" |> set_mChannelID channelID |> set_mHistoryFrom before.

(** The messages of the frames written to the client between two states. *)
Definition pageSeen (client : nat) (w w' : World) : list ChannelMsg :=
  concat ((fun ev => match ev with
                     | EvSend c m => if (c =? client)%nat then mMessages m else []
                     | _ => [] end) <$> drop (length (wOut w)) (wOut w')).

(** A client that sends one request after another, each time for what precedes
    the oldest message of the page it was sent last, until a page is empty.
    What it is shown, newest first. *)
Fixpoint readBack (fuel : nat) (client : nat) (u channelID : string) (before : Z) (w : World) : list ChannelMsg :=
  match fuel with
  | O => []
  | S f =>
      let w' := (case_channel_history client u (askHistory channelID before) w).2 in
      match pageSeen client w w' with
      | [] => []
      | oldest :: page => rev (oldest :: page) ++ readBack f client u channelID (cmID oldest) w'
      end
  end.

Lemma reactions_of_page id ids rs :
  id ∈ ids ->
  channelReactionMap id (boolfilter (fun r => existsb (Z.eqb (cr_msg_id r)) ids) rs) = channelReactionMap id rs.
Proof.
  intros Hi. unfold channelReactionMap. generalize (∅ : gmap string (list string)).
  induction rs as [|r rs IH]; intros m; [done|]. rewrite boolfilter_cons. cbn [foldl].
  destruct (existsb _ ids) eqn:E; [by cbn [foldl]|].
  destruct (cr_msg_id r =? id) eqn:Er; [|done]. apply Z.eqb_eq in Er. exfalso.
  apply not_true_iff_false in E. apply E. apply existsb_exists. exists id.
  split; [by apply list_elem_of_In | by apply Z.eqb_eq].
Qed.

(** What [channelHistory] returns on a database that answers. *)
Lemma channelHistory_run channelID before limit w :
  sql_ok w -> exists n,
  channelHistory channelID before limit w
  = (Some (rev (shownMsg (wDB w) <$> channelPage channelID before limit (wDB w))), set_wSqlTick n w).
Proof.
  intros Hok. unfold channelHistory. rewrite bind_run, ok_Query by done. cbn [fst snd].
  set (page := channelPage _ _ _ _). unfold channelReactionsBulk.
  destruct page as [|r l] eqn:Ep; [by eexists|]. rewrite <- Ep. clear r l Ep.
  assert (E : forall rs, (forall id, id ∈ (cms_id <$> page) -> channelReactionMap id rs
                = channelReactionMap id (rows (channel_reactions (wDB w)))) ->
    rev ((fun r => set_cmReactions (channelReactionMap (cms_id r) rs) (rowToChannelMsg r)) <$> page)
    = rev (shownMsg (wDB w) <$> page)).
  { intros rs H. f_equal. apply list_fmap_ext. intros i r Hr. unfold shownMsg. f_equal. apply H.
    apply list_elem_of_fmap_2. by eapply list_elem_of_lookup_2. }
  destruct (cms_id <$> page) as [|x ids] eqn:Ei.
  - eexists. rewrite bind_run. unfold ret. cbn [fst snd]. rewrite E; [reflexivity|]. intros id Hid. by apply elem_of_nil in Hid.
  - rewrite bind_run, bind_run, ok_Query by sqlside. unfold ret. cbn [fst snd default].
    eexists. rewrite E; [reflexivity|]. intros id Hid. by apply reactions_of_page.
Qed.

Section Reading.
Context (client : nat) (u channelID serverID : string).

(** The member [u] is connected and the database answers. *)
Record reads (w : World) : Prop := mkReads {
  rd_ok : sql_ok w;
  rd_up : writable w client = true;
  rd_home : channelServer channelID (wDB w) = Some serverID;
  rd_member : serverMemberIn serverID u (wDB w) = true }.

(** One request: one frame with a page, oldest first, and nothing changes. *)
Lemma history_answer before w :
  u <> "" -> channelID <> "" -> reads w ->
  let w' := (case_channel_history client u (askHistory channelID before) w).2 in
  wDB w' = wDB w /\ reads w'
  /\ pageSeen client w w' = rev (shownMsg (wDB w) <$> channelPage channelID before 50 (wDB w)).
Proof using Type.
  intros Hu Hc [Hok Hup Hh Hm]. unfold case_channel_history, is_empty.
  change (mChannelID (askHistory channelID before)) with channelID.
  change (mHistoryFrom (askHistory channelID before)) with before.
  rewrite (eqb_neq_dec u "") by done. rewrite (eqb_neq_dec channelID "") by done. cbn [orb].
  rewrite bind_run, ok_QueryRow by done. cbn [fst snd]. rewrite Hh.
  unfold userIsServerMember. rewrite !bind_run, ok_QueryRow by sqlside. cbn [fst snd].
  change (wDB (tickSql w)) with (wDB w). rewrite Hm, ret_run. cbn [fst snd negb].
  destruct (channelHistory_run channelID before 50 (tickSql (tickSql w))) as [n E]; [by sqlside|].
  rewrite bind_run, E. cbn [fst snd]. rewrite Send__frames. cbn [fst snd].
  unfold frames. rewrite boolfilter_cons. change (writable (set_wSqlTick n _) client) with (writable w client).
  rewrite Hup. split_and!; [done | by split |].
  unfold pageSeen. cbn [wOut set_wOut set_wSqlTick tickSql]. cbn.
  rewrite drop_app_length. cbn. rewrite Nat.eqb_refl. by rewrite app_nil_r.
Qed.

Lemma readBack_walk fuel before w :
  u <> "" -> channelID <> "" -> reads w ->
  readBack fuel client u channelID before w
  = shownMsg (wDB w) <$> walk fuel (fun b => channelPage channelID b 50 (wDB w)) cms_id before.
Proof using Type.
  intros Hu Hc. revert before w. induction fuel as [|fuel IH]; intros before w Hr; [done|].
  destruct (history_answer before w Hu Hc Hr) as (Hd & Hr' & Hp). cbn [readBack walk].
  rewrite Hp. set (page := channelPage channelID before 50 (wDB w)).
  destruct (last page) as [r|] eqn:El.
  - apply last_Some in El as [l El]. rewrite El, fmap_app, rev_app_distr. cbn [fmap list_fmap rev app].
    rewrite (IH _ _ Hr'), Hd. cbn [rev]. rewrite rev_involutive.
    rewrite fmap_app, fmap_app. reflexivity.
  - apply last_None in El. rewrite El. reflexivity.
Qed.
End Reading.

(** C34: paging shows everything once.  On a database that answers and whose
    ids are positive, a connected member of a channel that sends
    [channel_history] again and again, each time with the id of the oldest
    message it was sent, is shown every message of the channel exactly once,
    newest first - each with its sender, its text unless it was deleted, its
    marks and all the reactions to it - and then an empty page, within one
    request more than there are messages.  (Channels only: the pages of a
    private conversation carry no ids to go on from.) *)
Theorem paging_complete client u channelID serverID fuel w :
  u <> "" -> channelID <> "" -> reads client u channelID serverID w -> db_wf (wDB w) ->
  Forall (fun r => 0 < cms_id r) (rows (channel_messages (wDB w))) ->
  (length (rows (channel_messages (wDB w))) < fuel)%nat ->
  readBack fuel client u channelID 0 w
  = rev (shownMsg (wDB w) <$> tselect (fun r => cms_channel_id r ==? channelID) (channel_messages (wDB w))).
Proof.
  intros Hu Hc Hr Hwf Hpos Hf. rewrite (readBack_walk _ _ _ serverID) by done.
  etransitivity; [|apply (map_rev (shownMsg (wDB w)))]. apply (f_equal (fmap (shownMsg (wDB w)))).
  rewrite (walk_ext _ _ (pageOf cms_id 50 (tselect (fun r => cms_channel_id r ==? channelID)
                                            (channel_messages (wDB w))))).
  - apply walk_table; [apply Hwf | done | lia |]. eapply Nat.le_lt_trans; [|exact Hf].
    apply length_boolfilter_le.
  - intros b'. by apply page_of_table, Hwf.
Qed.

(** A channel of three messages, one with a reaction, read by a member. *)
Definition chatDB : Database :=
  sampleDB
  |> set_channels (tableOf [mkChannel "c" "s" "general" "" "text" 0])
  |> set_server_members (tableOf [mkServerMember "s" "alice" "owner" T0])
  |> set_channel_reactions (tableOf [mkChannelReaction 2 "yes" "alice"])
  |> set_channel_messages (tableOf (
       (fun i => mkChannelMessage i "c" "alice" "hi" T0 0 0 0) <$> [1; 2; 3])).

Definition chatW : World := mkW chatDB sampleServer T0.

Lemma paging_complete_witness :
  map cmID (readBack 5 1 "alice" "c" 0 chatW) = [3; 2; 1]
  /\ map (fun m => elements (dom (cmReactions m))) (readBack 5 1 "alice" "c" 0 chatW) = [[]; ["yes"]; []]
  /\ readBack 5 1 "alice" "c" 0 chatW
     = rev (shownMsg chatDB <$> tselect (fun r => cms_channel_id r ==? "c") (channel_messages chatDB)).
Proof.
  split; [vm_compute; reflexivity|]. split; [vm_compute; reflexivity|].
  apply (paging_complete 1 "alice" "c" "s" 5 chatW).
  - discriminate.
  - discriminate.
  - split; [apply sql_ok_mkW | reflexivity..].
  - apply wf_check_sound. vm_compute. reflexivity.
  - simpl. repeat constructor.
  - simpl. lia.
Defined.

(** ** Settings *)

Definition settingOf (u key : string) (d : Database) : option string :=
  us_value <$> tfirst (fun r => (us_username r ==? u) && (us_key r ==? key)) (user_settings d).

Lemma putSetting_count u v key value d :
  settingsCount v (putSetting u key value d) <= settingsCount v d + 1.
Proof.
  unfold settingsCount, putSetting, tupsert, tcount. simpl. destruct (texists _ _).
  - rewrite tselect_tupdate by done. rewrite length_fmap. lia.
  - rewrite tselect_tinsert, length_app. destruct (_ ==? v); simpl; lia.
Qed.

Lemma putSetting_other u v key value d :
  u <> v -> settingsCount v (putSetting u key value d) = settingsCount v d.
Proof.
  intros Hne. unfold settingsCount, putSetting, tupsert, tcount. simpl. destruct (texists _ _).
  - rewrite tselect_tupdate by done. by rewrite length_fmap.
  - rewrite tselect_tinsert. cbn [us_username]. rewrite eqb_neq_dec by done. by rewrite app_nil_r.
Qed.

Lemma putSetting_get u key value d :
  settingOf u key (putSetting u key value d) = Some value.
Proof.
  unfold settingOf, putSetting, tupsert. simpl. destruct (texists _ _) eqn:E.
  - rewrite tfirst_tupdate by done. destruct (tfirst _ _) as [r|] eqn:Ef; simpl.
    + apply tfirst_Some in Ef as [_ Ef]. by rewrite Ef.
    + apply tfirst_None in Ef. congruence.
  - rewrite tfirst_tinsert, (proj2 (tfirst_None _ _) E). simpl. by rewrite !eqb_refl_dec.
Qed.

(** Settings stay within the quota.  [settings_set] never takes a user
    past one hundred rows and never touches another user's; an accepted
    setting reads back; but at one hundred rows every request is dropped,
    including one that only replaces a value already stored. *)
Theorem settings_quota u msg w :
  sql_ok w -> u <> "" ->
  let d := wDB w in
  let d' := wDB (case_settings_set u msg w).2 in
  (settingsCount u d <= 100 -> settingsCount u d' <= 100)
  /\ (forall v, v <> u -> settingsCount v d' = settingsCount v d)
  /\ (100 <= settingsCount u d -> d' = d)
  /\ forall key value, jsonKV (wEnv w) (mBody msg) = Some (key, value) -> key <> "" ->
       mBody msg <> "" -> len key <= 64 -> len value <= 64 * 1024 -> settingsCount u d < 100 ->
       settingOf u key d' = Some value.
Proof.
  intros Hok Hu d d'. subst d d'. unfold case_settings_set, is_empty. rewrite (eqb_neq_dec u "" Hu).
  destruct (mBody msg ==? "") eqn:Eb; bools; [by split_and!|]. cbn [orb]. cbv iota.
  rewrite bind_run, getEnv_run. cbn [fst snd].
  destruct (jsonKV _ _) as [[key value]|] eqn:Ej; [|by split_and!].
  destruct (key ==? "") eqn:Ek; [bools; split_and!; try done; intros; simplify_eq; done|].
  destruct (_ || _) eqn:El.
  { split_and!; try done. intros k v [= <- <-] _ _ H1 H2 _.
    apply orb_true_iff in El as [El|El]; bools; lia. }
  rewrite bind_run, ok_CountOr0 by done. cbn [fst snd].
  destruct (100 <=? settingsCount u (wDB w)) eqn:En; bools.
  { split_and!; try done. intros; lia. }
  rewrite ok_Exec_ by sqlside. world_cbn. split_and!.
  - intros _. pose proof (putSetting_count u u key value (wDB w)). lia.
  - intros v Hv. apply putSetting_other. congruence.
  - intros; lia.
  - intros k v [= <- <-] _ _ _ _ _. apply putSetting_get.
Qed.

Lemma settings_quota_witness :
  let msg := nm "settings_set" |> set_mBody "theme" in
  settingOf "alice" "theme" (wDB (case_settings_set "alice" msg sampleW).2) = Some "theme".
Proof.
  intros msg. destruct (settings_quota "alice" msg sampleW sampleW_ok ltac:(discriminate))
    as (_ & _ & _ & H).
  apply H; vm_compute; first [reflexivity | discriminate].
Defined.
