(* ===== verification/Whiteboard.v ===== *)
(** * The shared whiteboard ([whiteboard.go], [ws_handlers.go])

    A board is the list of strokes of a channel, oldest first, capped at 4000.
    Strokes are validated and re-encoded before they are stored or relayed;
    undo removes one named stroke of its author. *)

From Stdlib Require Import ZArith Lia.
From stdpp Require Import base strings list gmap.
From S2P Require Import Prelude GoRt Store Wire Db World Wf Registry Social Dm Spaces.

Open Scope string_scope.
Open Scope list_scope.
Open Scope Z_scope.

Definition maxWhiteboardStrokes : Z := 4000.
Definition maxStrokeBytes : Z := 64 * 1024.

Definition validWhiteboardTools : list string := ["pen"; "highlighter"; "eraser"].

(** The characters refused in a colour, by byte: semicolon, colon, braces,
    parentheses, angle brackets, both quotes and the backslash. *)
Definition badColorBytes : list Z := [59; 58; 123; 125; 40; 41; 60; 62; 34; 39; 92].

Definition ContainsAnyByte (s : string) (bad : list Z) : bool :=
  existsb (fun b => existsb (Z.eqb b) bad) (bytes s).

(** The checks on a decoded stroke; widths count 2^-16 units. *)
Definition strokeOK (st : wbStroke) : bool :=
  existsb (fun t => t ==? wbTool st) validWhiteboardTools
  && negb (bool_decide (wbPoints st = [])) && (Z.of_nat (length (wbPoints st)) <=? 4000)
  && (0 <? wbWidth st) && (wbWidth st <=? 200 * 2 ^ 1074)
  && negb (is_empty (wbID st)) && (len (wbID st) <=? 128)
  && (len (wbColor st) <=? 32) && negb (ContainsAnyByte (wbColor st) badColorBytes).

(** The stroke's id and its re-encoding. *)
Definition validateStrokeWithUID (e : Env) (raw : string) : option (string * string) :=
  if maxStrokeBytes <? len raw then None
  else
    match jsonStroke e raw with
    | None => None
    | Some st => if strokeOK st then Some (wbID st, jsonStrokeEnc e st) else None
    end.

Definition validateStroke (e : Env) (raw : string) : option string := snd <$> validateStrokeWithUID e raw.

(** The server of a channel, and whether the channel is a whiteboard. *)
Definition channelIsWhiteboard (channelID : string) : M (string * bool) :=
  let* r := QueryRow (fun d => tfirst (fun c => ch_id c ==? channelID) (channels d)) in
  ret (match r with
       | None => ("", false)
       | Some c => (ch_server_id c, ch_kind c ==? "whiteboard")
       end).

Definition onBoard (channelID : string) (r : StrokeRow) : bool := ws_channel_id r ==? channelID.

Definition boardRows (channelID : string) (d : Database) : list StrokeRow :=
  order_by ws_id (tselect (onBoard channelID) (whiteboard_strokes d)).

Definition insertStroke (channelID author uid stroke : string) (d : Database) : Database :=
  set_whiteboard_strokes
    (tinsert (fun id => mkStrokeRow id channelID author uid stroke) (whiteboard_strokes d)) d.

(** The ids the trim keeps: the newest 4000. *)
Definition keptIDs (channelID : string) (d : Database) : list Z :=
  take (Z.to_nat maxWhiteboardStrokes)
    (ws_id <$> order_by_desc ws_id (tselect (onBoard channelID) (whiteboard_strokes d))).

Definition trimBoard (channelID : string) (d : Database) : Database :=
  let kept := keptIDs channelID d in
  set_whiteboard_strokes
    (tdelete (fun r => onBoard channelID r && negb (existsb (Z.eqb (ws_id r)) kept))
       (whiteboard_strokes d)) d.

Definition appendStroke (channelID author stroke : string) : M (option Z) :=
  let* e := getEnv in
  let uid := default "" (fst <$> validateStrokeWithUID e stroke) in
  let* r := Exec (fun d => inr (insertStroke channelID author uid stroke d,
                                tnext (whiteboard_strokes d))) in
  match r with
  | inl _ => ret None
  | inr id =>
      let* n := CountOr0 (fun d => tcount (onBoard channelID) (whiteboard_strokes d)) in
      when (maxWhiteboardStrokes <? n) (Exec_ (trimBoard channelID)) ;;;
      ret (Some id)
  end.

Definition whiteboardState (channelID : string) : M (list string) :=
  let* r := Query (fun d => ws_stroke <$> boardRows channelID d) in ret (default [] r).

Definition clearBoard (channelID : string) (d : Database) : Database :=
  set_whiteboard_strokes (tdelete (onBoard channelID) (whiteboard_strokes d)) d.

Definition clearWhiteboard (channelID : string) : M unit := Exec_ (clearBoard channelID).

(** [ORDER BY id DESC LIMIT 1] *)
Definition newestStroke (p : StrokeRow -> bool) (d : Database) : option StrokeRow :=
  head (order_by_desc ws_id (tselect p (whiteboard_strokes d))).

Definition drewUID (channelID author uid : string) (r : StrokeRow) : bool :=
  onBoard channelID r && (ws_author r ==? author) && (ws_stroke_uid r ==? uid).

Definition dropStroke (id : Z) (d : Database) : Database :=
  set_whiteboard_strokes (tdelete (fun r => ws_id r =? id) (whiteboard_strokes d)) d.

Definition undoStroke (channelID author uid : string) : M (option (Z * string)) :=
  if is_empty uid then ret None
  else
    let* r := QueryRow (newestStroke (drewUID channelID author uid)) in
    match r with
    | None => ret None
    | Some r => Exec_ (dropStroke (ws_id r)) ;;; ret (Some (ws_id r, ws_stroke r))
    end.

Definition undoLastStroke (channelID author : string) : M (option (Z * string)) :=
  let* r := QueryRow (newestStroke (fun r => onBoard channelID r && (ws_author r ==? author))) in
  match r with
  | None => ret None
  | Some r => undoStroke channelID author (ws_stroke_uid r)
  end.

(** ** The messages *)

Section Cases.
Context (client : nat) (username : string) (msg : NexusMessage).

(** The server of the board, if [msg] names a whiteboard of a space the
    sender is in: the check every handler repeats. *)
Definition boardServer : M (option string) :=
  let* r := channelIsWhiteboard (mChannelID msg) in
  let '(serverID, isWB) := r in
  if negb isWB then ret None
  else
    let* ok := isServerMember serverID username in
    ret (if ok then Some serverID else None).

Definition case_wb_join : M unit :=
  if is_empty username || is_empty (mChannelID msg) then ret tt
  else
    let* server := boardServer in
    match server with
    | None => Send_ client (nm "wb_state" |> set_mError "no such whiteboard")
    | Some _ =>
        let* strokes := whiteboardState (mChannelID msg) in
        Send_ client (nm "wb_state" |> set_mStatus "ok" |> set_mChannelID (mChannelID msg)
                      |> set_mStrokes strokes)
    end.

Definition case_wb_stroke : M unit :=
  if is_empty username || is_empty (mChannelID msg) || is_empty (mStroke msg) then ret tt
  else
    let* server := boardServer in
    match server with
    | None => ret tt
    | Some serverID =>
        let* e := getEnv in
        match validateStroke e (mStroke msg) with
        | None => Send_ client (nm "wb_error" |> set_mChannelID (mChannelID msg)
                                |> set_mError "malformed stroke")
        | Some clean =>
            let* id := appendStroke (mChannelID msg) username clean in
            match id with
            | None => ret tt
            | Some id =>
                broadcastChannelMsg serverID (nm "wb_stroke" |> set_mSender username
                  |> set_mChannelID (mChannelID msg) |> set_mStroke clean |> set_mStrokeID id)
            end
        end
    end.

Definition case_wb_undo : M unit :=
  if is_empty username || is_empty (mChannelID msg) then ret tt
  else
    let* server := boardServer in
    match server with
    | None => ret tt
    | Some serverID =>
        let* r := (if negb (is_empty (mStrokeUID msg))
                   then undoStroke (mChannelID msg) username (mStrokeUID msg)
                   else undoLastStroke (mChannelID msg) username) in
        match r with
        | None => ret tt
        | Some (id, removed) =>
            let* e := getEnv in
            broadcastChannelMsg serverID (nm "wb_undo" |> set_mSender username
              |> set_mChannelID (mChannelID msg) |> set_mStrokeID id
              |> set_mStrokeUID (default "" (fst <$> validateStrokeWithUID e removed)))
        end
    end.

Definition case_wb_clear : M unit :=
  if is_empty username || is_empty (mChannelID msg) then ret tt
  else
    let* server := boardServer in
    match server with
    | None => ret tt
    | Some serverID =>
        let* role := userServerRole serverID username in
        if negb (isAdminRole role) then
          Send_ client (nm "wb_error" |> set_mChannelID (mChannelID msg)
                        |> set_mError "only space admins can clear the board")
        else
          clearWhiteboard (mChannelID msg) ;;;
          broadcastChannelMsg serverID (nm "wb_clear" |> set_mSender username
                                        |> set_mChannelID (mChannelID msg))
    end.
End Cases.

(** ** Frames: every operation keeps the database invariant *)

Lemma safe_channelIsWhiteboard channelID : respects safe (channelIsWhiteboard channelID).
Proof. frame_deep. Qed.
Lemma safe_appendStroke channelID author stroke : respects safe (appendStroke channelID author stroke).
Proof. frame_deep. Qed.
Lemma safe_whiteboardState channelID : respects safe (whiteboardState channelID).
Proof. frame_deep. Qed.
Lemma safe_clearWhiteboard channelID : respects safe (clearWhiteboard channelID).
Proof. frame_deep. Qed.
Lemma safe_undoStroke channelID author uid : respects safe (undoStroke channelID author uid).
Proof. frame_deep. Qed.
Lemma safe_undoLastStroke channelID author : respects safe (undoLastStroke channelID author).
Proof. frame_deep. Qed.
Lemma safe_boardServer username msg : respects safe (boardServer username msg).
Proof. frame_deep. Qed.

#[export] Hint Resolve safe_channelIsWhiteboard safe_appendStroke safe_whiteboardState
  safe_clearWhiteboard safe_undoStroke safe_undoLastStroke safe_boardServer : frame.

Section SafeCases.
Context (client : nat) (username : string) (msg : NexusMessage).
Lemma safe_case_wb_join : respects safe (case_wb_join client username msg).
Proof. frame_deep. Qed.
Lemma safe_case_wb_stroke : respects safe (case_wb_stroke client username msg).
Proof. frame_deep. Qed.
Lemma safe_case_wb_undo : respects safe (case_wb_undo username msg). Proof. frame_deep. Qed.
Lemma safe_case_wb_clear : respects safe (case_wb_clear client username msg).
Proof. frame_deep. Qed.
End SafeCases.

#[export] Hint Resolve safe_case_wb_join safe_case_wb_stroke safe_case_wb_undo safe_case_wb_clear
  : frame.
