(* ===== verification/WhiteboardSpec.v ===== *)
(** * What a whiteboard keeps

    A board is the sequence of its last 4000 strokes; drawing appends to it,
    and a user can take back only a stroke of their own. *)

From Stdlib Require Import ZArith Lia Sorted.
From stdpp Require Import base strings list gmap sorting.
From S2P Require Import Prelude GoRt Store Wire Db World Wf Samples Registry Social Dm Spaces.
From S2P Require Import Whiteboard.

Open Scope string_scope.
Open Scope list_scope.
Open Scope Z_scope.

(** Ids grow along the table, so the board is in insertion order. *)
Lemma boardRows_select channelID d :
  db_wf d -> boardRows channelID d = tselect (onBoard channelID) (whiteboard_strokes d).
Proof. intros Hwf. apply order_by_ids, Hwf. Qed.

Lemma boardRows_insert channelID c author uid stroke d :
  db_wf d ->
  boardRows c (insertStroke channelID author uid stroke d)
  = boardRows c d ++ (if channelID ==? c
      then [mkStrokeRow (tnext (whiteboard_strokes d)) channelID author uid stroke] else []).
Proof.
  intros Hwf. assert (Hwf' : db_wf (insertStroke channelID author uid stroke d)).
  { revert d Hwf. unfold insertStroke. wf_step. }
  rewrite !boardRows_select by done. unfold insertStroke. simpl. rewrite tselect_tinsert.
  unfold onBoard at 2. simpl. reflexivity.
Qed.

Lemma NoDup_ids_sorted (l : list Z) : StronglySorted Z.lt l -> NoDup l.
Proof.
  induction 1 as [|x l Hs IH Hx]; constructor; [|done].
  intros Hin. rewrite Forall_forall in Hx. specialize (Hx x Hin). lia.
Qed.

(** Keeping the rows whose ids are among the last [n] keeps the last [n]. *)
Lemma keep_last {R} (id : R -> Z) n (l : list R) :
  StronglySorted Z.lt (id <$> l) ->
  boolfilter (fun r => existsb (Z.eqb (id r)) (take n (id <$> rev l))) l = drop (length l - n) l.
Proof.
  intros Hs. set (k := (length l - n)%nat).
  assert (Hin : forall r, r ∈ l ->
    existsb (Z.eqb (id r)) (take n (id <$> rev l)) = true <-> id r ∈ (id <$> drop k l)).
  { intros r _. rewrite existsb_exists.
    assert (E : take n (id <$> rev l) = id <$> rev (drop k l)).
    { rewrite <- fmap_take. f_equal. rewrite <- (rev_involutive (take n (rev l))).
      by rewrite rev_take_rev. }
    rewrite E. split.
    - intros (x & Hx & Ex). bools. subst x. apply list_elem_of_In, list_elem_of_fmap in Hx as (y & -> & Hy).
      apply list_elem_of_fmap_2. apply list_elem_of_In, in_rev, list_elem_of_In. done.
    - intros (y & Ey & Hy)%list_elem_of_fmap. exists (id r). split; [|apply Z.eqb_refl].
      rewrite Ey. apply list_elem_of_In, list_elem_of_fmap_2.
      apply list_elem_of_In, in_rev. rewrite rev_involutive. by apply list_elem_of_In. }
  assert (Hd : NoDup (id <$> l)) by by apply NoDup_ids_sorted.
  rewrite <- (take_drop k l) in Hd at 1. rewrite fmap_app in Hd. apply NoDup_app in Hd as (_ & Hdis & _).
  set (p := fun r => existsb _ _) in *.
  transitivity (boolfilter p (take k l ++ drop k l)); [by rewrite take_drop|]. rewrite boolfilter_app.
  rewrite (boolfilter_false _ (take k l)), (boolfilter_true _ (drop k l)); [done|..].
  - apply Forall_forall. intros r Hr. apply Hin; [by eapply subseteq_drop|].
    by apply list_elem_of_fmap_2.
  - apply Forall_forall. intros r Hr. destruct (p r) eqn:E; [|done].
    apply Hin in E; [|by eapply subseteq_take]. destruct (Hdis (id r)); [|done].
    by apply list_elem_of_fmap_2.
Qed.

Lemma trimBoard_rows channelID c d :
  db_wf d ->
  boardRows c (trimBoard channelID d)
  = if channelID ==? c then drop (length (boardRows c d) - 4000) (boardRows c d) else boardRows c d.
Proof.
  intros Hwf. assert (Hwf' : db_wf (trimBoard channelID d)).
  { revert d Hwf. unfold trimBoard. cbv zeta. wf_step. }
  rewrite !boardRows_select by done. unfold trimBoard. cbv zeta. simpl.
  unfold tselect at 1, tdelete. simpl. case_bool_decide as Hc.
  - subst c. set (kept := keptIDs channelID d).
    assert (Hs : StronglySorted Z.lt (ws_id <$> tselect (onBoard channelID) (whiteboard_strokes d))).
    { destruct Hwf.(wf_stroke_ids _) as [Hs _]. eapply StronglySorted_sublist; [|exact Hs].
      apply fmap_sublist, boolfilter_sublist. }
    rewrite <- (keep_last ws_id 4000 _ Hs).
    assert (Ek : kept = take 4000 (ws_id <$> rev (tselect (onBoard channelID) (whiteboard_strokes d)))).
    { unfold kept, keptIDs. by rewrite order_by_desc_rev. }
    rewrite <- Ek. unfold tselect. rewrite <- !boolfilter_and. apply boolfilter_ext. intros r _.
    destruct (onBoard channelID r); simpl; [|done].
    by rewrite negb_involutive, andb_true_r.
  - unfold tselect. rewrite <- boolfilter_and. apply boolfilter_ext. intros r _.
    unfold onBoard. destruct (ws_channel_id r ==? c) eqn:E; [|by rewrite andb_false_r].
    bools. by rewrite E, (eqb_neq_dec c channelID) by congruence.
Qed.

(** A board is its last 4000 strokes.  When no statement fails,
    [appendStroke] leaves its board as the old strokes followed by the new
    one, cut to the newest 4000, with the author and the stroke it was given;
    it returns the new row's id and changes no other board. *)
Theorem appendStroke_keeps_newest channelID author stroke w :
  sql_ok w -> db_wf (wDB w) ->
  let old := boardRows channelID (wDB w) in
  let uid := default "" (fst <$> validateStrokeWithUID (wEnv w) stroke) in
  let w' := (appendStroke channelID author stroke w).2 in
  exists id, (appendStroke channelID author stroke w).1 = Some id
    /\ boardRows channelID (wDB w')
       = drop (length old + 1 - 4000) (old ++ [mkStrokeRow id channelID author uid stroke])
    /\ (length (boardRows channelID (wDB w')) <= Nat.max (length old) 4000)%nat
    /\ forall c, c <> channelID -> boardRows c (wDB w') = boardRows c (wDB w).
Proof.
  intros Hok Hwf old uid w'. set (d1 := insertStroke channelID author uid stroke (wDB w)).
  assert (Hwf1 : db_wf d1) by (subst d1; revert Hwf; generalize (wDB w); unfold insertStroke; wf_step).
  set (id := tnext (whiteboard_strokes (wDB w))).
  assert (Hold : boardRows channelID d1 = old ++ [mkStrokeRow id channelID author uid stroke]).
  { subst d1. rewrite boardRows_insert by done. by rewrite eqb_refl_dec. }
  assert (Hoth : forall c, c <> channelID -> boardRows c d1 = boardRows c (wDB w)).
  { intros c Hc. subst d1. rewrite boardRows_insert by done.
    rewrite eqb_neq_dec by congruence. by rewrite app_nil_r. }
  assert (E : (appendStroke channelID author stroke w).1 = Some id
    /\ wDB w' = (if maxWhiteboardStrokes <? Z.of_nat (length old + 1) then trimBoard channelID d1 else d1)).
  { subst w'. unfold appendStroke. rewrite bind_run, getEnv_run. cbn [fst snd].
    rewrite bind_run, ok_Exec by done. cbn [fst snd]. fold uid d1 id.
    rewrite bind_run, ok_CountOr0 by sqlside. cbn [fst snd].
    change (wDB (set_wDB d1 (tickSql w))) with d1.
    assert (Hn : tcount (onBoard channelID) (whiteboard_strokes d1) = Z.of_nat (length old + 1)).
    { unfold tcount. rewrite <- boardRows_select, Hold, length_app by done. done. }
    rewrite Hn. unfold when. destruct (_ <? _).
    - rewrite bind_run, ok_Exec_ by sqlside. split; reflexivity.
    - split; reflexivity. }
  destruct E as [E1 E2]. exists id. rewrite E2. split; [done|].
  assert (Hb : boardRows channelID (if maxWhiteboardStrokes <? Z.of_nat (length old + 1)
      then trimBoard channelID d1 else d1)
    = drop (length old + 1 - 4000) (old ++ [mkStrokeRow id channelID author uid stroke])).
  { destruct (_ <? _) eqn:El; bools.
    - rewrite trimBoard_rows, eqb_refl_dec, Hold, length_app by done. done.
    - unfold maxWhiteboardStrokes in El. rewrite Hold.
      replace (length old + 1 - 4000)%nat with 0%nat by lia. by rewrite drop_0. }
  split_and!; [done| |].
  - rewrite Hb, length_drop, length_app. simpl. lia.
  - intros c Hc. destruct (_ <? _); [|by apply Hoth].
    rewrite trimBoard_rows by done. rewrite eqb_neq_dec by congruence. by apply Hoth.
Qed.

Definition boardDB : Database :=
  set_whiteboard_strokes (tableOf (
    (fun i => mkStrokeRow i "b" (if Z.even i then "bob" else "alice") (Itoa i) "s") <$> [1; 2; 3])) sampleDB.
Definition boardW : World := mkW boardDB server0 T0.
Lemma boardDB_wf : db_wf boardDB.
Proof. apply wf_check_sound. vm_compute. reflexivity. Qed.

Lemma appendStroke_keeps_newest_witness :
  exists id, (appendStroke "b" "alice" "x" boardW).1 = Some id
    /\ ws_author <$> boardRows "b" (wDB (appendStroke "b" "alice" "x" boardW).2)
       = ["alice"; "bob"; "alice"; "alice"].
Proof.
  destruct (appendStroke_keeps_newest "b" "alice" "x" boardW (sql_ok_mkW _ _ _) boardDB_wf)
    as (id & H1 & H2 & _).
  exists id. split; [exact H1|]. rewrite H2. reflexivity.
Defined.

(** ** Undo *)

Lemma newestStroke_sound p d r :
  db_wf d -> newestStroke p d = Some r ->
  r ∈ rows (whiteboard_strokes d) /\ p r = true
  /\ (forall r', r' ∈ rows (whiteboard_strokes d) -> p r' = true -> ws_id r' <= ws_id r).
Proof.
  intros Hwf. unfold newestStroke. rewrite order_by_desc_rev.
  2: { destruct (wf_stroke_ids _ Hwf) as [Hs _]. eapply StronglySorted_sublist; [|exact Hs].
       apply fmap_sublist, boolfilter_sublist. }
  intros H. assert (Hl : exists l, tselect p (whiteboard_strokes d) = l ++ [r]).
  { destruct (rev (tselect p (whiteboard_strokes d))) as [|x l] eqn:E; [done|].
    injection H as ->. exists (rev l). rewrite <- (rev_involutive (tselect _ _)), E. done. }
  destruct Hl as [l El].
  assert (Hr : r ∈ tselect p (whiteboard_strokes d)) by (rewrite El; apply elem_of_app; right; left).
  apply elem_of_tselect in Hr as [Hp Hr]. split_and!; [done..|]. intros r' Hr' Hp'.
  assert (Hin : r' ∈ tselect p (whiteboard_strokes d)) by by apply elem_of_tselect.
  destruct (wf_stroke_ids _ Hwf) as [Hs _].
  assert (Hs' : StronglySorted Z.lt (ws_id <$> tselect p (whiteboard_strokes d))).
  { eapply StronglySorted_sublist; [|exact Hs]. apply fmap_sublist, boolfilter_sublist. }
  rewrite El in Hin, Hs'. apply elem_of_app in Hin as [Hin|Hin].
  - rewrite fmap_app in Hs'. apply Z.lt_le_incl.
    eapply (StronglySorted_app_1_elem_of _ (ws_id <$> l) [ws_id r]); [exact Hs'| |left].
    by apply list_elem_of_fmap_2.
  - apply list_elem_of_singleton in Hin as ->. lia.
Qed.

(** What an undo did: nothing, or the deletion of one row of the author. *)
Lemma undoStroke_run channelID author uid w :
  sql_ok w -> db_wf (wDB w) ->
  match (undoStroke channelID author uid w).1 with
  | None => wDB (undoStroke channelID author uid w).2 = wDB w
  | Some (id, st) => exists r, r ∈ rows (whiteboard_strokes (wDB w))
      /\ ws_id r = id /\ ws_stroke r = st /\ drewUID channelID author uid r = true
      /\ (forall r', r' ∈ rows (whiteboard_strokes (wDB w)) -> drewUID channelID author uid r' = true ->
           ws_id r' <= ws_id r)
      /\ wDB (undoStroke channelID author uid w).2 = dropStroke id (wDB w)
  end.
Proof.
  intros Hok Hwf. unfold undoStroke. destruct (is_empty uid); [done|].
  rewrite bind_run, ok_QueryRow by done. cbn [fst snd].
  destruct (newestStroke _ _) as [r|] eqn:E; [|done].
  apply newestStroke_sound in E as (H1 & H2 & H3); [|done].
  rewrite bind_run, ok_Exec_ by sqlside. world_cbn. rewrite ret_run. cbn [fst snd]. by exists r.
Qed.

(** The newest row of a class is the newest of any subclass it is in. *)
Lemma newestStroke_sub p q d r :
  db_wf d -> newestStroke p d = Some r -> q r = true -> (forall x, q x = true -> p x = true) ->
  newestStroke q d = Some r.
Proof.
  intros Hwf (Hr & Hp & Hm)%newestStroke_sound Hq Hsub; [|done].
  destruct (newestStroke q d) as [r2|] eqn:E2.
  - apply newestStroke_sound in E2 as (Hr2 & Hq2 & Hm2); [|done]. f_equal.
    apply (unique_eq ws_id (whiteboard_strokes d)); [apply (ids_ok_unique ws_id), Hwf | done..|].
    apply Z.le_antisymm; [apply Hm; auto | by apply Hm2].
  - exfalso. unfold newestStroke in E2. destruct (order_by_desc _ _) as [|x l] eqn:El; [|done].
    assert (r ∈ tselect q (whiteboard_strokes d)) as Hin by by apply elem_of_tselect.
    unfold order_by_desc in El. rewrite <- (order_by_Permutation (fun r => - ws_id r)), El in Hin.
    by apply elem_of_nil in Hin.
Qed.

Lemma undoLastStroke_run channelID author w :
  sql_ok w -> db_wf (wDB w) ->
  let d2 := wDB (undoLastStroke channelID author w).2 in
  match newestStroke (fun r => onBoard channelID r && (ws_author r ==? author)) (wDB w) with
  | None => d2 = wDB w
  | Some r => (ws_stroke_uid r = "" -> d2 = wDB w)
              /\ (ws_stroke_uid r <> "" -> d2 = dropStroke (ws_id r) (wDB w))
  end.
Proof.
  intros Hok Hwf d2. subst d2. unfold undoLastStroke. rewrite bind_run, ok_QueryRow by done.
  cbn [fst snd]. destruct (newestStroke _ (wDB w)) as [r|] eqn:E; [|done].
  unfold undoStroke, is_empty. destruct (ws_stroke_uid r ==? "") eqn:Eu; bools; [by split|].
  split; [done|]. intros _. rewrite bind_run, ok_QueryRow by sqlside. world_cbn.
  pose proof (newestStroke_sound _ _ _ Hwf E) as (_ & Hp & _).
  rewrite (newestStroke_sub _ (drewUID channelID author (ws_stroke_uid r)) _ _ Hwf E).
  - rewrite bind_run, ok_Exec_ by sqlside. reflexivity.
  - unfold drewUID. by rewrite Hp, eqb_refl_dec.
  - unfold drewUID. intros x Hx. by apply andb_true_iff in Hx as [? _].
Qed.

(** Undo takes back one's own.  [undoStroke] and [undoLastStroke] delete
    at most one row, and it is a row of that board drawn by that author: the
    newest one with the id asked for, and for the last stroke the newest one
    of the author there whenever it carries a stroke id.  Everything anyone
    else drew, on any board, stays. *)
Theorem undo_own channelID author uid w :
  sql_ok w -> db_wf (wDB w) ->
  let last := newestStroke (fun r => onBoard channelID r && (ws_author r ==? author)) (wDB w) in
  let d1 := wDB (undoStroke channelID author uid w).2 in
  let d2 := wDB (undoLastStroke channelID author w).2 in
  (d1 = wDB w \/ exists r, r ∈ rows (whiteboard_strokes (wDB w))
     /\ drewUID channelID author uid r = true /\ d1 = dropStroke (ws_id r) (wDB w))
  /\ match last with
     | None => d2 = wDB w
     | Some r => (ws_stroke_uid r = "" -> d2 = wDB w)
                 /\ (ws_stroke_uid r <> "" -> d2 = dropStroke (ws_id r) (wDB w))
     end
  /\ forall r, r ∈ rows (whiteboard_strokes (wDB w)) ->
       ws_author r <> author \/ ws_channel_id r <> channelID ->
       r ∈ rows (whiteboard_strokes d1) /\ r ∈ rows (whiteboard_strokes d2).
Proof.
  intros Hok Hwf last d1 d2.
  assert (H1 : d1 = wDB w \/ exists r, r ∈ rows (whiteboard_strokes (wDB w))
     /\ drewUID channelID author uid r = true /\ d1 = dropStroke (ws_id r) (wDB w)).
  { pose proof (undoStroke_run channelID author uid w Hok Hwf) as H. subst d1.
    destruct (undoStroke channelID author uid w).1 as [[id st]|]; [|by left].
    destruct H as (r & Hr & <- & _ & Hd & _ & E). right. by exists r. }
  pose proof (undoLastStroke_run channelID author w Hok Hwf) as H2. cbv zeta in H2. fold last d2 in H2.
  split_and!; [done..|]. intros r Hr Hne.
  assert (Hkeep : forall r0, r0 ∈ rows (whiteboard_strokes (wDB w)) ->
    ws_author r0 = author -> ws_channel_id r0 = channelID ->
    r ∈ rows (whiteboard_strokes (dropStroke (ws_id r0) (wDB w)))).
  { intros r0 Hr0 Ha Hc. unfold dropStroke. apply elem_of_tdelete. split; [done|].
    apply Z.eqb_neq. intros E. assert (r = r0) as ->; [|destruct Hne; congruence].
    apply (unique_eq ws_id (whiteboard_strokes (wDB w))); [apply (ids_ok_unique ws_id), Hwf | done..]. }
  split.
  - destruct H1 as [-> | (r0 & Hr0 & Hd & ->)]; [done|]. unfold drewUID, onBoard in Hd. bools.
    by apply Hkeep.
  - destruct last as [r0|] eqn:El; [|by rewrite H2]. destruct H2 as [Ha Hb].
    destruct (decide (ws_stroke_uid r0 = "")) as [Hu|Hu]; [by rewrite Ha|]. rewrite Hb by done.
    apply newestStroke_sound in El as (Hr0 & Hp & _); [|done]. unfold onBoard in Hp. bools. by apply Hkeep.
Qed.

(** Bob's undo on a board where Alice drew last removes his own stroke. *)
Lemma undo_own_witness :
  ws_author <$> rows (whiteboard_strokes (wDB (undoLastStroke "b" "bob" boardW).2)) = ["alice"; "alice"]
  /\ mkStrokeRow 3 "b" "alice" (Itoa 3) "s"
       ∈ rows (whiteboard_strokes (wDB (undoLastStroke "b" "bob" boardW).2)).
Proof.
  split; [vm_compute; reflexivity|].
  destruct (undo_own "b" "bob" "2" boardW (sql_ok_mkW _ _ _) boardDB_wf) as (_ & _ & H).
  refine (proj2 (H _ _ _)); [right; right; left | left; discriminate].
Defined.
