(* ===== verification/Rooms.v ===== *)
(** * Voice rooms, live streams and remote-control codes ([main.go], [ws_handlers.go])

    Room-style state that lives only in memory: who is in each voice channel,
    who watches whose stream, and the short-lived codes of the remote-control
    feature. *)

From Stdlib Require Import ZArith Lia.
From stdpp Require Import base strings list gmap.
From S2P Require Import Prelude GoRt Netutil Store Wire Db World Wf Registry Social Spaces.

Open Scope string_scope.
Open Scope list_scope.
Open Scope Z_scope.

(** ** Voice rooms *)

Definition modRooms (f : gmap string (gset string) -> gmap string (gset string)) : M unit :=
  modSrv (fun s => set_VoiceRooms (f (VoiceRooms s)) s).

Definition roomMembers (cid : string) (s : NexusServer) : gset string :=
  default ∅ (VoiceRooms s !! cid).

Definition voiceRoomJoin (channelID username : string) : M unit :=
  modRooms (fun r => <[channelID := {[ username ]} ∪ default ∅ (r !! channelID)]> r).

Definition leaveRoom (channelID username : string) (r : gmap string (gset string))
  : gmap string (gset string) :=
  match r !! channelID with
  | None => r
  | Some room =>
      let room' := room ∖ {[ username ]} in
      if bool_decide (room' = ∅) then delete channelID r else <[channelID := room']> r
  end.

Definition voiceRoomLeave (channelID username : string) : M unit :=
  modRooms (leaveRoom channelID username).

Definition voiceRoomHas (channelID username : string) : M bool :=
  gets (fun w => bool_decide (username ∈ roomMembers channelID (wSrv w))).

Definition voiceRoomPeers (channelID : string) : M (list string) :=
  gets (fun w => elements (roomMembers channelID (wSrv w))).

Definition voiceRoomBroadcastPeers (channelID : string) : M unit :=
  let* peers := voiceRoomPeers channelID in
  forM peers (fun u => sendTo_ u (nm "voice_peers" |> set_mStatus "ok"
                                  |> set_mChannelID channelID |> set_mResults peers)).

(** The rooms a user is in. *)
Definition roomsOf (username : string) (r : gmap string (gset string)) : list string :=
  (boolfilter (fun kv : string * gset string => bool_decide (username ∈ kv.2)) (map_to_list r)).*1.

Definition voiceRoomEvictUser (username : string) : M unit :=
  let* s := getSrv in
  let affected := roomsOf username (VoiceRooms s) in
  modRooms (fun r => foldl (fun r cid => leaveRoom cid username r) r affected) ;;;
  forM affected voiceRoomBroadcastPeers.

(** ** Live streams *)

Definition modStreams (f : gmap string liveStream -> gmap string liveStream) : M unit :=
  modSrv (fun s => set_Streams (f (Streams s)) s).

Definition streamStart (host title : string) : M unit :=
  modStreams (<[host := mkStream title ∅]>).

Definition streamStop (host : string) : M unit :=
  let* s := getSrv in
  modStreams (delete host) ;;;
  match Streams s !! host with
  | None => ret tt
  | Some st => forM (elements (lsViewers st)) (fun v =>
      sendTo_ v (nm "stream_ended" |> set_mSender host))
  end.

Definition streamHas (host : string) : M bool :=
  gets (fun w => bool_decide (is_Some (Streams (wSrv w) !! host))).

Definition streamAddViewer (host viewer : string) : M unit :=
  modStreams (alter (fun st => mkStream (lsTitle st) ({[ viewer ]} ∪ lsViewers st)) host).

Definition streamRemoveViewer (host viewer : string) : M unit :=
  modStreams (alter (fun st => mkStream (lsTitle st) (lsViewers st ∖ {[ viewer ]})) host).

Definition streamList : M (list string) :=
  gets (fun w => concat ((fun kv => [kv.1; lsTitle kv.2]) <$> map_to_list (Streams (wSrv w)))).

Definition watches (host viewer : string) (s : NexusServer) : bool :=
  match Streams s !! host with
  | Some st => bool_decide (viewer ∈ lsViewers st)
  | None => false
  end.

Definition streamAreParticipants (a b : string) : M bool :=
  gets (fun w => watches a b (wSrv w) || watches b a (wSrv w)).

Definition streamBroadcastList : M unit :=
  let* list := streamList in
  broadcastAll (nm "stream_list_result" |> set_mStatus "ok" |> set_mResults list).

(** The hosts whose stream a user watches. *)
Definition hostsWatched (username : string) (m : gmap string liveStream) : list string :=
  (boolfilter (fun kv : string * liveStream => bool_decide (username ∈ lsViewers kv.2)) (map_to_list m)).*1.

Definition dropViewer (username : string) (st : liveStream) : liveStream :=
  mkStream (lsTitle st) (lsViewers st ∖ {[ username ]}).

Definition streamEvictUser (username : string) : M unit :=
  let* s := getSrv in
  let endedAsHost := bool_decide (is_Some (Streams s !! username)) in
  let others := delete username (Streams s) in
  modStreams (fun m => dropViewer username <$> delete username m) ;;;
  forM (hostsWatched username others) (fun h =>
    sendTo_ h (nm "stream_viewer_leave" |> set_mSender username |> set_mRecipient h)) ;;;
  when endedAsHost streamBroadcastList.

(** ** Remote-control codes *)

Definition remoteCodeTTL : Z := 10 * Minute.

Definition modCodes (f : gmap string remoteCodeEntry -> gmap string remoteCodeEntry) : M unit :=
  modSrv (fun s => set_RemoteCodes (f (RemoteCodes s)) s).

Definition dropCodes (p : remoteCodeEntry -> bool) (m : gmap string remoteCodeEntry)
  : gmap string remoteCodeEntry :=
  filter (fun kv => p kv.2 = false) m.

(** One round of [sweepRemoteCodes]. *)
Definition sweepRemoteCodes : M unit :=
  let* now := getNow in
  modCodes (dropCodes (fun v => remoteCodeTTL <? now - rcCreatedAt v)).

(** ** The messages *)

Section Cases.
Context (client : nat) (username : string) (msg : NexusMessage).

Definition joinAndTell : M unit :=
  voiceRoomJoin (mChannelID msg) username ;;; voiceRoomBroadcastPeers (mChannelID msg).

Definition case_voice_join : M unit :=
  if is_empty username || is_empty (mChannelID msg) then ret tt
  else if HasPrefix (mChannelID msg) "call_" then joinAndTell
  else
    let* ch := QueryRow (fun d => tfirst (fun c => ch_id c ==? mChannelID msg) (channels d)) in
    match ch with
    | None => Send_ client (nm "voice_peers" |> set_mError "channel not found")
    | Some ch =>
        if negb (ch_kind ch ==? "voice") then
          Send_ client (nm "voice_peers" |> set_mError "not a voice channel")
        else
          let* member := isServerMember (ch_server_id ch) username in
          if negb member then Send_ client (nm "voice_peers" |> set_mError "not a member")
          else joinAndTell
    end.

Definition case_voice_leave : M unit :=
  if is_empty username || is_empty (mChannelID msg) then ret tt
  else
    voiceRoomLeave (mChannelID msg) username ;;;
    voiceRoomBroadcastPeers (mChannelID msg).

Definition signal (type : string) : NexusMessage :=
  nm type |> set_mSender username |> set_mRecipient (mRecipient msg)
    |> set_mBody (mBody msg) |> set_mSDP (mSDP msg) |> set_mCandidate (mCandidate msg).

Definition case_voice_signal : M unit :=
  if is_empty username || is_empty (mRecipient msg) || is_empty (mChannelID msg) then ret tt
  else
    let* a := voiceRoomHas (mChannelID msg) username in
    let* b := voiceRoomHas (mChannelID msg) (mRecipient msg) in
    if negb a || negb b then ret tt
    else sendTo_ (mRecipient msg) (signal "voice_signal" |> set_mChannelID (mChannelID msg)).

Definition case_stream_start : M unit :=
  if is_empty username then ret tt
  else
    let title := TrimSpace (mBody msg) in
    streamStart username (if is_empty title then username +:+ "'s stream" else title) ;;;
    streamBroadcastList.

Definition case_stream_stop : M unit :=
  if is_empty username then ret tt
  else streamStop username ;;; streamBroadcastList.

Definition case_stream_list : M unit :=
  let* l := streamList in
  Send_ client (nm "stream_list_result" |> set_mStatus "ok" |> set_mResults l).

Definition case_stream_join : M unit :=
  if is_empty username || is_empty (mRecipient msg) then ret tt
  else
    let* live := streamHas (mRecipient msg) in
    if negb live then Send_ client (nm "stream_join_result" |> set_mError "not live")
    else
      streamAddViewer (mRecipient msg) username ;;;
      sendTo_ (mRecipient msg) (nm "stream_viewer_join" |> set_mSender username
                                |> set_mRecipient (mRecipient msg)) ;;;
      Send_ client (nm "stream_join_result" |> set_mStatus "ok" |> set_mRecipient (mRecipient msg)).

Definition case_stream_leave : M unit :=
  if is_empty username || is_empty (mRecipient msg) then ret tt
  else
    streamRemoveViewer (mRecipient msg) username ;;;
    sendTo_ (mRecipient msg) (nm "stream_viewer_leave" |> set_mSender username
                              |> set_mRecipient (mRecipient msg)).

Definition case_stream_signal : M unit :=
  if is_empty username || is_empty (mRecipient msg) then ret tt
  else
    let* ok := streamAreParticipants username (mRecipient msg) in
    if negb ok then ret tt else sendTo_ (mRecipient msg) (signal "stream_signal").

Definition case_remote_register : M unit :=
  if is_empty username then ret tt
  else if negb (len (mBody msg) =? 6) then
    Send_ client (nm "remote_error" |> set_mError "Invalid code")
  else
    let* now := getNow in
    modCodes (<[mBody msg := mkRemote username now]>) ;;;
    Send_ client (nm "remote_registered" |> set_mBody (mBody msg)).

Definition case_remote_unregister : M unit :=
  if is_empty username then ret tt
  else modCodes (dropCodes (fun v => rcUsername v ==? username)).

Definition allowRemoteLookup : M bool :=
  let* e := getEnv in
  let* k := getClient client in
  let* now := getNow in
  let* s := getSrv in
  let '(ok, l) := allow (rateAllow e) now (cIP k) (remoteLookupLimiter s) in
  modSrv (set_remoteLookupLimiter l) ;;;
  ret ok.

Definition case_remote_lookup : M unit :=
  if is_empty username then ret tt
  else
    let* ok := allowRemoteLookup in
    if negb ok then
      Send_ client (nm "remote_lookup_result" |> set_mStatus "error"
                    |> set_mError ("Too many lookup attempts " +:+ of_bytes [226; 128; 148]
                                   +:+ " try again shortly"))
    else
      let* s := getSrv in
      let* now := getNow in
      let invalid := Send_ client (nm "remote_lookup_result" |> set_mStatus "error"
            |> set_mError ("Invalid code " +:+ of_bytes [226; 128; 148]
                           +:+ " make sure the host is still sharing")) in
      match RemoteCodes s !! mBody msg with
      | None => invalid
      | Some e =>
          if remoteCodeTTL <? now - rcCreatedAt e then invalid
          else Send_ client (nm "remote_lookup_result" |> set_mStatus "ok" |> set_mBody (rcUsername e))
      end.

(** [remote_offer], [remote_answer], [remote_ice], [remote_input], [remote_end] *)
Definition case_remote_relay : M unit :=
  if is_empty username then ret tt
  else
    when (mType msg ==? "remote_end")
      (modCodes (dropCodes (fun v => (rcUsername v ==? username) || (rcUsername v ==? mRecipient msg)))) ;;;
    let* ok := sendTo (mRecipient msg) (set_mSender username msg) in
    if negb ok && (mType msg ==? "remote_offer") then
      Send_ client (nm "remote_error" |> set_mError (mRecipient msg +:+ " is not online"))
    else ret tt.
End Cases.

(** ** Frames: every operation keeps the database invariant *)

Lemma safe_voiceRoomJoin channelID username : respects safe (voiceRoomJoin channelID username).
Proof. frame_deep. Qed.
Lemma safe_voiceRoomLeave channelID username : respects safe (voiceRoomLeave channelID username).
Proof. frame_deep. Qed.
Lemma safe_voiceRoomHas channelID username : respects safe (voiceRoomHas channelID username).
Proof. frame_deep. Qed.
Lemma safe_voiceRoomPeers channelID : respects safe (voiceRoomPeers channelID).
Proof. frame_deep. Qed.
Lemma safe_voiceRoomBroadcastPeers channelID : respects safe (voiceRoomBroadcastPeers channelID).
Proof. frame_deep. Qed.
Lemma safe_voiceRoomEvictUser username : respects safe (voiceRoomEvictUser username).
Proof. frame_deep. Qed.
Lemma safe_streamStart host title : respects safe (streamStart host title). Proof. frame_deep. Qed.
Lemma safe_streamStop host : respects safe (streamStop host). Proof. frame_deep. Qed.
Lemma safe_streamHas host : respects safe (streamHas host). Proof. frame_deep. Qed.
Lemma safe_streamAddViewer host viewer : respects safe (streamAddViewer host viewer).
Proof. frame_deep. Qed.
Lemma safe_streamRemoveViewer host viewer : respects safe (streamRemoveViewer host viewer).
Proof. frame_deep. Qed.
Lemma safe_streamList : respects safe streamList. Proof. frame_deep. Qed.
Lemma safe_streamAreParticipants a b : respects safe (streamAreParticipants a b).
Proof. frame_deep. Qed.
Lemma safe_streamBroadcastList : respects safe streamBroadcastList. Proof. frame_deep. Qed.
Lemma safe_streamEvictUser username : respects safe (streamEvictUser username).
Proof. frame_deep. Qed.
Lemma safe_sweepRemoteCodes : respects safe sweepRemoteCodes. Proof. frame_deep. Qed.
Lemma safe_joinAndTell username msg : respects safe (joinAndTell username msg).
Proof. frame_deep. Qed.
Lemma safe_allowRemoteLookup client : respects safe (allowRemoteLookup client).
Proof. frame_deep. Qed.

#[export] Hint Resolve safe_voiceRoomJoin safe_voiceRoomLeave safe_voiceRoomHas
  safe_voiceRoomPeers safe_voiceRoomBroadcastPeers safe_voiceRoomEvictUser safe_streamStart
  safe_streamStop safe_streamHas safe_streamAddViewer safe_streamRemoveViewer safe_streamList
  safe_streamAreParticipants safe_streamBroadcastList safe_streamEvictUser safe_sweepRemoteCodes
  safe_joinAndTell safe_allowRemoteLookup : frame.

Section SafeCases.
Context (client : nat) (username : string) (msg : NexusMessage).
Lemma safe_case_voice_join : respects safe (case_voice_join client username msg).
Proof. frame_deep. Qed.
Lemma safe_case_voice_leave : respects safe (case_voice_leave username msg).
Proof. frame_deep. Qed.
Lemma safe_case_voice_signal : respects safe (case_voice_signal username msg).
Proof. frame_deep. Qed.
Lemma safe_case_stream_start : respects safe (case_stream_start username msg).
Proof. frame_deep. Qed.
Lemma safe_case_stream_stop : respects safe (case_stream_stop username). Proof. frame_deep. Qed.
Lemma safe_case_stream_list : respects safe (case_stream_list client). Proof. frame_deep. Qed.
Lemma safe_case_stream_join : respects safe (case_stream_join client username msg).
Proof. frame_deep. Qed.
Lemma safe_case_stream_leave : respects safe (case_stream_leave username msg).
Proof. frame_deep. Qed.
Lemma safe_case_stream_signal : respects safe (case_stream_signal username msg).
Proof. frame_deep. Qed.
Lemma safe_case_remote_register : respects safe (case_remote_register client username msg).
Proof. frame_deep. Qed.
Lemma safe_case_remote_unregister : respects safe (case_remote_unregister username).
Proof. frame_deep. Qed.
Lemma safe_case_remote_lookup : respects safe (case_remote_lookup client username msg).
Proof. frame_deep. Qed.
Lemma safe_case_remote_relay : respects safe (case_remote_relay client username msg).
Proof. frame_deep. Qed.
End SafeCases.

#[export] Hint Resolve safe_case_voice_join safe_case_voice_leave safe_case_voice_signal
  safe_case_stream_start safe_case_stream_stop safe_case_stream_list safe_case_stream_join
  safe_case_stream_leave safe_case_stream_signal safe_case_remote_register
  safe_case_remote_unregister safe_case_remote_lookup safe_case_remote_relay : frame.
