(* ===== verification/Stories.v ===== *)
(** * Stories ([stories.go])

    Posts that disappear a day after they were made.  [expires_at] is kept as
    RFC 3339 text and compared by SQLite with [CURRENT_TIMESTAMP], whose text
    has a space where RFC 3339 has a T: [storyLive] is that comparison. *)

From Stdlib Require Import ZArith Lia Ascii.
From stdpp Require Import base strings list gmap.
From S2P Require Import Prelude GoRt GoStd Json Store Wire Db World Wf Registry Http Sessions Social Spaces.

Open Scope string_scope.
Open Scope list_scope.
Open Scope Z_scope.

Definition storyTTL : Z := 24 * Hour.

(** The caller's account, or the answer already written. *)
Definition requireAuthHTTP (r : Request) : M (Response + string) :=
  let* u := sessionUsername (tokenFromRequest r) in
  ret (if is_empty u then inl (http_Error "auth required" StatusUnauthorized) else inr u).

(** [type Story], as it is encoded: [caption] and [views] are omitted when empty. *)
Definition storyJSON (id : Z) (author url kind caption created expires : string) (views : Z) : jval :=
  JObj ([("id", JNum id); ("author", JStr author); ("media_url", JStr url); ("media_kind", JStr kind)]
        ++ (if is_empty caption then [] else [("caption", JStr caption)])
        ++ [("created_at", JStr created); ("expires_at", JStr expires)]
        ++ (if views =? 0 then [] else [("views", JNum views)])).

Definition storyRow (views : Z) (s : Story) : jval :=
  storyJSON (sto_id s) (sto_author s) (sto_media_url s) (sto_media_kind s) (sto_caption s)
    (FormatSQL (sto_created_at s)) (RFC3339 (sto_expires_at s)) views.

(** [expires_at > CURRENT_TIMESTAMP], on text. *)
Definition storyLive (now : Z) (s : Story) : bool :=
  String.ltb (FormatSQL now) (RFC3339 (sto_expires_at s)).

(** The decoded body of a new story. *)
Record StoryBody := mkStoryBody { sbURL : string; sbKind : string; sbCaption : string }.

Definition insertStory (author : string) (b : StoryBody) (now : Z) (d : Database) : Database :=
  set_stories (tinsert (fun id => mkStory id author (sbURL b) (sbKind b) (clip 280 (sbCaption b))
                                    (sqlNow now) (now + storyTTL)) (stories d)) d.

Definition storiesCreateHandler (r : Request) (body : option StoryBody) : M Response :=
  let* auth := requireAuthHTTP r in
  match auth with
  | inl rs => ret rs
  | inr user =>
      if negb (rqMethod r ==? "POST") then ret (http_Error "POST required" StatusMethodNotAllowed)
      else
        match body with
        | None => ret (http_Error "bad json" StatusBadRequest)
        | Some b =>
            if is_empty (sbURL b) then ret (http_Error "media_url required" StatusBadRequest)
            else if negb (sbKind b ==? "image") && negb (sbKind b ==? "video") then
              ret (http_Error "media_kind must be image or video" StatusBadRequest)
            else
              let* now := getNow in
              let* res := Exec (fun d => inr (insertStory user b now d, tnext (stories d))) in
              match res with
              | inl _ => ret (http_Error "db error" StatusInternalServerError)
              | inr id =>
                  ret (mkResponse StatusOK []
                         (BJson (storyJSON id user (sbURL b) (sbKind b) (clip 280 (sbCaption b)) ""
                                   (RFC3339 (now + storyTTL)) 0)) [])
              end
        end
  end.

(** [... WHERE expires_at > CURRENT_TIMESTAMP ORDER BY author, id DESC LIMIT 500] *)
Definition feedIn (now : Z) (d : Database) : list Story :=
  take 500 (order_str sto_author (order_by_desc sto_id (tselect (storyLive now) (stories d)))).

Definition storiesFeedHandler (r : Request) : M Response :=
  let* auth := requireAuthHTTP r in
  match auth with
  | inl rs => ret rs
  | inr _ =>
      let* now := getNow in
      let* rows := Query (feedIn now) in
      match rows with
      | None => ret (http_Error "db error" StatusInternalServerError)
      | Some l => ret (respArr (storyRow 0 <$> l))
      end
  end.

Definition insertView (id : Z) (viewer : string) (d : Database) : Database :=
  set_story_views (tinsert_ignore (fun v => (stv_story_id v =? id) && (stv_viewer v ==? viewer))
                     (fun _ => mkStoryView id viewer) (story_views d)) d.

Definition dropStory (id : Z) (d : Database) : Database :=
  set_stories (tdelete (fun s => sto_id s =? id) (stories d)) d.

Definition dropViews (id : Z) (d : Database) : Database :=
  set_story_views (tdelete (fun v => stv_story_id v =? id) (story_views d)) d.

Definition authorOf (id : Z) (d : Database) : option string :=
  sto_author <$> tfirst (fun s => sto_id s =? id) (stories d).

Definition respOK : Response := respJSON StatusOK [("ok", JBool true)].

Definition replyText (body : string) : string :=
  of_bytes [226; 134; 169] +:+ " reply to your story: " +:+ TrimSpace body.

(** [/api/v1/stories/{id}/reply] *)
Definition storyReply (user : string) (id : option Z) (body : option string) : M Response :=
  match id with
  | None => ret (http_Error "bad id" StatusBadRequest)
  | Some id =>
      match body with
      | None => ret (http_Error "bad json" StatusBadRequest)
      | Some b =>
          if is_empty (TrimSpace b) then ret (http_Error "empty reply" StatusBadRequest)
          else
            let* author := QueryRow (authorOf id) in
            match author with
            | None => ret http_NotFound
            | Some author =>
                let* b1 := isBlocked author user in
                let* b2 := if b1 then ret true else isBlocked user author in
                if b2 then ret (http_Error "cannot reply to this story" StatusForbidden)
                else
                  let* delivered := sendTo author (nm "msg" |> set_mSender user
                                      |> set_mRecipient author |> set_mBody (replyText b)) in
                  ret (respJSON StatusOK [("ok", JBool true); ("delivered", JBool delivered)])
            end
      end
  end.

(** [DELETE /api/v1/stories/{id}] *)
Definition storyDelete (user : string) (id : option Z) : M Response :=
  match id with
  | None => ret (http_Error "bad id" StatusBadRequest)
  | Some id =>
      let* author := QueryRow (authorOf id) in
      match author with
      | None => ret http_NotFound
      | Some author =>
          let* allowed := if negb (author ==? user) then roleAtLeast user "moderator" else ret true in
          if negb allowed then ret (http_Error "forbidden" StatusForbidden)
          else Exec_ (dropStory id) ;;; Exec_ (dropViews id) ;;; ret respOK
      end
  end.

Definition viewsOf (id : Z) (d : Database) : Z := tcount (fun v => stv_story_id v =? id) (story_views d).

(** One author's live stories with their view counts, oldest first. *)
Definition authorStories (author : string) (now : Z) (d : Database) : list (Story * Z) :=
  (fun s => (s, viewsOf (sto_id s) d)) <$>
    order_by sto_id (tselect (fun s => (sto_author s ==? author) && storyLive now s) (stories d)).

(** [GET /api/v1/stories/{author}] *)
Definition storyList (author : string) : M Response :=
  if negb (validUsername author) then ret (http_Error "bad author" StatusBadRequest)
  else
    let* now := getNow in
    let* rows := Query (authorStories author now) in
    match rows with
    | None => ret (http_Error "db error" StatusInternalServerError)
    | Some l => ret (respArr ((fun sv => storyRow sv.2 sv.1) <$> l))
    end.

Definition storyPath : string := "/api/v1/stories/".

Definition storiesItemHandler (r : Request) (body : option string) : M Response :=
  let* auth := requireAuthHTTP r in
  match auth with
  | inl rs => ret rs
  | inr user =>
      let parts := Split (TrimPrefix (rqPath r) storyPath) "/"%char in
      let first := default "" (parts !! 0%nat) in
      if is_empty first then ret (http_Error "missing id" StatusBadRequest)
      else if bool_decide (parts !! 1%nat = Some "view") && (rqMethod r ==? "POST") then
        match ParseInt first with
        | None => ret (http_Error "bad id" StatusBadRequest)
        | Some id => Exec_ (insertView id user) ;;; ret respOK
        end
      else if bool_decide (parts !! 1%nat = Some "reply") && (rqMethod r ==? "POST") then
        storyReply user (ParseInt first) body
      else if (rqMethod r ==? "DELETE") && bool_decide (length parts = 1%nat) then
        storyDelete user (ParseInt first)
      else if (rqMethod r ==? "GET") && bool_decide (length parts = 1%nat) then storyList first
      else ret (http_Error "unsupported" StatusMethodNotAllowed)
  end.

(** One tick of [storiesExpireSweeper]. *)
Definition storiesExpireSweeper : M unit :=
  let* now := getNow in
  let* n := ExecN (fun d => tcount (fun s => negb (storyLive now s)) (stories d))
              (fun d => set_stories (tdelete (fun s => negb (storyLive now s)) (stories d)) d) in
  match n with
  | None => ret tt
  | Some n =>
      when (0 <? n)
        (Exec_ (fun d => set_story_views
           (tdelete (fun v => negb (texists (fun s => sto_id s =? stv_story_id v) (stories d)))
              (story_views d)) d))
  end.

(** The handler registered at [/api/v1/stories] ([initStoriesRoutes]). *)
Definition storiesHandler (r : Request) (body : option StoryBody) : M Response :=
  if rqMethod r ==? "POST" then storiesCreateHandler r body else storiesFeedHandler r.

(** ** Frames *)

Section StoryFrames.
Context (R : World -> World -> Prop) `{HR : !PreOrder R, HQ : !FreesSql R}.
Lemma respects_requireAuthHTTP r : respects R (requireAuthHTTP r).
Proof using HR HQ. unfold requireAuthHTTP. frame. Qed.
End StoryFrames.
#[export] Hint Resolve respects_requireAuthHTTP : frame.

Lemma safe_storiesCreateHandler r b : respects safe (storiesCreateHandler r b).
Proof. unfold storiesCreateHandler, insertStory. frame. Qed.
Lemma safe_storiesFeedHandler r : respects safe (storiesFeedHandler r).
Proof. frame_deep. Qed.
Lemma safe_storyReply u i b : respects safe (storyReply u i b).
Proof. frame_deep. Qed.
Lemma safe_storyDelete u i : respects safe (storyDelete u i).
Proof. unfold storyDelete, dropStory, dropViews. frame_deep. Qed.
Lemma safe_storyList a : respects safe (storyList a).
Proof. frame_deep. Qed.
#[export] Hint Resolve safe_storiesCreateHandler safe_storiesFeedHandler safe_storyReply
  safe_storyDelete safe_storyList : frame.

Lemma safe_storiesItemHandler r b : respects safe (storiesItemHandler r b).
Proof. unfold storiesItemHandler, insertView. frame. Qed.
Lemma safe_storiesExpireSweeper : respects safe storiesExpireSweeper.
Proof. frame_deep. Qed.
Lemma safe_storiesHandler r b : respects safe (storiesHandler r b).
Proof. frame_deep. Qed.
#[export] Hint Resolve safe_storiesItemHandler safe_storiesExpireSweeper safe_storiesHandler : frame.
