(* ===== verification/CfTurn.v ===== *)
(** * TURN credentials from Cloudflare ([cfturn.go])

    One set of relay credentials is shared by everyone: [Config] hands out the
    cached set while it is valid and asks for a new one when it is old or gone.
    What the API answers at an instant is [cfAnswer]; the background goroutine
    is the separate operation [backgroundRefresh], which runs whenever the
    scheduler lets it. *)

From Stdlib Require Import ZArith Lia Ascii.
From stdpp Require Import base strings list gmap.
From S2P Require Import Prelude GoRt Store Wire Db World Wf Samples.

Open Scope string_scope.
Open Scope list_scope.
Open Scope Z_scope.

Definition cfTURNTTL : Z := 48 * Hour.
Definition cfTURNRefreshBefore : Z := 24 * Hour.
Definition cfTURNRetryAfter : Z := Minute.

(** Whether [newCFTURNFromEnv] returns a client. *)
Definition newCFTURNFromEnv (e : Env) : bool :=
  negb (is_empty (TrimSpace (getenv e "PHAZE_CF_TURN_KEY_ID")))
  && negb (is_empty (TrimSpace (getenv e "PHAZE_CF_TURN_API_TOKEN"))).

(** ** Reading the answer *)

Definition usesPort53 (iceURL : string) : bool :=
  let i := IndexByte iceURL ":"%char in
  let hostPort := if 0 <=? i then drop_bytes (Z.to_nat (i + 1)) iceURL else iceURL in
  let j := IndexByte hostPort "?"%char in
  let hostPort := if 0 <=? j then take_bytes (Z.to_nat j) hostPort else hostPort in
  HasSuffix hostPort ":53".

Definition isTurnURL (u : string) : bool := HasPrefix u "turn:" || HasPrefix u "turns:".
Definition isStunURL (u : string) : bool := HasPrefix u "stun:".

(** The local variables of the loop: [turn], [stun], [user], [cred]. *)
Record iceAcc := mkAcc { aTurn : list string; aStun : list string; aUser : string; aCred : string }.

Definition iceURLStep (s : cfICEServer) (a : iceAcc) (u : string) : iceAcc :=
  if usesPort53 u then a
  else if isTurnURL u then
    if is_empty (iceUsername s) then mkAcc (aTurn a ++ [u]) (aStun a) (aUser a) (aCred a)
    else mkAcc (aTurn a ++ [u]) (aStun a) (iceUsername s) (iceCredential s)
  else if isStunURL u then mkAcc (aTurn a) (aStun a ++ [u]) (aUser a) (aCred a)
  else a.

Definition iceLoop (servers : list cfICEServer) : iceAcc :=
  fold_left (fun a s => fold_left (iceURLStep s) (iceURLs s) a) servers (mkAcc [] [] "" "").

(** [None] is the error. *)
Definition turnConfigFromICE (servers : list cfICEServer) : option TurnConfig :=
  let a := iceLoop servers in
  if is_empty (aUser a) || is_empty (aCred a) then None
  else match aTurn a with
       | [] => None
       | t :: ts => Some (mkTurn t (ts ++ aStun a) (aUser a) (aCred a))
       end.

Definition fetch (e : Env) (now : Z) : option TurnConfig :=
  match cfAnswer e now with
  | HTTPFailed => None
  | HTTPStatus code body =>
      if negb (code =? 201) && negb (code =? 200) then None
      else match body with None => None | Some servers => turnConfigFromICE servers end
  end.

(** ** The cache *)

Definition modTURN (f : cfTURN -> cfTURN) : M unit :=
  modSrv (fun s => set_cloudflareTURN (f (cloudflareTURN s)) s).

Definition refresh : M (option TurnConfig) :=
  let* e := getEnv in
  let* now := getNow in
  match fetch e now with
  | None =>
      modTURN (fun c => mkCfTURN (cfCached c) (cfExpires c) now false) ;;;
      let* s := getSrv in
      let c := cloudflareTURN s in
      ret (if now <? cfExpires c then cfCached c else None)
  | Some cfg =>
      modTURN (fun c => mkCfTURN (Some cfg) (now + cfTURNTTL) (cfLastFail c) false) ;;;
      ret (Some cfg)
  end.

Definition Config : M (option TurnConfig) :=
  let* now := getNow in
  let* s := getSrv in
  let c := cloudflareTURN s in
  let slow := if now - cfLastFail c <? cfTURNRetryAfter then ret None else refresh in
  match cfCached c with
  | Some cfg =>
      if now <? cfExpires c then
        when ((cfExpires c - now <? cfTURNRefreshBefore) && negb (cfRefreshing c)
              && (cfTURNRetryAfter <? now - cfLastFail c))
          (modTURN (fun c => mkCfTURN (cfCached c) (cfExpires c) (cfLastFail c) true)) ;;;
        ret (Some cfg)
      else slow
  | None => slow
  end.

(** The goroutine [Config] starts. *)
Definition backgroundRefresh : M unit :=
  let* s := getSrv in
  when (cfRefreshing (cloudflareTURN s)) (refresh ;;; ret tt).

Lemma safe_refresh : respects safe refresh. Proof. frame_deep. Qed.
#[export] Hint Resolve safe_refresh : frame.
Lemma safe_Config : respects safe Config. Proof. frame_deep. Qed.
Lemma safe_backgroundRefresh : respects safe backgroundRefresh. Proof. frame_deep. Qed.
#[export] Hint Resolve safe_Config safe_backgroundRefresh : frame.

Section CfFrames.
Context (R : World -> World -> Prop) `{HR : !PreOrder R, HS : !FreesSrv R}.

Lemma respects_refresh : respects R refresh.
Proof using HR HS. unfold refresh, modTURN. frame. Qed.
Lemma respects_Config : respects R Config.
Proof using HR HS. unfold Config, modTURN. frame; apply respects_refresh. Qed.
End CfFrames.
#[export] Hint Resolve respects_refresh respects_Config : frame.

(** ** What a set looks like *)

(** Every URL comes from the answer, none is on port 53; the relays come
    first and the first of all is a relay. *)
Definition shaped (servers : list cfICEServer) (a : iceAcc) : Prop :=
  Forall (fun u => isTurnURL u = true /\ usesPort53 u = false
                   /\ exists s, s ∈ servers /\ u ∈ iceURLs s) (aTurn a)
  /\ Forall (fun u => isStunURL u = true /\ usesPort53 u = false
                   /\ exists s, s ∈ servers /\ u ∈ iceURLs s) (aStun a)
  /\ (aUser a = "" \/ exists s, s ∈ servers /\ iceUsername s = aUser a /\ iceCredential s = aCred a).

Lemma shaped_step servers s u a :
  s ∈ servers -> u ∈ iceURLs s -> shaped servers a -> shaped servers (iceURLStep s a u).
Proof.
  intros Hs Hu (H1 & H2 & H3). unfold iceURLStep. destruct (usesPort53 u) eqn:E5; [done|].
  destruct (isTurnURL u) eqn:Et; unfold shaped.
  - assert (Hn : Forall (fun u => isTurnURL u = true /\ usesPort53 u = false
                   /\ exists s, s ∈ servers /\ u ∈ iceURLs s) (aTurn a ++ [u])).
    { apply Forall_app. split; [done|]. constructor; [eauto | constructor]. }
    destruct (is_empty (iceUsername s)); split_and!; simpl; try done. right. eauto.
  - destruct (isStunURL u) eqn:Es; [|done]. split_and!; simpl; try done.
    apply Forall_app. split; [done|]. constructor; [eauto | constructor].
Qed.

Lemma shaped_urls servers s us a :
  s ∈ servers -> (forall u, u ∈ us -> u ∈ iceURLs s) -> shaped servers a ->
  shaped servers (fold_left (iceURLStep s) us a).
Proof.
  intros Hs. revert a. induction us as [|u us IH]; intros a Hus Ha; [done|]. simpl.
  apply IH; [intros v Hv; apply Hus; by right|]. apply shaped_step; [done | apply Hus; left | done].
Qed.

Lemma shaped_fold servers l a :
  (forall s, s ∈ l -> s ∈ servers) -> shaped servers a ->
  shaped servers (fold_left (fun a s => fold_left (iceURLStep s) (iceURLs s) a) l a).
Proof.
  revert a. induction l as [|s l IH]; intros a Hsub Ha; [done|]. simpl.
  apply IH; [intros x Hx; apply Hsub; by right|].
  apply shaped_urls; [apply Hsub; left | done | done].
Qed.

Lemma shaped_loop servers : shaped servers (iceLoop servers).
Proof.
  apply shaped_fold; [done|]. unfold shaped. split_and!; simpl; [constructor | constructor | by left].
Qed.

(** A set that is handed out has a relay first, credentials, and no URL on
    the port that browsers block. *)
Definition usable (servers : list cfICEServer) (cfg : TurnConfig) : Prop :=
  isTurnURL (tURL cfg) = true
  /\ Forall (fun u => usesPort53 u = false /\ (isTurnURL u || isStunURL u) = true
                      /\ exists s, s ∈ servers /\ u ∈ iceURLs s) (tURL cfg :: tURLs cfg)
  /\ tUsername cfg <> "" /\ tPassword cfg <> ""
  /\ exists s, s ∈ servers /\ iceUsername s = tUsername cfg /\ iceCredential s = tPassword cfg.

Lemma turnConfigFromICE_usable servers cfg : turnConfigFromICE servers = Some cfg -> usable servers cfg.
Proof.
  unfold turnConfigFromICE. destruct (shaped_loop servers) as (H1 & H2 & H3).
  destruct (is_empty _ || is_empty _) eqn:Ee; [done|]. unfold is_empty in Ee. bools.
  destruct (aTurn (iceLoop servers)) as [|t ts] eqn:Et; [done|]. intros [= <-].
  rewrite Forall_cons in H1. destruct H1 as [(Ht & Hp & Hi) H1].
  unfold usable. cbn [tURL tURLs tUsername tPassword].
  destruct H3 as [|Hex]; [done|]. split_and!; try done.
  constructor; [by rewrite Ht|]. apply Forall_app. split.
  - eapply Forall_impl; [exact H1|]. intros u (-> & -> & ?). done.
  - eapply Forall_impl; [exact H2|]. intros u (-> & -> & ?). by rewrite orb_true_r.
Qed.

(** ** Freshness

    [turn_ok]: the cached set, if any, was fetched at some instant [t] in the
    past and expires two days after it. *)
Definition turn_ok (w : World) : Prop :=
  forall cfg, cfCached (cloudflareTURN (wSrv w)) = Some cfg ->
  exists t, t <= wNow w /\ cfExpires (cloudflareTURN (wSrv w)) = t + cfTURNTTL
            /\ fetch (wEnv w) t = Some cfg.

(** The worlds a running server goes through, as far as the cache is
    concerned: it starts empty, time passes, [Config] and the goroutine run,
    and everything else leaves the cache and the environment alone. *)
Inductive turn_run : World -> Prop :=
| tr_start w : cloudflareTURN (wSrv w) = cfTURN0 -> turn_run w
| tr_config w : turn_run w -> turn_run (Config w).2
| tr_background w : turn_run w -> turn_run (backgroundRefresh w).2
| tr_else w w' : turn_run w -> wNow w <= wNow w' -> wEnv w' = wEnv w ->
    cloudflareTURN (wSrv w') = cloudflareTURN (wSrv w) -> turn_run w'.

Lemma refresh_ok w : turn_ok w -> turn_ok (refresh w).2.
Proof.
  intros H. unfold refresh. sqlrun. destruct (fetch (wEnv w) (wNow w)) as [cfg|] eqn:E; sqlrun.
  - intros cfg' [= <-]. exists (wNow w). split_and!; [reflexivity | reflexivity | exact E].
  - exact H.
Qed.

Lemma Config_ok w : turn_ok w -> turn_ok (Config w).2.
Proof.
  intros H. unfold Config. sqlrun. set (c := cloudflareTURN (wSrv w)) in *.
  assert (Hslow : turn_ok ((if wNow w - cfLastFail c <? cfTURNRetryAfter then ret None else refresh) w).2)
    by (destruct (_ <? _); [done | by apply refresh_ok]).
  destruct (cfCached c) as [cfg|] eqn:E; [|done]. destruct (_ <? cfExpires c); [|done].
  unfold when. destruct (_ && _ && _); sqlrun; exact H.
Qed.

Lemma turn_run_ok w : turn_run w -> turn_ok w.
Proof.
  induction 1 as [w E|w _ IH|w _ IH|w w' _ IH Hle He Hc].
  - unfold turn_ok. rewrite E. done.
  - by apply Config_ok.
  - unfold backgroundRefresh. sqlrun. unfold when. destruct (cfRefreshing _); [|done].
    sqlrun. by apply refresh_ok.
  - intros cfg. rewrite Hc, He. intros Hcfg. destruct (IH cfg Hcfg) as (t & H1 & H2 & H3).
    exists t. split_and!; [lia | done | done].
Qed.

Lemma refresh_result w cfg :
  turn_ok w -> (refresh w).1 = Some cfg ->
  exists t, t <= wNow w < t + cfTURNTTL /\ fetch (wEnv w) t = Some cfg.
Proof.
  intros H. unfold refresh. sqlrun. destruct (fetch (wEnv w) (wNow w)) as [cfg'|] eqn:E; sqlrun.
  - intros [= <-]. exists (wNow w). split; [unfold cfTURNTTL, Hour, Minute, Second; lia | done].
  - simpl. destruct (wNow w <? _) eqn:El; [|done]. intros Hc. bools.
    destruct (H cfg Hc) as (t & H1 & H2 & H3). exists t. split; [lia | done].
Qed.

(** What [Config] hands out is always in force.  Whatever happened before
    - successful and failed fetches, concurrent refreshes, any delay - the set
    it returns was answered by Cloudflare at an instant less than two days
    ago, and it is usable: relays first, with credentials, no blocked port. *)
Theorem Config_fresh w cfg :
  turn_run w -> (Config w).1 = Some cfg ->
  exists t servers, t <= wNow w < t + cfTURNTTL
    /\ (cfAnswer (wEnv w) t = HTTPStatus 200 (Some servers)
        \/ cfAnswer (wEnv w) t = HTTPStatus 201 (Some servers))
    /\ usable servers cfg.
Proof.
  intros Hr%turn_run_ok HC.
  assert (exists t, t <= wNow w < t + cfTURNTTL /\ fetch (wEnv w) t = Some cfg) as (t & Ht & Hf).
  { revert HC. unfold Config. sqlrun. set (c := cloudflareTURN (wSrv w)) in *.
    assert (Hslow : ((if wNow w - cfLastFail c <? cfTURNRetryAfter then ret None else refresh) w).1 = Some cfg ->
             exists t, t <= wNow w < t + cfTURNTTL /\ fetch (wEnv w) t = Some cfg)
      by (destruct (_ <? _); [done | by apply refresh_result]).
    destruct (cfCached c) as [cfg'|] eqn:E; [|done]. destruct (_ <? cfExpires c) eqn:El; [|done].
    rewrite bind_run. intros [= <-]. bools. destruct (Hr cfg' E) as (t & H1 & H2 & H3).
    fold c in H2. exists t. split; [lia | done]. }
  exists t. revert Hf. unfold fetch. destruct (cfAnswer (wEnv w) t) as [|code [servers|]]; try done.
  - destruct (code =? 201) eqn:E1; [|destruct (code =? 200) eqn:E2; [|done]]; bools; subst code;
      simpl; intros H; exists servers; (split_and!; [lia | lia | eauto | by apply turnConfigFromICE_usable]).
  - by destruct (negb _ && negb _).
Qed.

(** An answer with a blocked URL: the credentials handed out have it removed. *)
Definition sampleICE : list cfICEServer :=
  [mkICE ["stun:stun.cloudflare.com:3478"; "stun:stun.cloudflare.com:53"] "" "";
   mkICE ["turn:turn.cloudflare.com:53?transport=udp"; "turn:turn.cloudflare.com:3478?transport=udp"]
     "u1" "p1"].

Definition sampleTURN : TurnConfig :=
  mkTurn "turn:turn.cloudflare.com:3478?transport=udp" ["stun:stun.cloudflare.com:3478"] "u1" "p1".

Definition cfW : World :=
  set_wEnv (set_cfAnswer (fun _ => HTTPStatus 201 (Some sampleICE)) env0) sampleW.

Lemma Config_fresh_witness : (Config cfW).1 = Some sampleTURN /\ exists s, usable s sampleTURN.
Proof.
  split; [vm_compute; reflexivity|].
  destruct (Config_fresh cfW sampleTURN) as (t & s & _ & _ & H).
  - apply tr_start. reflexivity.
  - vm_compute. reflexivity.
  - by exists s.
Defined.

(** After a failed request Cloudflare is left alone for a minute: with no
    valid set, the answer does not depend on what the API would say. *)
Theorem Config_backs_off w e' :
  wNow w - cfLastFail (cloudflareTURN (wSrv w)) < cfTURNRetryAfter ->
  (Config (set_wEnv e' w)).1 = (Config w).1
  /\ wSrv (Config (set_wEnv e' w)).2 = wSrv (Config w).2.
Proof.
  intros H. unfold Config. sqlrun. cbn [wNow wSrv set_wEnv].
  rewrite (proj2 (Z.ltb_lt (wNow w - cfLastFail (cloudflareTURN (wSrv w))) cfTURNRetryAfter) H).
  destruct (cfCached _); [|done]. destruct (_ <? _); [|done].
  rewrite !bind_run. unfold when. destruct (_ && _ && _); done.
Qed.
