(* ===== verification/Accounts.v ===== *)
(** * Accounts ([main.go], [totp.go], [ipcheck.go])

    Registration, email verification, passwords and their resets, two-factor
    codes, QR sign-in, bans, IP blocks, account erasure, and the media
    credentials a signed-in client receives. *)

From Stdlib Require Import ZArith Lia Ascii.
From stdpp Require Import base strings list gmap.
From S2P Require Import Prelude GoRt AuthTracker Netutil Store Wire Db World Wf Registry Http Email.
From S2P Require Import Sessions Social CfTurn IpCheck.

Open Scope string_scope.
Open Scope list_scope.
Open Scope Z_scope.

(** [UPDATE users SET ... WHERE username = ?] *)
Definition onUser (username : string) (f : User -> User) (d : Database) : Database :=
  set_users (tupdate (fun u => u_username u ==? username) f (users d)) d.

Definition userIn (username : string) (d : Database) : option User :=
  tfirst (fun u => u_username u ==? username) (users d).

(** ** IP blocks ([main.go] 326-384) *)

Definition isIPBlocked (ip : string) : M bool :=
  gets (fun w => bool_decide (ip ∈ blockedIPs (wSrv w))).

Definition blockIP (ip : string) : M unit :=
  modSrv (fun s => set_blockedIPs ({[ ip ]} ∪ blockedIPs s) s) ;;;
  Exec_ (fun d => set_blocked_ips
           (tinsert_ignore (fun r => bi_ip r ==? ip) (fun _ => mkBlockedIP ip) (blocked_ips d)) d).

Definition unblockIP (ip : string) : M unit :=
  modSrv (fun s => set_blockedIPs (blockedIPs s ∖ {[ ip ]}) s) ;;;
  Exec_ (fun d => set_blocked_ips (tdelete (fun r => bi_ip r ==? ip) (blocked_ips d)) d).

Definition loadBlockedIPs : M unit :=
  let* r := Query (fun d => bi_ip <$> rows (blocked_ips d)) in
  match r with
  | None => ret tt
  | Some ips => modSrv (fun s => set_blockedIPs (blockedIPs s ∪ list_to_set ips) s)
  end.

(** ** Roles at start-up ([initDB] of [main.go]) *)

(** [PHAZE_ADMIN_USERS] is a comma-separated list of names. *)
Definition promoteAdmins : M unit :=
  let* e := getEnv in
  let raw := TrimSpace (getenv e "PHAZE_ADMIN_USERS") in
  when (negb (is_empty raw))
    (forM (Split raw ","%char) (fun u =>
       let u := TrimSpace u in
       when (negb (is_empty u))
         (Exec_ (onUser u (fun x => set_u_is_admin 1 (set_u_role "super_admin" x)))))).

Definition backfillRoles : M unit :=
  Exec_ (fun d => set_users
           (tupdate (fun u => (u_is_admin u =? 1) && (is_empty (u_role u) || (u_role u ==? "user")))
              (set_u_role "admin") (users d)) d).

Definition initRoles : M unit := promoteAdmins ;;; backfillRoles.

(** ** Registration *)

Definition errShortPassword : string := "password must be at least 8 characters".
Definition errBadUsername : string := "invalid username (3-32 chars, a-z A-Z 0-9 . _ -)".
Definition errBadEmail : string := "invalid email address".
Definition errResetInvalid : string := "password reset token invalid or expired".
Definition errQRInvalid : string := "qr login token invalid or expired".

Definition validEmail (e : Env) (a : string) : bool :=
  if is_empty a then false else parseAddress e a.

(** [bcrypt.GenerateFromPassword(sha256(password), 12)] *)
Definition hashPassword (e : Env) (password : string) : option string :=
  bcryptGenerate e (sha256sum e password).

Definition insertUser (username email mood hash code : string) (now : Z) (d : Database)
  : sqlerr + (Database * Z) :=
  match tinsert_unique (fun u => u_username u ==? username)
          (fun _ => mkUser username email mood None hash 0 (Some code) None 0 (sqlNow now) "" 0 0
                      "user" 0 "" None "" "" None "" None "Online" 0 None "") (users d) with
  | None => inl (EUnique "users.username")
  | Some t => inr (set_users t d, 1)
  end.

(** The error text, or the verification code. *)
Definition registerUser (username email mood password : string) : M (string + string) :=
  let* e := getEnv in
  if negb (validUsername username) then ret (inl errBadUsername)
  else if is_empty email then ret (inl "email is required")
  else if negb (validEmail e email) then ret (inl errBadEmail)
  else if len password <? 8 then ret (inl errShortPassword)
  else
    match hashPassword e password with
    | None => ret (inl (libErr e "bcrypt"))
    | Some hash =>
        let* code := randDigits 6 in
        match code with
        | None => ret (inl (libErr e "crypto/rand"))
        | Some code =>
            let* now := getNow in
            let* r := Exec (insertUser username email mood hash code now) in
            ret (match r with inl err => inl (err_text err) | inr _ => inr code end)
        end
    end.

Definition verifiedUser (u : User) : User := set_u_verification_code None (set_u_is_verified 1 u).

(** A NULL code does not scan into a string: the query fails. *)
Definition verifyUser (username code : string) : M bool :=
  let* dbCode := QueryRow (fun d => u_verification_code <$> userIn username d) in
  match dbCode with
  | Some (Some c) =>
      if is_empty c || is_empty code || negb (c ==? code) then ret false
      else ExecOk (onUser username verifiedUser)
  | _ => ret false
  end.

(** ** Passwords *)

Definition authenticateUser (username password : string) : M bool :=
  let* row := QueryRow (userIn username) in
  let* e := getEnv in
  match row with
  | None => ret false
  | Some u =>
      if negb (u_is_verified u =? 1) then ret false
      else
        let pwHash := sha256sum e password in
        if bcryptCompare e (u_password_hash u) pwHash then ret true
        else if bcryptCompare e (u_password_hash u) password then
          (match bcryptGenerate e pwHash with
           | Some newHash => Exec_ (onUser username (set_u_password_hash newHash))
           | None => ret tt
           end) ;;;
          ret true
        else ret false
  end.

Definition userBanInfo (username : string) : M (bool * string) :=
  let* row := QueryRow (userIn username) in
  ret (match row with
       | None => (false, "")
       | Some u => (u_is_banned u =? 1, u_ban_reason u)
       end).

Definition userIsAdmin (username : string) : M bool :=
  let* row := QueryRow (userIn username) in
  ret (match row with None => false | Some u => u_is_admin u =? 1 end).

Definition insertReset (tok username : string) (expires : Z) (d : Database) : sqlerr + (Database * Z) :=
  match tinsert_unique (fun r => pr_token r ==? tok)
          (fun _ => mkPasswordReset tok username expires 0) (password_resets d) with
  | None => inl (EUnique "password_resets.token")
  | Some t => inr (set_password_resets t d, 1)
  end.

(** The token and the account, when the error is nil. *)
Definition createPasswordReset (email : string) : M (option (string * string)) :=
  let* row := QueryRow (fun d => tfirst (fun u => u_email u ==? email) (users d)) in
  match row with
  | None => ret None
  | Some u =>
      let* tok := randHex 24 in
      match tok with
      | None => ret None
      | Some tok =>
          let* now := getNow in
          let* r := Exec (insertReset tok (u_username u) (now + 1 * Hour)) in
          ret (if isInr r then Some (tok, u_username u) else None)
      end
  end.

Definition resetFor (token : string) (d : Database) : option PasswordReset :=
  tfirst (fun r => pr_token r ==? token) (password_resets d).

Definition revokeAllOf (username : string) (d : Database) : Database :=
  set_session_tokens (tupdate (fun r => st_username r ==? username) (set_st_revoked 1)
                        (session_tokens d)) d.

Definition useReset (token : string) (d : Database) : Database :=
  set_password_resets (tupdate (fun r => pr_token r ==? token) (set_pr_used 1) (password_resets d)) d.

(** The statements of the reset's transaction. *)
Definition resetTx (token username hash : string) : list (Database -> sqlerr + Database) :=
  [ (fun d => inr (onUser username (set_u_password_hash hash) d));
    (fun d => inr (useReset token d));
    (fun d => inr (revokeAllOf username d)) ].

(** [None] is a nil error. *)
Definition consumePasswordReset (token newPassword : string) : M Err :=
  if len newPassword <? 8 then ret (Some errShortPassword)
  else
    let* row := QueryRowE (resetFor token) in
    let* now := getNow in
    let* e := getEnv in
    match row with
    | RowErr => ret (Some (err_text EEngine))
    | NoRows => ret (Some "sql: no rows in result set")
    | Row r =>
        if negb (pr_used r =? 0) || (pr_expires_at r <? now) then ret (Some errResetInvalid)
        else
          match hashPassword e newPassword with
          | None => ret (Some (libErr e "bcrypt"))
          | Some hash =>
              let* err := Tx (resetTx token (pr_username r) hash) in ret (err_text <$> err)
          end
    end.

(** ** Erasure *)

(** The statements of [deleteAccount], in order. *)
Definition erasures (u : string) : list (Database -> Database) := [
  (fun d => set_friends (tdelete (fun r => (f_user_a r ==? u) || (f_user_b r ==? u)) (friends d)) d);
  (fun d => set_offline_messages
     (tdelete (fun r => (om_sender r ==? u) || (om_recipient r ==? u)) (offline_messages d)) d);
  (fun d => set_dm_messages
     (tdelete (fun r => (dr_sender r ==? u) || (dr_recipient r ==? u)) (dm_messages d)) d);
  (fun d => set_dm_reactions (tdelete (fun r => dx_username r ==? u) (dm_reactions d)) d);
  (fun d => set_conversation_members
     (tdelete (fun r => cvm_username r ==? u) (conversation_members d)) d);
  (fun d => set_conversations (tdelete (fun r => cv_created_by r ==? u) (conversations d)) d);
  (fun d => set_blocks (tdelete (fun r => (b_blocker r ==? u) || (b_blocked r ==? u)) (blocks d)) d);
  (fun d => set_abuse_reports (tdelete (fun r => ar_reporter r ==? u) (abuse_reports d)) d);
  (fun d => set_server_members (tdelete (fun r => sm_username r ==? u) (server_members d)) d);
  (fun d => set_channel_messages (tdelete (fun r => cms_sender r ==? u) (channel_messages d)) d);
  (fun d => set_channel_reactions (tdelete (fun r => cr_username r ==? u) (channel_reactions d)) d);
  (fun d => set_story_views (tdelete (fun r => stv_viewer r ==? u) (story_views d)) d);
  (fun d => set_stories (tdelete (fun r => sto_author r ==? u) (stories d)) d);
  (fun d => set_user_settings (tdelete (fun r => us_username r ==? u) (user_settings d)) d);
  (fun d => set_push_subscriptions (tdelete (fun r => ps_username r ==? u) (push_subscriptions d)) d);
  (fun d => set_key_backups (tdelete (fun r => kb_username r ==? u) (key_backups d)) d);
  (fun d => set_totp_backup_codes (tdelete (fun r => bc_username r ==? u) (totp_backup_codes d)) d);
  (fun d => set_session_tokens (tdelete (fun r => st_username r ==? u) (session_tokens d)) d);
  (fun d => set_password_resets (tdelete (fun r => pr_username r ==? u) (password_resets d)) d);
  (fun d => set_qr_login_tokens (tdelete (fun r => qr_username r ==? u) (qr_login_tokens d)) d);
  (fun d => set_users (tdelete (fun r => u_username r ==? u) (users d)) d) ].

Definition deleteAccount (username : string) : M (option sqlerr) :=
  Tx ((fun f d => inr (f d)) <$> erasures username).

(** ** QR sign-in *)

Definition insertQR (tok : string) (expires : Z) (d : Database) : sqlerr + (Database * Z) :=
  match tinsert_unique (fun r => qr_token r ==? tok)
          (fun _ => mkQRLogin tok "" "" "" expires 0) (qr_login_tokens d) with
  | None => inl (EUnique "qr_login_tokens.token")
  | Some t => inr (set_qr_login_tokens t d, 1)
  end.

Definition createQRLogin : M (string + string) :=
  let* e := getEnv in
  let* tok := randHex 16 in
  match tok with
  | None => ret (inl (libErr e "crypto/rand"))
  | Some tok =>
      let* now := getNow in
      let* r := Exec (insertQR tok (now + 5 * Minute)) in
      ret (match r with inl err => inl (err_text err) | inr _ => inr tok end)
  end.

Definition qrApprovable (e : Env) (token : string) (now : Z) (r : QRLogin) : bool :=
  (qr_token r ==? token) && (qr_approved r =? 0) && (sqlNow now <=? asUTC e (qr_expires_at r)).

Definition qrApproved (username sess device : string) (r : QRLogin) : QRLogin :=
  set_qr_approved 1 (set_qr_device_info device (set_qr_session_token sess (set_qr_username username r))).

(** [None] is a nil error. *)
Definition approveQRLogin (token username device : string) : M Err :=
  let* sess := issueSessionToken username device in
  match sess with
  | inl err => ret (Some err)
  | inr sess =>
      let* e := getEnv in
      let* now := getNow in
      let* n := ExecN (fun d => tcount (qrApprovable e token now) (qr_login_tokens d))
                  (fun d => set_qr_login_tokens (tupdate (qrApprovable e token now)
                              (qrApproved username sess device) (qr_login_tokens d)) d) in
      ret (match n with
           | None => Some (err_text EEngine)
           | Some n => if n =? 0 then Some errQRInvalid else None
           end)
  end.

(** username, session token, approved, exists *)
Definition checkQRLogin (token : string) : M (string * string * bool * bool) :=
  let* row := QueryRowE (fun d => tfirst (fun r => qr_token r ==? token) (qr_login_tokens d)) in
  let* now := getNow in
  ret (match row with
       | NoRows => ("", "", false, false)
       | RowErr => ("", "", false, true)
       | Row r => if qr_expires_at r <? now then ("", "", false, true)
                  else (qr_username r, qr_session_token r, qr_approved r =? 1, true)
       end).

(** ** Two-factor codes ([totp.go]) *)

Definition totpStatus (username : string) : M (string * bool) :=
  let* row := QueryRow (userIn username) in
  ret (match row with None => ("", false) | Some u => (u_totp_secret u, u_totp_enabled u =? 1) end).

Definition generateTOTPURI (username : string) : M (option (string * string)) :=
  let* e := getEnv in ret (totpGenerate e username).

Definition enableTOTP (username secret code : string) : M bool :=
  let* e := getEnv in
  let* now := getNow in
  if negb (totpValidate e code secret now) then ret false
  else ExecOk (onUser username (fun u => set_u_totp_enabled 1 (set_u_totp_secret secret u))).

Definition dropBackupCodes (username : string) (d : Database) : Database :=
  set_totp_backup_codes (tdelete (fun r => bc_username r ==? username) (totp_backup_codes d)) d.

Definition disableTOTP (username : string) : M unit :=
  Exec_ (onUser username (fun u => set_u_totp_enabled 0 (set_u_totp_secret "" u))) ;;;
  Exec_ (dropBackupCodes username).

Definition codeHash (e : Env) (plain : string) : string := EncodeToString (bytes (sha256sum e plain)).

Definition addBackupCode (username hash : string) (d : Database) : Database :=
  set_totp_backup_codes (tinsert (fun _ => mkBackupCode username hash 0) (totp_backup_codes d)) d.

(** The loop over the eight codes; a failed draw abandons it. *)
Fixpoint backupLoop (username : string) (k : nat) (codes : list string) : M (option (list string)) :=
  match k with
  | O => ret (Some codes)
  | S k' =>
      let* plain := randHex 5 in
      let* e := getEnv in
      match plain with
      | None => ret None
      | Some plain =>
          Exec_ (addBackupCode username (codeHash e plain)) ;;;
          backupLoop username k' (codes ++ [take_bytes 5 plain +:+ "-" +:+ drop_bytes 5 plain])
      end
  end.

Definition generateBackupCodes (username : string) : M (option (list string)) :=
  Exec_ (dropBackupCodes username) ;;; backupLoop username 8 [].

(** The runes of the code other than the dash, encoded again. *)
Definition stripDashes (code : string) : string :=
  of_bytes (concat (encode_rune <$> boolfilter (fun r => negb (r =? 45)) (runes code))).

Definition liveCode (username hash : string) (r : BackupCode) : bool :=
  (bc_username r ==? username) && (bc_code_hash r ==? hash) && (bc_used r =? 0).

Definition consumeBackupCode (username code : string) : M bool :=
  let* e := getEnv in
  let hash := codeHash e (stripDashes code) in
  let* n := ExecN (fun d => tcount (liveCode username hash) (totp_backup_codes d))
              (fun d => set_totp_backup_codes (tupdate (liveCode username hash) (set_bc_used 1)
                                                 (totp_backup_codes d)) d) in
  ret (match n with None => false | Some n => 0 <? n end).

(** [totpUsedCodes.LoadOrStore(key, expiry)]: whether the key was there. *)
Definition loadOrStoreCode (key : string) (expiry : Z) : M bool :=
  let* s := getSrv in
  match totpUsedCodes s !! key with
  | Some _ => ret true
  | None => modSrv (fun s => set_totpUsedCodes (<[key := expiry]> (totpUsedCodes s)) s) ;;; ret false
  end.

Definition verifyTOTP (username code : string) : M bool :=
  let* st := totpStatus username in
  let '(secret, enabled) := st in
  if negb enabled || is_empty secret then ret true
  else
    let* e := getEnv in
    let* now := getNow in
    if negb (totpValidate e code secret now) then ret false
    else
      let* loaded := loadOrStoreCode (username +:+ ":" +:+ code) (now + 60 * Second) in
      ret (negb loaded).

(** One tick of the sweeper started by [init]. *)
Definition sweepUsedCodes : M unit :=
  let* now := getNow in
  modSrv (fun s => set_totpUsedCodes (filter (fun kv => now <= kv.2) (totpUsedCodes s)) s).

(** ** Media credentials *)

Definition staticTurn (e : Env) : option TurnConfig :=
  match Split (getenv e "PHAZE_TURN_URL") ","%char with
  | [] => None
  | u :: us => Some (mkTurn (TrimSpace u) (TrimSpace <$> us) (getenv e "PHAZE_TURN_USERNAME")
                            (getenv e "PHAZE_TURN_PASSWORD"))
  end.

Definition generateMediaToken (username : string) : M (option TurnConfig) :=
  let* e := getEnv in
  let* now := getNow in
  let* cfg := if newCFTURNFromEnv e then Config else ret None in
  match cfg with
  | Some cfg => ret (Some cfg)
  | None =>
      let url := getenv e "PHAZE_TURN_URL" in
      if set_ e "PHAZE_TURN_URL" && set_ e "PHAZE_TURN_USERNAME" && set_ e "PHAZE_TURN_PASSWORD"
      then ret (staticTurn e)
      else if set_ e "PHAZE_TURN_SECRET" && set_ e "PHAZE_TURN_URL" then
        let expiresIn := if getenv e "PHAZE_TURN_SHORT_TERM" ==? "true" then 10 * Minute else 24 * Hour in
        let user := Itoa ((now + expiresIn) / Second) +:+ ":" +:+ username in
        ret (Some (mkTurn url [] user (hmacSha1Base64 e (getenv e "PHAZE_TURN_SECRET") user)))
      else ret None
  end.

Definition turnProvider : M string :=
  let* e := getEnv in
  let* cfg := if newCFTURNFromEnv e then Config else ret None in
  ret (match cfg with
       | Some _ => "cloudflare"
       | None =>
           if set_ e "PHAZE_TURN_URL" && set_ e "PHAZE_TURN_USERNAME" && set_ e "PHAZE_TURN_PASSWORD"
           then "static"
           else if set_ e "PHAZE_TURN_SECRET" && set_ e "PHAZE_TURN_URL" then "coturn" else ""
       end).

(** ** Telephony and profiles *)

(** Without credentials the message is only logged. *)
Definition sendSMS (to body : string) : M unit :=
  let* e := getEnv in
  when (set_ e "TWILIO_SID" && set_ e "TWILIO_TOKEN" && set_ e "TWILIO_FROM") (emit (EvSMS to body)).

Definition initiateTwilioCall (to : string) : M Err :=
  let* e := getEnv in
  ret (if set_ e "TWILIO_SID" && set_ e "TWILIO_TOKEN" && set_ e "TWILIO_FROM" && set_ e "Phaze_APP_URL"
       then twilioCall e to else None).

Definition broadcastProfileUpdate (username displayName mood : string) : M unit :=
  let* s := getSrv in
  let others := concat ((fun uc : string * list nat => if uc.1 ==? username then [] else uc.2)
                          <$> map_to_list (Clients s)) in
  forM others (fun c => Send_ c (nm "profile_update" |> set_mSender username
                                 |> set_mDisplayName displayName |> set_mMood mood)).

(** ** Sessions of an account *)

(** [listSessions]: token, device, creation time. *)
Definition sessionsOf (e : Env) (username : string) (now : Z) (d : Database) : list SessionToken :=
  order_by_desc st_created_at
    (tselect (fun r => (st_username r ==? username) && (st_revoked r =? 0)
                       && (sqlNow now <=? asUTC e (st_expires_at r)))
       (session_tokens d)).

Definition listSessions (username : string) : M (list (string * string * Z)) :=
  let* e := getEnv in
  let* now := getNow in
  let* r := Query (sessionsOf e username now) in
  ret ((fun r => (st_token r, st_device_info r, st_created_at r)) <$> default [] r).

(** ** Frames: every operation keeps the database invariant *)

Lemma wf_resetTx token u h :
  Forall (fun f => forall d d', db_wf d -> f d = inr d' -> db_wf d') (resetTx token u h).
Proof. unfold resetTx, onUser, useReset, revokeAllOf. forall_list wf_stmt. Qed.

Lemma safe_consumePasswordReset token p : respects safe (consumePasswordReset token p).
Proof. pose proof wf_resetTx. unfold consumePasswordReset. frame. by apply safe_Tx_stmts. Qed.

Lemma wf_erasures u : Forall (fun f => forall d, db_wf d -> db_wf (f d)) (erasures u).
Proof. unfold erasures. forall_list wf_step. Qed.

Lemma safe_deleteAccount u : respects safe (deleteAccount u).
Proof.
  apply safe_Tx_stmts. apply Forall_fmap. eapply Forall_impl; [apply wf_erasures|].
  intros f Hf d d' Hd [= <-]. by apply Hf.
Qed.

Lemma safe_backupLoop u k codes : respects safe (backupLoop u k codes).
Proof. revert codes. induction k as [|k IH]; intros codes; simpl; frame_deep; apply IH. Qed.

#[export] Hint Resolve safe_consumePasswordReset safe_deleteAccount safe_backupLoop : frame.

Lemma safe_isIPBlocked ip : respects safe (isIPBlocked ip). Proof. frame_deep. Qed.
Lemma safe_blockIP ip : respects safe (blockIP ip). Proof. frame_deep. Qed.
Lemma safe_unblockIP ip : respects safe (unblockIP ip). Proof. frame_deep. Qed.
Lemma safe_loadBlockedIPs : respects safe loadBlockedIPs. Proof. frame_deep. Qed.
Lemma safe_initRoles : respects safe initRoles. Proof. frame_deep. Qed.
Lemma safe_isVPNOrDatacenter ip : respects safe (isVPNOrDatacenter ip). Proof. frame_deep. Qed.
Lemma safe_registerUser username email mood password : respects safe (registerUser username email mood password).
Proof. frame_deep. Qed.
Lemma safe_verifyUser username code : respects safe (verifyUser username code).
Proof. frame_deep. Qed.
Lemma safe_authenticateUser username password : respects safe (authenticateUser username password).
Proof. frame_deep. Qed.
Lemma safe_userBanInfo username : respects safe (userBanInfo username). Proof. frame_deep. Qed.
Lemma safe_userIsAdmin username : respects safe (userIsAdmin username). Proof. frame_deep. Qed.
Lemma safe_createPasswordReset email : respects safe (createPasswordReset email).
Proof. frame_deep. Qed.
Lemma safe_createQRLogin : respects safe createQRLogin. Proof. frame_deep. Qed.
Lemma safe_approveQRLogin token username device : respects safe (approveQRLogin token username device).
Proof. frame_deep. Qed.
Lemma safe_checkQRLogin token : respects safe (checkQRLogin token). Proof. frame_deep. Qed.
Lemma safe_totpStatus username : respects safe (totpStatus username). Proof. frame_deep. Qed.
Lemma safe_generateTOTPURI username : respects safe (generateTOTPURI username).
Proof. frame_deep. Qed.
Lemma safe_enableTOTP username secret code : respects safe (enableTOTP username secret code).
Proof. frame_deep. Qed.
Lemma safe_disableTOTP username : respects safe (disableTOTP username). Proof. frame_deep. Qed.
Lemma safe_generateBackupCodes username : respects safe (generateBackupCodes username).
Proof. frame_deep. Qed.
Lemma safe_consumeBackupCode username code : respects safe (consumeBackupCode username code).
Proof. frame_deep. Qed.
Lemma safe_loadOrStoreCode key expiry : respects safe (loadOrStoreCode key expiry).
Proof. frame_deep. Qed.
Lemma safe_verifyTOTP username code : respects safe (verifyTOTP username code).
Proof. frame_deep. Qed.
Lemma safe_sweepUsedCodes : respects safe sweepUsedCodes. Proof. frame_deep. Qed.
Lemma safe_generateMediaToken username : respects safe (generateMediaToken username).
Proof. frame_deep. Qed.
Lemma safe_turnProvider : respects safe turnProvider. Proof. frame_deep. Qed.
Lemma safe_sendSMS to body : respects safe (sendSMS to body). Proof. frame_deep. Qed.
Lemma safe_initiateTwilioCall to : respects safe (initiateTwilioCall to). Proof. frame_deep. Qed.
Lemma safe_broadcastProfileUpdate username displayName mood : respects safe (broadcastProfileUpdate username displayName mood).
Proof. frame_deep. Qed.
Lemma safe_listSessions username : respects safe (listSessions username). Proof. frame_deep. Qed.

#[export] Hint Resolve safe_isIPBlocked safe_blockIP safe_unblockIP safe_loadBlockedIPs safe_initRoles
  safe_isVPNOrDatacenter safe_registerUser safe_verifyUser safe_authenticateUser safe_userBanInfo
  safe_userIsAdmin safe_createPasswordReset safe_createQRLogin safe_approveQRLogin
  safe_checkQRLogin safe_totpStatus safe_generateTOTPURI safe_enableTOTP safe_disableTOTP
  safe_generateBackupCodes safe_consumeBackupCode safe_loadOrStoreCode safe_verifyTOTP
  safe_sweepUsedCodes safe_generateMediaToken safe_turnProvider safe_sendSMS
  safe_initiateTwilioCall safe_broadcastProfileUpdate safe_listSessions : frame.
