(* ===== verification/Retention.v ===== *)
(** * Data retention ([data_retention.go])

    The janitors that purge what has expired.  Each definition is one tick of
    its loop.  [datetime('now', '-N days')] is [N] days before the second the
    clock shows, in the text form of the columns it is compared with.  The
    expiries are compared as the text of the host's local time ([asUTC]). *)

From Stdlib Require Import ZArith Lia.
From stdpp Require Import base strings list gmap.
From S2P Require Import Prelude GoRt GoStd Store Wire Db World Wf Sessions Accounts.

Open Scope string_scope.
Open Scope list_scope.
Open Scope Z_scope.

Definition Day : Z := 24 * Hour.

Definition envInt (e : Env) (key : string) (def : Z) : Z :=
  let v := getenv e key in
  if is_empty v then def else default def (Atoi v).

(** [datetime('now', '-' || days || ' days')] *)
Definition daysAgo (days now : Z) : Z := sqlNow now - days * Day.

Definition sessionDead (e : Env) (now : Z) (r : SessionToken) : bool :=
  (st_revoked r =? 1) || (asUTC e (st_expires_at r) <? sqlNow now).

Definition sweepExpiredSessions : M unit :=
  let* e := getEnv in
  let* now := getNow in
  Exec_ (fun d => set_session_tokens (tdelete (sessionDead e now) (session_tokens d)) d).

Definition resetDead (e : Env) (now : Z) (r : PasswordReset) : bool :=
  (pr_used r =? 1) || (asUTC e (pr_expires_at r) <? sqlNow now).

Definition sweepExpiredResetTokens : M unit :=
  let* e := getEnv in
  let* now := getNow in
  Exec_ (fun d => set_password_resets (tdelete (resetDead e now) (password_resets d)) d).

Definition unverifiedStale (now : Z) (u : User) : bool :=
  (u_is_verified u =? 0) && negb (is_empty (u_email u)) && (u_created_at u <? daysAgo 7 now).

Definition sweepUnverifiedAccounts : M unit :=
  let* now := getNow in
  Exec_ (fun d => set_users (tdelete (unverifiedStale now) (users d)) d).

(** The window in days; [None] when the janitor is disabled. *)
Definition channelRetentionDays (e : Env) : option Z :=
  let v := envInt e "PHAZE_CHANNEL_RETENTION_DAYS" 30 in
  if 0 <? v then Some v else if v =? 0 then None else Some 30.

Definition messageStale (days now : Z) (m : ChannelMessage) : bool :=
  cms_created_at m <? daysAgo days now.

Definition dropOrphanReactions (d : Database) : Database :=
  set_channel_reactions
    (tdelete (fun x => negb (texists (fun m => cms_id m =? cr_msg_id x) (channel_messages d)))
       (channel_reactions d)) d.

Definition sweepOldChannelMessages : M unit :=
  let* e := getEnv in
  match channelRetentionDays e with
  | None => ret tt
  | Some days =>
      let* now := getNow in
      let* n := ExecN (fun d => tcount (messageStale days now) (channel_messages d))
                  (fun d => set_channel_messages
                     (tdelete (messageStale days now) (channel_messages d)) d) in
      match n with
      | None => ret tt
      | Some n => when (0 <? n) (Exec_ dropOrphanReactions)
      end
  end.

Definition qrDead (e : Env) (now : Z) (r : QRLogin) : bool :=
  (qr_approved r =? 1) || (asUTC e (qr_expires_at r) <? sqlNow now).

Definition sweepExpiredQRLoginTokens : M unit :=
  let* e := getEnv in
  let* now := getNow in
  Exec_ (fun d => set_qr_login_tokens (tdelete (qrDead e now) (qr_login_tokens d)) d).

(** ** Frames *)

Lemma safe_sweepExpiredSessions : respects safe sweepExpiredSessions. Proof. frame_deep. Qed.
Lemma safe_sweepExpiredResetTokens : respects safe sweepExpiredResetTokens. Proof. frame_deep. Qed.
Lemma safe_sweepUnverifiedAccounts : respects safe sweepUnverifiedAccounts. Proof. frame_deep. Qed.
Lemma safe_sweepOldChannelMessages : respects safe sweepOldChannelMessages.
Proof. unfold sweepOldChannelMessages, dropOrphanReactions. frame. Qed.
Lemma safe_sweepExpiredQRLoginTokens : respects safe sweepExpiredQRLoginTokens. Proof. frame_deep. Qed.
#[export] Hint Resolve safe_sweepExpiredSessions safe_sweepExpiredResetTokens
  safe_sweepUnverifiedAccounts safe_sweepOldChannelMessages safe_sweepExpiredQRLoginTokens : frame.
