(* ===== verification/Supporters.v ===== *)
(** * Supporters and the payments webhook ([supporters.go], [cmd/grant-supporter])

    The public request form, the queue in the admin portal, the webhook that
    grants badges by e-mail address, and the command-line tool. *)

From Stdlib Require Import ZArith Lia.
From stdpp Require Import base strings list gmap.
From S2P Require Import Prelude GoRt GoStd Json Store Wire Db World Wf Registry Http Email Sessions Social.
From S2P Require Import Accounts.

Open Scope string_scope.
Open Scope list_scope.
Open Scope Z_scope.

Definition bmcURL (e : Env) : string :=
  let u := TrimSpace (getenv e "BMC_URL") in
  if is_empty u then "https://buymeacoffee.com/phazeworld" else u.

Record SupportForm := mkSupportForm { sfUsername : string; sfName : string; sfEmail : string }.

(** [INSERT INTO supporter_requests (username, name, email, status)]; the table
    has no key but its id, so [INSERT OR IGNORE] inserts. *)
Definition insertSupporter (username name email status : string) (now : Z) (d : Database) : Database :=
  set_supporter_requests
    (tinsert (fun id => mkSupporterRow id username name email status (sqlNow now))
       (supporter_requests d)) d.

Definition thanksSubject : string := "Thanks for supporting Phaze " +:+ of_bytes [240; 159; 146; 156].

Definition supportRequestHandler (r : Request) (body : option SupportForm) : M Response :=
  if negb (rqMethod r ==? "POST") then ret (http_Error "method not allowed" StatusMethodNotAllowed)
  else
    match body with
    | None => ret (http_Error "bad request" StatusBadRequest)
    | Some f =>
        let username := TrimSpace (sfUsername f) in
        let name := TrimSpace (sfName f) in
        let email := TrimSpace (sfEmail f) in
        let* e := getEnv in
        if is_empty name || is_empty email then
          ret (http_Error "name and email are required" StatusBadRequest)
        else if negb (parseAddress e email) then ret (http_Error "invalid email" StatusBadRequest)
        else if (64 <? len username) || (120 <? len name) || (200 <? len email) then
          ret (http_Error "field too long" StatusBadRequest)
        else
          let* now := getNow in
          let* ok := ExecOk (insertSupporter username name email "pending" now) in
          if negb ok then ret (http_Error "db error" StatusInternalServerError)
          else
            sendEmail email thanksSubject (MThankYou name) ;;;
            ret (respJSON StatusOK [("bmc_url", JStr (bmcURL e)); ("status", JStr "ok")])
    end.

(** [UPDATE users SET supporter = 1, supporter_since = CURRENT_TIMESTAMP] *)
Definition grantBadge (username : string) (now : Z) : Database -> Database :=
  onUser username (fun u => set_u_supporter_since (Some (sqlNow now)) (set_u_supporter 1 u)).

Definition setRequestStatus (id : Z) (status : string) (d : Database) : Database :=
  set_supporter_requests
    (tupdate (fun q => sq_id q =? id) (set_sq_status status) (supporter_requests d)) d.

(** ** The webhook *)

(** The hex-decoded secret first, when it decodes. *)
Definition bmcSigningKeys (secret : string) : list string :=
  match DecodeString secret with Some k => [k; secret] | None => [secret] end.

Definition bmcSignatureValid (e : Env) (secret sig body : string) : bool :=
  existsb (fun key => sig ==? EncodeToString (bytes (hmacSha256 e key body))) (bmcSigningKeys secret).

Definition bmcSignature (r : Request) : string :=
  let sig := rqHeader r "X-BMC-Signature" in
  TrimPrefix (if is_empty sig then rqHeader r "X-Signature-Hmac-Sha256" else sig) "sha256=".

(** Whether the request passes the signature check: no secret, no signature,
    or a valid one. *)
Definition bmcAccepted (e : Env) (r : Request) (body : string) : bool :=
  let secret := TrimSpace (getenv e "BMC_WEBHOOK_SECRET") in
  is_empty secret || is_empty (bmcSignature r) || bmcSignatureValid e secret (bmcSignature r) body.

Definition orElse (a b : string) : string := if is_empty a then b else a.

(** Name, e-mail, amount and message of a payload, nested or flat. *)
Definition bmcName (p : bmcPayload) : string := orElse (dSupporterName p) (pSupporterName p).
Definition bmcEmail (p : bmcPayload) : string :=
  orElse (ToLower (TrimSpace (dSupporterEmail p))) (ToLower (TrimSpace (pSupporterEmail p))).
Definition bmcAmount (p : bmcPayload) : string :=
  if is_empty (dAmount p) || (dAmount p ==? "0") then pAmount p else dAmount p.
Definition bmcMessage (p : bmcPayload) : string :=
  orElse (orElse (dSupportNote p) (dMessage p)) (pMessage p).

(** [... WHERE LOWER(email)=? AND status='pending' ORDER BY id DESC LIMIT 1] *)
Definition pendingRequest (email : string) (d : Database) : option SupporterRow :=
  head (order_by_desc sq_id
    (tselect (fun q => (LOWER (sq_email q) ==? email) && (sq_status q ==? "pending"))
       (supporter_requests d))).

Definition verifiedByEmail (email : string) (d : Database) : option string :=
  u_username <$> tfirst (fun u => (LOWER (u_email u) ==? email) && (u_is_verified u =? 1)) (users d).

(** The second step: a verified account with that address. *)
Definition bmcGrantToAccount (email name : string) : M string :=
  let* now := getNow in
  let* username := QueryRow (verifiedByEmail email) in
  match username with
  | Some username =>
      if is_empty username then ret ""
      else
        Exec_ (grantBadge username now) ;;;
        Exec_ (insertSupporter username name email "granted" now) ;;;
        ret username
  | None => ret ""
  end.

Definition bmcGrantByEmail (email name : string) : M string :=
  let* now := getNow in
  let* req := QueryRow (pendingRequest email) in
  match req with
  | None => bmcGrantToAccount email name
  | Some q =>
      Exec_ (setRequestStatus (sq_id q) "granted") ;;;
      if is_empty (sq_username q) then bmcGrantToAccount email name
      else Exec_ (grantBadge (sq_username q) now) ;;; ret (sq_username q)
  end.

Definition insertPayment (name email amount message matched : string) (now : Z) (d : Database) : Database :=
  set_bmc_payments
    (tinsert (fun id => mkBmcPayment id name email amount message matched (sqlNow now))
       (bmc_payments d)) d.

Definition respEmpty (code : Z) : Response := mkResponse code [] BNone [].

(** [body] is [None] when the request body could not be read. *)
Definition bmcWebhookHandler (r : Request) (body : option string) : M Response :=
  if negb (rqMethod r ==? "POST") then ret (http_Error "POST required" StatusMethodNotAllowed)
  else
    match body with
    | None => ret (http_Error "read error" StatusBadRequest)
    | Some body =>
        let* e := getEnv in
        if negb (bmcAccepted e r body) then ret (http_Error "invalid signature" StatusUnauthorized)
        else
          match jsonBmc e body with
          | None => ret (http_Error "bad json" StatusBadRequest)
          | Some p =>
              if is_empty (bmcEmail p) then ret (respEmpty StatusOK)
              else
                let* matched := bmcGrantByEmail (bmcEmail p) (bmcName p) in
                let* now := getNow in
                Exec_ (insertPayment (bmcName p) (bmcEmail p) (bmcAmount p) (bmcMessage p) matched now) ;;;
                ret (respEmpty StatusOK)
          end
    end.

(** ** [cmd/grant-supporter]: exit status 0 when it succeeds *)

Definition grantSupporterTool (username : string) (revoke : bool) : M bool :=
  if is_empty username then ret false
  else
    let* found := QueryRow (userIn username) in
    match found with
    | None => ret false
    | Some _ =>
        if revoke then
          ExecOk (onUser username (fun u => set_u_supporter_since None (set_u_supporter 0 u)))
        else
          let* now := getNow in
          let* ok := ExecOk (grantBadge username now) in
          if negb ok then ret false
          else Exec_ (insertSupporter username username "" "granted" now) ;;; ret true
    end.

(** ** Frames *)

Lemma safe_supportRequestHandler r b : respects safe (supportRequestHandler r b).
Proof. frame_deep. Qed.
Lemma safe_bmcGrantToAccount email name : respects safe (bmcGrantToAccount email name).
Proof. unfold bmcGrantToAccount, grantBadge, onUser, insertSupporter. frame. Qed.
#[export] Hint Resolve safe_supportRequestHandler safe_bmcGrantToAccount : frame.
Lemma safe_bmcGrantByEmail email name : respects safe (bmcGrantByEmail email name).
Proof. unfold bmcGrantByEmail, grantBadge, onUser, setRequestStatus. frame. Qed.
#[export] Hint Resolve safe_bmcGrantByEmail : frame.
Lemma safe_bmcWebhookHandler r b : respects safe (bmcWebhookHandler r b).
Proof. unfold bmcWebhookHandler, insertPayment. frame. Qed.
Lemma safe_grantSupporterTool u b : respects safe (grantSupporterTool u b).
Proof. unfold grantSupporterTool, grantBadge, onUser, insertSupporter. frame. Qed.
#[export] Hint Resolve safe_bmcWebhookHandler safe_grantSupporterTool : frame.
