(* ===== verification/Admin.v ===== *)
(** * The admin endpoints ([main.go] 2675-3570, [supporters.go])

    Everything behind [/api/v1/admin/].  An admin endpoint first establishes
    who calls ([adminFromRequest], [modFromRequest]); a decoded JSON body is an
    argument, [None] when it did not decode. *)

From Stdlib Require Import ZArith Lia Ascii.
From stdpp Require Import base strings list gmap.
From S2P Require Import Prelude GoRt GoStd Json Store Wire Db World Wf Registry Http Middleware Sessions.
From S2P Require Import Social Spaces Accounts Supporters.

Open Scope string_scope.
Open Scope list_scope.
Open Scope Z_scope.

(** ** Who calls *)

Definition adminCookieName : string := "phaze_admin_token".

Definition adminToken (r : Request) : string :=
  if negb (is_empty (rqCookie r adminCookieName)) then rqCookie r adminCookieName
  else
    let h := rqHeader r "Authorization" in
    if HasPrefix h "Bearer " then TrimSpace (TrimPrefix h "Bearer ") else "".

(** The answer already written, or the admin. *)
Definition adminFromRequest (r : Request) : M (Response + string) :=
  let tok := adminToken r in
  if is_empty tok then ret (inl (http_Error "Authorization required" StatusUnauthorized))
  else
    let* u := sessionUsername tok in
    if is_empty u then ret (inl (http_Error "invalid or expired session" StatusUnauthorized))
    else
      let* ok := userIsAdmin u in
      ret (if negb ok then inl (http_Error "admin access required" StatusForbidden) else inr u).

Definition modFromRequest (r : Request) (minRole : string) : M (Response + string * string) :=
  let tok := adminToken r in
  if is_empty tok then ret (inl (http_Error "Authorization required" StatusUnauthorized))
  else
    let* u := sessionUsername tok in
    if is_empty u then ret (inl (http_Error "invalid or expired session" StatusUnauthorized))
    else
      let* role := userRole u in
      ret (if roleRank role <? roleRank minRole
           then inl (http_Error ("insufficient role (need at least " +:+ minRole +:+ ")") StatusForbidden)
           else inr (u, role)).

(** [if s.adminFromRequest(w, r) == "" { return }] and the rest. *)
Definition asAdmin (r : Request) (k : string -> M Response) : M Response :=
  let* auth := adminFromRequest r in
  match auth with inl rs => ret rs | inr admin => k admin end.

Definition dbError : Response := http_Error "db error" StatusInternalServerError.
Definition statusOK : Response := respJSON StatusOK [("status", JStr "ok")].
Definition okTrue : Response := respJSON StatusOK [("ok", JStr "true")].

(** A listing: the rows, or the database error. *)
Definition listing {A} (q : Database -> list A) (f : A -> jval) : M Response :=
  let* rows := Query q in
  ret (match rows with None => dbError | Some l => respArr (f <$> l) end).

(** A parameter of the query string with a default. *)
Definition queryOr (r : Request) (k d : string) : string :=
  if is_empty (rqQuery r k) then d else rqQuery r k.

(** SQLite's [LIKE], which folds ASCII case, for ['%' || q || '%']. *)
Definition likeFold (s q : string) : bool := LIKE (LOWER s) ("%" +:+ LOWER q +:+ "%").

Definition omit (k v : string) : list (string * jval) := if is_empty v then [] else [(k, JStr v)].

(** ** Listings *)

Definition recentUnverified (now : Z) (d : Database) : list User :=
  take 100 (order_by_desc u_created_at
    (tselect (fun u => (u_is_verified u =? 0) && (sqlNow now - 24 * Hour <? u_created_at u)) (users d))).

(** A row whose code is NULL does not scan and is skipped. *)
Definition adminPendingVerificationsHandler (r : Request) : M Response :=
  asAdmin r (fun _ =>
    let* now := getNow in
    let* rows := Query (recentUnverified now) in
    ret (match rows with
         | None => dbError
         | Some l =>
             respArr (concat ((fun u => match u_verification_code u with
               | Some c => [JObj [("username", JStr (u_username u)); ("email", JStr (u_email u));
                                  ("verification_code", JStr c);
                                  ("created_at", JStr (FormatRFC3339 (u_created_at u)))]]
               | None => []
               end) <$> l))
         end)).

Definition reportsBy (status : string) (d : Database) : list AbuseReport :=
  take 500 (order_by_desc ar_id (tselect (fun x => ar_status x ==? status) (abuse_reports d))).

Definition reportJSON (x : AbuseReport) : jval :=
  JObj ([("id", JNum (ar_id x)); ("reporter", JStr (ar_reporter x)); ("subject", JStr (ar_subject x));
         ("reason", JStr (ar_reason x)); ("body", JStr (ar_body x)); ("status", JStr (ar_status x))]
        ++ omit "resolved_by" (ar_resolved_by x)
        ++ omit "resolved_at" (match ar_resolved_at x with Some t => FormatSQL t | None => "" end)
        ++ [("created_at", JStr (FormatSQL (ar_created_at x)))]).

Definition adminReportsHandler (r : Request) : M Response :=
  asAdmin r (fun _ => listing (reportsBy (queryOr r "status" "pending")) reportJSON).

Definition supportersBy (status : string) (d : Database) : list SupporterRow :=
  take 500 (order_by_desc sq_id (tselect (fun q => sq_status q ==? status) (supporter_requests d))).

Definition supporterJSON (q : SupporterRow) : jval :=
  JObj [("id", JNum (sq_id q)); ("username", JStr (sq_username q)); ("name", JStr (sq_name q));
        ("email", JStr (sq_email q)); ("status", JStr (sq_status q));
        ("created_at", JStr (FormatSQL (sq_created_at q)))].

Definition adminSupportersHandler (r : Request) : M Response :=
  asAdmin r (fun _ => listing (supportersBy (queryOr r "status" "pending")) supporterJSON).

Definition paymentJSON (p : BmcPayment) : jval :=
  JObj [("id", JNum (bp_id p)); ("supporter_name", JStr (bp_supporter_name p));
        ("supporter_email", JStr (bp_supporter_email p)); ("amount", JStr (bp_amount p));
        ("message", JStr (bp_message p)); ("matched_username", JStr (bp_matched_username p));
        ("created_at", JStr (FormatSQL (bp_created_at p)))].

Definition adminBMCPaymentsHandler (r : Request) : M Response :=
  asAdmin r (fun _ =>
    listing (fun d => take 200 (order_by_desc bp_id (rows (bmc_payments d)))) paymentJSON).

Definition loginsIn (d : Database) : list (User * Z) :=
  take 50 (order_by_desc snd (omap (fun u => (fun t => (u, t)) <$> u_last_login_at u) (rows (users d)))).

Definition adminLogsHandler (r : Request) : M Response :=
  asAdmin r (fun _ =>
    listing loginsIn (fun ut =>
      JObj [("username", JStr (u_username ut.1)); ("ip", JStr (u_last_ip ut.1));
            ("login_at", JStr (FormatSQL ut.2)); ("joined_at", JStr (FormatSQL (u_created_at ut.1)))])).

(** [ORDER BY banned_at DESC]: NULL sorts last. *)
Definition bannedIn (d : Database) : list User :=
  take 500 (order_by_desc (fun u => default zeroTime (u_banned_at u))
              (tselect (fun u => u_is_banned u =? 1) (users d))).

Definition adminBannedUsersHandler (r : Request) : M Response :=
  asAdmin r (fun _ =>
    listing bannedIn (fun u =>
      JObj [("username", JStr (u_username u)); ("reason", JStr (u_ban_reason u));
            ("banned_at", JStr (match u_banned_at u with Some t => FormatSQL t | None => "" end))])).

Definition adminGeoHandler (r : Request) : M Response :=
  asAdmin r (fun _ =>
    let ip := rqQuery r "ip" in
    if is_empty ip then ret (http_Error "ip required" StatusBadRequest)
    else
      let* e := getEnv in
      ret (match geoLookup e ip with
           | None => respJSON StatusOK []
           | Some body => mkResponse StatusOK [] (BText body) []
           end)).

Definition adminStatsHandler (r : Request) : M Response :=
  asAdmin r (fun _ =>
    let* online := onlineUserCount in
    let* total := CountOr0 (fun d => tcount (fun _ => true) (users d)) in
    let* verified := CountOr0 (fun d => tcount (fun u => u_is_verified u =? 1) (users d)) in
    let* banned := CountOr0 (fun d => tcount (fun u => u_is_banned u =? 1) (users d)) in
    let* msgs := CountOr0 (fun d => tcount (fun _ => true) (channel_messages d)) in
    let* dms := CountOr0 (fun d => tcount (fun _ => true) (dm_messages d)) in
    let* e := getEnv in
    let* size := CountOr0 (dbBytes e) in
    ret (respJSON StatusOK [("online", JNum online); ("total_users", JNum total);
           ("verified", JNum verified); ("banned", JNum banned); ("total_messages", JNum msgs);
           ("total_dms", JNum dms); ("db_size_mb", JFrac size (1024 * 1024))])).

(** ** Users *)

Definition userMatches (q : string) (u : User) : bool :=
  likeFold (u_username u) q || likeFold (u_email u) q || likeFold (u_last_ip u) q
  || likeFold (u_signup_ip u) q.

(** [limit] and [offset] of the query string. *)
Definition pageLimit (r : Request) : Z :=
  match Atoi (rqQuery r "limit") with
  | Some l => if 0 <? l then Z.min l 1000 else 100
  | None => 100
  end.

Definition pageOffset (r : Request) : Z :=
  match Atoi (rqQuery r "offset") with Some o => if 0 <=? o then o else 0 | None => 0 end.

Definition usersMatching (search : string) (d : Database) : list User :=
  tselect (fun u => is_empty search || userMatches search u) (users d).

Definition usersPage (search : string) (limit offset : Z) (d : Database) : list User :=
  take (Z.to_nat limit) (drop (Z.to_nat offset)
    (order_by_desc u_created_at (usersMatching search d))).

Definition adminUserJSON (s : NexusServer) (u : User) : jval :=
  JObj [("username", JStr (u_username u)); ("email", JStr (u_email u));
        ("verified", JBool (u_is_verified u =? 1)); ("banned", JBool (u_is_banned u =? 1));
        ("is_admin", JBool (u_is_admin u =? 1)); ("role", JStr (u_role u));
        ("ban_reason", JStr (u_ban_reason u)); ("created_at", JStr (FormatSQL (u_created_at u)));
        ("last_ip", JStr (u_last_ip u)); ("signup_ip", JStr (u_signup_ip u));
        ("last_login_at", JStr (match u_last_login_at u with Some t => FormatSQL t | None => "" end));
        ("online", JBool (bool_decide (is_Some (Clients s !! u_username u))))].

Definition adminUsersHandler (r : Request) : M Response :=
  let* auth := modFromRequest r "helper" in
  match auth with
  | inl rs => ret rs
  | inr _ =>
      let search := rqQuery r "search" in
      let limit := pageLimit r in
      let offset := pageOffset r in
      let* total := QueryRow (fun d => Some (Z.of_nat (length (usersMatching search d)))) in
      match total with
      | None => ret dbError
      | Some total =>
          let* rows := Query (usersPage search limit offset) in
          match rows with
          | None => ret dbError
          | Some l =>
              let* s := getSrv in
              ret (respJSON StatusOK [("users", JArr (adminUserJSON s <$> l)); ("total", JNum total);
                     ("limit", JNum limit); ("offset", JNum offset)])
          end
      end
  end.

Definition adminMeHandler (r : Request) : M Response :=
  asAdmin r (fun u =>
    let* role := userRole u in
    ret (respJSON StatusOK [("username", JStr u); ("role", JStr role)])).

(** Only the cookie is cleared. *)
Definition adminLogoutHandler (r : Request) : M Response :=
  ret (withCookies [(adminCookieName, "")] (respJSON StatusOK [("ok", JBool true)])).

Record AdminCreds := mkAdminCreds { acUsername : string; acPassword : string }.

(** The role the portal session gets; [None] when the account is not staff. *)
Definition portalRole (username : string) : M (option string) :=
  let* role := userRole username in
  if roleRank role <? roleRank "helper" then
    let* isAdmin := ScanOr 0 (fun d => u_is_admin <$> userIn username d) in
    ret (if negb (isAdmin =? 1) then None else Some "super_admin")
  else ret (Some role).

Definition adminLoginHandler (r : Request) (body : option AdminCreds) : M Response :=
  if negb (rqMethod r ==? "POST") then ret (http_Error "POST required" StatusMethodNotAllowed)
  else
    match body with
    | None => ret (http_Error "bad json" StatusBadRequest)
    | Some b =>
        let u := acUsername b in
        let* ok := authenticateUser u (acPassword b) in
        if negb ok then ret (http_Error "invalid credentials" StatusUnauthorized)
        else
          let* role := portalRole u in
          match role with
          | None => ret (http_Error "not a staff account" StatusForbidden)
          | Some role =>
              let* tok := issueAdminSessionToken u in
              match tok with
              | inl _ => ret (http_Error "session error" StatusInternalServerError)
              | inr tok =>
                  ret (withCookies [(adminCookieName, tok)]
                         (respJSON StatusOK [("token", JStr tok); ("username", JStr u);
                                             ("role", JStr role)]))
              end
          end
    end.

(** ** Moderation of accounts *)

Record BanBody := mkBanBody { bbReason : string; bbRole : string }.

Definition knownRole (role : string) : bool :=
  oneOf ["user"; "helper"; "moderator"; "admin"; "super_admin"] role.

Definition banned (reason : string) (now : Z) (u : User) : User :=
  set_u_banned_at (Some (sqlNow now)) (set_u_ban_reason reason (set_u_is_banned 1 u)).

Definition unbanned (u : User) : User :=
  set_u_banned_at None (set_u_ban_reason "" (set_u_is_banned 0 u)).

Definition countUser (username : string) (d : Database) : Z :=
  tcount (fun u => u_username u ==? username) (users d).

Definition kicked (body : string) : NexusMessage := nm "kicked" |> set_mBody body.

Definition userNotFound : Response := http_Error "user not found" StatusNotFound.

Definition actionDone (target action : string) : Response :=
  respJSON StatusOK [("ok", JBool true); ("user", JStr target); ("action", JStr action)].

Definition banAction (target reason : string) : M Response :=
  let* now := getNow in
  let* n := ExecN (countUser target) (onUser target (banned reason now)) in
  match n with
  | None => ret dbError
  | Some n =>
      if n =? 0 then ret userNotFound
      else
        Exec_ (revokeAllOf target) ;;;
        dropAllClients target (kicked (if is_empty reason then "Account suspended"
                                       else "Account suspended: " +:+ reason)) ;;;
        ret (actionDone target "ban")
  end.

Definition unbanAction (target : string) : M Response :=
  let* n := ExecN (countUser target) (onUser target unbanned) in
  match n with
  | None => ret dbError
  | Some n => if n =? 0 then ret userNotFound else ret (actionDone target "unban")
  end.

Definition roleAction (admin target role : string) : M Response :=
  if negb (knownRole role) then
    ret (http_Error "unknown role (use user|helper|moderator|admin|super_admin)" StatusBadRequest)
  else
    let* ar := userRole admin in
    let actorRank := roleRank ar in
    if actorRank <? roleRank "admin" then ret (http_Error "only admins can change roles" StatusForbidden)
    else
      let* tr := userRole target in
      let desiredRank := roleRank role in
      if actorRank <=? roleRank tr then
        ret (http_Error "cannot modify a peer or higher-ranked user" StatusForbidden)
      else if actorRank <=? desiredRank then
        ret (http_Error "cannot set a role >= your own" StatusForbidden)
      else
        let isAdminInt := if roleRank "admin" <=? desiredRank then 1 else 0 in
        let* ok := ExecOk (onUser target (fun u => set_u_is_admin isAdminInt (set_u_role role u))) in
        ret (if ok then actionDone target "role" else dbError).

Definition resetTOTPAction (target : string) : M Response :=
  let* ok := ExecOk (onUser target (fun u => set_u_totp_enabled 0 (set_u_totp_secret "" u))) in
  if negb ok then
    ret (http_Error ("reset_totp failed: " +:+ err_text EEngine) StatusInternalServerError)
  else Exec_ (dropBackupCodes target) ;;; ret (respEmpty StatusNoContent).

Definition deleteAction (target : string) : M Response :=
  let* err := deleteAccount target in
  match err with
  | Some err => ret (http_Error ("delete failed: " +:+ err_text err) StatusInternalServerError)
  | None =>
      dropAllClients target (kicked "Account deleted by admin") ;;;
      ret (actionDone target "delete")
  end.

Definition banAct (admin target action : string) (b : BanBody) : M Response :=
  if action ==? "ban" then banAction target (TrimSpace (bbReason b))
  else if action ==? "unban" then unbanAction target
  else if action ==? "role" then roleAction admin target (bbRole b)
  else if action ==? "reset_totp" then resetTOTPAction target
  else if action ==? "delete" then deleteAction target
  else ret (http_Error "expected /ban, /unban, /role, or /delete" StatusBadRequest).

(** [b] holds empty strings when there is no body to decode. *)
Definition adminBanHandler (r : Request) (b : BanBody) : M Response :=
  asAdmin r (fun admin =>
    if negb (rqMethod r ==? "POST") then ret (http_Error "method not allowed" StatusMethodNotAllowed)
    else
      let parts := Split (TrimPrefix (rqPath r) "/api/v1/admin/users/") "/"%char in
      match parts with
      | target :: action :: _ =>
          if is_empty target || negb (validUsername target) then
            ret (http_Error "bad username" StatusBadRequest)
          else if target ==? admin then ret (http_Error "cannot ban yourself" StatusBadRequest)
          else banAct admin target action b
      | _ => ret (http_Error "expected /api/v1/admin/users/{username}/(ban|unban|role)" StatusBadRequest)
      end).

Definition adminVerifyUserHandler (r : Request) (username : option string) : M Response :=
  asAdmin r (fun _ =>
    if negb (rqMethod r ==? "POST") then ret (http_Error "POST required" StatusMethodNotAllowed)
    else
      match username with
      | None => ret (http_Error "username required" StatusBadRequest)
      | Some u =>
          if is_empty u then ret (http_Error "username required" StatusBadRequest)
          else
            let* ok := ExecOk (onUser u (set_u_is_verified 1)) in
            ret (if ok then okTrue else dbError)
      end).

(** ** Content *)

(** A statement of a transaction whose error the code does not look at. *)
Definition txIgnore (f : Database -> Database) (d : Database) : M Database :=
  let* r := txExec (fun d => inr (f d)) d in
  ret (match r with inr d' => d' | inl _ => d end).

Definition channelOf (server : string) (d : Database) (channel : string) : bool :=
  texists (fun c => (ch_id c ==? channel) && (ch_server_id c ==? server)) (channels d).

Definition dropServerMessages (id : string) (d : Database) : Database :=
  set_channel_messages (tdelete (fun m => channelOf id d (cms_channel_id m)) (channel_messages d)) d.
Definition dropServerChannels (id : string) (d : Database) : Database :=
  set_channels (tdelete (fun c => ch_server_id c ==? id) (channels d)) d.
Definition dropServerMembers (id : string) (d : Database) : Database :=
  set_server_members (tdelete (fun m => sm_server_id m ==? id) (server_members d)) d.
Definition dropServerRow (id : string) (d : Database) : Database :=
  set_servers (tdelete (fun s => sv_id s ==? id) (servers d)) d.

Definition deleteServer (id : string) : M Response :=
  let* err := TxBody tt tt (fun d =>
    let* d := txIgnore (dropServerMessages id) d in
    let* d := txIgnore (dropServerChannels id) d in
    let* d := txIgnore (dropServerMembers id) d in
    let* d := txIgnore (dropServerRow id) d in
    ret (inr d)) in
  ret (match err with Some _ => dbError | None => statusOK end).

(** Servers, newest first, each with its number of members. *)
Definition serversIn (d : Database) : list (ServerRow * Z) :=
  take 500 ((fun s => (s, tcount (fun m => sm_server_id m ==? sv_id s) (server_members d)))
              <$> order_by_desc sv_created_at (rows (servers d))).

Definition serverJSON (sn : ServerRow * Z) : jval :=
  JObj [("id", JStr (sv_id sn.1)); ("name", JStr (sv_name sn.1)); ("owner", JStr (sv_owner sn.1));
        ("visibility", JStr (sv_visibility sn.1)); ("created_at", JStr (FormatSQL (sv_created_at sn.1)));
        ("member_count", JNum sn.2)].

Definition idRequired : Response := http_Error "id required" StatusBadRequest.

Definition adminServersHandler (r : Request) : M Response :=
  asAdmin r (fun _ =>
    if rqMethod r ==? "DELETE" then
      let id := rqQuery r "id" in
      if is_empty id then ret idRequired else deleteServer id
    else listing serversIn serverJSON).

(** [id = ?] on an integer column, with a text argument. *)
Definition idIs (e : Env) (arg : string) (id : Z) : bool := bool_decide (sqlNumeric e arg = Some id).

(** The search text of a listing. *)
Definition searchText (r : Request) : string := clip 200 (TrimSpace (rqQuery r "q")).

Definition qRequired : Response := http_Error "q required" StatusBadRequest.

(** Messages whose channel and server exist, newest first. *)
Definition messagesMatching (q : string) (d : Database) : list (ChannelMessage * Channel * ServerRow) :=
  take 100 (order_by_desc (fun x => cms_created_at x.1.1)
    (concat ((fun m =>
       concat ((fun c =>
         (fun s => (m, c, s)) <$> tselect (fun s => sv_id s ==? ch_server_id c) (servers d))
         <$> tselect (fun c => ch_id c ==? cms_channel_id m) (channels d)))
       <$> tselect (fun m => likeFold (cms_sender m) q || likeFold (cms_body m) q)
             (channel_messages d)))).

Definition messageJSON (x : ChannelMessage * Channel * ServerRow) : jval :=
  let '(m, c, s) := x in
  JObj [("id", JNum (cms_id m)); ("channel_id", JStr (cms_channel_id m)); ("channel_name", JStr (ch_name c));
        ("server_name", JStr (sv_name s)); ("sender", JStr (cms_sender m)); ("body", JStr (cms_body m));
        ("created_at", JStr (FormatSQL (cms_created_at m)))].

Definition adminMessagesHandler (r : Request) : M Response :=
  asAdmin r (fun _ =>
    if rqMethod r ==? "DELETE" then
      let id := rqQuery r "id" in
      if is_empty id then ret idRequired
      else
        let* e := getEnv in
        let* ok := ExecOk (fun d => set_channel_messages
                     (tdelete (fun m => idIs e id (cms_id m)) (channel_messages d)) d) in
        ret (if ok then statusOK else dbError)
    else
      let q := searchText r in
      if is_empty q then ret qRequired else listing (messagesMatching q) messageJSON).

Definition dmsMatching (q : string) (d : Database) : list DMRow :=
  take 100 (order_by_desc dr_created_at
    (tselect (fun m => likeFold (dr_sender m) q || likeFold (dr_recipient m) q || likeFold (dr_body m) q)
       (dm_messages d))).

Definition dmJSON (m : DMRow) : jval :=
  JObj [("id", JNum (dr_id m)); ("sender", JStr (dr_sender m)); ("recipient", JStr (dr_recipient m));
        ("body", JStr (dr_body m)); ("created_at", JStr (FormatSQL (dr_created_at m)))].

Definition adminDMsHandler (r : Request) : M Response :=
  asAdmin r (fun _ =>
    if rqMethod r ==? "DELETE" then
      let id := rqQuery r "id" in
      if is_empty id then ret idRequired
      else
        let* e := getEnv in
        let* ok := ExecOk (fun d => set_dm_messages
                     (tdelete (fun m => idIs e id (dr_id m)) (dm_messages d)) d) in
        ret (if ok then statusOK else dbError)
    else
      let q := searchText r in
      if is_empty q then ret qRequired else listing (dmsMatching q) dmJSON).

(** ** Reports and supporters *)

Definition resolved (admin : string) (now : Z) (x : AbuseReport) : AbuseReport :=
  set_ar_resolved_at (Some (sqlNow now)) (set_ar_resolved_by admin (set_ar_status "resolved" x)).

Definition adminResolveReportHandler (r : Request) : M Response :=
  asAdmin r (fun admin =>
    if negb (rqMethod r ==? "POST") then ret (http_Error "method not allowed" StatusMethodNotAllowed)
    else
      let parts := Split (TrimPrefix (rqPath r) "/api/v1/admin/reports/") "/"%char in
      if negb (bool_decide (parts !! 1%nat = Some "resolve")) then
        ret (http_Error "expected /api/v1/admin/reports/{id}/resolve" StatusBadRequest)
      else
        match ParseInt (default "" (parts !! 0%nat)) with
        | None => ret (http_Error "bad report id" StatusBadRequest)
        | Some id =>
            let* now := getNow in
            let* n := ExecN (fun d => tcount (fun x => ar_id x =? id) (abuse_reports d))
                        (fun d => set_abuse_reports (tupdate (fun x => ar_id x =? id)
                                    (resolved admin now) (abuse_reports d)) d) in
            ret (match n with
                 | None => dbError
                 | Some n =>
                     if n =? 0 then http_Error "report not found" StatusNotFound
                     else respJSON StatusOK [("ok", JBool true); ("id", JNum id)]
                 end)
        end).

Definition adminSupporterActionHandler (r : Request) : M Response :=
  asAdmin r (fun _ =>
    if negb (rqMethod r ==? "POST") then ret (http_Error "method not allowed" StatusMethodNotAllowed)
    else
      match Split (TrimPrefix (rqPath r) "/api/v1/admin/supporters/") "/"%char with
      | [first; action] =>
          match Atoi first with
          | None => ret (http_Error "bad id" StatusBadRequest)
          | Some id =>
              if action ==? "grant" then
                let* row := QueryRow (fun d => sq_username <$> tfirst (fun q => sq_id q =? id)
                                                 (supporter_requests d)) in
                match row with
                | None => ret (http_Error "not found" StatusNotFound)
                | Some username =>
                    let* ok := ExecOk (setRequestStatus id "granted") in
                    if negb ok then ret dbError
                    else if is_empty (TrimSpace username) then ret statusOK
                    else
                      let* now := getNow in
                      let* ok := ExecOk (grantBadge username now) in
                      ret (if ok then statusOK else dbError)
                end
              else if action ==? "dismiss" then
                let* ok := ExecOk (setRequestStatus id "dismissed") in
                ret (if ok then statusOK else dbError)
              else ret (http_Error "unknown action" StatusBadRequest)
          end
      | _ => ret (http_Error "expected /api/v1/admin/supporters/{id}/(grant|dismiss)" StatusBadRequest)
      end).

Definition adminGrantSupporterHandler (r : Request) (username : option string) : M Response :=
  asAdmin r (fun _ =>
    if negb (rqMethod r ==? "POST") then ret (http_Error "POST required" StatusMethodNotAllowed)
    else
      let username := TrimSpace (default "" username) in
      if is_empty username then ret (http_Error "username required" StatusBadRequest)
      else
        let* found := QueryRow (userIn username) in
        match found with
        | None => ret userNotFound
        | Some _ =>
            let* now := getNow in
            let* ok := ExecOk (grantBadge username now) in
            if negb ok then ret dbError
            else Exec_ (insertSupporter username username "" "granted" now) ;;; ret statusOK
        end).

(** ** Announcements and addresses *)

Definition announceChannel : string := "global-announcements".

Definition adminBroadcastHandler (r : Request) (message : option string) : M Response :=
  asAdmin r (fun u =>
    if negb (rqMethod r ==? "POST") then ret (http_Error "POST required" StatusMethodNotAllowed)
    else
      let text := TrimSpace (default "" message) in
      if is_empty text then ret (http_Error "bad json or empty message" StatusBadRequest)
      else
        let* now := getNow in
        let* res := Exec (fun d => inr (set_channel_messages
              (tinsert (fun id => mkChannelMessage id announceChannel u text (sqlNow now) 0 0 0)
                 (channel_messages d)) d, tnext (channel_messages d))) in
        match res with
        | inl _ => ret dbError
        | inr id =>
            broadcastAll (nm "channel_msg_in" |> set_mChannelID announceChannel
              |> set_mServerID globalSpaceID
              |> set_mMessages [mkChannelMsg id announceChannel u text (sqlNow now) false false false ∅]) ;;;
            ret (respJSON StatusOK [("id", JNum id); ("ok", JBool true)])
        end).

Record IPBlockBody := mkIPBlockBody { ibIP : string; ibAction : string }.

(** The connections from an address. *)
Definition connsFrom (ip : string) (s : NexusServer) : list nat :=
  boolfilter (fun c => match Heap s !! c with Some k => cIP k ==? ip | None => false end) (allConns s).

Definition adminIPBlockHandler (r : Request) (body : option IPBlockBody) : M Response :=
  asAdmin r (fun _ =>
    if rqMethod r ==? "GET" then
      let* s := getSrv in ret (respArr (JStr <$> elements (blockedIPs s)))
    else if negb (rqMethod r ==? "POST") then ret (http_Error "GET or POST" StatusMethodNotAllowed)
    else
      match body with
      | None => ret (http_Error "ip required" StatusBadRequest)
      | Some b =>
          if is_empty (ibIP b) then ret (http_Error "ip required" StatusBadRequest)
          else if ibAction b ==? "unblock" then unblockIP (ibIP b) ;;; ret okTrue
          else
            blockIP (ibIP b) ;;;
            let* s := getSrv in
            forM (connsFrom (ibIP b) s) (fun c =>
              Send_ c (kicked "Your IP has been blocked") ;;; CloseConn c) ;;;
            ret okTrue
      end).

Definition adminGlobalNoticeHandler (r : Request) (message : option string) : M Response :=
  asAdmin r (fun admin =>
    if negb (rqMethod r ==? "POST") then ret (http_Error "POST required" StatusMethodNotAllowed)
    else
      let text := default "" message in
      if is_empty text then ret (http_Error "message required" StatusBadRequest)
      else
        broadcastAll (nm "global_notice" |> set_mBody text |> set_mSender admin) ;;;
        ret okTrue).

(** The portal's page, behind the address gate like the endpoints. *)
Definition adminPortalHandler (r : Request) : M Response :=
  ret (writeSecurityHeaders (withHeaders
    [("Cache-Control", "no-cache");
     ("Content-Security-Policy",
      "default-src 'self'; script-src 'unsafe-inline'; style-src 'unsafe-inline'")]
    (mkResponse StatusOK [] (BPage "adminPortalHTML" []) []))).

(** ** The routes of [main] *)

(** A request to an admin endpoint, with its decoded body. *)
Inductive adminCall :=
| ALogin (b : option AdminCreds)
| APortal | AMe | ALogout | AUsers | AStats | ALogs | AGeo | APending | AReports | AResolve
| ABan (b : BanBody) | ABanned | ASupporters | ASupporterAction
| AGrantSupporter (username : option string)
| AServers | AMessages | ADMs | APayments
| ABroadcast (message : option string) | AIPBlock (b : option IPBlockBody)
| AGlobalNotice (message : option string) | AVerifyUser (username : option string).

Definition adminHandler (r : Request) (c : adminCall) : M Response :=
  match c with
  | ALogin b => adminLoginHandler r b
  | APortal => adminPortalHandler r
  | AMe => adminMeHandler r
  | ALogout => adminLogoutHandler r
  | AUsers => adminUsersHandler r
  | AStats => adminStatsHandler r
  | ALogs => adminLogsHandler r
  | AGeo => adminGeoHandler r
  | APending => adminPendingVerificationsHandler r
  | AReports => adminReportsHandler r
  | AResolve => adminResolveReportHandler r
  | ABan b => adminBanHandler r b
  | ABanned => adminBannedUsersHandler r
  | ASupporters => adminSupportersHandler r
  | ASupporterAction => adminSupporterActionHandler r
  | AGrantSupporter u => adminGrantSupporterHandler r u
  | AServers => adminServersHandler r
  | AMessages => adminMessagesHandler r
  | ADMs => adminDMsHandler r
  | APayments => adminBMCPaymentsHandler r
  | ABroadcast m => adminBroadcastHandler r m
  | AIPBlock b => adminIPBlockHandler r b
  | AGlobalNotice m => adminGlobalNoticeHandler r m
  | AVerifyUser u => adminVerifyUserHandler r u
  end.

(** Every admin route is behind the address gate; the sign-in has a limiter of
    its own. *)
Definition serveAdmin (r : Request) (c : adminCall) : M Response :=
  adminIPGate r
    (match c with
     | ALogin _ => adminLoginLimit r (adminHandler r c)
     | _ => rateLimit r (adminHandler r c)
     end).

(** ** Frames *)

Section AdminFrames.
Context (R : World -> World -> Prop) `{HR : !PreOrder R, HQ : !FreesSql R}.
Lemma respects_userIsAdmin u : respects R (userIsAdmin u).
Proof using HR HQ. unfold userIsAdmin. frame. Qed.
Lemma respects_userRole u : respects R (userRole u).
Proof using HR HQ. unfold userRole. frame. Qed.
Lemma respects_adminFromRequest r : respects R (adminFromRequest r).
Proof using HR HQ. unfold adminFromRequest, userIsAdmin. frame. Qed.
Lemma respects_modFromRequest r m : respects R (modFromRequest r m).
Proof using HR HQ. unfold modFromRequest, userRole. frame. Qed.
Lemma respects_asAdmin r k : (forall u, respects R (k u)) -> respects R (asAdmin r k).
Proof using HR HQ. intros H. unfold asAdmin. frame; apply respects_adminFromRequest. Qed.
Lemma respects_listing {A} (q : Database -> list A) f : respects R (listing q f).
Proof using HR HQ. unfold listing. frame. Qed.
End AdminFrames.
#[export] Hint Resolve respects_userIsAdmin respects_userRole respects_adminFromRequest
  respects_modFromRequest respects_listing : frame.

Lemma wf_dropServerMessages id d : db_wf d -> db_wf (dropServerMessages id d).
Proof. revert d. unfold dropServerMessages. wf_step. Qed.
Lemma wf_dropServerChannels id d : db_wf d -> db_wf (dropServerChannels id d).
Proof. revert d. unfold dropServerChannels. wf_step. Qed.
Lemma wf_dropServerMembers id d : db_wf d -> db_wf (dropServerMembers id d).
Proof. revert d. unfold dropServerMembers. wf_step. Qed.
Lemma wf_dropServerRow id d : db_wf d -> db_wf (dropServerRow id d).
Proof. revert d. unfold dropServerRow. wf_step. Qed.

Create HintDb serverwf discriminated.
#[local] Hint Resolve wf_dropServerMessages wf_dropServerChannels wf_dropServerMembers
  wf_dropServerRow : serverwf.

Lemma txIgnore_keeps (P : Database -> Prop) f d w :
  (forall d, P d -> P (f d)) -> P d -> P (txIgnore f d w).1.
Proof.
  intros Hf Hd. unfold txIgnore. rewrite bind_run, ret_run. simpl. unfold txExec.
  destruct (faulty w); simpl; auto.
Qed.

Lemma safe_deleteServer id : respects safe (deleteServer id).
Proof.
  unfold deleteServer. frame. apply safe_TxBody.
  - intros d. unfold txIgnore. frame.
  - intros d w d' Hd. rewrite !bind_run, ret_run. cbn [fst]. intros [= <-].
    repeat (apply (txIgnore_keeps db_wf); [eauto with serverwf|]). exact Hd.
Qed.
#[export] Hint Resolve safe_deleteServer : frame.

Lemma safe_asAdmin r k : (forall u, respects safe (k u)) -> respects safe (asAdmin r k).
Proof. intros H. apply respects_asAdmin; try typeclasses eauto. exact H. Qed.

Ltac admin_frame := apply safe_asAdmin; intros ?; frame.

Lemma safe_banAct a t x b : respects safe (banAct a t x b).
Proof.
  unfold banAct, banAction, unbanAction, roleAction, resetTOTPAction, deleteAction, onUser,
    revokeAllOf, dropBackupCodes, dropAllClients. frame.
Qed.
#[export] Hint Resolve safe_banAct : frame.

Lemma safe_adminLoginHandler r b : respects safe (adminLoginHandler r b).
Proof. unfold adminLoginHandler, portalRole, issueAdminSessionToken. frame. Qed.
Lemma safe_adminUsersHandler r : respects safe (adminUsersHandler r).
Proof. unfold adminUsersHandler. frame. Qed.

Lemma safe_adminHandler r c : respects safe (adminHandler r c).
Proof.
  destruct c; simpl;
    first [apply safe_adminLoginHandler | apply safe_adminUsersHandler | apply safe_asAdmin; intros ? | idtac].
  all: unfold adminPortalHandler, adminLogoutHandler, grantBadge, setRequestStatus, insertSupporter,
    onUser, onlineUserCount, broadcastAll.
  all: frame.
Qed.

Lemma safe_serveAdmin r c : respects safe (serveAdmin r c).
Proof.
  apply safe_adminIPGate. pose proof (safe_adminHandler r c) as H.
  destruct c; lazymatch goal with
  | |- respects _ (adminLoginLimit _ _) => exact (safe_adminLoginLimit _ _ H)
  | |- _ => exact (safe_rateLimit _ _ H)
  end.
Qed.
#[export] Hint Resolve safe_serveAdmin : frame.

(** ** Who gets through *)

Lemma userIsAdmin_true u w :
  (userIsAdmin u w).1 = true -> exists x, userIn u (wDB w) = Some x /\ u_is_admin x = 1.
Proof.
  unfold userIsAdmin, QueryRow, QueryRowE. rewrite !bind_run, !ret_run. destruct (faulty w); [done|].
  cbn [fst snd]. destruct (userIn u (wDB w)) as [x|]; [|done]. cbn. intros H. bools. by exists x.
Qed.

(** The rank of a user is that of its row, or the lowest one. *)
Lemma userRole_rank u w :
  0 < roleRank (userRole u w).1 ->
  exists x, userIn u (wDB w) = Some x /\ roleRank (u_role x) = roleRank (userRole u w).1.
Proof.
  unfold userRole, QueryRow, QueryRowE. rewrite !bind_run, !ret_run. destruct (faulty w); [done|].
  cbn [fst snd]. unfold userRow, userIn. destruct (tfirst _ _) as [x|]; [|done]. cbn.
  destruct (is_empty (u_role x)) eqn:E; [done|]. intros _. by exists x.
Qed.

Lemma roleRank_range r : 0 <= roleRank r <= 4.
Proof. unfold roleRank. repeat case_match; lia. Qed.
