(* ===== verification/Files.v ===== *)
(** * User files ([blobstore.go], [avatars.go], uploads in [main.go])

    Chat attachments and profile pictures live in a blob store under
    [uploads/] and [avatars/].  A multipart body is an argument of its
    handler, parsed. *)

From Stdlib Require Import ZArith Lia Ascii String.
From stdpp Require Import base strings list gmap.
From S2P Require Import Prelude GoRt GoStd Json Netutil Store Wire Db World Wf Http Middleware Sessions.
From S2P Require Import Social Accounts.

Open Scope string_scope.
Open Scope list_scope.
Open Scope Z_scope.

(** ** The store ([blobstore.go]) *)

Definition uploadDir (e : Env) : string :=
  let d := getenv e "PHAZE_UPLOAD_DIR" in if is_empty d then "public/uploads" else d.

(** The directory of [defaultDiskBlobStore] for a key prefix. *)
Definition dirFor (e : Env) (prefix : string) : string :=
  if prefix ==? "uploads" then uploadDir e else prefix.

(** [diskBlobStore.path]: the directory and the file name; [None] is the error
    "bad blob key". *)
Definition diskPath (e : Env) (key : string) : option (string * string) :=
  match Cut key "/"%char with
  | None => None
  | Some (prefix, name) =>
      if is_empty name || negb (name ==? Base name) || (name ==? ".") || (name ==? "..") then None
      else Some (dirFor e prefix, name)
  end.

(** [blobStoreFromEnv]: on disk unless [PHAZE_BLOB_STORE] says s3; any other
    value stops the boot. *)
Definition onDisk (e : Env) : bool :=
  let mode := ToLower (TrimSpace (getenv e "PHAZE_BLOB_STORE")) in is_empty mode || (mode ==? "disk").

Definition keyRejected (e : Env) (key : string) : bool :=
  onDisk e && bool_decide (diskPath e key = None).

(** [blobs().Put]: whether the error is nil. *)
Definition Put (key content : string) : M bool :=
  let* e := getEnv in if keyRejected e key then ret false else blobPut key content.

(** [blobs().Open] *)
Definition OpenBlob (key : string) : M blobres :=
  let* e := getEnv in if keyRejected e key then ret BlobNotFound else blobOpen key.

Definition serveBlob (key : string) : M Response :=
  let* b := OpenBlob key in
  ret (match b with
       | BlobNotFound => http_NotFound
       | BlobErr => http_Error "storage error" StatusInternalServerError
       | BlobFound c => mkResponse StatusOK [] (BFile c) []
       end).

(** ** Avatars ([avatars.go]) *)

Definition maxAvatarBytes : Z := 2 * 1024 * 1024.

(** [None] is a nil error. *)
Definition validateAvatar (e : Env) (data : string) : Err :=
  if len data =? 0 then Some "empty upload"
  else if maxAvatarBytes <? len data then Some "avatar too large (2 MB max)"
  else
    let t := detectContentType e data in
    if (t ==? "image/png") || (t ==? "image/jpeg") then None
    else Some "avatar must be a PNG or JPEG image".

Definition avatarKey (username : string) : string := "avatars/" +:+ username +:+ ".png".

Definition storageError : Response := http_Error "storage error" StatusInternalServerError.

(** The account an upload is accepted from. *)
Definition uploaderOf (r : Request) : M (Response + string) :=
  let* u := sessionUsername (tokenFromRequest r) in
  if is_empty u then ret (inl (http_Error "auth required" StatusUnauthorized))
  else
    let* ban := userBanInfo u in
    ret (if ban.1 : bool then inl (http_Error "account suspended" StatusForbidden) else inr u).

(** [body] is [None] when it exceeds the cap on the request. *)
Definition avatarUploadHandler (r : Request) (body : option string) : M Response :=
  if negb (rqMethod r ==? "POST") then ret (http_Error "POST required" StatusMethodNotAllowed)
  else
    let* who := uploaderOf r in
    match who with
    | inl rs => ret rs
    | inr username =>
        let* e := getEnv in
        match body with
        | None => ret (http_Error "avatar too large (2 MB max)" StatusRequestEntityTooLarge)
        | Some data =>
            match validateAvatar e data with
            | Some err => ret (http_Error err StatusBadRequest)
            | None =>
                match imageDecode e data with
                | None => ret (http_Error "could not read image" StatusBadRequest)
                | Some img =>
                    match pngEncode e img with
                    | None => ret storageError
                    | Some png =>
                        let* ok := Put (avatarKey username) png in
                        ret (if ok then respJSON StatusOK [("ok", JBool true)] else storageError)
                    end
                end
            end
        end
    end.

Definition avatarHandler (r : Request) : M Response :=
  let username := TrimPrefix (rqPath r) "/api/v1/avatars/" in
  if is_empty username then ret (http_Error "Username required" StatusBadRequest)
  else
    let* rs := (if validUsername username then serveBlob (avatarKey username) else ret http_NotFound) in
    ret (withHeaders [("Cache-Control", "no-cache")] rs).

(** ** Uploads *)

Definition maxUploadBytes : Z := 25 * 1024 * 1024.

(** The [file] field of the form. *)
Record FormFile := mkFormFile {
  ffName : string;
  ffSize : Z;
  ffType : string;
  ffContent : string }.

(** What [ParseMultipartForm] and [FormFile] give. *)
Inductive upload := TooLarge | NoFile | File (f : FormFile).

Definition allowedExts : list string := [
  ".png"; ".jpg"; ".jpeg"; ".gif"; ".webp"; ".bmp"; ".heic";
  ".mp4"; ".mov"; ".webm"; ".m4a"; ".mp3"; ".ogg"; ".wav";
  ".pdf"; ".txt"; ".md"; ".log"; ".csv"; ".json"].

Definition sniffedExts : list string := [".png"; ".jpg"; ".jpeg"; ".gif"; ".webp"; ".bmp"].

Definition inList (s : string) (l : list string) : bool := existsb (fun x => x ==? s) l.

(** Whether the sniffed type fits the extension. *)
Definition contentMatches (ext detected : string) : bool :=
  if existsb (fun p => HasPrefix ext p) sniffedExts then HasPrefix detected "image/"
  else if ext ==? ".pdf" then detected ==? "application/pdf" else true.

Definition uploadKey (name : string) : string := "uploads/" +:+ name.

Definition uploadHandler (r : Request) (u : upload) : M Response :=
  if negb (rqMethod r ==? "POST") then ret (http_Error "POST required" StatusMethodNotAllowed)
  else
    let* who := uploaderOf r in
    match who with
    | inl rs => ret rs
    | inr uploader =>
        match u with
        | TooLarge => ret (http_Error "file too large or malformed" StatusRequestEntityTooLarge)
        | NoFile => ret (http_Error "missing file field" StatusBadRequest)
        | File f =>
            if maxUploadBytes <? ffSize f then
              ret (http_Error "file exceeds 25MB" StatusRequestEntityTooLarge)
            else
              let* ok := allowUpload uploader in
              if negb ok then
                ret (http_Error ("upload rate limit exceeded " +:+ emDash +:+ " try again later")
                       StatusTooManyRequests)
              else
                let ext := ToLower (Ext (ffName f)) in
                if negb (inList ext allowedExts) then
                  ret (http_Error "file type not allowed" StatusUnsupportedMediaType)
                else
                  let* e := getEnv in
                  let detected := detectContentType e (take_bytes 512 (ffContent f)) in
                  if negb (contentMatches ext detected) then
                    ret (http_Error "file content does not match extension" StatusUnsupportedMediaType)
                  else
                    let* rnd := randHex 16 in
                    match rnd with
                    | None => ret (http_Error "rng error" StatusInternalServerError)
                    | Some rnd =>
                        let* ok := Put (uploadKey (rnd +:+ ext)) (ffContent f) in
                        if negb ok then ret (http_Error "write error" StatusInternalServerError)
                        else
                          ret (respJSON StatusOK [("url", JStr ("/uploads/" +:+ rnd +:+ ext));
                                 ("name", JStr (Base (ffName f))); ("size", JNum (ffSize f));
                                 ("mime", JStr (ffType f))])
                    end
        end
    end.

Definition inlineExts : list string := [".png"; ".jpg"; ".jpeg"; ".gif"; ".webp"; ".bmp"; ".heic"].

Definition quoteName (name : string) : string :=
  "attachment; filename=" +:+ of_bytes [34] +:+ name +:+ of_bytes [34].

Definition uploadsServeHandler (r : Request) : M Response :=
  let name := Base (TrimPrefix (rqPath r) "/uploads/") in
  if is_empty name || (name ==? ".") || (name ==? "/") then ret http_NotFound
  else
    let* rs := serveBlob (uploadKey name) in
    ret (withHeaders
           ([("Cache-Control", "public, max-age=86400"); ("X-Content-Type-Options", "nosniff")]
            ++ (if inList (ToLower (Ext name)) inlineExts then []
                else [("Content-Disposition", quoteName name)])) rs).

(** [/downloads/]: files of [public/downloads], which are not user files. *)
Definition downloadHeaders (name : string) : list (string * string) :=
  if HasSuffix name ".apk" then
    [("Content-Type", "application/octet-stream"); ("Content-Disposition", quoteName "Phaze.apk");
     ("X-Content-Type-Options", "nosniff"); ("Cache-Control", "no-store")]
  else if HasSuffix name ".exe" then
    [("Content-Type", "application/octet-stream"); ("Content-Disposition", quoteName "Phaze.exe");
     ("Cache-Control", "no-store")]
  else if HasSuffix name ".linux" then
    [("Content-Type", "application/octet-stream"); ("Content-Disposition", quoteName "Phaze.linux");
     ("Cache-Control", "no-store")]
  else [].

Definition fileDownloadHandler (r : Request) : M Response :=
  let name := Base (TrimPrefix (rqPath r) "/downloads/") in
  if is_empty name || (name ==? ".") || (name ==? "/") then ret http_NotFound
  else
    let* e := getEnv in
    ret (withHeaders (downloadHeaders name) (ServeFile e r ("public/downloads/" +:+ name))).

(** ** Frames *)

Section FileFrames.
Context (R : World -> World -> Prop) `{HR : !PreOrder R}.
Lemma respects_Put `{!FreesBlob R} k c : respects R (Put k c).
Proof using HR. unfold Put. frame. Qed.
Lemma respects_serveBlob k : respects R (serveBlob k).
Proof using HR. unfold serveBlob, OpenBlob. frame. Qed.
Lemma respects_uploaderOf `{!FreesSql R} r : respects R (uploaderOf r).
Proof using HR. unfold uploaderOf, userBanInfo. frame. Qed.
End FileFrames.
#[export] Hint Resolve respects_Put respects_serveBlob respects_uploaderOf : frame.

Lemma safe_avatarUploadHandler r b : respects safe (avatarUploadHandler r b).
Proof. unfold avatarUploadHandler. frame. Qed.
Lemma safe_avatarHandler r : respects safe (avatarHandler r).
Proof. unfold avatarHandler. frame. Qed.
Lemma safe_uploadHandler r u : respects safe (uploadHandler r u).
Proof. unfold uploadHandler. frame. Qed.
Lemma safe_uploadsServeHandler r : respects safe (uploadsServeHandler r).
Proof. unfold uploadsServeHandler. frame. Qed.
Lemma safe_fileDownloadHandler r : respects safe (fileDownloadHandler r).
Proof. unfold fileDownloadHandler. frame. Qed.
#[export] Hint Resolve safe_avatarUploadHandler safe_avatarHandler safe_uploadHandler
  safe_uploadsServeHandler safe_fileDownloadHandler : frame.
