(* ===== verification/Status.v ===== *)
(** * Health, status page and update manifest ([status_page.go], [main.go])

    The ring of health samples behind [/status], the [/health], [/metrics] and
    [/api/v1/stats] endpoints, and the cached release manifest of
    [/api/v1/version]. *)

From Stdlib Require Import ZArith Lia Ascii Sorted.
From stdpp Require Import base strings list gmap sorting.
From S2P Require Import Prelude GoRt GoStd Json Netutil Store Wire Db World Wf Registry Http Email Sessions.
From S2P Require Import CfTurn Accounts Samples.

Open Scope string_scope.
Open Scope list_scope.
Open Scope Z_scope.

(** ** Health samples *)

Definition healthHistMax : nat := 1440.

Definition pushSample (now : Z) (ok : bool) (l : list (Z * bool)) : list (Z * bool) :=
  lastN healthHistMax (l ++ [(now, ok)]).

Definition recordHealth (ok : bool) : M unit :=
  let* now := getNow in
  modSrv (fun s => set_healthHist (pushSample now ok (healthHist s)) s).

Definition okCount (l : list (Z * bool)) : Z := Z.of_nat (length (boolfilter snd l)).

(** The last sample that was down; [zeroTime] when none was. *)
Definition lastDown (l : list (Z * bool)) : Z :=
  foldl (fun t x => if x.2 : bool then t else x.1) zeroTime l.

(** [currentHealthSummary]: the uptime in percent as a numerator and a
    denominator, the last outage, the number of samples. *)
Definition currentHealthSummary (l : list (Z * bool)) : Z * Z * Z * Z :=
  match l with
  | [] => (100, 1, zeroTime, 0)
  | _ => (okCount l * 100, Z.of_nat (length l), lastDown l, Z.of_nat (length l))
  end.

Definition healthHistorySnapshot (l : list (Z * bool)) : list (Z * bool) := order_by fst l.

Definition probeSelf : M bool :=
  let* e := getEnv in
  let* now := getNow in
  ret (match selfProbe e now with Some code => (200 <=? code) && (code <? 300) | None => false end).

(** One tick of [startStatusProber]. *)
Definition statusProbe : M unit := let* ok := probeSelf in recordHealth ok.

(** The badge of the page: its class and its text. *)
Definition statusBadge (num den total : Z) : string * string :=
  if (0 <? total) && (num <? 95 * den) then ("down", "Service degraded")
  else if (0 <? total) && (num <? 99 * den)
  then ("warn", "Recent incidents " +:+ of_bytes [226; 128; 148] +:+ " see below")
  else ("ok", "All systems operational").

(** [t.Format("2006-01-02 15:04 UTC")] *)
Definition FormatMinute (t : Z) : string :=
  let s := t / Second mod 86400 in
  dateText (t / Second / 86400) +:+ " " +:+ pad0 2 (s / 3600) +:+ ":" +:+ pad0 2 (s / 60 mod 60) +:+ " UTC".

Definition lastDownText (t : Z) : string :=
  if t =? zeroTime then "No outages recorded in current window." else "Last down: " +:+ FormatMinute t.

(** The bars of the sparkline: class and time of each sample. *)
Definition statusBars (l : list (Z * bool)) : list string :=
  concat ((fun x : Z * bool => [if x.2 then "ok" else "down"; RFC3339 x.1]) <$> healthHistorySnapshot l).

(** The page's arguments: badge, uptime (numerator, denominator), outage,
    samples, bars. *)
Definition statusPageHandler (r : Request) : M Response :=
  let* s := getSrv in
  let '(num, den, down, total) := currentHealthSummary (healthHist s) in
  let badge := statusBadge num den total in
  ret (withHeaders [("Cache-Control", "no-cache")]
         (mkResponse StatusOK []
            (BPage "status" ([badge.1; badge.2; Itoa num; Itoa den; lastDownText down; Itoa total]
                             ++ (if total =? 0 then ["empty"] else statusBars (healthHist s)))) [])).

(** ** [/health], [/metrics], [/api/v1/stats] *)

Definition healthHandler (r : Request) : M Response :=
  let* e := getEnv in
  let* now := getNow in
  let dbOK := dbPing e now in
  let* turn := turnProvider in
  let* clients := onlineUserCount in
  let v := getenv e "Phaze_LATEST_VERSION" in
  let resendOK := set_ e "RESEND_API_KEY" in
  let brevoOK := set_ e "BREVO_API_KEY" in
  ret (respJSON (if dbOK then StatusOK else StatusServiceUnavailable)
    [("status", JStr (if dbOK then "ok" else "degraded")); ("server", JStr "phaze-nexus");
     ("version", JStr (if is_empty v then "1.0.0-Phaze" else v)); ("database_ok", JBool dbOK);
     ("turn_configured", JBool (negb (is_empty turn)));
     ("turn_public_fallback", JBool (is_empty turn)); ("turn_provider", JStr turn);
     ("mail_relay_configured", JBool (negb (is_empty (mailRelayURL e))));
     ("smtp_configured", JBool (resendOK || brevoOK || (set_ e "SMTP_HOST" && set_ e "SMTP_USER")));
     ("brevo_configured", JBool brevoOK); ("resend_configured", JBool resendOK);
     ("webpush_configured", JBool (set_ e "VAPID_PUBLIC_KEY" && set_ e "VAPID_PRIVATE_KEY"));
     ("fcm_configured", JBool (fcmClient e)); ("sentry_configured", JBool (set_ e "SENTRY_DSN"));
     ("litestream_configured", JBool (set_ e "LITESTREAM_BUCKET" || set_ e "BUCKET_NAME"));
     ("connected_clients", JNum clients)]).

(** The counters of the Prometheus page, in order, without their comment
    lines.  The two WebSocket connection counters are not kept here. *)
Definition metricsLines (m : nexusMetrics) (active users pending : Z) : list (string * Z) := [
  ("nexus_active_clients", active);
  ("nexus_registered_users", users);
  ("nexus_offline_messages_pending", pending);
  ("nexus_ws_messages_in_total", wsMessagesIn m);
  ("nexus_auth_total{result=ok}", authSuccess m);
  ("nexus_auth_total{result=fail}", authFailure m);
  ("nexus_key_requests_total", keyRequests m);
  ("nexus_convo_messages_total", convoMessages m);
  ("nexus_pstn_total{result=attempt}", pstnAttempts m);
  ("nexus_pstn_total{result=rejected_disabled}", pstnRejected m)].

Definition metricsAllowed (e : Env) (r : Request) : bool :=
  let tok := TrimSpace (getenv e "PHAZE_METRICS_TOKEN") in
  is_empty tok || (rqHeader r "Authorization" ==? "Bearer " +:+ tok).

Definition metricsHandler (r : Request) : M Response :=
  let* e := getEnv in
  if negb (metricsAllowed e r) then ret (http_Error "forbidden" StatusForbidden)
  else
    let* active := onlineUserCount in
    let* pending := CountOr0 (fun d => tcount (fun _ => true) (offline_messages d)) in
    let* total := CountOr0 (fun d => tcount (fun _ => true) (users d)) in
    let* s := getSrv in
    let* now := getNow in
    ret (mkResponse StatusOK []
      (BJson (JObj ([("nexus_uptime_seconds", JFrac (now - metricsStart e) Second)]
        ++ ((fun kv : string * Z => (kv.1, JNum kv.2)) <$> metricsLines (metrics s) active total pending)
        ++ [("go_memstats_alloc_bytes", JNum (memAlloc e)); ("go_goroutines", JNum (numGoroutine e))]))) []).

Definition statsHandler (r : Request) : M Response :=
  let* active := onlineUserCount in
  let* total := CountOr0 (fun d => tcount (fun _ => true) (users d)) in
  let* now := getNow in
  ret (respJSON StatusOK [("active_nodes", JNum active); ("total_members", JNum total);
         ("timestamp", JNum (now / Second)); ("status", JStr "online")]).

(** ** The release manifest *)

Definition updateTTL : Z := 5 * Minute.

(** The platform key of an asset; the empty string when it is none of ours. *)
Definition classifyAsset (name : string) : string :=
  let low := ToLower name in
  if HasSuffix low ".exe" || Contains low "windows" then "windows"
  else if HasSuffix low ".apk" then "android"
  else if HasSuffix low ".linux" || Contains low "linux" then "linux"
  else "".

(** One line of [checksums.txt]: the name and its lower-case sum. *)
Definition checksumLine (line : string) : option (string * string) :=
  let line := TrimSpace line in
  if is_empty line || HasPrefix line "#" then None
  else
    match Fields line with
    | [sum; name] =>
        if negb (len sum =? 64) then None else Some (TrimPrefix name "*", ToLower sum)
    | _ => None
    end.

Definition parseChecksums (body : string) : gmap string string :=
  foldl (fun m line => match checksumLine line with Some (n, s) => <[n := s]> m | None => m end) ∅
        (Split body "010"%char).

(** A nil map reads as the empty one. *)
Definition fetchChecksums (e : Env) (now : Z) (url : string) : gmap string string :=
  if is_empty url then ∅
  else
    match checksumsTxt e now url with
    | HTTPStatus 200 (Some body) => parseChecksums body
    | _ => ∅
    end.

Definition checksumsURL (assets : list ghAsset) : string :=
  match find_first (fun a => EqualFold (gaName a) "checksums.txt") assets with
  | Some a => gaURL a
  | None => ""
  end.

(** The loop over the assets: the first one of each platform wins. *)
Definition platformStep (sums : gmap string string) (m : gmap string PlatformAsset) (a : ghAsset)
  : gmap string PlatformAsset :=
  let plat := classifyAsset (gaName a) in
  if is_empty plat then m
  else match m !! plat with
       | Some _ => m
       | None => <[plat := mkPlatformAsset (gaURL a) (default "" (sums !! gaName a)) (gaSize a) (gaName a)]> m
       end.

Definition platformsOf (sums : gmap string string) (assets : list ghAsset) : gmap string PlatformAsset :=
  foldl (platformStep sums) ∅ assets.

(** The manifest made of environment variables alone. *)
Definition envManifest (e : Env) (now : Z) (repo : string) : UpdateManifest :=
  let url := TrimSpace (getenv e "Phaze_UPDATE_URL") in
  mkManifest (TrimSpace (getenv e "Phaze_LATEST_VERSION"))
    (if is_empty url then "https://github.com/" +:+ repo +:+ "/releases/latest" else url)
    "" "" ∅ (now / Second) "env".

Definition releaseManifest (e : Env) (now : Z) (rel : ghRelease) : UpdateManifest :=
  let version := TrimPrefix (grTag rel) "v" in
  mkManifest (if is_empty version then TrimSpace (getenv e "Phaze_LATEST_VERSION") else version)
    (grHTMLURL rel) (grBody rel) (grPublishedAt rel)
    (platformsOf (fetchChecksums e now (checksumsURL (grAssets rel))) (grAssets rel))
    (now / Second) "github".

Definition refreshUpdateManifest (e : Env) (now : Z) (repo : string) : UpdateManifest :=
  if is_empty repo then envManifest e now repo
  else
    match ghLatest e now with
    | HTTPStatus 200 (Some rel) => releaseManifest e now rel
    | _ => envManifest e now repo
    end.

Definition releaseRepo (e : Env) : string :=
  let repo := TrimSpace (getenv e "PHAZE_RELEASE_REPO") in
  if is_empty repo then "jakes1345/phazechat.world" else repo.

Definition assetJSON (kv : string * PlatformAsset) : string * jval :=
  (kv.1, JObj [("url", JStr (paURL kv.2)); ("sha256", JStr (paSHA256 kv.2)); ("size", JNum (paSize kv.2));
               ("name", JStr (paName kv.2))]).

Definition optField (k v : string) : list (string * jval) := if is_empty v then [] else [(k, JStr v)].

Definition manifestJSON (m : UpdateManifest) : jval :=
  JObj ([("version", JStr (umVersion m)); ("release_url", JStr (umReleaseURL m))]
        ++ optField "release_notes" (umReleaseNotes m) ++ optField "published_at" (umPublishedAt m)
        ++ [("platforms", JObj (assetJSON <$> map_to_list (umPlatforms m)));
            ("refreshed_at", JNum (umRefreshedAt m)); ("source", JStr (umSource m));
            ("url", JStr (umReleaseURL m))]).

(** The manifest to answer with, after the cache. *)
Definition currentManifest : M UpdateManifest :=
  let* e := getEnv in
  let* now := getNow in
  let* s := getSrv in
  let c := updates s in
  if (now <? ucExpires c) && (0 <? umRefreshedAt (ucManifest c)) then ret (ucManifest c)
  else
    let m := refreshUpdateManifest e now (releaseRepo e) in
    modSrv (set_updates (mkUpdateCache m (now + updateTTL))) ;;;
    ret m.

Definition versionHandler (r : Request) : M Response :=
  let* m := currentManifest in
  ret (withHeaders [("Cache-Control", "public, max-age=60")]
         (mkResponse StatusOK [] (BJson (manifestJSON m)) [])).

(** ** Frames *)

Lemma safe_recordHealth ok : respects safe (recordHealth ok). Proof. frame_deep. Qed.
Lemma safe_statusProbe : respects safe statusProbe. Proof. frame_deep. Qed.
Lemma safe_statusPageHandler r : respects safe (statusPageHandler r). Proof. frame_deep. Qed.
Lemma safe_healthHandler r : respects safe (healthHandler r).
Proof. unfold healthHandler, onlineUserCount. frame. Qed.
Lemma safe_metricsHandler r : respects safe (metricsHandler r).
Proof. unfold metricsHandler, onlineUserCount. frame. Qed.
Lemma safe_statsHandler r : respects safe (statsHandler r).
Proof. unfold statsHandler, onlineUserCount. frame. Qed.
Lemma safe_currentManifest : respects safe currentManifest.
Proof. unfold currentManifest. frame. Qed.
#[export] Hint Resolve safe_recordHealth safe_statusProbe safe_statusPageHandler safe_healthHandler
  safe_metricsHandler safe_statsHandler safe_currentManifest : frame.
Lemma safe_versionHandler r : respects safe (versionHandler r).
Proof. unfold versionHandler. frame. Qed.
#[export] Hint Resolve safe_versionHandler : frame.

Example classify_ok :
  classifyAsset <$> ["Phaze.EXE"; "phaze_linux_amd64.tar.gz"; "Phaze.apk"; "notes.md"; "darwin.zip"]
  = ["windows"; "linux"; "android"; ""; ""].
Proof. reflexivity. Qed.

(** ** What the status page shows

    The in-memory history of health samples against the full list of probes. *)

Lemma lastN_app_lastN {A} n (l k : list A) : lastN n (lastN n l ++ k) = lastN n (l ++ k).
Proof.
  unfold lastN. rewrite !length_app, length_drop, <- drop_app_le, drop_drop by lia. f_equal. lia.
Qed.

Lemma length_lastN {A} n (l : list A) : (length (lastN n l) <= n)%nat.
Proof. unfold lastN. rewrite length_drop. lia. Qed.

(** One answer of the probe. *)
Definition up (e : Env) (t : Z) : bool :=
  match selfProbe e t with Some code => (200 <=? code) && (code <? 300) | None => false end.

(** The prober's ticks, at the given times. *)
Fixpoint probes (ts : list Z) (w : World) : World :=
  match ts with
  | [] => w
  | t :: ts' => probes ts' (statusProbe (set_wNow t w)).2
  end.

Definition sampleOf (e : Env) (t : Z) : Z * bool := (t, up e t).

Lemma statusProbe_run t w :
  (statusProbe (set_wNow t w)).2 =
    set_wSrv (set_healthHist (pushSample t (up (wEnv w) t) (healthHist (wSrv w))) (wSrv w)) (set_wNow t w).
Proof. reflexivity. Qed.

Lemma probes_run ts w all :
  healthHist (wSrv w) = lastN healthHistMax all ->
  healthHist (wSrv (probes ts w)) = lastN healthHistMax (all ++ (sampleOf (wEnv w) <$> ts)).
Proof.
  revert w all. induction ts as [|t ts IH]; intros w all Hw; [by rewrite app_nil_r|].
  cbn [probes]. rewrite statusProbe_run, fmap_cons.
  replace (all ++ sampleOf (wEnv w) t :: (sampleOf (wEnv w) <$> ts))
    with ((all ++ [sampleOf (wEnv w) t]) ++ (sampleOf (wEnv w) <$> ts)) by (by rewrite <- app_assoc).
  apply (IH (set_wSrv (set_healthHist (pushSample t (up (wEnv w) t) (healthHist (wSrv w))) (wSrv w))
               (set_wNow t w))).
  cbn [wSrv set_wSrv healthHist set_healthHist]. unfold pushSample. rewrite Hw.
  apply lastN_app_lastN.
Qed.

(** ** The summary *)

Lemma okCount_range l : 0 <= okCount l <= Z.of_nat (length l).
Proof. unfold okCount. pose proof (length_boolfilter_le snd l). lia. Qed.

Lemma okCount_all l : okCount l = Z.of_nat (length l) <-> Forall (fun x : Z * bool => x.2 = true) l.
Proof.
  unfold okCount. induction l as [|x l IH]; [done|]. rewrite boolfilter_cons, Forall_cons.
  pose proof (length_boolfilter_le snd l). destruct x as [t []]; cbn [snd length].
  - rewrite <- IH. lia.
  - split; [lia | by intros [? _]].
Qed.

Lemma lastDown_app l x : lastDown (l ++ [x]) = if x.2 : bool then lastDown l else x.1.
Proof. unfold lastDown. by rewrite foldl_app. Qed.

(** The reported outage is the latest failed sample. *)
Lemma lastDown_latest l :
  StronglySorted Z.le (fst <$> l) ->
  Forall (fun x : Z * bool => x.2 = true) l /\ lastDown l = zeroTime
  \/ (lastDown l, false) ∈ l /\ forall t, (t, false) ∈ l -> t <= lastDown l.
Proof.
  induction l as [|x l IH] using rev_ind; intros Hs; [by left|].
  rewrite fmap_app in Hs. rewrite lastDown_app.
  assert (Hle : forall y, y ∈ l -> y.1 <= x.1).
  { intros y Hy. eapply (StronglySorted_app_1_elem_of _ (fst <$> l) [x.1]); [exact Hs | by apply list_elem_of_fmap_2 | left]. }
  apply StronglySorted_app_1_l in Hs. specialize (IH Hs).
  destruct x as [t []]; cbn [fst snd] in *.
  - destruct IH as [[H1 H2]|[H1 H2]].
    + left. split; [apply Forall_app_2; [done | by constructor] | done].
    + right. split; [apply elem_of_app; by left|].
      intros t' [H|H%list_elem_of_singleton]%elem_of_app; [by apply H2 | done].
  - right. split; [apply elem_of_app; right; left|].
    intros t' [H|H%list_elem_of_singleton]%elem_of_app; [exact (Hle _ H) | by simplify_eq].
Qed.

Lemma sorted_lastN n (l : list (Z * bool)) :
  StronglySorted Z.le (fst <$> l) -> StronglySorted Z.le (fst <$> lastN n l).
Proof.
  intros H. unfold lastN. set (a := (length l - n)%nat). rewrite <- (take_drop a l), fmap_app in H.
  by apply StronglySorted_app_1_r in H.
Qed.

(** The status page tells the last day.  However many probes have run, at
    non-decreasing times, since the start: the history is exactly the newest
    1440 of them, in order (so that sorting a snapshot changes nothing); the
    page counts them all, its uptime is a percentage, full exactly when every
    one passed, and the outage it names is the latest failure among them. *)
Theorem status_window ts w :
  healthHist (wSrv w) = [] -> StronglySorted Z.le ts ->
  let hist := lastN healthHistMax (sampleOf (wEnv w) <$> ts) in
  let '(num, den, down, total) := currentHealthSummary hist in
  healthHist (wSrv (probes ts w)) = hist
  /\ healthHistorySnapshot hist = hist
  /\ total = Z.of_nat (length hist) /\ total <= 1440
  /\ 0 < den /\ 0 <= num <= 100 * den
  /\ (num = 100 * den <-> Forall (fun x => x.2 = true) hist)
  /\ (Forall (fun x => x.2 = true) hist -> down = zeroTime)
  /\ (~ Forall (fun x => x.2 = true) hist ->
      (down, false) ∈ hist /\ forall t, (t, false) ∈ hist -> t <= down).
Proof.
  intros H0 Hs hist.
  assert (Hts : StronglySorted Z.le (fst <$> hist)).
  { apply sorted_lastN. rewrite <- list_fmap_compose.
    replace (fst ∘ sampleOf (wEnv w) <$> ts) with ts; [done|]. symmetry. apply list_fmap_id. }
  assert (Hrun : healthHist (wSrv (probes ts w)) = hist) by (by apply (probes_run ts w [])).
  assert (Hsnap : healthHistorySnapshot hist = hist) by (by apply order_by_sorted).
  pose proof (length_lastN healthHistMax (sampleOf (wEnv w) <$> ts)) as Hlen. fold hist in Hlen.
  pose proof (okCount_range hist) as Hok. pose proof (okCount_all hist) as Hall.
  destruct (lastDown_latest hist Hts) as [[Hup Hd]|[Hd1 Hd2]].
  - unfold currentHealthSummary. destruct hist as [|x l]; cbn [length] in *;
      split_and!; try done; try lia; unfold healthHistMax in *; try lia.
    split; [done | intros _; apply Hall in Hup; lia].
  - assert (Hnot : ~ Forall (fun x : Z * bool => x.2 = true) hist).
    { intros H. rewrite Forall_forall in H. by specialize (H _ Hd1). }
    unfold currentHealthSummary. destruct hist as [|x l]; [by apply elem_of_nil in Hd1|].
    cbn [length] in *. unfold healthHistMax in *.
    split_and!; try done; try lia. split; [|done]. intros H. apply Hall. lia.
Qed.

(** Three probes, the second of which fails. *)
Definition flaky : Env := env0 |> set_selfProbe (fun t => if t =? T0 + Minute then None else Some 200).

Lemma status_window_witness :
  let ts := [T0; T0 + Minute; T0 + 2 * Minute] in
  let w := set_wEnv flaky sampleW in
  healthHist (wSrv (probes ts w)) = [(T0, true); (T0 + Minute, false); (T0 + 2 * Minute, true)]
  /\ currentHealthSummary (healthHist (wSrv (probes ts w))) = (200, 3, T0 + Minute, 3).
Proof.
  cbv zeta. pose proof (status_window [T0; T0 + Minute; T0 + 2 * Minute] (set_wEnv flaky sampleW) eq_refl) as H.
  destruct H as (-> & _).
  { repeat constructor; vm_compute; discriminate. }
  split; vm_compute; reflexivity.
Defined.
