(* ===== verification/Pages.v ===== *)
(** * Public pages and account endpoints ([main.go])

    Profiles, the data export, the password-reset form, the verification link,
    the runtime configuration and the other small routes of [main]; and
    [cmd/seed-admin], which writes the same tables from the command line. *)

From Stdlib Require Import ZArith Lia Ascii.
From stdpp Require Import base strings list gmap.
From S2P Require Import Prelude GoRt GoStd Json Store Wire Db World Wf Registry Http Email Sessions.
From S2P Require Import Social Rewards Spaces Accounts Supporters.

Open Scope string_scope.
Open Scope list_scope.
Open Scope Z_scope.

Definition profileHandler (r : Request) : M Response :=
  let username := TrimPrefix (rqPath r) "/api/v1/profile/" in
  if is_empty username then ret (http_Error "Username required" StatusBadRequest)
  else
    let* row := QueryRow (userIn username) in
    match row with
    | None => ret (http_Error "User not found" StatusNotFound)
    | Some u =>
        let* amb := isAmbassador username in
        ret (respJSON StatusOK [("username", JStr username);
               ("display_name", JStr (default "" (u_display_name u))); ("mood", JStr (u_mood u));
               ("supporter", JBool (u_supporter u =? 1)); ("ambassador", JBool amb)])
    end.

(** ** The export *)

(** A nil slice encodes as null. *)
Definition jslice (l : list jval) : jval := match l with [] => JNull | _ => JArr l end.

Definition queuedWith (username : string) (d : Database) : list OfflineMessage :=
  order_by om_created_at
    (tselect (fun m => (om_sender m ==? username) || (om_recipient m ==? username)) (offline_messages d)).

Definition queuedJSON (m : OfflineMessage) : jval :=
  JObj [("from", JStr (om_sender m)); ("to", JStr (om_recipient m)); ("body", JStr (om_body m));
        ("at", JStr (FormatRFC3339 (om_created_at m)))].

Definition exportNote : string :=
  "Live E2EE messages are not stored server-side. This export contains only metadata and queued offline messages.".

Definition exportUserData (username : string) : M (list (string * jval)) :=
  let* p := ScanOr ("", "", "") (fun d =>
    (fun u => (u_email u, u_mood u, default "" (u_display_name u))) <$> userIn username d) in
  let* friends := Query (friendsOf username) in
  let* msgs := Query (queuedWith username) in
  let* now := getNow in
  ret [("username", JStr username); ("email", JStr p.1.1); ("mood", JStr p.1.2);
       ("display_name", JStr p.2); ("friends", jslice (JStr <$> default [] friends));
       ("messages", jslice (queuedJSON <$> default [] msgs)); ("exported_at", JStr (RFC3339 now));
       ("note", JStr exportNote)].

Definition exportToken (r : Request) : string :=
  let tok := TrimSpace (tokenFromRequest r) in if is_empty tok then rqQuery r "token" else tok.

Definition exportHandler (r : Request) : M Response :=
  let tok := exportToken r in
  if is_empty tok then ret (http_Error "token required" StatusUnauthorized)
  else
    let* username := sessionUsername tok in
    if is_empty username then ret (http_Error "invalid or expired session" StatusUnauthorized)
    else
      let* data := exportUserData username in
      ret (respJSON StatusOK data).

(** ** The reset form *)

Record ResetForm := mkResetForm { rfToken : string; rfPassword : string }.

(** The form's fields, [None] when it does not parse.  The page carries the
    token of the query string as it came. *)
Definition resetHandler (r : Request) (form : option ResetForm) : M Response :=
  if rqMethod r ==? "POST" then
    match form with
    | None => ret (http_Error "bad form" StatusBadRequest)
    | Some f =>
        let* err := consumePasswordReset (rfToken f) (rfPassword f) in
        ret (mkResponse StatusOK []
               (match err with
                | Some e => BPage "Reset failed" [e]
                | None => BPage "Password updated" []
                end) [])
    end
  else
    let token := rqQuery r "token" in
    if is_empty token then ret (http_Error "missing token" StatusBadRequest)
    else ret (mkResponse StatusOK [] (BPage "Reset Phaze password" [token]) []).

(** ** The link in the verification mail *)

Definition verifyEmailHandler (r : Request) : M Response :=
  let u := rqQuery r "u" in
  let code := rqQuery r "code" in
  if is_empty u || is_empty code then ret (http_Error "Missing parameters" StatusBadRequest)
  else
    let* ok := verifyUser u code in
    if ok : bool then
      autoJoinGlobalSpace u ;;;
      onReferralVerified u ;;;
      ret (mkResponse StatusOK [] (BPage "Verified!" []) [])
    else ret (mkResponse StatusOK [] (BPage "Verification Failed" []) []).

(** ** Small routes *)

Definition configHandler (r : Request) : M Response :=
  let* e := getEnv in
  let bmc := getenv e "BMC_URL" in
  ret (withHeaders [("Cache-Control", "public, max-age=300")]
    (respJSON StatusOK
      [("bmc_url", JStr (if is_empty bmc then "https://buymeacoffee.com/phazeworld" else bmc));
       ("support_email", JStr (getenv e "PHAZE_SUPPORT_EMAIL")); ("version", JStr "1.0.0-Phaze")])).

Definition vapidKeyHandler (r : Request) : M Response :=
  let* e := getEnv in
  ret (withHeaders [("Access-Control-Allow-Origin", "*")]
         (respJSON StatusOK [("publicKey", JStr (getenv e "VAPID_PUBLIC_KEY"))])).

Definition landingHandler (r : Request) : M Response :=
  let* e := getEnv in
  ret (if negb (rqPath r ==? "/") then http_NotFound
       else if bool_decide (is_Some (diskFile e "templates/landing.html"))
       then ServeFile e r "templates/landing.html"
       else mkResponse StatusOK [] (BPage "rootHTML" []) []).

(** [downloadHandler] and the other static pages. *)
Definition downloadHandler (r : Request) : M Response :=
  let* e := getEnv in
  ret (withHeaders (if HasSuffix (rqPath r) ".apk"
                    then [("Content-Type", "application/vnd.android.package-archive")] else [])
         (ServeFile e r "templates/download.html")).

Definition templatePage (name : string) (r : Request) : M Response :=
  let* e := getEnv in ret (ServeFile e r ("templates/" +:+ name +:+ ".html")).

Definition featuresHandler := templatePage "features".
Definition ratesHandler := templatePage "rates".
Definition aboutHandler := templatePage "about".
Definition supportHandler := templatePage "support".
Definition privacyHandler := templatePage "privacy".
Definition termsHandler := templatePage "terms".
Definition legalHandler := templatePage "legal".

Definition twimlHandler (r : Request) : M Response :=
  ret (withHeaders [("Content-Type", "text/xml")]
         (mkResponse StatusOK [] (BPage "twiml" []) [])).

(** ** [cmd/seed-admin]

    The tool's exit status is 0 when it returns [true].  Errors that the tool
    only warns about do not stop it. *)

Record SeedArgs := mkSeedArgs {
  saUsername : string;
  saPassword : string;
  saEmail : string;
  saAdmin : bool }.

(** The password of the flag, or of the environment. *)
Definition seedPassword (e : Env) (a : SeedArgs) : string :=
  if is_empty (saPassword a) then TrimSpace (getenv e "PHAZE_SEED_PASSWORD") else saPassword a.

(** The columns the INSERT does not name have their defaults. *)
Definition insertSeeded (username email hash : string) (now : Z) (d : Database)
  : sqlerr + (Database * Z) :=
  match tinsert_unique (fun u => u_username u ==? username)
          (fun _ => mkUser username email "" (Some username) hash 1 None None 0 (sqlNow now) "" 0 0
                      "user" 0 "" None "" "" None "" None "Online" 0 None "") (users d) with
  | None => inl (EUnique "users.username")
  | Some t => inr (set_users t d, 1)
  end.

Definition seedUpsert (a : SeedArgs) (hash : string) : M bool :=
  let u := saUsername a in
  let* row := QueryRowE (userIn u) in
  match row with
  | RowErr => ret false
  | NoRows =>
      if is_empty (saEmail a) then ret false
      else
        let* now := getNow in
        let* res := Exec (insertSeeded u (saEmail a) hash now) in ret (isInr res)
  | Row _ => ExecOk (onUser u (fun x => set_u_is_verified 1 (set_u_password_hash hash x)))
  end.

Definition seedAdmin (a : SeedArgs) : M bool :=
  let u := saUsername a in
  let* e := getEnv in
  let pw := seedPassword e a in
  if is_empty u || negb (validUsername u) || is_empty pw || (len pw <? 8) then ret false
  else
    match bcryptGenerate e pw with
    | None => ret false
    | Some hash =>
        let* ok := seedUpsert a hash in
        if negb ok then ret false
        else
          let* ok := (if saAdmin a
                      then ExecOk (onUser u (fun x => set_u_role "super_admin" (set_u_is_admin 1 x)))
                      else ret true) in
          if negb ok then ret false
          else
            Exec_ (onUser u (fun x => set_u_ban_reason "" (set_u_is_banned 0 x))) ;;;
            Exec_ (revokeAllOf u) ;;;
            ret true
    end.

(** ** Frames *)

Lemma safe_profileHandler r : respects safe (profileHandler r). Proof. frame_deep. Qed.
Lemma safe_exportUserData u : respects safe (exportUserData u). Proof. frame_deep. Qed.
#[export] Hint Resolve safe_profileHandler safe_exportUserData : frame.
Lemma safe_exportHandler r : respects safe (exportHandler r).
Proof. unfold exportHandler. frame. Qed.
Lemma safe_resetHandler r f : respects safe (resetHandler r f).
Proof. unfold resetHandler. frame. Qed.
Lemma safe_verifyEmailHandler r : respects safe (verifyEmailHandler r). Proof. frame_deep. Qed.
Lemma safe_configHandler r : respects safe (configHandler r). Proof. frame_deep. Qed.
Lemma safe_vapidKeyHandler r : respects safe (vapidKeyHandler r). Proof. frame_deep. Qed.
Lemma safe_landingHandler r : respects safe (landingHandler r). Proof. frame_deep. Qed.
Lemma safe_downloadHandler r : respects safe (downloadHandler r). Proof. frame_deep. Qed.
Lemma safe_templatePage n r : respects safe (templatePage n r). Proof. frame_deep. Qed.
Lemma safe_twimlHandler r : respects safe (twimlHandler r). Proof. frame_deep. Qed.
Lemma safe_seedUpsert a h : respects safe (seedUpsert a h).
Proof. unfold seedUpsert, insertSeeded, onUser. frame. Qed.
#[export] Hint Resolve safe_seedUpsert : frame.
Lemma safe_seedAdmin a : respects safe (seedAdmin a).
Proof. unfold seedAdmin, onUser, revokeAllOf. frame. Qed.
#[export] Hint Resolve safe_exportHandler safe_resetHandler safe_verifyEmailHandler safe_configHandler
  safe_vapidKeyHandler safe_landingHandler safe_downloadHandler safe_templatePage safe_twimlHandler
  safe_seedAdmin : frame.
