(* ===== verification/Skype.v ===== *)
(** * Skype import ([skype_import.go])

    A user uploads the archive Skype exports; text messages and one-to-one
    contacts are copied into two tables of the importer's own. *)

From Stdlib Require Import ZArith Lia Ascii.
From stdpp Require Import base strings list gmap.
From S2P Require Import Prelude GoRt GoStd Json Store Wire Db World Wf Http Sessions Social Pages.

Open Scope string_scope.
Open Scope list_scope.
Open Scope Z_scope.

Record skypeMessage := mkSkypeMessage {
  skArrival : string;
  skType : string;
  skContent : string;
  skSender : string }.

Record skypeConversation := mkSkypeConversation {
  skID : string;
  skDisplay : string;
  skMessages : list skypeMessage }.

(** ** [stripHTML] *)

Definition find_gt (l : list Z) : option nat := fst <$> list_find (fun b => b = 62) l.

(** The regular expression [<[^>]+>] removed: at each [<], if the next [>] is
    at least one byte further, everything through it goes. *)
Fixpoint strip_tags (fuel : nat) (l : list Z) : list Z :=
  match fuel with
  | O => l
  | S f =>
      match l with
      | [] => []
      | 60 :: l' =>
          match find_gt l' with
          | Some (S j) => strip_tags f (drop (S (S j)) l')
          | _ => 60 :: strip_tags f l'
          end
      | b :: l' => b :: strip_tags f l'
      end
  end.

Definition entities : list (string * Z) :=
  [("&lt;", 60); ("&gt;", 62); ("&amp;", 38); ("&quot;", 34); ("&#39;", 39)].

(** [strings.NewReplacer(...).Replace]: one pass, nothing is read twice. *)
Fixpoint replace_entities (fuel : nat) (s : string) : string :=
  match fuel with
  | O => s
  | S f =>
      match s with
      | EmptyString => ""
      | String a s' =>
          match find_first (fun e : string * Z => HasPrefix s e.1) entities with
          | Some (e, c) => String (of_byte c) (replace_entities f (drop_bytes (String.length e) s))
          | None => String a (replace_entities f s')
          end
      end
  end.

Definition stripHTML (s : string) : string :=
  let t := of_bytes (strip_tags (S (String.length s)) (bytes s)) in
  TrimSpace (replace_entities (S (String.length t)) t).

(** ** The import *)

Definition importable (m : skypeMessage) : bool :=
  ((skType m ==? "RichText") || (skType m ==? "Text"))
  && negb (is_empty (stripHTML (skContent m))) && (len (stripHTML (skContent m)) <=? 4000).

Definition sameSkypeMessage (u c body at_ : string) (r : SkypeMessageRow) : bool :=
  (skm_username r ==? u) && (skm_conversation_id r ==? c) && (skm_sent_at r ==? at_)
  && (skm_body r ==? body).
#[export] Hint Unfold sameSkypeMessage : sqlkeys.

(** [INSERT OR IGNORE], with the number of rows added. *)
Definition importMessage (u : string) (c : skypeConversation) (m : skypeMessage) (d : Database)
  : Database * Z :=
  let body := stripHTML (skContent m) in
  let dup := sameSkypeMessage u (skID c) body (skArrival m) in
  (set_skype_import_messages
     (tinsert_ignore dup
        (fun _ => mkSkypeMessageRow u (skID c) (skDisplay c) (skSender m) body (skArrival m))
        (skype_import_messages d)) d,
   if texists dup (skype_import_messages d) then 0 else 1).

Definition sameSkypeContact (u id : string) (r : SkypeContactRow) : bool :=
  (skc_username r ==? u) && (skc_skype_id r ==? id).
#[export] Hint Unfold sameSkypeContact : sqlkeys.

Definition importContact (u : string) (c : skypeConversation) (phaze : option string) (d : Database)
  : Database :=
  set_skype_import_contacts
    (tinsert_ignore (sameSkypeContact u (skID c))
       (fun _ => mkSkypeContactRow u (skID c) (skDisplay c) phaze 0) (skype_import_contacts d)) d.

(** The account a contact has here: by display name, then by user name. *)
Definition byDisplayName (name : string) (d : Database) : option string :=
  u_username <$> tfirst (fun u => match u_display_name u with
                                  | Some n => LOWER n ==? LOWER name | None => false end) (users d).
Definition byUsername (name : string) (d : Database) : option string :=
  u_username <$> tfirst (fun u => LOWER (u_username u) ==? LOWER name) (users d).

Definition matchContact (name : string) : M string :=
  let* a := ScanOr "" (byDisplayName name) in
  if is_empty a then ScanOr "" (byUsername name) else ret a.

(** The variables of the loop: messages imported, contacts found, ids seen. *)
Record importAcc := mkImport {
  iaCount : Z;
  iaContacts : list (string * string);
  iaSeen : gset string }.

Definition importMsgStep (u : string) (c : skypeConversation) (n : Z) (m : skypeMessage) : M Z :=
  if negb (importable m) then ret n
  else
    let* res := Exec (fun d => inr (importMessage u c m d)) in
    ret (match res with inr k => n + k | inl _ => n end).

Definition importConvo (u : string) (a : importAcc) (c : skypeConversation) : M importAcc :=
  let* n := foldM (importMsgStep u c) (iaCount a) (skMessages c) in
  if bool_decide (skID c ∈ iaSeen a) || is_empty (skDisplay c) || Contains (skID c) "@thread" then
    ret (mkImport n (iaContacts a) (iaSeen a))
  else
    let* phaze := matchContact (skDisplay c) in
    Exec_ (importContact u c (if is_empty phaze then None else Some phaze)) ;;;
    ret (mkImport n (iaContacts a ++ [(skDisplay c, phaze)]) ({[ skID c ]} ∪ iaSeen a)).

(** A member of the archive: its name and, when it opens and decodes, the
    conversations of the export. *)
Record zipEntry := mkZipEntry { zName : string; zConvos : option (list skypeConversation) }.

Definition convosOf (z : zipEntry) : list skypeConversation :=
  if HasSuffix (zName z) ".json" then default [] (zConvos z) else [].

Inductive skypeUpload := SkTooLarge | SkNoFile | SkReadError | SkBadZip | SkZip (l : list zipEntry).

Definition contactJSON (c : string * string) : jval :=
  JObj ([("display_name", JStr c.1)]
        ++ (if is_empty c.2 then [] else [("phaze_username", JStr c.2)])
        ++ [("on_phaze", JBool (negb (is_empty c.2)))]).

Definition authRequired : Response := http_Error "auth required" StatusUnauthorized.

Definition skypeImportHandler (r : Request) (up : skypeUpload) : M Response :=
  if negb (rqMethod r ==? "POST") then ret (http_Error "POST required" StatusMethodNotAllowed)
  else
    let* username := sessionUsername (tokenFromRequest r) in
    if is_empty username then ret authRequired
    else
      match up with
      | SkTooLarge => ret (http_Error "file too large" StatusRequestEntityTooLarge)
      | SkNoFile => ret (http_Error "file required" StatusBadRequest)
      | SkReadError => ret (http_Error "read error" StatusInternalServerError)
      | SkBadZip => ret (http_Error "invalid zip" StatusBadRequest)
      | SkZip l =>
          let* a := foldM (importConvo username) (mkImport 0 [] ∅) (concat (convosOf <$> l)) in
          ret (respJSON StatusOK [("messages_imported", JNum (iaCount a));
                 ("contacts", jslice (contactJSON <$> iaContacts a))])
      end.

(** ** Reading it back *)

Definition skypeContactsOf (u : string) (d : Database) : list SkypeContactRow :=
  order_str skc_display_name (tselect (fun r => skc_username r ==? u) (skype_import_contacts d)).

Definition skypeContactJSON (r : SkypeContactRow) : jval :=
  let pu := default "" (skc_phaze_username r) in
  JObj ([("display_name", JStr (skc_display_name r))]
        ++ (if is_empty pu then [] else [("phaze_username", JStr pu)])
        ++ [("invite_sent", JBool (skc_invite_sent r =? 1)); ("on_phaze", JBool (negb (is_empty pu)))]).

Definition skypeContactsHandler (r : Request) : M Response :=
  let* username := sessionUsername (tokenFromRequest r) in
  if is_empty username then ret authRequired
  else
    let* rows := Query (skypeContactsOf username) in
    ret (match rows with
         | None => http_Error "db error" StatusInternalServerError
         | Some l => respArr (skypeContactJSON <$> l)
         end).

Definition skypeMessagesOf (u contact : string) (d : Database) : list SkypeMessageRow :=
  take 200 (order_str skm_sent_at
    (tselect (fun r => (skm_username r ==? u) && (skm_conversation_display r ==? contact))
       (skype_import_messages d))).

Definition skypeMessageJSON (r : SkypeMessageRow) : jval :=
  JObj [("sender", JStr (skm_sender_display r)); ("body", JStr (skm_body r)); ("sent_at", JStr (skm_sent_at r))].

Definition skypeMessagesHandler (r : Request) : M Response :=
  let* username := sessionUsername (tokenFromRequest r) in
  if is_empty username then ret authRequired
  else
    let contact := rqQuery r "contact" in
    if is_empty contact then ret (http_Error "contact required" StatusBadRequest)
    else
      let* rows := Query (skypeMessagesOf username contact) in
      ret (match rows with
           | None => http_Error "db error" StatusInternalServerError
           | Some l => respArr (skypeMessageJSON <$> l)
           end).

Definition skypeInviteHandler (r : Request) : M Response :=
  let* username := sessionUsername (tokenFromRequest r) in
  ret (if is_empty username then authRequired
       else respJSON StatusOK [("invite_link", JStr ("https://phazechat.world/?ref=" +:+ username))]).

(** ** Frames *)

Lemma safe_importConvo u a c : respects safe (importConvo u a c).
Proof. unfold importConvo, importMsgStep, importMessage, importContact, matchContact. frame. Qed.
#[export] Hint Resolve safe_importConvo : frame.
Lemma safe_skypeImportHandler r up : respects safe (skypeImportHandler r up).
Proof. unfold skypeImportHandler. frame. Qed.
Lemma safe_skypeContactsHandler r : respects safe (skypeContactsHandler r).
Proof. unfold skypeContactsHandler. frame. Qed.
Lemma safe_skypeMessagesHandler r : respects safe (skypeMessagesHandler r).
Proof. unfold skypeMessagesHandler. frame. Qed.
Lemma safe_skypeInviteHandler r : respects safe (skypeInviteHandler r).
Proof. unfold skypeInviteHandler. frame. Qed.
#[export] Hint Resolve safe_skypeImportHandler safe_skypeContactsHandler safe_skypeMessagesHandler
  safe_skypeInviteHandler : frame.

Example stripHTML_ok :
  stripHTML " <b>a</b> &lt;x&gt; <> &amp;lt; " = "a <x> <> &lt;".
Proof. reflexivity. Qed.
Example stripHTML_open : stripHTML "1 < 2" = "1 < 2".
Proof. reflexivity. Qed.
