(* ===== verification/Support.v ===== *)
(** * The support bot and escalation ([support.go])

    The chat endpoint trims a transcript and hands it to a language model;
    the escalation endpoint alerts the staff who are online.  The models are
    [askModel], a function of the prompt and the turns. *)

From Stdlib Require Import ZArith Lia Ascii.
From stdpp Require Import base strings list gmap.
From S2P Require Import Prelude GoRt GoStd Json Store Wire Db World Wf Registry Http Email Sessions.
From S2P Require Import Social Spaces.

Open Scope string_scope.
Open Scope list_scope.
Open Scope Z_scope.

(** [supportMessage]: role and content. *)
Definition supportMessage : Type := string * string.

Definition maxTurns : nat := 30.
Definition maxTurnBytes : Z := 4000.

Definition trimTurn (m : supportMessage) : supportMessage :=
  (if (m.1 ==? "user") || (m.1 ==? "assistant") then m.1 else "user", clip maxTurnBytes m.2).

Definition trimTranscript (l : list supportMessage) : list supportMessage :=
  trimTurn <$> lastN maxTurns l.

(** The role names of Gemini. *)
Definition geminiTurns (l : list supportMessage) : list supportMessage :=
  (fun m => (if m.1 ==? "assistant" then "model" else "user", m.2)) <$> l.

(** [callGemini] and [callAnthropic]: an error text, or the reply. *)
Definition callGemini (e : Env) (system : string) (l : list supportMessage) : string + string :=
  askModel e "gemini" system (geminiTurns l).
Definition callAnthropic (e : Env) (system : string) (l : list supportMessage) : string + string :=
  askModel e "anthropic" system l.

(** The reply and the last error. *)
Definition replyOf (r : string + string) : string * option string :=
  match r with inl err => ("", Some err) | inr reply => (reply, None) end.

(** Gemini first; Anthropic when that gave nothing. *)
Definition askProviders (e : Env) (system : string) (l : list supportMessage) : string * option string :=
  let a := if set_ e "GEMINI_API_KEY" then replyOf (callGemini e system l) else ("", None) in
  if is_empty a.1 && set_ e "ANTHROPIC_API_KEY" then replyOf (callAnthropic e system l) else a.

Definition quoted (s : string) : string := of_bytes [34] +:+ s +:+ of_bytes [34].

Definition supportSystemPrompt : string :=
  Join [
    "You are Phaze Helper, the in-app support bot for Phaze (https://phazechat.world) — a real-time chat platform with DMs, group spaces, voice/video calls, livestreams, and end-to-end encryption.";
    "";
    "Your job:";
    "- Answer questions about how to use Phaze.";
    "- Help users with sign-up, friend requests, voice calls, livestreams, file sharing, settings.";
    "- Be concise, friendly, and direct — no fluff.";
    "";
    "Key features you can explain:";
    "- DMs: 1:1 messages, E2E encrypted, with reactions, edits, deletes, pins, file uploads up to 25 MB, audio messages.";
    "- Spaces: Discord-style group servers with text and voice channels. Create from the Spaces tab or join with an invite code.";
    "- Phaze Hub: a global space every user is automatically in (#general, #lobby, #announcements).";
    "- Calls: 1:1 audio + video calls from any DM chat header (☎ / 📹 icons). Screen share during video calls.";
    "- Voice channels: in a Space, click a 🎙 channel → " +:+ quoted "Join voice" +:+ " (audio) or " +:+ quoted "Join with video" +:+ " (group video). Mesh peer-to-peer.";
    "- Live: broadcast your camera to anyone who clicks your stream card. Found under the 🔴 Live tab.";
    "- Recovery PIN: encrypts your E2E keypair so you can sign in on new devices via Settings → Backup & Devices.";
    "- Link code: alternative cross-device sign-in via a one-time code from another logged-in device.";
    "";
    "Common issues:";
    "- " +:+ quoted "Can't make a call" +:+ " → make sure a friend is selected; the call buttons appear in the DM header.";
    "- " +:+ quoted "Camera not working on Android" +:+ " → grant Camera + Microphone permissions in Android Settings.";
    "- " +:+ quoted "Different channels in different browsers" +:+ " → each user only sees Spaces they belong to. Either sign in as the same user, or join the same Space with an invite code.";
    "- " +:+ quoted "Verification email didn't arrive" +:+ " → check spam, then ask the user to message support; an admin can fetch the code.";
    "";
    "When to escalate to a human:";
    "- Account recovery beyond Recovery PIN.";
    "- Billing (Phaze is free, but later).";
    "- Abuse reports — direct them to use the in-app Report button.";
    "- Anything you cannot answer confidently.";
    "";
    "If the user clicks " +:+ quoted "Talk to a human" +:+ ", a live agent will be notified and may DM them — but only if one is online. Otherwise tell them to leave a description and an agent will follow up via DM.";
    "";
    "Always respond in plain text. Do not use markdown headers or excessive formatting in a tiny chat bubble. 2-4 short sentences max per reply, unless the user asks for steps.";
    "";
    "If users ask how to support Phaze, mention they can donate at the " +:+ quoted "Buy Phaze a coffee" +:+ " link in the footer. Don't volunteer this unless asked."] (of_bytes [10]).

Definition systemFor (user : string) : string :=
  if is_empty user then supportSystemPrompt
  else supportSystemPrompt +:+ of_bytes [10; 10] +:+ "The user you are talking to is signed in as: " +:+ user.

Definition supportChatHandler (r : Request) (body : option (list supportMessage)) : M Response :=
  if negb (rqMethod r ==? "POST") then ret (http_Error "POST required" StatusMethodNotAllowed)
  else
    let* e := getEnv in
    if negb (set_ e "GEMINI_API_KEY") && negb (set_ e "ANTHROPIC_API_KEY") then
      ret (http_Error "support bot offline (no LLM key configured)" StatusServiceUnavailable)
    else
      match body with
      | None => ret (http_Error "bad json" StatusBadRequest)
      | Some [] => ret (http_Error "no messages" StatusBadRequest)
      | Some l =>
          let* u := sessionUsername (tokenFromRequest r) in
          let a := askProviders e (systemFor u) (trimTranscript l) in
          ret (if negb (is_empty a.1) then respJSON StatusOK [("reply", JStr a.1)]
               else match a.2 with
                    | Some err => http_Error ("support bot unavailable: " +:+ err) StatusBadGateway
                    | None => http_Error "support bot returned empty reply" StatusBadGateway
                    end)
      end.

(** ** Escalation *)

Record EscalateBody := mkEscalate { ebUsername : string; ebNote : string }.

(** The connections of everyone online whose role is helper or above. *)
Definition staffOnline : M (list nat) :=
  let* s := getSrv in
  foldM (fun acc uc =>
    let* role := userRole uc.1 in
    ret (if roleRank "helper" <=? roleRank role then acc ++ uc.2 else acc))
    [] (map_to_list (Clients s)).

Definition orDefault (s d : string) : string := if is_empty s then d else s.

Definition supportEscalateHandler (r : Request) (body : option EscalateBody) : M Response :=
  if negb (rqMethod r ==? "POST") then ret (http_Error "POST required" StatusMethodNotAllowed)
  else
    match body with
    | None => ret (http_Error "bad json" StatusBadRequest)
    | Some b =>
        let* u := sessionUsername (tokenFromRequest r) in
        let who := orDefault (if is_empty u then ebUsername b else u) "Anonymous visitor" in
        let note := orDefault (TrimSpace (ebNote b)) "(no description)" in
        let* cs := staffOnline in
        forM cs (fun c => Send_ c (nm "support_escalation" |> set_mSender who |> set_mBody note)) ;;;
        ret (respJSON StatusOK [("ok", JBool true); ("agents_online", JNum (Z.of_nat (length cs)));
                                ("escalation_for", JStr who)])
    end.

Lemma safe_supportChatHandler r b : respects safe (supportChatHandler r b).
Proof. unfold supportChatHandler. frame. Qed.
Lemma safe_staffOnline : respects safe staffOnline.
Proof. unfold staffOnline, userRole. frame. Qed.
#[export] Hint Resolve safe_supportChatHandler safe_staffOnline : frame.
Lemma safe_supportEscalateHandler r b : respects safe (supportEscalateHandler r b).
Proof. unfold supportEscalateHandler. frame. Qed.
#[export] Hint Resolve safe_supportEscalateHandler : frame.

(** What reaches a model: at most thirty turns of at most four thousand
    bytes, each from the user or the assistant, and the latest ones. *)
Lemma trimTranscript_bounded l :
  (length (trimTranscript l) <= maxTurns)%nat
  /\ Forall (fun m => len m.2 <= maxTurnBytes /\ (m.1 = "user" \/ m.1 = "assistant")) (trimTranscript l).
Proof.
  unfold trimTranscript, lastN, maxTurns. split.
  - rewrite length_fmap, length_drop. lia.
  - apply Forall_fmap, Forall_forall. intros m _. unfold trimTurn. simpl. split.
    + unfold clip, maxTurnBytes. destruct (4000 <? len m.2) eqn:E; bools; [|lia].
      unfold len. generalize m.2. intros s.
      assert (H : forall n s, (String.length (take_bytes n s) <= n)%nat).
      { induction n as [|n IH]; intros [|a t]; simpl; try lia. specialize (IH t). lia. }
      specialize (H (Z.to_nat 4000) s). lia.
    + destruct (m.1 ==? "user") eqn:E1; simpl; [bools; by left|].
      destruct (m.1 ==? "assistant") eqn:E2; bools; [by right | by left].
Qed.
