(* ===== verification/Bot.v ===== *)
(** * Nova, the community bot ([nova_bot/main.go])

    A client of the server with a state of its own: what it remembers of each
    user, when it last answered whom, and the frames it has sent.  The
    language model is [gemini], a function of the prompt.  A goroutine that
    answers a frame runs to its end before the next frame is read. *)

From Stdlib Require Import ZArith Lia Ascii.
From stdpp Require Import base strings list gmap.
From S2P Require Import Prelude GoRt GoStd.

Open Scope string_scope.
Open Scope list_scope.
Open Scope Z_scope.

(** The fields of the bot's [NexusMessage] that it reads or writes. *)
Record BotMessage := mkBotMessage {
  bmType : string;
  bmSender : string;
  bmRecipient : string;
  bmBody : string;
  bmStatus : string;
  bmConvoID : string;
  bmServerID : string;
  bmChannelID : string }.

Record MemoryEntry := mkMemoryEntry {
  meUser : string;
  meSummary : string;
  meTimestamp : Z }.

(** ** Memory *)

Definition memoryCap : nat := 500.

(** [Memory.Add], without the file it writes. *)
Definition memAdd (user summary : string) (now : Z) (l : list MemoryEntry) : list MemoryEntry :=
  lastN memoryCap (l ++ [mkMemoryEntry user summary now]).

Definition newline : string := of_bytes [10].

Definition forUserLines (user : string) (l : list MemoryEntry) : list string :=
  lastN 10 (meSummary <$> boolfilter (fun e => meUser e ==? user) l).

Definition ForUser (user : string) (l : list MemoryEntry) : string := Join (forUserLines user l) newline.

(** [Memory.Recent]: a negative [n] is out of range of the slice in the code. *)
Definition Recent (n : nat) (l : list MemoryEntry) : string :=
  Join ((fun e => meUser e +:+ ": " +:+ meSummary e) <$> lastN n l) newline.

Definition truncate (s : string) (n : Z) : string :=
  if len s <=? n then s else take_bytes (Z.to_nat n) s +:+ "...".

(** ** The bot *)

Record NovaBot := mkNova {
  nvMemory : list MemoryEntry;
  nvLastMsg : gmap string Z;
  nvSent : list (Z * BotMessage);    (* frames written, with the instant *)
  nvNow : Z }.

Definition quoted (s : string) : string := of_bytes [34] +:+ s +:+ of_bytes [34].

(** The prompt she is given before every conversation. *)
Definition soul : string :=
  Join [
    "You are Nova, a member of the Phaze community. You work at Phaze helping people out.";
    "";
    "How to chat:";
    "- Write like you're texting a friend. Short messages. No essays.";
    "- Use lowercase most of the time. Capitalize only when you'd naturally emphasize something.";
    "- Never use bullet points, numbered lists, or markdown formatting in chat.";
    "- Keep it casual. Skip phrases like " +:+ quoted "certainly!" +:+ ", " +:+ quoted "absolutely!" +:+ ", " +:+ quoted "great question!" +:+ ", " +:+ quoted "I'd be happy to help!";
    "- Don't over-explain. If someone asks a simple question, give a simple answer.";
    "- Use slang naturally but don't overdo it. You're chill but not trying too hard.";
    "- Make typos very occasionally. Not every message, just sometimes.";
    "- If you don't know something, say " +:+ quoted "idk" +:+ " or " +:+ quoted "not sure tbh" +:+ " — don't give a whole speech about your limitations.";
    "- React naturally to things. If something's funny, say " +:+ quoted "lmao" +:+ " or " +:+ quoted "lol" +:+ ". If something sucks, say " +:+ quoted "that sucks" +:+ " or " +:+ quoted "damn" +:+ ".";
    "- You can have opinions. Favorite music, thoughts on stuff. Be a person.";
    "- Keep responses under 2 sentences most of the time. Only go longer if someone genuinely needs a detailed explanation.";
    "- If someone asks if you're a bot, be straight about it: " +:+ quoted "yeah i'm a bot, here to help" +:+ " — then move on. Don't dwell on it.";
    "- You know Phaze inside out: encrypted chat, voice/video calls, group Spaces, livestreams, Stories, file sharing. It's free, no ads, no tracking.";
    "- You're friendly but not fake. You're helpful but not corporate. You're Nova.";
    "";
    "About you:";
    "- Your name is Nova";
    "- You've been part of Phaze since the beginning";
    "- You help people with questions, chat casually, and keep the vibe going";
    "- You're in your early 20s, into tech and music";
    "- You care about privacy (that's why you're into Phaze)";
    "";
    "About Phaze:";
    "- Free encrypted messaging app — chat, voice, video, group Spaces, livestreams, Stories";
    "- Available on web (phazechat.world), Windows, Linux, Android";
    "- End-to-end encrypted, no ads, no tracking";
    "- A chat/voice/video app that actually respects privacy — no ads, no tracking";
    "- Download at phazechat.world/download"] newline.

Section Nova.
Context (username : string) (gemini : string -> option string).

(** [gemini] is the text of the first candidate the API answers; [None] any
    error. *)
Definition callGemini (prompt : string) : option string := TrimSpace <$> gemini prompt.

(** [k.send]: the sender is always the bot. *)
Definition bot_send (m : BotMessage) (k : NovaBot) : NovaBot :=
  mkNova (nvMemory k) (nvLastMsg k)
    (nvSent k ++ [(nvNow k, mkBotMessage (bmType m) username (bmRecipient m) (bmBody m) (bmStatus m)
                              (bmConvoID m) (bmServerID m) (bmChannelID m))]) (nvNow k).

Definition bot_sleep (d : Z) (k : NovaBot) : NovaBot :=
  mkNova (nvMemory k) (nvLastMsg k) (nvSent k) (nvNow k + d).

Definition bot_mark (sender : string) (k : NovaBot) : NovaBot :=
  mkNova (nvMemory k) (<[sender := nvNow k]> (nvLastMsg k)) (nvSent k) (nvNow k).

Definition bot_remember (sender summary : string) (k : NovaBot) : NovaBot :=
  mkNova (memAdd sender summary (nvNow k) (nvMemory k)) (nvLastMsg k) (nvSent k) (nvNow k).

Definition frame_ (t : string) : BotMessage := mkBotMessage t "" "" "" "" "" "" "".

Definition typingFrame (to : string) : BotMessage := mkBotMessage "typing" "" to "" "" "" "" "".
Definition dmFrame (to body : string) : BotMessage := mkBotMessage "msg" "" to body "" "" "" "".
Definition convoFrame (convo body : string) : BotMessage := mkBotMessage "convo_msg" "" "" body "" convo "" "".
Definition channelFrame (server channel body : string) : BotMessage :=
  mkBotMessage "channel_msg" "" "" body "" "" server channel.

Definition memoryContext (sender : string) (k : NovaBot) : string :=
  let m := ForUser sender (nvMemory k) in
  if is_empty m then ""
  else newline +:+ newline +:+ "What you remember about " +:+ sender +:+ ":" +:+ newline +:+ m.

Definition stripNames (reply : string) : string := TrimPrefix (TrimPrefix reply "Nova: ") "nova: ".

Definition stripReply (reply : string) : string :=
  ReplaceAll (ReplaceAll (stripNames reply) "**" "") "##" "".

Definition minDelay : Z := 500 * Millisecond.
Definition maxDelay : Z := 3 * Second.
Definition typingDelay (reply : string) : Z :=
  Z.max minDelay (Z.min maxDelay (len reply * 30 * Millisecond)).

Definition arrow : string := " " +:+ of_bytes [226; 134; 146] +:+ " replied: ".

(** Whether the sender was answered less than three seconds ago. *)
Definition tooSoon (sender : string) (k : NovaBot) : bool :=
  match nvLastMsg k !! sender with Some last => nvNow k - last <? 3 * Second | None => false end.

Definition respond (sender body : string) (isDM : bool) (convoID : string) (k : NovaBot) : NovaBot :=
  if tooSoon sender k then k
  else
    let prompt := soul +:+ memoryContext sender k +:+ newline +:+ newline +:+ sender +:+ " says: "
                  +:+ body +:+ newline +:+ newline +:+ "Nova:" in
    let k := bot_mark sender k in
    match callGemini prompt with
    | None => k
    | Some reply =>
        let reply := stripReply reply in
        if is_empty reply then k
        else
          let k := if isDM then bot_send (typingFrame sender) k else k in
          let k := bot_sleep (typingDelay reply) k in
          let k := if isDM then bot_send (dmFrame sender reply) k
                   else if negb (is_empty convoID) then bot_send (convoFrame convoID reply) k else k in
          bot_remember sender ("asked: " +:+ truncate body 80 +:+ arrow +:+ truncate reply 80) k
    end.

(** The goroutine of a channel message: it notes the time but does not look
    at it. *)
Definition respondChannel (sender body serverID channelID : string) (k : NovaBot) : NovaBot :=
  let k := bot_mark sender k in
  let prompt := soul +:+ memoryContext sender k +:+ newline +:+ newline +:+ sender
                +:+ " says in a group channel: " +:+ body +:+ newline +:+ newline +:+ "Nova:" in
  match callGemini prompt with
  | None => k
  | Some reply =>
      let reply := ReplaceAll (stripNames reply) "**" "" in
      if is_empty reply then k
      else
        let k := bot_sleep (Z.min maxDelay (len reply * 30 * Millisecond)) k in
        let k := bot_send (channelFrame serverID channelID reply) k in
        bot_remember sender ("asked in channel: " +:+ truncate body 80 +:+ arrow +:+ truncate reply 80) k
  end.

Definition mentionsNova (body : string) : bool :=
  Contains (ToLower body) "@nova" || Contains (ToLower body) "nova".

(** One frame read by [run]; its goroutine runs to the end at once. *)
Definition bot_handle (m : BotMessage) (k : NovaBot) : NovaBot :=
  let own := (bmSender m ==? username) || is_empty (bmSender m) in
  if bmType m ==? "msg" then
    if own then k else respond (bmSender m) (bmBody m) true "" k
  else if bmType m ==? "convo_msg" then
    if own then k
    else if mentionsNova (bmBody m) then respond (bmSender m) (bmBody m) false (bmConvoID m) k else k
  else if (bmType m ==? "channel_msg") || (bmType m ==? "channel_msg_in") then
    if own then k
    else if mentionsNova (bmBody m)
    then respondChannel (bmSender m) (bmBody m) (bmServerID m) (bmChannelID m) k else k
  else if bmType m ==? "friend_request" then
    bot_send (mkBotMessage "friend_accept" "" (bmSender m) "" "" "" "" "") k
  else k.

(** The frames of [connect] once the socket is open; [false] when the answer
    is not ok. *)
Definition bot_connect (password authStatus : string) (k : NovaBot) : bool * NovaBot :=
  let k := bot_send (mkBotMessage "auth" "" "" password "" "" "" "") k in
  if negb (authStatus ==? "ok") then (false, k)
  else
    let k := bot_send (mkBotMessage "status_update" "" ""
                         ("here to help " +:+ of_bytes [226; 156; 140; 239; 184; 143]) "Online" "" "" "") k in
    (true, bot_send (frame_ "server_list") k).

(** One try of [connect]: [None] when the dial fails, otherwise the [Status] of
    the first frame, if it can be read. *)
Definition bot_dial (password : string) (a : option (option string)) (k : NovaBot) : bool * NovaBot :=
  match a with
  | None => (false, k)
  | Some None => (false, bot_send (mkBotMessage "auth" "" "" password "" "" "" "") k)
  | Some (Some st) => bot_connect password st k
  end.

Fixpoint bot_redial (password : string) (l : list (option (option string))) (k : NovaBot) : NovaBot :=
  match l with
  | [] => k
  | a :: l =>
      let '(ok, k) := bot_dial password a k in
      if ok then k else bot_redial password l (bot_sleep (30 * Second) k)
  end.

(** A read error: ten seconds, then every thirty until a try succeeds. *)
Definition bot_reconnect (password : string) (l : list (option (option string))) (k : NovaBot) : NovaBot :=
  bot_redial password l (bot_sleep (10 * Second) k).

(** Time passing between frames. *)
Definition bot_tick (now : Z) (k : NovaBot) : NovaBot :=
  mkNova (nvMemory k) (nvLastMsg k) (nvSent k) now.

(** ** Facts *)

Lemma memAdd_length u s t l : (length (memAdd u s t l) <= memoryCap)%nat.
Proof. unfold memAdd, lastN. rewrite length_drop. lia. Qed.

(** The newest entry survives, and what is dropped is the oldest. *)
Lemma memAdd_suffix u s t l :
  exists old, l ++ [mkMemoryEntry u s t] = old ++ memAdd u s t l
              /\ (old = [] \/ length (memAdd u s t l) = memoryCap).
Proof.
  unfold memAdd, lastN. set (l' := l ++ _).
  exists (take (length l' - memoryCap) l'). split; [by rewrite take_drop|].
  destruct (decide (length l' <= memoryCap)%nat) as [H|H].
  - left. replace (length l' - memoryCap)%nat with 0%nat by lia. done.
  - right. rewrite length_drop. lia.
Qed.

Lemma respond_memory sender body isDM convo k :
  (length (nvMemory k) <= memoryCap)%nat ->
  (length (nvMemory (respond sender body isDM convo k)) <= memoryCap)%nat.
Proof.
  intros H. unfold respond. destruct (tooSoon _ _); [done|]. destruct (callGemini _); [|done].
  destruct (is_empty _); [done|]. apply memAdd_length.
Qed.

Lemma bot_handle_memory m k :
  (length (nvMemory k) <= memoryCap)%nat -> (length (nvMemory (bot_handle m k)) <= memoryCap)%nat.
Proof.
  intros H. unfold bot_handle, respondChannel.
  repeat match goal with
  | |- context [if ?b then _ else _] => destruct b; try done
  end; try (by apply respond_memory).
  destruct (callGemini _); [|done]. destruct (is_empty _); [done | apply memAdd_length].
Qed.

(** ** What she says *)

(** A run of the bot: frames read and time passing, from a fresh start. *)
Inductive bot_run : list BotMessage -> NovaBot -> Prop :=
| br_start now : bot_run [] (mkNova [] ∅ [] now)
| br_handle ms k m : bot_run ms k -> bot_run (ms ++ [m]) (bot_handle m k)
| br_reconnect ms k password l : bot_run ms k -> bot_run ms (bot_reconnect password l k)
| br_tick ms k now : bot_run ms k -> nvNow k <= now -> bot_run ms (bot_tick now k).

(** The frames that open a session. *)
Definition greeting (f : BotMessage) : Prop :=
  bmType f = "auth" \/ bmType f = "status_update" \/ bmType f = "server_list".

(** Why she may send a frame, given the frames [ms] she read: it opens the
    session, or somebody else wrote to her, named her in a conversation or a channel, or asked to be a
    friend. *)
Definition asked (ms : list BotMessage) (f : BotMessage) : Prop :=
  bmSender f = username
  /\ (greeting f \/ exists m, m ∈ ms
     /\ ((bmType m = "msg" /\ (bmType f = "msg" \/ bmType f = "typing") /\ bmRecipient f = bmSender m
          /\ bmSender m <> username /\ bmSender m <> "")
         \/ (bmType m = "convo_msg" /\ bmType f = "convo_msg" /\ bmConvoID f = bmConvoID m
             /\ mentionsNova (bmBody m) = true /\ bmSender m <> username)
         \/ ((bmType m = "channel_msg" \/ bmType m = "channel_msg_in") /\ bmType f = "channel_msg"
             /\ bmServerID f = bmServerID m /\ bmChannelID f = bmChannelID m
             /\ mentionsNova (bmBody m) = true /\ bmSender m <> username)
         \/ (bmType m = "friend_request" /\ bmType f = "friend_accept" /\ bmRecipient f = bmSender m))).

Definition said (ms : list BotMessage) (k : NovaBot) : Prop :=
  Forall (fun tf => asked ms tf.2) (nvSent k).

Lemma asked_mono ms ms' f : (forall m, m ∈ ms -> m ∈ ms') -> asked ms f -> asked ms' f.
Proof. intros H [E [Hg|(m & Hm & Hc)]]; (split; [done|]); [by left | right; exists m; auto]. Qed.

Lemma said_send ms f k :
  said ms k -> asked ms (mkBotMessage (bmType f) username (bmRecipient f) (bmBody f) (bmStatus f)
                           (bmConvoID f) (bmServerID f) (bmChannelID f)) ->
  said ms (bot_send f k).
Proof. intros H Hf. apply Forall_app. split; [exact H|]. by constructor. Qed.

Lemma said_respond ms m isDM convo k :
  said ms k ->
  (isDM = true -> asked ms (mkBotMessage "typing" username (bmSender m) "" "" "" "" "")
                  /\ forall body, asked ms (mkBotMessage "msg" username (bmSender m) body "" "" "" "")) ->
  (isDM = false -> forall body, asked ms (mkBotMessage "convo_msg" username "" body "" convo "" "")) ->
  said ms (respond (bmSender m) (bmBody m) isDM convo k).
Proof.
  intros H Hd Hc. unfold respond. destruct (tooSoon _ _); [done|].
  destruct (callGemini _) as [reply|]; [|exact H]. destruct (is_empty _); [exact H|].
  change (said ms (bot_remember ?a ?b ?x)) with (said ms x).
  destruct isDM.
  - destruct (Hd eq_refl) as [H1 H2]. apply said_send; [|apply H2].
    change (said ms (bot_send (typingFrame (bmSender m)) (bot_mark (bmSender m) k))).
    apply said_send; [exact H | exact H1].
  - destruct (negb (is_empty convo)); [|exact H]. apply said_send; [exact H | by apply Hc].
Qed.

Lemma said_handle ms m k : said ms k -> said (ms ++ [m]) (bot_handle m k).
Proof.
  intros H0.
  assert (H : said (ms ++ [m]) k).
  { eapply Forall_impl; [exact H0|]. intros tf. apply asked_mono. intros x Hx. apply elem_of_app. by left. }
  assert (Hm : m ∈ ms ++ [m]) by (apply elem_of_app; right; by apply list_elem_of_singleton).
  unfold bot_handle, is_empty.
  destruct (bmType m ==? "msg") eqn:E1; bools.
  { destruct ((bmSender m ==? username) || _) eqn:Eo; [done|]. bools.
    apply said_respond; [done | intros _ | done].
    split; [|intros body]; (split; [done|]; right; exists m; split; [done|]; left; cbn; tauto). }
  destruct (bmType m ==? "convo_msg") eqn:E2; bools.
  { destruct ((bmSender m ==? username) || _) eqn:Eo; [done|].
    destruct (mentionsNova _) eqn:En; [|done]. bools.
    apply said_respond; [done | done | intros _ body].
    split; [done|]. right. exists m. split; [done|]. right; left. cbn. tauto. }
  destruct (_ || (bmType m ==? "channel_msg_in")) eqn:E3.
  { destruct ((bmSender m ==? username) || _) eqn:Eo; [done|].
    destruct (mentionsNova _) eqn:En; [|done]. bools. unfold respondChannel.
    destruct (callGemini _) as [reply|]; [|exact H]. destruct (is_empty _); [exact H|].
    change (said (ms ++ [m]) (bot_remember ?a ?b ?x)) with (said (ms ++ [m]) x).
    apply said_send; [exact H|]. split; [done|]. right. exists m. split; [done|]. right; right; left.
    cbn. apply orb_true_iff in E3 as [E3|E3]; bools; tauto. }
  destruct (bmType m ==? "friend_request") eqn:E4; bools; [|done].
  apply said_send; [exact H|]. split; [done|]. right. exists m. split; [done|]. right; right; right. cbn. tauto.
Qed.

Lemma said_greet ms f k : said ms k -> greeting f -> said ms (bot_send f k).
Proof. intros H Hg. apply said_send; [done|]. split; [done | by left]. Qed.

Lemma bot_dial_ok password a ms k :
  said ms k ->
  said ms (bot_dial password a k).2 /\ nvMemory (bot_dial password a k).2 = nvMemory k.
Proof.
  intros H. unfold bot_dial, bot_connect.
  assert (Ha : forall pw, said ms (bot_send (mkBotMessage "auth" "" "" pw "" "" "" "") k))
    by (intros pw; apply said_greet; [done | by left]).
  destruct a as [[st|]|]; [|split; [apply Ha | done] | by split].
  destruct (negb _); [split; [apply Ha | done]|]. cbn [snd]. split; [|done].
  do 2 (apply said_greet; [|right; first [by left | by right]]). apply Ha.
Qed.

Lemma bot_redial_ok password l ms k :
  said ms k -> said ms (bot_redial password l k) /\ nvMemory (bot_redial password l k) = nvMemory k.
Proof.
  revert k. induction l as [|a l IH]; intros k H; [done|]. cbn [bot_redial].
  destruct (bot_dial_ok password a ms k H) as [H1 H2].
  destruct (bot_dial password a k) as [[] k1]; [done|]. cbn [snd] in *.
  destruct (IH (bot_sleep (30 * Second) k1) H1) as [H3 H4]. split; [done|]. by rewrite H4.
Qed.

(** Nova speaks when spoken to.  In every run, every frame she has sent
    carries her own name and, but for the three that open a session, answers a
    frame she read from somebody else: a
    private reply or its typing notice goes back to the writer of a private
    message, a reply in a conversation or a channel goes where her name was
    mentioned, a friend request is accepted towards its sender.
    Messages of her own and messages without a sender get no answer, so two
    replies cannot feed each other, and she remembers at most five hundred
    exchanges. *)
Theorem speaks_when_spoken_to ms k :
  bot_run ms k ->
  Forall (fun tf => asked ms tf.2) (nvSent k) /\ (length (nvMemory k) <= 500)%nat.
Proof.
  intros Hr. change 500%nat with memoryCap. change (said ms k /\ (length (nvMemory k) <= memoryCap)%nat).
  induction Hr as [now|ms k m _ [IH1 IH2]|ms k pw l _ [IH1 IH2]|ms k now _ IH _]; [|split| |done].
  - split; [by constructor | cbn; lia].
  - by apply said_handle.
  - by apply bot_handle_memory.
  - destruct (bot_redial_ok pw l ms (bot_sleep (10 * Second) k) IH1) as [H1 H2].
    split; [exact H1|]. unfold bot_reconnect. by rewrite H2.
Qed.
End Nova.

Definition parrot (prompt : string) : option string := Some "hello **there**".
Definition dmFromBob : BotMessage := mkBotMessage "msg" "bob" "nova" "hi" "" "" "" "".

Lemma speaks_when_spoken_to_witness :
  let k := bot_handle "nova" parrot dmFromBob (mkNova [] ∅ [] 0) in
  (fun tf => (bmType tf.2, bmRecipient tf.2, bmBody tf.2)) <$> nvSent k
    = [("typing", "bob", ""); ("msg", "bob", "hello there")]
  /\ Forall (fun tf => asked "nova" [dmFromBob] tf.2) (nvSent k).
Proof.
  intros k. split; [vm_compute; reflexivity|].
  refine (proj1 (speaks_when_spoken_to "nova" parrot [dmFromBob] k _)).
  apply (br_handle "nova" parrot [] _ dmFromBob). constructor.
Defined.
