(* ===== verification/Raster.v ===== *)
(** * The emoticon rasteriser ([cmd/emoticongen/draw.go])

    The drawing primitives of the asset generator on an [*image.NRGBA], and
    the tile of every emoticon.  An image is its bounds and the pixels painted
    so far.  Coordinates are Go [int]s far from overflow; the points that come
    from [math.Cos] and [math.Sin] are a parameter. *)

From Stdlib Require Import ZArith Lia.
From stdpp Require Import base strings list gmap.
From S2P Require Import Prelude GoRt GoStd.

Open Scope string_scope.
Open Scope list_scope.
Open Scope Z_scope.

(** ** Images *)

Record Color := NRGBA { cR : Z; cG : Z; cB : Z; cA : Z }.

Record Image := mkImage {
  minX : Z; minY : Z; maxX : Z; maxY : Z;
  Pix : gmap (Z * Z) Color }.

Definition inBounds (im : Image) (x y : Z) : bool :=
  (minX im <=? x) && (x <? maxX im) && (minY im <=? y) && (y <? maxY im).

(** [dst.Set], which does nothing out of bounds. *)
Definition Set_ (x y : Z) (c : Color) (im : Image) : Image :=
  if inBounds im x y
  then mkImage (minX im) (minY im) (maxX im) (maxY im) (<[(x, y) := c]> (Pix im))
  else im.

(** [if inBounds(dst.Bounds(), x, y) { dst.Set(x, y, c) }] *)
Definition plot (c : Color) (im : Image) (p : Z * Z) : Image :=
  if inBounds im p.1 p.2 then Set_ p.1 p.2 c im else im.

Definition plotAll (c : Color) (ps : list (Z * Z)) (im : Image) : Image := foldl (plot c) im ps.

(** [for i := a; i <= b; i++] *)
Definition upto (a b : Z) : list Z := (fun k => a + Z.of_nat k) <$> seq 0 (Z.to_nat (b - a + 1)).

(** [for i := a; i <= b; i += s] *)
Definition upBy (a b s : Z) : list Z :=
  (fun k => a + s * Z.of_nat k) <$> seq 0 (Z.to_nat ((b - a) / s + 1)).

Definition each {A} (l : list A) (f : A -> Image -> Image) (im : Image) : Image :=
  foldl (fun im x => f x im) im l.

Definition grid (xs ys : list Z) : list (Z * Z) := concat ((fun y => (fun x => (x, y)) <$> xs) <$> ys).

Definition fill (c : Color) (im : Image) : Image :=
  plotAll c (grid (upto (minX im) (maxX im - 1)) (upto (minY im) (maxY im - 1))) im.

(** FNV-1a, 32 bits. *)
Definition fnv32a (s : string) : Z :=
  foldl (fun h b => Z.lxor h b * 16777619 mod 2 ^ 32) 2166136261 (bytes s).

Definition hashHue (s : string) : Z := fnv32a s mod 200 mod 256.

Definition abs (x : Z) : Z := if x <? 0 then - x else x.
Definition min (a b : Z) : Z := if a <? b then a else b.

(** ** Shapes *)

Definition filledCircle (cx cy r : Z) (c : Color) (im : Image) : Image :=
  plotAll c ((fun p => (cx + p.1, cy + p.2)) <$>
               boolfilter (fun p => p.1 * p.1 + p.2 * p.2 <=? r * r) (grid (upto (- r) r) (upto (- r) r))) im.

Definition drawRect (x0 y0 x1 y1 : Z) (c : Color) (im : Image) : Image :=
  plotAll c (grid (upto x0 x1) (upto y0 y1)) im.

(** The body of [drawLine]'s loop; [None] when the fuel runs out. *)
Fixpoint lineLoop (fuel : nat) (dx dy sx sy x1 y1 : Z) (c : Color) (x y err : Z) (im : Image)
  : option Image :=
  match fuel with
  | O => None
  | S fuel =>
      let im := plot c im (x, y) in
      if (x =? x1) && (y =? y1) then Some im
      else
        let e2 := 2 * err in
        let '(err, x) := if - dy <? e2 then (err - dy, x + sx) else (err, x) in
        let '(err, y) := if e2 <? dx then (err + dx, y + sy) else (err, y) in
        lineLoop fuel dx dy sx sy x1 y1 c x y err im
  end.

Definition lineFuel (dx dy : Z) : nat := S (Z.to_nat (Z.max dx dy)).

Definition drawLine (x0 y0 x1 y1 : Z) (c : Color) (im : Image) : Image :=
  let dx := abs (x1 - x0) in
  let dy := abs (y1 - y0) in
  let sx := if x1 <? x0 then -1 else 1 in
  let sy := if y1 <? y0 then -1 else 1 in
  default im (lineLoop (lineFuel dx dy) dx dy sx sy x1 y1 c x0 y0 (dx - dy) im).

Definition drawHeartAt (cx cy r : Z) (c : Color) (im : Image) : Image :=
  let r := if r <? 3 then 3 else r in
  let im := filledCircle (cx - Z.quot r 2) cy (Z.quot (r * 2) 3) c im in
  let im := filledCircle (cx + Z.quot r 2) cy (Z.quot (r * 2) 3) c im in
  foldl (fun im y =>
    let w := Z.max 0 (Z.quot ((y - cy) * (Z.quot r 2 + 1)) (Z.quot r 2 + 2)) in
    plotAll c (grid (upto (cx - w) (cx + w)) [y]) im) im (upto cy (cy + r)).

Definition drawHeart (c : Color) : Image -> Image := drawHeartAt 20 18 12 c.

Definition drawMug (c : Color) (im : Image) : Image :=
  filledCircle 18 20 3 (NRGBA 240 240 250 200) (drawRect 28 18 34 24 c (drawRect 12 14 28 30 c im)).

Definition drawGlass (c : Color) (im : Image) : Image :=
  drawLine 14 10 26 10 (NRGBA 200 220 255 255) (drawRect 14 10 26 30 c im).

Definition drawTriangle (c : Color) (im : Image) : Image :=
  foldl (fun im y =>
    let w := Z.quot ((y - 14) * 14) 16 in plotAll c (grid (upto (20 - w) (20 + w)) [y]) im)
    im (upto 14 30).

Definition drawNote (im : Image) : Image :=
  drawRect 18 10 28 14 (NRGBA 40 40 50 255) (drawRect 14 8 20 26 (NRGBA 40 40 50 255) im).

Definition drawHands (clap : bool) (im : Image) : Image :=
  let c := NRGBA 255 210 170 255 in
  let im := filledCircle 26 22 8 c (filledCircle 14 22 8 c im) in
  if clap then drawLine 14 14 26 14 (NRGBA 200 200 200 255) im else im.

Definition drawThumb (up : bool) (im : Image) : Image :=
  let c := NRGBA 255 210 170 255 in
  let im := drawRect 18 10 24 28 c im in
  if up then drawRect 16 8 22 14 c im else drawRect 16 24 22 30 c im.

(** A block for each of the first two characters; the labels are ASCII. *)
Definition drawMiniText (s : string) (c : Color) (im : Image) : Image :=
  foldl (fun im i => let ox := 14 + i * 10 in drawRect ox 14 (ox + 6) (14 + 10) c im)
    im (upto 0 (min 2 (len s) - 1)).

Definition drawBadge (label : string) (bg : Color) (im : Image) : Image :=
  let label := if is_empty label then "?" else label in
  let im := filledCircle 20 20 16 bg im in
  drawMiniText (take_bytes (Z.to_nat (min 2 (len label))) label) (NRGBA 255 255 255 255) im.

Definition drawBug (im : Image) : Image :=
  filledCircle 32 18 3 (NRGBA 40 40 40 255)
    (filledCircle 8 18 3 (NRGBA 40 40 40 255) (drawLine 10 20 30 20 (NRGBA 60 60 40 255) im)).

Definition uint8 (z : Z) : Z := z mod 256.

Definition drawConfetti (frame : Z) (im : Image) : Image :=
  foldl (fun im i =>
    let x := Z.rem (i * 7 + frame * 3) 36 in
    let y := Z.rem (i * 5 + frame) 36 in
    drawRect (2 + x) (2 + y) (4 + x) (5 + y)
      (NRGBA (uint8 (100 + i * 10)) (uint8 (200 - i * 8)) (uint8 (150 + i * 5)) 255) im)
    (fill (NRGBA 40 44 60 255) im) (upto 0 11).

Definition drawStickDance (frame : Z) (im : Image) : Image :=
  let d := Z.rem frame 4 in
  let c := NRGBA 60 60 80 255 in
  drawLine 20 16 (28 - d * 2) 20 c (drawLine 20 16 (12 + d * 2) 20 c (drawLine 20 10 20 26 c im)).

Definition drawArrow : Z -> Z -> Z -> Z -> Color -> Image -> Image := drawLine.

Definition drawBulb (im : Image) : Image :=
  drawRect 16 22 24 32 (NRGBA 160 160 170 255) (filledCircle 20 14 10 (NRGBA 255 240 160 255) im).

Definition drawAnimal (letter : string) (fur : Color) (im : Image) : Image :=
  drawMiniText letter (NRGBA 40 40 50 255) (filledCircle 20 22 12 fur im).

Definition drawHair (c : Color) (im : Image) : Image :=
  foldl (fun im x => drawLine x 8 (x + 4) 22 c im) im (upto 8 31).

Definition drawSkull (im : Image) : Image :=
  let k := NRGBA 40 40 40 255 in
  drawLine 16 26 24 26 k (filledCircle 24 18 2 k (filledCircle 16 18 2 k
    (filledCircle 20 20 12 (NRGBA 240 240 240 255) im))).

Definition drawGhost (im : Image) : Image :=
  foldl (fun im x => drawLine x 22 (x + 2) 34 (NRGBA 230 230 245 255) im)
    (filledCircle 20 16 10 (NRGBA 240 240 250 255) im) (upBy 10 29 4).

(** [int(float64(cx) + r*math.Cos(a))] and its sine: a point of a circle whose
    radius is a fraction and whose angle is one of these expressions. *)
Inductive angle :=
| PiTimes (num den : Z)            (* num * math.Pi / den *)
| PiTimesLessHalf (num den : Z)    (* num * math.Pi / den - math.Pi/2 *)
| Radians (num den : Z).           (* num / den *)

Section Trig.
Context (cosI sinI : Z -> Z * Z -> angle -> Z).

Definition polar (cx cy : Z) (r : Z * Z) (a : angle) : Z * Z := (cosI cx r a, sinI cy r a).

(** The points of an arc, in degrees. *)
Definition arcPoints (cx cy r : Z) (ts : list Z) : list (Z * Z) :=
  (fun t => polar cx cy (r, 1) (PiTimes t 180)) <$> ts.

Definition drawCircleOutline (cx cy r : Z) (c : Color) : Image -> Image :=
  plotAll c (arcPoints cx cy r (upBy 0 359 6)).

Definition drawArcHigh (cx cy r : Z) (c : Color) : Image -> Image :=
  plotAll c (arcPoints cx cy r (upBy 200 340 4)).

Definition drawArcLow (cx cy r : Z) (c : Color) : Image -> Image :=
  plotAll c (arcPoints cx cy r (upBy 20 160 4)).

Definition drawArc : Z -> Z -> Z -> Color -> Image -> Image := drawCircleOutline.

Definition drawRing (cx cy r : Z) (c : Color) (im : Image) : Image :=
  drawCircleOutline cx cy (r - 2) (NRGBA 245 247 250 255) (drawCircleOutline cx cy r c im).

Definition ray (cx cy : Z) (ang : angle) (ln : Z) (c : Color) : Image -> Image :=
  plotAll c ((fun t => polar cx cy (t, 1) ang) <$> upto 2 (ln - 1)).

Definition drawStar (cx cy r : Z) (c : Color) : Image -> Image :=
  each (upto 0 4) (fun k =>
    let a0 := PiTimesLessHalf (k * 2) 5 in
    let a1 := PiTimesLessHalf ((k + 1) * 2) 5 in
    drawLine (cosI cx (r, 1) a0) (sinI cy (r, 1) a0)
             (cosI cx (Z.quot r 2, 1) a1) (sinI cy (Z.quot r 2, 1) a1) c).

Definition drawCurveHug (im : Image) : Image :=
  drawArc 26 24 10 (NRGBA 255 200 160 255) (drawArc 14 24 10 (NRGBA 255 200 160 255) im).

Definition drawSpiral (frame : Z) : Image -> Image :=
  plotAll (NRGBA 120 100 180 255)
    ((fun t => polar 20 20 (t, 15) (Radians (t + frame * 4) 8)) <$> upto 0 119).

Definition drawClock (frame : Z) (c : Color) (im : Image) : Image :=
  let a := PiTimes (Z.rem frame 60 * 2) 60 in
  drawLine 20 20 (20 + sinI 0 (9, 1) a) (20 - cosI 0 (9, 1) a) (NRGBA 200 80 80 255)
    (drawCircleOutline 20 20 14 c im).

(** ** Faces *)

Definition drawEyes (eyesOpen : bool) (eyeL eyeR : Z) (im : Image) : Image :=
  let k := NRGBA 40 40 50 255 in
  if eyesOpen then filledCircle eyeR 16 2 k (filledCircle eyeL 16 2 k im)
  else drawLine (eyeR - 2) 16 (eyeR + 2) 16 k (drawLine (eyeL - 2) 16 (eyeL + 2) 16 k im).

Definition drawMouth (mouth : Z) : Image -> Image :=
  if mouth =? 0 then drawLine 14 24 26 24 (NRGBA 80 40 40 255)
  else if mouth =? 1 then drawArcLow 20 22 8 (NRGBA 80 40 40 255)
  else if mouth =? 2 then drawArcHigh 20 20 10 (NRGBA 120 40 40 255)
  else if mouth =? 3 then drawLine 18 24 24 24 (NRGBA 200 80 120 255)
  else if mouth =? 4 then
    fun im => filledCircle 20 28 4 (NRGBA 255 100 140 255) (drawArcHigh 20 18 8 (NRGBA 80 40 40 255) im)
  else if mouth =? 5 then drawCircleOutline 20 24 5 (NRGBA 60 40 40 255)
  else if mouth =? 6 then
    fun im => drawLine 14 26 26 26 (NRGBA 80 40 40 255)
                (drawLine 28 14 22 18 (NRGBA 60 40 40 255) (drawLine 12 14 18 18 (NRGBA 60 40 40 255) im))
  else if mouth =? 7 then drawLine 14 24 26 24 (NRGBA 80 40 40 255)
  else if mouth =? 8 then drawLine 15 24 27 22 (NRGBA 80 40 40 255)
  else if mouth =? 9 then
    fun im => drawArcHigh 20 20 8 (NRGBA 120 40 40 255)
                (drawHeartAt 26 14 4 (NRGBA 230 60 90 255) (drawHeartAt 14 14 4 (NRGBA 230 60 90 255) im))
  else drawArcHigh 20 20 8 (NRGBA 120 40 40 255).

Definition drawFace (skin : Color) (eyesOpen tear : bool) (dx mouth : Z) (im : Image) : Image :=
  let eyeL := 14 + dx in
  let eyeR := 26 + dx in
  let im := drawEyes eyesOpen eyeL eyeR (filledCircle 20 20 16 skin im) in
  let im := if tear then filledCircle eyeL 20 2 (NRGBA 100 160 255 200) im else im in
  drawMouth mouth im.

(** ** The tiles *)

(** The cases of [drawStem]'s switch: the stems and what is drawn, in order; up
    to the badges, and from there on. *)
Definition faceCases (dx : Z) (stem : string) : list (list string * list (Image -> Image)) := [
  (["smile"], [drawFace (NRGBA 255 220 140 255) true false (1 + dx) 0]);
  (["sad"], [drawFace (NRGBA 255 210 160 255) false true dx 0]);
  (["laugh"], [drawFace (NRGBA 255 230 150 255) true false dx 2]);
  (["wink"], [drawFace (NRGBA 255 220 140 255) true false dx 1]);
  (["heart"], [drawHeart (NRGBA 230 40 60 255)]);
  (["kiss"], [drawFace (NRGBA 255 200 200 255) true false dx 3]);
  (["cool"],
   [drawFace (NRGBA 255 210 150 255) true false dx 0;
    drawRect 6 10 34 18 (NRGBA 20 20 80 220)]);
  (["tongue"], [drawFace (NRGBA 255 220 140 255) true false dx 4]);
  (["surprised"; "speechless"], [drawFace (NRGBA 255 220 140 255) true false dx 5]);
  (["angry"], [drawFace (NRGBA 255 180 150 255) true false dx 6]);
  (["cry"; "crying"],
   [drawFace (NRGBA 200 220 255 255) true true dx 1;
    each (upto 0 2) (fun i => filledCircle (14 + i * 6) 28 1 (NRGBA 80 140 255 200))]);
  (["bored"; "dull"], [drawFace (NRGBA 220 220 220 255) true false dx 7]);
  (["confused"; "thinking"; "typing"], [drawFace (NRGBA 255 225 180 255) true false dx 8]);
  (["wonder"], [drawFace (NRGBA 255 235 200 255) true false dx 5]);
  (["embarrassed"],
   [drawFace (NRGBA 255 190 190 255) true false dx 0;
    each (upBy 10 29 4) (fun x => filledCircle x 16 2 (NRGBA 255 80 80 120))]);
  (["blush"],
   [drawFace (NRGBA 255 200 200 255) true false dx 0;
    filledCircle 10 22 5 (NRGBA 255 120 140 140);
    filledCircle 30 22 5 (NRGBA 255 120 140 140)]);
  (["devil"],
   [drawFace (NRGBA 255 160 160 255) true false dx 6;
    filledCircle 8 6 3 (NRGBA 40 40 40 255);
    filledCircle 32 6 3 (NRGBA 40 40 40 255)]);
  (["angel"],
   [drawFace (NRGBA 255 240 220 255) true false dx 1;
    drawRing 20 6 14 (NRGBA 255 255 200 200)]);
  (["coffee"], [drawMug (NRGBA 90 60 40 255)]);
  (["pizza"], [drawTriangle (NRGBA 240 180 60 255); filledCircle 20 22 6 (NRGBA 220 60 40 255)]);
  (["beer"], [drawGlass (NRGBA 240 200 80 255)]);
  (["drink"], [drawGlass (NRGBA 180 220 255 255)]);
  (["cake"],
   [drawRect 10 18 30 32 (NRGBA 250 200 160 255);
    filledCircle 20 14 8 (NRGBA 255 80 120 255)]);
  (["sun"],
   [each (upto 0 7) (fun a => ray 20 20 (PiTimes a 4) 18 (NRGBA 255 210 40 255));
    filledCircle 20 20 10 (NRGBA 255 230 60 255)]);
  (["moon"],
   [filledCircle 18 16 12 (NRGBA 240 240 200 255);
    filledCircle 24 14 12 (NRGBA 245 247 250 255)]);
  (["star"], [drawStar 20 20 14 (NRGBA 255 210 40 255)]);
  (["rain"],
   [each (upto 0 4) (fun i => drawLine (4 + i * 8) (8 + i * 2) (10 + i * 8) 32 (NRGBA 80 140 255 200))]);
  (["snow"],
   [each (upto 0 5) (fun i => filledCircle (8 + i * 6) (10 + Z.rem i 3 * 8) 2 (NRGBA 220 240 255 255))]);
  (["phone"],
   [drawRect 14 8 26 32 (NRGBA 40 40 50 255);
    filledCircle 20 28 2 (NRGBA 100 255 120 255)]);
  (["music"], [drawNote]);
  (["movie"],
   [drawRect 8 12 32 28 (NRGBA 30 30 35 255);
    filledCircle 16 22 3 (NRGBA 255 80 80 255)]);
  (["flower"],
   [each (upto 0 4) (fun a => filledCircle (20 + cosI 0 (8, 1) (PiTimes (a * 2) 5)) (20 + sinI 0 (8, 1) (PiTimes (a * 2) 5)) 4 (NRGBA 255 120 200 255));
    filledCircle 20 20 4 (NRGBA 255 220 80 255)]);
  (["rose"],
   [drawRect 18 14 22 34 (NRGBA 40 120 60 255);
    filledCircle 20 12 8 (NRGBA 220 40 80 255)]);
  (["brokenheart"],
   [drawHeart (NRGBA 80 80 90 255);
    drawLine 12 12 28 28 (NRGBA 200 40 40 255)]);
  (["clap"], [drawHands true]);
  (["handshake"], [drawHands false]);
  (["muscle"; "flex"],
   [drawRect 14 10 26 30 (NRGBA 255 200 160 255);
    drawLine 10 16 30 12 (NRGBA 60 60 60 255)]);
  (["thumbsup"], [drawThumb true]);
  (["thumbsdown"], [drawThumb false]);
  (["bow"], [drawArc 20 22 16 (NRGBA 60 60 80 255)]);
  (["wave"],
   [drawLine 8 24 32 10 (NRGBA 255 200 140 255);
    drawLine 8 20 32 8 (NRGBA 255 200 140 255)]);
  (["hug"], [drawCurveHug]);
  (["finger"; "toivo"; "tmi"; "fubar"; "wtf"], [drawBadge stem (NRGBA 200 40 40 255)])].

Definition objectCases (dx frame : Z) : list (list string * list (Image -> Image)) := [
  (["rock"], [drawStar 20 20 10 (NRGBA 200 100 240 255)]);
  (["poolparty"], [fill (NRGBA 120 200 255 255); filledCircle 20 22 10 (NRGBA 255 220 100 255)]);
  (["mooning"], [drawBadge "!" (NRGBA 255 200 120 255)]);
  (["bug"], [drawBug]);
  (["drunk"], [drawSpiral frame]);
  (["bandit"],
   [drawRect 8 14 32 26 (NRGBA 40 40 40 255);
    drawRect 10 18 30 8 (NRGBA 255 255 255 200)]);
  (["sweat"],
   [drawFace (NRGBA 255 220 140 255) true false dx 0;
    drawLine 28 8 24 18 (NRGBA 80 160 255 200)]);
  (["cheeky"], [drawFace (NRGBA 255 220 140 255) true false dx 4]);
  (["sleepy"; "yawn"],
   [drawFace (NRGBA 230 230 250 255) true false dx 7;
    drawLine 14 26 26 26 (NRGBA 80 80 120 255)]);
  (["inlove"], [drawFace (NRGBA 255 200 210 255) true false dx 9]);
  (["evilgrin"; "egrin"], [drawFace (NRGBA 200 240 200 255) true false dx 2]);
  (["party"], [drawConfetti frame]);
  (["dance"], [drawStickDance frame]);
  (["punch"], [drawLine 10 20 30 12 (NRGBA 180 80 40 255)]);
  (["highfive"], [drawLine 8 28 32 8 (NRGBA 255 180 100 255)]);
  (["nod"], [drawArrow 20 12 20 28 (NRGBA 60 160 80 255)]);
  (["shake"], [drawArrow 20 28 20 12 (NRGBA 200 80 60 255)]);
  (["wait"], [drawClock frame (NRGBA 100 100 120 255)]);
  (["mail"; "e"],
   [drawRect 10 12 30 26 (NRGBA 240 240 245 255);
    drawLine 14 18 26 18 (NRGBA 60 60 80 255)]);
  (["idea"; "i"], [drawBulb]);
  (["time"; "clock"], [drawClock frame (NRGBA 60 60 80 255)]);
  (["laptop"; "computer"; "work"],
   [drawRect 8 14 32 26 (NRGBA 70 75 90 255);
    drawRect 10 16 28 18 (NRGBA 180 200 255 255)]);
  (["cat"], [drawAnimal "C" (NRGBA 200 200 210 255)]);
  (["dog"], [drawAnimal "D" (NRGBA 210 170 120 255)]);
  (["snail"], [drawSpiral frame]);
  (["cash"],
   [drawRect 12 14 28 26 (NRGBA 60 140 80 255);
    drawLine 22 16 22 28 (NRGBA 255 240 200 255);
    drawLine 18 20 26 20 (NRGBA 255 240 200 255)]);
  (["bank"],
   [drawRect 8 16 32 28 (NRGBA 100 100 120 255);
    drawRect 12 20 24 8 (NRGBA 255 220 120 255)]);
  (["pig"], [drawAnimal "P" (NRGBA 255 180 210 255)]);
  (["bike"],
   [drawCircleOutline 12 24 6 (NRGBA 60 60 60 255);
    drawCircleOutline 28 24 6 (NRGBA 60 60 60 255);
    drawLine 12 24 28 24 (NRGBA 80 80 120 255)]);
  (["car"],
   [drawRect 8 18 32 28 (NRGBA 80 120 200 255);
    filledCircle 12 28 3 (NRGBA 40 40 40 255);
    filledCircle 28 28 3 (NRGBA 40 40 40 255)]);
  (["plane"],
   [drawLine 8 20 32 16 (NRGBA 120 160 220 255);
    drawLine 20 12 20 26 (NRGBA 120 160 220 255)]);
  (["gift"; "present"],
   [drawRect 12 14 28 30 (NRGBA 220 80 80 255);
    drawRect 8 18 32 8 (NRGBA 255 220 100 255)]);
  (["monkey"], [drawAnimal "M" (NRGBA 180 140 100 255)]);
  (["ninja"],
   [drawRect 10 12 30 22 (NRGBA 40 40 50 255);
    drawLine 8 14 32 10 (NRGBA 200 200 200 255)]);
  (["emo"], [drawHair (NRGBA 40 40 50 255)]);
  (["headbang"], [drawLine 20 8 (20 + (dx * 2)) 30 (NRGBA 120 80 60 255)]);
  (["whew"; "rofl"; "giggle"; "chuckle"], [drawFace (NRGBA 255 230 180 255) true false dx 2]);
  (["puke"; "sick"],
   [fill (NRGBA 220 255 200 255);
    drawFace (NRGBA 200 240 200 255) true false dx 5]);
  (["doh"],
   [drawFace (NRGBA 255 220 160 255) true false dx 6;
    drawLine 10 8 30 12 (NRGBA 60 60 60 255)]);
  (["bomb"],
   [filledCircle 22 18 10 (NRGBA 40 40 40 255);
    drawLine 22 8 26 4 (NRGBA 255 200 80 255)]);
  (["skull"], [drawSkull]);
  (["ghost"], [drawGhost]);
  (["rainbow"],
   [each (upto 0 6) (fun i => drawRect (4 + i * 5) 12 (9 + i * 5) 28 (NRGBA (uint8 (255 - i * 30)) (uint8 (60 + i * 25)) (uint8 (200 - i * 20)) 255))]);
  (["phaze_logo_small"],
   [fill (NRGBA 0 175 240 255);
    drawRect 10 12 30 28 (NRGBA 255 255 255 255)])].

Definition stemCases (dx frame : Z) (stem : string) : list (list string * list (Image -> Image)) :=
  faceCases dx stem ++ objectCases dx frame.

Definition defaultCase (stem : string) : list (Image -> Image) :=
  let h := hashHue stem in
  [fill (NRGBA h (uint8 (200 - h / 2)) (uint8 (240 - h)) 255);
   filledCircle 20 20 12 (NRGBA 255 255 255 220);
   drawMiniText (take_bytes 2 stem) (NRGBA 40 40 60 255)].

Definition drawStem (stem : string) (frame : Z) (im : Image) : Image :=
  let dx := Z.rem frame 3 - 1 in
  let ops := match find_first (fun e => existsb (fun n => n ==? stem) e.1) (stemCases dx frame stem) with
             | Some e => e.2
             | None => defaultCase stem
             end in
  foldl (fun im op => op im) (fill (NRGBA 245 247 250 255) im) ops.
End Trig.
