(* ===== verification/RasterSpec.v ===== *)
(** * Line drawing: termination and shape

    [drawLine] runs Bresenham's loop with one error term for both axes.  The
    loop is followed here in the octant of its step counts [i] and [j]; the
    invariant of the major axis gives its fuel, its last point and the distance
    of every point from the ideal segment. *)

From Stdlib Require Import ZArith Bool Lia.
From stdpp Require Import base list gmap.
From S2P Require Import Prelude Raster.

Open Scope list_scope.
Open Scope Z_scope.

(** ** The walk in step counts *)

Fixpoint walk (fuel : nat) (dx dy i j err : Z) : option (list (Z * Z)) :=
  match fuel with
  | O => None
  | S fuel =>
      if (i =? dx) && (j =? dy) then Some [(i, j)]
      else
        let di := - dy <? 2 * err in
        let dj := 2 * err <? dx in
        cons (i, j) <$> walk fuel dx dy (if di then i + 1 else i) (if dj then j + 1 else j)
                          (err - (if di then dy else 0) + (if dj then dx else 0))
  end.

Definition place (x0 y0 sx sy : Z) (p : Z * Z) : Z * Z := (x0 + sx * p.1, y0 + sy * p.2).

Lemma lineLoop_walk fuel dx dy sx sy x0 y0 c i j err im :
  (sx = 1 \/ sx = -1) -> (sy = 1 \/ sy = -1) ->
  lineLoop fuel dx dy sx sy (x0 + sx * dx) (y0 + sy * dy) c (x0 + sx * i) (y0 + sy * j) err im =
  (fun ps => plotAll c (place x0 y0 sx sy <$> ps) im) <$> walk fuel dx dy i j err.
Proof.
  intros Hsx Hsy. revert i j err im. induction fuel as [|fuel IH]; intros i j err im; [done|].
  cbn [lineLoop walk].
  assert (Hx : (x0 + sx * i =? x0 + sx * dx) = (i =? dx))
    by (destruct (Z.eqb_spec i dx); [subst; apply Z.eqb_refl | apply Z.eqb_neq; nia]).
  assert (Hy : (y0 + sy * j =? y0 + sy * dy) = (j =? dy))
    by (destruct (Z.eqb_spec j dy); [subst; apply Z.eqb_refl | apply Z.eqb_neq; nia]).
  rewrite Hx, Hy. destruct ((i =? dx) && (j =? dy)); [done|].
  assert (Hsi : x0 + sx * i + sx = x0 + sx * (i + 1)) by lia.
  assert (Hsj : y0 + sy * j + sy = y0 + sy * (j + 1)) by lia.
  destruct (- dy <? 2 * err), (2 * err <? dx); cbv zeta iota beta;
    rewrite ?Hsi, ?Hsj, IH, <- option_fmap_compose;
    match goal with |- _ <$> walk _ _ _ _ _ ?a = _ <$> walk _ _ _ _ _ ?b =>
      replace b with a by lia end;
    apply option_fmap_ext; reflexivity.
Qed.

(** The walk with the axes exchanged, with the opposite error term. *)
Definition swap (p : Z * Z) : Z * Z := (p.2, p.1).

Lemma walk_swap fuel dx dy i j err :
  walk fuel dy dx j i (- err) = (fun ps : list (Z * Z) => swap <$> ps) <$> walk fuel dx dy i j err.
Proof.
  revert i j err. induction fuel as [|fuel IH]; intros i j err; [done|].
  cbn [walk]. rewrite andb_comm. destruct ((i =? dx) && (j =? dy)); [done|].
  assert (Hj : (- dx <? 2 * - err) = (2 * err <? dx)) by (apply eq_true_iff_eq; rewrite !Z.ltb_lt; lia).
  assert (Hi : (2 * - err <? dy) = (- dy <? 2 * err)) by (apply eq_true_iff_eq; rewrite !Z.ltb_lt; lia).
  rewrite Hj, Hi. cbv zeta.
  replace (- err - (if 2 * err <? dx then dx else 0) + (if - dy <? 2 * err then dy else 0))
    with (- (err - (if - dy <? 2 * err then dy else 0) + (if 2 * err <? dx then dx else 0))) by lia.
  rewrite IH, <- !option_fmap_compose. apply option_fmap_ext. reflexivity.
Qed.

(** ** Digital segments *)

(** A list of points is a walk of [n] unit steps from [(i, j)] to [(dx, dy)]
    no point of which is more than half a pixel away, along the minor axis,
    from the segment. *)
Record segment (dx dy i j : Z) (n : nat) (ps : list (Z * Z)) : Prop := {
  sg_length : length ps = S n;
  sg_head : head ps = Some (i, j);
  sg_last : last ps = Some (dx, dy);
  sg_near : Forall (fun p => 0 <= p.1 <= dx /\ 0 <= p.2 <= dy /\
                             2 * Z.abs (p.1 * dy - p.2 * dx) <= Z.max dx dy) ps;
  sg_unit : forall k p q, ps !! k = Some p -> ps !! S k = Some q ->
              0 <= q.1 - p.1 <= 1 /\ 0 <= q.2 - p.2 <= 1 /\ p <> q }.

Lemma segment_cons dx dy i j i' j' n ps :
  0 <= i <= dx -> 0 <= j <= dy -> 2 * Z.abs (i * dy - j * dx) <= Z.max dx dy ->
  0 <= i' - i <= 1 -> 0 <= j' - j <= 1 -> (i, j) <> (i', j') ->
  segment dx dy i' j' n ps -> segment dx dy i j (S n) ((i, j) :: ps).
Proof.
  intros Hi Hj Hp Hsi Hsj Hne [L H0 Hl Hn Hu]. destruct ps as [|p0 ps]; [done|].
  cbn [head] in H0. injection H0 as ->. split; [by cbn; f_equal | done | done | by constructor |].
  intros [|k] p q Ep Eq; [by simplify_eq/= | exact (Hu k p q Ep Eq)].
Qed.

Lemma segment_end dx dy : 0 <= dx -> 0 <= dy -> segment dx dy dx dy 0 [(dx, dy)].
Proof.
  intros Hx Hy. split; [done..| |].
  - constructor; [cbn; nia | done].
  - intros [|k] p q _ Eq; done.
Qed.

Lemma segment_swap dx dy i j n ps : segment dx dy i j n ps -> segment dy dx j i n (swap <$> ps).
Proof.
  intros [L H0 Hl Hn Hu]. split.
  - by rewrite length_fmap.
  - destruct ps; [done|]. cbn in *. by injection H0 as ->.
  - rewrite fmap_last, Hl. reflexivity.
  - apply Forall_fmap. eapply Forall_impl; [exact Hn|]. intros [x y]; cbn. lia.
  - intros k p q. rewrite !list_lookup_fmap.
    intros ([a b] & Ep & ->)%fmap_Some ([a' b'] & Eq & ->)%fmap_Some.
    destruct (Hu _ _ _ Ep Eq) as (U1 & U2 & U3). cbn in *.
    split_and!; try lia. intros [= -> ->]. by apply U3.
Qed.

(** ** The invariant of the major axis

    [P = i * dy - j * dx] is the signed distance, scaled by [dx], of the walk
    from the segment, and the error term is [dx - dy - P]. *)
Lemma walk_major n dx dy i j :
  0 < dx -> 0 <= dy -> 0 <= i -> Z.of_nat n = dx - i ->
  (dy < dx /\ - dx < 2 * (i * dy - j * dx) <= dx \/ dy = dx /\ i = j) ->
  exists ps, walk (S n) dx dy i j (dx - dy - (i * dy - j * dx)) = Some ps /\ segment dx dy i j n ps.
Proof.
  revert i j. induction n as [|n IH]; intros i j Hdx Hdy Hi Hn Inv.
  - assert (i = dx) as -> by lia. assert (j = dy) as -> by nia.
    cbn [walk]. rewrite !Z.eqb_refl. cbn. eexists. split; [done|].
    apply segment_end; cbn; nia.
  - assert (Hj : 0 <= j <= dy) by nia.
    assert (Hne : (i =? dx) = false) by (apply Z.eqb_neq; lia).
    assert (Hd : (- dy <? 2 * (dx - dy - (i * dy - j * dx))) = true) by (apply Z.ltb_lt; nia).
    set (m := S n) in *. cbn [walk]. rewrite Hne, Hd. cbv zeta beta iota. cbn [andb]. subst m.
    destruct (Z.ltb_spec (2 * (dx - dy - (i * dy - j * dx))) dx) as [Hj1|Hj1];
      [ destruct (IH (i + 1) (j + 1)) as (ps & E & Sg) | destruct (IH (i + 1) j) as (ps & E & Sg) ];
      try lia; try nia;
      match type of E with walk _ _ _ _ _ ?a = _ =>
        match goal with |- context [walk _ _ _ _ _ ?b] => replace b with a by lia end end;
      rewrite E; eexists; (split; [reflexivity|]);
      (eapply segment_cons; [..|exact Sg]; try lia; try nia; intros [=]; lia).
Qed.

Lemma walk_segment dx dy :
  0 <= dx -> 0 <= dy ->
  exists ps, walk (lineFuel dx dy) dx dy 0 0 (dx - dy) = Some ps /\
             segment dx dy 0 0 (Z.to_nat (Z.max dx dy)) ps.
Proof.
  intros Hdx Hdy. unfold lineFuel.
  destruct (Z.le_gt_cases dy dx) as [Hle|Hgt].
  - destruct (Z.eq_dec dx 0) as [->|Hnz].
    { assert (dy = 0) as -> by lia. eexists. split; [reflexivity|].
      apply segment_end; cbn; lia. }
    rewrite Z.max_l by lia.
    destruct (walk_major (Z.to_nat dx) dx dy 0 0) as (ps & E & Sg); try lia.
    replace (dx - dy - (0 * dy - 0 * dx)) with (dx - dy) in E by lia. eauto.
  - rewrite Z.max_r by lia.
    destruct (walk_major (Z.to_nat dy) dy dx 0 0) as (ps & E & Sg); try lia.
    exists (swap <$> ps). split; [|by apply segment_swap].
    pose proof (walk_swap (S (Z.to_nat dy)) dy dx 0 0 (dy - dx)) as W.
    replace (- (dy - dx)) with (dx - dy) in W by lia. rewrite W.
    replace (dy - dx - (0 * dx - 0 * dy)) with (dy - dx) in E by lia. by rewrite E.
Qed.

(** ** [drawLine] *)

(** [drawLine] terminates: its loop leaves after [max(dx, dy) + 1] passes,
    and what it paints is a digital segment, whose first point is [(x0, y0)]
    and last point [(x1, y1)], in which consecutive points are neighbours and
    no point is more than half a pixel from the ideal line. *)
Theorem drawLine_terminates x0 y0 x1 y1 c im :
  let dx := abs (x1 - x0) in
  let dy := abs (y1 - y0) in
  let sx := if x1 <? x0 then -1 else 1 in
  let sy := if y1 <? y0 then -1 else 1 in
  exists ps,
    lineLoop (lineFuel dx dy) dx dy sx sy x1 y1 c x0 y0 (dx - dy) im = Some (drawLine x0 y0 x1 y1 c im) /\
    drawLine x0 y0 x1 y1 c im = plotAll c (place x0 y0 sx sy <$> ps) im /\
    segment dx dy 0 0 (Z.to_nat (Z.max dx dy)) ps /\
    place x0 y0 sx sy (0, 0) = (x0, y0) /\ place x0 y0 sx sy (dx, dy) = (x1, y1).
Proof.
  intros dx dy sx sy.
  assert (Hx : 0 <= dx /\ x1 = x0 + sx * dx /\ (sx = 1 \/ sx = -1))
    by (unfold dx, sx, abs; destruct (Z.ltb_spec x1 x0), (Z.ltb_spec (x1 - x0) 0); lia).
  assert (Hy : 0 <= dy /\ y1 = y0 + sy * dy /\ (sy = 1 \/ sy = -1))
    by (unfold dy, sy, abs; destruct (Z.ltb_spec y1 y0), (Z.ltb_spec (y1 - y0) 0); lia).
  destruct Hx as (Hdx & Ex & Hsx), Hy as (Hdy & Ey & Hsy).
  destruct (walk_segment dx dy Hdx Hdy) as (ps & E & Sg).
  pose proof (lineLoop_walk (lineFuel dx dy) dx dy sx sy x0 y0 c 0 0 (dx - dy) im Hsx Hsy) as W.
  rewrite E, <- Ex, <- Ey, !Z.mul_0_r, !Z.add_0_r in W. cbn [fmap option_fmap option_map] in W.
  exists ps. unfold drawLine. cbv zeta. fold dx dy sx sy. rewrite W. cbn [default from_option].
  unfold place. cbn [fst snd]. rewrite !Z.mul_0_r, !Z.add_0_r, <- Ex, <- Ey.
  by split_and!.
Qed.
