(* ===== verification/Sheet.v ===== *)
(** * The emoticon sheet ([cmd/emoticongen/main.go])

    The file names of the tiles, the master sheet that lays the frames of each
    animated emoticon out in a column of 40-pixel cells, and the branding
    images.  Creating the files is left out. *)

From Stdlib Require Import ZArith Lia.
From stdpp Require Import base strings list gmap.
From S2P Require Import Prelude GoRt GoStd Raster.

Open Scope string_scope.
Open Scope list_scope.
Open Scope Z_scope.

(** [image.NewNRGBA(image.Rect(0, 0, w, h))] *)
Definition NewNRGBA (w h : Z) : Image := mkImage 0 0 w h ∅.

Definition cell : Z := 40.

(** ** The tables *)

Record sheetEntry := mkEntry { seKey : string; seX : Z; seY : Z; seFrames : Z }.

Definition sheetLayout : list sheetEntry := [
  mkEntry "(smile)" 0 0 32; mkEntry "(sad)" 40 0 32; mkEntry "(wink)" 80 0 32;
  mkEntry "(laugh)" 120 0 32; mkEntry "(cool)" 160 0 32; mkEntry "(surprised)" 200 0 32;
  mkEntry "(crying)" 280 0 32; mkEntry "(sweat)" 320 0 32; mkEntry "(kiss)" 360 0 32;
  mkEntry "(cheeky)" 400 0 32; mkEntry "(blush)" 440 0 32; mkEntry "(sleepy)" 480 0 32;
  mkEntry "(dull)" 520 0 32; mkEntry "(inlove)" 560 0 32; mkEntry "(egrin)" 600 0 32;
  mkEntry "(party)" 640 0 32; mkEntry "(beer)" 680 40 1; mkEntry "(dance)" 720 0 32;
  mkEntry "(rock)" 760 0 32; mkEntry "(punch)" 800 0 32; mkEntry "(flex)" 840 0 32;
  mkEntry "(highfive)" 880 0 32].

Definition sheetStem : list (string * string) := [
  ("(smile)", "smile"); ("(sad)", "sad"); ("(wink)", "wink"); ("(laugh)", "laugh");
  ("(cool)", "cool"); ("(surprised)", "surprised"); ("(crying)", "cry"); ("(sweat)", "sweat");
  ("(kiss)", "kiss"); ("(cheeky)", "cheeky"); ("(blush)", "blush"); ("(sleepy)", "sleepy");
  ("(dull)", "bored"); ("(inlove)", "inlove"); ("(egrin)", "evilgrin"); ("(party)", "party");
  ("(beer)", "beer"); ("(dance)", "dance"); ("(rock)", "rock"); ("(punch)", "punch");
  ("(flex)", "muscle"); ("(highfive)", "highfive")].

Definition allStems : list string := [
  "angel"; "angry"; "bandit"; "bank"; "beer"; "bike"; "bomb"; "bow"; "brokenheart"; "bug";
  "car"; "cash"; "cat"; "cheeky"; "chuckle"; "clap"; "coffee"; "cake"; "confused"; "cry";
  "cool"; "dance"; "devil"; "dog"; "doh"; "drink"; "drunk"; "embarrassed"; "emo"; "evilgrin";
  "finger"; "flower"; "fubar"; "ghost"; "giggle"; "gift"; "handshake"; "headbang"; "heart";
  "highfive"; "hug"; "idea"; "inlove"; "kiss"; "laugh"; "laptop"; "mail"; "monkey"; "moon";
  "mooning"; "movie"; "music"; "muscle"; "ninja"; "nod"; "party"; "phaze_logo_small"; "pig";
  "plane"; "poolparty"; "punch"; "puke"; "rain"; "rainbow"; "rock"; "rose"; "rofl"; "sad";
  "shake"; "sick"; "skull"; "sleepy"; "smile"; "snail"; "snow"; "speechless"; "star"; "sun";
  "surprised"; "sweat"; "thinking"; "thumbsdown"; "thumbsup"; "time"; "tmi"; "toivo"; "tongue";
  "wait"; "wave"; "whew"; "wink"; "wonder"; "wtf"; "yawn"].

Definition uniqueStems : list string :=
  foldl (fun out s => if is_empty s || existsb (fun x => x ==? s) out then out else out ++ [s]) [] allStems.

Definition stemFilename (stem : string) : string :=
  if stem ==? "phaze_logo_small" then "phaze_logo_small.png" else "emoticon_" +:+ stem +:+ ".png".

Definition stemOf (key : string) : string :=
  let stem := match find_first (fun e => e.1 ==? key) sheetStem with Some e => e.2 | None => "" end in
  if is_empty stem then "smile" else stem.

(** ** Copying tiles *)

(** A pixel that was never painted is transparent. *)
Definition At (im : Image) (x y : Z) : Color := default (NRGBA 0 0 0 0) (Pix im !! (x, y)).

(** [draw.Draw(sheet, image.Rect(x, y, x+cell, y+cell), tile, image.Point{}, draw.Src)] *)
Definition blit (x y : Z) (tile sheet : Image) : Image :=
  foldl (fun im p => Set_ (x + p.1) (y + p.2) (At tile p.1 p.2) im) sheet
    (grid (upto 0 (cell - 1)) (upto 0 (cell - 1))).

(** The cells of the sheet in the order they are drawn: corner, stem, frame. *)
Definition sheetCells : list (Z * Z * string * Z) :=
  concat ((fun e => (fun f => (seX e, seY e + f * cell, stemOf (seKey e), f)) <$> upto 0 (seFrames e - 1))
            <$> sheetLayout).

Section Generate.
Context (cosI sinI : Z -> Z * Z -> angle -> Z).

Definition tileOf (stem : string) (frame : Z) : Image := drawStem cosI sinI stem frame (NewNRGBA cell cell).

Definition drawCell (im : Image) (c : Z * Z * string * Z) : Image :=
  let '(x, y, stem, f) := c in blit x y (tileOf stem f) im.

Definition buildMasterSheet : Image :=
  foldl drawCell (fill (NRGBA 52 56 64 255) (NewNRGBA 960 1400)) sheetCells.
End Generate.

(** [writeBranding]: the icon, the logo and the default avatar. *)
Definition brandIcon : Image :=
  drawRect 32 32 96 96 (NRGBA 255 255 255 255) (fill (NRGBA 0 175 240 255) (NewNRGBA 128 128)).
Definition brandLogo : Image :=
  each (upBy 16 219 40) (fun x => drawRect x 18 (x + 28) 38 (NRGBA 255 255 255 220))
    (fill (NRGBA 0 175 240 255) (NewNRGBA 240 56)).
Definition defaultAvatar : Image :=
  filledCircle 64 100 40 (NRGBA 180 200 220 255)
    (filledCircle 64 48 28 (NRGBA 255 210 180 255) (fill (NRGBA 210 220 230 255) (NewNRGBA 128 128))).

(** The files written under [root]: name and image. *)
Definition generated (cosI sinI : Z -> Z * Z -> angle -> Z) (root : string) : list (string * Image) :=
  ((fun s => (root +:+ "/emoticons/" +:+ stemFilename s, tileOf cosI sinI s 0)) <$> uniqueStems)
  ++ [(root +:+ "/Icon.png", brandIcon); (root +:+ "/phaze_logo.png", brandLogo);
      (root +:+ "/default_avatar.png", defaultAvatar);
      (root +:+ "/ui_master_spritesheet.png", buildMasterSheet cosI sinI)].

(** ** Every cell is where the table says *)

Definition sameBounds (a b : Image) : Prop :=
  minX a = minX b /\ minY a = minY b /\ maxX a = maxX b /\ maxY a = maxY b.

Lemma inBounds_same a b x y : sameBounds a b -> inBounds a x y = inBounds b x y.
Proof. unfold inBounds. by intros (-> & -> & -> & ->). Qed.

Lemma Set_bounds x y c im : sameBounds (Set_ x y c im) im.
Proof. unfold Set_. by destruct (inBounds im x y). Qed.

Lemma sameBounds_trans a b c : sameBounds a b -> sameBounds b c -> sameBounds a c.
Proof. unfold sameBounds. intros (?&?&?&?) (?&?&?&?). split_and!; congruence. Qed.

Lemma elem_of_upto k a b : k ∈ upto a b <-> a <= k <= b.
Proof.
  unfold upto. rewrite list_elem_of_fmap. setoid_rewrite elem_of_seq. split.
  - intros (n & -> & Hn). lia.
  - intros H. exists (Z.to_nat (k - a)). lia.
Qed.

Lemma elem_of_grid p xs ys : p ∈ grid xs ys <-> p.1 ∈ xs /\ p.2 ∈ ys.
Proof.
  unfold grid. rewrite list_elem_of_In, in_concat. split.
  - intros (l & Hl & Hp). apply list_elem_of_In, list_elem_of_fmap in Hl as (y & -> & Hy).
    apply list_elem_of_In, list_elem_of_fmap in Hp as (x & -> & Hx). done.
  - destruct p as [x y]. intros [Hx Hy]. exists ((fun x => (x, y)) <$> xs).
    rewrite <- !list_elem_of_In. split; apply list_elem_of_fmap; eauto.
Qed.

(** Painting the points [ps] of a tile: the colour of a pixel depends on its
    position only, so the order does not show. *)
Lemma paint_lookup x y tile ps sheet u v :
  let r := foldl (fun im p => Set_ (x + p.1) (y + p.2) (At tile p.1 p.2) im) sheet ps in
  sameBounds r sheet
  /\ Pix r !! (u, v) = if bool_decide ((u - x, v - y) ∈ ps) && inBounds sheet u v
                       then Some (At tile (u - x) (v - y)) else Pix sheet !! (u, v).
Proof.
  cbn zeta. induction ps as [|p ps [IHb IH]] using rev_ind; [done|].
  rewrite foldl_app. cbn [foldl]. split; [eapply sameBounds_trans; [apply Set_bounds | done]|].
  set (r := foldl _ sheet ps) in *. unfold Set_. rewrite (inBounds_same _ _ _ _ IHb).
  destruct (decide (p = (u - x, v - y))) as [->|Hne].
  - cbn [fst snd]. replace (x + (u - x)) with u by lia. replace (y + (v - y)) with v by lia.
    rewrite bool_decide_true by (apply elem_of_app; right; by apply list_elem_of_singleton).
    destruct (inBounds sheet u v); cbn [andb Pix]; [by rewrite lookup_insert_eq|].
    by rewrite IH, andb_false_r.
  - assert (Hk : (x + p.1, y + p.2) <> (u, v)).
    { intros [=]. apply Hne. destruct p as [a b]. cbn in *. f_equal; lia. }
    assert (E : bool_decide ((u - x, v - y) ∈ ps ++ [p]) = bool_decide ((u - x, v - y) ∈ ps)).
    { apply bool_decide_ext. rewrite elem_of_app, list_elem_of_singleton. intuition congruence. }
    rewrite E, <- IH. destruct (inBounds sheet (x + p.1) (y + p.2)); [|done]. cbn [Pix]. by rewrite lookup_insert_ne by done.
Qed.

Definition covers (x y u v : Z) : Prop := x <= u < x + cell /\ y <= v < y + cell.

Lemma blit_lookup x y tile sheet u v :
  sameBounds (blit x y tile sheet) sheet
  /\ (covers x y u v -> inBounds sheet u v = true -> Pix (blit x y tile sheet) !! (u, v) = Some (At tile (u - x) (v - y)))
  /\ (~ covers x y u v -> Pix (blit x y tile sheet) !! (u, v) = Pix sheet !! (u, v)).
Proof.
  destruct (paint_lookup x y tile (grid (upto 0 (cell - 1)) (upto 0 (cell - 1))) sheet u v) as [Hb Hl].
  assert (Hc : (u - x, v - y) ∈ grid (upto 0 (cell - 1)) (upto 0 (cell - 1)) <-> covers x y u v).
  { rewrite elem_of_grid, !elem_of_upto. unfold covers, cell. cbn [fst snd]. lia. }
  split; [exact Hb|]. split.
  - intros H1 H2. unfold blit. rewrite Hl, bool_decide_true, H2 by tauto. done.
  - intros H1. unfold blit. rewrite Hl, bool_decide_false by tauto. done.
Qed.

(** What the table must satisfy: the cells are on the 40-pixel grid, inside
    the sheet, and no two have the same corner. *)
Definition corner (c : Z * Z * string * Z) : Z * Z := c.1.1.

Definition cellOK (c : Z * Z * string * Z) : bool :=
  (0 <=? (corner c).1) && ((corner c).1 + cell <=? 960) && ((corner c).1 mod cell =? 0)
  && (0 <=? (corner c).2) && ((corner c).2 + cell <=? 1400) && ((corner c).2 mod cell =? 0).

Lemma sheetCells_ok : forallb cellOK sheetCells = true.
Proof. vm_compute. reflexivity. Qed.

Lemma sheetCells_NoDup : NoDup (corner <$> sheetCells).
Proof. apply (bool_decide_eq_true_1 (NoDup _)). vm_compute. reflexivity. Qed.

Lemma covers_same c c' u v :
  cellOK c = true -> cellOK c' = true ->
  covers (corner c).1 (corner c).2 u v -> covers (corner c').1 (corner c').2 u v -> corner c = corner c'.
Proof.
  unfold cellOK, covers, cell. intros H H' H1 H2. bools.
  destruct (corner c) as [x y], (corner c') as [x' y']. cbn [fst snd] in *.
  f_equal; Z.div_mod_to_equations; lia.
Qed.

Section Complete.
Context (cosI sinI : Z -> Z * Z -> angle -> Z).

Lemma cells_lookup l sheet c u v :
  NoDup (corner <$> l) -> forallb cellOK l = true -> c ∈ l ->
  (forall x y, 0 <= x < 960 -> 0 <= y < 1400 -> inBounds sheet x y = true) ->
  covers (corner c).1 (corner c).2 u v ->
  Pix (foldl (drawCell cosI sinI) sheet l) !! (u, v)
  = Some (At (tileOf cosI sinI c.1.2 c.2) (u - (corner c).1) (v - (corner c).2)).
Proof.
  induction l as [|c' l IH] using rev_ind; [by intros _ _ ?%elem_of_nil|].
  rewrite fmap_app, forallb_app. intros (Hnd & Hdis & _)%NoDup_app Hok Hin Hb Hcov. bools.
  rewrite foldl_app. cbn [foldl]. destruct c' as [[[x y] stem] f]. cbn [drawCell].
  assert (Hbounds : forall l, sameBounds (foldl (drawCell cosI sinI) sheet l) sheet).
  { clear. induction l as [|[[[x y] s] f] l IH] using rev_ind; [done|]. rewrite foldl_app. cbn.
    eapply sameBounds_trans; [|exact IH]. apply (blit_lookup x y _ _ 0 0). }
  destruct (blit_lookup x y (tileOf cosI sinI stem f) (foldl (drawCell cosI sinI) sheet l) u v) as (_ & Hi & Ho).
  match goal with H : forallb cellOK [_] = true |- _ => cbn [forallb] in H; bools end.
  apply elem_of_app in Hin as [Hin|Hin]; [|apply list_elem_of_singleton in Hin as ->].
  - rewrite Ho; [by apply IH|]. intros Hc'.
    assert (Hcok : cellOK c = true).
    { match goal with H : forallb cellOK l = true |- _ => rewrite forallb_forall in H; apply H end.
      by apply list_elem_of_In. }
    apply (Hdis (corner c)); [by apply list_elem_of_fmap; exists c|].
    apply list_elem_of_singleton. by apply (covers_same c (x, y, stem, f) u v).
  - rewrite Hi; [done | done|]. rewrite (inBounds_same _ _ _ _ (Hbounds l)).
    match goal with H : cellOK _ = true |- _ => unfold cellOK in H end. unfold covers in Hcov. bools.
    cbn [corner fst snd] in *. apply Hb; lia.
Qed.

Lemma fill_bounds c im : sameBounds (fill c im) im.
Proof.
  unfold fill, plotAll. generalize (grid (upto (minX im) (maxX im - 1)) (upto (minY im) (maxY im - 1))).
  intros l. induction l as [|p l IH] using rev_ind; [done|]. rewrite foldl_app. cbn [foldl].
  eapply sameBounds_trans; [|exact IH]. unfold plot. destruct (inBounds _ _ _); [apply Set_bounds | done].
Qed.

(** The sheet is complete.  Whatever the tiles look like, every pixel of every
    frame of every emoticon is on the sheet where [sheetLayout] says the client
    will look for it: no cell is clipped by the sheet's edge and none is drawn
    over by another. *)
Theorem sheet_complete e f px py :
  e ∈ sheetLayout -> 0 <= f < seFrames e -> 0 <= px < cell -> 0 <= py < cell ->
  Pix (buildMasterSheet cosI sinI) !! (seX e + px, seY e + f * cell + py)
  = Some (At (tileOf cosI sinI (stemOf (seKey e)) f) px py).
Proof.
  intros He Hf Hx Hy. set (c := (seX e, seY e + f * cell, stemOf (seKey e), f)).
  assert (Hc : c ∈ sheetCells).
  { unfold sheetCells. apply list_elem_of_In, in_concat. eexists. split.
    - apply list_elem_of_In, list_elem_of_fmap. exists e. split; [reflexivity | done].
    - apply list_elem_of_In, list_elem_of_fmap. exists f. split; [done|]. apply elem_of_upto. lia. }
  unfold buildMasterSheet.
  rewrite (cells_lookup sheetCells _ c); [| apply sheetCells_NoDup | apply sheetCells_ok | done | |].
  - subst c. cbn [corner fst snd]. do 2 f_equal; lia.
  - intros x y Hx' Hy'. rewrite (inBounds_same _ _ _ _ (fill_bounds _ _)).
    unfold inBounds. cbn [minX maxX minY maxY NewNRGBA]. rewrite !andb_true_iff, !Z.leb_le, !Z.ltb_lt. lia.
  - subst c. unfold covers. cbn [corner fst snd]. lia.
Qed.
End Complete.
