(* ===== verification/Tools.v ===== *)
(** * Command-line tools without a database ([cmd/fetch-seed], [cmd/soundgen])

    The first-boot import of a database from the bucket, over an explicit file
    system, and the WAV encoder of the sound generator.  SQLite, the bucket and
    the failures of the operating system, a refused removal included, are
    parameters; directories are not modelled; the synthesis of the
    samples is in [Sound]. *)

From Stdlib Require Import ZArith Lia String.
From stdpp Require Import base strings list gmap.
From S2P Require Import Prelude GoRt GoStd.

Open Scope string_scope.
Open Scope list_scope.
Open Scope Z_scope.

Module FetchSeed.

Definition seedKey : string := "seed/nexus.db".
Definition seedWALKey : string := seedKey +:+ "-wal".

(** The outcome of a step that may fail. *)
Inductive seedErr := ErrNoSeed | ErrOther (what : string).

(** What [client.GetObject] and the read of its body give. *)
Inductive object :=
| ObjGetFailed
| ObjStatus (code : Z)            (* [Stat] failed with this status *)
| ObjBroken (part : string)       (* the copy fails after [part] *)
| ObjContent (content : string).

(** The operating system's calls that can fail, and SQLite. *)
Record Host := mkHost {
  bucketObject : string -> object;
  mkdirOK : bool;
  tempOK : bool;
  createOK : string -> bool;
  closeOK : string -> bool;
  renameOK : bool;
  removeOK : string -> bool;
  tempName : string;
  (* [PRAGMA wal_checkpoint(TRUNCATE)] and [journal_mode=DELETE] on a database
     and its log: the database file afterwards, if both succeed *)
  checkpoint : string -> string -> option string;
  (* the answer of [PRAGMA quick_check] on a read-only connection *)
  quickCheck : string -> option string }.

(** The files, by path; the directories [os.MkdirAll] makes are not counted. *)
#[local] Abbreviation FS := (gmap string string).

Section Seed.
Context (h : Host).

(** [download]: the object into a file; the file is created before the body is
    read. *)
Definition download (key path : string) (fs : FS) : option seedErr * FS :=
  match bucketObject h key with
  | ObjGetFailed => (Some (ErrOther "get"), fs)
  | ObjStatus code => (Some (if code =? 404 then ErrNoSeed else ErrOther "reading"), fs)
  | ObjBroken part =>
      if negb (createOK h path) then (Some (ErrOther "create"), fs)
      else (Some (ErrOther "downloading"), <[path := part]> fs)
  | ObjContent content =>
      if negb (createOK h path) then (Some (ErrOther "create"), fs)
      else (if closeOK h path then None else Some (ErrOther "close"), <[path := content]> fs)
  end.

Definition readFile (path : string) (fs : FS) : string := default "" (fs !! path).

(** [foldWAL]: on success the log is gone; a failed checkpoint leaves the
    files to the deferred removals. *)
Definition foldWAL (path : string) (fs : FS) : option seedErr * FS :=
  match checkpoint h (readFile path fs) (readFile (path +:+ "-wal") fs) with
  | None => (Some (ErrOther "checkpoint"), fs)
  | Some db => (None, delete (path +:+ "-wal") (<[path := db]> fs))
  end.

Definition sqliteHeader : string := "SQLite format 3" +:+ of_bytes [0].

Definition checkSQLite (path : string) (fs : FS) : option seedErr :=
  let db := readFile path fs in
  if negb (HasPrefix db sqliteHeader) then Some (ErrOther "missing SQLite header")
  else match quickCheck h db with
       | None => Some (ErrOther "quick_check")
       | Some result => if result ==? "ok" then None else Some (ErrOther ("quick_check: " +:+ result))
       end.

(** [os.Remove], its error ignored. *)
Definition remove (p : string) (fs : FS) : FS := if removeOK h p then delete p fs else fs.

(** The deferred removals, the last deferred first. *)
Definition cleanup (tmp : string) (fs : FS) : FS :=
  remove tmp (remove (tmp +:+ "-wal") (remove (tmp +:+ "-shm") fs)).

(** The steps between the temporary file and the rename. *)
Definition prepare (tmp : string) (fs : FS) : option seedErr * FS :=
  let '(e, fs) := download seedKey tmp fs in
  match e with
  | Some e => (Some e, fs)
  | None =>
      let '(e, fs) := download seedWALKey (tmp +:+ "-wal") fs in
      let '(e, fs) := match e with
                      | Some ErrNoSeed => (None, fs)
                      | Some e => (Some e, fs)
                      | None => foldWAL tmp fs
                      end in
      match e with
      | Some e => (Some e, fs)
      | None => (checkSQLite tmp fs, fs)
      end
  end.

Definition rename (src dst : string) (fs : FS) : FS := delete src (<[dst := readFile src fs]> fs).

Definition fetchSeed (dbPath : string) (fs : FS) : option seedErr * FS :=
  match fs !! dbPath with
  | Some _ => (Some (ErrOther "already exists; refusing to overwrite it"), fs)
  | None =>
      if negb (mkdirOK h) then (Some (ErrOther "mkdir"), fs)
      else if negb (tempOK h) then (Some (ErrOther "temp"), fs)
      else
        let tmp := tempName h in
        let '(e, fs) := prepare tmp (<[tmp := ""]> fs) in
        match e with
        | Some e => (Some e, cleanup tmp fs)
        | None =>
            if renameOK h then (None, cleanup tmp (rename tmp dbPath fs))
            else (Some (ErrOther "rename"), cleanup tmp fs)
        end
  end.

(** [main]'s exit status. *)
Definition exitStatus (r : option seedErr) : Z :=
  match r with None => 0 | Some ErrNoSeed => 0 | Some (ErrOther _) => 1 end.

(** ** All or nothing *)

(** A file system that differs from [fs] in the temporary files only. *)
Definition nearly (tmp : string) (fs fs' : FS) : Prop :=
  forall p, p <> tmp -> p <> tmp +:+ "-wal" -> p <> tmp +:+ "-shm" -> fs' !! p = fs !! p.

Lemma nearly_insert tmp p v fs fs' :
  (p = tmp \/ p = tmp +:+ "-wal") -> nearly tmp fs fs' -> nearly tmp fs (<[p := v]> fs').
Proof.
  intros Hp H q H1 H2 H3. rewrite lookup_insert_ne; [by apply H|]. destruct Hp; congruence.
Qed.

Lemma nearly_delete tmp p fs fs' :
  (p = tmp \/ p = tmp +:+ "-wal") -> nearly tmp fs fs' -> nearly tmp fs (delete p fs').
Proof.
  intros Hp H q H1 H2 H3. rewrite lookup_delete_ne; [by apply H|]. destruct Hp; congruence.
Qed.

Lemma nearly_download tmp key p fs fs' :
  (p = tmp \/ p = tmp +:+ "-wal") -> nearly tmp fs fs' -> nearly tmp fs (download key p fs').2.
Proof.
  intros Hp H. unfold download. destruct (bucketObject h key); try done;
    destruct (negb (createOK h p)); try done; by apply nearly_insert.
Qed.

Lemma nearly_prepare tmp fs fs' : nearly tmp fs fs' -> nearly tmp fs (prepare tmp fs').2.
Proof.
  intros H. unfold prepare.
  pose proof (nearly_download tmp seedKey tmp fs fs' (or_introl eq_refl) H) as H1.
  destruct (download seedKey tmp fs') as [[e|] fs1]; [done|]. cbn [snd] in H1.
  pose proof (nearly_download tmp seedWALKey (tmp +:+ "-wal") fs fs1 (or_intror eq_refl) H1) as H2.
  destruct (download seedWALKey _ fs1) as [[[|what]|] fs2]; cbn [snd] in *; [done | done|].
  unfold foldWAL. destruct (checkpoint _ _ _); [|done].
  apply nearly_delete; [by right|]. apply nearly_insert; [by left | done].
Qed.

(** The temporary names are new: [os.CreateTemp] picks an unused one, and the
    names SQLite derives from it are unused with it. *)
Definition freshTemp (tmp : string) (fs : FS) : Prop :=
  fs !! tmp = None /\ fs !! (tmp +:+ "-wal") = None /\ fs !! (tmp +:+ "-shm") = None.

Definition tempFiles (tmp : string) : list string := [tmp; tmp +:+ "-wal"; tmp +:+ "-shm"].

Lemma lookup_remove p q fs : p <> q -> remove p fs !! q = fs !! q.
Proof. intros H. unfold remove. destruct (removeOK h p); [by rewrite lookup_delete_ne | done]. Qed.

Lemma remove_absent p fs : fs !! p = None -> remove p fs = fs.
Proof. intros H. unfold remove. destruct (removeOK h p); [by apply delete_id | done]. Qed.

Lemma nearly_cleanup tmp fs fs' : nearly tmp fs fs' -> nearly tmp fs (cleanup tmp fs').
Proof. intros H p N1 N2 N3. unfold cleanup. rewrite !lookup_remove by done. by apply H. Qed.

Lemma cleanup_restores tmp fs fs' :
  Forall (fun p => removeOK h p = true) (tempFiles tmp) ->
  freshTemp tmp fs -> nearly tmp fs fs' -> cleanup tmp fs' = fs.
Proof.
  intros Hr (H1 & H2 & H3) H. unfold tempFiles in Hr. rewrite !Forall_cons in Hr. destruct Hr as (R1 & R2 & R3 & _).
  apply map_eq. intros p. unfold cleanup, remove. rewrite R1, R2, R3.
  destruct (decide (p = tmp)) as [->|N1]; [by rewrite lookup_delete_eq|]. rewrite lookup_delete_ne by done.
  destruct (decide (p = tmp +:+ "-wal")) as [->|N2]; [by rewrite lookup_delete_eq|]. rewrite lookup_delete_ne by done.
  destruct (decide (p = tmp +:+ "-shm")) as [->|N3]; [by rewrite lookup_delete_eq|].
  rewrite lookup_delete_ne by done. by apply H.
Qed.

(** Once the copy is renamed there is nothing to remove. *)
Lemma cleanup_rename tmp db fs fs' :
  freshTemp tmp fs -> db ∉ tempFiles tmp -> nearly tmp fs fs' ->
  fs' !! (tmp +:+ "-wal") = None -> fs' !! (tmp +:+ "-shm") = None ->
  cleanup tmp (rename tmp db fs') = <[db := readFile tmp fs']> fs.
Proof.
  intros (H1 & H2 & H3) Hdb H W S.
  assert (D : db <> tmp /\ db <> tmp +:+ "-wal" /\ db <> tmp +:+ "-shm").
  { unfold tempFiles in Hdb. rewrite !not_elem_of_cons in Hdb. tauto. }
  destruct D as (D1 & D2 & D3).
  assert (E : rename tmp db fs' = <[db := readFile tmp fs']> fs).
  { unfold rename. apply map_eq. intros p. destruct (decide (p = tmp)) as [->|N1].
    { by rewrite lookup_delete_eq, lookup_insert_ne, H1. }
    rewrite lookup_delete_ne by done. destruct (decide (p = db)) as [->|N]; [by rewrite !lookup_insert_eq|].
    rewrite !lookup_insert_ne by done.
    destruct (decide (p = tmp +:+ "-wal")) as [->|N2]; [by rewrite W, H2|].
    destruct (decide (p = tmp +:+ "-shm")) as [->|N3]; [by rewrite S, H3|]. by apply H. }
  assert (A : forall p, db <> p -> fs !! p = None ->
    remove p (<[db := readFile tmp fs']> fs) = <[db := readFile tmp fs']> fs).
  { intros p Hp Ep. apply remove_absent. by rewrite lookup_insert_ne. }
  rewrite E. unfold cleanup. by rewrite (A _ D3 H3), (A _ D2 H2), (A _ D1 H1).
Qed.

(** What the file is when it is put in place: the seed, with its log folded in
    when the bucket has one. *)
Definition imported (db : string) : Prop :=
  exists seed, bucketObject h seedKey = ObjContent seed
  /\ HasPrefix db sqliteHeader = true /\ quickCheck h db = Some "ok"
  /\ ((bucketObject h seedWALKey = ObjStatus 404 /\ db = seed)
      \/ exists wal, bucketObject h seedWALKey = ObjContent wal /\ checkpoint h seed wal = Some db).

Lemma download_done key p fs fs' :
  download key p fs = (None, fs') -> exists c, bucketObject h key = ObjContent c /\ fs' = <[p := c]> fs.
Proof.
  unfold download. destruct (bucketObject h key) as [|code|part|c]; try done.
  - by destruct (negb _).
  - destruct (negb _); [done|]. destruct (closeOK h p); [|done]. intros [= <-]. eauto.
Qed.

Lemma download_missing key p fs fs' :
  download key p fs = (Some ErrNoSeed, fs') -> bucketObject h key = ObjStatus 404 /\ fs' = fs.
Proof.
  unfold download. destruct (bucketObject h key) as [|code|part|c]; try done.
  - destruct (Z.eqb_spec code 404) as [->|]; [|done]. by intros [= <-].
  - by destruct (negb _).
  - destruct (negb _); [done|]. by destruct (closeOK h p).
Qed.

Lemma append_ne (s t : string) : t <> "" -> s <> s +:+ t.
Proof.
  intros Ht. induction s as [|a s IH]; [by destruct t|]. intros E. apply IH.
  change (String a s = String a (s +:+ t)) in E. congruence.
Qed.

Lemma checkSQLite_done p fs :
  checkSQLite p fs = None ->
  HasPrefix (readFile p fs) sqliteHeader = true /\ quickCheck h (readFile p fs) = Some "ok".
Proof.
  unfold checkSQLite. destruct (HasPrefix _ _); [|done]. cbn [negb].
  destruct (quickCheck h _) as [r|]; [|done]. destruct (r ==? "ok") eqn:E; [|done]. bools. by subst.
Qed.

Lemma tmp_names_differ tmp : tmp <> tmp +:+ "-wal" /\ tmp <> tmp +:+ "-shm" /\ tmp +:+ "-wal" <> tmp +:+ "-shm".
Proof. split_and!; [by apply append_ne..|]. intros E. by apply (inj (append tmp)) in E. Qed.

Lemma prepare_done tmp fs fs' :
  fs !! (tmp +:+ "-wal") = None -> prepare tmp fs = (None, fs') ->
  imported (readFile tmp fs') /\ fs' !! (tmp +:+ "-wal") = None /\ fs' !! (tmp +:+ "-shm") = fs !! (tmp +:+ "-shm").
Proof.
  intros W. unfold prepare, imported.
  destruct (download seedKey tmp fs) as [[e|] fs1] eqn:E1; [done|].
  apply download_done in E1 as (seed & Hs & ->).
  destruct (tmp_names_differ tmp) as (Hne & Hne2 & Hne3).
  destruct (download seedWALKey _ _) as [[[|what]|] fs2] eqn:E2; [|done|].
  - apply download_missing in E2 as [Hw ->]. intros [= Hc <-]. apply checkSQLite_done in Hc as [H1 H2].
    split; [|by rewrite !lookup_insert_ne]. exists seed. revert H1 H2. unfold readFile.
    rewrite lookup_insert_eq. cbn [default from_option id]. tauto.
  - apply download_done in E2 as (wal & Hw & ->). unfold foldWAL, readFile.
    rewrite lookup_insert_eq, lookup_insert_ne, lookup_insert_eq by done. cbn [default from_option id].
    destruct (checkpoint h seed wal) as [db|] eqn:Ek; [|done]. intros [= Hc <-].
    apply checkSQLite_done in Hc as [H1 H2]. revert H1 H2. unfold readFile.
    rewrite lookup_delete_ne, lookup_insert_eq by done. cbn [default from_option id].
    intros H1 H2. split; [|by rewrite lookup_delete_eq, lookup_delete_ne, !lookup_insert_ne].
    exists seed. split_and!; [done..|]. right. by exists wal.
Qed.

(** C39: the import is all or nothing.  [fetchSeed] never touches a database
    that exists; whatever step fails, every file is as it was but for the three
    temporary ones, and those are gone too unless the system refuses to remove
    them; and when it succeeds the only change is the new database, which is
    the seed of the bucket with its log folded in, has SQLite's header and
    passed [quick_check].  (Files only: a directory made for the database
    stays.) *)
Theorem fetchSeed_all_or_nothing dbPath fs :
  freshTemp (tempName h) fs -> dbPath ∉ tempFiles (tempName h) ->
  let r := fetchSeed dbPath fs in
  (is_Some (fs !! dbPath) -> r = (Some (ErrOther "already exists; refusing to overwrite it"), fs))
  /\ (r.1 <> None -> nearly (tempName h) fs r.2
       /\ (Forall (fun p => removeOK h p = true) (tempFiles (tempName h)) -> r.2 = fs))
  /\ (r.1 = None -> fs !! dbPath = None /\ exists db, r.2 = <[dbPath := db]> fs /\ imported db).
Proof.
  intros Hf Hdb r. subst r. unfold fetchSeed. destruct (fs !! dbPath) as [x|] eqn:Ex; [by split_and!|].
  split; [by intros [? ?]|].
  destruct (mkdirOK h); cbn [negb]; [|by split]. destruct (tempOK h); cbn [negb]; [|by split].
  set (tmp := tempName h) in *.
  assert (N0 : nearly tmp fs (<[tmp := ""]> fs)) by (apply nearly_insert; [by left | by intros ?]).
  pose proof (nearly_prepare tmp fs _ N0) as N1. pose proof Hf as (F1 & F2 & F3).
  destruct (tmp_names_differ tmp) as (D1 & D2 & D3).
  destruct (prepare tmp _) as [[e|] fs1] eqn:E; cbn [snd] in N1.
  { split; [|done]. split; [by apply nearly_cleanup | intros Hr; by apply cleanup_restores]. }
  destruct (renameOK h).
  2: { split; [|done]. split; [by apply nearly_cleanup | intros Hr; by apply cleanup_restores]. }
  split; [done|]. intros _. split; [done|]. exists (readFile tmp fs1).
  apply prepare_done in E as (Hi & W & S); [|by rewrite lookup_insert_ne].
  rewrite lookup_insert_ne in S by done. split; [by apply cleanup_rename; rewrite ?S | exact Hi].
Qed.
End Seed.

(** A sound seed without a log, on an empty disk; and the same without its
    header. *)
Definition sampleHost (seed : string) : Host :=
  mkHost (fun k => if k ==? seedKey then ObjContent seed else ObjStatus 404) true true
    (fun _ => true) (fun _ => true) true (fun _ => true) "/data/.seed-1.db" (fun _ _ => None) (fun _ => Some "ok").

Lemma fetchSeed_all_or_nothing_witness :
  (exists db, (fetchSeed (sampleHost (sqliteHeader +:+ "rows")) "/data/nexus.db" ∅).2
              = <["/data/nexus.db" := db]> ∅)
  /\ (fetchSeed (sampleHost "rows") "/data/nexus.db" ∅).2 = ∅.
Proof.
  assert (Hd : "/data/nexus.db" ∉ tempFiles "/data/.seed-1.db")
    by (unfold tempFiles; rewrite !not_elem_of_cons; split_and!; try done; apply not_elem_of_nil).
  split.
  - destruct (fetchSeed_all_or_nothing (sampleHost (sqliteHeader +:+ "rows")) "/data/nexus.db" ∅)
      as (_ & _ & H); [by split_and! | exact Hd|].
    destruct (H ltac:(vm_compute; reflexivity)) as (_ & db & E & _). by exists db.
  - destruct (fetchSeed_all_or_nothing (sampleHost "rows") "/data/nexus.db" ∅)
      as (_ & H & _); [by split_and! | exact Hd|].
    apply (proj2 (H ltac:(vm_compute; discriminate))). repeat constructor.
Defined.

End FetchSeed.

Module Wav.

(** [binary.Write(f, binary.LittleEndian, v)] for an integer of [n] bytes; a
    negative [int16] is written in two's complement. *)
Definition le (n : nat) (z : Z) : list Z := (fun i => z / 2 ^ (8 * Z.of_nat i) mod 256) <$> seq 0 n.

Definition sampleRate : Z := 44100.

(** The file [generate] writes for the quantised samples [int16(s * 32767 * 0.8)]. *)
Definition wav (vals : list Z) : list Z :=
  let dataSize := Z.of_nat (length vals) * 2 in
  let fileSize := 36 + dataSize in
  bytes "RIFF" ++ le 4 fileSize ++ bytes "WAVE" ++ bytes "fmt "
  ++ le 4 16 ++ le 2 1 ++ le 2 1 ++ le 4 sampleRate ++ le 4 (sampleRate * 2) ++ le 2 2 ++ le 2 16
  ++ bytes "data" ++ le 4 dataSize ++ concat (le 2 <$> vals).

(** ** A reader of the format *)

Fixpoint unle (l : list Z) : Z := match l with [] => 0 | b :: l => b + 256 * unle l end.

Definition int16 (z : Z) : Z := if z <? 32768 then z else z - 65536.

Fixpoint samples (l : list Z) : list Z :=
  match l with
  | a :: b :: l => int16 (a + 256 * b) :: samples l
  | _ => []
  end.

Definition field (a n : nat) (l : list Z) : list Z := take n (drop a l).

(** Mono, 16 bits, 44.1 kHz, with sizes that agree with the file's. *)
Definition parseWav (l : list Z) : option (list Z) :=
  if bool_decide (field 0 4 l = bytes "RIFF")
     && (unle (field 4 4 l) + 8 =? Z.of_nat (length l))
     && bool_decide (field 8 8 l = bytes "WAVEfmt ")
     && (unle (field 16 4 l) =? 16) && (unle (field 20 2 l) =? 1) && (unle (field 22 2 l) =? 1)
     && (unle (field 24 4 l) =? 44100) && (unle (field 28 4 l) =? 88200)
     && (unle (field 32 2 l) =? 2) && (unle (field 34 2 l) =? 16)
     && bool_decide (field 36 4 l = bytes "data")
     && (unle (field 40 4 l) + 44 =? Z.of_nat (length l))
  then Some (samples (drop 44 l)) else None.

Lemma unle_le4 z : 0 <= z < 2 ^ 32 -> unle (le 4 z) = z.
Proof. intros H. cbn. Z.div_mod_to_equations. lia. Qed.

Lemma samples_data vals :
  Forall (fun v => - 2 ^ 15 <= v < 2 ^ 15) vals -> samples (concat (le 2 <$> vals)) = vals.
Proof.
  induction 1 as [|v vals Hv _ IH]; [done|]. cbn [fmap list_fmap concat].
  change (le 2 v ++ concat (le 2 <$> vals))
    with ((v / 1 mod 256) :: (v / 256 mod 256) :: concat (le 2 <$> vals)).
  cbn [samples]. f_equal; [|exact IH]. unfold int16.
  rewrite Z.div_1_r. destruct (Z.ltb_spec (v mod 256 + 256 * (v / 256 mod 256)) 32768);
    Z.div_mod_to_equations; lia.
Qed.

Lemma length_data vals : length (concat (le 2 <$> vals)) = (2 * length vals)%nat.
Proof. induction vals as [|v vals IH]; [done|]. cbn in *. lia. Qed.

(** The generated files are well formed: a reader of the format gets the
    samples back, whatever they are, and the two sizes of the header agree with
    the file. *)
Theorem wav_roundtrip vals :
  Forall (fun v => - 2 ^ 15 <= v < 2 ^ 15) vals -> Z.of_nat (length vals) * 2 + 36 < 2 ^ 32 ->
  parseWav (wav vals) = Some vals.
Proof.
  intros Hv Hl. set (n := Z.of_nat (length vals) * 2).
  assert (E1 : unle (le 4 (36 + n)) = 36 + n) by (apply unle_le4; lia).
  assert (E2 : unle (le 4 n) = n) by (apply unle_le4; lia).
  assert (El : Z.of_nat (length (wav vals)) = 44 + n).
  { unfold wav. rewrite !length_app, length_data. unfold le. rewrite !length_fmap, !length_seq. cbn. lia. }
  unfold parseWav. rewrite El.
  change (field 4 4 (wav vals)) with (le 4 (36 + n)). change (field 40 4 (wav vals)) with (le 4 n).
  change (drop 44 (wav vals)) with (concat (le 2 <$> vals)). rewrite E1, E2, samples_data by done.
  rewrite (proj2 (Z.eqb_eq (36 + n + 8) (44 + n))), (proj2 (Z.eqb_eq (n + 44) (44 + n))) by lia.
  reflexivity.
Qed.

Lemma wav_roundtrip_witness : parseWav (wav [0; -26213; 26213]) = Some [0; -26213; 26213].
Proof. apply wav_roundtrip; [repeat constructor; lia | cbn; lia]. Defined.

End Wav.
