(* ===== verification/Sound.v ===== *)
(** * The sound generator ([cmd/soundgen])

    The synthesis in binary64: tones with their envelopes added into a buffer,
    the ten sounds, the normalisation, and the files they go to.  Numbers are
    [SpecFloat] values, so every rounding is the one of IEEE 754 (a compiler
    that fuses a multiplication with an addition may round differently);
    [math.Sin] is a parameter. *)

From Stdlib Require Import ZArith Lia Floats.SpecFloat.
From stdpp Require Import base strings list.
From S2P Require Import Prelude GoRt Tools.

Open Scope string_scope.
Open Scope list_scope.
Open Scope Z_scope.

(** ** [float64] *)

Definition float64 := spec_float.

Definition fromInt (n : Z) : float64 := binary_normalize 53 1024 n 0 false.

(** The constant n/d, rounded once. *)
Definition lit (n d : Z) : float64 := SFdiv 53 1024 (fromInt n) (fromInt d).

Definition fmul : float64 -> float64 -> float64 := SFmul 53 1024.
Definition fadd : float64 -> float64 -> float64 := SFadd 53 1024.
Definition fsub : float64 -> float64 -> float64 := SFsub 53 1024.
Definition fdiv : float64 -> float64 -> float64 := SFdiv 53 1024.

Definition zero : float64 := S754_zero false.

(** [int(x)] of a number in range: towards zero. *)
Definition toInt (x : float64) : Z :=
  match x with
  | S754_finite s m e =>
      let a := if 0 <=? e then Z.pos m * 2 ^ e else Z.pos m / 2 ^ (- e) in
      if s then - a else a
  | _ => 0
  end.

(** 2 pi: the constant is exact in Go and rounded here once. *)
Definition twoPi : float64 := S754_finite false 7074237752028440 (-50).

Definition rate : float64 := fromInt Wav.sampleRate.

(** ** Tones *)

Section Synthesis.
Context (sin : float64 -> float64).      (* [math.Sin] *)

(** The factor of the envelope at sample [i] of [n]. *)
Definition envelope (i n : Z) (durSec : float64) : float64 :=
  let pos := fdiv (fromInt i) (fromInt n) in
  let attackPos := fdiv (lit 2 100) durSec in
  let releaseStart := fsub (fromInt 1) (fdiv (lit 5 100) durSec) in
  if SFltb pos attackPos then fdiv pos attackPos
  else if SFltb releaseStart pos then fdiv (fsub (fromInt 1) pos) (fsub (fromInt 1) releaseStart)
  else fromInt 1.

(** Sample [i] of a tone of [n] samples. *)
Definition toneSample (freq durSec volume : float64) (smooth : bool) (n i : Z) : float64 :=
  let t := fdiv (fromInt i) rate in
  let sample := fmul (sin (fmul (fmul twoPi freq) t)) volume in
  if smooth then fmul sample (envelope i n durSec) else sample.

(** The loop, with [k] passes left before [numSamples]. *)
Fixpoint toneLoop (f : Z -> float64) (start : nat) (k : nat) (i : nat) (buf : list float64) : list float64 :=
  match k with
  | O => buf
  | S k =>
      let idx := (start + i)%nat in
      if (length buf <=? idx)%nat then buf
      else toneLoop f start k (S i) (alter (fun v => fadd v (f (Z.of_nat i))) idx buf)
  end.

Definition addTone (buf : list float64) (freq startSec durSec volume : float64) (smooth : bool) : list float64 :=
  let startSample := toInt (fmul startSec rate) in
  let numSamples := toInt (fmul durSec rate) in
  toneLoop (toneSample freq durSec volume smooth numSamples) (Z.to_nat startSample) (Z.to_nat numSamples) 0 buf.

(** ** The sounds *)

Record tone := mkTone { tFreq : float64; tStart : float64; tDur : float64; tVol : float64; tSmooth : bool }.

Definition makeBuf (dur : float64) : list float64 := replicate (Z.to_nat (toInt (fmul dur rate))) zero.

Definition addTones (buf : list float64) (l : list tone) : list float64 :=
  foldl (fun buf t => addTone buf (tFreq t) (tStart t) (tDur t) (tVol t) (tSmooth t)) buf l.

(** Frequencies, seconds and volumes are written in hundredths. *)
Definition note (freq start dur vol : Z) : tone :=
  mkTone (lit freq 100) (lit start 100) (lit dur 100) (lit vol 100) true.

Definition messageOutgoingTones : list tone := [note 131851 0 10 35; note 156798 8 18 40].
Definition friendOnlineTones : list tone := [note 65925 0 18 40; note 98777 18 30 45].
Definition echoGreetingTones : list tone := [note 52325 0 40 45; note 65925 40 40 50; note 78399 80 70 55].
Definition beepTones : list tone := [note 100000 0 22 55].
Definition loginTones : list tone :=
  [note 52325 0 25 50; note 58733 20 25 55; note 65925 40 25 60; note 78399 60 25 65; note 104650 80 80 70].
Definition messageReceivedTones : list tone := [note 88000 0 20 40; note 110873 15 35 45].

(** One repetition of the ring, [offset] seconds in. *)
Definition ringAt (offset : float64) : list tone :=
  let at_ (freq start dur vol : Z) :=
    mkTone (lit freq 100) (fadd offset (lit start 100)) (lit dur 100) (lit vol 100) true in
  [at_ 44000 0 15 50; at_ 55437 5 15 40; at_ 65925 20 25 60; at_ 88000 25 25 50;
   at_ 44000 55 15 50; at_ 55437 60 15 40; at_ 65925 75 20 60].
Definition callIncomingTones : list tone :=
  concat ((fun rep => ringAt (fmul (fromInt (Z.of_nat rep)) (fromInt 1))) <$> seq 0 4).

Definition callOutgoingTones : list tone :=
  concat ((fun rep => let offset := fmul (fromInt (Z.of_nat rep)) (fromInt 2) in
                      [mkTone (lit 44000 100) offset (fromInt 1) (lit 30 100) true;
                       mkTone (lit 48000 100) offset (fromInt 1) (lit 30 100) true]) <$> seq 0 2).

Definition callEndTones : list tone := [note 88000 0 30 50; note 65925 20 30 45; note 44000 40 40 40].
Definition callErrorTones : list tone :=
  [mkTone (lit 20000 100) (lit 0 100) (lit 20 100) (lit 50 100) false;
   mkTone (lit 15000 100) (lit 20 100) (lit 30 100) (lit 40 100) false].

Definition messageOutgoingSound : list float64 := addTones (makeBuf (lit 35 100)) messageOutgoingTones.
Definition friendOnlineSound : list float64 := addTones (makeBuf (lit 55 100)) friendOnlineTones.
Definition echoGreetingSound : list float64 := addTones (makeBuf (lit 160 100)) echoGreetingTones.
Definition beepSound : list float64 := addTones (makeBuf (lit 25 100)) beepTones.
Definition loginSound : list float64 := addTones (makeBuf (lit 180 100)) loginTones.
Definition messageReceivedSound : list float64 := addTones (makeBuf (lit 60 100)) messageReceivedTones.
Definition callIncomingSound : list float64 := addTones (makeBuf (fromInt 4)) callIncomingTones.
Definition callOutgoingSound : list float64 := addTones (makeBuf (fromInt 4)) callOutgoingTones.
Definition callEndSound : list float64 := addTones (makeBuf (lit 80 100)) callEndTones.
Definition callErrorSound : list float64 := addTones (makeBuf (lit 50 100)) callErrorTones.

(** ** The files ([generate]) *)

Definition maxAbs (samples : list float64) : float64 :=
  foldl (fun m s => if SFltb m (SFabs s) then SFabs s else m) zero samples.

Definition normalise (samples : list float64) : list float64 :=
  let maxVal := maxAbs samples in
  if SFltb zero maxVal then (fun s => fdiv s maxVal) <$> samples else samples.

(** [int16(s * 32767 * 0.8)] of a product in range. *)
Definition quantise (s : float64) : Z := toInt (fmul (fmul s (fromInt 32767)) (lit 8 10)).

Definition generate (samples : list float64) : list Z := Wav.wav (quantise <$> normalise samples).

(** What [main] writes, in order. *)
Definition soundFiles : list (string * list Z) :=
  [("Login.wav", generate loginSound); ("login.wav", generate loginSound);
   ("MessageReceived.wav", generate messageReceivedSound); ("message.wav", generate messageReceivedSound);
   ("incoming.wav", generate messageReceivedSound); ("CallIncoming.wav", generate callIncomingSound);
   ("CallOutgoing.wav", generate callOutgoingSound); ("CallEnd.wav", generate callEndSound);
   ("CallError.wav", generate callErrorSound); ("MessageOutgoing.wav", generate messageOutgoingSound);
   ("MessageIncoming.wav", generate messageReceivedSound); ("FriendOnline.wav", generate friendOnlineSound);
   ("CallHangup.wav", generate callEndSound); ("EchoGreeting.wav", generate echoGreetingSound);
   ("Beep.wav", generate beepSound)].
End Synthesis.

(** ** What it guarantees *)

Section Facts.
Context (sin : float64 -> float64).

Lemma length_toneLoop f start k : forall i buf, length (toneLoop f start k i buf) = length buf.
Proof.
  induction k as [|k IH]; intros i buf; cbn [toneLoop]; [done|].
  destruct (_ <=? _)%nat; [done|]. by rewrite IH, length_alter.
Qed.

(** Whether [idx] is one of the [k] samples from [a] on. *)
Definition inside (a k idx : nat) : bool := (a <=? idx)%nat && (idx <? a + k)%nat.

Lemma inside_spec a k idx : inside a k idx = true <-> (a <= idx < a + k)%nat.
Proof. unfold inside. rewrite andb_true_iff, Nat.leb_le, Nat.ltb_lt. done. Qed.

Lemma inside_no a k idx : ~ (a <= idx < a + k)%nat -> inside a k idx = false.
Proof. intros H. apply not_true_iff_false. by rewrite inside_spec. Qed.

(** The loop adds the tone to the samples it covers and stops at the end of the
    buffer: no sample outside is touched, and none is written past the end. *)
Lemma toneLoop_lookup f start k : forall i buf idx,
  toneLoop f start k i buf !! idx =
    (fun v => if inside (start + i) k idx then fadd v (f (Z.of_nat (idx - start))) else v) <$> buf !! idx.
Proof.
  induction k as [|k IH]; intros i buf idx; cbn [toneLoop].
  - rewrite inside_no by lia. by destruct (buf !! idx).
  - destruct (Nat.leb_spec (length buf) (start + i)) as [H|H].
    + destruct (buf !! idx) as [v|] eqn:E; [|done]. apply lookup_lt_Some in E. cbn.
      by rewrite inside_no by lia.
    + rewrite IH. destruct (decide (idx = start + i)%nat) as [->|Hne].
      * rewrite list_lookup_alter_eq. destruct (buf !! _) as [v|]; [|done]. cbn. f_equal.
        rewrite inside_no by lia. rewrite (proj2 (inside_spec _ (S k) _)) by lia. do 3 f_equal. lia.
      * rewrite list_lookup_alter_ne by done. destruct (buf !! idx) as [v|]; [|done]. cbn. f_equal.
        replace (inside (start + S i) k idx) with (inside (start + i) (S k) idx); [done|].
        apply eq_true_iff_eq. rewrite !inside_spec. lia.
Qed.

Lemma length_addTone buf a b c d e : length (addTone sin buf a b c d e) = length buf.
Proof. apply length_toneLoop. Qed.

Lemma length_addTones l : forall buf, length (addTones sin buf l) = length buf.
Proof.
  induction l as [|t l IH]; intros buf; [done|]. cbn [addTones foldl].
  change (length (addTones sin (addTone sin buf (tFreq t) (tStart t) (tDur t) (tVol t) (tSmooth t)) l) = length buf).
  by rewrite IH, length_addTone.
Qed.

Lemma length_normalise l : length (normalise l) = length l.
Proof. unfold normalise. destruct (SFltb _ _); [apply length_fmap | done]. Qed.

(** A tone as samples: where it starts and how many it has. *)
Definition span (t : tone) : Z * Z := (toInt (fmul (tStart t) rate), toInt (fmul (tDur t) rate)).

(** The tables, with the length of each buffer in hundredths of a second. *)
Definition scores : list (Z * list tone) :=
  [(35, messageOutgoingTones); (55, friendOnlineTones); (160, echoGreetingTones); (25, beepTones);
   (180, loginTones); (60, messageReceivedTones); (400, callIncomingTones); (400, callOutgoingTones);
   (80, callEndTones); (50, callErrorTones)].

Definition whole (len : Z) (t : tone) : bool :=
  (0 <=? (span t).1) && (0 <? (span t).2) && ((span t).1 + (span t).2 <=? len).

Lemma scores_whole :
  forallb (fun p => forallb (whole (toInt (fmul (lit p.1 100) rate))) p.2) scores = true.
Proof. vm_compute. reflexivity. Qed.

(** The sounds are whole.  Whatever [math.Sin] gives, each of the ten sounds
    has the number of samples of its length - the shortest of the messages'
    loses one to rounding -, and no tone of it is empty or cut off at the end
    of its buffer, so every sample of a tone is added where it belongs. *)
Theorem sounds_whole :
  (fun s => Z.of_nat (length s)) <$>
    [messageOutgoingSound sin; friendOnlineSound sin; echoGreetingSound sin; beepSound sin; loginSound sin;
     messageReceivedSound sin; callIncomingSound sin; callOutgoingSound sin; callEndSound sin; callErrorSound sin]
    = [15434; 24255; 70560; 11025; 79380; 26460; 176400; 176400; 35280; 22050]
  /\ (forall p t idx buf, p ∈ scores -> t ∈ p.2 -> length buf = Z.to_nat (toInt (fmul (lit p.1 100) rate)) ->
       addTone sin buf (tFreq t) (tStart t) (tDur t) (tVol t) (tSmooth t) !! idx =
         (fun v => if inside (Z.to_nat (span t).1) (Z.to_nat (span t).2) idx
                   then fadd v (toneSample sin (tFreq t) (tDur t) (tVol t) (tSmooth t) (span t).2
                                  (Z.of_nat idx - (span t).1))
                   else v) <$> buf !! idx
       /\ 0 <= (span t).1 /\ 0 < (span t).2 /\ (span t).1 + (span t).2 <= Z.of_nat (length buf)).
Proof.
  split.
  - unfold messageOutgoingSound, friendOnlineSound, echoGreetingSound, beepSound, loginSound,
      messageReceivedSound, callIncomingSound, callOutgoingSound, callEndSound, callErrorSound.
    cbn [fmap list_fmap]. rewrite !length_addTones. unfold makeBuf. rewrite !length_replicate.
    vm_compute. reflexivity.
  - intros p t idx buf Hp Ht Hl.
    pose proof scores_whole as Hw. rewrite forallb_forall in Hw. apply list_elem_of_In in Hp, Ht.
    specialize (Hw p Hp). cbv beta in Hw. rewrite forallb_forall in Hw. specialize (Hw t Ht).
    unfold whole in Hw. bools.
    split; [|rewrite Hl; lia]. unfold addTone. fold (span t).1. rewrite toneLoop_lookup.
    destruct (buf !! idx) as [v|]; [|done]. cbn [fmap option_fmap option_map]. f_equal.
    rewrite Nat.add_0_r. cbn [span fst snd] in *.
    destruct (inside _ _ _) eqn:E; [|done]. apply inside_spec in E. do 2 f_equal. lia.
Qed.
End Facts.
