(* ===== verification/AuthCases.v ===== *)
(** * The account messages ([ws_handlers.go])

    The cases of the message loop that register, verify, sign in and manage an
    account.  Signing in sets the loop's [username] variable: such a case
    returns its new value. *)

From Stdlib Require Import ZArith Lia Ascii.
From stdpp Require Import base strings list gmap.
From S2P Require Import Prelude GoRt AuthTracker Netutil Store Wire Db World Wf Registry Http Email.
From S2P Require Import Sessions Social Rewards Dm Convo Spaces IpCheck Accounts.

Open Scope string_scope.
Open Scope list_scope.
Open Scope Z_scope.

(** ** What signing in sends *)

(** [UPDATE users SET last_ip = ?, last_login_at = CURRENT_TIMESTAMP] *)
Definition stampLogin (username ip : string) : M unit :=
  let* now := getNow in
  Exec_ (onUser username (fun u => set_u_last_login_at (Some (sqlNow now)) (set_u_last_ip ip u))).

(** [client.Username = ...; client.Status = Online; s.addClientLocked(...)] *)
Definition promote (client : nat) (username : string) : M unit :=
  modClient client (fun k => set_cStatus "Online" (set_cUsername username k)) ;;;
  addClientLocked username client.

Definition sendAuthOK (client : nat) (username token : string) : M unit :=
  let* turn := generateMediaToken username in
  Send_ client (nm "auth_result" |> set_mStatus "ok" |> set_mSender username
                |> set_mQRToken token |> set_mTurnConfig turn).

(** The status a friend shows: that of their first connection. *)
Definition shownStatus (f : string) (s : NexusServer) : string :=
  match connsOf s f with
  | [] => "Offline"
  | c :: _ => publicStatus (cStatus (default (newClient "") (Heap s !! c)))
  end.

Definition sendFriendStatuses (client : nat) (username : string) (withTs : bool) : M unit :=
  let* friends := getFriends username in
  forM friends (fun f =>
    let* s := getSrv in
    let st := nm "friend_status" |> set_mSender f |> set_mStatus (shownStatus f s) in
    if withTs then
      let* lastSec := CountOr0 (lastDMSecond username f) in
      Send_ client (set_mTs (lastSec * 1000) st)
    else Send_ client st).

Definition sendPerks (client : nat) (username : string) : M unit :=
  let* friends := getFriends username in sendReferralPerks client username friends.

Definition sendPending (client : nat) (username : string) : M unit :=
  let* pending := getPendingRequests username in
  when (negb (bool_decide (pending = []))) (Send_ client (nm "pending_requests" |> set_mResults pending)).

Definition sendConvos (client : nat) (username : string) : M unit :=
  let* cms := userConversations username in
  forM cms (fun cm => Send_ client (set_mType "convo_info" cm)).

Definition sendGroups (client : nat) (username : string) : M unit :=
  let* groups := getContactGroups username in
  when (negb (bool_decide (groups = ∅))) (Send_ client (nm "contact_groups" |> set_mContactGroups groups)).

Definition suspendedMsg (reason : string) : string :=
  if is_empty reason then "Account suspended" else "Account suspended: " +:+ reason.

(** The sign-in of a connection whose cookie names a session: the value of
    [username] when the message loop starts. *)
Definition cookiePreAuth (client : nat) (ip token : string) : M string :=
  let* u := sessionUsername token in
  if is_empty u then ret ""
  else
    let* ban := userBanInfo u in
    let '(banned, reason) := ban in
    if banned then
      Send_ client (nm "auth_result" |> set_mError (suspendedMsg reason) |> set_mStatus "banned") ;;;
      ret ""
    else
      stampLogin u ip ;;;
      autoJoinGlobalSpace u ;;;
      promote client u ;;;
      sendAuthOK client u "" ;;;
      announcePresence u ;;;
      deliverOfflineMessages u client ;;;
      sendFriendStatuses client u true ;;;
      sendPerks client u ;;;
      sendPending client u ;;;
      sendConvos client u ;;;
      sendGroups client u ;;;
      ret u.

(** ** Throttling *)

Definition throttledIP (ip : string) : M bool :=
  let* now := getNow in askTracker (isIPThrottled now ip).

(** What a throttled attempt runs into, apart from its answer. *)
Definition autoBlock (ip : string) : M unit :=
  authFailure_Add ;;;
  let* now := getNow in
  let* s := getSrv in
  when (shouldAutoBlock now ip (authTracker s)) (blockIP ip).

Definition noteFail (ip username : string) : M unit :=
  let* now := getNow in modTracker (recordFail now ip username).

Definition noteSuccess (ip username : string) : M unit := modTracker (recordSuccess ip username).

(** The progressive delay after a failure. *)
Definition sleepFails (ip : string) : M unit :=
  let* s := getSrv in
  let d := failDelay ip (authTracker s) in
  when (0 <? d) (Sleep d).

(** [!s.verifyTOTP(u, c) && !s.consumeBackupCode(u, c)], negated. *)
Definition secondFactor (username code : string) : M bool :=
  orM (verifyTOTP username code) (consumeBackupCode username code).

Definition setReferrer (username refBy : string) : M unit :=
  let ref := TrimSpace refBy in
  if is_empty ref || (ref ==? username) then ret tt
  else
    let* row := QueryRow (userIn ref) in
    match row with
    | None => ret tt
    | Some _ => Exec_ (onUser username (set_u_referred_by ref))
    end.

(** How a registration error is worded for the client. *)
Definition registerError (err : string) : string :=
  if Contains err "UNIQUE" || Contains err "unique" then
    if Contains err "username" then "Username already taken"
    else if Contains err "email" then "Email already registered"
    else "Account already exists"
  else err.

Section Cases.
Context (client : nat) (ip username : string) (msg : NexusMessage).

Definition case_pstn_call : M unit :=
  addMetric (fun m => set_pstnAttempts (u64_succ (pstnAttempts m)) m) ;;;
  let* e := getEnv in
  if negb (pstnBridgeEnabled e) then
    addMetric (fun m => set_pstnRejected (u64_succ (pstnRejected m)) m) ;;;
    Send_ client (nm "pstn_status" |> set_mError (
      "PSTN bridge is disabled on this relay. Use in-app voice/video (WebRTC) with Phaze contacts "
      +:+ of_bytes [226; 128; 148] +:+ " no phone network or Twilio required."))
  else
    let number := mBody msg in
    let* verified := QueryRow (fun d => u_phone_verified <$>
        tfirst (fun u => (u_username u ==? username) && bool_decide (u_phone_number u = Some number)) (users d)) in
    if default 0 verified =? 0 then
      Send_ client (nm "pstn_status"
        |> set_mError "Caller identity not verified. Please link your phone in Settings.")
    else
      let* err := initiateTwilioCall number in
      match err with
      | Some t => Send_ client (nm "pstn_status" |> set_mError ("Telephony error: " +:+ t))
      | None => Send_ client (nm "pstn_status" |> set_mStatus "Connecting...")
      end.

Definition registerFail (err : string) : M unit := Send_ client (nm "register_result" |> set_mError err).

(** A refused account is counted against the address; a new one is stamped,
    referred, and mailed its code. *)
Definition registerAccount : M unit :=
  let* r := registerUser (mSender msg) (mEmail msg) (mMood msg) (mBody msg) in
  match r with
  | inl err => noteFail ip "" ;;; registerFail (registerError err)
  | inr code =>
      let* now := getNow in
      modTracker (recordSignup now ip) ;;;
      Exec_ (onUser (mSender msg) (fun u => set_u_last_ip ip (set_u_signup_ip ip u))) ;;;
      setReferrer (mSender msg) (mRefBy msg) ;;;
      sendEmailLogged (mEmail msg) "Activate your Phaze account"
        (MVerification (mSender msg)
           ("https://phazechat.world/verify-email?u=" +:+ QueryEscape (mSender msg)
            +:+ "&code=" +:+ QueryEscape code) code) ;;;
      Send_ client (nm "register_result" |> set_mStatus "pending_verification")
  end.

Definition case_register : M unit :=
  let* throttled := throttledIP ip in
  if throttled then
    autoBlock ip ;;;
    registerFail "Too many registration/login attempts. Try again later." ;;;
    Sleep (2 * Second)
  else
    let* now := getNow in
    let* signups := askTracker (isSignupThrottled now ip) in
    if signups then registerFail "Too many accounts created from this network. Try again later."
    else
      let* vpn := isVPNOrDatacenter ip in
      if vpn then registerFail "Registration is not available from VPN or proxy connections. Please disable your VPN and try again."
      else
        let* e := getEnv in
        if (isDisposableEmail e (mEmail msg)).2 then
          registerFail "Please use a real email address. Disposable or temporary addresses are not allowed."
        else registerAccount.

Definition case_verify_email : M unit :=
  let* ok := verifyUser (mSender msg) (mBody msg) in
  if ok then
    autoJoinGlobalSpace (mSender msg) ;;;
    onReferralVerified (mSender msg) ;;;
    Send_ client (nm "verify_result" |> set_mStatus "ok")
  else Send_ client (nm "verify_result" |> set_mError "Invalid verification code").

(** The error of [randDigits] is dropped: the code is then empty. *)
Definition case_request_phone_link : M unit :=
  let number := mBody msg in
  let* code := randDigits 6 in
  let code := default "" code in
  let* ok := ExecOk (onUser username (fun u => set_u_phone_number (Some number)
                                                (set_u_phone_verification_code (Some code) u))) in
  if negb ok then Send_ client (nm "phone_link_result" |> set_mError "Update failed")
  else
    sendSMS number ("Your Phaze verification code is: " +:+ code) ;;;
    Send_ client (nm "phone_link_result" |> set_mStatus "code_sent").

Definition case_verify_phone_link : M unit :=
  let* dbCode := QueryRow (fun d => u_phone_verification_code <$> userIn username d) in
  let good := match dbCode with
              | Some (Some c) => negb (is_empty c) && negb (is_empty (mBody msg)) && (c ==? mBody msg)
              | _ => false
              end in
  if good then
    Exec_ (onUser username (fun u => set_u_phone_verification_code None (set_u_phone_verified 1 u))) ;;;
    Send_ client (nm "phone_link_result" |> set_mStatus "verified")
  else
    Exec_ (onUser username (set_u_phone_verification_code None)) ;;;
    Send_ client (nm "phone_link_result"
      |> set_mError "Invalid code. Security lockout: please request a new code.").

Definition case_update_profile : M unit :=
  if is_empty username then ret tt
  else if (64 <? len (mDisplayName msg)) || (140 <? len (mMood msg)) then
    Send_ client (nm "update_result" |> set_mError "Display name max 64 chars, mood max 140")
  else
    let* ok := ExecOk (onUser username (fun u => set_u_display_name (Some (mDisplayName msg))
                                                  (set_u_mood (mMood msg) u))) in
    if negb ok then Send_ client (nm "update_result" |> set_mError "Update failed")
    else
      Send_ client (nm "update_result" |> set_mStatus "ok") ;;;
      broadcastProfileUpdate username (mDisplayName msg) (mMood msg).

Definition authError (err status : string) : M string :=
  Send_ client (nm "auth_result" |> set_mError err |> set_mStatus status) ;;; ret username.

(** Past the password, the ban and the second factor. *)
Definition authAccept (u : string) : M string :=
  modTracker (recordTOTPSuccess u) ;;;
  authSuccess_Add ;;;
  noteSuccess ip u ;;;
  stampLogin u ip ;;;
  autoJoinGlobalSpace u ;;;
  let* tok := issueSessionToken u (mDeviceInfo msg) in
  promote client u ;;;
  sendAuthOK client u (match tok with inr t => t | inl _ => "" end) ;;;
  announcePresence u ;;;
  deliverOfflineMessages u client ;;;
  sendPending client u ;;;
  sendConvos client u ;;;
  sendGroups client u ;;;
  sendFriendStatuses client u true ;;;
  sendPerks client u ;;;
  ret u.

(** The checks after the password matched. *)
Definition authSecond (u : string) : M string :=
  let* ban := userBanInfo u in
  let '(banned, reason) := ban in
  if banned then authFailure_Add ;;; authError (suspendedMsg reason) "banned"
  else
    let* now := getNow in
    let* totp := askTracker (isTOTPThrottled now u) in
    if totp then
      authFailure_Add ;;;
      authError ("Too many 2FA attempts " +:+ of_bytes [226; 128; 148] +:+ " wait a few minutes") "totp_required"
    else
      let* ok := secondFactor u (mTOTPCode msg) in
      if negb ok then
        authFailure_Add ;;;
        modTracker (recordTOTPFail now u) ;;;
        authError "2FA code required or invalid" "totp_required"
      else authAccept u.

Definition case_auth : M string :=
  let u := mSender msg in
  if is_empty (mBody msg) then authFailure_Add ;;; authError "Password required" ""
  else
    let* throttled := throttledIP ip in
    if throttled then
      autoBlock ip ;;;
      authError "Too many failed attempts. Try again later." "" ;;;
      Sleep (2 * Second) ;;;
      ret username
    else
      let* now := getNow in
      let* locked := askTracker (isUserLocked now u) in
      if locked then
        authFailure_Add ;;;
        authError "Account temporarily locked due to too many failed attempts. Try again in 30 minutes." "" ;;;
        Sleep (2 * Second) ;;;
        ret username
      else
        let* ok := authenticateUser u (mBody msg) in
        if negb ok then
          authFailure_Add ;;;
          noteFail ip u ;;;
          sleepFails ip ;;;
          authError "Invalid username or password" ""
        else authSecond u.

(** A resumed session signs in without the password. *)
Definition sessionAccept (u : string) : M string :=
  stampLogin u ip ;;;
  autoJoinGlobalSpace u ;;;
  promote client u ;;;
  sendAuthOK client u (mQRToken msg) ;;;
  announcePresence u ;;;
  deliverOfflineMessages u client ;;;
  sendFriendStatuses client u false ;;;
  sendPerks client u ;;;
  sendPending client u ;;;
  sendConvos client u ;;;
  sendGroups client u ;;;
  ret u.

Definition case_session_auth : M string :=
  let* throttled := throttledIP ip in
  if throttled then
    autoBlock ip ;;;
    authError "Too many failed attempts. Try again later." "" ;;;
    Sleep (2 * Second) ;;;
    ret username
  else
    let* u := sessionUsername (mQRToken msg) in
    if is_empty u then
      authFailure_Add ;;;
      noteFail ip "" ;;;
      sleepFails ip ;;;
      authError "Session expired, please log in" ""
    else
      noteSuccess ip u ;;;
      let* ban := userBanInfo u in
      let '(banned, reason) := ban in
      if banned then
        revokeSession (mQRToken msg) ;;;
        authError (suspendedMsg reason) "banned"
      else sessionAccept u.

Definition case_revoke_session : M unit :=
  if is_empty username || is_empty (mQRToken msg) then ret tt
  else
    revokeSession (mQRToken msg) ;;;
    Send_ client (nm "session_revoked" |> set_mStatus "ok").

Definition deleteResult (err : string) : M bool :=
  Send_ client (nm "delete_account_result" |> set_mError err) ;;; ret false.

(** Whether the loop returns (the account is gone, the socket closed). *)
Definition case_delete_account : M bool :=
  if is_empty username then deleteResult "Not authenticated"
  else
    let* ok := (if is_empty (mBody msg) then ret false else authenticateUser username (mBody msg)) in
    if negb ok then deleteResult "Password confirmation required"
    else
      let* err := deleteAccount username in
      match err with
      | Some _ => deleteResult ("Internal error " +:+ of_bytes [226; 128; 148] +:+ " try again")
      | None =>
          broadcastPresence username "Offline" ;;;
          Send_ client (nm "delete_account_result" |> set_mStatus "ok") ;;;
          modSrv (fun s => set_Clients (delete username (Clients s)) s) ;;;
          CloseConn client ;;;
          ret true
      end.

Definition codeResent : M unit := Send_ client (nm "register_result" |> set_mStatus "code_resent").

Definition case_resend_verification : M unit :=
  let* e := getEnv in
  let* now := getNow in
  let* s := getSrv in
  let '(ok, l) := allow (rateAllow e) now ip (resendLimiter s) in
  modSrv (set_resendLimiter l) ;;;
  if negb ok then codeResent
  else
    let targetUser := if is_empty username then mSender msg else username in
    if is_empty targetUser then registerFail "Username required"
    else
      let* row := QueryRow (userIn targetUser) in
      match row with
      | None => codeResent
      | Some u =>
          if is_empty (u_email u) then codeResent
          else if u_is_verified u =? 1 then codeResent
          else
            let* code := randDigits 6 in
            match code with
            | None => registerFail "Internal error"
            | Some code =>
                let* ok := ExecOk (onUser targetUser (set_u_verification_code (Some code))) in
                if negb ok then registerFail "Database error"
                else
                  sendEmailLogged (u_email u) "Your Phaze activation code" (MResendCode code) ;;;
                  codeResent
            end
      end.

Definition totpError (err : string) : M unit := Send_ client (nm "totp_result" |> set_mError err).

Definition case_enable_totp : M unit :=
  if is_empty username then totpError "Not authenticated"
  else
    let* r := generateTOTPURI username in
    match r with
    | None => totpError "Could not generate secret"
    | Some (uri, secret) =>
        Exec_ (onUser username (fun u => set_u_totp_enabled 0 (set_u_totp_secret secret u))) ;;;
        Send_ client (nm "totp_result" |> set_mStatus "pending_confirm" |> set_mTOTPURI uri)
    end.

Definition case_confirm_totp : M unit :=
  if is_empty username then totpError "Not authenticated"
  else
    let* now := getNow in
    let* throttled := askTracker (isTOTPThrottled now username) in
    if throttled then
      totpError ("Too many attempts " +:+ of_bytes [226; 128; 148] +:+ " wait a few minutes")
    else
      let* st := totpStatus username in
      if is_empty st.1 then totpError "No pending TOTP enrollment"
      else
        let* ok := enableTOTP username st.1 (mTOTPCode msg) in
        if negb ok then
          modTracker (recordTOTPFail now username) ;;;
          totpError "Invalid code"
        else
          modTracker (recordTOTPSuccess username) ;;;
          let* codes := generateBackupCodes username in
          Send_ client (nm "totp_result" |> set_mStatus "enabled" |> set_mBackupCodes (default [] codes)).

Definition case_disable_totp : M unit :=
  if is_empty username then ret tt
  else
    let* ok := authenticateUser username (mBody msg) in
    if negb ok then totpError "Password required"
    else
      disableTOTP username ;;;
      Send_ client (nm "totp_result" |> set_mStatus "disabled").

(** The goroutine of [forgot_password]. *)
Definition mailReset (addr : string) : M unit :=
  let* r := createPasswordReset addr in
  match r with
  | None => ret tt
  | Some (tok, user) =>
      sendEmailLogged addr "Reset your Phaze password"
        (MPasswordReset user ("https://phazechat.world/reset?token=" +:+ tok))
  end.

(** [msg.Email != "" && !forgotPasswordLimiter.allow(msg.Email)], negated. *)
Definition forgotAllowed : M bool :=
  if is_empty (mEmail msg) then ret true
  else
    let* e := getEnv in
    let* now := getNow in
    let* s := getSrv in
    let '(ok, l) := allow (rateAllow e) now (mEmail msg) (forgotPasswordLimiter s) in
    modSrv (set_forgotPasswordLimiter l) ;;;
    ret ok.

Definition case_forgot_password : M unit :=
  let sent := Send_ client (nm "forgot_password_result" |> set_mStatus "sent") in
  let* ok := forgotAllowed in
  if negb ok then sent else mailReset (mEmail msg) ;;; sent.

Definition case_reset_password : M unit :=
  let* err := consumePasswordReset (mQRToken msg) (mBody msg) in
  match err with
  | Some t => Send_ client (nm "reset_password_result" |> set_mError t)
  | None => Send_ client (nm "reset_password_result" |> set_mStatus "ok")
  end.

Definition changeError (err : string) : M unit :=
  Send_ client (nm "change_password_result" |> set_mError err).

(** [UPDATE session_tokens SET revoked = 1 WHERE username = ? AND token != ?] *)
Definition revokeOthers (keep : string) (d : Database) : Database :=
  set_session_tokens
    (tupdate (fun r => (st_username r ==? username) && negb (st_token r ==? keep)) (set_st_revoked 1)
       (session_tokens d)) d.

Definition case_change_password : M unit :=
  if is_empty username then changeError "Not authenticated"
  else
    let idx := IndexByte (mBody msg) ":"%char in
    if (idx <? 1) || (idx =? len (mBody msg) - 1) then changeError "Malformed request"
    else
      let oldPw := take_bytes (Z.to_nat idx) (mBody msg) in
      let newPw := drop_bytes (Z.to_nat (idx + 1)) (mBody msg) in
      let* ok := authenticateUser username oldPw in
      if negb ok then changeError "Current password incorrect"
      else if len newPw <? 8 then changeError "New password must be at least 8 characters"
      else
        let* e := getEnv in
        match hashPassword e newPw with
        | None => changeError "Internal error"
        | Some hash =>
            let* ok := ExecOk (onUser username (set_u_password_hash hash)) in
            if negb ok then changeError "Database error"
            else
              Exec_ (revokeOthers (mQRToken msg)) ;;;
              Send_ client (nm "change_password_result" |> set_mStatus "ok")
        end.

Definition case_qr_login_create : M unit :=
  let* r := createQRLogin in
  match r with
  | inl _ => Send_ client (nm "qr_login_result" |> set_mError "Could not create QR token")
  | inr tok => Send_ client (nm "qr_login_result" |> set_mStatus "pending" |> set_mQRToken tok
                             |> set_mQRData ("phaze://login?token=" +:+ tok))
  end.

Definition case_qr_login_approve : M unit :=
  if is_empty username then Send_ client (nm "qr_login_result" |> set_mError "Not authenticated")
  else
    let* err := approveQRLogin (mQRToken msg) username (mDeviceInfo msg) in
    match err with
    | Some t => Send_ client (nm "qr_login_result" |> set_mError t)
    | None => Send_ client (nm "qr_login_result" |> set_mStatus "approved")
    end.

Definition case_qr_login_check : M string :=
  let* throttled := throttledIP ip in
  if throttled then
    autoBlock ip ;;;
    Send_ client (nm "qr_login_result" |> set_mError "Too many failed attempts. Try again later.") ;;;
    Sleep (2 * Second) ;;;
    ret username
  else
    let* r := checkQRLogin (mQRToken msg) in
    let '(u, sess, approved, exists_) := r in
    if negb approved then
      when (negb exists_) (authFailure_Add ;;; noteFail ip "") ;;;
      Send_ client (nm "qr_login_result" |> set_mStatus "pending" |> set_mQRToken (mQRToken msg)) ;;;
      ret username
    else
      noteSuccess ip u ;;;
      promote client u ;;;
      sendAuthOK client u sess ;;;
      announcePresence u ;;;
      deliverOfflineMessages u client ;;;
      ret u.

Definition case_link_create : M unit :=
  let* r := createQRLogin in
  match r with
  | inl err => Send_ client (nm "link_result" |> set_mError err)
  | inr tok => Send_ client (nm "link_result" |> set_mStatus "ok" |> set_mToken tok)
  end.

Definition case_link_approve : M unit :=
  if is_empty username || is_empty (mToken msg) then ret tt
  else
    let device := if is_empty (mDeviceInfo msg) then "linked-device" else mDeviceInfo msg in
    let* err := approveQRLogin (mToken msg) username device in
    match err with
    | Some t => Send_ client (nm "link_result" |> set_mError t)
    | None => Send_ client (nm "link_result" |> set_mStatus "approved")
    end.

Definition case_link_check : M unit :=
  if is_empty (mToken msg) then ret tt
  else
    let* throttled := throttledIP ip in
    if throttled then
      autoBlock ip ;;;
      Send_ client (nm "link_check" |> set_mStatus "pending" |> set_mError "Too many attempts") ;;;
      Sleep (2 * Second)
    else
      let* r := checkQRLogin (mToken msg) in
      let '(u, sess, approved, exists_) := r in
      if negb approved then
        when (negb exists_) (authFailure_Add ;;; noteFail ip "") ;;;
        Send_ client (nm "link_check" |> set_mStatus "pending")
      else
        noteSuccess ip u ;;;
        Send_ client (nm "link_check" |> set_mStatus "approved" |> set_mSender u |> set_mQRToken sess).

(** [device_approve] and [device_deny] *)
Definition case_device : M unit :=
  if is_empty username || (mChallengeID msg =? 0) then ret tt
  else
    let* row := lookupDeviceChallenge (mChallengeID msg) username in
    match row with
    | None => Send_ client (nm "device_result"
                |> set_mError "that sign-in request has already been handled or expired")
    | Some c =>
        let approve := mType msg ==? "device_approve" in
        (if approve then
           approveDeviceChallenge (mChallengeID msg) username (dc_device_id c) (dc_session_token c)
             (dc_label c) (dc_ip c)
         else denyDeviceChallenge (mChallengeID msg) username (dc_session_token c)) ;;;
        sendTo_ username (nm "device_result" |> set_mStatus (if approve then "approved" else "denied")
                          |> set_mBody (dc_label c) |> set_mChallengeID (mChallengeID msg))
    end.

Definition case_list_sessions : M unit :=
  if is_empty username then ret tt
  else
    let* sessions := listSessions username in
    let* e := getEnv in
    Send_ client (nm "sessions_list" |> set_mBody (jsonSessions e sessions)).

Definition case_revoke_session_by_token : M unit :=
  if is_empty username then ret tt
  else
    Exec_ (fun d => set_session_tokens
             (tupdate (fun r => (st_token r ==? mBody msg) && (st_username r ==? username))
                (set_st_revoked 1) (session_tokens d)) d) ;;;
    Send_ client (nm "session_revoked" |> set_mStatus "ok").

(** The insert's error is dropped: the mail goes out anyway. *)
Definition case_invite_email : M unit :=
  if is_empty username then ret tt
  else
    let* e := getEnv in
    if negb (validEmail e (mEmail msg)) then
      Send_ client (nm "invite_result" |> set_mError "Invalid email")
    else
      let* code := randHex 16 in
      match code with
      | None => Send_ client (nm "invite_result" |> set_mError "Internal error")
      | Some code =>
          Exec_ (fun d => set_invite_codes
                   (tinsert_ignore (fun r => ic_code r ==? code)
                      (fun _ => mkInviteCode code username (mEmail msg)) (invite_codes d)) d) ;;;
          sendEmailLogged (mEmail msg) (username +:+ " invited you to Phaze")
            (MInvite username ("https://phazechat.world/web?invite=" +:+ code)) ;;;
          Send_ client (nm "invite_result" |> set_mStatus "sent")
      end.
End Cases.

(** ** Frames: every operation keeps the database invariant *)

Lemma safe_stampLogin username ip : respects safe (stampLogin username ip). Proof. frame_deep. Qed.
Lemma safe_promote client username : respects safe (promote client username).
Proof. frame_deep. Qed.
Lemma safe_sendAuthOK client username token : respects safe (sendAuthOK client username token).
Proof. frame_deep. Qed.
Lemma safe_sendFriendStatuses client username withTs : respects safe (sendFriendStatuses client username withTs).
Proof. frame_deep. Qed.
Lemma safe_sendPerks client username : respects safe (sendPerks client username).
Proof. frame_deep. Qed.
Lemma safe_sendPending client username : respects safe (sendPending client username).
Proof. frame_deep. Qed.
Lemma safe_sendConvos client username : respects safe (sendConvos client username).
Proof. frame_deep. Qed.
Lemma safe_sendGroups client username : respects safe (sendGroups client username).
Proof. frame_deep. Qed.
Lemma safe_cookiePreAuth client ip token : respects safe (cookiePreAuth client ip token).
Proof. frame_deep. Qed.
Lemma safe_throttledIP ip : respects safe (throttledIP ip). Proof. frame_deep. Qed.
Lemma safe_autoBlock ip : respects safe (autoBlock ip). Proof. frame_deep. Qed.
Lemma safe_noteFail ip username : respects safe (noteFail ip username). Proof. frame_deep. Qed.
Lemma safe_noteSuccess ip username : respects safe (noteSuccess ip username).
Proof. frame_deep. Qed.
Lemma safe_sleepFails ip : respects safe (sleepFails ip). Proof. frame_deep. Qed.
Lemma safe_secondFactor username code : respects safe (secondFactor username code).
Proof. frame_deep. Qed.
Lemma safe_setReferrer username refBy : respects safe (setReferrer username refBy).
Proof. frame_deep. Qed.
Lemma safe_registerFail client err : respects safe (registerFail client err).
Proof. frame_deep. Qed.
Lemma safe_registerAccount client ip msg : respects safe (registerAccount client ip msg).
Proof. frame_deep. Qed.
Lemma safe_authError client username err status : respects safe (authError client username err status).
Proof. frame_deep. Qed.
Lemma safe_authAccept client ip msg u : respects safe (authAccept client ip msg u).
Proof. frame_deep. Qed.
Lemma safe_authSecond client ip username msg u : respects safe (authSecond client ip username msg u).
Proof. frame_deep. Qed.
Lemma safe_sessionAccept client ip msg u : respects safe (sessionAccept client ip msg u).
Proof. frame_deep. Qed.
Lemma safe_deleteResult client err : respects safe (deleteResult client err).
Proof. frame_deep. Qed.
Lemma safe_codeResent client : respects safe (codeResent client). Proof. frame_deep. Qed.
Lemma safe_totpError client err : respects safe (totpError client err). Proof. frame_deep. Qed.
Lemma safe_mailReset addr : respects safe (mailReset addr). Proof. frame_deep. Qed.
Lemma safe_forgotAllowed msg : respects safe (forgotAllowed msg). Proof. frame_deep. Qed.
Lemma safe_changeError client err : respects safe (changeError client err). Proof. frame_deep. Qed.

#[export] Hint Resolve safe_stampLogin safe_promote safe_sendAuthOK safe_sendFriendStatuses
  safe_sendPerks safe_sendPending safe_sendConvos safe_sendGroups safe_cookiePreAuth
  safe_throttledIP safe_autoBlock safe_noteFail safe_noteSuccess safe_sleepFails safe_secondFactor
  safe_setReferrer safe_registerFail safe_registerAccount safe_authError safe_authAccept
  safe_authSecond safe_sessionAccept safe_deleteResult safe_codeResent safe_totpError
  safe_mailReset safe_forgotAllowed safe_changeError : frame.

Section SafeCases.
Context (client : nat) (ip username : string) (msg : NexusMessage).
Lemma safe_case_pstn_call : respects safe (case_pstn_call client username msg).
Proof. frame_deep. Qed.
Lemma safe_case_register : respects safe (case_register client ip msg). Proof. frame_deep. Qed.
Lemma safe_case_verify_email : respects safe (case_verify_email client msg).
Proof. frame_deep. Qed.
Lemma safe_case_request_phone_link : respects safe (case_request_phone_link client username msg).
Proof. frame_deep. Qed.
Lemma safe_case_verify_phone_link : respects safe (case_verify_phone_link client username msg).
Proof. frame_deep. Qed.
Lemma safe_case_update_profile : respects safe (case_update_profile client username msg).
Proof. frame_deep. Qed.
Lemma safe_case_auth : respects safe (case_auth client ip username msg). Proof. frame_deep. Qed.
Lemma safe_case_session_auth : respects safe (case_session_auth client ip username msg).
Proof. frame_deep. Qed.
Lemma safe_case_revoke_session : respects safe (case_revoke_session client username msg).
Proof. frame_deep. Qed.
Lemma safe_case_delete_account : respects safe (case_delete_account client username msg).
Proof. frame_deep. Qed.
Lemma safe_case_resend_verification : respects safe (case_resend_verification client ip username msg).
Proof. frame_deep. Qed.
Lemma safe_case_enable_totp : respects safe (case_enable_totp client username).
Proof. frame_deep. Qed.
Lemma safe_case_confirm_totp : respects safe (case_confirm_totp client username msg).
Proof. frame_deep. Qed.
Lemma safe_case_disable_totp : respects safe (case_disable_totp client username msg).
Proof. frame_deep. Qed.
Lemma safe_case_forgot_password : respects safe (case_forgot_password client msg).
Proof. frame_deep. Qed.
Lemma safe_case_reset_password : respects safe (case_reset_password client msg).
Proof. frame_deep. Qed.
Lemma safe_case_change_password : respects safe (case_change_password client username msg).
Proof. frame_deep. Qed.
Lemma safe_case_qr_login_create : respects safe (case_qr_login_create client).
Proof. frame_deep. Qed.
Lemma safe_case_qr_login_approve : respects safe (case_qr_login_approve client username msg).
Proof. frame_deep. Qed.
Lemma safe_case_qr_login_check : respects safe (case_qr_login_check client ip username msg).
Proof. frame_deep. Qed.
Lemma safe_case_link_create : respects safe (case_link_create client). Proof. frame_deep. Qed.
Lemma safe_case_link_approve : respects safe (case_link_approve client username msg).
Proof. frame_deep. Qed.
Lemma safe_case_link_check : respects safe (case_link_check client ip msg).
Proof. frame_deep. Qed.
Lemma safe_case_device : respects safe (case_device client username msg). Proof. frame_deep. Qed.
Lemma safe_case_list_sessions : respects safe (case_list_sessions client username).
Proof. frame_deep. Qed.
Lemma safe_case_revoke_session_by_token : respects safe (case_revoke_session_by_token client username msg).
Proof. frame_deep. Qed.
Lemma safe_case_invite_email : respects safe (case_invite_email client username msg).
Proof. frame_deep. Qed.
End SafeCases.

#[export] Hint Resolve safe_case_pstn_call safe_case_register safe_case_verify_email
  safe_case_request_phone_link safe_case_verify_phone_link safe_case_update_profile safe_case_auth
  safe_case_session_auth safe_case_revoke_session safe_case_delete_account
  safe_case_resend_verification safe_case_enable_totp safe_case_confirm_totp
  safe_case_disable_totp safe_case_forgot_password safe_case_reset_password
  safe_case_change_password safe_case_qr_login_create safe_case_qr_login_approve
  safe_case_qr_login_check safe_case_link_create safe_case_link_approve safe_case_link_check
  safe_case_device safe_case_list_sessions safe_case_revoke_session_by_token
  safe_case_invite_email : frame.
