(* ===== verification/AuthHttp.v ===== *)
(** * Signing in over HTTP ([auth_http.go])

    The web client's login, the completion of a held sign-in, logout and the
    identity of the caller.  The JSON body of a request is an argument:
    [None] when it does not decode. *)

From Stdlib Require Import ZArith Lia.
From stdpp Require Import base strings list gmap.
From S2P Require Import Prelude GoRt Json AuthTracker Store Wire Db World Wf Registry Http Email Sessions.
From S2P Require Import Social Accounts AuthCases.

Open Scope string_scope.
Open Scope list_scope.
Open Scope Z_scope.

(** The body of [httpLoginHandler]. *)
Record LoginBody := mkLogin {
  lbUsername : string;
  lbPassword : string;
  lbTOTPCode : string;
  lbDevice : string }.

Definition postRequired : Response := http_Error "POST required" StatusMethodNotAllowed.
Definition sessionError : Response := http_Error "session error" StatusInternalServerError.

(** [map[string]any] as JSON: keys in alphabetical order. *)
Definition deviceRequired (username label : string) (id : Z) (codeSent : bool) : Response :=
  respJSON StatusOK [("challenge_id", JNum id); ("code_sent", JBool codeSent);
    ("device_label", JStr label); ("status", JStr "device_verification_required");
    ("username", JStr username)].

(** [SELECT COALESCE(display_name,''), COALESCE(mood,'') FROM users] *)
Definition profileNames (username : string) : M (string * string) :=
  ScanOr ("", "") (fun d => (fun u => (default "" (u_display_name u), u_mood u)) <$> userIn username d).

Section Login.
Context (r : Request).

(** The sign-in is held: the session exists but is inert. *)
Definition loginHold (username tok deviceID label ip : string) : M Response :=
  let* deviceID := (if is_empty deviceID then randHex 16 else ret (Some deviceID)) in
  match deviceID with
  | None => ret sessionError
  | Some deviceID =>
      let cookies := [setDeviceCookie deviceID; setSessionCookie tok] in
      let* ok := markSessionPendingDevice tok in
      if negb ok then ret (withCookies cookies sessionError)
      else
        let* ch := createDeviceChallenge username deviceID tok label ip in
        ret (withCookies cookies (deviceRequired username label ch.1 ch.2))
  end.

(** The sign-in completes: a known device, or nobody to ask.  The first query
    only decides whether a line is logged. *)
Definition loginComplete (username tok deviceID label ip : string) : M Response :=
  let* e := getEnv in
  when (deviceVerificationEnabled e) (isKnownDevice username deviceID ;;; ret tt) ;;;
  let* deviceID :=
    (if is_empty deviceID then
       let* id := randHex 16 in
       match id with
       | Some newID => rememberDevice username newID label ip ;;; ret newID
       | None => ret ""
       end
     else touchDevice username deviceID ip ;;; ret deviceID) in
  let cookies := (if is_empty deviceID then [] else [setDeviceCookie deviceID])
                 ++ [setSessionCookie tok] in
  let* names := profileNames username in
  ret (withCookies cookies
         (respJSON StatusOK [("display_name", JStr names.1); ("mood", JStr names.2);
            ("status", JStr "ok"); ("username", JStr username)])).

(** [deviceVerificationEnabled() && !s.isKnownDevice(...) && s.canDeliverChallenge(...)] *)
Definition mustHold (username deviceID : string) : M bool :=
  let* e := getEnv in
  if negb (deviceVerificationEnabled e) then ret false
  else
    let* known := isKnownDevice username deviceID in
    if known then ret false else canDeliverChallenge username.

(** From the session on. *)
Definition loginIssue (b : LoginBody) (ip : string) : M Response :=
  let u := lbUsername b in
  let* tok := issueSessionToken u (if is_empty (lbDevice b) then "web" else lbDevice b) in
  match tok with
  | inl _ => ret sessionError
  | inr tok =>
      stampLogin u ip ;;;
      let deviceID := deviceIDFromRequest r in
      let label := deviceLabel (rqHeader r "User-Agent") (lbDevice b) in
      let* hold := mustHold u deviceID in
      if hold then loginHold u tok deviceID label ip
      else loginComplete u tok deviceID label ip
  end.

(** The ban and the second factor, once the password matched. *)
Definition loginSecond (b : LoginBody) (ip : string) : M Response :=
  let u := lbUsername b in
  let* ban := userBanInfo u in
  let '(banned, reason) := ban in
  if banned then ret (http_Error (suspendedMsg reason) StatusForbidden)
  else
    let* now := getNow in
    let* throttled := askTracker (isTOTPThrottled now u) in
    if throttled then
      ret (http_Error ("Too many 2FA attempts " +:+ of_bytes [226; 128; 148] +:+ " wait a few minutes")
             StatusTooManyRequests)
    else
      let* ok := secondFactor u (lbTOTPCode b) in
      if negb ok then
        modTracker (recordTOTPFail now u) ;;;
        ret (respJSON StatusUnauthorized
               [("error", JStr "2FA code required or invalid"); ("status", JStr "totp_required")])
      else
        modTracker (recordTOTPSuccess u) ;;;
        noteSuccess ip u ;;;
        authSuccess_Add ;;;
        loginIssue b ip.

Definition httpLoginHandler (body : option LoginBody) : M Response :=
  if negb (rqMethod r ==? "POST") then ret postRequired
  else
    match body with
    | None => ret (http_Error "username and password required" StatusBadRequest)
    | Some b =>
        if is_empty (lbUsername b) || is_empty (lbPassword b) then
          ret (http_Error "username and password required" StatusBadRequest)
        else
          let* e := getEnv in
          let ip := clientIP e r in
          let* throttled := throttledIP ip in
          if throttled then
            ret (http_Error "Too many failed attempts. Try again later." StatusTooManyRequests)
          else
            let* now := getNow in
            let* locked := askTracker (isUserLocked now (lbUsername b)) in
            if locked then
              ret (http_Error "Account temporarily locked. Try again in 30 minutes." StatusTooManyRequests)
            else
              let* ok := authenticateUser (lbUsername b) (lbPassword b) in
              if negb ok then
                noteFail ip (lbUsername b) ;;;
                sleepFails ip ;;;
                ret (http_Error "Invalid username or password" StatusUnauthorized)
              else loginSecond b ip
    end.

Definition httpVerifyDeviceHandler (code : option string) : M Response :=
  if negb (rqMethod r ==? "POST") then ret postRequired
  else
    let tok := tokenFromRequest r in
    let* st := sessionState tok in
    let '(username, pending) := st in
    if is_empty username then ret (http_Error "not authenticated" StatusUnauthorized)
    else if negb pending then ret (respJSON StatusOK [("status", JStr "ok")])
    else
      let* e := getEnv in
      let ip := clientIP e r in
      let* throttled := throttledIP ip in
      if throttled then ret (http_Error "Too many attempts. Try again later." StatusTooManyRequests)
      else
        match code with
        | None => ret (http_Error "code required" StatusBadRequest)
        | Some code =>
            if is_empty (TrimSpace code) then ret (http_Error "code required" StatusBadRequest)
            else
              let* v := verifyDeviceChallenge tok code in
              match v with
              | inl err =>
                  noteFail ip username ;;;
                  ret (respJSON StatusUnauthorized
                         [("error", JStr (deviceErr_Error err)); ("status", JStr "invalid_code")])
              | inr _ =>
                  noteSuccess ip username ;;;
                  ret (respJSON StatusOK [("status", JStr "ok"); ("username", JStr username)])
              end
        end.

Definition httpLogoutHandler : M Response :=
  if negb (rqMethod r ==? "POST") then ret postRequired
  else
    let tok := tokenFromRequest r in
    when (negb (is_empty tok)) (revokeSession tok) ;;;
    ret (mkResponse StatusNoContent [clearSessionCookie] BNone []).

Definition httpMeHandler : M Response :=
  let* username := sessionUsername (tokenFromRequest r) in
  if is_empty username then ret (http_Error "not authenticated" StatusUnauthorized)
  else
    let* names := profileNames username in
    ret (respJSON StatusOK [("display_name", JStr names.1); ("mood", JStr names.2);
                            ("username", JStr username)]).
End Login.

(** ** Frames: every operation keeps the database invariant *)

Lemma safe_profileNames username : respects safe (profileNames username). Proof. frame_deep. Qed.
Lemma safe_loginHold username tok deviceID label ip : respects safe (loginHold username tok deviceID label ip).
Proof. frame_deep. Qed.
Lemma safe_loginComplete username tok deviceID label ip : respects safe (loginComplete username tok deviceID label ip).
Proof. frame_deep. Qed.
Lemma safe_mustHold username deviceID : respects safe (mustHold username deviceID).
Proof. frame_deep. Qed.
Lemma safe_loginIssue r b ip : respects safe (loginIssue r b ip). Proof. frame_deep. Qed.
Lemma safe_loginSecond r b ip : respects safe (loginSecond r b ip). Proof. frame_deep. Qed.
Lemma safe_httpLoginHandler r body : respects safe (httpLoginHandler r body).
Proof. frame_deep. Qed.
Lemma safe_httpVerifyDeviceHandler r code : respects safe (httpVerifyDeviceHandler r code).
Proof. frame_deep. Qed.
Lemma safe_httpLogoutHandler r : respects safe (httpLogoutHandler r). Proof. frame_deep. Qed.
Lemma safe_httpMeHandler r : respects safe (httpMeHandler r). Proof. frame_deep. Qed.

#[export] Hint Resolve safe_profileNames safe_loginHold safe_loginComplete safe_mustHold
  safe_loginIssue safe_loginSecond safe_httpLoginHandler safe_httpVerifyDeviceHandler
  safe_httpLogoutHandler safe_httpMeHandler : frame.
