(* ===== verification/Mux.v ===== *)
(** * The mux and the static routes ([main] in [main.go])

    The part of [http.ServeMux] that [main]'s route table uses, and the
    handlers [main] registers as function literals: the web client, the files
    of [public], the crawler and verification pages. *)

From Stdlib Require Import ZArith Lia Ascii.
From stdpp Require Import base strings list gmap.
From S2P Require Import Prelude GoRt GoStd Store Wire Db World Wf Http Files.

Open Scope string_scope.
Open Scope list_scope.
Open Scope Z_scope.

(** ** [http.ServeMux] *)

(** The segments of a rooted path without [.] and [..], last first. *)
Definition cleanStep (acc : list string) (seg : string) : list string :=
  if is_empty seg || (seg ==? ".") then acc
  else if seg ==? ".." then tail acc
  else seg :: acc.

(** [cleanPath]: [path.Clean] of a rooted path that keeps a trailing slash. *)
Definition cleanPath (p : string) : string :=
  if is_empty p then "/"
  else
    let segs := reverse (foldl cleanStep [] (Split p "/"%char)) in
    let np := "/" +:+ Join segs "/" in
    if HasSuffix p "/" && negb (np ==? "/") then np +:+ "/" else np.

(** Whether a pattern matches a path: one that ends in a slash matches every
    path below it. *)
Definition matches (path pat : string) : bool :=
  (pat ==? path) || (HasSuffix pat "/" && HasPrefix path pat).

(** Of two patterns that match one path the longer is the more specific. *)
Definition longer {A} (a b : string * A) : string * A := if len a.1 <? len b.1 then b else a.

Definition bestMatch {A} (path : string) (table : list (string * A)) : option (string * A) :=
  foldl (fun best e => if matches path e.1
                       then Some (match best with None => e | Some b => longer b e end) else best)
    None table.

Inductive muxed (A : Type) := MuxHandler (h : A) | MuxRedirect (url : string) | MuxNotFound.
Arguments MuxHandler {A}.
Arguments MuxRedirect {A}.
Arguments MuxNotFound {A}.

(** [ServeMux.findHandler]: an unclean path is redirected; so is one for which
    only the pattern with a trailing slash is registered. *)
Definition findHandler {A} (table : list (string * A)) (path : string) : muxed A :=
  if negb (cleanPath path ==? path) then MuxRedirect (cleanPath path)
  else
    match bestMatch path table with
    | None => MuxNotFound
    | Some (pat, h) =>
        if (pat ==? path) || HasSuffix path "/"
           || negb (existsb (fun e => e.1 ==? path +:+ "/") table)
        then MuxHandler h
        else MuxRedirect (path +:+ "/")
    end.

(** ** Files of a directory ([http.FileServer]) *)

(** The disk below the binary: with the disk blob store the uploads are files
    of it too.  Directories are not listed. *)
Definition diskResponse (full : string) : M Response :=
  let* e := getEnv in
  if onDisk e && HasPrefix full (uploadDir e +:+ "/")
  then serveBlob (uploadKey (TrimPrefix full (uploadDir e +:+ "/")))
  else ret (serveDisk e full).

Definition FileServer (dir path : string) : M Response :=
  if HasSuffix path "/index.html" then ret (http_Redirect "./" StatusMovedPermanently)
  else if HasSuffix path "/" then diskResponse (dir +:+ path +:+ "index.html")
  else diskResponse (dir +:+ path).

(** [http.StripPrefix(prefix, http.FileServer(http.Dir(dir)))]; the file server
    puts the leading slash back. *)
Definition stripped (prefix dir : string) (r : Request) : M Response :=
  FileServer dir ("/" +:+ TrimPrefix (rqPath r) prefix).

(** ** The web client *)

Definition webDir (e : Env) : string :=
  let d := TrimSpace (getenv e "PHAZE_WEB_DIR") in if is_empty d then "web" else d.

Definition isFile (e : Env) (path : string) : bool := bool_decide (is_Some (diskFile e path)).

Definition webHeaders : list (string * string) := [
  ("Permissions-Policy", "camera=(self), microphone=(self), display-capture=(self), autoplay=(self)");
  ("Content-Security-Policy",
   "default-src 'self'; connect-src 'self' wss://phazechat.world wss://*.phazechat.world; img-src 'self' data: blob:; media-src 'self' blob:; style-src 'self' 'unsafe-inline' https://fonts.googleapis.com; font-src 'self' https://fonts.gstatic.com; script-src 'self'; frame-ancestors 'none'")].

(** [/web/]: an existing file, or the single page that routes on the client. *)
Definition webHandler (r : Request) : M Response :=
  let* e := getEnv in
  let rel := TrimPrefix (rqPath r) "/web/" in
  if negb (is_empty rel) && isFile e (webDir e +:+ "/" +:+ rel) then
    let* rs := stripped "/web/" (webDir e) r in
    ret (withHeaders
           (webHeaders ++ (if HasPrefix rel "assets/"
                           then [("Cache-Control", "public, max-age=31536000, immutable")] else [])) rs)
  else
    ret (withHeaders (webHeaders ++ [("Cache-Control", "no-cache")])
           (ServeFile e r (webDir e +:+ "/index.html"))).

Definition webRedirect (r : Request) : M Response := ret (http_Redirect "/web/" StatusFound).

(** ** Crawlers and verification *)

Definition textPage (headers : list (string * string)) (body : string) : Response :=
  withHeaders headers (mkResponse StatusOK [] (BText body) []).

Definition day : (string * string) := ("Cache-Control", "public, max-age=86400").

Definition robotsHandler (r : Request) : M Response :=
  ret (textPage [("Content-Type", "text/plain; charset=utf-8"); day]
         (Join ["User-agent: *"; "Allow: /"; "Disallow: /api/"; "Disallow: /ws"; "Disallow: /reset";
                "Sitemap: https://phazechat.world/sitemap.xml"; ""] (of_bytes [10]))).

Definition sitemapPaths : list string :=
  ["/"; "/download"; "/features"; "/rates"; "/about"; "/support"; "/privacy"; "/terms"; "/legal";
   "/status"; "/web/"].

Definition sitemapEntry (today p : string) : string :=
  "<url><loc>https://phazechat.world" +:+ p +:+ "</loc><lastmod>" +:+ today
  +:+ "</lastmod><changefreq>weekly</changefreq></url>".

Definition dquote : string := of_bytes [34].

(** [time.Now().UTC().Format("2006-01-02")] *)
Definition today (now : Z) : string := take_bytes 10 (FormatSQL now).

Definition sitemapHandler (r : Request) : M Response :=
  let* now := getNow in
  ret (textPage [("Content-Type", "application/xml; charset=utf-8"); day]
    ("<?xml version=" +:+ dquote +:+ "1.0" +:+ dquote +:+ " encoding=" +:+ dquote +:+ "UTF-8" +:+ dquote
     +:+ "?><urlset xmlns=" +:+ dquote +:+ "http://www.sitemaps.org/schemas/sitemap/0.9" +:+ dquote +:+ ">"
     +:+ Join (sitemapEntry (today now) <$> sitemapPaths) "" +:+ "</urlset>")).

(** A page that carries a value of the environment, absent without it. *)
Definition verificationPage (var ctype : string) (page : string -> string) (r : Request) : M Response :=
  let* e := getEnv in
  let v := getenv e var in
  ret (if is_empty v then http_NotFound else textPage [("Content-Type", ctype)] (page v)).

Definition googleHandler : Request -> M Response :=
  verificationPage "PHAZE_GSC_VERIFICATION" "text/html; charset=utf-8"
    (fun v => "google-site-verification: " +:+ v).

Definition bingHandler : Request -> M Response :=
  verificationPage "PHAZE_BING_VERIFICATION" "application/xml; charset=utf-8"
    (fun v => "<?xml version=" +:+ dquote +:+ "1.0" +:+ dquote +:+ "?><users><user>" +:+ v
              +:+ "</user></users>").

Definition yandexHandler : Request -> M Response :=
  verificationPage "PHAZE_YANDEX_VERIFICATION" "text/html; charset=utf-8"
    (fun v => "<html><head><meta name=" +:+ dquote +:+ "yandex-verification" +:+ dquote +:+ " content="
              +:+ dquote +:+ v +:+ dquote +:+ " /></head></html>").

Definition indexNowKey (e : Env) : string :=
  let k := getenv e "INDEXNOW_KEY" in if is_empty k then "c7b5c55a52c28ecfa0b858dbce7c2a3e" else k.

Definition indexNowHandler (r : Request) : M Response :=
  let* e := getEnv in ret (textPage [("Content-Type", "text/plain")] (indexNowKey e)).

(** ** Frames *)

Section MuxFrames.
Context (R : World -> World -> Prop) `{HR : !PreOrder R}.
Lemma respects_diskResponse p : respects R (diskResponse p).
Proof using HR. unfold diskResponse. frame. Qed.
#[local] Hint Resolve respects_diskResponse : frame.
Lemma respects_FileServer d p : respects R (FileServer d p).
Proof using HR. unfold FileServer. frame. Qed.
#[local] Hint Resolve respects_FileServer : frame.
Lemma respects_stripped p d r : respects R (stripped p d r).
Proof using HR. unfold stripped. frame. Qed.
#[local] Hint Resolve respects_stripped : frame.
Lemma respects_webHandler r : respects R (webHandler r).
Proof using HR. unfold webHandler. frame. Qed.
Lemma respects_webRedirect r : respects R (webRedirect r).
Proof using HR. unfold webRedirect. frame. Qed.
Lemma respects_robotsHandler r : respects R (robotsHandler r).
Proof using HR. unfold robotsHandler. frame. Qed.
Lemma respects_sitemapHandler r : respects R (sitemapHandler r).
Proof using HR. unfold sitemapHandler. frame. Qed.
Lemma respects_verificationPage v c p r : respects R (verificationPage v c p r).
Proof using HR. unfold verificationPage. frame. Qed.
Lemma respects_indexNowHandler r : respects R (indexNowHandler r).
Proof using HR. unfold indexNowHandler. frame. Qed.
End MuxFrames.
#[export] Hint Resolve respects_stripped respects_webHandler respects_webRedirect
  respects_robotsHandler respects_sitemapHandler respects_verificationPage respects_indexNowHandler
  : frame.

(** ** Facts *)

(** The handler the mux picks is an entry of its table whose pattern matches,
    and no matching pattern is longer. *)
Lemma longer_le {A} (a b : string * A) : len a.1 <= len (longer a b).1 /\ len b.1 <= len (longer a b).1.
Proof. unfold longer. destruct (_ <? _) eqn:E; bools; lia. Qed.

Definition best_of {A} (path : string) (seen : list (string * A)) (best : option (string * A)) : Prop :=
  match best with
  | None => Forall (fun e => matches path e.1 = false) seen
  | Some b => b ∈ seen /\ matches path b.1 = true
              /\ (forall e, e ∈ seen -> matches path e.1 = true -> len e.1 <= len b.1)
  end.

Lemma best_of_step {A} path (seen : list (string * A)) best e :
  best_of path seen best ->
  best_of path (seen ++ [e])
    (if matches path e.1 then Some (match best with None => e | Some b => longer b e end) else best).
Proof.
  intros H. destruct (matches path e.1) eqn:E.
  - destruct best as [b|]; simpl in *.
    + destruct H as (Hb & Hm & Hmax). pose proof (longer_le b e) as [L1 L2].
      split_and!.
      * apply elem_of_app. unfold longer. destruct (_ <? _); [right; left | by left].
      * unfold longer. by destruct (_ <? _).
      * intros e' [H1|H1%list_elem_of_singleton]%elem_of_app H2; [specialize (Hmax e' H1 H2); lia | by subst].
    + split_and!; [apply elem_of_app; right; left | done |].
      intros e' [H1|H1%list_elem_of_singleton]%elem_of_app H2; [|by subst].
      rewrite Forall_forall in H. specialize (H e' H1). congruence.
  - destruct best as [b|]; simpl in *.
    + destruct H as (Hb & Hm & Hmax). split_and!; [apply elem_of_app; by left | done |].
      intros e' [H1|H1%list_elem_of_singleton]%elem_of_app H2; [by apply Hmax | congruence].
    + apply Forall_app_2; [done|]. by constructor.
Qed.

Lemma bestMatch_best {A} path (table : list (string * A)) : best_of path table (bestMatch path table).
Proof.
  unfold bestMatch.
  assert (H : forall l seen best, best_of path seen best ->
    best_of path (seen ++ l)
      (foldl (fun (best : option (string * A)) e => if matches path e.1
         then Some (match best with None => e | Some b => longer b e end) else best) best l)).
  { induction l as [|e l IH]; intros seen best Hb; [by rewrite app_nil_r|]. simpl.
    replace (seen ++ e :: l) with ((seen ++ [e]) ++ l) by (by rewrite <- app_assoc).
    apply IH. by apply best_of_step. }
  apply (H table [] None). constructor.
Qed.

Lemma findHandler_in {A} (table : list (string * A)) path h :
  findHandler table path = MuxHandler h ->
  exists pat, (pat, h) ∈ table /\ matches path pat = true.
Proof.
  unfold findHandler. destruct (negb _); [done|]. pose proof (bestMatch_best path table) as Hb.
  destruct (bestMatch path table) as [[pat h']|]; [|done]. destruct Hb as (H1 & H2 & _).
  destruct (_ || _ || _); [|done]. intros [= <-]. by exists pat.
Qed.

Example cleanPath_ex :
  cleanPath "/uploads/../etc//passwd/./" = "/etc/passwd/" /\ cleanPath "/../.." = "/"
  /\ cleanPath "/web/" = "/web/".
Proof. split_and!; reflexivity. Qed.
