(* ===== verification/Routes.v ===== *)
(** * The route table ([main] in [main.go])

    Every path the server answers, with the middleware it is registered with,
    and one request to the server, [serve].  The WebSocket endpoint is the
    table's entry [RWebSocket]: what it does is [accept] and the message loop,
    in [Dispatch]. *)

From Stdlib Require Import ZArith Lia Ascii String.
From stdpp Require Import base strings list gmap.
From S2P Require Import Prelude GoRt GoStd Store Wire Db World Wf Http Middleware.
From S2P Require Import Stories Supporters Admin Files Status Pages Skype Support AuthHttp Mux.

Open Scope string_scope.
Open Scope list_scope.
Open Scope Z_scope.

(** ** Bodies *)

(** The body of one request, as each handler that reads bodies would decode
    it: JSON objects, forms, multipart uploads; [None] does not decode. *)
Record Bodies := mkBodies {
  rbLogin : option LoginBody;
  rbDeviceCode : option string;
  rbAvatar : option string;
  rbUpload : upload;
  rbReset : option ResetForm;
  rbChat : option (list supportMessage);
  rbEscalate : option EscalateBody;
  rbStory : option StoryBody;
  rbReply : option string;
  rbSupport : option SupportForm;
  rbWebhook : option string;
  rbSkype : skypeUpload;
  rbAdminCreds : option AdminCreds;
  rbBan : BanBody;
  rbUsername : option string;
  rbMessage : option string;
  rbIPBlock : option IPBlockBody }.

(** A request without a body. *)
Definition noBodies : Bodies :=
  mkBodies None None None NoFile None None None None None None None SkNoFile None (mkBanBody "" "")
    None None None.

(** ** The table *)

Inductive route :=
| RWebSocket
| ROpen (h : Request -> Bodies -> M Response)      (* registered as it is *)
| RLimited (h : Request -> Bodies -> M Response)   (* behind [rateLimit] *)
| RAdmin (c : Bodies -> adminCall).                (* behind the address gate and its limiter *)

Definition nobody (h : Request -> M Response) : Request -> Bodies -> M Response := fun r _ => h r.

(** [PHAZE_ADMIN_PATH], with one leading slash. *)
Definition adminPath (e : Env) : string :=
  let p := TrimSpace (getenv e "PHAZE_ADMIN_PATH") in
  let p := if is_empty p then "/nexus-cmd" else p in
  "/" +:+ string_of_list_ascii (strip_slashes (list_ascii_of_string p)).

Definition publicRoutes (e : Env) : list (string * route) := [
  ("/ws", RWebSocket);
  ("/api/v1/version", RLimited (nobody versionHandler));
  ("/api/v1/profile/", RLimited (nobody profileHandler));
  ("/api/v1/avatars/", RLimited (nobody avatarHandler));
  ("/api/v1/avatars", RLimited (fun r b => avatarUploadHandler r (rbAvatar b)));
  ("/api/v1/upload", RLimited (fun r b => uploadHandler r (rbUpload b)));
  ("/uploads/", ROpen (nobody uploadsServeHandler));
  ("/twiml/outbound", RLimited (nobody twimlHandler));
  ("/public/", ROpen (nobody (stripped "/public/" "public")));
  ("/.well-known/", ROpen (nobody (stripped "/.well-known/" "public/.well-known")));
  ("/downloads/", ROpen (nobody fileDownloadHandler))].

(** The web client is only mounted when it has been built. *)
Definition webRoutes (e : Env) : list (string * route) :=
  if isFile e (webDir e +:+ "/index.html")
  then [("/web/", ROpen (nobody webHandler)); ("/web", ROpen (nobody webRedirect))]
  else [].

Definition pageRoutes (e : Env) : list (string * route) := [
  ("/robots.txt", ROpen (nobody robotsHandler));
  ("/sitemap.xml", ROpen (nobody sitemapHandler));
  ("/google", ROpen (nobody googleHandler));
  ("/BingSiteAuth.xml", ROpen (nobody bingHandler));
  ("/yandex_", ROpen (nobody yandexHandler));
  ("/" +:+ indexNowKey e +:+ ".txt", ROpen (nobody indexNowHandler));
  ("/verify-email", ROpen (nobody verifyEmailHandler));
  ("/", ROpen (nobody landingHandler));
  ("/download", ROpen (nobody downloadHandler));
  ("/features", ROpen (nobody featuresHandler));
  ("/rates", ROpen (nobody ratesHandler));
  ("/about", ROpen (nobody aboutHandler));
  ("/support", ROpen (nobody supportHandler));
  ("/privacy", ROpen (nobody privacyHandler));
  ("/terms", ROpen (nobody termsHandler));
  ("/legal", ROpen (nobody legalHandler));
  ("/reset", ROpen (fun r b => resetHandler r (rbReset b)));
  ("/version", ROpen (nobody versionHandler));
  ("/health", ROpen (nobody healthHandler));
  ("/metrics", ROpen (nobody metricsHandler))].

(** [initSupportRoutes], [initStoriesRoutes], [initStatusPage]. *)
Definition initSupportRoutes : list (string * route) := [
  ("/api/v1/support/chat", RLimited (fun r b => supportChatHandler r (rbChat b)));
  ("/api/v1/support/escalate", RLimited (fun r b => supportEscalateHandler r (rbEscalate b)))].

Definition initStoriesRoutes : list (string * route) := [
  ("/api/v1/stories", RLimited (fun r b => storiesHandler r (rbStory b)));
  ("/api/v1/stories/", RLimited (fun r b => storiesItemHandler r (rbReply b)))].

Definition initStatusPage : list (string * route) := [
  ("/status", RLimited (nobody statusPageHandler));
  ("/status/", RLimited (nobody statusPageHandler))].

Definition adminRoutes (e : Env) : list (string * route) := [
  (adminPath e, RAdmin (fun _ => APortal));
  (adminPath e +:+ "/", RAdmin (fun _ => APortal));
  ("/api/v1/admin/login", RAdmin (fun b => ALogin (rbAdminCreds b)));
  ("/api/v1/admin/me", RAdmin (fun _ => AMe));
  ("/api/v1/admin/logout", RAdmin (fun _ => ALogout));
  ("/api/v1/admin/users", RAdmin (fun _ => AUsers));
  ("/api/v1/admin/broadcast", RAdmin (fun b => ABroadcast (rbMessage b)));
  ("/api/v1/admin/ip-block", RAdmin (fun b => AIPBlock (rbIPBlock b)));
  ("/api/v1/admin/global-notice", RAdmin (fun b => AGlobalNotice (rbMessage b)));
  ("/api/v1/admin/verify-user", RAdmin (fun b => AVerifyUser (rbUsername b)));
  ("/api/v1/admin/stats", RAdmin (fun _ => AStats));
  ("/api/v1/admin/logs", RAdmin (fun _ => ALogs));
  ("/api/v1/admin/geo", RAdmin (fun _ => AGeo));
  ("/api/v1/admin/pending-verifications", RAdmin (fun _ => APending));
  ("/api/v1/admin/reports", RAdmin (fun _ => AReports));
  ("/api/v1/admin/reports/", RAdmin (fun _ => AResolve));
  ("/api/v1/admin/users/", RAdmin (fun b => ABan (rbBan b)));
  ("/api/v1/admin/banned", RAdmin (fun _ => ABanned));
  ("/api/v1/admin/supporters", RAdmin (fun _ => ASupporters));
  ("/api/v1/admin/supporters/", RAdmin (fun _ => ASupporterAction));
  ("/api/v1/admin/grant-supporter", RAdmin (fun b => AGrantSupporter (rbUsername b)));
  ("/api/v1/admin/servers", RAdmin (fun _ => AServers));
  ("/api/v1/admin/messages", RAdmin (fun _ => AMessages));
  ("/api/v1/admin/dms", RAdmin (fun _ => ADMs));
  ("/api/v1/admin/bmc-payments", RAdmin (fun _ => APayments))].

Definition apiRoutes : list (string * route) := [
  ("/api/v1/config", RLimited (nobody configHandler));
  ("/api/v1/support/request", RLimited (fun r b => supportRequestHandler r (rbSupport b)));
  ("/api/v1/webhooks/buymeacoffee", RLimited (fun r b => bmcWebhookHandler r (rbWebhook b)));
  ("/api/v1/import/skype", RLimited (fun r b => skypeImportHandler r (rbSkype b)));
  ("/api/v1/import/skype/contacts", RLimited (nobody skypeContactsHandler));
  ("/api/v1/import/skype/messages", RLimited (nobody skypeMessagesHandler));
  ("/api/v1/import/skype/invite-link", RLimited (nobody skypeInviteHandler));
  ("/api/v1/auth/login", RLimited (fun r b => httpLoginHandler r (rbLogin b)));
  ("/api/v1/auth/verify-device", RLimited (fun r b => httpVerifyDeviceHandler r (rbDeviceCode b)));
  ("/api/v1/auth/logout", RLimited (nobody httpLogoutHandler));
  ("/api/v1/auth/me", RLimited (nobody httpMeHandler));
  ("/api/v1/stats", RLimited (nobody statsHandler));
  ("/api/v1/export", RLimited (nobody exportHandler));
  ("/api/v1/vapid-key", ROpen (nobody vapidKeyHandler))].

Definition routes (e : Env) : list (string * route) :=
  publicRoutes e ++ webRoutes e ++ pageRoutes e ++ initSupportRoutes ++ initStoriesRoutes
  ++ initStatusPage ++ adminRoutes e ++ apiRoutes.

(** A request to a route; [None] on the WebSocket endpoint. *)
Definition handle (r : Request) (b : Bodies) (rt : route) : M (option Response) :=
  match rt with
  | RWebSocket => ret None
  | ROpen h => let* rs := h r b in ret (Some rs)
  | RLimited h => let* rs := rateLimit r (h r b) in ret (Some rs)
  | RAdmin c => let* rs := serveAdmin r (c b) in ret (Some rs)
  end.

(** One HTTP request. *)
Definition serve (r : Request) (b : Bodies) : M (option Response) :=
  let* e := getEnv in
  match findHandler (routes e) (rqPath r) with
  | MuxNotFound => ret (Some http_NotFound)
  | MuxRedirect url => ret (Some (http_Redirect url StatusTemporaryRedirect))
  | MuxHandler rt => handle r b rt
  end.

(** ** Frames *)

Definition safe_route (rt : route) : Prop := forall r b, respects safe (handle r b rt).

Lemma safe_ROpen h : (forall r b, respects safe (h r b)) -> safe_route (ROpen h).
Proof. intros H r b. simpl. frame. Qed.
Lemma safe_RLimited h : (forall r b, respects safe (h r b)) -> safe_route (RLimited h).
Proof. intros H r b. simpl. frame. exact (safe_rateLimit _ _ (H r b)). Qed.
Lemma safe_RAdmin c : safe_route (RAdmin c).
Proof. intros r b. simpl. frame. Qed.
Lemma safe_RWebSocket : safe_route RWebSocket.
Proof. intros r b. simpl. frame. Qed.

Ltac solve_route :=
  cbn [snd];
  lazymatch goal with
  | |- safe_route RWebSocket => exact safe_RWebSocket
  | |- safe_route (RAdmin _) => apply safe_RAdmin
  | |- safe_route (ROpen _) => apply safe_ROpen; intros ? ?; unfold nobody
  | |- safe_route (RLimited _) => apply safe_RLimited; intros ? ?; unfold nobody
  end;
  try solve [eauto 3 with frame | apply safe_templatePage
            | apply respects_verificationPage; typeclasses eauto].

Lemma safe_publicRoutes e : Forall (fun pr => safe_route pr.2) (publicRoutes e).
Proof. unfold publicRoutes. forall_list ltac:(solve_route). Qed.
Lemma safe_webRoutes e : Forall (fun pr => safe_route pr.2) (webRoutes e).
Proof. unfold webRoutes. destruct (isFile _ _); [forall_list ltac:(solve_route) | constructor]. Qed.
Lemma safe_pageRoutes e : Forall (fun pr => safe_route pr.2) (pageRoutes e).
Proof. unfold pageRoutes. forall_list ltac:(solve_route). Qed.
Lemma safe_initRoutes :
  Forall (fun pr => safe_route pr.2) (initSupportRoutes ++ initStoriesRoutes ++ initStatusPage).
Proof. simpl. forall_list ltac:(solve_route). Qed.
Lemma safe_adminRoutes e : Forall (fun pr => safe_route pr.2) (adminRoutes e).
Proof. unfold adminRoutes. forall_list ltac:(solve_route). Qed.
Lemma safe_apiRoutes : Forall (fun pr => safe_route pr.2) apiRoutes.
Proof. unfold apiRoutes. forall_list ltac:(solve_route). Qed.

Lemma safe_routes e : Forall (fun pr => safe_route pr.2) (routes e).
Proof.
  pose proof safe_initRoutes as H. unfold routes. rewrite !Forall_app in *. destruct H as (H1 & H2 & H3).
  split_and!;
    auto using safe_publicRoutes, safe_webRoutes, safe_pageRoutes, safe_adminRoutes, safe_apiRoutes.
Qed.

Lemma safe_serve r b : respects safe (serve r b).
Proof.
  unfold serve. apply respects_bind; [typeclasses eauto | frame |]. intros e.
  destruct (findHandler _ _) as [rt|url|] eqn:E; [|frame..].
  apply findHandler_in in E as (pat & Hin & _).
  pose proof (safe_routes e) as H. rewrite Forall_forall in H. exact (H _ Hin r b).
Qed.
#[export] Hint Resolve safe_serve : frame.
