(* ===== verification/Dispatch.v ===== *)
(** * The message loop ([handleConnections] in [ws_handlers.go])

    One WebSocket connection is a loop with two local variables, its [*Client]
    and its [username].  [Machine] is the shared world plus the loops that are
    running; connecting, receiving one frame and losing the connection are
    functions on it, and [step] interleaves them with time, the sweepers, the
    background goroutines, the tools and every HTTP request. *)

From Stdlib Require Import ZArith Lia.
From stdpp Require Import base strings list gmap.
From S2P Require Import Prelude GoRt AuthTracker Netutil Store Wire Db World Wf Registry Http Email.
From S2P Require Import Sessions Social Rewards Dm Convo Calls Spaces Whiteboard Rooms Accounts.
From S2P Require Import AuthCases Middleware Stories CfTurn Retention Supporters Status Pages Routes.

Open Scope string_scope.
Open Scope list_scope.
Open Scope Z_scope.

(** ** One message *)

(** How a case of the switch ends: the next iteration with this [username],
    or the end of the loop. *)
Inductive next := Continue (username : string) | Stop.

Section Switch.
Context (client : nat) (ip username : string) (msg : NexusMessage).

(** A case that leaves [username] alone. *)
Definition stay (m : M unit) : M next := m ;;; ret (Continue username).
Definition become (m : M string) : M next := let* u := m in ret (Continue u).

(** The messages that only do something: type and handler. *)
Definition plainCases : list (string * M unit) := [
  ("pstn_call", case_pstn_call client username msg);
  ("register", case_register client ip msg);
  ("verify_email", case_verify_email client msg);
  ("status_update", case_status_update client username msg);
  ("request_phone_link", case_request_phone_link client username msg);
  ("verify_phone_link", case_verify_phone_link client username msg);
  ("update_profile", case_update_profile client username msg);
  ("revoke_session", case_revoke_session client username msg);
  ("resend_verification", case_resend_verification client ip username msg);
  ("enable_totp", case_enable_totp client username);
  ("confirm_totp", case_confirm_totp client username msg);
  ("disable_totp", case_disable_totp client username msg);
  ("forgot_password", case_forgot_password client msg);
  ("reset_password", case_reset_password client msg);
  ("change_password", case_change_password client username msg);
  ("qr_login_create", case_qr_login_create client);
  ("qr_login_approve", case_qr_login_approve client username msg);
  ("msg", case_msg client username msg);
  ("wb_join", case_wb_join client username msg);
  ("wb_stroke", case_wb_stroke client username msg);
  ("wb_undo", case_wb_undo username msg);
  ("wb_clear", case_wb_clear client username msg);
  ("device_approve", case_device client username msg);
  ("device_deny", case_device client username msg);
  ("block", case_block client username msg);
  ("unblock", case_unblock client username msg);
  ("list_blocks", case_list_blocks client username);
  ("register_fcm_token", case_register_fcm_token username msg);
  ("subscribe_push", case_subscribe_push client username msg);
  ("unsubscribe_push", case_unsubscribe_push client username msg);
  ("list_sessions", case_list_sessions client username);
  ("revoke_session_by_token", case_revoke_session_by_token client username msg);
  ("get_referral_stats", case_get_referral_stats client username);
  ("open_crate", case_open_crate client username);
  ("craft_reward", case_craft_reward client username msg);
  ("invite_email", case_invite_email client username msg);
  ("report_abuse", case_report_abuse client username msg);
  ("typing", case_typing username msg);
  ("msg_edit", case_msg_act client username msg);
  ("msg_delete", case_msg_act client username msg);
  ("msg_react", case_msg_act client username msg);
  ("dm_history", case_dm_history client username msg);
  ("key_backup_put", case_key_backup_put client username msg);
  ("key_backup_get", case_key_backup_get client username);
  ("key_backup_delete", case_key_backup_delete client username);
  ("link_create", case_link_create client);
  ("link_approve", case_link_approve client username msg);
  ("link_check", case_link_check client ip msg);
  ("presence", case_presence username msg);
  ("search", case_search client username msg);
  ("friend_request", case_friend_request client username msg);
  ("friend_accept", case_friend_accept client username msg);
  ("friend_reject", case_friend_reject username msg);
  ("friend_remove", case_friend_remove username msg);
  ("contact_group_set", case_contact_group_set client username msg);
  ("convo_create", case_convo_create client username msg);
  ("convo_msg", case_convo_msg username msg);
  ("convo_leave", case_convo_leave username msg);
  ("convo_add_member", case_convo_add_member client username msg);
  ("convo_remove_member", case_convo_remove_member client username msg);
  ("convo_rename", case_convo_rename client username msg);
  ("convo_history", case_convo_history client username msg);
  ("read_receipt", case_read_receipt username msg);
  ("key_request", case_key_request username msg);
  ("call_offer", case_call_offer client username msg);
  ("call_answer", case_call_answer client username msg);
  ("call_signal", case_call_signal client username msg);
  ("call_reject", case_call_end client username msg);
  ("call_end", case_call_end client username msg);
  ("call_invite", case_call_invite client username msg);
  ("remote_register", case_remote_register client username msg);
  ("remote_unregister", case_remote_unregister username);
  ("remote_lookup", case_remote_lookup client username msg);
  ("remote_offer", case_remote_relay client username msg);
  ("remote_answer", case_remote_relay client username msg);
  ("remote_ice", case_remote_relay client username msg);
  ("remote_input", case_remote_relay client username msg);
  ("remote_end", case_remote_relay client username msg);
  ("server_create", case_server_create client username msg);
  ("server_list", case_server_list client username);
  ("server_discover", case_server_discover client username);
  ("server_join", case_server_join client username msg);
  ("server_leave", case_server_leave client username msg);
  ("server_info", case_server_info client username msg);
  ("channel_create", case_channel_create client username msg);
  ("channel_msg", case_channel_msg client username msg);
  ("channel_history", case_channel_history client username msg);
  ("channel_react", case_channel_react username msg);
  ("channel_edit", case_channel_edit username msg);
  ("channel_delete", case_channel_delete username msg);
  ("channel_pin", case_channel_pin client username msg);
  ("purge_email", case_purge_email client username);
  ("settings_get", case_settings_get client username);
  ("settings_set", case_settings_set username msg);
  ("voice_join", case_voice_join client username msg);
  ("voice_leave", case_voice_leave username msg);
  ("voice_signal", case_voice_signal username msg);
  ("stream_start", case_stream_start username msg);
  ("stream_stop", case_stream_stop username);
  ("stream_list", case_stream_list client);
  ("stream_join", case_stream_join client username msg);
  ("stream_leave", case_stream_leave username msg);
  ("stream_signal", case_stream_signal username msg) ].

(** The messages that may change [username] or end the loop. *)
Definition loginCases : list (string * M next) := [
  ("auth", become (case_auth client ip username msg));
  ("session_auth", become (case_session_auth client ip username msg));
  ("qr_login_check", become (case_qr_login_check client ip username msg));
  ("delete_account",
    let* gone := case_delete_account client username msg in
    ret (if gone then Stop else Continue username)) ].

Definition caseOf {A} (l : list (string * A)) : option A :=
  snd <$> find_first (fun tc => tc.1 ==? mType msg) l.

(** [switch msg.Type]; an unknown type is only logged. *)
Definition switch : M next :=
  match caseOf loginCases with
  | Some m => m
  | None =>
      match caseOf plainCases with
      | Some m => stay m
      | None => ret (Continue username)
      end
  end.
End Switch.

(** ** Connections *)

(** The world, and the [username] of every loop that is running. *)
Record Machine := mkMachine {
  mWorld : World;
  mLoops : gmap nat string }.

(** An answer to the upgrade request, or the connection it became. *)
Inductive accepted := Refused (r : Response) | UpgradeFailed | Accepted (client : nat).

Definition connCount (ip : string) (s : NexusServer) : Z := default 0 (wsConnCount s !! ip).

Definition countIn (ip : string) (s : NexusServer) : NexusServer :=
  set_wsConnCount (<[ip := connCount ip s + 1]> (wsConnCount s)) s.

(** The deferred release of the slot. *)
Definition countOut (ip : string) (s : NexusServer) : NexusServer :=
  let n := connCount ip s - 1 in
  set_wsConnCount (if n <=? 0 then delete ip (wsConnCount s) else <[ip := n]> (wsConnCount s)) s.

(** [handleConnections] up to the message loop.  [upgraded] is the outcome of
    the WebSocket handshake once the origin is allowed; a new [*Client] gets a
    fresh address. *)
Definition admitConn (r : Request) (upgraded : bool) : M accepted :=
  let* e := getEnv in
  let ip := clientIP e r in
  let* blocked := isIPBlocked ip in
  if blocked then ret (Refused (http_Error "blocked" StatusForbidden))
  else
    let* s := getSrv in
    if 10 <=? connCount ip s then
      ret (Refused (http_Error "too many connections" StatusTooManyRequests))
    else
      modSrv (countIn ip) ;;;
      if negb (originAllowed e r && upgraded) then
        modSrv (countOut ip) ;;; ret UpgradeFailed
      else
        let* s := getSrv in
        let client := fresh (dom (Heap s)) in
        modSrv (fun s => set_Heap (<[client := newClient ip]> (Heap s)) s) ;;;
        ret (Accepted client).

(** The route [/ws] is behind [rateLimit] like the others. *)
Definition accept (r : Request) (upgraded : bool) : M accepted :=
  let* e := getEnv in
  let* ok := allowGlobal (clientIP e r) in
  if negb ok then ret (Refused (http_Error "rate limit exceeded" StatusTooManyRequests))
  else admitConn r upgraded.

(** A connection request: the loop starts with the cookie's user, if any. *)
Definition connect (r : Request) (upgraded : bool) (m : Machine) : accepted * Machine :=
  let '(a, w) := accept r upgraded (mWorld m) in
  match a with
  | Accepted client =>
      let '(u, w') := cookiePreAuth client (clientIP (wEnv w) r) (tokenFromRequest r) w in
      (a, mkMachine w' (<[client := u]> (mLoops m)))
  | _ => (a, mkMachine w (mLoops m))
  end.

(** [client.msgLimiter.Allow()] *)
Definition msgAllowed (client : nat) : M bool :=
  let* e := getEnv in
  let* now := getNow in
  let* k := getClient client in
  let '(ok, l) := Allow (rateAllow e) now (cmsgLimiter k) in
  modClient client (set_cmsgLimiter l) ;;;
  ret ok.

(** One iteration of the loop on a frame that decoded. *)
Definition iterate (client : nat) (username : string) (msg : NexusMessage) : M next :=
  let* ok := msgAllowed client in
  if negb ok then ret (Continue username)
  else
    addMetric (fun m => set_wsMessagesIn (u64_succ (wsMessagesIn m)) m) ;;;
    let* k := getClient client in
    switch client (cIP k) username msg.

(** What a failed read does before the loop returns. *)
Definition disconnect (client : nat) (username : string) : M unit :=
  if is_empty username then ret tt
  else
    let* remaining := removeClientLocked username client in
    dropCall client username ;;;
    when (remaining =? 0)
      (broadcastPresence username "Offline" ;;;
       voiceRoomEvictUser username ;;;
       streamEvictUser username).

(** The deferred calls of a returning loop: the socket closes, the slot is
    released. *)
Definition release (client : nat) : M unit :=
  let* k := getClient client in
  CloseConn client ;;;
  modSrv (countOut (cIP k)).

Definition receive (client : nat) (msg : NexusMessage) (m : Machine) : Machine :=
  match mLoops m !! client with
  | None => m
  | Some username =>
      let '(n, w) := iterate client username msg (mWorld m) in
      match n with
      | Continue u => mkMachine w (<[client := u]> (mLoops m))
      | Stop => mkMachine (release client w).2 (delete client (mLoops m))
      end
  end.

Definition hangup (client : nat) (m : Machine) : Machine :=
  match mLoops m !! client with
  | None => m
  | Some username =>
      mkMachine ((disconnect client username ;;; release client) (mWorld m)).2
                (delete client (mLoops m))
  end.

(** ** Everything at once *)

(** What runs beside the message loops: HTTP requests, the goroutines [main]
    starts, and the tools that open the same database. *)
Inductive task :=
| THTTP (r : Request) (b : Bodies)
| TSweepTracker
| TSweepUsedCodes
| TSweepRemoteCodes
| TSweepSessions
| TSweepResetTokens
| TSweepUnverified
| TSweepChannelMessages
| TSweepQRLogins
| TSweepStories
| TStatusProbe
| TRefreshTURN
| TSeedAdmin (a : SeedArgs)
| TGrantSupporter (username : string) (revoke : bool)
| TPeerGone (client : nat).          (* the peer's socket dies: writes fail *)

Definition runTask (t : task) : M unit :=
  match t with
  | THTTP r b => serve r b ;;; ret tt
  | TSweepTracker => let* now := getNow in modTracker (sweepAuthTracker now)
  | TSweepUsedCodes => sweepUsedCodes
  | TSweepRemoteCodes => sweepRemoteCodes
  | TSweepSessions => sweepExpiredSessions
  | TSweepResetTokens => sweepExpiredResetTokens
  | TSweepUnverified => sweepUnverifiedAccounts
  | TSweepChannelMessages => sweepOldChannelMessages
  | TSweepQRLogins => sweepExpiredQRLoginTokens
  | TSweepStories => storiesExpireSweeper
  | TStatusProbe => statusProbe
  | TRefreshTURN => backgroundRefresh
  | TSeedAdmin a => seedAdmin a ;;; ret tt
  | TGrantSupporter u revoke => grantSupporterTool u revoke ;;; ret tt
  | TPeerGone c => modClient c (set_cConnUp false)
  end.

Inductive step : Machine -> Machine -> Prop :=
| step_connect r up m : step m (connect r up m).2
| step_receive c msg m : step m (receive c msg m)
| step_hangup c m : step m (hangup c m)
| step_task t m : step m (mkMachine (runTask t (mWorld m)).2 (mLoops m))
| step_time now m : wNow (mWorld m) <= now -> step m (mkMachine (set_wNow now (mWorld m)) (mLoops m)).

(** A server that has just started: any database that satisfies the schema,
    nothing in memory but the addresses loaded from it. *)
Definition boot (w : World) : Prop :=
  db_wf (wDB w) /\ wSrv w = server0 /\ wOut w = [].

(** What [main] does with the tables before it listens. *)
Definition start : M unit :=
  initRoles ;;;
  loadBlockedIPs ;;;
  ensureGlobalSpace ;;;
  let* e := getEnv in
  let bot := getenv e "NOVA_USERNAME" in
  when (negb (is_empty bot)) (autoJoinPublicSpaces bot).

Inductive reachable : Machine -> Prop :=
| reach_boot w : boot w -> reachable (mkMachine (start w).2 ∅)
| reach_step m m' : reachable m -> step m m' -> reachable m'.

(** ** Every step keeps the database invariant *)

Lemma caseOf_in {A} msg (l : list (string * A)) x :
  caseOf msg l = Some x -> exists t, (t, x) ∈ l /\ t = mType msg.
Proof.
  unfold caseOf. destruct (find_first _ l) as [[t y]|] eqn:E; [|done]. intros [= <-].
  apply find_first_Some in E as [Hin Ht]. exists t. split; [done|]. by bools.
Qed.

Lemma caseOf_Forall {A} (P : A -> Prop) msg l x :
  Forall (fun tc => P tc.2) l -> caseOf msg l = Some x -> P x.
Proof.
  intros Hl (t & Hin & _)%caseOf_in. rewrite Forall_forall in Hl. exact (Hl _ Hin).
Qed.

Lemma safe_plainCases client ip username msg :
  Forall (fun tc => respects safe tc.2) (plainCases client ip username msg).
Proof. unfold plainCases. forall_list ltac:(cbn [snd]; solve [eauto 3 with frame]). Qed.

Lemma safe_loginCases client ip username msg :
  Forall (fun tc => respects safe tc.2) (loginCases client ip username msg).
Proof.
  unfold loginCases, become.
  forall_list ltac:(cbn [snd]; frame).
Qed.

Lemma safe_switch client ip username msg : respects safe (switch client ip username msg).
Proof.
  unfold switch. destruct (caseOf _ (loginCases _ _ _ _)) as [m|] eqn:E.
  { exact (caseOf_Forall _ _ _ _ (safe_loginCases _ _ _ _) E). }
  destruct (caseOf _ (plainCases _ _ _ _)) as [m|] eqn:E2; [|frame].
  unfold stay. frame. exact (caseOf_Forall _ _ _ _ (safe_plainCases _ _ _ _) E2).
Qed.
#[export] Hint Resolve safe_switch : frame.

Lemma safe_iterate client username msg : respects safe (iterate client username msg).
Proof. frame_deep. Qed.
Lemma safe_disconnect client username : respects safe (disconnect client username).
Proof. frame_deep. Qed.
Lemma safe_runTask t : respects safe (runTask t).
Proof. destruct t; frame_deep. Qed.

(** ** The cap on connections per address *)

(** How many of the connections [cs] come from [ip]. *)
Definition openFrom (ip : string) (ips : gmap nat string) (cs : gset nat) : Z :=
  Z.of_nat (size (filter (fun c => ips !! c = Some ip) cs)).

Definition ipsOf (s : NexusServer) : gmap nat string := cIP <$> Heap s.

Lemma openFrom_add ip ips cs c i :
  c ∉ cs -> ips !! c = Some i ->
  openFrom ip ips ({[ c ]} ∪ cs) = openFrom ip ips cs + (if i ==? ip then 1 else 0).
Proof.
  intros Hc Hi. unfold openFrom. rewrite filter_union_L by apply _.
  rewrite size_union by (apply disjoint_filter; set_solver). rewrite filter_singleton_L by apply _.
  case_decide; case_bool_decide; simplify_eq; try done;
    rewrite ?size_singleton, ?size_empty; lia.
Qed.

Lemma openFrom_remove ip ips cs c i :
  c ∈ cs -> ips !! c = Some i ->
  openFrom ip ips (cs ∖ {[ c ]}) = openFrom ip ips cs - (if i ==? ip then 1 else 0).
Proof.
  intros Hc Hi. assert (Hn : c ∉ cs ∖ {[ c ]}) by (rewrite elem_of_difference, elem_of_singleton; tauto).
  pose proof (openFrom_add ip ips _ c i Hn Hi) as H.
  rewrite <- union_difference_singleton_L in H by done. lia.
Qed.

Lemma openFrom_ext ip ips ips' cs :
  (forall c, c ∈ cs -> ips' !! c = ips !! c) -> openFrom ip ips' cs = openFrom ip ips cs.
Proof.
  intros H. unfold openFrom. do 2 f_equal. apply set_eq. intros c.
  rewrite !elem_of_filter. split; intros [H1 H2]; (split; [|done]); [rewrite <- H | rewrite H]; done.
Qed.

Lemma openFrom_nonneg ip ips cs : 0 <= openFrom ip ips cs.
Proof. unfold openFrom. lia. Qed.

Lemma connCount_countIn ip ip' s :
  connCount ip' (countIn ip s) = connCount ip' s + (if ip ==? ip' then 1 else 0).
Proof.
  unfold connCount, countIn. simpl. rewrite lookup_insert. case_decide; case_bool_decide; try done.
  - simpl. by subst.
  - lia.
Qed.

Lemma connCount_countOut ip ip' s :
  1 <= connCount ip s ->
  connCount ip' (countOut ip s) = connCount ip' s - (if ip ==? ip' then 1 else 0).
Proof.
  intros H. unfold countOut. destruct (_ <=? 0) eqn:E; bools;
    unfold connCount at 1; simpl; rewrite ?lookup_delete, ?lookup_insert;
    case_decide; case_bool_decide; subst; try done; simpl; fold (connCount ip' s); lia.
Qed.

(** What holds in every reachable state. *)
Record machine_ok (m : Machine) : Prop := mkOk {
  ok_wf : db_wf (wDB (mWorld m));
  ok_heap : dom (mLoops m) ⊆ dom (ipsOf (wSrv (mWorld m)));
  ok_count : forall ip, connCount ip (wSrv (mWorld m))
                        = openFrom ip (ipsOf (wSrv (mWorld m))) (dom (mLoops m));
  ok_cap : forall ip, connCount ip (wSrv (mWorld m)) <= 10 }.

Lemma connCount_core w w' ip :
  core w' = core w -> connCount ip (wSrv w') = connCount ip (wSrv w).
Proof. unfold core, connCount. by intros [= _ _ _ _ _ -> _]. Qed.
Lemma ipsOf_core w w' : core w' = core w -> ipsOf (wSrv w') = ipsOf (wSrv w).
Proof. unfold core, ipsOf. by intros [= _ _ _ _ _ _ ->]. Qed.

(** Any operation of the server, on the same set of loops. *)
Lemma machine_ok_safe {A} (op : M A) (w : World) (l l' : gmap nat string) :
  respects safe op -> dom l' = dom l -> machine_ok (mkMachine w l) ->
  machine_ok (mkMachine (op w).2 l').
Proof.
  intros Hop Hd [H1 H2 H3 H4]. simpl in *. pose proof (safe_core op w Hop) as Hc.
  constructor; simpl; rewrite ?Hd, ?(ipsOf_core _ _ Hc).
  - by apply safe_wf.
  - done.
  - intros ip. rewrite (connCount_core _ _ _ Hc). apply H3.
  - intros ip. rewrite (connCount_core _ _ _ Hc). apply H4.
Qed.

(** Taking and giving back a slot without a connection. *)
Lemma connCount_nonneg m ip : machine_ok m -> 0 <= connCount ip (wSrv (mWorld m)).
Proof. intros H. rewrite (ok_count _ H). apply openFrom_nonneg. Qed.

(** The world after [admitConn], by its outcome. *)
Lemma admitConn_cases r up w :
  exists ip, match admitConn r up w with
  | (Refused _, w') => w' = w
  | (UpgradeFailed, w') => w' = set_wSrv (countOut ip (countIn ip (wSrv w))) w
  | (Accepted c, w') =>
      ip = clientIP (wEnv w) r /\ connCount ip (wSrv w) < 10 /\ (c ∉ dom (Heap (wSrv w)))
      /\ w' = set_wSrv (set_Heap (<[c := newClient ip]> (Heap (wSrv w))) (countIn ip (wSrv w))) w
  end.
Proof.
  exists (clientIP (wEnv w) r). unfold admitConn, isIPBlocked. sqlrun.
  destruct (bool_decide _); [done|]. sqlrun. destruct (10 <=? _) eqn:E; [done|]. sqlrun.
  destruct (negb (_ && up)); sqlrun; [by destruct w|]. bools.
  split_and!; [done|done| |by destruct w]. apply is_fresh.
Qed.

(** Past the limiter. *)
Definition joinLoop (r : Request) (up : bool) (m : Machine) : accepted * Machine :=
  let '(a, w) := admitConn r up (mWorld m) in
  match a with
  | Accepted client =>
      let '(u, w') := cookiePreAuth client (clientIP (wEnv w) r) (tokenFromRequest r) w in
      (a, mkMachine w' (<[client := u]> (mLoops m)))
  | _ => (a, mkMachine w (mLoops m))
  end.

Lemma connect_limited r up m :
  let a := allowGlobal (clientIP (wEnv (mWorld m)) r) (mWorld m) in
  let m' := mkMachine a.2 (mLoops m) in
  (connect r up m).2 = if a.1 then (joinLoop r up m').2 else m'.
Proof.
  cbv zeta. unfold connect, joinLoop, accept. rewrite bind_run, getEnv_run. cbn [fst snd].
  rewrite bind_run. destruct (allowGlobal _ _) as [[] w]; cbn [fst snd negb mWorld mLoops]; [|done].
  by destruct (admitConn r up w) as [[rs| |c] w'].
Qed.

Lemma joinLoop_ok r up m : machine_ok m -> machine_ok (joinLoop r up m).2.
Proof.
  intros Hm. unfold joinLoop. destruct (admitConn_cases r up (mWorld m)) as [ip Ha].
  destruct (admitConn r up (mWorld m)) as [[rs| |c] w'].
  - subst. by destruct m.
  - subst. pose proof (connCount_nonneg _ ip Hm). destruct Hm as [H1 H2 H3 H4].
    assert (Hsame : forall ip', connCount ip' (countOut ip (countIn ip (wSrv (mWorld m))))
                           = connCount ip' (wSrv (mWorld m))).
    { intros ip'. rewrite connCount_countOut; rewrite !connCount_countIn; [lia|].
      rewrite eqb_refl_dec. lia. }
    assert (Hips : ipsOf (countOut ip (countIn ip (wSrv (mWorld m)))) = ipsOf (wSrv (mWorld m))) by done.
    constructor; simpl; rewrite ?Hips; try done; intros ip'; by rewrite Hsame.
  - destruct Ha as (Hip & Hlt & Hfresh & ->). simpl.
    destruct (cookiePreAuth _ _ _ _) as [u w'] eqn:E. simpl.
    replace w' with (cookiePreAuth c (clientIP (wEnv (mWorld m)) r) (tokenFromRequest r)
      (set_wSrv (set_Heap (<[c := newClient ip]> (Heap (wSrv (mWorld m))))
         (countIn ip (wSrv (mWorld m)))) (mWorld m))).2 by (simpl in E; by rewrite E).
    eapply machine_ok_safe; [eauto with frame | reflexivity |].
    destruct Hm as [H1 H2 H3 H4].
    assert (Hc : c ∉ dom (mLoops m)).
    { intros Hin. apply Hfresh. specialize (H2 c Hin). unfold ipsOf in H2. by rewrite dom_fmap in H2. }
    assert (Hips : ipsOf (set_Heap (<[c := newClient ip]> (Heap (wSrv (mWorld m))))
                            (countIn ip (wSrv (mWorld m))))
                   = <[c := ip]> (ipsOf (wSrv (mWorld m)))) 
      by (unfold ipsOf; simpl; by rewrite fmap_insert).
    constructor; cbn [mWorld mLoops wSrv wDB set_wSrv]; rewrite ?Hips, ?dom_insert_L; [done|by apply union_mono_l| |].
    + intros ip'. rewrite (openFrom_add _ _ _ c ip) by (done || apply lookup_insert_eq).
      rewrite (openFrom_ext ip' (ipsOf (wSrv (mWorld m)))), <- H3.
      * exact (connCount_countIn ip ip' (wSrv (mWorld m))).
      * intros c' Hc'. apply lookup_insert_ne. congruence.
    + intros ip'. change (connCount ip' (countIn ip (wSrv (mWorld m))) <= 10).
      rewrite connCount_countIn. case_bool_decide; subst; [lia | specialize (H4 ip'); lia].
Qed.

Lemma connect_ok r up m : machine_ok m -> machine_ok (connect r up m).2.
Proof.
  intros Hm. rewrite connect_limited.
  assert (H : machine_ok (mkMachine
    (allowGlobal (clientIP (wEnv (mWorld m)) r) (mWorld m)).2 (mLoops m))).
  { apply (machine_ok_safe _ _ (mLoops m)); [apply safe_allowGlobal | done | destruct m; exact Hm]. }
  destruct (allowGlobal _ _).1; [by apply joinLoop_ok | exact H].
Qed.

Lemma release_run c w k :
  Heap (wSrv w) !! c = Some k ->
  (release c w).2 = set_wSrv (countOut (cIP k) (wSrv (CloseConn c w).2)) (CloseConn c w).2.
Proof. intros E. unfold release, getClient, bind, gets. simpl. by rewrite E. Qed.

Lemma release_ok c w l :
  is_Some (l !! c) -> machine_ok (mkMachine w l) ->
  machine_ok (mkMachine (release c w).2 (delete c l)).
Proof.
  intros Hc Hm.
  assert (is_Some (Heap (wSrv w) !! c)) as [k E].
  { assert (Hi : c ∈ dom (ipsOf (wSrv w))) by (apply (ok_heap _ Hm); by apply elem_of_dom).
    unfold ipsOf in Hi. rewrite dom_fmap in Hi. by apply elem_of_dom. }
  rewrite (release_run c w k E).
  apply (machine_ok_safe (CloseConn c) w l l) in Hm; [|eauto with frame|done].
  set (w' := (CloseConn c w).2) in *.
  assert (Hk : ipsOf (wSrv w') !! c = Some (cIP k)).
  { rewrite (ipsOf_core w w') by apply safe_core, safe_CloseConn.
    unfold ipsOf. by rewrite lookup_fmap, E. }
  destruct Hm as [H1 H2 H3 H4]. cbn [mWorld mLoops] in *. clearbody w'.
  assert (Hin : c ∈ dom l) by by apply elem_of_dom.
  assert (Hpos : 1 <= connCount (cIP k) (wSrv w')).
  { rewrite H3. pose proof (openFrom_remove (cIP k) _ _ c _ Hin Hk) as Hr.
    rewrite eqb_refl_dec in Hr. pose proof (openFrom_nonneg (cIP k) (ipsOf (wSrv w')) (dom l ∖ {[c]})). lia. }
  constructor; cbn [mWorld mLoops]; [done | | |].
  - rewrite dom_delete_L. etransitivity; [apply subseteq_difference_l|]; [reflexivity | exact H2].
  - intros ip. rewrite dom_delete_L.
    change (ipsOf (countOut (cIP k) (wSrv w'))) with (ipsOf (wSrv w')).
    rewrite (openFrom_remove _ _ _ c _ Hin Hk), <- H3. by apply connCount_countOut.
  - intros ip. cbn [wSrv set_wSrv]. rewrite connCount_countOut by done. specialize (H4 ip). case_bool_decide; lia.
Qed.

Lemma receive_ok c msg m : machine_ok m -> machine_ok (receive c msg m).
Proof.
  intros Hm. unfold receive. destruct (mLoops m !! c) as [u|] eqn:El; [|done].
  destruct (iterate c u msg (mWorld m)) as [n w] eqn:E.
  replace w with (iterate c u msg (mWorld m)).2 by (by rewrite E).
  assert (Hm' : machine_ok (mkMachine (iterate c u msg (mWorld m)).2 (mLoops m))).
  { apply (machine_ok_safe _ _ (mLoops m)); [apply safe_iterate | done | destruct m; exact Hm]. }
  destruct n as [u'|].
  - apply (machine_ok_safe _ _ (mLoops m)); [apply safe_iterate | | destruct m; exact Hm].
    apply set_eq. intros x. rewrite dom_insert, elem_of_union, elem_of_singleton.
    split; [intros [->|?]; [|done]|by right]. apply elem_of_dom. eauto.
  - apply release_ok; [eauto | done].
Qed.

Lemma hangup_ok c m : machine_ok m -> machine_ok (hangup c m).
Proof.
  intros Hm. unfold hangup. destruct (mLoops m !! c) as [u|] eqn:El; [|done].
  rewrite bind_run. apply release_ok; [eauto|].
  apply (machine_ok_safe _ _ (mLoops m)); [apply safe_disconnect | done | destruct m; exact Hm].
Qed.

Lemma step_ok m m' : step m m' -> machine_ok m -> machine_ok m'.
Proof.
  intros [r up m1|c msg m1|c m1|t m1|now m1 Hle] Hm.
  - by apply connect_ok.
  - by apply receive_ok.
  - by apply hangup_ok.
  - apply (machine_ok_safe _ _ (mLoops m1)); [apply safe_runTask | done | destruct m1; exact Hm].
  - destruct Hm. by constructor.
Qed.

Lemma reachable_ok m : reachable m -> machine_ok m.
Proof.
  induction 1 as [w (Hwf & Hs & _)|m m' _ IH Hst]; [|by eapply step_ok].
  apply (machine_ok_safe _ _ ∅); [frame_deep | done |].
  constructor; simpl; [done | by rewrite dom_empty_L | |]; intros ip; rewrite Hs.
  - unfold openFrom. rewrite dom_empty_L, filter_empty_L, size_empty by apply _. done.
  - done.
Qed.
