(* ===== verification/DispatchSpec.v ===== *)
(** * What the message loop guarantees

    The theorems about [handleConnections] as a whole: the reachable states of
    the server, what an unauthenticated connection can do, how a connection
    acquires an identity, and whose name a frame carries. *)

From Stdlib Require Import ZArith Lia.
From stdpp Require Import base strings list gmap.
From S2P Require Import Prelude GoRt AuthTracker Netutil Store Wire Db World Wf Samples Registry.
From S2P Require Import Http Email Sessions Social Rewards Dm Convo Calls Spaces Whiteboard Rooms.
From S2P Require Import Accounts AuthCases AuthHttp Dispatch.

Open Scope string_scope.
Open Scope list_scope.
Open Scope Z_scope.

(** ** Reachable states *)

(** C5: the server's invariant.  In every state reachable from a boot on a
    well-formed database, by any interleaving of connections, frames, hang-ups,
    HTTP requests, sweepers and time, with any statement failing: the database
    satisfies every key of its schema, the counter of each address is exactly
    the number of its open connections, and it never exceeds ten. *)
Theorem reachable_invariant m :
  reachable m ->
  db_wf (wDB (mWorld m))
  /\ (forall ip, connCount ip (wSrv (mWorld m))
                 = openFrom ip (ipsOf (wSrv (mWorld m))) (dom (mLoops m)))
  /\ (forall ip, openFrom ip (ipsOf (wSrv (mWorld m))) (dom (mLoops m)) <= 10).
Proof.
  intros Hr. destruct (reachable_ok m Hr) as [H1 _ H3 H4]. split_and!; [done..|].
  intros ip. by rewrite <- H3.
Qed.

Definition bootW : World := mkW sampleDB server0 T0.
Definition getRequest (cookie : string) : Request :=
  mkRequest "GET" "/ws" "10.0.0.7:5000" (fun _ => "")
    (fun n => if n ==? sessionCookieName then cookie else "") (fun _ => "").

(** Alice connects with her cookie. *)
Definition aliceM : Machine :=
  (connect (getRequest "tok") true (mkMachine (start bootW).2 ∅)).2.

Lemma reachable_invariant_witness :
  mLoops aliceM !! 0%nat = Some "alice" /\ db_wf (wDB (mWorld aliceM)).
Proof.
  split; [vm_compute; reflexivity|].
  refine (proj1 (reachable_invariant aliceM _)).
  eapply reach_step; [|apply step_connect]. apply reach_boot.
  split; [exact sampleDB_wf | split; reflexivity].
Defined.

(** ** Column types *)

(** C21: what the columns hold.  SQLite keeps whatever it is given in an INTEGER
    or TEXT column; in every reachable state the flags are 0 or 1, every role
    is on the ladder that the admin handlers compare, and the status columns
    hold one of their words, so the comparisons [= 1], [<> 0] and [= 'pending']
    of the queries partition the rows. *)
Theorem columns_typed m :
  reachable m ->
  let d := wDB (mWorld m) in
  Forall (fun u => flag (u_is_verified u) && flag (u_phone_verified u) && flag (u_totp_enabled u)
                   && flag (u_is_admin u) && flag (u_is_banned u) && flag (u_supporter u)
                   && oneOf roleLadder (u_role u) = true) (rows (users d))
  /\ Forall (fun r => oneOf ["pending"; "accepted"] (f_status r) = true) (rows (friends d))
  /\ Forall (fun r => flag (st_revoked r) && flag (st_pending_device r) = true)
       (rows (session_tokens d))
  /\ Forall (fun r => flag (pr_used r) = true) (rows (password_resets d))
  /\ Forall (fun r => flag (qr_approved r) = true) (rows (qr_login_tokens d))
  /\ Forall (fun r => flag (dc_approved r) && flag (dc_consumed r) = true)
       (rows (device_challenges d))
  /\ Forall (fun r => flag (bc_used r) = true) (rows (totp_backup_codes d))
  /\ Forall (fun r => flag (cms_edited r) && flag (cms_deleted r) = true) (rows (channel_messages d))
  /\ Forall (fun r => oneOf ["image"; "video"] (sto_media_kind r) = true) (rows (stories d))
  /\ Forall (fun r => oneOf ["pending"; "resolved"] (ar_status r) = true) (rows (abuse_reports d))
  /\ Forall (fun r => oneOf ["pending"; "granted"; "dismissed"] (sq_status r) = true)
       (rows (supporter_requests d)).
Proof.
  intros Hr d. destruct (reachable_ok m Hr) as [Hwf _ _ _]. destruct Hwf. by split_and!.
Qed.

Lemma columns_typed_witness :
  mLoops aliceM !! 0%nat = Some "alice"
  /\ Forall (fun r => oneOf ["pending"; "accepted"] (f_status r) = true)
       (rows (friends (wDB (mWorld aliceM)))).
Proof.
  split; [vm_compute; reflexivity|].
  refine (proj1 (proj2 (columns_typed aliceM _))).
  eapply reach_step; [|apply step_connect]. apply reach_boot.
  split; [exact sampleDB_wf | split; reflexivity].
Defined.

(** ** Before signing in *)

(** Answering on one's own connection, and nothing else. *)
Definition to_self (client : nat) (e : Event) : Prop :=
  match e with EvSend c _ => c = client | _ => False end.

Definition only_answers (client : nat) : World -> World -> Prop :=
  both (same wDB) (both (same wSrv) (emits (to_self client))).

#[export] Instance only_answers_preorder client : PreOrder (only_answers client).
Proof. unfold only_answers. typeclasses eauto. Qed.
#[export] Instance fq_only_answers client : FreesSql (only_answers client).
Proof. intros w. split; [apply frees_sql|]. split; apply frees_sql. Qed.

Lemma only_answers_Send client m : respects (only_answers client) (Send_ client m).
Proof.
  intros w. split; [|split].
  - by apply respects_Send_; typeclasses eauto.
  - by apply respects_Send_; typeclasses eauto.
  - by apply emits_Send_.
Qed.
#[export] Hint Resolve only_answers_Send : frame.

(** The messages that are served without an identity. *)
Definition publicTypes : list string :=
  ["auth"; "session_auth"; "qr_login_check"; "pstn_call"; "register"; "verify_email";
   "status_update"; "request_phone_link"; "verify_phone_link"; "resend_verification";
   "forgot_password"; "reset_password"; "qr_login_create"; "link_create"; "link_check"].

(** With [username == ""] the guard of a case is true. *)
Ltac anon_step :=
  lazymatch goal with
  | |- respects ?R (if ?b then ?a else _) => unify b true; change (respects R a)
  end.

Ltac anon :=
  repeat (first [ anon_step | frame_step | solve [eauto 4 with frame]
                | progress (lazymatch goal with
                  | |- respects _ ?m => let h := head_of m in unfold h
                  end) ]).

Lemma anon_plainCases client ip msg :
  Forall (fun tc => tc.1 ∈ publicTypes \/ respects (only_answers client) tc.2)
    (plainCases client ip "" msg).
Proof.
  unfold plainCases. forall_list ltac:(cbn [fst snd]; first
    [ left; unfold publicTypes; solve [repeat (first [left; reflexivity | right])]
    | right; solve [anon] ]).
Qed.

(** C7: an unauthenticated connection cannot act.  While the loop's [username]
    is empty, a message of any type outside the fifteen public ones leaves the
    database, the registry, rooms, counters and every other in-memory structure
    untouched, sends nothing to any other connection, and does not sign in. *)
Theorem anonymous_inert client ip msg w :
  mType msg ∉ publicTypes ->
  let r := switch client ip "" msg w in
  r.1 = Continue "" /\ wDB r.2 = wDB w /\ wSrv r.2 = wSrv w
  /\ emits (to_self client) w r.2.
Proof.
  intros Hp r.
  assert (H : r.1 = Continue "" /\ only_answers client w r.2); [|destruct H as (? & ? & ? & ?); by split_and!].
  subst r. unfold switch.
  destruct (caseOf msg (loginCases client ip "" msg)) as [m|] eqn:E1.
  - apply caseOf_in in E1 as (t & Hin & Ht). unfold loginCases in Hin. subst t.
    repeat (apply elem_of_cons in Hin as [Hin|Hin];
      [injection Hin as Ht ->;
       first [ destruct Hp; rewrite Ht; unfold publicTypes;
               solve [repeat (first [left; reflexivity | right])]
             | split; [reflexivity|]; refine ((_ : respects (only_answers client) _) w); solve [anon] ] |]).
    by apply elem_of_nil in Hin.
  - destruct (caseOf msg (plainCases client ip "" msg)) as [m|] eqn:E2; [|by split].
    apply caseOf_in in E2 as (t & Hin & ->).
    pose proof (anon_plainCases client ip msg) as Ha. rewrite Forall_forall in Ha.
    specialize (Ha _ Hin). destruct Ha as [?|Ha]; [done|]. split; [done | apply (Ha w)].
Qed.

Lemma anonymous_inert_witness :
  let msg := nm "channel_delete" |> set_mChannelID "c" |> set_mMsgID "1" in
  (switch 1 "10.0.0.1" "" msg sampleW).1 = Continue ""
  /\ wDB (switch 1 "10.0.0.1" "" msg sampleW).2 = sampleDB.
Proof.
  intros msg. destruct (anonymous_inert 1 "10.0.0.1" msg sampleW) as (A & B & _); [|by split].
  apply (bool_decide_eq_false_1 _). vm_compute. reflexivity.
Defined.

(** ** Whose name a frame carries *)

(** A frame for another connection names [u] as its sender, or nobody. *)
Definition authentic (client : nat) (u : string) (e : Event) : Prop :=
  match e with
  | EvSend c m => c = client \/ mSender m = u \/ mSender m = ""
  | _ => True
  end.

Section Silent.
Context (R : World -> World -> Prop) `{HR : !PreOrder R, HQ : !FreesSql R, HD : !FreesDB R, HN : !FreesRand R}.

Lemma respects_syncCrates owner : respects R (syncCrates owner).
Proof using HR HQ HD.
  unfold syncCrates. frame. generalize 0. generalize l. clear l Heqo.
  intros cs. induction cs as [|c cs IH]; intros g; simpl; [frame|].
  unfold syncOne. frame; apply IH.
Qed.

Lemma respects_createServer s now : respects R (createServer s now).
Proof using HR HQ HD HN.
  unfold createServer. apply respects_TxBody; try typeclasses eauto. intros d.
  unfold createStep, channelStep, createStep. frame.
Qed.
End Silent.

#[local] Hint Resolve respects_syncCrates respects_createServer : frame.
#[local] Hint Extern 2 (respects (emits _) (emit _)) => apply emits_emit; exact I : frame.
#[local] Hint Extern 2 (respects (emits _) (Sleep _)) => apply emits_emit; exact I : frame.
#[local] Hint Extern 2 (respects (emits _) (CloseConn _)) => apply emits_CloseConn; exact I : frame.
#[local] Hint Extern 2 (respects (emits _) (Send _ _)) => apply emits_Send; cbn; auto; fail : frame.
#[local] Hint Extern 2 (respects (emits _) (Send_ _ _)) => apply emits_Send_; cbn; auto; fail : frame.
#[local] Hint Extern 2 (respects (emits _) (sendTo _ _)) => apply emits_sendTo; cbn; auto; fail : frame.
#[local] Hint Extern 2 (respects (emits _) (sendTo_ _ _)) => apply emits_sendTo_; cbn; auto; fail : frame.

(** The messages that give the connection a name, and those that end a call. *)
Definition signInTypes : list string := ["auth"; "session_auth"; "qr_login_check"].
Definition hangUpTypes : list string := ["call_end"; "call_reject"].

(** Whose name a frame [m] for another connection [c] carries, when [msg] is
    handled for [u] in [w] and the loop goes on as [v]. *)
Inductive voiced (u : string) (msg : NexusMessage) (w : World) (v : next) (c : nat) (m : NexusMessage) : Prop :=
| voiced_own : mSender m = u -> voiced u msg w v c m
| voiced_nobody : mSender m = "" -> voiced u msg w v c m
| voiced_new : mType msg ∈ signInTypes -> v = Continue (mSender m) -> voiced u msg w v c m
| voiced_verified : mType msg = "verify_email" -> mSender m = mSender msg ->
    (verifyUser (mSender msg) (mBody msg) w).1 = true -> voiced u msg w v c m
| voiced_elsewhere : mType msg = "call_answer" -> c ∈ connsOf (wSrv w) u ->
    mType m = "call_end" -> mSender m = mRecipient msg -> voiced u msg w v c m
| voiced_relayed : mType msg ∈ hangUpTypes -> m = msg -> voiced u msg w v c m
| voiced_logged : mType msg ∈ hangUpTypes -> mType m = "call_log" ->
    mSender m = mRecipient msg -> mRecipient m = u -> voiced u msg w v c m.

Definition heard (client : nat) (u : string) (msg : NexusMessage) (w : World) (v : next) (e : Event) : Prop :=
  match e with EvSend c m => c = client \/ voiced u msg w v c m | _ => True end.

Lemma emits_mono (P Q : Event -> Prop) w w' : (forall e, P e -> Q e) -> emits P w w' -> emits Q w w'.
Proof. intros H (l & E & Hl). exists l. split; [done|]. by eapply Forall_impl. Qed.

Lemma authentic_heard client u msg w v e : authentic client u e -> heard client u msg w v e.
Proof.
  destruct e as [c m| | | | |]; try done. intros [H|[H|H]]; [by left|right..].
  - by apply voiced_own.
  - by apply voiced_nobody.
Qed.

(** A sign-in speaks in the name it returns. *)
Definition speaks (client : nat) (u : string) (m : M string) : Prop := forall w,
  emits (fun e => authentic client u e \/ authentic client (m w).1 e) w (m w).2.

Section Speaks.
Context (client : nat) (u : string).

Lemma speaks_bind {A} (m : M A) k :
  respects (emits (authentic client u)) m -> (forall a, speaks client u (k a)) -> speaks client u (bind m k).
Proof using Type.
  intros Hm Hk w. rewrite bind_run. specialize (Hm w). specialize (Hk (m w).1 (m w).2).
  etransitivity; [|exact Hk]. eapply emits_mono; [|exact Hm]. intros e H. by left.
Qed.

Lemma speaks_old m : respects (emits (authentic client u)) m -> speaks client u m.
Proof using Type. intros Hm w. eapply emits_mono; [|exact (Hm w)]. intros e H. by left. Qed.

Lemma speaks_new v m :
  (forall w, (m w).1 = v) -> respects (emits (authentic client v)) m -> speaks client u m.
Proof using Type. intros Hv Hm w. rewrite Hv. eapply emits_mono; [|exact (Hm w)]. intros e H. by right. Qed.
End Speaks.

Lemma speaks_authAccept client ip u msg v : speaks client u (authAccept client ip msg v).
Proof. apply (speaks_new _ _ v); [intros ?; reflexivity|]. frame_deep. Qed.
Lemma speaks_sessionAccept client ip u msg v : speaks client u (sessionAccept client ip msg v).
Proof. apply (speaks_new _ _ v); [intros ?; reflexivity|]. frame_deep. Qed.

#[local] Ltac speak :=
  repeat lazymatch goal with
    | |- speaks _ _ (authAccept _ _ _ _) => apply speaks_authAccept
    | |- speaks _ _ (sessionAccept _ _ _ _) => apply speaks_sessionAccept
    | |- speaks _ _ (bind _ _) => apply speaks_bind; [solve [frame_deep] | intros ?]
    | |- speaks _ _ (if ?b then _ else _) => destruct b
    | |- speaks _ _ (match ?x with _ => _ end) => destruct x
    | |- speaks _ _ _ => apply speaks_old; solve [frame_deep]
    end.

Lemma speaks_case_auth client ip u msg : speaks client u (case_auth client ip u msg).
Proof. unfold case_auth, authSecond. cbv zeta. speak. Qed.
Lemma speaks_case_session_auth client ip u msg : speaks client u (case_session_auth client ip u msg).
Proof. unfold case_session_auth. speak. Qed.
Lemma speaks_case_qr_login_check client ip u msg : speaks client u (case_qr_login_check client ip u msg).
Proof.
  unfold case_qr_login_check. speak.
  lazymatch goal with |- speaks _ _ (announcePresence ?v ;;; _)%go => apply (speaks_new _ _ v) end;
    [intros ?; reflexivity | frame_deep].
Qed.


Lemma heard_sign_in client u msg m w :
  mType msg ∈ signInTypes -> speaks client u m ->
  emits (heard client u msg w (become m w).1) w (become m w).2.
Proof.
  intros Ht Hm. specialize (Hm w). unfold become. rewrite bind_run, ret_run. cbn [fst snd].
  eapply emits_mono; [|exact Hm]. intros e [H|H]; [by apply authentic_heard|].
  destruct e as [c f| | | | |]; try done. destruct H as [H|[H|H]]; [by left|right..].
  - apply voiced_new; [done | by rewrite H].
  - by apply voiced_nobody.
Qed.

Lemma heard_verify_email client u msg w v :
  mType msg = "verify_email" ->
  emits (heard client u msg w v) w (case_verify_email client msg w).2.
Proof.
  intros Ht. unfold case_verify_email. rewrite bind_run.
  assert (H1 : emits (authentic client u) w (verifyUser (mSender msg) (mBody msg) w).2)
    by (refine ((_ : respects (emits (authentic client u)) _) w); frame_deep).
  destruct (verifyUser _ _ w) as [ok w1] eqn:E. cbn [fst snd] in *.
  etransitivity; [eapply emits_mono; [|exact H1]; intros e; apply authentic_heard|].
  eapply (emits_mono (fun e => authentic client u e \/ ok = true /\ authentic client (mSender msg) e)).
  { intros e [H|[-> H]]; [by apply authentic_heard|]. destruct e as [c f| | | | |]; try done.
    destruct H as [H|[H|H]]; [by left|right..]; [|by apply voiced_nobody].
    apply voiced_verified; [done | done | by rewrite E]. }
  destruct ok.
  - eapply emits_mono; [intros e H; right; split; [done | exact H]|].
    refine ((_ : respects (emits (authentic client (mSender msg))) _) w1). frame_deep.
  - eapply emits_mono; [intros e H; left; exact H|].
    refine ((_ : respects (emits (authentic client u)) _) w1). frame_deep.
Qed.

(** The connections of each user stay as they are while a call is answered. *)
Definition regs (w : World) := Clients (wSrv w).
#[local] Instance fo_regs : FreesOut (same regs). Proof. by intros ??. Qed.

Lemma regs_takeCall u caller : respects (same regs) (takeCall u caller).
Proof. unfold takeCall. frame; by intros w. Qed.

Lemma emits_takeCall P u caller : respects (emits P) (takeCall u caller).
Proof. unfold takeCall. frame. Qed.

Lemma heard_call_answer client u msg w v :
  mType msg = "call_answer" -> emits (heard client u msg w v) w (case_call_answer client u msg w).2.
Proof.
  intros Ht. unfold case_call_answer. destruct (is_empty u); [reflexivity|].
  set (P := heard client u msg w v).
  assert (HS : forall c f, c = client \/ mSender f = u \/ mSender f = "" -> respects (emits P) (Send_ c f)).
  { intros c f H. apply emits_Send_. exact (authentic_heard client u msg w v (EvSend c f) H). }
  rewrite bind_run. set (caller := (pendingCallerLocked _ w).1).
  change (pendingCallerLocked (mRecipient msg) w).2 with w. rewrite bind_run.
  pose proof (regs_takeCall u caller w) as E2. pose proof (emits_takeCall P u caller w) as H2.
  destruct (takeCall u caller w) as [[roomID rtc] w2]. cbn [fst snd] in *. rewrite bind_run.
  etransitivity; [exact H2|]. set (w3 := (modClient _ _ w2).2).
  assert (E3 : connsOf (wSrv w3) u = connsOf (wSrv w) u).
  { unfold connsOf. change (Clients (wSrv w3)) with (regs w2). unfold same in E2. by rewrite E2. }
  assert (H3 : emits P w2 w3) by (apply (respects_modClient (emits P)); typeclasses eauto).
  etransitivity; [exact H3|]. rewrite bind_run. unfold clientsOf. rewrite gets_run. cbn [fst snd].
  rewrite E3. clearbody w3.
  refine ((_ : respects (emits P) _) w3).
  apply respects_bind; [typeclasses eauto | | intros _].
  - frame; apply HS; cbn; auto.
  - apply respects_forM_in; [typeclasses eauto|]. intros c [_ Hc]%elem_of_boolfilter.
    apply emits_Send_. right. by apply voiced_elsewhere.
Qed.

(** The log line of a call names its two parties. *)
Definition partyLog (u v : string) (m : NexusMessage) : Prop :=
  mType m = "call_log" /\ (mSender m = u \/ mSender m = v /\ mRecipient m = u).

Lemma closePending_log c a b w : let m := (closePending c a b w).1 in
  mType m = "call_log" /\ mSender m = a /\ mRecipient m = b.
Proof.
  cbv zeta. unfold closePending. rewrite bind_run. destruct (getClient c w) as [k w1]. cbn [fst snd].
  rewrite bind_run. destruct (finalizeCall _ _ _ w1) as [[[kind ans] d] w2]. cbn [fst snd].
  by rewrite bind_run, ret_run.
Qed.

Lemma rowHolder_parties client u v p w c a b :
  (rowHolder client u v p w).1 = Some (c, a, b) -> a = u \/ a = v /\ b = u.
Proof.
  unfold rowHolder. rewrite bind_run. destruct (getClient client w) as [k w1]. cbn [fst snd].
  destruct (negb _); [intros [= _ <- _]; by left|]. destruct p as [p|]; [|done].
  rewrite bind_run. destruct (getClient p w1) as [kp w2]. cbn [fst snd]. rewrite ret_run. cbn [fst].
  destruct (negb _); [|done]. intros [= _ <- <-]. by right.
Qed.

Lemma heard_call_end client u msg w v :
  mType msg ∈ hangUpTypes -> emits (heard client u msg w v) w (case_call_end client u msg w).2.
Proof.
  intros Ht. unfold case_call_end. destruct (is_empty u); [reflexivity|].
  set (P := heard client u msg w v).
  assert (HS : forall c, respects (emits P) (Send_ c msg)).
  { intros c. apply emits_Send_. right. by apply voiced_relayed. }
  assert (HL : forall m t, partyLog u (mRecipient msg) m -> respects (emits P) (sendTo_ t m)).
  { intros m t [H1 H2]. apply emits_sendTo_. intros c. right. destruct H2 as [H2|[H2 H3]].
    - by apply voiced_own.
    - by apply voiced_logged. }
  refine ((_ : respects (emits P) _) w).
  apply respects_bind; [typeclasses eauto | frame | intros p1].
  apply respects_bind; [typeclasses eauto | frame | intros peer].
  intros w1. rewrite bind_run.
  assert (H1 : emits P w1 (rowHolder client u (mRecipient msg) peer w1).2)
    by (refine ((_ : respects (emits P) _) w1); unfold rowHolder; frame).
  pose proof (rowHolder_parties client u (mRecipient msg) peer w1) as Hp.
  destruct (rowHolder _ _ _ _ w1) as [holder w2]. cbn [fst snd] in *. etransitivity; [exact H1|].
  rewrite bind_run. clear H1 w1.
  match goal with |- context [(?m w2).2] => set (close := m) end.
  assert (H2 : emits P w2 (close w2).2
               /\ forall m, (close w2).1 = Some m -> partyLog u (mRecipient msg) m).
  { subst close. destruct holder as [[[c a] b]|]; [|by split].
    rewrite bind_run. pose proof (closePending_log c a b w2) as HC.
    assert (H2 : emits P w2 (closePending c a b w2).2)
      by (refine ((_ : respects (emits P) _) w2); unfold closePending, finalizeCall; frame).
    destruct (closePending c a b w2) as [m w3]. cbn [fst snd] in *. split; [exact H2|].
    intros m' [= <-]. destruct HC as (E1 & E2 & E3). split; [done|]. rewrite E2, E3. by eapply Hp. }
  destruct H2 as [H2 Hlog]. destruct (close w2) as [logMsg w3]. cbn [fst snd] in *.
  etransitivity; [exact H2|]. refine ((_ : respects (emits P) _) w3). clear -HS HL Hlog.
  apply respects_bind; [typeclasses eauto | unfold leaveCall; frame | intros _].
  apply respects_bind; [typeclasses eauto | unfold leaveCall; frame | intros _].
  apply respects_bind; [typeclasses eauto | destruct peer; [apply HS | frame] | intros _].
  destruct logMsg as [m|]; [|frame]. specialize (Hlog m eq_refl).
  apply respects_bind; [typeclasses eauto | by apply HL | intros _; by apply HL].
Qed.

(** Every other message speaks in the name of its connection only. *)
Lemma heard_plainCases client ip u msg w v :
  Forall (fun tc => tc.1 = mType msg -> emits (heard client u msg w v) w (tc.2 w).2)
    (plainCases client ip u msg).
Proof.
  unfold plainCases. forall_list ltac:(cbn [fst snd]; intros Ht;
    lazymatch goal with |- emits _ _ (?m _).2 =>
      lazymatch m with
      | context [case_verify_email] => by apply heard_verify_email
      | context [case_call_answer] => by apply heard_call_answer
      | context [case_call_end] =>
          apply heard_call_end; rewrite <- Ht; unfold hangUpTypes; solve [left | right; left]
      | _ => eapply emits_mono; [intros e; apply authentic_heard|];
             refine ((_ : respects (emits (authentic client u)) m) w); solve [frame_deep]
      end end).
Qed.

(** C6: nobody speaks for another user, but for one relay.  For every message,
    of any type, and every state: each frame that its handling sends to a
    connection other than the speaker's own carries as its sender the
    connection's authenticated name, or none, whatever the client wrote in the
    [sender] field, except that
    - a sign-in speaks in the name it has just given the connection;
    - [verify_email] names the account whose code it held;
    - [call_answer] tells the speaker's own other connections, in the name of
      the caller, that the call was answered elsewhere;
    - the log line after [call_end] or [call_reject] names one of the two
      parties of the call; and
    - [call_end] and [call_reject] themselves are passed on as the client wrote
      them, sender and all: [call_end_forged] below. *)
Theorem sender_authentic client ip username msg w :
  let r := switch client ip username msg w in
  emits (heard client username msg w r.1) w r.2.
Proof.
  cbv zeta. unfold switch.
  destruct (caseOf msg (loginCases client ip username msg)) as [m|] eqn:E1.
  - apply caseOf_in in E1 as (t & Hin & Ht). unfold loginCases in Hin. subst t.
    repeat (apply elem_of_cons in Hin as [Hin|Hin]; [injection Hin as Ht ->|]);
      [| | | |by apply elem_of_nil in Hin].
    + apply heard_sign_in; [rewrite Ht; left | apply speaks_case_auth].
    + apply heard_sign_in; [rewrite Ht; right; left | apply speaks_case_session_auth].
    + apply heard_sign_in; [rewrite Ht; right; right; left | apply speaks_case_qr_login_check].
    + eapply emits_mono; [intros e; apply authentic_heard|].
      match goal with |- emits _ _ (?m w).2 =>
        refine ((_ : respects (emits (authentic client username)) m) w) end. frame_deep.
  - destruct (caseOf msg (plainCases client ip username msg)) as [m|] eqn:E2; [|reflexivity].
    unfold stay. rewrite bind_run, ret_run. cbn [fst snd].
    apply caseOf_in in E2 as (t & Hin & Ht). subst t.
    pose proof (heard_plainCases client ip username msg w (Continue username)) as Ha.
    rewrite Forall_forall in Ha. exact (Ha _ Hin eq_refl).
Qed.

(** Alice writes to Bob as Carol; Bob reads Alice. *)
Example alice_is_alice :
  let msg := nm "msg" |> set_mSender "carol" |> set_mRecipient "bob" |> set_mBody "hi" in
  exists m, EvSend 2 m ∈ wOut (switch 1 "10.0.0.1" "alice" msg sampleW).2 /\ mSender m = "alice".
Proof. eexists. split; [vm_compute; left | reflexivity]. Qed.

(** Carol is connected too, and Bob is ringing Alice. *)
Definition carolServer : NexusServer :=
  sampleServer
    |> set_Clients {[ "alice" := [1%nat]; "bob" := [2%nat]; "carol" := [3%nat] ]}
    |> set_Heap {[ 1%nat := set_cUsername "alice" (newClient "10.0.0.1");
                   2%nat := set_cUsername "bob" (newClient "10.0.0.2");
                   3%nat := set_cUsername "carol" (newClient "10.0.0.3") ]}.
Definition ringingW : World :=
  (case_call_offer 2 "bob" (nm "call_offer" |> set_mRecipient "alice") (mkW sampleDB carolServer T0)).2.

(** [call_end] and [call_reject] are an exception to the authoritative
    sender.  Carol, who is neither a friend of Bob nor in his call, ends the
    call Bob is placing to Alice: the frame Bob receives carries the sender
    Carol wrote, Alice, and the row of the call is closed. *)
Theorem call_end_forged :
  exists w msg w', sql_ok w /\ db_wf (wDB w)
    /\ areFriendsIn "carol" "bob" (wDB w) = false
    /\ w' = (switch 3 "10.0.0.3" "carol" msg w).2
    /\ (exists m, EvSend 2 m ∈ wOut w' /\ mType m = "call_end" /\ mSender m = "alice")
    /\ (cPendingCallID <$> Heap (wSrv w) !! 2%nat) = Some 1
    /\ (cPendingCallID <$> Heap (wSrv w') !! 2%nat) = Some 0.
Proof.
  exists ringingW, (nm "call_end" |> set_mSender "alice" |> set_mRecipient "bob").
  eexists. split; [by intros n|]. split; [apply wf_check_sound; vm_compute; reflexivity|].
  split; [vm_compute; reflexivity|]. split; [reflexivity|].
  split; [|split; vm_compute; reflexivity].
  eexists. split; [vm_compute; right; left | split; reflexivity].
Qed.

(** ** How a connection gets its name *)

(** Some verified row of [u] accepts the password. *)
Definition passwordOK (e : Env) (u pw : string) (d : Database) : Prop :=
  exists r, r ∈ rows (users d) /\ u_username r = u /\ u_is_verified r = 1
    /\ (bcryptCompare e (u_password_hash r) (sha256sum e pw) = true
        \/ bcryptCompare e (u_password_hash r) pw = true).

Definition notBanned (u : string) (d : Database) : Prop :=
  forall r, r ∈ rows (users d) -> u_username r = u -> u_is_banned r <> 1.

(** The second factor: none enrolled, a valid code that was not used before,
    or an unused backup code. *)
Definition factorOK (e : Env) (now : Z) (used : gmap string Z) (u code : string) (d : Database) : Prop :=
  (forall r, userIn u d = Some r -> u_totp_enabled r <> 1 \/ u_totp_secret r = "")
  \/ (exists r, userIn u d = Some r /\ totpValidate e code (u_totp_secret r) now = true
        /\ used !! (u +:+ ":" +:+ code) = None)
  \/ (exists b, b ∈ rows (totp_backup_codes d)
        /\ liveCode u (codeHash e (stripDashes code)) b = true).

(** What a message must hold to sign its connection in as a user. *)
Inductive credential (msg : NexusMessage) (w : World) : string -> Prop :=
| by_password :
    mType msg = "auth" -> mBody msg <> "" ->
    passwordOK (wEnv w) (mSender msg) (mBody msg) (wDB w) ->
    notBanned (mSender msg) (wDB w) ->
    factorOK (wEnv w) (wNow w) (totpUsedCodes (wSrv w)) (mSender msg) (mTOTPCode msg) (wDB w) ->
    credential msg w (mSender msg)
| by_session r :
    mType msg = "session_auth" -> r ∈ rows (session_tokens (wDB w)) ->
    grants (mQRToken msg) (wNow w) r -> notBanned (st_username r) (wDB w) ->
    credential msg w (st_username r)
| by_qr r :
    mType msg = "qr_login_check" -> r ∈ rows (qr_login_tokens (wDB w)) ->
    qr_token r = mQRToken msg -> qr_approved r = 1 -> wNow w <= qr_expires_at r ->
    credential msg w (qr_username r).

Lemma authError_result client username e st w : (authError client username e st w).1 = username.
Proof. reflexivity. Qed.

(** Throttle questions only touch the tracker. *)
Lemma askTracker_run {A} (f : authFailTracker -> A * authFailTracker) w :
  askTracker f w = ((f (authTracker (wSrv w))).1,
                    set_wSrv (set_authTracker (f (authTracker (wSrv w))).2 (wSrv w)) w).
Proof. reflexivity. Qed.

(** The parts of the world a credential is checked against. *)
Definition evidence (w : World) := (wDB w, totpUsedCodes (wSrv w), ctx w).

Lemma authenticateUser_run u pw w :
  sql_ok w ->
  exists ok w', authenticateUser u pw w = (ok, w') /\ sql_ok w' /\ wNow w' = wNow w
    /\ wEnv w' = wEnv w /\ wSrv w' = wSrv w
    /\ (wDB w' = wDB w \/ exists h, wDB w' = onUser u (set_u_password_hash h) (wDB w))
    /\ (ok = true -> passwordOK (wEnv w) u pw (wDB w)).
Proof.
  intros Hok. unfold authenticateUser. sqlrun. destruct (userIn u (wDB w)) as [r|] eqn:E; sqlrun.
  2: { eexists _, _. split; [reflexivity|]. split_and!; try done; try sqlside; by left. }
  destruct (negb (u_is_verified r =? 1)) eqn:Ev; sqlrun.
  { eexists _, _. split; [reflexivity|]. split_and!; try done; try sqlside; by left. }
  apply find_first_Some in E as [Hr E]. bools.
  destruct (bcryptCompare _ _ (sha256sum _ pw)) eqn:E1; sqlrun.
  { eexists _, _. split; [reflexivity|]. split_and!; try done; try sqlside.
    intros _. exists r. split_and!; auto. }
  destruct (bcryptCompare _ _ pw) eqn:E2; sqlrun.
  2: { eexists _, _. split; [reflexivity|]. split_and!; try done; try sqlside; by left. }
  assert (passwordOK (wEnv w) u pw (wDB w)) by (exists r; split_and!; auto).
  destruct (bcryptGenerate _ _) as [h|]; sqlrun;
    (eexists _, _; split; [reflexivity|]; split_and!; try done; try sqlside; eauto).
Qed.

(** Rehashing a password changes nothing a later check looks at. *)
Lemma notBanned_rehash u h v d :
  notBanned v (onUser u (set_u_password_hash h) d) -> notBanned v d.
Proof.
  intros H r Hr Hv. set (r' := if u_username r ==? u then set_u_password_hash h r else r).
  replace (u_is_banned r) with (u_is_banned r') by (subst r'; by destruct (_ ==? u)).
  apply H; [|subst r'; by destruct (_ ==? u)].
  apply elem_of_tupdate. by exists r.
Qed.

Lemma userIn_rehash u h v d :
  userIn v (onUser u (set_u_password_hash h) d)
  = (fun r => if u_username r ==? u then set_u_password_hash h r else r) <$> userIn v d.
Proof. apply tfirst_tupdate. done. Qed.

Lemma factorOK_rehash e now used u h v code d :
  factorOK e now used v code (onUser u (set_u_password_hash h) d) -> factorOK e now used v code d.
Proof.
  unfold factorOK. rewrite userIn_rehash. intros [H|[(r & H1 & H2)|H]].
  - left. intros r Hr. rewrite Hr in H. specialize (H _ eq_refl).
    by destruct (u_username r ==? u).
  - right. left. destruct (userIn v d) as [r0|]; [|done]. injection H1 as <-.
    exists r0. split; [done|]. by destruct (u_username r0 ==? u).
  - by right; right.
Qed.

Lemma userBanInfo_run u w :
  sql_ok w -> db_wf (wDB w) ->
  exists b reason, userBanInfo u w = ((b, reason), tickSql w)
    /\ (b = false -> notBanned u (wDB w)).
Proof.
  intros Hok Hwf. unfold userBanInfo. sqlrun. destruct (userIn u (wDB w)) as [r|] eqn:E.
  - eexists _, _. split; [reflexivity|]. intros Hb r' Hr' Hu'.
    apply find_first_Some in E as [Hr E]. bools.
    assert (r' = r) as -> by (apply (unique_eq u_username (users (wDB w))); [apply Hwf|..]; congruence).
    done.
  - eexists _, _. split; [reflexivity|]. intros _ r' Hr' Hu'.
    assert (H : find_first (fun r => u_username r ==? u) (rows (users (wDB w))) = None) by exact E.
    rewrite find_first_None in H. specialize (H r' Hr'). bools. done.
Qed.

Lemma secondFactor_run u code w :
  sql_ok w -> (secondFactor u code w).1 = true ->
  factorOK (wEnv w) (wNow w) (totpUsedCodes (wSrv w)) u code (wDB w).
Proof.
  intros Hok. unfold secondFactor, orM, verifyTOTP, totpStatus. sqlrun.
  assert (Hb : forall w1, sql_ok w1 -> wDB w1 = wDB w -> wEnv w1 = wEnv w ->
    (consumeBackupCode u code w1).1 = true ->
    factorOK (wEnv w) (wNow w) (totpUsedCodes (wSrv w)) u code (wDB w)).
  { intros w1 H1 H2 H3. unfold consumeBackupCode. sqlrun. rewrite H2, H3, tcount_pos.
    intros (b & Hb1 & Hb2)%texists_true. right. right. by exists b. }
  destruct (userIn u (wDB w)) as [r|] eqn:E; sqlrun.
  2: { intros _. left. intros r Hr. congruence. }
  destruct (u_totp_enabled r =? 1) eqn:E1; cbn [negb orb]; sqlrun.
  2: { intros _. left. intros r' Hr'. rewrite E in Hr'. injection Hr' as <-. bools. by left. }
  destruct (is_empty (u_totp_secret r)) eqn:E2; sqlrun.
  { intros _. left. intros r' Hr'. rewrite E in Hr'. injection Hr' as <-. right.
    unfold is_empty in E2. by bools. }
  destruct (totpValidate _ _ _ _) eqn:E3; cbn [negb]; sqlrun.
  2: { apply Hb; [sqlside | done | done]. }
  unfold loadOrStoreCode. sqlrun.
  destruct (totpUsedCodes (wSrv w) !! _) eqn:E4; cbn [negb]; sqlrun.
  { apply Hb; [sqlside | done | done]. }
  intros _. right. left. by exists r.
Qed.

(** After the password: a new name means no ban and a second factor. *)
Lemma authSecond_result client ip username msg u w :
  sql_ok w -> db_wf (wDB w) ->
  let v := (authSecond client ip username msg u w).1 in
  v = username
  \/ v = u /\ notBanned u (wDB w)
     /\ factorOK (wEnv w) (wNow w) (totpUsedCodes (wSrv w)) u (mTOTPCode msg) (wDB w).
Proof.
  intros Hok Hwf. cbv zeta. unfold authSecond. rewrite bind_run.
  destruct (userBanInfo_run u w Hok Hwf) as (b & reason & -> & Hb). cbn [fst snd].
  destruct b; [by left|]. specialize (Hb eq_refl).
  rewrite bind_run, getNow_run. cbn [fst snd]. rewrite bind_run, askTracker_run. cbn [fst snd].
  destruct (isTOTPThrottled _ _ _).1; [by left|]. rewrite bind_run.
  set (w1 := set_wSrv _ _). pose proof (secondFactor_run u (mTOTPCode msg) w1 Hok) as Hf.
  destruct (secondFactor u (mTOTPCode msg) w1) as [[] w2]; cbn [fst snd negb] in *; [|by left].
  right. split_and!; [reflexivity | done | by apply Hf].
Qed.

Lemma case_auth_result client ip username msg w :
  mType msg = "auth" -> sql_ok w -> db_wf (wDB w) ->
  let v := (case_auth client ip username msg w).1 in v = username \/ credential msg w v.
Proof.
  intros Ht Hok Hwf. cbv zeta. unfold case_auth.
  destruct (is_empty (mBody msg)) eqn:Eb; [by left|]. unfold is_empty in Eb. bools.
  unfold throttledIP. rewrite !bind_run, getNow_run. cbn [fst snd]. rewrite askTracker_run. cbn [fst snd].
  destruct (isIPThrottled _ _ _).1; [by left|].
  rewrite bind_run, getNow_run. cbn [fst snd]. rewrite bind_run, askTracker_run. cbn [fst snd].
  destruct (isUserLocked _ _ _).1; [by left|]. rewrite bind_run. set (w1 := set_wSrv _ _).
  destruct (authenticateUser_run (mSender msg) (mBody msg) w1 Hok)
    as (ok & w2 & -> & Hok2 & En & Ee & Es & Ed & Hpw). cbn [fst snd].
  destruct ok; cbn [negb]; [|by left]. specialize (Hpw eq_refl).
  assert (Hwf2 : db_wf (wDB w2)).
  { destruct Ed as [-> | [h ->]]; [done|]. revert Hwf. change (wDB w1) with (wDB w).
    generalize (wDB w). unfold onUser. wf_step. }
  destruct (authSecond_result client ip username msg (mSender msg) w2 Hok2 Hwf2)
    as [H|(-> & Hb & Hf)]; [by left|]. right. apply by_password; try done.
  - destruct Ed as [E | [h E]]; rewrite E in Hb; [done | by eapply notBanned_rehash].
  - rewrite Ee, En, Es in Hf.
    destruct Ed as [E | [h E]]; rewrite E in Hf; [done | by eapply factorOK_rehash].
Qed.

Lemma case_session_auth_result client ip username msg w :
  mType msg = "session_auth" -> sql_ok w -> db_wf (wDB w) ->
  let v := (case_session_auth client ip username msg w).1 in v = username \/ credential msg w v.
Proof.
  intros Ht Hok Hwf. cbv zeta. unfold case_session_auth, throttledIP.
  rewrite !bind_run, getNow_run. cbn [fst snd]. rewrite askTracker_run. cbn [fst snd].
  destruct (isIPThrottled _ _ _).1; [by left|]. rewrite bind_run. set (w1 := set_wSrv _ _).
  destruct (sessionUsername_grants (mQRToken msg) w1) as [E|(r & Hr & Hg & ->)].
  { rewrite E. by left. }
  cbn [fst snd]. destruct (is_empty (st_username r)); [by left|].
  rewrite !bind_run. cbn [fst snd].
  set (w2 := (noteSuccess _ _ _).2).
  destruct (userBanInfo_run (st_username r) w2) as (b & reason & -> & Hb); [sqlside | done|].
  cbn [fst snd]. destruct b; [by left|]. right. apply by_session; try done. by apply Hb.
Qed.

Lemma case_qr_login_check_result client ip username msg w :
  mType msg = "qr_login_check" -> sql_ok w ->
  let v := (case_qr_login_check client ip username msg w).1 in v = username \/ credential msg w v.
Proof.
  intros Ht Hok. cbv zeta. unfold case_qr_login_check, throttledIP.
  rewrite !bind_run, getNow_run. cbn [fst snd]. rewrite askTracker_run. cbn [fst snd].
  destruct (isIPThrottled _ _ _).1; [by left|]. rewrite bind_run. set (w1 := set_wSrv _ _).
  assert (Hok1 : sql_ok w1) by exact Hok.
  unfold checkQRLogin. sqlrun.
  destruct (tfirst _ _) as [r|] eqn:E; sqlrun; [|by left]. apply tfirst_Some in E as [Hr E].
  destruct (_ <? _) eqn:E2; sqlrun; [by left|].
  destruct (qr_approved r =? 1) eqn:E3; cbn [negb]; [|by left].
  right. bools. by apply by_qr.
Qed.

(** C1: an identity is earned.  When handling a message changes the name a
    connection acts under, the message held a credential for the new name,
    checked against the database before it: for [auth] the password of a
    verified, unbanned account together with its second factor (a fresh
    authenticator code or an unused backup code when one is enrolled); for
    [session_auth] a live, unheld session token of an unbanned account; for
    [qr_login_check] a code some session of that account approved.  No other
    message type changes the name. *)
Theorem identity_earned client ip username msg w u :
  sql_ok w -> db_wf (wDB w) ->
  (switch client ip username msg w).1 = Continue u ->
  u = username \/ credential msg w u.
Proof.
  intros Hok Hwf. unfold switch.
  destruct (caseOf msg (loginCases client ip username msg)) as [m|] eqn:E1.
  - apply caseOf_in in E1 as (t & Hin & Ht). unfold loginCases in Hin. subst t.
    repeat (apply elem_of_cons in Hin as [Hin|Hin]; [injection Hin as Ht ->|]);
      [| | | |by apply elem_of_nil in Hin].
    + intros [= <-]. by apply case_auth_result.
    + intros [= <-]. by apply case_session_auth_result.
    + intros [= <-]. by apply case_qr_login_check_result.
    + rewrite bind_run, ret_run. cbn [fst].
      destruct (case_delete_account client username msg w).1; [done|]. intros [= ->]. by left.
  - destruct (caseOf msg (plainCases client ip username msg)) as [m|] eqn:E2; intros [= <-]; by left.
Qed.

(** Bob signs in with his password; the wrong one leaves him nameless. *)
Definition authMsg (pw : string) : NexusMessage := nm "auth" |> set_mSender "bob" |> set_mBody pw.

Lemma identity_earned_witness :
  (switch 2 "10.0.0.2" "" (authMsg "wrong") sampleW).1 = Continue ""
  /\ (switch 2 "10.0.0.2" "" (authMsg "password1") sampleW).1 = Continue "bob"
  /\ credential (authMsg "password1") sampleW "bob".
Proof.
  assert (E : (switch 2 "10.0.0.2" "" (authMsg "password1") sampleW).1 = Continue "bob")
    by (vm_compute; reflexivity).
  split; [vm_compute; reflexivity|]. split; [exact E|].
  destruct (identity_earned 2 "10.0.0.2" "" (authMsg "password1") sampleW "bob"
              sampleW_ok sampleDB_wf E) as [H|H]; [discriminate H | exact H].
Defined.
