(* ===== verification/StandingSpec.v ===== *)
(** * Standing: who may use which message

    Most messages act on something shared: a friendship, a group, a space, a
    whiteboard, a room, a call.  For each, [standing] says what the sender
    must be to it.  Without standing a message is inert. *)

From Stdlib Require Import ZArith Lia.
From stdpp Require Import base strings list gmap.
From S2P Require Import Prelude GoRt Store Wire Db World Wf Samples Registry Social Dm Convo Calls.
From S2P Require Import Spaces Whiteboard Rooms Dispatch DispatchSpec.

Open Scope string_scope.
Open Scope list_scope.
Open Scope Z_scope.

(** ** Being refused *)

(** The server's memory without its message counters. *)
Definition memory (s : NexusServer) : NexusServer := set_metrics (mkMetrics 0 0 0 0 0 0 0) s.

(** At most an answer to oneself: nothing else is written or sent. *)
Definition powerless (client : nat) : World -> World -> Prop :=
  both (same wDB) (both (same (fun w => memory (wSrv w))) (emits (to_self client))).

#[export] Instance powerless_preorder client : PreOrder (powerless client).
Proof. unfold powerless. typeclasses eauto. Qed.
#[export] Instance fq_powerless client : FreesSql (powerless client).
Proof. intros w. split; [apply frees_sql|]. split; [reflexivity | apply frees_sql]. Qed.

Lemma powerless_Send client m : respects (powerless client) (Send_ client m).
Proof.
  intros w. split; [|split].
  - by apply respects_Send_; typeclasses eauto.
  - unfold same. f_equal. by apply (respects_Send_ (same wSrv)); typeclasses eauto.
  - by apply emits_Send_.
Qed.
Lemma powerless_addMetric client f : respects (powerless client) (addMetric f).
Proof.
  intros w. split; [reflexivity|]. split; [reflexivity|]. apply (frees_srv (R := emits _)).
Qed.
#[export] Hint Resolve powerless_Send powerless_addMetric : frame.

(** A world reached by reading only. *)
Lemma powerless_read client w w' :
  wDB w' = wDB w -> wSrv w' = wSrv w -> wOut w' = wOut w -> powerless client w w'.
Proof.
  intros H1 H2 H3. split; [done|]. split; [unfold same; by rewrite H2|].
  exists []. by rewrite H3, app_nil_r.
Qed.

Lemma powerless_after client w w' {A} (m : M A) :
  wDB w' = wDB w -> wSrv w' = wSrv w -> wOut w' = wOut w -> respects (powerless client) m ->
  powerless client w (m w').2.
Proof. intros H1 H2 H3 Hm. etransitivity; [by apply powerless_read | apply Hm]. Qed.

(** Once the guard has said no. *)
Ltac refused :=
  cbn [negb andb orb fst snd]; try rewrite ret_run;
  first [ apply powerless_read; reflexivity
        | apply powerless_after; [reflexivity | reflexivity | reflexivity | solve [frame_deep]] ].

(** The checks every handler starts with. *)
Ltac guards :=
  repeat match goal with
  | |- powerless _ _ ((if ?b then ret tt else _) _).2 => destruct b; [refused|]
  end.

(** ** The rules *)

Section Rules.
Context (client : nat) (u : string) (msg : NexusMessage) (w : World).

Definition friendOf : bool := areFriendsIn u (mRecipient msg) (wDB w).
Definition inConvo : bool := memberIn (mConvoID msg) u (wDB w).
Definition ledConvo : bool := bool_decide (creatorOf (mConvoID msg) (wDB w) = Some u).
Definition inSpaceOf (server : option string) : bool :=
  match server with Some s => serverMemberIn s u (wDB w) | None => false end.
Definition roleIn (server : string) : string := default "" (serverRoleIn server u (wDB w)).
Definition siteRank : Z :=
  roleRank (match userRow u (wDB w) with
            | None => "user"
            | Some r => if is_empty (u_role r) then "user" else u_role r
            end).

(** The message a channel request names, with its server. *)
Definition target : option ChannelMessage :=
  match ParseInt (mMsgID msg) with Some id => messageRow id (wDB w) | None => None end.
Definition homeOf (r : ChannelMessage) : string := default "" (channelServer (cms_channel_id r) (wDB w)).
Definition onTarget (p : ChannelMessage -> bool) : bool :=
  match target with Some r => p r | None => false end.

(** The board a request names, if the sender is in its space. *)
Definition board : option string :=
  match tfirst (fun c => ch_id c ==? mChannelID msg) (channels (wDB w)) with
  | Some c => if (ch_kind c ==? "whiteboard") && serverMemberIn (ch_server_id c) u (wDB w)
              then Some (ch_server_id c) else None
  | None => None
  end.

Definition inRoom (x : string) : bool := bool_decide (x ∈ roomMembers (mChannelID msg) (wSrv w)).

(** Message type and standing. *)
Definition standing : list (string * bool) := [
  ("typing", friendOf);
  ("read_receipt", friendOf);
  ("key_request", friendOf);
  ("call_offer", friendOf);
  ("call_invite", friendOf);
  ("convo_msg", inConvo);
  ("convo_history", inConvo);
  ("convo_leave", inConvo);
  ("convo_add_member", inConvo);
  ("convo_remove_member", ledConvo);
  ("convo_rename", ledConvo);
  ("server_info", serverMemberIn (mServerID msg) u (wDB w));
  ("channel_create", isAdminRole (roleIn (mServerID msg)));
  ("channel_msg", inSpaceOf (channelServer (mChannelID msg) (wDB w)));
  ("channel_history", inSpaceOf (channelServer (mChannelID msg) (wDB w)));
  ("channel_react", inSpaceOf (channelServer (mChannelID msg) (wDB w)));
  ("channel_edit", onTarget (fun r => cms_sender r ==? u));
  ("channel_delete", onTarget (fun r => (cms_sender r ==? u) || isAdminRole (roleIn (homeOf r))
                                        || (1 <=? siteRank)));
  ("channel_pin", onTarget (fun r => serverMemberIn (homeOf r) u (wDB w)
                                     && isAdminRole (roleIn (homeOf r))));
  ("wb_join", bool_decide (is_Some board));
  ("wb_stroke", bool_decide (is_Some board));
  ("wb_undo", bool_decide (is_Some board));
  ("wb_clear", match board with Some s => isAdminRole (roleIn s) | None => false end);
  ("voice_signal", inRoom u && inRoom (mRecipient msg));
  ("stream_signal", watches u (mRecipient msg) (wSrv w) || watches (mRecipient msg) u (wSrv w)) ].
End Rules.

Section Refusals.
Context (client : nat) (u : string) (msg : NexusMessage) (w : World) (Hok : sql_ok w).

Lemma areFriends_run a b w' :
  sql_ok w' -> areFriends a b w' = (areFriendsIn a b (wDB w'), tickSql w').
Proof using Type. intros H. unfold areFriends. sqlrun. by rewrite tcount_pos. Qed.

Lemma isConvoMember_run id a w' :
  sql_ok w' -> isConvoMember id a w' = (memberIn id a (wDB w'), tickSql w').
Proof using Type. intros H. unfold isConvoMember. sqlrun. by destruct (memberIn _ _ _). Qed.

Lemma userIsServerMember_run s a w' :
  sql_ok w' -> userIsServerMember s a w' = (serverMemberIn s a (wDB w'), tickSql w').
Proof using Type. intros H. unfold userIsServerMember. sqlrun. by destruct (serverMemberIn _ _ _). Qed.

Lemma userServerRole_run s a w' :
  sql_ok w' -> userServerRole s a w' = (default "" (serverRoleIn s a (wDB w')), tickSql w').
Proof using Type. intros H. unfold userServerRole. by sqlrun. Qed.

Lemma conversationMembers_run id w' :
  sql_ok w' -> conversationMembers id w' = (membersOf id (wDB w'), tickSql w').
Proof using Type. intros H. unfold conversationMembers. by sqlrun. Qed.

Lemma inb_membersOf id a d : inb a (membersOf id d) = memberIn id a d.
Proof using Type.
  apply eq_true_iff_eq. unfold inb, memberIn. rewrite existsb_exists, texists_true.
  unfold isMemberRow. split.
  - intros (x & Hx & E). bools. subst x. apply list_elem_of_In, list_elem_of_fmap in Hx as (r & -> & Hr).
    apply elem_of_tselect in Hr as [Hr1 Hr2]. exists r. by rewrite Hr1, eqb_refl_dec.
  - intros (r & Hr & E). bools. exists a. rewrite eqb_refl_dec. split; [|done].
    apply list_elem_of_In, list_elem_of_fmap. exists r. split; [done|].
    apply elem_of_tselect. split; [by apply bool_decide_eq_true | done].
Qed.

Ltac friendly := rewrite bind_run, areFriends_run by exact Hok; cbn [fst snd].

Lemma no_typing : friendOf u msg w = false -> powerless client w (case_typing u msg w).2.
Proof using Hok.
  unfold friendOf, case_typing. intros E. guards. friendly. rewrite E. refused.
Qed.
Lemma no_read_receipt : friendOf u msg w = false -> powerless client w (case_read_receipt u msg w).2.
Proof using Hok.
  unfold friendOf, case_read_receipt. intros E. guards. friendly. rewrite E. refused.
Qed.
Lemma no_key_request : friendOf u msg w = false -> powerless client w (case_key_request u msg w).2.
Proof using Hok.
  unfold friendOf, case_key_request. intros E. guards. friendly. rewrite E. refused.
Qed.
Lemma no_call_offer : friendOf u msg w = false -> powerless client w (case_call_offer client u msg w).2.
Proof using Hok.
  unfold friendOf, case_call_offer. intros E. guards. friendly. rewrite E. refused.
Qed.
Lemma no_call_invite : friendOf u msg w = false -> powerless client w (case_call_invite client u msg w).2.
Proof using Hok.
  unfold friendOf, case_call_invite. intros E. guards. friendly. rewrite E. refused.
Qed.
Lemma no_convo_msg : inConvo u msg w = false -> powerless client w (case_convo_msg u msg w).2.
Proof using Hok.
  unfold inConvo, case_convo_msg. intros E. guards. rewrite bind_run.
  set (bump := addMetric _). transitivity (bump w).2; [apply powerless_addMetric|].
  set (w1 := (bump w).2).
  assert (Hok1 : sql_ok w1) by exact Hok.
  rewrite bind_run, conversationMembers_run by done. cbn [fst snd].
  rewrite inb_membersOf. change (wDB w1) with (wDB w). rewrite E. refused.
Qed.
Lemma no_convo_history :
  inConvo u msg w = false -> powerless client w (case_convo_history client u msg w).2.
Proof using Hok.
  unfold inConvo, case_convo_history. intros E. guards.
  rewrite bind_run, isConvoMember_run by exact Hok. cbn [fst snd]. rewrite E. refused.
Qed.
Lemma no_convo_leave : inConvo u msg w = false -> powerless client w (case_convo_leave u msg w).2.
Proof using Hok.
  unfold inConvo, case_convo_leave. intros E. guards.
  rewrite bind_run, isConvoMember_run by exact Hok. cbn [fst snd]. rewrite E. refused.
Qed.
Lemma no_convo_add_member :
  inConvo u msg w = false -> powerless client w (case_convo_add_member client u msg w).2.
Proof using Hok.
  unfold inConvo, case_convo_add_member. intros E. guards.
  rewrite bind_run, conversationMembers_run by exact Hok. cbn [fst snd].
  rewrite inb_membersOf, E. refused.
Qed.
Lemma no_convo_remove_member :
  ledConvo u msg w = false -> powerless client w (case_convo_remove_member client u msg w).2.
Proof using Hok.
  unfold ledConvo, case_convo_remove_member, conversationCreator. intros E. guards.
  destruct (_ ==? u); [refused|]. rewrite bind_run, ok_QueryRow by exact Hok. cbn [fst snd].
  rewrite E. refused.
Qed.
Lemma no_convo_rename :
  ledConvo u msg w = false -> powerless client w (case_convo_rename client u msg w).2.
Proof using Hok.
  unfold ledConvo, case_convo_rename, conversationCreator. intros E. guards. cbv zeta.
  destruct (_ || _); [refused|]. rewrite bind_run, ok_QueryRow by exact Hok. cbn [fst snd].
  rewrite E. refused.
Qed.

Lemma no_server_info :
  serverMemberIn (mServerID msg) u (wDB w) = false ->
  powerless client w (case_server_info client u msg w).2.
Proof using Hok.
  unfold case_server_info. intros E. guards.
  rewrite bind_run, userIsServerMember_run by exact Hok. cbn [fst snd]. rewrite E. refused.
Qed.
Lemma no_channel_create :
  isAdminRole (roleIn u w (mServerID msg)) = false ->
  powerless client w (case_channel_create client u msg w).2.
Proof using Hok.
  unfold case_channel_create, roleIn. intros E. guards.
  rewrite bind_run, userServerRole_run by exact Hok. cbn [fst snd]. rewrite E. refused.
Qed.

(** The check the channel messages share. *)
Ltac in_space E :=
  rewrite bind_run, ok_QueryRow by exact Hok; cbn [fst snd]; unfold inSpaceOf in E;
  destruct (channelServer _ _) as [s|]; [|refused];
  rewrite bind_run, userIsServerMember_run by sqlside; world_cbn; rewrite E; refused.

Lemma no_channel_msg :
  inSpaceOf u w (channelServer (mChannelID msg) (wDB w)) = false ->
  powerless client w (case_channel_msg client u msg w).2.
Proof using Hok. unfold case_channel_msg. intros E. guards. in_space E. Qed.
Lemma no_channel_history :
  inSpaceOf u w (channelServer (mChannelID msg) (wDB w)) = false ->
  powerless client w (case_channel_history client u msg w).2.
Proof using Hok. unfold case_channel_history. intros E. guards. in_space E. Qed.
Lemma no_channel_react :
  inSpaceOf u w (channelServer (mChannelID msg) (wDB w)) = false ->
  powerless client w (case_channel_react u msg w).2.
Proof using Hok. unfold case_channel_react. intros E. guards. in_space E. Qed.

(** Finding the message a request names. *)
Ltac on_target E :=
  unfold onTarget, target in E; destruct (ParseInt (mMsgID msg)) as [id|]; [|refused];
  rewrite bind_run, ok_QueryRow by exact Hok; cbn [fst snd];
  destruct (messageRow id (wDB w)) as [r|]; [|refused].

Lemma no_channel_edit :
  onTarget msg w (fun r => cms_sender r ==? u) = false ->
  powerless client w (case_channel_edit u msg w).2.
Proof using Hok. unfold case_channel_edit. intros E. guards. on_target E. rewrite E. refused. Qed.

Lemma no_channel_delete :
  onTarget msg w (fun r => (cms_sender r ==? u) || isAdminRole (roleIn u w (homeOf w r))
                           || (1 <=? siteRank u w)) = false ->
  powerless client w (case_channel_delete u msg w).2.
Proof using Hok.
  unfold case_channel_delete. intros E. guards. on_target E. unfold roleIn, homeOf, siteRank in E.
  rewrite bind_run, ok_ScanOr by sqlside. world_cbn.
  rewrite bind_run, userServerRole_run by sqlside. world_cbn.
  bools. unfold mayDelete. rewrite (eqb_neq_dec (cms_sender r) u) by done.
  match goal with H : isAdminRole _ = false |- _ => rewrite H end. cbn [orb].
  unfold roleAtLeast, userRole. rewrite !bind_run, ok_QueryRow by sqlside. world_cbn.
  rewrite !ret_run. cbn [fst snd]. change (roleRank "helper") with 1.
  destruct (userRow u (wDB w)) as [ur|]; cbn [fmap option_fmap option_map] in *;
    rewrite (proj2 (Z.leb_gt 1 _)) by done; refused.
Qed.

Lemma no_channel_pin :
  onTarget msg w (fun r => serverMemberIn (homeOf w r) u (wDB w)
                           && isAdminRole (roleIn u w (homeOf w r))) = false ->
  powerless client w (case_channel_pin client u msg w).2.
Proof using Hok.
  unfold case_channel_pin. intros E. guards. on_target E. unfold roleIn, homeOf in E.
  rewrite bind_run, ok_ScanOr by sqlside. world_cbn.
  rewrite bind_run, userIsServerMember_run by sqlside. world_cbn.
  destruct (serverMemberIn _ u _); [|refused]. cbn [negb]. cbn [andb] in E.
  rewrite bind_run, userServerRole_run by sqlside. world_cbn. rewrite E. refused.
Qed.

(** The board a whiteboard message names. *)
Lemma boardServer_run :
  exists n, boardServer u msg w = (board u msg w, set_wSqlTick n w).
Proof using Hok.
  unfold boardServer, board, channelIsWhiteboard, isServerMember. rewrite !bind_run.
  rewrite ok_QueryRow by exact Hok. cbn [fst snd]. rewrite ret_run. cbn [fst snd].
  destruct (tfirst _ _) as [c|]; [|by eexists].
  destruct (ch_kind c ==? "whiteboard"); [|by eexists]. cbn [negb andb].
  rewrite bind_run, userIsServerMember_run by sqlside. eexists. reflexivity.
Qed.

Lemma no_wb_join :
  bool_decide (is_Some (board u msg w)) = false -> powerless client w (case_wb_join client u msg w).2.
Proof using Hok.
  unfold case_wb_join. intros E. guards. rewrite bind_run. destruct boardServer_run as [n ->].
  destruct (board u msg w); [done|]. refused.
Qed.
Lemma no_wb_stroke :
  bool_decide (is_Some (board u msg w)) = false -> powerless client w (case_wb_stroke client u msg w).2.
Proof using Hok.
  unfold case_wb_stroke. intros E. guards. rewrite bind_run. destruct boardServer_run as [n ->].
  destruct (board u msg w); [done|]. refused.
Qed.
Lemma no_wb_undo :
  bool_decide (is_Some (board u msg w)) = false -> powerless client w (case_wb_undo u msg w).2.
Proof using Hok.
  unfold case_wb_undo. intros E. guards. rewrite bind_run. destruct boardServer_run as [n ->].
  destruct (board u msg w); [done|]. refused.
Qed.
Lemma no_wb_clear :
  match board u msg w with Some s => isAdminRole (roleIn u w s) | None => false end = false ->
  powerless client w (case_wb_clear client u msg w).2.
Proof using Hok.
  unfold case_wb_clear, roleIn. intros E. guards. rewrite bind_run. destruct boardServer_run as [n ->].
  destruct (board u msg w) as [s|]; [|refused]. cbn [fst snd].
  rewrite bind_run, userServerRole_run by (intros i; apply Hok). world_cbn. rewrite E. refused.
Qed.

Lemma no_voice_signal :
  inRoom msg w u && inRoom msg w (mRecipient msg) = false ->
  powerless client w (case_voice_signal u msg w).2.
Proof using Type.
  unfold case_voice_signal, inRoom, voiceRoomHas. intros E. guards. rewrite !bind_run, !gets_run.
  cbn [fst snd]. rewrite <- negb_andb, E. refused.
Qed.
Lemma no_stream_signal :
  watches u (mRecipient msg) (wSrv w) || watches (mRecipient msg) u (wSrv w) = false ->
  powerless client w (case_stream_signal u msg w).2.
Proof using Type.
  unfold case_stream_signal, streamAreParticipants. intros E. guards. rewrite bind_run, gets_run.
  cbn [fst snd]. rewrite E. refused.
Qed.
End Refusals.

(** ** The theorem *)

Lemma switch_plain client ip u msg t m w :
  mType msg = t ->
  caseOf msg (loginCases client ip u msg) = None ->
  caseOf msg (plainCases client ip u msg) = Some m ->
  (switch client ip u msg w).2 = (m w).2.
Proof. intros Ht E1 E2. unfold switch. rewrite E1, E2. reflexivity. Qed.

Ltac find_case Ht :=
  unfold caseOf; rewrite Ht; reflexivity.

(** C8: no standing, no effect.  For each of the twenty-five messages that act
    on something shared, when the sender is not what the message requires -
    a friend of the peer, a member or the creator of the group, a member or an
    administrator of the space the channel belongs to, the author of the
    message, in the room, watching the stream - handling it changes neither
    the database nor the server's memory and sends nothing to anybody but,
    at most, an error to the sender's own connection. *)
Theorem no_standing_no_effect client ip u msg w :
  sql_ok w -> caseOf msg (standing u msg w) = Some false ->
  powerless client w (switch client ip u msg w).2.
Proof.
  intros Hok (t & Hin & Ht)%caseOf_in. unfold standing in Hin. symmetry in Ht.
  repeat (apply elem_of_cons in Hin as [Hin|Hin];
    [injection Hin as -> E; symmetry in E;
     erewrite (switch_plain client ip u msg _ _ w Ht) by find_case Ht |]).
  all: try by apply elem_of_nil in Hin.
  all: eauto using no_typing, no_read_receipt, no_key_request, no_call_offer, no_call_invite,
    no_convo_msg, no_convo_history, no_convo_leave, no_convo_add_member, no_convo_remove_member,
    no_convo_rename, no_server_info, no_channel_create, no_channel_msg, no_channel_history,
    no_channel_react, no_channel_edit, no_channel_delete, no_channel_pin, no_wb_join, no_wb_stroke,
    no_wb_undo, no_wb_clear, no_voice_signal, no_stream_signal.
Qed.

(** Carol asks Bob, who is no friend of hers, for his key. *)
Lemma no_standing_no_effect_witness :
  let msg := nm "key_request" |> set_mRecipient "bob" in
  caseOf msg (standing "carol" msg sampleW) = Some false
  /\ wDB (switch 3 "10.0.0.3" "carol" msg sampleW).2 = sampleDB.
Proof.
  intros msg. assert (E : caseOf msg (standing "carol" msg sampleW) = Some false) by reflexivity.
  split; [exact E|].
  exact (proj1 (no_standing_no_effect 3 "10.0.0.3" "carol" msg sampleW sampleW_ok E)).
Defined.
