(* ===== verification/RoomsSpec.v ===== *)
(** * Leaving: what a lost connection takes with it

    When the last registration of a user goes, the user is in no voice room,
    hosts no stream and watches none; while another remains, nothing of theirs
    is disturbed - and two ways in which one remains, or is removed without
    this, are shown. *)

From Stdlib Require Import ZArith Lia.
From stdpp Require Import base strings list gmap.
From S2P Require Import Prelude GoRt Store Wire Db World Wf Samples Registry Social Calls Rooms.
From S2P Require Import Sessions Accounts AuthCases Dispatch DispatchSpec.

Open Scope string_scope.
Open Scope list_scope.
Open Scope Z_scope.

(** ** Rooms *)

Definition membersIn (c : string) (r : gmap string (gset string)) : gset string := default ∅ (r !! c).

Lemma membersIn_leave c cid u r :
  membersIn c (leaveRoom cid u r) = if decide (c = cid) then membersIn c r ∖ {[ u ]} else membersIn c r.
Proof.
  unfold membersIn, leaveRoom. destruct (r !! cid) as [room|] eqn:E.
  - case_bool_decide as He; case_decide as Hc; subst.
    + rewrite lookup_delete_eq, E. simpl. by rewrite He.
    + by rewrite lookup_delete_ne.
    + by rewrite lookup_insert_eq, E.
    + by rewrite lookup_insert_ne.
  - case_decide as Hc; subst; [|done]. rewrite E. simpl.
    apply set_eq. intros x. rewrite elem_of_difference, !elem_of_empty. tauto.
Qed.

Lemma membersIn_evict c u cs r :
  membersIn c (foldl (fun r cid => leaveRoom cid u r) r cs)
  = if decide (c ∈ cs) then membersIn c r ∖ {[ u ]} else membersIn c r.
Proof.
  revert r. induction cs as [|cid cs IH]; intros r; cbn [foldl].
  - done.
  - rewrite IH, membersIn_leave. destruct (decide (c = cid)) as [->|Hc], (decide (cid ∈ cs)) as [Hi|Hi];
      try (rewrite (decide_True (P := cid ∈ cid :: cs)) by left);
      repeat case_decide; try done.
    + apply set_eq. intros x. rewrite !elem_of_difference. tauto.
    + destruct H0. by right.
    + by apply elem_of_cons in H0 as [?|?].
    + destruct H0. by right.
    + by apply elem_of_cons in H0 as [?|?].
Qed.

Lemma elem_of_roomsOf u c r : c ∈ roomsOf u r <-> u ∈ membersIn c r.
Proof.
  unfold roomsOf, membersIn. rewrite list_elem_of_fmap. split.
  - intros ([c' room] & -> & Hin). apply elem_of_boolfilter in Hin as [Hu Hin]. simpl in *.
    apply elem_of_map_to_list in Hin. rewrite Hin. by bools.
  - intros Hu. destruct (r !! c) as [room|] eqn:E; [|by apply elem_of_empty in Hu].
    exists (c, room). split; [done|]. apply elem_of_boolfilter.
    split; [by apply bool_decide_eq_true | by apply elem_of_map_to_list].
Qed.

(** Evicting a user takes them, and no one else, out of every room. *)
Lemma evict_rooms u r c v :
  v ∈ membersIn c (foldl (fun r cid => leaveRoom cid u r) r (roomsOf u r))
  <-> v <> u /\ v ∈ membersIn c r.
Proof.
  rewrite membersIn_evict. case_decide as Hc.
  - rewrite elem_of_difference, elem_of_singleton. tauto.
  - rewrite elem_of_roomsOf in Hc. split; [|tauto]. intros Hv. split; [|done]. by intros ->.
Qed.

(** ** What sending and closing calls leave alone *)

Definition places (w : World) :=
  (VoiceRooms (wSrv w), Streams (wSrv w), Clients (wSrv w)).

#[export] Instance fo_places : FreesOut (same places). Proof. by intros ??. Qed.
#[export] Instance fq_places : FreesSql (same places). Proof. by intros ?. Qed.
#[export] Instance fd_places : FreesDB (same places). Proof. by intros ??. Qed.

Lemma places_modClient c f : respects (same places) (modClient c f).
Proof. by intros w. Qed.
#[export] Hint Resolve places_modClient : frame.

Lemma places_dropCall client u : respects (same places) (dropCall client u).
Proof. frame_deep. Qed.
Lemma places_broadcastPresence u st : respects (same places) (broadcastPresence u st).
Proof. frame_deep. Qed.
Lemma places_peers c : respects (same places) (voiceRoomBroadcastPeers c).
Proof. frame_deep. Qed.
Lemma places_streamList : respects (same places) streamBroadcastList.
Proof. frame_deep. Qed.
#[export] Hint Resolve places_dropCall places_broadcastPresence places_peers places_streamList : frame.

Lemma voiceRoomEvictUser_run u w :
  let w' := (voiceRoomEvictUser u w).2 in
  VoiceRooms (wSrv w') = foldl (fun r cid => leaveRoom cid u r) (VoiceRooms (wSrv w))
                           (roomsOf u (VoiceRooms (wSrv w)))
  /\ Streams (wSrv w') = Streams (wSrv w) /\ Clients (wSrv w') = Clients (wSrv w).
Proof.
  cbv zeta. unfold voiceRoomEvictUser. rewrite bind_run, getSrv_run. cbn [fst snd].
  rewrite bind_run. set (w1 := (modRooms _ w).2).
  assert (H : same places w1 (forM (roomsOf u (VoiceRooms (wSrv w))) voiceRoomBroadcastPeers w1).2).
  { refine ((_ : respects (same places) _) w1). frame. }
  unfold same, places in H.
  by apply pair_equal_spec in H as [[-> ->]%pair_equal_spec ->].
Qed.

Lemma streamEvictUser_run u w :
  let w' := (streamEvictUser u w).2 in
  Streams (wSrv w') = dropViewer u <$> delete u (Streams (wSrv w))
  /\ VoiceRooms (wSrv w') = VoiceRooms (wSrv w) /\ Clients (wSrv w') = Clients (wSrv w).
Proof.
  cbv zeta. unfold streamEvictUser. rewrite bind_run, getSrv_run. cbn [fst snd].
  rewrite bind_run. set (w1 := (modStreams _ w).2). set (m := (_ ;;; _)%go).
  assert (H : same places w1 (m w1).2).
  { refine ((_ : respects (same places) _) w1). subst m. frame. }
  unfold same, places in H.
  by apply pair_equal_spec in H as [[-> ->]%pair_equal_spec ->].
Qed.

(** ** The theorem *)

Definition nowhere (u : string) (s : NexusServer) : Prop :=
  (forall c, u ∉ membersIn c (VoiceRooms s)) /\ Streams s !! u = None
  /\ (forall h, watches h u s = false).

(** What [disconnect] does to the registry, the rooms and the streams. *)
Lemma disconnect_run client u w :
  u <> "" ->
  let s := wSrv w in
  let s' := wSrv (disconnect client u w).2 in
  (forall v, connsOf s' v = if decide (u = v) then remove_first client (connsOf s u) else connsOf s v)
  /\ if bool_decide (remove_first client (connsOf s u) = [])
     then nowhere u s'
          /\ forall c v, v <> u -> v ∈ membersIn c (VoiceRooms s') <-> v ∈ membersIn c (VoiceRooms s)
     else VoiceRooms s' = VoiceRooms s /\ Streams s' = Streams s.
Proof.
  intros Hu s s'. subst s s'. unfold disconnect, is_empty. rewrite (eqb_neq_dec u "" Hu). cbv iota.
  rewrite bind_run. destruct (removeClientLocked_spec u client w) as [Hn Hc].
  assert (Hr : VoiceRooms (wSrv (removeClientLocked u client w).2) = VoiceRooms (wSrv w)
    /\ Streams (wSrv (removeClientLocked u client w).2) = Streams (wSrv w)).
  { unfold removeClientLocked. rewrite bind_run, getSrv_run. cbn [fst snd].
    by case_bool_decide. }
  destruct Hr as [Hr1 Hr2]. rewrite Hn. set (w1 := (removeClientLocked u client w).2) in *.
  set (cs := remove_first client (connsOf (wSrv w) u)) in *.
  rewrite bind_run. pose proof (places_dropCall client u w1) as H. unfold same, places in H.
  set (w2 := (dropCall client u w1).2) in *. apply pair_equal_spec in H as [[A1 A2]%pair_equal_spec A3].
  replace (Z.of_nat (length cs) =? 0) with (bool_decide (cs = [])).
  2: { destruct cs; [done|]. case_bool_decide; [done|]. symmetry. apply Z.eqb_neq. simpl. lia. }
  case_bool_decide as Hcs; unfold when.
  2: { rewrite ret_run. cbn [snd]. split; [|by rewrite A1, A2, Hr1, Hr2].
       intros v. rewrite <- Hc. unfold connsOf. by rewrite A3. }
  rewrite !bind_run. pose proof (places_broadcastPresence u "Offline" w2) as H.
  unfold same, places in H. set (w3 := (broadcastPresence u "Offline" w2).2) in *. apply pair_equal_spec in H as [[B1 B2]%pair_equal_spec B3].
  destruct (voiceRoomEvictUser_run u w3) as (C1 & C2 & C3). set (w4 := (voiceRoomEvictUser u w3).2) in *.
  destruct (streamEvictUser_run u w4) as (D1 & D2 & D3). set (w5 := (streamEvictUser u w4).2) in *.
  assert (Hrooms : forall c v, v ∈ membersIn c (VoiceRooms (wSrv w5))
    <-> v <> u /\ v ∈ membersIn c (VoiceRooms (wSrv w))).
  { intros c v. rewrite D2, C1, evict_rooms, B1, A1, Hr1. done. }
  split_and!.
  - intros v. rewrite <- Hc. unfold connsOf. by rewrite D3, C3, B3, A3.
  - split; [|split].
    + intros c Hin. by apply Hrooms in Hin as [[] _].
    + by rewrite D1, lookup_fmap, lookup_delete_eq.
    + intros h. unfold watches. rewrite D1, lookup_fmap.
      destruct (delete u (Streams (wSrv w4)) !! h) as [st|]; simpl; [|done].
      apply bool_decide_eq_false. rewrite elem_of_difference, elem_of_singleton. tauto.
  - intros c v Hv. rewrite Hrooms. tauto.
Qed.


(** Bob hosts a stream and sits in a room with Alice; his only connection drops. *)
Definition busyW : World :=
  mkW sampleDB (sampleServer
    |> set_VoiceRooms {[ "lounge" := {[ "alice"; "bob" ]} ]}
    |> set_Streams {[ "bob" := mkStream "live" {[ "alice" ]}; "alice" := mkStream "mine" {[ "bob" ]} ]}) T0.


(** ** What stays behind *)

(** A connection registered twice, and no other: after it is lost the registry
    still lists it, and the user keeps every room and stream. *)
Theorem twice_registered_stays client u w :
  u <> "" -> connsOf (wSrv w) u = [client; client] ->
  let s' := wSrv (disconnect client u w).2 in
  connsOf s' u = [client] /\ VoiceRooms s' = VoiceRooms (wSrv w) /\ Streams s' = Streams (wSrv w).
Proof.
  intros Hu Hc. destruct (disconnect_run client u w Hu) as [H1 H2]. cbv zeta.
  assert (Hr : remove_first client [client; client] = [client]).
  { cbn [remove_first]. by rewrite eqb_refl_dec. }
  rewrite Hc, Hr in H2. rewrite H1, decide_True, Hc, Hr by done. done.
Qed.

(** Signing in once more on the same socket is such a registration: alice
    resumes her session on the connection she is signed in on, joins a room,
    and is listed and in the room when the connection is gone. *)
Definition againMsg : NexusMessage := nm "session_auth" |> set_mQRToken "tok".
Definition aliceInRoom : World :=
  mkW sampleDB (sampleServer |> set_VoiceRooms {[ "lounge" := {[ "alice" ]} ]}) T0.

Lemma reauth_leaves_ghost :
  let w := (case_session_auth 1 "10.0.0.1" "alice" againMsg aliceInRoom).2 in
  let w' := (disconnect 1 "alice" w).2 in
  connsOf (wSrv w) "alice" = [1; 1]%nat
  /\ connsOf (wSrv w') "alice" = [1%nat]
  /\ bool_decide ("alice" ∈ membersIn "lounge" (VoiceRooms (wSrv w'))) = true.
Proof. vm_compute. done. Qed.

(** A deleted account: the loop ends with the registrations gone at once, and
    the user still in every voice room and stream. *)
Definition homes (w : World) := (VoiceRooms (wSrv w), Streams (wSrv w)).

#[local] Instance fo_homes : FreesOut (same homes). Proof. by intros ??. Qed.
#[local] Instance fq_homes : FreesSql (same homes). Proof. by intros ?. Qed.
#[local] Instance fd_homes : FreesDB (same homes). Proof. by intros ??. Qed.

Lemma homes_modClient c f : respects (same homes) (modClient c f).
Proof. by intros w. Qed.
Lemma homes_delete u : respects (same homes) (modSrv (fun s => set_Clients (delete u (Clients s)) s)).
Proof. by intros w. Qed.
#[local] Hint Resolve homes_modClient homes_delete : frame.

Theorem deleted_account_stays client u msg w :
  let r := case_delete_account client u msg w in
  VoiceRooms (wSrv r.2) = VoiceRooms (wSrv w) /\ Streams (wSrv r.2) = Streams (wSrv w)
  /\ (r.1 = true -> connsOf (wSrv r.2) u = []).
Proof.
  cbv zeta. assert (H : respects (same homes) (case_delete_account client u msg)) by frame_deep.
  specialize (H w). unfold same, homes in H. apply pair_equal_spec in H as [H1 H2].
  split_and!; [done..|]. unfold case_delete_account. unfold is_empty.
  destruct (u ==? ""); [done|]. rewrite bind_run. set (m := if mBody msg ==? "" then _ else _). destruct (m w).1; [|done].
  cbn [negb]. rewrite bind_run. destruct (deleteAccount u _).1; [done|]. intros _.
  rewrite !bind_run. unfold connsOf. cbn. by rewrite lookup_delete_eq.
Qed.
