(* ===== verification/AccountSpec.v ===== *)
(** * What accounts promise

    A password reset is one-shot and locks every session out; erasing an
    account leaves nothing that names it where the erasure looks; recovery
    codes work exactly once in the form they are shown; a time-based code is
    not accepted twice. *)

From Stdlib Require Import ZArith Lia Ascii.
From stdpp Require Import base strings list gmap.
From S2P Require Import Prelude GoRt Store Wire Db World Wf Samples Registry Http Email Sessions.
From S2P Require Import Social Accounts.

Open Scope string_scope.
Open Scope list_scope.
Open Scope Z_scope.

(** ** Transactions, whatever fails *)

(** An error of a transaction leaves the database as it was; no error means
    every statement ran. *)
Lemma Tx_outcome ss w :
  match (Tx ss w).1 with
  | Some _ => wDB (Tx ss w).2 = wDB w
  | None => tx_pure ss (wDB w) = inr (wDB (Tx ss w).2)
  end.
Proof.
  unfold Tx. destruct (faulty w); [done|].
  destruct (tx_body ss (wDB w) (tickSql w)).1 as [e|d] eqn:E; simpl.
  - exact (respects_tx_body (same wDB) ss (wDB w) (tickSql w)).
  - by eapply tx_body_pure.
Qed.

(** Statements that cannot fail run in order. *)
Lemma tx_pure_total fs d :
  tx_pure ((fun (f : Database -> Database) d => inr (f d)) <$> fs) d = inr (foldl (fun d f => f d) d fs).
Proof. revert d. induction fs as [|f fs IH]; intros d; simpl; [done | apply IH]. Qed.

(** ** Looking an account up in the tables *)

(** No session of [u] can be looked up: none is live. *)
Definition locked_out (u : string) (d : Database) : Prop :=
  forall r, r ∈ rows (session_tokens d) -> st_username r = u -> st_revoked r <> 0.

Lemma locked_out_sessions u w tok :
  u <> "" -> locked_out u (wDB w) -> (sessionUsername tok w).1 <> u.
Proof.
  intros Hu Hl. rewrite sessionUsername_eq, sessionState_eq. destruct (is_empty tok); [by intros <-|].
  destruct (faulty w); simpl; [by intros <-|].
  destruct (tfirst _ _) as [r|] eqn:E; simpl; [|by intros <-].
  apply tfirst_Some in E as [Hr _]. specialize (Hl r Hr).
  destruct (st_revoked r =? 0) eqn:E0; bools; simpl; [|by intros <-].
  destruct (_ <? _); simpl; [by intros <-|]. destruct (negb _); [by intros <-|]. tauto.
Qed.

Lemma sessionsOf_tupdate e u v now d f :
  v <> u -> (forall r, st_username (f r) = st_username r) ->
  sessionsOf e v now (set_session_tokens (tupdate (fun r => st_username r ==? u) f (session_tokens d)) d)
  = sessionsOf e v now d.
Proof.
  intros Hne Hf. unfold sessionsOf. simpl. f_equal. apply tselect_tupdate_other.
  intros r E. bools. by rewrite Hf, E, (eqb_neq_dec u v) by done.
Qed.

Lemma userIn_onUser u v f d :
  (forall r, u_username (f r) = u_username r) ->
  userIn v (onUser u f d) = (if v ==? u then f <$> userIn v d else userIn v d).
Proof.
  intros Hf. unfold userIn, onUser. simpl. rewrite tfirst_tupdate by (intros r; by rewrite Hf).
  destruct (tfirst _ _) as [r|] eqn:E; simpl; [|by destruct (v ==? u)].
  apply tfirst_Some in E as [_ E]. bools. subst. by destruct (u_username r ==? u).
Qed.

(** ** Password resets *)

(** The state after the reset's transaction. *)
Definition resetDone (tok u h : string) (d : Database) : Database :=
  revokeAllOf u (useReset tok (onUser u (set_u_password_hash h) d)).

(** What a nil error of [consumePasswordReset] means. *)
Lemma consumePasswordReset_inv tok pw w :
  (consumePasswordReset tok pw w).1 = None ->
  exists r h, resetFor tok (wDB w) = Some r /\ pr_used r = 0 /\ wNow w <= pr_expires_at r
    /\ 8 <= len pw /\ hashPassword (wEnv w) pw = Some h
    /\ wDB (consumePasswordReset tok pw w).2 = resetDone tok (pr_username r) h (wDB w).
Proof.
  unfold consumePasswordReset. destruct (len pw <? 8) eqn:El; [done|]. bools.
  unfold bind, getNow, getEnv, gets, QueryRowE. cbn [fst snd].
  destruct (faulty w); [done|]. destruct (resetFor tok (wDB w)) as [r|]; [|done]. cbn [fst snd].
  change (wNow (tickSql w)) with (wNow w). change (wEnv (tickSql w)) with (wEnv w).
  destruct (pr_used r =? 0) eqn:Eu; [|done]. destruct (pr_expires_at r <? wNow w) eqn:Ee; [done|].
  cbn [negb orb]. destruct (hashPassword (wEnv w) pw) as [h|]; [|done]. bools.
  pose proof (Tx_outcome (resetTx tok (pr_username r) h) (tickSql w)) as HT.
  unfold ret. cbn [fst snd]. destruct (Tx _ _).1; [done|]. intros _.
  exists r, h. split_and!; try done.
  change (tx_pure _ _) with (@inr sqlerr _ (resetDone tok (pr_username r) h (wDB w))) in HT. congruence.
Qed.

Lemma consumePasswordReset_error tok pw w e :
  (consumePasswordReset tok pw w).1 = Some e ->
  wDB (consumePasswordReset tok pw w).2 = wDB w.
Proof.
  unfold consumePasswordReset. destruct (len pw <? 8); [done|].
  unfold bind, getNow, getEnv, gets, QueryRowE. cbn [fst snd].
  destruct (faulty w); [done|]. destruct (resetFor tok (wDB w)) as [r|]; [|done]. cbn [fst snd].
  destruct (_ || _); [done|]. destruct (hashPassword _ pw) as [h|]; [|done].
  pose proof (Tx_outcome (resetTx tok (pr_username r) h) (tickSql w)) as HT.
  unfold ret. cbn [fst snd]. destruct (Tx _ _).1; simpl; [|done]. by rewrite HT.
Qed.

(** A used token is refused, whatever the password. *)
Lemma reset_used tok pw w :
  (forall r, resetFor tok (wDB w) = Some r -> pr_used r <> 0) ->
  (consumePasswordReset tok pw w).1 <> None.
Proof.
  intros H E. apply consumePasswordReset_inv in E as (r & h & Hr & H0 & _). by apply (H r Hr).
Qed.

Lemma resetFor_done tok u h d r :
  resetFor tok (resetDone tok u h d) = Some r -> pr_used r = 1.
Proof.
  unfold resetFor, resetDone, revokeAllOf, useReset, onUser. simpl.
  rewrite tfirst_tupdate by done. destruct (tfirst _ _) as [r0|] eqn:E; [|done].
  apply tfirst_Some in E as [_ E]. simpl. rewrite E. by intros [= <-].
Qed.

(** C12: a password reset is one-shot, complete and isolated, whatever
    statement of it fails.  When [consumePasswordReset] answers nil, the token
    was stored, unused and unexpired and the password long enough; afterwards
    the account's password is the new one, every session of the account is
    locked out, the same token is refused for any password, and no other
    account's password or session list moved.  When it answers an error, the
    database is as it was. *)
Theorem password_reset_complete tok pw w :
  let r := consumePasswordReset tok pw w in
  match r.1 with
  | Some _ => wDB r.2 = wDB w
  | None => exists u h,
      pr_username <$> resetFor tok (wDB w) = Some u /\ hashPassword (wEnv w) pw = Some h
      /\ (forall v, u_password_hash <$> userIn v (wDB r.2)
           = if v ==? u then (fun _ => h) <$> userIn v (wDB w) else u_password_hash <$> userIn v (wDB w))
      /\ (u <> "" -> forall t, (sessionUsername t r.2).1 <> u)
      /\ (forall e v now, v <> u -> sessionsOf e v now (wDB r.2) = sessionsOf e v now (wDB w))
      /\ forall pw', (consumePasswordReset tok pw' r.2).1 <> None
  end.
Proof.
  intros r. destruct r.1 as [e|] eqn:E; [by eapply consumePasswordReset_error|].
  destruct (consumePasswordReset_inv tok pw w E) as (row & h & Hr & Hu & He & Hl & Hh & Hd).
  subst r. exists (pr_username row), h. rewrite Hr. rewrite !Hd. split_and!; [done|done|..].
  - intros v. change (userIn v (resetDone ?a ?b ?c ?d)) with (userIn v (onUser b (set_u_password_hash c) d)).
    rewrite userIn_onUser by done. destruct (v ==? _); [|done]. by destruct (userIn v (wDB w)).
  - intros Hne t. apply locked_out_sessions; [done|]. rewrite Hd.
    intros s Hs. unfold resetDone, revokeAllOf in Hs. simpl in Hs.
    apply list_elem_of_fmap in Hs as (s0 & -> & _). destruct (st_username s0 ==? _) eqn:Eb; bools; done.
  - intros e v now Hne. etransitivity; [by apply (sessionsOf_tupdate e (pr_username row) v now) | done].
  - intros pw'. apply reset_used. rewrite Hd. intros r' Hr'. apply resetFor_done in Hr'. lia.
Qed.

(** ** Erasure *)

Definition erased (u : string) (d : Database) : Database := foldl (fun d f => f d) d (erasures u).

Lemma find_first_delete_self {R} (p : R -> bool) (t : Table R) : tfirst p (tdelete p t) = None.
Proof. apply tfirst_None, texists_tdelete. Qed.

Lemma find_first_delete_other {R} (p q : R -> bool) (t : Table R) :
  (forall r, p r = true -> q r = false) -> tfirst p (tdelete q t) = tfirst p t.
Proof.
  intros H. unfold tfirst, tdelete. simpl. induction (rows t) as [|r l IH]; [done|].
  rewrite boolfilter_cons. simpl. destruct (p r) eqn:Ep.
  - rewrite (H r Ep). simpl. by rewrite Ep.
  - destruct (q r); simpl; [done|]. by rewrite Ep.
Qed.

Lemma tx_pure_erased u d :
  tx_pure ((fun (f : Database -> Database) d => inr (f d)) <$> erasures u) d = inr (erased u d).
Proof. apply tx_pure_total. Qed.

(** The rows of [t'] are those of [t] that satisfy [P], in their order. *)
Definition keeps {R} (P : R -> Prop) `{forall r, Decision (P r)} (t t' : Table R) : Prop :=
  rows t' = filter P (rows t).

Lemma keeps_tdelete {R} (P : R -> Prop) `{forall r, Decision (P r)} (p : R -> bool) (t : Table R) :
  (forall r, p r = false <-> P r) -> keeps P t (tdelete p t).
Proof.
  intros Hp. unfold keeps, tdelete, boolfilter. cbn [rows]. apply list_filter_iff. intros r.
  rewrite <- Hp. by destruct (p r).
Qed.

(** The erasure of [u], table by table: the twenty-one tables it reaches keep
    exactly the rows that do not name [u] as their owner or party, and the
    other sixteen keep everything. *)
Record erasedExactly (u : string) (d d' : Database) : Prop := mkErased {
  ex_friends : keeps (fun r => f_user_a r <> u /\ f_user_b r <> u) (friends d) (friends d');
  ex_offline_messages : keeps (fun r => om_sender r <> u /\ om_recipient r <> u) (offline_messages d) (offline_messages d');
  ex_dm_messages : keeps (fun r => dr_sender r <> u /\ dr_recipient r <> u) (dm_messages d) (dm_messages d');
  ex_dm_reactions : keeps (fun r => dx_username r <> u) (dm_reactions d) (dm_reactions d');
  ex_conversation_members : keeps (fun r => cvm_username r <> u) (conversation_members d) (conversation_members d');
  ex_conversations : keeps (fun r => cv_created_by r <> u) (conversations d) (conversations d');
  ex_blocks : keeps (fun r => b_blocker r <> u /\ b_blocked r <> u) (blocks d) (blocks d');
  ex_abuse_reports : keeps (fun r => ar_reporter r <> u) (abuse_reports d) (abuse_reports d');
  ex_server_members : keeps (fun r => sm_username r <> u) (server_members d) (server_members d');
  ex_channel_messages : keeps (fun r => cms_sender r <> u) (channel_messages d) (channel_messages d');
  ex_channel_reactions : keeps (fun r => cr_username r <> u) (channel_reactions d) (channel_reactions d');
  ex_story_views : keeps (fun r => stv_viewer r <> u) (story_views d) (story_views d');
  ex_stories : keeps (fun r => sto_author r <> u) (stories d) (stories d');
  ex_user_settings : keeps (fun r => us_username r <> u) (user_settings d) (user_settings d');
  ex_push_subscriptions : keeps (fun r => ps_username r <> u) (push_subscriptions d) (push_subscriptions d');
  ex_key_backups : keeps (fun r => kb_username r <> u) (key_backups d) (key_backups d');
  ex_totp_backup_codes : keeps (fun r => bc_username r <> u) (totp_backup_codes d) (totp_backup_codes d');
  ex_session_tokens : keeps (fun r => st_username r <> u) (session_tokens d) (session_tokens d');
  ex_password_resets : keeps (fun r => pr_username r <> u) (password_resets d) (password_resets d');
  ex_qr_login_tokens : keeps (fun r => qr_username r <> u) (qr_login_tokens d) (qr_login_tokens d');
  ex_users : keeps (fun r => u_username r <> u) (users d) (users d');
  ex_contact_groups : contact_groups d' = contact_groups d;
  ex_convo_messages : convo_messages d' = convo_messages d;
  ex_servers : servers d' = servers d;
  ex_channels : channels d' = channels d;
  ex_invite_codes : invite_codes d' = invite_codes d;
  ex_blocked_ips : blocked_ips d' = blocked_ips d;
  ex_known_devices : known_devices d' = known_devices d;
  ex_device_challenges : device_challenges d' = device_challenges d;
  ex_whiteboard_strokes : whiteboard_strokes d' = whiteboard_strokes d;
  ex_calls : calls d' = calls d;
  ex_reward_crates : reward_crates d' = reward_crates d;
  ex_reward_crafts : reward_crafts d' = reward_crafts d;
  ex_supporter_requests : supporter_requests d' = supporter_requests d;
  ex_bmc_payments : bmc_payments d' = bmc_payments d;
  ex_skype_import_messages : skype_import_messages d' = skype_import_messages d;
  ex_skype_import_contacts : skype_import_contacts d' = skype_import_contacts d }.

Lemma erased_exactly u d : erasedExactly u d (erased u d).
Proof.
  constructor; try reflexivity; unfold erased; cbn -[tdelete keeps]; apply keeps_tdelete; intros r;
    rewrite ?orb_false_iff, ?bool_decide_eq_false; done.
Qed.

Lemma locked_out_erased u d : locked_out u (erased u d).
Proof.
  intros r Hr Hu. unfold erased in Hr. cbn -[tdelete rows] in Hr.
  apply elem_of_tdelete in Hr as [_ Hr]. bools. tauto.
Qed.

Lemma userIn_erased u v d : userIn v (erased u d) = if v ==? u then None else userIn v d.
Proof.
  unfold userIn, erased. cbn -[tdelete tfirst].
  case_bool_decide as E; [subst; apply find_first_delete_self|].
  apply find_first_delete_other. intros r Hr. bools. by apply eqb_neq_dec; rewrite Hr.
Qed.

Lemma sessionsOf_erased e u v now d : v <> u -> sessionsOf e v now (erased u d) = sessionsOf e v now d.
Proof.
  intros Hne. unfold sessionsOf, erased. cbn -[tdelete tselect]. f_equal. apply tselect_tdelete.
  intros r Hr. bools. apply eqb_neq_dec. by rewrite H.
Qed.

Lemma authenticate_unknown u p w : userIn u (wDB w) = None -> (authenticateUser u p w).1 = false.
Proof.
  intros H. unfold authenticateUser, bind, QueryRow, QueryRowE, bind, getEnv, gets.
  destruct (faulty w); [done|]. by rewrite H.
Qed.

(** C13: erasing an account is all or nothing, and exact.  Whatever statement
    fails, [deleteAccount] either answers an error and the database is as it
    was, or it answers success and every table is pinned: the twenty-one tables
    it reaches keep exactly the rows that do not name the account, in their
    order, and no other table is touched - which is also what it leaves behind,
    the known devices, contact groups, call log, group messages, whiteboard
    strokes and device challenges of the account among it.  So the account is
    gone: no password opens it and no token of it authenticates; and every
    other account and its sessions are as before. *)
Theorem deleteAccount_erases u w :
  let r := deleteAccount u w in
  match r.1 with
  | Some _ => wDB r.2 = wDB w
  | None =>
      erasedExactly u (wDB w) (wDB r.2)
      /\ userIn u (wDB r.2) = None
      /\ (forall p, (authenticateUser u p r.2).1 = false)
      /\ (u <> "" -> forall t, (sessionUsername t r.2).1 <> u)
      /\ (forall v, v <> u -> userIn v (wDB r.2) = userIn v (wDB w)
            /\ forall e now, sessionsOf e v now (wDB r.2) = sessionsOf e v now (wDB w))
  end.
Proof.
  intros r. pose proof (Tx_outcome ((fun f d => inr (f d)) <$> erasures u) w) as HT.
  change (Tx _ w) with r in HT. destruct r.1; [exact HT|].
  rewrite tx_pure_erased in HT. apply inr_inj in HT.
  assert (Hu : userIn u (wDB r.2) = None) by (rewrite <- HT, userIn_erased, eqb_refl_dec; done).
  clearbody r. split_and!; [rewrite <- HT; apply erased_exactly | exact Hu | ..].
  - intros p. by apply authenticate_unknown.
  - intros Hne t. apply locked_out_sessions; [done|]. rewrite <- HT. apply locked_out_erased.
  - intros v Hv. rewrite <- HT. split; [by rewrite userIn_erased, eqb_neq_dec|].
    intros e now. by apply sessionsOf_erased.
Qed.

(** ** Time-based codes *)

Inductive totpop :=
| TVerify (user code : string)
| TSweep.

(** One call at a given instant. *)
Definition run_totp (top : Z * totpop) : M bool :=
  modify (set_wNow top.1) ;;;
  match top.2 with
  | TVerify u c => verifyTOTP u c
  | TSweep => sweepUsedCodes ;;; ret false
  end.

Definition codeKey (u c : string) : string := u +:+ ":" +:+ c.

(** [u] has a second factor to give. *)
Definition totp_on (u : string) (d : Database) : option string :=
  match userIn u d with
  | Some r => if (u_totp_enabled r =? 1) && negb (is_empty (u_totp_secret r))
              then Some (u_totp_secret r) else None
  | None => None
  end.

Lemma verifyTOTP_eq u c w :
  verifyTOTP u c w =
    if faulty w then (true, tickSql w)
    else match totp_on u (wDB w) with
         | None => (true, tickSql w)
         | Some secret =>
             if negb (totpValidate (wEnv w) c secret (wNow w)) then (false, tickSql w)
             else match totpUsedCodes (wSrv w) !! codeKey u c with
                  | Some _ => (false, tickSql w)
                  | None => (true, set_wSrv (set_totpUsedCodes
                               (<[codeKey u c := wNow w + 60 * Second]> (totpUsedCodes (wSrv w))) (wSrv w))
                               (tickSql w))
                  end
         end.
Proof.
  unfold verifyTOTP, totpStatus, totp_on, bind, QueryRow, QueryRowE, bind, getEnv, getNow, gets.
  destruct (faulty w); [done|]. destruct (userIn u (wDB w)) as [r|]; [|done]. cbn [fst snd ret].
  destruct (u_totp_enabled r =? 1); [|done]. destruct (is_empty _); [done|]. cbn [negb orb andb fst snd].
  change (wEnv (tickSql w)) with (wEnv w). change (wNow (tickSql w)) with (wNow w).
  destruct (totpValidate _ _ _ _); [|done]. cbn [negb].
  unfold loadOrStoreCode, bind, getSrv, gets. cbn [fst snd].
  change (wSrv (tickSql w)) with (wSrv w). fold (codeKey u c).
  by destruct (totpUsedCodes (wSrv w) !! codeKey u c).
Qed.

(** The memory of an accepted code up to its expiry. *)
Definition remembers (key : string) (until : Z) (w : World) : Prop :=
  totpUsedCodes (wSrv w) !! key = Some until.

Lemma run_totp_frame top w :
  sql_ok w -> sql_ok (run_totp top w).2 /\ wDB (run_totp top w).2 = wDB w.
Proof.
  intros Hok. destruct top as [t [u c|]]; unfold run_totp, bind, modify; cbn [fst snd].
  - rewrite verifyTOTP_eq. destruct (faulty _); [by split; [apply sql_ok_tick|]|].
    destruct (totp_on _ _); [|by split; [apply sql_ok_tick|]].
    destruct (negb _); [by split; [apply sql_ok_tick|]|].
    destruct (_ !! _); by split; [apply sql_ok_tick|].
  - by split.
Qed.

Lemma run_totp_remembers key until top w :
  top.1 <= until -> remembers key until w -> remembers key until (run_totp top w).2.
Proof.
  unfold remembers. intros Ht H. destruct top as [t [u c|]]; unfold run_totp, bind, modify; cbn [fst snd].
  - rewrite verifyTOTP_eq. destruct (faulty _); [done|].
    destruct (totp_on _ _); [|done]. destruct (negb _); [done|].
    destruct (_ !! codeKey u c) eqn:E; [done|]. simpl in E |- *.
    rewrite lookup_insert_ne; [done|]. intros Heq. congruence.
  - unfold sweepUsedCodes. simpl. apply map_lookup_filter_Some. split; [done | exact Ht].
Qed.

Definition run_totps (tops : list (Z * totpop)) (w : World) : World :=
  foldl (fun w top => (run_totp top w).2) w tops.

Lemma run_totps_keep key until tops w :
  sql_ok w -> remembers key until w -> Forall (fun top => top.1 <= until) tops ->
  sql_ok (run_totps tops w) /\ wDB (run_totps tops w) = wDB w /\ remembers key until (run_totps tops w).
Proof.
  intros Hok Hr Ht. revert w Hok Hr. induction Ht as [|top tops Ht _ IH]; intros w Hok Hr; [done|].
  destruct (run_totp_frame top w Hok) as [A B].
  destruct (IH (run_totp top w).2 A) as (C & D & F); [by apply run_totp_remembers|].
  split_and!; [exact C | etransitivity; [exact D | exact B] | exact F].
Qed.

(** C38: a time-based code is not accepted twice.  Once [verifyTOTP] has
    accepted a code of an account that has a second factor, then for sixty
    seconds - whatever codes anyone submits and however often the sweeper runs
    in between - it does not accept the same code for that account again. *)
Theorem totp_no_replay u c t tops t' w :
  sql_ok w -> totp_on u (wDB w) <> None ->
  (run_totp (t, TVerify u c) w).1 = true ->
  Forall (fun top => top.1 <= t + 60 * Second) tops -> t' <= t + 60 * Second ->
  (run_totp (t', TVerify u c) (run_totps tops (run_totp (t, TVerify u c) w).2)).1 = false.
Proof.
  intros Hok Hon Hv Hts Ht'.
  destruct (totp_on u (wDB w)) as [secret|] eqn:Eon; [|done].
  assert (Hr : remembers (codeKey u c) (t + 60 * Second) (run_totp (t, TVerify u c) w).2).
  { unfold run_totp, bind, modify in *. cbn [fst snd] in *. rewrite verifyTOTP_eq in *.
    change (faulty (set_wNow t w)) with (faulty w) in *. rewrite (sql_ok_faulty w Hok) in *.
    change (wDB (set_wNow t w)) with (wDB w) in *. rewrite Eon in *.
    destruct (negb _); [done|]. destruct (_ !! _); [done|]. apply lookup_insert_eq. }
  destruct (run_totp_frame (t, TVerify u c) w Hok) as [A B].
  destruct (run_totps_keep _ _ tops _ A Hr Hts) as (C & D & F).
  set (w' := run_totps _ _) in *. unfold run_totp, bind, modify. cbn [fst snd]. rewrite verifyTOTP_eq.
  change (faulty (set_wNow t' w')) with (faulty w'). rewrite (sql_ok_faulty w' C).
  change (wDB (set_wNow t' w')) with (wDB w'). rewrite D, B, Eon.
  destruct (negb _); [done|]. change (wSrv (set_wNow t' w')) with (wSrv w').
  by rewrite F.
Qed.

(** ** Recovery codes *)

(** ASCII bytes decode to themselves. *)
Lemma runes_ascii l : Forall (fun z => 0 <= z < 128) l -> runes_fuel (length l) l = l.
Proof.
  induction 1 as [|z l Hz _ IH]; [done|]. simpl.
  rewrite (proj2 (Z.ltb_lt z 128)) by lia. by rewrite IH.
Qed.

Lemma encode_ascii l : Forall (fun z => 0 <= z < 128) l -> concat (encode_rune <$> l) = l.
Proof.
  induction 1 as [|z l Hz _ IH]; [done|]. rewrite fmap_cons. simpl. rewrite IH.
  unfold encode_rune. by rewrite (proj2 (Z.ltb_lt z 128)) by lia.
Qed.

Lemma take_drop_bytes n s : take_bytes n s +:+ drop_bytes n s = s.
Proof.
  revert s. induction n as [|n IH]; intros [|a s]; try done.
  change (String a (take_bytes n s +:+ drop_bytes n s) = String a s). by rewrite IH.
Qed.

(** The bytes that survive [stripDashes] when all are ASCII. *)
Lemma stripDashes_ascii s :
  Forall (fun z => 0 <= z < 128) (bytes s) ->
  stripDashes s = of_bytes (boolfilter (fun r => negb (r =? 45)) (bytes s)).
Proof.
  intros H. unfold stripDashes, runes. rewrite <- length_bytes, runes_ascii by done.
  rewrite encode_ascii; [done|]. rewrite Forall_forall in H |- *.
  intros z Hz. apply elem_of_boolfilter in Hz as [_ Hz]. by apply H.
Qed.

Lemma Forall_bytes_split (P : Z -> Prop) n s :
  Forall P (bytes s) -> Forall P (bytes (take_bytes n s)) /\ Forall P (bytes (drop_bytes n s)).
Proof. intros H. rewrite <- (take_drop_bytes n s), bytes_app in H. by apply Forall_app in H. Qed.

(** A code as it is shown strips to the code as it is stored. *)
Lemma strip_shown n s :
  Forall (fun z => 0 <= z < 128 /\ z <> 45) (bytes s) ->
  stripDashes (take_bytes n s +:+ "-" +:+ drop_bytes n s) = s.
Proof.
  intros H. destruct (Forall_bytes_split _ n s H) as [H1 H2].
  assert (Hk : forall l, Forall (fun z => 0 <= z < 128 /\ z <> 45) l ->
                 boolfilter (fun r => negb (r =? 45)) l = l).
  { intros l Hl. apply boolfilter_true. eapply Forall_impl; [exact Hl|].
    intros z [_ Hz]. simpl. by rewrite (proj2 (Z.eqb_neq z 45) Hz). }
  rewrite stripDashes_ascii.
  - rewrite !bytes_app, !boolfilter_app, (Hk _ H1), (Hk _ H2).
    rewrite <- (of_bytes_bytes s) at 3. f_equal. rewrite <- (take_drop_bytes n s) at 3.
    by rewrite bytes_app.
  - rewrite !bytes_app. repeat apply Forall_app_2; [| |]; [eapply Forall_impl; [exact H1|]; simpl; tauto
      | change (bytes "-") with [45]; constructor; [lia | constructor] | eapply Forall_impl; [exact H2|]; simpl; tauto].
Qed.

Lemma hex_bytes_plain l :
  Forall (fun z => 0 <= z < 256) l -> Forall (fun z => 0 <= z < 128 /\ z <> 45) (hex_bytes l).
Proof.
  assert (Hd : forall z, 0 <= z < 16 -> 0 <= hex_digit z < 128 /\ hex_digit z <> 45).
  { intros z Hz. unfold hex_digit. destruct (Z.ltb_spec z 10); lia. }
  induction 1 as [|z l Hz _ IH]; [constructor|]. simpl. repeat constructor; try apply IH;
    apply Hd; pose proof (Z.div_mod z 16 ltac:(lia)); pose proof (Z.mod_pos_bound z 16 ltac:(lia)); lia.
Qed.

Lemma randHex_plain n w s :
  (randHex n w).1 = Some s -> Forall (fun z => 0 <= z < 128 /\ z <> 45) (bytes s).
Proof.
  unfold randHex, bind, ret. cbn [fst snd]. destruct (randList 256 n w).1 as [l|] eqn:E; [|done].
  intros [= <-]. apply randList_range in E as [_ E]; [|lia]. apply hex_bytes_plain in E.
  unfold EncodeToString. rewrite bytes_of_bytes; [done|].
  eapply Forall_impl; [exact E|]. simpl. lia.
Qed.

(** How a code is displayed. *)
Definition shown (plain : string) : string :=
  take_bytes 5 plain +:+ "-" +:+ drop_bytes 5 plain.

Definition codeRow (u : string) (e : Env) (plain : string) : BackupCode :=
  mkBackupCode u (codeHash e plain) 0.

Lemma backupLoop_result u k codes w cs :
  sql_ok w -> (backupLoop u k codes w).1 = Some cs ->
  let w' := (backupLoop u k codes w).2 in
  sql_ok w' /\ wEnv w' = wEnv w
  /\ exists plains, cs = codes ++ (shown <$> plains) /\ length plains = k
     /\ Forall (fun p => stripDashes (shown p) = p) plains
     /\ rows (totp_backup_codes (wDB w'))
        = rows (totp_backup_codes (wDB w)) ++ (codeRow u (wEnv w) <$> plains).
Proof.
  revert codes w. induction k as [|k IH]; intros codes w Hok; cbn [backupLoop].
  - intros [= <-]. split_and!; [done..|]. exists []. by rewrite !app_nil_r.
  - rewrite !bind_run. pose proof (respects_randHex (same ctx) 5 w) as Hc.
    pose proof (respects_randHex (same wDB) 5 w) as Hd. unfold same in Hc, Hd.
    assert (Hok1 : sql_ok (randHex 5 w).2) by (apply respects_sql_ok; [frame | done]).
    pose proof (randHex_plain 5 w) as Hp.
    destruct (randHex 5 w) as [[p|] w1]; cbn [fst snd] in *; [|done].
    rewrite getEnv_run. cbn [fst snd]. rewrite bind_run, ok_Exec_ by done. cbn [fst snd].
    injection Hc as _ He _ _ _. rewrite He. intros Hb.
    edestruct (fun H => IH _ _ H Hb) as (A & B & plains & C & D & F & G); [eauto with sqlok|].
    split_and!; [exact A | by rewrite B; exact He |].
    exists (p :: plains). split_and!.
    + rewrite C. by rewrite <- app_assoc.
    + simpl. by rewrite D.
    + constructor; [by apply strip_shown, Hp | done].
    + rewrite G. cbn [wDB set_wDB tickSql wEnv set_wSqlTick]. unfold addBackupCode.
      cbn [totp_backup_codes set_totp_backup_codes]. rewrite Hd, He.
      unfold tinsert. cbn [rows].
      by rewrite <- app_assoc.
Qed.

Lemma ok_consumeBackupCode u c w :
  sql_ok w ->
  let h := codeHash (wEnv w) (stripDashes c) in
  consumeBackupCode u c w
  = (texists (liveCode u h) (totp_backup_codes (wDB w)),
     set_wDB (set_totp_backup_codes (tupdate (liveCode u h) (set_bc_used 1)
                (totp_backup_codes (wDB w))) (wDB w)) (tickSql w)).
Proof. intros Hok h. unfold consumeBackupCode. sqlrun. by rewrite tcount_pos. Qed.

(** Using a code up says nothing about the others. *)
Lemma live_after_use u h h' t :
  texists (liveCode u h') (tupdate (liveCode u h) (set_bc_used 1) t)
  = if h' ==? h then false else texists (liveCode u h') t.
Proof.
  case_bool_decide as E; [subst|].
  - apply texists_false. intros r Hr. apply elem_of_tupdate in Hr as (r0 & _ & ->).
    destruct (liveCode u h r0) eqn:El; [|done]. unfold liveCode. simpl. by rewrite andb_false_r.
  - destruct (texists (liveCode u h') t) eqn:Et.
    + apply texists_true in Et as (r & Hr & Hl). apply texists_true.
      exists r. split; [|done]. apply elem_of_tupdate. exists r. split; [done|].
      destruct (liveCode u h r) eqn:El; [|done]. unfold liveCode in *. bools. congruence.
    + apply texists_false. intros r Hr. apply elem_of_tupdate in Hr as (r0 & Hr0 & ->).
      rewrite texists_false in Et. specialize (Et r0 Hr0).
      destruct (liveCode u h r0) eqn:El; [|done]. unfold liveCode. simpl. by rewrite andb_false_r.
Qed.

(** Recovery codes.  When [generateBackupCodes] answers, it shows eight
    codes, and from then on [consumeBackupCode] accepts exactly the inputs
    that hash like one of the eight once their dashes are dropped - each of
    the eight as it is displayed, none of an earlier set; an accepted input is
    refused the second time, and using it up changes the answer for no input
    of another hash. *)
Theorem backup_codes_once u codes w :
  sql_ok w -> (generateBackupCodes u w).1 = Some codes ->
  let w' := (generateBackupCodes u w).2 in
  let hash c := codeHash (wEnv w) (stripDashes c) in
  length codes = 8%nat
  /\ (forall c, (consumeBackupCode u c w').1 = true <-> exists c', c' ∈ codes /\ hash c = hash c')
  /\ (forall c, (consumeBackupCode u c (consumeBackupCode u c w').2).1 = false)
  /\ (forall c c', hash c' <> hash c ->
        (consumeBackupCode u c' (consumeBackupCode u c w').2).1 = (consumeBackupCode u c' w').1).
Proof.
  intros Hok Hg w' hash. unfold generateBackupCodes in Hg, w'. rewrite bind_run in Hg.
  subst w'. rewrite bind_run. rewrite ok_Exec_ in Hg |- * by done. cbn [fst snd] in Hg |- *.
  edestruct (fun H => backupLoop_result u 8 [] _ codes H Hg)
    as (A & B & plains & C & D & F & G); [eauto with sqlok|].
  set (w' := (backupLoop _ _ _ _).2) in *. change (wEnv w' = wEnv w) in B.
  change (rows (totp_backup_codes (wDB w')) = rows (totp_backup_codes (dropBackupCodes u (wDB w)))
            ++ (codeRow u (wEnv w) <$> plains)) in G.
  assert (He : forall c, codeHash (wEnv w') (stripDashes c) = hash c) by (intros c; by rewrite B).
  split_and!.
  - by rewrite C, app_nil_l, length_fmap.
  - intros c. rewrite ok_consumeBackupCode by done. cbn [fst]. rewrite He, texists_true. split.
    + intros (r & Hr & Hl). rewrite G in Hr. apply elem_of_app in Hr as [Hr|Hr].
      * unfold dropBackupCodes in Hr. cbn -[tdelete rows] in Hr.
        apply elem_of_tdelete in Hr as [_ Hr]. unfold liveCode in Hl. bools. congruence.
      * apply list_elem_of_fmap in Hr as (p & -> & Hp). unfold liveCode in Hl. simpl in Hl. bools.
        exists (shown p). split; [rewrite C, app_nil_l; by apply list_elem_of_fmap_2|].
        rewrite Forall_forall in F. unfold hash. by rewrite (F p Hp).
    + intros (c' & Hc' & Hh). rewrite C in Hc'. simpl in Hc'.
      apply list_elem_of_fmap in Hc' as (p & -> & Hp). exists (codeRow u (wEnv w) p). split.
      * rewrite G. apply elem_of_app. right. by apply list_elem_of_fmap_2.
      * rewrite Forall_forall in F. rewrite Hh. unfold hash. rewrite (F p Hp).
        unfold liveCode. simpl. by rewrite !eqb_refl_dec.
  - intros c. rewrite (ok_consumeBackupCode u c w') by done. cbn [snd].
    rewrite ok_consumeBackupCode by eauto with sqlok. cbn [fst].
    change (wEnv (set_wDB _ _)) with (wEnv w'). cbn -[tupdate texists].
    by rewrite live_after_use, eqb_refl_dec.
  - intros c c' Hne. rewrite (ok_consumeBackupCode u c w') by done. cbn [snd].
    rewrite !ok_consumeBackupCode by eauto with sqlok. cbn [fst].
    change (wEnv (set_wDB _ _)) with (wEnv w'). cbn -[tupdate texists].
    rewrite live_after_use, !He. by rewrite (eqb_neq_dec _ _ Hne).
Qed.

(** ** At a concrete state *)

Definition totpW : World :=
  mkW (onUser "alice" (fun u => set_u_totp_enabled 1 (set_u_totp_secret "SECRET" u)) sampleDB)
    sampleServer T0.

Lemma totp_no_replay_witness :
  (run_totp (T0, TVerify "alice" "123456") totpW).1 = true
  /\ (run_totp (T0 + 59 * Second, TVerify "alice" "123456")
        (run_totps [(T0 + 1 * Second, TSweep); (T0 + 2 * Second, TVerify "bob" "1"); (T0 + 50 * Second, TSweep)]
           (run_totp (T0, TVerify "alice" "123456") totpW).2)).1 = false.
Proof.
  assert (H : (run_totp (T0, TVerify "alice" "123456") totpW).1 = true) by (vm_compute; reflexivity).
  split; [exact H|].
  apply (totp_no_replay "alice" "123456" T0 _ _ totpW (sql_ok_mkW _ _ _)); [vm_compute; discriminate
    | exact H | repeat constructor; vm_compute; discriminate | vm_compute; discriminate].
Defined.

Lemma backup_codes_once_witness : exists codes,
  (generateBackupCodes "alice" sampleW).1 = Some codes /\ length codes = 8%nat
  /\ (consumeBackupCode "alice" "00010-20304" (generateBackupCodes "alice" sampleW).2).1 = true.
Proof.
  assert (H : exists codes, (generateBackupCodes "alice" sampleW).1 = Some codes
                            /\ "00010-20304" ∈ codes).
  { eexists. split; [vm_compute; reflexivity|]. vm_compute. left. }
  destruct H as (codes & H & Hin). exists codes.
  pose proof (backup_codes_once "alice" codes sampleW sampleW_ok H) as (A & B & _).
  split_and!; [exact H | exact A | apply B; exists "00010-20304"; split; [exact Hin | reflexivity]].
Defined.
