(* ===== verification/LoginSpec.v ===== *)
(** * The new-device gate of the HTTP sign-in

    A right password and second factor earn a session cookie; on a device the
    account has not approved the session behind it is inert. *)

From Stdlib Require Import ZArith Lia.
From stdpp Require Import base strings list gmap.
From S2P Require Import Prelude GoRt AuthTracker Store Wire Db World Wf Samples Registry Http Email.
From S2P Require Import Sessions Social Accounts AuthCases AuthHttp.

Open Scope string_scope.
Open Scope list_scope.
Open Scope Z_scope.

(** ** What the gate looks at *)

(** The inputs of the new-device decision: everything else the sign-in writes
    leaves them alone. *)
Definition gateView (w : World) :=
  (known_devices (wDB w), (fun u => (u_username u, u_email u)) <$> rows (users (wDB w)),
   Clients (wSrv w), (wEnv w, wFault w)).

#[local] Hint Extern 2 (respects (same gateView) (Exec_ _)) =>
  apply respects_Exec_; [typeclasses eauto.. | intros w; unfold same, gateView; cbn; by rewrite ?fmap_tupdate] : frame.
#[local] Hint Extern 2 (respects (same gateView) (ExecN _ _)) =>
  apply respects_ExecN; [typeclasses eauto.. | intros w; unfold same, gateView; cbn; by rewrite ?fmap_tupdate] : frame.

#[export] Instance fq_gateView : FreesSql (same gateView). Proof. by intros ?. Qed.
#[export] Instance fr_gateView : FreesRand (same gateView). Proof. by intros ??. Qed.
#[export] Instance fo_gateView : FreesOut (same gateView). Proof. by intros ??. Qed.

Lemma gate_modTracker f : respects (same gateView) (modTracker f). Proof. by intros ?. Qed.
Lemma gate_askTracker {A} (f : _ -> A * _) : respects (same gateView) (askTracker f). Proof. by intros ?. Qed.
Lemma gate_addMetric f : respects (same gateView) (addMetric f). Proof. by intros ?. Qed.

#[local] Hint Resolve gate_modTracker gate_askTracker gate_addMetric : frame.

Lemma gate_verifyTOTP u c : respects (same gateView) (verifyTOTP u c).
Proof.
  unfold verifyTOTP, totpStatus. frame. unfold loadOrStoreCode. frame. by intros ?.
Qed.

#[local] Hint Resolve gate_verifyTOTP : frame.

Lemma gate_authenticateUser u p : respects (same gateView) (authenticateUser u p).
Proof. unfold authenticateUser. frame. Qed.
Lemma gate_secondFactor u c : respects (same gateView) (secondFactor u c).
Proof. unfold secondFactor, orM, consumeBackupCode. frame. Qed.
Lemma gate_stampLogin u ip : respects (same gateView) (stampLogin u ip).
Proof. unfold stampLogin, onUser. frame. Qed.
Lemma gate_issueToken u dv ttl : respects (same gateView) (issueToken u dv ttl).
Proof.
  unfold issueToken. frame. apply respects_Exec; [typeclasses eauto..|].
  intros w d n. unfold insertSession. destruct (tinsert_unique _ _ _); [|done]. by intros [= <- <-].
Qed.

#[local] Hint Resolve gate_authenticateUser gate_secondFactor gate_stampLogin gate_issueToken : frame.

(** The decision as a condition on the state before the request. *)
Definition emailOf (u : string) (d : Database) : string :=
  default "" (u_email <$> tfirst (fun r => u_username r ==? u) (users d)).

(** Why a sign-in from device [i] need not be held: the check is switched
    off, the device is approved, or there is nobody to ask - no connection of
    the account is open and no mail can reach it. *)
Definition deviceOpen (u i : string) (w : World) : Prop :=
  deviceVerificationEnabled (wEnv w) = false
  \/ (i <> "" /\ texists (deviceKey u i) (known_devices (wDB w)) = true)
  \/ (connsOf (wSrv w) u = [] /\ (mailConfigured (wEnv w) = false \/ emailOf u (wDB w) = "")).

Lemma canDeliver_open u w :
  sql_ok w -> (canDeliverChallenge u w).1 = false ->
  connsOf (wSrv w) u = [] /\ (mailConfigured (wEnv w) = false \/ emailOf u (wDB w) = "").
Proof.
  intros Hok. unfold canDeliverChallenge, isOnline, clientsOf, userEmail. sqlrun.
  destruct (connsOf (wSrv w) u) as [|c cs]; [|done]. rewrite bool_decide_true by done. cbn [negb].
  sqlrun. destruct (mailConfigured (wEnv w)); [|by auto]. cbn [negb]. sqlrun.
  intros H. split; [done|]. right. apply negb_false_iff in H. by apply bool_decide_eq_true in H.
Qed.

Lemma mustHold_open u i w : sql_ok w -> (mustHold u i w).1 = false -> deviceOpen u i w.
Proof.
  intros Hok. unfold mustHold, deviceOpen. rewrite bind_run, getEnv_run. cbn [fst snd].
  destruct (deviceVerificationEnabled (wEnv w)); [|by left]. cbn [negb]. unfold isKnownDevice, is_empty.
  intros H. right. revert H. destruct (i ==? "") eqn:Ei; bools.
  - rewrite bind_run, ret_run. cbn [fst snd]. intros H. right. by apply canDeliver_open.
  - sqlrun. rewrite tcount_pos. destruct (texists (deviceKey u i) _); [by left|].
    intros H. right. by apply canDeliver_open in H; [|by apply sql_ok_tick].
Qed.

Lemma mustHold_false u i w : sql_ok w -> deviceOpen u i w -> (mustHold u i w).1 = false.
Proof.
  intros Hok H. unfold mustHold. rewrite bind_run, getEnv_run. cbn [fst snd].
  destruct (deviceVerificationEnabled (wEnv w)) eqn:Ed; [|done]. cbn [negb].
  destruct H as [H|[[Hi Hk]|[Hc Hm]]]; [congruence| |].
  - unfold isKnownDevice, is_empty. rewrite (eqb_neq_dec i "" Hi). sqlrun.
    rewrite tcount_pos, Hk. done.
  - rewrite bind_run. set (k := isKnownDevice u i w).
    assert (Hk : sql_ok k.2 /\ wSrv k.2 = wSrv w /\ wEnv k.2 = wEnv w /\ wDB k.2 = wDB w).
    { subst k. unfold isKnownDevice. destruct (is_empty i); sqlrun; split_and!; try done; sqlside. }
    destruct Hk as (Hok' & E1 & E2 & E3). destruct (k.1); [done|].
    unfold canDeliverChallenge, isOnline, clientsOf, userEmail. sqlrun. rewrite E1, Hc.
    rewrite bool_decide_true by done. cbn [negb]. sqlrun. rewrite E2.
    destruct (mailConfigured (wEnv w)); [|done]. cbn [negb]. sqlrun. rewrite E3.
    destruct Hm as [?|Hm]; [done|]. fold (emailOf u (wDB w)). by rewrite Hm.
Qed.

Lemma find_first_fmap {A B} (f : A -> B) (p : B -> bool) (l : list A) :
  find_first p (f <$> l) = f <$> find_first (fun x => p (f x)) l.
Proof. induction l as [|x l IH]; [done|]. simpl. by destruct (p (f x)). Qed.

Lemma deviceOpen_view u i w w' : gateView w' = gateView w -> deviceOpen u i w' -> deviceOpen u i w.
Proof.
  intros E. unfold gateView in E. injection E as E1 E2 E3 E4 _.
  assert (He : forall d, emailOf u d
            = default "" (snd <$> find_first (fun p => p.1 ==? u)
                            ((fun r => (u_username r, u_email r)) <$> rows (users d)))).
  { intros d. unfold emailOf, tfirst. rewrite find_first_fmap. by destruct (find_first _ _). }
  unfold deviceOpen, connsOf. rewrite !He. by rewrite E1, E2, E3, E4.
Qed.

(** ** The session behind the cookie *)

Definition sessView (w : World) := (session_tokens (wDB w), wNow w).

#[local] Hint Extern 2 (respects (same sessView) (Exec_ _)) =>
  apply respects_Exec_; [typeclasses eauto.. | intros w; reflexivity] : frame.

#[export] Instance fq_sessView : FreesSql (same sessView). Proof. by intros ?. Qed.
#[export] Instance fr_sessView : FreesRand (same sessView). Proof. by intros ??. Qed.
#[export] Instance fo_sessView : FreesOut (same sessView). Proof. by intros ??. Qed.

Lemma sess_stampLogin u ip : respects (same sessView) (stampLogin u ip).
Proof. unfold stampLogin. frame. Qed.
Lemma sess_mustHold u i : respects (same sessView) (mustHold u i).
Proof. unfold mustHold. frame. Qed.
Lemma sess_createDeviceChallenge u i t l ip : respects (same sessView) (createDeviceChallenge u i t l ip).
Proof.
  unfold createDeviceChallenge. frame. apply respects_Exec; [typeclasses eauto..|].
  by intros w d n [= <- _].
Qed.
Lemma sess_loginComplete u t i l ip : respects (same sessView) (loginComplete u t i l ip).
Proof. unfold loginComplete, rememberDevice, touchDevice, profileNames. frame. Qed.

(** The answer of the gate depends on that view. *)
Lemma sessionUsername_view t w w' :
  sql_ok w -> sql_ok w' -> sessView w' = sessView w ->
  (sessionUsername t w').1 = (sessionUsername t w).1.
Proof.
  intros H H' E. unfold sessView in E. injection E as E1 E2.
  rewrite !sessionUsername_eq, !sessionState_eq. destruct (is_empty t); [done|].
  rewrite !sql_ok_faulty by done. cbn [fst snd]. by rewrite E1, E2.
Qed.

(** A held session authenticates nobody. *)
Lemma held_inert t w :
  (sessionUsername t (set_wDB (onToken t (set_st_pending_device 1) (wDB w)) w)).1 = "".
Proof.
  rewrite sessionUsername_eq, sessionState_eq. destruct (is_empty t); [done|]. cbn [fst snd].
  destruct (faulty _); [done|]. cbn [wDB set_wDB]. rewrite tfirst_onToken by done.
  destruct (tfirst _ _) as [r|]; [|done]. simpl. by destruct (_ || _).
Qed.

Lemma sessionCookie_of t tok i :
  (sessionCookieName, t) ∈ [setDeviceCookie i; setSessionCookie tok] -> t = tok.
Proof.
  intros H. apply elem_of_cons in H as [H|H]; [done|].
  apply list_elem_of_singleton in H. unfold setSessionCookie in H. congruence.
Qed.

Lemma loginHold_cookie u tok i l ip w t :
  sql_ok w -> (sessionCookieName, t) ∈ rsCookies (loginHold u tok i l ip w).1 ->
  t = tok /\ (sessionUsername tok (loginHold u tok i l ip w).2).1 = "".
Proof.
  intros Hok. unfold loginHold. rewrite !bind_run.
  set (m := if is_empty i then randHex 16 else ret (Some i)).
  assert (Hok1 : sql_ok (m w).2).
  { apply respects_sql_ok; [subst m; frame | done]. }
  destruct (m w) as [[j|] w1]; cbn [fst snd] in *; [|by intros ?%elem_of_nil].
  unfold markSessionPendingDevice. rewrite bind_run, ok_ExecOk by done. cbn [fst snd negb].
  rewrite bind_run, ret_run. cbn [fst snd rsCookies withCookies]. intros Hc. split.
  - rewrite app_nil_r in Hc. by eapply sessionCookie_of.
  - set (w2 := set_wDB _ _). rewrite (sessionUsername_view _ w2).
    + apply (held_inert tok (tickSql w1)).
    + eauto with sqlok.
    + apply respects_sql_ok; [unfold createDeviceChallenge; frame | eauto with sqlok].
    + apply (sess_createDeviceChallenge u j tok l ip w2).
Qed.

(** A session just issued authenticates its account. *)
Lemma issueSessionToken_row u dv w tok :
  sql_ok w -> (issueSessionToken u dv w).1 = inr tok -> tok <> "" ->
  (sessionUsername tok (issueSessionToken u dv w).2).1 = u.
Proof.
  intros Hok. unfold issueSessionToken, issueToken. rewrite !bind_run, getEnv_run. cbn [fst snd].
  assert (Hok1 : sql_ok (randHex 32 w).2) by (apply respects_sql_ok; [frame | done]).
  destruct (randHex 32 w) as [[s|] w1]; cbn [fst snd] in *; [|done].
  rewrite bind_run, getNow_run. cbn [fst snd]. rewrite bind_run, ok_Exec by done.
  unfold insertSession, tinsert_unique. destruct (texists _ _) eqn:Ex; [done|].
  cbn [fst snd isInr]. intros [= <-] Hne. rewrite ret_run. cbn [fst snd].
  rewrite sessionUsername_eq, sessionState_eq. unfold is_empty. rewrite (eqb_neq_dec s "" Hne).
  rewrite sql_ok_faulty by eauto with sqlok. cbn [fst snd].
  cbn [wDB set_wDB session_tokens set_session_tokens wNow tickSql set_wSqlTick].
  assert (E : forall mk, st_token (mk (tnext (session_tokens (wDB w1)))) = s ->
    tfirst (fun r => st_token r ==? s) (tinsert mk (session_tokens (wDB w1)))
    = Some (mk (tnext (session_tokens (wDB w1))))).
  { intros mk. apply tfirst_None in Ex. unfold tfirst, tinsert, tnext in *. cbn [rows].
    generalize (mk (seqno (session_tokens (wDB w1)) + 1)) as r0. intros r0 Hmk.
    revert Ex. induction (rows (session_tokens (wDB w1))) as [|r l IH]; simpl; intros Ex.
    - by rewrite Hmk, eqb_refl_dec.
    - destruct (_ ==? s); [done|]. by apply IH. }
  rewrite E by done. cbn [st_revoked st_expires_at st_username st_pending_device]. rewrite Z.eqb_refl.
  assert (0 < 30 * 24 * Hour) by (by vm_compute).
  cbn [negb orb]. by rewrite (proj2 (Z.ltb_ge (wNow w1 + 30 * 24 * Hour) (wNow w1))) by lia.
Qed.

Lemma loginComplete_cookie u tok i l ip w t :
  (sessionCookieName, t) ∈ rsCookies (loginComplete u tok i l ip w).1 -> t = tok.
Proof.
  unfold loginComplete. rewrite bind_run, getEnv_run. cbn [fst snd]. rewrite bind_run.
  set (w0 := (when _ _ w).2). rewrite bind_run. set (m := if is_empty i then _ else _).
  destruct (m w0) as [j w1]. cbn [fst snd]. rewrite bind_run, ret_run.
  cbn [fst snd rsCookies withCookies]. rewrite app_nil_r. intros H.
  apply elem_of_app in H as [H|H].
  - destruct (is_empty j); [by apply elem_of_nil in H|]. by apply list_elem_of_singleton in H.
  - apply list_elem_of_singleton in H. unfold setSessionCookie in H. congruence.
Qed.

(** What the session [t] is worth in [w'], after a sign-in from device [i] that
    [w] received. *)
Definition gated (u i t : string) (w w' : World) : Prop :=
  (deviceOpen u i w /\ (sessionUsername t w').1 = u)
  \/ (~ deviceOpen u i w /\ (sessionUsername t w').1 = "").

Lemma gated_view u i t w w0 w' : gateView w = gateView w0 -> gated u i t w w' -> gated u i t w0 w'.
Proof.
  intros E [[H1 H2]|[H1 H2]]; [left|right]; (split; [|done]).
  - by eapply deviceOpen_view.
  - intros H. apply H1. by eapply deviceOpen_view.
Qed.

(** What the cookie of [loginIssue] is worth. *)
Lemma loginIssue_cookie r b ip w t :
  sql_ok w -> t <> "" -> (sessionCookieName, t) ∈ rsCookies (loginIssue r b ip w).1 ->
  gated (lbUsername b) (deviceIDFromRequest r) t w (loginIssue r b ip w).2.
Proof.
  intros Hok Ht. unfold loginIssue. rewrite bind_run.
  set (dv := if is_empty (lbDevice b) then "web" else lbDevice b).
  pose proof (issueSessionToken_row (lbUsername b) dv w) as Hrow.
  pose proof (gate_issueToken (lbUsername b) dv (30 * 24 * Hour) w) as G1.
  assert (Hok1 : sql_ok (issueSessionToken (lbUsername b) dv w).2).
  { apply respects_sql_ok; [unfold issueSessionToken, issueToken; frame | done]. }
  unfold issueSessionToken in *.
  destruct (issueToken _ _ _ w) as [[e|tok] w1]; cbn [fst snd] in *; [by intros ?%elem_of_nil|].
  specialize (Hrow tok Hok eq_refl).
  pose proof (gate_stampLogin (lbUsername b) ip w1) as G2.
  pose proof (sess_stampLogin (lbUsername b) ip w1) as S2.
  assert (Hok2 : sql_ok (stampLogin (lbUsername b) ip w1).2).
  { apply respects_sql_ok; [unfold stampLogin; frame | done]. }
  rewrite bind_run. destruct (stampLogin _ _ w1) as [[] w2]; cbn [fst snd] in *.
  rewrite bind_run. set (i := deviceIDFromRequest r).
  pose proof (mustHold_open (lbUsername b) i w2 Hok2) as HO.
  pose proof (mustHold_false (lbUsername b) i w2 Hok2) as HF.
  pose proof (sess_mustHold (lbUsername b) i w2) as S3.
  assert (Hok3 : sql_ok (mustHold (lbUsername b) i w2).2).
  { apply respects_sql_ok; [unfold mustHold; frame | done]. }
  destruct (mustHold _ _ w2) as [[] w3]; cbn [fst snd] in *; intros Hc.
  - apply (gated_view _ _ _ w2); [by etransitivity; [exact G2 | exact G1]|].
    apply loginHold_cookie in Hc as [-> Hi]; [|done]. right. split; [|exact Hi].
    intros Ho. discriminate (HF Ho).
  - apply (gated_view _ _ _ w2); [by etransitivity; [exact G2 | exact G1]|].
    pose proof (loginComplete_cookie _ _ _ _ _ _ _ Hc) as ->. left. split; [by apply HO|].
    + rewrite <- (Hrow Ht). apply sessionUsername_view; [done | |].
      * apply respects_sql_ok; [unfold loginComplete, rememberDevice, touchDevice, profileNames; frame | done].
      * etransitivity; [apply sess_loginComplete|]. by etransitivity; [exact S3 | exact S2].
Qed.

(** The steps before the issue only narrow the way to it. *)
Lemma loginSecond_cookie r b ip w t :
  sql_ok w -> t <> "" -> (sessionCookieName, t) ∈ rsCookies (loginSecond r b ip w).1 ->
  gated (lbUsername b) (deviceIDFromRequest r) t w (loginSecond r b ip w).2.
Proof.
  intros Hok Ht. unfold loginSecond, userBanInfo.
  rewrite !bind_run, ok_QueryRow by done. cbn [fst snd ret].
  destruct (match userIn _ _ with Some u => _ | None => _ end) as [[] reason];
    [by intros ?%elem_of_nil|].
  rewrite !bind_run, getNow_run. cbn [fst snd].
  set (w1 := (askTracker _ _).2). assert (Hok1 : sql_ok w1) by (intros n; apply Hok).
  assert (G1 : gateView w1 = gateView w) by done.
  destruct (askTracker _ _).1; [by intros ?%elem_of_nil|].
  rewrite bind_run. pose proof (gate_secondFactor (lbUsername b) (lbTOTPCode b) w1) as G2.
  assert (Hok2 : sql_ok (secondFactor (lbUsername b) (lbTOTPCode b) w1).2).
  { apply respects_sql_ok; [frame_deep | done]. }
  destruct (secondFactor _ _ w1) as [[] w2]; cbn [fst snd negb] in *; [|by intros ?%elem_of_nil].
  rewrite !bind_run. set (w3 := (authSuccess_Add _).2).
  assert (Hok3 : sql_ok w3) by (intros n; apply Hok2).
  intros Hc. eapply gated_view; [|exact (loginIssue_cookie r b ip w3 t Hok3 Ht Hc)].
  etransitivity; [|exact G1]. etransitivity; [|exact G2]. done.
Qed.

(** The password verdict reads the account's row only. *)
Lemma authenticateUser_view u p w w' :
  sql_ok w -> sql_ok w' -> wDB w' = wDB w -> wEnv w' = wEnv w ->
  (authenticateUser u p w').1 = (authenticateUser u p w).1.
Proof.
  intros H H' E1 E2. unfold authenticateUser. rewrite !bind_run, !ok_QueryRow by done.
  cbn [fst snd getEnv gets]. change (wEnv (tickSql ?a)) with (wEnv a). rewrite E1, E2.
  destruct (userIn u (wDB w)) as [r|]; [|done]. destruct (negb _); [done|].
  destruct (bcryptCompare _ _ _); [done|]. by destruct (bcryptCompare _ _ _).
Qed.


(** ** At a concrete state *)

Definition loginReq : Request :=
  mkRequest "POST" "/api/login" "10.0.0.9:5000" (fun _ => "") (fun _ => "") (fun _ => "").
Definition loginBody : LoginBody := mkLogin "alice" "password1" "" "".
Definition firstToken : string := "000102030405060708090a0b0c0d0e0f101112131415161718191a1b1c1d1e1f".

(** The sample server, where only the statement number [k] fails. *)
Definition faultAt (k : nat) (w : World) : World :=
  mkWorld (wDB w) (wSrv w) (wNow w) (fun n => bool_decide (n = k)) 0 (wRand w) (wRandErr w)
    (wRandTick w) (wEnv w) [] (wBlobs w).

(** The hold is set after the cookie.  The handler writes the session
    cookie and only then marks the session as held, so when that one UPDATE
    fails the client gets status 500 together with a cookie whose session
    authenticates the account, from a device that was never approved. *)
Theorem login_hold_fails_open : exists k,
  let w := faultAt k sampleW in
  let res := httpLoginHandler loginReq (Some loginBody) w in
  ~ deviceOpen "alice" (deviceIDFromRequest loginReq) w
  /\ rsCode res.1 = StatusInternalServerError
  /\ (sessionCookieName, firstToken) ∈ rsCookies res.1
  /\ (sessionUsername firstToken res.2).1 = "alice".
Proof.
  exists 5%nat. cbn zeta. split_and!.
  - intros [H|[[H _]|[H _]]]; [vm_compute in H; discriminate H | by apply H
      | vm_compute in H; discriminate H].
  - vm_compute. reflexivity.
  - vm_compute. right. left.
  - vm_compute. reflexivity.
Qed.

(** The sign-in of the message loop has no gate: from an address and a device
    nobody has seen, the right password of an account with the check switched
    on, no approved device and a mail address is answered with a token that
    authenticates at once. *)
Theorem ws_auth_not_held : exists msg,
  let r := case_auth 2 "10.0.0.9" "" msg sampleW in
  deviceVerificationEnabled (wEnv sampleW) = true /\ rows (known_devices (wDB sampleW)) = []
  /\ r.1 = "alice"
  /\ exists f, head (wOut r.2) = Some (EvSend 2 f) /\ mType f = "auth_result"
       /\ (sessionUsername (mQRToken f) r.2).1 = "alice".
Proof.
  exists (nm "auth" |> set_mSender "alice" |> set_mBody "password1"). cbn zeta.
  split; [reflexivity|]. split; [reflexivity|]. split; [vm_compute; reflexivity|].
  eexists. split; [vm_compute; reflexivity|]. split; [reflexivity|]. vm_compute. reflexivity.
Qed.

