(* ===== verification/SignInSpec.v ===== *)
(** * The owner gets in

    The counterpart of the safety of the sign-in: lockouts end by themselves,
    and from then on the right password, the second factor and an approved
    device always open a session. *)

From Stdlib Require Import ZArith Lia.
From stdpp Require Import base strings list gmap.
From S2P Require Import Prelude GoRt AuthTracker Store Wire Db World Wf Samples Registry Http Email.
From S2P Require Import Sessions Social Accounts AuthCases AuthHttp ThrottleSpec DispatchSpec LoginSpec.

Open Scope string_scope.
Open Scope list_scope.
Open Scope Z_scope.

(** ** Lockouts end *)

(** A counter that no longer counts: below its threshold, or its window is
    over. *)
Definition calm (window th now : Z) (k : string) (m : gmap string authFail) : Prop :=
  forall f, m !! k = Some f -> window < now - firstAt f \/ fcount f < th.

Lemma check_calm window th now k m : calm window th now k m -> (check window th now k m).1 = false.
Proof.
  unfold calm, check. intros H. destruct (m !! k) as [f|]; [|done].
  destruct (Z.ltb_spec window (now - firstAt f)); [done|]. apply Z.leb_gt.
  destruct (H f eq_refl); lia.
Qed.

(** An operation that does not count a failure against [k] leaves its entry or
    forgets it. *)
Lemma cstep_spared window th now o k m :
  o <> CBump k -> cstep window th now o m !! k = m !! k \/ cstep window th now o m !! k = None.
Proof.
  intros Ho. destruct o as [k'|k'|k'| |]; cbn [cstep].
  - left. apply bump_ne. congruence.
  - destruct (decide (k' = k)) as [->|Hne]; [right; apply lookup_delete_eq | left; by rewrite lookup_delete_ne].
  - destruct (decide (k' = k)) as [->|Hne]; [|left; by apply check_other].
    unfold check. destruct (m !! k) as [f|] eqn:E; [|by left]. destruct (_ <? _); [|by left].
    right. apply lookup_delete_eq.
  - rewrite lookup_sweep. destruct (m !! k) as [f|]; [|by left]. case_decide; [by left | by right].
  - by left.
Qed.

(** Half an hour after the last failure against [k] every window is over. *)
Lemma calm_later (field : authFailTracker -> gmap string authFail) op window th k evs0 evs now now' :
  (forall now e t, field (tstep now e t) = cstep window th now (op e) (field t)) ->
  field authTracker0 = ∅ -> in_order 0 evs0 -> lastInstant 0 evs0 <= now ->
  Forall (fun ne => op ne.2 <> CBump k) evs -> now + window < now' ->
  calm window th now' k (field (trun (evs0 ++ evs) authTracker0)).
Proof.
  intros Hf H0 Ho Hle Hs Hn f. unfold trun. rewrite foldl_app. fold (trun evs0 authTracker0).
  assert (Hc : counts window (lastInstant 0 evs0) k (field (trun evs0 authTracker0)) (history op window k evs0)).
  { eapply run_counts; [exact Hf | by rewrite H0 | done]. }
  assert (Hfirst : forall g, field (trun evs0 authTracker0) !! k = Some g -> firstAt g <= now).
  { intros g Hg. unfold counts in Hc. rewrite Hg in Hc. destruct Hc as (t0 & l & _ & _ & <- & H). lia. }
  clear Hc. revert Hfirst. generalize (trun evs0 authTracker0) as t. induction Hs as [|[n e] evs He _ IH]; intros t Ht Hk.
  - left. specialize (Ht f Hk). lia.
  - simpl in Hk. apply (IH (tstep n e t)); [|exact Hk]. intros g. rewrite Hf.
    destruct (cstep_spared window th n (op e) k (field t) He) as [->| ->]; [apply Ht | done].
Qed.

(** What the sign-in asks the tracker. *)
Definition unlocked (now : Z) (ip u : string) (t : authFailTracker) : Prop :=
  calm authIPWindow authIPFailThreshold now ip (ipFails t)
  /\ calm authUserWindow authUserLockThreshold now u (userFails t)
  /\ calm totpWindow totpMaxAttempts now u (totpFails t).

(** ** The steps of the handler *)

(** The issue of a session: enough that the token is new. *)
Lemma issueSessionToken_done u dv w tok :
  sql_ok w -> (randHex 32 w).1 = Some tok ->
  texists (fun r => st_token r ==? tok) (session_tokens (wDB w)) = false ->
  (issueSessionToken u dv w).1 = inr tok.
Proof.
  intros Hok E Hf. unfold issueSessionToken, issueToken. rewrite bind_run, getEnv_run. cbn [fst snd].
  rewrite bind_run, E. assert (Hok1 : sql_ok (randHex 32 w).2) by (apply respects_sql_ok; [frame | done]).
  assert (Hd : respects (same wDB) (randHex 32)) by frame.
  rewrite bind_run, getNow_run. cbn [fst snd]. rewrite bind_run, ok_Exec by done.
  rewrite (Hd w). unfold insertSession, tinsert_unique. by rewrite Hf.
Qed.

Lemma loginComplete_done u tok i l ip w :
  (sessionCookieName, tok) ∈ rsCookies (loginComplete u tok i l ip w).1
  /\ rsCode (loginComplete u tok i l ip w).1 = StatusOK.
Proof.
  unfold loginComplete. rewrite bind_run, getEnv_run. cbn [fst snd]. rewrite bind_run.
  set (w0 := (when _ _ w).2). rewrite bind_run. set (m := if is_empty i then _ else _).
  destruct (m w0) as [j w1]. cbn [fst snd]. rewrite bind_run, ret_run.
  cbn [fst snd rsCookies rsCode withCookies respJSON]. split; [|done].
  apply elem_of_app. left. apply elem_of_app. right. by apply list_elem_of_singleton.
Qed.

(** The admitted answer: status 200 and a cookie that authenticates [u]. *)
Definition admitted (u tok : string) (res : Response * World) : Prop :=
  rsCode res.1 = StatusOK /\ (sessionCookieName, tok) ∈ rsCookies res.1
  /\ (sessionUsername tok res.2).1 = u.

Definition freshToken (tok : string) (w : World) : Prop :=
  (randHex 32 w).1 = Some tok /\ texists (fun r => st_token r ==? tok) (session_tokens (wDB w)) = false.

Lemma loginIssue_done r b ip w tok :
  sql_ok w -> freshToken tok w -> deviceOpen (lbUsername b) (deviceIDFromRequest r) w ->
  admitted (lbUsername b) tok (loginIssue r b ip w).
Proof.
  intros Hok [Ht Hf] Ho. unfold loginIssue. rewrite bind_run.
  set (dv := if is_empty (lbDevice b) then "web" else lbDevice b).
  pose proof (issueSessionToken_done (lbUsername b) dv w tok Hok Ht Hf) as E.
  pose proof (issueSessionToken_row (lbUsername b) dv w tok Hok E
                (randHex_nonempty 32 w tok ltac:(lia) Ht)) as Hrow.
  pose proof (gate_issueToken (lbUsername b) dv (30 * 24 * Hour) w) as G1.
  assert (Hok1 : sql_ok (issueSessionToken (lbUsername b) dv w).2)
    by (apply respects_sql_ok; [unfold issueSessionToken, issueToken; frame | done]).
  unfold issueSessionToken in *.
  destruct (issueToken _ _ _ w) as [v w1]; cbn [fst snd] in *. subst v.
  pose proof (gate_stampLogin (lbUsername b) ip w1) as G2.
  pose proof (sess_stampLogin (lbUsername b) ip w1) as S2.
  assert (Hok2 : sql_ok (stampLogin (lbUsername b) ip w1).2)
    by (apply respects_sql_ok; [unfold stampLogin; frame | done]).
  rewrite bind_run. destruct (stampLogin _ _ w1) as [[] w2]; cbn [fst snd] in *.
  rewrite bind_run. set (i := deviceIDFromRequest r) in *.
  assert (Ho2 : deviceOpen (lbUsername b) i w2).
  { eapply deviceOpen_view; [|exact Ho]. symmetry. by etransitivity; [exact G2 | exact G1]. }
  rewrite (mustHold_false (lbUsername b) i w2 Hok2 Ho2).
  pose proof (sess_mustHold (lbUsername b) i w2) as S3.
  assert (Hok3 : sql_ok (mustHold (lbUsername b) i w2).2)
    by (apply respects_sql_ok; [unfold mustHold; frame | done]).
  destruct (mustHold _ _ w2) as [h w3]; cbn [fst snd] in *.
  set (l := deviceLabel _ _).
  destruct (loginComplete_done (lbUsername b) tok i l ip w3) as [Hc H200].
  split_and!; [done | done|]. rewrite <- Hrow. apply sessionUsername_view; [done | |].
  - apply respects_sql_ok; [unfold loginComplete, rememberDevice, touchDevice, profileNames; frame | done].
  - etransitivity; [apply sess_loginComplete|]. by etransitivity; [exact S3 | exact S2].
Qed.

Lemma factorOK_rehash_conv e now used u h v code d :
  factorOK e now used v code d -> factorOK e now used v code (onUser u (set_u_password_hash h) d).
Proof.
  unfold factorOK. rewrite userIn_rehash. intros [H|[(r & H1 & H2)|H]].
  - left. intros r' Hr'. destruct (userIn v d) as [r|]; [|done]. injection Hr' as <-.
    specialize (H r eq_refl). by destruct (u_username r ==? u).
  - right. left. rewrite H1. eexists. split; [reflexivity|]. by destruct (u_username r ==? u).
  - by right; right.
Qed.

Lemma notBanned_rehash_conv u h v d :
  notBanned v d -> notBanned v (onUser u (set_u_password_hash h) d).
Proof.
  intros H r (r0 & Hr & ->)%elem_of_tupdate. specialize (H r0 Hr). by destruct (u_username r0 ==? u).
Qed.

Lemma consumeBackupCode_done u code w :
  sql_ok w ->
  (exists b, b ∈ rows (totp_backup_codes (wDB w))
     /\ liveCode u (codeHash (wEnv w) (stripDashes code)) b = true) ->
  (consumeBackupCode u code w).1 = true.
Proof.
  intros Hok (b & Hb & Hl). unfold consumeBackupCode. sqlrun. rewrite tcount_pos.
  apply texists_true. eauto.
Qed.

Lemma secondFactor_done u code w :
  sql_ok w -> factorOK (wEnv w) (wNow w) (totpUsedCodes (wSrv w)) u code (wDB w) ->
  (secondFactor u code w).1 = true.
Proof.
  intros Hok H. unfold secondFactor, orM. rewrite bind_run.
  assert (Hv : sql_ok (verifyTOTP u code w).2) by (apply respects_sql_ok; [frame_deep | done]).
  assert (Hd : wDB (verifyTOTP u code w).2 = wDB w /\ wEnv (verifyTOTP u code w).2 = wEnv w).
  { unfold verifyTOTP, totpStatus, loadOrStoreCode. sqlrun.
    repeat (case_match; sqlrun; try done). }
  destruct (verifyTOTP u code w).1 eqn:E; [done|].
  destruct H as [H|[(r & H1 & H2 & H3)|H]].
  3: { apply consumeBackupCode_done; [done|]. destruct Hd as [-> ->]. exact H. }
  all: exfalso; revert E; unfold verifyTOTP, totpStatus; sqlrun.
  - destruct (userIn u (wDB w)) as [r|]; [|by sqlrun]. cbn [fst snd].
    destruct (H r eq_refl) as [Hne|Hne].
    + by rewrite (proj2 (Z.eqb_neq _ _) Hne); sqlrun.
    + rewrite Hne. change (is_empty "") with true. rewrite orb_true_r. by sqlrun.
  - rewrite H1. cbn [fst snd]. destruct (negb _ || _); sqlrun; [done|].
    rewrite H2. cbn [negb]. unfold loadOrStoreCode. sqlrun. by rewrite H3.
Qed.

(** The parts of the world the rest of the sign-in reads. *)
Definition issueView (w : World) := (session_tokens (wDB w), rndView w).

#[export] Instance fq_issueView : FreesSql (same issueView). Proof. by intros ?. Qed.
#[export] Instance fs_issueView : FreesSrv (same issueView). Proof. by intros ??. Qed.

Lemma freshToken_view tok w w' : issueView w' = issueView w -> freshToken tok w -> freshToken tok w'.
Proof.
  intros E [H1 H2]. pose proof (f_equal fst E) as E1. pose proof (f_equal snd E) as E2.
  cbn [issueView fst snd] in E1, E2. split.
  - by rewrite (randHex_view 32 w w' E2).
  - by rewrite E1.
Qed.

#[local] Hint Extern 2 (respects (same issueView) (Exec_ _)) =>
  apply respects_Exec_; [typeclasses eauto.. | intros w; reflexivity] : frame.
#[local] Hint Extern 2 (respects (same issueView) (ExecN _ _)) =>
  apply respects_ExecN; [typeclasses eauto.. | intros w; reflexivity] : frame.

Lemma issue_secondFactor u c : respects (same issueView) (secondFactor u c).
Proof.
  unfold secondFactor, orM, verifyTOTP, totpStatus, loadOrStoreCode, consumeBackupCode. frame.
Qed.
Lemma issue_authenticateUser u pw : respects (same issueView) (authenticateUser u pw).
Proof. unfold authenticateUser, onUser. frame. Qed.

Lemma loginSecond_done r b ip w tok :
  let u := lbUsername b in
  sql_ok w -> notBanned u (wDB w) ->
  calm totpWindow totpMaxAttempts (wNow w) u (totpFails (authTracker (wSrv w))) ->
  factorOK (wEnv w) (wNow w) (totpUsedCodes (wSrv w)) u (lbTOTPCode b) (wDB w) ->
  freshToken tok w -> deviceOpen u (deviceIDFromRequest r) w ->
  admitted u tok (loginSecond r b ip w).
Proof.
  intros u Hok Hban Hcalm Hf Hfresh Ho. unfold loginSecond, userBanInfo. fold u.
  rewrite !bind_run, ok_QueryRow by done. cbn [fst snd ret].
  assert (Hb : match userIn u (wDB w) with
               | Some x => (u_is_banned x =? 1, u_ban_reason x) | None => (false, "") end
               = (false, match userIn u (wDB w) with Some x => u_ban_reason x | None => "" end)).
  { destruct (userIn u (wDB w)) as [x|] eqn:E; [|done].
    apply find_first_Some in E as [Hx E]. bools.
    by rewrite (proj2 (Z.eqb_neq _ _) (Hban x Hx ltac:(done))). }
  cbv [ret]. cbn [fst snd]. rewrite Hb. rewrite !bind_run, getNow_run. cbn [fst snd].
  rewrite askTracker_run. cbn [fst snd]. unfold isTOTPThrottled. cbv zeta. cbn [fst].
  change (wNow (tickSql w)) with (wNow w). rewrite check_calm by exact Hcalm.
  set (w1 := set_wSrv _ _). assert (Hok1 : sql_ok w1) by (intros n; apply Hok).
  rewrite bind_run, secondFactor_done by done. cbn [negb].
  pose proof (gate_secondFactor u (lbTOTPCode b) w1) as G.
  pose proof (issue_secondFactor u (lbTOTPCode b) w1) as I.
  assert (Hok2 : sql_ok (secondFactor u (lbTOTPCode b) w1).2) by (apply respects_sql_ok; [frame_deep | done]).
  destruct (secondFactor u _ w1) as [x w2]; cbn [snd] in *. clear x.
  rewrite !bind_run. set (w3 := (authSuccess_Add _).2).
  apply loginIssue_done.
  - intros n; apply Hok2.
  - apply (freshToken_view tok w); [|done]. by transitivity (issueView w2).
  - eapply (deviceOpen_view _ _ _ w); [|done]. symmetry. by transitivity (gateView w2).
Qed.

(** ** The whole handler *)

Lemma httpLogin_done r b w tok :
  let u := lbUsername b in
  sql_ok w -> rqMethod r = "POST" -> u <> "" -> lbPassword b <> "" ->
  (authenticateUser u (lbPassword b) w).1 = true -> notBanned u (wDB w) ->
  unlocked (wNow w) (clientIP (wEnv w) r) u (authTracker (wSrv w)) ->
  factorOK (wEnv w) (wNow w) (totpUsedCodes (wSrv w)) u (lbTOTPCode b) (wDB w) ->
  freshToken tok w -> deviceOpen u (deviceIDFromRequest r) w ->
  admitted u tok (httpLoginHandler r (Some b) w).
Proof.
  intros u Hok Hm Hu Hp Ha Hban (C1 & C2 & C3) Hf Hfresh Ho. unfold httpLoginHandler. fold u.
  unfold is_empty. rewrite Hm, (eqb_neq_dec u "" Hu), (eqb_neq_dec _ "" Hp), eqb_refl_dec. cbn [negb orb].
  rewrite bind_run, getEnv_run. cbn [fst snd]. unfold throttledIP.
  rewrite !bind_run, getNow_run. cbn [fst snd]. rewrite askTracker_run. cbn [fst snd].
  unfold isIPThrottled at 1. cbv zeta. cbn [fst]. rewrite check_calm by exact C1.
  set (w1 := set_wSrv _ w). rewrite bind_run, getNow_run. cbn [fst snd].
  rewrite bind_run, askTracker_run. cbn [fst snd]. unfold isUserLocked at 1. cbv zeta. cbn [fst].
  rewrite check_calm by exact C2.
  set (w2 := set_wSrv _ w1). assert (Hok2 : sql_ok w2) by (intros n; apply Hok).
  rewrite bind_run.
  pose proof (authenticateUser_view u (lbPassword b) w w2 Hok Hok2 eq_refl eq_refl) as Ea.
  pose proof (gate_authenticateUser u (lbPassword b) w2) as G.
  pose proof (issue_authenticateUser u (lbPassword b) w2) as I.
  destruct (authenticateUser_run u (lbPassword b) w2 Hok2)
    as (ok & w3 & E & Hok3 & En & Ee & Es & Hdb & _).
  rewrite E in *. cbn [fst snd] in *. rewrite Ea, Ha. cbn [negb].
  apply loginSecond_done.
  - done.
  - destruct Hdb as [->|[h ->]]; [exact Hban | by apply notBanned_rehash_conv].
  - rewrite En, Es. exact C3.
  - rewrite Ee, En, Es. destruct Hdb as [->|[h ->]]; [exact Hf | by apply factorOK_rehash_conv].
  - apply (freshToken_view tok w); [exact I | exact Hfresh].
  - apply (deviceOpen_view _ _ _ w2); [symmetry; exact G | exact Ho].
Qed.

(** No failure that [e] records counts against the address [ip] or the account
    [u]. *)
Definition spares (ip u : string) (e : tev) : Prop :=
  ipOp e <> CBump ip /\ userOp e <> CBump u /\ totpOp e <> CBump u.

Lemma unlocked_later ip u evs0 evs now now' :
  in_order 0 evs0 -> lastInstant 0 evs0 <= now -> Forall (fun ne => spares ip u ne.2) evs ->
  now + 30 * Minute < now' -> unlocked now' ip u (trun (evs0 ++ evs) authTracker0).
Proof.
  intros Ho Hl Hs Hn. split_and!.
  - eapply (calm_later _ ipOp); [intros n e t; apply (tstep_maps n e t) | done.. | |].
    + eapply Forall_impl; [exact Hs | by intros ? (? & ? & ?)].
    + unfold authIPWindow. unfold Minute, Second in *. lia.
  - eapply (calm_later _ userOp); [intros n e t; apply (tstep_maps n e t) | done.. | |].
    + eapply Forall_impl; [exact Hs | by intros ? (? & ? & ?)].
    + done.
  - eapply (calm_later _ totpOp); [intros n e t; apply (tstep_maps n e t) | done.. | |].
    + eapply Forall_impl; [exact Hs | by intros ? (? & ? & ?)].
    + unfold totpWindow. unfold Minute, Second in *. lia.
Qed.

(** C10: lockouts end.  Take any history of the failed-attempt tracker up to an
    instant [now], however many failures it holds, and let anything happen
    after it - other people's failures, questions, sweeps, successes - except a
    further failure counted against this address or this account.  Then in
    every state more than half an hour after [now], whatever else has changed
    in it, a sign-in with the right password of an account that is not banned,
    with its second factor and from a device the gate lets in is answered 200
    with a cookie whose session authenticates the account.  It needs statements
    that succeed and a token that is not in use, and nothing else.  A failure
    against the account, whoever makes it, starts the half hour again. *)
Theorem owner_signs_in evs0 evs now r b w tok :
  let u := lbUsername b in
  let ip := clientIP (wEnv w) r in
  in_order 0 evs0 -> lastInstant 0 evs0 <= now ->
  Forall (fun ne => spares ip u ne.2) evs ->
  authTracker (wSrv w) = trun (evs0 ++ evs) authTracker0 -> now + 30 * Minute < wNow w ->
  sql_ok w -> rqMethod r = "POST" -> u <> "" -> lbPassword b <> "" ->
  (authenticateUser u (lbPassword b) w).1 = true -> notBanned u (wDB w) ->
  factorOK (wEnv w) (wNow w) (totpUsedCodes (wSrv w)) u (lbTOTPCode b) (wDB w) ->
  freshToken tok w -> deviceOpen u (deviceIDFromRequest r) w ->
  let res := httpLoginHandler r (Some b) w in
  rsCode res.1 = StatusOK
  /\ (sessionCookieName, tok) ∈ rsCookies res.1
  /\ (sessionUsername tok res.2).1 = u.
Proof.
  intros u ip Ho Hl Hs Et Hn Hok Hm Hu Hp Ha Hban Hf Hfresh Hd.
  apply (httpLogin_done r b w tok); try done. rewrite Et. by apply (unlocked_later ip u evs0 evs now).
Qed.

(** Ten failures from a dozen addresses lock alice out; while bob goes on
    failing, half an hour later she is in. *)
Definition ownReq : Request :=
  mkRequest "POST" "/api/login" "10.0.0.9:5000" (fun _ => "")
    (fun n => if n ==? "phaze_device" then "dev9" else "") (fun _ => "").
Definition attack : list (Z * tev) := replicate 10 (T0, TFail "10.0.0.66" "alice").
Definition meanwhile : list (Z * tev) := [(T0 + Minute, TFail "10.0.0.7" "bob"); (T0 + 20 * Minute, TSweep)].
Definition lockedW (t : Z) (evs : list (Z * tev)) : World :=
  set_wNow t
    (set_wSrv (set_authTracker (trun (attack ++ evs) authTracker0) (wSrv sampleW))
      (set_wDB (set_known_devices (tableOf [mkKnownDevice "alice" "dev9" "Firefox" (sqlNow T0) "10.0.0.9"])
                  (wDB sampleW)) sampleW)).

Lemma owner_signs_in_witness :
  let w := lockedW (T0 + 31 * Minute) meanwhile in
  rsCode (httpLoginHandler ownReq (Some loginBody) (lockedW T0 [])).1 = StatusTooManyRequests
  /\ (sessionUsername firstToken (httpLoginHandler ownReq (Some loginBody) w).2).1 = "alice".
Proof.
  intros w. split; [vm_compute; reflexivity|].
  assert (Hok : sql_ok w) by apply sampleW_ok.
  apply (owner_signs_in attack meanwhile T0 ownReq loginBody w firstToken).
  - by vm_compute.
  - by vm_compute.
  - repeat constructor; discriminate.
  - reflexivity.
  - reflexivity.
  - exact Hok.
  - reflexivity.
  - discriminate.
  - discriminate.
  - vm_compute. reflexivity.
  - refine (proj1 (Forall_forall (fun x => u_username x = "alice" -> u_is_banned x <> 1) _) _).
    repeat constructor; discriminate.
  - left. vm_compute. intros r [= <-]. by left.
  - split; vm_compute; reflexivity.
  - right. left. split; [discriminate | vm_compute; reflexivity].
Defined.
