(* ===== verification/CallSpec.v ===== *)
(** * Who hears a call signal

    Session descriptions and candidates pass between the two connections that
    are in the call with each other, and nowhere else. *)

From Stdlib Require Import ZArith Lia.
From stdpp Require Import base strings list gmap.
From S2P Require Import Prelude GoRt Store Wire Db World Wf Samples Registry Social SocialSpec Calls.

Open Scope string_scope.
Open Scope list_scope.
Open Scope Z_scope.

(** Connection [c] is in a call with [partner]. *)
Definition callingTo (c : nat) (partner : string) (s : NexusServer) : Prop :=
  exists k, Heap s !! c = Some k /\ cInCall k = true /\ cCallPartner k = partner.

(** What a relayed signal carries: the true sender and the three fields of
    the negotiation, nothing else of what the client wrote. *)
Definition signalFrame (u : string) (msg : NexusMessage) : NexusMessage :=
  nm "call_signal" |> set_mSender u |> set_mRecipient (mRecipient msg) |> set_mBody (mBody msg)
    |> set_mSDP (mSDP msg) |> set_mCandidate (mCandidate msg).

Lemma findConn_Some p u s c :
  findConn p u s = Some c -> c ∈ connsOf s u /\ exists k, Heap s !! c = Some k /\ p k = true.
Proof.
  unfold findConn. intros H. apply find_first_Some in H as [Hin Hp]. split; [done|].
  destruct (Heap s !! c) as [k|]; [by exists k | done].
Qed.

Lemma findConn_None p u s c k :
  findConn p u s = None -> c ∈ connsOf s u -> Heap s !! c = Some k -> p k = false.
Proof.
  unfold findConn. rewrite find_first_None. intros H Hin Hk. specialize (H c Hin). by rewrite Hk in H.
Qed.

(** A signal within the size limits that says something. *)
Lemma validCallSignal_bounds m :
  validCallSignal m = true -> len (mSDP m) <= 65536 /\ len (mCandidate m) <= 4096.
Proof.
  unfold validCallSignal, maxCallSDP, maxCallCandidate. destruct (_ || _) eqn:E; [done|].
  intros _. apply orb_false_iff in E as [E1 E2]. bools. lia.
Qed.

Lemma callPeer_spec u partner s c :
  findConn (fun k => cInCall k && (cCallPartner k ==? partner)) u s = Some c ->
  c ∈ connsOf s u /\ callingTo c partner s.
Proof.
  intros H. apply findConn_Some in H as (Hin & k & Hk & Hp). split; [done|].
  exists k. bools. by split_and!.
Qed.

Lemma callPeer_exists u partner s c :
  c ∈ connsOf s u -> callingTo c partner s ->
  exists p, findConn (fun k => cInCall k && (cCallPartner k ==? partner)) u s = Some p.
Proof.
  intros Hin (k & Hk & H1 & H2). destruct (findConn _ u s) as [p|] eqn:E; [by exists p|].
  apply (findConn_None _ _ _ c k E Hin) in Hk. by rewrite H1, H2, eqb_refl_dec in Hk.
Qed.

Lemma callingTo_default c partner s :
  let k := default (newClient "") (Heap s !! c) in
  cInCall k && (cCallPartner k ==? partner) = true <-> callingTo c partner s.
Proof.
  unfold callingTo. destruct (Heap s !! c) as [k|]; simpl; split.
  - intros H. bools. by exists k.
  - intros (k' & [= <-] & -> & ->). by rewrite eqb_refl_dec.
  - done.
  - by intros (k' & ? & _).
Qed.

(** C37: a call signal reaches the other end of the call and nobody else.
    Either [call_signal] does nothing at all, or the sending connection is
    itself in a call with the recipient, the payload is within the limits, and
    exactly one frame goes out - to one connection of the recipient that is in
    the call with the sender - under the sender's authenticated name and with
    nothing but the negotiation fields.  And when the sender is in the call,
    the payload is valid and the recipient has such a connection, the frame
    is written to a connection like that, if its socket takes it. *)
Theorem call_signal_exact client u msg w :
  let w' := (case_call_signal client u msg w).2 in
  (w' = w
   \/ exists p, w' = set_wOut (wOut w ++ [EvSend p (signalFrame u msg)]) w
        /\ p ∈ connsOf (wSrv w) (mRecipient msg) /\ callingTo p u (wSrv w)
        /\ callingTo client (mRecipient msg) (wSrv w)
        /\ len (mSDP msg) <= 65536 /\ len (mCandidate msg) <= 4096)
  /\ (u <> "" -> mRecipient msg <> "" -> validCallSignal msg = true ->
      callingTo client (mRecipient msg) (wSrv w) ->
      forall c, c ∈ connsOf (wSrv w) (mRecipient msg) -> callingTo c u (wSrv w) ->
      exists p, p ∈ connsOf (wSrv w) (mRecipient msg) /\ callingTo p u (wSrv w)
        /\ wOut w' = wOut w ++ if writable w p then [EvSend p (signalFrame u msg)] else []).
Proof.
  cbn zeta. unfold case_call_signal. split.
  - destruct (_ || _); [by left|]. destruct (validCallSignal msg) eqn:Ev; [|by left].
    cbn [negb]. unfold getClient, callPeerLocked. rewrite !bind_run, !gets_run. cbn [fst snd].
    destruct (findConn _ _ _) as [p|] eqn:Ep; [|by left].
    destruct (_ && _) eqn:Em; [|by left]. cbn [negb]. apply callingTo_default in Em.
    rewrite Send__frames. cbn [snd]. unfold frames. rewrite boolfilter_cons.
    destruct (writable w p); [|left; apply set_wOut_nil]. right. exists p.
    apply callPeer_spec in Ep as [A B]. apply validCallSignal_bounds in Ev as [C D]. by split_and!.
  - intros Hu Hr Hv Hm c Hin Hc. destruct (callPeer_exists _ _ _ c Hin Hc) as [p Ep].
    pose proof (callPeer_spec _ _ _ _ Ep) as [A B]. exists p. split_and!; [done..|].
    unfold is_empty. rewrite (eqb_neq_dec _ _ Hu), (eqb_neq_dec _ _ Hr), Hv. cbn [orb negb].
    unfold getClient, callPeerLocked. rewrite !bind_run, !gets_run. cbn [fst snd]. rewrite Ep.
    apply callingTo_default in Hm. rewrite Hm. cbn [negb]. rewrite Send__frames. cbn [snd wOut set_wOut].
    unfold frames. rewrite boolfilter_cons. by destruct (writable w p).
Qed.

(** ** At a concrete state *)

(** Alice and Bob, in a call with each other. *)
Definition callW : World :=
  mkW sampleDB (set_Heap
    {[ 1%nat := set_cCallPartner "bob" (set_cInCall true (set_cUsername "alice" (newClient "10.0.0.1")));
       2%nat := set_cCallPartner "alice" (set_cInCall true (set_cUsername "bob" (newClient "10.0.0.2"))) ]}
    sampleServer) T0.

Definition offerMsg : NexusMessage :=
  nm "call_signal" |> set_mSender "mallory" |> set_mRecipient "bob" |> set_mBody "offer" |> set_mSDP "v=0".

Lemma call_signal_exact_witness :
  exists p, p ∈ connsOf (wSrv callW) "bob"
    /\ wOut (case_call_signal 1 "alice" offerMsg callW).2
       = if writable callW p then [EvSend p (signalFrame "alice" offerMsg)] else [].
Proof.
  destruct (proj2 (call_signal_exact 1 "alice" offerMsg callW)) with (c := 2%nat) as (p & A & _ & B).
  - discriminate.
  - discriminate.
  - vm_compute. reflexivity.
  - eexists. split; [vm_compute; reflexivity | by split].
  - vm_compute. left.
  - eexists. split; [vm_compute; reflexivity | by split].
  - exists p. split; [exact A | exact B].
Defined.
