(* ===== verification/ConvoSpec.v ===== *)
(** * What a group conversation promises

    Membership changes only the way the rules say, and a message reaches every
    other member: live on each open connection, or through the queue. *)

From Stdlib Require Import ZArith Lia.
From stdpp Require Import base strings list gmap.
From S2P Require Import Prelude GoRt Store Wire Db World Wf Samples Registry Social SocialSpec Dm DmSpec Convo AccountSpec.

Open Scope string_scope.
Open Scope list_scope.
Open Scope Z_scope.

(** ** Membership *)

(** The messages about a conversation. *)
Inductive convoOp := OpCreate | OpPost | OpLeave | OpAdd | OpRemove | OpRename | OpHistory.

Definition run_convoOp (o : convoOp) (client : nat) (u : string) (msg : NexusMessage) : M unit :=
  match o with
  | OpCreate => case_convo_create client u msg
  | OpPost => case_convo_msg u msg
  | OpLeave => case_convo_leave u msg
  | OpAdd => case_convo_add_member client u msg
  | OpRemove => case_convo_remove_member client u msg
  | OpRename => case_convo_rename client u msg
  | OpHistory => case_convo_history client u msg
  end.

(** What membership and ownership depend on. *)
Definition convoView (w : World) :=
  (conversation_members (wDB w), (fun c => (cv_id c, cv_created_by c)) <$> rows (conversations (wDB w))).

#[export] Instance fq_convoView : FreesSql (same convoView). Proof. by intros ?. Qed.
#[export] Instance fo_convoView : FreesOut (same convoView). Proof. by intros ??. Qed.
#[export] Instance fs_convoView : FreesSrv (same convoView). Proof. by intros ??. Qed.
#[export] Instance fr_convoView : FreesRand (same convoView). Proof. by intros ??. Qed.

#[local] Hint Extern 2 (respects (same convoView) (Exec_ _)) =>
  apply respects_Exec_; [typeclasses eauto.. | intros w; unfold same, convoView; cbn; by rewrite ?fmap_tupdate] : frame.
#[local] Hint Extern 2 (respects (same convoView) (ExecOk _)) =>
  apply respects_ExecOk; [typeclasses eauto.. | intros w; unfold same, convoView; cbn; by rewrite ?fmap_tupdate] : frame.

Lemma convo_push u s b : respects (same convoView) (push u s b).
Proof. unfold push, sendWebPush, sendFCMPush. frame. Qed.
Lemma convo_members id : respects (same convoView) (conversationMembers id).
Proof. unfold conversationMembers. frame. Qed.
#[local] Hint Resolve convo_push convo_members : frame.

Lemma view_post u msg : respects (same convoView) (case_convo_msg u msg).
Proof. unfold case_convo_msg, convoDeliver, convoName. frame. Qed.
Lemma view_rename client u msg : respects (same convoView) (case_convo_rename client u msg).
Proof. unfold case_convo_rename, convoError, conversationCreator, renameConversation. frame. Qed.
Lemma view_history client u msg : respects (same convoView) (case_convo_history client u msg).
Proof. unfold case_convo_history, isConvoMember. frame. Qed.

Lemma memberIn_view id x w w' : convoView w' = convoView w -> memberIn id x (wDB w') = memberIn id x (wDB w).
Proof. unfold convoView. intros E. injection E as E _. unfold memberIn. by rewrite E. Qed.

Lemma creatorOf_list id d :
  creatorOf id d = snd <$> find_first (fun p => p.1 ==? id)
                             ((fun c => (cv_id c, cv_created_by c)) <$> rows (conversations d)).
Proof.
  unfold creatorOf, tfirst. induction (rows (conversations d)) as [|c l IH]; [done|]. simpl.
  by destruct (cv_id c ==? id).
Qed.

Lemma creatorOf_view id w w' : convoView w' = convoView w -> creatorOf id (wDB w') = creatorOf id (wDB w).
Proof. unfold convoView. intros E. injection E as _ E. by rewrite !creatorOf_list, E. Qed.

Lemma memberIn_membersOf id x d : memberIn id x d = true <-> x ∈ membersOf id d.
Proof.
  unfold memberIn, membersOf, isMemberRow. rewrite texists_true, list_elem_of_fmap. split.
  - intros (r & Hr & Hp). bools. exists r. split; [done|]. apply elem_of_tselect. split; [|done].
    by apply bool_decide_eq_true.
  - intros (r & -> & Hr). apply elem_of_tselect in Hr as [Hp Hr]. exists r. split; [done|].
    by rewrite Hp, eqb_refl_dec.
Qed.

Lemma memberIn_insert id x id' y d :
  memberIn id x (insertMember id' y d) = memberIn id x d || ((id' ==? id) && (y ==? x)).
Proof.
  unfold insertMember, memberIn, tinsert_ignore. cbn [conversation_members set_conversation_members].
  destruct (texists (isMemberRow id' y) (conversation_members d)) eqn:E.
  - destruct (id' ==? id) eqn:E1; [|by rewrite orb_false_r]. destruct (y ==? x) eqn:E2; bools; subst;
      [by rewrite E | by rewrite orb_false_r].
  - unfold texists, tinsert. cbn [rows]. rewrite existsb_app. simpl. by rewrite orb_false_r.
Qed.

Lemma memberIn_inserts id x id' ys d :
  memberIn id x (foldl (fun d y => insertMember id' y d) d ys)
  = memberIn id x d || ((id' ==? id) && existsb (fun y => y ==? x) ys).
Proof.
  revert d. induction ys as [|y ys IH]; intros d; simpl; [by rewrite andb_false_r, orb_false_r|].
  rewrite IH, memberIn_insert. destruct (memberIn id x d), (id' ==? id); simpl; done.
Qed.

Lemma memberIn_leave id x id' y d :
  memberIn id x (leaveIn id' y d) = memberIn id x d && negb ((id' ==? id) && (y ==? x)).
Proof.
  unfold memberIn, leaveIn. cbn [conversation_members set_conversation_members].
  destruct (texists (isMemberRow id x) (tdelete _ _)) eqn:E; symmetry.
  - apply texists_true in E as (r & Hr & Hp). apply elem_of_tdelete in Hr as [Hr Hn].
    apply andb_true_iff. split; [apply texists_true; by exists r|]. apply negb_true_iff.
    unfold isMemberRow in *. bools. subst.
    destruct (id' ==? cvm_convo_id r) eqn:E1; [|done]. simpl. bools. subst.
    rewrite eqb_refl_dec in Hn. simpl in Hn. bools. apply eqb_neq_dec. congruence.
  - destruct (texists (isMemberRow id x) (conversation_members d)) eqn:Et; [|done]. simpl.
    apply negb_false_iff. apply texists_true in Et as (r & Hr & Hp). rewrite texists_false in E.
    destruct (isMemberRow id' y r) eqn:Ed.
    + unfold isMemberRow in *. bools. subst. by rewrite !eqb_refl_dec.
    + specialize (E r ltac:(by apply elem_of_tdelete)). congruence.
Qed.

Lemma inb_elem x l : inb x l = true -> x ∈ l.
Proof.
  unfold inb. rewrite existsb_exists. intros (y & Hy & E). bools. subst. by apply list_elem_of_In.
Qed.

Lemma dedup_sub seen l x : x ∈ dedup seen l -> x ∈ l.
Proof.
  revert seen. induction l as [|y l IH]; intros seen; simpl; [done|]. destruct (existsb _ _).
  - intros H. right. by eapply IH.
  - intros [->|H]%elem_of_cons; [left | right; by eapply IH].
Qed.

(** What the queries can answer: the table's content, or nothing. *)
Lemma members_run id w :
  exists l, conversationMembers id w = (l, tickSql w) /\ forall x, x ∈ l -> x ∈ membersOf id (wDB w).
Proof.
  unfold conversationMembers, Query, bind. destruct (faulty w); eexists; (split; [reflexivity|]);
    simpl; [by intros ? ?%elem_of_nil | done].
Qed.

Lemma friends_run u w :
  exists l, getFriends u w = (l, tickSql w) /\ forall x, x ∈ l -> x ∈ friendsOf u (wDB w).
Proof.
  unfold getFriends, Query, bind. destruct (faulty w); eexists; (split; [reflexivity|]);
    simpl; [by intros ? ?%elem_of_nil | done].
Qed.

Lemma creator_run id w :
  exists o, conversationCreator id w = (o, tickSql w) /\ forall c, o = Some c -> creatorOf id (wDB w) = Some c.
Proof.
  unfold conversationCreator, QueryRow, QueryRowE, bind. destruct (faulty w);
    [eexists; split; [reflexivity | done]|].
  destruct (creatorOf id (wDB w)) as [c|]; (eexists; split; [reflexivity|]); [|done].
  by intros c' [= ->].
Qed.

Lemma isMember_run id u w : exists b, isConvoMember id u w = (b, tickSql w).
Proof.
  unfold isConvoMember, QueryRow, QueryRowE, bind. destruct (faulty w); [by eexists|].
  destruct (memberIn id u (wDB w)); by eexists.
Qed.

(** ** The effect of each message on the membership *)

(** A join that the rules allow, a departure that they allow. *)
Definition mayJoin (o : convoOp) (u : string) (msg : NexusMessage) (id x : string) (d d' : Database) : Prop :=
  (o = OpCreate /\ creatorOf id d = None /\ creatorOf id d' = Some u
     /\ (x = u \/ (x ∈ mMembers msg /\ x ∈ friendsOf u d)))
  \/ (o = OpAdd /\ id = mConvoID msg /\ u ∈ membersOf id d /\ x ∈ mMembers msg /\ x ∈ friendsOf u d).

Definition mayGo (o : convoOp) (u : string) (msg : NexusMessage) (id x : string) (d : Database) : Prop :=
  id = mConvoID msg
  /\ ((o = OpLeave /\ x = u) \/ (o = OpRemove /\ x = mRecipient msg /\ creatorOf id d = Some u)).

(** The rules, as a relation between the states around one message. *)
Definition follows_rules (o : convoOp) (u : string) (msg : NexusMessage) (w w' : World) : Prop :=
  forall id,
    (forall x, memberIn id x (wDB w) = false -> memberIn id x (wDB w') = true ->
       mayJoin o u msg id x (wDB w) (wDB w'))
    /\ (forall x, memberIn id x (wDB w) = true -> memberIn id x (wDB w') = false ->
          mayGo o u msg id x (wDB w))
    /\ (forall c, creatorOf id (wDB w) = Some c -> creatorOf id (wDB w') = Some c).

Lemma rules_view o u msg w w' : convoView w' = convoView w -> follows_rules o u msg w w'.
Proof.
  intros E id. rewrite (creatorOf_view id w w' E). split_and!; [| |done];
    intros x; rewrite (memberIn_view id x w w' E); congruence.
Qed.

(** What happens after the write does not matter. *)
Lemma rules_suffix o u msg w w1 w' :
  convoView w' = convoView w1 -> follows_rules o u msg w w1 -> follows_rules o u msg w w'.
Proof.
  intros E H id. destruct (H id) as (A & B & C). rewrite (creatorOf_view id w1 w' E).
  split_and!; [intros x; rewrite (memberIn_view id x w1 w' E)..|exact C]; [|apply B].
  intros H1 H2. specialize (A x H1 H2). unfold mayJoin in *. by rewrite (creatorOf_view id w1 w' E).
Qed.

(** A departure is the deletion of one membership row. *)
Lemma rules_leave o u msg x w e :
  ((o = OpLeave /\ x = u) \/ (o = OpRemove /\ x = mRecipient msg /\ creatorOf (mConvoID msg) (wDB w) = Some u)) ->
  wDB e = wDB w -> follows_rules o u msg w (leaveConversation (mConvoID msg) x e).2.
Proof.
  intros Ho He. unfold leaveConversation, ExecOk, bind. destruct (faulty e); cbn [fst snd ret].
  { apply rules_view. unfold convoView. simpl. by rewrite He. }
  intros id. simpl. rewrite He. split_and!; [| |done]; intros y Hy.
  - rewrite memberIn_leave, Hy. done.
  - rewrite memberIn_leave, Hy. simpl. intros Hn. apply negb_false_iff in Hn. bools. subst.
    split; [done|]. destruct Ho as [Ho|(H1 & H2 & H3)]; [by left | right]. by split_and!.
Qed.

(** A computation that only reads and sends keeps the view. *)
Ltac by_view :=
  match goal with
  | |- convoView (?m ?a).2 = _ => apply (fun H : respects (same convoView) m => H a); frame
  end.

Lemma rules_case_leave u msg w : follows_rules OpLeave u msg w (case_convo_leave u msg w).2.
Proof.
  unfold case_convo_leave. destruct (_ || _); [by apply rules_view|].
  rewrite bind_run. destruct (isMember_run (mConvoID msg) u w) as [b ->]. cbn [fst snd].
  destruct b; cbn [negb]; [|by apply rules_view]. rewrite bind_run.
  eapply rules_suffix; [|apply (rules_leave OpLeave u msg u w (tickSql w)); [by left | done]].
  by_view.
Qed.

Lemma rules_case_remove client u msg w :
  follows_rules OpRemove u msg w (case_convo_remove_member client u msg w).2.
Proof.
  unfold case_convo_remove_member. destruct (_ || _); [by apply rules_view|].
  destruct (_ ==? _); [apply rules_view; unfold convoError;
    by_view|].
  rewrite bind_run. destruct (creator_run (mConvoID msg) w) as (cr & -> & Hc). cbn [fst snd].
  case_bool_decide as E; cbn [negb]; [|apply rules_view; unfold convoError;
    by_view].
  rewrite bind_run. destruct (isMember_run (mConvoID msg) (mRecipient msg) (tickSql w)) as [b ->]. cbn [fst snd].
  destruct b; cbn [negb]; [|by apply rules_view]. rewrite bind_run.
  eapply rules_suffix;
    [|apply (rules_leave OpRemove u msg (mRecipient msg) w (tickSql (tickSql w))); [right; auto | done]].
  unfold convoName.
  by_view.
Qed.

(** Adding rows for [ys] to conversation [id']. *)
Lemma foldl_insert_conversations id' ys d :
  conversations (foldl (fun d y => insertMember id' y d) d ys) = conversations d.
Proof. revert d. induction ys as [|y ys IH]; intros d; [done|]. simpl. by rewrite IH. Qed.

Lemma tx_pure_inserts id' ys d :
  tx_pure ((fun y d => inr (insertMember id' y d)) <$> ys) d
  = inr (foldl (fun d y => insertMember id' y d) d ys).
Proof. revert d. induction ys as [|y ys IH]; intros d; simpl; [done | apply IH]. Qed.

Lemma rules_case_add client u msg w :
  follows_rules OpAdd u msg w (case_convo_add_member client u msg w).2.
Proof.
  unfold case_convo_add_member, convoError. destruct (_ || _); [by apply rules_view|].
  rewrite bind_run. destruct (members_run (mConvoID msg) w) as (ex & -> & Hex). cbn [fst snd].
  destruct (inb u ex) eqn:Eu; cbn [negb]; [|apply rules_view; by_view].
  rewrite bind_run. destruct (friends_run u (tickSql w)) as (fs & -> & Hfs). cbn [fst snd].
  assert (Hadd : forall x, x ∈ toAdd msg ex fs -> x ∈ mMembers msg /\ x ∈ friendsOf u (wDB w)).
  { intros x Hx. apply elem_of_boolfilter in Hx as [Hx Hm]. bools. split; [done|].
    apply (Hfs x). by apply inb_elem. }
  destruct (toAdd msg ex fs) as [|a add]; [apply rules_view; by_view|].
  rewrite bind_run. unfold addConversationMembers. rewrite (bind_run (Tx _)).
  set (w1 := tickSql (tickSql w)).
  pose proof (Tx_outcome ((fun m d => inr (insertMember (mConvoID msg) m d)) <$> a :: add) w1) as HT.
  destruct (Tx _ w1) as [[e|] w2]; cbn [fst snd ret fmap option_fmap option_map] in *.
  - apply rules_view. transitivity (convoView w2); [by_view|]. unfold convoView. by rewrite HT.
  - rewrite tx_pure_inserts in HT. apply inr_inj in HT.
    eapply (rules_suffix _ _ _ _ w2); [unfold convoName, conversationCreator; by_view|].
    intros id. rewrite <- HT. split_and!.
    + intros x H0. rewrite memberIn_inserts. change (wDB w1) with (wDB w). rewrite H0. cbn [orb].
      intros H. apply andb_true_iff in H as [H1 H2]. apply inb_elem in H2. bools. subst id.
      right. destruct (Hadd x H2). split_and!; [done | done | by apply Hex, inb_elem | done | done].
    + intros x H0. rewrite memberIn_inserts. change (wDB w1) with (wDB w). by rewrite H0.
    + intros c Hc. unfold creatorOf. by rewrite foldl_insert_conversations.
Qed.

Lemma creatorOf_insert id id' name u d d' :
  insertConversation id' name u d = inr d' ->
  creatorOf id' d = None
  /\ creatorOf id d' = (if id' ==? id then Some u else creatorOf id d)
  /\ forall x, memberIn id x d' = memberIn id x d.
Proof.
  unfold insertConversation, tinsert_unique. destruct (texists _ _) eqn:E; [done|].
  intros [= <-]. apply tfirst_None in E. unfold creatorOf at 1. rewrite E. split_and!; [done| |done].
  unfold creatorOf. cbn [conversations set_conversations]. rewrite tfirst_tinsert.
  destruct (tfirst (fun r => cv_id r ==? id) _) as [c|] eqn:Ec; simpl.
  - case_bool_decide; [subst; congruence | done].
  - by destruct (id' ==? id).
Qed.

Lemma rules_case_create client u msg w :
  follows_rules OpCreate u msg w (case_convo_create client u msg w).2.
Proof.
  unfold case_convo_create, convoError. destruct (is_empty u); [by apply rules_view|].
  rewrite bind_run. destruct (friends_run u w) as (fs & -> & Hfs). cbn [fst snd].
  assert (Hel : forall x, x ∈ eligible u msg fs ->
            x = u \/ (x ∈ mMembers msg /\ x ∈ friendsOf u (wDB w))).
  { intros x Hx. apply elem_of_boolfilter in Hx as [Hx Hm].
    apply inb_elem, elem_of_cons in Hx as [->|Hx]; [by left|]. right. split; [done|]. by apply Hfs. }
  destruct (eligible u msg fs) as [|a el]; [apply rules_view; by_view|].
  rewrite bind_run. pose proof (respects_randHex (same wDB) 16 (tickSql w)) as Hr. unfold same in Hr.
  destruct (randHex 16 (tickSql w)) as [[id'|] w1]; cbn [fst snd] in *;
    [|apply rules_view; transitivity (convoView w1); [by_view | unfold convoView; by rewrite Hr]].
  rewrite bind_run. unfold createConversation. rewrite (bind_run (Tx _)).
  match goal with |- context [Tx ?ss w1] => pose proof (Tx_outcome ss w1) as HT; destruct (Tx ss w1) as [[e|] w2] end;
    cbn [fst snd ret fmap option_fmap option_map] in *.
  - apply rules_view. transitivity (convoView w2); [by_view|]. unfold convoView. by rewrite HT, Hr.
  - eapply (rules_suffix _ _ _ _ w2); [by_view|]. rewrite Hr in HT. change (wDB (tickSql w)) with (wDB w) in HT.
    cbn [tx_pure] in HT. destruct (insertConversation _ _ _ _) as [|d1] eqn:Ei; [done|].
    rewrite tx_pure_inserts in HT. apply inr_inj in HT. intros id.
    destruct (creatorOf_insert id _ _ _ _ _ Ei) as (A & B & C).
    assert (D : creatorOf id (wDB w2) = if id' ==? id then Some u else creatorOf id (wDB w)).
    { rewrite <- HT. unfold creatorOf at 1. rewrite foldl_insert_conversations. exact B. }
    assert (F : forall x, memberIn id x (wDB w2) = memberIn id x (wDB w)
              || ((id' ==? id) && existsb (fun y => y ==? x) (dedup [] (u :: a :: el)))).
    { intros x. by rewrite <- HT, memberIn_inserts, C. }
    split_and!.
    + intros x H0. rewrite F, H0. cbn [orb].
      intros H. apply andb_true_iff in H as [H1 H2]. apply inb_elem, dedup_sub in H2. bools. subst id'.
      left. rewrite D, eqb_refl_dec. split_and!; [done..|].
      apply elem_of_cons in H2 as [->|H2]; [by left | by apply Hel].
    + intros x H0. by rewrite F, H0.
    + intros c Hc. rewrite D. case_bool_decide; [subst; congruence | done].
Qed.

(** C18: who is in a group changes only by the rules, whatever fails.  Under
    any message about a conversation a name can join only (a) a conversation
    that message creates, whose creator is the sender, as the sender or as one
    of the listed members who is the sender's friend, or (b) by an
    [convo_add_member] of a sender who is in the group, as a listed friend of
    the sender; a name can leave only by its own [convo_leave] or by the
    creator's [convo_remove_member]; and a conversation never changes hands. *)
Theorem convo_membership o client u msg w :
  follows_rules o u msg w (run_convoOp o client u msg w).2.
Proof.
  destruct o; simpl.
  - apply rules_case_create.
  - apply rules_view, view_post.
  - apply rules_case_leave.
  - apply rules_case_add.
  - apply rules_case_remove.
  - apply rules_view, view_rename.
  - apply rules_view, view_history.
Qed.

(** ** The fan-out of a message *)

(** What delivery depends on: who is connected, and which sockets work. *)
Definition netView (w : World) := (Clients (wSrv w), Heap (wSrv w)).

#[export] Instance fq_netView : FreesSql (same netView). Proof. by intros ?. Qed.
#[export] Instance fo_netView : FreesOut (same netView). Proof. by intros ??. Qed.
#[export] Instance fd_netView : FreesDB (same netView). Proof. by intros ??. Qed.

Lemma net_push u s b : respects (same netView) (push u s b).
Proof. unfold push, sendWebPush, sendFCMPush. frame. Qed.

Definition logView (w : World) := convo_messages (wDB w).

#[export] Instance fq_logView : FreesSql (same logView). Proof. by intros ?. Qed.
#[export] Instance fo_logView : FreesOut (same logView). Proof. by intros ??. Qed.

#[local] Hint Extern 2 (respects (same logView) (Exec_ _)) =>
  apply respects_Exec_; [typeclasses eauto.. | intros w; reflexivity] : frame.

Lemma log_push u s b : respects (same logView) (push u s b).
Proof. unfold push, sendWebPush, sendFCMPush. frame. Qed.

Lemma writable_net w w' c : netView w' = netView w -> writable w' c = writable w c.
Proof. unfold netView, writable. intros E. injection E as _ E. by rewrite E. Qed.

Lemma frames_net w w' cs m : netView w' = netView w -> frames w' cs m = frames w cs m.
Proof.
  intros E. unfold frames. f_equal. apply boolfilter_ext. intros c _. by apply writable_net.
Qed.

Lemma connsOf_net w w' u : netView w' = netView w -> connsOf (wSrv w') u = connsOf (wSrv w) u.
Proof. unfold netView, connsOf. intros E. injection E as E _. by rewrite E. Qed.

(** Whether some connection of [m] takes a write. *)
Definition reachableNow (w : World) (m : string) : bool := existsb (writable w) (connsOf (wSrv w) m).

Lemma reachableNow_net w w' m : netView w' = netView w -> reachableNow w' m = reachableNow w m.
Proof.
  intros E. unfold reachableNow. rewrite (connsOf_net w w' m E).
  induction (connsOf (wSrv w) m) as [|c cs IH]; [done|]. simpl. by rewrite IH, (writable_net w w' c E).
Qed.

Lemma frames_unreachable w m f : reachableNow w m = false -> frames w (connsOf (wSrv w) m) f = [].
Proof.
  unfold reachableNow, frames. intros H. rewrite boolfilter_false; [done|]. apply Forall_forall.
  intros c Hc. destruct (writable w c) eqn:E; [|done]. rewrite <- H. symmetry. apply existsb_exists.
  exists c. split; [by apply list_elem_of_In | done].
Qed.

(** The frames of a trace, and the content of a queue row. *)
Definition sends (l : list Event) : list Event :=
  boolfilter (fun e => match e with EvSend _ _ => true | _ => false end) l.

Definition queued (r : OfflineMessage) :=
  (om_sender r, om_recipient r, om_body r, om_msg_type r, om_convo r, om_created_at r).

Lemma sends_app l k : sends (l ++ k) = sends l ++ sends k.
Proof. apply boolfilter_app. Qed.

Lemma sends_frames w cs m : sends (frames w cs m) = frames w cs m.
Proof.
  apply boolfilter_true, Forall_forall. intros e He. unfold frames in He.
  by apply list_elem_of_fmap in He as (c & -> & _).
Qed.

Lemma sends_no_frame l : Forall no_frame l -> sends l = [].
Proof. intros H. apply boolfilter_false. eapply Forall_impl; [exact H|]. by intros []. Qed.

Section FanOut.
Context (u : string) (msg : NexusMessage).

(** The row a member who cannot be reached finds in the queue. *)
Definition queuedRow (now : Z) (m : string) :=
  (u, m, convoBody msg m, "convo_msg", mConvoID msg, sqlNow now).

(** The state after some members have been served. *)
Definition delivered (w w' : World) (ms : list string) : Prop :=
  sql_ok w' /\ netView w' = netView w /\ wNow w' = wNow w
  /\ convo_messages (wDB w') = convo_messages (wDB w)
  /\ sends (wOut w')
     = sends (wOut w) ++ concat ((fun m => frames w (connsOf (wSrv w) m) (convoFrame u msg m)) <$> ms)
  /\ queued <$> rows (offline_messages (wDB w'))
     = (queued <$> rows (offline_messages (wDB w)))
       ++ (queuedRow (wNow w) <$> boolfilter (fun m => negb (reachableNow w m)) ms).

Definition others (ms : list string) : list string := boolfilter (fun m => negb (m ==? u)) ms.

Lemma convoDeliver_one title m w :
  sql_ok w -> m <> u -> delivered w (convoDeliver u msg title m w).2 [m].
Proof using Type.
  intros Hok Hne. unfold convoDeliver. rewrite (eqb_neq_dec m u Hne). rewrite bind_run, sendTo_spec.
  cbn [fst snd]. fold (reachableNow w m). unfold delivered. rewrite boolfilter_cons. cbn [fmap list_fmap concat].
  rewrite app_nil_r.
  destruct (reachableNow w m) eqn:Er; cbn [negb].
  - rewrite ret_run. cbn [snd wOut set_wOut wDB]. rewrite sends_app, sends_frames.
    split_and!; try done. by rewrite app_nil_r.
  - rewrite (frames_unreachable w m _ Er), set_wOut_nil. rewrite bind_run, getNow_run. cbn [fst snd].
    rewrite bind_run, ok_Exec_ by done. cbn [fst snd]. set (w1 := set_wDB _ _).
    destruct (push_no_frame m title "Sent a message" w1) as (l & El & Hl).
    pose proof (mailbox_push m title "Sent a message" w1) as Hm. unfold same, mailbox in Hm.
    injection Hm as _ Hm.
    assert (Hc : convo_messages (wDB (push m title "Sent a message" w1).2) = convo_messages (wDB w1)).
      by apply (log_push m title "Sent a message" w1).
    split_and!.
    + apply sql_ok_push. subst w1. eauto with sqlok.
    + apply (net_push m title "Sent a message" w1).
    + assert (respects (same ctx) (push m title "Sent a message")) as H
        by (unfold push, sendWebPush, sendFCMPush; frame).
      pose proof (H w1) as E. unfold same, ctx in E. injection E as E _ _ _ _. exact E.
    + by rewrite Hc.
    + rewrite El, sends_app, (sends_no_frame l Hl), !app_nil_r. done.
    + rewrite Hm. subst w1. cbn [wDB set_wDB]. unfold queueMessage.
      cbn [offline_messages set_offline_messages]. unfold tinsert. cbn [rows]. by rewrite fmap_app.
Qed.

Lemma delivered_trans w w1 w2 ms ms' :
  delivered w w1 ms -> delivered w1 w2 ms' -> delivered w w2 (ms ++ ms').
Proof using Type.
  intros (_ & N1 & T1 & L1 & S1 & Q1) (O2 & N2 & T2 & L2 & S2 & Q2). unfold delivered.
  assert (Hf : (fun m => frames w1 (connsOf (wSrv w1) m) (convoFrame u msg m)) <$> ms'
               = (fun m => frames w (connsOf (wSrv w) m) (convoFrame u msg m)) <$> ms').
  { apply list_fmap_ext. intros _ m _. by rewrite (frames_net w w1), (connsOf_net w w1). }
  assert (Hr : boolfilter (fun m => negb (reachableNow w1 m)) ms'
               = boolfilter (fun m => negb (reachableNow w m)) ms').
  { apply boolfilter_ext. intros m _. by rewrite (reachableNow_net w w1). }
  split_and!; [done | congruence..| |].
  - by rewrite S2, S1, Hf, fmap_app, concat_app, app_assoc.
  - by rewrite Q2, Q1, Hr, T1, boolfilter_app, fmap_app, app_assoc.
Qed.

Lemma delivered_refl w : sql_ok w -> delivered w w [].
Proof using Type. intros H. unfold delivered. simpl. by rewrite !app_nil_r. Qed.

Lemma convoDeliver_all title ms w :
  sql_ok w -> delivered w (forM ms (convoDeliver u msg title) w).2 (others ms).
Proof using Type.
  revert w. induction ms as [|m ms IH]; intros w Hok; [by apply delivered_refl|].
  rewrite forM_cons. unfold others. rewrite boolfilter_cons. fold (others ms).
  case_bool_decide as E; cbn [negb].
  - assert (H1 : convoDeliver u msg title m w = (tt, w)).
    { unfold convoDeliver. subst m. by rewrite eqb_refl_dec. }
    rewrite H1. by apply IH.
  - pose proof (convoDeliver_one title m w Hok E) as H1. change (m :: others ms) with ([m] ++ others ms).
    eapply delivered_trans; [exact H1|]. apply IH. apply H1.
Qed.
End FanOut.

(** C17: a group message is lossless and private to the group.  When a member
    posts within the size limit, the log gains one row; every other member
    with a connection that takes writes gets, on each such connection and on
    no other, one frame carrying the body encrypted for that member (or the
    common body) under the true sender's name; every other member without one
    gets exactly one queue row with that same body; and nobody else is sent or
    queued anything. *)
Theorem convo_lossless u msg w :
  sql_ok w -> u <> "" -> mConvoID msg <> "" -> len (mBody msg) <= 65536 ->
  u ∈ membersOf (mConvoID msg) (wDB w) ->
  let w' := (case_convo_msg u msg w).2 in
  let rest := others u (membersOf (mConvoID msg) (wDB w)) in
  sends (wOut w') = sends (wOut w)
    ++ concat ((fun m => frames w (connsOf (wSrv w) m) (convoFrame u msg m)) <$> rest)
  /\ queued <$> rows (offline_messages (wDB w'))
     = (queued <$> rows (offline_messages (wDB w)))
       ++ (queuedRow u msg (wNow w) <$> boolfilter (fun m => negb (reachableNow w m)) rest)
  /\ exists id, rows (convo_messages (wDB w'))
       = rows (convo_messages (wDB w))
         ++ [mkConvoMessage id (mConvoID msg) u (mBody msg) (sqlNow (wNow w))].
Proof.
  intros Hok Hu Hid Hlen Hin. cbn zeta. unfold case_convo_msg, is_empty.
  rewrite (eqb_neq_dec _ _ Hu), (eqb_neq_dec _ _ Hid). cbn [orb].
  rewrite (proj2 (Z.ltb_ge 65536 (len (mBody msg))) Hlen).
  assert (Hi : inb u (membersOf (mConvoID msg) (wDB w)) = true).
  { unfold inb. apply existsb_exists. exists u. split; [by apply list_elem_of_In | apply eqb_refl_dec]. }
  unfold conversationMembers, convoName. unfold addMetric. sqlrun. change (default [] (Some ?x)) with x. rewrite Hi. cbn [negb]. cbv iota. sqlrun.
  match goal with |- context [forM _ (convoDeliver _ _ ?t) ?w2] =>
    destruct (convoDeliver_all u msg t (membersOf (mConvoID msg) (wDB w)) w2)
      as (_ & _ & _ & L & S & Q); [eauto 20 with sqlok|] end.
  split_and!; [exact S | exact Q |]. eexists. rewrite L. reflexivity.
Qed.

(** ** At a concrete state *)

(** Alice, Bob and Carol in a group; Carol is offline. *)
Definition groupW : World :=
  mkW (sampleDB |> set_conversations (tableOf [mkConversation "g" "Trip" "alice"])
                |> set_conversation_members (tableOf
                     [mkConvoMember "g" "alice"; mkConvoMember "g" "bob"; mkConvoMember "g" "carol"]))
    sampleServer T0.

Definition groupMsg : NexusMessage :=
  nm "convo_msg" |> set_mConvoID "g" |> set_mBody "hi" |> set_mEnvelopes {[ "carol" := "sealed" ]}.

Lemma convo_lossless_witness :
  sends (wOut (case_convo_msg "alice" groupMsg groupW).2)
  = [EvSend 2 (convoFrame "alice" groupMsg "bob")]
  /\ queued <$> rows (offline_messages (wDB (case_convo_msg "alice" groupMsg groupW).2))
     = [("alice", "carol", "sealed", "convo_msg", "g", T0)].
Proof.
  destruct (convo_lossless "alice" groupMsg groupW) as (A & B & _);
    [apply sql_ok_mkW | discriminate | discriminate | discriminate
    | apply memberIn_membersOf; reflexivity |].
  split; [rewrite A; reflexivity | rewrite B; reflexivity].
Defined.
