(* ===== verification/AdminSpec.v ===== *)
(** * What the admin endpoints promise

    The gate in front of every endpoint below [/api/v1/admin/], seen from the
    route table, and the ladder of roles: which rows of [users] an admin
    request may change the role of. *)

From Stdlib Require Import ZArith Lia Ascii String.
From stdpp Require Import base strings list gmap.
From S2P Require Import Prelude GoRt GoStd Netutil Store Wire Db World Wf Samples Registry.
From S2P Require Import Http Middleware Sessions Social Spaces Accounts Supporters Files Admin Pages Mux Routes.

Open Scope string_scope.
Open Scope list_scope.
Open Scope Z_scope.

(** ** Who is staff *)

Definition staff (u : User) : Prop := u_is_admin u = 1 \/ 1 <= roleRank (u_role u).

(** A live token of a staff account. *)
Definition staffSession (tok : string) (w : World) : Prop :=
  exists row u, row ∈ rows (session_tokens (wDB w)) /\ grants tok (wNow w) row
    /\ userIn (st_username row) (wDB w) = Some u /\ staff u.

(** All of the world but the limiter that counts the request. *)
Definition quiet (w : World) :=
  (wDB w, wOut w, wBlobs w, ctx w, set_globalLimiter (globalLimiter server0) (wSrv w)).

#[local] Instance fq_quiet : FreesSql (same quiet).
Proof. intros ?. reflexivity. Qed.

(** Membership in literal lists. *)
#[local] Ltac in_list := rewrite ?elem_of_cons in *; tauto.

Definition refusal (rs : Response) : Prop := rsCode rs ∈ [StatusUnauthorized; StatusForbidden].

Lemma adminFromRequest_refuses r w :
  ~ staffSession (adminToken r) w -> exists rs, (adminFromRequest r w).1 = inl rs /\ refusal rs.
Proof.
  intros Hn. unfold adminFromRequest. destruct (is_empty _); [eexists; split; [done | left]|].
  rewrite bind_run. destruct (sessionUsername_grants (adminToken r) w) as [E|(row & Hr & Hg & E)].
  { rewrite E. eexists. split; [done | left]. }
  rewrite E. cbn [fst snd]. destruct (is_empty _); [eexists; split; [done | left]|].
  rewrite bind_run. destruct (userIsAdmin _ _).1 eqn:Ea; cbn [negb].
  2: { eexists. split; [done | right; left]. }
  exfalso. apply Hn. exists row. apply userIsAdmin_true in Ea as (u & Hu & Ha). exists u.
  split_and!; try done. by left.
Qed.

Lemma modFromRequest_refuses r w :
  ~ staffSession (adminToken r) w ->
  exists rs, (modFromRequest r "helper" w).1 = inl rs /\ refusal rs.
Proof.
  intros Hn. unfold modFromRequest. destruct (is_empty _); [eexists; split; [done | left]|].
  rewrite bind_run. destruct (sessionUsername_grants (adminToken r) w) as [E|(row & Hr & Hg & E)].
  { rewrite E. eexists. split; [done | left]. }
  rewrite E. cbn [fst snd]. destruct (is_empty _); [eexists; split; [done | left]|].
  rewrite bind_run, ret_run. cbn [fst]. destruct (_ <? _) eqn:El.
  { eexists. split; [done | right; left]. }
  exfalso. apply Hn. exists row. bools. change (roleRank "helper") with 1 in El.
  destruct (userRole_rank (st_username row) (tickSql w)) as (u & Hu & Hk); [lia|]. exists u.
  split_and!; try done. right. lia.
Qed.

(** The endpoints that ask for staff. *)
Definition guarded (c : adminCall) : bool :=
  match c with ALogin _ | ALogout | APortal => false | _ => true end.

Lemma asAdmin_refuses r k w :
  ~ staffSession (adminToken r) w ->
  refusal (asAdmin r k w).1 /\ quiet (asAdmin r k w).2 = quiet w.
Proof.
  intros Hn. destruct (adminFromRequest_refuses r w Hn) as (rs & E & Hrs).
  assert (Hq : quiet (adminFromRequest r w).2 = quiet w)
    by (apply respects_adminFromRequest; typeclasses eauto).
  unfold asAdmin. rewrite bind_run.
  destruct (adminFromRequest r w) as [a w1]. simpl in *. by subst.
Qed.

Lemma adminHandler_refuses r c w :
  guarded c = true -> ~ staffSession (adminToken r) w ->
  refusal (adminHandler r c w).1 /\ quiet (adminHandler r c w).2 = quiet w.
Proof.
  intros Hc Hn. destruct c; try done; cbn [adminHandler]; try by apply asAdmin_refuses.
  destruct (modFromRequest_refuses r w Hn) as (rs & E & Hrs).
  assert (Hq : quiet (modFromRequest r "helper" w).2 = quiet w)
    by (apply respects_modFromRequest; typeclasses eauto).
  unfold adminUsersHandler. rewrite bind_run.
  destruct (modFromRequest r "helper" w) as [a w1]. simpl in *. by subst.
Qed.

Lemma serveAdmin_refuses r c w :
  guarded c = true -> ~ staffSession (adminToken r) w ->
  rsCode (serveAdmin r c w).1 ∈ [StatusUnauthorized; StatusForbidden; StatusNotFound; StatusTooManyRequests]
  /\ quiet (serveAdmin r c w).2 = quiet w.
Proof.
  intros Hc Hn. unfold serveAdmin. destruct (adminIPAllowed (wEnv w) r) eqn:Eip.
  2: { rewrite adminIPGate_closed by done. split; [right; right; left | done]. }
  unfold adminIPGate. rewrite bind_run, getEnv_run. cbn [fst snd]. rewrite Eip.
  replace (match c with ALogin _ => adminLoginLimit r (adminHandler r c)
           | _ => rateLimit r (adminHandler r c) end) with (rateLimit r (adminHandler r c))
    by (by destruct c).
  unfold rateLimit. rewrite !bind_run, getEnv_run. cbn [fst snd].
  destruct (allowGlobal _ w) as [ok w1] eqn:Ea. cbn [fst snd]. rewrite ret_run. cbn [fst snd].
  assert (Hw1 : quiet w1 = quiet w /\ ~ staffSession (adminToken r) w1).
  { unfold allowGlobal in Ea. injection Ea as _ <-. by split. }
  destruct Hw1 as [Hq Hn1]. destruct ok; cbn [fst snd].
  - destruct (adminHandler_refuses r c w1 Hc Hn1) as [Hr Hq1]. split; [|congruence].
    unfold refusal in Hr. cbn. in_list.
  - split; [right; right; right; left | done].
Qed.

(** ** The gate, from the route table *)

(** An answer that holds nothing of the database: a refusal, or one of the two
    constant pages whose path the environment chooses. *)
Definition nothingShown (e : Env) (rs : Response) : Prop :=
  rsCode rs ∈ [StatusTemporaryRedirect; StatusUnauthorized; StatusForbidden; StatusNotFound;
               StatusTooManyRequests]
  \/ rsBody rs = BPage "adminPortalHTML" [] \/ rsBody rs = BText (indexNowKey e).

Definition shut (e : Env) (r : Request) (b : Bodies) (rt : route) : Prop :=
  forall w, wEnv w = e -> ~ staffSession (adminToken r) w ->
  forall rs, (handle r b rt w).1 = Some rs ->
  nothingShown e rs /\ quiet (handle r b rt w).2 = quiet w.

Lemma shut_guarded e r b c : guarded (c b) = true -> shut e r b (RAdmin c).
Proof.
  intros Hc w He Hn rs. cbn [handle]. rewrite bind_run. intros [= <-].
  destruct (serveAdmin_refuses r (c b) w Hc Hn) as [H1 H2]. split; [left; in_list | exact H2].
Qed.

Lemma shut_portal e r b : shut e r b (RAdmin (fun _ => APortal)).
Proof.
  intros w He Hn rs. cbn [handle]. rewrite bind_run. unfold serveAdmin.
  destruct (adminIPAllowed (wEnv w) r) eqn:Eip.
  2: { rewrite adminIPGate_closed by done. intros [= <-]. split; [left; in_list | done]. }
  unfold adminIPGate. rewrite bind_run, getEnv_run. cbn [fst snd]. rewrite Eip.
  unfold rateLimit. rewrite !bind_run, getEnv_run. cbn [fst snd].
  destruct (allowGlobal _ w) as [ok w1] eqn:Ea. unfold allowGlobal in Ea. injection Ea as _ <-.
  destruct ok; cbn [fst snd]; intros [= <-]; (split; [|done]).
  - right. by left.
  - left. in_list.
Qed.

Lemma shut_landing e r b : rqPath r <> "/" -> shut e r b (ROpen (nobody landingHandler)).
Proof.
  intros Hp w He Hn rs. cbn [handle]. unfold nobody, landingHandler.
  rewrite !bind_run, getEnv_run, ret_run. cbn [fst snd]. rewrite (eqb_neq_dec _ _ Hp). cbn [negb].
  intros [= <-]. split; [left; in_list | done].
Qed.

Lemma shut_indexNow e r b : shut e r b (ROpen (nobody indexNowHandler)).
Proof.
  intros w He Hn rs. cbn [handle]. unfold nobody, indexNowHandler.
  rewrite !bind_run, getEnv_run, ret_run. cbn [fst snd]. intros [= <-]. subst.
  split; [right; by right | done].
Qed.

(** The routes below [/api/v1/admin/], the sign-in and the sign-out apart. *)
Section Below.
Context (e : Env) (r : Request) (b : Bodies) (rest : string).
Context (Hpath : rqPath r = "/api/v1/admin/" +:+ rest).
Context (Hin : rqPath r <> "/api/v1/admin/login") (Hout : rqPath r <> "/api/v1/admin/logout").

Definition shutIf (pr : string * route) : Prop := matches (rqPath r) pr.1 = true -> shut e r b pr.2.

#[local] Ltac elsewhere := let H := fresh in intros H; rewrite Hpath in H; vm_compute in H; discriminate H.
#[local] Ltac one :=
  unfold shutIf; cbn [fst snd];
  lazymatch goal with
  | |- _ -> shut _ _ _ (RAdmin (fun _ => APortal)) => intros _; apply shut_portal
  | |- _ -> shut _ _ _ (ROpen (nobody indexNowHandler)) => intros _; apply shut_indexNow
  | |- _ -> shut _ _ _ (ROpen (nobody landingHandler)) =>
      intros _; apply shut_landing; rewrite Hpath; discriminate
  | |- _ -> shut _ _ _ (RAdmin _) => try (intros _; apply shut_guarded; reflexivity)
  | |- _ => elsewhere
  end.

Lemma shut_publicRoutes : Forall shutIf (publicRoutes e).
Proof using Hpath. unfold publicRoutes. forall_list ltac:(one). Qed.
Lemma shut_webRoutes : Forall shutIf (webRoutes e).
Proof using Hpath. unfold webRoutes. destruct (isFile _ _); [forall_list ltac:(one) | constructor]. Qed.
Lemma shut_pageRoutes : Forall shutIf (pageRoutes e).
Proof using Hpath. unfold pageRoutes. forall_list ltac:(one). Qed.
Lemma shut_initRoutes : Forall shutIf (initSupportRoutes ++ initStoriesRoutes ++ initStatusPage).
Proof using Hpath. simpl. forall_list ltac:(one). Qed.
Lemma shut_apiRoutes : Forall shutIf apiRoutes.
Proof using Hpath. unfold apiRoutes. forall_list ltac:(one). Qed.

(** The sign-in and the sign-out match their own path only. *)
Lemma matches_exact pat : HasSuffix pat "/" = false -> rqPath r <> pat -> matches (rqPath r) pat = false.
Proof using Type. intros H1 H2. unfold matches. rewrite H1, (eqb_neq_dec pat) by congruence. done. Qed.

Lemma shut_adminRoutes : Forall shutIf (adminRoutes e).
Proof using Hpath Hin Hout.
  unfold adminRoutes. forall_list ltac:(try one).
  - unfold shutIf. cbn [fst]. by rewrite matches_exact.
  - unfold shutIf. cbn [fst]. by rewrite matches_exact.
Qed.

Lemma shut_routes pat rt : (pat, rt) ∈ routes e -> matches (rqPath r) pat = true -> shut e r b rt.
Proof using Hpath Hin Hout.
  assert (H : Forall shutIf (routes e)).
  { pose proof shut_initRoutes as H. unfold routes. rewrite !Forall_app in *. destruct H as (H1 & H2 & H3).
    split_and!; auto using shut_publicRoutes, shut_webRoutes, shut_pageRoutes, shut_adminRoutes,
      shut_apiRoutes. }
  rewrite Forall_forall in H. intros Hp. exact (H _ Hp).
Qed.
End Below.

(** C3: the admin area is shut.  Whatever the path below [/api/v1/admin/] other
    than the sign-in and the sign-out, whatever the method, body and headers: a
    request whose token is not a live, unheld session of a staff account gets
    a redirect, 401, 403, 404 or 429 (or a constant page), and changes nothing
    but the limiter's table - whatever statements fail. *)
Theorem admin_gate r b w rest rs w' :
  rqPath r = "/api/v1/admin/" +:+ rest ->
  rest <> "login" -> rest <> "logout" ->
  ~ staffSession (adminToken r) w ->
  serve r b w = (Some rs, w') ->
  nothingShown (wEnv w) rs /\ quiet w' = quiet w.
Proof.
  intros Hp Hi Ho Hn. unfold serve. rewrite bind_run, getEnv_run. cbn [fst snd].
  destruct (findHandler _ _) as [rt|url|] eqn:E.
  - apply findHandler_in in E as (pat & Hr & Hm). intros Hs.
    assert (Hne : forall s, rest <> s -> rqPath r <> "/api/v1/admin/" +:+ s).
    { intros s Hs' Hc. rewrite Hp in Hc. by apply (inj (String.append "/api/v1/admin/")) in Hc. }
    pose proof (shut_routes _ r b rest Hp (Hne _ Hi) (Hne _ Ho) pat rt Hr Hm w eq_refl Hn rs) as H.
    rewrite Hs in H. by apply H.
  - intros [= <- <-]. split; [left; in_list | done].
  - intros [= <- <-]. split; [left; in_list | done].
Qed.

(** A stranger asks for the list of users. *)
Definition usersRequest (tok : string) : Request :=
  mkRequest "GET" "/api/v1/admin/users" "10.0.0.7:5000" (fun _ => "")
    (fun n => if n ==? adminCookieName then tok else "") (fun _ => "").

Lemma admin_gate_witness :
  exists rs w', serve (usersRequest "tok") noBodies sampleW = (Some rs, w')
    /\ rsCode rs = StatusForbidden /\ nothingShown env0 rs /\ quiet w' = quiet sampleW.
Proof.
  destruct (serve (usersRequest "tok") noBodies sampleW) as [[rs|] w'] eqn:E;
    [|vm_compute in E; discriminate E].
  exists rs, w'. split; [reflexivity|]. split.
  - assert (H : (rsCode <$> (serve (usersRequest "tok") noBodies sampleW).1) = Some StatusForbidden)
      by (vm_compute; reflexivity).
    rewrite E in H. injection H as ->. reflexivity.
  - refine (admin_gate (usersRequest "tok") noBodies sampleW "users" rs w' eq_refl _ _ _ E);
      [discriminate | discriminate |].
    intros (row & u & Hr & (Ht & _) & Hu & Hs). vm_compute in Hr.
    repeat (apply elem_of_cons in Hr as [->|Hr]); [| |by apply elem_of_nil in Hr];
      vm_compute in Hu; injection Hu as <-; destruct Hs as [Hs|Hs]; vm_compute in Hs;
      first [discriminate Hs | by apply Hs].
Defined.

(** ** The ladder of roles *)

(** Who holds which role. *)
Definition roleOf (u : User) : string * string * Z := (u_username u, u_role u, u_is_admin u).
Definition ladder (d : Database) : list (string * string * Z) := roleOf <$> rows (users d).

Definition within (L : list (string * string * Z)) (d : Database) : Prop := ladder d ⊆ L.

Lemma ladder_onUser u f d : (forall r, roleOf (f r) = roleOf r) -> ladder (onUser u f d) = ladder d.
Proof. intros Hf. unfold ladder, onUser. by apply fmap_tupdate. Qed.

Lemma within_tdelete L p d : within L d -> within L (set_users (tdelete p (users d)) d).
Proof.
  intros H x Hx. apply H. unfold ladder in *. cbn in Hx.
  apply list_elem_of_fmap in Hx as (r & -> & Hr). apply elem_of_boolfilter in Hr as [_ Hr].
  by apply list_elem_of_fmap_2.
Qed.

Ltac within_step :=
  let d := fresh "d" in let H := fresh "H" in
  intros d H; unfold within in *;
  first [ exact H
        | rewrite ladder_onUser by (intros ?; reflexivity); exact H
        | repeat case_match; exact H ].

#[local] Hint Extern 1 (respects (db_keeps (within _)) (Exec_ _)) => apply keeps_Exec_; within_step : frame.
#[local] Hint Extern 1 (respects (db_keeps (within _)) (ExecOk _)) => apply keeps_ExecOk; within_step : frame.
#[local] Hint Extern 1 (respects (db_keeps (within _)) (ExecN _ _)) => apply keeps_ExecN; within_step : frame.
#[local] Hint Extern 1 (respects (db_keeps (within _)) (Exec _)) =>
  apply keeps_Exec; let d := fresh in let H := fresh in
  intros d ? ? H; cbv beta; repeat (case_match; try discriminate); (intros [= <- _]); exact H : frame.

Section Ladder.
Context (L : list (string * string * Z)).

Lemma within_erasures u : Forall (fun f => forall d, within L d -> within L (f d)) (erasures u).
Proof.
  unfold erasures.
  repeat (apply Forall_cons_2; [first [exact (fun _ H => H) | intros d; apply within_tdelete]|]).
  apply Forall_nil_2.
Qed.

Lemma within_deleteAccount u : respects (db_keeps (within L)) (deleteAccount u).
Proof.
  apply respects_Tx_keeps, tx_pure_keeps. apply Forall_fmap.
  eapply Forall_impl; [apply within_erasures|]. intros f Hf d d' Hd [= <-]. by apply Hf.
Qed.
#[local] Hint Resolve within_deleteAccount : frame.

Lemma within_authenticateUser u pw : respects (db_keeps (within L)) (authenticateUser u pw).
Proof. unfold authenticateUser. frame. Qed.
#[local] Hint Resolve within_authenticateUser : frame.

Lemma within_adminLogin r b : respects (db_keeps (within L)) (adminLoginHandler r b).
Proof.
  unfold adminLoginHandler, portalRole, issueAdminSessionToken, issueToken, insertSession. frame.
Qed.

Lemma within_deleteServer id : respects (db_keeps (within L)) (deleteServer id).
Proof.
  unfold deleteServer. frame. apply keeps_TxBody.
  - intros d. unfold txIgnore. frame.
  - intros d w d' Hd. rewrite !bind_run, ret_run. cbn [fst]. intros [= <-].
    repeat (apply (txIgnore_keeps (within L)); [by intros|]). exact Hd.
Qed.
#[local] Hint Resolve within_deleteServer within_adminLogin : frame.

Lemma within_asAdmin r k :
  (forall u, respects (db_keeps (within L)) (k u)) -> respects (db_keeps (within L)) (asAdmin r k).
Proof. intros H. apply respects_asAdmin; try typeclasses eauto. exact H. Qed.

(** No endpoint but [/users/{name}/role] gives anyone a role. *)
Lemma within_adminHandler r c :
  (forall b, c <> ABan b) -> respects (db_keeps (within L)) (adminHandler r c).
Proof.
  intros Hc. destruct c; simpl; try (by destruct (Hc b));
    first [ apply within_adminLogin | apply within_asAdmin; intros ? | idtac ].
  all: unfold adminPortalHandler, adminLogoutHandler, adminUsersHandler, grantBadge, setRequestStatus,
    insertSupporter, onlineUserCount, broadcastAll, unblockIP, blockIP.
  all: frame.
Qed.
End Ladder.

Lemma within_banAct_other L admin target action b :
  action <> "role" -> respects (db_keeps (within L)) (banAct admin target action b).
Proof.
  intros Ha. unfold banAct. rewrite (eqb_neq_dec _ _ Ha).
  unfold banAction, unbanAction, resetTOTPAction, deleteAction, revokeAllOf, dropBackupCodes,
    dropAllClients. frame; by apply within_deleteAccount.
Qed.

(** What a change of role needs: the actor's row outranks the target's row and
    the new role. *)
Definition mayAssign (actor : User) (target role : string) (d : Database) : Prop :=
  3 <= roleRank (u_role actor) /\ roleRank role < roleRank (u_role actor)
  /\ forall old, userIn target d = Some old -> roleRank (u_role old) < roleRank (u_role actor).

Lemma ok_userRole u w :
  sql_ok w -> userRole u w = (match userIn u (wDB w) with
                              | Some x => if is_empty (u_role x) then "user" else u_role x
                              | None => "user" end, tickSql w).
Proof. intros Hok. unfold userRole. sqlrun. unfold userIn, userRow. by destruct (tfirst _ _). Qed.

Lemma roleRank_default x : roleRank (if is_empty x then "user" else x) = roleRank x.
Proof. unfold is_empty. destruct (x ==? "") eqn:E; [|done]. bools. by subst. Qed.

Lemma roleAction_ladder admin target role w x :
  sql_ok w -> x ∈ ladder (wDB (roleAction admin target role w).2) ->
  x ∈ ladder (wDB w)
  \/ exists actor z, userIn admin (wDB w) = Some actor /\ mayAssign actor target role (wDB w)
       /\ x = (target, role, z).
Proof.
  intros Hok. unfold roleAction. destruct (knownRole role); cbn [negb]; [|by left].
  rewrite bind_run, ok_userRole by done. cbn [fst snd].
  destruct (_ <? roleRank "admin") eqn:E1; [by left|].
  rewrite bind_run, ok_userRole by sqlside. cbn [fst snd].
  change (wDB (tickSql w)) with (wDB w).
  destruct (_ <=? roleRank (match userIn target (wDB w) with _ => _ end)) eqn:E2; [by left|].
  destruct (_ <=? roleRank role) eqn:E3; [by left|]. sqlrun. bools.
  destruct (userIn admin (wDB w)) as [actor|] eqn:Ea; [|exfalso; change (3 <= 0) in E1; lia].
  rewrite !roleRank_default in *. intros Hx. unfold ladder, onUser in Hx.
  apply list_elem_of_fmap in Hx as (r & -> & Hr).
  cbn [users set_users] in Hr. rewrite elem_of_tupdate in Hr. destruct Hr as (r0 & Hr0 & ->).
  destruct (u_username r0 ==? target) eqn:Et; [|left; by apply list_elem_of_fmap_2].
  right. bools. exists actor, (if roleRank "admin" <=? roleRank role then 1 else 0). split; [done|]. split; [|unfold roleOf; cbn; by rewrite Et].
  unfold mayAssign. change (roleRank "admin") with 3 in *. split_and!; [lia | lia |].
  intros old Ho. rewrite Ho, roleRank_default in E2. lia.
Qed.

(** Whom [adminFromRequest] lets through. *)
Definition adminRow (tok admin : string) (w : World) : Prop :=
  exists row actor, row ∈ rows (session_tokens (wDB w)) /\ grants tok (wNow w) row
    /\ st_username row = admin /\ userIn admin (wDB w) = Some actor /\ u_is_admin actor = 1.

Lemma adminFromRequest_admin r w admin :
  (adminFromRequest r w).1 = inr admin -> adminRow (adminToken r) admin w.
Proof.
  unfold adminFromRequest. destruct (is_empty (adminToken r)); [done|]. rewrite bind_run.
  destruct (sessionUsername_grants (adminToken r) w) as [E|(row & Hrow & Hg & E)]; rewrite E; [done|].
  cbn [fst snd]. destruct (is_empty _); [done|]. rewrite bind_run.
  destruct (userIsAdmin _ _).1 eqn:Ea; [|done]. intros [= <-].
  apply userIsAdmin_true in Ea as (actor & Hu & H1). by exists row, actor.
Qed.

(** An endpoint behind [asAdmin] runs for an admin, on the world as it was. *)
Lemma asAdmin_inv r k w :
  (exists rs w1, asAdmin r k w = (rs, w1) /\ quiet w1 = quiet w)
  \/ exists admin w1, asAdmin r k w = k admin w1 /\ quiet w1 = quiet w
       /\ adminRow (adminToken r) admin w.
Proof.
  assert (Hq : quiet (adminFromRequest r w).2 = quiet w)
    by (apply respects_adminFromRequest; typeclasses eauto).
  pose proof (adminFromRequest_admin r w) as Ha. unfold asAdmin. rewrite bind_run.
  destruct (adminFromRequest r w) as [[rs|admin] w1]; cbn [fst snd] in *.
  - left. by exists rs, w1.
  - right. exists admin, w1. auto.
Qed.

Lemma quiet_sql_ok w w' : quiet w' = quiet w -> sql_ok w -> sql_ok w'.
Proof.
  intros E H n. pose proof (f_equal (fun q => q.1.2) E) as Ec. unfold quiet, ctx in Ec. cbn in Ec.
  injection Ec as _ _ Ef _ _. by rewrite Ef.
Qed.

Lemma adminBan_ladder r b w x :
  sql_ok w -> x ∈ ladder (wDB (adminBanHandler r b w).2) ->
  x ∈ ladder (wDB w)
  \/ exists admin actor target z, adminRow (adminToken r) admin w
       /\ userIn admin (wDB w) = Some actor /\ mayAssign actor target (bbRole b) (wDB w)
       /\ target <> admin /\ x = (target, bbRole b, z).
Proof.
  intros Hok. unfold adminBanHandler.
  match goal with |- context [asAdmin r ?k w] => destruct (asAdmin_inv r k w) as
    [(rs & w1 & -> & Hq)|(admin & w1 & -> & Hq & Hr)] end.
  { intros Hx. left. pose proof (f_equal (fun q => q.1.1.1.1) Hq) as Hd. cbn in *. by rewrite Hd in Hx. }
  pose proof (quiet_sql_ok _ _ Hq Hok) as Hok1. pose proof (f_equal (fun q => q.1.1.1.1) Hq) as Hd. cbn in Hd.
  rewrite <- Hd. cbv zeta. destruct (negb _); [by left|].
  destruct (Split _ _) as [|target [|action l]]; [by left..|].
  destruct (is_empty target || _); [by left|]. destruct (target ==? admin) eqn:Et; [by left|].
  destruct (decide (action = "role")) as [->|Hne].
  - intros Hx. change (banAct admin target "role" b) with (roleAction admin target (bbRole b)) in Hx.
    apply roleAction_ladder in Hx as [Hx|(actor & z & Ha & Hm & ->)]; [by left | | done].
    right. exists admin, actor, target, z. bools. by rewrite Hd in *.
  - intros Hx. left.
    refine (within_banAct_other (ladder (wDB w1)) admin target action b Hne w1 _ x Hx).
    by unfold within.
Qed.

(** A request to an admin route is turned away, or its handler runs after a
    limiter has counted it. *)
Lemma serveAdmin_inner r c w :
  wDB (serveAdmin r c w).2 = wDB w
  \/ exists w1, wDB (serveAdmin r c w).2 = wDB (adminHandler r c w1).2
       /\ wDB w1 = wDB w /\ wNow w1 = wNow w /\ (sql_ok w -> sql_ok w1).
Proof.
  unfold serveAdmin, adminIPGate. rewrite bind_run, getEnv_run. cbn [fst snd].
  destruct (adminIPAllowed _ _); [|by left].
  assert (Hr : forall ok w1, (ok, w1) = allowGlobal (clientIP (wEnv w) r) w \/ (ok, w1) = allowAdmin (clientIP (wEnv w) r) w ->
     wDB w1 = wDB w /\ wNow w1 = wNow w /\ (sql_ok w -> sql_ok w1)).
  { intros ok w1 [H|H]; injection H as _ ->; (split_and!; [done..|]; intros Hok n; apply Hok). }
  assert (Hl : forall h : M Response,
    wDB (rateLimit r h w).2 = wDB w \/ exists w1, wDB (rateLimit r h w).2 = wDB (h w1).2
      /\ wDB w1 = wDB w /\ wNow w1 = wNow w /\ (sql_ok w -> sql_ok w1)).
  { intros h. unfold rateLimit. rewrite !bind_run, getEnv_run. cbn [fst snd].
    specialize (Hr (allowGlobal (clientIP (wEnv w) r) w).1 (allowGlobal (clientIP (wEnv w) r) w).2).
    rewrite <- surjective_pairing in Hr. specialize (Hr (or_introl eq_refl)).
    destruct (allowGlobal _ w) as [[] w1]; cbn [fst snd] in *; [|left; apply Hr]. right. by exists w1. }
  destruct c; try apply Hl.
  unfold adminLoginLimit. rewrite !bind_run, getEnv_run. cbn [fst snd].
  specialize (Hr (allowAdmin (clientIP (wEnv w) r) w).1 (allowAdmin (clientIP (wEnv w) r) w).2).
  rewrite <- surjective_pairing in Hr. specialize (Hr (or_intror eq_refl)).
  destruct (allowAdmin _ w) as [[] w1]; cbn [fst snd] in *; [|left; apply Hr]. right. by exists w1.
Qed.

(** C4: the ladder of roles.  After any request to any admin endpoint, whoever
    holds a role holds it as before, or the request was an admin's change of
    role: by the live session of an account whose own role is at least admin
    and above both the role it gives and the role the target had, to another
    account than its own.  So nobody is made super_admin through the server. *)
Theorem role_ladder r c w u :
  sql_ok w -> u ∈ rows (users (wDB (serveAdmin r c w).2)) ->
  (exists v, v ∈ rows (users (wDB w)) /\ roleOf v = roleOf u)
  \/ exists b admin actor, c = ABan b /\ adminRow (adminToken r) admin w
       /\ userIn admin (wDB w) = Some actor /\ u_username u <> admin /\ u_role u = bbRole b
       /\ mayAssign actor (u_username u) (u_role u) (wDB w) /\ u_role u <> "super_admin".
Proof.
  intros Hok Hu. apply (list_elem_of_fmap_2 roleOf) in Hu.
  change (roleOf <$> rows (users (wDB (serveAdmin r c w).2)))
    with (ladder (wDB (serveAdmin r c w).2)) in Hu.
  destruct (serveAdmin_inner r c w) as [E|(w1 & E & Hd & Hn & Hok1)].
  { left. rewrite E in Hu. apply list_elem_of_fmap in Hu as (v & ? & ?). by exists v. }
  rewrite E in Hu. assert (Hsame : roleOf u ∈ ladder (wDB w) -> exists v, v ∈ rows (users (wDB w)) /\ roleOf v = roleOf u).
  { intros H. apply list_elem_of_fmap in H as (v & ? & ?). by exists v. }
  assert (Hc : (exists b, c = ABan b) \/ forall b, c <> ABan b)
    by (destruct c; solve [left; eauto | right; discriminate]).
  destruct Hc as [[b ->]|Hc].
  - apply adminBan_ladder in Hu as [Hu|(admin & actor & target & z & Ha & Hact & Hm & Hne & Ex)];
      [left; apply Hsame; by rewrite <- Hd | | by apply Hok1].
    right. injection Ex as E1 E2 _. exists b, admin, actor. rewrite E1, E2.
    unfold adminRow in *. rewrite Hd, Hn in *. split_and!; try done.
    intros Hs. destruct Hm as (_ & Hr & _). rewrite Hs in Hr.
    pose proof (roleRank_range (u_role actor)). change (roleRank "super_admin") with 4 in Hr. lia.
  - left. apply Hsame. rewrite <- Hd.
    refine (within_adminHandler (ladder (wDB w1)) r c Hc w1 _ _ Hu). by unfold within.
Qed.

(** An administrator makes Bob a moderator, and cannot make him an admin. *)
Definition adminUser (name role : string) (isAdmin : Z) : User :=
  set_u_is_admin isAdmin (set_u_role role (sampleUser name)).

Definition adminDB : Database :=
  sampleDB |> set_users (tableOf [adminUser "alice" "admin" 1; sampleUser "bob"; sampleUser "carol"]).
Definition adminW : World := mkW adminDB sampleServer T0.

Definition roleRequest (name : string) : Request :=
  mkRequest "POST" ("/api/v1/admin/users/" +:+ name +:+ "/role") "10.0.0.7:5000" (fun _ => "")
    (fun n => if n ==? adminCookieName then "tok" else "") (fun _ => "").

Definition bobRole (role : string) : option string :=
  u_role <$> userIn "bob" (wDB (serveAdmin (roleRequest "bob") (ABan (mkBanBody "" role)) adminW).2).

Lemma role_ladder_witness :
  bobRole "moderator" = Some "moderator" /\ bobRole "admin" = Some "user"
  /\ exists u, u ∈ rows (users (wDB (serveAdmin (roleRequest "bob") (ABan (mkBanBody "" "moderator")) adminW).2))
       /\ u_username u = "bob" /\ u_role u = "moderator"
       /\ exists actor, userIn "alice" (wDB adminW) = Some actor /\ mayAssign actor "bob" "moderator" (wDB adminW).
Proof.
  split; [vm_compute; reflexivity|]. split; [vm_compute; reflexivity|].
  set (w' := (serveAdmin (roleRequest "bob") (ABan (mkBanBody "" "moderator")) adminW).2).
  assert (H : exists u, u ∈ rows (users (wDB w')) /\ u_username u = "bob" /\ u_role u = "moderator").
  { eexists. split; [vm_compute; right; left | split; reflexivity]. }
  destruct H as (u & Hu & E1 & E2). exists u. split_and!; [done..|].
  assert (Hok : sql_ok adminW) by (intros n; reflexivity).
  destruct (role_ladder (roleRequest "bob") (ABan (mkBanBody "" "moderator")) adminW u Hok Hu)
    as [(v & Hv & Ev)|(b & admin & actor & [= <-] & (row & a & Hr & Hg & En & Ha & _) & Hact & _ & _ & Hm & _)].
  - exfalso. injection Ev as Ev1 Ev2 _. rewrite E1 in Ev1. rewrite E2 in Ev2.
    vm_compute in Hv. repeat (apply elem_of_cons in Hv as [->|Hv]; [discriminate|]).
    by apply elem_of_nil in Hv.
  - rewrite E1, E2 in Hm. exists actor. split; [|exact Hm].
    destruct Hg as (Ht & _). vm_compute in Hr, Ht.
    repeat (apply elem_of_cons in Hr as [->|Hr]); [| |by apply elem_of_nil in Hr].
    + change (st_username _) with "alice" in En. by rewrite <- En in Hact.
    + discriminate Ht.
Defined.
