(* ===== verification/StoriesSpec.v ===== *)
(** * Stories and the sweepers, in time

    How long a story is visible, as a function of the clock: [expires_at] is
    RFC 3339 text, compared with [CURRENT_TIMESTAMP] as text.  And the
    sweepers of the data-retention schedule against the readers of the tables
    they shorten: what a sweep removes no later reader could have seen. *)

From Stdlib Require Import ZArith Lia Ascii String.
From stdpp Require Import base strings list gmap.
From S2P Require Import Prelude GoRt GoStd Store Wire Db World Wf Samples Http Sessions Social Accounts.
From S2P Require Import Stories Retention.

Open Scope string_scope.
Open Scope list_scope.
Open Scope Z_scope.

(** ** Comparing timestamps as text *)

(** Two texts that start with as many bytes compare as their beginnings do,
    when those differ. *)
Lemma compare_app a b x y :
  String.length a = String.length b ->
  String.compare (a +:+ x) (b +:+ y) =
    match String.compare a b with Eq => String.compare x y | c => c end.
Proof.
  revert b. induction a as [|c a IH]; intros [|c' b] H; try done. injection H as H.
  change (String c a +:+ x) with (String c (a +:+ x)). change (String c' b +:+ y) with (String c' (b +:+ y)).
  simpl. rewrite (IH b H). by destruct (Ascii.compare c c').
Qed.

Lemma ltb_compare a b : String.ltb a b = true <-> String.compare a b = Lt.
Proof. unfold String.ltb. by destruct (String.compare a b). Qed.

Lemma ascii_compare_refl c : Ascii.compare c c = Eq.
Proof. unfold Ascii.compare. apply N.compare_refl. Qed.

Lemma compare_refl s : String.compare s s = Eq.
Proof. induction s as [|c s IH]; [done|]. simpl. by rewrite ascii_compare_refl. Qed.

Lemma ascii_compare_lt_trans a b c :
  Ascii.compare a b = Lt -> Ascii.compare b c = Lt -> Ascii.compare a c = Lt.
Proof. unfold Ascii.compare. rewrite !N.compare_lt_iff. apply N.lt_trans. Qed.

Lemma ascii_compare_eq a b : Ascii.compare a b = Eq -> a = b.
Proof.
  unfold Ascii.compare. intros H%N.compare_eq_iff.
  rewrite <- (ascii_N_embedding a), <- (ascii_N_embedding b). by rewrite H.
Qed.

Lemma compare_lt_trans a b c :
  String.compare a b = Lt -> String.compare b c = Lt -> String.compare a c = Lt.
Proof.
  revert b c. induction a as [|x a IH]; intros [|y b] [|z c]; simpl; try done.
  destruct (Ascii.compare x y) eqn:E1; try done.
  - apply ascii_compare_eq in E1 as ->. destruct (Ascii.compare y z) eqn:E2; try done. apply IH.
  - intros _. destruct (Ascii.compare y z) eqn:E2; try done; intros _.
    + apply ascii_compare_eq in E2 as <-. by rewrite E1.
    + by rewrite (ascii_compare_lt_trans _ _ _ E1 E2).
Qed.

Lemma compare_antisym a b : String.compare a b = Lt -> String.compare b a = Gt.
Proof. intros H. by rewrite (String.compare_antisym b a), H. Qed.

(** Day numbers of the years 2023 to 2032. *)
Definition firstDay : Z := 19358.
Definition lastDay : Z := 23010.

Fixpoint climbs (n : nat) (day : Z) (text : string) : bool :=
  match n with
  | O => true
  | S n' =>
      let next := dateText (day + 1) in
      String.ltb text next && (String.length next =? 10)%nat && climbs n' (day + 1) next
  end.

Lemma dates_climb : climbs (Z.to_nat (lastDay - firstDay)) firstDay (dateText firstDay) = true.
Proof. vm_compute. reflexivity. Qed.

Lemma climbs_lt n day text k :
  climbs n day text = true -> text = dateText day -> 0 < k <= Z.of_nat n ->
  String.compare text (dateText (day + k)) = Lt /\ String.length (dateText (day + k)) = 10%nat.
Proof.
  revert day text k. induction n as [|n IH]; intros day text k; [lia|]. cbn [climbs].
  rewrite !andb_true_iff, ltb_compare, Nat.eqb_eq. intros [[H1 H2] H3] -> Hk.
  destruct (decide (k = 1)) as [->|Hne]; [by split|].
  destruct (IH (day + 1) _ (k - 1) H3 eq_refl) as [H4 H5]; [lia|].
  replace (day + 1 + (k - 1)) with (day + k) in * by lia.
  split; [by eapply compare_lt_trans | done].
Qed.

(** The days the dates are computed for, and the day of an instant. *)
Definition in_range (t : Z) : Prop := firstDay * Day <= t < (lastDay + 1) * Day.
Definition dayOf (t : Z) : Z := t / Second / 86400.

Lemma in_range_day t : in_range t -> firstDay <= dayOf t <= lastDay.
Proof.
  unfold in_range, dayOf, Day, Hour, Minute. rewrite Z.div_div by (unfold Second; lia). intros [H1 H2].
  split.
  - apply Z.div_le_lower_bound; [unfold Second; lia|]. unfold firstDay, Second in *. lia.
  - apply Z.lt_succ_r, Z.div_lt_upper_bound; [unfold Second; lia|]. unfold lastDay, Second in *. lia.
Qed.

Lemma dateText_first : String.length (dateText firstDay) = 10%nat.
Proof. reflexivity. Qed.

Lemma dateText_length d : firstDay <= d <= lastDay -> String.length (dateText d) = 10%nat.
Proof.
  intros Hd. destruct (decide (d = firstDay)) as [->|Hne]; [exact dateText_first|].
  destruct (climbs_lt _ _ _ (d - firstDay) dates_climb eq_refl) as [_ H].
  { unfold firstDay, lastDay in *. lia. }
  by replace (firstDay + (d - firstDay)) with d in H by lia.
Qed.

Lemma climbs_suffix n day text k :
  climbs n day text = true -> text = dateText day -> 0 <= k <= Z.of_nat n ->
  climbs (n - Z.to_nat k) (day + k) (dateText (day + k)) = true.
Proof.
  revert day text k. induction n as [|n IH]; intros day text k H -> Hk.
  { by replace (day + k) with day by lia. }
  destruct (decide (k = 0)) as [->|Hne].
  { rewrite Z.add_0_r. by replace (S n - Z.to_nat 0)%nat with (S n) by lia. }
  cbn [climbs] in H. rewrite !andb_true_iff in H. destruct H as [_ H].
  pose proof (IH (day + 1) _ (k - 1) H eq_refl) as H'.
  replace (S n - Z.to_nat k)%nat with (n - Z.to_nat (k - 1))%nat by lia.
  replace (day + k) with (day + 1 + (k - 1)) by lia. apply H'. lia.
Qed.

Lemma dateText_lt a b :
  firstDay <= a < b -> b <= lastDay -> String.compare (dateText a) (dateText b) = Lt.
Proof.
  intros Ha Hb. pose proof (climbs_suffix _ _ _ (a - firstDay) dates_climb eq_refl) as H.
  replace (firstDay + (a - firstDay)) with a in H by lia.
  destruct (climbs_lt _ _ _ (b - a) (H ltac:(unfold firstDay, lastDay in *; lia)) eq_refl) as [Hc _].
  { unfold firstDay, lastDay in *. lia. }
  by replace (a + (b - a)) with b in Hc by lia.
Qed.

(** The comparison of the query: the time of day never decides. *)
Lemma storyLive_day now s :
  in_range now -> in_range (sto_expires_at s) ->
  storyLive now s = (dayOf now <=? dayOf (sto_expires_at s)).
Proof.
  intros Hn%in_range_day He%in_range_day. unfold storyLive, FormatSQL, RFC3339.
  fold (dayOf now) (dayOf (sto_expires_at s)).
  unfold String.ltb. rewrite compare_app by (by rewrite !dateText_length).
  destruct (Z.lt_trichotomy (dayOf now) (dayOf (sto_expires_at s))) as [H|[H|H]].
  - rewrite dateText_lt by lia. symmetry. apply Z.leb_le. lia.
  - rewrite H, compare_refl, Z.leb_refl. reflexivity.
  - rewrite (compare_antisym (dateText (dayOf (sto_expires_at s))) (dateText (dayOf now)))
      by (apply dateText_lt; lia).
    symmetry. apply Z.leb_gt. lia.
Qed.

Lemma dayOf_mono a b : a <= b -> dayOf a <= dayOf b.
Proof. intros H. unfold dayOf. do 2 (apply Z.div_le_mono; [unfold Second; lia|]). done. Qed.

(** ** Posting a story *)

Lemma requireAuthHTTP_user r w u :
  (requireAuthHTTP r w).1 = inr u ->
  exists row, row ∈ rows (session_tokens (wDB w)) /\ grants (tokenFromRequest r) (wNow w) row
    /\ st_username row = u.
Proof.
  unfold requireAuthHTTP. rewrite bind_run.
  destruct (sessionUsername_grants (tokenFromRequest r) w) as [E|(row & Hr & Hg & E)]; rewrite E; [done|].
  cbn [fst snd]. destruct (is_empty _); [done|]. intros [= <-]. by exists row.
Qed.

(** C29: a posted story is the signed-in author's, and who asks for the
    author's stories at a time [t] gets it exactly while the UTC date of [t] is
    not past the UTC date of its expiry: never less than the twenty-four hours
    it promises, but up to the end of that day, almost twice as long. *)
Theorem story_visible r b w rs w' :
  sql_ok w -> in_range (wNow w + storyTTL) ->
  storiesCreateHandler r (Some b) w = (rs, w') -> rsCode rs = StatusOK ->
  exists s row,
    rows (stories (wDB w')) = rows (stories (wDB w)) ++ [s]
    /\ row ∈ rows (session_tokens (wDB w)) /\ grants (tokenFromRequest r) (wNow w) row
    /\ sto_author s = st_username row /\ sto_media_url s = sbURL b
    /\ sto_expires_at s = wNow w + storyTTL
    /\ (forall t, in_range t ->
          s ∈ (authorStories (sto_author s) t (wDB w')).*1 <-> dayOf t <= dayOf (wNow w + storyTTL))
    /\ (forall t, in_range t -> t <= wNow w + storyTTL ->
          s ∈ (authorStories (sto_author s) t (wDB w')).*1).
Proof.
  intros Hok Hexp. unfold storiesCreateHandler. rewrite bind_run.
  pose proof (requireAuthHTTP_user r w) as Hu.
  pose proof (respects_requireAuthHTTP (same wDB) r w) as Hd.
  pose proof (respects_requireAuthHTTP (same ctx) r w) as Hc.
  destruct (requireAuthHTTP r w) as [[rs0|u] w1] eqn:Ea; cbn [fst snd] in *.
  { unfold requireAuthHTTP in Ea. intros [= <- <-] Hcode. exfalso. revert Ea Hcode.
    rewrite bind_run, ret_run. destruct (is_empty _); [by intros [= <- _] | done]. }
  destruct (Hu u eq_refl) as (row & Hrow & Hg & Hname).
  assert (Hok1 : sql_ok w1).
  { intros n. unfold same, ctx in Hc. injection Hc as _ _ Hf _ _. by rewrite Hf. }
  assert (Hnow : wNow w1 = wNow w) by (unfold same, ctx in Hc; by injection Hc).
  destruct (negb (rqMethod r ==? "POST")); [by intros [= <- _]|].
  destruct (is_empty (sbURL b)); [by intros [= <- _]|].
  destruct (_ && _); [by intros [= <- _]|]. sqlrun. intros [= <- <-] _.
  rewrite Hnow. unfold same in Hd.
  set (s := mkStory (tnext (stories (wDB w1))) u (sbURL b) (sbKind b) (clip 280 (sbCaption b))
              (sqlNow (wNow w)) (wNow w + storyTTL)).
  assert (Hrows : rows (stories (wDB (set_wDB (insertStory u b (wNow w) (wDB w1)) (tickSql w1))))
                  = rows (stories (wDB w)) ++ [s]) by (rewrite <- Hd; reflexivity).
  assert (Hvis : forall t, in_range t ->
    s ∈ (authorStories u t (wDB (set_wDB (insertStory u b (wNow w) (wDB w1)) (tickSql w1)))).*1
    <-> dayOf t <= dayOf (wNow w + storyTTL)).
  { intros t Ht. unfold authorStories. rewrite <- list_fmap_compose, list_elem_of_fmap.
    rewrite <- Z.leb_le. change (wNow w + storyTTL) with (sto_expires_at s).
    rewrite <- (storyLive_day t s Ht Hexp). split.
    - intros (s' & -> & Hs'). cbn in Hs'. apply elem_of_order_by in Hs'.
      apply elem_of_boolfilter in Hs' as [Hl _]. by apply andb_prop in Hl as [_ Hl].
    - intros Hl. exists s. split; [done|]. apply elem_of_order_by, elem_of_boolfilter. split.
      + rewrite Hl, andb_true_r. apply eqb_refl_dec.
      + rewrite Hrows. apply elem_of_app. right. left. }
  exists s, row. split_and!; try done.
  intros t Ht Hle. apply Hvis; [done|]. by apply dayOf_mono.
Qed.

(** Alice posts a picture; at a quarter to midnight of the next day, an hour
    and a half after its twenty-four hours, it is still listed. *)
Definition postRequest : Request :=
  mkRequest "POST" "/api/v1/stories" "10.0.0.7:5000" (fun _ => "")
    (fun n => if n ==? sessionCookieName then "tok" else "") (fun _ => "").
Definition picture : StoryBody := mkStoryBody "/uploads/a.png" "image" "hi".

Lemma story_visible_witness :
  let w' := (storiesCreateHandler postRequest (Some picture) sampleW).2 in
  T0 + storyTTL < T0 + storyTTL + 90 * Minute
  /\ authorStories "alice" (T0 + storyTTL + 90 * Minute) (wDB w') <> []
  /\ authorStories "alice" (T0 + storyTTL + 2 * Hour) (wDB w') = []
  /\ exists s, sto_author s = "alice" /\ s ∈ (authorStories "alice" (T0 + storyTTL) (wDB w')).*1.
Proof.
  cbv zeta. split; [reflexivity|]. split; [vm_compute; discriminate|]. split; [vm_compute; reflexivity|].
  destruct (storiesCreateHandler postRequest (Some picture) sampleW) as [rs w'] eqn:E.
  assert (Hc : rsCode (storiesCreateHandler postRequest (Some picture) sampleW).1 = StatusOK)
    by (vm_compute; reflexivity).
  rewrite E in Hc.
  destruct (story_visible postRequest picture sampleW rs w' sampleW_ok
              ltac:(vm_compute; split; [discriminate | reflexivity]) E Hc)
    as (s & row & _ & Hrow & Hg & Ha & _ & _ & _ & Hv).
  exists s. assert (Hn : sto_author s = "alice").
  { rewrite Ha. vm_compute in Hrow. repeat (apply elem_of_cons in Hrow as [->|Hrow]; [reflexivity|]).
    by apply elem_of_nil in Hrow. }
  split; [exact Hn|]. rewrite <- Hn. apply Hv; [vm_compute; split; [discriminate | reflexivity]|].
  vm_compute. discriminate.
Defined.

(** ** Sweeps no reader notices *)

Definition at_time (t : Z) (w : World) : World := set_wNow t w.

(** The row of a key, after a deletion. *)
Lemma tfirst_tdelete {R} (key : R -> string) (k : string) (q : R -> bool) (t : Table R) :
  unique key t ->
  tfirst (fun r => key r ==? k) (tdelete q t) =
    match tfirst (fun r => key r ==? k) t with Some r => if q r then None else Some r | None => None end.
Proof.
  intros Hu. destruct (tfirst _ (tdelete q t)) as [r|] eqn:E.
  - apply tfirst_Some in E as [[Hr Hq]%elem_of_tdelete E].
    destruct (tfirst _ t) as [r0|] eqn:E0.
    + apply tfirst_Some in E0 as [Hr0 E0]. bools.
      replace r0 with r by (apply (unique_eq key t); congruence). by rewrite Hq.
    + pose proof (proj1 (find_first_None _ _) E0 r Hr). simpl in *. congruence.
  - destruct (tfirst _ t) as [r0|] eqn:E0; [|done]. apply tfirst_Some in E0 as [Hr0 E0].
    destruct (q r0) eqn:Eq; [done|]. exfalso.
    assert (Hin : r0 ∈ rows (tdelete q t)) by (by apply elem_of_tdelete).
    pose proof (proj1 (find_first_None _ _) E r0 Hin). simpl in *. congruence.
Qed.

(** Deleting rows the selection would not have taken. *)
Lemma tselect_dead {R} (q p : R -> bool) (t : Table R) :
  (forall x, x ∈ rows t -> q x = true -> p x = false) -> tselect p (tdelete q t) = tselect p t.
Proof.
  intros H. unfold tselect, tdelete. simpl. rewrite <- boolfilter_and. apply boolfilter_ext.
  intros x Hx. destruct (q x) eqn:E; simpl; [by rewrite (H x) | done].
Qed.

Lemma sqlNow_le now : sqlNow now <= now.
Proof. unfold sqlNow. rewrite Z.mul_comm. apply Z.mul_div_le. unfold Second. lia. Qed.

Lemma sql_ok_time t w : sql_ok w -> sql_ok (at_time t w).
Proof. intros H n. apply H. Qed.

Lemma sweepSessions_run w :
  sql_ok w -> (sweepExpiredSessions w).2 =
    set_wDB (set_session_tokens (tdelete (sessionDead (wEnv w) (wNow w)) (session_tokens (wDB w))) (wDB w)) (tickSql w).
Proof. intros Hok. unfold sweepExpiredSessions. by sqlrun. Qed.

(** A host whose local time is never behind UTC. *)
Definition not_west (e : Env) : Prop := forall t, 0 <= zoneOffset e t.

(** A session the sweep removes was dead already, and stays so. *)
Lemma sessionState_swept tok w t :
  not_west (wEnv w) -> sql_ok w -> db_wf (wDB w) -> wNow w <= t ->
  (sessionState tok (at_time t (sweepExpiredSessions w).2)).1 = (sessionState tok (at_time t w)).1.
Proof.
  intros Hz Hok Hwf Ht. rewrite sweepSessions_run by done. rewrite !sessionState_eq.
  destruct (is_empty tok); [done|].
  rewrite !sql_ok_faulty by (try apply sql_ok_time; sqlside). cbn [fst].
  change (session_tokens (wDB (at_time t (set_wDB ?d ?w')))) with (session_tokens d).
  cbn [session_tokens set_session_tokens wDB at_time set_wNow set_wDB wNow].
  rewrite (tfirst_tdelete st_token tok) by apply Hwf.
  destruct (tfirst _ _) as [r|]; [|done].
  destruct (sessionDead _ (wNow w) r) eqn:Ed; [|done]. unfold sessionDead, asUTC in Ed.
  pose proof (sqlNow_le (wNow w)). pose proof (Hz (st_expires_at r)). apply orb_prop in Ed as [Ed|Ed]; bools.
  - by rewrite Ed.
  - rewrite (proj2 (Z.ltb_lt (st_expires_at r) t)) by lia. by rewrite orb_true_r.
Qed.

Lemma sqlNow_mono a b : a <= b -> sqlNow a <= sqlNow b.
Proof.
  intros H. unfold sqlNow. apply Z.mul_le_mono_nonneg_r; [unfold Second; lia|].
  apply Z.div_le_mono; [unfold Second; lia | done].
Qed.

(** The list of an account's sessions compares as the sweep does. *)
Lemma sessionsOf_swept u w t :
  sql_ok w -> wNow w <= t ->
  sessionsOf (wEnv w) u t (wDB (sweepExpiredSessions w).2) = sessionsOf (wEnv w) u t (wDB w).
Proof.
  intros Hok Ht. rewrite sweepSessions_run by done. unfold sessionsOf.
  cbn [session_tokens set_session_tokens wDB set_wDB]. rewrite tselect_dead; [done|].
  intros r _ Hd. unfold sessionDead in Hd. pose proof (sqlNow_mono _ _ Ht).
  apply orb_prop in Hd as [Hd|Hd]; bools.
  - by rewrite Hd, andb_false_r.
  - rewrite (proj2 (Z.leb_gt (sqlNow t) _)) by lia. by rewrite andb_false_r.
Qed.

(** A swept reset token would have been refused. *)
Lemma resetFor_swept tok w t :
  not_west (wEnv w) -> sql_ok w -> db_wf (wDB w) -> wNow w <= t ->
  match resetFor tok (wDB (sweepExpiredResetTokens w).2) with
  | Some r => resetFor tok (wDB w) = Some r
  | None => match resetFor tok (wDB w) with
            | Some r => negb (pr_used r =? 0) || (pr_expires_at r <? t) = true
            | None => True
            end
  end.
Proof.
  intros Hz Hok Hwf Ht. unfold sweepExpiredResetTokens. sqlrun. unfold resetFor.
  cbn [password_resets set_password_resets].
  rewrite (tfirst_tdelete pr_token tok) by apply Hwf.
  destruct (tfirst _ _) as [r|]; [|done].
  destruct (resetDead _ (wNow w) r) eqn:Ed; [|done]. unfold resetDead, asUTC in Ed.
  pose proof (sqlNow_le (wNow w)). pose proof (Hz (pr_expires_at r)). apply orb_prop in Ed as [Ed|Ed]; bools.
  - by rewrite Ed.
  - rewrite (proj2 (Z.ltb_lt (pr_expires_at r) t)) by lia. by rewrite orb_true_r.
Qed.

Lemma consume_accepts tok pw w :
  sql_ok w ->
  (consumePasswordReset tok pw w).1 = None <->
  (len pw <? 8) = false /\ (exists r, resetFor tok (wDB w) = Some r
     /\ negb (pr_used r =? 0) || (pr_expires_at r <? wNow w) = false) /\ hashPassword (wEnv w) pw <> None.
Proof.
  intros Hok. unfold consumePasswordReset. destruct (len pw <? 8); [by split; [done | intros [? _]]|].
  sqlrun. destruct (resetFor tok (wDB w)) as [r|]; sqlrun.
  2: { split; [done|]. by intros (_ & (r & ? & _) & _). }
  destruct (negb _ || _) eqn:E.
  { split; [done|]. intros (_ & (r' & [= <-] & E') & _). congruence. }
  destruct (hashPassword _ _) as [h|]; [|split; [done | by intros (_ & _ & ?)]].
  rewrite bind_run. unfold Tx. rewrite sql_ok_faulty by sqlside. unfold resetTx. cbn [tx_body].
  rewrite !sql_ok_faulty by (repeat apply sql_ok_tick; done). cbn. split; [|done]. intros _.
  split; [done|]. split; [by exists r | done].
Qed.

Definition stories_in_range (d : Database) : Prop :=
  Forall (fun s => in_range (sto_expires_at s)) (rows (stories d)).

(** A story the sweeper removes is past its last day. *)
Lemma storyLive_later s now t :
  in_range now -> in_range t -> now <= t -> in_range (sto_expires_at s) ->
  negb (storyLive now s) = true -> storyLive t s = false.
Proof.
  intros Hn Ht Hle Hs. rewrite !storyLive_day by done. pose proof (dayOf_mono _ _ Hle).
  intros H'%negb_true_iff. bools. apply Z.leb_gt. lia.
Qed.

(** The database after a sweep of the stories. *)
Definition sweptStories (now : Z) (d : Database) : Database :=
  set_stories (tdelete (fun s => negb (storyLive now s)) (stories d)) d.
Definition sweptViews (d : Database) : Database :=
  set_story_views (tdelete (fun v => negb (texists (fun s => sto_id s =? stv_story_id v) (stories d)))
                     (story_views d)) d.

Lemma sweepStories_run w :
  sql_ok w ->
  wDB (storiesExpireSweeper w).2 =
    if 0 <? tcount (fun s => negb (storyLive (wNow w) s)) (stories (wDB w))
    then sweptViews (sweptStories (wNow w) (wDB w)) else sweptStories (wNow w) (wDB w).
Proof. intros Hok. unfold storiesExpireSweeper. sqlrun. unfold when. by destruct (0 <? _); sqlrun. Qed.

Lemma viewsOf_swept id d :
  texists (fun s => sto_id s =? id) (stories d) = true -> viewsOf id (sweptViews d) = viewsOf id d.
Proof.
  intros H. unfold viewsOf, tcount, sweptViews. cbn [story_views set_story_views].
  rewrite tselect_dead; [done|]. intros v _ Hv.
  destruct (stv_story_id v =? id) eqn:E; [|done]. apply Z.eqb_eq in E. subst.
  rewrite H in Hv. done.
Qed.

Lemma authorStories_swept author now t d :
  in_range now -> in_range t -> now <= t -> stories_in_range d ->
  authorStories author t (sweptStories now d) = authorStories author t d
  /\ authorStories author t (sweptViews (sweptStories now d)) = authorStories author t (sweptStories now d)
  /\ feedIn t (sweptStories now d) = feedIn t d.
Proof.
  intros Hn Ht Hle Hs. unfold stories_in_range in Hs. rewrite Forall_forall in Hs.
  assert (Hd : forall x, x ∈ rows (stories d) -> negb (storyLive now x) = true -> storyLive t x = false)
    by (intros x Hx; apply storyLive_later; auto).
  split_and!.
  - unfold authorStories, sweptStories. cbn [stories set_stories]. rewrite tselect_dead; [done|].
    intros x Hx Hl. by rewrite (Hd x Hx Hl), andb_false_r.
  - unfold authorStories at 1. unfold sweptViews at 2. cbn [stories set_story_views].
    apply list_fmap_ext. intros i s Hi. f_equal. apply viewsOf_swept.
    apply list_elem_of_lookup_2, elem_of_order_by, elem_of_boolfilter in Hi as [_ Hi].
    apply texists_true. exists s. split; [done | apply Z.eqb_refl].
  - unfold feedIn, sweptStories. cbn [stories set_stories]. by rewrite tselect_dead.
Qed.

(** C30: the checks do not see the sweepers.  On a host at UTC or east of it,
    with the database answering, the five answers below are the same at any
    later time whether or not the expired rows have been swept: the session
    check for every token, the list of an account's sessions, whether a reset
    token is accepted, the story feed, and every author's list with its view
    counts.  Each of them looks at the
    expiry itself; the answer to a reply or a deletion by story id does not
    ([swept_story_reply]), and on a host west of UTC the sweepers come too
    early for the first two ([west_sweeps_early]). *)
Theorem sweeps_invisible w t :
  not_west (wEnv w) -> sql_ok w -> db_wf (wDB w) -> wNow w <= t ->
  (forall tok, (sessionState tok (at_time t (sweepExpiredSessions w).2)).1
               = (sessionState tok (at_time t w)).1)
  /\ (forall u, sessionsOf (wEnv w) u t (wDB (sweepExpiredSessions w).2) = sessionsOf (wEnv w) u t (wDB w))
  /\ (forall tok pw, (consumePasswordReset tok pw (at_time t (sweepExpiredResetTokens w).2)).1 = None
                     <-> (consumePasswordReset tok pw (at_time t w)).1 = None)
  /\ (in_range (wNow w) -> in_range t -> stories_in_range (wDB w) ->
      feedIn t (wDB (storiesExpireSweeper w).2) = feedIn t (wDB w)
      /\ forall author, authorStories author t (wDB (storiesExpireSweeper w).2)
                        = authorStories author t (wDB w)).
Proof.
  intros Hz Hok Hwf Hle. split_and!.
  - intros tok. by apply sessionState_swept.
  - intros u. by apply sessionsOf_swept.
  - intros tok pw. pose proof (resetFor_swept tok w t Hz Hok Hwf Hle) as Hr.
    assert (Hok2 : sql_ok (sweepExpiredResetTokens w).2)
      by (unfold sweepExpiredResetTokens; sqlrun; sqlside).
    assert (He : wEnv (sweepExpiredResetTokens w).2 = wEnv w) by (unfold sweepExpiredResetTokens; by sqlrun).
    rewrite !consume_accepts by by apply sql_ok_time.
    cbn [at_time set_wNow wDB wNow wEnv]. rewrite He.
    split; intros (H1 & (r & H2 & H3) & H4); (split; [done|]; split; [|done]).
    + rewrite H2 in Hr. by exists r.
    + destruct (resetFor tok (wDB (sweepExpiredResetTokens w).2)) as [r'|].
      * exists r'. split; [done|]. congruence.
      * rewrite H2 in Hr. congruence.
  - intros Hn Ht Hs. pose proof (fun a => authorStories_swept a (wNow w) t (wDB w) Hn Ht Hle Hs) as H.
    rewrite sweepStories_run by done.
    split; [|intros author]; destruct (0 <? _).
    + exact (proj2 (proj2 (H ""))).
    + exact (proj2 (proj2 (H ""))).
    + by destruct (H author) as (<- & <- & _).
    + by destruct (H author) as (<- & _ & _).
Qed.

(** A database with one session past its term and one live, a used reset token
    and a story of last month. *)
Definition staleDB : Database :=
  sampleDB
    |> set_session_tokens (tableOf
         [mkSessionToken "tok" "alice" "web" T0 (T0 + 30 * Day) 0 0;
          mkSessionToken "old" "alice" "web" (T0 - 60 * Day) (T0 - 30 * Day) 0 0])
    |> set_password_resets (tableOf [mkPasswordReset "r1" "bob" (T0 + Hour) 1])
    |> set_stories (mkTable [mkStory 1 "bob" "/u/1" "image" "" (T0 - 31 * Day) (T0 - 30 * Day);
                             mkStory 2 "bob" "/u/2" "image" "" T0 (T0 + Day)] 2)
    |> set_story_views (tableOf [mkStoryView 1 "alice"; mkStoryView 2 "alice"]).
Definition staleW : World := mkW staleDB sampleServer T0.

Lemma sweeps_invisible_witness :
  let w := staleW in let t := T0 + Hour in
  rows (session_tokens (wDB (sweepExpiredSessions w).2)) <> rows (session_tokens (wDB w))
  /\ rows (stories (wDB (storiesExpireSweeper w).2)) <> rows (stories (wDB w))
  /\ (sessionState "tok" (at_time t (sweepExpiredSessions w).2)).1 = ("alice", false)
  /\ feedIn t (wDB (storiesExpireSweeper w).2) = feedIn t (wDB w)
  /\ authorStories "bob" t (wDB (storiesExpireSweeper w).2) = authorStories "bob" t (wDB w).
Proof.
  cbv zeta. split; [vm_compute; discriminate|]. split; [vm_compute; discriminate|].
  assert (Hok : sql_ok staleW) by (intros n; reflexivity).
  assert (Hwf : db_wf (wDB staleW)) by (apply wf_check_sound; vm_compute; reflexivity).
  assert (Hz : not_west (wEnv staleW)) by (intros t; apply Z.le_refl).
  destruct (sweeps_invisible staleW (T0 + Hour) Hz Hok Hwf) as (H1 & _ & _ & H3).
  { vm_compute. discriminate. }
  split; [rewrite H1; vm_compute; reflexivity|].
  destruct H3 as [H3 H4].
  - vm_compute. split; [discriminate | reflexivity].
  - vm_compute. split; [discriminate | reflexivity].
  - unfold stories_in_range.
    change (rows (stories (wDB staleW))) with
      [mkStory 1 "bob" "/u/1" "image" "" (T0 - 31 * Day) (T0 - 30 * Day);
       mkStory 2 "bob" "/u/2" "image" "" T0 (T0 + Day)].
    repeat (apply Forall_cons_2; [split; [vm_compute; discriminate | reflexivity]|]). apply Forall_nil_2.
  - split; [exact H3 | apply H4].
Defined.

(** A story past its day takes replies until the sweeper comes: the reply to
    Bob's story of last month is answered 200 before the sweep and 404 after
    it. *)
Definition replyRequest : Request :=
  mkRequest "POST" "/api/v1/stories/1/reply" "10.0.0.7:5000" (fun _ => "")
    (fun n => if n ==? sessionCookieName then "tok" else "") (fun _ => "").
Theorem swept_story_reply :
  let ask w := rsCode (storiesItemHandler replyRequest (Some "hi") w).1 in
  authorStories "bob" T0 (wDB staleW) = authorStories "bob" T0 (wDB (storiesExpireSweeper staleW).2)
  /\ ask staleW = StatusOK /\ ask (storiesExpireSweeper staleW).2 = StatusNotFound.
Proof. split_and!; vm_compute; reflexivity. Qed.

(** Five hours west of UTC the sweeper deletes a reset token the moment it
    runs, and a session five hours before it expires: the token would still
    have been accepted, the session still signs alice in. *)
Definition westW : World :=
  set_wEnv (set_zoneOffset (fun _ => - (5 * Hour)) env0)
    (mkW (sampleDB
           |> set_session_tokens (tableOf [mkSessionToken "tok" "alice" "web" T0 (T0 + 4 * Hour) 0 0])
           |> set_password_resets (tableOf [mkPasswordReset "r1" "bob" (T0 + Hour) 0])) sampleServer T0).
Theorem west_sweeps_early :
  (sessionState "tok" westW).1 = ("alice", false)
  /\ (sessionState "tok" (sweepExpiredSessions westW).2).1 = ("", false)
  /\ (consumePasswordReset "r1" "password2" westW).1 = None
  /\ (consumePasswordReset "r1" "password2" (sweepExpiredResetTokens westW).2).1 <> None.
Proof. split_and!; vm_compute; try reflexivity. discriminate. Qed.
