(* ===== verification/FilesSpec.v ===== *)
(** * What the blob store promises

    An uploaded file can be fetched back as it was sent; an upload touches its
    own key only; and no request path, however written, makes a serving handler
    leave its prefix. *)

From Stdlib Require Import ZArith Lia Ascii String.
From stdpp Require Import base strings list gmap.
From S2P Require Import Prelude GoRt GoStd Json Store Wire Db World Wf Samples Http Middleware Sessions.
From S2P Require Import Accounts Files Mux.

Open Scope string_scope.
Open Scope list_scope.
Open Scope Z_scope.

(** ** Names without a slash *)

Definition slashless (s : string) : Prop := slash ∉ list_ascii_of_string s.

Lemma list_ascii_app a b :
  list_ascii_of_string (a +:+ b) = (list_ascii_of_string a ++ list_ascii_of_string b)%list.
Proof.
  induction a as [|c a IH]; [done|]. change (String c a +:+ b) with (String c (a +:+ b)).
  simpl. by rewrite IH.
Qed.

Lemma slashless_app a b : slashless (a +:+ b) <-> slashless a /\ slashless b.
Proof. unfold slashless. rewrite list_ascii_app, not_elem_of_app. done. Qed.

Lemma strip_slashes_id l : slash ∉ l -> strip_slashes l = l.
Proof. destruct l as [|c l]; [done|]. rewrite not_elem_of_cons. intros [H _]. simpl. by rewrite bool_decide_false. Qed.

Lemma until_slash_id l : slash ∉ l -> until_slash l = l.
Proof.
  induction l as [|c l IH]; [done|]. rewrite not_elem_of_cons. intros [H1 H2]. simpl.
  rewrite bool_decide_false by done. by rewrite IH.
Qed.

Lemma Base_slashless s : slashless s -> s <> "" -> Base s = s.
Proof.
  intros Hs Hne. unfold Base, is_empty. rewrite (eqb_neq_dec _ _ Hne).
  assert (Hr : slash ∉ rev (list_ascii_of_string s)).
  { intros H%list_elem_of_In%in_rev%list_elem_of_In. by apply Hs. }
  rewrite strip_slashes_id by done. destruct (rev (list_ascii_of_string s)) as [|c l] eqn:E.
  { destruct s as [|c s]; [done|]. simpl in E. by apply app_eq_nil in E as [_ E]. }
  rewrite <- E in *. rewrite until_slash_id, rev_involutive by done.
  apply string_of_list_ascii_of_string.
Qed.

Lemma drop_bytes_app p s : drop_bytes (String.length p) (p +:+ s) = s.
Proof. induction p as [|c p IH]; [by destruct s | exact IH]. Qed.

Lemma prefix_app p s : HasPrefix (p +:+ s) p = true.
Proof.
  unfold HasPrefix. induction p as [|c p IH]; [by destruct s|].
  change (String c p +:+ s) with (String c (p +:+ s)). simpl. destruct (Ascii.ascii_dec c c); done.
Qed.

Lemma TrimPrefix_app p s : TrimPrefix (p +:+ s) p = s.
Proof. unfold TrimPrefix. by rewrite prefix_app, drop_bytes_app. Qed.

(** The directory part of a blob key. *)
Lemma Cut_upload name : Cut (uploadKey name) "/"%char = Some ("uploads", name).
Proof. unfold Cut, uploadKey. cbn. by destruct name. Qed.

Lemma diskPath_upload e name :
  slashless name -> name <> "" -> name <> "." -> name <> ".." ->
  diskPath e (uploadKey name) = Some (uploadDir e, name).
Proof.
  intros H1 H2 H3 H4. unfold diskPath. rewrite Cut_upload, Base_slashless by done.
  unfold is_empty. rewrite eqb_refl_dec, !eqb_neq_dec by done. done.
Qed.

Lemma keyRejected_upload e name :
  slashless name -> name <> "" -> name <> "." -> name <> ".." -> keyRejected e (uploadKey name) = false.
Proof.
  intros. unfold keyRejected. rewrite diskPath_upload, bool_decide_false by done. apply andb_false_r.
Qed.

(** ** The name of an upload *)

Lemma slash_bytes s : slash ∈ list_ascii_of_string s -> 47 ∈ bytes s.
Proof.
  induction s as [|c s IH]; simpl; [by intros H%elem_of_nil|].
  intros [<-|H]%elem_of_cons; [left | right; auto].
Qed.

Lemma hex_digit_not_slash z : 0 <= z < 16 -> hex_digit z <> 47.
Proof. unfold hex_digit. destruct (z <? 10); lia. Qed.

Lemma hex_bytes_not_slash l : Forall (fun z => 0 <= z < 256) l -> 47 ∉ hex_bytes l.
Proof.
  induction 1 as [|b l Hb _ IH]; [apply not_elem_of_nil|]. simpl. rewrite !not_elem_of_cons.
  split_and!; try done; apply not_eq_sym, hex_digit_not_slash;
    first [apply Z.mod_pos_bound; lia | split; [apply Z.div_pos; lia | apply Z.div_lt_upper_bound; lia]].
Qed.

Lemma slashless_hex l : Forall (fun z => 0 <= z < 256) l -> slashless (EncodeToString l).
Proof.
  intros Hl H%slash_bytes. unfold EncodeToString in H.
  rewrite bytes_of_bytes in H by by apply hex_bytes_range. by apply hex_bytes_not_slash in H.
Qed.

Lemma slashless_ext ext : inList ext allowedExts = true -> slashless ext /\ exists c d s, ext = String c (String d s).
Proof.
  unfold inList, allowedExts. cbn [existsb]. rewrite !orb_true_iff.
  intros H. repeat destruct H as [H|H]; try discriminate; bools; subst;
    (split; [apply (bool_decide_unpack _); vm_compute; exact I | eauto]).
Qed.

(** A generated name: hexadecimal digits and an extension of the list. *)
Definition goodName (name : string) : Prop :=
  slashless name /\ name <> "" /\ name <> "." /\ name <> "..".

Lemma randHex_slashless n w s :
  (randHex n w).1 = Some s -> slashless s /\ String.length s = (2 * n)%nat.
Proof.
  unfold randHex. rewrite bind_run, ret_run. cbn [fst].
  destruct (randList 256 n w) as [[l|] w'] eqn:E; [|done]. intros [= <-].
  destruct (randList_range 256 n w l) as [Hn Hl]; [lia | by rewrite E |].
  split; [by apply slashless_hex|]. unfold EncodeToString. rewrite length_of_bytes.
  rewrite <- Hn. clear. induction l as [|b l IH]; [done|]. simpl. rewrite IH. lia.
Qed.

Lemma goodName_upload rnd ext w :
  (randHex 16 w).1 = Some rnd -> inList ext allowedExts = true -> goodName (rnd +:+ ext).
Proof.
  intros [H1 H2]%randHex_slashless [H3 (c & d & s & ->)]%slashless_ext. split.
  { by apply slashless_app. }
  destruct rnd as [|a [|b rnd]]; [done..|].
  change (String a (String b rnd) +:+ String c (String d s))
    with (String a (String b (rnd +:+ String c (String d s)))).
  split_and!; try discriminate. by destruct rnd.
Qed.

(** The account an upload is accepted from, as a fact on the database. *)
Definition mayUpload (r : Request) (u : string) (w : World) : Prop :=
  exists row, row ∈ rows (session_tokens (wDB w)) /\ grants (tokenFromRequest r) (wNow w) row
    /\ st_username row = u.

Lemma uploaderOf_user r w u : (uploaderOf r w).1 = inr u -> mayUpload r u w.
Proof.
  unfold uploaderOf. rewrite bind_run.
  destruct (sessionUsername_grants (tokenFromRequest r) w) as [E|(row & Hr & Hg & E)]; rewrite E; [done|].
  cbn [fst snd]. destruct (is_empty _); [done|]. rewrite bind_run, ret_run. cbn [fst].
  destruct (userBanInfo _ _).1.1; [done|]. intros [= <-]. by exists row.
Qed.

Lemma uploaderOf_refused r w rs : (uploaderOf r w).1 = inl rs -> rsCode rs <> StatusOK.
Proof.
  unfold uploaderOf. rewrite bind_run. destruct (is_empty _); [by intros [= <-]|].
  rewrite bind_run, ret_run. cbn [fst]. destruct (userBanInfo _ _).1.1; [by intros [= <-] | done].
Qed.

Definition stays (w : World) := (wDB w, wBlobs w, ctx w).
#[export] Instance fq_stays : FreesSql (same stays). Proof. by intros ?. Qed.
#[export] Instance fs_stays : FreesSrv (same stays). Proof. by intros ??. Qed.
#[export] Instance fr_stays : FreesRand (same stays). Proof. by intros ??. Qed.

(** The name of an upload: the draw of its request, and the extension. *)
Definition drawnName (f : FormFile) (w : World) (name : string) : Prop :=
  exists rnd, (randHex 16 w).1 = Some rnd /\ name = rnd +:+ ToLower (Ext (ffName f)).

(** An upload, taken apart: refused, where a store that failed may yet have
    written the key of the new name, or done. *)
Lemma uploadHandler_cases r f w :
  (rsCode (uploadHandler r (File f) w).1 <> StatusOK
   /\ (wBlobs (uploadHandler r (File f) w).2 = wBlobs w
       \/ exists name, goodName name
            /\ wBlobs (uploadHandler r (File f) w).2 = <[uploadKey name := ffContent f]> (wBlobs w)))
  \/ exists u name w1, mayUpload r u w /\ goodName name /\ drawnName f w name /\ ffSize f <= maxUploadBytes
       /\ stays w1 = stays w
       /\ uploadHandler r (File f) w =
            (respJSON StatusOK [("url", JStr ("/uploads/" +:+ name)); ("name", JStr (Base (ffName f)));
                                ("size", JNum (ffSize f)); ("mime", JStr (ffType f))],
             set_wBlobs (<[uploadKey name := ffContent f]> (wBlobs w)) w1).
Proof.
  assert (Hb0 : forall w1, stays w1 = stays w -> wBlobs w1 = wBlobs w)
    by (intros w1 H; exact (f_equal (fun q => q.1.2) H)).
  assert (Hb : forall w1, stays w1 = stays w -> wBlobs w1 = wBlobs w
            \/ exists name, goodName name /\ wBlobs w1 = <[uploadKey name := ffContent f]> (wBlobs w))
    by (intros w1 H; left; by apply Hb0).
  unfold uploadHandler. destruct (negb _); [left; split; [done | by left]|]. rewrite bind_run.
  pose proof (uploaderOf_user r w) as Hu. pose proof (respects_uploaderOf (same stays) r w) as S1.
  pose proof (uploaderOf_refused r w) as Hr. pose proof (respects_uploaderOf (same rndView) r w) as R1.
  destruct (uploaderOf r w) as [[rs|u] w1]; cbn [fst snd] in *.
  { left. split; [by apply Hr | by apply Hb]. }
  destruct (_ <? ffSize f) eqn:Esz; [left; split; [done | by apply Hb]|]. rewrite bind_run.
  pose proof (respects_allowUpload (same stays) u w1) as S2. pose proof (respects_allowUpload (same rndView) u w1) as R2.
  unfold same in S1, S2, R1, R2.
  destruct (allowUpload u w1) as [[] w2]; cbn [fst snd negb] in *; [|left; split; [done | exact (Hb w2 ltac:(congruence))]].
  destruct (inList _ allowedExts) eqn:Eext; cbn [negb]; [|left; split; [done | exact (Hb w2 ltac:(congruence))]].
  rewrite bind_run, getEnv_run. cbn [fst snd].
  destruct (negb _); [left; split; [done | exact (Hb w2 ltac:(congruence))]|]. rewrite bind_run.
  pose proof (respects_randHex (same stays) 16 w2) as S3. unfold same in S3.
  pose proof (randHex_view 16 w w2 ltac:(congruence)) as Hd.
  pose proof (fun rnd => goodName_upload rnd (ToLower (Ext (ffName f))) w2) as Hg.
  destruct (randHex 16 w2) as [[rnd|] w3]; cbn [fst snd] in *; [|left; split; [done | exact (Hb w3 ltac:(congruence))]].
  assert (Hs : stays w3 = stays w) by congruence.
  specialize (Hg rnd eq_refl Eext). rewrite bind_run. unfold Put. rewrite !bind_run, getEnv_run.
  cbn [fst snd]. pose proof Hg as (G1 & G2 & G3 & G4).
  rewrite keyRejected_upload by done. unfold blobPut.
  destruct (blobFault _ _ _).
  { left. split; [done|]. cbn [fst snd]. destruct (blobTook _ _ _); [right | by apply Hb].
    eexists. split; [exact Hg|]. cbn [wBlobs set_wBlobs]. by rewrite (Hb0 w3 Hs). }
  cbn [fst snd negb]. rewrite ret_run. right.
  exists u, (rnd +:+ ToLower (Ext (ffName f))), w3. bools.
  split_and!; try done; [by apply Hu | by exists rnd |]. by rewrite (Hb0 w3 Hs).
Qed.

Lemma uploadHandler_ok r f w :
  rsCode (uploadHandler r (File f) w).1 = StatusOK ->
  exists u name w1, mayUpload r u w /\ goodName name /\ drawnName f w name /\ ffSize f <= maxUploadBytes
    /\ stays w1 = stays w
    /\ uploadHandler r (File f) w =
         (respJSON StatusOK [("url", JStr ("/uploads/" +:+ name)); ("name", JStr (Base (ffName f)));
                             ("size", JNum (ffSize f)); ("mime", JStr (ffType f))],
          set_wBlobs (<[uploadKey name := ffContent f]> (wBlobs w)) w1).
Proof. intros Hc. destruct (uploadHandler_cases r f w) as [[Hn _]|H]; [done | exact H]. Qed.

(** What the serving route answers for a stored name. *)
Lemma uploadsServe_found r name c w :
  rqPath r = "/uploads/" +:+ name -> goodName name ->
  wBlobs w !! uploadKey name = Some c -> blobFault (wEnv w) (wNow w) (uploadKey name) = false ->
  exists hs, (uploadsServeHandler r w).1 = withHeaders hs (mkResponse StatusOK [] (BFile c) [])
    /\ ("X-Content-Type-Options", "nosniff") ∈ hs
    /\ (inList (ToLower (Ext name)) inlineExts = false -> ("Content-Disposition", quoteName name) ∈ hs).
Proof.
  intros Hp (G1 & G2 & G3 & G4) Hb Hf. unfold uploadsServeHandler.
  rewrite Hp, TrimPrefix_app, Base_slashless by done. unfold is_empty.
  rewrite (eqb_neq_dec _ _ G2), (eqb_neq_dec _ _ G3). cbn [orb].
  destruct (name ==? "/") eqn:E.
  { exfalso. bools. subst. apply G1. left. }
  unfold serveBlob, OpenBlob. rewrite !bind_run, getEnv_run. cbn [fst snd].
  rewrite keyRejected_upload by done. unfold blobOpen. rewrite gets_run, Hf, Hb. cbn [fst].
  eexists. split; [reflexivity|]. split; [right; left|]. intros ->. right. right. left.
Qed.

(** C25: an upload comes back.  When the upload endpoint answers 200, the file
    was a signed-in user's, of at most 25 MB; its name is the thirty-two
    hexadecimal digits of the random bytes drawn for this request, with the
    lower-case extension of the file and nothing else of the client's; exactly
    the blob of that name was written, so no other upload is touched; and
    whoever asks for the address in the answer, as long as that blob is kept
    and the store answers, gets the bytes that were sent - as a download unless
    the name ends like an image. *)
Theorem upload_roundtrip r f w rs w' :
  uploadHandler r (File f) w = (rs, w') -> rsCode rs = StatusOK ->
  exists u rnd, mayUpload r u w /\ ffSize f <= maxUploadBytes
    /\ (randHex 16 w).1 = Some rnd /\ String.length rnd = 32%nat
    /\ let name := rnd +:+ ToLower (Ext (ffName f)) in
    goodName name
    /\ rsBody rs = BJson (JObj [("url", JStr ("/uploads/" +:+ name)); ("name", JStr (Base (ffName f)));
                                ("size", JNum (ffSize f)); ("mime", JStr (ffType f))])
    /\ wBlobs w' = <[uploadKey name := ffContent f]> (wBlobs w) /\ wDB w' = wDB w
    /\ forall r2 w2, rqPath r2 = "/uploads/" +:+ name ->
         wBlobs w2 !! uploadKey name = wBlobs w' !! uploadKey name ->
         blobFault (wEnv w2) (wNow w2) (uploadKey name) = false ->
         let rs2 := (uploadsServeHandler r2 w2).1 in
         rsCode rs2 = StatusOK /\ rsBody rs2 = BFile (ffContent f)
         /\ (inList (ToLower (Ext name)) inlineExts = false ->
             ("Content-Disposition", quoteName name) ∈ rsHeaders rs2).
Proof.
  intros E Hc. destruct (uploadHandler_ok r f w) as (u & name & w1 & Hu & Hg & (rnd & Hd & ->) & Hs & H1 & Ew).
  { by rewrite E. }
  rewrite Ew in E. injection E as <- <-. exists u, rnd. cbv zeta.
  split_and!; try done; [by destruct (randHex_slashless 16 w rnd Hd)|..].
  { exact (f_equal (fun q => q.1.1) H1). }
  intros r2 w2 Hp Hb Hf. cbn [wBlobs set_wBlobs] in Hb. rewrite lookup_insert_eq in Hb.
  destruct (uploadsServe_found r2 _ (ffContent f) w2 Hp Hg Hb Hf) as (hs & -> & _ & Hi).
  cbn [withHeaders rsCode rsBody rsHeaders]. split_and!; try done.
  intros Hx. apply elem_of_app. left. by apply Hi.
Qed.

(** Alice uploads a note. *)
Definition uploadRequest : Request :=
  mkRequest "POST" "/api/v1/upload" "10.0.0.7:5000" (fun _ => "")
    (fun n => if n ==? sessionCookieName then "tok" else "") (fun _ => "").
Definition note : FormFile := mkFormFile "notes/todo.TXT" 5 "text/plain" "hello".
Definition noteName : string := "000102030405060708090a0b0c0d0e0f.txt".
Definition noteRequest (path : string) : Request :=
  mkRequest "GET" path "10.0.0.8:5000" (fun _ => "") (fun _ => "") (fun _ => "").

Lemma upload_roundtrip_witness :
  let w' := (uploadHandler uploadRequest (File note) sampleW).2 in
  rsCode (uploadHandler uploadRequest (File note) sampleW).1 = StatusOK
  /\ rsBody (uploadsServeHandler (noteRequest ("/uploads/" +:+ noteName)) w').1 = BFile "hello"
  /\ exists u rnd, mayUpload uploadRequest u sampleW /\ (randHex 16 sampleW).1 = Some rnd
      /\ wBlobs w' !! uploadKey (rnd +:+ ".txt") = Some "hello".
Proof.
  cbv zeta. assert (Hc : rsCode (uploadHandler uploadRequest (File note) sampleW).1 = StatusOK)
    by (vm_compute; reflexivity).
  split; [exact Hc|]. split; [vm_compute; reflexivity|].
  destruct (uploadHandler uploadRequest (File note) sampleW) as [rs w'] eqn:E.
  destruct (upload_roundtrip uploadRequest note sampleW rs w' E Hc)
    as (u & rnd & Hu & _ & Hr & _ & _ & _ & Hb & _). cbn [snd].
  exists u, rnd. split; [exact Hu|]. split; [exact Hr|]. rewrite Hb. apply lookup_insert_eq.
Defined.

(** ** Confinement *)

Definition onlyKey (key : string) (w w' : World) : Prop :=
  forall k, k <> key -> wBlobs w' !! k = wBlobs w !! k.

Lemma onlyKey_insert key c w w' :
  wBlobs w' = <[key := c]> (wBlobs w) -> onlyKey key w w'.
Proof. intros E k Hk. by rewrite E, lookup_insert_ne. Qed.

Lemma Put_onlyKey key c w : onlyKey key w (Put key c w).2.
Proof.
  unfold Put. rewrite bind_run, getEnv_run. cbn [fst snd]. destruct (keyRejected _ _); [done|].
  unfold blobPut.
  destruct (blobFault _ _ _); [destruct (blobTook _ _ _)|]; [|done|]; by apply (onlyKey_insert _ c).
Qed.

Lemma avatarUpload_only r b w :
  wBlobs (avatarUploadHandler r b w).2 = wBlobs w
  \/ exists u, mayUpload r u w /\ onlyKey (avatarKey u) w (avatarUploadHandler r b w).2.
Proof.
  unfold avatarUploadHandler. destruct (negb _); [by left|]. rewrite bind_run.
  pose proof (uploaderOf_user r w) as Hu. pose proof (respects_uploaderOf (same wBlobs) r w) as S1.
  destruct (uploaderOf r w) as [[rs|u] w1]; cbn [fst snd] in *; [by left|].
  rewrite bind_run, getEnv_run. cbn [fst snd]. destruct b as [data|]; [|by left].
  destruct (validateAvatar _ _); [by left|]. destruct (imageDecode _ _) as [img|]; [|by left].
  destruct (pngEncode _ _) as [png|]; [|by left]. rewrite bind_run, ret_run. cbn [snd].
  right. exists u. split; [by apply Hu|]. intros k Hk. rewrite (Put_onlyKey _ png w1 k Hk).
  unfold same in S1. by rewrite S1.
Qed.

(** The uploads themselves: whatever comes of one, only the key of its own new
    name can have changed. *)
Lemma upload_only r u w :
  wBlobs (uploadHandler r u w).2 = wBlobs w
  \/ exists name, goodName name /\ onlyKey (uploadKey name) w (uploadHandler r u w).2.
Proof.
  destruct u as [| |f].
  1,2: left; refine ((_ : respects (same wBlobs) _) w); unfold uploadHandler; frame.
  destruct (uploadHandler_cases r f w) as [[_ [H|(name & Hg & H)]]|(u & name & w1 & _ & Hg & _ & _ & _ & ->)];
    [by left | |]; right; exists name; (split; [done|]); by apply (onlyKey_insert _ (ffContent f)).
Qed.

(** A key that stays in its directory: on disk, the file is directly in the
    directory of uploads. *)
Definition confined (e : Env) (name : string) : Prop :=
  slashless name /\ (onDisk e = true -> diskPath e (uploadKey name) = Some (uploadDir e, name)).

Lemma uploadsServe_confined r w c :
  rsBody (uploadsServeHandler r w).1 = BFile c ->
  exists name, confined (wEnv w) name /\ wBlobs w !! uploadKey name = Some c.
Proof.
  unfold uploadsServeHandler. set (name := Base _).
  destruct (is_empty name || (name ==? ".") || (name ==? "/")) eqn:En; [done|].
  rewrite bind_run. unfold serveBlob, OpenBlob. rewrite !bind_run, getEnv_run. cbn [fst snd].
  destruct (keyRejected (wEnv w) (uploadKey name)) eqn:Ek; [done|].
  unfold blobOpen. rewrite gets_run. cbn [fst].
  destruct (blobFault _ _ _); [done|]. destruct (wBlobs w !! uploadKey name) as [c'|] eqn:Eb; [|done].
  intros [= <-]. exists name. split; [|done]. unfold is_empty in En. bools.
  destruct (Base_no_slash (TrimPrefix (rqPath r) "/uploads/")) as [Hr|Hs]; [done|]. fold name in Hs.
  split; [exact Hs|]. intros Hd. unfold keyRejected in Ek. rewrite Hd in Ek. cbn [andb] in Ek. bools.
  apply diskPath_upload; try done. intros Hdd. apply Ek.
  unfold diskPath. by rewrite Cut_upload, Hdd.
Qed.

(** C24: blobs stay in their place.  An avatar upload can only change the
    avatar of the account whose live session it carries; a file upload only
    the key of its new name; and a request to the serving route is answered,
    if with a file at all, with a blob whose name has no slash - on disk, a
    file directly in the directory of uploads - whatever its path says. *)
Theorem blobs_confined r w :
  (forall b, wBlobs (avatarUploadHandler r b w).2 = wBlobs w
     \/ exists u, mayUpload r u w /\ onlyKey (avatarKey u) w (avatarUploadHandler r b w).2)
  /\ (forall u, wBlobs (uploadHandler r u w).2 = wBlobs w
     \/ exists name, goodName name /\ onlyKey (uploadKey name) w (uploadHandler r u w).2)
  /\ (forall c, rsBody (uploadsServeHandler r w).1 = BFile c ->
       exists name, confined (wEnv w) name /\ wBlobs w !! uploadKey name = Some c)
  /\ wBlobs (uploadsServeHandler r w).2 = wBlobs w.
Proof.
  split_and!.
  - intros b. apply avatarUpload_only.
  - intros u. apply upload_only.
  - intros c. apply uploadsServe_confined.
  - change (same wBlobs w (uploadsServeHandler r w).2).
    assert (H : respects (same wBlobs) (uploadsServeHandler r)); [|apply H].
    unfold uploadsServeHandler. frame.
Qed.

(** A path that climbs out of the directory is answered with nothing; a plain
    one with the blob of its last element. *)
Definition notesW : World := set_wBlobs {[ uploadKey "a.pdf" := "%PDF" ]} sampleW.

Lemma blobs_confined_witness :
  rsCode (uploadsServeHandler (noteRequest "/uploads/../../etc/passwd") notesW).1 = StatusNotFound
  /\ rsCode (uploadsServeHandler (noteRequest "/uploads/..") notesW).1 = StatusNotFound
  /\ rsBody (uploadsServeHandler (noteRequest "/uploads/x/a.pdf") notesW).1 = BFile "%PDF"
  /\ exists name, confined env0 name /\ wBlobs notesW !! uploadKey name = Some "%PDF".
Proof.
  assert (E : rsBody (uploadsServeHandler (noteRequest "/uploads/x/a.pdf") notesW).1 = BFile "%PDF")
    by (vm_compute; reflexivity).
  split; [vm_compute; reflexivity|]. split; [vm_compute; reflexivity|]. split; [exact E|].
  destruct (blobs_confined (noteRequest "/uploads/x/a.pdf") notesW) as (_ & _ & H & _).
  exact (H "%PDF" E).
Defined.

(** The directory of uploads lies below [public/], which [main] also serves as
    it is: there a document comes without the headers that make it a download. *)
Theorem public_serves_uploads :
  rsHeaders (uploadsServeHandler (noteRequest "/uploads/a.pdf") notesW).1
    = [("Cache-Control", "public, max-age=86400"); ("X-Content-Type-Options", "nosniff");
       ("Content-Disposition", quoteName "a.pdf")]
  /\ rsBody (stripped "/public/" "public" (noteRequest "/public/uploads/a.pdf") notesW).1 = BFile "%PDF"
  /\ rsHeaders (stripped "/public/" "public" (noteRequest "/public/uploads/a.pdf") notesW).1 = [].
Proof. split_and!; vm_compute; reflexivity. Qed.
