(* ===== verification/SupportersSpec.v ===== *)
(** * What a payment grants

    The payments webhook against its contract: which account a payment is for
    is a function of the database ([payee]), and a delivery that passes the
    signature check marks that account and no other, and records the payment. *)

From Stdlib Require Import ZArith Lia Ascii String.
From stdpp Require Import base strings list gmap.
From S2P Require Import Prelude GoRt GoStd Store Wire Db World Wf Samples Http Sessions Social Accounts.
From S2P Require Import Supporters.

Open Scope string_scope.
Open Scope list_scope.
Open Scope Z_scope.

(** ** The contract *)

Definition nonEmpty (o : option string) : option string :=
  match o with Some s => if is_empty s then None else Some s | None => None end.

(** The account named by the newest pending request with the address, or else
    a verified account with it. *)
Definition payee (email : string) (d : Database) : option string :=
  match pendingRequest email d with
  | Some q => if is_empty (sq_username q) then nonEmpty (verifiedByEmail email d) else Some (sq_username q)
  | None => nonEmpty (verifiedByEmail email d)
  end.

Definition badge (now : Z) (u : User) : User :=
  set_u_supporter_since (Some (sqlNow now)) (set_u_supporter 1 u).

(** The users after a payment. *)
Definition paid (payee : option string) (now : Z) (l : list User) : list User :=
  (fun u => if bool_decide (payee = Some (u_username u)) then badge now u else u) <$> l.

Lemma paid_none now l : paid None now l = l.
Proof. unfold paid. induction l as [|u l IH]; [done|]. rewrite fmap_cons, IH. by rewrite bool_decide_false. Qed.

Lemma paid_grantBadge u now d :
  rows (users (grantBadge u now d)) = paid (Some u) now (rows (users d)).
Proof.
  unfold grantBadge, onUser, paid. cbn [users set_users]. unfold tupdate. cbn [rows].
  apply list_fmap_ext. intros _ r _. destruct (u_username r ==? u) eqn:E; bools.
  - by rewrite bool_decide_true by congruence.
  - by rewrite bool_decide_false by congruence.
Qed.

(** The row a payment adds for a verified account found by its address. *)
Definition accountRow (email name : string) (now : Z) (d : Database) : list SupporterRow :=
  match nonEmpty (verifiedByEmail email d) with
  | Some u => [mkSupporterRow (tnext (supporter_requests d)) u name email "granted" (sqlNow now)]
  | None => []
  end.

(** The requests after a payment: the newest pending one with the address is
    granted, and a row is added when the badge goes to an account found by its
    address. *)
Definition settled (email name : string) (now : Z) (d : Database) : list SupporterRow :=
  match pendingRequest email d with
  | Some q =>
      ((fun x => if sq_id x =? sq_id q then set_sq_status "granted" x else x) <$> rows (supporter_requests d))
      ++ (if is_empty (sq_username q) then accountRow email name now d else [])
  | None => rows (supporter_requests d) ++ accountRow email name now d
  end.

(** ** What a grant does *)

(** The database after: nothing but the users and the requests. *)
Definition granted (who : option string) (requests : list SupporterRow) (now : Z) (d d' : Database) : Prop :=
  exists us sq, d' = set_supporter_requests sq (set_users us d)
    /\ rows us = paid who now (rows (users d)) /\ rows sq = requests.

Lemma granted_same d now : granted None (rows (supporter_requests d)) now d d.
Proof. exists (users d), (supporter_requests d). rewrite paid_none. split_and!; [by destruct d | done | done]. Qed.

(** The account step, when the request step found none. *)
Lemma grantToAccount_run email name w :
  sql_ok w ->
  exists w', bmcGrantToAccount email name w = (default "" (nonEmpty (verifiedByEmail email (wDB w))), w')
    /\ sql_ok w' /\ wNow w' = wNow w
    /\ granted (nonEmpty (verifiedByEmail email (wDB w)))
         (rows (supporter_requests (wDB w)) ++ accountRow email name (wNow w) (wDB w))
         (wNow w) (wDB w) (wDB w').
Proof.
  intros Hok. unfold bmcGrantToAccount, accountRow. sqlrun.
  destruct (verifiedByEmail email (wDB w)) as [u|]; sqlrun.
  2: { eexists. split; [reflexivity|]. cbn [nonEmpty]. rewrite app_nil_r.
       split_and!; [sqlside | done | apply granted_same]. }
  cbn [nonEmpty]. destruct (is_empty u); sqlrun.
  { eexists. split; [reflexivity|]. rewrite app_nil_r. split_and!; [sqlside | done | apply granted_same]. }
  eexists. split; [reflexivity|]. split_and!; [sqlside | done |].
  eexists _, _. split; [unfold grantBadge, onUser, insertSupporter; reflexivity|].
  split; [exact (paid_grantBadge u (wNow w) (wDB w)) | reflexivity].
Qed.

Lemma grantByEmail_run email name w :
  sql_ok w ->
  exists w', bmcGrantByEmail email name w = (default "" (payee email (wDB w)), w')
    /\ sql_ok w' /\ wNow w' = wNow w
    /\ granted (payee email (wDB w)) (settled email name (wNow w) (wDB w)) (wNow w) (wDB w) (wDB w').
Proof.
  intros Hok. unfold bmcGrantByEmail, payee, settled. sqlrun.
  destruct (pendingRequest email (wDB w)) as [q|] eqn:Eq; sqlrun.
  2: { destruct (grantToAccount_run email name (tickSql w)) as (w' & E & H); [sqlside|].
       exists w'. split; [exact E | exact H]. }
  destruct (is_empty (sq_username q)) eqn:Ee.
  - match goal with |- context [bmcGrantToAccount email name ?w0] =>
      destruct (grantToAccount_run email name w0) as (w' & E & Hok' & Hn & us & sq & Hd & Hu & Hq); [sqlside|] end.
    exists w'. split; [exact E|]. split_and!; [done | done|]. exists us, sq. split_and!; [exact Hd | exact Hu|exact Hq].
  - sqlrun. eexists. split; [reflexivity|]. split_and!; [sqlside | done|].
    eexists _, _. split; [unfold grantBadge, onUser, setRequestStatus; reflexivity|].
    split; [exact (paid_grantBadge (sq_username q) (wNow w) (wDB w))|].
    rewrite app_nil_r. reflexivity.
Qed.

(** C22: what a delivery of the payments webhook does, in every case.  With the
    database answering, a POST with a readable body is
    - refused with 401, changing nothing, when it carries a wrong signature;
    - refused with 400, changing nothing, when it is not JSON;
    - answered 200 and forgotten when the payload has no address;
    - otherwise answered 200, and exactly three tables change: the badge goes to
      the account the payment is for - the one named by the newest pending
      request with the address, or else a verified account with it - and to
      nobody else, or to nobody at all when there is no such account; that
      pending request is granted, or a granted row is added for the account
      found by its address; and the payment is recorded with the name. *)
Theorem webhook_exact r body w :
  sql_ok w -> rqMethod r = "POST" ->
  let a := bmcWebhookHandler r (Some body) w in
  if negb (bmcAccepted (wEnv w) r body) then rsCode a.1 = StatusUnauthorized /\ a.2 = w
  else match jsonBmc (wEnv w) body with
  | None => rsCode a.1 = StatusBadRequest /\ a.2 = w
  | Some p =>
      let who := payee (bmcEmail p) (wDB w) in
      rsCode a.1 = StatusOK
      /\ if is_empty (bmcEmail p) then a.2 = w
         else exists us sq pay,
           wDB a.2 = set_bmc_payments pay (set_supporter_requests sq (set_users us (wDB w)))
           /\ rows us = paid who (wNow w) (rows (users (wDB w)))
           /\ rows sq = settled (bmcEmail p) (bmcName p) (wNow w) (wDB w)
           /\ rows pay = rows (bmc_payments (wDB w))
                ++ [mkBmcPayment (tnext (bmc_payments (wDB w))) (bmcName p) (bmcEmail p) (bmcAmount p)
                      (bmcMessage p) (default "" who) (sqlNow (wNow w))]
  end.
Proof.
  intros Hok Hm. cbv zeta. unfold bmcWebhookHandler. rewrite Hm, eqb_refl_dec. cbn [negb].
  rewrite bind_run, getEnv_run. cbn [fst snd].
  destruct (bmcAccepted (wEnv w) r body); cbn [negb]; [|done].
  destruct (jsonBmc (wEnv w) body) as [p|]; [|done].
  destruct (is_empty (bmcEmail p)); [done|]. rewrite bind_run.
  destruct (grantByEmail_run (bmcEmail p) (bmcName p) w Hok)
    as (w' & -> & Hok' & Hn & us & sq & Hd & Hu & Hq).
  cbn [fst snd]. sqlrun. split; [done|]. unfold insertPayment. rewrite Hd.
  eexists us, sq, _. split; [reflexivity|]. split_and!; [exact Hu | exact Hq |].
  rewrite Hn. reflexivity.
Qed.

(** Bob filled the form in; his payment arrives. *)
Definition bobPayment : bmcPayload := mkBmcPayload "Bob" "Bob@Example.org " "5" "" "thanks" "" "" "" "".
Definition secretEnv : Env :=
  env0 |> set_getenv (fun k => if k ==? "BMC_WEBHOOK_SECRET" then "6b6579" else "")
       |> set_jsonBmc (fun _ => Some bobPayment).
Definition webhookW : World := set_wEnv secretEnv sampleW.
Definition webhook (sig : string) : Request :=
  mkRequest "POST" "/api/v1/webhooks/buymeacoffee" "10.0.0.9:5000"
    (fun h => if h ==? "X-BMC-Signature" then sig else "") (fun _ => "") (fun _ => "").

Definition supporters (w : World) : list string :=
  u_username <$> tselect (fun u => u_supporter u =? 1) (users (wDB w)).

Lemma webhook_exact_witness :
  rsCode (bmcWebhookHandler (webhook "sha256=00") (Some "{}") webhookW).1 = StatusUnauthorized
  /\ (forall sig, sig = EncodeToString (bytes "key{}") ->
      supporters (bmcWebhookHandler (webhook sig) (Some "{}") webhookW).2 = ["bob"]).
Proof.
  assert (Hok : sql_ok webhookW) by (intros n; reflexivity). split.
  - pose proof (webhook_exact (webhook "sha256=00") "{}" webhookW Hok eq_refl) as H.
    cbv zeta in H. replace (bmcAccepted (wEnv webhookW) (webhook "sha256=00") "{}") with false in H
      by (vm_compute; reflexivity).
    exact (proj1 H).
  - intros sig ->. unfold supporters, tselect.
    pose proof (webhook_exact (webhook (EncodeToString (bytes "key{}"))) "{}" webhookW Hok eq_refl) as H.
    cbv zeta in H.
    replace (bmcAccepted (wEnv webhookW) (webhook (EncodeToString (bytes "key{}"))) "{}") with true in H
      by (vm_compute; reflexivity).
    destruct H as (_ & us & sq & pay & -> & Hu & _). cbn [users set_bmc_payments set_supporter_requests set_users].
    rewrite Hu. vm_compute. reflexivity.
Defined.

(** Although a secret is configured, a delivery without any signature is
    accepted: whoever knows the address of the webhook can mint the badge. *)
Theorem unsigned_webhook_grants :
  exists r, bmcSignature r = "" /\ getenv (wEnv webhookW) "BMC_WEBHOOK_SECRET" <> ""
    /\ supporters webhookW = [] /\ supporters (bmcWebhookHandler r (Some "{}") webhookW).2 = ["bob"].
Proof.
  exists (webhook ""). split; [reflexivity|]. split; [discriminate|]. split; vm_compute; reflexivity.
Qed.
