(* ===== verification/BanSpec.v ===== *)
(** * What a ban does

    The admin's ban, end to end: the account's row, its sessions, its live
    connections, and the sign-ins it would come back through. *)

From Stdlib Require Import ZArith Lia Ascii.
From stdpp Require Import base strings list gmap.
From S2P Require Import Prelude GoRt AuthTracker Netutil Store Wire Db World Wf Samples Registry Http Email.
From S2P Require Import Sessions Social Spaces Accounts Supporters AuthCases AuthHttp Admin Dispatch DispatchSpec AccountSpec LoginSpec AdminSpec.

Open Scope string_scope.
Open Scope list_scope.
Open Scope Z_scope.

(** ** Dropping an account's connections *)

(** The database and who is registered; sending and closing leave it alone. *)
Definition roster (w : World) := (wDB w, Clients (wSrv w)).

#[local] Instance fo_roster : FreesOut (same roster). Proof. by intros ??. Qed.

Lemma roster_modClient c f : respects (same roster) (modClient c f).
Proof. by intros ?. Qed.
#[local] Hint Resolve roster_modClient : frame.

Lemma dropAllClients_roster u m w :
  roster (dropAllClients u m w).2 = (wDB w, delete u (Clients (wSrv w))).
Proof.
  unfold dropAllClients, clientsOf. rewrite !bind_run, gets_run. cbn [fst snd].
  rewrite modSrv_run. cbn [fst snd].
  set (w1 := set_wSrv _ w).
  change (wDB w, delete u (Clients (wSrv w))) with (roster w1).
  apply (respects_forM (same roster)). intros c. unfold CloseConn. frame.
Qed.

Definition connUp (c : nat) (w : World) : Prop :=
  exists k, Heap (wSrv w) !! c = Some k /\ cConnUp k = true.

(** Every connection of the list is told, when it can be, and closed. *)
Definition dropped (m : NexusMessage) (cs : list nat) (w w' : World) : Prop :=
  exists l, wOut w' = wOut w ++ l
    /\ (forall c, EvClose c ∈ l <-> c ∈ cs)
    /\ (forall c, c ∈ cs -> connUp c w -> EvSend c m ∈ l).

Lemma drop_one c m w :
  let w' := ((Send_ c m ;;; CloseConn c)%go w).2 in
  exists l, wOut w' = wOut w ++ l /\ (forall c', EvClose c' ∈ l <-> c' = c)
    /\ (connUp c w -> EvSend c m ∈ l) /\ (forall c', c' <> c -> connUp c' w -> connUp c' w').
Proof.
  cbv zeta. rewrite bind_run. unfold Send_. rewrite bind_run. set (w1 := (Send c m w).2).
  assert (H : (Heap (wSrv w1) = Heap (wSrv w))
    /\ exists l, wOut w1 = wOut w ++ l /\ (forall c', EvClose c' ∉ l) /\ (connUp c w -> EvSend c m ∈ l)).
  { subst w1. unfold Send, connUp. destruct (Heap (wSrv w) !! c) as [k|]; [destruct (cConnUp k) eqn:Eu|];
      (split; [done|]).
    - exists [EvSend c m]. split_and!; [done | by intros c' ?%list_elem_of_singleton | left].
    - exists []. rewrite app_nil_r. split_and!; [done | intros ?; apply not_elem_of_nil |].
      intros (k' & [= <-] & Hu). congruence.
    - exists []. rewrite app_nil_r. split_and!; [done | intros ?; apply not_elem_of_nil |].
      by intros (k' & ? & _). }
  destruct H as (Hh & l & E & Hc & Hs). exists (l ++ [EvClose c]). split_and!.
  - change (wOut w1 ++ [EvClose c] = wOut w ++ l ++ [EvClose c]). by rewrite E, app_assoc.
  - intros c'. rewrite elem_of_app, list_elem_of_singleton. specialize (Hc c'). split; [|intros ->; by right].
    intros [?|[= ->]]; done.
  - intros Hu. apply elem_of_app. left. by apply Hs.
  - intros c' Hne (k & Hk & Hu). exists k. split; [|done].
    change (alter (set_cConnUp false) c (Heap (wSrv w1)) !! c' = Some k).
    by rewrite lookup_alter_ne, Hh.
Qed.

Lemma drop_loop m cs w :
  dropped m cs w (forM cs (fun c => (Send_ c m ;;; CloseConn c)%go) w).2.
Proof.
  revert w. induction cs as [|c cs IH]; intros w.
  - exists []. cbn [forM]. rewrite ret_run, app_nil_r. split_and!; [done | |by intros c ?%elem_of_nil].
    intros c. by rewrite !elem_of_nil.
  - cbn [forM]. rewrite bind_run. destruct (drop_one c m w) as (l1 & E1 & C1 & S1 & U1).
    set (w1 := ((Send_ c m ;;; CloseConn c)%go w).2) in *. destruct (IH w1) as (l2 & E2 & C2 & S2).
    exists (l1 ++ l2). split_and!.
    + by rewrite E2, E1, app_assoc.
    + intros c'. by rewrite elem_of_app, C1, C2, elem_of_cons.
    + intros c' Hc Hu. apply elem_of_app. apply elem_of_cons in Hc as [->|Hc]; [left; by apply S1|].
      destruct (decide (c' = c)) as [->|Hne]; [left; by apply S1|]. right. apply S2; [done|]. by apply U1.
Qed.

Lemma dropAllClients_dropped u m w :
  dropped m (connsOf (wSrv w) u) w (dropAllClients u m w).2.
Proof.
  unfold dropAllClients, clientsOf. rewrite !bind_run, gets_run. cbn [fst snd].
  rewrite modSrv_run. cbn [fst snd]. set (w1 := set_wSrv _ w).
  destruct (drop_loop m (connsOf (wSrv w) u) w1) as (l & H). by exists l.
Qed.

(** What the dropped connections are told. *)
Definition suspension (reason : string) : NexusMessage :=
  kicked (if is_empty reason then "Account suspended" else "Account suspended: " +:+ reason).

(** ** The ban's own steps *)

Definition bannedNow (u : string) (d : Database) : Prop :=
  u_is_banned <$> userIn u d = Some 1.

(** The database after a ban. *)
Definition banDone (u reason : string) (now : Z) (d : Database) : Database :=
  revokeAllOf u (onUser u (banned reason now) d).

Lemma locked_out_revoked u d : locked_out u (revokeAllOf u d).
Proof.
  intros s Hs. unfold revokeAllOf in Hs. cbn -[rows tupdate] in Hs.
  rewrite elem_of_tupdate in Hs. destruct Hs as (s0 & _ & ->).
  destruct (st_username s0 ==? u) eqn:E; bools; done.
Qed.

Lemma bannedNow_banDone u reason now d :
  countUser u d <> 0 -> bannedNow u (banDone u reason now d).
Proof.
  intros Hn. unfold bannedNow.
  change (userIn u (banDone u reason now d)) with (userIn u (onUser u (banned reason now) d)).
  rewrite userIn_onUser, eqb_refl_dec by done. destruct (userIn u d) as [r|] eqn:E; [done|].
  exfalso. apply Hn. unfold countUser. by apply tcount_zero, tfirst_None.
Qed.

Lemma banAction_done target reason w :
  sql_ok w -> (banAction target reason w).1 = actionDone target "ban" ->
  countUser target (wDB w) <> 0
  /\ roster (banAction target reason w).2
     = (banDone target reason (wNow w) (wDB w), delete target (Clients (wSrv w)))
  /\ dropped (suspension reason) (connsOf (wSrv w) target) w (banAction target reason w).2.
Proof.
  intros Hok. unfold banAction. rewrite bind_run, getNow_run. cbn [fst snd].
  rewrite bind_run, ok_ExecN by done. cbn [fst snd]. destruct (_ =? 0) eqn:E; [done|]. intros _. bools.
  split; [done|]. rewrite bind_run, ok_Exec_ by sqlside. cbn [fst snd]. rewrite bind_run.
  match goal with |- context [dropAllClients ?u ?m ?w] =>
    pose proof (dropAllClients_roster u m w) as H; pose proof (dropAllClients_dropped u m w) as D;
    destruct (dropAllClients u m w) as [[] w2] end.
  split; [exact H | exact D].
Qed.

(** ** The request *)

#[local] Instance fq_quiet : FreesSql (same quiet). Proof. by intros ?. Qed.

(** Only a ban is answered as one. *)
Lemma banAct_done admin target action b w target' :
  (banAct admin target action b w).1 = actionDone target' "ban" ->
  target' = target /\ banAct admin target action b w = banAction target (TrimSpace (bbReason b)) w.
Proof.
  unfold banAct. destruct (action ==? "ban"); [|destruct (action ==? "unban");
    [|destruct (action ==? "role"); [|destruct (action ==? "reset_totp");
      [|destruct (action ==? "delete"); [|done]]]]].
  - intros H. split; [|done]. revert H. unfold banAction. rewrite bind_run, getNow_run. cbn [fst snd].
    rewrite bind_run. destruct (ExecN _ _ _) as [[n|] w1]; cbn [fst snd]; [|done].
    destruct (n =? 0); [done|]. rewrite !bind_run, ret_run. cbn [fst]. by intros [= <-].
  - unfold unbanAction. rewrite bind_run. destruct (ExecN _ _ w) as [[n|] w1]; cbn [fst snd]; [|done].
    by destruct (n =? 0).
  - unfold roleAction. destruct (negb _); [done|]. rewrite bind_run. destruct (userRole admin w) as [x w1].
    cbn [fst snd]. destruct (_ <? _); [done|]. rewrite bind_run. destruct (userRole target w1) as [y w2].
    cbn [fst snd]. do 2 (destruct (_ <=? _); [done|]). rewrite bind_run.
    by destruct (ExecOk _ w2) as [[] w3].
  - unfold resetTOTPAction. rewrite bind_run. by destruct (ExecOk _ w) as [[] w1].
  - unfold deleteAction. rewrite bind_run. destruct (deleteAccount target w) as [[e|] w1]; [done|].
    cbn [fst snd]. by rewrite !bind_run, ret_run.
Qed.

Lemma adminFromRequest_inl r w rs :
  (adminFromRequest r w).1 = inl rs -> rsCode rs <> StatusOK.
Proof.
  unfold adminFromRequest. destruct (is_empty _); [intros [= <-]; discriminate|]. rewrite bind_run.
  destruct (sessionUsername _ w) as [u w1]; cbn [fst snd].
  destruct (is_empty u); [intros [= <-]; discriminate|].
  rewrite bind_run. destruct (userIsAdmin u w1) as [[] w2]; [done|]. intros [= <-]; discriminate.
Qed.

(** A request that is answered so ran the ban in a world that differs from
    the one it met by a limiter's count at most. *)
Lemma adminBan_done r b w target :
  (adminBanHandler r b w).1 = actionDone target "ban" ->
  exists w1 admin, quiet w1 = quiet w /\ target <> "" /\ admin <> target
    /\ adminRow (adminToken r) admin w
    /\ adminBanHandler r b w = banAction target (TrimSpace (bbReason b)) w1.
Proof.
  assert (Hq : quiet (adminFromRequest r w).2 = quiet w)
    by (apply respects_adminFromRequest; typeclasses eauto).
  pose proof (adminFromRequest_admin r w) as Ha. pose proof (adminFromRequest_inl r w) as Hi.
  unfold adminBanHandler, asAdmin. rewrite bind_run.
  destruct (adminFromRequest r w) as [[rs|admin] w1]; cbn [fst snd] in *.
  { intros H. change (rs = actionDone target "ban") in H. by destruct (Hi _ eq_refl); rewrite H. }
  destruct (negb _); [done|].
  destruct (Split _ _) as [|target' [|action l]]; [done..|]. unfold is_empty.
  destruct (target' ==? "") eqn:E0; [done|]. destruct (negb _); [done|]. cbn [orb].
  destruct (target' ==? admin) eqn:Et; [done|]. bools. intros H.
  apply banAct_done in H as [-> E]. exists w1, admin. split_and!; auto.
Qed.

(** ** Nobody signs in *)

(** The row's ban, as every sign-in reads it. *)
Lemma userBanInfo_banned u w :
  sql_ok w -> bannedNow u (wDB w) -> exists reason, userBanInfo u w = ((true, reason), tickSql w).
Proof.
  intros Hok. unfold bannedNow, userBanInfo. sqlrun. destruct (userIn u (wDB w)) as [r|]; [|done].
  intros [= E]. rewrite E. by eexists.
Qed.

(** Which accounts are banned: nothing a sign-in writes moves it. *)
Definition bans (w : World) := (fun u => (u_username u, u_is_banned u)) <$> rows (users (wDB w)).

#[local] Instance fq_bans : FreesSql (same bans). Proof. by intros ?. Qed.

#[local] Hint Extern 2 (respects (same bans) (Exec_ _)) =>
  apply respects_Exec_; [typeclasses eauto.. | intros w; unfold same, bans; cbn; by rewrite ?fmap_tupdate] : frame.

Lemma bans_authenticateUser u p : respects (same bans) (authenticateUser u p).
Proof. unfold authenticateUser, onUser. frame. Qed.

Lemma bannedNow_bans u w w' : bans w' = bans w -> bannedNow u (wDB w) -> bannedNow u (wDB w').
Proof.
  assert (H : forall d, u_is_banned <$> userIn u d
    = snd <$> find_first (fun p => p.1 ==? u) ((fun r => (u_username r, u_is_banned r)) <$> rows (users d))).
  { intros d. unfold userIn, tfirst. rewrite find_first_fmap. by destruct (find_first _ _). }
  unfold bannedNow. rewrite !H. unfold bans. by intros ->.
Qed.

Lemma banned_no_login r b w :
  sql_ok w -> bannedNow (lbUsername b) (wDB w) -> rsCookies (httpLoginHandler r (Some b) w).1 = [].
Proof.
  intros Hok Hb. unfold httpLoginHandler. destruct (negb _); [done|]. destruct (_ || _); [done|].
  rewrite bind_run, getEnv_run. cbn [fst snd]. rewrite bind_run.
  set (w1 := (throttledIP _ _).2). assert (Hok1 : sql_ok w1) by (intros n; apply Hok).
  destruct (throttledIP _ _).1; [done|].
  rewrite bind_run, getNow_run. cbn [fst snd]. rewrite bind_run.
  set (w2 := (askTracker _ _).2). assert (Hok2 : sql_ok w2) by (intros n; apply Hok).
  destruct (askTracker _ _).1; [done|]. rewrite bind_run.
  assert (Hok3 : sql_ok (authenticateUser (lbUsername b) (lbPassword b) w2).2).
  { apply respects_sql_ok; [unfold authenticateUser; frame | done]. }
  pose proof (bannedNow_bans _ _ _ (bans_authenticateUser (lbUsername b) (lbPassword b) w2) Hb) as Hb3.
  destruct (authenticateUser _ _ w2) as [[] w3]; cbn [fst snd negb] in *.
  - unfold loginSecond. rewrite bind_run.
    by destruct (userBanInfo_banned _ _ Hok3 Hb3) as [reason ->].
  - by rewrite !bind_run, ret_run.
Qed.

Lemma bannedNow_not u d : bannedNow u d -> ~ notBanned u d.
Proof.
  unfold bannedNow. intros H Hn. destruct (userIn u d) as [r|] eqn:E; [|done].
  apply find_first_Some in E as [Hr E]. bools. injection H as H. by apply (Hn r).
Qed.

(** In the message loop only the collection of a QR code gives a connection a
    banned name. *)
Lemma banned_no_switch client ip old msg w u :
  sql_ok w -> db_wf (wDB w) -> bannedNow u (wDB w) ->
  (switch client ip old msg w).1 = Continue u -> old = u \/ mType msg = "qr_login_check".
Proof.
  intros Hok Hwf Hb H. destruct (identity_earned client ip old msg w u Hok Hwf H) as [->|Hc]; [by left|].
  destruct Hc as [_ _ _ Hn|r _ _ _ Hn|r Ht]; [| |by right]; by destruct (bannedNow_not _ _ Hb).
Qed.

(** Nor does the cookie a connection is opened with. *)
Lemma banned_no_cookie client ip tok w u :
  sql_ok w -> u <> "" -> bannedNow u (wDB w) -> (cookiePreAuth client ip tok w).1 <> u.
Proof.
  intros Hok Hne Hb. unfold cookiePreAuth. rewrite bind_run.
  assert (Hd : respects (same wDB) (sessionUsername tok)) by frame_deep. specialize (Hd w).
  assert (Hok1 : sql_ok (sessionUsername tok w).2) by (apply respects_sql_ok; [frame_deep | done]).
  destruct (sessionUsername tok w) as [v w1]. cbn [fst snd] in *. unfold same in Hd.
  destruct (is_empty v); [rewrite ret_run; cbn [fst]; congruence|]. rewrite bind_run.
  destruct (decide (v = u)) as [->|Hv].
  - rewrite <- Hd in Hb. destruct (userBanInfo_banned u w1 Hok1 Hb) as [reason ->]. cbn [fst snd].
    rewrite bind_run, ret_run. cbn [fst]. congruence.
  - destruct (userBanInfo v w1) as [[[] reason] w2]; cbn [fst snd]; rewrite !bind_run, ret_run; cbn [fst];
      congruence.
Qed.

(** ** The ban, end to end *)

(** C14: a ban takes effect at once on the row, the sessions and the
    connections of its target, closes the sign-ins by password and by session,
    and touches nobody else.  When [adminBanHandler] answers that it banned
    [target], the request came from another account's live admin session; the
    target's row is banned; no token authenticates the target any more; every
    connection registered for the target, and no other, was told and closed,
    and none is registered.  As long as the row stays banned, no sign-in over
    HTTP hands the target a cookie, right password and second factor or not,
    no cookie opens a connection in the target's name, and no message gives a
    connection that name, except the collection of a QR code.  Every other
    account keeps its row, its sessions and its connections.  The two ways in
    that do not look at the ban are [qr_login_ignores_ban] and
    [admin_login_ignores_ban]. *)
Theorem ban_effective r b w target :
  sql_ok w -> (adminBanHandler r b w).1 = actionDone target "ban" ->
  let w' := (adminBanHandler r b w).2 in
  (exists admin, admin <> target /\ adminRow (adminToken r) admin w)
  /\ bannedNow target (wDB w')
  /\ (forall tok, (sessionUsername tok w').1 <> target)
  /\ connsOf (wSrv w') target = []
  /\ dropped (suspension (TrimSpace (bbReason b))) (connsOf (wSrv w) target) w w'
  /\ (forall w2, sql_ok w2 -> db_wf (wDB w2) -> bannedNow target (wDB w2) ->
        (forall r2 login, lbUsername login = target -> rsCookies (httpLoginHandler r2 (Some login) w2).1 = [])
        /\ (forall client ip tok, (cookiePreAuth client ip tok w2).1 <> target)
        /\ (forall client ip old msg, (switch client ip old msg w2).1 = Continue target ->
              old = target \/ mType msg = "qr_login_check"))
  /\ forall v, v <> target ->
        userIn v (wDB w') = userIn v (wDB w)
        /\ (forall e now, sessionsOf e v now (wDB w') = sessionsOf e v now (wDB w))
        /\ connsOf (wSrv w') v = connsOf (wSrv w) v.
Proof.
  intros Hok H. cbn zeta. pose proof (adminBan_done r b w target H) as (w1 & admin & Hq & Hne & Ha & Hr & E).
  rewrite E in *. pose proof (quiet_sql_ok _ _ Hq Hok) as Hok1.
  assert (Hd : wDB w1 = wDB w /\ Clients (wSrv w1) = Clients (wSrv w)).
  { split; [exact (f_equal (fun q => q.1.1.1.1) Hq) | exact (f_equal (fun q => Clients q.2) Hq)]. }
  destruct Hd as [Hd Hc].
  apply banAction_done in H as (Hn & R & D); [|done]. injection R as Rd Rc. rewrite Hd in *. rewrite Hc in Rc.
  split_and!.
  - by exists admin.
  - rewrite Rd. by apply bannedNow_banDone.
  - intros tok. apply locked_out_sessions; [done|]. rewrite Rd. apply locked_out_revoked.
  - unfold connsOf. by rewrite Rc, lookup_delete_eq.
  - destruct D as (l & E1 & E2 & E3). exists l.
    assert (Hx : wOut w1 = wOut w /\ Heap (wSrv w1) = Heap (wSrv w)).
    { split; [exact (f_equal (fun q => q.1.1.1.2) Hq) | exact (f_equal (fun q => Heap q.2) Hq)]. }
    destruct Hx as [Ho Hh]. unfold connsOf in *. rewrite Hc in *. rewrite Ho in E1. split_and!; [done..|].
    intros c Hin (k & Hk & Hu). apply E3; [done|]. exists k. by rewrite Hh.
  - intros w2 H2 Hwf Hb. split_and!.
    + intros r2 login <-. by apply banned_no_login.
    + intros client ip tok. by apply banned_no_cookie.
    + intros client ip old msg. by apply banned_no_switch.
  - intros v Hv. rewrite Rd. unfold connsOf. rewrite Rc, lookup_delete_ne by done. split_and!; [| |done].
    + change (userIn v (banDone ?u ?x ?n ?d)) with (userIn v (onUser u (banned x n) d)).
      by rewrite userIn_onUser, eqb_neq_dec.
    + intros e now. etransitivity; [by apply (sessionsOf_tupdate e target v now)|]. done.
Qed.

(** ** At a concrete state *)

(** Alice, an administrator, bans Bob, who is signed in. *)
Definition banRequest : Request :=
  mkRequest "POST" "/api/v1/admin/users/bob/ban" "10.0.0.7:5000" (fun _ => "")
    (fun n => if n ==? adminCookieName then "tok" else "") (fun _ => "").
Definition banW : World :=
  mkW (set_session_tokens (tableOf
         [mkSessionToken "tok" "alice" "web" T0 (T0 + 30 * 24 * Hour) 0 0;
          mkSessionToken "tok2" "bob" "web" T0 (T0 + 30 * 24 * Hour) 0 0]) adminDB) sampleServer T0.
Definition bobBan : BanBody := mkBanBody " spam " "".

(** Bob is banned.  The code his phone shows was approved before: collecting it
    signs a connection in as Bob. *)
Theorem qr_login_ignores_ban : exists w msg,
  bannedNow "bob" (wDB w) /\ sql_ok w /\ (switch 2 "10.0.0.9" "" msg w).1 = Continue "bob".
Proof.
  exists (set_wDB (set_qr_login_tokens (tableOf [mkQRLogin "qr" "bob" "s" "phone" (T0 + Minute) 1])
                     (onUser "bob" (banned "spam" T0) sampleDB)) sampleW).
  exists (nm "qr_login_check" |> set_mQRToken "qr").
  split; [vm_compute; reflexivity|]. split; [intros n; reflexivity|]. vm_compute. reflexivity.
Qed.

(** Alice is a banned administrator.  The portal signs her in with her password
    and its cookie opens the admin endpoints. *)
Theorem admin_login_ignores_ban : exists w tok,
  bannedNow "alice" (wDB w) /\ sql_ok w
  /\ let res := adminLoginHandler banRequest (Some (mkAdminCreds "alice" "password1")) w in
     (adminCookieName, tok) ∈ rsCookies res.1
     /\ (adminFromRequest (mkRequest "GET" "/api/v1/admin/users" "10.0.0.7:5000" (fun _ => "")
             (fun n => if n ==? adminCookieName then tok else "") (fun _ => "")) res.2).1 = inr "alice".
Proof.
  exists (set_wDB (onUser "alice" (banned "spam" T0) (wDB banW)) banW).
  eexists. split; [vm_compute; reflexivity|]. split; [intros n; reflexivity|]. cbv zeta.
  split; [vm_compute; left|]. vm_compute. reflexivity.
Qed.

Lemma ban_effective_witness :
  let w' := (adminBanHandler banRequest bobBan banW).2 in
  (adminBanHandler banRequest bobBan banW).1 = actionDone "bob" "ban"
  /\ (exists tok, (sessionUsername tok banW).1 = "bob")
  /\ (forall tok, (sessionUsername tok w').1 <> "bob")
  /\ connsOf (wSrv banW) "bob" = [2%nat] /\ connsOf (wSrv w') "bob" = []
  /\ EvSend 2 (suspension "spam") ∈ wOut w' /\ EvClose 2 ∈ wOut w'
  /\ rsCookies (httpLoginHandler banRequest (Some (mkLogin "bob" "password1" "" "")) w').1 = []
  /\ u_is_banned <$> userIn "alice" (wDB w') = u_is_banned <$> userIn "alice" (wDB banW).
Proof.
  assert (H : (adminBanHandler banRequest bobBan banW).1 = actionDone "bob" "ban") by (vm_compute; reflexivity).
  assert (Hok : sql_ok banW) by (intros n; reflexivity).
  assert (Hwf : db_wf (wDB (adminBanHandler banRequest bobBan banW).2))
    by (apply wf_check_sound; vm_compute; reflexivity).
  destruct (ban_effective banRequest bobBan banW "bob" Hok H) as (_ & Hb & Hs & Hc & Hd & Hl & Ho).
  destruct Hd as (l & E & Hcl & Hse).
  split_and!; [exact H | | exact Hs | vm_compute; reflexivity | exact Hc | | | | ].
  - exists "tok2". vm_compute. reflexivity.
  - rewrite E. apply elem_of_app. right. apply Hse; [vm_compute; left|].
    eexists. split; [vm_compute; reflexivity | reflexivity].
  - rewrite E. apply elem_of_app. right. apply Hcl. vm_compute. left.
  - apply Hl; [intros n; reflexivity | exact Hwf | exact Hb | reflexivity].
  - destruct (Ho "alice") as [-> _]; [discriminate | reflexivity].
Defined.
