(* ===== verification/MailSpec.v ===== *)
(** * What the mails promise

    Nothing a user chooses can open markup in a templated mail or add a header
    line to a message; a code reported as sent was accepted by a transport. *)

From Stdlib Require Import ZArith Lia Ascii.
From stdpp Require Import base strings list gmap.
From S2P Require Import Prelude GoRt GoStd Json Html EmailTemplates Store Wire Db World Wf Samples Registry.
From S2P Require Import Http Email Sessions.

Open Scope string_scope.
Open Scope list_scope.
Open Scope Z_scope.

(** ** Markup *)

(** The same mail with nothing filled in. *)
Definition blank (b : mailBody) : mailBody :=
  match b with
  | MText _ => MText ""
  | MVerification _ _ _ => MVerification "" "" ""
  | MResendCode _ => MResendCode ""
  | MPasswordReset _ _ => MPasswordReset "" ""
  | MInvite _ _ => MInvite "" ""
  | MThankYou _ => MThankYou ""
  end.

Definition templated (b : mailBody) : bool := match b with MText _ => false | _ => true end.

(** One step along two instances of a template: a literal both have, or a hole
    each fills with text of its own. *)
Lemma same_literal p q l l1 l2 :
  placeAfter p l = q -> markup q l1 = markup q l2 -> markup p (l ++ l1) = markup p (l ++ l2).
Proof. intros <- E. by rewrite !markup_app, E. Qed.

Lemma same_hole p s1 s2 l1 l2 :
  p <> InTag -> markup p l1 = markup p l2 ->
  markup p (bytes (EscapeString s1) ++ l1) = markup p (bytes (EscapeString s2) ++ l2).
Proof.
  intros Hp E. rewrite (proj1 (escaped_hole p s1 l1 Hp)), (proj1 (escaped_hole p s2 l2 Hp)). exact E.
Qed.

#[local] Ltac walk :=
  rewrite !bytes_app, <- ?app_assoc;
  repeat lazymatch goal with
    | |- markup _ (bytes (EscapeString _) ++ _) = _ => apply same_hole; [discriminate|]
    | |- markup _ (?l ++ _) = markup _ (?l ++ _) => eapply same_literal; [vm_compute; reflexivity|]
    | |- ?x = ?x => exact eq_refl
    end.

(** C23: Nobody writes markup into another user's mail.  In every templated
    mail the markup - every tag, every attribute and every quote that bounds a
    value - is that of the empty template, whatever names, links and codes are
    filled in. *)
Theorem mail_markup_fixed b : templated b = true -> markupOf (render b) = markupOf (render (blank b)).
Proof.
  unfold markupOf. destruct b as [s|u link code|code|u link|inviter link|name]; intros Ht; [done|..];
    cbn [render blank]; unfold emailVerification, emailResendCode, emailPasswordReset, emailInvite,
      emailSupporterThankYou, emailBase, primaryBtn, mutedText, codeBlock; cbv zeta.
  all: walk.
Qed.

(** ** Header lines *)

(** A reader of a message: the lines up to the first empty one, each ended by
    CRLF, and what follows. *)
Fixpoint headers (cur l : list Z) : option (list (list Z) * list Z) :=
  match l with
  | [] => None
  | b :: l' =>
      if (b =? 13) && match l' with c :: _ => c =? 10 | [] => false end then
        match cur, l' with
        | [], _ :: body => Some ([], body)
        | _, _ :: rest =>
            match headers [] rest with Some (hs, body) => Some (cur :: hs, body) | None => None end
        | _, [] => None
        end
      else headers (cur ++ [b]) l'
  end.

Definition oneLine (l : list Z) : Prop := Forall (fun b => b <> 13 /\ b <> 10) l.

Lemma headers_line cur line rest :
  oneLine line ->
  headers cur (line ++ [13; 10] ++ rest)
  = match cur ++ line with
    | [] => Some ([], rest)
    | h => match headers [] rest with Some (hs, body) => Some (h :: hs, body) | None => None end
    end.
Proof.
  intros H. revert cur. induction H as [|b line [H13 H10] _ IH]; intros cur.
  - rewrite app_nil_r. by destruct cur.
  - cbn [app headers]. rewrite (proj2 (Z.eqb_neq b 13) H13). cbn [andb]. rewrite IH, <- app_assoc. done.
Qed.

Lemma sanitized_oneLine s : oneLine (bytes (sanitizeHeader s)).
Proof.
  unfold sanitizeHeader, oneLine.
  rewrite bytes_of_bytes.
  - apply Forall_forall. intros b Hb. apply elem_of_boolfilter in Hb as [Hb _].
    apply negb_true_iff, orb_false_iff in Hb as [H1 H2]. split; by apply Z.eqb_neq.
  - apply Forall_forall. intros b Hb. apply elem_of_boolfilter in Hb as [_ Hb].
    by apply (proj1 (Forall_forall _ _) (bytes_range s)).
Qed.

Lemma oneLine_lit s : forallb (fun b => negb (b =? 13) && negb (b =? 10)) (bytes s) = true -> oneLine (bytes s).
Proof.
  intros H. apply Forall_forall. intros b Hb. apply forallb_forall with (x := b) in H.
  - apply andb_true_iff in H as [H1 H2]. apply negb_true_iff in H1, H2. split; by apply Z.eqb_neq.
  - by apply list_elem_of_In.
Qed.

Lemma smtpMessage_headers from to subject body :
  headers [] (bytes (smtpMessage from to subject body))
  = Some ([bytes ("From: Phaze <" +:+ sanitizeHeader from +:+ ">");
           bytes ("To: " +:+ sanitizeHeader to); bytes ("Subject: " +:+ sanitizeHeader subject);
           bytes "MIME-version: 1.0"; bytes (raw "Content-Type: text/html; charset=`UTF-8`")],
          bytes (body +:+ crlf)).
Proof.
  unfold smtpMessage. rewrite !bytes_app.
  change (bytes crlf) with [13; 10].
  replace (bytes "From: Phaze <" ++ bytes (sanitizeHeader from) ++ bytes ">" ++ [13; 10] ++ _)
    with ((bytes "From: Phaze <" ++ bytes (sanitizeHeader from) ++ bytes ">") ++ [13; 10]
          ++ (bytes "To: " ++ bytes (sanitizeHeader to)) ++ [13; 10]
          ++ (bytes "Subject: " ++ bytes (sanitizeHeader subject)) ++ [13; 10]
          ++ bytes "MIME-version: 1.0" ++ [13; 10]
          ++ bytes (raw "Content-Type: text/html; charset=`UTF-8`") ++ [13; 10]
          ++ [] ++ [13; 10] ++ bytes body ++ [13; 10]) by (by rewrite <- !app_assoc).
  assert (Hs : forall pre s post, oneLine (bytes pre) -> oneLine post ->
    oneLine (bytes pre ++ bytes (sanitizeHeader s) ++ post)).
  { intros pre s post H1 H2. unfold oneLine in *. apply Forall_app_2; [done|].
    apply Forall_app_2; [apply sanitized_oneLine | done]. }
  rewrite headers_line by (apply Hs; [by apply oneLine_lit | by apply oneLine_lit]).
  rewrite headers_line by (rewrite <- (app_nil_r (bytes (sanitizeHeader to))); apply Hs;
    [by apply oneLine_lit | constructor]).
  rewrite headers_line by (rewrite <- (app_nil_r (bytes (sanitizeHeader subject))); apply Hs;
    [by apply oneLine_lit | constructor]).
  rewrite !headers_line by (first [by apply oneLine_lit | constructor]). done.
Qed.

(** ** On the wire

    What [smtp.SendMail] makes of a message: the [dotWriter] of
    [net/textproto], which ends every line by CRLF - a bare LF too -, doubles a
    dot that starts a line, and closes with a line of one dot. *)
Inductive wstate := WBegin | WBeginLine | WCR | WData.

Definition inLine (c : Z) : wstate * list Z :=
  if c =? 10 then (WBeginLine, [13; 10]) else (if c =? 13 then WCR else WData, [c]).

Definition dotByte (s : wstate) (c : Z) : wstate * list Z :=
  match s with
  | WBegin | WBeginLine =>
      let '(s, out) := inLine c in (s, if c =? 46 then 46 :: out else out)
  | WData => inLine c
  | WCR => (if c =? 10 then WBeginLine else WData, [c])
  end.

Fixpoint dotBytes (s : wstate) (l : list Z) : wstate * list Z :=
  match l with
  | [] => (s, [])
  | c :: l => let '(s, o1) := dotByte s c in let '(s, o2) := dotBytes s l in (s, o1 ++ o2)
  end.

Definition dotClose (s : wstate) : list Z :=
  match s with WBeginLine => [] | WCR => [10] | _ => [13; 10] end ++ [46; 13; 10].

Definition dotWrite (l : list Z) : list Z :=
  let '(s, out) := dotBytes WBegin l in out ++ dotClose s.

(** The receiver: lines end with LF, a CR before it is not part of the line; a
    line of one dot ends the message, another first dot is dropped.  The lines
    and what is left on the connection. *)
Definition chopCR (l : list Z) : list Z :=
  match last l with Some 13 => removelast l | _ => l end.
Definition undot (l : list Z) : list Z := match l with 46 :: l => l | _ => l end.

Fixpoint dotRead (cur l : list Z) : option (list (list Z) * list Z) :=
  match l with
  | [] => None
  | b :: l =>
      if b =? 10 then
        if bool_decide (chopCR cur = [46]) then Some ([], l)
        else match dotRead [] l with
             | Some (ls, rest) => Some (undot (chopCR cur) :: ls, rest)
             | None => None end
      else dotRead (cur ++ [b]) l
  end.

(** A text without its carriage returns, and without line feeds either. *)
Definition dropCR (l : list Z) : list Z := boolfilter (fun b => negb (b =? 13)) l.
Definition unbroken (s : string) : list Z := boolfilter (fun b => negb (b =? 13) && negb (b =? 10)) (bytes s).

(** The lines of a text, [cur] the first so far. *)
Fixpoint lfLines (cur l : list Z) : list (list Z) :=
  match l with
  | [] => [cur]
  | b :: l => if b =? 10 then cur :: lfLines [] l else lfLines (cur ++ [b]) l
  end.

Lemma chopCR_app l : chopCR (l ++ [13]) = l.
Proof. unfold chopCR. by rewrite last_snoc, removelast_last. Qed.

(** A line of the wire so far: not the one dot, and stuffed. *)
Definition stuffed (cur : list Z) : Prop := forall t, cur = 46 :: t -> exists t', t = 46 :: t'.

Lemma stuffed_app cur x : cur <> [] -> stuffed cur -> stuffed (cur ++ x).
Proof.
  intros Hn H t E. destruct cur as [|c cur]; [done|]. injection E as -> <-.
  destruct (H cur eq_refl) as [t' ->]. by exists (t' ++ x).
Qed.

Lemma undot_app cur x : cur <> [] -> undot (cur ++ x) = undot cur ++ x.
Proof. by destruct cur as [|[|p|p] cur]; [|repeat (destruct p as [p|p|]; try done)..]. Qed.

Lemma dropCR_app a b : dropCR (a ++ b) = dropCR a ++ dropCR b.
Proof. apply boolfilter_app. Qed.

(** The end of a line that is not the last. *)
Lemma dotRead_line cur rest ls r :
  chopCR cur <> [46] -> dotRead [] rest = Some (ls, r) ->
  dotRead cur (10 :: rest) = Some (undot (chopCR cur) :: ls, r).
Proof. intros H E. cbn [dotRead]. rewrite Z.eqb_refl, bool_decide_false by done. by rewrite E. Qed.

Lemma dotRead_byte cur b rest : b <> 10 -> dotRead cur (b :: rest) = dotRead (cur ++ [b]) rest.
Proof. intros H. cbn [dotRead]. by rewrite (proj2 (Z.eqb_neq b 10) H). Qed.

(** A line without breaks that does not start with a dot goes as it is. *)
Lemma dotBytes_data line rest :
  oneLine line -> dotBytes WData (line ++ rest) = ((dotBytes WData rest).1, line ++ (dotBytes WData rest).2).
Proof.
  induction 1 as [|b line [H13 H10] _ IH]; cbn [app]; [by destruct (dotBytes _ _)|].
  cbn [dotBytes dotByte]. unfold inLine. rewrite (proj2 (Z.eqb_neq b 10) H10), (proj2 (Z.eqb_neq b 13) H13), IH.
  by destruct (dotBytes _ rest).
Qed.

Lemma dotBytes_line s line rest :
  s = WBegin \/ s = WBeginLine -> oneLine line -> (forall t, line <> 46 :: t) ->
  dotBytes s (line ++ [13; 10] ++ rest)
  = ((dotBytes WBeginLine rest).1, line ++ [13; 10] ++ (dotBytes WBeginLine rest).2).
Proof.
  intros Hs Hl Hd. destruct Hl as [|b line [H13 H10] Hl].
  - destruct Hs as [->| ->]; cbn; by destruct (dotBytes _ rest).
  - cbn [app dotBytes]. assert (H46 : b <> 46) by (intros ->; by eapply Hd).
    assert (E : dotByte s b = (WData, [b])).
    { destruct Hs as [->| ->]; unfold dotByte, inLine;
        by rewrite (proj2 (Z.eqb_neq b 10) H10), (proj2 (Z.eqb_neq b 13) H13), (proj2 (Z.eqb_neq b 46) H46). }
    rewrite E, dotBytes_data by done. cbn. by destruct (dotBytes _ rest).
Qed.

Lemma dotRead_data cur line rest : oneLine line -> dotRead cur (line ++ rest) = dotRead (cur ++ line) rest.
Proof.
  intros H. revert cur. induction H as [|b line [_ H10] _ IH]; intros cur; [by rewrite app_nil_r|].
  cbn [app]. rewrite dotRead_byte, IH by done. by rewrite <- app_assoc.
Qed.

Lemma dotRead_header line rest ls r :
  oneLine line -> (forall t, line <> 46 :: t) -> dotRead [] rest = Some (ls, r) ->
  dotRead [] (line ++ [13; 10] ++ rest) = Some (line :: ls, r).
Proof.
  intros Hl Hd E. rewrite dotRead_data by done. cbn [app]. rewrite dotRead_byte by done.
  rewrite (dotRead_line _ _ ls r); [|rewrite chopCR_app; intros ->; by eapply Hd | done].
  rewrite chopCR_app. destruct line as [|[|p|p] line]; try done.
  repeat (destruct p as [p|p|]; try done). by destruct (Hd line).
Qed.

Lemma undot_other c l : c <> 46 -> undot (c :: l) = c :: l.
Proof. intros H. destruct c as [|p|p]; try done. repeat (destruct p as [p|p|]; try done). Qed.

Lemma lfLines_data cur x l : Forall (fun b => b <> 10) x -> lfLines cur (x ++ l) = lfLines (cur ++ x) l.
Proof.
  intros H. revert cur. induction H as [|b x H _ IH]; intros cur; [by rewrite app_nil_r|].
  cbn [app lfLines]. rewrite (proj2 (Z.eqb_neq b 10) H), IH. by rewrite <- app_assoc.
Qed.

(** Where the writer is in a line, and what the receiver has of it. *)
Definition midLine (s : wstate) (cur : list Z) : Prop :=
  match s with
  | WBegin => False
  | WBeginLine => cur = []
  | WData => cur <> [] /\ stuffed cur
  | WCR => exists c, cur = c ++ [13] /\ stuffed cur
  end.

Lemma stuffed_not_dot cur : stuffed cur -> cur <> [46].
Proof. intros H ->. by destruct (H [] eq_refl). Qed.

Lemma dropCR_undot_snoc c : dropCR (undot (c ++ [13])) = dropCR (undot c).
Proof.
  destruct (decide (c = [])) as [->|Hn]; [done|]. rewrite undot_app, dropCR_app by done. by rewrite app_nil_r.
Qed.

(** A line feed ends the line the receiver has, whatever the state. *)
Lemma feed_line s cur rest ls :
  midLine s cur -> dotRead [] rest = Some (ls, []) ->
  (dotByte s 10).1 = WBeginLine
  /\ exists x, dotRead cur ((dotByte s 10).2 ++ rest) = Some (x :: ls, []) /\ dropCR x = dropCR (undot cur).
Proof.
  intros Hs E. destruct s; cbn [midLine] in Hs; [done|subst cur| |]; split; try done.
  - exists []. split; [|done]. cbn [dotByte inLine]. cbn. by rewrite E.
  - destruct Hs as (c & -> & Hst). exists (undot c). rewrite dropCR_undot_snoc. split; [|done].
    cbn. rewrite chopCR_app, bool_decide_false; [by rewrite E|].
    intros ->. destruct (Hst [13] eq_refl) as [t' [=]].
  - destruct Hs as [Hn Hst]. exists (undot cur). split; [|done].
    cbn. rewrite chopCR_app, bool_decide_false; [by rewrite E | by apply stuffed_not_dot].
Qed.

(** Any other byte stays in the line. *)
Lemma feed_byte s cur c :
  midLine s cur -> c <> 10 ->
  let out := (dotByte s c).2 in
  (forall rest, dotRead cur (out ++ rest) = dotRead (cur ++ out) rest)
  /\ midLine (dotByte s c).1 (cur ++ out)
  /\ dropCR (undot (cur ++ out)) = dropCR (undot cur) ++ dropCR [c].
Proof.
  intros Hs Hc. cbv zeta.
  assert (Hi : inLine c = (if c =? 13 then WCR else WData, [c])).
  { unfold inLine. by rewrite (proj2 (Z.eqb_neq c 10) Hc). }
  assert (Hin : cur <> [] -> stuffed cur -> midLine (if c =? 13 then WCR else WData) (cur ++ [c])
                /\ dropCR (undot (cur ++ [c])) = dropCR (undot cur) ++ dropCR [c]).
  { intros Hn Hst. rewrite undot_app, dropCR_app by done. split; [|done].
    assert (Hst' : stuffed (cur ++ [c])) by by apply stuffed_app.
    destruct (c =? 13) eqn:E; [apply Z.eqb_eq in E as ->; by exists cur | split; [by intros [_ ?]%app_nil | done]]. }
  destruct s; cbn [midLine dotByte] in *; [done|subst cur| |].
  - rewrite Hi. destruct (c =? 46) eqn:E46.
    + apply Z.eqb_eq in E46 as ->. cbn. split_and!; [done|done| |done]. intros t [= <-]. by eexists.
    + cbn [fst snd app]. apply Z.eqb_neq in E46. split; [intros rest; by rewrite dotRead_byte|].
      assert (Hst : stuffed [c]) by (intros t [= ->]; done). split.
      * destruct (c =? 13) eqn:E; [apply Z.eqb_eq in E as ->; by exists [] | done].
      * by rewrite undot_other.
  - destruct Hs as (c' & -> & Hst). rewrite (proj2 (Z.eqb_neq c 10) Hc).
    assert (Hn : c' ++ [13] <> []) by by intros [_ ?]%app_nil. cbn [fst snd app].
    split_and!; [intros rest; by rewrite dotRead_byte | split; [by intros [_ ?]%app_nil | by apply stuffed_app]
                | by rewrite undot_app, dropCR_app by done].
  - destruct Hs as [Hn Hst]. rewrite Hi. cbn [fst snd app]. destruct (Hin Hn Hst) as [H1 H2].
    split_and!; [intros rest; by rewrite dotRead_byte | done | done].
Qed.

(** The body: its lines are received as written, carriage returns aside, and
    the dot that ends the message is the one [Close] writes. *)
Lemma dotRead_body l s cur :
  midLine s cur ->
  exists ls, dotRead cur ((dotBytes s (l ++ [13; 10])).2 ++ dotClose (dotBytes s (l ++ [13; 10])).1) = Some (ls, [])
    /\ dropCR <$> ls = lfLines (dropCR (undot cur)) (dropCR l).
Proof.
  revert s cur. induction l as [|c l IH]; intros s cur Hs.
  - destruct (feed_byte s cur 13 Hs ltac:(done)) as (Hr & Hm & Hd).
    cbn [app dotBytes]. destruct (dotByte s 13) as [s1 o1]; cbn [fst snd] in *.
    destruct (feed_line s1 (cur ++ o1) [46; 13; 10] [] Hm eq_refl) as [H1 (x & H2 & H3)].
    destruct (dotByte s1 10) as [s2 o2]; cbn [fst snd] in *. subst s2.
    exists [x]. cbn [dotClose]. rewrite app_nil_r, <- app_assoc, Hr. split; [exact H2|].
    cbn. by rewrite H3, Hd, app_nil_r.
  - cbn [app dotBytes]. destruct (decide (c = 10)) as [->|Hc].
    + destruct (IH WBeginLine [] eq_refl) as (ls & E & El).
      destruct (feed_line s cur _ ls Hs E) as [H1 (x & H2 & H3)].
      destruct (dotByte s 10) as [s1 o1]; cbn [fst snd] in *. subst s1.
      destruct (dotBytes WBeginLine (l ++ [13; 10])) as [s2 o2]; cbn [fst snd] in *.
      exists (x :: ls). rewrite <- app_assoc. split; [exact H2|]. cbn. by rewrite H3, El.
    + destruct (feed_byte s cur c Hs Hc) as (Hr & Hm & Hd).
      destruct (dotByte s c) as [s1 o1]; cbn [fst snd] in *.
      destruct (IH s1 (cur ++ o1) Hm) as (ls & E & El).
      destruct (dotBytes s1 (l ++ [13; 10])) as [s2 o2]; cbn [fst snd] in *.
      exists ls. rewrite <- app_assoc, Hr. split; [exact E|]. rewrite El, Hd.
      change (dropCR (c :: l)) with (dropCR ([c] ++ l)). rewrite dropCR_app. symmetry. apply lfLines_data.
      unfold dropCR. apply Forall_forall. by intros b [_ ->%list_elem_of_singleton]%elem_of_boolfilter.
Qed.

(** The bytes a header value keeps. *)
Lemma unbroken_oneLine s : oneLine (unbroken s).
Proof.
  apply Forall_forall. intros b Hb. apply elem_of_boolfilter in Hb as [Hb _].
  apply andb_true_iff in Hb as [H1 H2]. apply negb_true_iff in H1, H2. split; by apply Z.eqb_neq.
Qed.

Lemma sanitizeHeader_unbroken s : bytes (sanitizeHeader s) = unbroken s.
Proof.
  unfold sanitizeHeader, unbroken. rewrite bytes_of_bytes.
  - apply boolfilter_ext. intros b _. by rewrite negb_orb.
  - apply Forall_forall. intros b Hb. apply elem_of_boolfilter in Hb as [_ Hb].
    by apply (proj1 (Forall_forall _ _) (bytes_range s)).
Qed.

(** The five header lines of a message. *)
Definition headerLines (from to subject : string) : list (list Z) :=
  [bytes "From: Phaze <" ++ unbroken from ++ bytes ">"; bytes "To: " ++ unbroken to;
   bytes "Subject: " ++ unbroken subject; bytes "MIME-version: 1.0";
   bytes (raw "Content-Type: text/html; charset=`UTF-8`")].

(** A message is lines ended by CRLF, then the rest. *)
Lemma dotRead_lines hs s rest ls :
  Forall (fun h => oneLine h /\ forall t, h <> 46 :: t) hs -> s = WBegin \/ s = WBeginLine ->
  dotRead [] ((dotBytes WBeginLine rest).2 ++ dotClose (dotBytes WBeginLine rest).1) = Some (ls, []) ->
  hs <> [] ->
  let x := dotBytes s (concat ((fun h => h ++ [13; 10]) <$> hs) ++ rest) in
  dotRead [] (x.2 ++ dotClose x.1) = Some (hs ++ ls, []).
Proof.
  intros Hh Hs E. revert s Hs. induction Hh as [|h hs [Hl Hd] Hh IH]; intros s Hs Hn; [done|].
  cbv zeta. cbn [fmap list_fmap concat]. rewrite <- !app_assoc, dotBytes_line by done. cbn [fst snd].
  destruct (decide (hs = [])) as [->|Hn'].
  - cbn [fmap list_fmap concat app]. rewrite <- !app_assoc. by apply dotRead_header.
  - specialize (IH WBeginLine ltac:(by right) Hn').
    rewrite <- !app_assoc. by apply dotRead_header.
Qed.

Lemma smtpMessage_lines from to subject body :
  bytes (smtpMessage from to subject body)
  = concat ((fun h => h ++ [13; 10]) <$> (headerLines from to subject ++ [[]])) ++ bytes body ++ [13; 10].
Proof.
  unfold smtpMessage, headerLines. rewrite !bytes_app, !sanitizeHeader_unbroken.
  change (bytes crlf) with [13; 10]. cbn [fmap list_fmap concat app]. by rewrite <- !app_assoc.
Qed.

(** C35: A message carries the headers the code writes and no others.  Whatever
    the sender, the recipient, the subject and the body hold, what the SMTP
    server reads off the wire - [dotWriter] having turned a bare line feed into
    a line end and doubled the dots that start a line - is exactly five header
    lines, From, To, Subject, MIME-version and Content-Type, each value without
    its carriage returns and line feeds; then the empty line; then the lines of
    the body, carriage returns aside.  The message ends where the client ends
    it: nothing is left over to be read as commands. *)
Theorem smtp_headers_exact from to subject body :
  exists lines, dotRead [] (dotWrite (bytes (smtpMessage from to subject body)))
                = Some (headerLines from to subject ++ [] :: lines, [])
    /\ dropCR <$> lines = lfLines [] (dropCR (bytes body)).
Proof.
  destruct (dotRead_body (bytes body) WBeginLine [] eq_refl) as (ls & E & El).
  exists ls. split; [|exact El]. unfold dotWrite. rewrite (surjective_pairing (dotBytes _ _)). rewrite smtpMessage_lines.
  replace (headerLines from to subject ++ [] :: ls) with ((headerLines from to subject ++ [[]]) ++ ls)
    by by rewrite <- app_assoc.
  apply (dotRead_lines _ WBegin); [|by left | exact E | done].
  assert (Ho : forall a b, oneLine a -> oneLine b -> oneLine (a ++ b)) by (intros a b H1 H2; by apply Forall_app_2).
  repeat (constructor; [split; [repeat first [apply Ho | apply unbroken_oneLine | by apply oneLine_lit | constructor]
                               | by intros t]|]). constructor.
Qed.

(** A subject that carries a header of its own and a body with a lone dot. *)
Example header_injection_flattened :
  dotRead [] (dotWrite (bytes (smtpMessage "phaze@example.org" "alice@example.org"
    ("Hi" +:+ of_bytes [10] +:+ "Bcc: eve@example.org") ("one" +:+ of_bytes [10; 46; 13; 10] +:+ "QUIT"))))
  = Some (bytes <$> ["From: Phaze <phaze@example.org>"; "To: alice@example.org";
                     "Subject: HiBcc: eve@example.org"; "MIME-version: 1.0";
                     raw "Content-Type: text/html; charset=`UTF-8`"; ""; "one"; "."; "QUIT"], []).
Proof. vm_compute. reflexivity. Qed.

(** ** Codes reported as sent *)

(** A payload for [to] with the page [html]. *)
Definition carries (to html : string) (j : jval) : Prop :=
  exists l, j = JObj l /\ (exists k, (k, JStr html) ∈ l)
    /\ exists v, ("to", v) ∈ l /\ v ∈ [JStr to; JArr [JStr to]; JArr [JObj [("email", JStr to)]]].

(** A transport took the page: an API answered its request with a 2xx status,
    or the SMTP server took a message with that body. *)
Definition accepted (e : Env) (to html : string) : Prop :=
  (exists url hs j code b, mailPost e url hs j = HTTPStatus code b /\ 200 <= code < 300 /\ carries to html j)
  \/ (exists m hs, smtpSend e m = None /\ smRcpt m = [to]
        /\ headers [] (bytes (smMsg m)) = Some (hs, bytes (html +:+ crlf))).

Lemma apiResult_nil label a w :
  (apiResult label a w).1 = None -> exists code b, a = HTTPStatus code b /\ 200 <= code < 300.
Proof.
  destruct a as [|code b]; cbn; [done|]. destruct (_ && _) eqn:E; [|done]. intros _. bools.
  exists code, b. split; [done | lia].
Qed.

#[local] Ltac pick := first [left; reflexivity | right; pick].
#[local] Ltac inlist := first [solve [left] | right; inlist].

Lemma api_accepted e url hs j to html label w :
  wEnv w = e -> carries to html j -> (apiResult label (mailPost e url hs j) w).1 = None ->
  accepted e to html.
Proof.
  intros _ Hj H. apply apiResult_nil in H as (code & b & E & Hr). left. by exists url, hs, j, code, b.
Qed.

#[local] Ltac carry :=
  eexists; split; [reflexivity|]; split; [eexists; inlist | eexists; split; [inlist|]; inlist].

(** A nil error of [sendEmail] is a delivery where a transport is set up. *)
Lemma sendEmail_accepted to sub b w :
  mailConfigured (wEnv w) = true -> (sendEmail to sub b w).1 = None ->
  accepted (wEnv w) to (render b).
Proof.
  intros Hc. unfold mailConfigured, smtpConfigured, set_ in Hc.
  unfold sendEmail. rewrite bind_run, getEnv_run. cbn [fst snd].
  destruct (is_empty (mailRelayURL (wEnv w))) eqn:E1; cbn [negb orb] in *.
  2: { unfold sendEmailRelay. rewrite !bind_run, getEnv_run. apply api_accepted; [done | carry]. }
  unfold set_. destruct (is_empty (getenv (wEnv w) "RESEND_API_KEY")) eqn:E2; cbn [negb orb] in *.
  2: { unfold sendEmailResend. rewrite !bind_run, getEnv_run. apply api_accepted; [done | carry]. }
  destruct (is_empty (getenv (wEnv w) "BREVO_API_KEY")) eqn:E3; cbn [negb orb] in *.
  2: { unfold sendEmailBrevo. rewrite !bind_run, getEnv_run. apply api_accepted; [done | carry]. }
  apply andb_true_iff in Hc as [[Hh Hu]%andb_true_iff Hp]. apply negb_true_iff in Hh, Hu, Hp.
  unfold sendEmailSMTP. rewrite bind_run, getEnv_run. cbn [fst snd]. rewrite Hh, Hu, Hp. cbn [orb]. rewrite bind_run, ret_run. cbn [fst].
  intros E. right. eexists _, _. split; [exact E|]. split; [done|]. cbn [smMsg].
  apply smtpMessage_headers.
Qed.

(** What sending leaves alone. *)
Definition still (w : World) := (wDB w, ctx w).
#[local] Instance fo_still : FreesOut (same still). Proof. by intros ??. Qed.
#[local] Instance fr_still : FreesRand (same still). Proof. by intros ??. Qed.
#[local] Instance fs_still : FreesSrv (same still). Proof. by intros ??. Qed.

Lemma still_inv w w' :
  still w' = still w -> wDB w' = wDB w /\ wEnv w' = wEnv w /\ wNow w' = wNow w /\ (sql_ok w -> sql_ok w').
Proof.
  intros E. unfold still, ctx in E. injection E as E1 E2 E3 E4 _ _.
  split_and!; try done. intros H n. by rewrite E4.
Qed.

(** A code reported as sent was taken by a mail transport.  When
    [createDeviceChallenge] answers that the code went out by mail, the
    challenge it names holds a code, the account has an address, and one of the
    configured transports accepted a message to that address whose body is the
    challenge mail with that code; a transport that only logs does not count. *)
Theorem code_sent_accepted u dev tok label ip w id :
  sql_ok w -> (createDeviceChallenge u dev tok label ip w).1 = (id, true) ->
  exists code email,
    (exists row, row ∈ rows (device_challenges (wDB (createDeviceChallenge u dev tok label ip w).2))
       /\ dc_id row = id /\ dc_username row = u /\ dc_session_token row = tok /\ dc_code row = code)
    /\ email <> "" /\ u_email <$> tfirst (fun r => u_username r ==? u) (users (wDB w)) = Some email
    /\ accepted (wEnv w) email (challengeMail label ip code (wNow w)).
Proof.
  intros Hok. unfold createDeviceChallenge. rewrite bind_run.
  assert (H1 : still (randDigits 6 w).2 = still w) by (apply (respects_randDigits (same still))).
  apply still_inv in H1 as (Hd1 & He1 & Hn1 & Hok1). specialize (Hok1 Hok).
  destruct (randDigits 6 w) as [[code|] w1]; cbn [fst snd] in *; [|done].
  rewrite bind_run, getNow_run. cbn [fst snd]. rewrite bind_run, ok_Exec by done. cbn [fst snd].
  set (d2 := set_device_challenges _ _). set (w2 := set_wDB d2 (tickSql w1)).
  rewrite bind_run. match goal with |- context [sendTo_ ?a ?b] => set (m := sendTo_ a b) end.
  assert (H3 : still (m w2).2 = still w2) by (apply (respects_sendTo_ (same still))).
  apply still_inv in H3 as (Hd3 & He3 & Hn3 & Hok3).
  assert (Hok2 : sql_ok w2) by (intros n; apply Hok1). specialize (Hok3 Hok2).
  destruct (m w2) as [x w3]; cbn [fst snd] in *. clear m x.
  unfold userEmail. rewrite bind_run, ok_ScanOr by done. cbn [fst snd].
  destruct (is_empty _) eqn:Em; [done|]. rewrite bind_run, getEnv_run. cbn [fst snd].
  destruct (mailConfigured _) eqn:Ec; cbn [negb]; [|done].
  rewrite bind_run. match goal with |- context [sendEmail ?a ?b ?c ?w0] =>
    pose proof (sendEmail_accepted a b c w0 Ec) as Ha;
    assert (H4 : still (sendEmail a b c w0).2 = still w0) by (apply respects_sendEmail; typeclasses eauto);
    destruct (sendEmail a b c w0) as [[err|] w4] end; cbn [fst snd] in *; [done|].
  intros [= <-]. specialize (Ha eq_refl). apply still_inv in H4 as (Hd4 & _).
  change (wDB (tickSql w3)) with (wDB w3) in *. change (wEnv (tickSql w3)) with (wEnv w3) in *.
  assert (Eu : users (wDB w3) = users (wDB w)) by (rewrite Hd3, <- Hd1; reflexivity).
  rewrite Eu in *. destruct (u_email <$> tfirst _ _) as [email|]; cbn [default] in *; [|done].
  exists code, email. split_and!; [| |done|].
  - cbn [ret snd]. rewrite Hd4, Hd3. eexists.
    split; [unfold w2, d2; cbn; apply elem_of_app; right; left | by split_and!].
  - unfold is_empty in Em. by bools.
  - rewrite He3 in Ha. change (wEnv w2) with (wEnv w1) in Ha. by rewrite He1, Hn1 in Ha.
Qed.

(** ** At concrete states *)

(** A server with a mail relay, and one whose SMTP server takes everything. *)
Definition relayEnv : Env :=
  set_getenv (fun k => if k ==? "PHAZE_MAIL_RELAY" then "http://mail.internal/send" else "") env0.
Definition relayW : World := set_wEnv relayEnv sampleW.

Lemma mail_markup_fixed_witness :
  let b := MInvite "<script>alert(1)</script>" (of_bytes [34] +:+ "><img src=x>") in
  templated b = true /\ markupOf (render b) = markupOf (render (MInvite "" "")).
Proof. intros b. split; [reflexivity | by apply (mail_markup_fixed b)]. Defined.

Lemma code_sent_accepted_witness :
  exists id, (createDeviceChallenge "alice" "dev2" "tok2" "Edge on Windows" "10.0.0.3" relayW).1 = (id, true)
  /\ exists code, accepted relayEnv "alice@example.org" (challengeMail "Edge on Windows" "10.0.0.3" code T0).
Proof.
  assert (H : exists id, (createDeviceChallenge "alice" "dev2" "tok2" "Edge on Windows" "10.0.0.3" relayW).1
                         = (id, true)) by (eexists; vm_compute; reflexivity).
  destruct H as [id H]. exists id. split; [exact H|].
  destruct (code_sent_accepted "alice" "dev2" "tok2" "Edge on Windows" "10.0.0.3" relayW id
              (fun n => eq_refl) H) as (code & email & _ & _ & [= <-] & Ha).
  exists code. exact Ha.
Defined.

(** The challenge mail itself is not a template: the name of a device reaches
    it unescaped, and a client without a User-Agent chooses that name. *)
Theorem challenge_mail_injects : exists label,
  deviceLabel "" label = label
  /\ markupOf (challengeMail label "10.0.0.9" "123456" T0)
     <> markupOf (challengeMail "" "10.0.0.9" "123456" T0).
Proof. exists "<b>your bank</b>". split; [reflexivity | vm_compute; discriminate]. Qed.
