(* ===== verification/IpSpec.v ===== *)
(** * What the address gates promise

    Dotted quads read back, an IPv4 network contains exactly the addresses with
    its prefix, which addresses are private, and what an entry of the admin
    allowlist lets through. *)

From Stdlib Require Import ZArith Lia Ascii.
From stdpp Require Import base strings list gmap.
From S2P Require Import Prelude GoRt GoStd Json Ip Netutil Store Wire Db World Wf Samples Http Middleware.
From S2P Require Import IpCheck.

Open Scope string_scope.
Open Scope list_scope.
Open Scope Z_scope.

(** ** Dotted quads *)

Record quad := mkQuad { qa : Z; qb : Z; qc : Z; qd : Z }.

#[export] Instance quad_eq : EqDecision quad.
Proof. solve_decision. Defined.

Definition octet (n : Z) : Prop := 0 <= n < 256.
Definition quad_ok (q : quad) : Prop := octet (qa q) /\ octet (qb q) /\ octet (qc q) /\ octet (qd q).
Definition quadBytes (q : quad) : list Z := [qa q; qb q; qc q; qd q].
Definition quadText (q : quad) : string :=
  Itoa (qa q) +:+ "." +:+ Itoa (qb q) +:+ "." +:+ Itoa (qc q) +:+ "." +:+ Itoa (qd q).

(** The address as a number. *)
Definition quadNum (q : quad) : Z := ((qa q * 256 + qb q) * 256 + qc q) * 256 + qd q.

(** A property of octets by trying them all. *)
Lemma octet_all (P : Z -> bool) n : octet n -> forallb (fun k => P (Z.of_nat k)) (seq 0 256) = true -> P n = true.
Proof.
  intros [H1 H2] H. apply forallb_forall with (x := Z.to_nat n) in H.
  - by rewrite Z2Nat.id in H.
  - apply in_seq. lia.
Qed.

Definition octetDigits (n : Z) : list Z :=
  if n <? 10 then [48 + n]
  else if n <? 100 then [48 + n / 10; 48 + n mod 10]
  else [48 + n / 100; 48 + n / 10 mod 10; 48 + n mod 10].

Lemma bytes_Itoa_octet n : octet n -> bytes (Itoa n) = octetDigits n.
Proof.
  intros H. apply (bool_decide_eq_true_1 _).
  apply (octet_all (fun n => bool_decide (bytes (Itoa n) = octetDigits n)) n H). by vm_compute.
Qed.

(** Reading an octet. *)
Lemma ipv4Loop_octet n prev fields rest :
  octet n -> exists k, ipv4Loop (bytes (Itoa n) ++ rest) prev 0 0 fields = ipv4Loop rest false n k fields.
Proof.
  intros H. rewrite bytes_Itoa_octet by done. unfold octet in H. unfold octetDigits.
  assert (D : forall d, 0 <= d < 10 -> is_digit (48 + d) = true /\ 48 + d - 48 = d).
  { intros d Hd. split; [by apply digit_ok | lia]. }
  assert (H1 : 0 <= n mod 10 < 10) by (apply Z.mod_pos_bound; lia).
  destruct (Z.ltb_spec n 10); [|destruct (Z.ltb_spec n 100)]; cbn [app ipv4Loop].
  - destruct (D n) as [E1 E2]; [lia|]. rewrite E1, E2. change (0 =? 1) with false. cbn [andb]. change (0 * 10) with 0. rewrite !Z.add_0_l.
    rewrite (proj2 (Z.ltb_ge 255 n)) by lia. by eexists.
  - destruct (D (n / 10)) as [E1 E2]; [Z.div_mod_to_equations; lia|]. destruct (D (n mod 10)) as [E3 E4]; [lia|].
    assert (n / 10 <> 0) by (Z.div_mod_to_equations; lia).
    rewrite E1, E2. change (0 =? 1) with false. cbn [andb]. change (0 * 10) with 0. rewrite !Z.add_0_l.
    rewrite (proj2 (Z.ltb_ge 255 (n / 10))) by (Z.div_mod_to_equations; lia).
    rewrite E3, E4, (proj2 (Z.eqb_neq (n / 10) 0)) by done. rewrite andb_false_r.
    replace (n / 10 * 10 + n mod 10) with n by (Z.div_mod_to_equations; lia).
    rewrite (proj2 (Z.ltb_ge 255 n)) by lia. by eexists.
  - assert (Hm : 0 <= n / 10 mod 10 < 10) by (apply Z.mod_pos_bound; lia).
    destruct (D (n / 100)) as [E1 E2]; [Z.div_mod_to_equations; lia|].
    destruct (D (n / 10 mod 10)) as [E3 E4]; [lia|]. destruct (D (n mod 10)) as [E5 E6]; [lia|].
    assert (n / 100 <> 0) by (Z.div_mod_to_equations; lia).
    rewrite E1, E2. change (0 =? 1) with false. cbn [andb]. change (0 * 10) with 0. rewrite !Z.add_0_l.
    rewrite (proj2 (Z.ltb_ge 255 (n / 100))) by (Z.div_mod_to_equations; lia).
    rewrite E3, E4, (proj2 (Z.eqb_neq (n / 100) 0)) by done. rewrite andb_false_r.
    replace (n / 100 * 10 + n / 10 mod 10) with (n / 10) by (Z.div_mod_to_equations; lia).
    rewrite (proj2 (Z.ltb_ge 255 (n / 10))) by (Z.div_mod_to_equations; lia).
    rewrite E5, E6. replace (n / 10 =? 0) with false by (symmetry; apply Z.eqb_neq; Z.div_mod_to_equations; lia).
    rewrite andb_false_r.
    replace (n / 10 * 10 + n mod 10) with n by (Z.div_mod_to_equations; lia).
    rewrite (proj2 (Z.ltb_ge 255 n)) by lia. by eexists.
Qed.

Lemma ipv4Loop_dot n k fields rest :
  (length fields < 3)%nat -> rest <> [] ->
  ipv4Loop (46 :: rest) false n k fields = ipv4Loop rest true 0 0 (fields ++ [n]).
Proof.
  intros H Hr. cbn [ipv4Loop]. change (is_digit 46) with false. change (46 =? dot) with true. cbn [orb].
  destruct rest as [|b rest]; [done|]. cbn [length Nat.eqb].
  destruct (Nat.eqb_spec (length fields) 3); [lia | done].
Qed.

Lemma bytes_Itoa_nonnil n l : octet n -> bytes (Itoa n) ++ l <> [].
Proof. intros H. rewrite bytes_Itoa_octet by done. unfold octetDigits. by repeat case_match. Qed.

(** A quad's text is digits and dots. *)
Lemma quadText_bytes q :
  bytes (quadText q)
  = bytes (Itoa (qa q)) ++ 46 :: bytes (Itoa (qb q)) ++ 46 :: bytes (Itoa (qc q)) ++ 46 :: bytes (Itoa (qd q)).
Proof. unfold quadText. by rewrite !bytes_app. Qed.

#[local] Ltac octet_step H :=
  match goal with |- ipv4Loop (bytes (Itoa ?n) ++ ?r) true 0 0 ?f = _ =>
    let k := fresh "k" in destruct (ipv4Loop_octet n true f r H) as [k ->] end.

Lemma parseIPv4_quad q : quad_ok q -> parseIPv4 (bytes (quadText q)) = Some (quadBytes q).
Proof.
  intros (Ha & Hb & Hc & Hd). rewrite quadText_bytes. unfold parseIPv4.
  octet_step Ha. rewrite ipv4Loop_dot by (first [cbn; lia | by apply bytes_Itoa_nonnil]).
  octet_step Hb. rewrite ipv4Loop_dot by (first [cbn; lia | by apply bytes_Itoa_nonnil]).
  octet_step Hc. rewrite <- (app_nil_r (bytes (Itoa (qd q)))).
  rewrite ipv4Loop_dot by (first [cbn; lia | by apply bytes_Itoa_nonnil]).
  octet_step Hd. done.
Qed.

Lemma octetDigits_digits n : octet n -> forallb is_digit (octetDigits n) = true.
Proof. intros H. apply (octet_all (fun n => forallb is_digit (octetDigits n)) n H). by vm_compute. Qed.

Lemma family_digits l r : forallb is_digit l = true -> family (l ++ r) = family r.
Proof.
  induction l as [|c l IH]; [done|]. cbn [forallb app family]. intros [Hc Hl]%andb_true_iff.
  assert (48 <= c <= 57) by by apply is_digit_range.
  rewrite !(proj2 (Z.eqb_neq c _)) by (unfold dot, colon, percent; lia). by apply IH.
Qed.

Lemma family_quad q : quad_ok q -> family (bytes (quadText q)) = dot.
Proof.
  intros (Ha & _). rewrite quadText_bytes, bytes_Itoa_octet by done.
  by rewrite family_digits by by apply octetDigits_digits.
Qed.

Lemma parseAddr_quad q : quad_ok q -> parseAddr (quadText q) = Some (true, quadBytes q).
Proof.
  intros H. unfold parseAddr. rewrite family_quad by done. change (dot =? dot) with true. cbv iota.
  by rewrite parseIPv4_quad.
Qed.

(** An address that is written comes back. *)
Lemma ParseIP_quad q : quad_ok q -> ParseIP (quadText q) = Some (mapped (quadBytes q)).
Proof. intros H. unfold ParseIP. by rewrite parseAddr_quad. Qed.

(** ** Prefixes *)

Lemma land_maskByte x k : octet x -> 0 <= k <= 8 -> Z.land x (maskByte k) = x / 2 ^ (8 - k) * 2 ^ (8 - k).
Proof.
  intros Hx Hk. set (P x k := Z.land x (maskByte k) =? x / 2 ^ (8 - k) * 2 ^ (8 - k)).
  assert (H : forallb (P x) [0; 1; 2; 3; 4; 5; 6; 7; 8] = true)
    by (apply (octet_all (fun x => forallb (P x) [0; 1; 2; 3; 4; 5; 6; 7; 8]) x Hx); by vm_compute).
  apply Z.eqb_eq. apply (proj1 (forallb_forall _ _) H). cbn. lia.
Qed.

(** The first [n] bits of an address. *)
Definition prefix (n : Z) (q : quad) : Z := quadNum q / 2 ^ (32 - n).

Lemma maskByte_full n : 8 <= n -> maskByte n = 255.
Proof. intros H. unfold maskByte. by rewrite (proj2 (Z.leb_le 8 n)). Qed.
Lemma maskByte_none n : n <= 0 -> maskByte n = 0.
Proof. intros H. unfold maskByte. rewrite (proj2 (Z.leb_gt 8 n)) by lia. by rewrite (proj2 (Z.leb_le n 0)). Qed.
Lemma land_255 x : octet x -> Z.land x 255 = x.
Proof. intros H. apply Z.eqb_eq, (octet_all (fun x => Z.land x 255 =? x) x H). by vm_compute. Qed.

(** Equal after masking with [k] bits, equal in the first [k] bits. *)
Lemma masked_eq x y k :
  octet x -> octet y -> 0 <= k <= 8 ->
  Z.land x (maskByte k) = Z.land y (maskByte k) <-> x / 2 ^ (8 - k) = y / 2 ^ (8 - k).
Proof.
  intros Hx Hy Hk. rewrite !land_maskByte by done.
  assert (0 < 2 ^ (8 - k)) by (apply Z.pow_pos_nonneg; lia). nia.
Qed.

(** Numbers whose high parts and low parts are apart. *)
Lemma div_high h l a b : 0 <= a -> 0 <= b -> 0 <= l < 2 ^ b -> (h * 2 ^ b + l) / 2 ^ (b + a) = h / 2 ^ a.
Proof.
  intros Ha Hb Hl. assert (0 < 2 ^ b) by (apply Z.pow_pos_nonneg; lia).
  assert (0 < 2 ^ a) by (apply Z.pow_pos_nonneg; lia).
  rewrite Z.pow_add_r, <- Z.div_div by lia. f_equal.
  rewrite Z.div_add_l, Z.div_small by lia. lia.
Qed.

(** The two low numbers in base [2 ^ 8] are apart. *)
Lemma high_low_eq h h' l l' a :
  0 <= a <= 8 -> octet l -> octet l' ->
  (h * 256 + l) / 2 ^ a = (h' * 256 + l') / 2 ^ a <-> h = h' /\ l / 2 ^ a = l' / 2 ^ a.
Proof.
  intros Ha Hl Hl'. assert (0 < 2 ^ a) by (apply Z.pow_pos_nonneg; lia).
  assert (0 < 2 ^ (8 - a)) by (apply Z.pow_pos_nonneg; lia).
  assert (E : 256 = 2 ^ (8 - a) * 2 ^ a) by (rewrite <- Z.pow_add_r by lia; by replace (8 - a + a) with 8 by lia).
  rewrite E, !Z.mul_assoc, !Z.div_add_l by lia.
  assert (forall x, octet x -> 0 <= x / 2 ^ a < 2 ^ (8 - a)).
  { intros x [H1 H2]. split; [by apply Z.div_pos|]. apply Z.div_lt_upper_bound; [lia|].
    rewrite Z.mul_comm, <- E. lia. }
  pose proof (H1 l Hl). pose proof (H1 l' Hl'). split; [intros Heq | intros [-> ->]; done].
  apply (Z.div_mod_unique (2 ^ (8 - a))); [lia.. | lia].
Qed.

Lemma masked_prefix n p q :
  quad_ok p -> quad_ok q -> 0 <= n <= 32 ->
  andBytes (quadBytes p) (CIDRMask n 4) = andBytes (quadBytes q) (CIDRMask n 4) <-> prefix n p = prefix n q.
Proof.
  intros (Pa & Pb & Pc & Pd) (Qa & Qb & Qc & Qd) Hn.
  unfold andBytes, quadBytes, CIDRMask, prefix, quadNum. cbn [seq fmap list_fmap zip_with].
  change (8 * Z.of_nat 0) with 0. change (8 * Z.of_nat 1) with 8.
  change (8 * Z.of_nat 2) with 16. change (8 * Z.of_nat 3) with 24.
  assert (Hpair : forall h h' x x', octet x -> octet x' -> h * 256 + x = h' * 256 + x' <-> h = h' /\ x = x')
    by (unfold octet; lia).
  assert (Hl : forall (a b c d a' b' c' d' : Z), [a; b; c; d] = [a'; b'; c'; d'] <-> a = a' /\ b = b' /\ c = c' /\ d = d')
    by (split; [by intros [= -> -> -> ->] | by intros (-> & -> & -> & ->)]).
  rewrite Hl. clear Hl.
  destruct (Z.leb_spec n 8); [|destruct (Z.leb_spec n 16); [|destruct (Z.leb_spec n 24)]];
    rewrite ?(maskByte_none (n - 8)), ?(maskByte_none (n - 16)), ?(maskByte_none (n - 24)),
      ?(maskByte_full (n - 0)), ?(maskByte_full (n - 8)), ?(maskByte_full (n - 16)) by lia;
    rewrite ?Z.land_0_r, ?land_255, ?masked_eq by (assumption || lia); unfold octet in *.
  - replace (32 - n) with (24 + (8 - (n - 0))) by lia.
    replace (((qa p * 256 + qb p) * 256 + qc p) * 256 + qd p)
      with (qa p * 2 ^ 24 + (qb p * 65536 + qc p * 256 + qd p)) by lia.
    replace (((qa q * 256 + qb q) * 256 + qc q) * 256 + qd q)
      with (qa q * 2 ^ 24 + (qb q * 65536 + qc q * 256 + qd q)) by lia.
    rewrite !div_high by lia. tauto.
  - replace (32 - n) with (16 + (8 - (n - 8))) by lia.
    replace (((qa p * 256 + qb p) * 256 + qc p) * 256 + qd p)
      with ((qa p * 256 + qb p) * 2 ^ 16 + (qc p * 256 + qd p)) by lia.
    replace (((qa q * 256 + qb q) * 256 + qc q) * 256 + qd q)
      with ((qa q * 256 + qb q) * 2 ^ 16 + (qc q * 256 + qd q)) by lia.
    rewrite !div_high by lia. rewrite high_low_eq by (unfold octet; lia). tauto.
  - replace (32 - n) with (8 + (8 - (n - 16))) by lia.
    change 256 with (2 ^ 8) at 3. change 256 with (2 ^ 8) at 5.
    rewrite !div_high by lia. rewrite high_low_eq, Hpair by (unfold octet; lia). tauto.
  - replace (32 - n) with (8 - (n - 24)) by lia.
    rewrite high_low_eq, !Hpair by (unfold octet; lia). tauto.
Qed.

(** ** Networks *)

Lemma length_CIDRMask n k : length (CIDRMask n k) = k.
Proof. unfold CIDRMask. by rewrite length_fmap, length_seq. Qed.

Lemma andBytes_idem a m : andBytes (andBytes a m) m = andBytes a m.
Proof.
  unfold andBytes. revert m. induction a as [|x a IH]; intros [|y m]; cbn; try done.
  f_equal; [|apply IH]. by rewrite <- Z.land_assoc, Z.land_diag.
Qed.

(** An IPv4 network contains the addresses with its prefix. *)
Lemma netContains_v4 n p q :
  quad_ok p -> quad_ok q -> 0 <= n <= 32 ->
  netContains (mkIPNet (andBytes (quadBytes p) (CIDRMask n 4)) (CIDRMask n 4)) (mapped (quadBytes q))
  = bool_decide (prefix n p = prefix n q).
Proof.
  intros Hp Hq Hn. unfold netContains, numberAndMask. cbn [netIP netMask].
  assert (L : length (andBytes (quadBytes p) (CIDRMask n 4)) = 4%nat)
    by (unfold andBytes; rewrite length_zip_with, length_CIDRMask; done).
  unfold To4 at 1. rewrite L. cbn [Nat.eqb negb andb]. rewrite length_CIDRMask. cbn [Nat.eqb].
  change (To4 (mapped (quadBytes q))) with (Some (quadBytes q)). cbn [default].
  rewrite L. change (length (quadBytes q) =? 4)%nat with true. cbn [andb].
  rewrite andBytes_idem. apply bool_decide_ext. by apply masked_prefix.
Qed.

(** ** Texts of networks *)

Definition cidrText (p : quad) (n : Z) : string := quadText p +:+ "/" +:+ Itoa n.

Lemma IndexByte_cons a s c :
  IndexByte (String a s) c
  = if bool_decide (a = c) then 0 else let i := IndexByte s c in if i <? 0 then -1 else i + 1.
Proof. reflexivity. Qed.

Lemma IndexByte_absent s c : byte_of c ∉ bytes s -> IndexByte s c = -1.
Proof.
  induction s as [|a s IH]; intros H; [done|].
  change (bytes (String a s)) with (byte_of a :: bytes s) in H. apply not_elem_of_cons in H as [H1 H2].
  rewrite IndexByte_cons, bool_decide_false by (by intros ->). by rewrite IH.
Qed.

Lemma IndexByte_first s t c :
  byte_of c ∉ bytes s -> IndexByte (s +:+ String c t) c = len s.
Proof.
  induction s as [|a s IH]; intros H.
  - change ("" +:+ String c t) with (String c t). by rewrite IndexByte_cons, bool_decide_true.
  - change (bytes (String a s)) with (byte_of a :: bytes s) in H. apply not_elem_of_cons in H as [H1 H2].
    change (String a s +:+ String c t) with (String a (s +:+ String c t)).
    rewrite IndexByte_cons, bool_decide_false by (by intros ->). rewrite IH by done. cbv zeta.
    unfold len in *. cbn [String.length]. destruct (Z.ltb_spec (Z.of_nat (String.length s)) 0); lia.
Qed.

Lemma Cut_first s t c : byte_of c ∉ bytes s -> Cut (s +:+ String c t) c = Some (s, t).
Proof.
  intros H. unfold Cut. rewrite IndexByte_first by done. unfold len.
  destruct (Z.ltb_spec (Z.of_nat (String.length s)) 0); [lia|].
  rewrite Nat2Z.id. replace (Z.to_nat (Z.of_nat (String.length s) + 1)) with (S (String.length s)) by lia.
  clear. assert (E : take_bytes (String.length s) (s +:+ String c t) = s
                     /\ drop_bytes (S (String.length s)) (s +:+ String c t) = t).
  { induction s as [|a s [IH1 IH2]]; [done|]. split.
    - change (String a (take_bytes (String.length s) (s +:+ String c t)) = String a s). by rewrite IH1.
    - exact IH2. }
  by destruct E as [-> ->].
Qed.

(** What a quad is written with. *)
Lemma quadText_chars q b : quad_ok q -> b ∈ bytes (quadText q) -> b = 46 \/ 48 <= b <= 57.
Proof.
  intros (Ha & Hb & Hc & Hd). rewrite quadText_bytes.
  assert (H : forall n, octet n -> b ∈ bytes (Itoa n) -> 48 <= b <= 57).
  { intros n Hn. rewrite bytes_Itoa_octet by done. intros Hin. apply is_digit_range.
    apply (proj1 (forallb_forall _ _) (octetDigits_digits n Hn)). by apply list_elem_of_In. }
  rewrite !elem_of_app, !elem_of_cons, !elem_of_app, !elem_of_cons, !elem_of_app, !elem_of_cons.
  assert (H' : forall n, octet n -> b ∈ bytes (Itoa n) -> b = 46 \/ 48 <= b <= 57) by (intros n Hn Hin; right; exact (H n Hn Hin)).
  intros [Hin|[Hin|[Hin|[Hin|[Hin|[Hin|Hin]]]]]];
    [exact (H' _ Ha Hin) | by left | exact (H' _ Hb Hin) | by left | exact (H' _ Hc Hin) | by left | exact (H' _ Hd Hin)].
Qed.

Lemma dtoi_small n : 0 <= n <= 255 -> dtoi (Itoa n) = Some n.
Proof.
  intros H. apply (bool_decide_eq_true_1 _).
  apply (octet_all (fun n => bool_decide (dtoi (Itoa n) = Some n)) n); [unfold octet; lia | by vm_compute].
Qed.

Lemma ParseCIDR_text p n :
  quad_ok p -> 0 <= n <= 32 ->
  ParseCIDR (cidrText p n) = Some (mkIPNet (andBytes (quadBytes p) (CIDRMask n 4)) (CIDRMask n 4)).
Proof.
  intros Hp Hn. unfold ParseCIDR, cidrText.
  change (quadText p +:+ "/" +:+ Itoa n) with (quadText p +:+ String slash (Itoa n)).
  rewrite Cut_first by (intros H%quadText_chars; [|done]; change (byte_of slash) with 47 in H; lia).
  rewrite parseAddr_quad, dtoi_small by (done || lia). by rewrite (proj2 (Z.ltb_ge _ _)) by (cbn; lia).
Qed.

(** ** The admin allowlist *)

Lemma Contains_slash s t : Contains (s +:+ "/" +:+ t) "/" = true.
Proof.
  unfold Contains. enough (String.index 0 "/" (s +:+ "/" +:+ t) <> None) by (by destruct (String.index _ _ _)).
  induction s as [|a s IH]; [by destruct t|].
  change (String a s +:+ "/" +:+ t) with (String a (s +:+ "/" +:+ t)). cbn [String.index].
  destruct (String.prefix _ _); [done|]. by destruct (String.index 0 "/" (s +:+ "/" +:+ t)).
Qed.

Lemma quadText_inj p q : quad_ok p -> quad_ok q -> quadText p = quadText q -> p = q.
Proof.
  intros Hp Hq E. pose proof (parseAddr_quad p Hp) as H. rewrite E, parseAddr_quad in H by done.
  injection H as E1 E2 E3 E4. destruct p, q. cbn in *. by subst.
Qed.

Lemma slash_not_quad q : quad_ok q -> byte_of slash ∉ bytes (quadText q).
Proof. intros H Hin%quadText_chars; [|done]. change (byte_of slash) with 47 in Hin. lia. Qed.

Lemma slash_in_cidr p n : byte_of slash ∈ bytes (cidrText p n).
Proof.
  unfold cidrText. rewrite !bytes_app, !elem_of_app. right. left. change (bytes "/") with [byte_of slash]. left.
Qed.

(** C28: An entry of the admin allowlist is a prefix test.  An IPv4 network
    [p/n] of [PHAZE_ADMIN_IPS] lets in exactly the addresses whose first [n]
    bits are those of [p], for every prefix length from 0 to 32 and whatever
    host bits the entry carries; a single address lets in itself. *)
Theorem allowlist_prefix p q n :
  quad_ok p -> quad_ok q -> 0 <= n <= 32 ->
  adminEntryAllows (quadText q) (cidrText p n) = bool_decide (prefix n p = prefix n q)
  /\ (quadNum p <> 0 -> adminEntryAllows (quadText q) (quadText p) = bool_decide (p = q)).
Proof.
  intros Hp Hq Hn. unfold adminEntryAllows. split.
  - rewrite (eqb_neq_dec (cidrText p n) (quadText q))
      by (intros E; apply (slash_not_quad q Hq); rewrite <- E; apply slash_in_cidr).
    rewrite (eqb_neq_dec (cidrText p n) "0.0.0.0")
      by (intros E; pose proof (slash_in_cidr p n) as Hin; rewrite E in Hin; vm_compute in Hin;
          repeat (apply elem_of_cons in Hin as [Hin|Hin]; [discriminate|]); by apply elem_of_nil in Hin).
    unfold cidrText at 1. rewrite Contains_slash, ParseCIDR_text, ParseIP_quad by done. cbn [default orb andb].
    by apply netContains_v4.
  - intros H0. assert (Hz : quadText p <> "0.0.0.0").
    { intros E. apply H0. change "0.0.0.0" with (quadText (mkQuad 0 0 0 0)) in E.
      apply quadText_inj in E as ->; [done..|]. by repeat split. }
    rewrite (eqb_neq_dec _ _ Hz), orb_false_r.
    assert (Hc : ParseCIDR (quadText p) = None).
    { unfold ParseCIDR, Cut. by rewrite IndexByte_absent by by apply slash_not_quad. }
    rewrite Hc, andb_false_r, orb_false_r. apply bool_decide_ext.
    split; [by apply quadText_inj | by intros ->].
Qed.

(** ** Private addresses *)

Definition private (q : quad) : Prop :=
  qa q = 127 \/ qa q = 10 \/ (qa q = 172 /\ 16 <= qb q <= 31) \/ (qa q = 192 /\ qb q = 168)
  \/ (qa q = 169 /\ qb q = 254) \/ (qa q = 100 /\ 64 <= qb q <= 127).

(** Which IPv4 addresses escape the VPN screen: loopback, the three
    RFC 1918 blocks, link-local and the carrier block 100.64.0.0/10, and no
    other. *)
Theorem isPrivateIP_exact q : quad_ok q -> isPrivateIP (quadText q) = true <-> private q.
Proof.
  intros Hq. unfold isPrivateIP. rewrite ParseIP_quad by done.
  set (net a b n := mkIPNet (andBytes (quadBytes (mkQuad a b 0 0)) (CIDRMask n 4)) (CIDRMask n 4)).
  assert (E : exists v6a v6b,
    privateRanges = [net 127 0 8; net 10 0 8; net 172 16 12; net 192 168 16; v6a; v6b; net 169 254 16; net 100 64 10]
    /\ netContains v6a (mapped (quadBytes q)) = false /\ netContains v6b (mapped (quadBytes q)) = false)
    by (do 2 eexists; split_and!; [vm_compute; reflexivity | reflexivity | reflexivity]).
  destruct E as (v6a & v6b & -> & E1 & E2). cbn [existsb]. unfold net.
  rewrite E1, E2, !netContains_v4 by (done || lia || (repeat split; done)).
  rewrite !orb_true_iff, !bool_decide_eq_true. unfold prefix, quadNum, private. cbn [qa qb qc qd].
  destruct Hq as (Ha & Hb & Hc & Hd). unfold octet in *.
  change (2 ^ (32 - 8)) with 16777216. change (2 ^ (32 - 12)) with 1048576.
  change (2 ^ (32 - 16)) with 65536. change (2 ^ (32 - 10)) with 4194304.
  Z.div_mod_to_equations. lia.
Qed.

(** ** The VPN screen *)

(** The registration screen answers from its cache for good: the first verdict
    on a public address is the verdict until the server restarts, whatever
    the lookup services say later.  A verdict reached while both services
    were unreachable is no exception: it is "not a VPN", and it stays. *)
Theorem vpn_verdict_sticks ip w w' :
  isPrivateIP ip = false -> getenv (wEnv w) "PHAZE_BLOCK_VPN" = "1" ->
  getenv (wEnv w') "PHAZE_BLOCK_VPN" = "1" ->
  ipCheckCache (wSrv w') = ipCheckCache (wSrv (isVPNOrDatacenter ip w).2) ->
  (isVPNOrDatacenter ip w').1 = (isVPNOrDatacenter ip w).1
  /\ ((forall url, ipLookup (wEnv w) url = None) -> ipCheckCache (wSrv w) !! ip = None ->
      (isVPNOrDatacenter ip w').1 = false).
Proof.
  intros Hp H1 H2 Hc. set (v := (isVPNOrDatacenter ip w).1).
  assert (E : ipCheckCache (wSrv (isVPNOrDatacenter ip w).2) !! ip = Some v
              /\ ((forall url, ipLookup (wEnv w) url = None) -> ipCheckCache (wSrv w) !! ip = None -> v = false)).
  { subst v. unfold isVPNOrDatacenter. rewrite bind_run, getEnv_run. cbn [fst snd].
    rewrite H1, eqb_refl_dec, Hp. cbn [negb]. rewrite bind_run, getSrv_run. cbn [fst snd].
    destruct (ipCheckCache (wSrv w) !! ip) as [x|] eqn:Ex.
    - rewrite ret_run. by split.
    - rewrite bind_run, modSrv_run, ret_run. cbn. rewrite lookup_insert_eq. split; [done|].
      intros Hn _. unfold checkProxycheck, checkIPAPI. by rewrite !Hn. }
  destruct E as [E1 E2]. unfold isVPNOrDatacenter. rewrite bind_run, getEnv_run. cbn [fst snd].
  rewrite H2, eqb_refl_dec, Hp. cbn [negb]. rewrite bind_run, getSrv_run. cbn [fst snd].
  rewrite Hc, E1, ret_run. split; [done | exact E2].
Qed.

(** ** At concrete addresses *)

Lemma allowlist_prefix_witness :
  adminEntryAllows "203.0.113.77" "203.0.113.64/27" = true
  /\ adminEntryAllows "203.0.113.96" "203.0.113.64/27" = false.
Proof.
  assert (Hp : quad_ok (mkQuad 203 0 113 64)) by (repeat split; discriminate || reflexivity).
  assert (Hq : quad_ok (mkQuad 203 0 113 77)) by (repeat split; discriminate || reflexivity).
  assert (Hr : quad_ok (mkQuad 203 0 113 96)) by (repeat split; discriminate || reflexivity).
  split.
  - exact (proj1 (allowlist_prefix (mkQuad 203 0 113 64) (mkQuad 203 0 113 77) 27 Hp Hq ltac:(lia))).
  - exact (proj1 (allowlist_prefix (mkQuad 203 0 113 64) (mkQuad 203 0 113 96) 27 Hp Hr ltac:(lia))).
Defined.

Lemma isPrivateIP_exact_witness : isPrivateIP "172.31.255.1" = true /\ isPrivateIP "172.32.0.1" <> true.
Proof.
  assert (Hp : quad_ok (mkQuad 172 31 255 1)) by (repeat split; discriminate || reflexivity).
  assert (Hq : quad_ok (mkQuad 172 32 0 1)) by (repeat split; discriminate || reflexivity).
  split.
  - apply (proj2 (isPrivateIP_exact (mkQuad 172 31 255 1) Hp)). unfold private. cbn. lia.
  - intros H. apply (proj1 (isPrivateIP_exact (mkQuad 172 32 0 1) Hq)) in H. unfold private in H. cbn in H. lia.
Defined.

(** IPv6 and mixed forms, as the parser reads them. *)
Example parse_ellipsis : ParseIP "fe80::1:2" = Some ([254; 128] ++ repeat 0 10 ++ [0; 1; 0; 2]).
Proof. reflexivity. Qed.
Example parse_mixed : ParseIP "::ffff:10.1.2.3" = Some (mapped [10; 1; 2; 3]).
Proof. reflexivity. Qed.
Example parse_refused :
  (ParseIP "1.2.3", ParseIP "01.2.3.4", ParseIP "1::2::3", ParseIP "fe80::1%eth0", ParseIP "12345::")
  = (None, None, None, None, None).
Proof. reflexivity. Qed.
Example unique_local : isPrivateIP "fd00::1" = true /\ isPrivateIP "2001:db8::1" = false /\ isPrivateIP "::1" = true.
Proof. vm_compute. done. Qed.
