(* ===== verification/BlobStore.v ===== *)
(** * The two blob stores ([blobstore.go])

    The disk store over an explicit file system and the bucket store over an
    object map, each with the failures of what it calls as parameters; the
    machine both promise to the handlers of [Files]; and the choice between
    them at start-up.  A request to the bucket whose reply is lost stays in
    flight and may take effect before any later one. *)

From Stdlib Require Import ZArith Lia Ascii.
From stdpp Require Import base strings list gmap.
From S2P Require Import Prelude GoRt GoStd Json Store Wire Db World Wf Samples Http Files FilesSpec.

Open Scope string_scope.
Open Scope list_scope.
Open Scope Z_scope.

(** ** The interface

    An [io.Reader] is what it yields and whether it ends without an error. *)
Record reader := mkReader { rdData : string; rdOK : bool }.

(** The error of an operation; [None] is nil. *)
Definition bErr := option string.

Inductive bop := OpPut (key : string) (r : reader) (ct : string) | OpOpen (key : string) | OpDelete (key : string).
Inductive bres := Done (err : bErr) | Opened (b : blobres).

Definition opKey (o : bop) : string :=
  match o with OpPut k _ _ => k | OpOpen k => k | OpDelete k => k end.

(** The machine a store promises: a map, and the writes in flight - those that
    were answered with an error and may still be done; [None] deletes. *)
Definition write {A} : Type := string * option A.
Definition blobState : Type := gmap string string * list (@write string).

Definition apply {A} (x : @write A) (m : gmap string A) : gmap string A :=
  match x.2 with Some c => <[x.1 := c]> m | None => delete x.1 m end.

(** What may come of an operation.  An error changes nothing, and where the
    store is not [sure] it may leave the write in flight, whole. *)
Inductive bstep (sure : bool) : blobState -> bop -> bres -> blobState -> Prop :=
| step_put key r ct m p : rdOK r = true ->
    bstep sure (m, p) (OpPut key r ct) (Done None) (<[key := rdData r]> m, p)
| step_put_err key r ct x m p : bstep sure (m, p) (OpPut key r ct) (Done (Some x)) (m, p)
| step_put_lost key r ct x m p : sure = false -> rdOK r = true ->
    bstep sure (m, p) (OpPut key r ct) (Done (Some x)) (m, p ++ [(key, Some (rdData r))])
| step_found key c m p : m !! key = Some c ->
    bstep sure (m, p) (OpOpen key) (Opened (BlobFound c)) (m, p)
| step_missing key m p : m !! key = None ->
    bstep sure (m, p) (OpOpen key) (Opened BlobNotFound) (m, p)
| step_open_err key m p : bstep sure (m, p) (OpOpen key) (Opened BlobErr) (m, p)
| step_delete key m p : bstep sure (m, p) (OpDelete key) (Done None) (delete key m, p)
| step_delete_err key x m p : bstep sure (m, p) (OpDelete key) (Done (Some x)) (m, p)
| step_delete_lost key x m p : sure = false ->
    bstep sure (m, p) (OpDelete key) (Done (Some x)) (m, p ++ [(key, None)]).

(** A write in flight is done. *)
Inductive land : blobState -> blobState -> Prop :=
| land_one m p1 x p2 : land (m, p1 ++ x :: p2) (apply x m, p1 ++ p2).

Inductive bsteps (sure : bool) : blobState -> list bop -> list bres -> blobState -> Prop :=
| steps_nil a : bsteps sure a [] [] a
| steps_land a a1 os rs a2 : land a a1 -> bsteps sure a1 os rs a2 -> bsteps sure a os rs a2
| steps_cons a o r a1 os rs a2 :
    bstep sure a o r a1 -> bsteps sure a1 os rs a2 -> bsteps sure a (o :: os) (r :: rs) a2.

Lemma steps_lands sure a a1 os rs a2 : rtc land a a1 -> bsteps sure a1 os rs a2 -> bsteps sure a os rs a2.
Proof. induction 1; [done|]. intros H'. eapply steps_land; eauto. Qed.

(** An operation on the states that [stands] relates runs as the machine. *)
Definition refines {St} (sure : bool) (stands : St -> blobState -> Prop) (o : bop) (run : St -> bres * St) : Prop :=
  forall s a, stands s a -> exists a1 a2,
    rtc land a a1 /\ bstep sure a1 o (run s).1 a2 /\ stands (run s).2 a2.

Definition done {St} (x : bErr * St) : bres * St := (Done x.1, x.2).
Definition opened {St} (x : blobres * St) : bres * St := (Opened x.1, x.2).

(** What a store promises for the keys it is [meant] for. *)
Class blobStore (St : Type) := {
  bPut : string -> reader -> string -> St -> bErr * St;
  bOpen : string -> St -> blobres * St;
  bDelete : string -> St -> bErr * St;
  sure : bool;
  stands : St -> blobState -> Prop;
  meant : string -> Prop;
  bPut_refines : forall key r ct, meant key -> refines sure stands (OpPut key r ct) (fun s => done (bPut key r ct s));
  bOpen_refines : forall key, meant key -> refines sure stands (OpOpen key) (fun s => opened (bOpen key s));
  bDelete_refines : forall key, meant key -> refines sure stands (OpDelete key) (fun s => done (bDelete key s)) }.

(** ** The disk store *)

(** The file system below the store: [(directory, name)] to content.  Each
    system call may fail, by an oracle on the number of the call. *)
Record Disk := mkDisk {
  files : gmap (string * string) string;
  calls : nat }.

Section OnDisk.
Context (e : Env).
Context (sysOK : nat -> bool).               (* the call succeeds *)
Context (tempSuffix : nat -> string).        (* the random part [os.CreateTemp] picks *)
Context (copied : nat -> nat).               (* how much a failed [io.Copy] wrote *)

Definition errSys : string := libErr e "os".

Definition sys (d : Disk) : bool * Disk := (sysOK (calls d), mkDisk (files d) (S (calls d))).

Definition setFile (p : string * string) (c : string) (d : Disk) : Disk :=
  mkDisk (<[p := c]> (files d)) (calls d).
Definition dropFile (p : string * string) (d : Disk) : Disk := mkDisk (delete p (files d)) (calls d).

(** [os.Remove] of a file, its error ignored. *)
Definition removeQuiet (p : string * string) (d : Disk) : Disk :=
  let '(ok, d) := sys d in if ok then dropFile p d else d.

Definition tempName (d : Disk) : string := ".tmp-" +:+ tempSuffix (calls d).

Definition diskPut (key : string) (r : reader) (_ : string) (d : Disk) : bErr * Disk :=
  match diskPath e key with
  | None => (Some ("bad blob key " +:+ key), d)
  | Some p =>
      let '(ok, d) := sys d in                                  (* os.MkdirAll *)
      if negb ok then (Some errSys, d)
      else
        let tmp := (p.1, tempName d) in
        let '(ok, d) := sys d in                                (* os.CreateTemp *)
        if negb ok then (Some errSys, d)
        else
          let d := setFile tmp "" d in
          let n := copied (calls d) in
          let '(ok, d) := sys d in                              (* io.Copy *)
          if negb (ok && rdOK r) then
            (Some errSys, removeQuiet tmp (setFile tmp (take_bytes n (rdData r)) d))
          else
            let d := setFile tmp (rdData r) d in
            let '(ok, d) := sys d in                            (* tmp.Close *)
            if negb ok then (Some errSys, removeQuiet tmp d)
            else
              let '(ok, d) := sys d in                          (* os.Rename *)
              if negb ok then (Some errSys, d)
              else (None, setFile p (rdData r) (dropFile tmp d))
  end.

Definition diskOpen (key : string) (d : Disk) : blobres * Disk :=
  match diskPath e key with
  | None => (BlobNotFound, d)
  | Some p =>
      let '(ok, d) := sys d in                                  (* os.Open *)
      match files d !! p with
      | None => (if ok then BlobNotFound else BlobErr, d)
      | Some c =>
          if negb ok then (BlobErr, d)
          else
            let '(ok, d) := sys d in                            (* f.Stat *)
            (if ok then BlobFound c else BlobErr, d)
      end
  end.

Definition diskDelete (key : string) (d : Disk) : bErr * Disk :=
  match diskPath e key with
  | None => (Some ("bad blob key " +:+ key), d)
  | Some p =>
      let '(ok, d) := sys d in                                  (* os.Remove *)
      match files d !! p with
      | None => (if ok then None else Some errSys, d)
      | Some _ => if ok then (None, dropFile p d) else (Some errSys, d)
      end
  end.

(** The file under a key. *)
Definition diskHolds (d : Disk) (key : string) : option string :=
  match diskPath e key with Some p => files d !! p | None => None end.

(** A name [os.CreateTemp] makes: the prefix and a decimal number. *)
Definition isTempName (name : string) : bool :=
  HasPrefix name ".tmp-" && forallb is_digit (bytes (drop_bytes 5 name)).

(** The keys the server makes: one of the two prefixes, a plain name that is
    not one of a temporary file. *)
Definition diskMeant (key : string) : Prop :=
  exists prefix name, Cut key "/"%char = Some (prefix, name)
    /\ (prefix = "uploads" \/ prefix = "avatars")
    /\ diskPath e key = Some (dirFor e prefix, name) /\ isTempName name = false.
End OnDisk.

(** ** The disk store keeps the promise *)

Section DiskLaws.
Context (e : Env) (sysOK : nat -> bool) (tempSuffix : nat -> string) (copied : nat -> nat).
Context (Hdirs : uploadDir e <> "avatars").
Context (Hsuffix : forall n, forallb is_digit (bytes (tempSuffix n)) = true).

Lemma meant_path key :
  diskMeant e key ->
  exists dir name, diskPath e key = Some (dir, name) /\ isTempName name = false.
Proof. intros (prefix & name & _ & _ & H1 & H2). by eexists _, _. Qed.

(** Two keys of the server never share a file. *)
Lemma meant_inj k1 k2 p :
  diskMeant e k1 -> diskMeant e k2 -> diskPath e k1 = Some p -> diskPath e k2 = Some p -> k1 = k2.
Proof using Hdirs.
  intros (p1 & n1 & C1 & D1 & P1 & _) (p2 & n2 & C2 & D2 & P2 & _) H1 H2.
  rewrite P1 in H1. rewrite P2 in H2. rewrite <- H2 in H1. injection H1 as E1 E2. subst n2.
  assert (p1 = p2).
  { destruct D1 as [->| ->], D2 as [->| ->]; try done; cbn in E1; congruence. }
  subst p2. apply Cut_Some in C1, C2. by rewrite C1, C2.
Qed.

(** What changes no file under a key the server makes. *)
Definition quietOn (d d' : Disk) : Prop :=
  forall dir name, isTempName name = false -> files d' !! (dir, name) = files d !! (dir, name).

Lemma quietOn_holds d d' k : quietOn d d' -> diskMeant e k -> diskHolds e d' k = diskHolds e d k.
Proof using Type.
  intros Hq (dir & name & Hp & Ht)%meant_path. unfold diskHolds. rewrite Hp. by apply Hq.
Qed.

Lemma quietOn_refl d : quietOn d d. Proof using Type. by intros ???. Qed.
Lemma quietOn_sys d x : quietOn d x -> quietOn d (sys sysOK x).2. Proof using Type. done. Qed.

Lemma tempName_is_temp d : isTempName (tempName tempSuffix d) = true.
Proof using Hsuffix.
  unfold isTempName, tempName.
  change (drop_bytes 5 (".tmp-" +:+ tempSuffix (calls d))) with (tempSuffix (calls d)).
  rewrite Hsuffix, andb_true_r. unfold HasPrefix. cbn. by destruct (tempSuffix _).
Qed.

Lemma not_temp (dir dir' : string) name d : isTempName name = false -> (dir', tempName tempSuffix d) <> (dir, name).
Proof using Hsuffix. intros H [= _ E]. pose proof (tempName_is_temp d) as Ht. rewrite E in Ht. congruence. Qed.

Lemma quietOn_setFile dir d d0 c x :
  quietOn d x -> quietOn d (setFile (dir, tempName tempSuffix d0) c x).
Proof using Hsuffix.
  intros H dir' name Hn. unfold setFile. cbn [files]. rewrite lookup_insert_ne by by apply not_temp.
  by apply H.
Qed.
Lemma quietOn_dropFile dir d d0 x :
  quietOn d x -> quietOn d (dropFile (dir, tempName tempSuffix d0) x).
Proof using Hsuffix.
  intros H dir' name Hn. unfold dropFile. cbn [files]. rewrite lookup_delete_ne by by apply not_temp.
  by apply H.
Qed.
Lemma quietOn_removeQuiet dir d d0 x :
  quietOn d x -> quietOn d (removeQuiet sysOK (dir, tempName tempSuffix d0) x).
Proof using Hsuffix.
  intros H. unfold removeQuiet, sys. destruct (sysOK _); [by apply quietOn_dropFile | done].
Qed.

(** One system call that may fail; the ends of [Put] with an error; one write
    to the temporary file. *)
#[local] Ltac call d1 :=
  match goal with H : quietOn _ ?d |- context [sys sysOK ?d] =>
    apply quietOn_sys in H; destruct (sys sysOK d) as [[] d1]; cbn [fst snd negb andb] in * end.

#[local] Ltac stop :=
  left; eexists; split; [reflexivity|]; cbn [snd];
  repeat first [assumption | apply quietOn_removeQuiet | apply quietOn_setFile].

#[local] Ltac write c d3 :=
  match goal with H : quietOn ?d ?x |- context [setFile (?dir, tempName tempSuffix ?d0) c ?x] =>
    apply (quietOn_setFile dir d d0 c) in H;
    set (d3 := setFile (dir, tempName tempSuffix d0) c x) in *; clearbody d3 end.

(** Up to its rename [Put] writes to a temporary file only. *)
Lemma diskPut_cases key r ct d p :
  diskPath e key = Some p ->
  let res := diskPut e sysOK tempSuffix copied key r ct d in
  (exists err, res.1 = Some err /\ quietOn d res.2)
  \/ (res.1 = None /\ rdOK r = true /\ exists d', quietOn d d' /\ res.2 = setFile p (rdData r) d').
Proof using Hsuffix.
  intros Hp res. subst res. destruct p as [dir name]. unfold diskPut. rewrite Hp.
  assert (Hq : quietOn d d) by (by intros ???).
  call d1; [|stop]. call d2; [|stop]. write "" d3.
  call d4; [destruct (rdOK r) eqn:Er; cbn [negb]|]; [|stop..].
  write (rdData r) d5. call d6; [|stop]. call d7; [|stop].
  right. split_and!; [done | done|]. eexists. split; [|reflexivity]. by apply quietOn_dropFile.
Qed.

Lemma diskPut_spec key r ct d :
  diskMeant e key ->
  match (diskPut e sysOK tempSuffix copied key r ct d).1 with
  | Some _ => forall k, diskMeant e k ->
      diskHolds e (diskPut e sysOK tempSuffix copied key r ct d).2 k = diskHolds e d k
  | None => rdOK r = true
      /\ diskHolds e (diskPut e sysOK tempSuffix copied key r ct d).2 key = Some (rdData r)
      /\ forall k, diskMeant e k -> k <> key ->
           diskHolds e (diskPut e sysOK tempSuffix copied key r ct d).2 k = diskHolds e d k
  end.
Proof using Hdirs Hsuffix.
  intros Hk. pose proof Hk as (dir & name & Hp & Ht)%meant_path.
  destruct (diskPut_cases key r ct d _ Hp) as [(err & E1 & Hq)|(E1 & Hr & d' & Hq & E2)]; rewrite E1.
  - intros k Hm. by apply quietOn_holds.
  - rewrite E2. split_and!; [done| |].
    + unfold diskHolds, setFile. rewrite Hp. cbn [files]. by rewrite lookup_insert_eq.
    + intros k Hm Hne. rewrite <- (quietOn_holds d d' k Hq Hm). unfold diskHolds, setFile.
      destruct (diskPath e k) as [p|] eqn:Ep; [|done]. cbn [files].
      rewrite lookup_insert_ne; [done|]. intros <-. apply Hne. by eapply meant_inj.
Qed.

Lemma diskOpen_spec key d :
  diskMeant e key ->
  files (diskOpen e sysOK key d).2 = files d
  /\ match (diskOpen e sysOK key d).1 with
     | BlobFound c => diskHolds e d key = Some c
     | BlobNotFound => diskHolds e d key = None
     | BlobErr => True
     end.
Proof using Type.
  intros (dir & name & Hp & _)%meant_path. unfold diskOpen, diskHolds, sys. rewrite Hp. cbn [files].
  destruct (sysOK _), (files d !! (dir, name)); cbn [fst snd negb files]; try done.
  by destruct (sysOK _).
Qed.

Lemma diskDelete_spec key d :
  diskMeant e key ->
  match (diskDelete e sysOK key d).1 with
  | Some _ => forall k, diskMeant e k -> diskHolds e (diskDelete e sysOK key d).2 k = diskHolds e d k
  | None => diskHolds e (diskDelete e sysOK key d).2 key = None
      /\ forall k, diskMeant e k -> k <> key ->
           diskHolds e (diskDelete e sysOK key d).2 k = diskHolds e d k
  end.
Proof using Hdirs.
  intros Hk. pose proof Hk as (dir & name & Hp & Ht)%meant_path.
  unfold diskDelete. rewrite Hp. unfold sys. cbn [files].
  destruct (files d !! (dir, name)) as [c|] eqn:Ef; destruct (sysOK _); cbn [fst snd]; try done.
  - split.
    + unfold diskHolds, dropFile. rewrite Hp. cbn [files]. by rewrite lookup_delete_eq.
    + intros k Hm Hne. unfold diskHolds, dropFile. destruct (diskPath e k) as [p|] eqn:Ep; [|done].
      cbn [files]. rewrite lookup_delete_ne; [done|]. intros <-. apply Hne. by eapply meant_inj.
  - split; [|done]. unfold diskHolds. by rewrite Hp.
Qed.

(** The map a disk stands for; nothing is ever in flight. *)
Definition diskStands (d : Disk) (a : blobState) : Prop :=
  a.2 = [] /\ forall k, diskMeant e k -> diskHolds e d k = a.1 !! k.

Lemma diskPut_refines key r ct : diskMeant e key ->
  refines true diskStands (OpPut key r ct) (fun d => done (diskPut e sysOK tempSuffix copied key r ct d)).
Proof using Hdirs Hsuffix.
  intros Hk d [m p] [Hp Hs]. cbn [fst snd] in Hp, Hs. subst p. pose proof (diskPut_spec key r ct d Hk) as H.
  unfold done. destruct (diskPut _ _ _ _ _ _ _ _) as [[err|] d']; cbn [fst snd] in *.
  - exists (m, []), (m, []). split; [reflexivity|]. split; [constructor|]. split; [done|].
    intros k Hm. by rewrite H, Hs.
  - destruct H as (Hr & H1 & H2). exists (m, []), (<[key := rdData r]> m, []).
    split; [reflexivity|]. split; [by constructor|]. split; [done|]. intros k Hm. cbn [fst].
    destruct (decide (k = key)) as [->|Hne]; [by rewrite lookup_insert_eq|].
    rewrite lookup_insert_ne, H2 by done. by apply Hs.
Qed.

Lemma diskOpen_refines key : diskMeant e key ->
  refines true diskStands (OpOpen key) (fun d => opened (diskOpen e sysOK key d)).
Proof using Type.
  intros Hk d [m p] [Hp Hs]. cbn [fst snd] in Hp, Hs. subst p. pose proof (diskOpen_spec key d Hk) as [Hf H].
  exists (m, []), (m, []). split; [reflexivity|]. unfold opened. cbn [fst snd]. split.
  - destruct (diskOpen e sysOK key d).1; constructor; rewrite <- H; symmetry; by apply Hs.
  - split; [done|]. intros k Hm. cbn [fst]. rewrite <- (Hs k Hm). unfold diskHolds. by rewrite Hf.
Qed.

Lemma diskDelete_refines key : diskMeant e key ->
  refines true diskStands (OpDelete key) (fun d => done (diskDelete e sysOK key d)).
Proof using Hdirs.
  intros Hk d [m p] [Hp Hs]. cbn [fst snd] in Hp, Hs. subst p. pose proof (diskDelete_spec key d Hk) as H.
  unfold done. destruct (diskDelete _ _ _ _) as [[err|] d']; cbn [fst snd] in *.
  - exists (m, []), (m, []). split; [reflexivity|]. split; [constructor|]. split; [done|].
    intros k Hm. by rewrite H, Hs.
  - destruct H as [H1 H2]. exists (m, []), (delete key m, []).
    split; [reflexivity|]. split; [constructor|]. split; [done|]. intros k Hm. cbn [fst].
    destruct (decide (k = key)) as [->|Hne]; [by rewrite lookup_delete_eq|].
    rewrite lookup_delete_ne, H2 by done. by apply Hs.
Qed.

#[export] Instance diskBlobStore : blobStore Disk := {
  bPut := diskPut e sysOK tempSuffix copied;
  bOpen := diskOpen e sysOK;
  bDelete := diskDelete e sysOK;
  sure := true;
  stands := diskStands;
  meant := diskMeant e;
  bPut_refines := diskPut_refines;
  bOpen_refines := diskOpen_refines;
  bDelete_refines := diskDelete_refines }.
End DiskLaws.

(** ** The bucket store *)

(** An object: its content and content type.  A write is done as a whole or
    not at all; a request may fail, by an oracle on its number, and a write
    that failed may have reached the service: it stays in flight, and before
    any later request the oracle [lands] says which of those in flight are
    done. *)
Definition object : Type := string * string.
Record Bucket := mkBucket {
  objects : gmap string object;
  inflight : list (@write object);
  requests : nat }.

Section InBucket.
Context (e : Env) (reqOK : nat -> bool) (lands : nat -> nat -> bool).

Definition errS3 : string := libErr e "minio".

(** The writes of [l] that land, in order: the objects and what is left. *)
Fixpoint settle (f : nat -> bool) (i : nat) (l : list (@write object)) (m : gmap string object)
  : gmap string object * list (@write object) :=
  match l with
  | [] => (m, [])
  | x :: l =>
      let '(m, l) := settle f (S i) l (if f i then apply x m else m) in
      (m, if f i then l else x :: l)
  end.

(** The start of a request: what was in flight may land, and the count goes on. *)
Definition request (b : Bucket) : bool * Bucket :=
  let '(m, l) := settle (lands (requests b)) 0 (inflight b) (objects b) in
  (reqOK (requests b), mkBucket m l (S (requests b))).

Definition do (x : @write object) (b : Bucket) : Bucket :=
  mkBucket (apply x (objects b)) (inflight b) (requests b).
Definition lose (x : @write object) (b : Bucket) : Bucket :=
  mkBucket (objects b) (inflight b ++ [x]) (requests b).

(** [PutObject]: a reader that fails leaves nothing to be done. *)
Definition s3Put (key : string) (r : reader) (contentType : string) (b : Bucket) : bErr * Bucket :=
  let contentType := if is_empty contentType then "application/octet-stream" else contentType in
  let '(ok, b) := request b in
  if negb (rdOK r) then (Some errS3, b)
  else
    let x := (key, Some (rdData r, contentType)) in
    if ok then (None, do x b) else (Some errS3, lose x b).

(** [GetObject] is lazy; [Stat] makes the request, and a 404 is a missing blob. *)
Definition s3Open (key : string) (b : Bucket) : blobres * Bucket :=
  let '(ok, b) := request b in
  (if ok then match objects b !! key with Some (c, _) => BlobFound c | None => BlobNotFound end
   else BlobErr, b).

(** [RemoveObject] of a key that is not there succeeds. *)
Definition s3Delete (key : string) (b : Bucket) : bErr * Bucket :=
  let '(ok, b) := request b in
  if ok then (None, do (key, None) b) else (Some errS3, lose (key, None) b).

(** The contents, without the types. *)
Definition content (x : @write object) : @write string := (x.1, fst <$> x.2).
Definition s3Stands (b : Bucket) (a : blobState) : Prop :=
  a.1 = fst <$> objects b /\ a.2 = content <$> inflight b.

Lemma apply_content x m : fst <$> apply x m = apply (content x) (fst <$> m).
Proof using Type.
  destruct x as [k [c|]]; unfold apply; cbn [fst snd content fmap option_fmap option_map].
  - by rewrite fmap_insert.
  - by rewrite fmap_delete.
Qed.

Lemma settle_lands f i l m pre :
  rtc land (fst <$> m, pre ++ (content <$> l))
    (fst <$> (settle f i l m).1, pre ++ (content <$> (settle f i l m).2)).
Proof using Type.
  revert i m pre. induction l as [|x l IH]; intros i m pre; [reflexivity|]. cbn [settle].
  destruct (f i).
  - specialize (IH (S i) (apply x m) pre). destruct (settle f (S i) l _) as [m' l']. cbn [fst snd] in *.
    eapply rtc_l; [|exact IH]. rewrite fmap_cons, apply_content. constructor.
  - specialize (IH (S i) m (pre ++ [content x])). destruct (settle f (S i) l _) as [m' l']. cbn [fst snd] in *.
    rewrite !fmap_cons. by rewrite <- !app_assoc in IH.
Qed.

(** After the start of a request the bucket stands for the settled state. *)
Lemma request_stands b a :
  s3Stands b a -> exists a1, rtc land a a1 /\ s3Stands (request b).2 a1.
Proof using Type.
  destruct a as [m p]. intros [H1 H2]. cbn [fst snd] in *. subst m p. unfold request.
  pose proof (settle_lands (lands (requests b)) 0 (inflight b) (objects b) []) as H.
  destruct (settle _ _ _ _) as [m' l']. cbn [fst snd] in *. by eexists.
Qed.

Lemma do_stands x b a : s3Stands b a -> s3Stands (do x b) (apply (content x) a.1, a.2).
Proof using Type. intros [H1 H2]. split; [|done]. cbn [fst do objects]. by rewrite apply_content, H1. Qed.

Lemma lose_stands x b a : s3Stands b a -> s3Stands (lose x b) (a.1, a.2 ++ [content x]).
Proof using Type. intros [H1 H2]. split; [done|]. cbn [snd lose inflight]. by rewrite fmap_app, H2. Qed.

Lemma s3Put_refines key r ct :
  refines false s3Stands (OpPut key r ct) (fun b => done (s3Put key r ct b)).
Proof using Type.
  intros b a Hs. destruct (request_stands b a Hs) as ([m p] & Hl & H1). unfold s3Put, done.
  destruct (request b) as [ok b1]. cbn [fst snd] in *. exists (m, p).
  destruct (rdOK r) eqn:Er; cbn [negb]; [destruct ok|]; cbn [fst snd].
  - eexists. split; [done|]. split; [by apply step_put|]. exact (do_stands _ _ _ H1).
  - eexists. split; [done|]. split; [by apply step_put_lost|]. exact (lose_stands _ _ _ H1).
  - exists (m, p). split; [done|]. split; [constructor | done].
Qed.

Lemma s3Open_refines key : refines false s3Stands (OpOpen key) (fun b => opened (s3Open key b)).
Proof using Type.
  intros b a Hs. destruct (request_stands b a Hs) as ([m p] & Hl & H1). unfold s3Open, opened.
  destruct (request b) as [ok b1]. cbn [fst snd] in *. exists (m, p), (m, p). split; [done|]. split; [|done].
  destruct H1 as [H1 _]. cbn [fst] in H1. destruct ok; [|constructor].
  assert (E : m !! key = fst <$> (objects b1 !! key)) by (by rewrite H1, lookup_fmap).
  by destruct (objects b1 !! key) as [[c t]|]; constructor.
Qed.

Lemma s3Delete_refines key : refines false s3Stands (OpDelete key) (fun b => done (s3Delete key b)).
Proof using Type.
  intros b a Hs. destruct (request_stands b a Hs) as ([m p] & Hl & H1). unfold s3Delete, done.
  destruct (request b) as [ok b1]. cbn [fst snd] in *. exists (m, p).
  destruct ok; cbn [fst snd]; eexists; (split; [done|]).
  - split; [apply step_delete|]. exact (do_stands _ _ _ H1).
  - split; [by apply step_delete_lost|]. exact (lose_stands _ _ _ H1).
Qed.

#[export] Instance s3BlobStore : blobStore Bucket := {
  bPut := s3Put; bOpen := s3Open; bDelete := s3Delete; sure := false; stands := s3Stands;
  meant := fun _ => True;
  bPut_refines := fun key r ct _ => s3Put_refines key r ct;
  bOpen_refines := fun key _ => s3Open_refines key;
  bDelete_refines := fun key _ => s3Delete_refines key }.
End InBucket.

(** ** Which store ([blobStoreFromEnv]) *)

Inductive storeChoice :=
| ChooseDisk
| ChooseS3 (host : string) (secure : bool) (region bucket accessKey secretKey : string).

Section Choice.
Context (urlParse : string -> option (string * string)).    (* [url.Parse]: scheme and host *)
Context (minioNew : string -> bool -> string -> bool).      (* [minio.New] succeeds *)

Definition newS3BlobStore (endpoint region bucket accessKey secretKey : string) : string + storeChoice :=
  if is_empty bucket || is_empty endpoint || is_empty accessKey || is_empty secretKey then
    inl "s3 blob store needs BUCKET_NAME, AWS_ENDPOINT_URL_S3, AWS_ACCESS_KEY_ID and AWS_SECRET_ACCESS_KEY"
  else
    match urlParse endpoint with
    | None => inl ("bad AWS_ENDPOINT_URL_S3 " +:+ endpoint)
    | Some (scheme, host) =>
        if is_empty host then inl ("bad AWS_ENDPOINT_URL_S3 " +:+ endpoint)
        else
          let secure := negb (scheme ==? "http") in
          if minioNew host secure region then inr (ChooseS3 host secure region bucket accessKey secretKey)
          else inl "minio"
    end.

Definition blobStoreFromEnv (e : Env) : string + storeChoice :=
  let mode := ToLower (TrimSpace (getenv e "PHAZE_BLOB_STORE")) in
  if is_empty mode || (mode ==? "disk") then inr ChooseDisk
  else if mode ==? "s3" then
    let bucket := getenv e "BUCKET_NAME" in
    let bucket := if is_empty bucket then getenv e "LITESTREAM_BUCKET" else bucket in
    newS3BlobStore (getenv e "AWS_ENDPOINT_URL_S3") (getenv e "AWS_REGION") bucket
      (getenv e "AWS_ACCESS_KEY_ID") (getenv e "AWS_SECRET_ACCESS_KEY")
  else inl ("unknown PHAZE_BLOB_STORE " +:+ mode +:+ " (want disk or s3)").

(** [blobs()] on its first use: [None] is [log.Fatalf], the end of the process. *)
Definition blobs (e : Env) : option storeChoice :=
  match blobStoreFromEnv e with inl _ => None | inr b => Some b end.
End Choice.

(** ** Runs of a store *)

Section Contract.
Context {St} `{B : blobStore St}.

Definition bRun (o : bop) (s : St) : bres * St :=
  match o with
  | OpPut key r ct => done (bPut key r ct s)
  | OpOpen key => opened (bOpen key s)
  | OpDelete key => done (bDelete key s)
  end.

Fixpoint bRuns (os : list bop) (s : St) : list bres * St :=
  match os with
  | [] => ([], s)
  | o :: os => let '(r, s) := bRun o s in let '(rs, s) := bRuns os s in (r :: rs, s)
  end.

Lemma bRun_refines o : meant (opKey o) -> refines sure stands o (bRun o).
Proof using Type.
  destruct o as [key r ct|key|key]; cbn [opKey]; intros H.
  - by apply bPut_refines. - by apply bOpen_refines. - by apply bDelete_refines.
Qed.

Lemma bRuns_steps os s a :
  Forall (fun o => meant (opKey o)) os -> stands s a ->
  exists a', bsteps sure a os (bRuns os s).1 a' /\ stands (bRuns os s).2 a'.
Proof using Type.
  intros Hf. revert s a. induction Hf as [|o os Ho _ IH]; intros s a Hs; cbn [bRuns].
  - exists a. by split; [constructor|].
  - destruct (bRun_refines o Ho s a Hs) as (a1 & a2 & Hl & H1 & Hs2).
    destruct (bRun o s) as [r s1]; cbn [fst snd] in *.
    destruct (IH s1 a2 Hs2) as (a3 & H2 & Hs3). destruct (bRuns os s1) as [rs s2]; cbn [fst snd] in *.
    exists a3. split; [|done]. eapply steps_lands; [exact Hl|]. by econstructor.
Qed.
End Contract.

(** A sure store has nothing in flight at the end either. *)
Lemma sure_nothing_lost m os rs a : bsteps true (m, []) os rs a -> a.2 = [].
Proof.
  assert (H : forall a os rs a', bsteps true a os rs a' -> a.2 = [] -> a'.2 = []).
  { clear. intros a os rs a' H. induction H as [|? ? ? ? ? Hl _ IH|? ? ? ? ? ? ? Hb _ IH]; intros E; [done|..].
    - destruct Hl as [m p1 x p2]. cbn [snd] in E. by destruct p1.
    - apply IH. by destruct Hb. }
  intros Hs. by eapply (H _ _ _ _ Hs).
Qed.

(** ** Both stores and the handlers *)

(** ** The keys the handlers make *)

Lemma uploadKey_meant e name :
  slashless name -> name <> "" -> name <> "." -> name <> ".." -> isTempName name = false ->
  diskMeant e (uploadKey name).
Proof.
  intros H1 H2 H3 H4 H5. exists "uploads", name. split; [apply Cut_upload|]. split; [by left|].
  split; [|done]. by apply diskPath_upload.
Qed.

(** C27: both blob stores are the machine the handlers are verified against.
    Over any sequence of puts, opens and deletes of the keys the server makes,
    and whatever system calls, requests or readers fail, the results of a store
    and what it holds at the end are those of a map where every operation is
    done as a whole or not at all.  On the disk an operation that failed has
    changed nothing, and a file that is half written is never visible under a
    key.  In the bucket a put or a delete that failed may have reached the
    service - its reply lost, its context ended - and may take effect before
    any later request, or never; until then the key reads as before.  [Put] and
    [OpenBlob], which the handlers run on, take steps of the same machine. *)
Theorem blob_stores_refine e sysOK tempSuffix copied reqOK lands os m
    (Hdirs : uploadDir e <> "avatars")
    (Hsuffix : forall n, forallb is_digit (bytes (tempSuffix n)) = true)
    (Hkeys : Forall (fun o => diskMeant e (opKey o)) os) :
  let disk := diskBlobStore e sysOK tempSuffix copied Hdirs Hsuffix in
  let bucket := s3BlobStore e reqOK lands in
  (forall d, stands (blobStore := disk) d (m, []) ->
     exists m', bsteps true (m, []) os (bRuns (B := disk) os d).1 (m', [])
       /\ stands (blobStore := disk) (bRuns (B := disk) os d).2 (m', []))
  /\ (forall b p, stands (blobStore := bucket) b (m, p) ->
     exists a', bsteps false (m, p) os (bRuns (B := bucket) os b).1 a'
       /\ stands (blobStore := bucket) (bRuns (B := bucket) os b).2 a')
  /\ (forall key c w, wEnv w = e -> diskMeant e key ->
     exists err p, bsteps false (wBlobs w, []) [OpPut key (mkReader c true) ""] [Done err] (wBlobs (Put key c w).2, p)
       /\ (Put key c w).1 = bool_decide (err = None)
       /\ bstep true (wBlobs w, []) (OpOpen key) (Opened (OpenBlob key w).1) (wBlobs (OpenBlob key w).2, [])).
Proof.
  intros disk bucket. split_and!.
  - intros d Hd. destruct (bRuns_steps (B := disk) os d (m, []) Hkeys Hd) as ([m' p'] & H1 & H2).
    pose proof (sure_nothing_lost _ _ _ _ H1) as E. cbn [snd] in E. subst p'. by exists m'.
  - intros b p Hb. apply (bRuns_steps (B := bucket)); [|exact Hb].
    eapply Forall_impl; [exact Hkeys | done].
  - intros key c w He Hk. assert (Hr : keyRejected (wEnv w) key = false).
    { apply meant_path in Hk as (dir & name & Hp & _). unfold keyRejected. rewrite He, Hp.
      by rewrite bool_decide_false, andb_false_r. }
    unfold Put, OpenBlob. rewrite !bind_run, getEnv_run. cbn [fst snd]. rewrite Hr.
    unfold blobPut, blobOpen. rewrite gets_run. cbn [fst snd].
    destruct (blobFault (wEnv w) (wNow w) key) eqn:Ef; cbn [fst snd].
    + exists (Some ""), []. split_and!; [|done | constructor].
      destruct (blobTook (wEnv w) (wNow w) key).
      * eapply steps_cons; [by apply step_put_lost|].
        apply (steps_land _ _ (apply (key, Some c) (wBlobs w), [])); [|constructor].
        apply (land_one (wBlobs w) [] (key, Some c) []).
      * eapply steps_cons; [apply step_put_err | constructor].
    + exists None, []. split_and!; [eapply steps_cons; [by apply step_put | constructor] | done|].
      destruct (wBlobs w !! key) eqn:Eb; by constructor.
Qed.

(** ** The choice of a store *)

(** A store is never a silent default.  With [PHAZE_BLOB_STORE] empty or
    "disk" the files are on disk, as [onDisk] says; asking for a bucket ends in
    a bucket with every setting given, or in the end of the process, and any
    other value ends the process too. *)
Theorem blob_choice_explicit parse new e :
  (blobs parse new e = Some ChooseDisk <-> onDisk e = true)
  /\ forall host secure region bucket ak sk,
     blobs parse new e = Some (ChooseS3 host secure region bucket ak sk) ->
     ToLower (TrimSpace (getenv e "PHAZE_BLOB_STORE")) = "s3"
     /\ host <> "" /\ bucket <> "" /\ ak <> "" /\ sk <> ""
     /\ (bucket = getenv e "BUCKET_NAME" \/ bucket = getenv e "LITESTREAM_BUCKET").
Proof.
  unfold blobs, blobStoreFromEnv, onDisk.
  set (mode := ToLower (TrimSpace (getenv e "PHAZE_BLOB_STORE"))).
  set (bkt := if is_empty (getenv e "BUCKET_NAME") then getenv e "LITESTREAM_BUCKET" else getenv e "BUCKET_NAME").
  assert (Hs : match newS3BlobStore parse new (getenv e "AWS_ENDPOINT_URL_S3") (getenv e "AWS_REGION") bkt
                 (getenv e "AWS_ACCESS_KEY_ID") (getenv e "AWS_SECRET_ACCESS_KEY") with
               | inl _ => True
               | inr ChooseDisk => False
               | inr (ChooseS3 host _ _ b ak sk) => host <> "" /\ b <> "" /\ ak <> "" /\ sk <> "" /\ b = bkt
               end).
  { unfold newS3BlobStore, is_empty. destruct (_ || _) eqn:E; [done|]. bools.
    destruct (parse _) as [[scheme host]|]; [|done]. destruct (host ==? "") eqn:Eh; [done|]. bools.
    by destruct (new _ _ _). }
  destruct (is_empty mode || (mode ==? "disk")); [by split|].
  destruct (mode ==? "s3") eqn:Em; [|by split]. bools.
  destruct (newS3BlobStore _ _ _ _ _ _ _) as [err|[|host secure region b ak sk]]; [by split | done|].
  split; [by split|]. intros ? ? ? ? ? ? [= -> -> -> -> -> ->]. destruct Hs as (H1 & H2 & H3 & H4 & H5).
  split_and!; try done. subst bkt. rewrite H5. destruct (is_empty _); [by right | by left].
Qed.

(** ** At a concrete disk *)

(** The fifth system call - a rename - fails once. *)
Definition flaky (n : nat) : bool := negb (n =? 4)%nat.
Definition noteKey : string := uploadKey "0a1b.png".
Definition noteOps : list bop :=
  [OpPut noteKey (mkReader "hello" true) "image/png"; OpOpen noteKey;
   OpPut noteKey (mkReader "hello" true) "image/png"; OpOpen noteKey].

(** The first request to the bucket loses its reply, and what it put lands
    before the second. *)
Definition lossy (n : nat) : bool := negb (n =? 0)%nat.

Lemma blob_stores_refine_witness :
  (exists m', bsteps true (∅, []) noteOps
     [Done (Some (errSys env0)); Opened BlobNotFound; Done None; Opened (BlobFound "hello")] (m', [])
   /\ m' !! noteKey = Some "hello")
  /\ exists a, bsteps false (∅, []) (take 2 noteOps)
       [Done (Some (errS3 env0)); Opened (BlobFound "hello")] a.
Proof.
  assert (Hd : uploadDir env0 <> "avatars") by discriminate.
  assert (Hs : forall n : nat, forallb is_digit (bytes "77") = true) by reflexivity.
  assert (Hk : diskMeant env0 noteKey).
  { apply uploadKey_meant; [|discriminate..|reflexivity]. unfold slashless. cbn.
    rewrite !not_elem_of_cons. repeat split; try discriminate. apply not_elem_of_nil. }
  assert (Hf : Forall (fun o => diskMeant env0 (opKey o)) noteOps) by (repeat constructor; exact Hk).
  split.
  - destruct (blob_stores_refine env0 flaky (fun _ => "77") (fun _ => 2%nat) lossy (fun _ _ => true) noteOps ∅ Hd Hs Hf)
      as [H _].
    destruct (H (mkDisk ∅ 0)) as (m' & H1 & H2).
    { split; [reflexivity|]. intros k _. cbn. unfold diskHolds. destruct (diskPath _ _); by rewrite ?lookup_empty. }
    exists m'. split; [exact H1|]. destruct H2 as [_ H2]. cbn [fst] in H2.
    rewrite <- (H2 noteKey Hk). vm_compute. reflexivity.
  - assert (Hf2 : Forall (fun o => diskMeant env0 (opKey o)) (take 2 noteOps)) by (repeat constructor; exact Hk).
    destruct (blob_stores_refine env0 flaky (fun _ => "77") (fun _ => 2%nat) lossy (fun _ _ => true) (take 2 noteOps) ∅ Hd Hs Hf2)
      as (_ & H & _).
    destruct (H (mkBucket ∅ [] 0) []) as (a & H1 & _); [split; [cbn; symmetry; apply fmap_empty | reflexivity]|].
    exists a. exact H1.
Defined.
