(* ===== verification/Locks.v ===== *)
(** * Locks

    The mutexes of the server: every critical section of the source as the
    sequence of lock operations it performs, goroutines as sequences of
    sections, and their interleaving under the rules of [sync.Mutex] and
    [sync.RWMutex].  What the sections compute is in the other files, where a
    handler is one step; here only the order of locking matters. *)

From Stdlib Require Import ZArith Lia.
From stdpp Require Import base list relations.
From S2P Require Import Prelude.

Open Scope list_scope.

(** ** The locks *)

Inductive Lock :=
| Mu                     (* NexusServer.Mu: Clients and the call state of connections *)
| VoiceRoomsMu           (* VoiceRooms and Streams *)
| RemoteCodesMu
| wsConnCountMu
| blockedIPsMu
| trackerMu              (* authTracker.mu *)
| limiterMu (n : nat)    (* Limiter.mu, one per limiter *)
| cfMu                   (* cfTURN.mu *)
| updatesMu              (* updates.mu *)
| healthHistMu
| writeMu (c : nat).     (* Client.writeMu, one per connection *)

#[export] Instance Lock_eq_dec : EqDecision Lock.
Proof. solve_decision. Defined.

(** [RLock] and [Lock]; a [sync.Mutex] is only ever locked. *)
Inductive mode := R | W.

#[export] Instance mode_eq_dec : EqDecision mode.
Proof. solve_decision. Defined.

Inductive action := Acq (m : mode) (l : Lock) | Rel (m : mode) (l : Lock).

(** ** The machine *)

(** A goroutine: what it holds, whether it stands in a call of [Lock] that has
    announced itself, and what it still has to do. *)
Record thread := mkThread { held : list (mode * Lock); announced : bool; todo : list action }.

Definition spawn (k : list action) : thread := mkThread [] false k.
Definition finished (t : thread) : Prop := todo t = [].

(** A goroutine waits in [Lock] for [l]. *)
Definition waitsFor (l : Lock) (t : thread) : Prop :=
  announced t = true /\ exists k, todo t = Acq W l :: k.

Definition holds (m : mode) (l : Lock) (t : thread) : Prop := (m, l) ∈ held t.

(** The holdings without one of [x]. *)
Fixpoint release (x : mode * Lock) (h : list (mode * Lock)) : list (mode * Lock) :=
  match h with
  | [] => []
  | y :: h => if decide (x = y) then h else y :: release x h
  end.

(** The documented behaviour: [Lock] waits until nobody holds the lock; [RLock]
    waits while somebody holds it for writing and also while somebody waits to;
    a lock is not tied to a goroutine, so a goroutine can wait for itself. *)
Inductive lstep (ts : list thread) : list thread -> Prop :=
| step_announce i h l k :
    ts !! i = Some (mkThread h false (Acq W l :: k)) ->
    lstep ts (<[i := mkThread h true (Acq W l :: k)]> ts)
| step_lock i h l k :
    ts !! i = Some (mkThread h true (Acq W l :: k)) ->
    Forall (fun t => ~ holds R l t /\ ~ holds W l t) ts ->
    lstep ts (<[i := mkThread ((W, l) :: h) false k]> ts)
| step_rlock i h l k :
    ts !! i = Some (mkThread h false (Acq R l :: k)) ->
    Forall (fun t => ~ holds W l t /\ ~ waitsFor l t) ts ->
    lstep ts (<[i := mkThread ((R, l) :: h) false k]> ts)
| step_unlock i h m l k :
    ts !! i = Some (mkThread h false (Rel m l :: k)) -> (m, l) ∈ h ->
    lstep ts (<[i := mkThread (release (m, l) h) false k]> ts).

(** ** The critical sections *)

(** A body between a lock and its release. *)
Definition locked (m : mode) (l : Lock) (body : list action) : list action :=
  Acq m l :: body ++ [Rel m l].

Definition section (m : mode) (l : Lock) : list action := locked m l [].

(** *** [clients.go] and [main.go]: the registry *)

Definition Send (c : nat) : list action := section W (writeMu c).
Definition clientsOf : list action := section R Mu.
Definition sendTo (cs : list nat) : list action := clientsOf ++ concat (Send <$> cs).
Definition sendToOthers (cs : list nat) : list action := clientsOf ++ concat (Send <$> cs).
Definition isOnline : list action := section R Mu.
Definition addClient : list action := section W Mu.
Definition removeClient : list action := section W Mu.
Definition dropAllClients (cs : list nat) : list action := section W Mu ++ concat (Send <$> cs).
Definition onlineUsernames : list action := section R Mu.
Definition onlineUserCount : list action := section R Mu.
Definition connectionCount : list action := section R Mu.
Definition broadcastAll (cs : list nat) : list action := section R Mu ++ concat (Send <$> cs).
Definition anyClientInCall : list action := section R Mu.
Definition callPeer : list action := section R Mu.

(** The snapshots the HTTP handlers and the bot reply take. *)
Definition healthHandler : list action := section R Mu.
Definition metricsHandler : list action := section R Mu.
Definition statsHandler : list action := section R Mu.
Definition adminStatsHandler : list action := section R Mu.
Definition adminUsersHandler : list action := section R Mu.
Definition handleBotMessage (c : nat) (mesh : bool) : list action :=
  (if mesh then section R Mu else []) ++ Send c.
Definition announcePresence : list action := section W Mu.

(** [supportEscalateHandler] asks the database for roles inside. *)
Definition supportEscalateHandler (cs : list nat) : list action := section R Mu ++ concat (Send <$> cs).

(** *** [main.go]: addresses, rooms, streams, remote codes *)

Definition isIPBlocked : list action := section R blockedIPsMu.
Definition blockIP : list action := section W blockedIPsMu.
Definition unblockIP : list action := section W blockedIPsMu.
Definition loadBlockedIPs (ok : bool) : list action :=
  section W blockedIPsMu ++ (if ok then section W blockedIPsMu else []).
Definition adminIPBlockHandler (get unblock : bool) (doomed : list nat) : list action :=
  if get then section R blockedIPsMu
  else if unblock then unblockIP
  else blockIP ++ section R Mu ++ concat (Send <$> doomed).
Definition sweepRemoteCodes : list action := section W RemoteCodesMu.

Definition streamStart : list action := section W VoiceRoomsMu.
Definition streamStop (viewers : list (list nat)) : list action :=
  section W VoiceRoomsMu ++ concat (sendTo <$> viewers).
Definition streamHas : list action := section R VoiceRoomsMu.
Definition streamAddViewer : list action := section W VoiceRoomsMu.
Definition streamRemoveViewer : list action := section W VoiceRoomsMu.
Definition streamList : list action := section R VoiceRoomsMu.
Definition streamAreParticipants : list action := section R VoiceRoomsMu.
Definition streamBroadcastList (cs : list nat) : list action := streamList ++ broadcastAll cs.
Definition streamEvictUser (hosts : list (list nat)) (ended : bool) (cs : list nat) : list action :=
  section W VoiceRoomsMu ++ concat (sendTo <$> hosts) ++ (if ended then streamBroadcastList cs else []).
Definition voiceRoomJoin : list action := section W VoiceRoomsMu.
Definition voiceRoomLeave : list action := section W VoiceRoomsMu.
Definition voiceRoomHas : list action := section R VoiceRoomsMu.
Definition voiceRoomPeers : list action := section R VoiceRoomsMu.
Definition voiceRoomBroadcastPeers (peers : list (list nat)) : list action :=
  voiceRoomPeers ++ concat (sendTo <$> peers).
Definition voiceRoomEvictUser (rooms : list (list (list nat))) : list action :=
  section W VoiceRoomsMu ++ concat (voiceRoomBroadcastPeers <$> rooms).

(** *** [ws_handlers.go]: the connection and its messages *)

Definition allow (n : nat) : list action := section W (limiterMu n).

(** Admission and the deferred count. *)
Definition admitConn : list action := section W wsConnCountMu.
Definition releaseConn : list action := section W wsConnCountMu.

(** [client.Username = ...; addClientLocked] of the four ways to sign in, and
    the status of one friend. *)
Definition registerConn : list action := section W Mu.
Definition friendStatus : list action := section R Mu.

(** The end of a connection: the partner of a call is told under the lock, with
    the call's log when there is one. *)
Definition disconnect (partner : option (nat * bool)) : list action :=
  locked W Mu (match partner with
               | None => []
               | Some (c, logged) => Send c ++ (if logged then Send c else [])
               end).

Definition case_status_update : list action := section W Mu.
Definition case_presence : list action := section W Mu.
Definition case_delete_account : list action := section W Mu.
Definition case_msg (recipient : list nat) : list action := section R Mu ++ sendTo recipient.
Definition case_call_offer (ring : list nat) : list action := section W Mu ++ concat (Send <$> ring).
Definition case_call_answer (cs : list nat) : list action := section W Mu ++ concat (Send <$> cs).
Definition case_call_signal (peer : option nat) : list action :=
  section R Mu ++ match peer with Some c => Send c | None => [] end.
(** The peer is told after the unlock, then both sides' call lists. *)
Definition case_call_reject (cs : list nat) (logs : list (list nat)) : list action :=
  section W Mu ++ concat (Send <$> cs) ++ concat (sendTo <$> logs).
Definition case_remote_register (c : nat) : list action := section W RemoteCodesMu ++ Send c.
Definition case_remote_unregister : list action := section W RemoteCodesMu.
Definition case_remote_lookup (limiter c : nat) : list action :=
  allow limiter ++ section R RemoteCodesMu ++ Send c.
Definition case_remote_end (cs : list nat) : list action := section W RemoteCodesMu ++ sendTo cs.

(** The fan-out of a group message runs under a read lock that [sendTo] takes
    again for every member. *)
Definition case_convo_msg (members : list (list nat)) : list action :=
  locked R Mu (concat (sendTo <$> members)).

(** [broadcastProfileUpdate] takes the read lock twice. *)
Definition broadcastProfileUpdate (cs : list nat) : list action :=
  locked R Mu (section R Mu ++ concat (Send <$> cs)).

(** *** The package variables *)

(** Every method of [authTracker], its sweeper and the three reads of the
    progressive delay. *)
Definition tracker : list action := section W trackerMu.

Definition Config (cached : bool) : list action := section W cfMu ++ (if cached then [] else section W cfMu).
Definition refresh : list action := section W cfMu.
Definition versionHandler (fresh : bool) : list action :=
  section R updatesMu ++ (if fresh then [] else section W updatesMu).
Definition recordHealth : list action := section W healthHistMu.
Definition currentHealthSummary : list action := section W healthHistMu.
Definition healthHistorySnapshot : list action := section W healthHistMu.

(** ** What a goroutine may run

    Everything above but the last two of the message loop. *)
Definition simpleSections : list (list action) :=
  [clientsOf; isOnline; addClient; removeClient; onlineUsernames; onlineUserCount; connectionCount;
   anyClientInCall; callPeer; healthHandler; metricsHandler; statsHandler; adminStatsHandler;
   adminUsersHandler; announcePresence; isIPBlocked; blockIP; unblockIP; sweepRemoteCodes; streamStart;
   streamHas; streamAddViewer; streamRemoveViewer; streamList; streamAreParticipants; voiceRoomJoin;
   voiceRoomLeave; voiceRoomHas; voiceRoomPeers; admitConn; releaseConn; registerConn; friendStatus;
   case_status_update; case_presence; case_delete_account; case_remote_unregister; tracker; refresh;
   recordHealth; currentHealthSummary; healthHistorySnapshot].

Inductive sectionOf : list action -> Prop :=
| sec_simple s : s ∈ simpleSections -> sectionOf s
| sec_Send c : sectionOf (Send c)
| sec_allow n : sectionOf (allow n)
| sec_sendTo cs : sectionOf (sendTo cs)
| sec_others cs : sectionOf (sendToOthers cs)
| sec_drop cs : sectionOf (dropAllClients cs)
| sec_broadcast cs : sectionOf (broadcastAll cs)
| sec_bot c mesh : sectionOf (handleBotMessage c mesh)
| sec_escalate cs : sectionOf (supportEscalateHandler cs)
| sec_load ok : sectionOf (loadBlockedIPs ok)
| sec_block get unblock doomed : sectionOf (adminIPBlockHandler get unblock doomed)
| sec_stop viewers : sectionOf (streamStop viewers)
| sec_list cs : sectionOf (streamBroadcastList cs)
| sec_evictStreams hosts ended cs : sectionOf (streamEvictUser hosts ended cs)
| sec_peers peers : sectionOf (voiceRoomBroadcastPeers peers)
| sec_evictRooms rooms : sectionOf (voiceRoomEvictUser rooms)
| sec_disconnect partner : sectionOf (disconnect partner)
| sec_msg cs : sectionOf (case_msg cs)
| sec_offer cs : sectionOf (case_call_offer cs)
| sec_answer cs : sectionOf (case_call_answer cs)
| sec_signal peer : sectionOf (case_call_signal peer)
| sec_reject cs logs : sectionOf (case_call_reject cs logs)
| sec_register c : sectionOf (case_remote_register c)
| sec_lookup n c : sectionOf (case_remote_lookup n c)
| sec_end cs : sectionOf (case_remote_end cs)
| sec_config cached : sectionOf (Config cached)
| sec_version fresh : sectionOf (versionHandler fresh).

(** A goroutine: any number of them, one after the other. *)
Inductive goroutine : list action -> Prop :=
| go_done : goroutine []
| go_more s k : sectionOf s -> goroutine k -> goroutine (s ++ k).

(** ** Order *)

Definition rank (l : Lock) : nat := match l with Mu => 0 | writeMu _ => 2 | _ => 1 end.

(** Locks are taken in increasing rank, released when held, and none is left. *)
Fixpoint orderly (h : list (mode * Lock)) (k : list action) : bool :=
  match k with
  | [] => match h with [] => true | _ => false end
  | Acq m l :: k => forallb (fun x => rank x.2 <? rank l)%nat h && orderly ((m, l) :: h) k
  | Rel m l :: k => bool_decide ((m, l) ∈ h) && orderly (release (m, l) h) k
  end.

Lemma orderly_app h a b : orderly h a = true -> orderly [] b = true -> orderly h (a ++ b) = true.
Proof.
  revert h. induction a as [|[m l|m l] a IH]; intros h Ha Hb; cbn [orderly app] in *.
  - by destruct h.
  - apply andb_true_iff in Ha as [H1 H2]. rewrite H1. by apply IH.
  - apply andb_true_iff in Ha as [H1 H2]. rewrite H1. by apply IH.
Qed.

Lemma orderly_section m l : orderly [] (section m l) = true.
Proof. cbn. rewrite bool_decide_eq_true_2 by left. by rewrite decide_True. Qed.

Lemma orderly_concat ls : Forall (fun a => orderly [] a = true) ls -> orderly [] (concat ls) = true.
Proof. induction 1; cbn; [done|]. by apply orderly_app. Qed.

Lemma orderly_fmap {A} (f : A -> list action) (l : list A) :
  (forall x, orderly [] (f x) = true) -> orderly [] (concat (f <$> l)) = true.
Proof. intros H. apply orderly_concat, Forall_fmap, Forall_true. exact H. Qed.

Create HintDb orderly discriminated.
#[local] Hint Resolve orderly_app orderly_section orderly_concat orderly_fmap : orderly.
#[local] Hint Extern 1 (orderly [] [] = true) => reflexivity : orderly.

Lemma orderly_Send c : orderly [] (Send c) = true.
Proof. apply orderly_section. Qed.
#[local] Hint Resolve orderly_Send : orderly.

Lemma orderly_sendTo cs : orderly [] (sendTo cs) = true.
Proof. unfold sendTo, clientsOf. auto with orderly. Qed.
#[local] Hint Resolve orderly_sendTo : orderly.

Lemma orderly_disconnect partner : orderly [] (disconnect partner) = true.
Proof.
  destruct partner as [[c []]|]; unfold disconnect, locked, Send, section, locked; cbn;
    repeat (rewrite bool_decide_eq_true_2 by left; rewrite decide_True by done; cbn); done.
Qed.

Lemma orderly_simple s : s ∈ simpleSections -> orderly [] s = true.
Proof.
  assert (H : forallb (orderly []) simpleSections = true) by (vm_compute; reflexivity).
  intros Hs%list_elem_of_In. exact (proj1 (forallb_forall _ _) H s Hs).
Qed.

Lemma orderly_peers peers : orderly [] (voiceRoomBroadcastPeers peers) = true.
Proof. unfold voiceRoomBroadcastPeers, voiceRoomPeers. auto with orderly. Qed.
#[local] Hint Resolve orderly_disconnect orderly_simple orderly_peers : orderly.

Lemma orderly_list cs : orderly [] (streamBroadcastList cs) = true.
Proof. unfold streamBroadcastList, streamList, broadcastAll. auto with orderly. Qed.
#[local] Hint Resolve orderly_list : orderly.

Lemma orderly_sectionOf s : sectionOf s -> orderly [] s = true.
Proof.
  destruct 1; auto with orderly;
    repeat match goal with b : bool |- _ => destruct b | o : option nat |- _ => destruct o end;
    unfold allow, sendToOthers, clientsOf, dropAllClients, broadcastAll, handleBotMessage,
      supportEscalateHandler, loadBlockedIPs, adminIPBlockHandler, unblockIP, blockIP, streamStop,
      streamEvictUser, voiceRoomEvictUser, case_msg, case_call_offer, case_call_answer,
      case_call_signal, case_call_reject, case_remote_register, case_remote_lookup, allow,
      case_remote_end, Config, versionHandler; auto 8 with orderly.
Qed.

Lemma orderly_goroutine k : goroutine k -> orderly [] k = true.
Proof. induction 1; [done|]. apply orderly_app; [by apply orderly_sectionOf | done]. Qed.

(** ** Progress *)

Definition thread_ok (t : thread) : Prop :=
  orderly (held t) (todo t) = true /\ (announced t = true -> exists l k, todo t = Acq W l :: k).

(** Writers are alone. *)
Definition exclusive (ts : list thread) : Prop :=
  forall i j t u m l, ts !! i = Some t -> ts !! j = Some u -> holds W l t -> holds m l u -> i = j.

Lemma release_sub x y h : x ∈ release y h -> x ∈ h.
Proof.
  induction h as [|z h IH]; cbn; [done|]. rewrite elem_of_cons.
  case_decide; [by right|]. rewrite elem_of_cons. intros [->|Hx]; [by left | right; by apply IH].
Qed.

Lemma spawn_ok k : goroutine k -> thread_ok (spawn k).
Proof. intros H. split; [by apply orderly_goroutine | done]. Qed.

Lemma lstep_ok ts ts' : lstep ts ts' -> Forall thread_ok ts -> Forall thread_ok ts'.
Proof.
  intros Hs Hok.
  assert (Hin : forall i t, ts !! i = Some t -> thread_ok t) by (intros i t; by apply Forall_lookup_1).
  destruct Hs as [i h l k E|i h l k E _|i h l k E _|i h m l k E Hh]; apply Forall_insert; try done;
    destruct (Hin i _ E) as [Ho _]; cbn [held todo orderly] in Ho; split; cbn [held announced todo]; try done.
  - intros _. by exists l, k.
  - by apply andb_true_iff in Ho as [_ Ho].
  - by apply andb_true_iff in Ho as [_ Ho].
  - by apply andb_true_iff in Ho as [_ Ho].
Qed.

Lemma exclusive_insert ts i t :
  exclusive ts ->
  (forall x, x ∈ held t -> (exists t0, ts !! i = Some t0 /\ x ∈ held t0)
     \/ Forall (fun u => ~ holds W x.2 u /\ (x.1 = W -> ~ holds R x.2 u)) ts) ->
  exclusive (<[i := t]> ts).
Proof.
  intros Hx Hn a b u v m l Ha Hb Hu Hv.
  apply list_lookup_insert_Some in Ha as [(<- & <- & La)|[Na Ha]];
    apply list_lookup_insert_Some in Hb as [(<- & <- & Lb)|[Nb Hb]]; try done.
  - exfalso. apply Nb. destruct (Hn _ Hu) as [(t0 & E & H)|H]; [by apply (Hx i b t0 v m l)|].
    rewrite Forall_forall in H. destruct (H v (list_elem_of_lookup_2 _ _ _ Hb)) as [H1 H2]. cbn in H1, H2.
    destruct m; [by destruct (H2 eq_refl) | done].
  - exfalso. apply Na. symmetry. destruct (Hn _ Hv) as [(t0 & E & H)|H]; [by apply (Hx a i u t0 m l)|].
    rewrite Forall_forall in H. by destruct (H u (list_elem_of_lookup_2 _ _ _ Ha)).
  - by apply (Hx a b u v m l).
Qed.

Lemma lstep_exclusive ts ts' : lstep ts ts' -> exclusive ts -> exclusive ts'.
Proof.
  intros Hs Hx. destruct Hs as [i h l k E|i h l k E F|i h l k E F|i h m l k E Hh]; apply exclusive_insert; try done;
    cbn [held]; intros x Hin.
  - left. eauto.
  - apply elem_of_cons in Hin as [->|Hin]; [right | left; eauto].
    eapply Forall_impl; [exact F|]. intros u [H1 H2]. by split.
  - apply elem_of_cons in Hin as [->|Hin]; [right | left; eauto].
    eapply Forall_impl; [exact F|]. intros u [H1 _]. by split.
  - left. exists (mkThread h false (Rel m l :: k)). split; [done|]. by apply release_sub in Hin.
Qed.

(** Nothing can be done: then nothing is left to do. *)
Section Stuck.
Context (ts : list thread) (Hok : Forall thread_ok ts) (Hstuck : forall ts', ~ lstep ts ts').

Lemma in_ok i t : ts !! i = Some t -> thread_ok t.
Proof using Hok. by apply Forall_lookup_1. Qed.

(** Whoever is not finished stands before a lock, announced if it is for writing. *)
Lemma stuck_head i t : ts !! i = Some t -> todo t <> [] ->
  exists m l k, todo t = Acq m l :: k /\ announced t = (match m with W => true | R => false end)
    /\ forall x, x ∈ held t -> (rank x.2 < rank l)%nat.
Proof using Hok Hstuck.
  intros E Hn. destruct (in_ok i t E) as [Ho Ha]. destruct t as [h a [|[m l|m l] k]]; [done| |]; cbn in Ho, Ha |- *.
  - exists m, l, k. split; [done|]. apply andb_true_iff in Ho as [Ho _]. rewrite forallb_forall in Ho. split.
    + destruct m, a; try done.
      * by destruct (Ha eq_refl) as (? & ? & ?).
      * exfalso. by eapply Hstuck, step_announce.
    + intros x Hx%list_elem_of_In. apply Ho in Hx. by apply Nat.ltb_lt.
  - apply andb_true_iff in Ho as [Ho _]. apply bool_decide_eq_true in Ho. exfalso.
    destruct a; [by destruct (Ha eq_refl) as (? & ? & ?)|]. by eapply Hstuck, step_unlock.
Qed.

(** The ranks above the lock waited for are free, by induction from the top. *)
Lemma stuck_none n : forall i t m l k,
  (2 - rank l < n)%nat -> ts !! i = Some t -> todo t = Acq m l :: k -> False.
Proof using Hok Hstuck.
  induction n as [|n IH]; intros i t m l k Hr E Et; [lia|].
  assert (Hfree : forall j u m', ts !! j = Some u -> holds m' l u -> False).
  { intros j u m' Ej Hh. assert (Hn : todo u <> []).
    { intros Hn. destruct (in_ok j u Ej) as [Ho _]. rewrite Hn in Ho. unfold holds in Hh.
      destruct (held u); [by apply elem_of_nil in Hh | done]. }
    destruct (stuck_head j u Ej Hn) as (m2 & l2 & k2 & E2 & _ & Hlt). specialize (Hlt _ Hh). cbn in Hlt.
    apply (IH j u m2 l2 k2); [|done|done]. assert (rank l2 <= 2)%nat by (destruct l2; cbn; lia). lia. }
  assert (Hnone : forall m', Forall (fun u => ~ holds m' l u) ts).
  { intros m'. apply Forall_lookup. intros j u Ej Hh. by apply (Hfree j u m'). }
  assert (Hwait : forall j u, ts !! j = Some u -> ~ waitsFor l u).
  { intros j [h a q] Ej [Ha [k2 Hq]]. cbn in Ha, Hq. subst a q.
    eapply Hstuck, step_lock; [exact Ej|]. apply Forall_and; split; apply Hnone. }
  destruct (stuck_head i t E) as (m2 & l2 & k2 & E2 & Ha & _); [by rewrite Et|].
  rewrite Et in E2. injection E2 as <- <- <-. destruct t as [h a q]. cbn in Et, Ha. subst q a. destruct m.
  - eapply Hstuck, step_rlock; [exact E|]. apply Forall_and. split; [apply Hnone | by apply Forall_lookup].
  - by apply (Hwait i (mkThread h true (Acq W l :: k)) E); split; [|exists k].
Qed.

Lemma stuck_finished : Forall finished ts.
Proof using Hok Hstuck.
  apply Forall_lookup. intros i t E. unfold finished. destruct (todo t) as [|x k] eqn:Et; [done|]. exfalso.
  destruct (stuck_head i t E) as (m & l & k' & E' & _); [by rewrite Et|].
  by apply (stuck_none 3 i t m l k'); [lia|..].
Qed.
End Stuck.

(** A step takes something off the work. *)
Definition weight (t : thread) : nat := 2 * length (todo t) - (if announced t then 1 else 0).

Lemma weight_mk h a k : weight (mkThread h a k) = (2 * length k - (if a then 1 else 0))%nat.
Proof. reflexivity. Qed.

Lemma sum_insert (f : thread -> nat) ts i t t' :
  ts !! i = Some t -> (sum_list_with f (<[i := t']> ts) + f t = sum_list_with f ts + f t')%nat.
Proof.
  revert i. induction ts as [|u ts IH]; intros i E; [done|]. destruct i as [|i].
  - injection E as ->. change (f t' + sum_list_with f ts + f t = f t + sum_list_with f ts + f t')%nat. lia.
  - specialize (IH i E).
    change (f u + sum_list_with f (<[i := t']> ts) + f t = f u + sum_list_with f ts + f t')%nat. lia.
Qed.

Lemma lstep_weight ts ts' : lstep ts ts' -> (sum_list_with weight ts' < sum_list_with weight ts)%nat.
Proof.
  destruct 1 as [i h l k E|i h l k E _|i h l k E _|i h m l k E _];
    match goal with |- (sum_list_with _ (<[_ := ?t']> _) < _)%nat => pose proof (sum_insert weight ts i _ t' E) as H end;
    rewrite !weight_mk in H; cbn [length] in H; lia.
Qed.

(** C32: the locks of the server.  Any number of goroutines, each running any
    sequence of the critical sections of the program except the two below, in
    any interleaving: whoever holds a lock for writing holds it alone; a state
    in which nobody can go on is one in which everybody is done; and such a
    state comes after at most two steps for every lock operation. *)
Theorem locks_never_deadlock ks ts n :
  Forall goroutine ks -> nsteps lstep n (spawn <$> ks) ts ->
  exclusive ts
  /\ ((forall ts', ~ lstep ts ts') -> Forall finished ts)
  /\ (n <= 2 * length (concat ks))%nat.
Proof.
  intros Hk Hn.
  assert (H0 : Forall thread_ok (spawn <$> ks)) by (apply Forall_fmap; eapply Forall_impl; [exact Hk | apply spawn_ok]).
  assert (Hx : exclusive (spawn <$> ks)).
  { intros i j t u m l Hi _ Ht _. apply list_lookup_fmap_Some in Hi as (k & -> & _). by apply elem_of_nil in Ht. }
  assert (Hw : (sum_list_with weight (spawn <$> ks) = 2 * length (concat ks))%nat).
  { clear. induction ks as [|k ks IH]; [done|]. cbn [fmap list_fmap sum_list_with concat]. rewrite IH, length_app.
    unfold weight. cbn [spawn todo announced]. lia. }
  assert (H : Forall thread_ok ts /\ exclusive ts /\ (n + sum_list_with weight ts <= sum_list_with weight (spawn <$> ks))%nat).
  { clear Hw. revert H0 Hx. induction Hn as [x|n x y z Hs _ IH]; intros H0 Hx; [done|].
    destruct IH as (A & B & C); [by eapply lstep_ok | by eapply lstep_exclusive|].
    pose proof (lstep_weight _ _ Hs). split_and!; [done..|lia]. }
  destruct H as (Hok & Hexc & Hle). split; [done|]. split; [by apply stuck_finished | lia].
Qed.

Lemma locks_never_deadlock_witness :
  exists ts, nsteps lstep 3 (spawn <$> [addClient]) ts /\ exclusive ts /\ (3 <= 2 * length (concat [addClient]))%nat.
Proof.
  assert (G : Forall goroutine [addClient]).
  { constructor; [|constructor]. rewrite <- (app_nil_r addClient).
    apply go_more; [apply sec_simple; right; right; left | constructor]. }
  assert (S : nsteps lstep 3 (spawn <$> [addClient]) [mkThread [] false []]).
  { apply (nsteps_l _ _ _ [mkThread [] true addClient]); [by apply (step_announce [spawn addClient] 0)|].
    apply (nsteps_l _ _ _ [mkThread [(W, Mu)] false [Rel W Mu]]).
    { apply (step_lock [mkThread [] true addClient] 0 [] Mu [Rel W Mu]); [done|].
      repeat constructor; apply not_elem_of_nil. }
    apply (nsteps_l _ _ _ [mkThread [] false []]); [|constructor].
    apply (step_unlock [mkThread [(W, Mu)] false [Rel W Mu]] 0 [(W, Mu)] W Mu []); [done | left]. }
  destruct (locks_never_deadlock [addClient] [mkThread [] false []] 3 G S) as (X & _ & B).
  eexists. split; [exact S|]. by split.
Defined.

(** ** The two others *)

(** A read lock taken again under a read lock, and a writer between the two. *)
Lemma reentrant_stuck rest k :
  exists ts, rtc lstep (spawn <$> [Acq R Mu :: Acq R Mu :: rest; Acq W Mu :: k]) ts
  /\ (forall ts', ~ lstep ts ts') /\ Forall (fun t => ~ finished t) ts.
Proof.
  set (a := mkThread [(R, Mu)] false (Acq R Mu :: rest)). set (b := mkThread [] true (Acq W Mu :: k)).
  exists [a; b]. split; [|split].
  - eapply rtc_l; [apply (step_rlock _ 0 [] Mu (Acq R Mu :: rest)); [done|]|].
    { repeat constructor; try apply not_elem_of_nil; intros [H _]; discriminate H. }
    eapply rtc_l; [|constructor]. apply (step_announce [a; spawn (Acq W Mu :: k)] 1). done.
  - intros ts' Hs. inversion Hs as [i h l q E|i h l q E F|i h l q E F|i h m l q E Hh]; subst;
      destruct i as [|[|i]]; cbn in E; try discriminate E; injection E as ?; subst.
    + apply Forall_cons in F as [[H _] _]. apply H. left.
    + apply Forall_cons in F as [_ F]. apply Forall_cons in F as [[_ H] _]. apply H. split; [done | by exists k].
  - repeat constructor; discriminate.
Qed.

(** C40: the exceptions.  A profile update, and a group message with a member to
    deliver to, take [s.Mu] for reading twice; when a connection signs in
    between the two - anything that locks [s.Mu] for writing - all of them wait
    for ever, and with them everybody who needs the registry afterwards. *)
Theorem reentrant_read_deadlocks k :
  (exists cs, k = broadcastProfileUpdate cs) \/ (exists cs members, k = case_convo_msg (cs :: members)) ->
  exists ts, rtc lstep (spawn <$> [k; registerConn]) ts
  /\ (forall ts', ~ lstep ts ts') /\ Forall (fun t => ~ finished t) ts.
Proof. intros [[cs ->]|(cs & members & ->)]; apply reentrant_stuck. Qed.

Lemma reentrant_read_deadlocks_witness :
  exists ts, rtc lstep (spawn <$> [broadcastProfileUpdate [1%nat]; registerConn]) ts /\ (forall ts', ~ lstep ts ts').
Proof.
  destruct (reentrant_read_deadlocks (broadcastProfileUpdate [1%nat])) as (ts & A & B & _); [left; by exists [1%nat]|].
  exists ts. by split.
Defined.
