(* ===== verification/Schema.v ===== *)
(** * The schema ([initDB] of [main.go], [initRewardsDB] of [rewards.go])

    The statements that create and migrate the tables, run over a catalog of
    tables and indexes: at start-up of a fresh installation, of one an older
    version made, and after a start-up that was cut short. *)

From Stdlib Require Import ZArith Lia.
From stdpp Require Import base strings list gmap.
From S2P Require Import Prelude.

Open Scope string_scope.
Open Scope list_scope.

(** ** Statements *)

(** [CREATE TABLE IF NOT EXISTS] with the columns and the keys (primary key and
    uniqueness constraints), [ALTER TABLE ADD COLUMN], [CREATE INDEX IF NOT
    EXISTS]. *)
Inductive ddl :=
| CreateTable (t : string) (cols : list string) (keys : list (list string))
| AddColumn (t col : string)
| CreateIndex (name t : string) (cols : list string).

Record Catalog := mkCatalog {
  ctables : gmap string (list string * list (list string));
  cindexes : gset string }.

Definition emptyCatalog : Catalog := mkCatalog ∅ ∅.

Inductive ddlErr := DuplicateColumn | NoSuchTable | NoSuchColumn | EngineError.

Definition subset (l k : list string) : bool := forallb (fun x => bool_decide (x ∈ k)) l.

Definition execDDL (q : ddl) (c : Catalog) : option ddlErr * Catalog :=
  match q with
  | CreateTable t cols keys =>
      match ctables c !! t with
      | Some _ => (None, c)
      | None => (None, mkCatalog (<[t := (cols, keys)]> (ctables c)) (cindexes c))
      end
  | AddColumn t col =>
      match ctables c !! t with
      | None => (Some NoSuchTable, c)
      | Some (cols, keys) =>
          if bool_decide (col ∈ cols) then (Some DuplicateColumn, c)
          else (None, mkCatalog (<[t := (cols ++ [col], keys)]> (ctables c)) (cindexes c))
      end
  | CreateIndex name t cols =>
      if bool_decide (name ∈ cindexes c) then (None, c)
      else
        match ctables c !! t with
        | None => (Some NoSuchTable, c)
        | Some (have, _) =>
            if subset cols have then (None, mkCatalog (ctables c) ({[ name ]} ∪ cindexes c))
            else (Some NoSuchColumn, c)
        end
  end.

(** ** The statements of the server *)

Definition tables : list ddl := [
  CreateTable "users"
      ["id"; "username"; "email"; "mood"; "display_name"; "password_hash"; "salt";
      "is_verified"; "verification_code"; "phone_number"; "phone_verified"; "created_at"]
      [["id"]; ["username"]];
  CreateTable "friends"
      ["id"; "user_a"; "user_b"; "status"; "created_at"]
      [["id"]; ["user_a"; "user_b"]];
  CreateTable "contact_groups"
      ["owner"; "contact"; "group_name"]
      [["owner"; "contact"]];
  CreateTable "offline_messages"
      ["id"; "sender"; "recipient"; "body"; "msg_type"; "convo"; "created_at"]
      [["id"]];
  CreateTable "conversations"
      ["id"; "name"; "created_by"; "created_at"]
      [["id"]];
  CreateTable "conversation_members"
      ["convo_id"; "username"]
      [["convo_id"; "username"]];
  CreateTable "convo_messages"
      ["id"; "convo_id"; "sender"; "body"; "sent_at"]
      [["id"]];
  CreateTable "blocks"
      ["blocker"; "blocked"; "created_at"]
      [["blocker"; "blocked"]];
  CreateTable "abuse_reports"
      ["id"; "reporter"; "subject"; "reason"; "body"; "created_at"]
      [["id"]];
  CreateTable "session_tokens"
      ["token"; "username"; "device_info"; "created_at"; "expires_at"; "revoked"]
      [["token"]];
  CreateTable "password_resets"
      ["token"; "username"; "created_at"; "expires_at"; "used"]
      [["token"]];
  CreateTable "qr_login_tokens"
      ["token"; "username"; "session_token"; "device_info"; "created_at"; "expires_at";
      "approved"]
      [["token"]];
  CreateTable "servers"
      ["id"; "name"; "description"; "icon"; "owner"; "visibility"; "invite_code"; "created_at"]
      [["id"]; ["invite_code"]];
  CreateTable "channels"
      ["id"; "server_id"; "name"; "topic"; "kind"; "position"; "created_at"]
      [["id"]];
  CreateTable "server_members"
      ["server_id"; "username"; "role"; "joined_at"]
      [["server_id"; "username"]];
  CreateTable "channel_messages"
      ["id"; "channel_id"; "sender"; "body"; "created_at"]
      [["id"]];
  CreateIndex "idx_channels_server" "channels" ["server_id"; "position"];
  CreateIndex "idx_channel_messages" "channel_messages" ["channel_id"; "id"];
  CreateTable "channel_reactions"
      ["msg_id"; "emoji"; "username"]
      [["msg_id"; "emoji"; "username"]];
  CreateIndex "idx_channel_reactions" "channel_reactions" ["msg_id"];
  CreateTable "stories"
      ["id"; "author"; "media_url"; "media_kind"; "caption"; "created_at"; "expires_at"]
      [["id"]];
  CreateIndex "idx_stories_author" "stories" ["author"; "expires_at"];
  CreateIndex "idx_stories_expires" "stories" ["expires_at"];
  CreateTable "story_views"
      ["story_id"; "viewer"; "viewed_at"]
      [["story_id"; "viewer"]];
  CreateTable "user_settings"
      ["username"; "key"; "value"; "updated_at"]
      [["username"; "key"]];
  CreateIndex "idx_server_members_user" "server_members" ["username"];
  CreateIndex "idx_servers_invite" "servers" ["invite_code"];
  CreateTable "push_subscriptions"
      ["id"; "username"; "endpoint"; "p256dh"; "auth"; "created_at"]
      [["id"]; ["endpoint"]];
  CreateIndex "idx_push_username" "push_subscriptions" ["username"];
  CreateTable "invite_codes"
      ["code"; "inviter"; "email"; "used"; "created_at"; "used_at"]
      [["code"]];
  CreateTable "dm_messages"
      ["id"; "msg_id"; "sender"; "recipient"; "body"; "edited"; "deleted"; "created_at"]
      [["id"]; ["msg_id"]];
  CreateIndex "idx_dm_pair" "dm_messages" ["sender"; "recipient"; "id"];
  CreateIndex "idx_dm_pair_rev" "dm_messages" ["recipient"; "sender"; "id"];
  CreateTable "dm_reactions"
      ["msg_id"; "username"; "emoji"]
      [["msg_id"; "username"; "emoji"]];
  CreateTable "key_backups"
      ["username"; "ciphertext"; "salt"; "iterations"; "created_at"]
      [["username"]];
  CreateTable "totp_backup_codes"
      ["id"; "username"; "code_hash"; "used"; "created_at"]
      [["id"]];
  CreateIndex "idx_totp_backup_user" "totp_backup_codes" ["username"; "used"];
  CreateTable "blocked_ips"
      ["ip"; "blocked_by"; "created_at"]
      [["ip"]]].

Definition migrations : list ddl := [
  AddColumn "users" "totp_secret";
  AddColumn "users" "totp_enabled";
  AddColumn "users" "is_admin";
  AddColumn "users" "role";
  AddColumn "channel_messages" "edited";
  AddColumn "channel_messages" "deleted";
  AddColumn "channel_messages" "pinned";
  AddColumn "users" "is_banned";
  AddColumn "users" "ban_reason";
  AddColumn "users" "banned_at";
  AddColumn "abuse_reports" "status";
  AddColumn "abuse_reports" "resolved_by";
  AddColumn "abuse_reports" "resolved_at";
  CreateIndex "idx_abuse_reports_status" "abuse_reports" ["status"];
  CreateIndex "idx_users_banned" "users" ["is_banned"];
  AddColumn "users" "fcm_token";
  AddColumn "users" "last_ip";
  AddColumn "users" "last_login_at";
  AddColumn "users" "signup_ip";
  AddColumn "users" "phone_verification_code";
  AddColumn "session_tokens" "pending_device";
  CreateTable "known_devices"
      ["id"; "username"; "device_id"; "label"; "first_seen"; "last_seen"; "last_ip"]
      [["id"]; ["username"; "device_id"]];
  CreateTable "device_challenges"
      ["id"; "username"; "device_id"; "session_token"; "code"; "label"; "ip"; "attempts";
      "approved"; "consumed"; "created_at"; "expires_at"]
      [["id"]];
  CreateIndex "idx_device_challenges_session" "device_challenges" ["session_token"];
  CreateIndex "idx_known_devices_user" "known_devices" ["username"];
  CreateTable "whiteboard_strokes"
      ["id"; "channel_id"; "author"; "stroke_uid"; "stroke"; "created_at"]
      [["id"]];
  CreateIndex "idx_whiteboard_uid" "whiteboard_strokes" ["channel_id"; "stroke_uid"];
  CreateIndex "idx_whiteboard_channel" "whiteboard_strokes" ["channel_id"; "id"];
  AddColumn "users" "status";
  CreateTable "calls"
      ["id"; "caller"; "callee"; "kind"; "started_at"; "answered"; "duration_s"]
      [["id"]];
  CreateIndex "idx_calls_caller" "calls" ["caller"];
  CreateIndex "idx_calls_callee" "calls" ["callee"];
  AddColumn "users" "supporter";
  AddColumn "users" "supporter_since";
  AddColumn "offline_messages" "msg_id";
  CreateTable "supporter_requests"
      ["id"; "username"; "name"; "email"; "status"; "created_at"]
      [["id"]];
  CreateIndex "idx_supporter_requests_status" "supporter_requests" ["status"];
  CreateTable "bmc_payments"
      ["id"; "supporter_name"; "supporter_email"; "amount"; "message"; "matched_username";
      "created_at"]
      [["id"]];
  CreateTable "skype_import_messages"
      ["id"; "username"; "conversation_id"; "conversation_display"; "sender_display"; "body";
      "sent_at"]
      [["id"]; ["username"; "conversation_id"; "sent_at"; "body"]];
  CreateIndex "idx_skype_msgs_user" "skype_import_messages" ["username"];
  CreateTable "skype_import_contacts"
      ["id"; "username"; "skype_id"; "display_name"; "email"; "phaze_username"; "invite_sent"]
      [["id"]; ["username"; "skype_id"]];
  CreateIndex "idx_skype_contacts_user" "skype_import_contacts" ["username"];
  AddColumn "users" "referred_by";
  CreateIndex "idx_users_referred_by" "users" ["referred_by"]].

Definition rewardTables : list ddl := [
  CreateTable "reward_crates"
      ["id"; "owner"; "source"; "item"; "shards"; "created_at"; "opened_at"]
      [["id"]; ["source"]];
  CreateIndex "idx_reward_crates_owner" "reward_crates" ["owner"];
  CreateTable "reward_crafts"
      ["id"; "owner"; "item"; "cost"; "created_at"]
      [["id"]; ["owner"; "item"]]].

(** ** Start-up

    [fault k] is a failure of the database engine at statement number [k]. *)

Definition runDDL (fault : nat -> bool) (k : nat) (q : ddl) (c : Catalog) : option ddlErr * Catalog :=
  if fault k then (Some EngineError, c) else execDDL q c.

(** The loop over [tables]: an error is [log.Fatalf]. *)
Fixpoint createTables (fault : nat -> bool) (k : nat) (l : list ddl) (c : Catalog) : bool * Catalog :=
  match l with
  | [] => (true, c)
  | q :: l =>
      match runDDL fault k q c with
      | (Some _, c) => (false, c)
      | (None, c) => createTables fault (S k) l c
      end
  end.

(** The loop over [migrations], and [initRewardsDB]: an error is logged or
    ignored. *)
Fixpoint migrate (fault : nat -> bool) (k : nat) (l : list ddl) (c : Catalog) : Catalog :=
  match l with
  | [] => c
  | q :: l => migrate fault (S k) l (runDDL fault k q c).2
  end.

(** The part of [initDB] that touches the schema: whether the process goes on,
    and the catalog it leaves. *)
Definition initSchema (fault : nat -> bool) (c : Catalog) : bool * Catalog :=
  let '(ok, c) := createTables fault 0 tables c in
  if ok then (true, migrate fault (length tables) (migrations ++ rewardTables) c) else (false, c).

(** What a fresh installation has. *)
Definition fullCatalog : Catalog := (initSchema (fun _ => false) emptyCatalog).2.

(** The columns of the rows the handlers are modelled on ([Db]). *)
Definition rowColumns : list (string * list string) := [
  ("users", ["username"; "email"; "mood"; "display_name"; "password_hash"; "is_verified";
    "verification_code"; "phone_number"; "phone_verified"; "created_at"; "totp_secret";
    "totp_enabled"; "is_admin"; "role"; "is_banned"; "ban_reason"; "banned_at"; "fcm_token";
    "last_ip"; "last_login_at"; "signup_ip"; "phone_verification_code"; "status"; "supporter";
    "supporter_since"; "referred_by"]);
  ("friends", ["user_a"; "user_b"; "status"]);
  ("contact_groups", ["owner"; "contact"; "group_name"]);
  ("offline_messages", ["id"; "sender"; "recipient"; "body"; "msg_type"; "convo";
    "created_at"; "msg_id"]);
  ("conversations", ["id"; "name"; "created_by"]);
  ("conversation_members", ["convo_id"; "username"]);
  ("convo_messages", ["id"; "convo_id"; "sender"; "body"; "sent_at"]);
  ("blocks", ["blocker"; "blocked"; "created_at"]);
  ("abuse_reports", ["id"; "reporter"; "subject"; "reason"; "body"; "status"; "resolved_by";
    "resolved_at"; "created_at"]);
  ("session_tokens", ["token"; "username"; "device_info"; "created_at"; "expires_at";
    "revoked"; "pending_device"]);
  ("password_resets", ["token"; "username"; "expires_at"; "used"]);
  ("qr_login_tokens", ["token"; "username"; "session_token"; "device_info"; "expires_at";
    "approved"]);
  ("servers", ["id"; "name"; "description"; "icon"; "owner"; "visibility"; "invite_code";
    "created_at"]);
  ("channels", ["id"; "server_id"; "name"; "topic"; "kind"; "position"]);
  ("server_members", ["server_id"; "username"; "role"; "joined_at"]);
  ("channel_messages", ["id"; "channel_id"; "sender"; "body"; "created_at"; "edited";
    "deleted"; "pinned"]);
  ("channel_reactions", ["msg_id"; "emoji"; "username"]);
  ("stories", ["id"; "author"; "media_url"; "media_kind"; "caption"; "created_at";
    "expires_at"]);
  ("story_views", ["story_id"; "viewer"]);
  ("user_settings", ["username"; "key"; "value"]);
  ("push_subscriptions", ["username"; "endpoint"; "p256dh"; "auth"]);
  ("invite_codes", ["code"; "inviter"; "email"]);
  ("dm_messages", ["id"; "msg_id"; "sender"; "recipient"; "body"; "edited"; "deleted";
    "created_at"]);
  ("dm_reactions", ["msg_id"; "username"; "emoji"]);
  ("key_backups", ["username"; "ciphertext"; "salt"; "iterations"; "created_at"]);
  ("totp_backup_codes", ["username"; "code_hash"; "used"]);
  ("blocked_ips", ["ip"]);
  ("known_devices", ["username"; "device_id"; "label"; "last_seen"; "last_ip"]);
  ("device_challenges", ["id"; "username"; "device_id"; "session_token"; "code"; "label";
    "ip"; "attempts"; "approved"; "consumed"; "expires_at"]);
  ("whiteboard_strokes", ["id"; "channel_id"; "author"; "stroke_uid"; "stroke"]);
  ("calls", ["id"; "caller"; "callee"; "kind"; "started_at"; "answered"; "duration_s"]);
  ("reward_crates", ["id"; "owner"; "source"; "item"; "shards"; "created_at"; "opened_at"]);
  ("reward_crafts", ["owner"; "item"; "cost"]);
  ("supporter_requests", ["id"; "username"; "name"; "email"; "status"; "created_at"]);
  ("bmc_payments", ["id"; "supporter_name"; "supporter_email"; "amount"; "message";
    "matched_username"; "created_at"]);
  ("skype_import_messages", ["username"; "conversation_id"; "conversation_display";
    "sender_display"; "body"; "sent_at"]);
  ("skype_import_contacts", ["username"; "skype_id"; "display_name"; "phaze_username";
    "invite_sent"])].
