(* ===== verification/SchemaSpec.v ===== *)
(** * Start-up brings any older database up to date

    By one induction over a list of statements that only names what was
    created before. *)

From Stdlib Require Import ZArith Lia.
From stdpp Require Import base strings list gmap.
From S2P Require Import Prelude Schema.

Open Scope string_scope.
Open Scope list_scope.

Definition noFault : nat -> bool := fun _ => false.

(** Every statement of the server, in order. *)
Definition allDDL : list ddl := tables ++ migrations ++ rewardTables.

(** A catalog an older version may have left: a table that is there has the
    columns its [CREATE TABLE] names; columns and tables may be missing, and
    there may be others. *)
Definition older (c : Catalog) : Prop :=
  forall t cols keys have, CreateTable t cols keys ∈ allDDL -> ctables c !! t = Some have -> cols ⊆ have.1.

(** What a statement is for. *)
Definition done_ (q : ddl) (c : Catalog) : Prop :=
  match q with
  | CreateTable t cols _ => exists have, ctables c !! t = Some have /\ cols ⊆ have.1
  | AddColumn t col => exists have, ctables c !! t = Some have /\ col ∈ have.1
  | CreateIndex name _ _ => name ∈ cindexes c
  end.

(** Tables and columns are only ever added. *)
Definition grows (c c' : Catalog) : Prop :=
  (forall t have, ctables c !! t = Some have ->
     exists more, ctables c' !! t = Some (have.1 ++ more, have.2)) /\ cindexes c ⊆ cindexes c'.

#[export] Instance grows_preorder : PreOrder grows.
Proof.
  split.
  - intros c. split; [|done]. intros t [cols keys] H. exists []. by rewrite app_nil_r.
  - intros c1 c2 c3 [H1 I1] [H2 I2]. split; [|set_solver]. intros t have H.
    destruct (H1 t have H) as [m1 E1]. destruct (H2 t _ E1) as [m2 E2]. cbn in E2.
    exists (m1 ++ m2). by rewrite app_assoc.
Qed.

Lemma subset_spec l k : subset l k = true <-> l ⊆ k.
Proof.
  unfold subset. rewrite forallb_forall. split.
  - intros H x Hx. apply list_elem_of_In, H in Hx. by apply bool_decide_eq_true in Hx.
  - intros H x Hx. apply bool_decide_eq_true, H. by apply list_elem_of_In.
Qed.

Lemma exec_grows q c : grows c (execDDL q c).2.
Proof.
  destruct q as [t cols keys|t col|name t cols]; cbn [execDDL].
  - destruct (ctables c !! t) as [have|] eqn:E; [done|]. split; [|done]. intros u have Hu.
    cbn [snd ctables]. exists []. rewrite app_nil_r, lookup_insert_ne by (intros ->; congruence).
    by destruct have.
  - destruct (ctables c !! t) as [[cols keys]|] eqn:E; [|done].
    destruct (bool_decide _); [done|]. split; [|done]. intros u have Hu. cbn [snd ctables].
    destruct (decide (u = t)) as [->|Hne].
    + rewrite E in Hu. injection Hu as <-. exists [col]. by rewrite lookup_insert_eq.
    + exists []. rewrite app_nil_r, lookup_insert_ne by done. by destruct have.
  - destruct (bool_decide _); [done|]. destruct (ctables c !! t) as [[have keys]|]; [|done].
    destruct (subset cols have); [|done]. split; [|cbn; set_solver].
    intros u [h k] Hu. cbn [snd ctables]. exists []. by rewrite app_nil_r.
Qed.

Lemma runDDL_grows f k q c : grows c (runDDL f k q c).2.
Proof. unfold runDDL. destruct (f k); [done | apply exec_grows]. Qed.

Lemma grows_done q c c' : grows c c' -> done_ q c -> done_ q c'.
Proof.
  intros [H I]. destruct q as [t cols keys|t col|name t cols]; cbn [done_].
  - intros (have & E & S). destruct (H t have E) as [more ->]. eexists. split; [done|]. cbn. set_solver.
  - intros (have & E & S). destruct (H t have E) as [more ->]. eexists. split; [done|]. cbn. set_solver.
  - set_solver.
Qed.

(** No table is created by two statements. *)
Definition createOf (t : string) : option (list string) :=
  match find_first (fun q => match q with CreateTable u _ _ => u ==? t | _ => false end) allDDL with
  | Some (CreateTable _ cols _) => Some cols
  | _ => None
  end.

Lemma createOf_unique t cols keys : CreateTable t cols keys ∈ allDDL -> createOf t = Some cols.
Proof.
  assert (H : forallb (fun q => match q with
                                | CreateTable t cols _ => bool_decide (createOf t = Some cols)
                                | _ => true end) allDDL = true) by (vm_compute; reflexivity).
  intros Hin%list_elem_of_In. apply (proj1 (forallb_forall _ _) H) in Hin. cbv beta iota in Hin.
  by apply bool_decide_eq_true in Hin.
Qed.

Lemma elem_of_allDDL q : q ∈ allDDL <-> q ∈ tables \/ q ∈ migrations ++ rewardTables.
Proof. apply elem_of_app. Qed.

#[local] Opaque allDDL.

(** A statement of the server keeps an older catalog one. *)
Lemma exec_older q c : q ∈ allDDL -> older c -> older (execDDL q c).2.
Proof.
  intros Hq Ho t cols keys have Hin Hc. destruct (ctables c !! t) as [h|] eqn:E.
  - destruct (exec_grows q c) as [Hg _]. destruct (Hg t h E) as [more Em]. rewrite Em in Hc.
    injection Hc as <-. intros x Hx. apply elem_of_app. left. by apply (Ho t cols keys h Hin E).
  - destruct q as [u ucols ukeys|u col|name u ucols]; cbn [execDDL] in Hc.
    + destruct (ctables c !! u) eqn:Eu; cbn [snd ctables] in Hc; [congruence|].
      destruct (decide (t = u)) as [->|Hne]; [|rewrite lookup_insert_ne in Hc by done; congruence].
      rewrite lookup_insert_eq in Hc. injection Hc as <-. cbn [fst].
      apply createOf_unique in Hin, Hq. rewrite Hq in Hin. by injection Hin as ->.
    + destruct (ctables c !! u) as [[ucols ukeys]|] eqn:Eu; cbn [snd] in Hc; [|congruence].
      destruct (bool_decide _); cbn [snd ctables] in Hc; [congruence|].
      rewrite lookup_insert_ne in Hc by (intros ->; congruence). congruence.
    + destruct (bool_decide _); cbn [snd] in Hc; [congruence|].
      destruct (ctables c !! u) as [[h k]|]; cbn [snd] in Hc; [|congruence].
      destruct (subset _ _); cbn [snd ctables] in Hc; congruence.
Qed.

Lemma runDDL_older f k q c : q ∈ allDDL -> older c -> older (runDDL f k q c).2.
Proof. unfold runDDL. destruct (f k); [done | apply exec_older]. Qed.

(** ** Lists of statements that name what is there *)

(** Whether every statement finds what it names, given the tables known so far
    with the columns they have at least. *)
Fixpoint wellOrdered (known : gmap string (list string)) (l : list ddl) : bool :=
  match l with
  | [] => true
  | CreateTable t cols _ :: l => wellOrdered (<[t := cols]> known) l
  | AddColumn t col :: l =>
      match known !! t with
      | Some cols => wellOrdered (<[t := cols ++ [col]]> known) l
      | None => false
      end
  | CreateIndex _ t cols :: l =>
      match known !! t with Some have => subset cols have && wellOrdered known l | None => false end
  end.

(** What is known so far after a list. *)
Fixpoint learn (known : gmap string (list string)) (l : list ddl) : gmap string (list string) :=
  match l with
  | [] => known
  | CreateTable t cols _ :: l => learn (<[t := cols]> known) l
  | AddColumn t col :: l => learn (match known !! t with Some cols => <[t := cols ++ [col]]> known | None => known end) l
  | CreateIndex _ _ _ :: l => learn known l
  end.

Definition knows (known : gmap string (list string)) (c : Catalog) : Prop :=
  forall t cols, known !! t = Some cols -> exists have, ctables c !! t = Some have /\ cols ⊆ have.1.

Lemma grows_knows known c c' : grows c c' -> knows known c -> knows known c'.
Proof.
  intros [H _] K t cols E. destruct (K t cols E) as (have & Eh & Hs). destruct (H t have Eh) as [more ->].
  eexists. split; [done|]. intros x Hx. apply elem_of_app. left. by apply Hs.
Qed.

(** One statement that finds what it names does what it is for, and fails only
    as a column that is there already. *)
Lemma exec_known q known c :
  q ∈ allDDL -> older c -> knows known c -> wellOrdered known [q] = true ->
  let r := execDDL q c in
  (r.1 = None \/ exists t col, q = AddColumn t col) /\ done_ q r.2 /\ knows (learn known [q]) r.2.
Proof.
  intros Hq Ho K W. cbv zeta. pose proof (grows_knows known c _ (exec_grows q c) K) as Kr. revert Kr.
  destruct q as [t cols keys|t col|name t cols]; cbn [execDDL wellOrdered learn done_] in *.
  - assert (L : forall c', (exists have, ctables c' !! t = Some have /\ cols ⊆ have.1) ->
                  knows known c' -> knows (<[t := cols]> known) c').
    { intros c' Hc Kc u ucols. destruct (decide (u = t)) as [->|Hne].
      - rewrite lookup_insert_eq. by intros [= <-].
      - rewrite lookup_insert_ne by done. apply Kc. }
    assert (D : exists have, ctables (match ctables c !! t with
                  | Some _ => (None, c)
                  | None => (None, mkCatalog (<[t := (cols, keys)]> (ctables c)) (cindexes c)) end
                  : option ddlErr * Catalog).2 !! t = Some have /\ cols ⊆ have.1).
    { destruct (ctables c !! t) as [have|] eqn:E.
      - exists have. split; [done | by apply (Ho t cols keys)].
      - exists (cols, keys). split; [apply lookup_insert_eq | done]. }
    intros Kr. split; [left; by destruct (ctables c !! t)|]. split; [exact D | by apply L].
  - destruct (known !! t) as [kc|] eqn:Ek; [|done]. destruct (K t kc Ek) as ([have keys] & E & Hs).
    rewrite E. cbn [fst] in Hs. intros Kr. split; [right; eauto|].
    assert (D : exists h, ctables (if bool_decide (col ∈ have) then (Some DuplicateColumn, c)
                  else (None, mkCatalog (<[t := (have ++ [col], keys)]> (ctables c)) (cindexes c))).2 !! t
                  = Some h /\ kc ++ [col] ⊆ h.1).
    { clear Hq Ho. destruct (bool_decide (col ∈ have)) eqn:Eb; cbn [snd ctables].
      - apply bool_decide_eq_true in Eb. exists (have, keys). split; [done|].
        intros x [Hx|Hx%list_elem_of_singleton]%elem_of_app; [by apply Hs | by subst].
      - exists (have ++ [col], keys). split; [apply lookup_insert_eq|].
        intros x [Hx|Hx]%elem_of_app; apply elem_of_app; [left; by apply Hs | by right]. }
    destruct D as (h & Eh & Hh). split.
    + exists h. split; [exact Eh|]. apply Hh, elem_of_app. right. by apply list_elem_of_singleton.
    + intros u ucols. destruct (decide (u = t)) as [->|Hne].
      * rewrite lookup_insert_eq. intros [= <-]. by exists h.
      * rewrite lookup_insert_ne by done. apply Kr.
  - destruct (known !! t) as [kc|] eqn:Ek; [|done]. destruct (K t kc Ek) as ([have keys] & E & Hs).
    apply andb_true_iff in W as [W _]. apply subset_spec in W. rewrite E.
    assert (S : subset cols have = true) by (apply subset_spec; intros x Hx; by apply Hs, W).
    rewrite S. destruct (bool_decide (name ∈ cindexes c)) eqn:Eb; intros Kr.
    + apply bool_decide_eq_true in Eb. split; [by left | done].
    + split; [by left|]. split; [|exact Kr]. clear Hq Ho. cbn. set_solver.
Qed.

Lemma wellOrdered_cons known q l :
  wellOrdered known (q :: l) = wellOrdered known [q] && wellOrdered (learn known [q]) l.
Proof.
  destruct q; cbn [wellOrdered learn]; [done| |]; destruct (known !! t) as [|] eqn:E; try done.
  by rewrite andb_true_r.
Qed.

Lemma learn_cons known q l : learn known (q :: l) = learn (learn known [q]) l.
Proof. by destruct q. Qed.

Lemma learn_app l known k : learn known (l ++ k) = learn (learn known l) k.
Proof.
  revert known. induction l as [|q l IH]; intros known; [done|].
  change ((q :: l) ++ k) with (q :: (l ++ k)). by rewrite (learn_cons known q (l ++ k)), (learn_cons known q l), IH.
Qed.

(** ** The two loops *)

(** What a loop over [l] leaves behind. *)
Definition loopDone (known : gmap string (list string)) (l : list ddl) (c c' : Catalog) : Prop :=
  grows c c' /\ older c' /\ knows (learn known l) c' /\ forall q, q ∈ l -> done_ q c'.

Lemma loopDone_cons known q l c c' :
  q ∈ allDDL -> older c -> knows known c -> wellOrdered known [q] = true ->
  loopDone (learn known [q]) l (execDDL q c).2 c' -> loopDone known (q :: l) c c'.
Proof.
  intros Hq Ho K W (G & O & Kn & D). destruct (exec_known q known c Hq Ho K W) as (_ & Dq & _).
  split; [by transitivity (execDDL q c).2; [apply exec_grows|]|]. split; [exact O|].
  rewrite learn_cons. split; [exact Kn|]. intros p [->|Hp]%elem_of_cons; [by apply (grows_done q _ _ G) | auto].
Qed.

Lemma migrate_done l : forall k known c,
  l ⊆ allDDL -> older c -> knows known c -> wellOrdered known l = true ->
  loopDone known l c (migrate noFault k l c).
Proof.
  induction l as [|q l IH]; intros k known c Hl Ho K W; cbn [migrate].
  { split; [done|]. split; [done|]. split; [done|]. by intros q ?%elem_of_nil. }
  rewrite (wellOrdered_cons known q l) in W. apply andb_true_iff in W as [W1 W2].
  assert (Hq : q ∈ allDDL) by (apply Hl, list_elem_of_here).
  apply loopDone_cons; try done. apply IH; [| by apply exec_older | by apply exec_known | done].
  intros p Hp. apply Hl. by right.
Qed.

Definition isAdd (q : ddl) : bool := match q with AddColumn _ _ => true | _ => false end.

(** The loop over [tables] goes through, or a statement of it was refused. *)
Lemma createTables_done f l : forall k known c,
  l ⊆ allDDL -> older c -> knows known c -> wellOrdered known l = true -> existsb isAdd l = false ->
  let r := createTables f k l c in
  if r.1 then loopDone known l c r.2 else exists i, (k <= i < k + length l)%nat /\ f i = true.
Proof.
  induction l as [|q l IH]; intros k known c Hl Ho K W A; cbn [createTables].
  { split; [done|]. split; [done|]. split; [done|]. by intros q ?%elem_of_nil. }
  rewrite (wellOrdered_cons known q l) in W. apply andb_true_iff in W as [W1 W2]. cbn [existsb] in A.
  apply orb_false_iff in A as [A1 A2].
  assert (Hq : q ∈ allDDL) by (apply Hl, list_elem_of_here).
  pose proof (exec_known q known c Hq Ho K W1) as (R & _ & Kq). unfold runDDL.
  destruct (f k) eqn:Ef; [exists k; cbn; split; [lia | done]|].
  assert (E : execDDL q c = (None, (execDDL q c).2)).
  { destruct R as [R|(t & col & ->)]; [|done]. destruct (execDDL q c). cbn in R |- *. by subst. }
  rewrite E. pose proof (IH (S k) (learn known [q]) (execDDL q c).2) as D.
  destruct (createTables f (S k) l (execDDL q c).2) as [[|] c1]; cbn [fst snd] in D |- *.
  - apply loopDone_cons; try done. apply D; auto using exec_older. intros p Hp. apply Hl. by right.
  - destruct D as (i & Hi & Hf); auto using exec_older; [intros p Hp; apply Hl; by right|].
    exists i. cbn [length]. split; [lia | done].
Qed.

(** A loop with failing statements still only adds, and keeps the catalog one
    an older version may have left. *)
Lemma migrate_safe f l : forall k c, l ⊆ allDDL -> older c -> grows c (migrate f k l c) /\ older (migrate f k l c).
Proof.
  induction l as [|q l IH]; intros k c Hl Ho; cbn [migrate]; [done|].
  destruct (IH (S k) (runDDL f k q c).2) as [G O].
  - intros p Hp. apply Hl. by right.
  - apply runDDL_older; [apply Hl, list_elem_of_here | done].
  - split; [by transitivity (runDDL f k q c).2; [apply runDDL_grows|] | done].
Qed.

Lemma createTables_safe f l : forall k c, l ⊆ allDDL -> older c ->
  grows c (createTables f k l c).2 /\ older (createTables f k l c).2.
Proof.
  induction l as [|q l IH]; intros k c Hl Ho; cbn [createTables]; [done|].
  pose proof (runDDL_grows f k q c) as G1.
  assert (O1 : older (runDDL f k q c).2) by (apply runDDL_older; [apply Hl, list_elem_of_here | done]).
  destruct (runDDL f k q c) as [[e|] c1]; [by split|]. destruct (IH (S k) c1) as [G O]; [|done|].
  - intros p Hp. apply Hl. by right.
  - split; [by transitivity c1 | done].
Qed.

(** Statements whose work is done change nothing, failing or not. *)
Lemma done_still f k q c : done_ q c -> (runDDL f k q c).2 = c.
Proof.
  unfold runDDL. destruct (f k); [done|]. destruct q as [t cols keys|t col|name t cols]; cbn [done_ execDDL].
  - by intros (have & -> & _).
  - intros ([have keys] & -> & H). cbn in H. by rewrite bool_decide_eq_true_2.
  - intros H. by rewrite bool_decide_eq_true_2.
Qed.

Lemma migrate_still f l k c : (forall q, q ∈ l -> done_ q c) -> migrate f k l c = c.
Proof.
  revert k. induction l as [|q l IH]; intros k H; cbn [migrate]; [done|].
  rewrite (done_still f k q c) by (apply H, list_elem_of_here). apply IH. intros p Hp. apply H. by right.
Qed.

Lemma createTables_still f l k c : (forall q, q ∈ l -> done_ q c) -> (createTables f k l c).2 = c.
Proof.
  revert k. induction l as [|q l IH]; intros k H; cbn [createTables]; [done|].
  pose proof (done_still f k q c (H q (list_elem_of_here _ _))) as E.
  destruct (runDDL f k q c) as [[e|] c1]; cbn [snd] in E; subst c1; [done|].
  apply IH. intros p Hp. apply H. by right.
Qed.

(** ** Start-up *)

Lemma statements_ordered :
  wellOrdered ∅ tables = true /\ wellOrdered (learn ∅ tables) (migrations ++ rewardTables) = true.
Proof. split; vm_compute; reflexivity. Qed.

Lemma learn_allDDL : learn ∅ allDDL = learn (learn ∅ tables) (migrations ++ rewardTables).
Proof. exact (learn_app tables ∅ (migrations ++ rewardTables)). Qed.

Lemma tables_in : tables ⊆ allDDL.
Proof. intros q Hq. apply elem_of_allDDL. by left. Qed.

Lemma rest_in : migrations ++ rewardTables ⊆ allDDL.
Proof. intros q Hq. apply elem_of_allDDL. by right. Qed.

Lemma initSchema_safe f c : older c -> grows c (initSchema f c).2 /\ older (initSchema f c).2.
Proof.
  intros Ho. unfold initSchema. destruct (createTables_safe f tables 0 c tables_in Ho) as [G O].
  destruct (createTables f 0 tables c) as [[|] c1]; [|done]. cbn [snd] in G, O |- *.
  destruct (migrate_safe f (migrations ++ rewardTables) (length tables) c1 rest_in O) as [G2 O2].
  split; [by transitivity c1 | done].
Qed.

Lemma knows_empty c : knows ∅ c.
Proof. intros t cols H. by rewrite lookup_empty in H. Qed.

Lemma tables_create : existsb isAdd tables = false.
Proof. vm_compute. reflexivity. Qed.

(** With faults: every statement of [tables] is done, or one was refused and
    the process stops. *)
Lemma initSchema_tables f c : older c ->
  if (initSchema f c).1 then forall q, q ∈ tables -> done_ q (initSchema f c).2
  else exists i, (i < length tables)%nat /\ f i = true.
Proof.
  intros Ho. pose proof (proj1 statements_ordered) as W.
  pose proof (createTables_done f tables 0 ∅ c tables_in Ho (knows_empty c) W tables_create) as T.
  unfold initSchema. destruct (createTables f 0 tables c) as [[|] c1]; cbn [fst snd] in T |- *.
  - destruct T as (G & O & _ & D). intros q Hq. eapply grows_done; [|by apply D].
    by apply migrate_safe; [apply rest_in|].
  - destruct T as (i & Hi & Hf). exists i. split; [lia | done].
Qed.

Lemma initSchema_done c : older c ->
  (initSchema noFault c).1 = true /\ loopDone ∅ allDDL c (initSchema noFault c).2.
Proof.
  intros Ho. destruct statements_ordered as (W1 & W2). unfold initSchema.
  pose proof (createTables_done noFault tables 0 ∅ c tables_in Ho (knows_empty c) W1 tables_create) as T.
  destruct (createTables noFault 0 tables c) as [[|] c1]; cbn [fst snd] in T |- *;
    [|by destruct T as (i & _ & T)]. destruct T as (G & O & K & D). split; [done|].
  destruct (migrate_done (migrations ++ rewardTables) (length tables) _ c1 rest_in O K W2) as (G2 & O2 & K2 & D2).
  split; [by transitivity c1|]. split; [done|]. rewrite learn_allDDL. split; [done|].
  intros q [Hq|Hq]%elem_of_allDDL; [by apply (grows_done q _ _ G2), D | by apply D2].
Qed.

Lemma initSchema_still f c : (forall q, q ∈ allDDL -> done_ q c) -> (initSchema f c).2 = c.
Proof.
  intros D. unfold initSchema. pose proof (createTables_still f tables 0 c (fun q H => D q (tables_in q H))) as E.
  destruct (createTables f 0 tables c) as [[|] c1]; cbn [snd] in E |- *; subst c1; [|done].
  apply migrate_still. intros q Hq. by apply D, rest_in.
Qed.

(** The columns of a list of tables that are all in a map. *)
Definition covered (l : list (string * list string)) (m : gmap string (list string)) : bool :=
  forallb (fun '(t, cols) => match m !! t with Some have => subset cols have | None => false end) l.

Lemma covered_knows l m c t cols :
  covered l m = true -> knows m c -> (t, cols) ∈ l -> exists have, ctables c !! t = Some have /\ cols ⊆ have.1.
Proof.
  unfold covered. rewrite forallb_forall. intros H K Hin%list_elem_of_In. specialize (H _ Hin). cbn in H.
  destruct (m !! t) as [mc|] eqn:E; [|done]. apply subset_spec in H. destruct (K t mc E) as (have & Eh & Hs).
  exists have. split; [done | by transitivity mc].
Qed.

Definition fullColumns : list (string * list string) :=
  map (fun p => (p.1, p.2.1)) (map_to_list (ctables fullCatalog)).

Lemma fullColumns_known : covered fullColumns (learn ∅ allDDL) = true.
Proof. vm_compute. reflexivity. Qed.

Lemma rowColumns_known : covered rowColumns (learn ∅ allDDL) = true.
Proof. vm_compute. reflexivity. Qed.

Lemma fullIndexes n : n ∈ cindexes fullCatalog ->
  exists t cols, CreateIndex n t cols ∈ allDDL.
Proof.
  assert (H : forallb (fun n => existsb (fun q => match q with CreateIndex m _ _ => m ==? n | _ => false end) allDDL)
                (elements (cindexes fullCatalog)) = true) by (vm_compute; reflexivity).
  intros Hn%elem_of_elements%list_elem_of_In. apply (proj1 (forallb_forall _ _) H) in Hn.
  cbv beta in Hn. apply existsb_exists in Hn. destruct Hn as (q & Hin & E).
  destruct q as [| |m t cols]; [discriminate|discriminate|]. apply bool_decide_eq_true in E as ->.
  exists t, cols. by apply list_elem_of_In.
Qed.

(** C26: whatever an older version left of the database, and wherever the engine
    failed during an earlier start, the next start whose statements are not
    refused goes through: the process does not stop, every table and column of a
    fresh installation is there, so every column the handlers name, and every
    index; no table and no column that was there is lost or moved. Later starts
    change nothing, even if statements of theirs fail. *)
Theorem schema_upgrade f c :
  older c ->
  let r := initSchema noFault (initSchema f c).2 in
  r.1 = true
  /\ (forall t have, ctables fullCatalog !! t = Some have ->
        exists got, ctables r.2 !! t = Some got /\ have.1 ⊆ got.1)
  /\ (forall t cols, (t, cols) ∈ rowColumns -> exists got, ctables r.2 !! t = Some got /\ cols ⊆ got.1)
  /\ cindexes fullCatalog ⊆ cindexes r.2
  /\ grows c r.2
  /\ (forall g, (initSchema g r.2).2 = r.2).
Proof.
  intros Ho. destruct (initSchema_safe f c Ho) as [G1 O1]. cbv zeta.
  pose proof (initSchema_done _ O1) as H. revert H.
  generalize (initSchema noFault (initSchema f c).2). intros r [T (G2 & O2 & K & D)].
  split; [exact T|]. split; [|split; [|split; [|split]]].
  - intros t have H. apply (covered_knows fullColumns _ r.2 t have.1 fullColumns_known K).
    apply list_elem_of_fmap. exists (t, have). split; [done|]. by apply elem_of_map_to_list.
  - intros t cols. by apply covered_knows with (1 := rowColumns_known).
  - intros n Hn. destruct (fullIndexes n Hn) as (t & cols & Hq). exact (D _ Hq).
  - by transitivity (initSchema f c).2.
  - intros g. by apply initSchema_still.
Qed.

(** A database of an early version: two tables without what was added since,
    and a column of somebody's own. *)
Definition earlyCatalog : Catalog :=
  mkCatalog (<["users" := (["id"; "username"; "email"; "mood"; "display_name"; "password_hash"; "salt";
      "is_verified"; "verification_code"; "phone_number"; "phone_verified"; "created_at"; "note"],
      [["id"]; ["username"]])]>
    (<["blocks" := (["blocker"; "blocked"; "created_at"], [["blocker"; "blocked"]])]> ∅)) ∅.

Definition olderb (c : Catalog) : bool :=
  forallb (fun q => match q with
                    | CreateTable t cols _ =>
                        match ctables c !! t with Some have => subset cols have.1 | None => true end
                    | _ => true
                    end) allDDL.

Lemma olderb_spec c : olderb c = true -> older c.
Proof.
  unfold olderb. rewrite forallb_forall. intros H t cols keys have Hin%list_elem_of_In Hc.
  specialize (H _ Hin). cbn in H. rewrite Hc in H. by apply subset_spec.
Qed.

Lemma schema_upgrade_witness :
  olderb earlyCatalog = true
  /\ (initSchema (fun k => Nat.eqb k 20) earlyCatalog).1 = false
  /\ (initSchema noFault (initSchema (fun k => Nat.eqb k 20) earlyCatalog).2).1 = true
  /\ grows earlyCatalog (initSchema noFault (initSchema (fun k => Nat.eqb k 20) earlyCatalog).2).2.
Proof.
  split; [vm_compute; reflexivity|]. split; [vm_compute; reflexivity|].
  assert (O : older earlyCatalog) by (apply olderb_spec; vm_compute; reflexivity).
  pose proof (schema_upgrade (fun k => Nat.eqb k 20) earlyCatalog O) as (A & _ & _ & _ & B & _).
  split; [exact A | exact B].
Defined.
