(* ===== verification/Boot.v ===== *)
(** * Start-up ([main] of [main.go])

    The working directory, the settings read once, and the order of [main]:
    the store of uploads, the schema, the roles, what is loaded into memory,
    and the address it listens on.  Each check that fails ends the process. *)

From Stdlib Require Import ZArith Lia Ascii.
From stdpp Require Import base strings list gmap.
From S2P Require Import Prelude GoRt GoStd Filepath Store Db World Wf Accounts Dispatch.
From S2P Require Import BlobStore Schema.

Open Scope string_scope.
Open Scope list_scope.
Open Scope Z_scope.

(** ** The working directory ([resolveWorkingDir]) *)

(** The process and the file system it sees. *)
Record Host := mkHost {
  hCwd : string;                 (* the working directory *)
  hGetwd : bool;                 (* os.Getwd succeeds *)
  hExe : option string;          (* os.Executable *)
  hExists : string -> bool;      (* os.Stat succeeds on a full path *)
  hChdir : string -> bool }.     (* os.Chdir succeeds *)

Definition chdir (d : string) (h : Host) : Host :=
  mkHost d (hGetwd h) (hExe h) (hExists h) (hChdir h).

(** [os.Stat]: a relative path is below the working directory. *)
Definition osStat (h : Host) (path : string) : bool :=
  hExists h (if rooted path then Clean path else JoinPath [hCwd h; path]).

(** [filepath.Abs] asks [os.Getwd]. *)
Definition absPath (h : Host) (path : string) : option string :=
  Abs (if hGetwd h then Some (hCwd h) else None) path.

Definition landing : string := "templates/landing.html".

Definition candidates (exe : string) : list string :=
  let exeDir := Clean (Dir exe) in
  [exeDir; JoinPath [exeDir; ".."; "nexus_server"]; JoinPath [exeDir; ".."; ".."; "nexus_server"]].

(** The loop over the candidates. *)
Fixpoint tryDirs (l : list string) (h : Host) : Host :=
  match l with
  | [] => h
  | c :: l =>
      match absPath h c with
      | None => tryDirs l h
      | Some abs =>
          if negb (osStat h (JoinPath [abs; "templates"; "landing.html"])) then tryDirs l h
          else if hChdir h abs then chdir abs h
          else tryDirs l h
      end
  end.

Definition resolveWorkingDir (e : Env) (h : Host) : Host :=
  let d := TrimSpace (getenv e "PHAZE_ASSET_ROOT") in
  if negb (is_empty d) then
    match absPath h d with
    | None => h
    | Some abs => if hChdir h abs then chdir abs h else h
    end
  else if osStat h landing then h
  else
    match hExe h with
    | None => h
    | Some exe => tryDirs (candidates exe) h
    end.

(** ** Settings read once *)

Definition orDefault (v d : string) : string := if is_empty v then d else v.

Definition listenPort (e : Env) : string := orDefault (getenv e "PORT") "8080".
Definition dbPath (e : Env) : string := orDefault (getenv e "DB_PATH") "nexus.db".
Definition bindAddr (e : Env) : string := orDefault (getenv e "BIND_ADDR") "0.0.0.0".
Definition listenAddr (e : Env) : string := bindAddr e +:+ ":" +:+ listenPort e.

(** [initSentry]: the DSN and the environment name, when error reporting is on. *)
Definition initSentry (e : Env) : option (string * string) :=
  let dsn := getenv e "SENTRY_DSN" in
  if is_empty dsn then None else Some (dsn, orDefault (getenv e "SENTRY_ENVIRONMENT") "production").

(** [initFCM]: whether there is a client afterwards; [firebase] is the SDK on
    the credentials. *)
Definition initFCM (firebase : string -> bool) (e : Env) : bool :=
  let keyJSON := getenv e "FCM_SERVICE_ACCOUNT_JSON" in
  if is_empty keyJSON then false else firebase keyJSON.

(** ** [main] *)

(** How [main] ends up: serving, or one of the [log.Fatal]s. *)
Inductive outcome :=
| Serving (addr : string)
| FatalStore (why : string)
| FatalSchema
| FatalListen (addr : string).

Section Main.
Context (urlParse : string -> option (string * string)).
Context (minioNew : string -> bool -> string -> bool).
Context (schemaFault : nat -> bool).       (* a statement of [initDB] on the schema fails *)
Context (listen : string -> bool).         (* http.ListenAndServe can bind the address *)

(** The schema is a catalog beside the rows of the world. *)
Definition main (c : Catalog) (w : World) : outcome * Catalog * World :=
  let e := wEnv w in
  match blobStoreFromEnv urlParse minioNew e with
  | inl why => (FatalStore why, c, w)
  | inr _ =>
      let '(ok, c) := initSchema schemaFault c in
      if negb ok then (FatalSchema, c, w)
      else
        let w := (start w).2 in
        (if listen (listenAddr e) then Serving (listenAddr e) else FatalListen (listenAddr e), c, w)
  end.
End Main.
