(* ===== verification/BootSpec.v ===== *)
(** * What start-up guarantees

    The roles that [initDB] gives, the directory the process ends up in, and
    how [main] can end. *)

From Stdlib Require Import ZArith Lia Ascii.
From stdpp Require Import base strings list gmap.
From S2P Require Import Prelude GoRt GoStd Filepath Store Db World Wf Samples Spaces Accounts Dispatch.
From S2P Require Import BlobStore Schema SchemaSpec Boot.

Open Scope string_scope.
Open Scope list_scope.
Open Scope Z_scope.

(** ** Roles *)

(** The names [PHAZE_ADMIN_USERS] lists. *)
Definition adminNames (e : Env) : list string :=
  let raw := TrimSpace (getenv e "PHAZE_ADMIN_USERS") in
  if is_empty raw then [] else TrimSpace <$> Split raw ","%char.

Definition listed (names : list string) (u : User) : Prop := u_username u ∈ names /\ u_username u <> "".
#[export] Instance listed_dec names u : Decision (listed names u) := _.

Definition promoted (u : User) : User := set_u_is_admin 1 (set_u_role "super_admin" u).

Definition legacyAdmin (u : User) : bool := (u_is_admin u =? 1) && (is_empty (u_role u) || (u_role u ==? "user")).

(** What start-up makes of a row. *)
Definition bootRole (names : list string) (u : User) : User :=
  if decide (listed names u) then promoted u
  else if legacyAdmin u then set_u_role "admin" u else u.

(** What it may make of a row when statements fail. *)
Definition raised (names : list string) (u u' : User) : Prop :=
  u' = u \/ listed names u /\ u' = promoted u \/ legacyAdmin u = true /\ u' = set_u_role "admin" u.

Lemma legacy_promoted u : legacyAdmin (promoted u) = false.
Proof. by destruct u. Qed.

Lemma legacy_admin u : legacyAdmin (set_u_role "admin" u) = false.
Proof. destruct u. cbn. apply andb_false_r. Qed.

#[export] Instance raised_preorder names : PreOrder (raised names).
Proof.
  split; [by left|]. intros u v x [->|[[H ->]|[H ->]]]; [done| |]; intros [->|[[H' ->]|[H' ->]]].
  - right. by left.
  - right. left. split; [done | by destruct u].
  - by rewrite legacy_promoted in H'.
  - right. by right.
  - right. left. split; by destruct u.
  - by rewrite legacy_admin in H'.
Qed.

(** On the table, and on nothing else of the database. *)
Definition usersRaised (names : list string) (w w' : World) : Prop :=
  Forall2 (raised names) (rows (users (wDB w))) (rows (users (wDB w')))
  /\ wDB w' = set_users (users (wDB w')) (wDB w).

#[export] Instance usersRaised_preorder names : PreOrder (usersRaised names).
Proof.
  split.
  - intros w. split; [|by destruct w as [[]]]. apply Forall_Forall2_diag, Forall_true. by left.
  - intros w1 w2 w3 (H1 & D1) (H2 & D2). split; [by etransitivity|].
    rewrite D2, D1. by destruct (wDB w1).
Qed.

Lemma usersRaised_update names p f :
  (forall u, p u = true -> raised names u (f u)) ->
  respects (usersRaised names) (Exec_ (fun d => set_users (tupdate p f (users d)) d)).
Proof.
  intros H w. unfold Exec_. rewrite bind_run. unfold ExecOk. destruct (faulty w); cbn [fst snd]; rewrite ret_run.
  - split; [|by destruct w as [[]]]. apply Forall_Forall2_diag, Forall_true. by left.
  - split; [|by destruct w as [[]]]. cbn. apply Forall2_fmap_r, Forall_Forall2_diag, Forall_true.
    intros u. change (raised names u (if p u then f u else u)). destruct (p u) eqn:E; [by apply H | by left].
Qed.

Lemma promoteAdmins_raises w : usersRaised (adminNames (wEnv w)) w (promoteAdmins w).2.
Proof.
  unfold promoteAdmins, adminNames, getEnv. rewrite bind_run, gets_run. cbn [fst snd].
  set (raw := TrimSpace _). destruct (is_empty raw); [reflexivity|]. cbn [negb when].
  apply respects_forM_in; [typeclasses eauto|]. intros x Hx. unfold is_empty.
  destruct (TrimSpace x ==? "") eqn:Ee; cbn [negb when]; [apply respects_ret; typeclasses eauto|].
  apply usersRaised_update. intros u Hu. right. left. bools. split; [|done]. split; rewrite Hu; [|done].
  apply list_elem_of_fmap. by exists x.
Qed.

Lemma backfillRoles_raises names : respects (usersRaised names) backfillRoles.
Proof. apply usersRaised_update. intros u Hu. right. by right. Qed.

Lemma initRoles_raises w : usersRaised (adminNames (wEnv w)) w (initRoles w).2.
Proof.
  unfold initRoles. rewrite bind_run. etransitivity; [apply promoteAdmins_raises | apply backfillRoles_raises].
Qed.

(** Without faults. *)
Definition onUsers (f : User -> User) (d : Database) : Database :=
  set_users (tupdate (fun _ => true) f (users d)) d.

Lemma onUsers_compose f g d : onUsers g (onUsers f d) = onUsers (fun u => g (f u)) d.
Proof.
  destruct d as [[l n]]. unfold onUsers, tupdate. cbn. by rewrite <- list_fmap_compose.
Qed.

Lemma onUsers_ext f g d : (forall u, f u = g u) -> onUsers f d = onUsers g d.
Proof.
  intros H. unfold onUsers, tupdate. f_equal. f_equal. apply list_fmap_ext. intros i u _. apply H.
Qed.

Lemma update_onUsers p f d :
  set_users (tupdate p f (users d)) d = onUsers (fun u => if p u then f u else u) d.
Proof. done. Qed.

(** The loop over the names that are left. *)
Definition promoteIn (l : list string) (u : User) : User := if decide (listed l u) then promoted u else u.

Definition promoteStep (u : string) : M unit :=
  let u := TrimSpace u in
  when (negb (is_empty u)) (Exec_ (onUser u (fun x => set_u_is_admin 1 (set_u_role "super_admin" x)))).

Lemma promoteIn_cons x l u : x <> "" ->
  promoteIn l (if u_username u ==? x then promoted u else u) = promoteIn (x :: l) u.
Proof.
  intros Hx. unfold promoteIn, listed. case_bool_decide as E.
  - rewrite (decide_True _ _ (P := u_username u ∈ x :: l /\ _)) by (rewrite E; split; [left | done]).
    by case_decide; destruct u.
  - apply decide_ext. rewrite elem_of_cons. intuition congruence.
Qed.

Lemma promoteStep_run x w : sql_ok w ->
  exists w', promoteStep x w = (tt, w') /\ sql_ok w'
  /\ forall l, onUsers (promoteIn l) (wDB w') = onUsers (promoteIn (TrimSpace x :: l)) (wDB w).
Proof.
  intros Hok. unfold promoteStep, is_empty. destruct (TrimSpace x ==? "") eqn:Ee; bools; cbn [negb when].
  - exists w. rewrite ret_run. split_and!; [done..|]. intros l. apply onUsers_ext. intros u.
    unfold promoteIn, listed. rewrite Ee. apply decide_ext. rewrite elem_of_cons. intuition congruence.
  - rewrite ok_Exec_ by done. eexists. split; [done|]. split; [eauto with sqlok|]. intros l.
    cbn [wDB set_wDB]. unfold onUser. rewrite update_onUsers, onUsers_compose.
    apply onUsers_ext. intros u. by apply promoteIn_cons.
Qed.

Lemma promote_loop l : forall w, sql_ok w ->
  wDB (forM l promoteStep w).2 = onUsers (promoteIn (TrimSpace <$> l)) (wDB w) /\ sql_ok (forM l promoteStep w).2.
Proof.
  induction l as [|x l IH]; intros w Hok.
  - split; [|done]. cbn [forM]. rewrite ret_run. cbn [snd]. rewrite (onUsers_ext _ (fun u => u)).
    + destruct (wDB w) as [[]]. unfold onUsers, tupdate. cbn. by rewrite list_fmap_id.
    + intros u. unfold promoteIn. rewrite decide_False; [done|]. by intros [?%elem_of_nil _].
  - rewrite forM_cons. destruct (promoteStep_run x w Hok) as (w' & -> & Hok' & E). cbn [snd].
    destruct (IH w' Hok') as [-> H]. split; [|exact H]. rewrite fmap_cons. apply E.
Qed.

Lemma promoteAdmins_run w : sql_ok w ->
  wDB (promoteAdmins w).2 = onUsers (promoteIn (adminNames (wEnv w))) (wDB w) /\ sql_ok (promoteAdmins w).2.
Proof.
  intros Hok. unfold promoteAdmins, adminNames, getEnv. rewrite bind_run, gets_run. cbn [fst snd].
  set (raw := TrimSpace _). destruct (is_empty raw); cbn [negb when].
  - exact (promote_loop [] w Hok).
  - exact (promote_loop (Split raw ","%char) w Hok).
Qed.

Lemma initRoles_run w : sql_ok w ->
  wDB (initRoles w).2 = onUsers (bootRole (adminNames (wEnv w))) (wDB w) /\ sql_ok (initRoles w).2.
Proof.
  intros Hok. unfold initRoles. rewrite bind_run. destruct (promoteAdmins_run w Hok) as [E H].
  destruct (promoteAdmins w) as [[] w']. cbn [snd] in E, H |- *. unfold backfillRoles.
  rewrite ok_Exec_ by done. cbn [snd wDB set_wDB]. split; [|eauto with sqlok].
  rewrite update_onUsers, E, onUsers_compose. apply onUsers_ext. intros u. unfold promoteIn, bootRole.
  fold (legacyAdmin u). case_decide; [|done]. fold (legacyAdmin (promoted u)). by rewrite legacy_promoted.
Qed.

Lemma bootRole_again names u : bootRole names (bootRole names u) = bootRole names u.
Proof.
  unfold bootRole at 2 3. destruct (decide (listed names u)) as [H|H].
  - unfold bootRole. rewrite decide_True by (by destruct u). by destruct u.
  - destruct (legacyAdmin u) eqn:E; unfold bootRole.
    + rewrite decide_False by (by destruct u). by rewrite legacy_admin.
    + by rewrite decide_False, E by done.
Qed.

(** The roles a start gives.  Whatever statements fail, the only rows of
    the database that change are accounts listed in [PHAZE_ADMIN_USERS], which
    become super administrators, and administrators from before there were
    roles, which become [admin]; nobody else gains a role and nobody loses one.
    Without faults every account comes out as [bootRole] says, and a start on
    the database a start left changes no role. *)
Theorem boot_roles w :
  let names := adminNames (wEnv w) in
  let w' := (initRoles w).2 in
  Forall2 (raised names) (rows (users (wDB w))) (rows (users (wDB w')))
  /\ wDB w' = set_users (users (wDB w')) (wDB w)
  /\ (sql_ok w ->
      rows (users (wDB w')) = bootRole names <$> rows (users (wDB w))
      /\ wDB (initRoles w').2 = wDB w').
Proof.
  cbv zeta. destruct (initRoles_raises w) as [H1 H2]. split; [exact H1|]. split; [exact H2|].
  intros Hok. destruct (initRoles_run w Hok) as [E Hok']. split; [by rewrite E|].
  destruct (initRoles_run (initRoles w).2 Hok') as [E' _].
  assert (Ee : wEnv (initRoles w).2 = wEnv w).
  { assert (He : respects (same ctx) initRoles) by frame_deep. specialize (He w). unfold same, ctx in He. congruence. }
  rewrite E', Ee, E, onUsers_compose. apply onUsers_ext. intros u. apply bootRole_again.
Qed.

(** A start whose variable lists alice, among others, with bob an administrator
    from before there were roles. *)
Definition rolesW : World :=
  set_wEnv (set_getenv (fun k => if k ==? "PHAZE_ADMIN_USERS" then " alice , nobody," else "") env0)
    (mkW (onUser "bob" (set_u_is_admin 1) sampleDB) server0 T0).

Definition roleList (w : World) : list (string * string * Z) :=
  (fun u => (u_username u, u_role u, u_is_admin u)) <$> rows (users (wDB w)).

Lemma boot_roles_witness :
  ("alice", "super_admin", 1) ∈ roleList (initRoles rolesW).2
  /\ ("bob", "admin", 1) ∈ roleList (initRoles rolesW).2
  /\ wDB (initRoles (initRoles rolesW).2).2 = wDB (initRoles rolesW).2.
Proof.
  destruct (boot_roles rolesW) as (_ & _ & H). destruct (H (fun _ => eq_refl)) as [_ E].
  split_and!; [apply (bool_decide_unpack _); vm_compute; exact I.. | exact E].
Defined.

(** The comment on the promotion says that it keeps admin status in sync when
    the variable is rotated: a name that is taken out of it stays a super
    administrator. *)
Lemma rotation_never_demotes w u :
  u ∈ rows (users (wDB w)) -> u_role u = "super_admin" -> u_username u ∉ adminNames (wEnv w) ->
  u ∈ rows (users (wDB (initRoles w).2)).
Proof.
  intros Hu Hr Hn. destruct (initRoles_raises w) as [H _].
  apply list_elem_of_lookup in Hu as [i Hi]. destruct (Forall2_lookup_l _ _ _ _ _ H Hi) as (u' & Hi' & R).
  apply list_elem_of_lookup. exists i. rewrite Hi'. f_equal. destruct R as [->|[[[? _] _]|[L _]]]; [done..|].
  unfold legacyAdmin in L. rewrite Hr in L. by rewrite andb_false_r in L.
Qed.

(** ** The working directory *)

Lemma rooted_app s t : rooted s = true -> rooted (s +:+ t) = true.
Proof.
  destruct s as [|a s]; [done|]. unfold rooted, HasPrefix.
  change (String.prefix "/" (String a s)) with (if ascii_dec slash a then String.prefix "" s else false).
  change (String.prefix "/" (String a s +:+ t))
    with (if ascii_dec slash a then String.prefix "" (s +:+ t) else false).
  destruct (ascii_dec slash a); [|done]. by destruct (s +:+ t).
Qed.

Lemma rooted_Clean p : rooted p = true -> rooted (Clean p) = true.
Proof. intros H. unfold Clean. rewrite H. apply rooted_slash. Qed.

(** Joined below a full path. *)
Lemma JoinPath_rooted d e l : rooted d = true ->
  JoinPath (d :: e :: l) = Clean (Join (d :: e :: l) "/") /\ rooted (JoinPath (d :: e :: l)) = true.
Proof.
  intros H. assert (Hd : is_empty d = false) by (by destruct d).
  assert (E : JoinPath (d :: e :: l) = Clean (Join (d :: e :: l) "/")) by (cbn [JoinPath]; by rewrite Hd).
  split; [exact E|]. rewrite E. apply rooted_Clean.
  change (Join (d :: e :: l) "/") with (d +:+ "/" +:+ Join (e :: l) "/"). by apply rooted_app.
Qed.

Lemma absPath_rooted h p a : rooted (hCwd h) = true -> absPath h p = Some a -> rooted a = true.
Proof.
  intros Hc. unfold absPath, Abs. destruct (rooted p) eqn:Ep; [intros [= <-]; by apply rooted_Clean|].
  destruct (hGetwd h); [|done]. intros [= <-]. exact (proj2 (JoinPath_rooted (hCwd h) p [] Hc)).
Qed.

(** The same file, asked for before and after the change of directory. *)
Lemma landing_there h a : rooted a = true ->
  osStat (chdir a h) landing = osStat h (JoinPath [a; "templates"; "landing.html"]).
Proof.
  intros H. unfold osStat. destruct (JoinPath_rooted a "templates" ["landing.html"] H) as [E ->].
  change (rooted landing) with false. cbn [hCwd chdir hExists].
  rewrite (proj1 (JoinPath_rooted a landing [] H)), E, Clean_idem. done.
Qed.

(** A directory [main] could work in. *)
Definition usable (h : Host) (c : string) : Prop :=
  exists a, absPath h c = Some a /\ hChdir h a = true
  /\ osStat h (JoinPath [a; "templates"; "landing.html"]) = true.

Lemma tryDirs_spec l h : rooted (hCwd h) = true ->
  osStat (tryDirs l h) landing = true /\ (exists a, tryDirs l h = chdir a h)
  \/ tryDirs l h = h /\ forall c, c ∈ l -> ~ usable h c.
Proof.
  intros Hr. induction l as [|c l IH]; cbn [tryDirs].
  { right. split; [done|]. by intros c ?%elem_of_nil. }
  assert (Hskip : ~ usable h c -> osStat (tryDirs l h) landing = true /\ (exists a, tryDirs l h = chdir a h)
            \/ tryDirs l h = h /\ forall c', c' ∈ c :: l -> ~ usable h c').
  { intros Hc. destruct IH as [H|[E H]]; [by left|]. right. split; [done|].
    intros c' [->|Hin]%elem_of_cons; auto. }
  destruct (absPath h c) as [a|] eqn:Ea.
  - destruct (osStat h (JoinPath [a; _; _])) eqn:Es; cbn [negb].
    + destruct (hChdir h a) eqn:Eh.
      * left. split; [|eauto]. rewrite landing_there; [done | by eapply absPath_rooted].
      * apply Hskip. intros (a' & H1 & H2 & _). congruence.
    + apply Hskip. intros (a' & H1 & _ & H3). congruence.
  - apply Hskip. intros (a' & H1 & _). congruence.
Qed.

(** Where the process works.  Without [PHAZE_ASSET_ROOT] it ends up in a
    directory that holds [templates/landing.html] whenever it was started in
    one, or one of the three directories beside the binary is one it may change
    to; otherwise it stays where it was.  Nothing but the directory changes, and
    resolving it again leaves it. *)
Theorem boot_directory e h :
  TrimSpace (getenv e "PHAZE_ASSET_ROOT") = "" -> rooted (hCwd h) = true ->
  let h' := resolveWorkingDir e h in
  (osStat h' landing = true
   \/ h' = h /\ forall exe c, hExe h = Some exe -> c ∈ candidates exe -> ~ usable h c)
  /\ h' = chdir (hCwd h') h
  /\ resolveWorkingDir e h' = h'.
Proof.
  intros He Hr. cbv zeta.
  assert (Hstay : forall g, osStat g landing = true -> resolveWorkingDir e g = g).
  { intros g Hg. unfold resolveWorkingDir. rewrite He, Hg. done. }
  assert (Hself : h = chdir (hCwd h) h) by (by destruct h).
  destruct (osStat h landing) eqn:Es.
  { rewrite (Hstay h Es). split; [by left|]. split; [exact Hself | by apply Hstay]. }
  assert (E : resolveWorkingDir e h = match hExe h with Some exe => tryDirs (candidates exe) h | None => h end).
  { unfold resolveWorkingDir. rewrite He, Es. by destruct (hExe h). }
  destruct (hExe h) as [exe|].
  - destruct (tryDirs_spec (candidates exe) h Hr) as [[H [a Ha]]|[Ha H]]; rewrite E, Ha.
    + split; [left; by rewrite <- Ha|]. split; [done|]. apply Hstay. by rewrite <- Ha.
    + split; [right; split; [done|]; intros ? c [= <-]; apply H|]. split; [exact Hself | by rewrite E, Ha].
  - rewrite E. split; [by right|]. split; [exact Hself | by rewrite E].
Qed.

(** The binary in [/srv/bin], the templates in [/srv/nexus_server]. *)
Definition srvHost : Host :=
  mkHost "/root" true (Some "/srv/bin/phaze-nexus")
    (fun p => p ==? "/srv/nexus_server/templates/landing.html") (fun _ => true).

Lemma boot_directory_witness :
  osStat (resolveWorkingDir env0 srvHost) landing = true /\ hCwd (resolveWorkingDir env0 srvHost) = "/srv/nexus_server".
Proof.
  split; [|vm_compute; reflexivity].
  destruct (boot_directory env0 srvHost eq_refl eq_refl) as ([H|[_ H]] & _); [exact H|].
  exfalso. apply (H "/srv/bin/phaze-nexus" "/srv/nexus_server" eq_refl).
  - vm_compute. right. left.
  - exists "/srv/nexus_server". by split_and!.
Defined.

(** ** How [main] ends *)

(** A start that serves.  A store of uploads that is not fully configured
    ends the process before the database is touched, and a refused statement of
    the schema before anything is in memory; the process serves exactly when
    neither happens and the address can be bound, and then every table and index
    of [tables] is there, the rows keep the invariant, and it listens on
    [BIND_ADDR] and [PORT]. *)
Theorem main_outcome parse new f listen c w :
  older c -> db_wf (wDB w) ->
  match main parse new f listen c w with
  | (FatalStore _, c', w') => c' = c /\ w' = w /\ blobs parse new (wEnv w) = None
  | (FatalSchema, c', w') =>
      w' = w /\ grows c c' /\ exists k, (k < length tables)%nat /\ f k = true
  | (Serving a, c', w') =>
      blobs parse new (wEnv w) <> None /\ listen a = true /\ a = listenAddr (wEnv w)
      /\ (forall q, q ∈ tables -> done_ q c') /\ grows c c' /\ db_wf (wDB w')
  | (FatalListen a, c', w') => listen a = false /\ grows c c' /\ db_wf (wDB w')
  end.
Proof.
  intros Ho Hd. unfold main, blobs. destruct (blobStoreFromEnv parse new (wEnv w)) as [why|b]; [done|].
  pose proof (initSchema_tables f c Ho) as T. destruct (initSchema_safe f c Ho) as [G _].
  destruct (initSchema f c) as [[|] c']; cbn [negb fst snd] in *; [|by destruct T as (i & ? & ?); eauto].
  assert (Hs : db_wf (wDB (start w).2)).
  { assert (He : respects safe start) by (unfold start; frame_deep). apply He, Hd. }
  destruct (listen (listenAddr (wEnv w))) eqn:El; split_and!; try done.
Qed.

Definition firstStart : outcome * Catalog * World :=
  main (fun _ => None) (fun _ _ _ => true) noFault (fun a => a ==? "0.0.0.0:8080") earlyCatalog
    (mkW sampleDB server0 T0).

Lemma main_outcome_witness :
  firstStart.1.1 = Serving "0.0.0.0:8080" /\ grows earlyCatalog firstStart.1.2 /\ db_wf (wDB firstStart.2).
Proof.
  assert (E : firstStart.1.1 = Serving "0.0.0.0:8080") by (vm_compute; reflexivity).
  assert (O : older earlyCatalog) by (apply olderb_spec; vm_compute; reflexivity).
  pose proof (main_outcome (fun _ => None) (fun _ _ _ => true) noFault (fun a => a ==? "0.0.0.0:8080")
                earlyCatalog (mkW sampleDB server0 T0) O sampleDB_wf) as H.
  fold firstStart in H. split; [exact E|]. destruct firstStart as [[o c] w]. cbn [fst snd] in E |- *.
  rewrite E in H. destruct H as (_ & _ & _ & _ & H). exact H.
Defined.
