(* ===== verification/Desktop.v ===== *)
(** * The desktop shell ([app.go], [main.go], [tray_linux.go], [tray_notlinux.go])

    The window, the tray and the calls the web client may make, as the calls
    they make to the GUI libraries and the state of [App]; at the end, what the
    two [tray] files do with a request to close. *)

From Stdlib Require Import ZArith Lia.
From stdpp Require Import base strings list.
From S2P Require Import Prelude GoRt.

Open Scope string_scope.
Open Scope list_scope.
Open Scope Z_scope.

(** ** The libraries *)

(** A call to Wails, systray or beeep. *)
Inductive Call :=
| WindowHide | WindowShow | WindowUnminimise | WindowAlwaysOnTop (b : bool)
| WindowMinimise | WindowToggleMaximise | RuntimeQuit
| TrayRun | TraySetIcon | TraySetTitle (t : string) | TrayMenuItem (title tip : string) | TraySeparator
| TrayQuit
| DesktopNotify (title body icon : string).

#[export] Instance Call_eq_dec : EqDecision Call.
Proof. solve_decision. Defined.

Inductive GOOS := Linux | Darwin | Windows.

Definition isLinux (os : GOOS) : bool := match os with Linux => true | _ => false end.

(** [App]: the context is the window's; [unread] is an [atomic.Int32]. *)
Record App := mkApp { hasCtx : bool; unread : Z }.

Definition NewApp : App := mkApp false 0.

(** [int32(n)] *)
Definition int32 (n : Z) : Z := (n + 2 ^ 31) mod 2 ^ 32 - 2 ^ 31.

Section OS.
Context (os : GOOS).

(** ** The two builds of the tray *)

Definition startTray : list Call :=
  if isLinux os then []
  else
    [TrayRun; TraySetIcon] ++ (match os with Darwin => [TraySetTitle "Phaze"] | _ => [] end)
    ++ [TrayMenuItem "Open Phaze" "Show the Phaze window"; TraySeparator; TrayMenuItem "Quit" "Quit Phaze"].

Definition stopTray : list Call := if isLinux os then [] else [TrayQuit].

(** The calls, and the answer. *)
Definition hideOnClose : list Call * bool := if isLinux os then ([], false) else ([WindowHide], true).

(** Neither build shows the count. *)
Definition updateTrayUnread (count : Z) : list Call := [].

(** ** [App] *)

Definition startup (a : App) : list Call * App := (startTray, mkApp true (unread a)).
Definition shutdown : list Call := stopTray.
Definition beforeClose : list Call * bool := hideOnClose.

Definition showWindow : list Call :=
  [WindowShow; WindowUnminimise; WindowAlwaysOnTop true; WindowAlwaysOnTop false].

Definition appMinimise : list Call := [WindowMinimise].
Definition appToggleMaximise : list Call := [WindowToggleMaximise].
Definition WindowClose : list Call := if hideOnClose.2 then hideOnClose.1 else hideOnClose.1 ++ [RuntimeQuit].

Definition Notify (title body : string) : list Call := [DesktopNotify title body ""].

Definition SetUnread (count : Z) (a : App) : list Call * App :=
  (updateTrayUnread count, mkApp (hasCtx a) (int32 count)).

(** The loop over the tray's menu: one click. *)
Inductive click := ClickOpen | ClickQuit.

Definition trayClick (c : click) : list Call :=
  match c with ClickOpen => showWindow | ClickQuit => [TrayQuit; RuntimeQuit] end.
End OS.

(** [itoa]: digits written from the end of a buffer of twenty bytes; [None] is
    an index below it. *)
Fixpoint itoaLoop (pos : nat) (n : Z) (written : list Z) : option (list Z) :=
  if n <=? 0 then Some written
  else
    match pos with
    | O => None
    | S pos => itoaLoop pos (Z.quot n 10) ((48 + Z.rem n 10) :: written)
    end.

Definition itoa (n : Z) : option string :=
  if n =? 0 then Some "0" else of_bytes <$> itoaLoop 20 n [].

(** ** A running application *)

(** What the user and the system do, and what the web client may call. *)
Inductive input :=
| Click (c : click)
| SystemClose
| SecondInstance
| TitleBarMinimise | TitleBarMaximise | TitleBarClose
| ClientNotify (title body : string)
| ClientUnread (count : Z).

(** The calls an input leads to. *)
Definition respond (os : GOOS) (i : input) (a : App) : list Call * App :=
  match i with
  | Click c => (if isLinux os then [] else trayClick c, a)
  | SystemClose => ([], a)
  | SecondInstance => (showWindow, a)
  | TitleBarMinimise => (appMinimise, a)
  | TitleBarMaximise => (appToggleMaximise, a)
  | TitleBarClose => (WindowClose os, a)
  | ClientNotify t b => (Notify t b, a)
  | ClientUnread n => SetUnread n a
  end.

(** Wails asks [OnBeforeClose] when the window is closed and on [Quit]; [ends]
    is whether the application ends on the hook's answer. *)
Section Shell.
Context (os : GOOS) (ends : bool -> bool).

Definition asks (i : input) (calls : list Call) : bool :=
  match i with SystemClose => true | _ => bool_decide (RuntimeQuit ∈ calls) end.

(** A session from the start of the application: the calls, the state, and
    whether it is still running. *)
Fixpoint session (l : list input) (a : App) : list Call * App * bool :=
  match l with
  | [] => ([], a, true)
  | i :: l =>
      let '(calls, a) := respond os i a in
      if asks i calls then
        let '(hook, answer) := beforeClose os in
        if ends answer then (calls ++ hook ++ shutdown os, a, false)
        else let '(rest, a, up) := session l a in (calls ++ hook ++ rest, a, up)
      else let '(rest, a, up) := session l a in (calls ++ rest, a, up)
  end.
End Shell.

(** ** What it guarantees *)

Lemma itoaLoop_digits pos n acc :
  0 < n < 10 ^ Z.of_nat pos -> itoaLoop pos n acc = Some (digits_fuel pos n acc).
Proof.
  revert n acc. induction pos as [|pos IH]; intros n acc Hn; [cbn in Hn; lia|].
  cbn [itoaLoop digits_fuel]. rewrite (proj2 (Z.leb_gt n 0)) by lia.
  rewrite Z.quot_div_nonneg, Z.rem_mod_nonneg by lia. rewrite Nat2Z.inj_succ, Z.pow_succ_r in Hn by lia.
  destruct (n <? 10) eqn:E; bools.
  - rewrite Z.div_small by lia. by destruct pos.
  - apply IH. split; [apply Z.div_str_pos; lia | apply Z.div_lt_upper_bound; lia].
Qed.

(** [itoa] is the decimal text of every non-negative [int] and stays within
    its buffer of twenty bytes; a negative number comes out empty. *)
Theorem itoa_exact n :
  int64_min <= n <= int64_max -> itoa n = Some (if n <? 0 then "" else Itoa n).
Proof.
  unfold int64_min, int64_max, itoa, Itoa. intros Hn. destruct (n =? 0) eqn:E0; bools; [by subst|].
  destruct (n <? 0) eqn:En; bools.
  - cbn [itoaLoop]. by rewrite (proj2 (Z.leb_le n 0)) by lia.
  - rewrite itoaLoop_digits; [done|]. change (10 ^ Z.of_nat 20) with 100000000000000000000. lia.
Qed.

Lemma itoa_exact_witness : itoa 907 = Some "907" /\ itoa (-3) = Some "".
Proof. split; [rewrite (itoa_exact 907) | rewrite (itoa_exact (-3))]; by vm_compute. Defined.

(** Closing the window.  With the library ending the application exactly
    when [OnBeforeClose] does not prevent it: on Linux the first close or
    quit ends the application; elsewhere the window is only hidden, and no
    sequence of inputs ends it, not even [Quit] of the tray, whose own icon is
    gone by then. *)
Theorem close_behaviour os ends l a :
  (forall prevent, ends prevent = negb prevent) ->
  (session os ends l a).2 =
    (negb (isLinux os) || negb (existsb (fun i => match i with SystemClose | TitleBarClose => true | _ => false end) l)).
Proof.
  intros He. revert a. induction l as [|i l IH]; intros a; [by destruct os|].
  cbn [session existsb]. destruct (respond os i a) as [calls a'] eqn:E.
  assert (Ha : asks i calls = match i with
            | SystemClose => true | TitleBarClose => isLinux os
            | Click ClickQuit => negb (isLinux os) | _ => false end).
  { destruct i as [[]| | | | | | |]; destruct os; cbn in E; injection E as <- _; reflexivity. }
  rewrite Ha. specialize (IH a'). destruct (session os ends l a') as [[rest a2] up]. cbn [snd] in IH. subst up.
  destruct i as [[]| | | | | | |]; destruct os; cbn; rewrite ?He; cbn; done.
Qed.

Lemma close_behaviour_witness :
  (session Windows negb [Click ClickQuit; TitleBarClose; SystemClose] NewApp).2 = true
  /\ (session Linux negb [TitleBarMinimise; TitleBarClose] NewApp).2 = false.
Proof.
  split.
  - rewrite (close_behaviour Windows negb _ NewApp (fun _ => eq_refl)). reflexivity.
  - rewrite (close_behaviour Linux negb _ NewApp (fun _ => eq_refl)). reflexivity.
Defined.

(** The count kept is a 32-bit one: past 2^31 - 1 it wraps, and it is shown
    nowhere. *)
Lemma SetUnread_wraps a : (SetUnread (2 ^ 31) a) = ([], mkApp (hasCtx a) (- 2 ^ 31)).
Proof. reflexivity. Qed.
